(* ===== verification/_CoqProject ===== *)
-Q . S2P
Prelude.v
Js.v
Float64.v
Errors.v
Kit.v
Base58.v
Sha256.v
Abi.v
OnChain.v
OfflineCheck.v
MintState.v
Snapshot.v
Downstream.v
Jupiter.v
JupiterOnChain.v
Sysvar.v
Processor.v
Deployment.v
Protection.v
StateErrors.v
CanonicalKey.v
StateTypes.v
Normalize.v
QuoteIdentity.v
Compare.v
ChainObservation.v
Registry.v
Adapters.v
Capture.v
Events.v
Timeline.v
TimelineSpec.v
XStocksApi.v
Correlation.v
Decision.v
Consent.v
Execution.v
DemoResult.v
ExecutionPlan.v
BuildClient.v
Compose.v
Protect.v
ProtectSpec.v
DemoChain.v
WalletDemo.v
WalletSigning.v
WalletApp.v
DevnetPublic.v
DevnetSession.v
Attestation.v
Flow.v
ActivationProof.v
ReplayModel.v
LocalMint.v
LocalFunding.v
LocalOutcome.v
LocalView.v
DemoView.v
LocalHost.v
ActivationServer.v
ReplayExecution.v
LocalActivation.v
TraderFlow.v
LiveAdapter.v
