(* ===== verification/Prelude.v ===== *)
(** * EquityGuard: a verified model of the StateGuard packages

    EquityGuard protects trades in tokenized equities whose Token-2022 mints
    carry a ScaledUiAmount multiplier that a corporate action may change. A
    client reads the multiplier and the clock, encodes what the user saw as a
    guard instruction, and puts it in front of the trade; the on-chain program
    refuses the transaction when the mint or the phase of the change is no
    longer what was encoded. This library models the three TypeScript packages
    of the repository, the two applications that let a visitor sign against
    devnet, a local feasibility study with its coordinator and its page, and the
    Rust program they all talk to, from the bytes of its accounts to its error code.

    ** Layers

    - [packages/guard-client]: decoding of the mint and the clock, the ABI of
      the guard instruction, the client's replay of the program's policy, the
      two downstream adapters (one TransferChecked, one Jupiter trade), the
      reviewed deployments and the resolver of protected assets.
    - [packages/representation-state]: observations of the representations of
      one underlying (xStocks and Ondo tokens of one stock), their
      classification, normalization and comparison of quotes, the decision,
      the user's consent, execution and the single-use execution plan; and the
      reading of captured observations: events, timelines, the issuer's API and
      the correlation of the two for one corporate action.
    - [packages/jupiter]: the client of Jupiter's build API, the composer of
      one guarded transaction, and the integration surface
      [protectJupiterSwap] that calls everything above.
    - [apps/devnet-wallet-demo] and [apps/web/lib/devnet-public.ts]: two clients
      of devnet that arm a corporate action, have a wallet sign a guarded
      transfer before it, hold the signed bytes across it, submit them to be
      rejected, and have an updated transfer signed.
    - [apps/phantom-local-feasibility]: a local reproduction in which a
      coordinator simulates, dates and keeps one signed trade across the
      activation; its coordinator, its local mint, its runs against a local
      validator, the texts it shows and its page.
    - [programs/equity_guard]: the reader of the instruction, the check of
      the protected state, the reader of the Instructions sysvar, the checks of
      the instructions that follow and the handler that puts them in order.

    ** Files and the source they model

    Foundations:
    - [Prelude]: results ([Ok]/[Err] for return and [throw]), the bind notation
      [x ← m; k] of stdpp and [m;; k], bytes and little-endian words, and the
      inversion lemmas ([then_Ok], [bind_Ok], [throw_if_then_Ok],
      [mapM_result_Ok]) the proofs of every file are made of.
    - [Js]: JavaScript numbers, typed arrays and string functions.
    - [Errors]: errors.ts; client codes [C_], program error names [E_].
    - [Kit]: the classes of @solana/kit ([AddressCodec], [ProgramDerivation],
      [Digest]) with the documented laws the code relies on; [Base58]: an
      instance of the codec for the witnesses.
    - [Sha256]: sha256.ts against FIPS 180-4, and the instance of [Digest].

    guard-client and the program:
    - [Abi]: abi.ts. [OnChain]: instruction.rs, state.rs, guard.rs.
    - [OfflineCheck]: offline-check.ts against guard.rs.
    - [MintState]: mint-state.ts. [Snapshot]: snapshot.ts, instruction.ts.
    - [Downstream]: downstream.ts against downstream.rs.
    - [Jupiter], [JupiterOnChain]: jupiter.ts against jupiter.rs.
    - [Sysvar]: sysvar.rs. [Processor]: processor.rs, error.rs, and the parts of
      state.rs, downstream.rs and jupiter.rs that read accounts.
    - [Deployment]: deployment.ts, program-id.ts.
    - [Protection]: protection-adapter.ts.

    representation-state:
    - [StateErrors], [StateTypes]: the error classes, types.ts,
      economic-state.ts. [CanonicalKey], [QuoteIdentity]: quote-identity.ts.
    - [Normalize]: normalize.ts. [Compare]: compare.ts.
    - [ChainObservation]: chain-observation.ts. [Registry]: registry.ts.
      [Adapters]: xstocks-adapter.ts, ondo-adapter.ts.
    - [Decision]: decision.ts. [Consent]: consent.ts. [Execution]:
      execution.ts. [ExecutionPlan]: execution-plan.ts.
    - [Float64]: the texts and bits of binary64 numbers. [Capture]: capture.ts.
      [Events]: events.ts. [Timeline]: timeline.ts; [TimelineSpec]: the
      theorems about it. [XStocksApi]: xstocks-api.ts. [Correlation]:
      kox-correlation.ts. [DemoResult]: demo-result.ts.

    jupiter:
    - [BuildClient]: build-client.ts. [Compose]: compose.ts. [Protect]:
      protect.ts; [ProtectSpec]: the theorems about it.

    applications:
    - [DemoChain]: the endpoint, the wallet and the flows over them, shared by
      both. [WalletDemo]: scenarios.ts, cluster-gate.ts, transactions.ts,
      demo-asset.ts and the outcome checks of live-execution.ts.
      [WalletSigning]: the signing, holding and submitting of live-execution.ts.
      [WalletApp]: app.ts and wallet.ts, the page that runs these flows.
    - [DevnetPublic], [DevnetSession]: devnet-public.ts, its policy and codecs
      compared with guard-client's, and its live session.
    - [Attestation]: attestation.ts and deployment-attestation.ts of
      apps/phantom-local-feasibility, the local coordinator that dates a
      signature. [Flow]: the flows of that application as questions put to
      parties that may answer anything, with the record of what was asked.
      [ActivationProof]: activation-proof.ts, the run across the activation.
      [ReplayModel]: replay-model.ts, the captured route retargeted to a local
      trader.
    - [LocalMint]: local-mint.ts. [LocalFunding]: local-funding.ts.
      [LocalOutcome]: rpc-failure.ts and the judgement of a confirmed trade.
      [LocalHost]: local-host.ts, local-origin.ts, the loopback gate of
      feasibility.ts. [ActivationServer]: activation-server.ts, the process of
      the coordinator with requests that overlap. [ReplayExecution]:
      replay-execution.ts.
      [LocalActivation]: local-activation.ts, the run of [ActivationProof] with
      its real parties. [LocalView]: reproduction-view.ts, stage-status.ts.
      [DemoView]: demo-view.ts and app.ts, the page. [TraderFlow]:
      trader-flow.ts. [LiveAdapter]: live-adapter.ts.

    ** Conventions of the translation

    A definition has the name of the function it translates. A function that
    throws returns a [result]: [client_exn] in guard-client, [state_exn] in
    representation-state, [jupiter_exn] in packages/jupiter, [demo_exn] in the
    applications, each with a constructor for the errors it passes through. [bigint] is [Z],
    and a division whose divisor may be zero is a [result] ([bigint_div]);
    fixed-width integers of the program are [Z] with their wrap-around or range
    check written out; a [number] is a [jsnum], which keeps apart the values
    that are no integers. A [Uint8Array] is a list of bytes. Values the code
    receives as [unknown] are [jsval], JSON-like trees with insertion-ordered
    objects. Frozen records with identity (consent records, execution plans)
    are locations of a heap, the module-level WeakSets are sets of locations,
    and the operations thread the store and return it also when they throw.
    [await] is sequencing: one call runs to its end, and where another party
    may act between two reads the reads are separate questions to the RPC. A flow
    of an application is an [action]: it asks a numbered sequence of moments of
    the endpoint and the wallet, which may each answer anything, and records
    what the wallet was asked to sign, what was submitted and the phases it
    reported; diagnostics are left out. A property of a run names the moment an
    answer it rests on was given at, and where the order of two answers matters
    the order of their moments. The handlers of the demonstration page
    run over a page state with the session objects it shares by reference; at
    every wait the wallet and faucet handlers already running may resume and
    change it. Of the rendering only the results shown are kept.

    Parameters, with no definition made up: the RPC endpoint (in [Protect]
    indexed by the number of the call, so two calls may see two chain states),
    [fetch], [JSON.parse], base-64 decoding, [Date.parse] outside the documented
    ISO spelling, the clock, the message compiler and the address codec of
    @solana/kit, the codecs of legacy transactions and the instruction builders
    of the token and system libraries, program-address derivation, the Solana
    crates the program calls ([TokenLibrary], [InstructionsSysvar] with the laws
    [TokenLaws], [SysvarLaws]), the platform's URL parser, and SHA-256 where a
    commitment is stated: those theorems conclude the equality or exhibit two different
    inputs with one digest.

    ** What the theorems show

    - End to end, between the client and the whole handler of the program:
      [passed_guard_safe] (a guard the program lets pass sees the multiplier the
      user saw and protects what was committed to, whoever built the
      transaction), [guarded_transfer_verdict] and [guarded_trade_verdict] (on
      what the client builds the program answers exactly what the client's
      offline replay predicts), [decode_protected_state_agrees],
      [instruction_at_spec], [instruction_at_layout]; for a swap
      [protected_swap_sound], [verifyProtectedSwap_exact],
      [not_applicable_sound] and [composed_transaction_accepted].
    - The applications, whatever the endpoint and the wallet answer: what is
      held was signed unchanged and can pass only before the activation
      ([signPendingProtectedTransfer_sound], [authorizePending_sound],
      [verifyWalletSignedTransaction_exact]), it is sent at most once and only
      past the check of the reviewed program ([submitHeldAuthorization_once],
      [submitHeld_once]), the flow ends ([submitHeldAuthorization_ends]), an
      update is asked for only past the activation ([authorizeUpdated_sound])
      and a session holds the schedule it was armed with
      ([prepareLiveSession_sound]). Over every reachable state of the
      demonstration page the same holds of its sessions ([page_sessions_sound],
      [page_holds_once]). The public page's own copies of guard-client's
      code are compared with it: [web_encoder_agrees],
      [readSessionMint_extends], [verifyPublicAccounts_agrees],
      [buildPublicGuardedTransfer_agrees], [page_decisions_agree],
      [page_outcomes_agree]. [verifyEquityGuardDeployment_accepts_anything]
      shows a gate that checks nothing.
    - The feasibility study: what the coordinator attests was simulated and
      signed on the side of the activation its payload encodes, however its
      requests interleave ([attested_authorizations]; [attested_twice] shows
      what it does not exclude), its process submits one setup transaction and
      attests under that one activation ([one_activation]; an arming that fails
      is final, [failed_arming_is_final]), a run submits at most once and only what it
      held ([executeAcrossActivation_sound], and with its real parties
      [runLocalActivation_sound]), preparing a replay asks for nothing and
      prepares the captured route for the configured trader
      ([prepareReplay_sound], [retarget_exact]; [replay_order] on its steps),
      running it signs once and submits at most once
      ([signSubmitAndConfirmReplay_sound]); every privileged request goes to
      this machine ([coordinator_is_loopback]); the page and the trader's texts
      say no more than the run established ([page_shows_only_proven],
      [failed_leg_honest], [headlines_truthful], [live_session_proven]; their
      limits in [signed_but_nothing_signed] and [proof_survives_attempt]).
    - Captured observations: the events and the timeline are exactly those of
      a reference on the whole capture ([detector_events_exact],
      [buildTimeline_entries], [timeline_accounts_for_everything],
      [timeline_intervals_sound]), and the published order and bounds hold of
      the world ([publication_lead_sound], [apiIntervals_sound]).
    - Agreement of client and program: [encode_unpack],
      [checkGuardOffline_agrees], [checkGuardedJupiterTransaction_agrees],
      [classification_matches_guard].
    - Decisions are conservative: [decide_spec], [decideExecution_executable],
      [resolveOndoState_evidence], [resolveProtectionAdapter_spec],
      [compareQuotes_cost], [sharesEquivalent_exact].
    - Capabilities are used once: [consent_provenance],
      [consumeConsent_exact], [one_consent_one_plan], [plan_single_use],
      [issued_plans_invariant] over every reachable state, with the liveness
      results [created_plan_executes] and [safe_preferred_executes].
    - Data: decoders and parsers accept exactly what they document
      ([decodeProtectedState_spec], [parseBuildResponse_spec],
      [parseBuildResponse_roundtrip], [assertQuoteIdentityTypes_typed]), fail in
      a structured way ([mint_decoders_structured], [protect_throws_untyped]),
      keys are canonical ([canonicalKey_canonical]), the hash is SHA-256
      ([sha256_fips]).

    ** Fuel

    The TLV loop runs on the account length (each round moves at least four
    bytes on), Euclid's loop on twice the bit length of its argument (the
    remainder halves every two rounds), the digit loops on the size of the
    number; the theorems about them hold for every input, so the fuel never
    runs out. The confirmation poll of [WalletSigning] has no bound in the
    source; [submitHeldAuthorization_ends] bounds its fuel by the moment the
    chain passes the lifetime of the blockhash. The poll of [DevnetSession]
    has forty requests in the source, the waits of [WalletApp] ninety rounds,
    the wait of [ActivationProof] 240 and
    the polls of [ReplayExecution] sixty.

    ** Automation

    [fails_only] (hint database of the same name) proves which errors a
    computation can throw; [adds] and [finishes] walk a flow for the effects it
    records and for the loops it contains; [simplify_eq], [case_decide], [case_match] and [lia]
    do the rest. [ToJs], [NotNull] and [Keyed] relate records to the JavaScript
    values they are read from.

    ** Not modelled

    The React components and pages of apps/web, the DOM rendering of
    apps/devnet-wallet-demo (ui.ts) and its badges and activity log; of
    apps/phantom-local-feasibility the inspection of an installed wallet
    (runFeasibility), the DOM nodes of the page, the evidence, log and static
    files of the server and the technical text of an error, which is a
    parameter; the scripts under [scripts/] and the apps' build scripts
    (process, file and network I/O around the packages); the entry point macro
    and the log messages of the program; and the index files, which only
    re-export. *)

From stdpp Require Export base tactics list strings pretty gmap.
From Stdlib Require Export ZArith Lia.
From Stdlib Require Export Strings.Byte.
From Stdlib Require Strings.String.

(** stdpp keeps its lemma names opaque to [simpl] in places where the byte
    codecs below need computation; nothing else is changed globally. *)
#[global] Open Scope Z_scope.

(* ------------------------------------------------------------------ *)
(** ** Results: a returned value or a thrown error *)

Inductive result (E A : Type) : Type :=
| Ok (a : A)
| Err (e : E).
Arguments Ok {E A} a.
Arguments Err {E A} e.

#[export] Instance result_ret {E} : MRet (result E) := λ A a, Ok a.
#[export] Instance result_bind {E} : MBind (result E) := λ A B f m,
  match m with Ok a => f a | Err e => Err e end.
#[export] Instance result_fmap {E} : FMap (result E) := λ A B f m,
  match m with Ok a => Ok (f a) | Err e => Err e end.

(** [throw_if b e]: the statement [if (b) throw e;]. *)
Definition throw_if {E} (b : bool) (e : E) : result E unit :=
  if b then Err e else Ok tt.

(** Rethrowing an error under another type, as a client that does not catch it. *)
Definition map_err {E F A} (f : E → F) (m : result E A) : result F A :=
  match m with Ok a => Ok a | Err e => Err (f e) end.

Definition is_ok {E A} (m : result E A) : bool :=
  match m with Ok _ => true | Err _ => false end.

(** The value of a result known to be one (in the examples). *)
Definition ok_or {E A} (d : A) (m : result E A) : A :=
  match m with Ok a => a | Err _ => d end.

(** Reading an option that JavaScript would read as [undefined] and throw on. *)
Definition of_option {E A} (e : E) (o : option A) : result E A :=
  match o with Some a => Ok a | None => Err e end.

(** [Array.prototype.map] with a callback that may throw: left to right. *)
Fixpoint mapM_result {E A B} (f : A → result E B) (l : list A) : result E (list B) :=
  match l with
  | [] => Ok []
  | x :: l => y ← f x; ys ← mapM_result f l; Ok (y :: ys)
  end.

Section ResultLemmas.
Context {E A B : Type}.
Implicit Types m : result E A.

Lemma bind_Ok (f : A → result E B) m b :
  (m ≫= f) = Ok b ↔ ∃ a, m = Ok a ∧ f a = Ok b.
Proof. destruct m; (split; [by eauto|intros (?&?&?); simplify_eq/=; done]). Qed.

Lemma throw_if_Ok (c : bool) (e : E) u : throw_if c e = Ok u ↔ c = false.
Proof. destruct c, u; simpl; split; congruence. Qed.

(** A guard in front of a computation: the computation runs only past it. *)
Lemma throw_if_then_Ok (c : bool) (e : E) m a :
  (throw_if c e;; m) = Ok a ↔ c = false ∧ m = Ok a.
Proof. destruct c; simpl; intuition congruence. Qed.

Lemma throw_if_then_Err (c : bool) (e e' : E) m :
  (throw_if c e;; m) = Err e' ↔ (c = true ∧ e = e') ∨ (c = false ∧ m = Err e').
Proof. destruct c; simpl; intuition congruence. Qed.

Lemma map_err_Ok {F} (f : E → F) m a : map_err f m = Ok a ↔ m = Ok a.
Proof. destruct m; simpl; split; congruence. Qed.

Lemma of_option_Ok (e : E) (o : option A) a : of_option e o = Ok a ↔ o = Some a.
Proof. destruct o; simpl; split; congruence. Qed.

Lemma mapM_result_Ok (f : A → result E B) l k :
  mapM_result f l = Ok k ↔ Forall2 (λ x y, f x = Ok y) l k.
Proof.
  revert k; induction l as [|x l IH]; intros k; simpl.
  - split; [by intros [= <-]|by inversion 1].
  - destruct (f x) as [y|e] eqn:Hf; simpl.
    + destruct (mapM_result f l) as [ys|e]; simpl; split.
      * intros [= <-]. constructor; [done|]. by apply IH.
      * inversion 1 as [|???? ? Hl]; subst. apply IH in Hl. congruence.
      * done.
      * inversion 1 as [|???? ? Hl]; subst. apply IH in Hl. congruence.
    + split; [done|]. inversion 1; congruence.
Qed.
End ResultLemmas.

(** Sequencing after a check that returns nothing. *)
Lemma then_Ok {E A} (m : result E unit) (k : result E A) a : (m;; k) = Ok a ↔ m = Ok tt ∧ k = Ok a.
Proof. destruct m as [[]|]; cbn; [tauto|]. split; [done|by intros [? _]]. Qed.

Lemma existsb_false {A} (f : A → bool) l : existsb f l = false ↔ ∀ x, x ∈ l → f x = false.
Proof.
  rewrite <- not_true_iff_false, List.existsb_exists. split.
  - intros H x Hx. apply not_true_iff_false. intros Hf. apply H. exists x. by rewrite <- list_elem_of_In.
  - intros H (x & Hx%list_elem_of_In & Hf). by rewrite (H x Hx) in Hf.
Qed.

(* ------------------------------------------------------------------ *)
(** ** Bytes: [Uint8Array] as a list of bytes *)

Abbreviation bytes := (list byte).

#[export] Instance byte_eq_decision : EqDecision byte := byte_eq_dec.

Definition b2z (b : byte) : Z := Z.of_N (Byte.to_N b).

(** Storing a number in a [Uint8Array] slot: [ToUint8], the value modulo 256. *)
Definition z2b (z : Z) : byte :=
  match Byte.of_N (Z.to_N (z mod 256)) with Some b => b | None => x00 end.

Section ByteLemmas.
Lemma b2z_range b : 0 ≤ b2z b < 256.
Proof. unfold b2z. pose proof (Byte.to_N_bounded b). lia. Qed.

Lemma b2z_z2b z : b2z (z2b z) = z mod 256.
Proof.
  unfold b2z, z2b. pose proof (Z.mod_pos_bound z 256 ltac:(lia)) as Hz.
  destruct (Byte.of_N _) as [b|] eqn:Hb.
  - apply Byte.to_of_N in Hb. rewrite Hb. lia.
  - apply Byte.of_N_None_iff in Hb. lia.
Qed.

Lemma z2b_b2z b : z2b (b2z b) = b.
Proof.
  unfold z2b, b2z. rewrite Z.mod_small, N2Z.id by apply b2z_range.
  by rewrite Byte.of_to_N.
Qed.

Lemma b2z_inj a b : b2z a = b2z b → a = b.
Proof. intros H. by rewrite <- (z2b_b2z a), <- (z2b_b2z b), H. Qed.

Lemma z2b_small_inj x y : 0 ≤ x < 256 → 0 ≤ y < 256 → z2b x = z2b y → x = y.
Proof. intros ?? H%(f_equal b2z). rewrite !b2z_z2b, !Z.mod_small in H; done. Qed.

Lemma b2z_z2b_small z : 0 ≤ z < 256 → b2z (z2b z) = z.
Proof. intros ?. by rewrite b2z_z2b, Z.mod_small. Qed.
End ByteLemmas.

(** Little-endian integers of [n] bytes, as [DataView] reads and writes them:
    writing keeps the value modulo [2^(8n)]. *)
Fixpoint le_bytes (n : nat) (z : Z) : bytes :=
  match n with O => [] | S n => z2b z :: le_bytes n (z / 256) end.

Fixpoint le_Z (l : bytes) : Z :=
  match l with [] => 0 | b :: l => b2z b + 256 * le_Z l end.

(** Big-endian integers. *)
Definition be_bytes (n : nat) (z : Z) : bytes := rev (le_bytes n z).
Definition be_Z (b : bytes) : Z := le_Z (rev b).

(** The two's complement reading of an [n]-byte unsigned value. *)
Definition to_signed (n : nat) (u : Z) : Z :=
  if u <? 2 ^ (8 * Z.of_nat n - 1) then u else u - 2 ^ (8 * Z.of_nat n).

(** [subarray(i, j)] (and [slice]) for offsets in range: out of range it clamps. *)
Definition subarray (l : bytes) (i j : nat) : bytes := take (j - i) (drop i l).

(** [DataView] getters at byte offset [i]: [None] is the [RangeError] thrown
    when the read would pass the end of the view. *)
Definition get_uint (n : nat) (l : bytes) (i : nat) : option Z :=
  if Nat.leb (i + n) (length l) then Some (le_Z (take n (drop i l))) else None.

Definition get_int (n : nat) (l : bytes) (i : nat) : option Z :=
  to_signed n <$> get_uint n l i.

(** Element access: [l[i]], [None] for [undefined]. *)
Definition byte_at (l : bytes) (i : nat) : option Z := b2z <$> l !! i.

(** [out.set(src, i)] / a [DataView] setter on a buffer long enough to hold it. *)
Definition set_bytes (out : bytes) (i : nat) (src : bytes) : bytes :=
  take i out ++ src ++ drop (i + length src) out.

Definition zeros (n : nat) : bytes := replicate n x00.

Section CodecLemmas.
Implicit Types l k : bytes.

Lemma length_le_bytes n z : length (le_bytes n z) = n.
Proof. revert z; induction n; intros; simpl; auto. Qed.

Lemma pow_8_S n : 2 ^ (8 * Z.of_nat (S n)) = 256 * 2 ^ (8 * Z.of_nat n).
Proof.
  replace (8 * Z.of_nat (S n)) with (8 + 8 * Z.of_nat n) by lia.
  rewrite Z.pow_add_r by lia. reflexivity.
Qed.

Lemma le_Z_range l : 0 ≤ le_Z l < 2 ^ (8 * Z.of_nat (length l)).
Proof.
  induction l as [|b l IH]; [done|].
  cbn [le_Z length]. rewrite pow_8_S. pose proof (b2z_range b). lia.
Qed.

Lemma le_Z_le_bytes n z : le_Z (le_bytes n z) = z mod 2 ^ (8 * Z.of_nat n).
Proof.
  revert z; induction n as [|n IH]; intros z; [by rewrite Z.mod_1_r|].
  cbn [le_bytes le_Z]. rewrite pow_8_S, IH, b2z_z2b.
  rewrite Z.rem_mul_r; [done|lia|]. apply Z.pow_pos_nonneg; lia.
Qed.

Lemma le_bytes_le_Z l : le_bytes (length l) (le_Z l) = l.
Proof.
  induction l as [|b l IH]; [done|]. cbn [length le_Z le_bytes].
  pose proof (b2z_range b). f_equal.
  - apply b2z_inj. rewrite b2z_z2b, Z.mul_comm, Z.mod_add, Z.mod_small; lia.
  - rewrite Z.mul_comm, Z.div_add, Z.div_small by lia. exact IH.
Qed.

Lemma le_Z_inj l k : length l = length k → le_Z l = le_Z k → l = k.
Proof. intros Hlen Heq. by rewrite <- (le_bytes_le_Z l), Heq, Hlen, le_bytes_le_Z. Qed.

Lemma le_bytes_inj n x y :
  0 ≤ x < 2 ^ (8 * Z.of_nat n) → 0 ≤ y < 2 ^ (8 * Z.of_nat n) →
  le_bytes n x = le_bytes n y → x = y.
Proof. intros ?? H%(f_equal le_Z). rewrite !le_Z_le_bytes, !Z.mod_small in H; done. Qed.

(** The two's complement round trip: a signed value in range survives
    [setBigInt64] followed by [getBigInt64]. *)
Lemma to_signed_mod n z :
  (0 < n)%nat →
  - 2 ^ (8 * Z.of_nat n - 1) ≤ z < 2 ^ (8 * Z.of_nat n - 1) →
  to_signed n (z mod 2 ^ (8 * Z.of_nat n)) = z.
Proof.
  intros Hn Hz. unfold to_signed.
  assert (2 ^ (8 * Z.of_nat n) = 2 * 2 ^ (8 * Z.of_nat n - 1)) as Hp.
  { rewrite <- Z.pow_succ_r by lia. f_equal; lia. }
  set (h := 2 ^ (8 * Z.of_nat n - 1)) in *. rewrite Hp.
  destruct (decide (0 ≤ z)).
  - rewrite Z.mod_small by lia. destruct (Z.ltb_spec z h); lia.
  - replace (z mod (2 * h)) with (z + 2 * h).
    + destruct (Z.ltb_spec (z + 2 * h) h); lia.
    + apply Z.mod_unique with (-1); lia.
Qed.

Lemma mod_to_signed n u :
  (0 < n)%nat → 0 ≤ u < 2 ^ (8 * Z.of_nat n) →
  to_signed n u mod 2 ^ (8 * Z.of_nat n) = u.
Proof.
  intros Hn Hu. unfold to_signed. destruct (Z.ltb_spec u (2 ^ (8 * Z.of_nat n - 1))).
  - by apply Z.mod_small.
  - symmetry. apply Z.mod_unique with (-1); lia.
Qed.

Lemma to_signed_range n u :
  (0 < n)%nat → 0 ≤ u < 2 ^ (8 * Z.of_nat n) →
  - 2 ^ (8 * Z.of_nat n - 1) ≤ to_signed n u < 2 ^ (8 * Z.of_nat n - 1).
Proof.
  intros Hn Hu. unfold to_signed.
  assert (2 ^ (8 * Z.of_nat n) = 2 * 2 ^ (8 * Z.of_nat n - 1)) as Hp.
  { rewrite <- Z.pow_succ_r by lia. f_equal; lia. }
  destruct (Z.ltb_spec u (2 ^ (8 * Z.of_nat n - 1))); lia.
Qed.

Lemma length_subarray l i j : (i ≤ j ≤ length l)%nat → length (subarray l i j) = (j - i)%nat.
Proof. intros ?. unfold subarray. rewrite length_take, length_drop. lia. Qed.

Lemma subarray_app_skip l k i j :
  (length l ≤ i)%nat → subarray (l ++ k) i j = subarray k (i - length l) (j - length l).
Proof.
  intros ?. unfold subarray. rewrite drop_app_ge by lia. f_equal. lia.
Qed.

Lemma subarray_app_here l k n : length l = n → subarray (l ++ k) 0 n = l.
Proof.
  intros <-. unfold subarray. rewrite drop_0, Nat.sub_0_r. by rewrite take_app_length.
Qed.

Lemma length_set_bytes l i k :
  (i + length k ≤ length l)%nat → length (set_bytes l i k) = length l.
Proof. intros ?. unfold set_bytes. rewrite !length_app, length_take, length_drop. lia. Qed.

Lemma set_bytes_app l m k s i :
  length l = i → length m = length s → set_bytes (l ++ m ++ k) i s = l ++ s ++ k.
Proof.
  intros <- Hm. unfold set_bytes. rewrite take_app_length. f_equal. f_equal.
  rewrite drop_app_ge by lia. rewrite drop_app_ge by lia.
  replace (_ - _ - _)%nat with 0%nat by lia. done.
Qed.

(** Writing the next field of a buffer whose tail is still zero. *)
Lemma set_bytes_zeros l (s : bytes) i (k : nat) :
  length l = i → (length s ≤ k)%nat →
  set_bytes (l ++ zeros k) i s = (l ++ s) ++ zeros (k - length s).
Proof.
  intros <- Hk. unfold zeros.
  replace k with (length s + (k - length s))%nat at 1 by lia.
  rewrite replicate_add, set_bytes_app, app_assoc; [done|done|by rewrite length_replicate].
Qed.

Lemma get_uint_Some n l i z :
  get_uint n l i = Some z ↔
  (i + n ≤ length l)%nat ∧ z = le_Z (take n (drop i l)).
Proof.
  unfold get_uint. destruct (Nat.leb_spec (i + n) (length l)); split.
  1-2: intuition congruence. 1: done. intros [? _]; lia.
Qed.

Lemma get_uint_range n l i z : get_uint n l i = Some z → 0 ≤ z < 2 ^ (8 * Z.of_nat n).
Proof.
  intros [? ->]%get_uint_Some. pose proof (le_Z_range (take n (drop i l))) as Hr.
  rewrite length_take, length_drop in Hr. replace (n `min` _)%nat with n in Hr by lia. done.
Qed.

Lemma get_uint_is_Some n l i : (i + n ≤ length l)%nat → is_Some (get_uint n l i).
Proof. intros ?. eexists. by apply get_uint_Some. Qed.

Lemma get_uint_app_skip n l k i :
  (length l ≤ i)%nat → get_uint n (l ++ k) i = get_uint n k (i - length l).
Proof.
  intros ?. unfold get_uint. rewrite length_app, drop_app_ge by lia.
  destruct (Nat.leb_spec (i + n) (length l + length k)),
    (Nat.leb_spec (i - length l + n) (length k)); try done; lia.
Qed.

Lemma get_uint_le_bytes n z k :
  get_uint n (le_bytes n z ++ k) 0 = Some (z mod 2 ^ (8 * Z.of_nat n)).
Proof.
  apply get_uint_Some. rewrite length_app, length_le_bytes, drop_0. split; [lia|].
  by rewrite take_app_length', le_Z_le_bytes by (by rewrite length_le_bytes).
Qed.

Lemma byte_at_Some l i z : byte_at l i = Some z ↔ ∃ b, l !! i = Some b ∧ z = b2z b.
Proof.
  unfold byte_at. destruct (l !! i) as [b|]; simpl; split.
  - intros [= <-]. eauto.
  - by intros (? & [= <-] & ->).
  - done.
  - by intros (? & ? & _).
Qed.

Lemma byte_at_lt l i z : byte_at l i = Some z → (i < length l)%nat ∧ 0 ≤ z < 256.
Proof.
  intros (b & ?%lookup_lt_Some & ->)%byte_at_Some. auto using b2z_range.
Qed.
End CodecLemmas.
