(* ===== verification/Js.v ===== *)
(** * The JavaScript values and library functions the packages use

    Strings are the UTF-8 bytes of a well-formed JavaScript string, one
    [ascii] per byte, so [TextEncoder.encode] is the list of those bytes;
    lengths and slices are taken of ASCII strings only. Numbers are split into
    integer-valued numbers, negative zero and the rest (fractions, NaN,
    infinities), which is all that [Number.isInteger], [===] on integers and
    the typed-array stores distinguish. *)

From S2P Require Import Prelude.

(* ------------------------------------------------------------------ *)
(** ** Strings *)

(** [new TextEncoder().encode(s)]. *)
Definition encode_utf8 (s : string) : bytes := String.list_byte_of_string s.

#[export] Instance encode_utf8_inj : Inj (=) (=) encode_utf8.
Proof.
  intros s t H. rewrite <- (String.string_of_list_byte_of_string s), <- (String.string_of_list_byte_of_string t).
  unfold encode_utf8 in H. by rewrite H.
Qed.

Lemma length_encode_utf8 s : length (encode_utf8 s) = String.length s.
Proof.
  unfold encode_utf8, String.list_byte_of_string. rewrite length_map.
  induction s; simpl; auto.
Qed.

Lemma string_app_cons c s t : String c s +:+ t = String c (s +:+ t).
Proof. done. Qed.

Lemma string_app_assoc (s t u : string) : (s +:+ t) +:+ u = s +:+ (t +:+ u).
Proof. induction s as [|c s IH]; [done|]. by rewrite !string_app_cons, IH. Qed.

Lemma string_app_nil (s : string) : s +:+ "" = s.
Proof. induction s as [|c s IH]; [done|]. by rewrite !string_app_cons, IH. Qed.

Lemma string_app_inj (s t u : string) : s +:+ t = s +:+ u → t = u.
Proof. induction s as [|c s IH]; [done|]. rewrite !string_app_cons. intros [= Heq]. by apply IH. Qed.

(** [parts.join(sep)]. *)
Fixpoint join (sep : string) (l : list string) : string :=
  match l with
  | [] => ""
  | [x] => x
  | x :: l => x +:+ sep +:+ join sep l
  end.

(** Strings without a separator character can be joined by it unambiguously. *)
Fixpoint string_forallb (f : Ascii.ascii → bool) (s : string) : bool :=
  match s with "" => true | String c s => f c && string_forallb f s end.

Definition plain (sep : Ascii.ascii) (s : string) : bool := string_forallb (λ c, negb (Ascii.eqb c sep)) s.

Lemma plain_split sep s s' t t' : plain sep s = true → plain sep s' = true →
  s +:+ String sep t = s' +:+ String sep t' → s = s' ∧ t = t'.
Proof.
  unfold plain. revert s'. induction s as [|c s IH]; intros [|c' s']; cbn [string_forallb]; rewrite ?string_app_cons;
    rewrite ?andb_true_iff, ?negb_true_iff, ?Ascii.eqb_neq.
  - by intros _ _ [= ->].
  - intros _ [Hc _] [= -> _]. done.
  - intros [Hc _] _ [= -> _]. done.
  - intros [_ Hs] [_ Hs'] [= -> Heq]. destruct (IH s' Hs Hs' Heq) as [-> ->]. done.
Qed.

Lemma join_inj sep l k : length l = length k →
  forallb (plain sep) l = true → forallb (plain sep) k = true →
  join (String sep "") l = join (String sep "") k → l = k.
Proof.
  revert k. induction l as [|x l IH]; intros [|y k]; try done.
  cbn [length forallb]. rewrite !andb_true_iff. intros [= Hlen] [Hx Hl] [Hy Hk].
  destruct l as [|x' l], k as [|y' k]; try done; [by intros [= ->]|].
  change (join _ (x :: x' :: l)) with (x +:+ String sep (join (String sep "") (x' :: l))).
  change (join _ (y :: y' :: k)) with (y +:+ String sep (join (String sep "") (y' :: k))).
  intros [-> Hj]%plain_split; [|done|done]. f_equal. by apply IH.
Qed.

(** [s.startsWith(p)]. *)
Definition startsWith (p s : string) : bool := String.prefix p s.

(** [value ?? fallback]. *)
Notation "o ?? d" := (default d o) (at level 55, right associativity, only parsing).

(* ------------------------------------------------------------------ *)
(** ** Hexadecimal: [Buffer.from(bytes).toString('hex')] and back *)

Definition hex_digit (n : Z) : Ascii.ascii :=
  default (Ascii.ascii_of_nat 48) (String.get (Z.to_nat n) "0123456789abcdef").

Definition unhex_digit (c : Ascii.ascii) : option Z :=
  let n := Z.of_N (Ascii.N_of_ascii c) in
  if (48 <=? n) && (n <=? 57) then Some (n - 48)
  else if (97 <=? n) && (n <=? 102) then Some (n - 87)
  else if (65 <=? n) && (n <=? 70) then Some (n - 55)
  else None.

Definition is_lower_hex (c : Ascii.ascii) : bool :=
  let n := Z.of_N (Ascii.N_of_ascii c) in
  ((48 <=? n) && (n <=? 57)) || ((97 <=? n) && (n <=? 102)).

Fixpoint toHex (l : bytes) : string :=
  match l with
  | [] => ""
  | b :: l => String (hex_digit (b2z b / 16)) (String (hex_digit (b2z b mod 16)) (toHex l))
  end.

(** [Buffer.from(hex, 'hex')]: whole digit pairs, up to the first pair that is not one. *)
Fixpoint fromHex (s : string) : bytes :=
  match s with
  | String c (String d s) =>
      match unhex_digit c, unhex_digit d with
      | Some x, Some y => z2b (16 * x + y) :: fromHex s
      | _, _ => []
      end
  | _ => []
  end.

(** [/^[0-9a-f]{n}$/.test(s)]. *)
Definition isLowerHex (n : nat) (s : string) : bool :=
  Nat.eqb (String.length s) n && string_forallb is_lower_hex s.

Lemma hex_byte_roundtrip b :
  unhex_digit (hex_digit (b2z b / 16)) = Some (b2z b / 16) ∧
  unhex_digit (hex_digit (b2z b mod 16)) = Some (b2z b mod 16) ∧
  is_lower_hex (hex_digit (b2z b / 16)) = true ∧
  is_lower_hex (hex_digit (b2z b mod 16)) = true.
Proof. destruct b; vm_compute; auto. Qed.

Lemma fromHex_toHex l : fromHex (toHex l) = l.
Proof.
  induction l as [|b l IH]; [done|]. cbn [toHex fromHex].
  destruct (hex_byte_roundtrip b) as (-> & -> & _). rewrite IH. f_equal.
  rewrite <- Z.div_mod by lia. apply z2b_b2z.
Qed.

#[export] Instance toHex_inj : Inj (=) (=) toHex.
Proof. intros l k H%(f_equal fromHex). by rewrite !fromHex_toHex in H. Qed.

Lemma toHex_isLowerHex l : isLowerHex (2 * length l) (toHex l) = true.
Proof.
  unfold isLowerHex. apply andb_true_intro. split.
  - apply Nat.eqb_eq. induction l as [|b l IH]; [done|]. cbn [toHex String.length]. rewrite IH. cbn. lia.
  - induction l as [|b l IH]; [done|]. cbn [toHex string_forallb].
    by destruct (hex_byte_roundtrip b) as (_ & _ & -> & ->).
Qed.

Lemma hex_pair_roundtrip c d :
  is_lower_hex c = true → is_lower_hex d = true →
  ∃ b, fromHex (String c (String d "")) = [b] ∧
       hex_digit (b2z b / 16) = c ∧ hex_digit (b2z b mod 16) = d.
Proof.
  intros Hc Hd.
  assert (∀ c, is_lower_hex c = true → ∃ x, unhex_digit c = Some x ∧ 0 ≤ x < 16 ∧ hex_digit x = c) as H.
  { clear. intros [[] [] [] [] [] [] [] []]; vm_compute; try discriminate; intros _;
      (eexists; split; [reflexivity|split; [split; [discriminate|reflexivity]|reflexivity]]). }
  destruct (H _ Hc) as (x & Hx & ? & Hcx), (H _ Hd) as (y & Hy & ? & Hdy).
  cbn [fromHex]. rewrite Hx, Hy. eexists; split; [done|].
  rewrite b2z_z2b_small by lia.
  rewrite Z.mul_comm, Z.div_add_l, Z.div_small, Z.add_0_r by lia. split; [done|].
  by rewrite Z.add_comm, Z.mod_add, Z.mod_small by lia.
Qed.

Lemma toHex_fromHex n s : isLowerHex (2 * n) s = true → toHex (fromHex s) = s.
Proof.
  unfold isLowerHex. rewrite andb_true_iff, Nat.eqb_eq.
  revert s. induction n as [|n IH]; intros s [Hlen Hhex].
  - by destruct s.
  - destruct s as [|c [|d s]]; simpl in Hlen; [lia|lia|].
    cbn [string_forallb] in Hhex. rewrite !andb_true_iff in Hhex. destruct Hhex as (Hc & Hd & Hs).
    destruct (hex_pair_roundtrip c d Hc Hd) as (b & Hb & Hbc & Hbd).
    assert (fromHex (String c (String d s)) = b :: fromHex s) as ->.
    { cbn [fromHex] in Hb |- *. destruct (unhex_digit c), (unhex_digit d); by simplify_eq. }
    cbn [toHex]. rewrite Hbc, Hbd. do 2 f_equal. apply IH. split; [lia|done].
Qed.

Lemma length_fromHex n s : isLowerHex (2 * n) s = true → length (fromHex s) = n.
Proof.
  intros H. pose proof (toHex_fromHex _ _ H) as Ht. pose proof (toHex_isLowerHex (fromHex s)) as Hl.
  rewrite Ht in Hl. unfold isLowerHex in *. rewrite andb_true_iff, Nat.eqb_eq in H, Hl. lia.
Qed.

(* ------------------------------------------------------------------ *)
(** ** Numbers *)

Inductive jsnum : Type :=
| NumInt (z : Z)      (** an integer-valued number other than -0 *)
| NumNegZero          (** -0 *)
| NumOther (text : string).  (** a fraction, NaN or an infinity, with its [String(x)] *)

#[export] Instance jsnum_eq_dec : EqDecision jsnum.
Proof. solve_decision. Defined.

(** [Number.isInteger]. *)
Definition isInteger (n : jsnum) : bool :=
  match n with NumOther _ => false | _ => true end.

(** The mathematical value of an integer-valued number ([BigInt(n)], [setUint32]). *)
Definition num_value (n : jsnum) : Z :=
  match n with NumInt z => z | _ => 0 end.

(** [n === z] for an integer constant [z]: -0 equals 0, NaN and fractions equal none. *)
Definition num_is (n : jsnum) (z : Z) : bool :=
  isInteger n && (num_value n =? z).

(** An integer number in [lo, hi]. *)
Definition num_in_range (lo hi : Z) (n : jsnum) : bool :=
  isInteger n && (lo <=? num_value n) && (num_value n <=? hi).

Definition MAX_SAFE_INTEGER : Z := 2 ^ 53 - 1.

(** [Number.isSafeInteger]. *)
Definition isSafeInteger (n : jsnum) : bool :=
  num_in_range (- MAX_SAFE_INTEGER) MAX_SAFE_INTEGER n.

Lemma num_in_range_spec lo hi n :
  num_in_range lo hi n = true ↔ isInteger n = true ∧ lo ≤ num_value n ≤ hi.
Proof. unfold num_in_range. rewrite !andb_true_iff, !Z.leb_le. tauto. Qed.

(** [String(x)] of an integer. *)
Definition show_Z (z : Z) : string := pretty z.

#[export] Instance show_Z_inj : Inj (=) (=) show_Z.
Proof. unfold show_Z. apply _. Qed.

Definition show_bool (b : bool) : string := if b then "true" else "false".

Definition show_num (n : jsnum) : string :=
  match n with NumInt z => show_Z z | NumNegZero => "0" | NumOther text => text end.

(** The decimal digits of an integer and its sign. *)
Definition is_numeral (c : Ascii.ascii) : bool :=
  let n := Ascii.nat_of_ascii c in Nat.eqb n 45 || (Nat.leb 48 n && Nat.leb n 57).

Lemma string_forallb_app f (s t : string) : string_forallb f (s +:+ t) = string_forallb f s && string_forallb f t.
Proof. induction s as [|c s IH]; [done|]. rewrite string_app_cons. cbn [string_forallb]. by rewrite IH, andb_assoc. Qed.

Lemma pretty_N_numeral x s : string_forallb is_numeral s = true → string_forallb is_numeral (pretty_N_go x s) = true.
Proof.
  revert s. induction (N.lt_wf_0 x) as [x _ IH]. intros s Hs.
  destruct (decide (0 < x)%N) as [Hx|Hx].
  - rewrite pretty_N_go_step by done. apply IH; [by apply N.div_lt|]. cbn [string_forallb]. rewrite Hs, andb_true_r.
    unfold pretty_N_char. repeat case_match; reflexivity.
  - replace x with 0%N by lia. by rewrite pretty_N_go_0.
Qed.

Lemma show_Z_numeral z : string_forallb is_numeral (show_Z z) = true.
Proof.
  assert (∀ n : N, string_forallb is_numeral (pretty n) = true) as HN.
  { intros n. unfold pretty, pretty_N. case_decide; [reflexivity|]. by apply pretty_N_numeral. }
  unfold show_Z. destruct z as [|p|p]; [reflexivity|apply (HN (N.pos p))|].
  change (pretty (Z.neg p)) with ("-" +:+ pretty (N.pos p)). by rewrite string_forallb_app, HN.
Qed.

Lemma show_Z_head z : ∃ c s, show_Z z = String c s ∧ is_numeral c = true.
Proof.
  pose proof (show_Z_numeral z) as Hn. destruct (show_Z z) as [|c s] eqn:E.
  - exfalso. revert E. unfold show_Z.
    destruct z as [|p|p]; [done| |done]. change (pretty (Z.pos p)) with (pretty (N.pos p)).
    unfold pretty, pretty_N. rewrite decide_False by done.
    rewrite pretty_N_go_step by done. intros E. apply (f_equal String.length) in E.
    assert (∀ x t, (String.length t ≤ String.length (pretty_N_go x t))%nat) as Hl.
    { clear. intros x. induction (N.lt_wf_0 x) as [x _ IH]. intros t. destruct (decide (0 < x)%N) as [Hx|Hx].
      - rewrite pretty_N_go_step by done. specialize (IH (x / 10)%N (N.div_lt x 10 Hx eq_refl)).
        specialize (IH (String (pretty_N_char (x mod 10)) t)). cbn [String.length] in IH. lia.
      - replace x with 0%N by lia. by rewrite pretty_N_go_0. }
    match type of E with String.length (pretty_N_go ?x ?t) = _ => pose proof (Hl x t) as Hx end. cbn [String.length] in *. lia.
  - cbn [string_forallb] in Hn. apply andb_true_iff in Hn as [? _]. eauto.
Qed.

(** A run of characters of a class ends where the class does. *)
Definition stops (f : Ascii.ascii → bool) (s : string) : Prop :=
  match s with "" => True | String c _ => f c = false end.

Lemma class_split f s s' t t' : string_forallb f s = true → string_forallb f s' = true → stops f t → stops f t' →
  s +:+ t = s' +:+ t' → s = s' ∧ t = t'.
Proof.
  revert s'. induction s as [|c s IH]; intros [|c' s']; cbn [string_forallb]; rewrite ?string_app_cons, ?andb_true_iff.
  - by intros _ _ _ _ Heq.
  - intros _ [Hc _] Ht _ Heq. assert (t = String c' (s' +:+ t')) as -> by exact Heq. cbn in Ht. congruence.
  - intros [Hc _] _ _ Ht Heq. assert (t' = String c (s +:+ t)) as -> by (symmetry; exact Heq). cbn in Ht. congruence.
  - intros [_ Hs] [_ Hs'] Ht Ht' [= -> Heq]. destruct (IH s' Hs Hs' Ht Ht' Heq) as [-> ->]. done.
Qed.

Definition i64_range (z : Z) : Prop := - 2 ^ 63 ≤ z < 2 ^ 63.
Definition u64_range (z : Z) : Prop := 0 ≤ z < 2 ^ 64.
Definition u32_range (z : Z) : Prop := 0 ≤ z < 2 ^ 32.
