(* ===== verification/Float64.v ===== *)
(** * JavaScript numbers and their stored f64 bytes

    [DataView.getFloat64], [DataView.setFloat64] and [String(x)] as the capture
    tooling uses them: the exact value of a bit pattern, the nearest pattern of
    a rational (ties to even), and the shortest decimal text that reads back as
    the number, as ECMAScript specifies [Number::toString]. *)

From S2P Require Import Prelude Js.

(** Bit patterns of the non-numbers. *)
Definition F64_INFINITY : Z := Z.shiftl 2047 52.
Definition F64_NAN : Z := F64_INFINITY + 2 ^ 51.
Definition F64_SIGN : Z := 2 ^ 63.

(** [p / q] rounded to an integer, ties to even. *)
Definition round_half_even (p q : Z) : Z :=
  let d := p / q in
  match Z.compare (2 * (p mod q)) q with
  | Lt => d
  | Gt => d + 1
  | Eq => if Z.even d then d else d + 1
  end.

(** [p / (q * 2^e)] as a fraction. *)
Definition scale2 (p q e : Z) : Z * Z := if 0 <=? e then (p, q * 2 ^ e) else (p * 2 ^ (- e), q).

(** The bits of the double nearest to [p / q], for [0 ≤ p] and [0 < q]. The
    exponent puts the significand in [2^52, 2^53), or is the subnormal one. *)
Definition f64_of_rational (p q : Z) : Z :=
  if p =? 0 then 0
  else
    let guess := Z.log2 p - Z.log2 q - 52 in
    let '(n, d) := scale2 p q guess in
    let e := Z.max (-1074) (if n / d <? 2 ^ 52 then guess - 1 else guess) in
    let '(n, d) := scale2 p q e in
    let bits := Z.shiftl (e + 1074) 52 + round_half_even n d in
    if F64_INFINITY <=? bits then F64_INFINITY else bits.

(** The value of the pattern of a positive finite double: [significand * 2^exponent]. *)
Definition f64_significand (bits : Z) : Z :=
  let m := Z.land bits (2 ^ 52 - 1) in if Z.shiftr bits 52 =? 0 then m else 2 ^ 52 + m.
Definition f64_exponent_of (bits : Z) : Z := Z.max 1 (Z.shiftr bits 52) - 1075.
Definition f64_value (bits : Z) : Z * Z := let e := f64_exponent_of bits in scale2 (f64_significand bits) 1 (- e).

(* ------------------------------------------------------------------ *)
(** ** [String(x)] *)

(** [s * 10^e] as a fraction. *)
Definition scale10 (s e : Z) : Z * Z := if 0 <=? e then (s * 10 ^ e, 1) else (s, 10 ^ (- e)).

(** The decimal exponent: the [n] with [10^(n-1) ≤ p/q < 10^n], counted from a lower estimate. *)
Fixpoint decimal_exponent (fuel : nat) (n p q : Z) : Z :=
  match fuel with
  | O => n
  | S fuel => let '(a, b) := scale10 1 n in if p * b <? a * q then n else decimal_exponent fuel (n + 1) p q
  end.

(** The [k]-digit decimals [s * 10^(n-k)] around [p / q] that round to [bits], nearest first. *)
Definition digits_candidates (k : Z) (bits n p q : Z) : list Z :=
  let '(a, b) := scale10 1 (n - k) in
  let low := (p * b) / (q * a) in
  let near := if 2 * (p * b - low * (q * a)) <=? q * a then [low; low + 1] else [low + 1; low] in
  List.filter (λ s, (let '(x, y) := scale10 s (n - k) in f64_of_rational x y) =? bits) near.

(** The shortest digits: [(s, n)] for the value [s * 10^(n - k)] with [k] digits. *)
Fixpoint shortest_digits (fuel : nat) (k bits n p q : Z) : Z * Z :=
  match fuel with
  | O => (f64_significand bits, n)
  | S fuel =>
      match digits_candidates k bits n p q with
      | s :: _ => if s =? 10 ^ k then (10 ^ (k - 1), n + 1) else (s, n)
      | [] => shortest_digits fuel (k + 1) bits n p q
      end
  end.

Definition zeros_text (n : Z) : string := String.concat "" (replicate (Z.to_nat n) "0").

(** [Number::toString] from the digits and the exponent. *)
Definition format_digits (s n : Z) : string :=
  let digits := show_Z s in
  let k := Z.of_nat (String.length digits) in
  let cut i := String.substring 0 (Z.to_nat i) digits in
  let rest i := String.substring (Z.to_nat i) (String.length digits) digits in
  if (k <=? n) && (n <=? 21) then digits +:+ zeros_text (n - k)
  else if (0 <? n) && (n <=? 21) then cut n +:+ "." +:+ rest n
  else if (-6 <? n) && (n <=? 0) then "0." +:+ zeros_text (- n) +:+ digits
  else
    let exponent := "e" +:+ (if 0 <=? n - 1 then "+" else "-") +:+ show_Z (Z.abs (n - 1)) in
    (if k =? 1 then digits else cut 1 +:+ "." +:+ rest 1) +:+ exponent.

Definition positive_text (bits : Z) : string :=
  let '(p, q) := f64_value bits in
  let low := (Z.log2 p - Z.log2 q) * 3 / 10 - 2 in
  let n := decimal_exponent 40 low p q in
  let '(s, n) := shortest_digits 17 1 bits n p q in
  format_digits s n.

(** [String(x)] of the number with these 64 bits. *)
Definition f64_text (bits : Z) : string :=
  let magnitude := bits mod F64_SIGN in
  if F64_INFINITY <? magnitude then "NaN"
  else if magnitude =? 0 then "0"
  else (if F64_SIGN <=? bits then "-" else "") +:+ (if magnitude =? F64_INFINITY then "Infinity" else positive_text magnitude).

(** [String(new DataView(bytes.buffer, bytes.byteOffset, 8).getFloat64(0, true))], for eight bytes. *)
Definition getFloat64_text (b : bytes) : string := f64_text (le_Z (take 8 b)).

(* ------------------------------------------------------------------ *)
(** ** [setFloat64] *)

Definition digit_of (c : Ascii.ascii) : option Z :=
  let n := Z.of_N (Ascii.N_of_ascii c) in if (48 <=? n) && (n <=? 57) then Some (n - 48) else None.

(** A run of digits: their value, how many there are, and the rest. *)
Fixpoint read_digits (acc count : Z) (s : string) : Z * Z * string :=
  match s with
  | "" => (acc, count, "")
  | String c r => match digit_of c with Some d => read_digits (10 * acc + d) (count + 1) r | None => (acc, count, s) end
  end.

(** The value of the text of a number, as [digits * 10^exponent]. *)
Definition read_decimal (s : string) : Z * Z :=
  let '(whole, _, s) := read_digits 0 0 s in
  let '(digits, places, s) :=
    match s with
    | String c r => if Ascii.eqb c (Ascii.ascii_of_nat 46) then read_digits whole 0 r else (whole, 0, s)
    | "" => (whole, 0, "")
    end in
  match s with
  | String _ (String sign r) =>
      let '(e, _, _) := read_digits 0 0 r in
      (digits, (if Ascii.eqb sign (Ascii.ascii_of_nat 45) then - e else e) - places)
  | _ => (digits, - places)
  end.

(** The bits of a fraction, NaN or an infinity from its [String(x)]. *)
Definition f64_of_text (text : string) : Z :=
  let magnitude s :=
    if String.eqb s "Infinity" then F64_INFINITY
    else let '(digits, e) := read_decimal s in let '(p, q) := scale10 digits e in f64_of_rational p q in
  if String.eqb text "NaN" then F64_NAN
  else
    match text with
    | String c s => if Ascii.eqb c (Ascii.ascii_of_nat 45) then F64_SIGN + magnitude s else magnitude text
    | "" => 0
    end.

Definition f64_bits (n : jsnum) : Z :=
  match n with
  | NumInt z => (if z <? 0 then F64_SIGN else 0) + f64_of_rational (Z.abs z) 1
  | NumNegZero => F64_SIGN
  | NumOther text => f64_of_text text
  end.

(** Little-endian f64 bytes of a number. *)
Definition setFloat64 (n : jsnum) : bytes := le_bytes 8 (f64_bits n).

Lemma length_setFloat64 n : length (setFloat64 n) = 8%nat.
Proof. apply length_le_bytes. Qed.

(** A mainnet multiplier, and texts that read back to themselves, the edge cases included. *)
Lemma f64_texts :
  getFloat64_text (fromHex "1efbb6d57038f03f") = "1.013779482672994" ∧
  toHex (setFloat64 (NumOther "1.013779482672994")) = "1efbb6d57038f03f" ∧
  let texts := ["1.5"; "0.1"; "5e-324"; "1.7976931348623157e+308"; "2.2250738585072014e-308"; "0.000001"; "1e-7"; "1e+22"; "-3.25"] in
  map (λ t, f64_text (f64_of_text t)) texts = texts.
Proof. vm_compute. auto. Qed.
