(* ===== verification/Errors.v ===== *)
(** * errors.ts: the client's failure codes and the program's error table

    Client codes carry the prefix [C_] and program error names the prefix [E_],
    because both unions of the source use some of the same words. *)

From S2P Require Import Prelude Js.

Inductive GuardClientErrorCode : Set :=
| C_AccountNotFound
| C_InvalidClockData
| C_InvalidDownstream
| C_InvalidExpectedState
| C_InvalidExtensionCombination
| C_InvalidMintData
| C_InvalidMintOwner
| C_InvalidMultiplier
| C_InvalidProtectionWindow
| C_MissingScaledUiAmount
| C_UnsupportedJupiterTrade.

Inductive EquityGuardErrorName : Set :=
| E_UnsupportedInstruction
| E_InvalidInstructionLength
| E_InvalidExpectedState
| E_InvalidAccountCount
| E_InvalidMintOwner
| E_InvalidMintData
| E_MissingScaledUiAmount
| E_InvalidExtensionCombination
| E_InvalidMultiplier
| E_MultiplierChanged
| E_NewMultiplierChanged
| E_EffectiveTimestampChanged
| E_ActivationPhaseChanged
| E_InsideTransitionWindow
| E_ArithmeticOverflow
| E_ClockUnavailable
| E_UnsupportedVersion
| E_MintKeyMismatch
| E_InvalidInstructionsSysvar
| E_MissingDownstreamInstruction
| E_UnsupportedDownstreamProgram
| E_UnsupportedDownstreamInstruction
| E_DownstreamMintMismatch
| E_DownstreamCommitmentMismatch
| E_UnsupportedAdapter
| E_GuardNotTopLevel
| E_GuardNotFirst
| E_UnsupportedTransactionGrammar
| E_InvalidComputeBudgetInstruction
| E_InvalidAtaSetup
| E_InvalidJupiterProgram
| E_InvalidJupiterInstruction
| E_InvalidJupiterDirection
| E_InvalidCounterMint
| E_InvalidTokenProgram
| E_DestinationOverrideUnsupported
| E_UnsupportedJupiterFee
| E_NonCanonicalSourceAccount
| E_NonCanonicalDestinationAccount.

#[export] Instance GuardClientErrorCode_eq_dec : EqDecision GuardClientErrorCode.
Proof. solve_decision. Defined.
#[export] Instance EquityGuardErrorName_eq_dec : EqDecision EquityGuardErrorName.
Proof. solve_decision. Defined.

(** The text of a client code. *)
Definition show_code (c : GuardClientErrorCode) : string :=
  match c with
  | C_AccountNotFound => "AccountNotFound"
  | C_InvalidClockData => "InvalidClockData"
  | C_InvalidDownstream => "InvalidDownstream"
  | C_InvalidExpectedState => "InvalidExpectedState"
  | C_InvalidExtensionCombination => "InvalidExtensionCombination"
  | C_InvalidMintData => "InvalidMintData"
  | C_InvalidMintOwner => "InvalidMintOwner"
  | C_InvalidMultiplier => "InvalidMultiplier"
  | C_InvalidProtectionWindow => "InvalidProtectionWindow"
  | C_MissingScaledUiAmount => "MissingScaledUiAmount"
  | C_UnsupportedJupiterTrade => "UnsupportedJupiterTrade"
  end.

(** The text of a program error name. *)
Definition show_error_name (e : EquityGuardErrorName) : string :=
  match e with
  | E_UnsupportedInstruction => "UnsupportedInstruction"
  | E_InvalidInstructionLength => "InvalidInstructionLength"
  | E_InvalidExpectedState => "InvalidExpectedState"
  | E_InvalidAccountCount => "InvalidAccountCount"
  | E_InvalidMintOwner => "InvalidMintOwner"
  | E_InvalidMintData => "InvalidMintData"
  | E_MissingScaledUiAmount => "MissingScaledUiAmount"
  | E_InvalidExtensionCombination => "InvalidExtensionCombination"
  | E_InvalidMultiplier => "InvalidMultiplier"
  | E_MultiplierChanged => "MultiplierChanged"
  | E_NewMultiplierChanged => "NewMultiplierChanged"
  | E_EffectiveTimestampChanged => "EffectiveTimestampChanged"
  | E_ActivationPhaseChanged => "ActivationPhaseChanged"
  | E_InsideTransitionWindow => "InsideTransitionWindow"
  | E_ArithmeticOverflow => "ArithmeticOverflow"
  | E_ClockUnavailable => "ClockUnavailable"
  | E_UnsupportedVersion => "UnsupportedVersion"
  | E_MintKeyMismatch => "MintKeyMismatch"
  | E_InvalidInstructionsSysvar => "InvalidInstructionsSysvar"
  | E_MissingDownstreamInstruction => "MissingDownstreamInstruction"
  | E_UnsupportedDownstreamProgram => "UnsupportedDownstreamProgram"
  | E_UnsupportedDownstreamInstruction => "UnsupportedDownstreamInstruction"
  | E_DownstreamMintMismatch => "DownstreamMintMismatch"
  | E_DownstreamCommitmentMismatch => "DownstreamCommitmentMismatch"
  | E_UnsupportedAdapter => "UnsupportedAdapter"
  | E_GuardNotTopLevel => "GuardNotTopLevel"
  | E_GuardNotFirst => "GuardNotFirst"
  | E_UnsupportedTransactionGrammar => "UnsupportedTransactionGrammar"
  | E_InvalidComputeBudgetInstruction => "InvalidComputeBudgetInstruction"
  | E_InvalidAtaSetup => "InvalidAtaSetup"
  | E_InvalidJupiterProgram => "InvalidJupiterProgram"
  | E_InvalidJupiterInstruction => "InvalidJupiterInstruction"
  | E_InvalidJupiterDirection => "InvalidJupiterDirection"
  | E_InvalidCounterMint => "InvalidCounterMint"
  | E_InvalidTokenProgram => "InvalidTokenProgram"
  | E_DestinationOverrideUnsupported => "DestinationOverrideUnsupported"
  | E_UnsupportedJupiterFee => "UnsupportedJupiterFee"
  | E_NonCanonicalSourceAccount => "NonCanonicalSourceAccount"
  | E_NonCanonicalDestinationAccount => "NonCanonicalDestinationAccount"
  end.

(** [class GuardClientError]: [message] is the full text, code included. *)
Record GuardClientError := mkGuardClientError {
  err_code : GuardClientErrorCode;
  err_message : string;
  err_guardError : option EquityGuardErrorName;
}.

(** [new GuardClientError(code, message)] and its three-argument form. *)
Definition guard_client_error_with (code : GuardClientErrorCode) (message : string)
    (guardError : option EquityGuardErrorName) : GuardClientError :=
  {| err_code := code; err_message := show_code code +:+ ": " +:+ message; err_guardError := guardError |}.

Definition guard_client_error (code : GuardClientErrorCode) (message : string) : GuardClientError :=
  guard_client_error_with code message None.

(** What a guard-client function can throw: its own structured error, the
    [RangeError] of an out-of-bounds [DataView] read or the error of the
    address codec. [OutOfFuel] is no error of the code: it marks a modelled
    loop that did not finish, and is proved unreachable where it can occur. *)
Inductive client_exn : Type :=
| GuardErr (e : GuardClientError)
| RangeErr
| CodecErr
| OutOfFuel.

(** [throw new GuardClientError(code, message)]. *)
Definition throw_guard {A} (code : GuardClientErrorCode) (message : string) : result client_exn A :=
  Err (GuardErr (guard_client_error code message)).

(** [if (b) throw new GuardClientError(code, message)]. *)
Definition guard_throw_if (b : bool) (code : GuardClientErrorCode) (message : string) : result client_exn unit :=
  throw_if b (GuardErr (guard_client_error code message)).

Lemma guard_then_Ok {A} b code msg (m : result client_exn A) a :
  (guard_throw_if b code msg;; m) = Ok a ↔ b = false ∧ m = Ok a.
Proof. apply throw_if_then_Ok. Qed.

Lemma guard_Ok b code msg u : guard_throw_if b code msg = Ok u ↔ b = false.
Proof. apply throw_if_Ok. Qed.

Lemma guard_then_Err {A} b code msg (m : result client_exn A) e :
  (guard_throw_if b code msg;; m) = Err e →
  (b = true ∧ e = GuardErr (guard_client_error code msg)) ∨ m = Err e.
Proof. intros [[? <-]|[? ?]]%throw_if_then_Err; auto. Qed.

(** A computation whose only failures are the client's structured errors: no
    out-of-bounds read, no codec error, no unfinished loop. *)
Definition structured {A} (r : result client_exn A) : Prop := ∀ e, r = Err e → ∃ g, e = GuardErr g.

Create HintDb structured.

Lemma structured_Ok {A} (a : A) : structured (Ok a).
Proof. by intros e. Qed.

Lemma structured_throw {A} code msg : structured (@throw_guard A code msg).
Proof. intros e [= <-]. by eexists. Qed.

Lemma structured_guard b code msg : structured (guard_throw_if b code msg).
Proof. destruct b; intros e; [intros [= <-]; by eexists|done]. Qed.

Lemma structured_bind {A B} (m : result client_exn A) (f : A → result client_exn B) :
  structured m → (∀ a, m = Ok a → structured (f a)) → structured (m ≫= f).
Proof. intros Hm Hf e. destruct m as [a|e']; cbn; [by apply Hf|]. intros [= <-]. by apply Hm. Qed.

Lemma structured_of_option {A} e (o : option A) : is_Some o → structured (of_option e o).
Proof. intros [a ->]. apply structured_Ok. Qed.

#[export] Hint Resolve structured_Ok structured_throw structured_guard structured_of_option : structured.

(** Walks a computation down its binds and tests. *)
Ltac structured :=
  repeat first
    [ progress auto with structured
    | match goal with |- structured (_ ≫= _) => apply structured_bind; [|intros ? ?] end
    | case_match ].

(** The code of a thrown [GuardClientError], when that is what was thrown. *)
Definition thrown_code {A} (r : result client_exn A) : option GuardClientErrorCode :=
  match r with Err (GuardErr e) => Some (err_code e) | _ => None end.

(** Every code a computation may throw satisfies [P]. *)
Definition throws {A} (P : GuardClientErrorCode → Prop) (r : result client_exn A) : Prop :=
  ∀ c, thrown_code r = Some c → P c.

Lemma throws_Ok {A} P (a : A) : throws P (Ok a).
Proof. by intros c. Qed.

Lemma throws_throw {A} (P : GuardClientErrorCode → Prop) code msg : P code → throws P (@throw_guard A code msg).
Proof. by intros ? c [= <-]. Qed.

Lemma throws_guard (P : GuardClientErrorCode → Prop) b code msg : P code → throws P (guard_throw_if b code msg).
Proof. destruct b; intros ? c; [by intros [= <-]|done]. Qed.

Lemma throws_of_option {A} P (o : option A) : throws P (of_option RangeErr o).
Proof. by destruct o. Qed.

Lemma throws_bind {A B} P (m : result client_exn A) (f : A → result client_exn B) :
  throws P m → (∀ a, m = Ok a → throws P (f a)) → throws P (m ≫= f).
Proof. intros Hm Hf c. destruct m as [a|e]; cbn; [by apply Hf|apply Hm]. Qed.

Lemma throws_rec_fuel {A} P : throws P (@Err client_exn A OutOfFuel).
Proof. by intros c. Qed.

#[export] Hint Resolve throws_Ok throws_throw throws_guard throws_of_option throws_rec_fuel : structured.

(** Walks a computation whose codes are bounded. *)
Ltac throws :=
  repeat first
    [ progress auto with structured
    | match goal with |- throws _ (_ ≫= _) => apply throws_bind; [|intros ? ?] end
    | case_match ].

Definition EQUITY_GUARD_ERROR_CODES : list (EquityGuardErrorName * Z) :=
  [ (E_UnsupportedInstruction, 0);
    (E_InvalidInstructionLength, 1);
    (E_InvalidExpectedState, 2);
    (E_InvalidAccountCount, 3);
    (E_InvalidMintOwner, 4);
    (E_InvalidMintData, 5);
    (E_MissingScaledUiAmount, 6);
    (E_InvalidExtensionCombination, 7);
    (E_InvalidMultiplier, 8);
    (E_MultiplierChanged, 9);
    (E_NewMultiplierChanged, 10);
    (E_EffectiveTimestampChanged, 11);
    (E_ActivationPhaseChanged, 12);
    (E_InsideTransitionWindow, 13);
    (E_ArithmeticOverflow, 14);
    (E_ClockUnavailable, 15);
    (E_UnsupportedVersion, 16);
    (E_MintKeyMismatch, 17);
    (E_InvalidInstructionsSysvar, 18);
    (E_MissingDownstreamInstruction, 19);
    (E_UnsupportedDownstreamProgram, 20);
    (E_UnsupportedDownstreamInstruction, 21);
    (E_DownstreamMintMismatch, 22);
    (E_DownstreamCommitmentMismatch, 23);
    (E_UnsupportedAdapter, 24);
    (E_GuardNotTopLevel, 25);
    (E_GuardNotFirst, 26);
    (E_UnsupportedTransactionGrammar, 27);
    (E_InvalidComputeBudgetInstruction, 28);
    (E_InvalidAtaSetup, 29);
    (E_InvalidJupiterProgram, 30);
    (E_InvalidJupiterInstruction, 31);
    (E_InvalidJupiterDirection, 32);
    (E_InvalidCounterMint, 33);
    (E_InvalidTokenProgram, 34);
    (E_DestinationOverrideUnsupported, 35);
    (E_UnsupportedJupiterFee, 36);
    (E_NonCanonicalSourceAccount, 37);
    (E_NonCanonicalDestinationAccount, 38) ].

(** [equityGuardErrorName(code)]. *)
Definition equityGuardErrorName (code : Z) : option EquityGuardErrorName :=
  fst <$> List.find (λ entry, snd entry =? code) EQUITY_GUARD_ERROR_CODES.

(** [EQUITY_GUARD_ERROR_CODES[name]]. *)
Definition error_code (e : EquityGuardErrorName) : Z :=
  default 0 (snd <$> List.find (λ entry, bool_decide (fst entry = e)) EQUITY_GUARD_ERROR_CODES).

(** The table is a bijection between the 39 names and the codes 0..38: a code
    read back from a log names the one error that carries it. *)
Lemma equityGuardErrorName_code e : equityGuardErrorName (error_code e) = Some e.
Proof. by destruct e; vm_compute. Qed.

Lemma equityGuardErrorName_Some code e :
  equityGuardErrorName code = Some e ↔ code = error_code e.
Proof.
  split; [|intros ->; apply equityGuardErrorName_code].
  unfold equityGuardErrorName. destruct (List.find _ _) as [[e' c]|] eqn:Hf; simpl; [|done].
  intros [= <-]. apply List.find_some in Hf as [Hin Heq]. simpl in Heq.
  apply Z.eqb_eq in Heq as ->.
  repeat (destruct Hin as [[= <- <-]|Hin]; [by vm_compute|]). done.
Qed.
