(* ===== verification/Kit.v ===== *)
(** * The interface of [@solana/kit] the packages build on

    Addresses are base-58 strings. The codec between an address and its 32
    bytes and the derivation of program addresses belong to the library, so
    they are classes here: the operations the code calls, and the documented
    laws it relies on. [Base58.v] gives an instance of the codec. *)

From S2P Require Import Prelude Js.

Abbreviation Address := string.

(** [getAddressEncoder().encode], which throws on a string that is not an
    address, and [getAddressDecoder().decode]. *)
Class AddressCodec := {
  encodeAddress : Address → option bytes;
  decodeAddress : bytes → Address;
  length_encodeAddress a b : encodeAddress a = Some b → length b = 32%nat;
  decodeAddress_encode a b : encodeAddress a = Some b → decodeAddress b = a;
  encodeAddress_decode b : length b = 32%nat → encodeAddress (decodeAddress b) = Some b;
}.

(** [isAddress(s)]. *)
Definition isAddress `{!AddressCodec} (s : string) : bool := bool_decide (is_Some (encodeAddress s)).

Lemma encodeAddress_inj `{!AddressCodec} a a' b :
  encodeAddress a = Some b → encodeAddress a' = Some b → a = a'.
Proof. by intros <-%decodeAddress_encode <-%decodeAddress_encode. Qed.

(** [getProgramDerivedAddress]: seeds and program to an address, or a throw. *)
Class ProgramDerivation := {
  programDerivedAddress : Address → list bytes → option Address;
}.

(** [createHash('sha256').update(x).digest()] of [node:crypto]. *)
Class Digest := {
  digest : bytes → bytes;
  length_digest x : length (digest x) = 32%nat;
}.

(** A collision of the digest: what every binding below would need to be broken. *)
Definition collision `{!Digest} (x y : bytes) : Prop := x ≠ y ∧ digest x = digest y.

Lemma digest_eq_or_collision `{!Digest} x y : digest x = digest y → x = y ∨ collision x y.
Proof. destruct (decide (x = y)); [by left|right; by split]. Qed.

(** [AccountRole]. *)
Inductive AccountRole : Set := READONLY | WRITABLE | READONLY_SIGNER | WRITABLE_SIGNER.

#[export] Instance AccountRole_eq_dec : EqDecision AccountRole.
Proof. solve_decision. Defined.

Record AccountMeta := mkMeta { meta_address : Address; meta_role : AccountRole }.

(** [Instruction]: accounts and data are optional in the library's type. *)
Record Instruction := mkInstruction {
  ix_programAddress : Address;
  ix_accounts : option (list AccountMeta);
  ix_data : option bytes;
}.

(** [instruction.accounts ?? []] and [instruction.data ?? []]. *)
Definition accounts_of (i : Instruction) : list AccountMeta := ix_accounts i ?? [].
Definition data_of (i : Instruction) : bytes := ix_data i ?? [].

Lemma data_of_Some p a d : data_of (mkInstruction p a (Some d)) = d.
Proof. done. Qed.

Lemma accounts_of_Some p a d : accounts_of (mkInstruction p (Some a) d) = a.
Proof. done. Qed.
