(* ===== verification/Base58.v ===== *)
(** * Base-58 addresses: an instance of the address codec

    The witnesses of the other files run on concrete addresses, so they need
    a codec that computes. This one is the base-58 text of 32 big-endian bytes
    with one leading [1] per leading zero byte; a text is accepted when it is
    the text of some 32 bytes. *)

From S2P Require Import Prelude Js Kit.

Definition b58_alphabet : string := "123456789ABCDEFGHJKLMNPQRSTUVWXYZabcdefghijkmnopqrstuvwxyz".

Definition b58_char (d : Z) : Ascii.ascii :=
  default (Ascii.ascii_of_nat 49) (String.get (Z.to_nat d) b58_alphabet).

Fixpoint string_index (c : Ascii.ascii) (s : string) (i : Z) : option Z :=
  match s with
  | "" => None
  | String d s => if Ascii.eqb c d then Some i else string_index c s (i + 1)
  end.

Definition b58_digit (c : Ascii.ascii) : option Z := string_index c b58_alphabet 0.

Fixpoint b58_digits (fuel : nat) (z : Z) (acc : string) : string :=
  match fuel with
  | O => acc
  | S fuel => if z =? 0 then acc else b58_digits fuel (z / 58) (String (b58_char (z mod 58)) acc)
  end.

Fixpoint b58_parse (s : string) (v : Z) : option Z :=
  match s with
  | "" => Some v
  | String c s => d ← b58_digit c; b58_parse s (v * 58 + d)
  end.

Fixpoint b58_leading (b : bytes) (s : string) : string :=
  match b with
  | x :: b => if Byte.eqb x x00 then String (b58_char 0) (b58_leading b s) else s
  | [] => s
  end.

(** 44 digits hold every 256-bit value. *)
Definition b58_decode (b : bytes) : string := b58_leading b (b58_digits 44 (be_Z b) "").

Definition b58_encode (s : string) : option bytes :=
  z ← b58_parse s 0;
  let b := be_bytes 32 z in
  if String.eqb (b58_decode b) s then Some b else None.

Lemma b58_digit_char d : 0 ≤ d < 58 → b58_digit (b58_char d) = Some d.
Proof.
  intros Hd.
  assert (forallb (λ n, bool_decide (b58_digit (b58_char (Z.of_nat n)) = Some (Z.of_nat n))) (seq 0 58) = true)
    as H by (vm_compute; reflexivity).
  rewrite forallb_forall in H. specialize (H (Z.to_nat d)). rewrite Z2Nat.id in H by lia.
  assert (In (Z.to_nat d) (seq 0 58)) as Hin by (apply in_seq; lia).
  specialize (H Hin). by apply bool_decide_eq_true_1 in H.
Qed.

Lemma b58_parse_digits fuel z acc :
  0 ≤ z < 58 ^ Z.of_nat fuel → b58_parse (b58_digits fuel z acc) 0 = b58_parse acc z.
Proof.
  revert z acc; induction fuel as [|fuel IH]; intros z acc Hz.
  - by replace z with 0 by lia.
  - cbn [b58_digits]. destruct (Z.eqb_spec z 0) as [->|]; [reflexivity|].
    rewrite Nat2Z.inj_succ, Z.pow_succ_r in Hz by lia.
    rewrite IH by (split; [apply Z.div_pos|apply Z.div_lt_upper_bound]; lia).
    cbn [b58_parse]. rewrite b58_digit_char by (apply Z.mod_pos_bound; lia).
    cbn [mbind option_bind]. f_equal. pose proof (Z.div_mod z 58). lia.
Qed.

Lemma b58_parse_zero s : b58_parse (String (b58_char 0) s) 0 = b58_parse s 0.
Proof. reflexivity. Qed.

Lemma b58_parse_leading b s : b58_parse (b58_leading b s) 0 = b58_parse s 0.
Proof.
  induction b as [|x b IH]; [reflexivity|]. cbn [b58_leading].
  destruct (Byte.eqb x x00); [|reflexivity]. rewrite b58_parse_zero. exact IH.
Qed.

Lemma be_Z_range b : length b = 32%nat → 0 ≤ be_Z b < 2 ^ 256.
Proof. intros Hb. pose proof (le_Z_range (rev b)) as H. by rewrite length_rev, Hb in H. Qed.

Lemma be_bytes_be_Z b : length b = 32%nat → be_bytes 32 (be_Z b) = b.
Proof.
  intros Hb. unfold be_bytes, be_Z. rewrite <- Hb, <- length_rev, le_bytes_le_Z. apply rev_involutive.
Qed.

Lemma b58_fuel_enough : 2 ^ 256 < 58 ^ Z.of_nat 44.
Proof. by vm_compute. Qed.

Lemma b58_parse_decode b : length b = 32%nat → b58_parse (b58_decode b) 0 = Some (be_Z b).
Proof.
  intros [? Hlt]%be_Z_range. pose proof (Z.lt_trans _ _ _ Hlt b58_fuel_enough).
  unfold b58_decode. rewrite b58_parse_leading. by apply b58_parse_digits.
Qed.

Lemma b58_encode_decode b : length b = 32%nat → b58_encode (b58_decode b) = Some b.
Proof.
  intros Hb. unfold b58_encode. rewrite b58_parse_decode by exact Hb.
  cbn [mbind option_bind]. by rewrite be_bytes_be_Z, String.eqb_refl.
Qed.

Lemma b58_encode_Some a b : b58_encode a = Some b → length b = 32%nat ∧ b58_decode b = a.
Proof.
  unfold b58_encode. destruct (b58_parse a 0) as [z|]; cbn [mbind option_bind]; [|done].
  destruct (String.eqb_spec (b58_decode (be_bytes 32 z)) a) as [Ha|]; [|done]. intros [= <-].
  split; [|exact Ha]. unfold be_bytes. by rewrite length_rev, length_le_bytes.
Qed.

#[export, refine] Instance base58_codec : AddressCodec :=
  {| encodeAddress := b58_encode; decodeAddress := b58_decode |}.
Proof.
  - by intros a b [? _]%b58_encode_Some.
  - by intros a b [_ ?]%b58_encode_Some.
  - exact b58_encode_decode.
Defined.
