(* ===== verification/Sha256.v ===== *)
(** * sha256.ts: the platform-free SHA-256

    The implementation as written - JavaScript's 32-bit operators with their
    signed results, constants derived by integer roots - against FIPS 180-4
    with transcribed constants and unsigned words. *)

From S2P Require Import Prelude Js Kit.

(* ------------------------------------------------------------------ *)
(** ** JavaScript's 32-bit operators *)

Definition to_u32 (z : Z) : Z := z mod 2 ^ 32.
Definition to_i32 (z : Z) : Z := if to_u32 z <? 2 ^ 31 then to_u32 z else to_u32 z - 2 ^ 32.

Definition js_ushr (x n : Z) : Z := Z.shiftr (to_u32 x) n.
Definition js_shl (x n : Z) : Z := to_i32 (Z.shiftl (to_i32 x) n).
Definition js_or (x y : Z) : Z := to_i32 (Z.lor (to_i32 x) (to_i32 y)).
Definition js_xor (x y : Z) : Z := to_i32 (Z.lxor (to_i32 x) (to_i32 y)).
Definition js_and (x y : Z) : Z := to_i32 (Z.land (to_i32 x) (to_i32 y)).
Definition js_not (x : Z) : Z := to_i32 (Z.lnot (to_i32 x)).

(* ------------------------------------------------------------------ *)
(** ** The constants *)

(** The bit length of a positive number: [value.toString(2).length]. *)
Definition bit_length (value : Z) : Z := if value =? 0 then 1 else Z.log2 value + 1.

(** The three loops of [integerRoot]; [None] when the fuel runs out. *)
Fixpoint newton (fuel : nat) (value degree x : Z) : option Z :=
  match fuel with
  | O => None
  | S fuel =>
      let next := ((degree - 1) * x + value / x ^ (degree - 1)) / degree in
      if x <=? next then Some x else newton fuel value degree next
  end.

Fixpoint step_down (fuel : nat) (value degree x : Z) : option Z :=
  match fuel with
  | O => None
  | S fuel => if value <? x ^ degree then step_down fuel value degree (x - 1) else Some x
  end.

Fixpoint step_up (fuel : nat) (value degree x : Z) : option Z :=
  match fuel with
  | O => None
  | S fuel => if (x + 1) ^ degree <=? value then step_up fuel value degree (x + 1) else Some x
  end.

Definition integerRoot (fuel : nat) (value degree : Z) : option Z :=
  let x := Z.shiftl 1 (bit_length value / degree + 1) in
  x ← newton fuel value degree x;
  x ← step_down fuel value degree x;
  step_up fuel value degree x.

(** The loop of [PRIMES]: at most [fuel] candidates from [n] on. *)
Fixpoint find_primes (fuel : nat) (n : Z) (out : list Z) : list Z :=
  match fuel with
  | O => out
  | S fuel =>
      if Nat.ltb (length out) 64 then
        find_primes fuel (n + 1) (if forallb (λ p, negb (n mod p =? 0)) out then out ++ [n] else out)
      else out
  end.

Definition PRIMES : list Z := find_primes 400 2 [].
Definition MASK_32 : Z := 4294967295.

(** Fuel for the roots of the 99- and 103-bit arguments. *)
Definition root_fuel : nat := 200.

Definition K : list Z :=
  map (λ p, Z.land (integerRoot root_fuel (Z.shiftl p 96) 3 ?? 0) MASK_32) PRIMES.
Definition H0 : list Z :=
  map (λ p, Z.land (integerRoot root_fuel (Z.shiftl p 64) 2 ?? 0) MASK_32) (take 8 PRIMES).

(* ------------------------------------------------------------------ *)
(** ** The compression *)

Definition rotr (x n : Z) : Z := js_or (js_ushr x n) (js_shl x (32 - n)).

(** [w[i]] of a [Uint32Array]. *)
Definition word (w : list Z) (i : nat) : Z := w !! i ?? 0.

(** The second schedule loop: rounds [i .. i + n - 1], appending [w[i]]. *)
Fixpoint schedule (n i : nat) (w : list Z) : list Z :=
  match n with
  | O => w
  | S n =>
      let a := word w (i - 15) in
      let b := word w (i - 2) in
      let s0 := js_xor (js_xor (rotr a 7) (rotr a 18)) (js_ushr a 3) in
      let s1 := js_xor (js_xor (rotr b 17) (rotr b 19)) (js_ushr b 10) in
      schedule n (S i) (w ++ [to_u32 (word w (i - 16) + s0 + word w (i - 7) + s1)])
  end.

Record regs := mkRegs { ra : Z; rb : Z; rc : Z; rd : Z; re : Z; rf : Z; rg : Z; rh : Z }.

Definition regs_of (h : list Z) : regs :=
  mkRegs (word h 0) (word h 1) (word h 2) (word h 3) (word h 4) (word h 5) (word h 6) (word h 7).
Definition regs_list (r : regs) : list Z := [ra r; rb r; rc r; rd r; re r; rf r; rg r; rh r].

(** One round of the main loop. *)
Definition round (k w : Z) (r : regs) : regs :=
  let '(mkRegs a b c d e f g hh) := r in
  let t1 := to_u32 (hh + js_xor (js_xor (rotr e 6) (rotr e 11)) (rotr e 25)
                    + js_xor (js_and e f) (js_and (js_not e) g) + k + w) in
  let t2 := to_u32 (js_xor (js_xor (rotr a 2) (rotr a 13)) (rotr a 22)
                    + js_xor (js_xor (js_and a b) (js_and a c)) (js_and b c)) in
  mkRegs (to_u32 (t1 + t2)) a b c (to_u32 (d + t1)) e f g.

Fixpoint rounds (ks ws : list Z) (r : regs) : regs :=
  match ks, ws with
  | k :: ks, w :: ws => rounds ks ws (round k w r)
  | _, _ => r
  end.

(** The body of the block loop, on the 64 bytes of one block. *)
Definition compress (h : list Z) (block : bytes) : list Z :=
  let w := schedule 48 16 (map (λ i, be_Z (subarray block (i * 4) (i * 4 + 4))) (seq 0 16)) in
  zip_with (λ x y, to_u32 (x + y)) h (regs_list (rounds K w (regs_of h))).

Definition pad (data : bytes) : bytes :=
  let blocks := Z.to_nat (- (- (Z.of_nat (length data) + 9) / 64)) in
  let padded := set_bytes (zeros (blocks * 64)) 0 data in
  let padded := set_bytes padded (length data) [x80] in
  set_bytes padded (length padded - 8) (be_bytes 8 (Z.of_nat (length data) * 8)).

Fixpoint blocks_of (n : nat) (l : bytes) : list bytes :=
  match n with O => [] | S n => take 64 l :: blocks_of n (drop 64 l) end.

Definition sha256 (data : bytes) : bytes :=
  let padded := pad data in
  let h := fold_left compress (blocks_of (length padded / 64) padded) H0 in
  concat (map (be_bytes 4) h).

Definition sha256Hex (text : string) : string := toHex (sha256 (encode_utf8 text)).

(* ------------------------------------------------------------------ *)
(** ** FIPS 180-4: the reference *)

(** The published tables, a row of eight 32-bit words to a numeral. *)
Definition row_words (row : Z) : list Z :=
  map (λ i, Z.shiftr row (32 * Z.of_nat (7 - i)) mod 2 ^ 32) (seq 0 8).

Definition fips_K : list Z := Eval vm_compute in
  concat (map row_words
    [ 0x428a2f9871374491b5c0fbcfe9b5dba53956c25b59f111f1923f82a4ab1c5ed5;
      0xd807aa9812835b01243185be550c7dc372be5d7480deb1fe9bdc06a7c19bf174;
      0xe49b69c1efbe47860fc19dc6240ca1cc2de92c6f4a7484aa5cb0a9dc76f988da;
      0x983e5152a831c66db00327c8bf597fc7c6e00bf3d5a7914706ca635114292967;
      0x27b70a852e1b21384d2c6dfc53380d13650a7354766a0abb81c2c92e92722c85;
      0xa2bfe8a1a81a664bc24b8b70c76c51a3d192e819d6990624f40e3585106aa070;
      0x19a4c1161e376c082748774c34b0bcb5391c0cb34ed8aa4a5b9cca4f682e6ff3;
      0x748f82ee78a5636f84c878148cc7020890befffaa4506cebbef9a3f7c67178f2 ]).

Definition fips_H0 : list Z := Eval vm_compute in
  row_words 0x6a09e667bb67ae853c6ef372a54ff53a510e527f9b05688c1f83d9ab5be0cd19.

(** Words are numbers below [2^32]; addition is modulo [2^32]. *)
Definition add32 (l : list Z) : Z := fold_right Z.add 0 l mod 2 ^ 32.
Definition ROTR (n x : Z) : Z := Z.lor (Z.shiftr x n) (Z.shiftl x (32 - n) mod 2 ^ 32).
Definition SHR (n x : Z) : Z := Z.shiftr x n.
Definition Ch (x y z : Z) : Z := Z.lxor (Z.land x y) (Z.land (2 ^ 32 - 1 - x) z).
Definition Maj (x y z : Z) : Z := Z.lxor (Z.lxor (Z.land x y) (Z.land x z)) (Z.land y z).
Definition Sigma0 (x : Z) : Z := Z.lxor (Z.lxor (ROTR 2 x) (ROTR 13 x)) (ROTR 22 x).
Definition Sigma1 (x : Z) : Z := Z.lxor (Z.lxor (ROTR 6 x) (ROTR 11 x)) (ROTR 25 x).
Definition sigma0 (x : Z) : Z := Z.lxor (Z.lxor (ROTR 7 x) (ROTR 18 x)) (SHR 3 x).
Definition sigma1 (x : Z) : Z := Z.lxor (Z.lxor (ROTR 17 x) (ROTR 19 x)) (SHR 10 x).

(** [W_t] for [t] from 16 on, from the words so far. *)
Fixpoint fips_schedule (n : nat) (w : list Z) : list Z :=
  match n with
  | O => w
  | S n =>
      let t := length w in
      fips_schedule n (w ++ [add32 [sigma1 (word w (t - 2)); word w (t - 7); sigma0 (word w (t - 15)); word w (t - 16)]])
  end.

Definition fips_round (k w : Z) (r : regs) : regs :=
  let '(mkRegs a b c d e f g h) := r in
  let T1 := add32 [h; Sigma1 e; Ch e f g; k; w] in
  let T2 := add32 [Sigma0 a; Maj a b c] in
  mkRegs (add32 [T1; T2]) a b c (add32 [d; T1]) e f g.

Fixpoint fips_rounds (ks ws : list Z) (r : regs) : regs :=
  match ks, ws with
  | k :: ks, w :: ws => fips_rounds ks ws (fips_round k w r)
  | _, _ => r
  end.

Fixpoint chunks (m n : nat) (l : bytes) : list bytes :=
  match m with O => [] | S m => take n l :: chunks m n (drop n l) end.

Definition fips_compress (h : list Z) (block : bytes) : list Z :=
  let w := fips_schedule 48 (map be_Z (chunks 16 4 block)) in
  zip_with (λ x y, add32 [x; y]) h (regs_list (fips_rounds fips_K w (regs_of h))).

(** The message, a one bit, the least number of zeros that fills a block, and
    the bit length in 64 bits. *)
Definition fips_pad (data : bytes) : bytes :=
  data ++ [x80] ++ zeros (Z.to_nat ((55 - Z.of_nat (length data)) mod 64)) ++ be_bytes 8 (8 * Z.of_nat (length data)).

Definition fips_sha256 (data : bytes) : bytes :=
  let padded := fips_pad data in
  concat (map (be_bytes 4) (fold_left fips_compress (chunks (length padded / 64) 64 padded) fips_H0)).

(* ------------------------------------------------------------------ *)
(** ** The operators on words *)

Definition word32 (z : Z) : Prop := 0 ≤ z < 2 ^ 32.

Lemma to_u32_small z : word32 z → to_u32 z = z.
Proof. apply Z.mod_small. Qed.

Lemma word32_to_u32 z : word32 (to_u32 z).
Proof. apply Z.mod_pos_bound. lia. Qed.

(** [a ≡32 b]: the same 32-bit pattern. *)
Lemma to_u32_i32 z : to_u32 (to_i32 z) = to_u32 z.
Proof.
  unfold to_i32. destruct (_ <? _); unfold to_u32.
  - by rewrite Z.mod_mod.
  - replace (z mod 2 ^ 32 - 2 ^ 32) with (z mod 2 ^ 32 + (-1) * 2 ^ 32) by lia.
    by rewrite Z.mod_add, Z.mod_mod.
Qed.

Lemma to_u32_testbit z i : 0 ≤ i → Z.testbit (to_u32 z) i = (i <? 32) && Z.testbit z i.
Proof.
  intros Hi. unfold to_u32. destruct (Z.ltb_spec i 32).
  - by rewrite Z.mod_pow2_bits_low.
  - by rewrite Z.mod_pow2_bits_high by lia.
Qed.

Lemma to_i32_testbit z i : 0 ≤ i < 32 → Z.testbit (to_i32 z) i = Z.testbit z i.
Proof.
  intros Hi. pose proof (to_u32_testbit (to_i32 z) i ltac:(lia)) as H.
  rewrite to_u32_i32, to_u32_testbit in H by lia.
  destruct (Z.ltb_spec i 32); [|lia]. by rewrite !andb_true_l in H.
Qed.

Ltac bits32 :=
  apply Z.bits_inj'; intros i Hi;
  repeat (rewrite to_u32_testbit || rewrite Z.lor_spec || rewrite Z.lxor_spec || rewrite Z.land_spec
    || rewrite Z.lnot_spec); try exact Hi;
  destruct (Z.ltb_spec i 32); [|try reflexivity];
  rewrite ?to_i32_testbit, ?Z.lor_spec, ?Z.lxor_spec, ?Z.land_spec, ?Z.lnot_spec, ?to_i32_testbit by lia;
  rewrite ?andb_true_l; try reflexivity.

Lemma u32_or x y : to_u32 (js_or x y) = Z.lor (to_u32 x) (to_u32 y).
Proof. unfold js_or. rewrite to_u32_i32. bits32. Qed.

Lemma u32_xor x y : to_u32 (js_xor x y) = Z.lxor (to_u32 x) (to_u32 y).
Proof. unfold js_xor. rewrite to_u32_i32. bits32. Qed.

Lemma u32_and x y : to_u32 (js_and x y) = Z.land (to_u32 x) (to_u32 y).
Proof. unfold js_and. rewrite to_u32_i32. bits32. Qed.

Lemma u32_not x : word32 x → to_u32 (js_not x) = 2 ^ 32 - 1 - x.
Proof.
  intros Hx. unfold js_not. rewrite to_u32_i32. unfold Z.lnot, to_u32. symmetry.
  rewrite <- (to_u32_small x Hx) at 1. rewrite <- to_u32_i32. unfold to_u32.
  apply Z.mod_unique with (- (to_i32 x / 2 ^ 32) - 1).
  - pose proof (Z.mod_pos_bound (to_i32 x) (2 ^ 32) ltac:(lia)). lia.
  - pose proof (Z.div_mod (to_i32 x) (2 ^ 32) ltac:(lia)). lia.
Qed.

Lemma js_ushr_word x n : word32 x → js_ushr x n = SHR n x.
Proof. intros Hx. unfold js_ushr. by rewrite to_u32_small. Qed.

Lemma word32_shiftr x n : word32 x → 0 ≤ n → word32 (Z.shiftr x n).
Proof.
  intros [? ?] Hn. rewrite Z.shiftr_div_pow2 by done. pose proof (Z.pow_pos_nonneg 2 n).
  split; [apply Z.div_pos; lia|]. apply Z.le_lt_trans with x; [|done]. apply Z.div_le_upper_bound; nia.
Qed.

Lemma u32_shl x n : 0 ≤ n → to_u32 (js_shl x n) = Z.shiftl x n mod 2 ^ 32.
Proof.
  intros Hn. unfold js_shl. rewrite to_u32_i32. unfold to_u32. rewrite !Z.shiftl_mul_pow2 by done.
  rewrite Z.mul_mod by lia. fold (to_u32 (to_i32 x)). rewrite to_u32_i32. unfold to_u32.
  by rewrite <- Z.mul_mod by lia.
Qed.

Lemma u32_rotr x n : word32 x → 0 ≤ n ≤ 32 → to_u32 (rotr x n) = ROTR n x.
Proof.
  intros Hx Hn. unfold rotr, ROTR. rewrite u32_or, js_ushr_word, u32_shl by (done || lia).
  unfold SHR. rewrite to_u32_small by (apply word32_shiftr; [done|lia]). done.
Qed.

(** Numbers with the same 32-bit pattern may replace each other in a sum. *)
Lemma add32_cong l k : Forall2 (λ x y, to_u32 x = to_u32 y) l k → add32 l = add32 k.
Proof.
  unfold add32. induction 1 as [|x y l k Hxy _ IH]; [done|]. cbn [fold_right].
  rewrite Z.add_mod, (Z.add_mod y) by lia. unfold to_u32 in Hxy. by rewrite Hxy, IH.
Qed.

Lemma word32_add32 l : word32 (add32 l).
Proof. apply Z.mod_pos_bound. lia. Qed.

Lemma to_u32_word_eq x y : word32 y → to_u32 x = y → to_u32 x = to_u32 y.
Proof. intros Hy ->. by rewrite to_u32_small. Qed.

(** [lxor] and [land] of words are words. *)
Lemma word32_bits z : 0 ≤ z → (∀ i, 32 ≤ i → Z.testbit z i = false) → word32 z.
Proof.
  intros Hz Hbits.
  assert (to_u32 z = z) as <-; [|apply word32_to_u32].
  apply Z.bits_inj'; intros i Hi. rewrite to_u32_testbit by done.
  destruct (Z.ltb_spec i 32); [done|]. symmetry. by apply Hbits.
Qed.

Lemma word32_high x i : word32 x → 32 ≤ i → Z.testbit x i = false.
Proof.
  intros Hx Hi. rewrite <- (to_u32_small x Hx), to_u32_testbit by lia.
  by destruct (Z.ltb_spec i 32); [lia|].
Qed.

Lemma word32_lxor x y : word32 x → word32 y → word32 (Z.lxor x y).
Proof.
  intros Hx Hy. apply word32_bits; [apply Z.lxor_nonneg; destruct Hx, Hy; tauto|].
  intros i Hi. by rewrite Z.lxor_spec, !word32_high.
Qed.

Lemma word32_land x y : word32 x → word32 y → word32 (Z.land x y).
Proof.
  intros Hx Hy. apply word32_bits; [apply Z.land_nonneg; destruct Hx; auto|].
  intros i Hi. by rewrite Z.land_spec, !word32_high.
Qed.

Lemma word32_lor x y : word32 x → word32 y → word32 (Z.lor x y).
Proof.
  intros Hx Hy. apply word32_bits; [apply Z.lor_nonneg; destruct Hx, Hy; auto|].
  intros i Hi. by rewrite Z.lor_spec, !word32_high.
Qed.

Lemma word32_ROTR n x : word32 x → 0 ≤ n → word32 (ROTR n x).
Proof. intros. apply word32_lor; [by apply word32_shiftr|apply word32_to_u32]. Qed.

Create HintDb word32.
#[export] Hint Resolve word32_to_u32 word32_shiftr word32_add32 word32_lxor word32_land word32_lor
  word32_ROTR : word32.

(* ------------------------------------------------------------------ *)
(** ** Rounds and schedule *)

Lemma sigma_eq x a b c :
  word32 x → 0 ≤ a ≤ 32 → 0 ≤ b ≤ 32 → 0 ≤ c ≤ 32 →
  to_u32 (js_xor (js_xor (rotr x a) (rotr x b)) (rotr x c)) =
  Z.lxor (Z.lxor (ROTR a x) (ROTR b x)) (ROTR c x).
Proof. intros. by rewrite !u32_xor, !u32_rotr. Qed.

Lemma sigma_shr_eq x a b c :
  word32 x → 0 ≤ a ≤ 32 → 0 ≤ b ≤ 32 → 0 ≤ c →
  to_u32 (js_xor (js_xor (rotr x a) (rotr x b)) (js_ushr x c)) =
  Z.lxor (Z.lxor (ROTR a x) (ROTR b x)) (SHR c x).
Proof.
  intros Hx ? ? ?. rewrite !u32_xor, !u32_rotr, js_ushr_word by done. unfold SHR.
  by rewrite (to_u32_small (Z.shiftr x c)) by auto with word32.
Qed.

Lemma ch_eq e f g : word32 e → word32 f → word32 g →
  to_u32 (js_xor (js_and e f) (js_and (js_not e) g)) = Ch e f g.
Proof. intros. rewrite u32_xor, !u32_and, u32_not, !to_u32_small by done. done. Qed.

Lemma maj_eq a b c : word32 a → word32 b → word32 c →
  to_u32 (js_xor (js_xor (js_and a b) (js_and a c)) (js_and b c)) = Maj a b c.
Proof. intros. by rewrite !u32_xor, !u32_and, !to_u32_small. Qed.

Record word_regs (r : regs) : Prop := {
  wr_a : word32 (ra r); wr_b : word32 (rb r); wr_c : word32 (rc r); wr_d : word32 (rd r);
  wr_e : word32 (re r); wr_f : word32 (rf r); wr_g : word32 (rg r); wr_h : word32 (rh r);
}.

Lemma to_u32_add5 a b c d e : to_u32 (a + b + c + d + e) = add32 [a; b; c; d; e].
Proof. unfold add32, to_u32. cbn [fold_right]. f_equal. lia. Qed.

Lemma to_u32_add4 a b c d : to_u32 (a + b + c + d) = add32 [a; b; c; d].
Proof. unfold add32, to_u32. cbn [fold_right]. f_equal. lia. Qed.

Lemma to_u32_add2 a b : to_u32 (a + b) = add32 [a; b].
Proof. unfold add32, to_u32. cbn [fold_right]. f_equal. lia. Qed.

Lemma word32_Ch x y z : word32 x → word32 y → word32 z → word32 (Ch x y z).
Proof. intros Hx Hy Hz. apply word32_lxor; apply word32_land; auto. unfold word32 in *. lia. Qed.

Lemma word32_Maj x y z : word32 x → word32 y → word32 z → word32 (Maj x y z).
Proof. intros. unfold Maj. auto with word32. Qed.

Lemma round_eq k w r : word_regs r → round k w r = fips_round k w r.
Proof.
  destruct r as [a b c d e f g hh]. intros []; cbn in *. unfold round, fips_round.
  rewrite to_u32_add5, !to_u32_add2.
  assert (add32 [hh; js_xor (js_xor (rotr e 6) (rotr e 11)) (rotr e 25); js_xor (js_and e f) (js_and (js_not e) g); k; w]
    = add32 [hh; Sigma1 e; Ch e f g; k; w]) as ->.
  { apply add32_cong. repeat constructor; apply to_u32_word_eq; auto using word32_Ch, ch_eq, sigma_eq;
      [unfold Sigma1; auto 8 with word32 zarith|apply sigma_eq; [done|lia..]]. }
  assert (add32 [js_xor (js_xor (rotr a 2) (rotr a 13)) (rotr a 22); js_xor (js_xor (js_and a b) (js_and a c)) (js_and b c)]
    = add32 [Sigma0 a; Maj a b c]) as ->; [|done].
  apply add32_cong. repeat constructor; apply to_u32_word_eq; auto using word32_Maj, maj_eq;
    [unfold Sigma0; auto 8 with word32 zarith|apply sigma_eq; [done|lia..]].
Qed.

Lemma word_regs_round k w r : word_regs r → word_regs (fips_round k w r).
Proof. destruct r. intros []; cbn in *. constructor; cbn; auto with word32. Qed.

Lemma rounds_eq ks ws r : word_regs r → rounds ks ws r = fips_rounds ks ws r.
Proof.
  revert ws r. induction ks as [|k ks IH]; intros [|w ws] r Hr; try done.
  cbn [rounds fips_rounds]. rewrite round_eq by done. by apply IH, word_regs_round.
Qed.

Lemma word_regs_rounds ks ws r : word_regs r → word_regs (fips_rounds ks ws r).
Proof.
  revert ws r. induction ks as [|k ks IH]; intros [|w ws] r Hr; try done.
  cbn [fips_rounds]. by apply IH, word_regs_round.
Qed.

Lemma word32_word w i : Forall word32 w → word32 (word w i).
Proof.
  intros Hw. unfold word. destruct (w !! i) as [x|] eqn:Hx; cbn; [|unfold word32; lia].
  by eapply Forall_lookup_1 in Hx.
Qed.

Lemma schedule_eq n i w : Forall word32 w → i = length w → schedule n i w = fips_schedule n w.
Proof.
  revert i w. induction n as [|n IH]; intros i w Hw ->; [done|]. cbn [schedule fips_schedule].
  pose proof (λ j, word32_word w j Hw) as Hword.
  match goal with |- schedule _ _ (w ++ [?x]) = fips_schedule _ (w ++ [?y]) => assert (x = y) as -> end.
  - rewrite to_u32_add4.
    transitivity (add32 [word w (length w - 16); sigma0 (word w (length w - 15)); word w (length w - 7);
      sigma1 (word w (length w - 2))]); [|unfold add32; cbn [fold_right]; f_equal; lia].
    apply add32_cong. repeat constructor; apply to_u32_word_eq; auto;
      try (apply sigma_shr_eq; [auto|lia..]); try (by apply to_u32_small);
      unfold sigma0, sigma1, SHR; auto 8 with word32 zarith.
  - apply IH; [|by rewrite length_app, Nat.add_comm].
    apply Forall_app. split; [done|]. constructor; [apply word32_add32|constructor].
Qed.

Lemma length_fips_schedule n w : length (fips_schedule n w) = (n + length w)%nat.
Proof.
  revert w. induction n as [|n IH]; intros w; [done|]. cbn [fips_schedule].
  rewrite IH, length_app. cbn. lia.
Qed.

(** The derived constants are the standard's. *)
Lemma K_fips : K = fips_K.
Proof. vm_compute. reflexivity. Qed.

Lemma H0_fips : H0 = fips_H0.
Proof. vm_compute. reflexivity. Qed.

(* ------------------------------------------------------------------ *)
(** ** Blocks and padding *)

Lemma be_Z_word (b : bytes) : (length b ≤ 4)%nat → word32 (be_Z b).
Proof.
  intros Hb. unfold be_Z, word32. pose proof (le_Z_range (rev b)) as Hr. rewrite length_rev in Hr.
  assert (2 ^ (8 * Z.of_nat (length b)) ≤ 2 ^ 32); [apply Z.pow_le_mono_r; lia|lia].
Qed.

Lemma length_chunk (l : bytes) n : (length (take n l) ≤ n)%nat.
Proof. rewrite length_take. lia. Qed.

Lemma words_of_block i n (block : bytes) :
  map (λ j, be_Z (subarray block (j * 4) (j * 4 + 4))) (seq i n) = map be_Z (chunks n 4 (drop (i * 4) block)).
Proof.
  revert i. induction n as [|n IH]; intros i; [done|]. cbn [seq map chunks].
  rewrite IH, drop_drop. replace (i * 4 + 4)%nat with (S i * 4)%nat by lia. f_equal.
  unfold subarray. do 2 f_equal. lia.
Qed.

Lemma chunks_words n (l : bytes) : Forall word32 (map be_Z (chunks n 4 l)).
Proof.
  revert l. induction n as [|n IH]; intros l; cbn; constructor; auto using be_Z_word, length_chunk.
Qed.

Lemma length_chunks m n l : length (chunks m n l) = m.
Proof. revert l; induction m; intros; cbn; auto. Qed.

Lemma word_regs_of h : Forall word32 h → word_regs (regs_of h).
Proof. intros Hh. constructor; by apply word32_word. Qed.

Lemma zip_add_eq h k : zip_with (λ x y, to_u32 (x + y)) h k = zip_with (λ x y, add32 [x; y]) h k.
Proof.
  revert k. induction h as [|x h IH]; intros [|y k]; [reflexivity..|]. cbn [zip_with]. by rewrite to_u32_add2, IH.
Qed.

Lemma compress_eq h block : Forall word32 h → compress h block = fips_compress h block.
Proof.
  intros Hh. unfold compress, fips_compress. rewrite (words_of_block 0 16), drop_0, K_fips.
  rewrite schedule_eq, rounds_eq; [|by apply word_regs_of|apply chunks_words|by rewrite length_map, length_chunks].
  apply zip_add_eq.
Qed.

Lemma fips_compress_words h block : Forall word32 (fips_compress h block).
Proof.
  unfold fips_compress. apply Forall_lookup_2. intros i x.
  rewrite lookup_zip_with_Some. intros (? & ? & -> & _). apply word32_add32.
Qed.

Lemma fold_compress_eq bs h : Forall word32 h → fold_left compress bs h = fold_left fips_compress bs h.
Proof.
  revert h. induction bs as [|b bs IH]; intros h Hh; [done|]. cbn [fold_left].
  rewrite compress_eq by done. apply IH, fips_compress_words.
Qed.

Lemma blocks_of_chunks n l : blocks_of n l = chunks n 64 l.
Proof. revert l; induction n as [|n IH]; intros l; [done|]. cbn. by rewrite IH. Qed.

Lemma fips_H0_words : Forall word32 fips_H0.
Proof. repeat constructor; by vm_compute. Qed.

Lemma ceil_blocks n : 0 ≤ n → - (- (n + 9) / 64) * 64 = n + 1 + (55 - n) mod 64 + 8.
Proof.
  intros Hn. pose proof (Z.div_mod (- (n + 9)) 64 ltac:(lia)) as H1.
  pose proof (Z.div_mod (55 - n) 64 ltac:(lia)) as H2.
  pose proof (Z.mod_pos_bound (- (n + 9)) 64 ltac:(lia)).
  assert ((55 - n) mod 64 = (- (n + 9)) mod 64) as Hm; [|lia].
  replace (55 - n) with (- (n + 9) + 1 * 64) by lia. by rewrite Z.mod_add.
Qed.

Lemma length_zeros n : length (zeros n) = n.
Proof. apply length_replicate. Qed.

Lemma zeros_add n m : zeros (n + m) = zeros n ++ zeros m.
Proof. apply replicate_add. Qed.

Lemma length_be_bytes n z : length (be_bytes n z) = n.
Proof. unfold be_bytes. by rewrite length_rev, length_le_bytes. Qed.

Lemma pad_eq data : pad data = fips_pad data.
Proof.
  unfold pad, fips_pad. set (n := length data). set (z := Z.to_nat ((55 - Z.of_nat n) mod 64)).
  pose proof (Z.mod_pos_bound (55 - Z.of_nat n) 64 ltac:(lia)) as Hz.
  assert (Z.to_nat (- (- (Z.of_nat n + 9) / 64)) * 64 = n + (1 + (z + 8)))%nat as ->.
  { pose proof (ceil_blocks (Z.of_nat n) ltac:(lia)). lia. }
  rewrite <- (app_nil_l (zeros _)), set_bytes_zeros by (unfold n; cbn; lia). fold n. cbn [app].
  replace (n + (1 + (z + 8)) - n)%nat with (1 + (z + 8))%nat by lia.
  rewrite set_bytes_zeros by (cbn; lia). cbn [length].
  replace (1 + (z + 8) - 1)%nat with (z + 8)%nat by lia. rewrite zeros_add.
  assert (length ((data ++ [x80]) ++ zeros z ++ zeros 8) - 8 = length ((data ++ [x80]) ++ zeros z))%nat as Hlen.
  { rewrite !length_app, !length_zeros. cbn [length]. lia. }
  rewrite Hlen, app_assoc, <- (app_nil_r (zeros 8)), set_bytes_app;
    [|done|by rewrite length_zeros, length_be_bytes].
  by rewrite app_nil_r, <- !app_assoc, Z.mul_comm.
Qed.

Lemma sha256_reference data : sha256 data = fips_sha256 data.
Proof.
  unfold sha256, fips_sha256. cbv zeta. rewrite pad_eq, blocks_of_chunks, H0_fips.
  by rewrite fold_compress_eq by apply fips_H0_words.
Qed.

Lemma length_fold_compress bs h : length h = 8%nat → length (fold_left compress bs h) = 8%nat.
Proof.
  revert h. induction bs as [|b bs IH]; intros h Hh; [done|]. cbn [fold_left]. apply IH.
  unfold compress. rewrite length_zip_with, Hh. reflexivity.
Qed.

Lemma length_concat_be l : length (concat (map (be_bytes 4) l)) = (4 * length l)%nat.
Proof. induction l as [|x l IH]; [done|]. cbn [map concat length]. rewrite length_app, IH, length_be_bytes. lia. Qed.

Lemma length_sha256 data : length (sha256 data) = 32%nat.
Proof.
  unfold sha256. cbv zeta. rewrite length_concat_be, length_fold_compress; [done|]. by rewrite H0_fips.
Qed.

(** C35: [sha256] is SHA-256: with its constants derived by integer roots and
    JavaScript's signed 32-bit operators it computes, on every input, the
    function of FIPS 180-4 with the published constants. *)
Theorem sha256_fips data : sha256 data = fips_sha256 data ∧ length (sha256 data) = 32%nat.
Proof. split; [apply sha256_reference|apply length_sha256]. Qed.

(** The published test vectors. *)
Example sha256_abc : sha256Hex "abc" = "ba7816bf8f01cfea414140de5dae2223b00361a396177a9cb410ff61f20015ad".
Proof. vm_compute. reflexivity. Qed.

Example sha256_two_blocks :
  sha256Hex "abcdbcdecdefdefgefghfghighijhijkijkljklmklmnlmnomnopnopq" =
  "248d6a61d20638b8e5c026930c3e6039a33ce45964ff2167f6ecedd419db06c1".
Proof. vm_compute. reflexivity. Qed.

Lemma length_fips_sha256 data : length (fips_sha256 data) = 32%nat.
Proof. rewrite <- sha256_reference. apply length_sha256. Qed.

(** The digest instance the witnesses run on: the reference, which computes faster. *)
#[export] Instance sha256_digest : Digest := {| digest := fips_sha256; length_digest := length_fips_sha256 |}.

(* ------------------------------------------------------------------ *)
(** ** The integer roots *)

Section Roots.
  Variables (value degree : Z).
  Hypothesis Hv : 1 ≤ value.
  Hypothesis Hd : 1 ≤ degree.

(** Newton's step never reaches zero, where the source would divide by it. *)
Lemma newton_positive x : 1 ≤ x → 1 ≤ ((degree - 1) * x + value / x ^ (degree - 1)) / degree.
Proof.
  intros Hx. apply Z.div_le_lower_bound; [lia|].
  pose proof (Z.pow_pos_nonneg x (degree - 1) ltac:(lia) ltac:(lia)) as Hp.
  pose proof (Z.div_pos value (x ^ (degree - 1)) ltac:(lia) Hp).
  destruct (decide (x = 1)) as [->|]; [rewrite Z.pow_1_l, Z.div_1_r by lia; lia|].
  destruct (decide (degree = 1)) as [->|]; [|nia].
  change (1 - 1) with 0. rewrite Z.pow_0_r, Z.div_1_r. lia.
Qed.

Lemma newton_total fuel x : 1 ≤ x → (Z.to_nat x ≤ fuel)%nat → ∃ y, newton fuel value degree x = Some y ∧ 1 ≤ y ≤ x.
Proof.
  revert x. induction fuel as [|fuel IH]; intros x Hx Hf; [lia|]. cbn [newton].
  pose proof (newton_positive x Hx) as Hn.
  destruct (Z.leb_spec x (((degree - 1) * x + value / x ^ (degree - 1)) / degree)); [exists x; split; [done|lia]|].
  destruct (IH _ Hn) as (y & Hy & ?); [lia|]. exists y. split; [done|lia].
Qed.

Lemma step_down_total fuel x :
  1 ≤ x → (Z.to_nat x ≤ fuel)%nat → ∃ y, step_down fuel value degree x = Some y ∧ 1 ≤ y ≤ x ∧ y ^ degree ≤ value.
Proof.
  revert x. induction fuel as [|fuel IH]; intros x Hx Hf; [lia|]. cbn [step_down].
  destruct (Z.ltb_spec value (x ^ degree)) as [Hlt|Hge]; [|exists x; repeat split; lia].
  assert (x ≠ 1) by (intros ->; rewrite Z.pow_1_l in Hlt by lia; lia).
  destruct (IH (x - 1)) as (y & Hy & ? & ?); [lia|lia|]. exists y. repeat split; try done; lia.
Qed.

Lemma step_up_total fuel x :
  1 ≤ x → x ^ degree ≤ value → (Z.to_nat (value - x) < fuel)%nat →
  ∃ y, step_up fuel value degree x = Some y ∧ 1 ≤ y ∧ y ^ degree ≤ value < (y + 1) ^ degree.
Proof.
  revert x. induction fuel as [|fuel IH]; intros x Hx Hle Hf; [lia|]. cbn [step_up].
  destruct (Z.leb_spec ((x + 1) ^ degree) value) as [Hle'|Hlt]; [|exists x; repeat split; lia].
  apply IH; [lia|done|]. assert (x + 1 ≤ (x + 1) ^ degree); [|lia].
  rewrite <- (Z.pow_1_r (x + 1)) at 1. apply Z.pow_le_mono_r; lia.
Qed.
End Roots.

(** [integerRoot] ends and is exact: with enough rounds - and every larger
    budget - it returns the floor of the [degree]-th root, for every positive
    value and degree; Newton's iterate stays positive, so it never divides by
    zero. *)
Theorem integerRoot_exact value degree :
  1 ≤ value → 1 ≤ degree →
  ∃ enough, ∀ fuel, (enough ≤ fuel)%nat →
    ∃ r, integerRoot fuel value degree = Some r ∧ 1 ≤ r ∧ r ^ degree ≤ value < (r + 1) ^ degree.
Proof.
  intros Hv Hd. unfold integerRoot. cbv zeta. set (x0 := Z.shiftl 1 (bit_length value / degree + 1)).
  assert (1 ≤ x0) as Hx0.
  { unfold x0. rewrite Z.shiftl_mul_pow2, Z.mul_1_l.
    - pose proof (Z.pow_pos_nonneg 2 (bit_length value / degree + 1)) as Hp.
      assert (0 ≤ bit_length value / degree); [|lia]. apply Z.div_pos; [|lia].
      unfold bit_length. destruct (value =? 0); [lia|]. pose proof (Z.log2_nonneg value). lia.
    - assert (0 ≤ bit_length value / degree); [|lia]. apply Z.div_pos; [|lia].
      unfold bit_length. destruct (value =? 0); [lia|]. pose proof (Z.log2_nonneg value). lia. }
  exists (Z.to_nat x0 + Z.to_nat value + 1)%nat. intros fuel Hfuel.
  destruct (newton_total value degree Hv Hd fuel x0 Hx0) as (x1 & -> & Hx1); [lia|].
  cbn [mbind option_bind].
  destruct (step_down_total value degree Hv Hd fuel x1) as (x2 & -> & Hx2 & Hle); [lia|lia|].
  cbn [mbind option_bind]. apply step_up_total; try done; lia.
Qed.

Lemma integerRoot_exact_witness :
  ∃ enough, ∀ fuel, (enough ≤ fuel)%nat →
    ∃ r, integerRoot fuel (Z.shiftl 2 64) 2 = Some r ∧ 1 ≤ r ∧ r ^ 2 ≤ Z.shiftl 2 64 < (r + 1) ^ 2.
Proof. apply (integerRoot_exact (Z.shiftl 2 64) 2); [vm_compute; discriminate|lia]. Defined.
