(* ===== verification/Abi.v ===== *)
(** * abi.ts: the [assert_safe_execution] ABI v2 encoder and its predicates *)

From S2P Require Import Prelude Js Errors Kit.
From Stdlib Require Import Floats.SpecFloat.

Definition ABI_VERSION_V2 : Z := 2.
Definition ASSERT_SAFE_EXECUTION_V2_LEN : nat := 99.

(** [DownstreamAdapterKind]: the ABI byte of each supported action. *)
Definition TOKEN_2022_TRANSFER_CHECKED : Z := 1.
Definition JUPITER_ROUTE_V2_BUY_USDC : Z := 2.
Definition JUPITER_ROUTE_V2_SELL_USDC : Z := 3.
Definition DownstreamAdapterKind : list Z :=
  [TOKEN_2022_TRANSFER_CHECKED; JUPITER_ROUTE_V2_BUY_USDC; JUPITER_ROUTE_V2_SELL_USDC].

(** [ActivationPhase]: numbers at run time, so an unknown phase can be presented. *)
Definition Pending : Z := 0.
Definition Activated : Z := 1.

Record ProtectedState := mkProtectedState {
  multiplier : bytes;
  newMultiplier : bytes;
  newMultiplierEffectiveTimestamp : Z;
}.

#[export] Instance ProtectedState_eq_dec : EqDecision ProtectedState.
Proof. solve_decision. Defined.

Record ProtectionWindow := mkWindow { beforeSecs : jsnum; afterSecs : jsnum }.

Record AssertSafeExecutionRequest := mkRequest {
  expected : ProtectedState;
  expectedPhase : Z;
  window : ProtectionWindow;
}.

Record AssertSafeExecutionV2Request := mkRequestV2 {
  execution : AssertSafeExecutionRequest;
  expectedMint : Address;
  adapterKind : Z;
  requestCommitment : bytes;
}.

Definition MULTIPLIER_LEN : nat := 8.
Definition I64_MIN : Z := - 2 ^ 63.
Definition I64_MAX : Z := 2 ^ 63 - 1.
Definition U32_MAX : Z := 2 ^ 32 - 1.

(* ------------------------------------------------------------------ *)
(** ** IEEE-754 binary64 values of eight stored bytes *)

(** [getFloat64] of a 64-bit pattern. *)
Definition f64_of_bits (u : Z) : spec_float :=
  let s := 2 ^ 63 <=? u in
  let e := (u / 2 ^ 52) mod 2 ^ 11 in
  let m := u mod 2 ^ 52 in
  if e =? 2047 then (if m =? 0 then S754_infinity s else S754_nan)
  else if e =? 0 then match m with Z.pos p => S754_finite s p (-1074) | _ => S754_zero s end
  else match m + 2 ^ 52 with Z.pos p => S754_finite s p (e - 1075) | _ => S754_nan end.

(** [Number.isFinite]. *)
Definition sf_isFinite (f : spec_float) : bool :=
  match f with S754_zero _ | S754_finite _ _ _ => true | _ => false end.

(** 2.2250738585072014e-308, which is [2^-1022]. *)
Definition MIN_POSITIVE_NORMAL_F64 : spec_float := S754_finite false 4503599627370496 (-1074).

(** [isValidStoredMultiplier]. *)
Definition isValidStoredMultiplier (b : bytes) : bool :=
  if negb (Nat.eqb (length b) MULTIPLIER_LEN) then false
  else
    let value := f64_of_bits (le_Z b) in
    sf_isFinite value && SFleb MIN_POSITIVE_NORMAL_F64 value.

(* ------------------------------------------------------------------ *)
(** ** State predicates *)

(** [bytesEqual]: equal lengths and [a.every((byte, index) => byte === b[index])]. *)
Fixpoint every_indexed (f : nat → byte → bool) (i : nat) (l : bytes) : bool :=
  match l with [] => true | x :: l => f i x && every_indexed f (S i) l end.

Definition bytesEqual (a b : bytes) : bool :=
  Nat.eqb (length a) (length b) &&
  every_indexed (λ index x, bool_decide (b !! index = Some x)) 0 a.

Definition hasScheduledChange (state : ProtectedState) : bool :=
  negb (bytesEqual (multiplier state) (newMultiplier state)).

Definition phaseAt (state : ProtectedState) (unixTimestamp : Z) : Z :=
  if newMultiplierEffectiveTimestamp state <=? unixTimestamp then Activated else Pending.

Definition isValidWindowSecs (secs : jsnum) : bool := num_in_range 0 U32_MAX secs.

Definition isDownstreamAdapterKind (value : Z) : bool :=
  existsb (λ kind, kind =? value) DownstreamAdapterKind.

(* ------------------------------------------------------------------ *)
(** ** The encoder *)

Section Encode.
  Context `{!AddressCodec}.

(** The buffer writes at the end of [encodeAssertSafeExecutionV2]. *)
Definition writePayload (request : AssertSafeExecutionV2Request) (mint : bytes) : bytes :=
  let '(mkRequest expected expectedPhase window) := execution request in
  let out := zeros ASSERT_SAFE_EXECUTION_V2_LEN in
  let out := set_bytes out 0 [z2b ABI_VERSION_V2] in
  let out := set_bytes out 1 mint in
  let out := set_bytes out 33 (multiplier expected) in
  let out := set_bytes out 41 (newMultiplier expected) in
  let out := set_bytes out 49 (le_bytes 8 (newMultiplierEffectiveTimestamp expected)) in
  let out := set_bytes out 57 [z2b expectedPhase] in
  let out := set_bytes out 58 (le_bytes 4 (num_value (beforeSecs window))) in
  let out := set_bytes out 62 (le_bytes 4 (num_value (afterSecs window))) in
  let out := set_bytes out 66 [z2b (adapterKind request)] in
  set_bytes out 67 (requestCommitment request).

Definition encodeAssertSafeExecutionV2 (request : AssertSafeExecutionV2Request) : result client_exn bytes :=
  let '(mkRequest expected expectedPhase window) := execution request in
  guard_throw_if (negb (isValidStoredMultiplier (multiplier expected)) ||
                  negb (isValidStoredMultiplier (newMultiplier expected)))
    C_InvalidExpectedState "multipliers must be 8 bytes encoding a positive normal f64";;
  let timestamp := newMultiplierEffectiveTimestamp expected in
  guard_throw_if ((timestamp <? I64_MIN) || (I64_MAX <? timestamp))
    C_InvalidExpectedState "effective timestamp outside i64 range";;
  guard_throw_if (negb (expectedPhase =? Pending) && negb (expectedPhase =? Activated))
    C_InvalidExpectedState ("unknown activation phase " +:+ show_Z expectedPhase);;
  guard_throw_if (negb (isValidWindowSecs (beforeSecs window)))
    C_InvalidProtectionWindow "beforeSecs must be a u32";;
  guard_throw_if (negb (isValidWindowSecs (afterSecs window)))
    C_InvalidProtectionWindow "afterSecs must be a u32";;
  guard_throw_if (negb (isDownstreamAdapterKind (adapterKind request)))
    C_InvalidDownstream ("unsupported adapter kind " +:+ show_Z (adapterKind request));;
  guard_throw_if (negb (Nat.eqb (length (requestCommitment request)) 32))
    C_InvalidDownstream "downstream commitment must be 32 bytes";;
  mint ← of_option CodecErr (encodeAddress (expectedMint request));
  Ok (writePayload request mint).
End Encode.

(* ------------------------------------------------------------------ *)
(** ** What the predicates decide *)

Lemma every_indexed_spec f i l :
  every_indexed f i l = true ↔ ∀ j x, l !! j = Some x → f (i + j)%nat x = true.
Proof.
  revert i; induction l as [|y l IH]; intros i; simpl.
  - split; [by intros _ j x|done].
  - rewrite andb_true_iff, IH. split.
    + intros [Hy Hl] [|j] x Hx; simplify_eq/=; [by rewrite Nat.add_0_r|].
      rewrite <- Nat.add_succ_comm. by apply Hl.
    + intros H. split; [rewrite <- (Nat.add_0_r i); by apply H|].
      intros j x Hx. rewrite Nat.add_succ_comm. by apply H.
Qed.

Lemma bytesEqual_spec a b : bytesEqual a b = true ↔ a = b.
Proof.
  unfold bytesEqual. rewrite andb_true_iff, Nat.eqb_eq, every_indexed_spec. split.
  - intros [Hlen H]. apply list_eq_same_length with (length b); [done..|].
    intros i x y Hi Hx Hy. specialize (H _ _ Hx). apply bool_decide_eq_true in H. simpl in H. congruence.
  - intros ->. split; [done|]. intros. by apply bool_decide_eq_true.
Qed.

Lemma bytesEqual_refl a : bytesEqual a a = true.
Proof. by apply bytesEqual_spec. Qed.

Lemma bytesEqual_false a b : bytesEqual a b = false ↔ a ≠ b.
Proof. rewrite <- not_true_iff_false, bytesEqual_spec. done. Qed.

Lemma hasScheduledChange_spec state :
  hasScheduledChange state = true ↔ multiplier state ≠ newMultiplier state.
Proof. unfold hasScheduledChange. by rewrite negb_true_iff, bytesEqual_false. Qed.

Lemma phaseAt_cases state t : phaseAt state t = Pending ∨ phaseAt state t = Activated.
Proof. unfold phaseAt. destruct (_ <=? _); auto. Qed.

(** The bit patterns of the positive normal binary64 numbers: exponent field
    from 1 to 2046 with a clear sign bit. *)
Definition positive_normal_bits (u : Z) : Prop := 2 ^ 52 ≤ u < 2047 * 2 ^ 52.

Section FloatFields.
  Variables (u s e m : Z).
  Hypothesis Hs : 0 ≤ s < 2.
  Hypothesis He : 0 ≤ e < 2048.
  Hypothesis Hm : 0 ≤ m < 2 ^ 52.
  Hypothesis Hu : u = s * 2 ^ 63 + e * 2 ^ 52 + m.

Lemma f64_sign : (2 ^ 63 <=? u) = (s =? 1).
Proof. destruct (Z.leb_spec (2 ^ 63) u), (Z.eqb_spec s 1); lia. Qed.

Lemma f64_exponent : (u / 2 ^ 52) mod 2 ^ 11 = e.
Proof.
  replace u with (m + (s * 2 ^ 11 + e) * 2 ^ 52) by lia.
  rewrite Z.div_add, Z.div_small, Z.add_0_l, Z.add_comm, Z.mod_add, Z.mod_small; lia.
Qed.

Lemma f64_mantissa : u mod 2 ^ 52 = m.
Proof.
  replace u with (m + (s * 2 ^ 11 + e) * 2 ^ 52) by lia.
  rewrite Z.mod_add, Z.mod_small; lia.
Qed.
End FloatFields.

Lemma f64_fields u : 0 ≤ u < 2 ^ 64 →
  ∃ s e m, 0 ≤ s < 2 ∧ 0 ≤ e < 2048 ∧ 0 ≤ m < 2 ^ 52 ∧ u = s * 2 ^ 63 + e * 2 ^ 52 + m.
Proof.
  intros Hu. exists (u / 2 ^ 63), ((u mod 2 ^ 63) / 2 ^ 52), (u mod 2 ^ 52).
  pose proof (Z.div_mod u (2 ^ 63) ltac:(lia)). pose proof (Z.mod_pos_bound u (2 ^ 63) ltac:(lia)).
  pose proof (Z.div_mod (u mod 2 ^ 63) (2 ^ 52) ltac:(lia)).
  pose proof (Z.mod_pos_bound u (2 ^ 52) ltac:(lia)).
  assert ((u mod 2 ^ 63) mod 2 ^ 52 = u mod 2 ^ 52).
  { apply Z.mod_mod_divide. by exists (2 ^ 11). }
  repeat split; try lia; try (apply Z.div_pos; lia); apply Z.div_lt_upper_bound; lia.
Qed.

(** Comparison with the smallest positive normal number. *)
Lemma SFleb_min_normal p e : -1074 ≤ e →
  SFleb MIN_POSITIVE_NORMAL_F64 (S754_finite false p e) = true ↔ (e = -1074 → 2 ^ 52 ≤ Z.pos p).
Proof.
  intros He. unfold SFleb, SFcompare, MIN_POSITIVE_NORMAL_F64.
  destruct (Z.compare_spec (-1074) e) as [<-|He'|He']; [|split; [intros _ ?; lia|reflexivity]|lia].
  change (Pos.compare_cont Eq 4503599627370496 p) with (Pos.compare 4503599627370496 p).
  change (2 ^ 52) with (Z.pos 4503599627370496).
  destruct (Pos.compare_spec 4503599627370496 p) as [Hp|Hp|Hp]; split; intros H.
  1, 3: lia.
  1, 2: reflexivity.
  - discriminate H.
  - exfalso. specialize (H eq_refl). exact (proj1 (Pos.le_nlt _ _) H Hp).
Qed.

(** The float reading of [isValidStoredMultiplier] is an interval of bit patterns. *)
Lemma valid_bits u : 0 ≤ u < 2 ^ 64 →
  sf_isFinite (f64_of_bits u) && SFleb MIN_POSITIVE_NORMAL_F64 (f64_of_bits u) = true
  ↔ positive_normal_bits u.
Proof.
  intros Hu. destruct (f64_fields u Hu) as (s & e & m & Hs & He & Hm & Heq).
  unfold positive_normal_bits, f64_of_bits.
  rewrite (f64_sign u s e m), (f64_exponent u s e m), (f64_mantissa u s e m) by assumption.
  destruct (Z.eqb_spec e 2047) as [->|].
  { destruct (m =? 0); cbn; split; intros; try discriminate; lia. }
  destruct (Z.eqb_spec e 0) as [->|].
  - destruct m as [|p|p]; [cbn; split; intros; [discriminate|lia]| |lia].
    destruct (Z.eqb_spec s 1); [cbn; split; intros; [discriminate|lia]|].
    cbn [sf_isFinite andb]. rewrite SFleb_min_normal by lia. lia.
  - destruct (m + 2 ^ 52) as [|p|p] eqn:Hp; [lia| |lia].
    destruct (Z.eqb_spec s 1); [cbn; split; intros; [discriminate|lia]|].
    cbn [sf_isFinite andb]. rewrite SFleb_min_normal by lia. lia.
Qed.

Lemma isValidStoredMultiplier_spec b :
  isValidStoredMultiplier b = true ↔ length b = 8%nat ∧ positive_normal_bits (le_Z b).
Proof.
  unfold isValidStoredMultiplier, MULTIPLIER_LEN.
  destruct (Nat.eqb_spec (length b) 8) as [Hlen|]; simpl; [|split; [done|by intros []]].
  rewrite valid_bits; [tauto|]. pose proof (le_Z_range b) as H. by rewrite Hlen in H.
Qed.

Lemma isValidStoredMultiplier_length b : isValidStoredMultiplier b = true → length b = 8%nat.
Proof. by intros []%isValidStoredMultiplier_spec. Qed.

Lemma isValidWindowSecs_spec n :
  isValidWindowSecs n = true ↔ isInteger n = true ∧ u32_range (num_value n).
Proof.
  unfold isValidWindowSecs, u32_range, U32_MAX. rewrite num_in_range_spec.
  split; intros [? ?]; (split; [done|lia]).
Qed.

Lemma isDownstreamAdapterKind_spec k : isDownstreamAdapterKind k = true ↔ k = 1 ∨ k = 2 ∨ k = 3.
Proof.
  unfold isDownstreamAdapterKind. rewrite existsb_exists. split.
  - intros (x & Hx & ->%Z.eqb_eq). simpl in Hx. unfold TOKEN_2022_TRANSFER_CHECKED,
      JUPITER_ROUTE_V2_BUY_USDC, JUPITER_ROUTE_V2_SELL_USDC in Hx. intuition lia.
  - intros Hk. exists k. rewrite Z.eqb_refl. split; [|done].
    destruct Hk as [->|[->| ->]]; simpl; auto.
Qed.

(* ------------------------------------------------------------------ *)
(** ** What the encoder writes *)

(** The payload as the documented field sequence. *)
Definition payload_layout (request : AssertSafeExecutionV2Request) (mint : bytes) : bytes :=
  let '(mkRequest expected expectedPhase window) := execution request in
  [z2b ABI_VERSION_V2] ++ mint ++ multiplier expected ++ newMultiplier expected ++
  le_bytes 8 (newMultiplierEffectiveTimestamp expected) ++ [z2b expectedPhase] ++
  le_bytes 4 (num_value (beforeSecs window)) ++ le_bytes 4 (num_value (afterSecs window)) ++
  [z2b (adapterKind request)] ++ requestCommitment request.

Lemma writePayload_layout request mint :
  length mint = 32%nat →
  length (multiplier (expected (execution request))) = 8%nat →
  length (newMultiplier (expected (execution request))) = 8%nat →
  length (requestCommitment request) = 32%nat →
  writePayload request mint = payload_layout request mint.
Proof.
  destruct request as [[[m n t] phase [b a]] em kind c].
  cbn -[le_bytes set_bytes zeros app]. intros Hmint Hm Hn Hc.
  rewrite <- (app_nil_l (zeros ASSERT_SAFE_EXECUTION_V2_LEN)).
  unfold ASSERT_SAFE_EXECUTION_V2_LEN.
  repeat (rewrite set_bytes_zeros;
    [|repeat rewrite ?length_app, ?length_le_bytes, ?Hmint, ?Hm, ?Hn, ?Hc; done
     |rewrite ?length_le_bytes, ?Hmint, ?Hm, ?Hn, ?Hc; cbn; lia]).
  rewrite ?length_le_bytes, ?Hmint, ?Hm, ?Hn, ?Hc. cbn [length Nat.sub].
  change (zeros 0) with (@nil byte).
  by rewrite app_nil_r, <- !app_assoc.
Qed.

Section EncodeSpec.
  Context `{!AddressCodec}.

(** A request the program can receive: what the encoder accepts. *)
Record encodable (request : AssertSafeExecutionV2Request) : Prop := {
  enc_multiplier : isValidStoredMultiplier (multiplier (expected (execution request))) = true;
  enc_newMultiplier : isValidStoredMultiplier (newMultiplier (expected (execution request))) = true;
  enc_timestamp : i64_range (newMultiplierEffectiveTimestamp (expected (execution request)));
  enc_phase : expectedPhase (execution request) = Pending ∨ expectedPhase (execution request) = Activated;
  enc_before : isValidWindowSecs (beforeSecs (window (execution request))) = true;
  enc_after : isValidWindowSecs (afterSecs (window (execution request))) = true;
  enc_kind : isDownstreamAdapterKind (adapterKind request) = true;
  enc_commitment : length (requestCommitment request) = 32%nat;
}.

Lemma i64_guard z : (z <? I64_MIN) || (I64_MAX <? z) = false ↔ i64_range z.
Proof. unfold I64_MIN, I64_MAX, i64_range. rewrite orb_false_iff, !Z.ltb_ge. lia. Qed.

Lemma phase_guard z :
  negb (z =? Pending) && negb (z =? Activated) = false ↔ z = Pending ∨ z = Activated.
Proof. rewrite andb_false_iff, !negb_false_iff, !Z.eqb_eq. done. Qed.

Lemma encodeAssertSafeExecutionV2_Ok request out :
  encodeAssertSafeExecutionV2 request = Ok out ↔
  encodable request ∧
  ∃ mint, encodeAddress (expectedMint request) = Some mint ∧ out = payload_layout request mint.
Proof.
  assert (∀ mint, encodable request → encodeAddress (expectedMint request) = Some mint →
    writePayload request mint = payload_layout request mint) as Hlayout.
  { intros mint [] Hmint. apply writePayload_layout;
      eauto using length_encodeAddress, isValidStoredMultiplier_length. }
  unfold encodeAssertSafeExecutionV2.
  destruct (execution request) as [exp phase win] eqn:Hexec.
  rewrite !guard_then_Ok, bind_Ok. setoid_rewrite of_option_Ok.
  rewrite i64_guard, phase_guard, orb_false_iff, !negb_false_iff, Nat.eqb_eq. split.
  - intros ([? ?] & ? & ? & ? & ? & ? & ? & mint & Hmint & [= <-]).
    assert (encodable request) by (constructor; rewrite ?Hexec; done).
    split; [done|]. exists mint. auto.
  - intros [Henc (mint & Hmint & ->)]. rewrite <- Hlayout by done.
    destruct Henc. rewrite Hexec in *. repeat (split; [done|]). by exists mint.
Qed.

Lemma encode_throws_guard request :
  isAddress (expectedMint request) = true → ¬ encodable request →
  ∃ e, encodeAssertSafeExecutionV2 request = Err (GuardErr e).
Proof.
  intros Hmint Hno.
  assert (∃ mint, encodeAddress (expectedMint request) = Some mint) as [mint Hm]
    by by apply bool_decide_eq_true in Hmint.
  destruct (encodeAssertSafeExecutionV2 request) as [out|e] eqn:He.
  - apply encodeAssertSafeExecutionV2_Ok in He as [? _]. done.
  - revert He. unfold encodeAssertSafeExecutionV2.
    destruct (execution request). rewrite Hm. intros He.
    repeat (apply guard_then_Err in He as [[_ ->]|He]; [by eexists|]). done.
Qed.
End EncodeSpec.
