(* ===== verification/OnChain.v ===== *)
(** * The program the clients talk to: instruction.rs, state.rs and guard.rs

    The on-chain side of the contract, translated from
    [programs/equity_guard/src]: the ABI v2 reader and writer and the
    execution-time policy. The client files are proved against it. *)

From S2P Require Import Prelude Js Errors Kit Base58 Abi.
From Stdlib Require Import Floats.SpecFloat.

(* ------------------------------------------------------------------ *)
(** ** state.rs *)

(** [f64::is_normal]: neither zero, subnormal, infinite nor NaN. *)
Definition f64_is_normal (f : spec_float) : bool :=
  match f with S754_finite _ m _ => 2 ^ 52 <=? Z.pos m | _ => false end.

(** [f64::is_sign_positive]: the sign bit is clear. *)
Definition f64_is_sign_positive (u : Z) : bool := negb (Z.testbit u 63).

(** [StoredMultiplier::new], on the eight bytes of a [[u8; 8]]. *)
Definition StoredMultiplier_new (b : bytes) : option bytes :=
  if f64_is_normal (f64_of_bits (le_Z b)) && f64_is_sign_positive (le_Z b) then Some b else None.

Inductive ActivationPhase : Set := PhasePending | PhaseActivated.

#[export] Instance ActivationPhase_eq_dec : EqDecision ActivationPhase.
Proof. solve_decision. Defined.

Definition ActivationPhase_from_u8 (value : Z) : option ActivationPhase :=
  if value =? 0 then Some PhasePending else if value =? 1 then Some PhaseActivated else None.

(** [expected_phase as u8]. *)
Definition phase_as_u8 (phase : ActivationPhase) : Z :=
  match phase with PhasePending => 0 | PhaseActivated => 1 end.

(** The fields of the program's [ProtectedState]; the multipliers are bytes
    that [StoredMultiplier::new] accepted. *)
Record GuardState := mkGuardState {
  gs_multiplier : bytes;
  gs_new_multiplier : bytes;
  gs_effective_timestamp : Z;
}.

#[export] Instance GuardState_eq_dec : EqDecision GuardState.
Proof. solve_decision. Defined.

Definition has_scheduled_change (s : GuardState) : bool :=
  bool_decide (gs_multiplier s ≠ gs_new_multiplier s).

Definition phase_at (s : GuardState) (unix_timestamp : Z) : ActivationPhase :=
  if gs_effective_timestamp s <=? unix_timestamp then PhaseActivated else PhasePending.

(* ------------------------------------------------------------------ *)
(** ** instruction.rs *)

Record GuardWindow := mkGuardWindow { before_secs : Z; after_secs : Z }.

Record AssertSafeExecution := mkAssert {
  as_expected : GuardState;
  as_expected_phase : ActivationPhase;
  as_window : GuardWindow;
}.

Inductive DownstreamAdapter : Set :=
| Token2022TransferChecked
| JupiterRouteV2BuyUsdc
| JupiterRouteV2SellUsdc.

#[export] Instance DownstreamAdapter_eq_dec : EqDecision DownstreamAdapter.
Proof. solve_decision. Defined.

Definition DownstreamAdapter_from_u8 (value : Z) : option DownstreamAdapter :=
  if value =? 1 then Some Token2022TransferChecked
  else if value =? 2 then Some JupiterRouteV2BuyUsdc
  else if value =? 3 then Some JupiterRouteV2SellUsdc
  else None.

Definition adapter_as_u8 (adapter : DownstreamAdapter) : Z :=
  match adapter with
  | Token2022TransferChecked => 1
  | JupiterRouteV2BuyUsdc => 2
  | JupiterRouteV2SellUsdc => 3
  end.

Record AssertSafeExecutionV2 := mkAssertV2 {
  a2_expected_mint : bytes;
  a2_execution : AssertSafeExecution;
  a2_adapter : DownstreamAdapter;
  a2_downstream_commitment : bytes;
}.

(** [Reader::take]: the next [n] bytes and the rest. *)
Definition take_bytes (n : nat) (rest : bytes) : result EquityGuardErrorName (bytes * bytes) :=
  if Nat.leb n (length rest) then Ok (take n rest, drop n rest) else Err E_InvalidInstructionLength.

Definition unpack (data : bytes) : result EquityGuardErrorName AssertSafeExecutionV2 :=
  match data with
  | [] => Err E_UnsupportedInstruction
  | version :: fields =>
      throw_if (negb (b2z version =? 2)) E_UnsupportedVersion;;
      throw_if (negb (Nat.eqb (length data) ASSERT_SAFE_EXECUTION_V2_LEN)) E_InvalidInstructionLength;;
      '(expected_mint, r) ← take_bytes 32 fields;
      '(multiplier, r) ← take_bytes 8 r;
      '(new_multiplier, r) ← take_bytes 8 r;
      '(timestamp, r) ← take_bytes 8 r;
      '(phase, r) ← take_bytes 1 r;
      '(before, r) ← take_bytes 4 r;
      '(after, r) ← take_bytes 4 r;
      '(adapter, r) ← take_bytes 1 r;
      '(commitment, r) ← take_bytes 32 r;
      match StoredMultiplier_new multiplier, StoredMultiplier_new new_multiplier,
            ActivationPhase_from_u8 (le_Z phase) with
      | Some multiplier, Some new_multiplier, Some expected_phase =>
          adapter ← of_option E_UnsupportedAdapter (DownstreamAdapter_from_u8 (le_Z adapter));
          Ok {| a2_expected_mint := expected_mint;
                a2_execution := {|
                  as_expected := mkGuardState multiplier new_multiplier (to_signed 8 (le_Z timestamp));
                  as_expected_phase := expected_phase;
                  as_window := mkGuardWindow (le_Z before) (le_Z after) |};
                a2_adapter := adapter;
                a2_downstream_commitment := commitment |}
      | _, _, _ => Err E_InvalidExpectedState
      end
  end.

(** [pack]: the fields copied one after the other. *)
Definition pack (request : AssertSafeExecutionV2) : bytes :=
  let e := a2_execution request in
  [z2b 2] ++ a2_expected_mint request ++
  gs_multiplier (as_expected e) ++ gs_new_multiplier (as_expected e) ++
  le_bytes 8 (gs_effective_timestamp (as_expected e)) ++
  [z2b (phase_as_u8 (as_expected_phase e))] ++
  le_bytes 4 (before_secs (as_window e)) ++ le_bytes 4 (after_secs (as_window e)) ++
  [z2b (adapter_as_u8 (a2_adapter request))] ++ a2_downstream_commitment request.

(* ------------------------------------------------------------------ *)
(** ** guard.rs *)

(** [i64::checked_sub] and [i64::checked_add]. *)
Definition checked_i64 (z : Z) : option Z :=
  if (I64_MIN <=? z) && (z <=? I64_MAX) then Some z else None.

(** [ProtectionWindow::contains]. *)
Definition contains (w : GuardWindow) (activation now : Z) : result EquityGuardErrorName bool :=
  start ← of_option E_ArithmeticOverflow (checked_i64 (activation - before_secs w));
  stop ← of_option E_ArithmeticOverflow (checked_i64 (activation + after_secs w));
  Ok ((start <=? now) && (now <=? stop)).

(** [guard::check]. *)
Definition check (request : AssertSafeExecution) (actual : GuardState) (unix_timestamp : Z)
    : result EquityGuardErrorName unit :=
  let expected := as_expected request in
  throw_if (bool_decide (gs_multiplier actual ≠ gs_multiplier expected)) E_MultiplierChanged;;
  throw_if (bool_decide (gs_new_multiplier actual ≠ gs_new_multiplier expected)) E_NewMultiplierChanged;;
  throw_if (negb (gs_effective_timestamp actual =? gs_effective_timestamp expected))
    E_EffectiveTimestampChanged;;
  if negb (has_scheduled_change actual) then Ok tt
  else
    inside ← contains (as_window request) (gs_effective_timestamp actual) unix_timestamp;
    throw_if inside E_InsideTransitionWindow;;
    throw_if (bool_decide (phase_at actual unix_timestamp ≠ as_expected_phase request))
      E_ActivationPhaseChanged;;
    Ok tt.

(* ------------------------------------------------------------------ *)
(** ** The reader and the writer are inverse *)

Lemma f64_is_normal_spec u : 0 ≤ u < 2 ^ 64 →
  f64_is_normal (f64_of_bits u) && f64_is_sign_positive u = true ↔ positive_normal_bits u.
Proof.
  intros Hu. destruct (f64_fields u Hu) as (s & e & m & Hs & He & Hm & Heq).
  assert (f64_is_sign_positive u = (s =? 0)) as ->.
  { unfold f64_is_sign_positive. rewrite Z.testbit_odd, Z.shiftr_div_pow2 by lia.
    replace (u / 2 ^ 63) with s; [|apply Z.div_unique with (e * 2 ^ 52 + m); lia].
    assert (s = 0 ∨ s = 1) as [->| ->] by lia; done. }
  unfold positive_normal_bits, f64_of_bits.
  rewrite (f64_sign u s e m), (f64_exponent u s e m), (f64_mantissa u s e m) by assumption.
  rewrite andb_true_iff, Z.eqb_eq.
  destruct (Z.eqb_spec e 2047) as [->|].
  { destruct (m =? 0); cbn; split; [intros [? _]; discriminate|lia|intros [? _]; discriminate|lia]. }
  destruct (Z.eqb_spec e 0) as [->|].
  - destruct m as [|p|p]; [cbn; split; [intros [? _]; discriminate|lia]| |lia].
    cbn [f64_is_normal]. rewrite Z.leb_le. lia.
  - destruct (m + 2 ^ 52) as [|p|p] eqn:Hp; [lia| |lia].
    cbn [f64_is_normal]. rewrite Z.leb_le. lia.
Qed.

Lemma StoredMultiplier_new_Some b b' :
  length b = 8%nat →
  StoredMultiplier_new b = Some b' ↔ b' = b ∧ isValidStoredMultiplier b = true.
Proof.
  intros Hlen. pose proof (le_Z_range b) as Hr. rewrite Hlen in Hr.
  rewrite isValidStoredMultiplier_spec. unfold StoredMultiplier_new.
  destruct (_ && _) eqn:Hv.
  - apply f64_is_normal_spec in Hv; [|done]. split; [intros [= <-]|intros [-> _]]; done.
  - split; [done|intros (_ & _ & Hp)]. apply f64_is_normal_spec in Hp; [congruence|done].
Qed.

(** A request in the program's own value ranges. *)
Record wf_request (r : AssertSafeExecutionV2) : Prop := {
  wf_mint : length (a2_expected_mint r) = 32%nat;
  wf_multiplier : isValidStoredMultiplier (gs_multiplier (as_expected (a2_execution r))) = true;
  wf_new_multiplier : isValidStoredMultiplier (gs_new_multiplier (as_expected (a2_execution r))) = true;
  wf_timestamp : i64_range (gs_effective_timestamp (as_expected (a2_execution r)));
  wf_before : u32_range (before_secs (as_window (a2_execution r)));
  wf_after : u32_range (after_secs (as_window (a2_execution r)));
  wf_commitment : length (a2_downstream_commitment r) = 32%nat;
}.

Lemma take_bytes_app n l k : length l = n → take_bytes n (l ++ k) = Ok (l, k).
Proof.
  intros <-. unfold take_bytes. rewrite length_app.
  destruct (Nat.leb_spec (length l) (length l + length k)); [|lia].
  by rewrite take_app_length, drop_app_length.
Qed.

Lemma take_bytes_cons x k : take_bytes 1 (x :: k) = Ok ([x], k).
Proof. done. Qed.

(** Reads the next field of a payload built by concatenation. *)
Ltac read_field :=
  (rewrite take_bytes_cons || rewrite take_bytes_app by first [done|apply length_le_bytes]);
  cbn [mbind result_bind].

Lemma take_bytes_Ok n l a b : take_bytes n l = Ok (a, b) → l = a ++ b ∧ length a = n.
Proof.
  unfold take_bytes. destruct (Nat.leb_spec n (length l)) as [Hn|]; [intros [= <- <-]|done].
  split; [by rewrite take_drop|rewrite length_take; lia].
Qed.

Lemma length_pack r : wf_request r → length (pack r) = 99%nat.
Proof.
  intros []. unfold pack. rewrite !length_app, !length_le_bytes.
  rewrite wf_mint0, wf_commitment0, (isValidStoredMultiplier_length _ wf_multiplier0),
    (isValidStoredMultiplier_length _ wf_new_multiplier0). done.
Qed.

Lemma ActivationPhase_roundtrip p : ActivationPhase_from_u8 (phase_as_u8 p) = Some p.
Proof. by destruct p. Qed.

Lemma ActivationPhase_from_u8_Some z p : ActivationPhase_from_u8 z = Some p ↔ z = phase_as_u8 p.
Proof.
  split; [|intros ->; apply ActivationPhase_roundtrip]. unfold ActivationPhase_from_u8.
  destruct (Z.eqb_spec z 0); [by intros [= <-]|].
  destruct (Z.eqb_spec z 1); [by intros [= <-]|done].
Qed.

Lemma DownstreamAdapter_roundtrip a : DownstreamAdapter_from_u8 (adapter_as_u8 a) = Some a.
Proof. by destruct a. Qed.

Lemma DownstreamAdapter_from_u8_Some z a :
  DownstreamAdapter_from_u8 z = Some a ↔ z = adapter_as_u8 a.
Proof.
  split; [|intros ->; apply DownstreamAdapter_roundtrip]. unfold DownstreamAdapter_from_u8.
  destruct (Z.eqb_spec z 1); [by intros [= <-]|].
  destruct (Z.eqb_spec z 2); [by intros [= <-]|].
  destruct (Z.eqb_spec z 3); [by intros [= <-]|done].
Qed.

Lemma le_Z_singleton z : 0 ≤ z < 256 → le_Z [z2b z] = z.
Proof. intros ?. cbn. rewrite b2z_z2b_small by done. lia. Qed.

Lemma le_Z_le_bytes_small n z : 0 ≤ z < 2 ^ (8 * Z.of_nat n) → le_Z (le_bytes n z) = z.
Proof. intros ?. by rewrite le_Z_le_bytes, Z.mod_small. Qed.

Lemma to_signed_le_bytes z : i64_range z → to_signed 8 (le_Z (le_bytes 8 z)) = z.
Proof. intros ?. rewrite le_Z_le_bytes, to_signed_mod; [done|lia|exact H]. Qed.

Lemma phase_as_u8_byte p : 0 ≤ phase_as_u8 p < 256.
Proof. destruct p; simpl; lia. Qed.

Lemma adapter_as_u8_byte a : 0 ≤ adapter_as_u8 a < 256.
Proof. destruct a; simpl; lia. Qed.

Lemma unpack_pack_raw r : wf_request r → unpack (pack r) = Ok r.
Proof.
  intros Hwf. pose proof (length_pack r Hwf) as Hlen. destruct Hwf.
  unfold unpack. unfold pack in Hlen |- *. cbn [app] in Hlen |- *.
  rewrite Hlen. unfold throw_if at 1 2. cbn [Nat.eqb ASSERT_SAFE_EXECUTION_V2_LEN negb].
  rewrite b2z_z2b_small by lia. cbn [Z.eqb Pos.eqb negb].
  destruct r as [mint [[m n t] phase [before after]] adapter commitment].
  cbn [a2_expected_mint a2_execution a2_adapter a2_downstream_commitment as_expected as_expected_phase
    as_window gs_multiplier gs_new_multiplier gs_effective_timestamp before_secs after_secs] in *.
  pose proof (isValidStoredMultiplier_length _ wf_multiplier0) as Hm.
  pose proof (isValidStoredMultiplier_length _ wf_new_multiplier0) as Hn.
  cbn [mbind result_bind].
  do 8 read_field.
  rewrite <- (app_nil_r commitment). read_field.
  rewrite (proj2 (StoredMultiplier_new_Some m m Hm)) by done.
  rewrite (proj2 (StoredMultiplier_new_Some n n Hn)) by done.
  rewrite !le_Z_singleton by first [apply phase_as_u8_byte|apply adapter_as_u8_byte].
  rewrite ActivationPhase_roundtrip, DownstreamAdapter_roundtrip. cbn [of_option mbind result_bind].
  by rewrite to_signed_le_bytes, !le_Z_le_bytes_small, app_nil_r.
Qed.

Lemma byte_field (l : bytes) : length l = 1%nat → l = [z2b (le_Z l)].
Proof.
  destruct l as [|b [|]]; [done| |done]. intros _. cbn.
  by rewrite Z.add_0_r, z2b_b2z.
Qed.

Lemma int_field n (l : bytes) : length l = n → l = le_bytes n (le_Z l).
Proof. intros <-. by rewrite le_bytes_le_Z. Qed.

Lemma le_bytes_to_signed (l : bytes) : length l = 8%nat → l = le_bytes 8 (to_signed 8 (le_Z l)).
Proof.
  intros Hl. apply le_Z_inj; [by rewrite length_le_bytes|].
  rewrite le_Z_le_bytes, mod_to_signed; [done|lia|]. rewrite <- Hl. apply le_Z_range.
Qed.

Lemma le_Z_u32 (l : bytes) : length l = 4%nat → u32_range (le_Z l).
Proof. intros Hl. pose proof (le_Z_range l) as H. by rewrite Hl in H. Qed.

Lemma to_signed_i64 (l : bytes) : length l = 8%nat → i64_range (to_signed 8 (le_Z l)).
Proof.
  intros Hl. apply (to_signed_range 8); [lia|]. rewrite <- Hl. apply le_Z_range.
Qed.

(** A successful read takes the payload apart: every byte of it is a field of
    the request read. *)
Lemma unpack_sound data r : unpack data = Ok r → wf_request r ∧ data = pack r.
Proof.
  destruct data as [|version fields]; [done|]. unfold unpack. rewrite !throw_if_then_Ok.
  rewrite !negb_false_iff, Z.eqb_eq, Nat.eqb_eq. intros (Hv & Hlen & Hrun).
  repeat (apply bind_Ok in Hrun as ([? ?] & [-> ?]%take_bytes_Ok & Hrun)).
  case_match eqn:Hm; [|done]. case_match eqn:Hn; [|done]. case_match eqn:Hp; [|done].
  apply bind_Ok in Hrun as (ad & Ha%of_option_Ok & [= <-]).
  apply StoredMultiplier_new_Some in Hm as [-> ?]; [|done].
  apply StoredMultiplier_new_Some in Hn as [-> ?]; [|done].
  apply ActivationPhase_from_u8_Some in Hp. apply DownstreamAdapter_from_u8_Some in Ha.
  split.
  - constructor; cbn; auto using le_Z_u32, to_signed_i64.
  - unfold pack. cbn [a2_expected_mint a2_execution a2_adapter a2_downstream_commitment as_expected
      as_expected_phase as_window gs_multiplier gs_new_multiplier gs_effective_timestamp before_secs after_secs].
    rewrite <- Hp, <- Ha, <- !byte_field, <- !int_field, <- le_bytes_to_signed by done.
    rewrite <- (z2b_b2z version), Hv. cbn [app]. repeat f_equal.
    cbn [length] in Hlen. rewrite !length_app in Hlen.
    match goal with H : length ?l = 32%nat |- ?l ++ ?k = ?l =>
      destruct k; [by rewrite app_nil_r|cbn [length] in Hlen; unfold ASSERT_SAFE_EXECUTION_V2_LEN in Hlen; lia] end.
Qed.

(* ------------------------------------------------------------------ *)
(** ** A client request as the program reads it *)

(** The client's state, phase, window and request in the program's types. *)
Definition guard_state (s : ProtectedState) : GuardState :=
  mkGuardState (multiplier s) (newMultiplier s) (newMultiplierEffectiveTimestamp s).

Definition guard_phase (phase : Z) : ActivationPhase :=
  if phase =? Activated then PhaseActivated else PhasePending.

Definition guard_request (r : AssertSafeExecutionRequest) : AssertSafeExecution :=
  mkAssert (guard_state (expected r)) (guard_phase (expectedPhase r))
    (mkGuardWindow (num_value (beforeSecs (window r))) (num_value (afterSecs (window r)))).

Definition guard_adapter (kind : Z) : DownstreamAdapter :=
  DownstreamAdapter_from_u8 kind ?? Token2022TransferChecked.

Definition guard_view (request : AssertSafeExecutionV2Request) (mint : bytes) : AssertSafeExecutionV2 :=
  mkAssertV2 mint (guard_request (execution request)) (guard_adapter (adapterKind request))
    (requestCommitment request).

Lemma phase_as_u8_guard_phase phase :
  phase = Pending ∨ phase = Activated → phase_as_u8 (guard_phase phase) = phase.
Proof. by intros [->| ->]. Qed.

Lemma adapter_as_u8_guard_adapter kind :
  isDownstreamAdapterKind kind = true → adapter_as_u8 (guard_adapter kind) = kind.
Proof. by intros [->|[->| ->]]%isDownstreamAdapterKind_spec. Qed.

Section Contract.
  Context `{!AddressCodec}.
  Implicit Types request : AssertSafeExecutionV2Request.

Lemma wf_guard_view request mint :
  encodable request → encodeAddress (expectedMint request) = Some mint →
  wf_request (guard_view request mint).
Proof.
  intros [? ? ? ? [_ ?]%isValidWindowSecs_spec [_ ?]%isValidWindowSecs_spec ? ?] Hmint.
  constructor; cbn; eauto using length_encodeAddress.
Qed.

Lemma pack_guard_view request mint :
  encodable request → pack (guard_view request mint) = payload_layout request mint.
Proof.
  intros []. unfold pack, payload_layout, guard_view. destruct (execution request) as [s p w].
  cbn -[le_bytes app] in *. by rewrite phase_as_u8_guard_phase, adapter_as_u8_guard_adapter.
Qed.

(** C32: the client and the program agree on ABI v2: whatever bytes
    [encodeAssertSafeExecutionV2] returns, the program's [unpack] reads back
    exactly the request they were made from, with the mint's 32 bytes, in the
    program's types. *)
Theorem encode_unpack request out :
  encodeAssertSafeExecutionV2 request = Ok out →
  ∃ mint, encodeAddress (expectedMint request) = Some mint ∧
    unpack out = Ok (guard_view request mint).
Proof.
  intros [Henc (mint & Hmint & ->)]%encodeAssertSafeExecutionV2_Ok.
  exists mint. split; [done|]. rewrite <- pack_guard_view by done.
  by apply unpack_pack_raw, wf_guard_view.
Qed.

(** [encodeAssertSafeExecutionV2] returns bytes exactly for the requests
    whose fields fit the ABI (valid stored multipliers, an i64 timestamp, a
    known phase and adapter kind, u32 window bounds, a 32-byte commitment and
    a decodable mint); the bytes are the 99 of the documented layout. *)
Theorem encode_complete request out :
  encodeAssertSafeExecutionV2 request = Ok out ↔
  encodable request ∧ length out = 99%nat ∧
  ∃ mint, encodeAddress (expectedMint request) = Some mint ∧ out = payload_layout request mint.
Proof.
  rewrite encodeAssertSafeExecutionV2_Ok. split; [|by intros (? & _ & ?)].
  intros [Henc (mint & Hmint & ->)]. split; [done|]. split; [|by exists mint].
  rewrite <- pack_guard_view by done. by apply length_pack, wf_guard_view.
Qed.
End Contract.

(** The program's reader accepts only canonical payloads: a request
    read from [data] has well-formed fields and [pack]s to the same bytes, and
    every well-formed request is read back from what [pack] writes. *)
Theorem unpack_canonical data r : unpack data = Ok r ↔ wf_request r ∧ data = pack r.
Proof.
  split; [apply unpack_sound|intros [? ->]]. by apply unpack_pack_raw.
Qed.

(** The client's float test accepts exactly the multipliers that
    [StoredMultiplier::new] accepts, on the eight bytes of a stored multiplier,
    and nothing of another length; the bits are those of a positive normal f64. *)
Theorem isValidStoredMultiplier_agrees b :
  isValidStoredMultiplier b = bool_decide (length b = 8%nat) && bool_decide (is_Some (StoredMultiplier_new b))
  ∧ (isValidStoredMultiplier b = true ↔ length b = 8%nat ∧ positive_normal_bits (le_Z b)).
Proof.
  split; [|apply isValidStoredMultiplier_spec].
  destruct (decide (length b = 8%nat)) as [Hlen|Hlen].
  - rewrite (bool_decide_eq_true_2 _ Hlen). apply eq_bool_prop_intro.
    rewrite !Is_true_true, andb_true_l, bool_decide_eq_true. split.
    + intros Hv. exists b. by apply StoredMultiplier_new_Some.
    + by intros [b' [-> ?]%StoredMultiplier_new_Some].
  - rewrite (bool_decide_eq_false_2 _ Hlen). apply not_true_iff_false.
    by intros ?%isValidStoredMultiplier_length.
Qed.

(* ------------------------------------------------------------------ *)
(** ** A concrete request *)

(** 1.0 and 2.0 as stored, and a request to switch at 1700000000. *)
Definition one_f64 : bytes := [x00; x00; x00; x00; x00; x00; xf0; x3f].
Definition two_f64 : bytes := [x00; x00; x00; x00; x00; x00; x00; x40].
Definition sample_mint : Address := "TokenzQdBNbLqP5VEhdkAS6EPFLC1PHnBqCXEpPxuEb".
Definition sample_state : ProtectedState := mkProtectedState one_f64 two_f64 1700000000.
Definition sample_expectation : AssertSafeExecutionRequest :=
  mkRequest sample_state Pending (mkWindow (NumInt 900) (NumInt 60)).
Definition sample_request : AssertSafeExecutionV2Request :=
  mkRequestV2 sample_expectation sample_mint TOKEN_2022_TRANSFER_CHECKED (zeros 32).
Definition sample_payload : bytes :=
  Eval vm_compute in
    match encodeAssertSafeExecutionV2 sample_request with Ok out => out | Err _ => [] end.

Lemma encode_unpack_witness :
  length sample_payload = 99%nat ∧
  ∃ mint, encodeAddress (expectedMint sample_request) = Some mint ∧
    unpack sample_payload = Ok (guard_view sample_request mint).
Proof.
  split; [reflexivity|]. apply (encode_unpack sample_request sample_payload).
  vm_compute. reflexivity.
Defined.
