(* ===== verification/OfflineCheck.v ===== *)
(** * offline-check.ts: the program's policy replayed by the client

    [checkGuardOffline] against [guard::check]: the same verdict on every
    state, clock and well-formed window, and what a passing check means for
    the multiplier in effect when the transaction lands. *)

From S2P Require Import Prelude Js Errors Kit Base58 Abi OnChain.

(** [BigInt(n)]: a [RangeError] on a number that is not an integer. *)
Definition BigInt (n : jsnum) : result client_exn Z :=
  if isInteger n then Ok (num_value n) else Err RangeErr.

(** [null] is [None]; a refusal is the error the program would return. *)
Definition checkGuardOffline (request : AssertSafeExecutionRequest) (actual : ProtectedState)
    (unixTimestamp : Z) : result client_exn (option EquityGuardErrorName) :=
  let exp := expected request in
  if negb (bytesEqual (multiplier actual) (multiplier exp)) then Ok (Some E_MultiplierChanged)
  else if negb (bytesEqual (newMultiplier actual) (newMultiplier exp)) then Ok (Some E_NewMultiplierChanged)
  else if negb (newMultiplierEffectiveTimestamp actual =? newMultiplierEffectiveTimestamp exp)
       then Ok (Some E_EffectiveTimestampChanged)
  else if negb (hasScheduledChange actual) then Ok None
  else
    let t := newMultiplierEffectiveTimestamp actual in
    before ← BigInt (beforeSecs (window request));
    after ← BigInt (afterSecs (window request));
    let start := t - before in
    let stop := t + after in
    if (start <? I64_MIN) || (I64_MAX <? stop) then Ok (Some E_ArithmeticOverflow)
    else if (start <=? unixTimestamp) && (unixTimestamp <=? stop) then Ok (Some E_InsideTransitionWindow)
    else if negb (phaseAt actual unixTimestamp =? expectedPhase request)
         then Ok (Some E_ActivationPhaseChanged)
    else Ok None.

(** A program verdict in the shape of the client's. *)
Definition verdict (r : result EquityGuardErrorName unit) : result client_exn (option EquityGuardErrorName) :=
  match r with Ok _ => Ok None | Err e => Ok (Some e) end.

(** What the encoder admits of an expectation, and the chain of a state. *)
Definition valid_window (r : AssertSafeExecutionRequest) : Prop :=
  isValidWindowSecs (beforeSecs (window r)) = true ∧ isValidWindowSecs (afterSecs (window r)) = true.

Definition valid_phase (r : AssertSafeExecutionRequest) : Prop :=
  expectedPhase r = Pending ∨ expectedPhase r = Activated.

(** The multiplier Token-2022 applies at a time, and the one the request was
    authorised against: the stored field its phase selects. *)
Definition effective_multiplier (s : GuardState) (now : Z) : bytes :=
  match phase_at s now with PhasePending => gs_multiplier s | PhaseActivated => gs_new_multiplier s end.

Definition authorised_multiplier (r : AssertSafeExecution) : bytes :=
  match as_expected_phase r with
  | PhasePending => gs_multiplier (as_expected r)
  | PhaseActivated => gs_new_multiplier (as_expected r)
  end.

(* ------------------------------------------------------------------ *)
(** ** The two checks agree *)

Lemma guard_phase_at s now : phase_at (guard_state s) now = guard_phase (phaseAt s now).
Proof. unfold phase_at, phaseAt, guard_state; cbn. by destruct (_ <=? _). Qed.

Lemma guard_phase_inj p q :
  p = Pending ∨ p = Activated → q = Pending ∨ q = Activated →
  guard_phase p = guard_phase q ↔ p = q.
Proof. by intros [->| ->] [->| ->]. Qed.

Lemma negb_bytesEqual a b : negb (bytesEqual a b) = bool_decide (a ≠ b).
Proof.
  destruct (bytesEqual a b) eqn:He.
  - apply bytesEqual_spec in He. by rewrite bool_decide_eq_false_2; [|intros H].
  - apply bytesEqual_false in He. by rewrite bool_decide_eq_true_2.
Qed.

Lemma checked_i64_spec z :
  checked_i64 z = if (z <? I64_MIN) || (I64_MAX <? z) then None else Some z.
Proof.
  unfold checked_i64. rewrite !Z.ltb_antisym, <- negb_andb.
  by destruct ((I64_MIN <=? z) && (z <=? I64_MAX)).
Qed.

(** On a u32 window only one end of each bound can overflow, which is why the
    client tests two of the four inequalities. *)
Lemma contains_u32 w t now :
  i64_range t → u32_range (before_secs w) → u32_range (after_secs w) →
  contains w t now =
    if (t - before_secs w <? I64_MIN) || (I64_MAX <? t + after_secs w) then Err E_ArithmeticOverflow
    else Ok ((t - before_secs w <=? now) && (now <=? t + after_secs w)).
Proof.
  unfold i64_range, u32_range, contains. intros Ht Hb Ha. rewrite !checked_i64_spec.
  assert ((I64_MAX <? t - before_secs w) = false) as -> by (unfold I64_MAX; lia).
  assert ((t + after_secs w <? I64_MIN) = false) as -> by (unfold I64_MIN; lia).
  rewrite orb_false_r. cbn [orb].
  destruct (t - before_secs w <? I64_MIN); [done|]. cbn [of_option mbind result_bind orb].
  by destruct (I64_MAX <? t + after_secs w).
Qed.

Lemma BigInt_u32 n : isValidWindowSecs n = true → BigInt n = Ok (num_value n) ∧ u32_range (num_value n).
Proof. intros [Hi ?]%isValidWindowSecs_spec. unfold BigInt. by rewrite Hi. Qed.

Lemma checkOffline_agrees request actual now :
  valid_window request → valid_phase request →
  i64_range (newMultiplierEffectiveTimestamp actual) →
  checkGuardOffline request actual now = verdict (check (guard_request request) (guard_state actual) now).
Proof.
  intros [[Hb ?]%BigInt_u32 [Ha ?]%BigInt_u32] Hphase Ht.
  unfold checkGuardOffline, check. rewrite Hb, Ha. cbn [mbind result_bind guard_request as_expected
    as_window as_expected_phase guard_state gs_multiplier gs_new_multiplier gs_effective_timestamp].
  rewrite !negb_bytesEqual.
  case_bool_decide as Hm; [done|]. case_bool_decide as Hn; [done|].
  destruct (Z.eqb_spec (newMultiplierEffectiveTimestamp actual) (newMultiplierEffectiveTimestamp (expected request)))
    as [He|]; [|done]. cbn [negb throw_if mbind result_bind].
  unfold hasScheduledChange, has_scheduled_change. rewrite negb_bytesEqual. cbn [guard_state gs_multiplier gs_new_multiplier].
  case_bool_decide; [|done]. cbn [negb].
  rewrite contains_u32 by done. cbn [before_secs after_secs].
  destruct (_ || _); [done|]. cbn [mbind result_bind]. destruct (_ && _); [done|].
  cbn [throw_if mbind result_bind].
  fold (guard_state actual). rewrite guard_phase_at.
  destruct (Z.eqb_spec (phaseAt actual now) (expectedPhase request)) as [->|Hne].
  - by rewrite bool_decide_eq_false_2 by (intros []; done).
  - rewrite bool_decide_eq_true_2; [done|].
    intros Hp%guard_phase_inj; [done|apply phaseAt_cases|exact Hphase].
Qed.

(** C33: [checkGuardOffline] returns exactly the error the program's
    [guard::check] would return, and [null] exactly when the program lets the
    instruction pass, on every i64 activation time, every encodable window and
    phase and every clock; it never throws there. *)
Theorem checkGuardOffline_agrees request actual now :
  valid_window request → valid_phase request →
  i64_range (newMultiplierEffectiveTimestamp actual) →
  checkGuardOffline request actual now = verdict (check (guard_request request) (guard_state actual) now).
Proof. apply checkOffline_agrees. Qed.

(* ------------------------------------------------------------------ *)
(** ** What a passing check means *)

Lemma check_Ok request actual now u :
  check request actual now = Ok u ↔
  actual = as_expected request ∧
  (gs_multiplier actual = gs_new_multiplier actual ∨
   contains (as_window request) (gs_effective_timestamp actual) now = Ok false ∧
   phase_at actual now = as_expected_phase request).
Proof.
  unfold check. rewrite !throw_if_then_Ok, !bool_decide_eq_false, negb_false_iff, Z.eqb_eq.
  unfold has_scheduled_change.
  destruct (decide (gs_multiplier actual = gs_new_multiplier actual)) as [Heq|Hne].
  - rewrite bool_decide_eq_false_2 by auto. cbn [negb]. destruct u.
    split; [intros (Hm%dec_stable & Hn%dec_stable & Ht & _)|intros [<- _]; repeat split; by auto].
    split; [|by left]. destruct actual, (as_expected request); simpl in *; congruence.
  - rewrite bool_decide_eq_true_2 by done. cbn [negb]. rewrite bind_Ok.
    setoid_rewrite throw_if_then_Ok. setoid_rewrite throw_if_then_Ok. setoid_rewrite bool_decide_eq_false.
    destruct u. split.
    + intros (Hm%dec_stable & Hn%dec_stable & Ht & inside & Hc & -> & Hp%dec_stable & _).
      split; [|by right]. destruct actual, (as_expected request); simpl in *; congruence.
    + intros [<- [?|[Hc Hp]]]; [done|]. repeat (split; [by auto|]). exists false.
      repeat split; auto.
Qed.

Lemma contains_outside w t now :
  i64_range t → u32_range (before_secs w) → u32_range (after_secs w) →
  contains w t now = Ok false ↔
  I64_MIN ≤ t - before_secs w ∧ t + after_secs w ≤ I64_MAX ∧
  (now < t - before_secs w ∨ t + after_secs w < now).
Proof.
  intros Ht Hb Ha. rewrite contains_u32 by done.
  destruct (_ || _) eqn:Ho.
  - apply orb_true_iff in Ho. rewrite !Z.ltb_lt in Ho. split; [done|lia].
  - apply orb_false_iff in Ho as [Hlo Hhi]. apply Z.ltb_ge in Hlo, Hhi. split.
    + intros [= Hout]. apply andb_false_iff in Hout. rewrite !Z.leb_gt in Hout. lia.
    + intros (_ & _ & Hout). f_equal. apply andb_false_iff. rewrite !Z.leb_gt. lia.
Qed.

(** The program lets an instruction pass exactly when the mint's three
    protected fields are the expected ones and either no change is scheduled,
    or the window's ends fit an i64, the clock is strictly outside the
    inclusive window and in the expected phase. *)
Theorem check_accepts request actual now :
  i64_range (gs_effective_timestamp actual) →
  u32_range (before_secs (as_window request)) → u32_range (after_secs (as_window request)) →
  check request actual now = Ok tt ↔
  actual = as_expected request ∧
  (gs_multiplier actual = gs_new_multiplier actual ∨
   let t := gs_effective_timestamp actual in
   let w := as_window request in
   I64_MIN ≤ t - before_secs w ∧ t + after_secs w ≤ I64_MAX ∧
   (now < t - before_secs w ∨ t + after_secs w < now) ∧
   phase_at actual now = as_expected_phase request).
Proof.
  intros Ht Hb Ha. cbv zeta. rewrite check_Ok, contains_outside by done. tauto.
Qed.

Lemma check_effective request actual now u :
  check request actual now = Ok u → effective_multiplier actual now = authorised_multiplier request.
Proof.
  intros [-> [Heq|[_ Hp]]]%check_Ok; unfold effective_multiplier, authorised_multiplier.
  - rewrite Heq. by destruct (phase_at _ _), (as_expected_phase request).
  - by rewrite Hp.
Qed.

Section EndToEnd.
  Context `{!AddressCodec}.

(** End to end, an authorisation cannot land on another economic state.
    If the client encoded [request] and the program's check passes on the
    decoded payload, the mint still holds the fields the client observed and
    the multiplier Token-2022 applies at that clock is the one the client's
    phase selected. *)
Theorem guarded_execution_safe request out r actual now :
  encodeAssertSafeExecutionV2 request = Ok out →
  unpack out = Ok r →
  check (a2_execution r) actual now = Ok tt →
  actual = guard_state (expected (execution request)) ∧
  effective_multiplier actual now =
    if expectedPhase (execution request) =? Activated
    then newMultiplier (expected (execution request))
    else multiplier (expected (execution request)).
Proof.
  intros [Henc (mint & Hmint & ->)]%encodeAssertSafeExecutionV2_Ok Hr Hc.
  rewrite <- pack_guard_view, unpack_pack_raw in Hr by eauto using wf_guard_view.
  injection Hr as <-. rewrite (check_effective _ _ _ _ Hc).
  apply check_Ok in Hc as [-> _]. split; [done|].
  unfold authorised_multiplier, guard_view, guard_request, guard_phase. cbn.
  by destruct (_ =? _).
Qed.
End EndToEnd.

(* ------------------------------------------------------------------ *)
(** ** Witnesses *)

Lemma checkGuardOffline_agrees_witness :
  checkGuardOffline sample_expectation sample_state 1699999500 = Ok (Some E_InsideTransitionWindow) ∧
  checkGuardOffline sample_expectation sample_state 1699999500 =
    verdict (check (guard_request sample_expectation) (guard_state sample_state) 1699999500).
Proof.
  split; [vm_compute; reflexivity|].
  apply (checkGuardOffline_agrees sample_expectation sample_state 1699999500).
  - by split.
  - by left.
  - by split.
Defined.

Lemma check_accepts_witness :
  check (guard_request sample_expectation) (guard_state sample_state) 1699990000 = Ok tt.
Proof.
  apply (check_accepts (guard_request sample_expectation) (guard_state sample_state) 1699990000).
  1-3: by split.
  split; [reflexivity|]. right. cbn. unfold I64_MIN, I64_MAX. repeat split; try lia.
Defined.

Lemma guarded_execution_safe_witness :
  effective_multiplier (guard_state sample_state) 1699990000 = one_f64.
Proof.
  pose proof (guarded_execution_safe sample_request sample_payload
    (guard_view sample_request (be_bytes 32 (be_Z (b58_encode sample_mint ?? []))))
    (guard_state sample_state) 1699990000) as H.
  apply H; vm_compute; reflexivity.
Defined.
