(* ===== verification/MintState.v ===== *)
(** * mint-state.ts: the Token-2022 mint decoder

    [decodeProtectedState] and [decodeMintMetadata] over the raw account bytes,
    with the loop over the TLV area. The loop's fuel is the account length:
    each round moves at least four bytes on, so it never runs out. *)

From S2P Require Import Prelude Js Errors Kit Base58 Abi OnChain.

Definition TOKEN_2022_PROGRAM_ADDRESS : Address := "TokenzQdBNbLqP5VEhdkAS6EPFLC1PHnBqCXEpPxuEb".

Definition BASE_MINT_LEN : nat := 82.
Definition MULTISIG_LEN : nat := 355.
Definition ACCOUNT_TYPE_OFFSET : nat := 165.
Definition TLV_START : nat := ACCOUNT_TYPE_OFFSET + 1.
Definition ACCOUNT_TYPE_MINT : Z := 1.
Definition MINT_AUTHORITY_TAG_OFFSET : nat := 0.
Definition MINT_DECIMALS_OFFSET : nat := 44.
Definition MINT_IS_INITIALIZED_OFFSET : nat := 45.
Definition FREEZE_AUTHORITY_TAG_OFFSET : nat := 46.
Definition TLV_HEADER_LEN : nat := 4.

(** [ExtensionType]. *)
Definition Uninitialized : Z := 0.
Definition TransferFeeConfig : Z := 1.
Definition ConfidentialTransferMint : Z := 4.
Definition NonTransferable : Z := 9.
Definition InterestBearingConfig : Z := 10.
Definition ConfidentialTransferFeeConfig : Z := 16.
Definition ConfidentialMintBurn : Z := 24.
Definition ScaledUiAmount : Z := 25.
Definition Pausable : Z := 26.
Definition MaxKnown : Z := 28.

Definition SCALED_UI_AMOUNT_CONFIG_LEN : nat := 56.
Definition PAUSABLE_CONFIG_LEN : nat := 33.
Definition PAUSED_OFFSET : nat := 32.

Record TlvEntry := mkTlv { tlv_type : Z; tlv_length : nat; valueOffset : nat }.

Record MintMetadata := mkMetadata { decimals : Z; paused : option bool }.

(** The body of the [while] loop of [readTlvEntries] and the loop. *)
Fixpoint readTlv (fuel : nat) (data : bytes) (offset : nat) (seen : gset Z) (entries : list TlvEntry)
    : result client_exn (list TlvEntry) :=
  match fuel with
  | O => Err OutOfFuel
  | S fuel =>
      if negb (Nat.leb 2 (length data - offset)) then Ok entries
      else
        type ← of_option RangeErr (get_uint 2 data offset);
        if type =? Uninitialized then Ok entries
        else
          guard_throw_if (MaxKnown <? type) C_InvalidMintData ("unknown extension type " +:+ show_Z type);;
          guard_throw_if (Nat.ltb (length data - offset) TLV_HEADER_LEN) C_InvalidMintData "TLV length truncated";;
          size ← of_option RangeErr (get_uint 2 data (offset + 2));
          let len := Z.to_nat size in
          let valueOffset := (offset + TLV_HEADER_LEN)%nat in
          guard_throw_if (Nat.ltb (length data) (valueOffset + len)) C_InvalidMintData "TLV value overruns account";;
          guard_throw_if (bool_decide (type ∈ seen)) C_InvalidMintData ("duplicate extension type " +:+ show_Z type);;
          readTlv fuel data (valueOffset + len) ({[type]} ∪ seen) (entries ++ [mkTlv type len valueOffset])
  end.

Definition readTlvEntries (data : bytes) : result client_exn (list TlvEntry) :=
  readTlv (S (length data)) data TLV_START ∅ [].

(** One round of the tag loop of [validateBaseMint]. *)
Definition checkTag (data : bytes) (offset : nat) : result client_exn unit :=
  tag ← of_option RangeErr (get_uint 4 data offset);
  guard_throw_if (negb (tag =? 0) && negb (tag =? 1)) C_InvalidMintData "invalid COption tag".

Definition validateBaseMint (data : bytes) : result client_exn unit :=
  guard_throw_if (Nat.ltb (length data) BASE_MINT_LEN || Nat.eqb (length data) MULTISIG_LEN)
    C_InvalidMintData ("unexpected account length " +:+ show_Z (Z.of_nat (length data)));;
  checkTag data MINT_AUTHORITY_TAG_OFFSET;;
  checkTag data FREEZE_AUTHORITY_TAG_OFFSET;;
  guard_throw_if (negb (bool_decide (byte_at data MINT_IS_INITIALIZED_OFFSET = Some 1)))
    C_InvalidMintData "mint is not initialized".

(** [parseMintAccount], which returns the entries. *)
Definition parseMintAccount (owner : string) (data : bytes) : result client_exn (list TlvEntry) :=
  guard_throw_if (negb (String.eqb owner TOKEN_2022_PROGRAM_ADDRESS))
    C_InvalidMintOwner ("owner " +:+ owner +:+ " is not Token-2022");;
  validateBaseMint data;;
  if Nat.eqb (length data) BASE_MINT_LEN then Ok []
  else
    guard_throw_if (Nat.ltb (length data) TLV_START) C_InvalidMintData "extension header truncated";;
    guard_throw_if (existsb (λ b, negb (b2z b =? 0)) (subarray data BASE_MINT_LEN ACCOUNT_TYPE_OFFSET))
      C_InvalidMintData "non-zero padding before account type";;
    guard_throw_if (negb (bool_decide (byte_at data ACCOUNT_TYPE_OFFSET = Some ACCOUNT_TYPE_MINT)))
      C_InvalidMintData "account type is not Mint";;
    readTlvEntries data.

(** Token-2022's [check_for_invalid_mint_extension_combinations]: the set of
    types is given by its membership test. *)
Definition invalid_combination (has : Z → bool) : bool :=
  (has ConfidentialTransferFeeConfig && negb (has TransferFeeConfig && has ConfidentialTransferMint)) ||
  (has TransferFeeConfig && has ConfidentialTransferMint && negb (has ConfidentialTransferFeeConfig)) ||
  (has ConfidentialMintBurn && negb (has ConfidentialTransferMint)) ||
  (has ScaledUiAmount && has InterestBearingConfig) ||
  (has NonTransferable && has ConfidentialTransferMint && negb (has ConfidentialMintBurn)).

Definition assertValidMintExtensionCombination (types : gset Z) : result client_exn unit :=
  guard_throw_if (invalid_combination (λ type, bool_decide (type ∈ types)))
    C_InvalidExtensionCombination "mint extension set is forbidden by Token-2022".

Definition find_type (type : Z) (entries : list TlvEntry) : option TlvEntry :=
  List.find (λ entry, tlv_type entry =? type) entries.

Definition decodeProtectedState (owner : string) (data : bytes) : result client_exn ProtectedState :=
  entries ← parseMintAccount owner data;
  guard_throw_if (Nat.eqb (length data) BASE_MINT_LEN) C_MissingScaledUiAmount "mint has no extensions";;
  let types : gset Z := list_to_set (map tlv_type entries) in
  match find_type ScaledUiAmount entries with
  | None => throw_guard C_MissingScaledUiAmount "mint has no ScaledUiAmount extension"
  | Some scaledUi =>
      assertValidMintExtensionCombination types;;
      guard_throw_if (negb (Nat.eqb (tlv_length scaledUi) SCALED_UI_AMOUNT_CONFIG_LEN))
        C_InvalidMintData "ScaledUiAmount config has wrong length";;
      let value := valueOffset scaledUi in
      let multiplier := subarray data (value + 32) (value + 40) in
      let newMultiplier := subarray data (value + 48) (value + 56) in
      guard_throw_if (negb (isValidStoredMultiplier multiplier) || negb (isValidStoredMultiplier newMultiplier))
        C_InvalidMultiplier "stored multiplier is not positive and normal";;
      timestamp ← of_option RangeErr (get_int 8 data (value + 40));
      Ok (mkProtectedState multiplier newMultiplier timestamp)
  end.

Definition decodeMintMetadata (owner : string) (data : bytes) : result client_exn MintMetadata :=
  entries ← parseMintAccount owner data;
  match byte_at data MINT_DECIMALS_OFFSET with
  | None => throw_guard C_InvalidMintData "decimals missing"
  | Some decimals =>
      match find_type Pausable entries with
      | None => Ok (mkMetadata decimals None)
      | Some pausable =>
          guard_throw_if (negb (Nat.eqb (tlv_length pausable) PAUSABLE_CONFIG_LEN))
            C_InvalidMintData "Pausable config has wrong length";;
          let flag := byte_at data (valueOffset pausable + PAUSED_OFFSET) in
          guard_throw_if (bool_decide (flag ≠ Some 0) && bool_decide (flag ≠ Some 1))
            C_InvalidMintData "Pausable flag is not a boolean";;
          Ok (mkMetadata decimals (Some (bool_decide (flag = Some 1))))
      end
  end.

(* ------------------------------------------------------------------ *)
(** ** The TLV area: what the loop accepts *)

(** An entry as it is written: type, length and value. *)
Abbreviation tlv_item := (Z * bytes)%type.

Definition print_item (item : tlv_item) : bytes :=
  le_bytes 2 item.1 ++ le_bytes 2 (Z.of_nat (length item.2)) ++ item.2.

Definition print_items (items : list tlv_item) : bytes := concat (map print_item items).

(** Where the loop stops: fewer than two bytes, or an uninitialized type. *)
Definition tlv_end (rest : bytes) : Prop :=
  (length rest < 2)%nat ∨ get_uint 2 rest 0 = Some Uninitialized.

Definition wf_item (item : tlv_item) : Prop :=
  1 ≤ item.1 ≤ MaxKnown ∧ Z.of_nat (length item.2) < 2 ^ 16.

(** The entries the loop records for items written from [offset] on. *)
Fixpoint entries_from (offset : nat) (items : list tlv_item) : list TlvEntry :=
  match items with
  | [] => []
  | (type, value) :: items =>
      mkTlv type (length value) (offset + 4) :: entries_from (offset + 4 + length value) items
  end.

Definition fresh_types (seen : gset Z) (items : list tlv_item) : Prop :=
  NoDup (map fst items) ∧ ∀ type, type ∈ map fst items → type ∉ seen.

Lemma length_print_item item : length (print_item item) = (4 + length item.2)%nat.
Proof. unfold print_item. rewrite !length_app, !length_le_bytes. lia. Qed.

Lemma get_uint_drop n (l : bytes) i : (0 < n)%nat → get_uint n l i = get_uint n (drop i l) 0.
Proof.
  intros Hn. unfold get_uint. rewrite length_drop, drop_0.
  destruct (Nat.leb_spec (i + n) (length l)), (Nat.leb_spec (0 + n) (length l - i)); try reflexivity; lia.
Qed.

Lemma get_uint_split n (l : bytes) z : get_uint n l 0 = Some z → l = le_bytes n z ++ drop n l.
Proof.
  intros [Hn ->]%get_uint_Some. rewrite drop_0, <- (take_drop n l) at 1. f_equal.
  rewrite <- int_field; [done|]. rewrite length_take. lia.
Qed.

Lemma get_uint_small n z (k : bytes) :
  0 ≤ z < 2 ^ (8 * Z.of_nat n) → get_uint n (le_bytes n z ++ k) 0 = Some z.
Proof. intros ?. by rewrite get_uint_le_bytes, Z.mod_small. Qed.

Lemma readTlv_sound fuel data offset seen acc es :
  (offset ≤ length data)%nat → readTlv fuel data offset seen acc = Ok es →
  ∃ items rest, drop offset data = print_items items ++ rest ∧ Forall wf_item items ∧
    fresh_types seen items ∧ tlv_end rest ∧ es = acc ++ entries_from offset items.
Proof.
  revert offset seen acc. induction fuel as [|fuel IH]; intros offset seen acc Hoff; [done|].
  cbn [readTlv]. destruct (Nat.leb_spec 2 (length data - offset)) as [H2|H2]; cbn [negb].
  2: { intros [= <-]. exists [], (drop offset data). rewrite app_nil_r.
       repeat split; [constructor|constructor|set_solver|]. left. rewrite length_drop. lia. }
  intros (type & Htype%of_option_Ok & Hrun)%bind_Ok. rewrite get_uint_drop in Htype by lia.
  destruct (Z.eqb_spec type Uninitialized) as [->|Hne].
  { injection Hrun as <-. exists [], (drop offset data). rewrite app_nil_r.
    repeat split; [constructor|constructor|set_solver|by right]. }
  rewrite !guard_then_Ok in Hrun. destruct Hrun as (Hmax%Z.ltb_ge & Hhdr%Nat.ltb_ge & Hrun).
  apply bind_Ok in Hrun as (size & Hsize%of_option_Ok & Hrun).
  rewrite !guard_then_Ok in Hrun. destruct Hrun as (Hlen%Nat.ltb_ge & Hseen%bool_decide_eq_false & Hrun).
  unfold TLV_HEADER_LEN in *.
  apply IH in Hrun as (items & rest & Hdrop & Hwf & [Hnd Hfresh] & Hend & ->); [|lia].
  pose proof (get_uint_range _ _ _ _ Htype) as Htr. pose proof (get_uint_range _ _ _ _ Hsize) as Hsr.
  rewrite get_uint_drop, <- drop_drop in Hsize by lia.
  pose proof (get_uint_split _ _ _ Htype) as Ht. pose proof (get_uint_split _ _ _ Hsize) as Hs.
  rewrite !drop_drop in Ht, Hs. rewrite drop_drop in Hs. replace (offset + 2 + 2)%nat with (offset + 4)%nat in Hs by lia.
  pose proof (take_drop (Z.to_nat size) (drop (offset + 4) data)) as Htd.
  rewrite drop_drop, Hdrop in Htd.
  assert (length (take (Z.to_nat size) (drop (offset + 4) data)) = Z.to_nat size) as Hv.
  { rewrite length_take, length_drop. lia. }
  exists ((type, take (Z.to_nat size) (drop (offset + 4) data)) :: items), rest.
  cbn [entries_from]. rewrite Hv. split; [|split; [|split; [|split]]].
  - unfold print_items. cbn [map concat]. unfold print_item at 1. cbn [fst snd].
    rewrite Hv, Z2Nat.id, <- !app_assoc by lia. rewrite Ht. f_equal. rewrite Hs. f_equal. exact (eq_sym Htd).
  - constructor; [|done]. unfold wf_item; cbn [fst snd]. rewrite Hv. unfold Uninitialized in Hne. lia.
  - split; cbn [map fst].
    + constructor; [|done]. intros [Hne' _]%Hfresh%not_elem_of_union. by apply not_elem_of_singleton in Hne'.
    + intros t [->|Hin]%elem_of_cons; [done|].
      by apply Hfresh, not_elem_of_union in Hin as [_ ?].
  - done.
  - by rewrite <- app_assoc.
Qed.

Lemma tlv_end_stops fuel data offset seen acc :
  (offset ≤ length data)%nat → tlv_end (drop offset data) → readTlv (S fuel) data offset seen acc = Ok acc.
Proof.
  intros Hoff Hend. cbn [readTlv]. destruct (Nat.leb_spec 2 (length data - offset)); [|reflexivity].
  destruct Hend as [Hend|Hend]; [rewrite length_drop in Hend; lia|].
  rewrite (get_uint_drop 2 data offset), Hend by lia. reflexivity.
Qed.

Lemma readTlv_complete items rest fuel data offset seen acc :
  (offset ≤ length data)%nat → (length data - offset < fuel)%nat →
  drop offset data = print_items items ++ rest → Forall wf_item items → fresh_types seen items →
  tlv_end rest → readTlv fuel data offset seen acc = Ok (acc ++ entries_from offset items).
Proof.
  revert fuel offset seen acc. induction items as [|[type value] items IH];
    intros fuel offset seen acc Hoff Hfuel Hdrop Hwf [Hnd Hfresh] Hend; (destruct fuel as [|fuel]; [lia|]).
  { cbn [entries_from]. rewrite app_nil_r. apply tlv_end_stops; [done|]. by rewrite Hdrop. }
  apply Forall_cons in Hwf as [[Htype Hval] Hwf]. cbn [fst snd] in *.
  apply NoDup_cons in Hnd as [Hnotin Hnd].
  pose proof (f_equal length Hdrop) as Hlen. unfold print_items in Hdrop, Hlen.
  cbn [map concat] in Hdrop, Hlen. fold (print_items items) in Hdrop, Hlen.
  rewrite length_drop, !length_app, length_print_item in Hlen. cbn [snd] in Hlen.
  unfold print_item in Hdrop. cbn [fst snd] in Hdrop. rewrite <- !app_assoc in Hdrop.
  assert (drop (offset + 2) data = le_bytes 2 (Z.of_nat (length value)) ++ value ++ print_items items ++ rest) as Hdrop2.
  { by rewrite <- drop_drop, Hdrop, drop_app_length' by by rewrite length_le_bytes. }
  assert (drop (offset + 4 + length value) data = print_items items ++ rest) as Hdrop4.
  { replace (offset + 4 + length value)%nat with (offset + 2 + (2 + length value))%nat by lia.
    rewrite <- drop_drop, Hdrop2, <- drop_drop, drop_app_length' by by rewrite length_le_bytes.
    by rewrite drop_app_length. }
  cbn [readTlv]. destruct (Nat.leb_spec 2 (length data - offset)); [|lia]. cbn [negb].
  unfold MaxKnown, Uninitialized, TLV_HEADER_LEN in *.
  rewrite (get_uint_drop 2 data offset), Hdrop, get_uint_small by lia. cbn [of_option mbind result_bind].
  destruct (Z.eqb_spec type 0); [lia|]. destruct (Z.ltb_spec 28 type); [lia|].
  destruct (Nat.ltb_spec (length data - offset) 4); [lia|].
  rewrite (get_uint_drop 2 data (offset + 2)), Hdrop2, get_uint_small by lia.
  cbn [guard_throw_if throw_if of_option mbind result_bind]. rewrite Nat2Z.id.
  destruct (Nat.ltb_spec (length data) (offset + 4 + length value)); [lia|].
  rewrite bool_decide_eq_false_2 by (apply Hfresh, elem_of_cons; by left).
  cbn [throw_if mbind result_bind].
  rewrite (IH fuel (offset + 4 + length value)%nat); try done; try lia.
  - by rewrite <- app_assoc.
  - split; [done|]. intros t Ht. apply not_elem_of_union. split.
    + apply not_elem_of_singleton. by intros ->.
    + apply Hfresh, elem_of_cons. by right.
Qed.

(* ------------------------------------------------------------------ *)
(** ** Finding an extension *)

Lemma find_type_entries type off items :
  match find_type type (entries_from off items) with
  | Some entry => ∃ value k, (type, value) ∈ items ∧ tlv_length entry = length value ∧
      (off ≤ valueOffset entry ≤ off + length (print_items items))%nat ∧
      drop (valueOffset entry - off) (print_items items) = value ++ k
  | None => type ∉ map fst items
  end.
Proof.
  revert off. induction items as [|[t v] items IH]; intros off; cbn [entries_from].
  { by apply not_elem_of_nil. }
  unfold find_type. cbn [List.find tlv_type]. destruct (Z.eqb_spec t type) as [->|Hne].
  - exists v, (print_items items). cbn [tlv_length valueOffset]. split; [by apply elem_of_cons; left|].
    unfold print_items. cbn [map concat]. rewrite length_app, length_print_item.
    split; [done|]. split; [cbn [snd]; lia|]. unfold print_item at 1. cbn [fst snd].
    replace (off + 4 - off)%nat with (2 + 2)%nat by lia.
    rewrite <- drop_drop, <- !app_assoc. by rewrite !drop_app_length' by by rewrite length_le_bytes.
  - fold (find_type type (entries_from (off + 4 + length v) items)). specialize (IH (off + 4 + length v)%nat).
    destruct (find_type type (entries_from (off + 4 + length v) items)) as [entry|].
    + destruct IH as (value & k & Hin & Hlen & Hoff & Hdrop). exists value, k.
      split; [by apply elem_of_cons; right|]. split; [done|].
      unfold print_items. cbn [map concat]. fold (print_items items).
      split; [rewrite length_app, length_print_item; cbn [snd]; lia|].
      replace (valueOffset entry - off)%nat
        with (length (print_item (t, v)) + (valueOffset entry - (off + 4 + length v)))%nat
        by (rewrite length_print_item; cbn [snd]; lia).
      by rewrite <- drop_drop, drop_app_length.
    + cbn [map fst]. apply not_elem_of_cons. auto.
Qed.

Lemma assoc_unique (items : list tlv_item) type v w :
  NoDup (map fst items) → (type, v) ∈ items → (type, w) ∈ items → v = w.
Proof.
  induction items as [|[t u] items IH]; [by intros _ ?%not_elem_of_nil|].
  cbn [map fst]. intros [Hnot Hnd]%NoDup_cons. rewrite !elem_of_cons.
  assert (∀ x, (type, x) ∈ items → t ≠ type) as Ht.
  { intros x Hx ->. apply Hnot. apply list_elem_of_fmap. by exists (type, x). }
  intros [[= -> ->]|Hv] [[= <-]|Hw]; try done; try (exfalso; by eapply Ht); auto.
Qed.

(* ------------------------------------------------------------------ *)
(** ** The mint accounts the decoder accepts *)

(** The base mint: option tags of the two authorities and the initialized flag. *)
Record base_mint (data : bytes) : Prop := {
  bm_length : (82 ≤ length data)%nat ∧ length data ≠ 355%nat;
  bm_mint_tag : get_uint 4 data 0 = Some 0 ∨ get_uint 4 data 0 = Some 1;
  bm_freeze_tag : get_uint 4 data 46 = Some 0 ∨ get_uint 4 data 46 = Some 1;
  bm_initialized : byte_at data 45 = Some 1;
}.

(** A mint account with extensions: base, zero padding, account type, then the
    extensions each written once. *)
Definition mint_layout (data : bytes) (items : list tlv_item) : Prop :=
  ∃ base rest, length base = 82%nat ∧ data = base ++ zeros 83 ++ [x01] ++ print_items items ++ rest ∧
    Forall wf_item items ∧ NoDup (map fst items) ∧ tlv_end rest.

Lemma checkTag_Ok data off :
  checkTag data off = Ok tt ↔ get_uint 4 data off = Some 0 ∨ get_uint 4 data off = Some 1.
Proof.
  unfold checkTag. destruct (get_uint 4 data off) as [tag|]; cbn [of_option mbind result_bind].
  - unfold guard_throw_if. rewrite throw_if_Ok, andb_false_iff, !negb_false_iff, !Z.eqb_eq.
    split; intros [H|H]; [left|right|left|right]; congruence.
  - split; [done|intros [?|?]; done].
Qed.

Lemma validateBaseMint_Ok data : validateBaseMint data = Ok tt ↔ base_mint data.
Proof.
  unfold validateBaseMint. rewrite guard_then_Ok, !then_Ok, !checkTag_Ok.
  unfold guard_throw_if. rewrite throw_if_Ok, negb_false_iff, bool_decide_eq_true, orb_false_iff,
    Nat.ltb_ge, Nat.eqb_neq. split.
  - intros (? & ? & ? & ?). by constructor.
  - by intros [].
Qed.

Lemma all_zero_spec l : existsb (λ b, negb (b2z b =? 0)) l = false ↔ l = zeros (length l).
Proof.
  induction l as [|b l IH]; [done|]. cbn [existsb length zeros replicate].
  rewrite orb_false_iff, negb_false_iff, Z.eqb_eq, IH. split.
  - intros [Hb ->]. unfold zeros. rewrite length_replicate. f_equal. apply b2z_inj. exact Hb.
  - intros [= -> Hl]. split; [reflexivity|exact Hl].
Qed.

(** The bytes before the TLV area of an account that is not a bare mint. *)
Lemma header_split data :
  (166 ≤ length data)%nat → subarray data 82 165 = zeros 83 → byte_at data 165 = Some 1 →
  data = take 82 data ++ zeros 83 ++ [x01] ++ drop 166 data.
Proof.
  intros Hlen Hpad (b & Hb & Hb1)%byte_at_Some. rewrite <- Hpad. unfold subarray.
  rewrite <- (take_drop 82 data) at 1. f_equal.
  rewrite <- (take_drop (165 - 82) (drop 82 data)) at 1. f_equal.
  rewrite drop_drop. change (82 + (165 - 82))%nat with 165%nat.
  rewrite (drop_S _ _ _ Hb). cbn [app]. f_equal. apply b2z_inj. by rewrite <- Hb1.
Qed.

Lemma header_of_layout base tail :
  length base = 82%nat → let data := base ++ zeros 83 ++ [x01] ++ tail in
  (166 ≤ length data)%nat ∧ subarray data 82 165 = zeros 83 ∧ byte_at data 165 = Some 1 ∧
  drop 166 data = tail.
Proof.
  intros Hb data. subst data. repeat split.
  - rewrite !length_app. unfold zeros. rewrite length_replicate. cbn [length]. lia.
  - rewrite subarray_app_skip by lia. rewrite Hb. by apply subarray_app_here.
  - unfold byte_at. rewrite lookup_app_r by lia. rewrite Hb. reflexivity.
  - rewrite drop_app_ge by lia. rewrite Hb. reflexivity.
Qed.

Lemma parseMintAccount_Ok owner data es :
  parseMintAccount owner data = Ok es ↔
  owner = TOKEN_2022_PROGRAM_ADDRESS ∧ base_mint data ∧
  (length data = 82%nat ∧ es = [] ∨
   length data ≠ 82%nat ∧ ∃ items, mint_layout data items ∧ es = entries_from 166 items).
Proof.
  unfold parseMintAccount. rewrite guard_then_Ok, then_Ok, validateBaseMint_Ok, negb_false_iff, String.eqb_eq.
  do 2 apply and_iff_compat_l. unfold BASE_MINT_LEN.
  destruct (Nat.eqb_spec (length data) 82) as [Hlen|Hlen].
  { split; [intros [= <-]; auto|intros [[_ ->]|[? _]]; done]. }
  rewrite !guard_then_Ok, Nat.ltb_ge, all_zero_spec, negb_false_iff, bool_decide_eq_true.
  change TLV_START with 166%nat. change ACCOUNT_TYPE_OFFSET with 165%nat. unfold ACCOUNT_TYPE_MINT, readTlvEntries.
  change TLV_START with 166%nat.
  split.
  - intros (H166 & Hpad & Htype & Hrun). rewrite length_subarray in Hpad by lia.
    apply readTlv_sound in Hrun as (items & rest & Hdrop & Hwf & [Hnd _] & Hend & ->); [|done].
    right. split; [done|]. exists items. split; [|done]. exists (take 82 data), rest.
    rewrite <- Hdrop. split; [rewrite length_take; lia|]. split; [by apply header_split|done].
  - intros [[? _]|(_ & items & (base & rest & Hbase & Heq & Hwf & Hnd & Hend) & ->)]; [done|].
    destruct (header_of_layout base (print_items items ++ rest) Hbase) as (H166 & Hpad & Htype & Hdrop).
    rewrite <- Heq in H166, Hpad, Htype, Hdrop.
    split; [done|]. split; [rewrite length_subarray by lia; done|]. split; [done|].
    rewrite (readTlv_complete items rest); [done|done|lia|done|done| |done]. split; [done|].
    intros t _. apply not_elem_of_empty.
Qed.

Lemma entries_types off items : map tlv_type (entries_from off items) = map fst items.
Proof. revert off; induction items as [|[t v] items IH]; intros off; [done|]. cbn. by rewrite IH. Qed.

(** The value of an extension found in a well-formed account, in place. *)
Lemma find_type_layout data items type :
  mint_layout data items →
  match find_type type (entries_from 166 items) with
  | Some entry => ∃ value k, (type, value) ∈ items ∧ tlv_length entry = length value ∧
      drop (valueOffset entry) data = value ++ k
  | None => type ∉ map fst items
  end.
Proof.
  intros (base & rest & Hbase & -> & _). pose proof (find_type_entries type 166 items) as H.
  destruct (find_type _ _) as [entry|]; [|exact H].
  destruct H as (value & k & Hin & Hlen & Hoff & Hdrop). exists value, (k ++ rest).
  repeat split; [done|done|].
  destruct (header_of_layout base (print_items items ++ rest) Hbase) as (_ & _ & _ & H166).
  replace (valueOffset entry) with (166 + (valueOffset entry - 166))%nat by lia.
  by rewrite <- drop_drop, H166, drop_app_le, Hdrop, app_assoc by lia.
Qed.

Lemma subarray_at (data value k : bytes) o i j :
  drop o data = value ++ k → (i ≤ j ≤ length value)%nat →
  subarray data (o + i) (o + j) = subarray value i j.
Proof.
  intros Hd Hij. unfold subarray. rewrite <- drop_drop, Hd, drop_app_le by lia.
  replace (o + j - (o + i))%nat with (j - i)%nat by lia.
  rewrite take_app_le; [done|]. rewrite length_drop. lia.
Qed.

Lemma get_int_at (data value k : bytes) o i :
  drop o data = value ++ k → (i + 8 ≤ length value)%nat →
  get_int 8 data (o + i) = Some (to_signed 8 (le_Z (subarray value i (i + 8)))).
Proof.
  intros Hd Hi. unfold get_int. rewrite get_uint_drop, <- drop_drop, Hd, drop_app_le by lia.
  unfold get_uint. rewrite length_app, length_drop, drop_0.
  destruct (Nat.leb_spec (0 + 8) (length value - i + length k)); [|lia].
  unfold subarray. cbn [fmap option_fmap option_map]. rewrite take_app_le by (rewrite length_drop; lia).
  by replace (i + 8 - i)%nat with 8%nat by lia.
Qed.

(** The value of a ScaledUiAmount extension. *)
Definition scaled_config (authority : bytes) (s : ProtectedState) : bytes :=
  authority ++ multiplier s ++ le_bytes 8 (newMultiplierEffectiveTimestamp s) ++ newMultiplier s.

Lemma scaled_config_split value :
  length value = 56%nat →
  value = scaled_config (take 32 value)
    (mkProtectedState (subarray value 32 40) (subarray value 48 56) (to_signed 8 (le_Z (subarray value 40 48)))).
Proof.
  intros Hv. unfold scaled_config, subarray. cbn [multiplier newMultiplier newMultiplierEffectiveTimestamp].
  rewrite <- le_bytes_to_signed by (rewrite length_take, length_drop; lia).
  rewrite <- (take_drop 32 value) at 1. f_equal. rewrite <- (take_drop (40 - 32) (drop 32 value)) at 1. f_equal.
  rewrite drop_drop. rewrite <- (take_drop (48 - 40) (drop (32 + (40 - 32)) value)) at 1. f_equal.
  rewrite drop_drop, take_ge; [done|]. rewrite length_drop. lia.
Qed.

Lemma scaled_config_fields authority s :
  length authority = 32%nat → length (multiplier s) = 8%nat → length (newMultiplier s) = 8%nat →
  i64_range (newMultiplierEffectiveTimestamp s) →
  let value := scaled_config authority s in
  length value = 56%nat ∧ subarray value 32 40 = multiplier s ∧ subarray value 48 56 = newMultiplier s ∧
  to_signed 8 (le_Z (subarray value 40 48)) = newMultiplierEffectiveTimestamp s.
Proof.
  intros Ha Hm Hn Ht value. subst value. unfold scaled_config. repeat split.
  - rewrite !length_app, length_le_bytes. lia.
  - rewrite subarray_app_skip by lia. rewrite Ha. by apply subarray_app_here.
  - rewrite !subarray_app_skip by (rewrite ?length_le_bytes; lia). rewrite Ha, Hm, length_le_bytes.
    rewrite <- (app_nil_r (newMultiplier s)) at 1. by apply subarray_app_here.
  - rewrite !subarray_app_skip by lia. rewrite Ha, Hm. cbn [Nat.sub].
    rewrite subarray_app_here by apply length_le_bytes. by apply to_signed_le_bytes.
Qed.

Lemma invalid_combination_ext f g : (∀ t, f t = g t) → invalid_combination f = invalid_combination g.
Proof. intros H. unfold invalid_combination. by rewrite !H. Qed.

Lemma combination_types items :
  invalid_combination (λ t, bool_decide (t ∈ (list_to_set (map tlv_type (entries_from 166 items)) : gset Z))) =
  invalid_combination (λ t, bool_decide (t ∈ map fst items)).
Proof.
  apply invalid_combination_ext. intros t. apply bool_decide_ext. by rewrite entries_types, elem_of_list_to_set.
Qed.

Lemma mint_layout_length data items : mint_layout data items → length data ≠ 82%nat.
Proof.
  intros (base & rest & Hbase & -> & _).
  pose proof (proj1 (header_of_layout base (print_items items ++ rest) Hbase)) as Hd. cbv zeta in Hd. lia.
Qed.

(** A Token-2022 mint account that holds the protected state [s]. *)
Definition holds_state (data : bytes) (s : ProtectedState) : Prop :=
  base_mint data ∧
  ∃ items authority, mint_layout data items ∧
    (ScaledUiAmount, scaled_config authority s) ∈ items ∧ length authority = 32%nat ∧
    isValidStoredMultiplier (multiplier s) = true ∧ isValidStoredMultiplier (newMultiplier s) = true ∧
    i64_range (newMultiplierEffectiveTimestamp s) ∧
    invalid_combination (λ type, bool_decide (type ∈ map fst items)) = false.

Lemma decodeProtectedState_sound owner data s :
  decodeProtectedState owner data = Ok s → owner = TOKEN_2022_PROGRAM_ADDRESS ∧ holds_state data s.
Proof.
  unfold decodeProtectedState. cbv zeta.
  intros (es & (Howner & Hbase & Hes)%parseMintAccount_Ok & (Hne%Nat.eqb_neq & Hrun)%guard_then_Ok)%bind_Ok.
  destruct Hes as [[Hlen ->]|(Hlen & items & Hlay & ->)]; [done|].
  split; [done|]. split; [done|]. pose proof (find_type_layout data items ScaledUiAmount Hlay) as Hfind.
  destruct (find_type _ _) as [entry|]; [|done]. destruct Hfind as (value & k & Hin & Hvl & Hdrop).
  unfold assertValidMintExtensionCombination, SCALED_UI_AMOUNT_CONFIG_LEN in Hrun.
  rewrite !guard_then_Ok, combination_types, negb_false_iff, Nat.eqb_eq, Hvl in Hrun.
  destruct Hrun as (Hcomb & H56 & Hrun).
  rewrite !(subarray_at _ _ _ _ _ _ Hdrop), (get_int_at _ _ _ _ _ Hdrop) in Hrun by lia.
  rewrite orb_false_iff, !negb_false_iff in Hrun. destruct Hrun as ([Hm Hn] & [= <-]).
  exists items, (take 32 value). rewrite <- scaled_config_split by done.
  cbn [multiplier newMultiplier newMultiplierEffectiveTimestamp].
  repeat (split; [done|]). split; [rewrite length_take; lia|]. repeat (split; [done|]). split; [|done].
  apply to_signed_i64. rewrite length_subarray; lia.
Qed.

Lemma decodeProtectedState_complete data s :
  holds_state data s → decodeProtectedState TOKEN_2022_PROGRAM_ADDRESS data = Ok s.
Proof.
  intros (Hbase & items & authority & Hlay & Hin & Ha & Hm & Hn & Ht & Hcomb).
  pose proof (mint_layout_length _ _ Hlay) as Hlen.
  assert (parseMintAccount TOKEN_2022_PROGRAM_ADDRESS data = Ok (entries_from 166 items)) as Hparse
    by (apply parseMintAccount_Ok; eauto 10).
  unfold decodeProtectedState. cbv zeta. rewrite Hparse. cbn [mbind result_bind].
  rewrite guard_then_Ok, Nat.eqb_neq. split; [done|].
  pose proof (find_type_layout data items ScaledUiAmount Hlay) as Hfind.
  destruct (find_type _ _) as [entry|]; [|by exfalso; apply Hfind, list_elem_of_fmap; eexists (_, _)].
  destruct Hfind as (value & k & Hin' & Hvl & Hdrop).
  destruct Hlay as (? & ? & ? & ? & ? & Hnd & ?).
  rewrite <- (assoc_unique _ _ _ _ Hnd Hin Hin') in Hvl, Hdrop.
  destruct (scaled_config_fields authority s) as (H56 & Hm' & Hn' & Ht');
    [by auto using isValidStoredMultiplier_length..|].
  unfold assertValidMintExtensionCombination.
  rewrite !guard_then_Ok, combination_types, negb_false_iff, Nat.eqb_eq. split; [done|]. split; [by rewrite Hvl|].
  rewrite !(subarray_at _ _ _ _ _ _ Hdrop), (get_int_at _ _ _ _ _ Hdrop) by lia.
  rewrite orb_false_iff, !negb_false_iff, Hm', Hn'. split; [done|].
  cbn [of_option mbind result_bind]. change (40 + 8)%nat with 48%nat. rewrite Ht'. by destruct s.
Qed.

(** C34: [decodeProtectedState] returns a state exactly for a Token-2022
    account that is an initialized base mint, 83 zero bytes, the mint account
    type and a TLV area of distinct known extensions, in a combination
    Token-2022 allows, whose ScaledUiAmount entry has 56 bytes: an authority,
    a valid multiplier, an i64 timestamp and a valid new multiplier; the state
    is those fields. *)
Theorem decodeProtectedState_spec owner data s :
  decodeProtectedState owner data = Ok s ↔ owner = TOKEN_2022_PROGRAM_ADDRESS ∧ holds_state data s.
Proof.
  split; [apply decodeProtectedState_sound|intros [-> ?]; by apply decodeProtectedState_complete].
Qed.

(* ------------------------------------------------------------------ *)
(** ** Every failure is a structured error *)

Lemma structured_checkTag data off : (off + 4 ≤ length data)%nat → structured (checkTag data off).
Proof. intros. unfold checkTag. structured. by apply structured_of_option, get_uint_is_Some. Qed.

Lemma structured_validateBaseMint data : structured (validateBaseMint data).
Proof.
  unfold validateBaseMint, MINT_AUTHORITY_TAG_OFFSET, FREEZE_AUTHORITY_TAG_OFFSET.
  apply structured_bind; [apply structured_guard|].
  intros ? [Hlen%Nat.ltb_ge _]%guard_Ok%orb_false_iff. unfold BASE_MINT_LEN in Hlen.
  structured; apply structured_checkTag; lia.
Qed.

Lemma structured_readTlv fuel data offset seen acc :
  (offset ≤ length data)%nat → (length data - offset < fuel)%nat →
  structured (readTlv fuel data offset seen acc).
Proof.
  revert offset seen acc. induction fuel as [|fuel IH]; intros offset seen acc Hoff Hfuel; [lia|].
  cbn [readTlv]. destruct (Nat.leb_spec 2 (length data - offset)); cbn [negb]; [|apply structured_Ok].
  apply structured_bind; [by apply structured_of_option, get_uint_is_Some; lia|intros type _].
  destruct (type =? Uninitialized); [apply structured_Ok|]. unfold TLV_HEADER_LEN.
  apply structured_bind; [apply structured_guard|intros _ _].
  apply structured_bind; [apply structured_guard|intros _ H4%guard_Ok%Nat.ltb_ge].
  apply structured_bind; [by apply structured_of_option, get_uint_is_Some; lia|intros size _].
  apply structured_bind; [apply structured_guard|intros _ Hv%guard_Ok%Nat.ltb_ge].
  apply structured_bind; [apply structured_guard|intros _ _].
  apply IH; lia.
Qed.

Lemma structured_parseMintAccount owner data : structured (parseMintAccount owner data).
Proof.
  unfold parseMintAccount. apply structured_bind; [apply structured_guard|intros _ _].
  apply structured_bind; [apply structured_validateBaseMint|intros _ _].
  destruct (Nat.eqb _ _); [apply structured_Ok|].
  apply structured_bind; [apply structured_guard|intros _ H%guard_Ok%Nat.ltb_ge].
  apply structured_bind; [apply structured_guard|intros _ _].
  apply structured_bind; [apply structured_guard|intros _ _].
  apply structured_readTlv; change TLV_START with 166%nat in *; lia.
Qed.

Lemma found_in_place data items type entry :
  mint_layout data items → find_type type (entries_from 166 items) = Some entry →
  (valueOffset entry + tlv_length entry ≤ length data)%nat.
Proof.
  intros Hlay Hf. pose proof (find_type_layout data items type Hlay) as H. rewrite Hf in H.
  destruct H as (value & k & _ & -> & Hdrop). apply (f_equal length) in Hdrop.
  rewrite length_drop, length_app in Hdrop.
  destruct value; cbn [length] in *; [|lia].
  destruct (decide (valueOffset entry ≤ length data)%nat); [lia|].
  pose proof (find_type_entries type 166 items) as H. rewrite Hf in H.
  destruct H as (? & ? & _ & _ & Hb & _). destruct Hlay as (base & rest & Hbase & Heq & _).
  apply (f_equal length) in Heq. rewrite !length_app in Heq. unfold zeros in Heq.
  rewrite length_replicate in Heq. cbn [length] in Heq. lia.
Qed.

Lemma structured_decodeProtectedState owner data : structured (decodeProtectedState owner data).
Proof.
  unfold decodeProtectedState. cbv zeta. apply structured_bind; [apply structured_parseMintAccount|].
  intros es (_ & _ & Hes)%parseMintAccount_Ok. apply structured_bind; [apply structured_guard|].
  intros _ Hne%guard_Ok%Nat.eqb_neq. destruct Hes as [[Hlen ->]|(_ & items & Hlay & ->)]; [done|].
  destruct (find_type _ _) as [entry|] eqn:Hf; [|apply structured_throw].
  pose proof (found_in_place _ _ _ _ Hlay Hf) as Hin.
  apply structured_bind; [apply structured_guard|intros _ _].
  apply structured_bind; [apply structured_guard|intros _ H56%guard_Ok%negb_false_iff%Nat.eqb_eq].
  apply structured_bind; [apply structured_guard|intros _ _]. unfold SCALED_UI_AMOUNT_CONFIG_LEN in H56.
  apply structured_bind; [|intros; apply structured_Ok]. apply structured_of_option.
  unfold get_int. rewrite fmap_is_Some. apply get_uint_is_Some. lia.
Qed.

Lemma structured_decodeMintMetadata owner data : structured (decodeMintMetadata owner data).
Proof. unfold decodeMintMetadata. cbv zeta. structured. apply structured_parseMintAccount. Qed.

(** The mint decoders fail closed with the client's structured error on
    every input: no read leaves the account, and the TLV loop always ends. *)
Theorem mint_decoders_structured owner data :
  structured (decodeProtectedState owner data) ∧ structured (decodeMintMetadata owner data).
Proof. split; [apply structured_decodeProtectedState|apply structured_decodeMintMetadata]. Qed.

(* ------------------------------------------------------------------ *)
(** ** Which accounts carry no protected state *)

Lemma throws_readTlv fuel data offset seen acc : throws (.= C_InvalidMintData) (readTlv fuel data offset seen acc).
Proof.
  revert offset seen acc. induction fuel as [|fuel IH]; intros offset seen acc; [apply throws_rec_fuel|].
  cbn [readTlv]. cbv zeta. throws.
Qed.

Lemma throws_parseMintAccount data :
  throws (.= C_InvalidMintData) (parseMintAccount TOKEN_2022_PROGRAM_ADDRESS data).
Proof.
  unfold parseMintAccount. rewrite String.eqb_refl. cbn [negb guard_throw_if throw_if mbind result_bind].
  unfold validateBaseMint, checkTag. throws. apply throws_readTlv.
Qed.

(** A well-formed mint account without a ScaledUiAmount extension. *)
Definition carries_no_state (data : bytes) : Prop :=
  base_mint data ∧
  (length data = 82%nat ∨ ∃ items, mint_layout data items ∧ ¬ (ScaledUiAmount ∈ map fst items)).

Lemma decodeProtectedState_owner owner data :
  thrown_code (decodeProtectedState owner data) = Some C_InvalidMintOwner ↔ owner ≠ TOKEN_2022_PROGRAM_ADDRESS.
Proof.
  split.
  - intros Hc ->. unfold decodeProtectedState in Hc.
    assert (throws (λ c, c ≠ C_InvalidMintOwner) (decodeProtectedState TOKEN_2022_PROGRAM_ADDRESS data)) as Ht.
    { unfold decodeProtectedState, assertValidMintExtensionCombination. cbv zeta.
      apply throws_bind; [intros c ->%throws_parseMintAccount; discriminate|intros es _].
      throws; apply throws_guard || apply throws_throw; discriminate. }
    by apply (Ht _ Hc).
  - intros Hne%String.eqb_neq. unfold decodeProtectedState, parseMintAccount. rewrite Hne. reflexivity.
Qed.

Lemma decodeProtectedState_missing data :
  thrown_code (decodeProtectedState TOKEN_2022_PROGRAM_ADDRESS data) = Some C_MissingScaledUiAmount ↔
  carries_no_state data.
Proof.
  unfold decodeProtectedState. cbv zeta. split.
  - destruct (parseMintAccount _ data) as [es|e] eqn:Hparse; cbn [mbind result_bind].
    2: { intros Hc. assert (thrown_code (parseMintAccount TOKEN_2022_PROGRAM_ADDRESS data) = Some C_MissingScaledUiAmount) as Ht
           by by rewrite Hparse. by apply throws_parseMintAccount in Ht. }
    apply parseMintAccount_Ok in Hparse as (_ & Hbase & Hes). intros Hc. split; [exact Hbase|].
    destruct Hes as [[Hlen _]|(Hlen & items & Hlay & ->)]; [by left|]. right. exists items. split; [exact Hlay|].
    apply Nat.eqb_neq in Hlen. unfold BASE_MINT_LEN in Hc. rewrite Hlen in Hc.
    cbn [guard_throw_if throw_if mbind result_bind] in Hc.
    pose proof (find_type_layout data items ScaledUiAmount Hlay) as Hfind.
    destruct (find_type _ _) as [entry|]; [|exact Hfind]. exfalso.
    eapply (throws_bind (λ c, c ≠ C_MissingScaledUiAmount)) in Hc; [done|by apply throws_guard|].
    intros _ _. unfold assertValidMintExtensionCombination. throws; by apply throws_guard.
  - intros [Hbase Hor].
    assert (∃ es, parseMintAccount TOKEN_2022_PROGRAM_ADDRESS data = Ok es ∧
      (length data = 82%nat ∨ find_type ScaledUiAmount es = None)) as (es & Hparse & Hes).
    { destruct Hor as [Hlen|(items & Hlay & Hnot)].
      - exists []. split; [|by left]. apply parseMintAccount_Ok. auto.
      - exists (entries_from 166 items). split.
        + apply parseMintAccount_Ok. split_and!; [done|done|]. right. split; [by apply (mint_layout_length _ items)|eauto].
        + right. pose proof (find_type_layout data items ScaledUiAmount Hlay) as Hfind.
          destruct (find_type _ _) as [entry|]; [|done]. destruct Hfind as (v & k & Hin & _). exfalso.
          apply Hnot, list_elem_of_fmap. by exists (ScaledUiAmount, v). }
    rewrite Hparse. cbn [mbind result_bind]. unfold BASE_MINT_LEN.
    destruct (Nat.eqb_spec (length data) 82) as [_|Hne]; [reflexivity|].
    destruct Hes as [?| ->]; [done|reflexivity].
Qed.

(* ------------------------------------------------------------------ *)
(** ** Metadata *)

(** A mint account with the given decimals and Pausable flag. *)
Definition holds_metadata (data : bytes) (m : MintMetadata) : Prop :=
  base_mint data ∧ byte_at data 44 = Some (decimals m) ∧
  (length data = 82%nat ∧ paused m = None ∨
   ∃ items, mint_layout data items ∧
     (¬ (Pausable ∈ map fst items) ∧ paused m = None ∨
      ∃ authority flag, (Pausable, authority ++ [flag]) ∈ items ∧ length authority = 32%nat ∧
        (flag = x00 ∧ paused m = Some false ∨ flag = x01 ∧ paused m = Some true))).

Lemma pausable_split (value : bytes) : length value = 33%nat →
  ∃ authority flag, value = authority ++ [flag] ∧ length authority = 32%nat.
Proof.
  intros Hv. destruct (drop 32 value) as [|flag k] eqn:Hd.
  - apply (f_equal length) in Hd. rewrite length_drop in Hd. cbn in Hd. lia.
  - exists (take 32 value), flag. pose proof (f_equal length Hd) as Hl. rewrite length_drop in Hl.
    destruct k; cbn in Hl; [|lia]. rewrite <- Hd, take_drop, length_take. split; [done|lia].
Qed.

Lemma flag_at data authority flag k o :
  drop o data = (authority ++ [flag]) ++ k → length authority = 32%nat →
  byte_at data (o + 32) = Some (b2z flag).
Proof.
  intros Hd Ha. unfold byte_at. rewrite <- lookup_drop, Hd, <- app_assoc, lookup_app_r by lia.
  by rewrite Ha.
Qed.

Lemma b2z_01 b : (b2z b = 0 ↔ b = x00) ∧ (b2z b = 1 ↔ b = x01).
Proof. split; (split; [intros H; by apply b2z_inj|by intros ->]). Qed.

Lemma decodeMintMetadata_sound owner data m :
  decodeMintMetadata owner data = Ok m → owner = TOKEN_2022_PROGRAM_ADDRESS ∧ holds_metadata data m.
Proof.
  unfold decodeMintMetadata. cbv zeta. unfold PAUSABLE_CONFIG_LEN, PAUSED_OFFSET.
  intros (es & (Howner & Hbase & Hes)%parseMintAccount_Ok & Hrun)%bind_Ok.
  change MINT_DECIMALS_OFFSET with 44%nat in Hrun.
  destruct (byte_at data 44) as [dec|] eqn:Hdec; [|done].
  split; [done|]. split; [done|].
  destruct Hes as [[Hlen ->]|(Hlen & items & Hlay & ->)].
  { injection Hrun as <-. auto. }
  pose proof (find_type_layout data items Pausable Hlay) as Hfind.
  destruct (find_type _ _) as [entry|].
  2: { injection Hrun as <-. split; [done|]. right. exists items. split; [done|]. by left. }
  destruct Hfind as (value & k & Hin & Hvl & Hdrop).
  rewrite !guard_then_Ok, negb_false_iff, Nat.eqb_eq, Hvl in Hrun. destruct Hrun as (Hv & Hflag & [= <-]).
  destruct (pausable_split value Hv) as (authority & flag & -> & Ha).
  rewrite (flag_at _ _ _ _ _ Hdrop Ha) in Hflag |- *. split; [done|]. right. exists items. split; [done|].
  right. exists authority, flag. split; [done|]. split; [done|]. cbn [paused].
  apply andb_false_iff in Hflag. rewrite !bool_decide_eq_false in Hflag.
  destruct Hflag as [[= H0]%dec_stable|[= H1]%dec_stable]; [left|right].
  - apply b2z_01 in H0 as ->. done.
  - apply b2z_01 in H1 as ->. done.
Qed.

Lemma decodeMintMetadata_complete data m :
  holds_metadata data m → decodeMintMetadata TOKEN_2022_PROGRAM_ADDRESS data = Ok m.
Proof.
  intros (Hbase & Hdec & Hlay). unfold decodeMintMetadata. cbv zeta. unfold PAUSABLE_CONFIG_LEN, PAUSED_OFFSET.
  change MINT_DECIMALS_OFFSET with 44%nat. destruct m as [dec pause]. cbn [decimals paused] in *.
  destruct Hlay as [[Hlen ->]|(items & Hlay & Hp)].
  { assert (parseMintAccount TOKEN_2022_PROGRAM_ADDRESS data = Ok []) as -> by (apply parseMintAccount_Ok; auto).
    cbn [mbind result_bind]. by rewrite Hdec. }
  assert (parseMintAccount TOKEN_2022_PROGRAM_ADDRESS data = Ok (entries_from 166 items)) as ->
    by (apply parseMintAccount_Ok; eauto 10 using mint_layout_length).
  cbn [mbind result_bind]. rewrite Hdec.
  pose proof (find_type_layout data items Pausable Hlay) as Hfind.
  destruct Hp as [[Hno ->]|(authority & flag & Hin & Ha & Hflag)].
  { destruct (find_type _ _) as [entry|]; [|done]. destruct Hfind as (value & k & Hin & _).
    exfalso. apply Hno, list_elem_of_fmap. by eexists (_, _). }
  destruct (find_type _ _) as [entry|]; [|by exfalso; apply Hfind, list_elem_of_fmap; eexists (_, _)].
  destruct Hfind as (value & k & Hin' & Hvl & Hdrop). destruct Hlay as (? & ? & ? & ? & ? & Hnd & ?).
  rewrite <- (assoc_unique _ _ _ _ Hnd Hin Hin') in Hvl, Hdrop.
  rewrite length_app, Ha in Hvl. cbn in Hvl. rewrite Hvl, (flag_at _ _ _ _ _ Hdrop Ha).
  by destruct Hflag as [[-> ->]|[-> ->]].
Qed.

(** [decodeMintMetadata] returns exactly the decimals byte and the Pausable
    flag of a well-formed Token-2022 mint: no flag when the extension is
    absent, and a refusal when its length or flag is malformed. *)
Theorem decodeMintMetadata_spec owner data m :
  decodeMintMetadata owner data = Ok m ↔ owner = TOKEN_2022_PROGRAM_ADDRESS ∧ holds_metadata data m.
Proof.
  split; [apply decodeMintMetadata_sound|intros [-> ?]; by apply decodeMintMetadata_complete].
Qed.

(** A mint account of two extensions, a paused flag and the sample state. *)
Definition sample_mint_account : bytes :=
  zeros 44 ++ [x06; x01] ++ zeros 36 ++ zeros 83 ++ [x01] ++
  print_items [(Pausable, zeros 32 ++ [x01]); (ScaledUiAmount, scaled_config (zeros 32) sample_state)] ++ [x00].

Example sample_mint_account_decodes :
  decodeProtectedState TOKEN_2022_PROGRAM_ADDRESS sample_mint_account = Ok sample_state ∧
  decodeMintMetadata TOKEN_2022_PROGRAM_ADDRESS sample_mint_account = Ok (mkMetadata 6 (Some true)).
Proof. split; vm_compute; reflexivity. Qed.
