(* ===== verification/Snapshot.v ===== *)
(** * snapshot.ts: the chain-consistent guard snapshot

    One [getMultipleAccounts] reply gives the mint and the Clock sysvar of one
    slot; the RPC endpoint and the base-64 decoder of the runtime are
    parameters. *)

From S2P Require Import Prelude Js Errors Kit Base58 Abi OnChain OfflineCheck MintState.

Definition SYSVAR_CLOCK_ADDRESS : Address := "SysvarC1ock11111111111111111111111111111111".
Definition CLOCK_LEN : nat := 40.
Definition CLOCK_UNIX_TIMESTAMP_OFFSET : nat := 32.

Record ChainClock := mkClock { clock_slot : Z; clock_unixTimestamp : Z }.

Record GuardSnapshot := mkSnapshot {
  snap_mint : Address;
  snap_contextSlot : Z;
  snap_clock : ChainClock;
  snap_state : ProtectedState;
  snap_phase : Z;
  snap_hasScheduledChange : bool;
}.

Definition decodeClock (data : bytes) : result client_exn ChainClock :=
  guard_throw_if (negb (Nat.eqb (length data) CLOCK_LEN)) C_InvalidClockData
    ("expected " +:+ show_Z (Z.of_nat CLOCK_LEN) +:+ " bytes, got " +:+ show_Z (Z.of_nat (length data)));;
  slot ← of_option RangeErr (get_uint 8 data 0);
  timestamp ← of_option RangeErr (get_int 8 data CLOCK_UNIX_TIMESTAMP_OFFSET);
  Ok (mkClock slot timestamp).

(** An account of the reply: its owner and its data, still encoded. *)
Record RpcAccount := mkRpcAccount { rpc_owner : string; rpc_data : string }.

(** The reply for [[mint, SYSVAR_CLOCK_ADDRESS]]: context slot and the two values. *)
Record RpcReply := mkReply {
  reply_slot : Z;
  reply_mint : option RpcAccount;
  reply_clock : option RpcAccount;
}.

Section Fetch.
  Variable base64Data : string → bytes.
  Variable getMultipleAccounts : list Address → result client_exn RpcReply.

Definition fetchGuardSnapshot (mint : Address) : result client_exn GuardSnapshot :=
  reply ← getMultipleAccounts [mint; SYSVAR_CLOCK_ADDRESS];
  match reply_mint reply with
  | None => throw_guard C_AccountNotFound ("mint " +:+ mint +:+ " not found")
  | Some mintAccount =>
      match reply_clock reply with
      | None => throw_guard C_AccountNotFound "Clock sysvar not returned"
      | Some clockAccount =>
          clock ← decodeClock (base64Data (rpc_data clockAccount));
          state ← decodeProtectedState (rpc_owner mintAccount) (base64Data (rpc_data mintAccount));
          Ok (mkSnapshot mint (reply_slot reply) clock state (phaseAt state (clock_unixTimestamp clock))
                (hasScheduledChange state))
      end
  end.
End Fetch.

(** [instruction.ts]: the expectation of a snapshot. *)
Definition expectationFromSnapshot (snapshot : GuardSnapshot) (window : ProtectionWindow) : AssertSafeExecutionRequest :=
  mkRequest (snap_state snapshot) (snap_phase snapshot) window.

(* ------------------------------------------------------------------ *)
(** ** The clock *)

Lemma decodeClock_total data : length data = 40%nat →
  decodeClock data = Ok (mkClock (le_Z (take 8 data)) (to_signed 8 (le_Z (take 8 (drop 32 data))))).
Proof.
  intros H. unfold decodeClock, CLOCK_LEN, CLOCK_UNIX_TIMESTAMP_OFFSET, get_int, get_uint.
  by rewrite H, drop_0.
Qed.

(** [decodeClock] reads exactly the 40-byte sysvar: a slot and a signed
    timestamp come back iff the data is the u64 slot, 24 bytes of other fields
    and the i64 timestamp, all little-endian. *)
Theorem decodeClock_spec data clock :
  decodeClock data = Ok clock ↔
  u64_range (clock_slot clock) ∧ i64_range (clock_unixTimestamp clock) ∧
  ∃ other, length other = 24%nat ∧
    data = le_bytes 8 (clock_slot clock) ++ other ++ le_bytes 8 (clock_unixTimestamp clock).
Proof.
  split.
  - intros Hrun. assert (length data = 40%nat) as Hlen.
    { unfold decodeClock in Hrun. apply guard_then_Ok in Hrun as [H%negb_false_iff%Nat.eqb_eq _]. exact H. }
    rewrite decodeClock_total in Hrun by done. injection Hrun as <-. cbn [clock_slot clock_unixTimestamp].
    assert (length (take 8 data) = 8%nat) as H8 by (rewrite length_take; lia).
    assert (length (take 8 (drop 32 data)) = 8%nat) as H8' by (rewrite length_take, length_drop; lia).
    split; [pose proof (le_Z_range (take 8 data)) as H; by rewrite H8 in H|].
    split; [by apply to_signed_i64|]. exists (take 24 (drop 8 data)).
    split; [rewrite length_take, length_drop; lia|].
    rewrite <- int_field, <- le_bytes_to_signed by done.
    rewrite <- (take_drop 8 data) at 1. f_equal. rewrite <- (take_drop 24 (drop 8 data)) at 1. f_equal.
    rewrite drop_drop, take_ge; [done|]. rewrite length_drop. lia.
  - destruct clock as [slot ts]; cbn [clock_slot clock_unixTimestamp].
    intros (Hs & Ht & other & Ho & ->). rewrite decodeClock_total by (rewrite !length_app, !length_le_bytes; lia).
    rewrite take_app_length' by (by rewrite length_le_bytes).
    rewrite app_assoc, drop_app_length' by (rewrite length_app, length_le_bytes, Ho; done).
    rewrite take_ge by (by rewrite length_le_bytes).
    rewrite to_signed_le_bytes, le_Z_le_bytes_small by done. done.
Qed.

(* ------------------------------------------------------------------ *)
(** ** The snapshot *)

Section FetchSpec.
  Variable base64Data : string → bytes.
  Variable rpc : list Address → result client_exn RpcReply.

Lemma fetchGuardSnapshot_Ok mint snap :
  fetchGuardSnapshot base64Data rpc mint = Ok snap ↔
  ∃ reply mintAccount clockAccount,
    rpc [mint; SYSVAR_CLOCK_ADDRESS] = Ok reply ∧
    reply_mint reply = Some mintAccount ∧ reply_clock reply = Some clockAccount ∧
    decodeClock (base64Data (rpc_data clockAccount)) = Ok (snap_clock snap) ∧
    decodeProtectedState (rpc_owner mintAccount) (base64Data (rpc_data mintAccount)) = Ok (snap_state snap) ∧
    snap_mint snap = mint ∧ snap_contextSlot snap = reply_slot reply ∧
    snap_phase snap = phaseAt (snap_state snap) (clock_unixTimestamp (snap_clock snap)) ∧
    snap_hasScheduledChange snap = hasScheduledChange (snap_state snap).
Proof.
  unfold fetchGuardSnapshot. rewrite bind_Ok. split.
  - intros (reply & Hrpc & Hrun).
    destruct (reply_mint reply) as [m|] eqn:Hm; [|done]. destruct (reply_clock reply) as [c|] eqn:Hc; [|done].
    apply bind_Ok in Hrun as (clock & Hclock & Hrun). apply bind_Ok in Hrun as (state & Hstate & [= <-]).
    exists reply, m, c. auto 10.
  - destruct snap as [sm sc clock state ph hs]. cbn. intros (reply & m & c & Hrpc & Hm & Hc & Hclock & Hstate & -> & -> & -> & ->).
    exists reply. rewrite Hm, Hc, Hclock. cbn [mbind result_bind]. by rewrite Hstate.
Qed.

Lemma snapshot_passes mint snap w :
  fetchGuardSnapshot base64Data rpc mint = Ok snap →
  valid_window (expectationFromSnapshot snap w) →
  (snap_hasScheduledChange snap = true →
   let t := newMultiplierEffectiveTimestamp (snap_state snap) in
   let now := clock_unixTimestamp (snap_clock snap) in
   I64_MIN ≤ t - num_value (beforeSecs w) ∧ t + num_value (afterSecs w) ≤ I64_MAX ∧
   (now < t - num_value (beforeSecs w) ∨ t + num_value (afterSecs w) < now)) →
  check (guard_request (expectationFromSnapshot snap w)) (guard_state (snap_state snap))
    (clock_unixTimestamp (snap_clock snap)) = Ok tt.
Proof.
  intros (reply & m & c & _ & _ & _ & _ & Hstate & _ & _ & Hphase & Hsched)%fetchGuardSnapshot_Ok [Hb Ha] Hout.
  apply isValidWindowSecs_spec in Hb as [_ Hb], Ha as [_ Ha]. cbn [window] in Hb, Ha.
  apply decodeProtectedState_sound in Hstate as (_ & _ & _ & _ & _ & _ & _ & _ & _ & Ht & _).
  apply check_Ok. split; [done|]. destruct (hasScheduledChange (snap_state snap)) eqn:Hs; cbn.
  - right. split; [apply contains_outside; cbn; auto|]. fold (guard_state (snap_state snap)).
    by rewrite guard_phase_at, Hphase.
  - left. unfold hasScheduledChange in Hs. by apply negb_false_iff, bytesEqual_spec in Hs.
Qed.

(** A snapshot authorises its own moment: if the fetch succeeds and, when a
    change is scheduled, the snapshot's clock is outside a representable
    window, then the program accepts the expectation built from the snapshot
    on the state and clock that were read. *)
Theorem snapshot_passes_guard mint snap w :
  fetchGuardSnapshot base64Data rpc mint = Ok snap →
  valid_window (expectationFromSnapshot snap w) →
  (snap_hasScheduledChange snap = true →
   let t := newMultiplierEffectiveTimestamp (snap_state snap) in
   let now := clock_unixTimestamp (snap_clock snap) in
   I64_MIN ≤ t - num_value (beforeSecs w) ∧ t + num_value (afterSecs w) ≤ I64_MAX ∧
   (now < t - num_value (beforeSecs w) ∨ t + num_value (afterSecs w) < now)) →
  check (guard_request (expectationFromSnapshot snap w)) (guard_state (snap_state snap))
    (clock_unixTimestamp (snap_clock snap)) = Ok tt.
Proof. apply snapshot_passes. Qed.
End FetchSpec.

(** A reply with the sample mint, its data standing for itself. *)
Definition sample_clock_data : bytes := le_bytes 8 7 ++ zeros 24 ++ le_bytes 8 1699990000.
Definition sample_base64 (s : string) : bytes := if String.eqb s "mint" then sample_mint_account else sample_clock_data.
Definition sample_rpc (_ : list Address) : result client_exn RpcReply :=
  Ok (mkReply 7 (Some (mkRpcAccount TOKEN_2022_PROGRAM_ADDRESS "mint")) (Some (mkRpcAccount "Sysvar" "clock"))).
Definition sample_snapshot : GuardSnapshot :=
  mkSnapshot sample_mint 7 (mkClock 7 1699990000) sample_state Pending true.

Lemma snapshot_passes_guard_witness :
  fetchGuardSnapshot sample_base64 sample_rpc sample_mint = Ok sample_snapshot ∧
  check (guard_request sample_expectation) (guard_state sample_state) 1699990000 = Ok tt.
Proof.
  assert (fetchGuardSnapshot sample_base64 sample_rpc sample_mint = Ok sample_snapshot) as H
    by (vm_compute; reflexivity).
  split; [exact H|].
  apply (snapshot_passes_guard sample_base64 sample_rpc sample_mint sample_snapshot (mkWindow (NumInt 900) (NumInt 60)) H).
  - by split.
  - intros _. cbn. unfold I64_MIN, I64_MAX. lia.
Defined.
