(* ===== verification/Downstream.v ===== *)
(** * downstream.ts: binding the guard to the instruction after it

    The commitment encoding, the transaction-level account flags, the guarded
    TransferChecked builder, and the program's side of the binding
    ([downstream.rs]) it is proved against. *)

From S2P Require Import Prelude Js Errors Kit Base58 Sha256 Abi OnChain OfflineCheck MintState.

Definition DOWNSTREAM_COMMITMENT_DOMAIN : string := "EQUITYGUARD_DOWNSTREAM_V2".
Definition SYSVAR_INSTRUCTIONS_ADDRESS : Address := "Sysvar1nstructions1111111111111111111111111".
Definition TRANSFER_CHECKED_TAG : Z := 12.
Definition TRANSFER_CHECKED_DATA_LEN : nat := 10.

Record CommittedAccount := mkCommitted {
  ca_address : Address;
  ca_isSigner : bool;
  ca_isWritable : bool;
}.

#[export] Instance CommittedAccount_eq_dec : EqDecision CommittedAccount.
Proof. solve_decision. Defined.

Record CommittedInstruction := mkCommittedInstruction {
  ci_programAddress : Address;
  ci_accounts : list CommittedAccount;
  ci_data : bytes;
}.

#[export] Instance CommittedInstruction_eq_dec : EqDecision CommittedInstruction.
Proof. solve_decision. Defined.

(** [u32le], on a length. *)
Definition u32le (value : nat) : result client_exn bytes :=
  guard_throw_if (U32_MAX <? Z.of_nat value) C_InvalidDownstream "length does not fit u32";;
  Ok (le_bytes 4 (Z.of_nat value)).

Definition flag_byte (b : bool) : byte := if b then x01 else x00.

Definition isSigner (role : AccountRole) : bool :=
  match role with READONLY_SIGNER | WRITABLE_SIGNER => true | _ => false end.

Definition isWritable (role : AccountRole) : bool :=
  match role with WRITABLE | WRITABLE_SIGNER => true | _ => false end.

Section Commitment.
  Context `{!AddressCodec}.

(** [encoder.encode(address)], or its throw. *)
Definition addressBytes (a : Address) : result client_exn bytes := of_option CodecErr (encodeAddress a).

(** The two parts pushed for one account. *)
Definition accountBytes (account : CommittedAccount) : result client_exn bytes :=
  key ← addressBytes (ca_address account);
  Ok (key ++ [flag_byte (ca_isSigner account); flag_byte (ca_isWritable account)]).

(** The parts pushed for one instruction, in both commitment encodings. *)
Definition instructionBytes (instruction : CommittedInstruction) : result client_exn bytes :=
  program ← addressBytes (ci_programAddress instruction);
  count ← u32le (length (ci_accounts instruction));
  accounts ← mapM_result accountBytes (ci_accounts instruction);
  size ← u32le (length (ci_data instruction));
  Ok (program ++ count ++ concat accounts ++ size ++ ci_data instruction).

Definition downstreamCommitmentPreimage (instruction : CommittedInstruction) : result client_exn bytes :=
  body ← instructionBytes instruction;
  Ok (encode_utf8 DOWNSTREAM_COMMITMENT_DOMAIN ++ body).

Definition downstreamCommitment `{!Digest} (instruction : CommittedInstruction) : result client_exn bytes :=
  preimage ← downstreamCommitmentPreimage instruction;
  Ok (digest preimage).

(** The closure [flags] of [asCommittedInstruction]: the two nested loops. *)
Definition flags (instructions : list Instruction) (feePayer address : Address) : bool * bool :=
  let init := (String.eqb address feePayer, String.eqb address feePayer) in
  fold_left (λ acc instruction,
    fold_left (λ '(signer, writable) meta,
      if negb (String.eqb (meta_address meta) address) then (signer, writable)
      else (signer || isSigner (meta_role meta), writable || isWritable (meta_role meta)))
      (accounts_of instruction) acc) instructions init.

Definition asCommittedInstruction (target : Instruction) (instructions : list Instruction)
    (feePayer : Address) : CommittedInstruction :=
  {| ci_programAddress := ix_programAddress target;
     ci_accounts := map (λ meta,
       let '(signer, writable) := flags instructions feePayer (meta_address meta) in
       mkCommitted (meta_address meta) signer writable) (accounts_of target);
     ci_data := data_of target |}.

Definition assertSupportedTransferChecked (instruction : Instruction) (mint : Address) : result client_exn unit :=
  guard_throw_if (negb (String.eqb (ix_programAddress instruction) TOKEN_2022_PROGRAM_ADDRESS))
    C_InvalidDownstream ("downstream program " +:+ ix_programAddress instruction +:+ " is not Token-2022");;
  let data := data_of instruction in
  guard_throw_if (negb (Nat.eqb (length data) TRANSFER_CHECKED_DATA_LEN)
      || negb (bool_decide (byte_at data 0 = Some TRANSFER_CHECKED_TAG))
      || Nat.ltb (length (accounts_of instruction)) 4)
    C_InvalidDownstream "downstream instruction is not Token-2022 TransferChecked";;
  guard_throw_if (negb (bool_decide (meta_address <$> accounts_of instruction !! 1%nat = Some mint)))
    C_InvalidDownstream "TransferChecked mint is not the protected mint".

(** [adapterKind] is [None] when the caller leaves it out. *)
Definition getAssertSafeExecutionV2Instruction (programAddress mint : Address)
    (expectation : AssertSafeExecutionRequest) (commitment : bytes) (adapterKind : option Z)
    : result client_exn Instruction :=
  data ← encodeAssertSafeExecutionV2
    (mkRequestV2 expectation mint (adapterKind ?? TOKEN_2022_TRANSFER_CHECKED) commitment);
  Ok {| ix_programAddress := programAddress;
        ix_accounts := Some [mkMeta mint READONLY; mkMeta SYSVAR_INSTRUCTIONS_ADDRESS READONLY];
        ix_data := Some data |}.

Record GuardedTransferChecked := mkGuardedTransfer {
  gt_instructions : list Instruction;
  gt_guard : Instruction;
  gt_transferChecked : Instruction;
  gt_committed : CommittedInstruction;
  gt_commitment : bytes;
}.

Definition buildGuardedTransferChecked `{!Digest} (programAddress feePayer mint : Address)
    (expectation : AssertSafeExecutionRequest) (transferChecked : Instruction)
    (before : option (list Instruction)) : result client_exn GuardedTransferChecked :=
  assertSupportedTransferChecked transferChecked mint;;
  let before := before ?? [] in
  placeholder ← getAssertSafeExecutionV2Instruction programAddress mint expectation (zeros 32) None;
  let committed := asCommittedInstruction transferChecked (before ++ [placeholder; transferChecked]) feePayer in
  commitment ← downstreamCommitment committed;
  guard ← getAssertSafeExecutionV2Instruction programAddress mint expectation commitment None;
  Ok (mkGuardedTransfer (before ++ [guard; transferChecked]) guard transferChecked committed commitment).
End Commitment.

(* ------------------------------------------------------------------ *)
(** ** downstream.rs: what the program checks

    The Instructions sysvar as a list of instructions with 32-byte keys and
    transaction-level flags. *)

Record SysvarAccount := mkSysvarAccount { sa_pubkey : bytes; sa_is_signer : bool; sa_is_writable : bool }.

Record SysvarInstruction := mkSysvarInstruction {
  si_program_id : bytes;
  si_accounts : list SysvarAccount;
  si_data : bytes;
}.

Section Program.
  Context `{!Digest}.
  (** [TokenInstruction::unpack] giving [TransferChecked], of the token library. *)
  Variable unpacks_transfer_checked : bytes → bool.
  Variable token_2022_id : bytes.

(** The buffer [downstream_commitment] hashes. *)
Definition downstream_encoded (ix : SysvarInstruction) : bytes :=
  encode_utf8 DOWNSTREAM_COMMITMENT_DOMAIN ++ si_program_id ix ++
  le_bytes 4 (Z.of_nat (length (si_accounts ix))) ++
  concat (map (λ a, sa_pubkey a ++ [flag_byte (sa_is_signer a); flag_byte (sa_is_writable a)]) (si_accounts ix)) ++
  le_bytes 4 (Z.of_nat (length (si_data ix))) ++ si_data ix.

(** [u32::try_from]. *)
Definition fits_u32 (n : nat) : bool := Z.of_nat n <=? U32_MAX.

Definition downstream_commitment (ix : SysvarInstruction) : result EquityGuardErrorName bytes :=
  throw_if (negb (fits_u32 (length (si_accounts ix)))) E_ArithmeticOverflow;;
  throw_if (negb (fits_u32 (length (si_data ix)))) E_ArithmeticOverflow;;
  Ok (digest (downstream_encoded ix)).

(** What [verify_transfer_checked] asks of the instruction after the guard. *)
Definition check_transfer_checked (request : AssertSafeExecutionV2) (mint_key : bytes) (next : SysvarInstruction)
    : result EquityGuardErrorName unit :=
  throw_if (bool_decide (si_program_id next ≠ token_2022_id)) E_UnsupportedDownstreamProgram;;
  throw_if (negb (Nat.eqb (length (si_data next)) 10 && unpacks_transfer_checked (si_data next)
                  && Nat.leb 4 (length (si_accounts next)))) E_UnsupportedDownstreamInstruction;;
  mint ← of_option E_UnsupportedDownstreamInstruction (si_accounts next !! 1%nat);
  throw_if (bool_decide (sa_pubkey mint ≠ mint_key)) E_DownstreamMintMismatch;;
  actual ← downstream_commitment next;
  throw_if (bool_decide (actual ≠ a2_downstream_commitment request)) E_DownstreamCommitmentMismatch;;
  Ok tt.

(** [verify_transfer_checked], with the guard at index [current]. *)
Definition verify_transfer_checked (current : nat) (request : AssertSafeExecutionV2) (mint_key : bytes)
    (sysvar : list SysvarInstruction) : result EquityGuardErrorName unit :=
  next ← of_option E_MissingDownstreamInstruction (sysvar !! (current + 1)%nat);
  check_transfer_checked request mint_key next.
End Program.

(* ------------------------------------------------------------------ *)
(** ** The encoding is prefix-free *)

Lemma u32le_Ok n b : u32le n = Ok b ↔ Z.of_nat n ≤ U32_MAX ∧ b = le_bytes 4 (Z.of_nat n).
Proof. unfold u32le. rewrite guard_then_Ok, Z.ltb_ge. split; intros [? H]; split; congruence. Qed.

Lemma u32le_inj n m b : u32le n = Ok b → u32le m = Ok b → n = m.
Proof.
  intros [Hn ->]%u32le_Ok [Hm H]%u32le_Ok. unfold U32_MAX in *.
  apply le_bytes_inj in H; cbn; lia.
Qed.

Lemma flag_byte_inj a b : flag_byte a = flag_byte b → a = b.
Proof. by destruct a, b. Qed.

Lemma concat_inj {A} (n : nat) (l l' : list (list A)) k k' :
  Forall (λ x, length x = n) l → Forall (λ x, length x = n) l' → length l = length l' →
  concat l ++ k = concat l' ++ k' → l = l' ∧ k = k'.
Proof.
  intros Hl. revert l'. induction Hl as [|x l Hx Hl IH]; intros [|y l'] Hl' Hlen Heq; try done.
  apply Forall_cons in Hl' as [Hy Hl']. cbn [concat] in Heq. rewrite <- !app_assoc in Heq.
  apply app_inj_1 in Heq as [-> Heq]; [|congruence].
  apply IH in Heq as [-> ->]; [done|done|]. by injection Hlen.
Qed.

Section Injectivity.
  Context `{!AddressCodec}.

Lemma addressBytes_Ok a b : addressBytes a = Ok b ↔ encodeAddress a = Some b.
Proof. apply of_option_Ok. Qed.

Lemma accountBytes_Ok a b :
  accountBytes a = Ok b ↔
  ∃ key, encodeAddress (ca_address a) = Some key ∧ b = key ++ [flag_byte (ca_isSigner a); flag_byte (ca_isWritable a)].
Proof.
  unfold accountBytes. rewrite bind_Ok. split.
  - intros (key & ?%addressBytes_Ok & [= <-]). eauto.
  - intros (key & ?%addressBytes_Ok & ->). eauto.
Qed.

Lemma length_accountBytes a b : accountBytes a = Ok b → length b = 34%nat.
Proof.
  intros (key & Hk%length_encodeAddress & ->)%accountBytes_Ok. rewrite length_app, Hk. done.
Qed.

Lemma accountBytes_inj a a' b : accountBytes a = Ok b → accountBytes a' = Ok b → a = a'.
Proof.
  intros (key & Ha & ->)%accountBytes_Ok (key' & Ha' & Heq)%accountBytes_Ok.
  apply app_inj_1 in Heq as [-> Heq].
  - pose proof (encodeAddress_inj _ _ _ Ha Ha') as Haddr. injection Heq as Hs Hw.
    apply flag_byte_inj in Hs, Hw. destruct a, a'; cbn in *; congruence.
  - apply length_encodeAddress in Ha, Ha'. congruence.
Qed.

Lemma mapM_accounts_length l bs : mapM_result accountBytes l = Ok bs →
  length bs = length l ∧ Forall (λ x, length x = 34%nat) bs.
Proof.
  intros Hm%mapM_result_Ok. split; [symmetry; by eapply Forall2_length|].
  induction Hm as [|a b l' bs' Ha Hrest IH]; constructor; eauto using length_accountBytes.
Qed.

Lemma mapM_accounts_inj l l' bs :
  mapM_result accountBytes l = Ok bs → mapM_result accountBytes l' = Ok bs → l = l'.
Proof.
  intros Hm%mapM_result_Ok. revert l'. induction Hm as [|a b l bs Ha Hm IH]; intros l' H'%mapM_result_Ok.
  - by inversion H'.
  - inversion H' as [|a' ? l'' ? Ha' H'']; subst. f_equal; [by eapply accountBytes_inj|].
    apply IH. by apply mapM_result_Ok.
Qed.

Lemma instructionBytes_Ok i b :
  instructionBytes i = Ok b ↔
  ∃ program accounts, encodeAddress (ci_programAddress i) = Some program ∧
    mapM_result accountBytes (ci_accounts i) = Ok accounts ∧
    Z.of_nat (length (ci_accounts i)) ≤ U32_MAX ∧ Z.of_nat (length (ci_data i)) ≤ U32_MAX ∧
    b = program ++ le_bytes 4 (Z.of_nat (length (ci_accounts i))) ++ concat accounts ++
        le_bytes 4 (Z.of_nat (length (ci_data i))) ++ ci_data i.
Proof.
  unfold instructionBytes. rewrite bind_Ok. split.
  - intros (program & Hp%addressBytes_Ok & Hrun).
    apply bind_Ok in Hrun as (c & [Hc ->]%u32le_Ok & Hrun).
    apply bind_Ok in Hrun as (acc & Hacc & Hrun).
    apply bind_Ok in Hrun as (s & [Hs ->]%u32le_Ok & [= <-]). eauto 10.
  - intros (program & acc & Hp%addressBytes_Ok & Hacc & Hc & Hs & ->). exists program. split; [done|].
    rewrite (proj2 (u32le_Ok _ _) (conj Hc eq_refl)). cbn [mbind result_bind]. rewrite Hacc.
    cbn [mbind result_bind]. by rewrite (proj2 (u32le_Ok _ _) (conj Hs eq_refl)).
Qed.

(** Two encoded instructions at the front of the same bytes are the same
    instruction, and leave the same rest. *)
Lemma instructionBytes_prefix i j b b' k k' :
  instructionBytes i = Ok b → instructionBytes j = Ok b' → b ++ k = b' ++ k' → i = j ∧ k = k'.
Proof.
  intros (p & acc & Hp & Hacc & Hc & Hs & ->)%instructionBytes_Ok
    (p' & acc' & Hp' & Hacc' & Hc' & Hs' & ->)%instructionBytes_Ok Heq.
  rewrite <- !app_assoc in Heq. unfold U32_MAX in *.
  apply app_inj_1 in Heq as [-> Heq];
    [|by rewrite (length_encodeAddress _ _ Hp), (length_encodeAddress _ _ Hp')].
  apply app_inj_1 in Heq as [Hcount Heq]; [|by rewrite !length_le_bytes].
  apply le_bytes_inj in Hcount; [|cbn; lia..].
  apply mapM_accounts_length in Hacc as Hl. apply mapM_accounts_length in Hacc' as Hl'.
  destruct Hl as [Hl Hf], Hl' as [Hl' Hf'].
  apply (concat_inj 34) in Heq as [-> Heq]; [|done|done|lia].
  apply app_inj_1 in Heq as [Hsize Heq]; [|by rewrite !length_le_bytes].
  apply le_bytes_inj in Hsize; [|cbn; lia..].
  apply app_inj_1 in Heq as [Hdata ->]; [|lia]. split; [|done].
  pose proof (encodeAddress_inj _ _ _ Hp Hp'). pose proof (mapM_accounts_inj _ _ _ Hacc Hacc').
  destruct i, j; cbn in *; congruence.
Qed.

Lemma preimage_Ok i p :
  downstreamCommitmentPreimage i = Ok p ↔
  ∃ b, instructionBytes i = Ok b ∧ p = encode_utf8 DOWNSTREAM_COMMITMENT_DOMAIN ++ b.
Proof.
  unfold downstreamCommitmentPreimage. rewrite bind_Ok. split.
  - intros (b & ? & [= <-]). eauto.
  - intros (b & ? & ->). eauto.
Qed.

Lemma preimage_inj i j p :
  downstreamCommitmentPreimage i = Ok p → downstreamCommitmentPreimage j = Ok p → i = j.
Proof.
  intros (b & Hb & ->)%preimage_Ok (b' & Hb' & Heq)%preimage_Ok. apply app_inj_2 in Heq as [_ ->].
  - by destruct (instructionBytes_prefix i j b' b' [] [] Hb Hb' eq_refl).
  - apply (f_equal length) in Heq. rewrite !length_app in Heq. lia.
Qed.
End Injectivity.

(* ------------------------------------------------------------------ *)
(** ** Transaction-level flags *)

(** Every account meta of a transaction, in order. *)
Definition all_metas (instructions : list Instruction) : list AccountMeta :=
  concat (map accounts_of instructions).

Definition merged (f : AccountRole → bool) (metas : list AccountMeta) (a : Address) : bool :=
  existsb (λ m, String.eqb (meta_address m) a && f (meta_role m)) metas.

Lemma flags_inner metas a s w :
  fold_left (λ '(signer, writable) meta,
      if negb (String.eqb (meta_address meta) a) then (signer, writable)
      else (signer || isSigner (meta_role meta), writable || isWritable (meta_role meta))) metas (s, w)
  = (s || merged isSigner metas a, w || merged isWritable metas a).
Proof.
  revert s w. induction metas as [|m metas IH]; intros s w; cbn [fold_left merged existsb].
  - by rewrite !orb_false_r.
  - fold (merged isSigner metas a) (merged isWritable metas a).
    destruct (String.eqb (meta_address m) a); cbn [negb andb orb]; rewrite IH; [|done].
    by rewrite !orb_assoc.
Qed.

Lemma merged_app f l k a : merged f (l ++ k) a = merged f l a || merged f k a.
Proof. apply existsb_app. Qed.

Lemma flags_merged instructions feePayer a :
  flags instructions feePayer a =
  (String.eqb a feePayer || merged isSigner (all_metas instructions) a,
   String.eqb a feePayer || merged isWritable (all_metas instructions) a).
Proof.
  unfold flags. cbv zeta. generalize (String.eqb a feePayer) as s. intros s. generalize s at 2 4 as w. revert s.
  induction instructions as [|i l IH]; intros s w; cbn [fold_left]; unfold all_metas; cbn [map concat].
  - unfold merged. cbn [existsb]. by rewrite !orb_false_r.
  - rewrite flags_inner, IH, !merged_app, !orb_assoc. done.
Qed.

(** A flag is set exactly when the account pays the fee or some instruction of
    the transaction asks for it. *)
Lemma flags_spec instructions feePayer a s w :
  flags instructions feePayer a = (s, w) →
  (s = true ↔ a = feePayer ∨ ∃ i m, i ∈ instructions ∧ m ∈ accounts_of i ∧ meta_address m = a ∧ isSigner (meta_role m) = true) ∧
  (w = true ↔ a = feePayer ∨ ∃ i m, i ∈ instructions ∧ m ∈ accounts_of i ∧ meta_address m = a ∧ isWritable (meta_role m) = true).
Proof.
  rewrite flags_merged. intros [= <- <-].
  assert (∀ f, String.eqb a feePayer || merged f (all_metas instructions) a = true ↔
    a = feePayer ∨ ∃ i m, i ∈ instructions ∧ m ∈ accounts_of i ∧ meta_address m = a ∧ f (meta_role m) = true) as Hf;
    [|by split].
  intros f. rewrite orb_true_iff, String.eqb_eq. apply or_iff_compat_l.
  unfold merged, all_metas. rewrite existsb_exists. setoid_rewrite andb_true_iff. setoid_rewrite String.eqb_eq.
  setoid_rewrite in_concat. setoid_rewrite in_map_iff. split.
  - intros (m & (? & (i & <- & Hi) & Hm) & Ha & Hr). exists i, m. rewrite !list_elem_of_In. auto.
  - intros (i & m & Hi & Hm & Ha & Hr). exists m. rewrite !list_elem_of_In in *. eauto 10.
Qed.

Lemma asCommittedInstruction_metas target l k feePayer :
  all_metas l = all_metas k → asCommittedInstruction target l feePayer = asCommittedInstruction target k feePayer.
Proof.
  intros H. unfold asCommittedInstruction. f_equal. apply map_ext. intros m. by rewrite !flags_merged, H.
Qed.

(* ------------------------------------------------------------------ *)
(** ** The client's view and the program's *)

Section TwoViews.
  Context `{!AddressCodec}.

Definition sysvar_account (a : CommittedAccount) (sa : SysvarAccount) : Prop :=
  encodeAddress (ca_address a) = Some (sa_pubkey sa) ∧
  ca_isSigner a = sa_is_signer sa ∧ ca_isWritable a = sa_is_writable sa.

(** The same instruction with base-58 addresses and with 32-byte keys. *)
Definition sysvar_ix (i : CommittedInstruction) (si : SysvarInstruction) : Prop :=
  encodeAddress (ci_programAddress i) = Some (si_program_id si) ∧
  Forall2 sysvar_account (ci_accounts i) (si_accounts si) ∧ ci_data i = si_data si.

Lemma accounts_encoded l sl : Forall2 sysvar_account l sl →
  mapM_result accountBytes l =
    Ok (map (λ a, sa_pubkey a ++ [flag_byte (sa_is_signer a); flag_byte (sa_is_writable a)]) sl).
Proof.
  intros Hall. apply mapM_result_Ok. induction Hall as [|a sa l sl (Ha & Hs & Hw) _ IH]; [constructor|].
  cbn [map]. constructor; [|done]. apply accountBytes_Ok. exists (sa_pubkey sa). by rewrite Hs, Hw.
Qed.

(** Both sides hash the same bytes. *)
Lemma preimage_agrees i si :
  sysvar_ix i si → fits_u32 (length (si_accounts si)) = true → fits_u32 (length (si_data si)) = true →
  downstreamCommitmentPreimage i = Ok (downstream_encoded si).
Proof.
  intros (Hp & Hacc & Hdata) Ha%Z.leb_le Hd%Z.leb_le. apply preimage_Ok.
  pose proof (Forall2_length _ _ _ Hacc) as Hlen. unfold downstream_encoded. rewrite <- Hlen, <- Hdata in *.
  eexists. split; [|reflexivity]. apply instructionBytes_Ok.
  eexists _, _. split; [done|]. split; [by apply accounts_encoded|done].
Qed.

Lemma preimage_fits i si p :
  sysvar_ix i si → downstreamCommitmentPreimage i = Ok p →
  fits_u32 (length (si_accounts si)) = true ∧ fits_u32 (length (si_data si)) = true.
Proof.
  intros (_ & Hacc & Hdata) (b & (? & ? & _ & _ & Ha & Hd & _)%instructionBytes_Ok & _)%preimage_Ok.
  pose proof (Forall2_length _ _ _ Hacc) as Hlen. unfold fits_u32. rewrite <- Hlen, <- Hdata, !Z.leb_le. done.
Qed.

(** The client's reading of a sysvar instruction. *)
Definition client_ix (si : SysvarInstruction) : CommittedInstruction :=
  mkCommittedInstruction (decodeAddress (si_program_id si))
    (map (λ a, mkCommitted (decodeAddress (sa_pubkey a)) (sa_is_signer a) (sa_is_writable a)) (si_accounts si))
    (si_data si).

Definition wf_sysvar_ix (si : SysvarInstruction) : Prop :=
  length (si_program_id si) = 32%nat ∧ Forall (λ a, length (sa_pubkey a) = 32%nat) (si_accounts si).

Lemma sysvar_client_ix si : wf_sysvar_ix si → sysvar_ix (client_ix si) si.
Proof.
  intros [Hp Ha]. split; [by apply encodeAddress_decode|]. split; [|done]. cbn.
  induction Ha as [|a l Hk _ IH]; constructor; [|done]. split; [by apply encodeAddress_decode|done].
Qed.

Context `{!Digest}.

Lemma downstreamCommitment_Ok i c :
  downstreamCommitment i = Ok c ↔ ∃ p, downstreamCommitmentPreimage i = Ok p ∧ c = digest p.
Proof.
  unfold downstreamCommitment. rewrite bind_Ok. split; intros (p & Hp & Hc); exists p; [injection Hc as <-|subst]; done.
Qed.

Lemma downstream_commitment_Ok si c :
  downstream_commitment si = Ok c ↔
  fits_u32 (length (si_accounts si)) = true ∧ fits_u32 (length (si_data si)) = true ∧ c = digest (downstream_encoded si).
Proof.
  unfold downstream_commitment. rewrite !throw_if_then_Ok, !negb_false_iff.
  split; intros (Ha & Hd & Hc); repeat split; try done; congruence.
Qed.

(** The commitment names one instruction: two instructions with the same
    downstream commitment are equal - program, accounts, order, flags and data
    - unless the two encodings are a collision of the digest. *)
Theorem downstreamCommitment_binds i j c :
  downstreamCommitment i = Ok c → downstreamCommitment j = Ok c →
  i = j ∨ ∃ p q, downstreamCommitmentPreimage i = Ok p ∧ downstreamCommitmentPreimage j = Ok q ∧ collision p q.
Proof.
  intros (p & Hp & ->)%downstreamCommitment_Ok (q & Hq & Heq)%downstreamCommitment_Ok.
  destruct (digest_eq_or_collision p q Heq) as [->|Hc]; [left|right; eauto].
  by eapply preimage_inj.
Qed.

Lemma getAssert_Ok programAddress mint expectation commitment kind ix :
  getAssertSafeExecutionV2Instruction programAddress mint expectation commitment kind = Ok ix ↔
  ∃ data, encodeAssertSafeExecutionV2 (mkRequestV2 expectation mint (kind ?? TOKEN_2022_TRANSFER_CHECKED) commitment) = Ok data ∧
    ix = mkInstruction programAddress (Some [mkMeta mint READONLY; mkMeta SYSVAR_INSTRUCTIONS_ADDRESS READONLY]) (Some data).
Proof.
  unfold getAssertSafeExecutionV2Instruction. rewrite bind_Ok. split.
  - intros (data & ? & [= <-]). eauto.
  - intros (data & ? & ->). eauto.
Qed.

Lemma assertSupported_Ok tc mint u :
  assertSupportedTransferChecked tc mint = Ok u ↔
  ix_programAddress tc = TOKEN_2022_PROGRAM_ADDRESS ∧ length (data_of tc) = 10%nat ∧
  byte_at (data_of tc) 0 = Some 12 ∧ (4 ≤ length (accounts_of tc))%nat ∧
  meta_address <$> accounts_of tc !! 1%nat = Some mint.
Proof.
  unfold assertSupportedTransferChecked, TRANSFER_CHECKED_TAG, TRANSFER_CHECKED_DATA_LEN. cbv zeta.
  rewrite !guard_then_Ok, guard_Ok, !orb_false_iff, !negb_false_iff, !bool_decide_eq_true, String.eqb_eq,
    Nat.eqb_eq, Nat.ltb_ge. tauto.
Qed.
End TwoViews.

(* ------------------------------------------------------------------ *)
(** ** The guarded transfer, end to end *)

Section GuardedTransfer.
  Context `{!AddressCodec, !Digest}.
  Implicit Types (programAddress feePayer mint : Address) (transferChecked : Instruction).

Lemma build_Ok programAddress feePayer mint expectation tc before g :
  buildGuardedTransferChecked programAddress feePayer mint expectation tc before = Ok g →
  assertSupportedTransferChecked tc mint = Ok tt ∧
  gt_instructions g = (before ?? []) ++ [gt_guard g; tc] ∧
  gt_committed g = asCommittedInstruction tc (gt_instructions g) feePayer ∧
  downstreamCommitment (gt_committed g) = Ok (gt_commitment g) ∧
  getAssertSafeExecutionV2Instruction programAddress mint expectation (gt_commitment g) None = Ok (gt_guard g).
Proof.
  unfold buildGuardedTransferChecked. cbv zeta. rewrite then_Ok. intros (Hs & Hrun).
  apply bind_Ok in Hrun as (placeholder & Hph & Hrun). apply bind_Ok in Hrun as (c & Hc & Hrun).
  apply bind_Ok in Hrun as (guard & Hg & [= <-]). cbn.
  split; [done|]. split; [done|]. split; [|done].
  apply getAssert_Ok in Hph as (d & _ & ->). apply getAssert_Ok in Hg as (d' & _ & ->).
  apply asCommittedInstruction_metas. unfold all_metas. by rewrite !map_app.
Qed.

(** The builder's result is final: the protected transfer directly
    follows the guard, the placeholder guard did not change any
    transaction-level flag (the committed view is the view of the final
    transaction), and the guard's data decodes on-chain to this mint, this
    expectation, kind 1 and the digest of that view. *)
Theorem buildGuardedTransferChecked_final programAddress feePayer mint expectation tc before g :
  buildGuardedTransferChecked programAddress feePayer mint expectation tc before = Ok g →
  gt_instructions g = (before ?? []) ++ [gt_guard g; tc] ∧
  gt_committed g = asCommittedInstruction tc (gt_instructions g) feePayer ∧
  ∃ key preimage, encodeAddress mint = Some key ∧
    downstreamCommitmentPreimage (gt_committed g) = Ok preimage ∧ gt_commitment g = digest preimage ∧
    unpack (data_of (gt_guard g)) =
      Ok (mkAssertV2 key (guard_request expectation) Token2022TransferChecked (digest preimage)).
Proof.
  intros (_ & Hix & Hview & Hc & Hg)%build_Ok. split; [done|]. split; [done|].
  apply getAssert_Ok in Hg as (data & Henc & ->).
  apply downstreamCommitment_Ok in Hc as (preimage & Hp & Hd).
  apply encodeAssertSafeExecutionV2_Ok in Henc as [Henc (key & Hkey & ->)].
  exists key, preimage. repeat (split; [done|]). rewrite data_of_Some.
  rewrite <- pack_guard_view, unpack_pack_raw by eauto using wf_guard_view.
  unfold guard_view. cbn. by rewrite Hd.
Qed.

Section Verify.
  Variable unpacks_transfer_checked : bytes → bool.
  (** The token library reads tag 12 with ten bytes as [TransferChecked]. *)
  Hypothesis unpacks_tag_12 : ∀ d, length d = 10%nat → byte_at d 0 = Some 12 → unpacks_transfer_checked d = true.

Lemma verify_supported tc mint instructions feePayer key token_id current r sysvar si p :
  assertSupportedTransferChecked tc mint = Ok tt → encodeAddress mint = Some key →
  encodeAddress TOKEN_2022_PROGRAM_ADDRESS = Some token_id →
  sysvar !! (current + 1)%nat = Some si → sysvar_ix (asCommittedInstruction tc instructions feePayer) si →
  downstreamCommitmentPreimage (asCommittedInstruction tc instructions feePayer) = Ok p →
  a2_downstream_commitment r = digest p →
  verify_transfer_checked unpacks_transfer_checked token_id current r key sysvar = Ok tt.
Proof.
  intros (Hprog & Hlen & Htag & H4 & Hmint)%assertSupported_Ok Hkey Htok Hnext Hsi Hp Hr.
  pose proof (preimage_fits _ _ _ Hsi Hp) as [Hfa Hfd].
  rewrite (preimage_agrees _ _ Hsi Hfa Hfd) in Hp. injection Hp as <-.
  destruct Hsi as (Hpid & Hacc & Hdata). cbn [asCommittedInstruction ci_programAddress ci_accounts ci_data] in *.
  unfold verify_transfer_checked, check_transfer_checked. rewrite Hnext. cbn [of_option mbind result_bind].
  rewrite Hprog, Htok in Hpid. injection Hpid as Hpid.
  rewrite bool_decide_eq_false_2 by (rewrite Hpid; intros []; done). cbn [throw_if mbind result_bind].
  rewrite <- Hdata, Hlen, unpacks_tag_12, <- (Forall2_length _ _ _ Hacc), length_map by done.
  destruct (Nat.leb_spec 4 (length (accounts_of tc))); [|lia]. cbn [andb negb Nat.eqb throw_if mbind result_bind].
  destruct (accounts_of tc !! 1%nat) as [m|] eqn:Hm; [|done]. injection Hmint as <-.
  eapply (Forall2_lookup_l _ _ _ 1%nat) in Hacc as (sa & Hsa & Ha & _ & _);
    [|rewrite list_lookup_fmap, Hm; reflexivity].
  rewrite Hsa. cbn [of_option mbind result_bind].
  assert (sa_pubkey sa = key) as ->.
  { destruct (flags instructions feePayer (meta_address m)). cbn in Ha. congruence. }
  rewrite bool_decide_eq_false_2 by (intros []; done). cbn [throw_if mbind result_bind].
  rewrite (proj2 (downstream_commitment_Ok si (digest (downstream_encoded si)))) by done. cbn [mbind result_bind].
  rewrite Hr, bool_decide_eq_false_2 by (intros []; done). done.
Qed.

(** What the client builds, the program accepts: in the transaction
    [buildGuardedTransferChecked] returns, seen through the Instructions
    sysvar, the program's downstream check at the guard's index passes with
    the request decoded from the guard's data. *)
Theorem guarded_transfer_accepted programAddress feePayer mint expectation tc before g sysvar token_id :
  buildGuardedTransferChecked programAddress feePayer mint expectation tc before = Ok g →
  Forall2 (λ i si, sysvar_ix (asCommittedInstruction i (gt_instructions g) feePayer) si) (gt_instructions g) sysvar →
  encodeAddress TOKEN_2022_PROGRAM_ADDRESS = Some token_id →
  ∃ r key, unpack (data_of (gt_guard g)) = Ok r ∧ encodeAddress mint = Some key ∧
    verify_transfer_checked unpacks_transfer_checked token_id (length (before ?? [])) r key sysvar = Ok tt.
Proof.
  intros Hb Hsys Htok. pose proof (build_Ok _ _ _ _ _ _ _ Hb) as (Hs & Hix & Hview & Hc & Hg).
  apply getAssert_Ok in Hg as (data & Henc & Hguard).
  apply downstreamCommitment_Ok in Hc as (p & Hp & Hd).
  apply encodeAssertSafeExecutionV2_Ok in Henc as [Henc (key & Hkey & ->)].
  eexists _, key. split; [|split; [done|]].
  - rewrite Hguard, data_of_Some.
    by rewrite <- pack_guard_view, unpack_pack_raw by eauto using wf_guard_view.
  - destruct (Forall2_lookup_l _ _ _ (length (before ?? []) + 1) tc Hsys) as (si & Hsi & Hvi).
    { rewrite Hix, lookup_app_r by lia. by replace (_ - _)%nat with 1%nat by lia. }
    rewrite <- Hview in Hvi. rewrite Hview in Hvi, Hp. eapply verify_supported; eauto.
Qed.

(** The binding holds against a hostile transaction: whatever instruction
    follows a guard carrying the commitment of [i], if the program's check
    passes it is [i] - same program, accounts, order, flags and data - or its
    encoding is a collision of the digest with the one that was signed. *)
Theorem downstream_check_binds i p r current key sysvar token_id next :
  downstreamCommitmentPreimage i = Ok p → a2_downstream_commitment r = digest p →
  sysvar !! (current + 1)%nat = Some next → wf_sysvar_ix next →
  verify_transfer_checked unpacks_transfer_checked token_id current r key sysvar = Ok tt →
  sysvar_ix i next ∨ collision p (downstream_encoded next).
Proof.
  intros Hp Hr Hnext Hwf. unfold verify_transfer_checked, check_transfer_checked. rewrite Hnext. cbn [of_option mbind result_bind].
  rewrite !throw_if_then_Ok. intros (_ & _ & Hrun). apply bind_Ok in Hrun as (m & _ & Hrun).
  apply throw_if_then_Ok in Hrun as [_ Hrun].
  apply bind_Ok in Hrun as (actual & (Hfa & Hfd & ->)%downstream_commitment_Ok & Hrun).
  apply throw_if_then_Ok in Hrun as [Heq%bool_decide_eq_false%dec_stable _]. rewrite Hr in Heq.
  destruct (digest_eq_or_collision _ _ Heq) as [Hpq|[Hne Hc]]; [left|right; split; auto].
  pose proof (sysvar_client_ix next Hwf) as Hix.
  rewrite (preimage_inj i (client_ix next) p Hp); [done|].
  rewrite <- Hpq. by apply preimage_agrees.
Qed.
End Verify.
End GuardedTransfer.

(* ------------------------------------------------------------------ *)
(** ** A concrete guarded transfer *)

Definition sample_program : Address := "ATokenGPvbdGVxr1b2hvZbsiqW5xWH25efTNsLJA8knL".
Definition sample_payer : Address := "SysvarC1ock11111111111111111111111111111111".
Definition sample_transfer : Instruction :=
  mkInstruction TOKEN_2022_PROGRAM_ADDRESS
    (Some [mkMeta sample_program WRITABLE; mkMeta sample_mint READONLY;
           mkMeta sample_program WRITABLE; mkMeta sample_payer READONLY_SIGNER])
    (Some ([x0c] ++ zeros 9)).

Definition sample_guarded : GuardedTransferChecked :=
  Eval vm_compute in
    match buildGuardedTransferChecked sample_program sample_payer sample_mint sample_expectation sample_transfer None with
    | Ok g => g
    | Err _ => mkGuardedTransfer [] sample_transfer sample_transfer
                 (mkCommittedInstruction "" [] []) []
    end.

(** A sysvar view computed from the client's. *)
Definition key_of (a : Address) : bytes := b58_encode a ?? [].
Definition sysvar_of (i : CommittedInstruction) : SysvarInstruction :=
  mkSysvarInstruction (key_of (ci_programAddress i))
    (map (λ a, mkSysvarAccount (key_of (ca_address a)) (ca_isSigner a) (ca_isWritable a)) (ci_accounts i))
    (ci_data i).
(** Every address of an instruction decodes. *)
Definition addresses_ok (i : CommittedInstruction) : bool :=
  let ok a := match b58_encode a with Some _ => true | None => false end in
  ok (ci_programAddress i) && forallb (λ a, ok (ca_address a)) (ci_accounts i).

Lemma key_of_ok a : match b58_encode a with Some _ => true | None => false end = true → encodeAddress a = Some (key_of a).
Proof. unfold key_of. cbn [encodeAddress base58_codec]. by destruct (b58_encode a). Qed.

Lemma sysvar_of_view i : addresses_ok i = true → sysvar_ix i (sysvar_of i).
Proof.
  intros [Hp Ha]%andb_true_iff. split; [by apply key_of_ok|]. split; [|done]. cbn.
  induction (ci_accounts i) as [|a l IH]; [constructor|].
  cbn [forallb] in Ha. apply andb_true_iff in Ha as [Hk Ha].
  cbn [map]. constructor; [|by apply IH]. split; [by apply key_of_ok|done].
Qed.

Lemma sysvar_of_views l : forallb addresses_ok l = true → Forall2 sysvar_ix l (map sysvar_of l).
Proof.
  induction l as [|i l IH]; [constructor|]. cbn [forallb map]. intros [Hi Hl]%andb_true_iff.
  constructor; [by apply sysvar_of_view|by apply IH].
Qed.

Definition sample_sysvar : list SysvarInstruction :=
  Eval vm_compute in
    map (λ i, sysvar_of (asCommittedInstruction i (gt_instructions sample_guarded) sample_payer))
      (gt_instructions sample_guarded).

Definition tag_is_12 (d : bytes) : bool := bool_decide (byte_at d 0 = Some 12).

Lemma sample_guarded_built :
  buildGuardedTransferChecked sample_program sample_payer sample_mint sample_expectation sample_transfer None = Ok sample_guarded.
Proof. vm_compute. reflexivity. Qed.

Lemma tag_is_12_ok d : length d = 10%nat → byte_at d 0 = Some 12 → tag_is_12 d = true.
Proof. intros _ Hd. by apply bool_decide_eq_true. Qed.

Lemma sample_sysvar_view :
  Forall2 (λ i si, sysvar_ix (asCommittedInstruction i (gt_instructions sample_guarded) sample_payer) si)
    (gt_instructions sample_guarded) sample_sysvar.
Proof.
  assert (map sysvar_of (map (λ i, asCommittedInstruction i (gt_instructions sample_guarded) sample_payer)
    (gt_instructions sample_guarded)) = sample_sysvar) as <- by (vm_compute; reflexivity).
  eapply (proj1 (Forall2_fmap_l (λ i, asCommittedInstruction i (gt_instructions sample_guarded) sample_payer) sysvar_ix _ _)).
  apply sysvar_of_views. vm_compute. reflexivity.
Qed.

Lemma downstreamCommitment_binds_witness :
  let i := gt_committed sample_guarded in i = i ∨ ∃ p q, downstreamCommitmentPreimage i = Ok p ∧
    downstreamCommitmentPreimage i = Ok q ∧ collision p q.
Proof.
  apply (downstreamCommitment_binds (gt_committed sample_guarded) (gt_committed sample_guarded) (gt_commitment sample_guarded));
    vm_compute; reflexivity.
Defined.

Lemma buildGuardedTransferChecked_final_witness :
  gt_instructions sample_guarded = [gt_guard sample_guarded; sample_transfer].
Proof. exact (proj1 (buildGuardedTransferChecked_final _ _ _ _ _ _ _ sample_guarded_built)). Defined.

Lemma guarded_transfer_accepted_witness :
  ∃ r key, unpack (data_of (gt_guard sample_guarded)) = Ok r ∧ encodeAddress sample_mint = Some key ∧
    verify_transfer_checked tag_is_12 (key_of TOKEN_2022_PROGRAM_ADDRESS) 0 r key sample_sysvar = Ok tt.
Proof.
  apply (guarded_transfer_accepted tag_is_12 tag_is_12_ok _ _ _ _ _ _ _ sample_sysvar (key_of TOKEN_2022_PROGRAM_ADDRESS)
    sample_guarded_built sample_sysvar_view).
  vm_compute. reflexivity.
Defined.

Definition sample_preimage : bytes :=
  Eval vm_compute in match downstreamCommitmentPreimage (gt_committed sample_guarded) with Ok p => p | Err _ => [] end.
Definition sample_decoded : AssertSafeExecutionV2 :=
  mkAssertV2 (key_of sample_mint) (guard_request sample_expectation) Token2022TransferChecked (digest sample_preimage).
Definition sample_next : SysvarInstruction := sysvar_of (gt_committed sample_guarded).

Lemma downstream_check_binds_witness :
  sysvar_ix (gt_committed sample_guarded) sample_next ∨ collision sample_preimage (downstream_encoded sample_next).
Proof.
  apply (downstream_check_binds tag_is_12 (gt_committed sample_guarded) sample_preimage sample_decoded 0
    (key_of sample_mint) sample_sysvar (key_of TOKEN_2022_PROGRAM_ADDRESS) sample_next); try (vm_compute; reflexivity).
  split; [vm_compute; reflexivity|]. vm_compute. repeat constructor.
Defined.
