(* ===== verification/Jupiter.v ===== *)
(** * jupiter.ts: guarded Jupiter [route_v2] trades

    Adapter kinds 2 and 3: the sysvar view of a transaction, the suffix
    commitment, the client's copy of the program's semantic rules, the trade
    builder and the plan binding. *)

From S2P Require Import Prelude Js Errors Kit Base58 Sha256 Abi OnChain OfflineCheck MintState Downstream.

Definition JUPITER_SUFFIX_COMMITMENT_DOMAIN : string := "EQUITYGUARD_JUPITER_SUFFIX_V1".
Definition JUPITER_V6_PROGRAM_ADDRESS : Address := "JUP6LkbZbjS1jKKwapdHNy74zcZ3tLUZoi5QNyVTaV4".
Definition JUPITER_EVENT_AUTHORITY : Address := "D8cy77BBepLMngZx6ZukaTff5hCt1HrWyKk3Hnd9oitf".
Definition ROUTE_V2_DISCRIMINATOR_HEX : string := "bb64facc31c4af14".
Definition USDC_MINT_ADDRESS : Address := "EPjFWdd5AufqSSqeM2qN1xzybapC8G4wEGGkZwyTDt1v".
Definition LEGACY_TOKEN_PROGRAM_ADDRESS : Address := "TokenkegQfeZyiNwAJbNbGKPFXCWuBvf9Ss623VQ5DA".
Definition ASSOCIATED_TOKEN_PROGRAM_ADDRESS : Address := "ATokenGPvbdGVxr1b2hvZbsiqW5xWH25efTNsLJA8knL".
Definition COMPUTE_BUDGET_PROGRAM_ADDRESS : Address := "ComputeBudget111111111111111111111111111111".
Definition SYSTEM_PROGRAM_ADDRESS : Address := "11111111111111111111111111111111".

(** A compute-budget instruction: its tag and its length. *)
Record BudgetShape := mkShape { shape_tag : Z; shape_length : nat }.
Definition SET_COMPUTE_UNIT_LIMIT : BudgetShape := mkShape 2 5.
Definition SET_COMPUTE_UNIT_PRICE : BudgetShape := mkShape 3 9.
Definition CREATE_IDEMPOTENT_TAG : Z := 1.
Definition CREATE_IDEMPOTENT_ACCOUNTS : nat := 6.
Definition ROUTE_V2_PREFIX_LENGTH : nat := 34.
Definition ROUTE_V2_FIXED_ACCOUNTS : nat := 10.
Definition MAX_SLIPPAGE_BPS : Z := 10000.

(** [ROUTE_V2_ACCOUNT]: indices of the fixed accounts. *)
Definition A_authority : nat := 0.
Definition A_source : nat := 1.
Definition A_destination : nat := 2.
Definition A_sourceMint : nat := 3.
Definition A_destinationMint : nat := 4.
Definition A_sourceTokenProgram : nat := 5.
Definition A_destinationTokenProgram : nat := 6.
Definition A_destinationOverride : nat := 7.
Definition A_eventAuthority : nat := 8.
Definition A_program : nat := 9.

Inductive ProtectedMintRole : Set := SOURCE | DESTINATION.

#[export] Instance ProtectedMintRole_eq_dec : EqDecision ProtectedMintRole.
Proof. solve_decision. Defined.

Definition isJupiterAdapterKind (kind : Z) : bool :=
  (kind =? JUPITER_ROUTE_V2_BUY_USDC) || (kind =? JUPITER_ROUTE_V2_SELL_USDC).

Definition protectedRoleOf (kind : Z) : ProtectedMintRole :=
  if kind =? JUPITER_ROUTE_V2_BUY_USDC then DESTINATION else SOURCE.

Record RouteV2Prefix := mkPrefix {
  inAmount : Z;
  quotedOutAmount : Z;
  slippageBps : Z;
  platformFeeBps : Z;
  positiveSlippageBps : Z;
  routePlanSteps : Z;
}.

#[export] Instance RouteV2Prefix_eq_dec : EqDecision RouteV2Prefix.
Proof. solve_decision. Defined.

(** The reads are in bounds past the length test, so [None] is the code's [null]. *)
Definition decodeRouteV2Prefix (data : bytes) : option RouteV2Prefix :=
  if Nat.ltb (length data) ROUTE_V2_PREFIX_LENGTH
     || negb (String.eqb (toHex (subarray data 0 8)) ROUTE_V2_DISCRIMINATOR_HEX) then None
  else
    inAmount ← get_uint 8 data 8;
    quotedOutAmount ← get_uint 8 data 16;
    slippageBps ← get_uint 2 data 24;
    platformFeeBps ← get_uint 2 data 26;
    positiveSlippageBps ← get_uint 2 data 28;
    routePlanSteps ← get_uint 4 data 30;
    Some (mkPrefix inAmount quotedOutAmount slippageBps platformFeeBps positiveSlippageBps routePlanSteps).

(** BigInt division rounds towards zero. *)
Definition minimumOutFromQuote (quotedOutAmount : Z) (slippageBps : jsnum) : result client_exn Z :=
  guard_throw_if (negb (num_in_range 0 MAX_SLIPPAGE_BPS slippageBps)) C_UnsupportedJupiterTrade
    ("slippageBps " +:+ show_num slippageBps +:+ " is outside [0, 10000]");;
  let numerator := quotedOutAmount * (MAX_SLIPPAGE_BPS - num_value slippageBps) in
  Ok (Z.quot (numerator + 9999) 10000).

Definition RESERVED_ACCOUNTS : list string :=
  [ "11111111111111111111111111111111";
    "AddressLookupTab1e1111111111111111111111111";
    "BPFLoader1111111111111111111111111111111111";
    "BPFLoader2111111111111111111111111111111111";
    "BPFLoaderUpgradeab1e11111111111111111111111";
    "ComputeBudget111111111111111111111111111111";
    "Config1111111111111111111111111111111111111";
    "Ed25519SigVerify111111111111111111111111111";
    "Feature111111111111111111111111111111111111";
    "KeccakSecp256k11111111111111111111111111111";
    "LoaderV411111111111111111111111111111111111";
    "NativeLoader1111111111111111111111111111111";
    "Secp256r1SigVerify1111111111111111111111111";
    "Stake11111111111111111111111111111111111111";
    "Vote111111111111111111111111111111111111111";
    "ZkE1Gama1Proof11111111111111111111111111111";
    "ZkTokenProof1111111111111111111111111111111" ].

(** [set.has(key)] for a set of addresses kept in insertion order. *)
Definition has_key (set : list Address) (key : Address) : bool := existsb (String.eqb key) set.

Definition sysvarView (instructions : list Instruction) (feePayer : Address)
    : result client_exn (list CommittedInstruction) :=
  let metas := all_metas instructions in
  let signers := feePayer :: map meta_address (List.filter (λ m, isSigner (meta_role m)) metas) in
  let writable := feePayer :: map meta_address (List.filter (λ m, isWritable (meta_role m)) metas) in
  let invoked := map ix_programAddress instructions in
  match List.find (λ key, has_key invoked key || has_key RESERVED_ACCOUNTS key || startsWith "Sysvar" key) writable with
  | Some key => throw_guard C_InvalidDownstream
      (key +:+ " is writable but the runtime would demote it; refusing to commit to flags it will not expose")
  | None => Ok (map (λ instruction,
      mkCommittedInstruction (ix_programAddress instruction)
        (map (λ meta, mkCommitted (meta_address meta) (has_key signers (meta_address meta)) (has_key writable (meta_address meta)))
           (accounts_of instruction))
        (data_of instruction)) instructions)
  end.

Record RouteV2Summary := mkRoute {
  r_authority : Address;
  r_source : Address;
  r_destination : Address;
  r_sourceMint : Address;
  r_destinationMint : Address;
  r_sourceTokenProgram : Address;
  r_destinationTokenProgram : Address;
  r_prefix : RouteV2Prefix;
}.

(** A verdict and, when it is [null], the validated trade. *)
Record SuffixCheck := mkCheck { verdict_of : option EquityGuardErrorName; route_of : option RouteV2Summary }.

Definition fail_with (e : EquityGuardErrorName) : SuffixCheck := mkCheck (Some e) None.

Definition computeBudgetVerdict (instruction : CommittedInstruction) (shape : BudgetShape) : option EquityGuardErrorName :=
  let canonical := Nat.eqb (length (ci_accounts instruction)) 0
    && Nat.eqb (length (ci_data instruction)) (shape_length shape)
    && bool_decide (byte_at (ci_data instruction) 0 = Some (shape_tag shape)) in
  if canonical then None else Some E_InvalidComputeBudgetInstruction.

(** [account(index)], read past the length test of [routeVerdict]. *)
Definition account_at (trade : CommittedInstruction) (index : nat) : CommittedAccount :=
  ci_accounts trade !! index ?? mkCommitted "" false false.

Definition routeVerdict (trade : CommittedInstruction) (kind : Z) (protectedMint : Address) : SuffixCheck :=
  if Nat.ltb (length (ci_accounts trade)) ROUTE_V2_FIXED_ACCOUNTS then fail_with E_InvalidJupiterInstruction
  else
    match decodeRouteV2Prefix (ci_data trade) with
    | None => fail_with E_InvalidJupiterInstruction
    | Some prefix =>
        let key index := ca_address (account_at trade index) in
        if negb (String.eqb (key A_program) JUPITER_V6_PROGRAM_ADDRESS) then fail_with E_InvalidJupiterProgram
        else if negb (String.eqb (key A_eventAuthority) JUPITER_EVENT_AUTHORITY
                      && ca_isSigner (account_at trade A_authority)
                      && (0 <? inAmount prefix) && (0 <? quotedOutAmount prefix)
                      && (slippageBps prefix <=? MAX_SLIPPAGE_BPS) && (0 <? routePlanSteps prefix))
        then fail_with E_InvalidJupiterInstruction
        else if negb (String.eqb (key A_destinationOverride) JUPITER_V6_PROGRAM_ADDRESS)
        then fail_with E_DestinationOverrideUnsupported
        else
          let route := mkRoute (key A_authority) (key A_source) (key A_destination) (key A_sourceMint)
            (key A_destinationMint) (key A_sourceTokenProgram) (key A_destinationTokenProgram) prefix in
          let '(protectedSide, protectedProgram, counter, counterProgram) :=
            match protectedRoleOf kind with
            | DESTINATION => (r_destinationMint route, r_destinationTokenProgram route, r_sourceMint route, r_sourceTokenProgram route)
            | SOURCE => (r_sourceMint route, r_sourceTokenProgram route, r_destinationMint route, r_destinationTokenProgram route)
            end in
          if negb (String.eqb protectedSide protectedMint) then fail_with E_InvalidJupiterDirection
          else if negb (String.eqb counter USDC_MINT_ADDRESS) then fail_with E_InvalidCounterMint
          else if negb (String.eqb protectedProgram TOKEN_2022_PROGRAM_ADDRESS)
                  || negb (String.eqb counterProgram LEGACY_TOKEN_PROGRAM_ADDRESS) then fail_with E_InvalidTokenProgram
          else if negb (platformFeeBps prefix =? 0) || negb (positiveSlippageBps prefix =? 0)
          then fail_with E_UnsupportedJupiterFee
          else mkCheck None (Some route)
    end.

Definition setupVerdict (setup : CommittedInstruction) (route : RouteV2Summary) : option EquityGuardErrorName :=
  if negb (Nat.eqb (length (ci_accounts setup)) CREATE_IDEMPOTENT_ACCOUNTS)
     || negb (Nat.eqb (length (ci_data setup)) 1)
     || negb (bool_decide (byte_at (ci_data setup) 0 = Some CREATE_IDEMPOTENT_TAG)) then Some E_InvalidAtaSetup
  else
    let address index := ca_address <$> ci_accounts setup !! index in
    let forThisTrade :=
      bool_decide (ca_isSigner <$> ci_accounts setup !! 0%nat = Some true)
      && bool_decide (address 1%nat = Some (r_destination route))
      && bool_decide (address 2%nat = Some (r_authority route))
      && bool_decide (address 3%nat = Some (r_destinationMint route))
      && bool_decide (address 4%nat = Some SYSTEM_PROGRAM_ADDRESS)
      && bool_decide (address 5%nat = Some (r_destinationTokenProgram route)) in
    if forThisTrade then None else Some E_InvalidAtaSetup.

Section JupiterOps.
  Context `{!AddressCodec, !ProgramDerivation, !Digest}.

Definition jupiterSuffixCommitmentPreimage (suffix : list CommittedInstruction) : result client_exn bytes :=
  count ← u32le (length suffix);
  parts ← mapM_result instructionBytes suffix;
  Ok (encode_utf8 JUPITER_SUFFIX_COMMITMENT_DOMAIN ++ count ++ concat parts).

Definition jupiterSuffixCommitment (suffix : list CommittedInstruction) : result client_exn bytes :=
  preimage ← jupiterSuffixCommitmentPreimage suffix;
  Ok (digest preimage).

(** The seeds are encoded in order; a failed derivation throws as the codec does. *)
Definition canonicalAta (owner mint tokenProgram : Address) : result client_exn Address :=
  owner ← addressBytes owner;
  tokenProgram ← addressBytes tokenProgram;
  mint ← addressBytes mint;
  of_option CodecErr (programDerivedAddress ASSOCIATED_TOKEN_PROGRAM_ADDRESS [owner; tokenProgram; mint]).

Definition checkJupiterSuffix (suffix : list CommittedInstruction) (kind : Z) (protectedMint : Address)
    : result client_exn SuffixCheck :=
  let check price limit setup trade :=
    if negb (String.eqb (ci_programAddress price) COMPUTE_BUDGET_PROGRAM_ADDRESS)
       || negb (String.eqb (ci_programAddress limit) COMPUTE_BUDGET_PROGRAM_ADDRESS)
       || match setup with
          | Some setup => negb (String.eqb (ci_programAddress setup) ASSOCIATED_TOKEN_PROGRAM_ADDRESS)
          | None => false
          end
    then Ok (fail_with E_UnsupportedTransactionGrammar)
    else if negb (String.eqb (ci_programAddress trade) JUPITER_V6_PROGRAM_ADDRESS)
    then Ok (fail_with E_InvalidJupiterProgram)
    else
      let budget :=
        match computeBudgetVerdict price SET_COMPUTE_UNIT_PRICE with
        | Some e => Some e
        | None => computeBudgetVerdict limit SET_COMPUTE_UNIT_LIMIT
        end in
      match budget with
      | Some e => Ok (fail_with e)
      | None =>
          match routeVerdict trade kind protectedMint with
          | mkCheck None (Some route) =>
              match setup ≫= λ setup, setupVerdict setup route with
              | Some e => Ok (fail_with e)
              | None =>
                  source ← canonicalAta (r_authority route) (r_sourceMint route) (r_sourceTokenProgram route);
                  if negb (String.eqb source (r_source route)) then Ok (fail_with E_NonCanonicalSourceAccount)
                  else
                    destination ← canonicalAta (r_authority route) (r_destinationMint route) (r_destinationTokenProgram route);
                    if negb (String.eqb destination (r_destination route))
                    then Ok (fail_with E_NonCanonicalDestinationAccount)
                    else Ok (mkCheck None (Some route))
              end
          | mkCheck verdict _ => Ok (fail_with (verdict ?? E_InvalidJupiterInstruction))
          end
      end in
  match suffix with
  | [price; limit; trade] => check price limit None trade
  | [price; limit; setup; trade] => check price limit (Some setup) trade
  | _ => Ok (fail_with E_UnsupportedTransactionGrammar)
  end.

(** [null] is [None]. *)
Definition checkGuardedJupiterTransaction (instructions : list CommittedInstruction) (guardIndex : Z)
    (adapterKind : Z) (protectedMint : Address) (commitment : bytes) : result client_exn (option EquityGuardErrorName) :=
  if negb (guardIndex =? 0) then Ok (Some E_GuardNotFirst)
  else
    let suffix := drop 1 instructions in
    check ← checkJupiterSuffix suffix adapterKind protectedMint;
    match verdict_of check with
    | Some verdict => Ok (Some verdict)
    | None =>
        expected ← jupiterSuffixCommitment suffix;
        Ok (if bytesEqual expected commitment then None else Some E_DownstreamCommitmentMismatch)
    end.

Record GuardedJupiterTrade := mkTrade {
  t_instructions : list Instruction;
  t_guard : Instruction;
  t_adapterKind : Z;
  t_committedSuffix : list CommittedInstruction;
  t_commitment : bytes;
  t_route : RouteV2Summary;
}.

Definition show_verdict (verdict : option EquityGuardErrorName) : string :=
  match verdict with Some e => show_error_name e | None => "an unknown error" end.

Definition buildGuardedJupiterTrade (programAddress feePayer protectedMint : Address) (adapterKind : Z)
    (expectation : AssertSafeExecutionRequest) (suffix : list Instruction) : result client_exn GuardedJupiterTrade :=
  guard_throw_if (negb (isJupiterAdapterKind adapterKind)) C_InvalidDownstream
    ("adapter kind " +:+ show_Z adapterKind +:+ " is not a Jupiter kind");;
  let guardFor commitment :=
    getAssertSafeExecutionV2Instruction programAddress protectedMint expectation commitment (Some adapterKind) in
  placeholder ← guardFor (zeros 32);
  provisional ← sysvarView (placeholder :: suffix) feePayer;
  let committedSuffix := drop 1 provisional in
  check ← checkJupiterSuffix committedSuffix adapterKind protectedMint;
  match check with
  | mkCheck None (Some route) =>
      commitment ← jupiterSuffixCommitment committedSuffix;
      guard ← guardFor commitment;
      let instructions := guard :: suffix in
      final ← sysvarView instructions feePayer;
      recheck ← checkGuardedJupiterTransaction final 0 adapterKind protectedMint commitment;
      match recheck with
      | Some e => Err (GuardErr (guard_client_error_with C_UnsupportedJupiterTrade
          ("the final transaction no longer verifies: " +:+ show_error_name e) (Some e)))
      | None => Ok (mkTrade instructions guard adapterKind committedSuffix commitment route)
      end
  | mkCheck verdict _ => Err (GuardErr (guard_client_error_with C_UnsupportedJupiterTrade
      ("the program would reject this trade with " +:+ show_verdict verdict) verdict))
  end.
End JupiterOps.

(** [JUPITER_ADAPTER_KIND_NAMES[kind]]. *)
Definition JUPITER_ADAPTER_KIND_NAMES (kind : Z) : string :=
  if kind =? JUPITER_ROUTE_V2_BUY_USDC then "JUPITER_ROUTE_V2_BUY_USDC" else "JUPITER_ROUTE_V2_SELL_USDC".

Record JupiterTradeBinding := mkBinding {
  jb_adapterKind : string;
  jb_jupiterProgramId : string;
  jb_routeDiscriminatorHex : string;
  jb_protectedMintRole : ProtectedMintRole;
  jb_protectedMint : string;
  jb_counterMint : string;
  jb_authority : string;
  jb_sourceMint : string;
  jb_destinationMint : string;
  jb_sourceTokenAccount : string;
  jb_destinationTokenAccount : string;
  jb_inAmountRaw : Z;
  jb_quotedOutRaw : Z;
  jb_slippageBps : Z;
  jb_minOutRaw : Z;
  jb_suffixCommitmentHex : string;
  jb_suffixInstructionCount : nat;
}.

#[export] Instance JupiterTradeBinding_eq_dec : EqDecision JupiterTradeBinding.
Proof. solve_decision. Defined.

Definition jupiterTradeBindingOf (trade : GuardedJupiterTrade) : result client_exn JupiterTradeBinding :=
  let route := t_route trade in
  let role := protectedRoleOf (t_adapterKind trade) in
  let prefix := r_prefix route in
  minOutRaw ← minimumOutFromQuote (quotedOutAmount prefix) (NumInt (slippageBps prefix));
  Ok {| jb_adapterKind := JUPITER_ADAPTER_KIND_NAMES (t_adapterKind trade);
        jb_jupiterProgramId := JUPITER_V6_PROGRAM_ADDRESS;
        jb_routeDiscriminatorHex := ROUTE_V2_DISCRIMINATOR_HEX;
        jb_protectedMintRole := role;
        jb_protectedMint := match role with DESTINATION => r_destinationMint route | SOURCE => r_sourceMint route end;
        jb_counterMint := match role with DESTINATION => r_sourceMint route | SOURCE => r_destinationMint route end;
        jb_authority := r_authority route;
        jb_sourceMint := r_sourceMint route;
        jb_destinationMint := r_destinationMint route;
        jb_sourceTokenAccount := r_source route;
        jb_destinationTokenAccount := r_destination route;
        jb_inAmountRaw := inAmount prefix;
        jb_quotedOutRaw := quotedOutAmount prefix;
        jb_slippageBps := slippageBps prefix;
        jb_minOutRaw := minOutRaw;
        jb_suffixCommitmentHex := toHex (t_commitment trade);
        jb_suffixInstructionCount := length (t_committedSuffix trade) |}.

(* ------------------------------------------------------------------ *)
(** ** The sysvar view *)

Lemma has_key_spec l a : has_key l a = true ↔ a ∈ l.
Proof.
  unfold has_key. rewrite existsb_exists, list_elem_of_In. setoid_rewrite String.eqb_eq.
  split; [by intros (x & Hx & ->)|eauto].
Qed.

Lemma has_key_merged f feePayer metas a :
  has_key (feePayer :: map meta_address (List.filter (λ m, f (meta_role m)) metas)) a =
  String.eqb a feePayer || merged f metas a.
Proof.
  unfold has_key. cbn [existsb]. f_equal.
  induction metas as [|m metas IH]; [done|]. unfold merged in *. cbn [List.filter existsb].
  destruct (f (meta_role m)); cbn [map existsb]; rewrite IH.
  - by rewrite andb_true_r, String.eqb_sym.
  - by rewrite andb_false_r.
Qed.

(** A key the runtime would demote to read-only. *)
Definition demoted (instructions : list Instruction) (key : Address) : bool :=
  has_key (map ix_programAddress instructions) key || has_key RESERVED_ACCOUNTS key || startsWith "Sysvar" key.

(** The accounts a transaction writes. *)
Definition writes (instructions : list Instruction) (feePayer key : Address) : bool :=
  String.eqb key feePayer || merged isWritable (all_metas instructions) key.

Lemma sysvarView_Ok instructions feePayer views :
  sysvarView instructions feePayer = Ok views ↔
  (∀ key, writes instructions feePayer key = true → demoted instructions key = false) ∧
  views = map (λ i, asCommittedInstruction i instructions feePayer) instructions.
Proof.
  unfold sysvarView. cbv zeta.
  set (writable := feePayer :: map meta_address (List.filter (λ m, isWritable (meta_role m)) (all_metas instructions))).
  assert (∀ key, writes instructions feePayer key = true ↔ In key writable) as Hw.
  { intros key. unfold writes. rewrite <- has_key_merged, has_key_spec. apply list_elem_of_In. }
  assert (map (λ i, mkCommittedInstruction (ix_programAddress i)
      (map (λ meta, mkCommitted (meta_address meta)
        (has_key (feePayer :: map meta_address (List.filter (λ m, isSigner (meta_role m)) (all_metas instructions))) (meta_address meta))
        (has_key writable (meta_address meta))) (accounts_of i)) (data_of i)) instructions
    = map (λ i, asCommittedInstruction i instructions feePayer) instructions) as ->.
  { apply map_ext. intros i. unfold asCommittedInstruction. f_equal. apply map_ext. intros m.
    rewrite flags_merged. unfold writable. by rewrite !has_key_merged. }
  fold (demoted instructions). destruct (List.find (demoted instructions) writable) as [key|] eqn:Hfind.
  - apply List.find_some in Hfind as [Hin Hd]. split; [done|]. intros [Hno _].
    rewrite (Hno key) in Hd; [done|by apply Hw].
  - split; [intros [= <-]; split; [|done]|by intros [_ ->]].
    intros key Hk%Hw. by apply (List.find_none _ _ Hfind).
Qed.

(** [sysvarView] and [asCommittedInstruction] agree: when the view is
    returned, every instruction appears once, in order, with the same
    program, accounts, data and merged flags as kind 1 would commit to, and
    no account it marks writable is one the runtime would demote; and it is
    refused only for such an account. *)
Theorem sysvarView_flags instructions feePayer :
  (∀ views, sysvarView instructions feePayer = Ok views →
    views = map (λ i, asCommittedInstruction i instructions feePayer) instructions ∧
    ∀ view account, view ∈ views → account ∈ ci_accounts view → ca_isWritable account = true →
      demoted instructions (ca_address account) = false) ∧
  (∀ e, sysvarView instructions feePayer = Err e →
    ∃ key, writes instructions feePayer key = true ∧ demoted instructions key = true).
Proof.
  split.
  - intros views [Hno ->]%sysvarView_Ok. split; [done|].
    intros view account (i & -> & Hi)%list_elem_of_fmap Hacc Hwr. apply Hno.
    cbn in Hacc. apply list_elem_of_fmap in Hacc as (m & -> & Hm).
    rewrite flags_merged in Hwr |- *. exact Hwr.
  - intros e He. unfold sysvarView in He. cbv zeta in He. fold (demoted instructions) in He.
    destruct (List.find _ _) as [key|] eqn:Hf; [|done].
    apply List.find_some in Hf as [Hin Hd]. exists key. split; [|done].
    unfold writes. rewrite <- has_key_merged, has_key_spec. by apply list_elem_of_In.
Qed.

(** Any transaction with the same metas and programs has the same view of an instruction. *)
Lemma demoted_programs l k key : map ix_programAddress l = map ix_programAddress k → demoted l key = demoted k key.
Proof. unfold demoted. by intros ->. Qed.

Lemma sysvarView_guard feePayer guard guard' suffix views :
  ix_programAddress guard = ix_programAddress guard' → accounts_of guard = accounts_of guard' →
  sysvarView (guard :: suffix) feePayer = Ok views →
  ∃ views', sysvarView (guard' :: suffix) feePayer = Ok views' ∧ drop 1 views' = drop 1 views.
Proof.
  intros Hp Ha [Hno ->]%sysvarView_Ok.
  assert (all_metas (guard :: suffix) = all_metas (guard' :: suffix)) as Hm.
  { unfold all_metas. cbn [map concat]. by rewrite Ha. }
  eexists. split.
  - apply sysvarView_Ok. split; [|reflexivity]. intros key Hk.
    rewrite (demoted_programs _ (guard :: suffix)) by (cbn; congruence).
    apply Hno. unfold writes in *. by rewrite Hm.
  - cbn [map drop]. apply map_ext. intros i. by apply asCommittedInstruction_metas.
Qed.

(** The guard instruction with data [d]. *)
Definition guard_ix (program mint : Address) (d : bytes) : Instruction :=
  mkInstruction program (Some [mkMeta mint READONLY; mkMeta SYSVAR_INSTRUCTIONS_ADDRESS READONLY]) (Some d).

Lemma guard_data_irrelevant program mint d d' suffix feePayer views :
  sysvarView (guard_ix program mint d :: suffix) feePayer = Ok views →
  ∃ views', sysvarView (guard_ix program mint d' :: suffix) feePayer = Ok views' ∧ drop 1 views' = drop 1 views.
Proof. by apply sysvarView_guard. Qed.

(* ------------------------------------------------------------------ *)
(** ** The suffix commitment *)

Section SuffixSpec.
  Context `{!AddressCodec}.

Lemma parts_prefix s s' ps ps' k k' :
  mapM_result instructionBytes s = Ok ps → mapM_result instructionBytes s' = Ok ps' →
  length s = length s' → concat ps ++ k = concat ps' ++ k' → s = s' ∧ k = k'.
Proof.
  intros Hs%mapM_result_Ok. revert s' ps'.
  induction Hs as [|i b s ps Hi Hs IH]; intros s' ps' Hs'%mapM_result_Ok Hlen Heq.
  - destruct s'; [|done]. by inversion Hs'; subst.
  - destruct s' as [|i' s']; [done|]. inversion Hs' as [|? b' ? ps'' Hi' Hs'']; subst.
    cbn [concat] in Heq. rewrite <- !app_assoc in Heq.
    destruct (instructionBytes_prefix _ _ _ _ _ _ Hi Hi' Heq) as [-> Hrest].
    destruct (IH s' ps'') as [-> ->]; [by apply mapM_result_Ok|by injection Hlen|done|done].
Qed.

Lemma suffixPreimage_Ok s p :
  jupiterSuffixCommitmentPreimage s = Ok p ↔
  ∃ parts, mapM_result instructionBytes s = Ok parts ∧ Z.of_nat (length s) ≤ U32_MAX ∧
    p = encode_utf8 JUPITER_SUFFIX_COMMITMENT_DOMAIN ++ le_bytes 4 (Z.of_nat (length s)) ++ concat parts.
Proof.
  unfold jupiterSuffixCommitmentPreimage. rewrite bind_Ok. split.
  - intros (c & [Hc ->]%u32le_Ok & Hrun). apply bind_Ok in Hrun as (parts & Hp & [= <-]). eauto.
  - intros (parts & Hp & Hc & ->). exists (le_bytes 4 (Z.of_nat (length s))).
    split; [by apply u32le_Ok|]. by rewrite Hp.
Qed.

Lemma suffixPreimage_inj s s' p :
  jupiterSuffixCommitmentPreimage s = Ok p → jupiterSuffixCommitmentPreimage s' = Ok p → s = s'.
Proof.
  intros (ps & Hs & Hc & ->)%suffixPreimage_Ok (ps' & Hs' & Hc' & Heq)%suffixPreimage_Ok.
  apply app_inj_1 in Heq as [_ Heq]; [|done]. apply app_inj_1 in Heq as [Hcount Heq]; [|by rewrite !length_le_bytes].
  unfold U32_MAX in *. apply le_bytes_inj in Hcount; [|cbn; lia..].
  destruct (parts_prefix s s' ps ps' [] [] Hs Hs') as [-> _]; [lia|by rewrite !app_nil_r|done].
Qed.

(** The two commitment domains differ within their first bytes. *)
Lemma domains_disjoint x y :
  encode_utf8 DOWNSTREAM_COMMITMENT_DOMAIN ++ x ≠ encode_utf8 JUPITER_SUFFIX_COMMITMENT_DOMAIN ++ y.
Proof. intros Heq. apply (f_equal (take 13)) in Heq. vm_compute in Heq. discriminate Heq. Qed.

Context `{!Digest}.

Lemma jupiterSuffixCommitment_Ok s c :
  jupiterSuffixCommitment s = Ok c ↔ ∃ p, jupiterSuffixCommitmentPreimage s = Ok p ∧ c = digest p.
Proof.
  unfold jupiterSuffixCommitment. rewrite bind_Ok.
  split; intros (p & Hp & Hc); exists p; [injection Hc as <-|subst]; done.
Qed.

(** A suffix commitment names one instruction list: two suffixes with
    the same commitment are equal - every program, account, flag and data
    byte, in order - unless their encodings collide; and a digest never
    serves both adapter domains, since a kind 1 encoding and a suffix
    encoding are never equal. *)
Theorem suffixCommitment_binds s s' i c :
  jupiterSuffixCommitment s = Ok c →
  (jupiterSuffixCommitment s' = Ok c →
   s = s' ∨ ∃ p q, jupiterSuffixCommitmentPreimage s = Ok p ∧ jupiterSuffixCommitmentPreimage s' = Ok q ∧ collision p q) ∧
  (downstreamCommitment i = Ok c →
   ∃ p q, jupiterSuffixCommitmentPreimage s = Ok p ∧ downstreamCommitmentPreimage i = Ok q ∧ collision p q).
Proof.
  intros (p & Hp & ->)%jupiterSuffixCommitment_Ok. split.
  - intros (q & Hq & Heq)%jupiterSuffixCommitment_Ok.
    destruct (digest_eq_or_collision p q Heq) as [->|Hc]; [left|right; eauto].
    by eapply suffixPreimage_inj.
  - intros (q & Hq & Heq)%downstreamCommitment_Ok. exists p, q. split; [done|]. split; [done|]. split; [|done].
    intros <-. apply suffixPreimage_Ok in Hp as (? & _ & _ & Hp). apply preimage_Ok in Hq as (? & _ & Hq).
    rewrite Hq in Hp. by apply domains_disjoint in Hp.
Qed.
End SuffixSpec.

(* ------------------------------------------------------------------ *)
(** ** The guarded trade *)

Section Trade.
  Context `{!AddressCodec, !ProgramDerivation, !Digest}.

Lemma checkGuarded_tail instructions suffix kind mint c e :
  drop 1 instructions = suffix →
  checkGuardedJupiterTransaction instructions 0 kind mint c = Ok e ↔
  ∃ check, checkJupiterSuffix suffix kind mint = Ok check ∧
    match verdict_of check with
    | Some v => e = Some v
    | None => ∃ d, jupiterSuffixCommitment suffix = Ok d ∧
                e = if bytesEqual d c then None else Some E_DownstreamCommitmentMismatch
    end.
Proof.
  intros <-. unfold checkGuardedJupiterTransaction. cbn [Z.eqb negb]. rewrite bind_Ok.
  split; intros (check & Hc & Hrun); exists check; (split; [done|]); destruct (verdict_of check).
  - by injection Hrun as <-.
  - apply bind_Ok in Hrun as (d & Hd & [= <-]). eauto.
  - by subst.
  - destruct Hrun as (d & -> & ->). done.
Qed.

(** What a successful build went through. *)
Lemma buildTrade_Ok program feePayer mint kind expectation suffix t :
  buildGuardedJupiterTrade program feePayer mint kind expectation suffix = Ok t →
  isJupiterAdapterKind kind = true ∧ t_adapterKind t = kind ∧
  t_instructions t = t_guard t :: suffix ∧
  getAssertSafeExecutionV2Instruction program mint expectation (t_commitment t) (Some kind) = Ok (t_guard t) ∧
  (∃ views, sysvarView (t_instructions t) feePayer = Ok views ∧ drop 1 views = t_committedSuffix t) ∧
  checkJupiterSuffix (t_committedSuffix t) kind mint = Ok (mkCheck None (Some (t_route t))) ∧
  jupiterSuffixCommitment (t_committedSuffix t) = Ok (t_commitment t).
Proof.
  unfold buildGuardedJupiterTrade. cbv zeta. rewrite guard_then_Ok, negb_false_iff. intros (Hk & Hrun).
  apply bind_Ok in Hrun as (ph & Hph & Hrun). apply bind_Ok in Hrun as (prov & Hprov & Hrun).
  apply bind_Ok in Hrun as ([[v|] [route|]] & Hcheck & Hrun); try done.
  apply bind_Ok in Hrun as (c & Hc & Hrun). apply bind_Ok in Hrun as (guard & Hg & Hrun).
  apply bind_Ok in Hrun as (final & Hfinal & Hrun). apply bind_Ok in Hrun as ([e|] & _ & Hrun); [done|].
  injection Hrun as <-. cbn. repeat (split; [done|]). split; [|done].
  exists final. split; [done|].
  apply getAssert_Ok in Hph as (d & _ & ->). apply getAssert_Ok in Hg as (d' & _ & ->).
  destruct (guard_data_irrelevant program mint d d' suffix feePayer prov Hprov) as (views' & Hv & Hd).
  unfold guard_ix in Hv. congruence.
Qed.

(** The last check of [buildGuardedJupiterTrade] always passes: when
    the provisional suffix is acceptable and the final guard encodes, the
    result is a trade - the error "the final transaction no longer verifies"
    cannot occur, because the guard's accounts do not depend on its data. *)
Theorem buildGuardedJupiterTrade_recheck program feePayer mint kind expectation suffix ph prov route c guard :
  isJupiterAdapterKind kind = true →
  getAssertSafeExecutionV2Instruction program mint expectation (zeros 32) (Some kind) = Ok ph →
  sysvarView (ph :: suffix) feePayer = Ok prov →
  checkJupiterSuffix (drop 1 prov) kind mint = Ok (mkCheck None (Some route)) →
  jupiterSuffixCommitment (drop 1 prov) = Ok c →
  getAssertSafeExecutionV2Instruction program mint expectation c (Some kind) = Ok guard →
  buildGuardedJupiterTrade program feePayer mint kind expectation suffix =
    Ok (mkTrade (guard :: suffix) guard kind (drop 1 prov) c route).
Proof.
  intros Hk Hph Hprov Hcheck Hc Hg. unfold buildGuardedJupiterTrade. cbv zeta. rewrite Hk, Hph.
  cbn [negb guard_throw_if throw_if mbind result_bind]. rewrite Hprov. cbn [mbind result_bind].
  rewrite Hcheck. cbn [mbind result_bind]. rewrite Hc. cbn [mbind result_bind]. rewrite Hg. cbn [mbind result_bind].
  apply getAssert_Ok in Hph as (d & _ & ->). apply getAssert_Ok in Hg as (d' & _ & ->).
  destruct (guard_data_irrelevant program mint d d' suffix feePayer prov Hprov) as (views & Hv & Hd).
  unfold guard_ix in Hv. rewrite Hv.
  cbn [mbind result_bind].
  rewrite (proj2 (checkGuarded_tail views (drop 1 prov) kind mint c None Hd)); [done|].
  exists (mkCheck None (Some route)). split; [done|]. cbn. exists c. by rewrite bytesEqual_refl.
Qed.

Lemma buildTrade_verified program feePayer mint kind expectation suffix t :
  buildGuardedJupiterTrade program feePayer mint kind expectation suffix = Ok t →
  t_instructions t = t_guard t :: suffix ∧
  (∃ views, sysvarView (t_instructions t) feePayer = Ok views ∧
     checkGuardedJupiterTransaction views 0 kind mint (t_commitment t) = Ok None) ∧
  ∃ key preimage adapter, encodeAddress mint = Some key ∧
    jupiterSuffixCommitmentPreimage (t_committedSuffix t) = Ok preimage ∧
    DownstreamAdapter_from_u8 kind = Some adapter ∧
    unpack (data_of (t_guard t)) = Ok (mkAssertV2 key (guard_request expectation) adapter (digest preimage)).
Proof.
  intros (Hk & _ & Hix & Hg & (views & Hv & Hd) & Hcheck & Hc)%buildTrade_Ok. split; [done|]. split.
  - exists views. split; [done|]. eapply checkGuarded_tail; [exact Hd|].
    eexists. split; [exact Hcheck|]. cbn. exists (t_commitment t). by rewrite bytesEqual_refl.
  - apply jupiterSuffixCommitment_Ok in Hc as (p & Hp & Hdig).
    apply getAssert_Ok in Hg as (data & Henc & ->). rewrite data_of_Some.
    apply encodeAssertSafeExecutionV2_Ok in Henc as [Henc (key & Hkey & ->)].
    assert (∃ adapter, DownstreamAdapter_from_u8 kind = Some adapter) as [adapter Had].
    { unfold isJupiterAdapterKind in Hk. apply orb_true_iff in Hk as [->%Z.eqb_eq| ->%Z.eqb_eq]; by eexists. }
    exists key, p, adapter. repeat (split; [done|]).
    rewrite <- pack_guard_view, unpack_pack_raw by eauto using wf_guard_view.
    unfold guard_view, guard_adapter. cbn. by rewrite Had, Hdig.
Qed.

(** A built trade verifies as the program will see it: the guard is
    instruction 0, its data decodes on-chain to this mint, expectation and
    Jupiter kind with the digest of the suffix, and the client's mirror of
    the program accepts the sysvar view of the final transaction. *)
Theorem buildGuardedJupiterTrade_verifies program feePayer mint kind expectation suffix t :
  buildGuardedJupiterTrade program feePayer mint kind expectation suffix = Ok t →
  t_instructions t = t_guard t :: suffix ∧
  (∃ views, sysvarView (t_instructions t) feePayer = Ok views ∧
     checkGuardedJupiterTransaction views 0 kind mint (t_commitment t) = Ok None) ∧
  ∃ key preimage adapter, encodeAddress mint = Some key ∧
    jupiterSuffixCommitmentPreimage (t_committedSuffix t) = Ok preimage ∧
    DownstreamAdapter_from_u8 kind = Some adapter ∧
    unpack (data_of (t_guard t)) = Ok (mkAssertV2 key (guard_request expectation) adapter (digest preimage)).
Proof. apply buildTrade_verified. Qed.

Lemma checkGuarded_detected suffix instructions kind mint c :
  jupiterSuffixCommitment suffix = Ok c →
  checkGuardedJupiterTransaction instructions 0 kind mint c = Ok None →
  drop 1 instructions = suffix ∨
  ∃ p q, jupiterSuffixCommitmentPreimage (drop 1 instructions) = Ok p ∧
    jupiterSuffixCommitmentPreimage suffix = Ok q ∧ collision p q.
Proof.
  intros (q & Hq & ->)%jupiterSuffixCommitment_Ok (check & _ & Hv)%(checkGuarded_tail _ _ _ _ _ _ eq_refl).
  destruct (verdict_of check); [done|]. destruct Hv as (d & (p & Hp & ->)%jupiterSuffixCommitment_Ok & He).
  destruct (bytesEqual (digest p) (digest q)) eqn:Hb; [|done]. apply bytesEqual_spec in Hb.
  destruct (digest_eq_or_collision p q Hb) as [->|Hc]; [left; by eapply suffixPreimage_inj|right; eauto].
Qed.

(** Tampering is detected: if a transaction - however altered - passes
    the check under the commitment of [suffix], then everything after its
    first instruction is exactly [suffix], or a collision was found. *)
Theorem checkGuarded_detects suffix instructions kind mint c :
  jupiterSuffixCommitment suffix = Ok c →
  checkGuardedJupiterTransaction instructions 0 kind mint c = Ok None →
  drop 1 instructions = suffix ∨
  ∃ p q, jupiterSuffixCommitmentPreimage (drop 1 instructions) = Ok p ∧
    jupiterSuffixCommitmentPreimage suffix = Ok q ∧ collision p q.
Proof. apply checkGuarded_detected. Qed.
End Trade.

(* ------------------------------------------------------------------ *)
(** ** Amounts and the [route_v2] prefix *)

(** [minimumOutFromQuote] is the exact ceiling of the quoted output
    reduced by the slippage: the least integer whose 10000-fold is at least
    [quotedOut * (10000 - slippage)]; it never exceeds the quote, equals it at
    zero slippage, and is refused exactly outside [0, 10000]. *)
Theorem minimumOutFromQuote_ceiling quotedOut slippage :
  0 ≤ quotedOut →
  (num_in_range 0 10000 slippage = true →
   ∃ m, minimumOutFromQuote quotedOut slippage = Ok m ∧
     (∀ k, m ≤ k ↔ quotedOut * (10000 - num_value slippage) ≤ 10000 * k) ∧
     0 ≤ m ≤ quotedOut ∧ (num_value slippage = 0 → m = quotedOut)) ∧
  (num_in_range 0 10000 slippage = false →
   thrown_code (minimumOutFromQuote quotedOut slippage) = Some C_UnsupportedJupiterTrade).
Proof.
  intros Hq. unfold minimumOutFromQuote, MAX_SLIPPAGE_BPS. split; intros Hr; rewrite Hr; cbn [negb]; [|done].
  apply num_in_range_spec in Hr as [_ Hs]. cbn [guard_throw_if throw_if mbind result_bind].
  eexists. split; [reflexivity|].
  set (n := quotedOut * (10000 - num_value slippage)). assert (0 ≤ n ≤ 10000 * quotedOut) as Hn by (unfold n; nia).
  rewrite Z.quot_div_nonneg by lia. pose proof (Z.div_mod (n + 9999) 10000 ltac:(lia)).
  pose proof (Z.mod_pos_bound (n + 9999) 10000 ltac:(lia)). split; [intros k; lia|].
  split; [lia|]. intros Hz. unfold n in *. rewrite Hz in *. lia.
Qed.

Lemma minimumOutFromQuote_ceiling_witness :
  ∃ m, minimumOutFromQuote 1000001 (NumInt 50) = Ok m ∧
     (∀ k, m ≤ k ↔ 1000001 * (10000 - 50) ≤ 10000 * k) ∧ 0 ≤ m ≤ 1000001 ∧ (50 = 0 → m = 1000001).
Proof. apply (minimumOutFromQuote_ceiling 1000001 (NumInt 50)); [lia|reflexivity]. Defined.

Definition route_v2_discriminator : bytes := [xbb; x64; xfa; xcc; x31; xc4; xaf; x14].

(** The 34 bytes of a prefix. *)
Definition print_prefix (p : RouteV2Prefix) : bytes :=
  route_v2_discriminator ++ le_bytes 8 (inAmount p) ++ le_bytes 8 (quotedOutAmount p) ++
  le_bytes 2 (slippageBps p) ++ le_bytes 2 (platformFeeBps p) ++ le_bytes 2 (positiveSlippageBps p) ++
  le_bytes 4 (routePlanSteps p).

Record wf_prefix (p : RouteV2Prefix) : Prop := {
  wp_in : u64_range (inAmount p);
  wp_out : u64_range (quotedOutAmount p);
  wp_slippage : 0 ≤ slippageBps p < 2 ^ 16;
  wp_platform : 0 ≤ platformFeeBps p < 2 ^ 16;
  wp_positive : 0 ≤ positiveSlippageBps p < 2 ^ 16;
  wp_steps : u32_range (routePlanSteps p);
}.

Lemma discriminator_hex b : toHex b = ROUTE_V2_DISCRIMINATOR_HEX ↔ b = route_v2_discriminator.
Proof.
  change ROUTE_V2_DISCRIMINATOR_HEX with (toHex route_v2_discriminator). split; [apply toHex_inj|by intros ->].
Qed.

Lemma get_uint_in n (l : bytes) i : (i + n ≤ length l)%nat → get_uint n l i = Some (le_Z (take n (drop i l))).
Proof. intros Hi. by apply get_uint_Some. Qed.

(** A field of [n] bytes at the front of the rest. *)
Lemma field_step n (l : bytes) i : (i + n ≤ length l)%nat →
  drop i l = le_bytes n (le_Z (take n (drop i l))) ++ drop (i + n) l.
Proof.
  intros Hi. rewrite <- int_field by (rewrite length_take, length_drop; lia).
  by rewrite <- drop_drop, take_drop.
Qed.

Lemma field_range n (l : bytes) i : (i + n ≤ length l)%nat →
  0 ≤ le_Z (take n (drop i l)) < 2 ^ (8 * Z.of_nat n).
Proof.
  intros Hi. pose proof (le_Z_range (take n (drop i l))) as Hr.
  rewrite length_take, length_drop in Hr. by replace (n `min` (length l - i))%nat with n in Hr by lia.
Qed.

Lemma decodePrefix_sound data p : decodeRouteV2Prefix data = Some p → wf_prefix p ∧ ∃ plan, data = print_prefix p ++ plan.
Proof.
  unfold decodeRouteV2Prefix, ROUTE_V2_PREFIX_LENGTH. destruct (Nat.ltb_spec (length data) 34) as [|Hlen]; [done|].
  cbn [orb]. destruct (String.eqb_spec (toHex (subarray data 0 8)) ROUTE_V2_DISCRIMINATOR_HEX) as [Hd|]; [|done].
  cbn [negb]. apply discriminator_hex in Hd. rewrite !get_uint_in by lia. cbn [mbind option_bind].
  intros [= <-]. split; [constructor; cbn [inAmount quotedOutAmount slippageBps platformFeeBps positiveSlippageBps routePlanSteps];
    apply field_range; lia|].
  exists (drop 34 data). unfold print_prefix, subarray in *. rewrite drop_0 in Hd.
  cbn [inAmount quotedOutAmount slippageBps platformFeeBps positiveSlippageBps routePlanSteps].
  pose proof (field_step 8 data 8 ltac:(lia)) as F8. pose proof (field_step 8 data 16 ltac:(lia)) as F16.
  pose proof (field_step 2 data 24 ltac:(lia)) as F24. pose proof (field_step 2 data 26 ltac:(lia)) as F26.
  pose proof (field_step 2 data 28 ltac:(lia)) as F28. pose proof (field_step 4 data 30 ltac:(lia)) as F30.
  cbn [Nat.add] in F8, F16, F24, F26, F28, F30.
  rewrite <- Hd, <- !app_assoc, <- F30, <- F28, <- F26, <- F24, <- F16, <- F8. symmetry. apply take_drop.
Qed.

(** Skips [n] leading fields of a printed prefix and reads the next. *)
Tactic Notation "skip_fields" integer(n) :=
  do n (rewrite get_uint_app_skip; [|rewrite ?length_le_bytes; cbn [length route_v2_discriminator]; lia]);
  rewrite ?length_le_bytes; cbn [length route_v2_discriminator Nat.sub]; apply get_uint_small.

Lemma decodePrefix_print p plan : wf_prefix p → decodeRouteV2Prefix (print_prefix p ++ plan) = Some p.
Proof.
  intros [Hi Ho Hs Hf Hp Hr]. unfold decodeRouteV2Prefix, ROUTE_V2_PREFIX_LENGTH.
  assert (length (print_prefix p) = 34%nat) as Hlen by (unfold print_prefix; rewrite !length_app, !length_le_bytes; done).
  destruct (Nat.ltb_spec (length (print_prefix p ++ plan)) 34) as [Hlt|_]; [rewrite length_app in Hlt; lia|].
  rewrite (proj2 (discriminator_hex _)) by done. rewrite String.eqb_refl. cbn [orb negb].
  unfold print_prefix. rewrite <- !app_assoc.
  set (l := route_v2_discriminator ++ _).
  assert (get_uint 8 l 8 = Some (inAmount p)) as -> by (unfold l; skip_fields 1; exact Hi).
  assert (get_uint 8 l 16 = Some (quotedOutAmount p)) as -> by (unfold l; skip_fields 2; exact Ho).
  assert (get_uint 2 l 24 = Some (slippageBps p)) as -> by (unfold l; skip_fields 3; exact Hs).
  assert (get_uint 2 l 26 = Some (platformFeeBps p)) as -> by (unfold l; skip_fields 4; exact Hf).
  assert (get_uint 2 l 28 = Some (positiveSlippageBps p)) as -> by (unfold l; skip_fields 5; exact Hp).
  assert (get_uint 4 l 30 = Some (routePlanSteps p)) as -> by (unfold l; skip_fields 6; exact Hr).
  by destruct p.
Qed.

(** [decodeRouteV2Prefix] reads exactly the [route_v2] argument prefix: a
    prefix comes back iff the data starts with the discriminator and the six
    little-endian fields of their widths, whatever route plan follows. *)
Theorem decodeRouteV2Prefix_spec data p :
  decodeRouteV2Prefix data = Some p ↔ wf_prefix p ∧ ∃ plan, data = print_prefix p ++ plan.
Proof. split; [apply decodePrefix_sound|intros (Hp & plan & ->); by apply decodePrefix_print]. Qed.
