(* ===== verification/JupiterOnChain.v ===== *)
(** * jupiter.rs: the program's rules for a guarded Jupiter trade

    [check_suffix] and [verify_jupiter_suffix] over the Instructions sysvar,
    and the client's [checkJupiterSuffix] and [checkGuardedJupiterTransaction]
    proved to return the program's verdict. *)

From S2P Require Import Prelude Js Errors Kit Base58 Sha256 Abi OnChain OfflineCheck MintState Downstream Jupiter.

(** [SuffixInstruction::account]. *)
Definition sysvar_key (ix : SysvarInstruction) (index : nat) : option bytes :=
  sa_pubkey <$> si_accounts ix !! index.

(** [RouteV2Prefix::decode], reading the fields one after the other. *)
Definition RouteV2Prefix_decode (data : bytes) : option RouteV2Prefix :=
  let take_field n (rest : bytes) := if Nat.leb n (length rest) then Some (take n rest, drop n rest) else None in
  '(prefix, _) ← take_field 34%nat data;
  '(discriminator, rest) ← take_field 8%nat prefix;
  if bool_decide (discriminator ≠ route_v2_discriminator) then None
  else
    '(in_amount, rest) ← take_field 8%nat rest;
    '(quoted_out_amount, rest) ← take_field 8%nat rest;
    '(slippage_bps, rest) ← take_field 2%nat rest;
    '(platform_fee_bps, rest) ← take_field 2%nat rest;
    '(positive_slippage_bps, rest) ← take_field 2%nat rest;
    '(route_plan_len, _) ← take_field 4%nat rest;
    Some (mkPrefix (le_Z in_amount) (le_Z quoted_out_amount) (le_Z slippage_bps) (le_Z platform_fee_bps)
            (le_Z positive_slippage_bps) (le_Z route_plan_len)).

Record SysvarRoute := mkSysvarRoute {
  sr_authority : bytes;
  sr_source : bytes;
  sr_destination : bytes;
  sr_source_mint : bytes;
  sr_destination_mint : bytes;
  sr_source_token_program : bytes;
  sr_destination_token_program : bytes;
}.

Section CheckSuffix.
  (** The program ids as the 32 bytes [Address::from_str_const] gives. *)
  Variable pk : Address → bytes.
  (** [Address::find_program_address] under the ATA program. *)
  Variable find_ata : list bytes → bytes.

Definition check_compute_budget (ix : SysvarInstruction) (tag : Z) (len : nat) : result EquityGuardErrorName unit :=
  throw_if (negb (Nat.eqb (length (si_accounts ix)) 0 && Nat.eqb (length (si_data ix)) len
                  && bool_decide (byte_at (si_data ix) 0 = Some tag))) E_InvalidComputeBudgetInstruction.

Definition check_route (trade : SysvarInstruction) (role : ProtectedMintRole) (protected_mint : bytes)
    : result EquityGuardErrorName SysvarRoute :=
  throw_if (Nat.ltb (length (si_accounts trade)) 10) E_InvalidJupiterInstruction;;
  prefix ← of_option E_InvalidJupiterInstruction (RouteV2Prefix_decode (si_data trade));
  let account index := of_option E_InvalidJupiterInstruction (si_accounts trade !! index) in
  let key index := of_option E_InvalidJupiterInstruction (sysvar_key trade index) in
  program ← key 9%nat;
  throw_if (bool_decide (program ≠ pk JUPITER_V6_PROGRAM_ADDRESS)) E_InvalidJupiterProgram;;
  event_authority ← key 8%nat;
  authority ← account 0%nat;
  throw_if (negb (bool_decide (event_authority = pk JUPITER_EVENT_AUTHORITY) && sa_is_signer authority
      && (0 <? inAmount prefix) && (0 <? quotedOutAmount prefix)
      && (slippageBps prefix <=? 10000) && (0 <? routePlanSteps prefix))) E_InvalidJupiterInstruction;;
  override ← key 7%nat;
  throw_if (bool_decide (override ≠ pk JUPITER_V6_PROGRAM_ADDRESS)) E_DestinationOverrideUnsupported;;
  authority ← key 0%nat; source ← key 1%nat; destination ← key 2%nat;
  source_mint ← key 3%nat; destination_mint ← key 4%nat;
  source_token_program ← key 5%nat; destination_token_program ← key 6%nat;
  let '(protected, protected_program, counter, counter_program) :=
    match role with
    | DESTINATION => (destination_mint, destination_token_program, source_mint, source_token_program)
    | SOURCE => (source_mint, source_token_program, destination_mint, destination_token_program)
    end in
  throw_if (bool_decide (protected ≠ protected_mint)) E_InvalidJupiterDirection;;
  throw_if (bool_decide (counter ≠ pk USDC_MINT_ADDRESS)) E_InvalidCounterMint;;
  throw_if (bool_decide (protected_program ≠ pk TOKEN_2022_PROGRAM_ADDRESS)
            || bool_decide (counter_program ≠ pk LEGACY_TOKEN_PROGRAM_ADDRESS)) E_InvalidTokenProgram;;
  throw_if (negb (platformFeeBps prefix =? 0) || negb (positiveSlippageBps prefix =? 0)) E_UnsupportedJupiterFee;;
  Ok (mkSysvarRoute authority source destination source_mint destination_mint source_token_program destination_token_program).

Definition check_setup (setup : SysvarInstruction) (route : SysvarRoute) : result EquityGuardErrorName unit :=
  throw_if (negb (Nat.eqb (length (si_accounts setup)) 6) || bool_decide (si_data setup ≠ [x01])) E_InvalidAtaSetup;;
  payer ← of_option E_InvalidAtaSetup (si_accounts setup !! 0%nat);
  let key index := sysvar_key setup index in
  throw_if (negb (sa_is_signer payer
      && bool_decide (key 1%nat = Some (sr_destination route)) && bool_decide (key 2%nat = Some (sr_authority route))
      && bool_decide (key 3%nat = Some (sr_destination_mint route))
      && bool_decide (key 4%nat = Some (pk SYSTEM_PROGRAM_ADDRESS))
      && bool_decide (key 5%nat = Some (sr_destination_token_program route)))) E_InvalidAtaSetup.

Definition check_suffix (suffix : list SysvarInstruction) (role : ProtectedMintRole) (protected_mint : bytes)
    : result EquityGuardErrorName unit :=
  parts ← match suffix with
          | [price; limit; trade] => Ok (price, limit, None, trade)
          | [price; limit; setup; trade] => Ok (price, limit, Some setup, trade)
          | _ => Err E_UnsupportedTransactionGrammar
          end;
  let '(price, limit, setup, trade) := parts in
  let setup_position_ok :=
    match setup with
    | Some setup => bool_decide (si_program_id setup = pk ASSOCIATED_TOKEN_PROGRAM_ADDRESS)
    | None => true
    end in
  throw_if (bool_decide (si_program_id price ≠ pk COMPUTE_BUDGET_PROGRAM_ADDRESS)
            || bool_decide (si_program_id limit ≠ pk COMPUTE_BUDGET_PROGRAM_ADDRESS)
            || negb setup_position_ok) E_UnsupportedTransactionGrammar;;
  throw_if (bool_decide (si_program_id trade ≠ pk JUPITER_V6_PROGRAM_ADDRESS)) E_InvalidJupiterProgram;;
  check_compute_budget price 3 9;;
  check_compute_budget limit 2 5;;
  route ← check_route trade role protected_mint;
  match setup with Some setup => check_setup setup route | None => Ok tt end;;
  let canonical_ata owner mint token_program := find_ata [owner; token_program; mint] in
  throw_if (bool_decide (canonical_ata (sr_authority route) (sr_source_mint route) (sr_source_token_program route)
                         ≠ sr_source route)) E_NonCanonicalSourceAccount;;
  throw_if (bool_decide (canonical_ata (sr_authority route) (sr_destination_mint route) (sr_destination_token_program route)
                         ≠ sr_destination route)) E_NonCanonicalDestinationAccount.

(** The buffer [jupiter_suffix_commitment] hashes. *)
Definition suffix_encoded (suffix : list SysvarInstruction) : bytes :=
  encode_utf8 JUPITER_SUFFIX_COMMITMENT_DOMAIN ++ le_bytes 4 (Z.of_nat (length suffix)) ++
  concat (map (λ ix, si_program_id ix ++ le_bytes 4 (Z.of_nat (length (si_accounts ix))) ++
    concat (map (λ a, sa_pubkey a ++ [flag_byte (sa_is_signer a); flag_byte (sa_is_writable a)]) (si_accounts ix)) ++
    le_bytes 4 (Z.of_nat (length (si_data ix))) ++ si_data ix) suffix).

Definition jupiter_suffix_commitment `{!Digest} (suffix : list SysvarInstruction) : result EquityGuardErrorName bytes :=
  throw_if (negb (fits_u32 (length suffix))) E_ArithmeticOverflow;;
  throw_if (negb (forallb (λ ix, fits_u32 (length (si_accounts ix)) && fits_u32 (length (si_data ix))) suffix))
    E_ArithmeticOverflow;;
  Ok (digest (suffix_encoded suffix)).

(** [verify_jupiter_suffix] on the sysvar's list of instructions. *)
Definition verify_jupiter_suffix `{!Digest} (current : Z) (role : ProtectedMintRole) (request : AssertSafeExecutionV2)
    (mint_key : bytes) (sysvar : list SysvarInstruction) : result EquityGuardErrorName unit :=
  throw_if (negb (current =? 0)) E_GuardNotFirst;;
  let suffix_len := (length sysvar - 1)%nat in
  throw_if (negb (Nat.eqb suffix_len 3) && negb (Nat.eqb suffix_len 4)) E_UnsupportedTransactionGrammar;;
  let suffix := drop 1 sysvar in
  check_suffix suffix role mint_key;;
  actual ← jupiter_suffix_commitment suffix;
  throw_if (bool_decide (actual ≠ a2_downstream_commitment request)) E_DownstreamCommitmentMismatch.
End CheckSuffix.

(* ------------------------------------------------------------------ *)
(** ** The two prefix readers agree *)

Lemma decodePrefix_None data : decodeRouteV2Prefix data = None →
  (length data < 34)%nat ∨ take 8 data ≠ route_v2_discriminator.
Proof.
  unfold decodeRouteV2Prefix, ROUTE_V2_PREFIX_LENGTH. destruct (Nat.ltb_spec (length data) 34) as [|Hlen]; [by left|].
  cbn [orb]. destruct (String.eqb_spec (toHex (subarray data 0 8)) ROUTE_V2_DISCRIMINATOR_HEX) as [|Hd].
  - rewrite !get_uint_in by lia. done.
  - intros _. right. intros Heq. apply Hd, discriminator_hex. unfold subarray. by rewrite drop_0.
Qed.

Ltac take_field :=
  match goal with |- context [Nat.leb ?n (length ?l)] =>
    destruct (Nat.leb_spec n (length l)) as [_|?];
    [|rewrite ?length_app, ?length_le_bytes in *; cbn [length] in *; lia] end;
  cbn [mbind option_bind].

Lemma RouteV2Prefix_decode_print p plan : wf_prefix p → RouteV2Prefix_decode (print_prefix p ++ plan) = Some p.
Proof.
  intros [Hi Ho Hs Hf Hp Hr].
  assert (length (print_prefix p) = 34%nat) as Hlen by (unfold print_prefix; rewrite !length_app, !length_le_bytes; done).
  unfold RouteV2Prefix_decode. destruct (Nat.leb_spec 34 (length (print_prefix p ++ plan))) as [_|Hlt];
    [|rewrite length_app in Hlt; lia]. cbn [mbind option_bind].
  rewrite take_app_length' by done. unfold print_prefix at 1 2 3.
  take_field. rewrite take_app_length', drop_app_length' by done.
  rewrite bool_decide_eq_false_2 by (intros []; done).
  do 6 (take_field; rewrite ?take_app_length', ?drop_app_length' by (by rewrite length_le_bytes)).
  rewrite take_ge by (by rewrite length_le_bytes).
  rewrite !le_Z_le_bytes_small by assumption. by destruct p.
Qed.

Lemma prefix_readers_agree data : RouteV2Prefix_decode data = decodeRouteV2Prefix data.
Proof.
  destruct (decodeRouteV2Prefix data) as [p|] eqn:Hd.
  - apply decodePrefix_sound in Hd as (Hp & plan & ->). by apply RouteV2Prefix_decode_print.
  - unfold RouteV2Prefix_decode. destruct (Nat.leb_spec 34 (length data)) as [Hlen|]; [|done].
    cbn [mbind option_bind]. destruct (Nat.leb_spec 8 (length (take 34 data))) as [_|H8];
      [|rewrite length_take in H8; lia].
    cbn [mbind option_bind]. rewrite take_take. change (8 `min` 34)%nat with 8%nat.
    apply decodePrefix_None in Hd as [|Hd]; [lia|]. by rewrite bool_decide_eq_true_2.
Qed.

(* ------------------------------------------------------------------ *)
(** ** The two checks agree *)

(** The client's option verdict of a program result. *)
Definition error_of {A} (r : result EquityGuardErrorName A) : option EquityGuardErrorName :=
  match r with Ok _ => None | Err e => Some e end.

Section Agreement.
  Context `{!AddressCodec, !ProgramDerivation}.
  Variable pk : Address → bytes.
  Variable find_ata : list bytes → bytes.

  (** The client's address constants decode to the program's. *)
  Hypothesis pk_constants : ∀ a,
    a ∈ [JUPITER_V6_PROGRAM_ADDRESS; JUPITER_EVENT_AUTHORITY; USDC_MINT_ADDRESS; LEGACY_TOKEN_PROGRAM_ADDRESS;
         ASSOCIATED_TOKEN_PROGRAM_ADDRESS; COMPUTE_BUDGET_PROGRAM_ADDRESS; SYSTEM_PROGRAM_ADDRESS;
         TOKEN_2022_PROGRAM_ADDRESS] → encodeAddress a = Some (pk a).
  (** [getProgramDerivedAddress] finds the address [find_program_address] finds. *)
  Hypothesis same_ata : ∀ owner token_program mint,
    length owner = 32%nat → length token_program = 32%nat → length mint = 32%nat →
    ∃ a, programDerivedAddress ASSOCIATED_TOKEN_PROGRAM_ADDRESS [owner; token_program; mint] = Some a ∧
         encodeAddress a = Some (find_ata [owner; token_program; mint]).

Lemma key_eqb a b ka kb : encodeAddress a = Some ka → encodeAddress b = Some kb →
  String.eqb a b = bool_decide (ka = kb).
Proof.
  intros Ha Hb. destruct (String.eqb_spec a b) as [->|Hne].
  - rewrite bool_decide_eq_true_2; [done|congruence].
  - rewrite bool_decide_eq_false_2; [done|]. intros ->. by apply Hne, (encodeAddress_inj _ _ kb).
Qed.

Lemma key_neqb a b ka kb : encodeAddress a = Some ka → encodeAddress b = Some kb →
  negb (String.eqb a b) = bool_decide (ka ≠ kb).
Proof. intros Ha Hb. rewrite (key_eqb _ _ _ _ Ha Hb), bool_decide_not. done. Qed.

Lemma account_view i si index :
  sysvar_ix i si → (index < length (ci_accounts i))%nat →
  ∃ sa, si_accounts si !! index = Some sa ∧ encodeAddress (ca_address (account_at i index)) = Some (sa_pubkey sa) ∧
    ca_isSigner (account_at i index) = sa_is_signer sa.
Proof.
  intros (_ & Hacc & _) [a Ha]%lookup_lt_is_Some_2.
  destruct (Forall2_lookup_l _ _ _ _ _ Hacc Ha) as (sa & Hsa & Hk & Hs & _).
  exists sa. unfold account_at. by rewrite Ha.
Qed.

Record route_view (r : RouteV2Summary) (sr : SysvarRoute) : Prop := {
  rv_authority : encodeAddress (r_authority r) = Some (sr_authority sr);
  rv_source : encodeAddress (r_source r) = Some (sr_source sr);
  rv_destination : encodeAddress (r_destination r) = Some (sr_destination sr);
  rv_source_mint : encodeAddress (r_sourceMint r) = Some (sr_source_mint sr);
  rv_destination_mint : encodeAddress (r_destinationMint r) = Some (sr_destination_mint sr);
  rv_source_program : encodeAddress (r_sourceTokenProgram r) = Some (sr_source_token_program sr);
  rv_destination_program : encodeAddress (r_destinationTokenProgram r) = Some (sr_destination_token_program sr);
}.

Ltac pk := apply pk_constants; rewrite !elem_of_cons; tauto.

Lemma if_throw {A B} (c : bool) (e : A) (x : B) (k : result A B) :
  (throw_if c e;; k) = if c then Err e else k.
Proof. by destruct c. Qed.

(** The next refusal of the program: both sides report it, or both go on. *)
Ltac throw_step :=
  match goal with |- context [throw_if ?b _ ≫= _] => destruct b end;
  cbn [throw_if mbind result_bind]; [reflexivity|].

Lemma routeVerdict_agrees trade si kind mint mk :
  sysvar_ix trade si → encodeAddress mint = Some mk →
  match check_route pk si (protectedRoleOf kind) mk with
  | Ok sr => ∃ r, routeVerdict trade kind mint = mkCheck None (Some r) ∧ route_view r sr
  | Err e => routeVerdict trade kind mint = fail_with e
  end.
Proof.
  intros Hix Hmint. unfold check_route, routeVerdict, ROUTE_V2_FIXED_ACCOUNTS.
  destruct Hix as (Hprog & Hacc & Hdata). pose proof (Forall2_length _ _ _ Hacc) as Hlen.
  rewrite <- Hlen, <- Hdata, prefix_readers_agree.
  destruct (Nat.ltb_spec (length (ci_accounts trade)) 10) as [|H10]; cbn [throw_if mbind result_bind]; [reflexivity|].
  destruct (decodeRouteV2Prefix (ci_data trade)) as [p|]; [|done]. cbn [of_option mbind result_bind].
  assert (sysvar_ix trade si) as Hix by done.
  assert (∀ n, (n < 10)%nat → ∃ sa, si_accounts si !! n = Some sa ∧
    encodeAddress (ca_address (account_at trade n)) = Some (sa_pubkey sa) ∧
    ca_isSigner (account_at trade n) = sa_is_signer sa) as Hat
    by (intros n Hn; apply account_view; [done|lia]).
  destruct (Hat 0%nat) as (a0 & L0 & K0 & S0); [lia|]. destruct (Hat 1%nat) as (a1 & L1 & K1 & _); [lia|].
  destruct (Hat 2%nat) as (a2 & L2 & K2 & _); [lia|]. destruct (Hat 3%nat) as (a3 & L3 & K3 & _); [lia|].
  destruct (Hat 4%nat) as (a4 & L4 & K4 & _); [lia|]. destruct (Hat 5%nat) as (a5 & L5 & K5 & _); [lia|].
  destruct (Hat 6%nat) as (a6 & L6 & K6 & _); [lia|]. destruct (Hat 7%nat) as (a7 & L7 & K7 & _); [lia|].
  destruct (Hat 8%nat) as (a8 & L8 & K8 & _); [lia|]. destruct (Hat 9%nat) as (a9 & L9 & K9 & _); [lia|].
  unfold sysvar_key. rewrite L0, L1, L2, L3, L4, L5, L6, L7, L8, L9.
  cbn [fmap option_fmap option_map of_option mbind result_bind].
  unfold A_program, A_eventAuthority, A_authority, A_destinationOverride, A_source, A_destination, A_sourceMint,
    A_destinationMint, A_sourceTokenProgram, A_destinationTokenProgram.
  rewrite (key_neqb _ _ _ (pk JUPITER_V6_PROGRAM_ADDRESS) K9) by pk.
  throw_step.
  rewrite (key_eqb _ _ _ (pk JUPITER_EVENT_AUTHORITY) K8), S0 by pk. unfold MAX_SLIPPAGE_BPS.
  throw_step.
  rewrite (key_neqb _ _ _ (pk JUPITER_V6_PROGRAM_ADDRESS) K7) by pk.
  throw_step.
  cbn [r_sourceMint r_destinationMint r_sourceTokenProgram r_destinationTokenProgram].
  destruct (protectedRoleOf kind); cbv beta iota;
    rewrite ?(key_neqb _ _ _ mk K3 Hmint), ?(key_neqb _ _ _ mk K4 Hmint);
    (throw_step);
    [rewrite (key_neqb _ _ _ (pk USDC_MINT_ADDRESS) K4) by pk|rewrite (key_neqb _ _ _ (pk USDC_MINT_ADDRESS) K3) by pk];
    (throw_step);
    [rewrite (key_neqb _ _ _ (pk TOKEN_2022_PROGRAM_ADDRESS) K5), (key_neqb _ _ _ (pk LEGACY_TOKEN_PROGRAM_ADDRESS) K6) by pk
    |rewrite (key_neqb _ _ _ (pk TOKEN_2022_PROGRAM_ADDRESS) K6), (key_neqb _ _ _ (pk LEGACY_TOKEN_PROGRAM_ADDRESS) K5) by pk];
    (throw_step);
    (throw_step);
    (eexists; split; [reflexivity|]; by constructor).
Qed.

Lemma budget_agrees i si shape :
  sysvar_ix i si → error_of (check_compute_budget si (shape_tag shape) (shape_length shape)) = computeBudgetVerdict i shape.
Proof.
  intros (_ & Hacc & Hdata). unfold check_compute_budget, computeBudgetVerdict.
  rewrite <- (Forall2_length _ _ _ Hacc), <- Hdata. by destruct (_ && _).
Qed.

Lemma setup_data data :
  negb (Nat.eqb (length data) 1) || negb (bool_decide (byte_at data 0 = Some 1)) = bool_decide (data ≠ [x01]).
Proof.
  destruct data as [|b [|c l]]; cbn [length Nat.eqb negb orb].
  - by rewrite bool_decide_eq_true_2.
  - unfold byte_at. cbn [lookup list_lookup fmap option_fmap option_map].
    destruct (decide (b2z b = 1)) as [Hb|Hb].
    + rewrite bool_decide_eq_true_2 by congruence. apply b2z_01 in Hb as ->. by rewrite bool_decide_eq_false_2 by auto.
    + rewrite bool_decide_eq_false_2 by congruence. rewrite bool_decide_eq_true_2; [done|]. by intros [= ->].
  - by rewrite bool_decide_eq_true_2.
Qed.

Lemma address_view i si index a k :
  sysvar_ix i si → (index < length (ci_accounts i))%nat → encodeAddress a = Some k →
  bool_decide (ca_address <$> ci_accounts i !! index = Some a) = bool_decide (sysvar_key si index = Some k).
Proof.
  intros (_ & Hacc & _) [x Hx]%lookup_lt_is_Some_2 Ha.
  destruct (Forall2_lookup_l _ _ _ _ _ Hacc Hx) as (sa & Hsa & Hk & _).
  unfold sysvar_key. rewrite Hx, Hsa. cbn [fmap option_fmap option_map].
  apply bool_decide_ext. split; intros [= Heq]; f_equal; [congruence|].
  eapply encodeAddress_inj; [exact Hk|congruence].
Qed.

Lemma setupVerdict_agrees setup si r sr :
  sysvar_ix setup si → route_view r sr → error_of (check_setup pk si sr) = setupVerdict setup r.
Proof.
  intros Hix [Ha Hs Hd Hsm Hdm Hsp Hdp]. unfold check_setup, setupVerdict, CREATE_IDEMPOTENT_ACCOUNTS, CREATE_IDEMPOTENT_TAG.
  pose proof Hix as (_ & Hacc & Hdata). rewrite <- (Forall2_length _ _ _ Hacc), <- Hdata, <- orb_assoc, setup_data.
  destruct (Nat.eqb_spec (length (ci_accounts setup)) 6) as [H6|]; [|done]. cbn [negb orb].
  destruct (bool_decide (ci_data setup ≠ [x01])); [done|]. cbn [throw_if mbind result_bind].
  destruct (account_view setup si 0 Hix) as (sa & Hsa & _ & Hsig); [lia|].
  rewrite Hsa. cbn [of_option mbind result_bind].
  rewrite (address_view _ _ 1 _ (sr_destination sr) Hix) by (done || lia).
  rewrite (address_view _ _ 2 _ (sr_authority sr) Hix) by (done || lia).
  rewrite (address_view _ _ 3 _ (sr_destination_mint sr) Hix) by (done || lia).
  rewrite (address_view _ _ 4 _ (pk SYSTEM_PROGRAM_ADDRESS) Hix) by (pk || lia).
  rewrite (address_view _ _ 5 _ (sr_destination_token_program sr) Hix) by (done || lia).
  assert (bool_decide (ca_isSigner <$> ci_accounts setup !! 0%nat = Some true) = sa_is_signer sa) as ->.
  { unfold account_at in Hsig. destruct (ci_accounts setup !! 0%nat) as [x|] eqn:Hx.
    - cbn in Hsig |- *. rewrite Hsig. by destruct (sa_is_signer sa).
    - apply lookup_ge_None in Hx. lia. }
  by destruct (_ && _).
Qed.

Lemma canonicalAta_agrees owner mint program ko km kp :
  encodeAddress owner = Some ko → encodeAddress mint = Some km → encodeAddress program = Some kp →
  ∃ a, canonicalAta owner mint program = Ok a ∧ encodeAddress a = Some (find_ata [ko; kp; km]).
Proof.
  intros Ho Hm Hp. unfold canonicalAta, addressBytes. rewrite Ho, Hm, Hp. cbn [of_option mbind result_bind].
  destruct (same_ata ko kp km) as (a & -> & Ha); eauto using length_encodeAddress.
Qed.

Lemma error_of_then {A} (m : result EquityGuardErrorName unit) (k : result EquityGuardErrorName A) :
  error_of (m;; k) = match error_of m with Some e => Some e | None => error_of k end.
Proof. by destruct m. Qed.

Lemma error_of_throw {A} (c : bool) e (k : result EquityGuardErrorName A) :
  error_of (throw_if c e;; k) = if c then Some e else error_of k.
Proof. by destruct c. Qed.

(** The account derivations at the end of both checks. *)
Lemma accounts_agree r sr :
  route_view r sr →
  ∃ check,
    (source ← canonicalAta (r_authority r) (r_sourceMint r) (r_sourceTokenProgram r);
     if negb (String.eqb source (r_source r)) then Ok (fail_with E_NonCanonicalSourceAccount)
     else destination ← canonicalAta (r_authority r) (r_destinationMint r) (r_destinationTokenProgram r);
          if negb (String.eqb destination (r_destination r)) then Ok (fail_with E_NonCanonicalDestinationAccount)
          else Ok (mkCheck None (Some r))) = Ok check ∧
    verdict_of check = error_of
      (throw_if (bool_decide (find_ata [sr_authority sr; sr_source_token_program sr; sr_source_mint sr] ≠ sr_source sr))
         E_NonCanonicalSourceAccount;;
       throw_if (bool_decide (find_ata [sr_authority sr; sr_destination_token_program sr; sr_destination_mint sr] ≠ sr_destination sr))
         E_NonCanonicalDestinationAccount) ∧
    (verdict_of check = None → route_of check = Some r).
Proof.
  intros [Ha Hs Hd Hsm Hdm Hsp Hdp].
  destruct (canonicalAta_agrees _ _ _ _ _ _ Ha Hsm Hsp) as (a & -> & Hka).
  destruct (canonicalAta_agrees _ _ _ _ _ _ Ha Hdm Hdp) as (b & Hb & Hkb).
  cbn [mbind result_bind]. rewrite (key_neqb _ _ _ _ Hka Hs), error_of_throw.
  destruct (bool_decide _); [by eexists|]. rewrite Hb. cbn [mbind result_bind].
  rewrite (key_neqb _ _ _ _ Hkb Hd). destruct (bool_decide _); by eexists.
Qed.

Lemma error_of_bind {A B} (m : result EquityGuardErrorName A) (k : A → result EquityGuardErrorName B) :
  error_of (m ≫= k) = match m with Ok a => error_of (k a) | Err e => Some e end.
Proof. by destruct m. Qed.

Ltac verdict_step :=
  match goal with |- context [error_of (throw_if ?b _;; _)] => rewrite error_of_throw; destruct b end;
  [by eexists|].

Lemma price_agrees i si : sysvar_ix i si → error_of (check_compute_budget si 3 9) = computeBudgetVerdict i SET_COMPUTE_UNIT_PRICE.
Proof. exact (budget_agrees i si SET_COMPUTE_UNIT_PRICE). Qed.

Lemma limit_agrees i si : sysvar_ix i si → error_of (check_compute_budget si 2 5) = computeBudgetVerdict i SET_COMPUTE_UNIT_LIMIT.
Proof. exact (budget_agrees i si SET_COMPUTE_UNIT_LIMIT). Qed.

(** Everything after the grammar checks, with or without a setup. *)
Lemma body_agrees price limit setup trade sprice slimit ssetup strade kind mint mk :
  sysvar_ix price sprice → sysvar_ix limit slimit → option_Forall2 sysvar_ix setup ssetup → sysvar_ix trade strade →
  encodeAddress mint = Some mk →
  ∃ check,
    match
      match computeBudgetVerdict price SET_COMPUTE_UNIT_PRICE with
      | Some e => Some e
      | None => computeBudgetVerdict limit SET_COMPUTE_UNIT_LIMIT
      end
    with
    | Some e => Ok (fail_with e)
    | None =>
        match routeVerdict trade kind mint with
        | mkCheck None (Some route) =>
            match setup ≫= λ setup, setupVerdict setup route with
            | Some e => Ok (fail_with e)
            | None =>
                source ← canonicalAta (r_authority route) (r_sourceMint route) (r_sourceTokenProgram route);
                if negb (String.eqb source (r_source route)) then Ok (fail_with E_NonCanonicalSourceAccount)
                else destination ← canonicalAta (r_authority route) (r_destinationMint route) (r_destinationTokenProgram route);
                     if negb (String.eqb destination (r_destination route))
                     then Ok (fail_with E_NonCanonicalDestinationAccount)
                     else Ok (mkCheck None (Some route))
            end
        | mkCheck verdict _ => Ok (fail_with (verdict ?? E_InvalidJupiterInstruction))
        end
    end = Ok check ∧
    verdict_of check = error_of
      (check_compute_budget sprice 3 9;;
       check_compute_budget slimit 2 5;;
       route ← check_route pk strade (protectedRoleOf kind) mk;
       match ssetup with Some setup => check_setup pk setup route | None => Ok tt end;;
       throw_if (bool_decide (find_ata [sr_authority route; sr_source_token_program route; sr_source_mint route] ≠ sr_source route))
         E_NonCanonicalSourceAccount;;
       throw_if (bool_decide (find_ata [sr_authority route; sr_destination_token_program route; sr_destination_mint route]
                   ≠ sr_destination route)) E_NonCanonicalDestinationAccount) ∧
    (verdict_of check = None → is_Some (route_of check)).
Proof.
  intros Hprice Hlimit Hsetup Htrade Hmint.
  rewrite !error_of_then, (price_agrees _ _ Hprice), (limit_agrees _ _ Hlimit).
  destruct (computeBudgetVerdict price _); [by eexists|]. destruct (computeBudgetVerdict limit _); [by eexists|].
  rewrite error_of_bind. pose proof (routeVerdict_agrees trade strade kind mint mk Htrade Hmint) as Hr.
  destruct (check_route _ _ _ _) as [sr|e]; [|rewrite Hr; by eexists].
  destruct Hr as (r & -> & Hview). rewrite error_of_then.
  assert ((setup ≫= λ setup, setupVerdict setup r) =
    error_of match ssetup with Some setup => check_setup pk setup sr | None => Ok tt end) as ->.
  { destruct Hsetup; [|done]. symmetry. by apply setupVerdict_agrees. }
  destruct (error_of _); [by eexists|].
  destruct (accounts_agree r sr Hview) as (check & -> & Hv & Hroute).
  exists check. split; [done|]. split; [done|]. intros Hnone%Hroute. by rewrite Hnone.
Qed.

Lemma checkJupiterSuffix_agrees_lemma suffix sysvar kind mint mk :
  Forall2 sysvar_ix suffix sysvar → encodeAddress mint = Some mk →
  ∃ check, checkJupiterSuffix suffix kind mint = Ok check ∧
    verdict_of check = error_of (check_suffix pk find_ata sysvar (protectedRoleOf kind) mk) ∧
    (verdict_of check = None → is_Some (route_of check)).
Proof.
  intros Hall Hmint. unfold checkJupiterSuffix, check_suffix. cbv zeta.
  destruct Hall as [|price sprice ? ? Hprice Hall]; [by eexists|].
  destruct Hall as [|limit slimit ? ? Hlimit Hall]; [by eexists|].
  destruct Hall as [|third sthird ? ? Hthird Hall]; [by eexists|].
  pose proof Hprice as (Kp & _). pose proof Hlimit as (Kl & _). pose proof Hthird as (Kt & _).
  destruct Hall as [|trade strade ? ? Htrade [|]].
  - cbn [mbind result_bind]. cbv beta iota.
    rewrite (key_neqb _ _ _ (pk COMPUTE_BUDGET_PROGRAM_ADDRESS) Kp), (key_neqb _ _ _ (pk COMPUTE_BUDGET_PROGRAM_ADDRESS) Kl) by pk.
    cbn [negb]. verdict_step.
    rewrite (key_neqb _ _ _ (pk JUPITER_V6_PROGRAM_ADDRESS) Kt) by pk. verdict_step.
    apply (body_agrees price limit None third sprice slimit None sthird); auto. constructor.
  - pose proof Htrade as (Kr & _). cbn [mbind result_bind]. cbv beta iota.
    rewrite (key_neqb _ _ _ (pk COMPUTE_BUDGET_PROGRAM_ADDRESS) Kp), (key_neqb _ _ _ (pk COMPUTE_BUDGET_PROGRAM_ADDRESS) Kl),
      (key_eqb _ _ _ (pk ASSOCIATED_TOKEN_PROGRAM_ADDRESS) Kt) by pk. verdict_step.
    rewrite (key_neqb _ _ _ (pk JUPITER_V6_PROGRAM_ADDRESS) Kr) by pk. verdict_step.
    apply (body_agrees price limit (Some third) trade sprice slimit (Some sthird) strade); auto. by constructor.
  - by eexists.
Qed.

(** The client's copy of the program's Jupiter rules is exact: on every
    instruction list, [checkJupiterSuffix] never throws and returns the very
    error [check_suffix] would return - same grammar, same order of checks -
    and no error exactly when the program accepts, with the validated trade. *)
Theorem checkJupiterSuffix_agrees suffix sysvar kind mint mk :
  Forall2 sysvar_ix suffix sysvar → encodeAddress mint = Some mk →
  ∃ check, checkJupiterSuffix suffix kind mint = Ok check ∧
    verdict_of check = error_of (check_suffix pk find_ata sysvar (protectedRoleOf kind) mk) ∧
    (verdict_of check = None → is_Some (route_of check)).
Proof. apply checkJupiterSuffix_agrees_lemma. Qed.


Context `{!Digest}.

Definition fits_ix (si : SysvarInstruction) : bool :=
  fits_u32 (length (si_accounts si)) && fits_u32 (length (si_data si)).

Lemma instructionBytes_agrees i si : sysvar_ix i si → fits_ix si = true →
  instructionBytes i = Ok (si_program_id si ++ le_bytes 4 (Z.of_nat (length (si_accounts si))) ++
    concat (map (λ a, sa_pubkey a ++ [flag_byte (sa_is_signer a); flag_byte (sa_is_writable a)]) (si_accounts si)) ++
    le_bytes 4 (Z.of_nat (length (si_data si))) ++ si_data si).
Proof.
  intros Hix [Ha Hd]%andb_true_iff. pose proof (preimage_agrees i si Hix Ha Hd) as Hp.
  apply preimage_Ok in Hp as (b & Hb & Heq). apply app_inv_head in Heq. by rewrite Hb, <- Heq.
Qed.

Lemma suffixPreimage_agrees suffix sysvar :
  Forall2 sysvar_ix suffix sysvar → fits_u32 (length sysvar) = true → forallb fits_ix sysvar = true →
  jupiterSuffixCommitmentPreimage suffix = Ok (suffix_encoded sysvar).
Proof.
  intros Hall Hlen%Z.leb_le Hfits. apply suffixPreimage_Ok.
  pose proof (Forall2_length _ _ _ Hall) as Heq. unfold suffix_encoded. rewrite <- Heq in *.
  eexists. split; [|by split]. apply mapM_result_Ok. clear Hlen Heq.
  induction Hall as [|i si suffix sysvar Hi _ IH]; [constructor|].
  cbn [forallb] in Hfits. apply andb_true_iff in Hfits as [Hf Hfits].
  cbn [map]. constructor; [by apply instructionBytes_agrees|by apply IH].
Qed.

Lemma Forall2_drop_1 {A B} (P : A → B → Prop) l k : Forall2 P l k → Forall2 P (drop 1 l) (drop 1 k).
Proof. by destruct 1; [constructor|]. Qed.

Lemma checkGuarded_agrees instructions sysvar index kind mint mk r :
  Forall2 sysvar_ix instructions sysvar → encodeAddress mint = Some mk →
  forallb fits_ix sysvar = true →
  checkGuardedJupiterTransaction instructions index kind mint (a2_downstream_commitment r) =
    Ok (error_of (verify_jupiter_suffix pk find_ata index (protectedRoleOf kind) r mk sysvar)).
Proof.
  intros Hall Hmint Hfits. unfold checkGuardedJupiterTransaction, verify_jupiter_suffix. cbv zeta.
  rewrite error_of_throw. destruct (negb (index =? 0)); [done|].
  pose proof (Forall2_drop_1 _ _ _ Hall) as Hdrop.
  destruct (checkJupiterSuffix_agrees_lemma _ _ kind mint mk Hdrop Hmint) as (check & -> & Hv & _).
  cbn [mbind result_bind]. rewrite Hv, error_of_throw, error_of_then.
  destruct (negb (Nat.eqb (length sysvar - 1) 3) && _) eqn:Hgrammar.
  { assert (error_of (check_suffix pk find_ata (drop 1 sysvar) (protectedRoleOf kind) mk) = Some E_UnsupportedTransactionGrammar) as ->; [|done].
    destruct sysvar as [|? [|? [|? [|? [|? [|]]]]]]; done. }
  destruct (error_of (check_suffix _ _ _ _ _)); [done|].
  assert (fits_u32 (length (drop 1 sysvar)) = true) as Hlen.
  { apply andb_false_iff in Hgrammar. rewrite !negb_false_iff, !Nat.eqb_eq, <- length_drop in Hgrammar.
    by destruct Hgrammar as [->| ->]. }
  assert (forallb fits_ix (drop 1 sysvar) = true) as Hfits'.
  { destruct sysvar; [done|]. cbn [forallb drop] in *. by apply andb_true_iff in Hfits as [_ ?]. }
  unfold jupiterSuffixCommitment, jupiter_suffix_commitment.
  rewrite (suffixPreimage_agrees _ _ Hdrop Hlen Hfits'), Hlen. cbn [mbind result_bind negb throw_if].
  unfold fits_ix in Hfits'. rewrite Hfits'. cbn [mbind result_bind negb throw_if error_of].
  destruct (bytesEqual (digest (suffix_encoded (drop 1 sysvar))) (a2_downstream_commitment r)) eqn:Hb.
  - apply bytesEqual_spec in Hb. by rewrite bool_decide_eq_false_2 by (intros []; done).
  - apply bytesEqual_false in Hb. by rewrite bool_decide_eq_true_2.
Qed.

(** C26: the client's whole kind 2/3 check is the program's
    [verify_jupiter_suffix]: on the same instructions, guard index and
    commitment it returns the same error, and none exactly when the program
    returns none. *)
Theorem checkGuardedJupiterTransaction_agrees instructions sysvar index kind mint mk r :
  Forall2 sysvar_ix instructions sysvar → encodeAddress mint = Some mk →
  forallb fits_ix sysvar = true →
  checkGuardedJupiterTransaction instructions index kind mint (a2_downstream_commitment r) =
    Ok (error_of (verify_jupiter_suffix pk find_ata index (protectedRoleOf kind) r mk sysvar)).
Proof. apply checkGuarded_agrees. Qed.
End Agreement.

(* ------------------------------------------------------------------ *)
(** ** A concrete trade *)

(** A derivation for the examples: the digest of the seeds. *)
Definition sample_find_ata (seeds : list bytes) : bytes := fips_sha256 (concat seeds).
#[local] Instance sample_derivation : ProgramDerivation :=
  {| programDerivedAddress _ seeds := Some (b58_decode (sample_find_ata seeds)) |}.

Lemma sample_pk a :
  a ∈ [JUPITER_V6_PROGRAM_ADDRESS; JUPITER_EVENT_AUTHORITY; USDC_MINT_ADDRESS; LEGACY_TOKEN_PROGRAM_ADDRESS;
       ASSOCIATED_TOKEN_PROGRAM_ADDRESS; COMPUTE_BUDGET_PROGRAM_ADDRESS; SYSTEM_PROGRAM_ADDRESS;
       TOKEN_2022_PROGRAM_ADDRESS] → encodeAddress a = Some (key_of a).
Proof.
  intros Ha. repeat (apply elem_of_cons in Ha as [->|Ha]; [vm_compute; reflexivity|]).
  by apply not_elem_of_nil in Ha.
Qed.

Lemma sample_same_ata owner token_program mint :
  length owner = 32%nat → length token_program = 32%nat → length mint = 32%nat →
  ∃ a, programDerivedAddress ASSOCIATED_TOKEN_PROGRAM_ADDRESS [owner; token_program; mint] = Some a ∧
       encodeAddress a = Some (sample_find_ata [owner; token_program; mint]).
Proof. intros _ _ _. eexists. split; [reflexivity|]. apply b58_encode_decode, length_fips_sha256. Qed.

Definition sample_user : Address := sample_payer.
Definition sample_usdc_account : Address :=
  Eval vm_compute in b58_decode (sample_find_ata [key_of sample_user; key_of LEGACY_TOKEN_PROGRAM_ADDRESS; key_of USDC_MINT_ADDRESS]).
Definition sample_stock_mint : Address := sample_program.
Definition sample_stock_account : Address :=
  Eval vm_compute in b58_decode (sample_find_ata [key_of sample_user; key_of TOKEN_2022_PROGRAM_ADDRESS; key_of sample_stock_mint]).

Definition sample_price : CommittedInstruction :=
  mkCommittedInstruction COMPUTE_BUDGET_PROGRAM_ADDRESS [] ([x03] ++ zeros 8).
Definition sample_limit : CommittedInstruction :=
  mkCommittedInstruction COMPUTE_BUDGET_PROGRAM_ADDRESS [] ([x02] ++ zeros 4).
Definition sample_route : CommittedInstruction :=
  mkCommittedInstruction JUPITER_V6_PROGRAM_ADDRESS
    (map (λ '(a, s), mkCommitted a s false)
      [(sample_user, true); (sample_usdc_account, false); (sample_stock_account, false); (USDC_MINT_ADDRESS, false);
       (sample_stock_mint, false); (LEGACY_TOKEN_PROGRAM_ADDRESS, false); (TOKEN_2022_PROGRAM_ADDRESS, false);
       (JUPITER_V6_PROGRAM_ADDRESS, false); (JUPITER_EVENT_AUTHORITY, false); (JUPITER_V6_PROGRAM_ADDRESS, false)])
    (print_prefix (mkPrefix 1000000 5000 50 0 0 1)).
Definition sample_suffix : list CommittedInstruction := [sample_price; sample_limit; sample_route].

Lemma sample_suffix_view : Forall2 sysvar_ix sample_suffix (map sysvar_of sample_suffix).
Proof. apply sysvar_of_views. vm_compute. reflexivity. Qed.

Definition sample_summary : RouteV2Summary :=
  mkRoute sample_user sample_usdc_account sample_stock_account USDC_MINT_ADDRESS sample_stock_mint
    LEGACY_TOKEN_PROGRAM_ADDRESS TOKEN_2022_PROGRAM_ADDRESS (mkPrefix 1000000 5000 50 0 0 1).

Example sample_suffix_accepted :
  checkJupiterSuffix sample_suffix JUPITER_ROUTE_V2_BUY_USDC sample_stock_mint = Ok (mkCheck None (Some sample_summary)).
Proof. vm_compute. reflexivity. Qed.

Lemma checkJupiterSuffix_agrees_witness :
  ∃ check, checkJupiterSuffix sample_suffix JUPITER_ROUTE_V2_BUY_USDC sample_stock_mint = Ok check ∧
    verdict_of check = error_of (check_suffix key_of sample_find_ata (map sysvar_of sample_suffix)
      (protectedRoleOf JUPITER_ROUTE_V2_BUY_USDC) (key_of sample_stock_mint)) ∧
    (verdict_of check = None → is_Some (route_of check)).
Proof.
  apply (checkJupiterSuffix_agrees key_of sample_find_ata sample_pk sample_same_ata sample_suffix
    (map sysvar_of sample_suffix) JUPITER_ROUTE_V2_BUY_USDC sample_stock_mint (key_of sample_stock_mint) sample_suffix_view).
  vm_compute. reflexivity.
Defined.

Definition sample_suffix_digest : bytes :=
  Eval vm_compute in match jupiterSuffixCommitment sample_suffix with Ok c => c | Err _ => [] end.
Definition sample_guard_view : CommittedInstruction := mkCommittedInstruction sample_program [] [].
Definition sample_jupiter_request : AssertSafeExecutionV2 :=
  mkAssertV2 (key_of sample_stock_mint) (guard_request sample_expectation) JupiterRouteV2BuyUsdc sample_suffix_digest.

Lemma sample_tx_view : Forall2 sysvar_ix (sample_guard_view :: sample_suffix) (map sysvar_of (sample_guard_view :: sample_suffix)).
Proof. apply sysvar_of_views. vm_compute. reflexivity. Qed.

Lemma sample_mint_key : encodeAddress sample_stock_mint = Some (key_of sample_stock_mint).
Proof. vm_compute. reflexivity. Qed.

Lemma checkGuardedJupiterTransaction_agrees_witness :
  checkGuardedJupiterTransaction (sample_guard_view :: sample_suffix) 0 JUPITER_ROUTE_V2_BUY_USDC sample_stock_mint sample_suffix_digest = Ok None ∧
  checkGuardedJupiterTransaction (sample_guard_view :: sample_suffix) 0 JUPITER_ROUTE_V2_BUY_USDC sample_stock_mint
    (a2_downstream_commitment sample_jupiter_request) =
  Ok (error_of (verify_jupiter_suffix key_of sample_find_ata 0 (protectedRoleOf JUPITER_ROUTE_V2_BUY_USDC)
    sample_jupiter_request (key_of sample_stock_mint) (map sysvar_of (sample_guard_view :: sample_suffix)))).
Proof.
  split; [vm_compute; reflexivity|].
  apply (checkGuardedJupiterTransaction_agrees key_of sample_find_ata sample_pk sample_same_ata _ _ _ _ _ _
    sample_jupiter_request sample_tx_view sample_mint_key).
  vm_compute. reflexivity.
Defined.

Lemma checkGuarded_detects_witness :
  drop 1 (sample_guard_view :: sample_suffix) = sample_suffix ∨
  ∃ p q, jupiterSuffixCommitmentPreimage (drop 1 (sample_guard_view :: sample_suffix)) = Ok p ∧
    jupiterSuffixCommitmentPreimage sample_suffix = Ok q ∧ collision p q.
Proof.
  apply (checkGuarded_detects sample_suffix (sample_guard_view :: sample_suffix) JUPITER_ROUTE_V2_BUY_USDC
    sample_stock_mint sample_suffix_digest); vm_compute; reflexivity.
Defined.

Lemma suffixCommitment_binds_witness :
  (jupiterSuffixCommitment sample_suffix = Ok sample_suffix_digest →
   sample_suffix = sample_suffix ∨ ∃ p q, jupiterSuffixCommitmentPreimage sample_suffix = Ok p ∧
     jupiterSuffixCommitmentPreimage sample_suffix = Ok q ∧ collision p q) ∧
  (downstreamCommitment sample_price = Ok sample_suffix_digest →
   ∃ p q, jupiterSuffixCommitmentPreimage sample_suffix = Ok p ∧ downstreamCommitmentPreimage sample_price = Ok q ∧ collision p q).
Proof. apply (suffixCommitment_binds sample_suffix sample_suffix sample_price sample_suffix_digest). vm_compute. reflexivity. Defined.

(** The same trade as instructions to build from. *)
Definition role_of (a : CommittedAccount) : AccountRole := if ca_isSigner a then WRITABLE_SIGNER else READONLY.
Definition uncommitted (i : CommittedInstruction) : Instruction :=
  mkInstruction (ci_programAddress i)
    (Some (map (λ a, mkMeta (ca_address a) (if String.eqb (ca_address a) sample_user then READONLY_SIGNER else role_of a)) (ci_accounts i)))
    (Some (ci_data i)).
Definition sample_fee_payer : Address := Eval vm_compute in b58_decode (zeros 31 ++ [x07]).
Definition sample_build : result client_exn GuardedJupiterTrade :=
  buildGuardedJupiterTrade sample_mint sample_fee_payer sample_stock_mint JUPITER_ROUTE_V2_BUY_USDC sample_expectation
    (map uncommitted sample_suffix).

Definition sample_trade : GuardedJupiterTrade :=
  Eval vm_compute in ok_or (mkTrade [] sample_transfer 0 [] [] sample_summary) sample_build.

Lemma sample_build_ok :
  buildGuardedJupiterTrade sample_mint sample_fee_payer sample_stock_mint JUPITER_ROUTE_V2_BUY_USDC sample_expectation
    (map uncommitted sample_suffix) = Ok sample_trade.
Proof. vm_compute. reflexivity. Qed.

Lemma buildGuardedJupiterTrade_verifies_witness :
  t_instructions sample_trade = t_guard sample_trade :: map uncommitted sample_suffix.
Proof. exact (proj1 (buildGuardedJupiterTrade_verifies _ _ _ _ _ _ _ sample_build_ok)). Defined.

Definition sample_placeholder : Instruction :=
  Eval vm_compute in match getAssertSafeExecutionV2Instruction sample_mint sample_stock_mint sample_expectation (zeros 32)
    (Some JUPITER_ROUTE_V2_BUY_USDC) with Ok i => i | Err _ => sample_transfer end.
Definition sample_provisional : list CommittedInstruction :=
  Eval vm_compute in match sysvarView (sample_placeholder :: map uncommitted sample_suffix) sample_fee_payer with Ok v => v | Err _ => [] end.

Lemma buildGuardedJupiterTrade_recheck_witness :
  buildGuardedJupiterTrade sample_mint sample_fee_payer sample_stock_mint JUPITER_ROUTE_V2_BUY_USDC sample_expectation
    (map uncommitted sample_suffix) =
  Ok (mkTrade (t_guard sample_trade :: map uncommitted sample_suffix) (t_guard sample_trade) JUPITER_ROUTE_V2_BUY_USDC
        (drop 1 sample_provisional) (t_commitment sample_trade) (t_route sample_trade)).
Proof.
  apply (buildGuardedJupiterTrade_recheck sample_mint sample_fee_payer sample_stock_mint JUPITER_ROUTE_V2_BUY_USDC
    sample_expectation (map uncommitted sample_suffix) sample_placeholder sample_provisional (t_route sample_trade)
    (t_commitment sample_trade) (t_guard sample_trade)); vm_compute; reflexivity.
Defined.
