(* ===== verification/Sysvar.v ===== *)
(** * sysvar.rs: in-place reads of the Instructions sysvar

    The program reads the transaction it runs in from the bytes of one account.
    The layout is the one documented at the head of sysvar.rs; a slice is the
    list of its bytes, and every read that could leave it is [None]. *)

From S2P Require Import Prelude Js Errors Kit Base58 Sha256 Abi OnChain OfflineCheck MintState Downstream.

Definition ACCOUNT_META_LEN : nat := 33.
Definition IS_SIGNER : Z := 1.
Definition IS_WRITABLE : Z := 2.

(** A [usize] of the 64-bit target, or the overflow of a checked operation. *)
Definition checked_usize (n : nat) : option nat := if Z.of_nat n <? 2 ^ 64 then Some n else None.

(** [slice.get(n..)]. *)
Definition get_from (l : bytes) (n : nat) : option bytes := if Nat.leb n (length l) then Some (drop n l) else None.

(** [split_at_checked], [split_first_chunk] and, dropping the rest, [first_chunk]. *)
Definition split_chunk (n : nat) (l : bytes) : option (bytes * bytes) :=
  if Nat.leb n (length l) then Some (take n l, drop n l) else None.

(** [chunks_exact]: the whole chunks, what is left over is not read. *)
Definition chunks_exact (n : nat) (l : bytes) : list bytes :=
  map (λ i, take n (drop (n * i) l)) (seq 0 (length l / n)).

Record InstructionRef := mkInstructionRef {
  ir_program_id : bytes;
  ir_accounts : bytes;
  ir_data : bytes;
}.

(** The reading of one meta, the same lines in [account] and [accounts]. *)
Definition account_ref (meta : bytes) : option SysvarAccount :=
  match meta with
  | [] => None
  | flags :: pubkey =>
      '(pubkey, _) ← split_chunk 32 pubkey;
      Some (mkSysvarAccount pubkey (negb (Z.land (b2z flags) IS_SIGNER =? 0))
              (negb (Z.land (b2z flags) IS_WRITABLE =? 0)))
  end.

Definition account_count (ix : InstructionRef) : nat := length (ir_accounts ix) / ACCOUNT_META_LEN.

Definition account (ix : InstructionRef) (index : nat) : option SysvarAccount :=
  start ← checked_usize (index * ACCOUNT_META_LEN);
  rest ← get_from (ir_accounts ix) start;
  '(meta, _) ← split_chunk ACCOUNT_META_LEN rest;
  account_ref meta.

Definition accounts (ix : InstructionRef) : list SysvarAccount :=
  omap account_ref (chunks_exact ACCOUNT_META_LEN (ir_accounts ix)).

(** [u16::from_le_bytes] of the next two bytes, as a [usize]. *)
Definition split_u16 (l : bytes) : option (nat * bytes) :=
  '(b, rest) ← split_chunk 2 l;
  Some (Z.to_nat (le_Z b), rest).

Definition instruction_count (data : bytes) : option nat := fst <$> split_u16 data.

Definition instruction_at (data : bytes) (index : nat) : option InstructionRef :=
  count ← instruction_count data;
  if Nat.leb count index then None
  else
    doubled ← checked_usize (index * 2);
    offset_at ← checked_usize (doubled + 2);
    table ← get_from data offset_at;
    '(offset, _) ← split_u16 table;
    body ← get_from data offset;
    '(account_count, body) ← split_u16 body;
    accounts_len ← checked_usize (account_count * ACCOUNT_META_LEN);
    '(accounts, body) ← split_chunk accounts_len body;
    '(program_id, body) ← split_chunk 32 body;
    '(data_len, body) ← split_u16 body;
    '(data, _) ← split_chunk data_len body;
    Some (mkInstructionRef program_id accounts data).

(** What the checks of the program see of an instruction: [SuffixInstruction]. *)
Definition instruction_view (ix : InstructionRef) : SysvarInstruction :=
  mkSysvarInstruction (ir_program_id ix) (accounts ix) (ir_data ix).

(* ------------------------------------------------------------------ *)
(** ** The documented layout *)

Definition meta_bytes (a : SysvarAccount) : bytes :=
  z2b (Z.b2z (sa_is_signer a) + 2 * Z.b2z (sa_is_writable a)) :: sa_pubkey a.

Definition ref_of (si : SysvarInstruction) : InstructionRef :=
  mkInstructionRef (si_program_id si) (concat (map meta_bytes (si_accounts si))) (si_data si).

Definition ref_body (r : InstructionRef) : bytes :=
  le_bytes 2 (Z.of_nat (account_count r)) ++ ir_accounts r ++ ir_program_id r ++
  le_bytes 2 (Z.of_nat (length (ir_data r))) ++ ir_data r.

(** Where each body starts. *)
Fixpoint offsets (start : nat) (l : list InstructionRef) : list nat :=
  match l with
  | [] => []
  | r :: l => start :: offsets (start + length (ref_body r)) l
  end.

Definition sysvar_layout (l : list InstructionRef) : bytes :=
  le_bytes 2 (Z.of_nat (length l)) ++
  concat (map (λ o, le_bytes 2 (Z.of_nat o)) (offsets (2 + 2 * length l) l)) ++
  concat (map ref_body l).

(** An instruction whose parts have the widths of the layout. *)
Record wf_ref (r : InstructionRef) : Prop := {
  wr_program : length (ir_program_id r) = 32%nat;
  wr_accounts : length (ir_accounts r) = (33 * account_count r)%nat;
  wr_count : Z.of_nat (account_count r) < 2 ^ 16;
  wr_data : Z.of_nat (length (ir_data r)) < 2 ^ 16;
}.

(* ------------------------------------------------------------------ *)
(** ** The reads *)

Lemma split_chunk_Some n l a b : split_chunk n l = Some (a, b) ↔ l = a ++ b ∧ length a = n.
Proof.
  unfold split_chunk. destruct (Nat.leb_spec n (length l)); split.
  - intros [= <- <-]. split; [by rewrite take_drop|rewrite length_take; lia].
  - intros [-> <-]. by rewrite take_app_length, drop_app_length.
  - done.
  - intros [-> <-]. rewrite length_app in *. lia.
Qed.

Lemma split_chunk_app n l k : length l = n → split_chunk n (l ++ k) = Some (l, k).
Proof. intros ?. by apply split_chunk_Some. Qed.

Lemma get_from_Some l n k : get_from l n = Some k ↔ (n ≤ length l)%nat ∧ k = drop n l.
Proof. unfold get_from. destruct (Nat.leb_spec n (length l)); split; try done; [by intros [= <-]|by intros [_ ->]|lia]. Qed.

Lemma split_u16_Some l n k :
  split_u16 l = Some (n, k) ↔ l = le_bytes 2 (Z.of_nat n) ++ k ∧ Z.of_nat n < 2 ^ 16.
Proof.
  unfold split_u16. rewrite bind_Some. split.
  - intros ([b r] & (-> & Hb)%split_chunk_Some & [= <- <-]).
    pose proof (le_Z_range b) as Hr. rewrite Hb in Hr. rewrite Z2Nat.id by lia.
    split; [|by apply Hr]. f_equal. by apply int_field.
  - intros [-> Hn]. exists (le_bytes 2 (Z.of_nat n), k). split; [by apply split_chunk_app, length_le_bytes|].
    by rewrite le_Z_le_bytes_small, Nat2Z.id by (cbn; lia).
Qed.

Lemma checked_usize_Some n m : checked_usize n = Some m ↔ m = n ∧ Z.of_nat n < 2 ^ 64.
Proof. unfold checked_usize. destruct (Z.ltb_spec (Z.of_nat n) (2 ^ 64)); split; [by intros [= <-]|by intros [-> _]|done|lia]. Qed.

Lemma chunks_exact_concat (n : nat) ls :
  (0 < n)%nat → Forall (λ x, length x = n) ls → chunks_exact n (concat ls) = ls.
Proof.
  intros Hn Hls. assert (length (concat ls) = n * length ls)%nat as Hlen.
  { induction Hls as [|x l Hx _ IH]; [cbn; lia|]. cbn [concat length]. rewrite length_app, IH, Hx. lia. }
  unfold chunks_exact. rewrite Hlen, Nat.mul_comm, Nat.div_mul by lia. clear Hlen.
  induction Hls as [|x l Hx Hl IH]; [done|]. cbn [length seq map concat].
  f_equal; [rewrite Nat.mul_0_r, drop_0; by apply take_app_length'|].
  rewrite <- seq_shift, map_map. rewrite <- IH at 2. apply map_ext. intros i.
  rewrite Nat.mul_succ_r, (Nat.add_comm _ n), <- drop_drop. by rewrite drop_app_length'.
Qed.

Lemma drop_concat (n : nat) (ls : list bytes) i x :
  Forall (λ x, length x = n) ls → ls !! i = Some x → drop (n * i) (concat ls) = x ++ concat (drop (S i) ls).
Proof.
  intros Hls. revert i. induction Hls as [|y l Hy _ IH]; intros [|i]; try done.
  - intros [= ->]. by rewrite Nat.mul_0_r.
  - cbn [lookup list_lookup concat]. intros Hx. rewrite Nat.mul_succ_r, (Nat.add_comm _ n), <- drop_drop.
    rewrite drop_app_length' by done. by apply IH.
Qed.

(** The offset table of a sysvar account puts a body at [index]. *)
Definition body_at (data : bytes) (index : nat) (r : InstructionRef) : Prop :=
  ∃ count offset table rest,
    data = le_bytes 2 (Z.of_nat count) ++ table ∧ Z.of_nat count < 2 ^ 16 ∧ (index < count)%nat ∧
    split_u16 (drop (2 * index) table) = Some (offset, rest) ∧
    ∃ tail, drop offset data = ref_body r ++ tail.

Lemma instruction_count_Some data n :
  instruction_count data = Some n ↔ ∃ table, data = le_bytes 2 (Z.of_nat n) ++ table ∧ Z.of_nat n < 2 ^ 16.
Proof.
  unfold instruction_count. rewrite fmap_Some. split.
  - intros ([m table] & [-> Hm]%split_u16_Some & ->). by exists table.
  - intros (table & -> & Hn). exists (n, table). split; [by apply split_u16_Some|done].
Qed.


Lemma drop_app_nonempty {A} (l k m : list A) n : drop n l = k ++ m → (0 < length k)%nat → (n ≤ length l)%nat.
Proof.
  intros H Hk. apply (f_equal length) in H. rewrite length_drop, length_app in H. lia.
Qed.

(** [instruction_at] reads an instruction exactly where the layout puts one,
    and the slices it returns are those of the account. *)
Theorem instruction_at_spec data index r :
  Z.of_nat index < 2 ^ 62 →
  instruction_at data index = Some r ↔ wf_ref r ∧ body_at data index r.
Proof.
  intros Hi. unfold instruction_at. rewrite bind_Some. split.
  - intros (count & Hc & Hrun). apply instruction_count_Some in Hc as (table & -> & Hcount).
    destruct (Nat.leb_spec count index) as [|Hlt]; [done|].
    repeat (apply bind_Some in Hrun as (? & [-> _]%checked_usize_Some & Hrun)).
    apply bind_Some in Hrun as (entry & [_ ->]%get_from_Some & Hrun).
    apply bind_Some in Hrun as ([offset rest] & Hoff & Hrun).
    apply bind_Some in Hrun as (body & [Hol ->]%get_from_Some & Hrun).
    apply bind_Some in Hrun as ([n body] & [Hbody Hn]%split_u16_Some & Hrun).
    apply bind_Some in Hrun as (? & [-> _]%checked_usize_Some & Hrun).
    apply bind_Some in Hrun as ([accs body'] & [-> Ha]%split_chunk_Some & Hrun).
    apply bind_Some in Hrun as ([prog body''] & [-> Hp]%split_chunk_Some & Hrun).
    apply bind_Some in Hrun as ([len tail] & [-> Hlen]%split_u16_Some & Hrun).
    apply bind_Some in Hrun as ([d rest'] & [-> Hd]%split_chunk_Some & [= <-]).
    unfold ACCOUNT_META_LEN in *.
    assert (account_count (mkInstructionRef prog accs d) = n) as Hcnt.
    { unfold account_count, ACCOUNT_META_LEN. cbn [ir_accounts]. rewrite Ha. by apply Nat.div_mul. }
    split.
    + constructor; rewrite ?Hcnt; cbn [ir_program_id ir_accounts ir_data]; [done|lia|done|by rewrite Hd].
    + exists count, offset, table, rest. repeat (split; [done|]). split.
      * rewrite drop_app_ge, length_le_bytes in Hoff by (rewrite length_le_bytes; lia).
        rewrite <- Hoff. do 2 f_equal. lia.
      * exists rest'. rewrite Hbody. unfold ref_body. rewrite Hcnt. cbn [ir_program_id ir_accounts ir_data].
        by rewrite Hd, <- !app_assoc.
  - intros ([Hp Ha Hc Hd] & count & offset & table & rest & Heq & Hcount & Hlt & Hoff & tail & Hbody).
    exists count. split; [apply instruction_count_Some; eauto|].
    destruct (Nat.leb_spec count index) as [|_]; [lia|].
    apply bind_Some. exists (index * 2)%nat. split; [apply checked_usize_Some; split; [done|lia]|].
    apply bind_Some. exists (index * 2 + 2)%nat. split; [apply checked_usize_Some; split; [done|lia]|].
    assert (drop (index * 2 + 2) data = drop (2 * index) table) as Htab.
    { rewrite Heq, drop_app_ge, length_le_bytes by (rewrite length_le_bytes; lia). f_equal. lia. }
    apply bind_Some. exists (drop (index * 2 + 2) data). split.
    { apply get_from_Some. split; [|done]. pose proof (proj1 (split_u16_Some _ _ _) Hoff) as [Ht _].
      rewrite <- Htab in Ht. eapply drop_app_nonempty; [exact Ht|rewrite length_le_bytes; lia]. }
    apply bind_Some. exists (offset, rest). split; [by rewrite Htab|].
    apply bind_Some. exists (ref_body r ++ tail). split.
    { apply get_from_Some. split; [|done]. eapply drop_app_nonempty; [exact Hbody|].
      unfold ref_body. rewrite length_app, length_le_bytes. lia. }
    apply bind_Some. eexists (_, _). split; [apply split_u16_Some; unfold ref_body; rewrite <- !app_assoc; by split|].
    apply bind_Some. eexists. split; [apply checked_usize_Some; split; [done|unfold ACCOUNT_META_LEN; lia]|].
    apply bind_Some. eexists (_, _). split; [apply split_chunk_app; unfold ACCOUNT_META_LEN; lia|].
    apply bind_Some. eexists (_, _). split; [apply split_chunk_app; exact Hp|].
    apply bind_Some. eexists (_, _). split; [by apply split_u16_Some|].
    apply bind_Some. eexists (_, _). split; [apply split_chunk_app; done|]. by destruct r.
Qed.

(* ------------------------------------------------------------------ *)
(** ** Accounts: one by one and all of them *)

Lemma account_ref_Some meta : length meta = 33%nat → is_Some (account_ref meta).
Proof.
  destruct meta as [|f pk]; [done|]. intros [= Hpk]. unfold account_ref, split_chunk. rewrite Hpk. cbn. eauto.
Qed.

Lemma account_ref_meta a : length (sa_pubkey a) = 32%nat → account_ref (meta_bytes a) = Some a.
Proof.
  intros Hpk. unfold account_ref, meta_bytes. rewrite <- (app_nil_r (sa_pubkey a)), split_chunk_app by done.
  cbn [mbind option_bind]. destruct a as [pk [] []]; reflexivity.
Qed.

Lemma length_meta a : length (sa_pubkey a) = 32%nat → length (meta_bytes a) = 33%nat.
Proof. intros H. cbn [meta_bytes length]. by rewrite H. Qed.

Lemma omap_total {A B} (f : A → option B) l i :
  Forall (λ x, is_Some (f x)) l → omap f l !! i = l !! i ≫= f.
Proof.
  intros Hl. revert i. induction Hl as [|x l [y Hy] _ IH]; intros i; [done|].
  cbn [omap list_omap]. rewrite Hy. destruct i as [|i]; [exact (eq_sym Hy)|apply IH].
Qed.

Lemma omap_total_length {A B} (f : A → option B) l :
  Forall (λ x, is_Some (f x)) l → length (omap f l) = length l.
Proof. intros Hl. induction Hl as [|x l [y Hy] _ IH]; [done|]. cbn [omap list_omap]. rewrite Hy. cbn [length]. by f_equal. Qed.

Lemma chunk_lookup n l i m : length l = (n * m)%nat → (0 < n)%nat →
  chunks_exact n l !! i = if Nat.ltb i m then Some (take n (drop (n * i) l)) else None.
Proof.
  intros Hl Hn. unfold chunks_exact. rewrite Hl, Nat.mul_comm, Nat.div_mul, list_lookup_fmap by lia.
  destruct (Nat.ltb_spec i m).
  - by rewrite lookup_seq_lt by done.
  - by rewrite lookup_seq_ge by done.
Qed.

Lemma chunks_read r : wf_ref r →
  Forall (λ x, is_Some (account_ref x)) (chunks_exact ACCOUNT_META_LEN (ir_accounts r)).
Proof.
  intros [_ Ha _ _]. apply Forall_lookup. intros i x. unfold ACCOUNT_META_LEN.
  rewrite (chunk_lookup 33 _ i (account_count r)) by lia.
  destruct (Nat.ltb_spec i (account_count r)); [intros [= <-]|done].
  apply account_ref_Some. rewrite length_take, length_drop. lia.
Qed.

(** The two ways the program reads the accounts of an instruction agree: by
    index and in order. *)
Lemma account_accounts r index : wf_ref r → account r index = accounts r !! index.
Proof.
  intros Hwf. pose proof (chunks_read r Hwf) as Hall. destruct Hwf as [_ Ha Hc _]. unfold accounts.
  unfold ACCOUNT_META_LEN in *.
  rewrite omap_total, (chunk_lookup 33 _ index (account_count r)) by (done || lia). clear Hall.
  unfold account. unfold ACCOUNT_META_LEN, checked_usize, get_from, split_chunk. rewrite Ha.
  replace (index * 33)%nat with (33 * index)%nat by lia.
  destruct (Nat.ltb_spec index (account_count r)) as [Hlt|Hge].
  - destruct (Z.ltb_spec (Z.of_nat (33 * index)) (2 ^ 64)); [|lia]. cbn [mbind option_bind].
    destruct (Nat.leb_spec (33 * index) (33 * account_count r)); [|lia]. cbn [mbind option_bind].
    rewrite length_drop, Ha. by destruct (Nat.leb_spec 33 (33 * account_count r - 33 * index)); [|lia].
  - destruct (_ <? _); [|done]. cbn [mbind option_bind].
    destruct (Nat.leb_spec (33 * index) (33 * account_count r)); [|done]. cbn [mbind option_bind].
    rewrite length_drop, Ha. by destruct (Nat.leb_spec 33 (33 * account_count r - 33 * index)); [lia|].
Qed.

(** So [jupiter_suffix_commitment] always writes as many accounts as it counts. *)
Lemma accounts_length r : wf_ref r → length (accounts r) = account_count r.
Proof.
  intros Hwf. unfold accounts. rewrite omap_total_length by by apply chunks_read.
  unfold chunks_exact. by rewrite length_map, length_seq.
Qed.

(* ------------------------------------------------------------------ *)
(** ** What is written is read back *)

(** An instruction that fits the layout. *)
Definition fits_layout (si : SysvarInstruction) : Prop :=
  wf_sysvar_ix si ∧ Z.of_nat (length (si_accounts si)) < 2 ^ 16 ∧ Z.of_nat (length (si_data si)) < 2 ^ 16.

Lemma metas_33 l : Forall (λ a, length (sa_pubkey a) = 32%nat) l → Forall (λ x, length x = 33%nat) (map meta_bytes l).
Proof. intros Hl. induction Hl; constructor; [by apply length_meta|done]. Qed.

Lemma concat_length (n : nat) (ls : list bytes) : Forall (λ x, length x = n) ls → length (concat ls) = (n * length ls)%nat.
Proof. intros Hl. induction Hl as [|x l Hx _ IH]; [cbn; lia|]. cbn [concat length]. rewrite length_app, IH, Hx. lia. Qed.

Lemma ref_of_count si : fits_layout si → account_count (ref_of si) = length (si_accounts si).
Proof.
  intros ([_ Hk] & _). unfold account_count, ref_of, ACCOUNT_META_LEN. cbn [ir_accounts].
  rewrite (concat_length 33), length_map, Nat.mul_comm by by apply metas_33. by apply Nat.div_mul.
Qed.

Lemma ref_of_wf si : fits_layout si → wf_ref (ref_of si).
Proof.
  intros Hfit. pose proof (ref_of_count si Hfit) as Hc. destruct Hfit as ([Hp Hk] & Ha & Hd).
  constructor; rewrite ?Hc; cbn [ref_of ir_program_id ir_accounts ir_data]; try done.
  by rewrite (concat_length 33), length_map by by apply metas_33.
Qed.

Lemma view_ref_of si : fits_layout si → instruction_view (ref_of si) = si.
Proof.
  intros ([_ Hk] & _). unfold instruction_view, accounts, ref_of. cbn [ir_program_id ir_accounts ir_data].
  rewrite chunks_exact_concat by (unfold ACCOUNT_META_LEN; lia || by apply metas_33).
  replace (omap account_ref (map meta_bytes (si_accounts si))) with (si_accounts si); [by destruct si|].
  induction Hk as [|a l Ha _ IH]; [done|]. cbn [map omap list_omap]. rewrite account_ref_meta by done. by f_equal.
Qed.

Lemma length_offsets start l : length (offsets start l) = length l.
Proof. revert start. induction l as [|r l IH]; intros start; [done|]. cbn [offsets length]. by rewrite IH. Qed.

Lemma offsets_body start l i r : l !! i = Some r →
  ∃ o tail, offsets start l !! i = Some o ∧ (start ≤ o < start + length (concat (map ref_body l)))%nat ∧
    drop (o - start) (concat (map ref_body l)) = ref_body r ++ tail.
Proof.
  assert (∀ x, (0 < length (ref_body x))%nat) as Hpos.
  { intros x. unfold ref_body. rewrite length_app, length_le_bytes. lia. }
  revert start i. induction l as [|x l IH]; intros start [|i]; try done; cbn [lookup list_lookup offsets map concat].
  - intros [= ->]. exists start, (concat (map ref_body l)). split; [done|].
    rewrite length_app, Nat.sub_diag. pose proof (Hpos r). split; [lia|done].
  - intros Hx. destruct (IH (start + length (ref_body x))%nat i Hx) as (o & tail & Ho & Hb & Hdrop).
    exists o, tail. split; [done|]. rewrite length_app. split; [lia|].
    replace (o - start)%nat with (length (ref_body x) + (o - (start + length (ref_body x))))%nat by lia.
    by rewrite <- drop_drop, drop_app_length.
Qed.

(** A transaction laid out as documented is read back instruction by
    instruction, and nothing is read past its count. *)
Theorem instruction_at_layout l tail index :
  Forall fits_layout l → Z.of_nat (length (sysvar_layout (map ref_of l))) < 2 ^ 16 →
  instruction_view <$> instruction_at (sysvar_layout (map ref_of l) ++ tail) index = l !! index.
Proof.
  intros Hfit Hsize. set (refs := map ref_of l) in *.
  assert (length refs = length l) as Hlen by apply length_map.
  assert (length (concat (map (λ o, le_bytes 2 (Z.of_nat o)) (offsets (2 + 2 * length refs) refs))) = 2 * length refs)%nat as Htab.
  { rewrite (concat_length 2), length_map, length_offsets; [done|]. apply Forall_map, Forall_true. intros; apply length_le_bytes. }
  pose proof Hsize as Htotal. unfold sysvar_layout in Htotal. rewrite !length_app, length_le_bytes, Htab in Htotal.
  destruct (l !! index) as [si|] eqn:Hsi.
  - assert (fits_layout si) as Hs by by eapply Forall_lookup_1 in Hsi.
    assert (refs !! index = Some (ref_of si)) as Hr by (unfold refs; by rewrite list_lookup_fmap, Hsi).
    pose proof (lookup_lt_Some _ _ _ Hr) as Hlt.
    destruct (offsets_body (2 + 2 * length refs) refs index (ref_of si) Hr) as (o & rest & Ho & Hb & Hdrop).
    apply fmap_Some. exists (ref_of si). split; [|symmetry; by apply view_ref_of].
    apply instruction_at_spec; [lia|]. split; [by apply ref_of_wf|].
    exists (length refs), o, (concat (map (λ o, le_bytes 2 (Z.of_nat o)) (offsets (2 + 2 * length refs) refs)) ++ concat (map ref_body refs) ++ tail).
    eexists. unfold sysvar_layout. rewrite <- !app_assoc. split; [done|]. split; [lia|]. split; [done|]. split.
    + rewrite drop_app_le by lia. erewrite drop_concat.
      * apply split_u16_Some. split; [by rewrite <- app_assoc|]. lia.
      * apply Forall_map, Forall_true. intros; apply length_le_bytes.
      * by rewrite list_lookup_fmap, Ho.
    + exists (rest ++ tail). rewrite drop_app_ge by (rewrite length_le_bytes; lia). rewrite length_le_bytes.
      rewrite drop_app_ge by lia. rewrite Htab.
      replace (o - 2 - 2 * length refs)%nat with (o - (2 + 2 * length refs))%nat by lia.
      rewrite drop_app_le by lia. by rewrite Hdrop, <- app_assoc.
  - destruct (instruction_at _ index) as [r|] eqn:Hr; [exfalso|done].
    unfold instruction_at in Hr. apply bind_Some in Hr as (count & Hc & Hrun).
    unfold sysvar_layout in Hc. rewrite <- app_assoc in Hc.
    rewrite (proj2 (instruction_count_Some _ (length refs))) in Hc by (eexists; split; [done|lia]).
    injection Hc as <-. apply lookup_ge_None in Hsi.
    destruct (Nat.leb_spec (length refs) index); [done|lia].
Qed.

(** A count taken from the layout is the number of instructions. *)
Lemma instruction_count_layout l tail :
  Z.of_nat (length l) < 2 ^ 16 → instruction_count (sysvar_layout l ++ tail) = Some (length l).
Proof. intros Hl. apply instruction_count_Some. eexists. unfold sysvar_layout. rewrite <- app_assoc. done. Qed.
