(* ===== verification/Processor.v ===== *)
(** * processor.rs: the whole instruction of the program

    The handler from its accounts to its verdict: the payload, the accounts,
    the mint's protected state ([decode_protected_state] of state.rs), the
    instruction it runs as and the ones it protects ([verify_downstream] of
    downstream.rs, [verify_jupiter_suffix] of jupiter.rs) and the economic
    state at the clock. The token library, the crate of the Instructions
    sysvar and program-address derivation are parameters with the documented
    laws the program relies on; log messages are left out. *)

From S2P Require Import Prelude Js Errors Kit Base58 Sha256 Abi OnChain OfflineCheck MintState Downstream Jupiter JupiterOnChain Sysvar.

(** [AccountInfo]: what the program reads of it. [None] is data that cannot be
    borrowed. *)
Record AccountInfo := mkAccountInfo {
  ai_key : bytes;
  ai_owner : bytes;
  ai_data : option bytes;
}.

(** [error as u32]. *)
Definition error_as_u32 (e : EquityGuardErrorName) : Z :=
  match e with
  | E_UnsupportedInstruction => 0
  | E_InvalidInstructionLength => 1
  | E_InvalidExpectedState => 2
  | E_InvalidAccountCount => 3
  | E_InvalidMintOwner => 4
  | E_InvalidMintData => 5
  | E_MissingScaledUiAmount => 6
  | E_InvalidExtensionCombination => 7
  | E_InvalidMultiplier => 8
  | E_MultiplierChanged => 9
  | E_NewMultiplierChanged => 10
  | E_EffectiveTimestampChanged => 11
  | E_ActivationPhaseChanged => 12
  | E_InsideTransitionWindow => 13
  | E_ArithmeticOverflow => 14
  | E_ClockUnavailable => 15
  | E_UnsupportedVersion => 16
  | E_MintKeyMismatch => 17
  | E_InvalidInstructionsSysvar => 18
  | E_MissingDownstreamInstruction => 19
  | E_UnsupportedDownstreamProgram => 20
  | E_UnsupportedDownstreamInstruction => 21
  | E_DownstreamMintMismatch => 22
  | E_DownstreamCommitmentMismatch => 23
  | E_UnsupportedAdapter => 24
  | E_GuardNotTopLevel => 25
  | E_GuardNotFirst => 26
  | E_UnsupportedTransactionGrammar => 27
  | E_InvalidComputeBudgetInstruction => 28
  | E_InvalidAtaSetup => 29
  | E_InvalidJupiterProgram => 30
  | E_InvalidJupiterInstruction => 31
  | E_InvalidJupiterDirection => 32
  | E_InvalidCounterMint => 33
  | E_InvalidTokenProgram => 34
  | E_DestinationOverrideUnsupported => 35
  | E_UnsupportedJupiterFee => 36
  | E_NonCanonicalSourceAccount => 37
  | E_NonCanonicalDestinationAccount => 38
  end.

(* ------------------------------------------------------------------ *)
(** ** The libraries the program calls *)

(** spl_token_2022_interface. *)
Class TokenLibrary := {
  token_2022_program : bytes;
  MintView : Type;
  unpack_mint : bytes → option MintView;
  get_extension_types : MintView → option (list Z);
  valid_mint_extensions : list Z → bool;
  get_scaled_ui_amount : MintView → option (bytes * bytes * Z);
  unpacks_transfer_checked : bytes → bool;
}.

(** What [load_instruction_at_checked] returns. *)
Inductive LoadedInstruction :=
| Loaded (ix : SysvarInstruction)
| InvalidArgument
| OtherProgramError.

(** solana_instructions_sysvar. *)
Class InstructionsSysvar := {
  instructions_sysvar_id : bytes;
  load_current_index_checked : AccountInfo → option Z;
  load_instruction_at_checked : nat → AccountInfo → LoadedInstruction;
}.

(** [Address::from_str_const] and [find_program_address] under the ATA program. *)
Class AddressLibrary := {
  address_const : Address → bytes;
  find_ata : list bytes → bytes;
}.

(* ------------------------------------------------------------------ *)
(** ** state.rs: decode_protected_state *)

(** [1_u64.checked_shl(n)]. *)
Definition checked_shl_1 (n : Z) : option Z := if n <? 64 then Some (Z.shiftl 1 n) else None.

(** The loop over the extension types. *)
Fixpoint reject_duplicates (seen : Z) (types : list Z) : result EquityGuardErrorName unit :=
  match types with
  | [] => Ok tt
  | extension_type :: types =>
      bit ← of_option E_InvalidMintData (checked_shl_1 extension_type);
      throw_if (negb (Z.land seen bit =? 0)) E_InvalidMintData;;
      reject_duplicates (Z.lor seen bit) types
  end.

Section Program.
  Context `{!TokenLibrary, !InstructionsSysvar, !AddressLibrary, !Digest}.

Definition decode_protected_state (owner data : bytes) : result EquityGuardErrorName GuardState :=
  throw_if (bool_decide (owner ≠ token_2022_program)) E_InvalidMintOwner;;
  mint ← of_option E_InvalidMintData (unpack_mint data);
  extension_types ← of_option E_InvalidMintData (get_extension_types mint);
  reject_duplicates 0 extension_types;;
  throw_if (negb (bool_decide (ScaledUiAmount ∈ extension_types))) E_MissingScaledUiAmount;;
  throw_if (negb (valid_mint_extensions extension_types)) E_InvalidExtensionCombination;;
  config ← of_option E_InvalidMintData (get_scaled_ui_amount mint);
  let '(multiplier, new_multiplier, timestamp) := config in
  multiplier ← of_option E_InvalidMultiplier (StoredMultiplier_new multiplier);
  new_multiplier ← of_option E_InvalidMultiplier (StoredMultiplier_new new_multiplier);
  Ok (mkGuardState multiplier new_multiplier timestamp).

(* ------------------------------------------------------------------ *)
(** ** downstream.rs and jupiter.rs, on the sysvar account *)

Definition check_id (key : bytes) : bool := bool_decide (key = instructions_sysvar_id).

Definition verify_transfer_checked_at (current : Z) (request : AssertSafeExecutionV2) (mint_key : bytes)
    (instructions_sysvar : AccountInfo) : result EquityGuardErrorName unit :=
  next ← match load_instruction_at_checked (Z.to_nat current + 1) instructions_sysvar with
         | Loaded next => Ok next
         | InvalidArgument => Err E_MissingDownstreamInstruction
         | OtherProgramError => Err E_InvalidInstructionsSysvar
         end;
  check_transfer_checked unpacks_transfer_checked token_2022_program request mint_key next.

Definition verify_jupiter_suffix_at (current : Z) (role : ProtectedMintRole) (request : AssertSafeExecutionV2)
    (mint_key : bytes) (instructions_sysvar : AccountInfo) : result EquityGuardErrorName unit :=
  throw_if (negb (current =? 0)) E_GuardNotFirst;;
  data ← of_option E_InvalidInstructionsSysvar (ai_data instructions_sysvar);
  count ← of_option E_InvalidInstructionsSysvar (instruction_count data);
  let suffix_len := (count - 1)%nat in
  throw_if (negb (Nat.eqb suffix_len 3) && negb (Nat.eqb suffix_len 4)) E_UnsupportedTransactionGrammar;;
  refs ← of_option E_InvalidInstructionsSysvar (mapM (instruction_at data) (seq 1 (count - 1)));
  let suffix := map instruction_view refs in
  check_suffix address_const find_ata suffix role mint_key;;
  actual ← jupiter_suffix_commitment suffix;
  throw_if (bool_decide (actual ≠ a2_downstream_commitment request)) E_DownstreamCommitmentMismatch.

Definition verify_downstream (program_id guard_data : bytes) (request : AssertSafeExecutionV2) (mint_key : bytes)
    (instructions_sysvar : AccountInfo) : result EquityGuardErrorName unit :=
  throw_if (negb (check_id (ai_key instructions_sysvar))) E_InvalidInstructionsSysvar;;
  current ← of_option E_InvalidInstructionsSysvar (load_current_index_checked instructions_sysvar);
  current_instruction ← match load_instruction_at_checked (Z.to_nat current) instructions_sysvar with
                        | Loaded ix => Ok ix
                        | _ => Err E_GuardNotTopLevel
                        end;
  throw_if (bool_decide (si_program_id current_instruction ≠ program_id)
            || bool_decide (si_data current_instruction ≠ guard_data)) E_GuardNotTopLevel;;
  match a2_adapter request with
  | Token2022TransferChecked => verify_transfer_checked_at current request mint_key instructions_sysvar
  | JupiterRouteV2BuyUsdc => verify_jupiter_suffix_at current DESTINATION request mint_key instructions_sysvar
  | JupiterRouteV2SellUsdc => verify_jupiter_suffix_at current SOURCE request mint_key instructions_sysvar
  end.

(* ------------------------------------------------------------------ *)
(** ** processor.rs *)

(** [clock] is the timestamp [Clock::get] returns, if it returns one. *)
Definition assert_safe_execution (program_id : bytes) (accounts : list AccountInfo) (instruction_data : bytes)
    (clock : option Z) : result EquityGuardErrorName unit :=
  request ← unpack instruction_data;
  pair ← match accounts with
         | [mint; instructions_sysvar] => Ok (mint, instructions_sysvar)
         | _ => Err E_InvalidAccountCount
         end;
  let '(mint, instructions_sysvar) := pair in
  throw_if (bool_decide (ai_key mint ≠ a2_expected_mint request)) E_MintKeyMismatch;;
  throw_if (negb (check_id (ai_key instructions_sysvar))) E_InvalidInstructionsSysvar;;
  data ← of_option E_InvalidMintData (ai_data mint);
  actual ← decode_protected_state (ai_owner mint) data;
  verify_downstream program_id instruction_data request (ai_key mint) instructions_sysvar;;
  now ← of_option E_ClockUnavailable clock;
  check (a2_execution request) actual now.

(** The entry point: an error becomes its custom code. *)
Definition process_instruction (program_id : bytes) (accounts : list AccountInfo) (instruction_data : bytes)
    (clock : option Z) : result Z unit :=
  map_err error_as_u32 (assert_safe_execution program_id accounts instruction_data clock).
End Program.

(* ------------------------------------------------------------------ *)
(** ** The laws of the libraries *)

Section Laws.
  Context `{!AddressCodec, !TokenLibrary, !InstructionsSysvar}.

(** The sysvar account of a transaction: its instructions as documented, and
    behind them the index of the one that runs. *)
Record sysvar_holds (info : AccountInfo) (l : list SysvarInstruction) (current : Z) : Prop := {
  sh_key : ai_key info = instructions_sysvar_id;
  sh_data : ai_data info = Some (sysvar_layout (map ref_of l) ++ le_bytes 2 current);
  sh_fits : Forall fits_layout l;
  sh_size : Z.of_nat (length (sysvar_layout (map ref_of l))) < 2 ^ 16;
  sh_current : 0 ≤ current < 2 ^ 16;
}.

Class SysvarLaws := {
  load_current_holds info l current :
    sysvar_holds info l current → load_current_index_checked info = Some current;
  load_instruction_holds info l current index :
    sysvar_holds info l current →
    load_instruction_at_checked index info = match l !! index with Some ix => Loaded ix | None => InvalidArgument end;
}.

(** The token library reads a mint account with distinct extensions as what it
    is, rejects the combinations Token-2022 forbids, and reads ten bytes with
    tag 12 as [TransferChecked]. *)
Class TokenLaws := {
  token_2022_address : encodeAddress TOKEN_2022_PROGRAM_ADDRESS = Some token_2022_program;
  unpack_layout data items :
    base_mint data → mint_layout data items →
    ∃ mint, unpack_mint data = Some mint ∧ get_extension_types mint = Some (map fst items) ∧
      ∀ value, (ScaledUiAmount, value) ∈ items → length value = 56%nat →
        get_scaled_ui_amount mint =
          Some (subarray value 32 40, subarray value 48 56, to_signed 8 (le_Z (subarray value 40 48)));
  valid_extensions types :
    valid_mint_extensions types = negb (invalid_combination (λ type, bool_decide (type ∈ types)));
  unpacks_tag_12 data : length data = 10%nat → byte_at data 0 = Some 12 → unpacks_transfer_checked data = true;
}.

(** The program's address constants are the client's, and both derive the same
    associated token accounts. *)
Class AddressLaws `{!ProgramDerivation, !AddressLibrary} := {
  address_constants a :
    a ∈ [JUPITER_V6_PROGRAM_ADDRESS; JUPITER_EVENT_AUTHORITY; USDC_MINT_ADDRESS; LEGACY_TOKEN_PROGRAM_ADDRESS;
         ASSOCIATED_TOKEN_PROGRAM_ADDRESS; COMPUTE_BUDGET_PROGRAM_ADDRESS; SYSTEM_PROGRAM_ADDRESS;
         TOKEN_2022_PROGRAM_ADDRESS] → encodeAddress a = Some (address_const a);
  same_derivation owner token_program mint :
    length owner = 32%nat → length token_program = 32%nat → length mint = 32%nat →
    ∃ a, programDerivedAddress ASSOCIATED_TOKEN_PROGRAM_ADDRESS [owner; token_program; mint] = Some a ∧
         encodeAddress a = Some (find_ata [owner; token_program; mint]);
}.
End Laws.

(* ------------------------------------------------------------------ *)
(** ** The mint: what the client decodes, the program decodes *)

Lemma checked_shl_1_Some n : 0 ≤ n < 64 → checked_shl_1 n = Some (2 ^ n).
Proof.
  intros Hn. unfold checked_shl_1. destruct (Z.ltb_spec n 64); [|lia]. f_equal. rewrite Z.shiftl_mul_pow2 by lia. lia.
Qed.

Lemma bit_clear seen n : 0 ≤ n → (Z.land seen (2 ^ n) =? 0) = negb (Z.testbit seen n).
Proof.
  intros Hn. destruct (Z.testbit seen n) eqn:Hb; cbn [negb].
  - apply Z.eqb_neq. intros H. apply (f_equal (λ z, Z.testbit z n)) in H.
    rewrite Z.land_spec, Hb, Z.pow2_bits_true, Z.testbit_0_l in H by done. done.
  - apply Z.eqb_eq, Z.bits_inj'. intros i Hi. rewrite Z.land_spec, Z.testbit_0_l.
    destruct (decide (i = n)) as [->|Hne]; [by rewrite Hb|]. rewrite Z.pow2_bits_false by done. apply andb_false_r.
Qed.

Lemma reject_duplicates_Ok seen types :
  Forall (λ t, 0 ≤ t < 64) types →
  reject_duplicates seen types = Ok tt ↔ NoDup types ∧ Forall (λ t, Z.testbit seen t = false) types.
Proof.
  intros Ht. revert seen. induction Ht as [|t types Ht _ IH]; intros seen; cbn [reject_duplicates].
  { split; [repeat constructor|done]. }
  rewrite checked_shl_1_Some by lia. cbn [of_option mbind result_bind].
  rewrite bit_clear, throw_if_then_Ok, IH, negb_involutive, NoDup_cons, Forall_cons by lia.
  assert (∀ x, Z.testbit (Z.lor seen (2 ^ t)) x = false ↔ Z.testbit seen x = false ∧ x ≠ t) as Hbit.
  { intros x. rewrite Z.lor_spec, orb_false_iff, Z.pow2_bits_eqb by lia.
    rewrite Z.eqb_neq. intuition congruence. }
  assert (Forall (λ x, Z.testbit (Z.lor seen (2 ^ t)) x = false) types ↔
    Forall (λ x, Z.testbit seen x = false) types ∧ t ∉ types) as ->; [|tauto].
  rewrite !Forall_forall. setoid_rewrite Hbit. split.
  - intros H. split; [intros x Hx; by apply H|]. intros Hin. by destruct (H t Hin).
  - intros [H Hnot] x Hx. split; [by apply H|]. by intros ->.
Qed.

Section Agreement.
  Context `{!AddressCodec, !TokenLibrary, !TokenLaws}.

(** The state the client decoded from an account is the state the program
    decodes from it. *)
Theorem decode_protected_state_agrees data s :
  decodeProtectedState TOKEN_2022_PROGRAM_ADDRESS data = Ok s →
  decode_protected_state token_2022_program data = Ok (guard_state s).
Proof.
  intros (_ & Hbase & items & authority & Hlay & Hin & Ha & Hm & Hn & Ht & Hcomb)%decodeProtectedState_sound.
  destruct (unpack_layout data items Hbase Hlay) as (mint & Hunpack & Htypes & Hget).
  destruct (scaled_config_fields authority s) as (H56 & Hm' & Hn' & Ht');
    [by auto using isValidStoredMultiplier_length..|].
  unfold decode_protected_state. rewrite bool_decide_eq_false_2 by (intros []; done).
  cbn [throw_if mbind result_bind]. rewrite Hunpack. cbn [of_option mbind result_bind].
  rewrite Htypes. cbn [of_option mbind result_bind].
  destruct Hlay as (base & rest & _ & _ & Hwf & Hnd & _).
  assert (Forall (λ t, 0 ≤ t < 64) (map fst items)) as Hrange.
  { apply Forall_map. eapply Forall_impl; [exact Hwf|]. intros [t v] [Hr _]. unfold MaxKnown in Hr. cbn in *. lia. }
  rewrite (proj2 (reject_duplicates_Ok 0 _ Hrange)).
  2: { split; [done|]. apply Forall_forall. intros; apply Z.testbit_0_l. }
  cbn [mbind result_bind]. rewrite bool_decide_eq_true_2 by (apply list_elem_of_fmap; by exists (ScaledUiAmount, scaled_config authority s)).
  rewrite valid_extensions, Hcomb. cbn [negb throw_if mbind result_bind].
  rewrite (Hget _ Hin H56). cbn [of_option mbind result_bind]. rewrite Hm', Hn', Ht'.
  rewrite (proj2 (StoredMultiplier_new_Some _ _ (isValidStoredMultiplier_length _ Hm)) (conj eq_refl Hm)).
  by rewrite (proj2 (StoredMultiplier_new_Some _ _ (isValidStoredMultiplier_length _ Hn)) (conj eq_refl Hn)).
Qed.
End Agreement.

(* ------------------------------------------------------------------ *)
(** ** The account of the sysvar and the list it holds *)

Lemma mapM_view {A B} (f : nat → option A) (view : A → B) (l : list B) n m :
  (∀ i, view <$> f i = l !! i) → (n + m ≤ length l)%nat →
  ∃ refs, mapM f (seq n m) = Some refs ∧ map view refs = take m (drop n l).
Proof.
  intros Hf. revert n. induction m as [|m IH]; intros n Hl; [by exists []|].
  destruct (lookup_lt_is_Some_2 l n) as [x Hx]; [lia|].
  pose proof (Hf n) as Hn. rewrite Hx in Hn. apply fmap_Some in Hn as (r & Hr & ->).
  destruct (IH (S n)) as (refs & Hrefs & Hview); [lia|].
  exists (r :: refs). cbn [seq mapM]. rewrite Hr. cbn [mbind option_bind]. rewrite Hrefs. split; [done|].
  cbn [map]. rewrite Hview. by rewrite (drop_S _ _ _ Hx).
Qed.

Section OnSysvar.
  Context `{!AddressCodec, !TokenLibrary, !InstructionsSysvar, !AddressLibrary, !Digest, !SysvarLaws}.
  Implicit Types (info : AccountInfo) (l : list SysvarInstruction) (r : AssertSafeExecutionV2).

Lemma holds_length info l current : sysvar_holds info l current → Z.of_nat (length l) < 2 ^ 16.
Proof.
  intros [_ _ _ Hsize _]. unfold sysvar_layout in Hsize.
  rewrite !length_app, (concat_length 2), !length_map, length_offsets, length_map in Hsize; [lia|].
  apply Forall_map, Forall_true. intros; apply length_le_bytes.
Qed.

(** The byte-level checks are the checks on the list of instructions. *)
Lemma verify_transfer_checked_holds info l current r key :
  sysvar_holds info l current →
  verify_transfer_checked_at current r key info =
    verify_transfer_checked unpacks_transfer_checked token_2022_program (Z.to_nat current) r key l.
Proof.
  intros Hl. unfold verify_transfer_checked_at, verify_transfer_checked.
  rewrite (load_instruction_holds _ _ _ _ Hl). by destruct (l !! _).
Qed.

Lemma verify_jupiter_suffix_holds info l current role r key :
  sysvar_holds info l current →
  verify_jupiter_suffix_at current role r key info =
    verify_jupiter_suffix address_const find_ata current role r key l.
Proof.
  intros Hl. pose proof (holds_length _ _ _ Hl) as Hlen. destruct Hl as [_ Hdata Hfit Hsize _].
  unfold verify_jupiter_suffix_at, verify_jupiter_suffix. cbv zeta.
  destruct (throw_if (negb (current =? 0)) E_GuardNotFirst) as [[]|e]; [|done]. cbn [mbind result_bind].
  rewrite Hdata. cbn [of_option mbind result_bind].
  rewrite instruction_count_layout, length_map by (by rewrite length_map). cbn [of_option mbind result_bind].
  destruct (throw_if _ E_UnsupportedTransactionGrammar) as [[]|e] eqn:Hg; [|done]. cbn [mbind result_bind].
  apply throw_if_Ok, andb_false_iff in Hg. rewrite !negb_false_iff, !Nat.eqb_eq in Hg.
  destruct (mapM_view (instruction_at (sysvar_layout (map ref_of l) ++ le_bytes 2 current)) instruction_view l 1 (length l - 1))
    as (refs & -> & Hview); [intros i; by apply instruction_at_layout|lia|].
  cbn [of_option mbind result_bind]. rewrite Hview, take_ge by (rewrite length_drop; lia). done.
Qed.

(** The guard at [current] passes [verify_downstream] as its adapter's check
    on the list passes. *)
Lemma verify_downstream_holds info l current r key guard program_id :
  sysvar_holds info l current → l !! Z.to_nat current = Some guard → si_program_id guard = program_id →
  verify_downstream program_id (si_data guard) r key info =
    match a2_adapter r with
    | Token2022TransferChecked =>
        verify_transfer_checked unpacks_transfer_checked token_2022_program (Z.to_nat current) r key l
    | JupiterRouteV2BuyUsdc => verify_jupiter_suffix address_const find_ata current DESTINATION r key l
    | JupiterRouteV2SellUsdc => verify_jupiter_suffix address_const find_ata current SOURCE r key l
    end.
Proof.
  intros Hl Hg <-. unfold verify_downstream, check_id.
  rewrite (sh_key _ _ _ Hl), bool_decide_eq_true_2 by done. cbn [negb throw_if mbind result_bind].
  rewrite (load_current_holds _ _ _ Hl). cbn [of_option mbind result_bind].
  rewrite (load_instruction_holds _ _ _ _ Hl), Hg. cbn [mbind result_bind].
  rewrite !bool_decide_eq_false_2 by (intros []; done). cbn [orb throw_if mbind result_bind].
  destruct (a2_adapter r); [by apply verify_transfer_checked_holds|by apply verify_jupiter_suffix_holds..].
Qed.

(** A guard that verified is the instruction that runs. *)
Lemma verify_downstream_current info l current program_id data r key :
  sysvar_holds info l current → verify_downstream program_id data r key info = Ok tt →
  ∃ guard, l !! Z.to_nat current = Some guard ∧ si_program_id guard = program_id ∧ si_data guard = data.
Proof.
  intros Hl. unfold verify_downstream. rewrite throw_if_then_Ok. intros [_ Hrun].
  rewrite (load_current_holds _ _ _ Hl) in Hrun. cbn [of_option mbind result_bind] in Hrun.
  rewrite (load_instruction_holds _ _ _ _ Hl) in Hrun.
  destruct (l !! Z.to_nat current) as [guard|]; [|done]. cbn [mbind result_bind] in Hrun.
  apply throw_if_then_Ok in Hrun as [[Hp Hd]%orb_false_iff _]. exists guard.
  by apply bool_decide_eq_false, dec_stable in Hp, Hd.
Qed.
End OnSysvar.

(* ------------------------------------------------------------------ *)
(** ** The whole handler *)

(** The program's numbers are the client's table. *)
Lemma error_as_u32_code e : error_as_u32 e = error_code e.
Proof. by destruct e; vm_compute. Qed.

Section Handler.
  Context `{!AddressCodec, !ProgramDerivation, !TokenLibrary, !InstructionsSysvar, !AddressLibrary, !Digest}.
  Context `{!TokenLaws, !SysvarLaws, !AddressLaws}.

(** The account of [mint] holds the state [actual], as the client decodes it. *)
Record mint_account (info : AccountInfo) (mint : Address) (actual : ProtectedState) : Prop := {
  ma_key : encodeAddress mint = Some (ai_key info);
  ma_owner : ai_owner info = token_2022_program;
  ma_data : ∃ data, ai_data info = Some data ∧ decodeProtectedState TOKEN_2022_PROGRAM_ADDRESS data = Ok actual;
}.

(** The answer of the program that the client's replay predicts. *)
Definition predicted (verdict : option EquityGuardErrorName) : result Z unit :=
  match verdict with None => Ok tt | Some e => Err (error_code e) end.

(** Any other number of accounts than the mint and the sysvar is refused, a
    single account too. *)
Lemma needs_two_accounts program_id accounts data clock r :
  unpack data = Ok r → length accounts ≠ 2%nat →
  process_instruction program_id accounts data clock = Err (error_code E_InvalidAccountCount).
Proof.
  intros Hr Hlen. unfold process_instruction, assert_safe_execution. rewrite Hr.
  by destruct accounts as [|? [|? [|]]].
Qed.

(** What is left to the clock once the payload, the accounts and the
    protected instructions passed. *)
Lemma process_verdict program_id data r mint_info sysvar_info mint actual now expectation :
  unpack data = Ok r → a2_expected_mint r = ai_key mint_info → a2_execution r = guard_request expectation →
  valid_window expectation → valid_phase expectation →
  ai_key sysvar_info = instructions_sysvar_id → mint_account mint_info mint actual →
  verify_downstream program_id data r (ai_key mint_info) sysvar_info = Ok tt →
  ∃ v, checkGuardOffline expectation actual now = Ok v ∧
    process_instruction program_id [mint_info; sysvar_info] data (Some now) = predicted v.
Proof.
  intros Hr Hkey Hexec Hw Hp Hid [_ Howner (md & Hmd & Hdec)] Hv.
  rewrite checkOffline_agrees; [|done|done|by apply decodeProtectedState_sound in Hdec as (_ & _ & ? & ? & ?); tauto].
  apply decode_protected_state_agrees in Hdec.
  unfold process_instruction, assert_safe_execution. rewrite Hr. cbn [mbind result_bind].
  rewrite Hkey, bool_decide_eq_false_2 by (intros []; done). cbn [throw_if mbind result_bind].
  unfold check_id. rewrite Hid, bool_decide_eq_true_2 by done. cbn [negb throw_if mbind result_bind].
  rewrite Hmd. cbn [of_option mbind result_bind]. rewrite Howner, Hdec. cbn [mbind result_bind].
  rewrite Hv. cbn [mbind result_bind of_option]. rewrite Hexec.
  destruct (check _ _ _) as [[]|e]; eexists; split; try reflexivity; cbn. by rewrite error_as_u32_code.
Qed.

(** C2: a guarded transfer the client built is executed exactly as its offline
    replay predicts: in its transaction, on an account whose protected state
    the client would decode as [actual], the program returns success at [now]
    when the replay finds nothing and else the code of the very error the
    replay names. Nothing between the payload and the clock can refuse it. *)
Theorem guarded_transfer_verdict programAddress feePayer mint expectation tc before g l program_id mint_info sysvar_info actual now :
  buildGuardedTransferChecked programAddress feePayer mint expectation tc before = Ok g →
  Forall2 (λ i si, sysvar_ix (asCommittedInstruction i (gt_instructions g) feePayer) si) (gt_instructions g) l →
  encodeAddress programAddress = Some program_id →
  sysvar_holds sysvar_info l (Z.of_nat (length (before ?? []))) →
  mint_account mint_info mint actual →
  ∃ v, checkGuardOffline expectation actual now = Ok v ∧
    process_instruction program_id [mint_info; sysvar_info] (data_of (gt_guard g)) (Some now) = predicted v.
Proof.
  intros Hb Hview Hprog Hsys Hmint. pose proof (build_Ok _ _ _ _ _ _ _ Hb) as (Hs & Hix & Hcom & Hc & Hg).
  apply getAssert_Ok in Hg as (data & Henc & Hguard).
  apply downstreamCommitment_Ok in Hc as (p & Hp & Hd).
  apply encodeAssertSafeExecutionV2_Ok in Henc as [Henc (key & Hkey & ->)].
  assert (key = ai_key mint_info) as -> by (pose proof (ma_key _ _ _ Hmint); cbn in Hkey; congruence).
  pose proof Henc as [_ _ _ Hphase Hw1 Hw2 _ _].
  rewrite Hguard, data_of_Some, <- pack_guard_view by done.
  set (request := mkRequestV2 _ _ _ _) in *.
  apply (process_verdict program_id _ (guard_view request (ai_key mint_info)) mint_info sysvar_info mint actual now expectation);
    try done.
  - by apply unpack_pack_raw, wf_guard_view.
  - apply (sh_key _ _ _ Hsys).
  - destruct (Forall2_lookup_l _ _ _ (length (before ?? [])) (gt_guard g) Hview) as (sg & Hsg & Hvg).
    { rewrite Hix, lookup_app_r, Nat.sub_diag by lia. done. }
    destruct (Forall2_lookup_l _ _ _ (length (before ?? []) + 1) tc Hview) as (si & Hsi & Hvi).
    { rewrite Hix, lookup_app_r by lia. by replace (_ - _)%nat with 1%nat by lia. }
    destruct Hvg as (Hpg & _ & Hdg). cbn [asCommittedInstruction ci_programAddress ci_data] in Hpg, Hdg.
    rewrite Hguard, data_of_Some, <- pack_guard_view in Hdg by done. rewrite Hdg.
    rewrite Hguard in Hpg. cbn [ix_programAddress] in Hpg.
    erewrite verify_downstream_holds; [|exact Hsys|by rewrite Nat2Z.id|congruence].
    cbn [guard_view a2_adapter]. rewrite Nat2Z.id. rewrite Hcom in Hp.
    eapply verify_supported; try done; [apply unpacks_tag_12|apply token_2022_address].
Qed.

Lemma fits_all l : Forall fits_layout l → forallb fits_ix l = true.
Proof.
  intros Hl. induction Hl as [|si l (_ & Ha & Hd) _ IH]; [done|]. cbn [forallb]. rewrite IH, andb_true_r.
  unfold fits_ix, fits_u32, U32_MAX. apply andb_true_iff. rewrite !Z.leb_le. lia.
Qed.

Lemma verify_jupiter_agreed views l kind mint mk r :
  Forall2 sysvar_ix views l → encodeAddress mint = Some mk → Forall fits_layout l →
  checkGuardedJupiterTransaction views 0 kind mint (a2_downstream_commitment r) = Ok None →
  verify_jupiter_suffix address_const find_ata 0 (protectedRoleOf kind) r mk l = Ok tt.
Proof.
  intros Hview Hmint Hfit Hc.
  rewrite (checkGuarded_agrees address_const find_ata address_constants same_derivation _ _ _ _ _ _ _ Hview Hmint (fits_all _ Hfit)) in Hc.
  by destruct (verify_jupiter_suffix _ _ _ _ _ _ _) as [[]|].
Qed.

(** C3: the same of a guarded Jupiter trade: the guard as instruction 0 with
    the suffix it was built for passes everything but the economic state and
    the clock, and there the program answers what the offline replay says. *)
Theorem guarded_trade_verdict program feePayer mint kind expectation suffix t l program_id mint_info sysvar_info actual now :
  buildGuardedJupiterTrade program feePayer mint kind expectation suffix = Ok t →
  Forall2 (λ i si, sysvar_ix (asCommittedInstruction i (t_instructions t) feePayer) si) (t_instructions t) l →
  encodeAddress program = Some program_id →
  sysvar_holds sysvar_info l 0 →
  mint_account mint_info mint actual →
  ∃ v, checkGuardOffline expectation actual now = Ok v ∧
    process_instruction program_id [mint_info; sysvar_info] (data_of (t_guard t)) (Some now) = predicted v.
Proof.
  intros Hb Hview Hprog Hsys Hmint.
  pose proof (buildTrade_verified _ _ _ _ _ _ _ Hb) as (Hix & (views & Hv & Hcheck) & _).
  apply buildTrade_Ok in Hb as (Hk & _ & _ & Hg & _ & _ & _).
  apply sysvarView_Ok in Hv as [_ ->].
  apply getAssert_Ok in Hg as (data & Henc & Hguard).
  apply encodeAssertSafeExecutionV2_Ok in Henc as [Henc (key & Hkey & ->)].
  assert (key = ai_key mint_info) as -> by (pose proof (ma_key _ _ _ Hmint); cbn in Hkey; congruence).
  pose proof Henc as [_ _ _ Hphase Hw1 Hw2 _ _].
  rewrite Hguard, data_of_Some, <- pack_guard_view by done.
  set (request := mkRequestV2 _ _ _ _) in *.
  apply (process_verdict program_id _ (guard_view request (ai_key mint_info)) mint_info sysvar_info mint actual now expectation);
    try done.
  - by apply unpack_pack_raw, wf_guard_view.
  - apply (sh_key _ _ _ Hsys).
  - destruct (Forall2_lookup_l _ _ _ 0%nat (t_guard t) Hview) as (sg & Hsg & Hpg & _ & Hdg); [by rewrite Hix|].
    cbn [asCommittedInstruction ci_programAddress ci_data] in Hpg, Hdg.
    rewrite Hguard, data_of_Some, <- pack_guard_view in Hdg by done. rewrite Hdg.
    rewrite Hguard in Hpg. cbn [ix_programAddress] in Hpg.
    erewrite verify_downstream_holds; [|exact Hsys|done|congruence].
    assert (Forall2 sysvar_ix (map (λ i, asCommittedInstruction i (t_instructions t) feePayer) (t_instructions t)) l) as Hviews
      by by apply Forall2_fmap_l.
    pose proof (verify_jupiter_agreed _ _ kind mint _ (guard_view request (ai_key mint_info)) Hviews (ma_key _ _ _ Hmint)
      (sh_fits _ _ _ Hsys) Hcheck) as Hj.
    unfold isJupiterAdapterKind in Hk. apply orb_true_iff in Hk as [->%Z.eqb_eq| ->%Z.eqb_eq]; exact Hj.
Qed.
End Handler.

(* ------------------------------------------------------------------ *)
(** ** What a passed guard proves, whoever built the transaction *)

Section Hostile.
  Context `{!AddressCodec, !TokenLibrary, !InstructionsSysvar, !AddressLibrary, !Digest, !SysvarLaws}.

Lemma client_ixs l : Forall fits_layout l → Forall2 sysvar_ix (map client_ix l) l.
Proof. intros Hl. induction Hl as [|si l [Hwf _] _ IH]; constructor; [by apply sysvar_client_ix|done]. Qed.

(** The suffix commitment of jupiter.rs binds as kind 1's does. *)
Lemma suffix_check_binds s p r current role key l :
  jupiterSuffixCommitmentPreimage s = Ok p → a2_downstream_commitment r = digest p → Forall fits_layout l →
  verify_jupiter_suffix address_const find_ata current role r key l = Ok tt →
  Forall2 sysvar_ix s (drop 1 l) ∨ collision p (suffix_encoded (drop 1 l)).
Proof.
  intros Hp Hr Hfit. unfold verify_jupiter_suffix. cbv zeta. rewrite !throw_if_then_Ok, then_Ok.
  intros (_ & _ & _ & Hrun). apply bind_Ok in Hrun as (actual & Ha & Hrun).
  unfold jupiter_suffix_commitment in Ha. rewrite !throw_if_then_Ok, !negb_false_iff in Ha.
  destruct Ha as (Hlen & Hfits & [= <-]).
  apply throw_if_Ok, bool_decide_eq_false, dec_stable in Hrun. rewrite Hr in Hrun.
  assert (Forall fits_layout (drop 1 l)) as Hdrop by by apply Forall_drop.
  destruct (digest_eq_or_collision _ _ Hrun) as [Hpq|[Hne Hc]]; [left|right; split; auto].
  pose proof (suffixPreimage_agrees _ _ (client_ixs _ Hdrop) Hlen Hfits) as Hq. rewrite Hpq in Hq.
  rewrite (suffixPreimage_inj _ _ _ Hp Hq). by apply client_ixs.
Qed.

Lemma jupiter_guard_first current role r key l :
  verify_jupiter_suffix address_const find_ata current role r key l = Ok tt → current = 0.
Proof. unfold verify_jupiter_suffix. rewrite throw_if_then_Ok. by intros [Hz%negb_false_iff%Z.eqb_eq _]. Qed.

(** C1: whatever accounts and transaction a guard instruction with an encoded
    payload runs in, if it passes then it was given the mint of the payload
    and the Instructions sysvar, the account held the observed state and the
    multiplier in force is the one the payload selects; the guard is the
    instruction that runs, by that program and with that payload; and what it
    protects is what was committed to: the next instruction for a transfer,
    the whole rest of the transaction behind instruction 0 for a trade, unless
    two different encodings have one digest. *)
Theorem passed_guard_safe request out program_id accounts clock :
  encodeAssertSafeExecutionV2 request = Ok out →
  process_instruction program_id accounts out clock = Ok tt →
  ∃ mint_info sysvar_info actual now,
    accounts = [mint_info; sysvar_info] ∧ clock = Some now ∧
    encodeAddress (expectedMint request) = Some (ai_key mint_info) ∧ ai_key sysvar_info = instructions_sysvar_id ∧
    (data ← of_option E_InvalidMintData (ai_data mint_info); decode_protected_state (ai_owner mint_info) data) = Ok actual ∧
    actual = guard_state (expected (execution request)) ∧
    effective_multiplier actual now =
      (if expectedPhase (execution request) =? Activated
       then newMultiplier (expected (execution request))
       else multiplier (expected (execution request))) ∧
    ∀ l current, sysvar_holds sysvar_info l current →
      (∃ guard, l !! Z.to_nat current = Some guard ∧ si_program_id guard = program_id ∧ si_data guard = out) ∧
      match guard_adapter (adapterKind request) with
      | Token2022TransferChecked =>
          ∃ next, l !! (Z.to_nat current + 1)%nat = Some next ∧
            ∀ i p, downstreamCommitmentPreimage i = Ok p → requestCommitment request = digest p →
              sysvar_ix i next ∨ collision p (downstream_encoded next)
      | _ =>
          current = 0 ∧
            ∀ s p, jupiterSuffixCommitmentPreimage s = Ok p → requestCommitment request = digest p →
              Forall2 sysvar_ix s (drop 1 l) ∨ collision p (suffix_encoded (drop 1 l))
      end.
Proof.
  intros Henc Hrun. pose proof Henc as [Hwf (key & Hkey & Hout)]%encodeAssertSafeExecutionV2_Ok.
  assert (unpack out = Ok (guard_view request key)) as Hr
    by by rewrite Hout, <- pack_guard_view, unpack_pack_raw by eauto using wf_guard_view.
  unfold process_instruction in Hrun. apply map_err_Ok in Hrun. unfold assert_safe_execution in Hrun.
  rewrite Hr in Hrun. cbn [mbind result_bind] in Hrun.
  destruct accounts as [|mint_info [|sysvar_info [|]]]; try done. cbn [mbind result_bind] in Hrun.
  rewrite !throw_if_then_Ok in Hrun. destruct Hrun as (Hk%bool_decide_eq_false%dec_stable & Hid & Hrun).
  apply negb_false_iff, bool_decide_eq_true in Hid.
  apply bind_Ok in Hrun as (data & Hdata & Hrun). apply bind_Ok in Hrun as (actual & Hdec & Hrun).
  apply then_Ok in Hrun as [Hv Hrun]. apply bind_Ok in Hrun as (now & ->%of_option_Ok & Hcheck).
  exists mint_info, sysvar_info, actual, now. split; [done|]. split; [done|].
  cbn [guard_view a2_expected_mint] in Hk. split; [by rewrite Hk|]. split; [done|].
  split; [by rewrite Hdata|].
  pose proof (guarded_execution_safe request out _ actual now Henc Hr Hcheck) as [Hact Heff].
  split; [done|]. split; [done|]. intros l current Hl.
  destruct (verify_downstream_current _ _ _ _ _ _ _ Hl Hv) as (guard & Hg & Hp & <-).
  split; [by exists guard|].
  rewrite (verify_downstream_holds _ _ _ _ _ _ _ Hl Hg Hp) in Hv. cbn [guard_view a2_adapter] in Hv.
  pose proof (sh_fits _ _ _ Hl) as Hfit. destruct (guard_adapter (adapterKind request)).
  - pose proof Hv as Hv'. unfold verify_transfer_checked in Hv.
    apply bind_Ok in Hv as (next & Hnext%of_option_Ok & _). exists next. split; [done|].
    intros i p Hpre Hd. change (a2_downstream_commitment (guard_view request key) = digest p) in Hd.
    eapply downstream_check_binds; [exact Hpre|exact Hd|exact Hnext| |exact Hv'].
    exact (proj1 (Forall_lookup_1 _ _ _ _ Hfit Hnext)).
  - split; [by eapply jupiter_guard_first|intros s p Hpre Hd; by eapply (suffix_check_binds s p (guard_view request key))].
  - split; [by eapply jupiter_guard_first|intros s p Hpre Hd; by eapply (suffix_check_binds s p (guard_view request key))].
Qed.
End Hostile.

(* ------------------------------------------------------------------ *)
(** ** Libraries that keep the laws, and a transaction *)

(** The address constants and derivation of the examples of [JupiterOnChain]. *)
#[local] Existing Instance sample_derivation.
#[local] Instance sample_addresses : AddressLibrary := {| address_const := key_of; find_ata := sample_find_ata |}.
#[local] Instance sample_address_laws : AddressLaws := {| address_constants := sample_pk; same_derivation := sample_same_ata |}.

(** A sysvar crate that reads the documented layout. *)
#[local] Instance sample_crate : InstructionsSysvar := {|
  instructions_sysvar_id := key_of SYSVAR_INSTRUCTIONS_ADDRESS;
  load_current_index_checked info :=
    data ← ai_data info;
    if Nat.leb 2 (length data) then Some (le_Z (drop (length data - 2) data)) else None;
  load_instruction_at_checked index info :=
    match ai_data info with
    | None => OtherProgramError
    | Some data =>
        match instruction_count data, instruction_at data index with
        | Some count, Some ix => Loaded (instruction_view ix)
        | Some count, None => if Nat.leb count index then InvalidArgument else OtherProgramError
        | None, _ => OtherProgramError
        end
    end |}.

#[local] Instance sample_sysvar_laws : SysvarLaws.
Proof.
  split.
  - intros info l current [_ Hd _ _ Hc]. cbn [load_current_index_checked sample_crate]. rewrite Hd. cbn [mbind option_bind].
    rewrite length_app, length_le_bytes. destruct (Nat.leb_spec 2 (length (sysvar_layout (map ref_of l)) + 2)); [|lia].
    rewrite Nat.add_sub, drop_app_length, le_Z_le_bytes_small by (cbn; lia). done.
  - intros info l current index Hl. pose proof (holds_length _ _ _ Hl) as Hlen. destruct Hl as [_ Hd Hf Hs _].
    cbn [load_instruction_at_checked sample_crate]. rewrite Hd, instruction_count_layout, length_map by (by rewrite length_map).
    pose proof (instruction_at_layout l (le_bytes 2 current) index Hf Hs) as Hat.
    destruct (instruction_at _ index) as [r|]; cbn [fmap option_fmap option_map] in Hat; rewrite <- Hat; [done|].
    symmetry in Hat. apply lookup_ge_None in Hat. by destruct (Nat.leb_spec (length l) index); [|lia].
Qed.

(** A token library that is the client's own parser. *)
#[local] Instance sample_tokens : TokenLibrary := {|
  token_2022_program := key_of TOKEN_2022_PROGRAM_ADDRESS;
  MintView := bytes * list TlvEntry;
  unpack_mint data :=
    match parseMintAccount TOKEN_2022_PROGRAM_ADDRESS data with Ok es => Some (data, es) | Err _ => None end;
  get_extension_types mint := Some (map tlv_type mint.2);
  valid_mint_extensions types := negb (invalid_combination (λ type, bool_decide (type ∈ types)));
  get_scaled_ui_amount mint :=
    entry ← find_type ScaledUiAmount mint.2;
    let value := subarray mint.1 (valueOffset entry) (valueOffset entry + tlv_length entry) in
    if Nat.eqb (tlv_length entry) 56
    then Some (subarray value 32 40, subarray value 48 56, to_signed 8 (le_Z (subarray value 40 48)))
    else None;
  unpacks_transfer_checked := tag_is_12 |}.

#[local] Instance sample_token_laws : TokenLaws.
Proof.
  split; [vm_compute; reflexivity| |done|apply tag_is_12_ok].
  intros data items Hbase Hlay. exists (data, entries_from 166 items).
  cbn [unpack_mint get_extension_types get_scaled_ui_amount sample_tokens fst snd].
  rewrite (proj2 (parseMintAccount_Ok TOKEN_2022_PROGRAM_ADDRESS data (entries_from 166 items)))
    by eauto 10 using mint_layout_length. split; [done|]. rewrite entries_types. split; [done|].
  intros value Hin H56. pose proof (find_type_layout data items ScaledUiAmount Hlay) as Hf.
  destruct (find_type _ _) as [entry|]; [|exfalso; apply Hf, list_elem_of_fmap; by exists (ScaledUiAmount, value)].
  destruct Hf as (value' & k & Hin' & Hlen & Hdrop). pose proof Hlay as (? & ? & _ & _ & _ & Hnd & _).
  rewrite <- (assoc_unique _ _ _ _ Hnd Hin Hin') in Hlen, Hdrop. cbn [mbind option_bind].
  rewrite Hlen, H56. cbn [Nat.eqb].
  assert (subarray data (valueOffset entry) (valueOffset entry + 56) = value) as ->; [|done].
  unfold subarray. rewrite Hdrop. replace (_ + 56 - _)%nat with (length value) by lia. apply take_app_length.
Qed.

Definition sample_mint_info : AccountInfo :=
  mkAccountInfo (key_of sample_mint) (key_of TOKEN_2022_PROGRAM_ADDRESS) (Some sample_mint_account).

(** The sysvar account of a list of instructions. *)
Definition sysvar_account_of (l : list SysvarInstruction) (current : Z) : AccountInfo :=
  mkAccountInfo (key_of SYSVAR_INSTRUCTIONS_ADDRESS) [] (Some (sysvar_layout (map ref_of l) ++ le_bytes 2 current)).

#[local] Instance fits_layout_dec si : Decision (fits_layout si).
Proof. unfold fits_layout, wf_sysvar_ix. apply _. Defined.

Lemma sysvar_account_of_holds l current :
  bool_decide (Forall fits_layout l ∧ Z.of_nat (length (sysvar_layout (map ref_of l))) < 2 ^ 16 ∧ 0 ≤ current < 2 ^ 16) = true →
  sysvar_holds (sysvar_account_of l current) l current.
Proof. intros (Hf & Hs & Hc)%bool_decide_eq_true. by split. Qed.

Lemma sample_mint_holds info mint :
  encodeAddress mint = Some (ai_key info) → ai_owner info = key_of TOKEN_2022_PROGRAM_ADDRESS →
  ai_data info = Some sample_mint_account → mint_account info mint sample_state.
Proof.
  intros Hkey Howner Hdata. split; [exact Hkey|exact Howner|]. exists sample_mint_account. split; [exact Hdata|].
  apply sample_mint_account_decodes.
Qed.

(** Inside the protection window the transfer is refused with code 13. *)
Lemma guarded_transfer_verdict_witness :
  checkGuardOffline sample_expectation sample_state 1699999500 = Ok (Some E_InsideTransitionWindow) ∧
  ∃ v, checkGuardOffline sample_expectation sample_state 1699999500 = Ok v ∧
    process_instruction (key_of sample_program) [sample_mint_info; sysvar_account_of sample_sysvar 0]
      (data_of (gt_guard sample_guarded)) (Some 1699999500) = predicted v.
Proof.
  split; [vm_compute; reflexivity|].
  apply (guarded_transfer_verdict sample_program sample_payer sample_mint sample_expectation sample_transfer None sample_guarded
    sample_sysvar (key_of sample_program) sample_mint_info (sysvar_account_of sample_sysvar 0) sample_state 1699999500
    sample_guarded_built sample_sysvar_view).
  - vm_compute. reflexivity.
  - apply sysvar_account_of_holds. vm_compute. reflexivity.
  - apply sample_mint_holds; [vm_compute|..]; reflexivity.
Defined.

(** The account of the mint of the sample trade. *)
Definition sample_stock_info : AccountInfo :=
  mkAccountInfo (key_of sample_stock_mint) (key_of TOKEN_2022_PROGRAM_ADDRESS) (Some sample_mint_account).

Definition sample_trade_sysvar : list SysvarInstruction :=
  Eval vm_compute in
    map (λ i, sysvar_of (asCommittedInstruction i (t_instructions sample_trade) sample_fee_payer)) (t_instructions sample_trade).

Lemma sample_trade_view :
  Forall2 (λ i si, sysvar_ix (asCommittedInstruction i (t_instructions sample_trade) sample_fee_payer) si)
    (t_instructions sample_trade) sample_trade_sysvar.
Proof.
  assert (map sysvar_of (map (λ i, asCommittedInstruction i (t_instructions sample_trade) sample_fee_payer)
    (t_instructions sample_trade)) = sample_trade_sysvar) as <- by (vm_compute; reflexivity).
  eapply (proj1 (Forall2_fmap_l (λ i, asCommittedInstruction i (t_instructions sample_trade) sample_fee_payer) sysvar_ix _ _)).
  apply sysvar_of_views. vm_compute. reflexivity.
Qed.

(** Well before the activation the trade goes through. *)
Lemma guarded_trade_verdict_witness :
  checkGuardOffline sample_expectation sample_state 1699990000 = Ok None ∧
  ∃ v, checkGuardOffline sample_expectation sample_state 1699990000 = Ok v ∧
    process_instruction (key_of sample_mint) [sample_stock_info; sysvar_account_of sample_trade_sysvar 0]
      (data_of (t_guard sample_trade)) (Some 1699990000) = predicted v.
Proof.
  split; [vm_compute; reflexivity|].
  apply (guarded_trade_verdict sample_mint sample_fee_payer sample_stock_mint JUPITER_ROUTE_V2_BUY_USDC sample_expectation
    (map uncommitted sample_suffix) sample_trade sample_trade_sysvar (key_of sample_mint) sample_stock_info
    (sysvar_account_of sample_trade_sysvar 0) sample_state 1699990000 sample_build_ok sample_trade_view).
  - vm_compute. reflexivity.
  - apply sysvar_account_of_holds. vm_compute. reflexivity.
  - apply sample_mint_holds; [vm_compute|..]; reflexivity.
Defined.

Definition sample_guard_request : AssertSafeExecutionV2Request :=
  mkRequestV2 sample_expectation sample_mint TOKEN_2022_TRANSFER_CHECKED (gt_commitment sample_guarded).

Lemma sample_guard_passes :
  process_instruction (key_of sample_program) [sample_mint_info; sysvar_account_of sample_sysvar 0]
    (data_of (gt_guard sample_guarded)) (Some 1699990000) = Ok tt.
Proof. vm_compute. reflexivity. Qed.

Lemma passed_guard_safe_witness :
  ∃ mint_info actual now, mint_info = sample_mint_info ∧ Some 1699990000 = Some now ∧
    actual = guard_state sample_state ∧ effective_multiplier actual now = multiplier sample_state.
Proof.
  destruct (passed_guard_safe sample_guard_request (data_of (gt_guard sample_guarded)) (key_of sample_program)
    [sample_mint_info; sysvar_account_of sample_sysvar 0] (Some 1699990000)) as
    (mint_info & ? & actual & now & Hacc & Hnow & _ & _ & _ & Hact & Heff & _).
  - vm_compute. reflexivity.
  - exact sample_guard_passes.
  - exists mint_info, actual, now. split; [congruence|]. split; [exact Hnow|]. split; [exact Hact|exact Heff].
Defined.
