(* ===== verification/Deployment.v ===== *)
(** * deployment.ts: which program the guard may name

    Clusters, the reviewed deployment, and the verification of a deployed
    program's accounts and bytes. *)

From S2P Require Import Prelude Js Errors Kit Base58 Sha256 Abi OnChain MintState.

(** [program-id.ts]. *)
Definition EQUITY_GUARD_DEVNET_PROGRAM_ID : Address := "EbzHfaoSHdsWuVdatCmmcBnZi5npJBNXmWhFVeEtNnhT".

Inductive SolanaCluster : Set := MainnetBeta | Devnet | Testnet | UnknownCluster.

#[export] Instance SolanaCluster_eq_dec : EqDecision SolanaCluster.
Proof. solve_decision. Defined.

Definition SOLANA_GENESIS_HASH : list (SolanaCluster * string) :=
  [ (MainnetBeta, "5eykt4UsFv8P8NJdTREpY1vzqKqZKvdpKuc147dw2N9d");
    (Devnet, "EtWTRABZaYq6iMfeYKouRu166VU2xqa1wcaWoxPkrZBG");
    (Testnet, "4uhcVJyU9pJkvQyS88uRDiswHXSCkY3zQawwpjk2NsNY") ].

Definition clusterFromGenesisHash (genesisHash : string) : SolanaCluster :=
  match List.find (λ entry, String.eqb (snd entry) genesisHash) SOLANA_GENESIS_HASH with
  | Some entry => fst entry
  | None => UnknownCluster
  end.

Definition deploymentForCluster (cluster : SolanaCluster) : option Address :=
  match cluster with Devnet => Some EQUITY_GUARD_DEVNET_PROGRAM_ID | _ => None end.

Record ReviewedGuardDeployment := mkReviewed {
  dep_cluster : SolanaCluster;
  dep_programAddress : Address;
  dep_programDataAddress : Address;
  dep_elfLength : nat;
  dep_elfSha256 : string;
}.

Definition BPF_LOADER_UPGRADEABLE_ADDRESS : Address := "BPFLoaderUpgradeab1e11111111111111111111111".

Definition REVIEWED_GUARD_DEPLOYMENTS : list ReviewedGuardDeployment :=
  [ mkReviewed Devnet EQUITY_GUARD_DEVNET_PROGRAM_ID "4Zc4TAEYNSXCGUkpD7y7CcEWDS8a9aQBDfYHFu55dPE3"
      (Z.to_nat 63840) "d7d59ccd9e96bb3eb3e16893aca638d8e5fdbfaf5032b4b39737ef16a41e4e46" ].

Definition findReviewedGuardDeployment (programAddress : Address) : option ReviewedGuardDeployment :=
  List.find (λ deployment, String.eqb (dep_programAddress deployment) programAddress) REVIEWED_GUARD_DEPLOYMENTS.

(** [LoaderAccountView]; [ProgramAccountView] is it without the data. *)
Record LoaderAccountView := mkAccount { acc_executable : bool; acc_owner : string; acc_data : bytes }.

Inductive IdentityFailure : Set :=
| MISSING | NOT_EXECUTABLE | UNEXPECTED_LOADER | PROGRAM_DATA_MISMATCH | BINARY_MISMATCH | MALFORMED_PROGRAM_DATA.

Inductive GuardCheck (A : Type) : Type :=
| CheckOk (a : A)
| CheckFail (reason : IdentityFailure) (message : string).
Arguments CheckOk {A} a.
Arguments CheckFail {A} reason message.

Definition checkGuardProgramAccount (programAddress : Address) (account : option LoaderAccountView) : GuardCheck unit :=
  match account with
  | None => CheckFail MISSING ("no account exists at " +:+ programAddress +:+ " on this cluster")
  | Some account =>
      if negb (acc_executable account)
      then CheckFail NOT_EXECUTABLE (programAddress +:+ " exists but is not executable (owner " +:+ acc_owner account +:+ ")")
      else CheckOk tt
  end.

Definition LOADER_STATE_PROGRAM : Z := 2.
Definition LOADER_STATE_PROGRAM_DATA : Z := 3.
Definition PROGRAM_ACCOUNT_LEN : nat := 36.
Definition PROGRAMDATA_SLOT_OFFSET : nat := 4.
Definition PROGRAMDATA_AUTHORITY_OPTION_OFFSET : nat := 12.
Definition PROGRAMDATA_AUTHORITY_OFFSET : nat := 13.
Definition PROGRAMDATA_HEADER_LEN : nat := 45.
Definition OPTION_NONE : Z := 0.
Definition OPTION_SOME : Z := 1.
Definition ZERO_AUTHORITY : Address := "11111111111111111111111111111111".

(** [u32At]: [null] past the end. *)
Definition u32At (data : bytes) (offset : nat) : option Z := get_uint 4 data offset.

Inductive DeploymentMutability : Set := IMMUTABLE | NO_USABLE_AUTHORITY | UPGRADEABLE | UNKNOWN.
Inductive DeploymentIdentity : Set := REVIEWED_BINARY | CALLER_TRUSTED.

#[export] Instance DeploymentMutability_eq_dec : EqDecision DeploymentMutability.
Proof. solve_decision. Defined.
#[export] Instance DeploymentIdentity_eq_dec : EqDecision DeploymentIdentity.
Proof. solve_decision. Defined.

Record ProgramDataHeader := mkHeader {
  hd_deploymentSlot : Z;
  hd_upgradeAuthority : option Address;
  hd_mutability : DeploymentMutability;
}.

Record GuardDeploymentAttestation := mkAttestation {
  at_programId : Address;
  at_programDataAddress : option Address;
  at_reviewedElfSha256 : option string;
  at_deploymentSlot : option Z;
  at_upgradeAuthority : option Address;
  at_mutability : DeploymentMutability;
  at_identity : DeploymentIdentity;
}.

Definition show_mutability (m : DeploymentMutability) : string :=
  match m with
  | IMMUTABLE => "IMMUTABLE"
  | NO_USABLE_AUTHORITY => "NO_USABLE_AUTHORITY"
  | UPGRADEABLE => "UPGRADEABLE"
  | UNKNOWN => "UNKNOWN"
  end.

Definition show_identity (i : DeploymentIdentity) : string :=
  match i with REVIEWED_BINARY => "REVIEWED_BINARY" | CALLER_TRUSTED => "CALLER_TRUSTED" end.

Definition deploymentAttestationDigest (a : GuardDeploymentAttestation) : string :=
  join "|" [ at_programId a; at_programDataAddress a ?? "-"; at_reviewedElfSha256 a ?? "-";
             at_upgradeAuthority a ?? "-"; show_mutability (at_mutability a); show_identity (at_identity a) ].

Definition sameGuardDeployment (a b : GuardDeploymentAttestation) : bool :=
  String.eqb (deploymentAttestationDigest a) (deploymentAttestationDigest b).

Definition callerTrustedAttestation (programId : Address) : GuardDeploymentAttestation :=
  mkAttestation programId None None None None UNKNOWN CALLER_TRUSTED.

Section Verify.
  Context `{!AddressCodec, !Digest}.

Definition decodeProgramDataHeader (data : bytes) : option ProgramDataHeader :=
  if Nat.ltb (length data) PROGRAMDATA_HEADER_LEN
     || negb (bool_decide (u32At data 0 = Some LOADER_STATE_PROGRAM_DATA)) then None
  else
    deploymentSlot ← get_uint 8 data PROGRAMDATA_SLOT_OFFSET;
    let option := byte_at data PROGRAMDATA_AUTHORITY_OPTION_OFFSET in
    if bool_decide (option = Some OPTION_NONE) then Some (mkHeader deploymentSlot None IMMUTABLE)
    else if negb (bool_decide (option = Some OPTION_SOME)) then None
    else
      let upgradeAuthority := decodeAddress (subarray data PROGRAMDATA_AUTHORITY_OFFSET PROGRAMDATA_HEADER_LEN) in
      Some (mkHeader deploymentSlot (Some upgradeAuthority)
              (if String.eqb upgradeAuthority ZERO_AUTHORITY then NO_USABLE_AUTHORITY else UPGRADEABLE)).

(** The guards on ProgramData, the hash, the tail and the header. *)
Definition verifyProgramData (deployment : ReviewedGuardDeployment) (programData : option LoaderAccountView)
    : GuardCheck GuardDeploymentAttestation :=
  let at_ := dep_programAddress deployment in
  let stop := (PROGRAMDATA_HEADER_LEN + dep_elfLength deployment)%nat in
  match programData with
  | Some programData =>
      if negb (String.eqb (acc_owner programData) BPF_LOADER_UPGRADEABLE_ADDRESS)
         || negb (bool_decide (u32At (acc_data programData) 0 = Some LOADER_STATE_PROGRAM_DATA))
         || Nat.ltb (length (acc_data programData)) stop
      then CheckFail PROGRAM_DATA_MISMATCH ("ProgramData " +:+ dep_programDataAddress deployment
        +:+ " is missing, not loader-owned ProgramData, or shorter than the reviewed ELF")
      else
        let sha256 := toHex (digest (subarray (acc_data programData) PROGRAMDATA_HEADER_LEN stop)) in
        if negb (String.eqb sha256 (dep_elfSha256 deployment))
        then CheckFail BINARY_MISMATCH (at_ +:+ " holds ELF " +:+ sha256 +:+ ", not the reviewed " +:+ dep_elfSha256 deployment)
        else if existsb (λ b, negb (b2z b =? 0)) (drop stop (acc_data programData))
        then CheckFail BINARY_MISMATCH ("ProgramData " +:+ dep_programDataAddress deployment
          +:+ " carries non-zero bytes beyond the reviewed " +:+ show_Z (Z.of_nat (dep_elfLength deployment)) +:+ "-byte ELF")
        else
          match decodeProgramDataHeader (acc_data programData) with
          | None => CheckFail MALFORMED_PROGRAM_DATA ("ProgramData " +:+ dep_programDataAddress deployment
              +:+ " has an undecodable upgrade-authority header")
          | Some header => CheckOk
              (mkAttestation at_ (Some (dep_programDataAddress deployment)) (Some (dep_elfSha256 deployment))
                 (Some (hd_deploymentSlot header)) (hd_upgradeAuthority header) (hd_mutability header) REVIEWED_BINARY)
          end
  | None => CheckFail PROGRAM_DATA_MISMATCH ("ProgramData " +:+ dep_programDataAddress deployment
        +:+ " is missing, not loader-owned ProgramData, or shorter than the reviewed ELF")
  end.

Definition verifyReviewedGuardDeployment (deployment : ReviewedGuardDeployment)
    (program programData : option LoaderAccountView) : GuardCheck GuardDeploymentAttestation :=
  let at_ := dep_programAddress deployment in
  let unavailable :=
    match checkGuardProgramAccount at_ program with
    | CheckOk _ => CheckFail MISSING ("no account exists at " +:+ at_ +:+ " on this cluster")
    | CheckFail reason message => CheckFail reason message
    end in
  match program with
  | None => unavailable
  | Some account =>
      if negb (acc_executable account) then unavailable
      else if negb (String.eqb (acc_owner account) BPF_LOADER_UPGRADEABLE_ADDRESS)
           || negb (Nat.eqb (length (acc_data account)) PROGRAM_ACCOUNT_LEN)
           || negb (bool_decide (u32At (acc_data account) 0 = Some LOADER_STATE_PROGRAM))
      then CheckFail UNEXPECTED_LOADER (at_ +:+ " is not an upgradeable-loader Program account (owner " +:+ acc_owner account +:+ ")")
      else
        let pointer := decodeAddress (subarray (acc_data account) 4 PROGRAM_ACCOUNT_LEN) in
        if negb (String.eqb pointer (dep_programDataAddress deployment))
        then CheckFail PROGRAM_DATA_MISMATCH (at_ +:+ " points at ProgramData " +:+ pointer +:+ ", not the reviewed "
               +:+ dep_programDataAddress deployment)
        else verifyProgramData deployment programData
  end.
End Verify.

(* ------------------------------------------------------------------ *)
(** ** What the loader writes, and the verification against it *)

Section Layout.
  Context `{!AddressCodec, !Digest}.

(** [UpgradeableLoaderState::Program]. *)
Definition program_image (key : bytes) : bytes := le_bytes 4 LOADER_STATE_PROGRAM ++ key.

(** The 33 bytes of the upgrade authority: an absent one leaves 32 arbitrary bytes. *)
Inductive authority_image : bytes → option Address → DeploymentMutability → Prop :=
| authority_none pad : length pad = 32%nat → authority_image (x00 :: pad) None IMMUTABLE
| authority_zero key : length key = 32%nat → decodeAddress key = ZERO_AUTHORITY →
    authority_image (x01 :: key) (Some ZERO_AUTHORITY) NO_USABLE_AUTHORITY
| authority_some key : length key = 32%nat → decodeAddress key ≠ ZERO_AUTHORITY →
    authority_image (x01 :: key) (Some (decodeAddress key)) UPGRADEABLE.

(** [UpgradeableLoaderState::ProgramData], then the program and its zero tail. *)
Definition program_data_image (slot : Z) (auth elf : bytes) (tail : nat) : bytes :=
  le_bytes 4 LOADER_STATE_PROGRAM_DATA ++ le_bytes 8 slot ++ auth ++ elf ++ zeros tail.

Lemma length_authority_image auth a m : authority_image auth a m → length auth = 33%nat.
Proof. by intros [? Hl|? Hl _|? Hl _]; cbn [length]; rewrite Hl. Qed.

(** The fields of a header, read from its bytes. *)
Definition header_bytes (tag slot : Z) (rest : bytes) : bytes := le_bytes 4 tag ++ le_bytes 8 slot ++ rest.

Lemma header_fields tag slot rest :
  0 ≤ tag < 2 ^ 32 → u64_range slot → let data := header_bytes tag slot rest in
  u32At data 0 = Some tag ∧ get_uint 8 data PROGRAMDATA_SLOT_OFFSET = Some slot ∧
  byte_at data PROGRAMDATA_AUTHORITY_OPTION_OFFSET = byte_at rest 0 ∧
  (∀ i j, subarray data (12 + i) (12 + j) = subarray rest i j) ∧
  length data = (12 + length rest)%nat.
Proof.
  intros Ht Hs data. unfold data, header_bytes. split_and!.
  - unfold u32At. by apply get_uint_small.
  - rewrite get_uint_app_skip by (rewrite length_le_bytes; unfold PROGRAMDATA_SLOT_OFFSET; lia).
    rewrite length_le_bytes. by apply (get_uint_small 8).
  - unfold byte_at. rewrite app_assoc, lookup_app_r; rewrite length_app, !length_le_bytes; [done|].
    unfold PROGRAMDATA_AUTHORITY_OPTION_OFFSET. lia.
  - intros i j. rewrite app_assoc, subarray_app_skip; rewrite length_app, !length_le_bytes; [|lia].
    by replace (12 + i - (4 + 8))%nat with i by lia; replace (12 + j - (4 + 8))%nat with j by lia.
  - rewrite !length_app, !length_le_bytes. lia.
Qed.

Lemma header_of_fields tag data : u32At data 0 = Some tag → (12 ≤ length data)%nat →
  ∃ slot rest, data = header_bytes tag slot rest ∧ u64_range slot ∧ 0 ≤ tag < 2 ^ 32.
Proof.
  intros Ht Hlen. pose proof (get_uint_range _ _ _ _ Ht) as Hr.
  apply get_uint_split in Ht. assert (length (drop 4 data) = (length data - 4)%nat) as Hd by apply length_drop.
  destruct (get_uint_is_Some 8 (drop 4 data) 0 ltac:(lia)) as [slot Hs].
  pose proof (get_uint_range _ _ _ _ Hs). apply get_uint_split in Hs.
  exists slot, (drop 8 (drop 4 data)). unfold header_bytes. rewrite <- Hs. done.
Qed.

(** The authority option decoded from the 33 bytes after the slot. *)
Definition decode_authority (rest : bytes) : option (option Address * DeploymentMutability) :=
  if bool_decide (byte_at rest 0 = Some OPTION_NONE) then Some (None, IMMUTABLE)
  else if negb (bool_decide (byte_at rest 0 = Some OPTION_SOME)) then None
  else let a := decodeAddress (subarray rest 1 33) in
    Some (Some a, if String.eqb a ZERO_AUTHORITY then NO_USABLE_AUTHORITY else UPGRADEABLE).

Lemma decode_authority_spec rest a m : (33 ≤ length rest)%nat →
  decode_authority rest = Some (a, m) ↔ ∃ auth rest', rest = auth ++ rest' ∧ authority_image auth a m.
Proof.
  intros Hlen. split.
  - destruct rest as [|b rest]; [cbn in Hlen; lia|]. cbn in Hlen.
    assert (b :: rest = (b :: take 32 rest) ++ drop 32 rest) as Hsplit by (cbn [app]; by rewrite take_drop).
    assert (length (take 32 rest) = 32%nat) as H32 by (rewrite length_take; lia).
    unfold decode_authority. unfold byte_at. cbn [lookup list_lookup fmap option_fmap option_map].
    destruct (bool_decide_reflect (Some (b2z b) = Some OPTION_NONE)) as [[= Hb]|_].
    { intros [= <- <-]. apply (b2z_inj b x00) in Hb as ->. eexists _, _. split; [exact Hsplit|by constructor]. }
    destruct (bool_decide_reflect (Some (b2z b) = Some OPTION_SOME)) as [[= Hb]|_]; cbn [negb]; [|discriminate].
    apply (b2z_inj b x01) in Hb as ->. change (subarray (x01 :: rest) 1 33) with (take 32 rest).
    intros [= <- <-]. eexists _, _. split; [exact Hsplit|].
    destruct (String.eqb_spec (decodeAddress (take 32 rest)) ZERO_AUTHORITY) as [E|E].
    + rewrite E. by constructor.
    + by constructor.
  - intros (auth & rest' & -> & Ha). unfold decode_authority.
    assert (∀ key, length key = 32%nat → subarray ((x01 :: key) ++ rest') 1 33 = key) as Hkey.
    { intros key Hk. unfold subarray. cbn [app drop Nat.sub]. by apply take_app_length'. }
    destruct Ha as [pad Hp|key Hk E|key Hk E]; [done| |]; rewrite (Hkey key Hk).
    + cbn [byte_at]. rewrite E. done.
    + apply String.eqb_neq in E. rewrite E. done.
Qed.

Lemma decodeProgramDataHeader_fields slot rest : (33 ≤ length rest)%nat → u64_range slot →
  decodeProgramDataHeader (header_bytes LOADER_STATE_PROGRAM_DATA slot rest) =
  '(a, m) ← decode_authority rest; Some (mkHeader slot a m).
Proof.
  intros Hlen Hs. destruct (header_fields LOADER_STATE_PROGRAM_DATA slot rest ltac:(done) Hs) as (E0 & E1 & E2 & E3 & E4).
  unfold decodeProgramDataHeader, decode_authority.
  rewrite E0, E1, E2, E4, bool_decide_true by reflexivity.
  assert (Nat.ltb (12 + length rest) PROGRAMDATA_HEADER_LEN = false) as ->.
  { apply Nat.ltb_ge. unfold PROGRAMDATA_HEADER_LEN. lia. }
  pose proof (E3 1%nat 33%nat : subarray _ PROGRAMDATA_AUTHORITY_OFFSET PROGRAMDATA_HEADER_LEN = _) as ->.
  cbn [negb orb mbind option_bind]. repeat case_match; first [reflexivity|congruence].
Qed.

(** A ProgramData account long enough for its ELF is a header, an authority,
    the ELF and a tail; on such data the verification reads those parts. *)
Lemma program_data_parts n data :
  u32At data 0 = Some LOADER_STATE_PROGRAM_DATA → (45 + n ≤ length data)%nat →
  ∃ slot auth elf rest, data = header_bytes LOADER_STATE_PROGRAM_DATA slot (auth ++ elf ++ rest) ∧
    u64_range slot ∧ length auth = 33%nat ∧ length elf = n.
Proof.
  intros Ht Hlen. destruct (header_of_fields _ data Ht ltac:(lia)) as (slot & r & -> & Hs & _).
  destruct (header_fields LOADER_STATE_PROGRAM_DATA slot r ltac:(done) Hs) as (_ & _ & _ & _ & E4). rewrite E4 in Hlen.
  exists slot, (take 33 r), (take n (drop 33 r)), (drop n (drop 33 r)).
  rewrite !take_drop, !length_take, length_drop. split_and!; [done|done|lia|lia].
Qed.

Lemma parts_read n slot auth elf rest :
  u64_range slot → length auth = 33%nat → length elf = n →
  let data := header_bytes LOADER_STATE_PROGRAM_DATA slot (auth ++ elf ++ rest) in
  u32At data 0 = Some LOADER_STATE_PROGRAM_DATA ∧ length data = (45 + n + length rest)%nat ∧
  subarray data PROGRAMDATA_HEADER_LEN (PROGRAMDATA_HEADER_LEN + n) = elf ∧
  drop (PROGRAMDATA_HEADER_LEN + n) data = rest ∧
  decodeProgramDataHeader data = '(a, m) ← decode_authority (auth ++ elf ++ rest); Some (mkHeader slot a m).
Proof.
  intros Hs Ha He data.
  destruct (header_fields LOADER_STATE_PROGRAM_DATA slot (auth ++ elf ++ rest) ltac:(done) Hs) as (E0 & _ & _ & E3 & E4).
  fold data in E0, E3, E4. split_and!; [exact E0| | | |].
  - rewrite E4, !length_app. lia.
  - pose proof (E3 33%nat (33 + n)%nat : subarray _ PROGRAMDATA_HEADER_LEN (PROGRAMDATA_HEADER_LEN + n) = _) as ->.
    rewrite subarray_app_skip by lia. rewrite Ha, Nat.sub_diag. replace (33 + n - 33)%nat with n by lia.
    by apply subarray_app_here.
  - unfold data, header_bytes, PROGRAMDATA_HEADER_LEN. rewrite !app_assoc. apply drop_app_length'.
    rewrite !length_app, !length_le_bytes. lia.
  - apply decodeProgramDataHeader_fields; [|exact Hs]. rewrite !length_app. lia.
Qed.

Lemma check_fail_neq {A} (b : bool) r m (k : GuardCheck A) a :
  (if b then CheckFail r m else k) = CheckOk a ↔ b = false ∧ k = CheckOk a.
Proof. destruct b; intuition congruence. Qed.

(** What ProgramData must hold, and the attestation it gives. *)
Definition reviewed_program_data (d : ReviewedGuardDeployment) (data : bytes) (att : GuardDeploymentAttestation) : Prop :=
  ∃ slot auth elf tail a m,
    data = program_data_image slot auth elf tail ∧ u64_range slot ∧ authority_image auth a m ∧
    length elf = dep_elfLength d ∧ toHex (digest elf) = dep_elfSha256 d ∧
    att = mkAttestation (dep_programAddress d) (Some (dep_programDataAddress d)) (Some (dep_elfSha256 d))
            (Some slot) a m REVIEWED_BINARY.

Lemma verifyProgramData_spec d programData att :
  verifyProgramData d programData = CheckOk att ↔
  ∃ pd, programData = Some pd ∧ acc_owner pd = BPF_LOADER_UPGRADEABLE_ADDRESS ∧
    reviewed_program_data d (acc_data pd) att.
Proof.
  destruct programData as [pd|]; [|split; [discriminate|by intros (? & ? & _)]].
  unfold verifyProgramData. rewrite !check_fail_neq, !orb_false_iff, !negb_false_iff, String.eqb_eq, bool_decide_eq_true, Nat.ltb_ge.
  rewrite String.eqb_eq. split.
  - intros (((Ho & Ht) & Hlen) & Hsha & Htail & Hok).
    destruct (program_data_parts _ _ Ht Hlen) as (slot & auth & elf & rest & Hd & Hs & Ha & He).
    destruct (parts_read _ slot auth elf rest Hs Ha He) as (_ & _ & E1 & E2 & E3). rewrite <- Hd in E1, E2, E3.
    rewrite E1 in Hsha. rewrite E2 in Htail. apply all_zero_spec in Htail. rewrite E3 in Hok.
    destruct (decode_authority _) as [[a m]|] eqn:Hauth; cbn [mbind option_bind] in Hok; [|discriminate].
    apply decode_authority_spec in Hauth as (auth' & rest' & Happ & Himg); [|rewrite !length_app; lia].
    apply app_inj_1 in Happ as [<- _]; [|rewrite (length_authority_image _ _ _ Himg); exact Ha].
    exists pd. split_and!; [done|exact Ho|]. exists slot, auth, elf, (length rest), a, m.
    rewrite Htail in Hd. split_and!; [exact Hd|done|exact Himg|exact He|exact Hsha|].
    injection Hok as <-. reflexivity.
  - intros (pd' & [= <-] & Ho & slot & auth & elf & tail & a & m & Hd & Hs & Himg & He & Hsha & ->).
    pose proof (length_authority_image _ _ _ Himg) as Ha.
    destruct (parts_read _ slot auth elf (zeros tail) Hs Ha He) as (E0 & E4 & E1 & E2 & E3).
    unfold program_data_image in Hd. unfold header_bytes in E0, E1, E2, E3, E4.
    rewrite <- Hd in E0, E1, E2, E3, E4. rewrite E1, E2, E3, E4.
    assert (decode_authority (auth ++ elf ++ zeros tail) = Some (a, m)) as ->.
    { apply decode_authority_spec; [rewrite !length_app; lia|]. by eexists _, _. }
    split_and!; [exact Ho|exact E0|unfold PROGRAMDATA_HEADER_LEN; lia|exact Hsha| |reflexivity].
    apply all_zero_spec. unfold zeros. by rewrite length_replicate.
Qed.

Lemma verifyReviewed_spec d program programData att :
  verifyReviewedGuardDeployment d program programData = CheckOk att ↔
  ∃ p pd key, program = Some p ∧ programData = Some pd ∧
    acc_executable p = true ∧ acc_owner p = BPF_LOADER_UPGRADEABLE_ADDRESS ∧
    acc_data p = program_image key ∧ length key = 32%nat ∧ decodeAddress key = dep_programDataAddress d ∧
    acc_owner pd = BPF_LOADER_UPGRADEABLE_ADDRESS ∧ reviewed_program_data d (acc_data pd) att.
Proof.
  destruct program as [p|]; [|split; [discriminate|by intros (? & ? & ? & ? & _)]].
  unfold verifyReviewedGuardDeployment. unfold checkGuardProgramAccount.
  destruct (acc_executable p) eqn:Hx; cbn [negb].
  2: { split; [discriminate|]. intros (? & ? & ? & [= <-] & _ & ? & _). congruence. }
  rewrite !check_fail_neq, !orb_false_iff, !negb_false_iff, !String.eqb_eq, Nat.eqb_eq, bool_decide_eq_true, verifyProgramData_spec.
  split.
  - intros (((Ho & Hlen) & Ht) & Hp & pd & -> & Hpo & Hr).
    apply get_uint_split in Ht. exists p, pd, (drop 4 (acc_data p)).
    unfold PROGRAM_ACCOUNT_LEN in *. unfold subarray in Hp. rewrite take_ge in Hp by (rewrite length_drop; lia).
    split_and!; try done. rewrite length_drop. lia.
  - intros (? & pd & key & [= <-] & -> & _ & Ho & Hd & Hk & Hdec & Hpo & Hr).
    unfold program_image in Hd. rewrite Hd, length_app, length_le_bytes, Hk.
    unfold PROGRAM_ACCOUNT_LEN. rewrite subarray_app_skip, length_le_bytes, Nat.sub_diag by (by rewrite length_le_bytes).
    unfold subarray. rewrite drop_0, take_ge by lia.
    split_and!; try done. by exists pd.
Qed.

(** The verification of a reviewed deployment succeeds exactly when the
    program account is an executable loader account whose 36 bytes name the
    recorded ProgramData address, and ProgramData is the loader's header
    followed by an ELF of the reviewed length and hash and by zeros only; the
    attestation then carries the slot, the authority and the mutability that
    header encodes, and is immutable only for an absent authority. *)
Theorem verifyReviewedGuardDeployment_spec d program programData att :
  verifyReviewedGuardDeployment d program programData = CheckOk att ↔
  ∃ p pd key, program = Some p ∧ programData = Some pd ∧
    acc_executable p = true ∧ acc_owner p = BPF_LOADER_UPGRADEABLE_ADDRESS ∧
    acc_data p = program_image key ∧ length key = 32%nat ∧ decodeAddress key = dep_programDataAddress d ∧
    acc_owner pd = BPF_LOADER_UPGRADEABLE_ADDRESS ∧ reviewed_program_data d (acc_data pd) att.
Proof. apply verifyReviewed_spec. Qed.
End Layout.

(** The fields the digest covers; [deploymentSlot] is not among them. *)
Definition covered (a : GuardDeploymentAttestation) :=
  (at_programId a, at_programDataAddress a, at_reviewedElfSha256 a, at_upgradeAuthority a, at_mutability a, at_identity a).

(** Addresses and hashes hold no bar and are not a lone dash. *)
(** The separator, a vertical bar. *)
Definition bar : Ascii.ascii := Ascii.ascii_of_nat 124.

Definition plain_option (o : option string) : bool :=
  match o with Some s => plain bar s && negb (String.eqb s "-") | None => true end.

Definition plain_attestation (a : GuardDeploymentAttestation) : bool :=
  plain bar (at_programId a) && plain_option (at_programDataAddress a) && plain_option (at_reviewedElfSha256 a)
  && plain_option (at_upgradeAuthority a).

Lemma plain_option_default o : plain_option o = true → plain bar (o ?? "-") = true.
Proof. destruct o as [s|]; [|done]. cbn. by rewrite andb_true_iff; intros [? _]. Qed.

Lemma plain_option_inj o o' : plain_option o = true → plain_option o' = true → (o ?? "-") = (o' ?? "-") → o = o'.
Proof.
  destruct o as [s|], o' as [s'|]; cbn [plain_option default from_option id]; rewrite ?andb_true_iff, ?negb_true_iff, ?String.eqb_neq; intuition congruence.
Qed.

#[export] Instance show_mutability_inj : Inj (=) (=) show_mutability.
Proof. by intros [] []. Qed.
#[export] Instance show_identity_inj : Inj (=) (=) show_identity.
Proof. by intros [] []. Qed.

Lemma digest_fields_plain a : plain_attestation a = true →
  forallb (plain bar) [at_programId a; at_programDataAddress a ?? "-"; at_reviewedElfSha256 a ?? "-";
    at_upgradeAuthority a ?? "-"; show_mutability (at_mutability a); show_identity (at_identity a)] = true.
Proof.
  unfold plain_attestation. rewrite !andb_true_iff. intros (((H1 & H2) & H3) & H4).
  apply plain_option_default in H2, H3, H4. cbn [forallb]. rewrite H1, H2, H3, H4.
  by destruct (at_mutability a), (at_identity a).
Qed.

(** Two attestations are reported the same exactly when they agree on the
    program, its ProgramData address, the reviewed hash, the upgrade authority,
    the mutability and the kind of identity, whatever their slots: no two
    different deployments are folded together by the joined digest. *)
Theorem sameGuardDeployment_iff a b (Ha : plain_attestation a = true) (Hb : plain_attestation b = true) :
  sameGuardDeployment a b = true ↔ covered a = covered b.
Proof.
  unfold sameGuardDeployment. rewrite String.eqb_eq. split.
  - intros Heq. apply join_inj in Heq; [|done|by apply digest_fields_plain|by apply digest_fields_plain].
    unfold plain_attestation in Ha, Hb. rewrite !andb_true_iff in Ha, Hb.
    destruct Ha as (((_ & ?) & ?) & ?), Hb as (((_ & ?) & ?) & ?). unfold covered.
    injection Heq as -> E1%plain_option_inj E2%plain_option_inj E3%plain_option_inj E4%(inj _) E5%(inj _); try done.
    by rewrite E1, E2, E3, E4, E5.
  - unfold covered, deploymentAttestationDigest. by intros [= -> -> -> -> -> ->].
Qed.

(** The reviewed deployment, before and after its authority is dropped. *)
Definition sample_attestation (authority : option Address) (m : DeploymentMutability) : GuardDeploymentAttestation :=
  mkAttestation EQUITY_GUARD_DEVNET_PROGRAM_ID (Some "4Zc4TAEYNSXCGUkpD7y7CcEWDS8a9aQBDfYHFu55dPE3")
    (Some "d7d59ccd9e96bb3eb3e16893aca638d8e5fdbfaf5032b4b39737ef16a41e4e46") (Some 7) authority m REVIEWED_BINARY.

Lemma sameGuardDeployment_iff_witness :
  sameGuardDeployment (sample_attestation None IMMUTABLE)
    (sample_attestation (Some "4uhcVJyU9pJkvQyS88uRDiswHXSCkY3zQawwpjk2NsNY") UPGRADEABLE) = true
  ↔ covered (sample_attestation None IMMUTABLE)
    = covered (sample_attestation (Some "4uhcVJyU9pJkvQyS88uRDiswHXSCkY3zQawwpjk2NsNY") UPGRADEABLE).
Proof. apply sameGuardDeployment_iff; vm_compute; reflexivity. Defined.
