(* ===== verification/Protection.v ===== *)
(** * protection-adapter.ts: which assets are protected

    The registry of known representations and the resolver that classifies one
    mint account. The [try] around the decoder is a match on its result; an
    error that is no [GuardClientError] is rethrown. *)

From S2P Require Import Prelude Js Errors Kit Base58 Abi OnChain MintState.

(** [PROTECTED_STATE_MODEL] and the set of its values. *)
Definition TOKEN_2022_SCALED_UI_AMOUNT : string := "TOKEN_2022_SCALED_UI_AMOUNT".
Definition IMPLEMENTED_STATE_MODELS : list string := [TOKEN_2022_SCALED_UI_AMOUNT].

Definition implemented (model : string) : bool := existsb (String.eqb model) IMPLEMENTED_STATE_MODELS.

Inductive Issuer : Set := xStocks | Ondo.

#[export] Instance Issuer_eq_dec : EqDecision Issuer.
Proof. solve_decision. Defined.

Definition show_issuer (i : Issuer) : string := match i with xStocks => "xStocks" | Ondo => "Ondo" end.

Record KnownProtectedAsset := mkAsset {
  as_mint : Address;
  as_symbol : string;
  as_issuer : Issuer;
  as_underlying : string;
  as_stateModel : string;
  as_evidence : string;
}.

Definition XSTOCKS_EVIDENCE : string :=
  "mainnet account decoded at slot 446827429; multipliers kept distinct with a scheduled activation (KOx schedule + Clock activation observed 2026-09-14/15, docs/m10a-corporate-action-validation.md)".
Definition ONDO_EVIDENCE : string :=
  "mainnet account decoded at slot 446827429; immediate multiplier updates observed on KOon and UNHon, both mapped to the current semantics (docs/m10a-corporate-action-validation.md)".

Definition KNOWN_PROTECTED_ASSETS : list KnownProtectedAsset :=
  [ mkAsset "XsaBXg8dU5cPM6ehmVctMkVqoiRG2ZjMo1cyBJ3AykQ" "KOx" xStocks "KO" TOKEN_2022_SCALED_UI_AMOUNT XSTOCKS_EVIDENCE;
    mkAsset "XszvaiXGPwvk2nwb3o9C1CX4K6zH8sez11E6uyup6fe" "UNHx" xStocks "UNH" TOKEN_2022_SCALED_UI_AMOUNT XSTOCKS_EVIDENCE;
    mkAsset "XsczbcQ3zfcgAEt9qHQES8pxKAVG5rujPSHQEXi4kaN" "CRMx" xStocks "CRM" TOKEN_2022_SCALED_UI_AMOUNT XSTOCKS_EVIDENCE;
    mkAsset "e6G4pfFcrdKxJuZ4YXixRFfMbpMvgXG2Mjcus71ondo" "KOon" Ondo "KO" TOKEN_2022_SCALED_UI_AMOUNT ONDO_EVIDENCE;
    mkAsset "kPBGL8vAwKN3UGmr9cjkM2dU79SC3nzTC9yu7F8ondo" "UNHon" Ondo "UNH" TOKEN_2022_SCALED_UI_AMOUNT ONDO_EVIDENCE;
    mkAsset "7D7ukbcnUNYt7Et5vtsDZhAy28MKu9pkHka1Hp9ondo" "CRMon" Ondo "CRM" TOKEN_2022_SCALED_UI_AMOUNT ONDO_EVIDENCE ].

Inductive UnsupportedAssetReason : Set := UNSUPPORTED_STATE_MODEL | NO_SUPPORTED_STATE_ADAPTER.
Inductive NotProtectedReason : Set := NOT_TOKEN_2022 | NO_PROTECTED_STATE_MODEL.

Inductive ProtectionResolution : Type :=
| NOT_PROTECTED (reason : NotProtectedReason)
| SUPPORTED (stateModel : string) (state : ProtectedState) (knownAsset : option KnownProtectedAsset)
| KNOWN_PROTECTED_UNSUPPORTED (reason : UnsupportedAssetReason) (message : string) (knownAsset : KnownProtectedAsset)
| INVALID_STATE (errorCode : GuardClientErrorCode) (message : string) (knownAsset : option KnownProtectedAsset).

Definition findKnownProtectedAsset (mint : string) (registry : list KnownProtectedAsset) : option KnownProtectedAsset :=
  List.find (λ asset, String.eqb (as_mint asset) mint) registry.

(** The [catch] branch, for an error of the guard client. *)
Definition resolveDecodeError (knownAsset : option KnownProtectedAsset) (error : GuardClientError) : ProtectionResolution :=
  if bool_decide (err_code error = C_InvalidMintOwner) || bool_decide (err_code error = C_MissingScaledUiAmount)
  then
    match knownAsset with
    | Some asset => KNOWN_PROTECTED_UNSUPPORTED NO_SUPPORTED_STATE_ADAPTER
        (as_symbol asset +:+ " (" +:+ show_issuer (as_issuer asset) +:+ ") is a known tokenized " +:+ as_underlying asset
         +:+ " representation, but its mint account does not present " +:+ as_stateModel asset +:+ ": " +:+ err_message error) asset
    | None => NOT_PROTECTED (if bool_decide (err_code error = C_InvalidMintOwner) then NOT_TOKEN_2022 else NO_PROTECTED_STATE_MODEL)
    end
  else INVALID_STATE (err_code error) (err_message error) knownAsset.

Definition resolveProtectionAdapter (mint : Address) (owner : string) (data : bytes) (registry : option (list KnownProtectedAsset))
    : result client_exn ProtectionResolution :=
  let knownAsset := findKnownProtectedAsset mint (registry ?? KNOWN_PROTECTED_ASSETS) in
  match knownAsset with
  | Some asset =>
      if negb (implemented (as_stateModel asset)) then
        Ok (KNOWN_PROTECTED_UNSUPPORTED UNSUPPORTED_STATE_MODEL
              (as_symbol asset +:+ " (" +:+ show_issuer (as_issuer asset) +:+ ") uses economic-state model "
               +:+ as_stateModel asset +:+ ", which this EquityGuard client does not implement") asset)
      else
        match decodeProtectedState owner data with
        | Ok state => Ok (SUPPORTED TOKEN_2022_SCALED_UI_AMOUNT state knownAsset)
        | Err (GuardErr error) => Ok (resolveDecodeError knownAsset error)
        | Err error => Err error
        end
  | None =>
      match decodeProtectedState owner data with
      | Ok state => Ok (SUPPORTED TOKEN_2022_SCALED_UI_AMOUNT state knownAsset)
      | Err (GuardErr error) => Ok (resolveDecodeError knownAsset error)
      | Err error => Err error
      end
  end.

(* ------------------------------------------------------------------ *)
(** ** What each classification means *)

(** The meaning of a classification, in terms of the account and the registry only. *)
Definition resolution_means (known : option KnownProtectedAsset) (owner : string) (data : bytes) (r : ProtectionResolution) : Prop :=
  match r with
  | NOT_PROTECTED NOT_TOKEN_2022 => known = None ∧ owner ≠ TOKEN_2022_PROGRAM_ADDRESS
  | NOT_PROTECTED NO_PROTECTED_STATE_MODEL => known = None ∧ owner = TOKEN_2022_PROGRAM_ADDRESS ∧ carries_no_state data
  | SUPPORTED model s k =>
      model = TOKEN_2022_SCALED_UI_AMOUNT ∧ k = known ∧ owner = TOKEN_2022_PROGRAM_ADDRESS ∧ holds_state data s ∧
      ∀ asset, known = Some asset → implemented (as_stateModel asset) = true
  | KNOWN_PROTECTED_UNSUPPORTED UNSUPPORTED_STATE_MODEL _ asset =>
      known = Some asset ∧ implemented (as_stateModel asset) = false
  | KNOWN_PROTECTED_UNSUPPORTED NO_SUPPORTED_STATE_ADAPTER _ asset =>
      known = Some asset ∧ implemented (as_stateModel asset) = true ∧
      (owner ≠ TOKEN_2022_PROGRAM_ADDRESS ∨ owner = TOKEN_2022_PROGRAM_ADDRESS ∧ carries_no_state data)
  | INVALID_STATE code _ k =>
      k = known ∧ owner = TOKEN_2022_PROGRAM_ADDRESS ∧ (¬ (code ∈ [C_InvalidMintOwner; C_MissingScaledUiAmount])) ∧
      (¬ (∃ s, holds_state data s)) ∧ (¬ carries_no_state data) ∧
      ∀ asset, known = Some asset → implemented (as_stateModel asset) = true
  end.

(** A decode error classified without the registry's model being missing. *)
Lemma resolveDecodeError_means known owner data e :
  decodeProtectedState owner data = Err (GuardErr e) →
  (∀ asset, known = Some asset → implemented (as_stateModel asset) = true) →
  resolution_means known owner data (resolveDecodeError known e).
Proof.
  intros Hd Hk. pose proof (decodeProtectedState_owner owner data) as Ho. rewrite Hd in Ho. cbn [thrown_code] in Ho.
  assert (owner = TOKEN_2022_PROGRAM_ADDRESS → (err_code e = C_MissingScaledUiAmount ↔ carries_no_state data)) as Hm.
  { intros ->. rewrite <- decodeProtectedState_missing, Hd. cbn [thrown_code]. split; [by intros ->|by intros [= ->]]. }
  unfold resolveDecodeError.
  destruct (decide (err_code e = C_InvalidMintOwner)) as [Hc|Hc].
  { rewrite Hc in *. rewrite bool_decide_true by done. cbn [orb].
    destruct known as [asset|]; cbn; split_and!; try tauto; [by apply Hk]. }
  assert (owner = TOKEN_2022_PROGRAM_ADDRESS) as Howner.
  { destruct (String.eqb_spec owner TOKEN_2022_PROGRAM_ADDRESS) as [|Hne]; [done|].
    apply Ho in Hne. congruence. }
  rewrite (bool_decide_false (err_code e = _)) by done. cbn [orb].
  destruct (decide (err_code e = C_MissingScaledUiAmount)) as [Hc'|Hc'].
  - rewrite bool_decide_true by done. assert (carries_no_state data) by tauto.
    destruct known as [asset|]; cbn; split_and!; try done; [by apply Hk|by right].
  - rewrite bool_decide_false by done. cbn. split_and!; try done.
    + intros Hin. repeat (apply elem_of_cons in Hin as [Hin|Hin]; [congruence|]). by apply not_elem_of_nil in Hin.
    + intros [s Hs%decodeProtectedState_complete]. congruence.
    + tauto.
Qed.

Lemma resolve_means mint owner data registry :
  ∃ r, resolveProtectionAdapter mint owner data registry = Ok r ∧
    resolution_means (findKnownProtectedAsset mint (registry ?? KNOWN_PROTECTED_ASSETS)) owner data r.
Proof.
  unfold resolveProtectionAdapter. set (known := findKnownProtectedAsset _ _). cbv zeta.
  assert ((∀ asset, known = Some asset → implemented (as_stateModel asset) = true) →
    ∃ r, match decodeProtectedState owner data with
         | Ok state => Ok (SUPPORTED TOKEN_2022_SCALED_UI_AMOUNT state known)
         | Err (GuardErr error) => Ok (resolveDecodeError known error)
         | Err error => Err error
         end = Ok r ∧ resolution_means known owner data r) as Hdecode.
  { intros Hk. destruct (decodeProtectedState owner data) as [s|e] eqn:Hd.
    - eexists; split; [reflexivity|]. apply decodeProtectedState_sound in Hd as [-> Hs]. by cbn.
    - destruct (structured_decodeProtectedState owner data e Hd) as [g ->].
      eexists; split; [reflexivity|]. by apply resolveDecodeError_means. }
  destruct known as [asset|] eqn:Hknown.
  - destruct (implemented (as_stateModel asset)) eqn:Hi; cbn [negb].
    + apply Hdecode. by intros ? [= <-].
    + eexists; split; [reflexivity|]. done.
  - apply Hdecode. done.
Qed.

(** The resolver classifies every mint account: it never throws, and what it
    answers says exactly what the account holds. A supported asset is a
    Token-2022 account that carries the decoded state; an asset is set aside as
    ordinary only when it is not in the registry and its account is not owned by
    Token-2022 or is a readable mint without the extension; a known asset that
    does not present the state, or whose model this client does not implement,
    and an account that cannot be read are reported as such. *)
Theorem resolveProtectionAdapter_spec mint owner data registry :
  ∃ r, resolveProtectionAdapter mint owner data registry = Ok r ∧
    resolution_means (findKnownProtectedAsset mint (registry ?? KNOWN_PROTECTED_ASSETS)) owner data r.
Proof. apply resolve_means. Qed.

(** Fail closed: a mint of the registry is never passed over as an ordinary
    asset, and is supported only when its account really carries the protected
    state, whatever the account holds. *)
Theorem known_asset_fails_closed mint owner data asset
    (Hin : findKnownProtectedAsset mint KNOWN_PROTECTED_ASSETS = Some asset) :
  ∃ r, resolveProtectionAdapter mint owner data None = Ok r ∧
    (∀ reason, r ≠ NOT_PROTECTED reason) ∧
    (∀ s, r = SUPPORTED TOKEN_2022_SCALED_UI_AMOUNT s (Some asset) ↔
          owner = TOKEN_2022_PROGRAM_ADDRESS ∧ holds_state data s).
Proof.
  unfold resolveProtectionAdapter. change (None ?? KNOWN_PROTECTED_ASSETS) with KNOWN_PROTECTED_ASSETS.
  rewrite Hin. cbv zeta.
  assert (implemented (as_stateModel asset) = true) as ->.
  { assert (forallb (λ a, implemented (as_stateModel a)) KNOWN_PROTECTED_ASSETS = true) as Hall by reflexivity.
    apply List.find_some in Hin as [Hin _]. rewrite List.forallb_forall in Hall. by apply Hall. }
  cbn [negb]. destruct (decodeProtectedState owner data) as [s|e] eqn:Hd.
  - eexists; split; [reflexivity|]. split; [done|]. intros s'. split.
    + intros [= <-]. by apply decodeProtectedState_sound.
    + intros [-> Hs%decodeProtectedState_complete]. congruence.
  - destruct (structured_decodeProtectedState owner data e Hd) as [g ->].
    eexists; split; [reflexivity|]. unfold resolveDecodeError.
    split; [intros reason; by case_match|]. intros s. split; [by case_match|].
    intros [-> Hs%decodeProtectedState_complete]. congruence.
Qed.

Lemma known_asset_fails_closed_witness :
  ∃ asset, findKnownProtectedAsset "XszvaiXGPwvk2nwb3o9C1CX4K6zH8sez11E6uyup6fe" KNOWN_PROTECTED_ASSETS = Some asset ∧
  ∃ r, resolveProtectionAdapter "XszvaiXGPwvk2nwb3o9C1CX4K6zH8sez11E6uyup6fe" TOKEN_2022_PROGRAM_ADDRESS [] None = Ok r ∧
    (∀ reason, r ≠ NOT_PROTECTED reason) ∧
    (∀ s, r = SUPPORTED TOKEN_2022_SCALED_UI_AMOUNT s (Some asset) ↔
          TOKEN_2022_PROGRAM_ADDRESS = TOKEN_2022_PROGRAM_ADDRESS ∧ holds_state [] s).
Proof.
  eexists. split; [reflexivity|].
  apply (known_asset_fails_closed "XszvaiXGPwvk2nwb3o9C1CX4K6zH8sez11E6uyup6fe" TOKEN_2022_PROGRAM_ADDRESS []). reflexivity.
Defined.
