(* ===== verification/StateErrors.v ===== *)
(** * The error classes of representation-state

    Every error a function of the package can throw, with the codes and the
    records they carry: [NormalizationError], [QuoteIdentityError],
    [RegistryError], [TransitionPolicyError], [ConsentError],
    [ExecutionEligibilityError] and [ExecutionPlanError]. *)

From S2P Require Import Prelude Js Errors.

(** [NormalizationErrorCode]. *)
Inductive NormalizationErrorCode : Set :=
| InvalidMultiplier | MissingDecimals | InvalidDecimals | NegativeAmount | NotionalMismatch | UnderlyingMismatch
| StateMismatch | InputMintMismatch | NonPositiveOutput | InvalidTolerance.

(** [QuoteMismatchCode] and [QuoteMismatch]. *)
Inductive QuoteMismatchCode : Set :=
| UNDERLYING_CHANGED | INPUT_MINT_CHANGED | OUTPUT_MINT_CHANGED | INPUT_AMOUNT_CHANGED | OUTPUT_AMOUNT_CHANGED
| MIN_OUTPUT_CHANGED | ROUTE_CHANGED | VENUE_CHANGED | QUOTE_CONTEXT_CHANGED | ECONOMIC_STATE_CHANGED | PHASE_CHANGED.

Record QuoteMismatch := mkMismatch { qm_code : QuoteMismatchCode; qm_detail : string }.

(** [ConsentErrorCode] and [ConsentIssue]. *)
Inductive ConsentErrorCode : Set :=
| NOT_ISSUED | CONSUMED | EXPIRED | NOT_A_CONSENT_DECISION | COMPARISON_MISMATCH | DISCLOSURE_MISMATCH | TRADE_MISMATCH
| QUOTE_MISMATCH | COST_MISMATCH | COST_ABOVE_ACCEPTED_MAX | OUTSIDE_POLICY_COST_LIMIT | INVALID_GRANT.

Record ConsentIssue := mkIssue { ci_code : ConsentErrorCode; ci_detail : string }.

(** [ExecutionEligibility]: what a decision allows. *)
Inductive ExecutionEligibility : Set :=
| EXECUTABLE | ROUTE_UNAVAILABLE | QUOTE_UNAVAILABLE | STATE_UNSAFE | STATE_UNKNOWN | CONSENT_REQUIRED | CONSENT_INVALID
| POLICY_MISMATCH | ALTERNATIVE_OUTSIDE_TOLERANCE | STALE_COMPARISON | EL_QUOTE_MISMATCH.

(** [ExecutionPlanErrorCode]. *)
Inductive ExecutionPlanErrorCode : Set :=
| NOT_EXECUTABLE_DECISION | OBSERVATION_ONLY_ENVIRONMENT | PLAN_NOT_ISSUED | PLAN_CONSUMED | PLAN_EXPIRED | PLAN_TAMPERED
| QUOTE_SUBSTITUTED | COMPARISON_NOT_FOR_PLAN | DISCLOSURE_NOT_FOR_COMPARISON | CONSENT_REJECTED | INVALID_FRESHNESS
| PLAN_POLICY_MISMATCH | INVALID_DOWNSTREAM | DOWNSTREAM_NOT_FOR_QUOTE | DOWNSTREAM_COMMITMENT_MISMATCH.

#[export] Instance NormalizationErrorCode_eq_dec : EqDecision NormalizationErrorCode.
Proof. solve_decision. Defined.
#[export] Instance QuoteMismatchCode_eq_dec : EqDecision QuoteMismatchCode.
Proof. solve_decision. Defined.
#[export] Instance ConsentErrorCode_eq_dec : EqDecision ConsentErrorCode.
Proof. solve_decision. Defined.
#[export] Instance ExecutionEligibility_eq_dec : EqDecision ExecutionEligibility.
Proof. solve_decision. Defined.
#[export] Instance ExecutionPlanErrorCode_eq_dec : EqDecision ExecutionPlanErrorCode.
Proof. solve_decision. Defined.

(** What a function of the package throws. [GuardThrown] is an error of the
    guard client passed on; [RangeThrown] a [RangeError]; [TypeThrown] the
    [TypeError] of a field read from [null]. *)
Inductive state_exn : Type :=
| NormalizationThrown (code : NormalizationErrorCode) (message : string)
| QuoteIdentityThrown (message : string)
| RegistryThrown (message : string)
| UnknownUnderlyingThrown (message : string)
| TransitionPolicyThrown (message : string)
| ConsentThrown (issues : list ConsentIssue)
| EligibilityThrown (eligibility : option ExecutionEligibility) (message : string)
| PlanThrown (code : ExecutionPlanErrorCode) (message : string) (mismatches : list QuoteMismatch)
| RangeThrown (message : string)
| TypeThrown
| GuardThrown (error : client_exn).

(** Spellings of the codes in messages. *)
Definition show_mismatch_code (c : QuoteMismatchCode) : string :=
  match c with
  | UNDERLYING_CHANGED => "UNDERLYING_CHANGED"
  | INPUT_MINT_CHANGED => "INPUT_MINT_CHANGED"
  | OUTPUT_MINT_CHANGED => "OUTPUT_MINT_CHANGED"
  | INPUT_AMOUNT_CHANGED => "INPUT_AMOUNT_CHANGED"
  | OUTPUT_AMOUNT_CHANGED => "OUTPUT_AMOUNT_CHANGED"
  | MIN_OUTPUT_CHANGED => "MIN_OUTPUT_CHANGED"
  | ROUTE_CHANGED => "ROUTE_CHANGED"
  | VENUE_CHANGED => "VENUE_CHANGED"
  | QUOTE_CONTEXT_CHANGED => "QUOTE_CONTEXT_CHANGED"
  | ECONOMIC_STATE_CHANGED => "ECONOMIC_STATE_CHANGED"
  | PHASE_CHANGED => "PHASE_CHANGED"
  end.

Definition show_consent_code (c : ConsentErrorCode) : string :=
  match c with
  | NOT_ISSUED => "NOT_ISSUED"
  | CONSUMED => "CONSUMED"
  | EXPIRED => "EXPIRED"
  | NOT_A_CONSENT_DECISION => "NOT_A_CONSENT_DECISION"
  | COMPARISON_MISMATCH => "COMPARISON_MISMATCH"
  | DISCLOSURE_MISMATCH => "DISCLOSURE_MISMATCH"
  | TRADE_MISMATCH => "TRADE_MISMATCH"
  | QUOTE_MISMATCH => "QUOTE_MISMATCH"
  | COST_MISMATCH => "COST_MISMATCH"
  | COST_ABOVE_ACCEPTED_MAX => "COST_ABOVE_ACCEPTED_MAX"
  | OUTSIDE_POLICY_COST_LIMIT => "OUTSIDE_POLICY_COST_LIMIT"
  | INVALID_GRANT => "INVALID_GRANT"
  end.

Definition show_eligibility (e : ExecutionEligibility) : string :=
  match e with
  | EXECUTABLE => "EXECUTABLE"
  | ROUTE_UNAVAILABLE => "ROUTE_UNAVAILABLE"
  | QUOTE_UNAVAILABLE => "QUOTE_UNAVAILABLE"
  | STATE_UNSAFE => "STATE_UNSAFE"
  | STATE_UNKNOWN => "STATE_UNKNOWN"
  | CONSENT_REQUIRED => "CONSENT_REQUIRED"
  | CONSENT_INVALID => "CONSENT_INVALID"
  | POLICY_MISMATCH => "POLICY_MISMATCH"
  | ALTERNATIVE_OUTSIDE_TOLERANCE => "ALTERNATIVE_OUTSIDE_TOLERANCE"
  | STALE_COMPARISON => "STALE_COMPARISON"
  | EL_QUOTE_MISMATCH => "QUOTE_MISMATCH"
  end.

(** [new NormalizationError(code, message)] thrown when [b]. *)
Definition norm_throw_if (b : bool) (code : NormalizationErrorCode) (message : string) : result state_exn unit :=
  throw_if b (NormalizationThrown code message).
