(* ===== verification/CanonicalKey.v ===== *)
(** * quote-identity.ts: canonicalKey

    JavaScript values as the [unknown] of [canonicalKey], the type-tagged
    encoding, [JSON.stringify] of its result, and the theorem that keys are
    canonical: two values have the same key exactly when they are equal up to
    the order of object keys. *)

From S2P Require Import Prelude Js Errors StateErrors.

(** Values. [JExotic]: an object whose prototype is not a plain one (class
    instances, maps, dates); [JOther]: a function or a symbol, with its typeof. *)
#[warnings="-register-all"]
Inductive jsval : Type :=
| JUndefined
| JNull
| JBool (b : bool)
| JNum (n : jsnum)
| JBigint (z : Z)
| JString (s : string)
| JArray (l : list jsval)
| JObject (entries : list (string * jsval))
| JExotic (entries : list (string * jsval))
| JOther (type : string).

(** [String(v)]; an object of a class is taken to have the default one. *)
Fixpoint js_string (v : jsval) : string :=
  match v with
  | JUndefined => "undefined"
  | JNull => "null"
  | JBool b => show_bool b
  | JNum n => show_num n
  | JBigint z => show_Z z
  | JString s => s
  | JArray l => join "," (map (λ x, match x with JNull | JUndefined => "" | _ => js_string x end) l)
  | JObject _ | JExotic _ => "[object Object]"
  | JOther type => type
  end.

(** [v.key] of an object literal: [undefined] when absent. *)
Definition get_field (key : string) (entries : list (string * jsval)) : jsval :=
  match List.find (λ entry, String.eqb (fst entry) key) entries with Some entry => snd entry | None => JUndefined end.

(** [v?.key] of any value. *)
Definition get_prop (key : string) (v : jsval) : jsval :=
  match v with JObject entries | JExotic entries => get_field key entries | _ => JUndefined end.

(* ------------------------------------------------------------------ *)
(** ** [Object.keys(record).sort()]: the order of UTF-16 code units *)

(** Strings are UTF-8 bytes here; code units above the surrogates (lead bytes
    EE and EF) sort after the supplementary planes (lead bytes F0 and up). *)
Definition utf16_rank (c : Ascii.ascii) : nat :=
  let n := Ascii.nat_of_ascii c in
  if Nat.leb 240 n then n - 2 else if Nat.leb 238 n then n + 16 else n.

Fixpoint key_leb (s t : string) : bool :=
  match s, t with
  | "", _ => true
  | _, "" => false
  | String c s, String d t =>
      Nat.ltb (utf16_rank c) (utf16_rank d) || Nat.eqb (utf16_rank c) (utf16_rank d) && key_leb s t
  end.

Section Sort.
  Context {A : Type}.

Fixpoint insert_entry (x : string * A) (l : list (string * A)) : list (string * A) :=
  match l with
  | [] => [x]
  | y :: l => if key_leb (fst x) (fst y) then x :: y :: l else y :: insert_entry x l
  end.

Definition sort_entries (l : list (string * A)) : list (string * A) := foldr insert_entry [] l.
End Sort.

(* ------------------------------------------------------------------ *)
(** ** [JSON.stringify] of arrays, strings, integers and booleans *)

#[warnings="-register-all"]
Inductive json : Type :=
| JsonStr (s : string)
| JsonInt (z : Z)
| JsonBool (b : bool)
| JsonArr (l : list json).

Definition double_quote : Ascii.ascii := Ascii.ascii_of_nat 34.
Definition backslash : Ascii.ascii := Ascii.ascii_of_nat 92.

(** One character of a quoted string. *)
Definition json_escape (c : Ascii.ascii) : string :=
  let n := Ascii.nat_of_ascii c in
  let escaped (d : Ascii.ascii) := String backslash (String d "") in
  if Nat.eqb n 34 then escaped double_quote
  else if Nat.eqb n 92 then escaped backslash
  else if Nat.eqb n 8 then escaped (Ascii.ascii_of_nat 98)
  else if Nat.eqb n 9 then escaped (Ascii.ascii_of_nat 116)
  else if Nat.eqb n 10 then escaped (Ascii.ascii_of_nat 110)
  else if Nat.eqb n 12 then escaped (Ascii.ascii_of_nat 102)
  else if Nat.eqb n 13 then escaped (Ascii.ascii_of_nat 114)
  else if Nat.ltb n 32 then String backslash ("u00" +:+ toHex [z2b (Z.of_nat n)])
  else String c "".

Fixpoint escape_string (s : string) : string :=
  match s with "" => "" | String c s => json_escape c +:+ escape_string s end.

Definition quote (s : string) : string := String double_quote (escape_string s +:+ String double_quote "").

Fixpoint stringify (v : json) : string :=
  match v with
  | JsonStr s => quote s
  | JsonInt z => show_Z z
  | JsonBool b => show_bool b
  | JsonArr l => "[" +:+ join "," (map stringify l) +:+ "]"
  end.

(* ------------------------------------------------------------------ *)
(** ** [canonicalKey] *)

Definition rejected {A} (message : string) : result state_exn A := Err (QuoteIdentityThrown message).

Definition tagged (tag : string) (v : json) : json := JsonArr [JsonStr tag; v].

Definition entry_json (entry : string * json) : json := JsonArr [JsonStr (fst entry); snd entry].

(** One entry of [record], encoded once its turn comes: keys are sorted first. *)
Definition entry_result (entry : string * result state_exn json) : result state_exn json :=
  v ← snd entry; Ok (entry_json (fst entry, v)).

Fixpoint encode (v : jsval) : result state_exn json :=
  match v with
  | JBigint z => Ok (tagged "bigint" (JsonStr (show_Z z)))
  | JString s => Ok (tagged "string" (JsonStr s))
  | JBool b => Ok (tagged "boolean" (JsonBool b))
  | JNum n =>
      match n with
      | NumInt z => if isSafeInteger n then Ok (tagged "int" (JsonInt z))
                    else rejected ("canonical keys accept safe integers only, got " +:+ show_num n)
      | _ => rejected ("canonical keys accept safe integers only, got " +:+ show_num n)
      end
  | JUndefined => rejected "undefined is not allowed in a canonical key"
  | JNull => Ok (JsonArr [JsonStr "null"])
  | JArray l => vs ← mapM_result encode l; Ok (tagged "array" (JsonArr vs))
  | JObject entries =>
      es ← mapM_result entry_result (sort_entries (map (λ entry, (fst entry, encode (snd entry))) entries));
      Ok (tagged "object" (JsonArr es))
  | JExotic _ => rejected "only plain objects are allowed in a canonical key"
  | JOther type => rejected ("unsupported value in canonical key: " +:+ type)
  end.

Definition canonicalKey (v : jsval) : result state_exn string := stringify <$> encode v.

(* ------------------------------------------------------------------ *)
(** ** The order of keys *)

#[export] Instance utf16_rank_inj : Inj (=) (=) utf16_rank.
Proof.
  intros c d H. unfold utf16_rank in H.
  rewrite <- (Ascii.ascii_nat_embedding c), <- (Ascii.ascii_nat_embedding d). f_equal.
  pose proof (Ascii.nat_ascii_bounded c). pose proof (Ascii.nat_ascii_bounded d).
  repeat match type of H with context [Nat.leb ?x ?y] => destruct (Nat.leb_spec x y) end; lia.
Qed.

Lemma key_leb_refl s : key_leb s s = true.
Proof. induction s as [|c s IH]; [done|]. cbn [key_leb]. by rewrite Nat.ltb_irrefl, Nat.eqb_refl, IH. Qed.

Lemma key_leb_cons c d s t : key_leb (String c s) (String d t) = true ↔
  (utf16_rank c < utf16_rank d)%nat ∨ c = d ∧ key_leb s t = true.
Proof.
  cbn [key_leb]. rewrite orb_true_iff, andb_true_iff, Nat.ltb_lt, Nat.eqb_eq.
  split; intros [H|[H H']]; [by left|right; split; [by apply (inj _)|done]|by left|right; by rewrite H].
Qed.

Lemma key_leb_antisym s t : key_leb s t = true → key_leb t s = true → s = t.
Proof.
  revert t. induction s as [|c s IH]; intros [|d t]; try done. rewrite !key_leb_cons.
  intros [?|[-> ?]] [?|[? ?]]; subst; try lia. f_equal. by apply IH.
Qed.

Lemma key_leb_trans s t u : key_leb s t = true → key_leb t u = true → key_leb s u = true.
Proof.
  revert t u. induction s as [|c s IH]; intros [|d t] [|e u]; try done. rewrite !key_leb_cons.
  intros [?|[-> ?]] [?|[-> ?]]; [left; lia|by left|by left|right; split; [done|]; eauto].
Qed.

Lemma key_leb_total s t : key_leb s t = false → key_leb t s = true.
Proof.
  revert t. induction s as [|c s IH]; intros [|d t]; try done. intros Hf. rewrite key_leb_cons.
  destruct (decide (utf16_rank d < utf16_rank c)%nat) as [|Hge]; [by left|right].
  assert (¬ (utf16_rank c < utf16_rank d)%nat) as Hlt.
  { intros Hlt. assert (key_leb (String c s) (String d t) = true) by (apply key_leb_cons; by left). congruence. }
  assert (d = c) as -> by (apply (inj utf16_rank); lia). split; [done|]. apply IH.
  apply not_true_iff_false. intros Ht.
  assert (key_leb (String c s) (String c t) = true) by (apply key_leb_cons; by right). congruence.
Qed.

Section SortLemmas.
  Context {A : Type}.
  Implicit Types l : list (string * A).

Lemma insert_perm x l : insert_entry x l ≡ₚ x :: l.
Proof.
  induction l as [|y l IH]; [done|]. cbn. destruct (key_leb _ _); [done|].
  rewrite IH. apply Permutation_swap.
Qed.

Lemma sort_cons x l : sort_entries (x :: l) = insert_entry x (sort_entries l).
Proof. done. Qed.

Lemma sort_perm l : sort_entries l ≡ₚ l.
Proof. induction l as [|x l IH]; [done|]. cbn [sort_entries foldr]. etransitivity; [apply insert_perm|]. by constructor. Qed.

(** Keys in order: every key is at most the ones after it. *)
Fixpoint keys_sorted l : Prop :=
  match l with [] => True | x :: l => Forall (λ y, key_leb (fst x) (fst y) = true) l ∧ keys_sorted l end.

Lemma insert_sorted x l : keys_sorted l → keys_sorted (insert_entry x l).
Proof.
  induction l as [|y l IH]; [done|]. cbn [insert_entry keys_sorted]. intros [Hy Hl].
  destruct (key_leb (fst x) (fst y)) eqn:Hxy.
  - split; [|done]. constructor; [done|]. eapply Forall_impl; [exact Hy|]. intros z. by apply key_leb_trans.
  - split; [|by apply IH]. rewrite insert_perm. constructor; [by apply key_leb_total|done].
Qed.

Lemma sort_sorted l : keys_sorted (sort_entries l).
Proof. induction l as [|x l IH]; [done|]. by apply insert_sorted. Qed.

Lemma sort_id l : keys_sorted l → sort_entries l = l.
Proof.
  induction l as [|x l IH]; [done|]. intros [Hx Hl].
  change (insert_entry x (sort_entries l) = x :: l). rewrite (IH Hl).
  destruct l as [|y l]; [done|]. cbn [insert_entry]. inversion Hx as [|? ? Hxy]; subst. by rewrite Hxy.
Qed.

(** Entries without a repeated key have one sorted order. *)
Lemma sorted_unique l k : keys_sorted l → keys_sorted k → NoDup (map fst l) → l ≡ₚ k → l = k.
Proof.
  revert k. induction l as [|x l IH]; intros k Hl Hk Hnd Hp; [by apply Permutation_nil_l in Hp|].
  destruct k as [|y k]; [by apply Permutation_nil_r in Hp|].
  destruct Hl as [Hx Hl], Hk as [Hy Hk]. cbn [map] in Hnd. apply NoDup_cons in Hnd as [Hnx Hnd].
  assert (x = y) as ->.
  { assert (x ∈ y :: k) as Hin by (rewrite <- Hp; left). apply elem_of_cons in Hin as [|Hin]; [done|].
    assert (y ∈ x :: l) as Hin' by (rewrite Hp; left). apply elem_of_cons in Hin' as [|Hin']; [done|].
    rewrite Forall_forall in Hx, Hy. specialize (Hx y Hin'). specialize (Hy x Hin).
    exfalso. apply Hnx. rewrite (key_leb_antisym _ _ Hx Hy). apply list_elem_of_fmap. by exists y. }
  f_equal. apply IH; try done. by eapply Permutation.Permutation_cons_inv.
Qed.

Lemma sort_unique l k : NoDup (map fst l) → l ≡ₚ k → sort_entries l = sort_entries k.
Proof.
  intros Hnd Hp. apply sorted_unique; [apply sort_sorted|apply sort_sorted| |].
  - by rewrite (Permutation_map fst (sort_perm l)).
  - etransitivity; [apply sort_perm|]. etransitivity; [exact Hp|]. symmetry. apply sort_perm.
Qed.
End SortLemmas.

Lemma sort_map {A B} (f : A → B) (l : list (string * A)) :
  sort_entries (map (λ entry, (fst entry, f (snd entry))) l) = map (λ entry, (fst entry, f (snd entry))) (sort_entries l).
Proof.
  induction l as [|x l IH]; [done|]. cbn [map].
  rewrite !sort_cons, IH. generalize (sort_entries l). clear.
  intros l. induction l as [|y l IH]; [done|]. cbn [map insert_entry fst snd].
  destruct (key_leb (fst x) (fst y)); [done|]. cbn [map fst snd]. by rewrite IH.
Qed.

(* ------------------------------------------------------------------ *)
(** ** Reading a key back: [stringify] is unambiguous *)

Fixpoint json_ind' (P : json → Prop) (Hs : ∀ s, P (JsonStr s)) (Hi : ∀ z, P (JsonInt z)) (Hb : ∀ b, P (JsonBool b))
    (Ha : ∀ l, Forall P l → P (JsonArr l)) (v : json) : P v :=
  match v with
  | JsonStr s => Hs s
  | JsonInt z => Hi z
  | JsonBool b => Hb b
  | JsonArr l => Ha l ((fix go l : Forall P l := match l with [] => Forall_nil_2 _ | x :: l => Forall_cons_2 _ _ _ (json_ind' P Hs Hi Hb Ha x) (go l) end) l)
  end.

(** The first character of what is left of an escaped string, and the rest. *)
Definition unescape (s : string) : option (Ascii.ascii * string) :=
  match s with
  | String c s =>
      if Ascii.eqb c double_quote then None
      else if Ascii.eqb c backslash then
        match s with
        | String d s =>
            let n := Ascii.nat_of_ascii d in
            if Nat.eqb n 34 || Nat.eqb n 92 then Some (d, s)
            else if Nat.eqb n 98 then Some (Ascii.ascii_of_nat 8, s)
            else if Nat.eqb n 116 then Some (Ascii.ascii_of_nat 9, s)
            else if Nat.eqb n 110 then Some (Ascii.ascii_of_nat 10, s)
            else if Nat.eqb n 102 then Some (Ascii.ascii_of_nat 12, s)
            else if Nat.eqb n 114 then Some (Ascii.ascii_of_nat 13, s)
            else match s with
              | String _ (String _ (String e (String f s))) =>
                  match fromHex (String e (String f "")) with
                  | [b] => Some (Ascii.ascii_of_nat (Z.to_nat (b2z b)), s)
                  | _ => None
                  end
              | _ => None
              end
        | _ => None
        end
      else Some (c, s)
  | "" => None
  end.

Lemma unescape_escape c s : unescape (json_escape c +:+ s) = Some (c, s).
Proof. destruct c as [[] [] [] [] [] [] [] []]; reflexivity. Qed.

Lemma escape_split s s' r r' :
  escape_string s +:+ String double_quote r = escape_string s' +:+ String double_quote r' → s = s' ∧ r = r'.
Proof.
  revert s'. induction s as [|c s IH]; intros [|c' s'] Heq; cbn [escape_string] in Heq; rewrite ?string_app_assoc in Heq.
  - by injection Heq as ->.
  - apply (f_equal unescape) in Heq. by rewrite unescape_escape in Heq.
  - apply (f_equal unescape) in Heq. by rewrite unescape_escape in Heq.
  - apply (f_equal unescape) in Heq. rewrite !unescape_escape in Heq. injection Heq as -> Heq.
    by destruct (IH s' Heq) as [-> ->].
Qed.

Lemma quote_split s s' r r' : quote s +:+ r = quote s' +:+ r' → s = s' ∧ r = r'.
Proof. unfold quote. rewrite !string_app_cons, !string_app_assoc. intros [= Heq]. by apply escape_split in Heq. Qed.

(** What may follow a value inside an array or at its end. *)
Definition json_stop (r : string) : Prop :=
  match r with "" => True | String c _ => c = Ascii.ascii_of_nat 44 ∨ c = Ascii.ascii_of_nat 93 end.

Lemma json_stop_stops r : json_stop r → stops is_numeral r.
Proof. destruct r as [|c r]; [done|]. by intros [-> | ->]. Qed.

(** The kind of value a text starts with. *)
Definition json_head (c : Ascii.ascii) : nat :=
  if Ascii.eqb c double_quote then 0 else if is_numeral c then 1
  else if Ascii.eqb c (Ascii.ascii_of_nat 91) then 3 else if Ascii.eqb c (Ascii.ascii_of_nat 93) then 4 else 2.

Definition json_kind (v : json) : nat :=
  match v with JsonStr _ => 0 | JsonInt _ => 1 | JsonBool _ => 2 | JsonArr _ => 3 end.

Lemma stringify_head v : ∃ c s, stringify v = String c s ∧ json_head c = json_kind v.
Proof.
  destruct v as [s|z|b|l].
  - by eexists _, _.
  - destruct (show_Z_head z) as (c & s & Hs & Hc). exists c, s. split; [exact Hs|].
    unfold json_head. rewrite Hc. destruct (Ascii.eqb_spec c double_quote) as [->|]; [discriminate Hc|done].
  - destruct b; by eexists _, _.
  - by eexists _, _.
Qed.

Lemma stringify_kind v w r r' : stringify v +:+ r = stringify w +:+ r' → json_kind v = json_kind w.
Proof.
  destruct (stringify_head v) as (c & s & -> & <-), (stringify_head w) as (d & t & -> & <-).
  rewrite !string_app_cons. by intros [= -> _].
Qed.

(** A value followed by a stop is read back uniquely. *)
Definition unambiguous (v : json) : Prop := ∀ w r r', json_stop r → json_stop r' →
  stringify v +:+ r = stringify w +:+ r' → v = w ∧ r = r'.

(** The values after the first one, each behind its comma. *)
Fixpoint items_text (l : list json) : string :=
  match l with [] => "" | v :: l => "," +:+ stringify v +:+ items_text l end.

Lemma join_items v l : join "," (map stringify (v :: l)) = stringify v +:+ items_text l.
Proof.
  revert v. induction l as [|w l IH]; intros v; [by rewrite string_app_nil|].
  change (join "," (map stringify (v :: w :: l))) with (stringify v +:+ "," +:+ join "," (map stringify (w :: l))).
  by rewrite IH.
Qed.

Definition closing : string := String (Ascii.ascii_of_nat 93) "".

Lemma items_stop l r : json_stop (items_text l +:+ closing +:+ r).
Proof. destruct l; [right|left]; reflexivity. Qed.

Lemma items_split l : Forall unambiguous l → ∀ l' r r',
  items_text l +:+ closing +:+ r = items_text l' +:+ closing +:+ r' → l = l' ∧ r = r'.
Proof.
  induction 1 as [|v l Hv Hl IH]; intros [|w l'] r r' Heq; cbn [items_text] in Heq.
  - split; [done|]. exact (string_app_inj closing _ _ Heq).
  - discriminate Heq.
  - discriminate Heq.
  - rewrite !string_app_assoc in Heq. injection Heq as Heq.
    apply Hv in Heq as [-> Heq]; [|apply items_stop|apply items_stop]. by destruct (IH _ _ _ Heq) as [-> ->].
Qed.

Lemma array_split l : Forall unambiguous l → ∀ l' r r',
  join "," (map stringify l) +:+ closing +:+ r = join "," (map stringify l') +:+ closing +:+ r' → l = l' ∧ r = r'.
Proof.
  assert (∀ v r r', closing +:+ r ≠ stringify v +:+ r') as Hclose.
  { intros v r r'. destruct (stringify_head v) as (c & s & -> & Hc). rewrite string_app_cons. intros [= <- _].
    by destruct v. }
  intros Hl l' r r'. destruct Hl as [|v l Hv Hl], l' as [|w l'];
    rewrite ?join_items, ?string_app_assoc; intros Heq.
  - split; [done|]. exact (string_app_inj closing _ _ Heq).
  - by apply Hclose in Heq.
  - symmetry in Heq. by apply Hclose in Heq.
  - apply Hv in Heq as [-> Heq]; [|apply items_stop|apply items_stop].
    by destruct (items_split l Hl _ _ _ Heq) as [-> ->].
Qed.

Lemma stringify_split v : unambiguous v.
Proof.
  induction v as [s|z|b|l IH] using json_ind'; intros w r r' Hr Hr' Heq;
    pose proof (stringify_kind _ _ _ _ Heq) as Hk; destruct w as [s'|z'|b'|l']; try discriminate Hk; cbn [stringify] in Heq.
  - by apply quote_split in Heq as [-> ->].
  - apply (class_split is_numeral) in Heq as [->%(inj show_Z) ->]; auto using show_Z_numeral, json_stop_stops.
  - destruct b, b'; try discriminate Heq; (split; [done|]); exact (string_app_inj _ _ _ Heq).
  - rewrite !string_app_assoc in Heq. injection Heq as Heq. by apply (array_split l IH) in Heq as [-> ->].
Qed.

#[export] Instance stringify_inj : Inj (=) (=) stringify.
Proof.
  intros v w Heq. apply (f_equal (λ s, s +:+ "")) in Heq. by apply stringify_split in Heq as [-> _].
Qed.

(* ------------------------------------------------------------------ *)
(** ** Keys are canonical *)

Definition is_leaf (v : jsval) : bool := match v with JArray _ | JObject _ => false | _ => true end.

Fixpoint jsval_ind' (P : jsval → Prop) (Hleaf : ∀ v, is_leaf v = true → P v)
    (Ha : ∀ l, Forall P l → P (JArray l)) (Ho : ∀ es, Forall (λ e, P (snd e)) es → P (JObject es)) (v : jsval) : P v :=
  match v with
  | JArray l => Ha l ((fix go l : Forall P l := match l with [] => Forall_nil_2 _
      | x :: l => Forall_cons_2 _ _ _ (jsval_ind' P Hleaf Ha Ho x) (go l) end) l)
  | JObject es => Ho es ((fix go es : Forall (λ e, P (snd e)) es := match es with [] => Forall_nil_2 _
      | e :: es => Forall_cons_2 _ _ _ (jsval_ind' P Hleaf Ha Ho (snd e)) (go es) end) es)
  | JUndefined => Hleaf JUndefined eq_refl
  | JNull => Hleaf JNull eq_refl
  | JBool b => Hleaf (JBool b) eq_refl
  | JNum n => Hleaf (JNum n) eq_refl
  | JBigint z => Hleaf (JBigint z) eq_refl
  | JString s => Hleaf (JString s) eq_refl
  | JExotic es => Hleaf (JExotic es) eq_refl
  | JOther t => Hleaf (JOther t) eq_refl
  end.

(** A value with the entries of every object in key order: the value up to the
    order in which keys were added. *)
Fixpoint norm (v : jsval) : jsval :=
  match v with
  | JArray l => JArray (map norm l)
  | JObject es => JObject (sort_entries (map (λ e, (fst e, norm (snd e))) es))
  | _ => v
  end.

(** The values a key accepts: safe integers, strings, bigints, booleans, null,
    and arrays and plain objects of them. *)
Fixpoint encodable (v : jsval) : bool :=
  match v with
  | JNull | JBool _ | JBigint _ | JString _ => true
  | JNum n => match n with NumInt _ => isSafeInteger n | _ => false end
  | JArray l => forallb encodable l
  | JObject es => forallb (λ e, encodable (snd e)) es
  | JUndefined | JExotic _ | JOther _ => false
  end.

Lemma norm_perm es es' : NoDup (map fst es) → es ≡ₚ es' → norm (JObject es) = norm (JObject es').
Proof.
  intros Hnd Hp. cbn [norm]. f_equal. apply sort_unique; [|by apply Permutation_map].
  by rewrite map_map.
Qed.

Lemma mapM_ext {A B E} (f g : A → result E B) l : Forall (λ x, f x = g x) l → mapM_result f l = mapM_result g l.
Proof. induction 1 as [|x l Hx Hl IH]; [done|]. cbn. by rewrite Hx, IH. Qed.

Lemma mapM_map {A B C E} (f : B → result E C) (g : A → B) l : mapM_result f (map g l) = mapM_result (λ x, f (g x)) l.
Proof. induction l as [|x l IH]; [done|]. cbn. by rewrite IH. Qed.

Lemma mapM_is_ok {A B E} (f : A → result E B) l : is_ok (mapM_result f l) = forallb (λ x, is_ok (f x)) l.
Proof.
  induction l as [|x l IH]; [done|]. cbn. rewrite <- IH. destruct (f x); [|done]. cbn.
  by destruct (mapM_result f l).
Qed.

(** An object is encoded entry by entry in key order. *)
Lemma encode_object es : encode (JObject es) =
  (vs ← mapM_result (λ e, v ← encode (snd e); Ok (entry_json (fst e, v))) (sort_entries es); Ok (tagged "object" (JsonArr vs))).
Proof. cbn [encode]. by rewrite (sort_map encode), mapM_map. Qed.

Lemma encode_norm v : encode (norm v) = encode v.
Proof.
  induction v as [v Hl|l IH|es IH] using jsval_ind'.
  - by destruct v.
  - cbn [norm encode]. rewrite mapM_map. by rewrite (mapM_ext _ _ _ IH).
  - cbn [norm]. rewrite !encode_object. rewrite (sort_id (sort_entries _)) by apply sort_sorted.
    rewrite (sort_map norm), mapM_map. cbn [fst snd]. erewrite mapM_ext; [reflexivity|].
    rewrite sort_perm. eapply Forall_impl; [exact IH|]. intros e ->. done.
Qed.

Lemma encodable_ok v : is_ok (encode v) = encodable v.
Proof.
  induction v as [v Hl|l IH|es IH] using jsval_ind'.
  - destruct v as [| |b|n|z|s|l|es|ex|t]; try done. destruct n; try done. cbn [encode encodable]. by case_match.
  - cbn [encode encodable]. transitivity (is_ok (mapM_result encode l)); [by destruct (mapM_result encode l)|].
    rewrite mapM_is_ok. induction IH as [|x l Hx _ IHl]; [done|]. cbn. by rewrite Hx, IHl.
  - rewrite encode_object. cbn [encodable].
    transitivity (is_ok (mapM_result (λ e, v ← encode (snd e); Ok (entry_json (fst e, v))) (sort_entries es)));
      [by destruct (mapM_result _ _)|].
    rewrite mapM_is_ok. apply eq_bool_prop_intro. rewrite !Is_true_true, !forallb_forall.
    assert (∀ e, e ∈ es → is_ok (v ← encode (snd e); Ok (entry_json (fst e, v))) = encodable (snd e)) as He.
    { intros e Hin. rewrite Forall_forall in IH. rewrite <- (IH e Hin). by destruct (encode (snd e)). }
    split; intros Hall e Hin; specialize (Hall e).
    + apply list_elem_of_In in Hin. rewrite <- He by done. apply Hall, list_elem_of_In. by rewrite sort_perm.
    + apply list_elem_of_In in Hin. rewrite sort_perm in Hin. rewrite He by done. by apply Hall, list_elem_of_In.
Qed.

Lemma encode_inj v w j : encode v = Ok j → encode w = Ok j → norm v = norm w.
Proof.
  revert w j. induction v as [v Hl|l IH|es IH] using jsval_ind'; intros w j Hv Hw.
  - destruct v as [| |b|n|z|s|l|es|ex|t]; try discriminate Hv; try discriminate Hl;
      destruct w as [| |b'|n'|z'|s'|l'|es'|ex'|t'];
      try (destruct n as [m| |]; [|discriminate Hv|discriminate Hv]); try (destruct n' as [m'| |]; [|discriminate Hw|discriminate Hw]);
      cbn [encode] in Hv, Hw; repeat case_match; simplify_eq; try done;
      try (apply bind_Ok in Hw as (? & _ & ?)); simplify_eq; done.
  - cbn [encode] in Hv. apply bind_Ok in Hv as (js & Hjs & [= <-]).
    destruct w as [| |b'|n'|z'|s'|l'|es'|ex'|t']; try discriminate Hw;
      [by destruct n'; cbn [encode] in Hw; repeat case_match; simplify_eq| |apply bind_Ok in Hw as (? & _ & ?); by simplify_eq].
    cbn [encode] in Hw. apply bind_Ok in Hw as (js' & Hjs' & [= <-]). cbn [norm]. f_equal.
    apply mapM_result_Ok in Hjs, Hjs'. revert l' Hjs'. induction Hjs as [|x y l js Hx Hjs IHl]; intros l' Hl'.
    + by inversion Hl'.
    + inversion Hl' as [|x' ? l2 ? Hx' Hl2]; subst. inversion IH as [|? ? IHx IHl3]; subst.
      cbn [map]. f_equal; [by eapply IHx|by apply IHl].
  - rewrite encode_object in Hv. apply bind_Ok in Hv as (js & Hjs & [= <-]).
    destruct w as [| |b'|n'|z'|s'|l'|es'|ex'|t']; try discriminate Hw;
      [by destruct n'; cbn [encode] in Hw; repeat case_match; simplify_eq|cbn [encode] in Hw; apply bind_Ok in Hw as (? & _ & ?); by simplify_eq|].
    rewrite encode_object in Hw. apply bind_Ok in Hw as (js' & Hjs' & [= <-]). cbn [norm]. f_equal. rewrite !sort_map.
    rewrite <- (sort_perm es) in IH. revert IH Hjs Hjs'. generalize (sort_entries es) (sort_entries es'). clear.
    intros l l' IH Hjs%mapM_result_Ok Hjs'%mapM_result_Ok. revert l' Hjs'.
    induction Hjs as [|[k x] y l js Hx Hjs IHl]; intros l' Hl'.
    + by inversion Hl'.
    + inversion Hl' as [|[k' x'] ? l2 ? Hx' Hl2]; subst. inversion IH as [|? ? IHx IHl3]; subst. cbn [fst snd map] in *.
      apply bind_Ok in Hx as (vx & Hx & [= <-]). apply bind_Ok in Hx' as (vx' & Hx' & Heq).
      injection Heq as -> ->. f_equal; [|by apply IHl]. f_equal. by eapply IHx.
Qed.

Lemma canonicalKey_ok v : is_ok (canonicalKey v) = encodable v.
Proof. unfold canonicalKey. rewrite <- encodable_ok. by destruct (encode v). Qed.

Lemma canonicalKey_norm v : canonicalKey (norm v) = canonicalKey v.
Proof. unfold canonicalKey. by rewrite encode_norm. Qed.

Lemma canonicalKey_inj v w k : canonicalKey v = Ok k → canonicalKey w = Ok k → norm v = norm w.
Proof.
  unfold canonicalKey. destruct (encode v) as [j|] eqn:Ev; [|done]. destruct (encode w) as [j'|] eqn:Ew; [|done].
  cbn. intros [= <-] [= Heq%(inj stringify)]. subst j'. by eapply encode_inj.
Qed.

(** C37: [canonicalKey] is a canonical form: it returns a key exactly for the
    values it accepts - safe integers, strings, bigints, booleans, null, and
    arrays and plain objects of them - and two accepted values have the same
    key exactly when they are equal up to the order of object keys: no two
    different values, whatever their types, share a key. *)
Theorem canonicalKey_canonical v w :
  is_ok (canonicalKey v) = encodable v ∧
  (encodable v = true → encodable w = true → (canonicalKey v = canonicalKey w ↔ norm v = norm w)).
Proof.
  split; [apply canonicalKey_ok|]. rewrite <- !canonicalKey_ok. intros Hv Hw. split.
  - destruct (canonicalKey v) as [k|] eqn:Ev; [|done]. intros Hk. symmetry in Hk. by eapply canonicalKey_inj.
  - intros Hn. by rewrite <- (canonicalKey_norm v), Hn, canonicalKey_norm.
Qed.

(** Two orders of the same object, and a number against a numeral. *)
Lemma canonicalKey_canonical_witness :
  let v := JObject [("a", JBigint 5); ("b", JString "5n")] in
  let w := JObject [("b", JString "5n"); ("a", JBigint 5)] in
  encodable v = true ∧ is_ok (canonicalKey v) = encodable v ∧ (canonicalKey v = canonicalKey w ↔ norm v = norm w).
Proof.
  intros v w. split; [reflexivity|]. destruct (canonicalKey_canonical v w) as [Hok Hkey].
  split; [exact Hok|]. apply Hkey; reflexivity.
Defined.

(* ------------------------------------------------------------------ *)
(** ** Typed values seen as JavaScript values *)

(** An interface: the values of a type as the code would pass them to
    [canonicalKey], told apart by their normal forms. *)
Class ToJs (A : Type) := {
  to_js : A → jsval;
  to_js_inj a b : norm (to_js a) = norm (to_js b) → a = b;
}.

(** Types none of whose values is [null]. *)
Class NotNull (A : Type) `{!ToJs A} := to_js_not_null (a : A) : norm (to_js a) ≠ JNull.

#[export] Program Instance string_to_js : ToJs string := {| to_js := JString |}.
Next Obligation. by intros a b [= ->]. Qed.
#[export] Program Instance Z_to_js : ToJs Z := {| to_js := JBigint |}.
Next Obligation. by intros a b [= ->]. Qed.
#[export] Program Instance bool_to_js : ToJs bool := {| to_js := JBool |}.
Next Obligation. by intros a b [= ->]. Qed.
#[export] Program Instance jsnum_to_js : ToJs jsnum := {| to_js := JNum |}.
Next Obligation. by intros a b [= ->]. Qed.

#[export] Instance string_not_null : NotNull string.
Proof. by intros a. Qed.
#[export] Instance Z_not_null : NotNull Z.
Proof. by intros a. Qed.
#[export] Instance bool_not_null : NotNull bool.
Proof. by intros a. Qed.

(** [x ?? null] fields. *)
#[export] Instance option_to_js {A} `{!ToJs A, !NotNull A} : ToJs (option A).
Proof.
  refine {| to_js o := match o with Some a => to_js a | None => JNull end |}.
  intros [a|] [b|] Heq; [by rewrite (to_js_inj a b Heq)|by destruct (to_js_not_null a)|symmetry in Heq; by destruct (to_js_not_null b)|done].
Defined.

#[export] Program Instance list_to_js {A} `{!ToJs A} : ToJs (list A) := {| to_js l := JArray (map to_js l) |}.
Next Obligation.
  intros A ? l. induction l as [|x l IH]; intros [|y l'] Heq; try done; cbn in Heq.
  injection Heq as Hx Hl. f_equal; [by apply to_js_inj|]. apply IH. cbn. by f_equal.
Qed.

#[export] Program Instance pair_to_js {A B} `{!ToJs A, !ToJs B} : ToJs (A * B) := {| to_js p := JArray [to_js p.1; to_js p.2] |}.
Next Obligation.
  intros A B ? ? [a b] [a' b'] Heq. injection Heq as Ha Hb. by rewrite (to_js_inj _ _ Ha), (to_js_inj _ _ Hb).
Qed.

(** Types all of whose values have a key. *)
Class Keyed (A : Type) `{!ToJs A} := keyed (a : A) : encodable (to_js a) = true.
#[export] Instance string_keyed : Keyed string.
Proof. by intros a. Qed.
#[export] Instance Z_keyed : Keyed Z.
Proof. by intros a. Qed.
#[export] Instance bool_keyed : Keyed bool.
Proof. by intros a. Qed.
#[export] Instance option_keyed {A} `{!ToJs A, !NotNull A, !Keyed A} : Keyed (option A).
Proof. intros [a|]; [exact (keyed a)|reflexivity]. Qed.
#[export] Instance list_keyed {A} `{!ToJs A, !Keyed A} : Keyed (list A).
Proof. intros l. induction l as [|x l IH]; [reflexivity|]. cbn. by rewrite keyed. Qed.
#[export] Instance pair_keyed {A B} `{!ToJs A, !ToJs B, !Keyed A, !Keyed B} : Keyed (A * B).
Proof. intros [a b]. cbn. by rewrite !keyed. Qed.

(** Comparing typed values by their keys is comparing the values. *)
Lemma canonicalKey_to_js {A} `{!ToJs A} (a b : A) : encodable (to_js a) = true → encodable (to_js b) = true →
  ∃ ka kb, canonicalKey (to_js a) = Ok ka ∧ canonicalKey (to_js b) = Ok kb ∧ (ka = kb ↔ a = b).
Proof.
  rewrite <- !canonicalKey_ok. destruct (canonicalKey (to_js a)) as [ka|] eqn:Ea; [|done].
  destruct (canonicalKey (to_js b)) as [kb|] eqn:Eb; [|done]. intros _ _. exists ka, kb. split_and!; [done|done|].
  split; [|intros ->; congruence]. intros ->. apply to_js_inj. by eapply canonicalKey_inj.
Qed.

Lemma perm_same_keys {A} (l l' : list (string * A)) :
  map fst l = map fst l' → NoDup (map fst l) → l ≡ₚ l' → l = l'.
Proof.
  revert l'. induction l as [|[k x] l IH]; intros [|[k' x'] l']; try done. cbn [map fst].
  intros [= <- Hk] [Hn Hnd]%NoDup_cons Hp.
  assert ((k, x) ∈ (k, x') :: l') as Hin by (rewrite <- Hp; left).
  apply elem_of_cons in Hin as [[= <-]|Hin].
  - f_equal. apply IH; [done|done|]. by eapply Permutation.Permutation_cons_inv.
  - destruct Hn. rewrite Hk. apply list_elem_of_fmap. by exists (k, x).
Qed.

(** Two records written with the same keys have equal normal forms only if
    their fields do. *)
Lemma norm_fields_inj es es' : map fst es = map fst es' → NoDup (map fst es) →
  norm (JObject es) = norm (JObject es') → map (λ e, norm (snd e)) es = map (λ e, norm (snd e)) es'.
Proof.
  intros Hk Hnd [= Hs].
  assert (map (λ e, (fst e, norm (snd e))) es = map (λ e, (fst e, norm (snd e))) es') as Heq.
  { apply perm_same_keys; [by rewrite !map_map|by rewrite map_map|]. by rewrite <- sort_perm, Hs, sort_perm. }
  apply (f_equal (map snd)) in Heq. by rewrite !map_map in Heq.
Qed.

Lemma cons_eq_inv {A} (x y : A) l k : x :: l = y :: k → x = y ∧ l = k.
Proof. by intros [= -> ->]. Qed.

(** From the equality of two record values to the equality of the records. *)
Ltac record_inj H :=
  apply norm_fields_inj in H; [|reflexivity|apply (bool_decide_unpack (NoDup _)); vm_compute; exact I];
  cbn [map snd] in H;
  repeat (let H1 := fresh "Hf" in apply cons_eq_inv in H as [H1 H]; apply to_js_inj in H1);
  clear H; simplify_eq/=; reflexivity.
