(* ===== verification/StateTypes.v ===== *)
(** * types.ts and economic-state.ts: the data of representation-state

    Observations, policies and resolved states, and the economic-state binding
    with its comparison. A [number] field is a [jsnum], a [bigint] a [Z], a
    nullable field an option. *)

From S2P Require Import Prelude Js Errors Kit Abi CanonicalKey.

Inductive RepresentationState : Set := SAFE | TRANSITION | PAUSED | UNKNOWN.
Inductive StateSource : Set := CHAIN | API | BOTH_AGREE | CONFLICT.
Inductive Calibration : Set := UNCALIBRATED | CALIBRATED.

#[export] Instance RepresentationState_eq_dec : EqDecision RepresentationState.
Proof. solve_decision. Defined.
#[export] Instance StateSource_eq_dec : EqDecision StateSource.
Proof. solve_decision. Defined.
#[export] Instance Calibration_eq_dec : EqDecision Calibration.
Proof. solve_decision. Defined.

(** [Issuer] of registry.ts. *)
Inductive Issuer : Set := xStocks | Ondo | DEVNET_TEST.

#[export] Instance Issuer_eq_dec : EqDecision Issuer.
Proof. solve_decision. Defined.

Record TransitionPolicy := mkPolicy {
  pol_beforeSecs : Z;
  pol_afterSecs : Z;
  pol_calibration : Calibration;
  pol_basis : string;
}.

Record ChainObservation := mkObservation {
  ob_mint : string;
  ob_slot : option Z;
  ob_blockTime : option Z;
  ob_observedAt : option string;
  ob_chainUnixTimestamp : option Z;
  ob_decimals : jsnum;
  ob_paused : option bool;
  ob_protectedState : ProtectedState;
  ob_hasScheduledChange : bool;
  ob_phase : option Z;
}.

Record ChainDecodeFailure := mkDecodeFailure {
  df_mint : string;
  df_slot : option Z;
  df_blockTime : option Z;
  df_observedAt : option string;
  df_code : string;
  df_message : string;
}.

Inductive ChainEvidence : Type :=
| Decoded (observation : ChainObservation)
| DecodeError (failure : ChainDecodeFailure).

(** The fields both kinds of evidence have. *)
Definition ev_mint (e : ChainEvidence) : string := match e with Decoded o => ob_mint o | DecodeError f => df_mint f end.
Definition ev_slot (e : ChainEvidence) : option Z := match e with Decoded o => ob_slot o | DecodeError f => df_slot f end.
Definition ev_blockTime (e : ChainEvidence) : option Z :=
  match e with Decoded o => ob_blockTime o | DecodeError f => df_blockTime f end.
Definition ev_observedAt (e : ChainEvidence) : option string :=
  match e with Decoded o => ob_observedAt o | DecodeError f => df_observedAt f end.

Inductive ApiStatus : Set := active | paused_status | transition_status | unknown_status.

(** [sourceClass] is compared as a string: data from outside may hold another one. *)
Definition LIVE_API_STATE : string := "LIVE_API_STATE".
Definition HISTORICAL_API_STATE : string := "HISTORICAL_API_STATE".

Record ApiObservation := mkApi {
  api_issuer : Issuer;
  api_symbol : string;
  api_observedAt : string;
  api_status : ApiStatus;
  api_detail : option string;
  api_calibration : Calibration;
  api_sourceClass : string;
  api_validUntil : option string;
}.

Record ResolvedRepresentationState := mkResolved {
  rs_underlying : string;
  rs_issuer : Issuer;
  rs_symbol : string;
  rs_mint : string;
  rs_state : option RepresentationState;
  rs_stateSource : option StateSource;
  rs_chainState : option RepresentationState;
  rs_apiState : option RepresentationState;
  rs_slot : option Z;
  rs_blockTime : option Z;
  rs_observedAt : option string;
  rs_reason : string;
  rs_chainObservation : option ChainEvidence;
  rs_apiObservation : option ApiObservation;
  rs_transitionPolicy : option TransitionPolicy;
}.

(** Spellings. *)
Definition show_state (s : RepresentationState) : string :=
  match s with SAFE => "SAFE" | TRANSITION => "TRANSITION" | PAUSED => "PAUSED" | UNKNOWN => "UNKNOWN" end.
Definition show_source (s : StateSource) : string :=
  match s with CHAIN => "chain" | API => "api" | BOTH_AGREE => "both-agree" | CONFLICT => "conflict" end.
Definition show_calibration (c : Calibration) : string :=
  match c with UNCALIBRATED => "UNCALIBRATED" | CALIBRATED => "CALIBRATED" end.
Definition show_issuer (i : Issuer) : string :=
  match i with xStocks => "xStocks" | Ondo => "Ondo" | DEVNET_TEST => "DEVNET_TEST" end.
Definition show_status (s : ApiStatus) : string :=
  match s with active => "active" | paused_status => "paused" | transition_status => "transition" | unknown_status => "unknown" end.

(** [String(x)] of a nullable value. *)
Definition show_option {A} (f : A → string) (o : option A) : string := match o with Some a => f a | None => "null" end.

#[export] Instance show_state_inj : Inj (=) (=) show_state.
Proof. by intros [] []. Qed.
#[export] Instance show_source_inj : Inj (=) (=) show_source.
Proof. by intros [] []. Qed.
#[export] Instance show_calibration_inj : Inj (=) (=) show_calibration.
Proof. by intros [] []. Qed.
#[export] Instance show_issuer_inj : Inj (=) (=) show_issuer.
Proof. by intros [] []. Qed.

(* ------------------------------------------------------------------ *)
(** ** economic-state.ts *)

Record EconomicState := mkEconomic {
  es_mint : string;
  es_decimals : jsnum;
  es_multiplierHex : string;
  es_newMultiplierHex : string;
  es_effectiveTimestamp : Z;
  es_phase : Z;
  es_paused : option bool;
}.

#[export] Instance EconomicState_eq_dec : EqDecision EconomicState.
Proof. solve_decision. Defined.

Definition economicStateOf (evidence : option ChainEvidence) : option EconomicState :=
  match evidence with
  | Some (Decoded o) =>
      match ob_phase o with
      | None => None
      | Some phase => Some (mkEconomic (ob_mint o) (ob_decimals o)
          (toHex (multiplier (ob_protectedState o))) (toHex (newMultiplier (ob_protectedState o)))
          (newMultiplierEffectiveTimestamp (ob_protectedState o)) phase (ob_paused o))
      end
  | _ => None
  end.

(** [a === b] on numbers: -0 equals 0, NaN is equal to nothing. *)
Definition num_strict_eq (a b : jsnum) : bool :=
  match a, b with
  | NumOther s, NumOther t => String.eqb s t && negb (String.eqb s "NaN")
  | NumOther _, _ | _, NumOther _ => false
  | _, _ => num_value a =? num_value b
  end.

(** One field of the comparison: its name, whether it differs and both values as text. *)
Definition field_mismatch (field : string) (same : bool) (expected actual : string) : list string :=
  if same then [] else [field +:+ " " +:+ expected +:+ " != " +:+ actual].

Definition economicStateMismatches (expected actual : EconomicState) : list string :=
  field_mismatch "mint" (String.eqb (es_mint expected) (es_mint actual)) (es_mint expected) (es_mint actual) ++
  field_mismatch "decimals" (num_strict_eq (es_decimals expected) (es_decimals actual))
    (show_num (es_decimals expected)) (show_num (es_decimals actual)) ++
  field_mismatch "multiplierHex" (String.eqb (es_multiplierHex expected) (es_multiplierHex actual))
    (es_multiplierHex expected) (es_multiplierHex actual) ++
  field_mismatch "newMultiplierHex" (String.eqb (es_newMultiplierHex expected) (es_newMultiplierHex actual))
    (es_newMultiplierHex expected) (es_newMultiplierHex actual) ++
  field_mismatch "effectiveTimestamp" (es_effectiveTimestamp expected =? es_effectiveTimestamp actual)
    (show_Z (es_effectiveTimestamp expected)) (show_Z (es_effectiveTimestamp actual)) ++
  field_mismatch "phase" (es_phase expected =? es_phase actual) (show_Z (es_phase expected)) (show_Z (es_phase actual)) ++
  field_mismatch "paused" (bool_decide (es_paused expected = es_paused actual))
    (show_option show_bool (es_paused expected)) (show_option show_bool (es_paused actual)).

Definition protectedStateOf (state : EconomicState) : ProtectedState :=
  mkProtectedState (fromHex (es_multiplierHex state)) (fromHex (es_newMultiplierHex state)) (es_effectiveTimestamp state).

Definition effectiveMultiplierBytes (state : EconomicState) : bytes :=
  fromHex (if es_phase state =? Activated then es_newMultiplierHex state else es_multiplierHex state).

(* ------------------------------------------------------------------ *)
(** ** Values passed to [canonicalKey] *)

(** An enumeration is passed as its spelling. *)
Definition text_to_js {A} (f : A → string) `{!Inj (=) (=) f} : ToJs A.
Proof. refine {| to_js a := JString (f a) |}. intros a b [= Heq]. by apply (inj f). Defined.

#[export] Instance state_to_js : ToJs RepresentationState := text_to_js show_state.
#[export] Instance source_to_js : ToJs StateSource := text_to_js show_source.
#[export] Instance calibration_to_js : ToJs Calibration := text_to_js show_calibration.
#[export] Instance issuer_to_js : ToJs Issuer := text_to_js show_issuer.
#[export] Instance state_not_null : NotNull RepresentationState.
Proof. by intros a. Qed.
#[export] Instance source_not_null : NotNull StateSource.
Proof. by intros a. Qed.

Definition policy_value (p : TransitionPolicy) : jsval :=
  JObject [("beforeSecs", to_js (pol_beforeSecs p)); ("afterSecs", to_js (pol_afterSecs p));
           ("calibration", to_js (pol_calibration p)); ("basis", to_js (pol_basis p))].

Definition economic_value (s : EconomicState) : jsval :=
  JObject [("mint", to_js (es_mint s)); ("decimals", to_js (es_decimals s)); ("multiplierHex", to_js (es_multiplierHex s));
           ("newMultiplierHex", to_js (es_newMultiplierHex s)); ("effectiveTimestamp", to_js (es_effectiveTimestamp s));
           ("phase", to_js (NumInt (es_phase s))); ("paused", to_js (es_paused s))].

#[export] Instance policy_to_js : ToJs TransitionPolicy.
Proof.
  refine {| to_js := policy_value |}. intros [b a c s] [b' a' c' s'] Heq. record_inj Heq.
Defined.

#[export] Instance economic_to_js : ToJs EconomicState.
Proof.
  refine {| to_js := economic_value |}. intros [m d x y t p q] [m' d' x' y' t' p' q'] Heq. record_inj Heq.
Defined.

(** The binding and its comparison: no mismatch means equal states. *)
Lemma field_mismatch_nil field same a b : field_mismatch field same a b = [] ↔ same = true.
Proof. by destruct same. Qed.

Lemma num_strict_eq_int a b : isInteger a = true →
  (num_strict_eq a b = true ↔ isInteger b = true ∧ num_value a = num_value b).
Proof. destruct a, b; cbn [num_strict_eq isInteger num_value]; rewrite ?Z.eqb_eq; intuition congruence. Qed.

(** The types a binding is expected to have: an integer number of decimals. *)
Lemma economicStateMismatches_nil a b : isInteger (es_decimals a) = true →
  (economicStateMismatches a b = [] ↔
  es_mint a = es_mint b ∧ (isInteger (es_decimals b) = true ∧ num_value (es_decimals a) = num_value (es_decimals b)) ∧
  es_multiplierHex a = es_multiplierHex b ∧ es_newMultiplierHex a = es_newMultiplierHex b ∧
  es_effectiveTimestamp a = es_effectiveTimestamp b ∧ es_phase a = es_phase b ∧ es_paused a = es_paused b).
Proof.
  intros Hd. unfold economicStateMismatches.
  rewrite !app_nil, !field_mismatch_nil, !String.eqb_eq, num_strict_eq_int, !Z.eqb_eq, bool_decide_eq_true by done. tauto.
Qed.
