(* ===== verification/Normalize.v ===== *)
(** * normalize.ts: exact share-equivalents

    [bigint] division and remainder are [Z.quot] and [Z.rem]. Euclid's loop runs
    on fuel: the remainder halves every two rounds, so twice the bit length of
    the second argument is enough. *)

From S2P Require Import Prelude Js Errors Kit Abi StateErrors.
From Stdlib Require Import Floats.SpecFloat Znumtheory.

Record Rational := mkRational { num : Z; den : Z }.

Definition BPS : Z := 10000.
Definition F64_BIAS_PLUS_MANTISSA_BITS : Z := 1075.
Definition F64_MANTISSA_MASK : Z := Z.shiftl 1 52 - 1.
Definition F64_IMPLICIT_ONE : Z := Z.shiftl 1 52.
Definition MAX_DECIMALS : Z := 255.

(** The loop of [gcd]. *)
Fixpoint gcd_loop (fuel : nat) (x y : Z) : option Z :=
  match fuel with
  | O => None
  | S fuel => if y =? 0 then Some x else gcd_loop fuel y (Z.rem x y)
  end.

Definition gcd_fuel (b : Z) : nat := 2 * Z.to_nat (Z.log2 (Z.abs b) + 1) + 2.

Definition gcd (a b : Z) : option Z := gcd_loop (gcd_fuel b) (if a <? 0 then - a else a) b.

(** [gcd(num, den) || 1n]. *)
Definition rational (n d : Z) : option Rational :=
  g ← gcd n d;
  let divisor := if g =? 0 then 1 else g in
  Some (mkRational (Z.quot n divisor) (Z.quot d divisor)).

(** A modelled loop that did not end, which cannot happen. *)
Definition unfinished : state_exn := GuardThrown OutOfFuel.

Definition rational_of (n d : Z) : result state_exn Rational := of_option unfinished (rational n d).

Definition multiplierToRational (b : bytes) : result state_exn Rational :=
  norm_throw_if (negb (isValidStoredMultiplier b)) InvalidMultiplier "multiplier must be 8 bytes encoding a positive normal f64";;
  bits ← of_option (RangeThrown "getBigUint64") (get_uint 8 b 0);
  let exponent := Z.land (Z.shiftr bits 52) 2047 in
  let significand := F64_IMPLICIT_ONE + Z.land bits F64_MANTISSA_MASK in
  let shift := exponent - F64_BIAS_PLUS_MANTISSA_BITS in
  if 0 <=? shift then rational_of (Z.shiftl significand shift) 1 else rational_of significand (Z.shiftl 1 (- shift)).

(** [ShareInput]: [decimals] may be [null] or [undefined]. *)
Record ShareInput := mkShareInput { si_outputRaw : Z; si_decimals : option jsnum; si_effectiveMultiplier : bytes }.

Definition sharesEquivalent (input : ShareInput) : result state_exn Rational :=
  match si_decimals input with
  | None => Err (NormalizationThrown MissingDecimals "decimals are required and are never assumed")
  | Some decimals =>
      norm_throw_if (negb (num_in_range 0 MAX_DECIMALS decimals)) InvalidDecimals
        ("decimals must be an integer in [0, " +:+ show_Z MAX_DECIMALS +:+ "]");;
      norm_throw_if (si_outputRaw input <? 0) NegativeAmount "raw amount must be non-negative";;
      multiplier ← multiplierToRational (si_effectiveMultiplier input);
      rational_of (si_outputRaw input * num multiplier) (den multiplier * 10 ^ num_value decimals)
  end.

Definition compareRationals (a b : Rational) : Z :=
  let left := num a * den b in
  let right := num b * den a in
  if left <? right then -1 else if right <? left then 1 else 0.

Definition withinToleranceBps (a b : Rational) (toleranceBps : Z) : result state_exn bool :=
  norm_throw_if (toleranceBps <? 0) InvalidTolerance "tolerance must be non-negative";;
  let diff := num a * den b - num b * den a in
  let absDiff := if diff <? 0 then - diff else diff in
  let max := if 0 <=? compareRationals a b then a else b in
  Ok (absDiff * BPS * den max <=? toleranceBps * num max * den a * den b).

(** A BigInt division: by [0n] it is a [RangeError]. *)
Definition bigint_div (n d : Z) : result state_exn Z :=
  throw_if (d =? 0) (RangeThrown "Division by zero");; Ok (Z.quot n d).

Definition ceilDiv (n d : Z) : result state_exn Z :=
  if 0 <=? n then bigint_div (n + d - 1) d else q ← bigint_div (- n) d; Ok (- q).

(** [s.padStart(places, '0')]. *)
Definition padStart0 (places : nat) (s : string) : string :=
  String.concat "" (replicate (places - String.length s) "0") +:+ s.

Definition formatRationalFloor (value : Rational) (places : nat) : result state_exn string :=
  let scale := 10 ^ Z.of_nat places in
  scaled ← bigint_div (num value * scale) (den value);
  let whole := Z.quot scaled scale in
  let fraction := padStart0 places (show_Z (Z.rem scaled scale)) in
  Ok (if Nat.eqb places 0 then show_Z whole else show_Z whole +:+ "." +:+ fraction).

(* ------------------------------------------------------------------ *)
(** ** Euclid's loop *)

Lemma gcd_loop_total n x y : 0 ≤ x → 0 ≤ y < 2 ^ Z.of_nat n → gcd_loop (2 * n + 1) x y = Some (Z.gcd x y).
Proof.
  revert x y. induction n as [|n IH]; intros x y Hx Hy.
  - replace y with 0 by (cbn in Hy; lia). cbn. by rewrite Z.gcd_0_r, Z.abs_eq.
  - replace (2 * S n + 1)%nat with (S (S (2 * n + 1))) by lia. cbn [gcd_loop].
    destruct (Z.eqb_spec y 0) as [->|Hy0]; [by rewrite Z.gcd_0_r, Z.abs_eq|].
    rewrite Z.rem_mod_nonneg by lia. pose proof (Z.mod_pos_bound x y ltac:(lia)) as Hr.
    assert (Z.gcd x y = Z.gcd y (x mod y)) as ->.
    { rewrite (Z.gcd_comm y), Z.gcd_mod by lia. apply Z.gcd_comm. }
    destruct (Z.eqb_spec (x mod y) 0) as [->|Hr0]; [by rewrite Z.gcd_0_r, Z.abs_eq by lia|].
    rewrite Z.rem_mod_nonneg by lia. set (r := x mod y) in *.
    pose proof (Z.mod_pos_bound y r ltac:(lia)) as Hr2.
    assert (2 * (y mod r) < y) as Hhalf.
    { pose proof (Z.div_mod y r ltac:(lia)) as Hd. assert (1 ≤ y / r) by (apply Z.div_le_lower_bound; lia). nia. }
    rewrite IH; [|lia|].
    + f_equal. rewrite (Z.gcd_comm r), Z.gcd_mod by lia. apply Z.gcd_comm.
    + rewrite Nat2Z.inj_succ, Z.pow_succ_r in Hy by lia. lia.
Qed.

Lemma gcd_loop_mono fuel k x y g : gcd_loop fuel x y = Some g → gcd_loop (fuel + k) x y = Some g.
Proof.
  revert x y. induction fuel as [|fuel IH]; intros x y; [done|]. cbn. destruct (y =? 0); [done|apply IH].
Qed.

Lemma gcd_eq a b : 0 ≤ b → gcd a b = Some (Z.gcd a b).
Proof.
  intros Hb. unfold gcd, gcd_fuel.
  assert ((if a <? 0 then - a else a) = Z.abs a) as -> by (destruct (Z.ltb_spec a 0); lia).
  rewrite <- (Z.gcd_abs_l a b). rewrite (Z.abs_eq b) by done.
  replace (2 * Z.to_nat (Z.log2 b + 1) + 2)%nat with ((2 * Z.to_nat (Z.log2 b + 1) + 1) + 1)%nat by lia.
  apply gcd_loop_mono, gcd_loop_total; [lia|]. pose proof (Z.log2_nonneg b).
  rewrite Z2Nat.id by lia. split; [done|].
  destruct (decide (b = 0)) as [->|]; [done|]. by apply Z.log2_spec; lia.
Qed.

(** [r] is the quotient [n / d] in lowest terms with a positive denominator. *)
Record lowest_terms (r : Rational) (n d : Z) : Prop := {
  lt_value : num r * d = n * den r;
  lt_pos : 0 < den r;
  lt_coprime : Z.gcd (num r) (den r) = 1;
}.

Lemma rational_lowest n d : 0 < d → ∃ r, rational n d = Some r ∧ lowest_terms r n d.
Proof.
  intros Hd. unfold rational. rewrite gcd_eq by lia. cbn [mbind option_bind].
  pose proof (Z.gcd_nonneg n d). assert (Z.gcd n d ≠ 0) by (intros H0; apply Z.gcd_eq_0_r in H0; lia).
  rewrite (proj2 (Z.eqb_neq _ _)) by done. eexists; split; [reflexivity|].
  destruct (Z.gcd_divide_l n d) as [n' Hn], (Z.gcd_divide_r n d) as [d' Hd'].
  set (g := Z.gcd n d) in *. assert (Z.quot n g = n') as E1 by (rewrite Hn; apply Z.quot_mul; lia).
  assert (Z.quot d g = d') as E2 by (rewrite Hd'; apply Z.quot_mul; lia).
  split; cbn [num den]; rewrite ?E1, ?E2.
  - rewrite Hn, Hd' at 1. ring.
  - nia.
  - rewrite <- E1, <- E2. rewrite !Z.quot_div_exact by (done || (unfold g; auto using Z.gcd_divide_l, Z.gcd_divide_r)).
    by apply Z.gcd_div_gcd.
Qed.

Lemma lowest_unique r r' n d : 0 < d → lowest_terms r n d → lowest_terms r' n d → r = r'.
Proof.
  intros Hd [Hv Hp Hc] [Hv' Hp' Hc']. destruct r as [a b], r' as [a' b']. cbn [num den] in *.
  assert (a * b' = a' * b) as Hx by nia.
  assert ((b | b')) as Hb. { apply (Z.gauss b a); [|by rewrite Z.gcd_comm]. exists a'. lia. }
  assert ((b' | b)) as Hb'. { apply (Z.gauss b' a'); [|by rewrite Z.gcd_comm]. exists a. lia. }
  assert (b = b') as -> by (apply Z.divide_antisym_nonneg; lia || done). f_equal. nia.
Qed.

Lemma lowest_cross r n d n' d' : 0 < d → n * d' = n' * d → lowest_terms r n d → lowest_terms r n' d'.
Proof.
  intros Hd Hx [Hv Hp Hc]. split; [|done|done]. apply (Z.mul_reg_r _ _ d); [lia|].
  transitivity (num r * d * d'); [ring|]. rewrite Hv. transitivity (n * d' * den r); [ring|]. rewrite Hx. ring.
Qed.

Lemma rational_of_Ok n d r : 0 < d → (rational_of n d = Ok r ↔ lowest_terms r n d).
Proof.
  intros Hd. destruct (rational_lowest n d Hd) as (r' & Hr & Hl). unfold rational_of. rewrite Hr, of_option_Ok.
  split; [by intros [= <-]|]. intros Hl'. f_equal. by eapply lowest_unique.
Qed.

(* ------------------------------------------------------------------ *)
(** ** The multiplier's value *)

(** The value of eight stored bytes read as a positive f64: [f64_num / f64_den]. *)
Definition f64_num (b : bytes) : Z :=
  match f64_of_bits (le_Z b) with S754_finite false m e => Z.pos m * 2 ^ Z.max e 0 | _ => 0 end.
Definition f64_den (b : bytes) : Z :=
  match f64_of_bits (le_Z b) with S754_finite false m e => 2 ^ Z.max (- e) 0 | _ => 1 end.

Lemma f64_den_pos b : 0 < f64_den b.
Proof. unfold f64_den. repeat case_match; try done. apply Z.pow_pos_nonneg; lia. Qed.

(** The bit operations pick out the exponent and the mantissa of a positive normal number. *)
Lemma multiplier_parts u : positive_normal_bits u → ∃ e m, 1 ≤ e ≤ 2046 ∧ 0 ≤ m < 2 ^ 52 ∧
  Z.land (Z.shiftr u 52) 2047 = e ∧ F64_IMPLICIT_ONE + Z.land u F64_MANTISSA_MASK = 2 ^ 52 + m ∧
  f64_of_bits u = match m + 2 ^ 52 with Z.pos p => S754_finite false p (e - 1075) | _ => S754_nan end.
Proof.
  intros Hu. assert (0 ≤ u < 2 ^ 63) as Hr by (unfold positive_normal_bits in Hu; lia).
  destruct (f64_fields u ltac:(lia)) as (s & e & m & Hs & He & Hm & Heq).
  assert (s = 0) as -> by lia. unfold positive_normal_bits in Hu.
  assert (1 ≤ e ≤ 2046) as He' by lia. exists e, m. split; [done|]. split; [done|].
  assert (u / 2 ^ 52 = e) as Hdiv by (symmetry; apply (Z.div_unique _ _ _ m); lia).
  assert (u mod 2 ^ 52 = m) as Hmod by (symmetry; apply (Z.mod_unique _ _ e); lia).
  split; [|split].
  - rewrite Z.shiftr_div_pow2 by lia. rewrite Hdiv. change 2047 with (Z.ones 11).
    rewrite Z.land_ones by lia. apply Z.mod_small. lia.
  - unfold F64_IMPLICIT_ONE, F64_MANTISSA_MASK. change (Z.shiftl 1 52 - 1) with (Z.ones 52).
    rewrite Z.land_ones by lia. rewrite Hmod. reflexivity.
  - unfold f64_of_bits. rewrite (f64_sign u 0 e m), (f64_exponent u 0 e m), (f64_mantissa u 0 e m) by lia.
    rewrite (proj2 (Z.eqb_neq e 2047)), (proj2 (Z.eqb_neq e 0)) by lia. reflexivity.
Qed.

Lemma multiplierToRational_Ok b r :
  multiplierToRational b = Ok r ↔ isValidStoredMultiplier b = true ∧ lowest_terms r (f64_num b) (f64_den b).
Proof.
  unfold multiplierToRational, norm_throw_if. rewrite throw_if_then_Ok, negb_false_iff.
  destruct (isValidStoredMultiplier b) eqn:Hv; [|by split; intros []].
  apply isValidStoredMultiplier_spec in Hv as [Hlen Hbits].
  assert (get_uint 8 b 0 = Some (le_Z b)) as ->.
  { apply get_uint_Some. rewrite drop_0, take_ge by lia. split; [lia|done]. }
  destruct (multiplier_parts _ Hbits) as (e & m & He & Hm & E1 & E2 & E3).
  cbn [of_option mbind result_bind]. rewrite E1, E2. unfold f64_num, f64_den. rewrite E3. unfold F64_BIAS_PLUS_MANTISSA_BITS.
  destruct (m + 2 ^ 52) as [|p|p] eqn:Hp; [lia| |lia].
  rewrite <- Hp, (Z.add_comm (2 ^ 52) m). clear Hp E1 E2 E3.
  destruct (Z.leb_spec 0 (e - 1075)).
  - rewrite Z.shiftl_mul_pow2, rational_of_Ok, Z.max_l, (Z.max_r (- _)) by lia. rewrite Z.pow_0_r. tauto.
  - rewrite Z.shiftl_mul_pow2, Z.mul_1_l by lia.
    rewrite rational_of_Ok, Z.max_r, (Z.max_l (- _)), Z.pow_0_r, Z.mul_1_r by (lia || apply Z.pow_pos_nonneg; lia). tauto.
Qed.

Lemma shares_cross raw n d n' d' p : n * d' = n' * d → raw * n * (d' * p) = raw * n' * (d * p).
Proof. intros Hx. transitivity (raw * p * (n * d')); [ring|]. rewrite Hx. ring. Qed.

Lemma sharesEquivalent_Ok input r :
  sharesEquivalent input = Ok r ↔
  ∃ decimals, si_decimals input = Some decimals ∧ num_in_range 0 MAX_DECIMALS decimals = true ∧
    0 ≤ si_outputRaw input ∧ isValidStoredMultiplier (si_effectiveMultiplier input) = true ∧
    lowest_terms r (si_outputRaw input * f64_num (si_effectiveMultiplier input))
      (f64_den (si_effectiveMultiplier input) * 10 ^ num_value decimals).
Proof.
  destruct input as [raw [d|] b]; cbn [si_decimals si_outputRaw si_effectiveMultiplier sharesEquivalent].
  2: { split; [discriminate|by intros (? & ? & _)]. }
  unfold norm_throw_if. rewrite !throw_if_then_Ok, negb_false_iff, Z.ltb_ge, bind_Ok. split.
  - intros (Hd & Hraw & m & [Hv Hm]%multiplierToRational_Ok & Hr). exists d. split_and!; try done.
    destruct (proj1 (num_in_range_spec _ _ _) Hd) as [_ Hd0]. pose proof (f64_den_pos b). pose proof (lt_pos _ _ _ Hm).
    assert (0 < 10 ^ num_value d) by (apply Z.pow_pos_nonneg; lia).
    apply rational_of_Ok in Hr; [|by apply Z.mul_pos_pos]. eapply lowest_cross; [..|exact Hr]; [by apply Z.mul_pos_pos|].
    apply shares_cross, (lt_value _ _ _ Hm).
  - intros (d' & [= <-] & Hd & Hraw & Hv & Hr). split_and!; try done.
    destruct (proj1 (num_in_range_spec _ _ _) Hd) as [_ Hd0]. pose proof (f64_den_pos b).
    assert (0 < 10 ^ num_value d) by (apply Z.pow_pos_nonneg; lia).
    destruct (rational_lowest (f64_num b) (f64_den b) ltac:(done)) as (m & _ & Hm).
    exists m. split; [by apply multiplierToRational_Ok|]. pose proof (lt_pos _ _ _ Hm).
    apply rational_of_Ok; [by apply Z.mul_pos_pos|]. eapply lowest_cross; [..|exact Hr]; [by apply Z.mul_pos_pos|].
    symmetry. apply shares_cross, (lt_value _ _ _ Hm).
Qed.

Lemma sharesEquivalent_lowest input r : sharesEquivalent input = Ok r →
  ∃ decimals, si_decimals input = Some decimals ∧
    lowest_terms r (si_outputRaw input * f64_num (si_effectiveMultiplier input))
      (f64_den (si_effectiveMultiplier input) * 10 ^ num_value decimals).
Proof. intros (d & ? & _ & _ & _ & ?)%sharesEquivalent_Ok. eauto. Qed.

Lemma sharesEquivalent_nonneg input r : sharesEquivalent input = Ok r → 0 ≤ num r.
Proof.
  intros (d & _ & [_ Hd]%num_in_range_spec & Hraw & _ & [Hv Hp _])%sharesEquivalent_Ok.
  pose proof (f64_den_pos (si_effectiveMultiplier input)).
  assert (0 < 10 ^ num_value d) as H10 by (apply Z.pow_pos_nonneg; lia).
  assert (0 ≤ f64_num (si_effectiveMultiplier input)) as Hn.
  { unfold f64_num. repeat case_match; try done. apply Z.mul_nonneg_nonneg; [lia|]. apply Z.pow_nonneg. lia. }
  apply (Z.mul_le_mono_pos_r _ _ (f64_den (si_effectiveMultiplier input) * 10 ^ num_value d)); [by apply Z.mul_pos_pos|].
  rewrite Z.mul_0_l, Hv. repeat apply Z.mul_nonneg_nonneg; lia.
Qed.

(** Share-equivalents are exact: [sharesEquivalent] answers exactly when
    the decimals are an integer from 0 to 255, the amount is not negative and
    the multiplier is a valid stored f64, and its result is then the rational
    [raw * multiplier / 10^decimals], with the exact value of the f64, in
    lowest terms with a positive denominator: nothing is rounded. *)
Theorem sharesEquivalent_exact input r :
  sharesEquivalent input = Ok r ↔
  ∃ decimals, si_decimals input = Some decimals ∧ num_in_range 0 MAX_DECIMALS decimals = true ∧
    0 ≤ si_outputRaw input ∧ isValidStoredMultiplier (si_effectiveMultiplier input) = true ∧
    lowest_terms r (si_outputRaw input * f64_num (si_effectiveMultiplier input))
      (f64_den (si_effectiveMultiplier input) * 10 ^ num_value decimals).
Proof. apply sharesEquivalent_Ok. Qed.

(* ------------------------------------------------------------------ *)
(** ** Comparison and rounding *)

Lemma ceilDiv_spec n d : 0 < d → ∃ c, ceilDiv n d = Ok c ∧ d * (c - 1) < n ≤ d * c.
Proof.
  intros Hd. unfold ceilDiv, bigint_div. rewrite (proj2 (Z.eqb_neq d 0)) by lia. cbn [throw_if mbind result_bind].
  destruct (Z.leb_spec 0 n); (eexists; split; [reflexivity|]).
  - rewrite Z.quot_div_nonneg by lia. pose proof (Z.div_mod (n + d - 1) d ltac:(lia)).
    pose proof (Z.mod_pos_bound (n + d - 1) d ltac:(lia)). lia.
  - rewrite Z.quot_div_nonneg by lia. pose proof (Z.div_mod (- n) d ltac:(lia)).
    pose proof (Z.mod_pos_bound (- n) d ltac:(lia)). lia.
Qed.

(** It fails on a zero denominator only. *)
Lemma formatRationalFloor_ok r places : den r ≠ 0 → ∃ s, formatRationalFloor r places = Ok s.
Proof.
  intros Hd%Z.eqb_neq. unfold formatRationalFloor, bigint_div. cbv zeta. rewrite Hd. cbn [throw_if mbind result_bind]. by eexists.
Qed.

Lemma formatRationalFloor_Err r places e : formatRationalFloor r places = Err e → e = RangeThrown "Division by zero" ∧ den r = 0.
Proof.
  unfold formatRationalFloor, bigint_div. cbv zeta. destruct (Z.eqb_spec (den r) 0) as [Hd|]; cbn [throw_if mbind result_bind]; [|done].
  by intros [= <-].
Qed.

Lemma compareRationals_spec a b :
  compareRationals a b = -1 ∧ num a * den b < num b * den a ∨
  compareRationals a b = 0 ∧ num a * den b = num b * den a ∨
  compareRationals a b = 1 ∧ num b * den a < num a * den b.
Proof.
  unfold compareRationals. cbv zeta.
  destruct (Z.ltb_spec (num a * den b) (num b * den a)), (Z.ltb_spec (num b * den a) (num a * den b)); lia.
Qed.
