(* ===== verification/QuoteIdentity.v ===== *)
(** * quote-identity.ts: the exact quote everything else is bound to

    Quotes, their run-time type check over untyped values, keys, and the one
    comparison of two quotes. *)

From S2P Require Import Prelude Js Errors Kit Abi StateErrors CanonicalKey StateTypes.

Record RouteLeg := mkLeg {
  leg_venue : string;
  leg_poolId : option string;
  leg_inputMint : option string;
  leg_outputMint : option string;
  leg_percent : jsnum;
}.

Record RouteIdentity := mkRouteIdentity { route_source : string; route_routeId : string; route_legs : list RouteLeg }.

Record QuoteIdentity := mkQuote {
  q_underlying : string;
  q_inputMint : string;
  q_mint : string;
  q_inputRaw : Z;
  q_outputRaw : Z;
  q_minOutputRaw : option Z;
  q_route : RouteIdentity;
  q_quotedAt : option string;
  q_contextSlot : option Z;
  q_state : EconomicState;
}.

#[export] Instance RouteLeg_eq_dec : EqDecision RouteLeg.
Proof. solve_decision. Defined.
#[export] Instance RouteIdentity_eq_dec : EqDecision RouteIdentity.
Proof. solve_decision. Defined.

(* ------------------------------------------------------------------ *)
(** ** Quotes as values *)

Definition leg_value (l : RouteLeg) : jsval :=
  JObject [("venue", to_js (leg_venue l)); ("poolId", to_js (leg_poolId l)); ("inputMint", to_js (leg_inputMint l));
           ("outputMint", to_js (leg_outputMint l)); ("percent", to_js (leg_percent l))].

#[export] Instance leg_to_js : ToJs RouteLeg.
Proof. refine {| to_js := leg_value |}. intros [v p i o c] [v' p' i' o' c'] Heq. record_inj Heq. Defined.

Definition route_value (r : RouteIdentity) : jsval :=
  JObject [("source", to_js (route_source r)); ("routeId", to_js (route_routeId r)); ("legs", to_js (route_legs r))].

#[export] Instance route_to_js : ToJs RouteIdentity.
Proof. refine {| to_js := route_value |}. intros [s i l] [s' i' l'] Heq. record_inj Heq. Defined.

Definition quote_entries (q : QuoteIdentity) : list (string * jsval) :=
  [("underlying", to_js (q_underlying q)); ("inputMint", to_js (q_inputMint q)); ("mint", to_js (q_mint q));
   ("inputRaw", to_js (q_inputRaw q)); ("outputRaw", to_js (q_outputRaw q)); ("minOutputRaw", to_js (q_minOutputRaw q));
   ("route", to_js (q_route q)); ("quotedAt", to_js (q_quotedAt q)); ("contextSlot", to_js (q_contextSlot q));
   ("state", to_js (q_state q))].

#[export] Instance quote_to_js : ToJs QuoteIdentity.
Proof.
  refine {| to_js q := JObject (quote_entries q) |}.
  intros [u i m a b c r t k s] [u' i' m' a' b' c' r' t' k' s'] Heq. unfold quote_entries in Heq. record_inj Heq.
Defined.

(* ------------------------------------------------------------------ *)
(** ** The run-time type check *)

Definition is_string (v : jsval) : bool := match v with JString _ => true | _ => false end.
Definition is_bigint (v : jsval) : bool := match v with JBigint _ => true | _ => false end.
Definition isHex16 (v : jsval) : bool := match v with JString s => isLowerHex 16 s | _ => false end.
Definition isStringOrNull (v : jsval) : bool := match v with JNull | JString _ => true | _ => false end.
Definition isBigintOrNull (v : jsval) : bool := match v with JNull | JBigint _ => true | _ => false end.

(** A number that is an integer in [lo, hi]. *)
Definition number_in_range (lo hi : Z) (v : jsval) : bool := match v with JNum n => num_in_range lo hi n | _ => false end.

(** [v === z] for an integer constant. *)
Definition number_is (z : Z) (v : jsval) : bool := match v with JNum n => num_is n z | _ => false end.

(** [typeof v === 'object' && v !== null]. *)
Definition is_object (v : jsval) : bool := match v with JObject _ | JArray _ | JExotic _ => true | _ => false end.

Definition problem_if (b : bool) (message : string) : list string := if b then [message] else [].

(** One leg of the route: the two checks of the loop body. *)
Definition leg_problems (leg : jsval) : list string :=
  problem_if (negb (is_string (get_prop "venue" leg)) || negb (isStringOrNull (get_prop "poolId" leg))
              || negb (isStringOrNull (get_prop "inputMint" leg)) || negb (isStringOrNull (get_prop "outputMint" leg)))
    "route leg fields have wrong types" ++
  problem_if (negb (number_in_range 0 100 (get_prop "percent" leg))) "route leg percent must be an integer in [0, 100]".

Definition state_problems (state : jsval) : list string :=
  if negb (is_object state) then ["state is required"]
  else
    problem_if (negb (is_string (get_prop "mint" state))) "state.mint must be a string" ++
    problem_if (negb (number_in_range 0 255 (get_prop "decimals" state))) "state.decimals must be an integer in [0, 255]" ++
    problem_if (negb (isHex16 (get_prop "multiplierHex" state)) || negb (isHex16 (get_prop "newMultiplierHex" state)))
      "state multipliers must be 16 lowercase hex digits" ++
    problem_if (negb (is_bigint (get_prop "effectiveTimestamp" state))) "state.effectiveTimestamp must be a bigint" ++
    problem_if (negb (number_is 0 (get_prop "phase" state)) && negb (number_is 1 (get_prop "phase" state)))
      "state.phase must be 0 or 1" ++
    problem_if (match get_prop "paused" state with JNull | JBool _ => false | _ => true end)
      "state.paused must be a boolean or null".

Definition route_problems (route : jsval) : list string :=
  match is_object route && is_string (get_prop "source" route) && is_string (get_prop "routeId" route), get_prop "legs" route with
  | true, JArray legs => concat (map leg_problems legs)
  | _, _ => ["route must have source, routeId and legs"]
  end.

Definition type_problems (q : list (string * jsval)) : list string :=
  concat (map (λ k, problem_if (negb (is_string (get_field k q))) (k +:+ " must be a string")) ["underlying"; "inputMint"; "mint"]) ++
  concat (map (λ k, problem_if (negb (is_bigint (get_field k q))) (k +:+ " must be a bigint")) ["inputRaw"; "outputRaw"]) ++
  problem_if (negb (isBigintOrNull (get_field "minOutputRaw" q))) "minOutputRaw must be a bigint or null" ++
  problem_if (negb (isBigintOrNull (get_field "contextSlot" q))) "contextSlot must be a bigint or null" ++
  problem_if (negb (isStringOrNull (get_field "quotedAt" q))) "quotedAt must be a string or null" ++
  state_problems (get_field "state" q) ++
  route_problems (get_field "route" q).

Definition assertQuoteIdentityTypes (q : list (string * jsval)) : result state_exn unit :=
  throw_if (match type_problems q with [] => false | _ => true end)
    (QuoteIdentityThrown ("malformed quote identity: " +:+ join "; " (type_problems q))).

(* ------------------------------------------------------------------ *)
(** ** Identities, keys and the comparison *)

Definition routeIdentity (source : string) (legs : list RouteLeg) (providerRouteId : option string)
    : result state_exn RouteIdentity :=
  throw_if (existsb (λ leg, negb (num_in_range 0 100 (leg_percent leg))) legs)
    (QuoteIdentityThrown "leg percent must be an integer in [0, 100]");;
  routeId ← match providerRouteId with
    | Some id => Ok id
    | None => key ← canonicalKey (JObject [("source", to_js source); ("legs", to_js legs)]); Ok ("derived:" +:+ key)
    end;
  Ok (mkRouteIdentity source routeId legs).

Definition quoteIdentityOf (quote : QuoteIdentity) : result state_exn QuoteIdentity :=
  assertQuoteIdentityTypes (quote_entries quote);; Ok quote.

Definition quoteKey (quote : QuoteIdentity) : result state_exn string :=
  quote ← quoteIdentityOf quote; canonicalKey (to_js quote).

Definition venuesOf (route : RouteIdentity) : result state_exn string :=
  canonicalKey (JArray (map (λ l, JArray [to_js (leg_venue l); to_js (leg_poolId l)]) (route_legs route))).

(** The reports of a list of comparisons, in order. *)
Definition diff (code : QuoteMismatchCode) (a b : jsval) : result state_exn (list QuoteMismatch) :=
  ka ← canonicalKey a; kb ← canonicalKey b;
  Ok (if String.eqb ka kb then [] else [mkMismatch code (ka +:+ " != " +:+ kb)]).

Definition venue_diff (a b : RouteIdentity) : result state_exn (list QuoteMismatch) :=
  va ← venuesOf a; vb ← venuesOf b;
  Ok (if String.eqb va vb then [] else [mkMismatch VENUE_CHANGED (va +:+ " != " +:+ vb)]).

Definition state_diff (a b : EconomicState) : list QuoteMismatch :=
  match economicStateMismatches a b with
  | [] => []
  | state => [mkMismatch (if forallb (startsWith "phase ") state then PHASE_CHANGED else ECONOMIC_STATE_CHANGED) (join "; " state)]
  end.

Definition quoteMismatches (expected actual : QuoteIdentity) : result state_exn (list QuoteMismatch) :=
  assertQuoteIdentityTypes (quote_entries expected);;
  assertQuoteIdentityTypes (quote_entries actual);;
  m1 ← diff UNDERLYING_CHANGED (to_js (q_underlying expected)) (to_js (q_underlying actual));
  m2 ← diff INPUT_MINT_CHANGED (to_js (q_inputMint expected)) (to_js (q_inputMint actual));
  m3 ← diff OUTPUT_MINT_CHANGED (to_js (q_mint expected)) (to_js (q_mint actual));
  m4 ← diff INPUT_AMOUNT_CHANGED (to_js (q_inputRaw expected)) (to_js (q_inputRaw actual));
  m5 ← diff OUTPUT_AMOUNT_CHANGED (to_js (q_outputRaw expected)) (to_js (q_outputRaw actual));
  m6 ← diff MIN_OUTPUT_CHANGED (to_js (q_minOutputRaw expected)) (to_js (q_minOutputRaw actual));
  m7 ← venue_diff (q_route expected) (q_route actual);
  m8 ← diff ROUTE_CHANGED (to_js (q_route expected)) (to_js (q_route actual));
  m9 ← diff QUOTE_CONTEXT_CHANGED (JArray [to_js (q_quotedAt expected); to_js (q_contextSlot expected)])
                                  (JArray [to_js (q_quotedAt actual); to_js (q_contextSlot actual)]);
  Ok (m1 ++ m2 ++ m3 ++ m4 ++ m5 ++ m6 ++ m7 ++ m8 ++ m9 ++ state_diff (q_state expected) (q_state actual)).

(* ------------------------------------------------------------------ *)
(** ** What the type check accepts *)

(** The ranges the check leaves to run time. *)
Record wf_state (s : EconomicState) : Prop := {
  wf_decimals : num_in_range 0 255 (es_decimals s) = true;
  wf_multiplier : isLowerHex 16 (es_multiplierHex s) = true;
  wf_newMultiplier : isLowerHex 16 (es_newMultiplierHex s) = true;
  wf_phase : es_phase s = 0 ∨ es_phase s = 1;
}.

Definition wf_leg (l : RouteLeg) : Prop := num_in_range 0 100 (leg_percent l) = true.

Record wf_quote (q : QuoteIdentity) : Prop := {
  wf_quote_state : wf_state (q_state q);
  wf_quote_legs : Forall wf_leg (route_legs (q_route q));
}.

Lemma problem_if_nil b m : problem_if b m = [] ↔ b = false.
Proof. by destruct b. Qed.

Lemma assert_types_Ok es u : assertQuoteIdentityTypes es = Ok u ↔ type_problems es = [].
Proof. unfold assertQuoteIdentityTypes. rewrite throw_if_Ok. by destruct (type_problems es). Qed.

Lemma concat_nil {A} (l : list (list A)) : concat l = [] ↔ Forall (λ x, x = []) l.
Proof.
  induction l as [|x l IH]; [by split|]. cbn. by rewrite app_nil, Forall_cons, IH.
Qed.

Lemma leg_problems_nil l : leg_problems (to_js l) = [] ↔ wf_leg l.
Proof.
  destruct l as [v p i o c]. unfold wf_leg. cbn [leg_percent].
  transitivity (problem_if (negb (num_in_range 0 100 c)) "route leg percent must be an integer in [0, 100]" = []);
    [destruct p, i, o; reflexivity|]. by rewrite problem_if_nil, negb_false_iff.
Qed.

Lemma state_problems_nil s : state_problems (to_js s) = [] ↔ wf_state s.
Proof.
  destruct s as [m d x y t p q].
  assert (state_problems (to_js (mkEconomic m d x y t p q)) =
    problem_if (negb (num_in_range 0 255 d)) "state.decimals must be an integer in [0, 255]" ++
    problem_if (negb (isLowerHex 16 x) || negb (isLowerHex 16 y)) "state multipliers must be 16 lowercase hex digits" ++
    problem_if (negb (num_is (NumInt p) 0) && negb (num_is (NumInt p) 1)) "state.phase must be 0 or 1") as ->.
  { destruct q; cbn -[isLowerHex num_in_range num_is problem_if app]; by rewrite ?app_nil_r. }
  rewrite !app_nil, !problem_if_nil, orb_false_iff, andb_false_iff, !negb_false_iff. unfold num_is. cbn [isInteger num_value andb].
  rewrite !Z.eqb_eq. split; [intros (? & [? ?] & ?); by split|intros [? ? ? ?]; auto].
Qed.

Lemma route_problems_nil r : route_problems (to_js r) = [] ↔ Forall wf_leg (route_legs r).
Proof.
  destruct r as [s i l]. transitivity (concat (map leg_problems (map to_js l)) = []); [reflexivity|].
  rewrite concat_nil, map_map, Forall_fmap. cbn [route_legs]. apply Forall_iff. intros x. apply leg_problems_nil.
Qed.

Lemma types_of_quote q u : assertQuoteIdentityTypes (quote_entries q) = Ok u ↔ wf_quote q.
Proof.
  rewrite assert_types_Ok. destruct q as [v i m a b c r t k s].
  assert (type_problems (quote_entries (mkQuote v i m a b c r t k s)) = state_problems (to_js s) ++ route_problems (to_js r)) as ->
    by (destruct c, t, k; reflexivity).
  rewrite app_nil, state_problems_nil, route_problems_nil. split; [intros [? ?]; by split|by intros [? ?]].
Qed.

(* ------------------------------------------------------------------ *)
(** ** The comparison is exact *)

(** No negative zeros among the numbers of a quote. *)
Definition plain_int (n : jsnum) : Prop := match n with NumInt _ => True | _ => False end.

Record regular_quote (q : QuoteIdentity) : Prop := {
  rq_wf : wf_quote q;
  rq_decimals : plain_int (es_decimals (q_state q));
  rq_percents : Forall (λ l, plain_int (leg_percent l)) (route_legs (q_route q));
}.

(** What each report stands for. *)
Definition differs (code : QuoteMismatchCode) (e a : QuoteIdentity) : Prop :=
  match code with
  | UNDERLYING_CHANGED => q_underlying e ≠ q_underlying a
  | INPUT_MINT_CHANGED => q_inputMint e ≠ q_inputMint a
  | OUTPUT_MINT_CHANGED => q_mint e ≠ q_mint a
  | INPUT_AMOUNT_CHANGED => q_inputRaw e ≠ q_inputRaw a
  | OUTPUT_AMOUNT_CHANGED => q_outputRaw e ≠ q_outputRaw a
  | MIN_OUTPUT_CHANGED => q_minOutputRaw e ≠ q_minOutputRaw a
  | VENUE_CHANGED => map (λ l, (leg_venue l, leg_poolId l)) (route_legs (q_route e))
                     ≠ map (λ l, (leg_venue l, leg_poolId l)) (route_legs (q_route a))
  | ROUTE_CHANGED => q_route e ≠ q_route a
  | QUOTE_CONTEXT_CHANGED => (q_quotedAt e, q_contextSlot e) ≠ (q_quotedAt a, q_contextSlot a)
  | PHASE_CHANGED => es_phase (q_state e) ≠ es_phase (q_state a) ∧
      q_state e = mkEconomic (es_mint (q_state a)) (es_decimals (q_state a)) (es_multiplierHex (q_state a))
        (es_newMultiplierHex (q_state a)) (es_effectiveTimestamp (q_state a)) (es_phase (q_state e)) (es_paused (q_state a))
  | ECONOMIC_STATE_CHANGED =>
      q_state e ≠ mkEconomic (es_mint (q_state a)) (es_decimals (q_state a)) (es_multiplierHex (q_state a))
        (es_newMultiplierHex (q_state a)) (es_effectiveTimestamp (q_state a)) (es_phase (q_state e)) (es_paused (q_state a))
  end.

(** A list of reports all of one code, present when [P] holds. *)
Definition reports (code : QuoteMismatchCode) (P : Prop) (ms : list QuoteMismatch) : Prop :=
  ∀ c, c ∈ map qm_code ms ↔ c = code ∧ P.

Lemma diff_spec {A} `{!ToJs A} code (a b : A) : encodable (to_js a) = true → encodable (to_js b) = true →
  ∃ ms, diff code (to_js a) (to_js b) = Ok ms ∧ reports code (a ≠ b) ms.
Proof.
  intros Ha Hb. destruct (canonicalKey_to_js a b Ha Hb) as (ka & kb & Ea & Eb & Hk).
  unfold diff. rewrite Ea, Eb. eexists; split; [reflexivity|]. intros c.
  destruct (String.eqb_spec ka kb) as [He|Hne].
  - split; [by intros ?%not_elem_of_nil|]. intros [_ []]. by apply Hk.
  - cbn. rewrite elem_of_cons, <- Hk. split; [|by intros [-> _]; left].
    intros [->|?%not_elem_of_nil]; [by split|done].
Qed.

Lemma venue_diff_spec (a b : RouteIdentity) :
  let venues r := map (λ l, (leg_venue l, leg_poolId l)) (route_legs r) in
  ∃ ms, venue_diff a b = Ok ms ∧ reports VENUE_CHANGED (venues a ≠ venues b) ms.
Proof.
  intros venues. destruct (diff_spec VENUE_CHANGED (venues a) (venues b) (keyed _) (keyed _)) as (ms & Hms & Hr).
  exists ms. split; [|exact Hr]. rewrite <- Hms. unfold venue_diff, venuesOf, diff, venues. cbn [to_js list_to_js].
  by rewrite !map_map.
Qed.

(** The state without its phase, as the comparison reads it. *)
Definition same_but_phase (e a : EconomicState) : bool :=
  String.eqb (es_mint e) (es_mint a) && num_strict_eq (es_decimals e) (es_decimals a)
  && String.eqb (es_multiplierHex e) (es_multiplierHex a) && String.eqb (es_newMultiplierHex e) (es_newMultiplierHex a)
  && (es_effectiveTimestamp e =? es_effectiveTimestamp a) && bool_decide (es_paused e = es_paused a).

Lemma state_diff_eq e a : state_diff e a =
  if same_but_phase e a && (es_phase e =? es_phase a) then []
  else [mkMismatch (if same_but_phase e a then PHASE_CHANGED else ECONOMIC_STATE_CHANGED)
          (join "; " (economicStateMismatches e a))].
Proof.
  assert (forallb (startsWith "phase ") (economicStateMismatches e a) = same_but_phase e a) as Hphase.
  { unfold economicStateMismatches, same_but_phase. rewrite !forallb_app.
    repeat match goal with |- context [field_mismatch ?f ?b ?x ?y] =>
      let E := fresh in assert (forallb (startsWith "phase ") (field_mismatch f b x y) = b) as E by (destruct b; reflexivity);
      rewrite E; clear E
    end.
    assert (∀ b x y, forallb (startsWith "phase ") (field_mismatch "phase" b x y) = true) as ->.
    { intros [] x y; [reflexivity|]. cbn [field_mismatch forallb]. rewrite andb_true_r. by destruct x. }
    by rewrite andb_true_l, !andb_assoc. }
  assert (economicStateMismatches e a = [] ↔ same_but_phase e a && (es_phase e =? es_phase a) = true) as Hnil.
  { unfold economicStateMismatches, same_but_phase. rewrite !app_nil, !field_mismatch_nil, !andb_true_iff. tauto. }
  unfold state_diff. destruct (economicStateMismatches e a) as [|m ms].
  - by rewrite (proj1 Hnil eq_refl).
  - rewrite Hphase. destruct (same_but_phase e a && _); [|reflexivity]. by discriminate (proj2 Hnil eq_refl).
Qed.

Lemma same_but_phase_spec e a : plain_int (es_decimals e) → plain_int (es_decimals a) →
  same_but_phase e a = true ↔
  e = mkEconomic (es_mint a) (es_decimals a) (es_multiplierHex a) (es_newMultiplierHex a) (es_effectiveTimestamp a) (es_phase e) (es_paused a).
Proof.
  destruct e as [m d x y t p q], a as [m' d' x' y' t' p' q']. cbn [es_decimals es_mint es_multiplierHex es_newMultiplierHex es_effectiveTimestamp es_phase es_paused].
  intros Hd Hd'. destruct d as [z| |]; [|done|done]. destruct d' as [z'| |]; [|done|done]. unfold same_but_phase.
  cbn [es_decimals es_mint es_multiplierHex es_newMultiplierHex es_effectiveTimestamp es_phase es_paused num_strict_eq num_value].
  rewrite !andb_true_iff, !String.eqb_eq, !Z.eqb_eq, bool_decide_eq_true. split; [by intros (((((-> & ->) & ->) & ->) & ->) & ->)|].
  by intros [= -> -> -> -> -> ->].
Qed.

Lemma state_diff_spec e a : regular_quote e → regular_quote a →
  ∀ c, c ∈ map qm_code (state_diff (q_state e) (q_state a)) ↔ (c = PHASE_CHANGED ∨ c = ECONOMIC_STATE_CHANGED) ∧ differs c e a.
Proof.
  intros [_ He _] [_ Ha _] c. rewrite state_diff_eq.
  pose proof (same_but_phase_spec _ _ He Ha) as Hs.
  destruct (same_but_phase _ _); cbn [andb].
  - assert (Heq := proj1 Hs eq_refl). destruct (Z.eqb_spec (es_phase (q_state e)) (es_phase (q_state a))) as [Hp|Hp].
    + split; [by intros ?%not_elem_of_nil|]. intros [[-> | ->] Hd]; cbn in Hd; tauto.
    + cbn. rewrite elem_of_cons. split; [|intros [[-> | ->] Hd]; cbn in Hd; tauto].
      intros [->|?%not_elem_of_nil]; [|done]. cbn. auto.
  - assert (¬ (q_state e = mkEconomic (es_mint (q_state a)) (es_decimals (q_state a)) (es_multiplierHex (q_state a))
        (es_newMultiplierHex (q_state a)) (es_effectiveTimestamp (q_state a)) (es_phase (q_state e)) (es_paused (q_state a)))) as Hne
      by (intros H%Hs; discriminate).
    cbn. rewrite elem_of_cons. split; [|intros [[-> | ->] Hd]; cbn in Hd; tauto].
    intros [->|?%not_elem_of_nil]; [|done]. cbn. auto.
Qed.

Lemma leg_keyed l : wf_leg l → plain_int (leg_percent l) → encodable (to_js l) = true.
Proof.
  destruct l as [v p i o c]. unfold wf_leg. cbn [leg_percent]. intros [_ Hc]%num_in_range_spec Hi. destruct c as [z| |]; [|done|done].
  cbn [num_value] in Hc. assert (isSafeInteger (NumInt z) = true) as Hz.
  { apply num_in_range_spec. split; [done|]. cbn. unfold MAX_SAFE_INTEGER. lia. }
  cbn [to_js leg_to_js leg_value leg_percent leg_venue leg_poolId leg_inputMint leg_outputMint encodable forallb snd jsnum_to_js].
  rewrite Hz. by destruct p, i, o.
Qed.

Lemma route_keyed q : regular_quote q → encodable (to_js (q_route q)) = true.
Proof.
  intros [[_ Hw] _ Hp]. destruct (q_route q) as [s i l]. cbn [route_legs] in *.
  transitivity (forallb encodable (map to_js l)); [reflexivity || (cbn; by rewrite andb_true_r)|].
  apply forallb_forall. intros y (x & <- & Hx%list_elem_of_In)%in_map_iff. rewrite Forall_forall in Hw, Hp.
  by apply leg_keyed; auto.
Qed.

Lemma codes_none (ms : list QuoteMismatch) : (∀ code, ¬ (code ∈ map qm_code ms)) → ms = [].
Proof.
  intros Hno. destruct ms as [|m ms]; [reflexivity|]. exfalso. apply (Hno (qm_code m)), elem_of_cons. by left.
Qed.

(** Quotes none of whose parts differs are equal. *)
Lemma quotes_equal e a : (∀ code, ¬ differs code e a) → e = a.
Proof.
  intros Hno. pose proof (Hno UNDERLYING_CHANGED) as H1. pose proof (Hno INPUT_MINT_CHANGED) as H2.
  pose proof (Hno OUTPUT_MINT_CHANGED) as H3. pose proof (Hno INPUT_AMOUNT_CHANGED) as H4.
  pose proof (Hno OUTPUT_AMOUNT_CHANGED) as H5. pose proof (Hno MIN_OUTPUT_CHANGED) as H6.
  pose proof (Hno ROUTE_CHANGED) as H7. pose proof (Hno QUOTE_CONTEXT_CHANGED) as H8.
  pose proof (Hno PHASE_CHANGED) as H9. pose proof (Hno ECONOMIC_STATE_CHANGED) as H10. clear Hno.
  destruct e as [u i m x y n r t k [sm sd sx sy st sp sq]], a as [u' i' m' x' y' n' r' t' k' [sm' sd' sx' sy' st' sp' sq']].
  cbn in *. apply dec_stable in H1, H2, H3, H4, H5, H6, H7, H8, H10. injection H10 as -> -> -> -> -> ->. simplify_eq.
  destruct (decide (sp = sp')) as [->|Hp]; [reflexivity|]. exfalso. by apply H9.
Qed.

Lemma quoteMismatches_spec e a (He : regular_quote e) (Ha : regular_quote a) :
  ∃ ms, quoteMismatches e a = Ok ms ∧
    (∀ code, code ∈ map qm_code ms ↔ differs code e a) ∧ (ms = [] ↔ e = a).
Proof.
  pose proof (proj2 (types_of_quote e tt) (rq_wf _ He)) as E1. pose proof (proj2 (types_of_quote a tt) (rq_wf _ Ha)) as E2.
  destruct (diff_spec UNDERLYING_CHANGED (q_underlying e) (q_underlying a) (keyed _) (keyed _)) as (m1 & D1 & R1).
  destruct (diff_spec INPUT_MINT_CHANGED (q_inputMint e) (q_inputMint a) (keyed _) (keyed _)) as (m2 & D2 & R2).
  destruct (diff_spec OUTPUT_MINT_CHANGED (q_mint e) (q_mint a) (keyed _) (keyed _)) as (m3 & D3 & R3).
  destruct (diff_spec INPUT_AMOUNT_CHANGED (q_inputRaw e) (q_inputRaw a) (keyed _) (keyed _)) as (m4 & D4 & R4).
  destruct (diff_spec OUTPUT_AMOUNT_CHANGED (q_outputRaw e) (q_outputRaw a) (keyed _) (keyed _)) as (m5 & D5 & R5).
  destruct (diff_spec MIN_OUTPUT_CHANGED (q_minOutputRaw e) (q_minOutputRaw a) (keyed _) (keyed _)) as (m6 & D6 & R6).
  destruct (venue_diff_spec (q_route e) (q_route a)) as (m7 & D7 & R7).
  destruct (diff_spec ROUTE_CHANGED (q_route e) (q_route a) (route_keyed e He) (route_keyed a Ha)) as (m8 & D8 & R8).
  destruct (diff_spec QUOTE_CONTEXT_CHANGED (q_quotedAt e, q_contextSlot e) (q_quotedAt a, q_contextSlot a) (keyed _) (keyed _))
    as (m9 & D9 & R9).
  pose proof (state_diff_spec e a He Ha) as R10.
  eexists. split.
  - unfold quoteMismatches. rewrite E1, E2. cbn [mbind result_bind].
    rewrite D1, D2, D3, D4, D5, D6, D7, D8. cbn [mbind result_bind]. cbn [to_js pair_to_js fst snd] in D9.
    rewrite D9. reflexivity.
  - assert (∀ code, code ∈ map qm_code (m1 ++ m2 ++ m3 ++ m4 ++ m5 ++ m6 ++ m7 ++ m8 ++ m9 ++ state_diff (q_state e) (q_state a))
      ↔ differs code e a) as Hcodes.
    { intros code. unfold reports in *. rewrite !map_app, !elem_of_app, R1, R2, R3, R4, R5, R6, R7, R8, R9, R10.
      destruct code; cbn [differs]; intuition congruence. }
    split; [exact Hcodes|]. split.
    + intros Hnil. rewrite Hnil in Hcodes.
      assert (∀ code, ¬ differs code e a) as Hno by (intros code Hd%Hcodes; by apply not_elem_of_nil in Hd).
      apply quotes_equal. exact Hno.
    + intros <-. apply codes_none. intros code Hc%Hcodes. destruct code; cbn in Hc; try done; [by destruct (q_state e)|by destruct Hc].
Qed.

(** [quoteMismatches] is exact: on quotes that pass the type check it never
    throws, reports a code exactly when that part of the quote differs - the
    phase apart from the rest of the economic state - and reports nothing
    exactly when the two quotes are equal. *)
Theorem quoteMismatches_exact e a (He : regular_quote e) (Ha : regular_quote a) :
  ∃ ms, quoteMismatches e a = Ok ms ∧
    (∀ code, code ∈ map qm_code ms ↔ differs code e a) ∧ (ms = [] ↔ e = a).
Proof. exact (quoteMismatches_spec e a He Ha). Qed.

(* ------------------------------------------------------------------ *)
(** ** The type check over untyped values *)

Definition reads_leg (v : jsval) (l : RouteLeg) : Prop :=
  get_prop "venue" v = JString (leg_venue l) ∧ get_prop "poolId" v = to_js (leg_poolId l) ∧
  get_prop "inputMint" v = to_js (leg_inputMint l) ∧ get_prop "outputMint" v = to_js (leg_outputMint l) ∧
  get_prop "percent" v = JNum (leg_percent l).

Definition reads_route (v : jsval) (r : RouteIdentity) : Prop :=
  is_object v = true ∧ get_prop "source" v = JString (route_source r) ∧ get_prop "routeId" v = JString (route_routeId r) ∧
  ∃ legs, get_prop "legs" v = JArray legs ∧ Forall2 reads_leg legs (route_legs r).

Definition reads_state (v : jsval) (s : EconomicState) : Prop :=
  is_object v = true ∧ get_prop "mint" v = JString (es_mint s) ∧ get_prop "decimals" v = JNum (es_decimals s) ∧
  get_prop "multiplierHex" v = JString (es_multiplierHex s) ∧ get_prop "newMultiplierHex" v = JString (es_newMultiplierHex s) ∧
  get_prop "effectiveTimestamp" v = JBigint (es_effectiveTimestamp s) ∧
  (∃ n, get_prop "phase" v = JNum n ∧ isInteger n = true ∧ num_value n = es_phase s) ∧
  get_prop "paused" v = to_js (es_paused s).

(** The entries of an object read as a typed quote. *)
Definition reads_quote (es : list (string * jsval)) (q : QuoteIdentity) : Prop :=
  get_field "underlying" es = JString (q_underlying q) ∧ get_field "inputMint" es = JString (q_inputMint q) ∧
  get_field "mint" es = JString (q_mint q) ∧ get_field "inputRaw" es = JBigint (q_inputRaw q) ∧
  get_field "outputRaw" es = JBigint (q_outputRaw q) ∧ get_field "minOutputRaw" es = to_js (q_minOutputRaw q) ∧
  get_field "contextSlot" es = to_js (q_contextSlot q) ∧ get_field "quotedAt" es = to_js (q_quotedAt q) ∧
  reads_state (get_field "state" es) (q_state q) ∧ reads_route (get_field "route" es) (q_route q).

Lemma is_string_ex v : is_string v = true ↔ ∃ s, v = JString s.
Proof. destruct v; cbn; split; try discriminate; try (by intros [? ?]); eauto. Qed.
Lemma is_bigint_ex v : is_bigint v = true ↔ ∃ z, v = JBigint z.
Proof. destruct v; cbn; split; try discriminate; try (by intros [? ?]); eauto. Qed.
Lemma isStringOrNull_ex v : isStringOrNull v = true ↔ ∃ o : option string, v = to_js o.
Proof.
  destruct v; cbn; split; try discriminate; try (intros [[?|] ?]; discriminate); intros _; first [done|by exists None|by eexists (Some _)].
Qed.
Lemma isBigintOrNull_ex v : isBigintOrNull v = true ↔ ∃ o : option Z, v = to_js o.
Proof.
  destruct v; cbn; split; try discriminate; try (intros [[?|] ?]; discriminate); intros _; first [done|by exists None|by eexists (Some _)].
Qed.
Lemma number_in_range_ex lo hi v : number_in_range lo hi v = true ↔ ∃ n, v = JNum n ∧ num_in_range lo hi n = true.
Proof. destruct v; cbn; split; try discriminate; try (by intros (? & ? & _)); [eauto|by intros (? & [= ->] & ?)]. Qed.
Lemma isHex16_ex v : isHex16 v = true ↔ ∃ s, v = JString s ∧ isLowerHex 16 s = true.
Proof. destruct v; cbn -[isLowerHex]; split; try discriminate; try (by intros (? & ? & _)); [eauto|by intros (? & [= ->] & ?)]. Qed.

Lemma leg_typed v : leg_problems v = [] ↔ ∃ l, reads_leg v l ∧ wf_leg l.
Proof.
  unfold leg_problems, reads_leg, wf_leg.
  rewrite app_nil, !problem_if_nil, !orb_false_iff, !negb_false_iff, is_string_ex, !isStringOrNull_ex, number_in_range_ex. split.
  - intros ((([[s Hs] [p Hp]] & [i Hi]) & [o Ho]) & n & Hn & Hr). exists (mkLeg s p i o n). by rewrite Hs, Hp, Hi, Ho, Hn.
  - intros ([s p i o n] & (-> & -> & -> & -> & ->) & Hn). cbn [leg_venue leg_poolId leg_inputMint leg_outputMint leg_percent] in *.
    split_and!; eauto.
Qed.

Lemma legs_typed vs : concat (map leg_problems vs) = [] ↔ ∃ ls, Forall2 reads_leg vs ls ∧ Forall wf_leg ls.
Proof.
  rewrite concat_nil, Forall_fmap. split.
  - induction 1 as [|v vs Hv _ (ls & H1 & H2)]; [by exists []|]. apply leg_typed in Hv as (l & ? & ?).
    exists (l :: ls). by split; constructor.
  - intros (ls & H1 & H2). induction H1 as [|v l vs ls Hv _ IH]; [by constructor|]. inversion H2; subst.
    constructor; [apply leg_typed; eauto|by apply IH].
Qed.

Lemma route_typed v : route_problems v = [] ↔ ∃ r, reads_route v r ∧ Forall wf_leg (route_legs r).
Proof.
  unfold route_problems, reads_route.
  destruct (is_object v && _ && _) eqn:Ho.
  - apply andb_true_iff in Ho as [[Ho [s Hs]%is_string_ex]%andb_true_iff [i Hi]%is_string_ex].
    destruct (get_prop "legs" v) as [| | | | | |vs| | |];
      try (split; [discriminate|intros (r & (_ & _ & _ & ? & ? & _) & _); congruence]).
    rewrite legs_typed. split.
    + intros (ls & H1 & H2). exists (mkRouteIdentity s i ls). split; [|exact H2]. eauto 10.
    + intros (r & (_ & _ & _ & legs & [= ->] & H1) & H2). eauto.
  - split; [discriminate|]. intros (r & (H1 & H2 & H3 & _) & _). exfalso. revert Ho.
    by rewrite H1, H2, H3.
Qed.

Lemma state_typed v : state_problems v = [] ↔ ∃ s, reads_state v s ∧ wf_state s.
Proof.
  unfold state_problems, reads_state. destruct (is_object v); cbn [negb].
  2: { split; [discriminate|]. by intros (s & [? _] & _). }
  rewrite !app_nil, !problem_if_nil, !orb_false_iff, andb_false_iff, !negb_false_iff, is_string_ex, number_in_range_ex, !isHex16_ex, is_bigint_ex.
  split.
  - intros ([m Hm] & (d & Hd & Hdr) & ((x & Hx & Hxh) & (y & Hy & Hyh)) & [t Ht] & Hp & Hq).
    assert (∃ n, get_prop "phase" v = JNum n ∧ isInteger n = true ∧ (num_value n = 0 ∨ num_value n = 1)) as (n & Hn & Hi & Hv).
    { unfold number_is, num_is in Hp. destruct (get_prop "phase" v); try (by destruct Hp).
      rewrite !andb_true_iff, !Z.eqb_eq in Hp. exists n. tauto. }
    assert (∃ q : option bool, get_prop "paused" v = to_js q) as [q Hq'].
    { destruct (get_prop "paused" v); try discriminate Hq; first [done|by exists None|by eexists (Some _)]. }
    exists (mkEconomic m d x y t (num_value n) q). split; [eauto 20|by split].
  - intros ([m d x y t p q] & (_ & Hm & Hd & Hx & Hy & Ht & (n & Hn & Hi & Hv) & Hq) & [Hdr Hxh Hyh Hp]).
    cbn [es_mint es_decimals es_multiplierHex es_newMultiplierHex es_effectiveTimestamp es_phase es_paused] in *.
    split_and!; eauto.
    + rewrite Hn. unfold number_is, num_is. rewrite Hi, Hv. cbn [andb]. rewrite !Z.eqb_eq. exact Hp.
    + rewrite Hq. by destruct q.
Qed.

(** The run-time check of a quote that did not come through the type
    system passes exactly for objects whose fields read as a quote in range:
    amounts that are bigints, never numbers, a state with 16-digit lowercase
    hex multipliers and a known phase, and integer percents up to 100. *)
Theorem assertQuoteIdentityTypes_typed es :
  assertQuoteIdentityTypes es = Ok tt ↔ ∃ q, reads_quote es q ∧ wf_quote q.
Proof.
  rewrite assert_types_Ok. unfold type_problems, reads_quote. cbn [map concat]. rewrite !app_nil, !problem_if_nil, !negb_false_iff.
  rewrite state_typed, route_typed, !is_string_ex, !is_bigint_ex, !isBigintOrNull_ex, isStringOrNull_ex. split.
  - intros (([u Hu] & [i Hi] & [m Hm] & _) & ([a Ha] & [b Hb] & _) & [n Hn] & [k Hk] & [t Ht] & (s & Hs & Hws) & (r & Hr & Hwr)).
    exists (mkQuote u i m a b n r t k s). split; [split_and!; done|by split].
  - intros ([u i m a b n r t k s] & (Hu & Hi & Hm & Ha & Hb & Hn & Hk & Ht & Hs & Hr) & [Hws Hwr]).
    cbn [q_underlying q_inputMint q_mint q_inputRaw q_outputRaw q_minOutputRaw q_route q_quotedAt q_contextSlot q_state] in *.
    split_and!; eauto.
Qed.

(** A buy of KOx for one hundred USDC. *)
Definition sample_economic (phase : Z) : EconomicState :=
  mkEconomic "XsaBXg8dU5cPM6ehmVctMkVqoiRG2ZjMo1cyBJ3AykQ" (NumInt 8) "000000000000f03f" "9a9999999999f13f" 1700000000 phase (Some false).

Definition sample_quote (phase outputRaw : Z) : QuoteIdentity :=
  mkQuote "KO" "EPjFWdd5AufqSSqeM2qN1xzybapC8G4wEGGkZwyTDt1v" "XsaBXg8dU5cPM6ehmVctMkVqoiRG2ZjMo1cyBJ3AykQ"
    100000000 outputRaw (Some 140000000)
    (mkRouteIdentity "JUPITER_MAINNET_SNAPSHOT" "route-1" [mkLeg "Whirlpool" None None None (NumInt 100)])
    None (Some 446827429) (sample_economic phase).

Lemma sample_quote_regular phase outputRaw : phase = 0 ∨ phase = 1 → regular_quote (sample_quote phase outputRaw).
Proof. intros Hp. repeat split; [exact Hp|repeat constructor|repeat constructor]. Qed.

Lemma quoteMismatches_exact_witness :
  (∃ ms, quoteMismatches (sample_quote 0 142) (sample_quote 1 142) = Ok ms ∧
    (∀ code, code ∈ map qm_code ms ↔ differs code (sample_quote 0 142) (sample_quote 1 142)) ∧
    (ms = [] ↔ sample_quote 0 142 = sample_quote 1 142)) ∧
  differs PHASE_CHANGED (sample_quote 0 142) (sample_quote 1 142).
Proof.
  split.
  - apply quoteMismatches_exact; apply sample_quote_regular; [by left|by right].
  - split; [discriminate|reflexivity].
Defined.
