(* ===== verification/Compare.v ===== *)
(** * compare.ts: the cost of switching representations

    Two quotes at one input notional, normalized to share-equivalents and
    compared; the cost is rounded against the alternative. *)

From S2P Require Import Prelude Js Errors Kit Abi StateErrors CanonicalKey StateTypes Normalize QuoteIdentity.

Inductive EconomicEffect : Type :=
| ADDITIONAL_COST (bps : Z)
| ECONOMICALLY_EQUAL
| BETTER_VALUE (bps : Z).

Record NormalizedQuote := mkNormalized { nq_quote : QuoteIdentity; nq_issuer : Issuer }.

Record QuoteComparison := mkComparison {
  cmp_underlying : string;
  cmp_preferredMint : string;
  cmp_alternativeMint : string;
  cmp_inputRaw : Z;
  cmp_preferredQuote : QuoteIdentity;
  cmp_alternativeQuote : QuoteIdentity;
  cmp_comparisonKey : string;
  cmp_preferredSharesEquivalent : Rational;
  cmp_alternativeSharesEquivalent : Rational;
  cmp_sign : Z;
  cmp_magnitude : Rational;
  cmp_additionalCostBps : Z;
  cmp_economicEffect : EconomicEffect;
}.

(** [shares(quote)]. *)
Definition quote_shares (q : QuoteIdentity) : result state_exn Rational :=
  sharesEquivalent (mkShareInput (q_outputRaw q) (Some (es_decimals (q_state q))) (effectiveMultiplierBytes (q_state q))).

(** The value [comparisonKey] is the key of. *)
Definition pair_value (preferred alternative : QuoteIdentity) : jsval :=
  JObject [("preferred", to_js preferred); ("alternative", to_js alternative)].

Definition check_state_mint (q : QuoteIdentity) : result state_exn unit :=
  norm_throw_if (negb (String.eqb (es_mint (q_state q)) (q_mint q))) StateMismatch
    ("quote for " +:+ q_mint q +:+ " carries state of " +:+ es_mint (q_state q)).

Definition effect_of (sign cost : Z) : EconomicEffect :=
  if 0 <? sign then ADDITIONAL_COST cost else if sign =? 0 then ECONOMICALLY_EQUAL else BETTER_VALUE (- cost).

Definition compareQuotes (preferredQuote alternativeQuote : NormalizedQuote) : result state_exn QuoteComparison :=
  let preferred := nq_quote preferredQuote in
  let alternative := nq_quote alternativeQuote in
  norm_throw_if (negb (String.eqb (q_underlying preferred) (q_underlying alternative))) UnderlyingMismatch
    "quotes must be for representations of the same underlying";;
  norm_throw_if (negb (String.eqb (q_inputMint preferred) (q_inputMint alternative))) InputMintMismatch
    "quotes must spend the same input mint";;
  norm_throw_if (negb (q_inputRaw preferred =? q_inputRaw alternative)) NotionalMismatch
    "quotes must be for identical input notional";;
  check_state_mint preferred;;
  check_state_mint alternative;;
  p ← quote_shares preferred;
  a ← quote_shares alternative;
  norm_throw_if (num p =? 0) NonPositiveOutput "preferred quote delivers no shares";;
  let numerator := (num p * den a - num a * den p) * BPS in
  let denominator := num p * den a in
  let sign := compareRationals p a in
  let rawDiff := num p * den a - num a * den p in
  additionalCostBps ← ceilDiv numerator denominator;
  pq ← quoteIdentityOf preferred;
  aq ← quoteIdentityOf alternative;
  key ← canonicalKey (pair_value pq aq);
  magnitude ← rational_of (if rawDiff <? 0 then - rawDiff else rawDiff) (den p * den a);
  Ok (mkComparison (q_underlying preferred) (q_mint preferred) (q_mint alternative) (q_inputRaw preferred) pq aq key p a
        sign magnitude additionalCostBps (effect_of sign additionalCostBps)).

(* ------------------------------------------------------------------ *)
(** ** What a comparison says *)

(** The exact number of shares a quote delivers. *)
Definition shares_of (q : QuoteIdentity) (r : Rational) : Prop :=
  lowest_terms r (q_outputRaw q * f64_num (effectiveMultiplierBytes (q_state q)))
    (f64_den (effectiveMultiplierBytes (q_state q)) * 10 ^ num_value (es_decimals (q_state q))).

Lemma quote_shares_Ok q r : quote_shares q = Ok r → shares_of q r ∧ 0 ≤ num r.
Proof.
  intros Hq. unfold quote_shares in Hq. pose proof (sharesEquivalent_nonneg _ _ Hq) as Hn.
  apply sharesEquivalent_lowest in Hq as (d & [= <-] & Hl). by split.
Qed.

Lemma pair_value_inj p a p' a' : norm (pair_value p a) = norm (pair_value p' a') → p = p' ∧ a = a'.
Proof.
  intros Heq. assert ((p, a) = (p', a')) as [= -> ->]; [|done].
  apply norm_fields_inj in Heq; [|reflexivity|apply (bool_decide_unpack (NoDup _)); vm_compute; exact I].
  cbn [map snd] in Heq. apply cons_eq_inv in Heq as [->%to_js_inj Heq]. by apply cons_eq_inv in Heq as [->%to_js_inj _].
Qed.

Lemma compareQuotes_Ok p a c : compareQuotes p a = Ok c →
  ∃ rp ra m key cost, shares_of (nq_quote p) rp ∧ shares_of (nq_quote a) ra ∧ 0 < num rp ∧ 0 ≤ num ra ∧
    q_underlying (nq_quote p) = q_underlying (nq_quote a) ∧ q_inputMint (nq_quote p) = q_inputMint (nq_quote a) ∧
    q_inputRaw (nq_quote p) = q_inputRaw (nq_quote a) ∧
    es_mint (q_state (nq_quote p)) = q_mint (nq_quote p) ∧ es_mint (q_state (nq_quote a)) = q_mint (nq_quote a) ∧
    canonicalKey (pair_value (nq_quote p) (nq_quote a)) = Ok key ∧
    lowest_terms m (Z.abs (num rp * den ra - num ra * den rp)) (den rp * den ra) ∧
    c = mkComparison (q_underlying (nq_quote p)) (q_mint (nq_quote p)) (q_mint (nq_quote a)) (q_inputRaw (nq_quote p))
          (nq_quote p) (nq_quote a) key rp ra (compareRationals rp ra) m cost (effect_of (compareRationals rp ra) cost) ∧
    num rp * den ra * (cost - 1) < (num rp * den ra - num ra * den rp) * BPS ≤ num rp * den ra * cost.
Proof.
  unfold compareQuotes, check_state_mint, norm_throw_if. cbv zeta.
  rewrite !throw_if_then_Ok, !negb_false_iff, !String.eqb_eq, Z.eqb_eq.
  intros (Hu & Hi & Hr & Hsp & Hsa & Hrun). apply bind_Ok in Hrun as (rp & Hp & Hrun). apply bind_Ok in Hrun as (ra & Ha & Hrun).
  apply throw_if_then_Ok in Hrun as (H0%Z.eqb_neq & Hrun).
  apply quote_shares_Ok in Hp as [Hlp Hnp]. apply quote_shares_Ok in Ha as [Hla Hna].
  pose proof (lt_pos _ _ _ Hlp). pose proof (lt_pos _ _ _ Hla).
  assert (0 < num rp * den ra) as HP by (apply Z.mul_pos_pos; lia).
  destruct (ceilDiv_spec ((num rp * den ra - num ra * den rp) * BPS) _ HP) as (cost & Hcost & Hlow & Hhigh).
  rewrite Hcost in Hrun. cbn [mbind result_bind] in Hrun. unfold quoteIdentityOf in Hrun.
  apply bind_Ok in Hrun as (pq & (_ & [= <-])%then_Ok & Hrun). apply bind_Ok in Hrun as (aq & (_ & [= <-])%then_Ok & Hrun).
  apply bind_Ok in Hrun as (key & Hkey & Hrun). apply bind_Ok in Hrun as (m & Hm & [= <-]).
  apply rational_of_Ok in Hm; [|by apply Z.mul_pos_pos].
  assert ((if num rp * den ra - num ra * den rp <? 0 then - (num rp * den ra - num ra * den rp)
    else num rp * den ra - num ra * den rp) = Z.abs (num rp * den ra - num ra * den rp)) as Habs
    by (destruct (Z.ltb_spec (num rp * den ra - num ra * den rp) 0); lia).
  rewrite Habs in Hm. exists rp, ra, m, key, cost. split_and!; try done. lia.
Qed.

(** C36: the cost of a switch is never understated: with the exact shares the two
    quotes deliver, [additionalCostBps] is the least number of basis points not
    below [(preferred - alternative) / preferred]; its sign and the reported
    effect follow the exact order of the shares, a better alternative's benefit
    is rounded down, and both quotes spend the same input on the same underlying. *)
Theorem compareQuotes_cost p a c (Hc : compareQuotes p a = Ok c) :
  shares_of (nq_quote p) (cmp_preferredSharesEquivalent c) ∧
  shares_of (nq_quote a) (cmp_alternativeSharesEquivalent c) ∧
  q_underlying (nq_quote p) = q_underlying (nq_quote a) ∧ q_inputMint (nq_quote p) = q_inputMint (nq_quote a) ∧
  q_inputRaw (nq_quote p) = q_inputRaw (nq_quote a) ∧
  let P := num (cmp_preferredSharesEquivalent c) * den (cmp_alternativeSharesEquivalent c) in
  let A := num (cmp_alternativeSharesEquivalent c) * den (cmp_preferredSharesEquivalent c) in
  let cost := cmp_additionalCostBps c in
  0 < P ∧ P * (cost - 1) < (P - A) * BPS ≤ P * cost ∧
  match cmp_economicEffect c with
  | ADDITIONAL_COST bps => A < P ∧ bps = cost ∧ 0 < bps
  | ECONOMICALLY_EQUAL => A = P ∧ cost = 0
  | BETTER_VALUE bps => P < A ∧ bps = - cost ∧ 0 ≤ bps ∧ P * bps ≤ (A - P) * BPS
  end.
Proof.
  apply compareQuotes_Ok in Hc as (rp & ra & m & key & cost & Hlp & Hla & Hp & Ha & Hu & Hi & Hr & _ & _ & _ & _ & -> & Hc).
  cbn [cmp_preferredSharesEquivalent cmp_alternativeSharesEquivalent cmp_additionalCostBps cmp_economicEffect].
  do 5 (split; [done|]). cbv zeta. pose proof (lt_pos _ _ _ Hlp). pose proof (lt_pos _ _ _ Hla).
  assert (0 < num rp * den ra) as HP by (by apply Z.mul_pos_pos).
  set (P := num rp * den ra) in *. set (A := num ra * den rp) in *.
  split; [exact HP|]. split; [exact Hc|]. unfold effect_of, BPS in *. fold P A.
  assert (compareRationals rp ra = -1 ∧ P < A ∨ compareRationals rp ra = 0 ∧ P = A ∨ compareRationals rp ra = 1 ∧ A < P) as Hs
    by apply compareRationals_spec.
  destruct Hs as [[-> Hs]|[[-> Hs]|[-> Hs]]]; cbn [Z.ltb Z.eqb Z.compare].
  - split_and!; [done|done|nia|nia].
  - split; [done|]. assert ((P - A) * 10000 = 0) as Hz by lia. rewrite Hz in Hc. nia.
  - split_and!; [done|done|nia].
Qed.

(** A comparison key names one comparison: two comparisons with the same
    [comparisonKey] come from the same two quotes - amounts, routes and states -
    and are equal in every field, so whatever is bound to the key (a
    disclosure, a consent, a plan) is bound to all of it. *)
Theorem comparisonKey_determines p a c p' a' c'
    (Hc : compareQuotes p a = Ok c) (Hc' : compareQuotes p' a' = Ok c')
    (Hkey : cmp_comparisonKey c = cmp_comparisonKey c') :
  nq_quote p = nq_quote p' ∧ nq_quote a = nq_quote a' ∧ c = c'.
Proof.
  assert (nq_quote p = nq_quote p' ∧ nq_quote a = nq_quote a') as [Hp Ha].
  { apply compareQuotes_Ok in Hc as (rp & ra & m & key & cost & _ & _ & _ & _ & _ & _ & _ & _ & _ & Hk & _ & -> & _).
    apply compareQuotes_Ok in Hc' as (rp' & ra' & m' & key' & cost' & _ & _ & _ & _ & _ & _ & _ & _ & _ & Hk' & _ & -> & _).
    cbn [cmp_comparisonKey] in Hkey. subst key'. pose proof (canonicalKey_inj _ _ _ Hk Hk') as Hn.
    by apply pair_value_inj in Hn. }
  split; [exact Hp|]. split; [exact Ha|].
  assert (compareQuotes p a = compareQuotes p' a') as Heq by (unfold compareQuotes; by rewrite Hp, Ha).
  congruence.
Qed.

(** KOx bought for 100 USDC against a second quote that delivers slightly less. *)
Definition sample_compare : result state_exn QuoteComparison :=
  compareQuotes (mkNormalized (sample_quote 1 143000000) xStocks) (mkNormalized (sample_quote 0 150000000) xStocks).

Definition sample_comparison : QuoteComparison := Eval vm_compute in
  ok_or (mkComparison "" "" "" 0 (sample_quote 0 0) (sample_quote 0 0) "" (mkRational 0 1) (mkRational 0 1) 0 (mkRational 0 1) 0 ECONOMICALLY_EQUAL)
    sample_compare.

Lemma compareQuotes_cost_witness :
  let c := sample_comparison in
  let P := num (cmp_preferredSharesEquivalent c) * den (cmp_alternativeSharesEquivalent c) in
  let A := num (cmp_alternativeSharesEquivalent c) * den (cmp_preferredSharesEquivalent c) in
  cmp_additionalCostBps c = 465 ∧ P * (cmp_additionalCostBps c - 1) < (P - A) * BPS ≤ P * cmp_additionalCostBps c.
Proof.
  intros c P A. split; [reflexivity|].
  apply (compareQuotes_cost (mkNormalized (sample_quote 1 143000000) xStocks) (mkNormalized (sample_quote 0 150000000) xStocks)).
  vm_compute. reflexivity.
Defined.

Lemma comparisonKey_determines_witness :
  let p := mkNormalized (sample_quote 1 143000000) xStocks in
  let a := mkNormalized (sample_quote 0 150000000) xStocks in
  nq_quote p = nq_quote p ∧ nq_quote a = nq_quote a ∧ sample_comparison = sample_comparison.
Proof.
  intros p a. apply (comparisonKey_determines p a sample_comparison p a sample_comparison); vm_compute; reflexivity.
Defined.
