(* ===== verification/ChainObservation.v ===== *)
(** * chain-observation.ts: chain evidence and its classification

    Decoder rejections become evidence; the classification of evidence under a
    transition policy is proved against the on-chain guard's window. *)

From S2P Require Import Prelude Js Errors Kit Base58 Abi OnChain OfflineCheck MintState Snapshot StateErrors CanonicalKey StateTypes.

Record RawMintAccount := mkRaw {
  raw_mint : string;
  raw_owner : string;
  raw_data : bytes;
  raw_slot : option Z;
  raw_blockTime : option Z;
  raw_observedAt : option string;
  raw_chainUnixTimestamp : option Z;
}.

(** The [catch] branch: an error that is no [GuardClientError] is rethrown. *)
Definition decode_failure (account : RawMintAccount) (error : GuardClientError) : ChainEvidence :=
  DecodeError (mkDecodeFailure (raw_mint account) (raw_slot account) (raw_blockTime account) (raw_observedAt account)
    (show_code (err_code error)) (err_message error)).

Definition observeMintAccount (account : RawMintAccount) : result client_exn ChainEvidence :=
  let decoded :=
    protectedState ← decodeProtectedState (raw_owner account) (raw_data account);
    metadata ← decodeMintMetadata (raw_owner account) (raw_data account);
    Ok (Decoded (mkObservation (raw_mint account) (raw_slot account) (raw_blockTime account) (raw_observedAt account)
          (raw_chainUnixTimestamp account) (NumInt (decimals metadata)) (paused metadata) protectedState
          (hasScheduledChange protectedState)
          (match raw_chainUnixTimestamp account with None => None | Some t => Some (phaseAt protectedState t) end))) in
  match decoded with
  | Ok evidence => Ok evidence
  | Err (GuardErr error) => Ok (decode_failure account error)
  | Err error => Err error
  end.

Section Fetch.
  Variable base64Data : string → bytes.
  Variable getMultipleAccounts : list Address → result client_exn RpcReply.
  (** [new Date().toISOString()]. *)
  Variable now : string.

(** The Clock's time; a Clock that does not decode gives none. *)
Definition clock_time (clockAccount : option RpcAccount) : result client_exn (option Z) :=
  match clockAccount with
  | None => Ok None
  | Some account =>
      match decodeClock (base64Data (rpc_data account)) with
      | Ok clock => Ok (Some (clock_unixTimestamp clock))
      | Err (GuardErr _) => Ok None
      | Err error => Err error
      end
  end.

Definition fetchChainObservation (mint : Address) : result client_exn ChainEvidence :=
  reply ← getMultipleAccounts [mint; SYSVAR_CLOCK_ADDRESS];
  match reply_mint reply with
  | None => Ok (DecodeError (mkDecodeFailure mint (Some (reply_slot reply)) None (Some now) "AccountNotFound" "mint account not found"))
  | Some mintAccount =>
      chainUnixTimestamp ← clock_time (reply_clock reply);
      observeMintAccount (mkRaw mint (rpc_owner mintAccount) (base64Data (rpc_data mintAccount))
        (Some (reply_slot reply)) None (Some now) chainUnixTimestamp)
  end.
End Fetch.

Record Classification := mkClassification { cl_state : RepresentationState; cl_reason : string }.

Definition assertValidPolicy (policy : TransitionPolicy) : result state_exn unit :=
  throw_if ((pol_beforeSecs policy <? 0) || (pol_afterSecs policy <? 0))
    (TransitionPolicyThrown "protection interval bounds must be non-negative").

Definition classify_observation (o : ChainObservation) (policy : TransitionPolicy) : Classification :=
  if bool_decide (ob_paused o = Some true) then mkClassification PAUSED "Token-2022 Pausable flag is set"
  else if negb (ob_hasScheduledChange o) then mkClassification SAFE "no scheduled multiplier change"
  else
    match ob_chainUnixTimestamp o with
    | None => mkClassification UNKNOWN "multiplier change scheduled but chain time unavailable"
    | Some now =>
        let activation := newMultiplierEffectiveTimestamp (ob_protectedState o) in
        if (activation - pol_beforeSecs policy <=? now) && (now <=? activation + pol_afterSecs policy)
        then mkClassification TRANSITION
          ("chain time " +:+ show_Z now +:+ " is inside [" +:+ show_Z (activation - pol_beforeSecs policy)
           +:+ ", " +:+ show_Z (activation + pol_afterSecs policy) +:+ "]")
        else mkClassification SAFE
          ("scheduled change " +:+ (if activation <=? now then "activated" else "pending")
           +:+ " and outside the protection interval (policy " +:+ show_calibration (pol_calibration policy) +:+ ")")
    end.

Definition classifyChainEvidence (evidence : ChainEvidence) (policy : TransitionPolicy) : result state_exn Classification :=
  assertValidPolicy policy;;
  match evidence with
  | DecodeError failure => Ok (mkClassification UNKNOWN ("mint could not be decoded: " +:+ df_code failure))
  | Decoded o => Ok (classify_observation o policy)
  end.

(* ------------------------------------------------------------------ *)
(** ** Observation *)

Lemma observeMintAccount_total account : ∃ e, observeMintAccount account = Ok e.
Proof.
  unfold observeMintAccount. cbv zeta.
  destruct (_ ≫= _) as [e|e] eqn:Hrun; [by exists e|].
  assert (structured (protectedState ← decodeProtectedState (raw_owner account) (raw_data account);
    metadata ← decodeMintMetadata (raw_owner account) (raw_data account);
    Ok (Decoded (mkObservation (raw_mint account) (raw_slot account) (raw_blockTime account) (raw_observedAt account)
          (raw_chainUnixTimestamp account) (NumInt (decimals metadata)) (paused metadata) protectedState
          (hasScheduledChange protectedState)
          (match raw_chainUnixTimestamp account with None => None | Some t => Some (phaseAt protectedState t) end))))) as Hs.
  { apply structured_bind; [apply structured_decodeProtectedState|intros s _].
    apply structured_bind; [apply structured_decodeMintMetadata|intros m _]. apply structured_Ok. }
  destruct (Hs e Hrun) as [g ->]. by eexists.
Qed.

Lemma observeMintAccount_Decoded account o : observeMintAccount account = Ok (Decoded o) ↔
  ∃ s m, decodeProtectedState (raw_owner account) (raw_data account) = Ok s ∧
    decodeMintMetadata (raw_owner account) (raw_data account) = Ok m ∧
    o = mkObservation (raw_mint account) (raw_slot account) (raw_blockTime account) (raw_observedAt account)
          (raw_chainUnixTimestamp account) (NumInt (decimals m)) (paused m) s (hasScheduledChange s)
          (phaseAt s <$> raw_chainUnixTimestamp account).
Proof.
  unfold observeMintAccount. cbv zeta.
  destruct (decodeProtectedState _ _) as [s|e]; cbn [mbind result_bind].
  2: { split; [destruct e; discriminate|by intros (? & ? & ? & _)]. }
  destruct (decodeMintMetadata _ _) as [m|e]; cbn [mbind result_bind].
  2: { split; [destruct e; discriminate|by intros (? & ? & _ & ? & _)]. }
  split.
  - intros [= <-]. exists s, m. split_and!; [done|done|]. by destruct (raw_chainUnixTimestamp account).
  - intros (? & ? & [= <-] & [= <-] & ->). by destruct (raw_chainUnixTimestamp account).
Qed.

(* ------------------------------------------------------------------ *)
(** ** Classification against the on-chain guard *)

(** The guard a client would send for an observation, with the policy's window. *)
Definition guard_for (o : ChainObservation) (policy : TransitionPolicy) : AssertSafeExecutionRequest :=
  mkRequest (ob_protectedState o) (ob_phase o ?? Pending)
    (mkWindow (NumInt (pol_beforeSecs policy)) (NumInt (pol_afterSecs policy))).

(** The off-chain classification is the guard's own verdict: for a mint
    decoded at chain time [now] and a policy whose window is representable, SAFE
    means the program's check passes at [now] with the policy's window,
    TRANSITION means it fails with InsideTransitionWindow, PAUSED is the
    Pausable flag, and a decoded mint with chain time is never UNKNOWN. *)
Theorem classification_matches_guard account now policy o cl
    (Htime : raw_chainUnixTimestamp account = Some now)
    (Hobs : observeMintAccount account = Ok (Decoded o))
    (Hcl : classifyChainEvidence (Decoded o) policy = Ok cl)
    (Hb : u32_range (pol_beforeSecs policy)) (Ha : u32_range (pol_afterSecs policy))
    (Hfit : I64_MIN ≤ newMultiplierEffectiveTimestamp (ob_protectedState o) - pol_beforeSecs policy ∧
            newMultiplierEffectiveTimestamp (ob_protectedState o) + pol_afterSecs policy ≤ I64_MAX) :
  let guard := check (guard_request (guard_for o policy)) (guard_state (ob_protectedState o)) now in
  match cl_state cl with
  | SAFE => guard = Ok tt
  | TRANSITION => guard = Err E_InsideTransitionWindow
  | PAUSED => ob_paused o = Some true
  | UNKNOWN => False
  end.
Proof.
  apply observeMintAccount_Decoded in Hobs as (s & m & Hs & _ & ->). cbn [ob_protectedState] in *.
  rewrite Htime in *. apply decodeProtectedState_sound in Hs as (_ & _ & _ & _ & _ & _ & _ & _ & _ & Ht & _).
  unfold classifyChainEvidence in Hcl. apply then_Ok in Hcl as [_ [= <-]]. cbv zeta.
  unfold classify_observation. cbn [ob_paused ob_hasScheduledChange ob_chainUnixTimestamp ob_protectedState].
  case_bool_decide as Hp; [exact Hp|]. unfold guard_for. cbn [ob_phase ob_protectedState fmap option_fmap option_map default from_option].
  destruct (hasScheduledChange s) eqn:Hsched; cbn [negb].
  - unfold hasScheduledChange in Hsched. apply negb_true_iff in Hsched.
    assert (gs_multiplier (guard_state s) ≠ gs_new_multiplier (guard_state s)) as Hne.
    { intros Heq. cbn in Heq. assert (bytesEqual (multiplier s) (newMultiplier s) = true) as He by by apply bytesEqual_spec. congruence. }
    destruct (_ && _) eqn:Hin; cbn [cl_state].
    + unfold check. cbn [guard_request as_expected expected guard_state gs_multiplier gs_new_multiplier gs_effective_timestamp].
      rewrite (bool_decide_eq_false_2 (multiplier s ≠ multiplier s)), (bool_decide_eq_false_2 (newMultiplier s ≠ newMultiplier s)) by (by intros []).
      rewrite Z.eqb_refl. cbn [negb throw_if mbind result_bind].
      unfold has_scheduled_change. rewrite bool_decide_eq_true_2 by exact Hne. cbn [negb].
      rewrite contains_u32 by done. cbn [as_window window before_secs after_secs guard_request].
      cbn [num_value beforeSecs afterSecs].
      rewrite (proj2 (orb_false_iff _ _)) by (rewrite !Z.ltb_ge; lia). cbn [mbind result_bind]. by rewrite Hin.
    + apply check_Ok. split; [done|]. right. split.
      * apply contains_outside; [done|done|done|]. cbn. apply andb_false_iff in Hin. rewrite !Z.leb_gt in Hin. unfold I64_MIN, I64_MAX in *. lia.
      * by rewrite guard_phase_at.
  - cbn [cl_state]. apply check_Ok. split; [done|]. left. unfold hasScheduledChange in Hsched.
    by apply negb_false_iff, bytesEqual_spec in Hsched.
Qed.

(** A mint that is not paused, with its change scheduled, observed inside the window of the policy. *)
Definition sample_open_mint : bytes :=
  zeros 44 ++ [x06; x01] ++ zeros 36 ++ zeros 83 ++ [x01] ++
  print_items [(Pausable, zeros 32 ++ [x00]); (ScaledUiAmount, scaled_config (zeros 32) sample_state)] ++ [x00].

Definition sample_raw (now : Z) : RawMintAccount :=
  mkRaw "mint" TOKEN_2022_PROGRAM_ADDRESS sample_open_mint (Some 1) None None (Some now).

Definition sample_observation (now : Z) : ChainObservation :=
  mkObservation "mint" (Some 1) None None (Some now) (NumInt 6) (Some false) sample_state true (Some (phaseAt sample_state now)).

Definition sample_policy : TransitionPolicy := mkPolicy 900 60 UNCALIBRATED "test".

Lemma classification_matches_guard_witness :
  cl_state <$> classifyChainEvidence (Decoded (sample_observation 1699999500)) sample_policy = Ok TRANSITION ∧
  check (guard_request (guard_for (sample_observation 1699999500) sample_policy)) (guard_state sample_state) 1699999500
    = Err E_InsideTransitionWindow.
Proof.
  split; [vm_compute; reflexivity|].
  apply (classification_matches_guard (sample_raw 1699999500) 1699999500 sample_policy (sample_observation 1699999500)
    (mkClassification TRANSITION "chain time 1699999500 is inside [1699999100, 1700000060]"));
    [reflexivity|vm_compute; reflexivity|vm_compute; reflexivity|..]; vm_compute; by split.
Defined.
