(* ===== verification/Registry.v ===== *)
(** * registry.ts: representations of one underlying

    [buildRegistry] with its uniqueness checks, the shipped entries, and the
    lookups. A [Map] is an association list in insertion order: its keys are
    unique because a repeated one is refused. The lookups take the registry,
    which in the code is the module's constant. *)

From S2P Require Import Prelude Js Errors Kit Base58 StateErrors CanonicalKey StateTypes.

Record Representation := mkRepresentation { rep_underlying : string; rep_issuer : Issuer; rep_symbol : string; rep_mint : Address }.

Record UnderlyingEquity := mkEquity { eq_underlying : string; eq_name : string; eq_representations : list Representation }.

Record RawRepresentation := mkRawRep { rr_issuer : Issuer; rr_symbol : string; rr_mint : string }.
Record RawEntry := mkEntry { re_underlying : string; re_name : string; re_representations : list RawRepresentation }.

Definition ENTRIES : list RawEntry :=
  [ mkEntry "KO" "Coca-Cola"
      [ mkRawRep xStocks "KOx" "XsaBXg8dU5cPM6ehmVctMkVqoiRG2ZjMo1cyBJ3AykQ";
        mkRawRep Ondo "KOon" "e6G4pfFcrdKxJuZ4YXixRFfMbpMvgXG2Mjcus71ondo" ];
    mkEntry "UNH" "UnitedHealth"
      [ mkRawRep xStocks "UNHx" "XszvaiXGPwvk2nwb3o9C1CX4K6zH8sez11E6uyup6fe";
        mkRawRep Ondo "UNHon" "kPBGL8vAwKN3UGmr9cjkM2dU79SC3nzTC9yu7F8ondo" ];
    mkEntry "CRM" "Salesforce"
      [ mkRawRep xStocks "CRMx" "XsczbcQ3zfcgAEt9qHQES8pxKAVG5rujPSHQEXi4kaN";
        mkRawRep Ondo "CRMon" "7D7ukbcnUNYt7Et5vtsDZhAy28MKu9pkHka1Hp9ondo" ] ].

Abbreviation Registry := (list UnderlyingEquity).

Section Build.
  Context `{!AddressCodec}.

(** The sets of [buildRegistry] a representation is checked against. *)
Record Seen := mkSeen { seen_mints : gset string; seen_symbols : gset string; seen_issuers : list Issuer }.

(** The body of the inner [map]. *)
Definition addRepresentation (underlying : string) (seen : Seen) (r : RawRepresentation) : result state_exn (Seen * Representation) :=
  throw_if (negb (isAddress (rr_mint r))) (RegistryThrown (rr_symbol r +:+ ": invalid mint address"));;
  throw_if (bool_decide (rr_mint r ∈ seen_mints seen)) (RegistryThrown (rr_symbol r +:+ ": duplicate mint " +:+ rr_mint r));;
  throw_if (bool_decide (rr_symbol r ∈ seen_symbols seen)) (RegistryThrown ("duplicate symbol " +:+ rr_symbol r));;
  throw_if (bool_decide (rr_issuer r ∈ seen_issuers seen)) (RegistryThrown (underlying +:+ ": duplicate issuer " +:+ show_issuer (rr_issuer r)));;
  Ok (mkSeen ({[rr_mint r]} ∪ seen_mints seen) ({[rr_symbol r]} ∪ seen_symbols seen) (rr_issuer r :: seen_issuers seen),
      mkRepresentation underlying (rr_issuer r) (rr_symbol r) (rr_mint r)).

Fixpoint addRepresentations (underlying : string) (seen : Seen) (rs : list RawRepresentation)
    : result state_exn (Seen * list Representation) :=
  match rs with
  | [] => Ok (seen, [])
  | r :: rs =>
      '(seen, representation) ← addRepresentation underlying seen r;
      '(seen, representations) ← addRepresentations underlying seen rs;
      Ok (seen, representation :: representations)
  end.

(** The body of the outer loop: [issuers] is fresh for every entry. *)
Fixpoint buildEntries (registry : Registry) (mints symbols : gset string) (entries : list RawEntry) : result state_exn Registry :=
  match entries with
  | [] => Ok registry
  | entry :: entries =>
      throw_if (existsb (λ e, String.eqb (eq_underlying e) (re_underlying entry)) registry)
        (RegistryThrown ("duplicate underlying " +:+ re_underlying entry));;
      throw_if (existsb (λ r, bool_decide (rr_issuer r = DEVNET_TEST)) (re_representations entry))
        (RegistryThrown (re_underlying entry +:+ ": devnet test assets cannot be registry representations"));;
      '(seen, representations) ← addRepresentations (re_underlying entry) (mkSeen mints symbols []) (re_representations entry);
      buildEntries (registry ++ [mkEquity (re_underlying entry) (re_name entry) representations])
        (seen_mints seen) (seen_symbols seen) entries
  end.

Definition buildRegistry (entries : list RawEntry) : result state_exn Registry := buildEntries [] ∅ ∅ entries.
End Build.

Definition listUnderlyings (registry : Registry) : list UnderlyingEquity := registry.

Definition getUnderlying (registry : Registry) (ticker : string) : result state_exn UnderlyingEquity :=
  of_option (UnknownUnderlyingThrown ("unknown underlying " +:+ ticker))
    (List.find (λ e, String.eqb (eq_underlying e) ticker) registry).

(** The first match in the first entry that has one. *)
Fixpoint find_in_registry (f : Representation → bool) (registry : Registry) : option Representation :=
  match registry with
  | [] => None
  | e :: registry => match List.find f (eq_representations e) with Some r => Some r | None => find_in_registry f registry end
  end.

Definition findRepresentationByMint (registry : Registry) (mint : string) : option Representation :=
  find_in_registry (λ r, String.eqb (rep_mint r) mint) registry.

Definition findRepresentationBySymbol (registry : Registry) (symbol : string) : option Representation :=
  find_in_registry (λ r, String.eqb (rep_symbol r) symbol) registry.

Definition alternativesFor (registry : Registry) (representation : Representation) : result state_exn (list Representation) :=
  equity ← getUnderlying registry (rep_underlying representation);
  Ok (filter (λ r, rep_mint r ≠ rep_mint representation) (eq_representations equity)).

(* ------------------------------------------------------------------ *)
(** ** A built registry is unambiguous *)

(** Every representation of the registry, in order. *)
Definition all_representations (registry : Registry) : list Representation := concat (map eq_representations registry).

Record registry_inv `{!AddressCodec} (registry : Registry) (mints symbols : gset string) : Prop := {
  ri_underlyings : NoDup (map eq_underlying registry);
  ri_mints : NoDup (map rep_mint (all_representations registry));
  ri_symbols : NoDup (map rep_symbol (all_representations registry));
  ri_seen_mints m : m ∈ mints ↔ m ∈ map rep_mint (all_representations registry);
  ri_seen_symbols s : s ∈ symbols ↔ s ∈ map rep_symbol (all_representations registry);
  ri_entries e : e ∈ registry → NoDup (map rep_issuer (eq_representations e)) ∧
    Forall (λ r, rep_underlying r = eq_underlying e ∧ isAddress (rep_mint r) = true ∧ rep_issuer r ≠ DEVNET_TEST) (eq_representations e);
}.

Section BuildSpec.
  Context `{!AddressCodec}.

(** What one entry adds. *)
Record added (underlying : string) (seen : Seen) (rs : list RawRepresentation) (seen' : Seen) (reps : list Representation) : Prop := {
  ad_reps : reps = map (λ r, mkRepresentation underlying (rr_issuer r) (rr_symbol r) (rr_mint r)) rs;
  ad_address : Forall (λ r, isAddress (rep_mint r) = true) reps;
  ad_mints : NoDup (map rep_mint reps);
  ad_symbols : NoDup (map rep_symbol reps);
  ad_issuers : NoDup (map rep_issuer reps);
  ad_new_mints m : m ∈ map rep_mint reps → ¬ (m ∈ seen_mints seen);
  ad_new_symbols s : s ∈ map rep_symbol reps → ¬ (s ∈ seen_symbols seen);
  ad_new_issuers i : i ∈ map rep_issuer reps → ¬ (i ∈ seen_issuers seen);
  ad_seen_mints m : m ∈ seen_mints seen' ↔ m ∈ map rep_mint reps ∨ m ∈ seen_mints seen;
  ad_seen_symbols s : s ∈ seen_symbols seen' ↔ s ∈ map rep_symbol reps ∨ s ∈ seen_symbols seen;
}.

Lemma addRepresentations_added underlying seen rs seen' reps :
  addRepresentations underlying seen rs = Ok (seen', reps) → added underlying seen rs seen' reps.
Proof.
  revert seen seen' reps. induction rs as [|r rs IH]; intros seen seen' reps Hrun; cbn [addRepresentations] in Hrun.
  { injection Hrun as <- <-. split; cbn; try done; try constructor; try (by intros ? ?%not_elem_of_nil).
    - by right.
    - by intros [?%not_elem_of_nil|].
    - by right.
    - by intros [?%not_elem_of_nil|]. }
  apply bind_Ok in Hrun as ([s1 r1] & Hadd & Hrun). apply bind_Ok in Hrun as ([s2 rs2] & Hrest & [= <- <-]).
  unfold addRepresentation in Hadd. rewrite !throw_if_then_Ok, negb_false_iff, !bool_decide_eq_false in Hadd.
  destruct Hadd as (Haddr & Hm & Hs & Hi & [= <- <-]). apply IH in Hrest as [-> ? ? ? ? Hnm Hns Hni Hsm Hss]. clear IH.
  cbn [seen_mints seen_symbols seen_issuers] in *.
  split; cbn [map rep_mint rep_symbol rep_issuer].
  - done.
  - by constructor.
  - constructor; [|done]. intros Hin%Hnm. apply Hin, elem_of_union. left. by apply elem_of_singleton.
  - constructor; [|done]. intros Hin%Hns. apply Hin, elem_of_union. left. by apply elem_of_singleton.
  - constructor; [|done]. intros Hin%Hni. apply Hin, elem_of_cons. by left.
  - intros m [->|Hin%Hnm]%elem_of_cons; [done|]. intros Hseen. apply Hin, elem_of_union. by right.
  - intros m [->|Hin%Hns]%elem_of_cons; [done|]. intros Hseen. apply Hin, elem_of_union. by right.
  - intros m [->|Hin%Hni]%elem_of_cons; [done|]. intros Hseen. apply Hin, elem_of_cons. by right.
  - intros m. rewrite Hsm, elem_of_union, elem_of_singleton, elem_of_cons. tauto.
  - intros m. rewrite Hss, elem_of_union, elem_of_singleton, elem_of_cons. tauto.
Qed.

Lemma all_representations_snoc registry e :
  all_representations (registry ++ [e]) = all_representations registry ++ eq_representations e.
Proof. unfold all_representations. rewrite map_app, concat_app. cbn. by rewrite app_nil_r. Qed.

Lemma buildEntries_inv registry mints symbols entries registry' :
  registry_inv registry mints symbols → buildEntries registry mints symbols entries = Ok registry' →
  ∃ mints' symbols', registry_inv registry' mints' symbols' ∧
    map eq_underlying registry' = map eq_underlying registry ++ map re_underlying entries.
Proof.
  revert registry mints symbols. induction entries as [|entry entries IH]; intros registry mints symbols Hinv Hrun; cbn [buildEntries] in Hrun.
  { injection Hrun as <-. exists mints, symbols. split; [done|]. by rewrite app_nil_r. }
  rewrite !throw_if_then_Ok, !existsb_false in Hrun. destruct Hrun as (Hu & Hdev & Hrun).
  apply bind_Ok in Hrun as ([seen reps] & Hadd%addRepresentations_added & Hrun).
  apply IH in Hrun as (mints' & symbols' & Hinv' & Hmap); clear IH.
  - exists mints', symbols'. split; [done|]. rewrite Hmap, map_app. by rewrite <- app_assoc.
  - destruct Hinv as [I1 I2 I3 I4 I5 I6], Hadd as [A1 A2 A3 A4 A5 A6 A7 _ A9 A10]. cbn [seen_mints seen_symbols] in *. split.
    + rewrite map_app. apply NoDup_app. split; [done|]. cbn. split; [|apply NoDup_singleton].
      intros u Hin ->%list_elem_of_singleton. apply list_elem_of_fmap in Hin as (e & Heq & Hin).
      specialize (Hu e Hin). apply String.eqb_neq in Hu. by symmetry in Heq.
    + rewrite all_representations_snoc, map_app. apply NoDup_app. split; [done|]. split; [|done].
      intros m Hin Hin'%A6. by apply Hin', I4.
    + rewrite all_representations_snoc, map_app. apply NoDup_app. split; [done|]. split; [|done].
      intros m Hin Hin'%A7. by apply Hin', I5.
    + intros m. rewrite A9, all_representations_snoc, map_app, elem_of_app, I4. tauto.
    + intros m. rewrite A10, all_representations_snoc, map_app, elem_of_app, I5. tauto.
    + intros e [Hin| ->%list_elem_of_singleton]%elem_of_app; [by apply I6|]. cbn. split; [done|].
      rewrite Forall_forall in A2. apply Forall_forall. intros r Hr. split_and!; [|by apply A2|].
      * rewrite A1 in Hr. apply list_elem_of_fmap in Hr as (x & -> & _). done.
      * rewrite A1 in Hr. apply list_elem_of_fmap in Hr as (x & -> & Hx). cbn.
        specialize (Hdev x Hx). by apply bool_decide_eq_false in Hdev.
Qed.

Lemma find_in_registry_Some f registry r : find_in_registry f registry = Some r → r ∈ all_representations registry ∧ f r = true.
Proof.
  induction registry as [|e registry IH]; [done|]. cbn [find_in_registry].
  destruct (List.find f _) as [r'|] eqn:Hf.
  - intros [= <-]. apply List.find_some in Hf as [Hin Hfr]. split; [|done]. apply elem_of_app. left. by apply list_elem_of_In.
  - intros [Hin Hfr]%IH. split; [|done]. apply elem_of_app. by right.
Qed.

Lemma find_in_registry_complete f registry r : r ∈ all_representations registry → f r = true → is_Some (find_in_registry f registry).
Proof.
  induction registry as [|e registry IH]; [by intros ?%not_elem_of_nil|]. cbn [find_in_registry]. intros Hin Hfr.
  destruct (List.find f _) as [r'|] eqn:Hf; [by eexists|]. apply elem_of_app in Hin as [Hin|Hin]; [|by apply IH].
  eapply List.find_none in Hf; [|by apply list_elem_of_In]. congruence.
Qed.

Lemma unique_by {A B} (f : A → B) l x y : NoDup (map f l) → x ∈ l → y ∈ l → f x = f y → x = y.
Proof.
  induction l as [|z l IH]; [by intros _ ?%not_elem_of_nil|]. cbn. intros [Hz Hnd]%NoDup_cons Hx Hy Heq.
  apply elem_of_cons in Hx as [->|Hx], Hy as [->|Hy]; [done|..|by apply IH].
  - destruct Hz. rewrite Heq. by apply list_elem_of_fmap_2.
  - destruct Hz. rewrite <- Heq. by apply list_elem_of_fmap_2.
Qed.
End BuildSpec.

Section Lookups.
  Context `{!AddressCodec}.

Lemma registry_inv_nil : registry_inv [] ∅ ∅.
Proof.
  split; [apply NoDup_nil_2|apply NoDup_nil_2|apply NoDup_nil_2| | |by intros e ?%not_elem_of_nil].
  - intros m. by rewrite elem_of_empty, elem_of_nil.
  - intros s. by rewrite elem_of_empty, elem_of_nil.
Qed.

Lemma buildRegistry_inv entries registry : buildRegistry entries = Ok registry →
  ∃ mints symbols, registry_inv registry mints symbols ∧ map eq_underlying registry = map re_underlying entries.
Proof.
  intros (mints & symbols & Hinv & Hmap)%buildEntries_inv; [by eauto|apply registry_inv_nil].
Qed.

Lemma find_by_spec {B} `{!EqDecision B} (key : Representation → B) f registry b r :
  (∀ r, f r = true ↔ key r = b) → NoDup (map key (all_representations registry)) →
  (find_in_registry f registry = Some r ↔ r ∈ all_representations registry ∧ key r = b).
Proof.
  intros Hf Hnd. split; [by intros [? ?%Hf]%find_in_registry_Some|]. intros [Hin Hk].
  destruct (find_in_registry_complete f registry r Hin) as [r' Hr']; [by apply Hf|]. rewrite Hr'. f_equal.
  apply find_in_registry_Some in Hr' as [Hin' Hk'%Hf]. apply (unique_by key _ _ _ Hnd Hin' Hin). congruence.
Qed.

Lemma entry_of registry r : r ∈ all_representations registry → ∃ e, e ∈ registry ∧ r ∈ eq_representations e.
Proof.
  unfold all_representations. induction registry as [|e registry IH]; [by intros ?%not_elem_of_nil|]. cbn.
  intros [Hin|Hin]%elem_of_app; [exists e; split; [by left|done]|]. destruct (IH Hin) as (e' & ? & ?). exists e'. split; [by right|done].
Qed.

Lemma in_all registry e r : e ∈ registry → r ∈ eq_representations e → r ∈ all_representations registry.
Proof.
  unfold all_representations. induction registry as [|e' registry IH]; [by intros ?%not_elem_of_nil|]. cbn.
  intros [->|Hin]%elem_of_cons Hr; apply elem_of_app; [by left|right; by apply IH].
Qed.

Lemma getUnderlying_spec registry e : NoDup (map eq_underlying registry) → e ∈ registry →
  getUnderlying registry (eq_underlying e) = Ok e.
Proof.
  intros Hnd Hin. unfold getUnderlying. destruct (List.find _ _) as [e'|] eqn:Hf.
  - apply List.find_some in Hf as [Hin'%list_elem_of_In Heq%String.eqb_eq]. cbn. f_equal. by apply (unique_by eq_underlying registry).
  - eapply List.find_none in Hf; [|by apply list_elem_of_In]. by rewrite String.eqb_refl in Hf.
Qed.

(** A registry that builds is unambiguous: a mint or a symbol finds exactly
    the one representation that carries it, none is a devnet test asset or has
    an invalid address, and the alternatives of a representation are exactly the
    other representations of its underlying, each of another issuer. *)
Theorem registry_unambiguous entries registry (Hbuild : buildRegistry entries = Ok registry) :
  (∀ mint r, findRepresentationByMint registry mint = Some r ↔ r ∈ all_representations registry ∧ rep_mint r = mint) ∧
  (∀ symbol r, findRepresentationBySymbol registry symbol = Some r ↔ r ∈ all_representations registry ∧ rep_symbol r = symbol) ∧
  ∀ r, r ∈ all_representations registry →
    rep_issuer r ≠ DEVNET_TEST ∧ isAddress (rep_mint r) = true ∧
    ∃ alternatives, alternativesFor registry r = Ok alternatives ∧
      ∀ x, x ∈ alternatives ↔
        x ∈ all_representations registry ∧ rep_underlying x = rep_underlying r ∧ rep_issuer x ≠ rep_issuer r.
Proof.
  apply buildRegistry_inv in Hbuild as (mints & symbols & [I1 I2 I3 _ _ I6] & _). split; [|split].
  - intros mint r. apply (find_by_spec rep_mint); [intros; apply String.eqb_eq|done].
  - intros symbol r. apply (find_by_spec rep_symbol); [intros; apply String.eqb_eq|done].
  - intros r Hr. destruct (entry_of _ _ Hr) as (e & He & Hre). destruct (I6 e He) as [Hiss Hall].
    rewrite Forall_forall in Hall. destruct (Hall r Hre) as (Hu & Ha & Hd). split; [done|]. split; [done|].
    unfold alternativesFor. rewrite Hu, getUnderlying_spec by done. eexists; split; [reflexivity|].
    intros x. rewrite list_elem_of_filter. split.
    + intros [Hne Hx]. destruct (Hall x Hx) as (Hux & _). split_and!; [by eapply in_all|congruence|].
      intros Heq. apply Hne. f_equal. by apply (unique_by rep_issuer _ _ _ Hiss).
    + intros (Hx & Hux & Hne). destruct (entry_of _ _ Hx) as (e' & He' & Hxe').
      destruct (I6 e' He') as [_ Hall']. rewrite Forall_forall in Hall'. destruct (Hall' x Hxe') as (Hu' & _).
      assert (e' = e) as -> by (apply (unique_by eq_underlying registry); done || congruence).
      split; [|done]. intros Heq. apply Hne. f_equal. by apply (unique_by rep_mint (all_representations registry)).
Qed.
End Lookups.

(** The shipped registry. *)
Definition REGISTRY : Registry := Eval vm_compute in ok_or [] (buildRegistry ENTRIES).

Lemma registry_unambiguous_witness :
  buildRegistry ENTRIES = Ok REGISTRY ∧ length (all_representations REGISTRY) = 6%nat ∧
  ∀ mint r, findRepresentationByMint REGISTRY mint = Some r ↔ r ∈ all_representations REGISTRY ∧ rep_mint r = mint.
Proof.
  assert (buildRegistry ENTRIES = Ok REGISTRY) as H by (vm_compute; reflexivity).
  split; [exact H|]. split; [reflexivity|]. apply (registry_unambiguous ENTRIES REGISTRY H).
Defined.
