(* ===== verification/Adapters.v ===== *)
(** * xstocks-adapter.ts and ondo-adapter.ts: resolving an issuer's state

    xStocks state comes from chain evidence only; Ondo state from chain and API
    evidence kept apart. [Date.parse] is given for the ISO spelling the code
    writes and documents; how an engine reads any other spelling is
    implementation-defined and is the parameter [other_date]. *)

From S2P Require Import Prelude Js Errors Kit Base58 Abi OnChain MintState StateErrors CanonicalKey StateTypes ChainObservation Registry.

(** ** [Date.parse] *)

Definition digit_value (c : Ascii.ascii) : option Z :=
  let n := Z.of_N (Ascii.N_of_ascii c) in if (48 <=? n) && (n <=? 57) then Some (n - 48) else None.

(** The next [n] digits of a text as a number, and the rest. *)
Fixpoint take_digits (n : nat) (acc : Z) (s : string) : option (Z * string) :=
  match n, s with
  | O, _ => Some (acc, s)
  | S n, String c s => d ← digit_value c; take_digits n (10 * acc + d) s
  | S _, "" => None
  end.

Definition take_char (c : Ascii.ascii) (s : string) : option string :=
  match s with String d s => if Ascii.eqb c d then Some s else None | "" => None end.

(** Days from 1970-01-01 of a date of the proleptic Gregorian calendar. *)
Definition days_from_civil (y m d : Z) : Z :=
  let y := if m <=? 2 then y - 1 else y in
  let era := y / 400 in
  let yoe := y - era * 400 in
  let doy := (153 * (if 2 <? m then m - 3 else m + 9) + 2) / 5 + d - 1 in
  let doe := yoe * 365 + yoe / 4 - yoe / 100 + doy in
  era * 146097 + doe - 719468.

Definition days_in_month (y m : Z) : Z :=
  if m =? 2 then (if (y mod 4 =? 0) && (negb (y mod 100 =? 0) || (y mod 400 =? 0)) then 29 else 28)
  else if (m =? 4) || (m =? 6) || (m =? 9) || (m =? 11) then 30 else 31.

(** [YYYY-MM-DDTHH:mm:ssZ] with or without milliseconds, in milliseconds since 1970. *)
Definition parse_iso (s : string) : option Z :=
  let dash := Ascii.ascii_of_nat 45 in let colon := Ascii.ascii_of_nat 58 in
  '(y, s) ← take_digits 4 0 s; s ← take_char dash s;
  '(mo, s) ← take_digits 2 0 s; s ← take_char dash s;
  '(d, s) ← take_digits 2 0 s; s ← take_char (Ascii.ascii_of_nat 84) s;
  '(h, s) ← take_digits 2 0 s; s ← take_char colon s;
  '(mi, s) ← take_digits 2 0 s; s ← take_char colon s;
  '(sec, s) ← take_digits 2 0 s;
  '(ms, s) ← match take_char (Ascii.ascii_of_nat 46) s with Some s => take_digits 3 0 s | None => Some (0, s) end;
  s ← take_char (Ascii.ascii_of_nat 90) s;
  if String.eqb s "" && (1 <=? mo) && (mo <=? 12) && (1 <=? d) && (d <=? days_in_month y mo)
     && (h <=? 23) && (mi <=? 59) && (sec <=? 59)
  then Some ((((days_from_civil y mo d * 24 + h) * 60 + mi) * 60 + sec) * 1000 + ms) else None.

Lemma parse_iso_example : parse_iso "2026-09-15T13:30:00.000Z" = Some 1789479000000.
Proof. vm_compute. reflexivity. Qed.

(* ------------------------------------------------------------------ *)
(** ** xstocks-adapter.ts *)

Definition resolveXStocksState (representation : Representation) (evidence : ChainEvidence) (policy : TransitionPolicy)
    : result state_exn ResolvedRepresentationState :=
  throw_if (negb (bool_decide (rep_issuer representation = xStocks)))
    (RegistryThrown (rep_symbol representation +:+ " is not an xStocks representation"));;
  throw_if (negb (String.eqb (ev_mint evidence) (rep_mint representation)))
    (RegistryThrown ("evidence mint " +:+ ev_mint evidence +:+ " does not match " +:+ rep_symbol representation));;
  c ← classifyChainEvidence evidence policy;
  Ok (mkResolved (rep_underlying representation) (rep_issuer representation) (rep_symbol representation) (rep_mint representation)
        (Some (cl_state c)) (Some CHAIN) (Some (cl_state c)) None (ev_slot evidence) (ev_blockTime evidence) (ev_observedAt evidence)
        (cl_reason c) (Some evidence) None (Some policy)).

(* ------------------------------------------------------------------ *)
(** ** ondo-adapter.ts *)

Definition API_STATUS_TO_STATE (status : ApiStatus) : RepresentationState :=
  match status with active => SAFE | paused_status => PAUSED | transition_status => TRANSITION | unknown_status => UNKNOWN end.

Section Ondo.
  Variable other_date : string → option Z.

(** [Date.parse(s)]: [None] is NaN. *)
Definition Date_parse (s : string) : option Z := match parse_iso s with Some t => Some t | None => other_date s end.

(** The state an API observation contributes at [evaluatedAt], and why. *)
Definition apiEvidenceUse (api : ApiObservation) (evaluatedAt : option string) : option RepresentationState * string :=
  if String.eqb (api_sourceClass api) HISTORICAL_API_STATE
  then (None, "historical API evidence (" +:+ api_observedAt api +:+ ") ignored: never live state")
  else if negb (String.eqb (api_sourceClass api) LIVE_API_STATE)
  then (Some UNKNOWN, "API evidence without a known source class")
  else
    match api_validUntil api ≫= Date_parse, evaluatedAt ≫= Date_parse with
    | Some until, Some at_ =>
        if until <? at_ then (Some UNKNOWN, "live API evidence expired at " +:+ show_option id (api_validUntil api))
        else (Some (API_STATUS_TO_STATE (api_status api)),
              "status " +:+ show_status (api_status api) +:+ " (live until " +:+ show_option id (api_validUntil api) +:+ ")")
    | _, _ => (Some UNKNOWN, "live API evidence without a freshness bound or evaluation time")
    end.

Definition resolveOndoState (representation : Representation) (chain : option ChainEvidence) (api : option ApiObservation)
    (evaluatedAt : option string) (policy : TransitionPolicy) : result state_exn ResolvedRepresentationState :=
  throw_if (negb (bool_decide (rep_issuer representation = Ondo)))
    (RegistryThrown (rep_symbol representation +:+ " is not an Ondo representation"));;
  throw_if (match chain with Some chain => negb (String.eqb (ev_mint chain) (rep_mint representation)) | None => false end)
    (RegistryThrown ("chain evidence mint " +:+ show_option ev_mint chain +:+ " does not match " +:+ rep_symbol representation));;
  throw_if (match api with
            | Some api => negb (String.eqb (api_symbol api) (rep_symbol representation)) || negb (bool_decide (api_issuer api = Ondo))
            | None => false end)
    (RegistryThrown ("API evidence " +:+ show_option (λ a, show_issuer (api_issuer a)) api +:+ ":"
       +:+ show_option api_symbol api +:+ " does not match " +:+ rep_symbol representation));;
  chainClass ← match chain with Some chain => Some <$> classifyChainEvidence chain policy | None => Ok None end;
  let apiUse := (λ api, apiEvidenceUse api evaluatedAt) <$> api in
  let apiState := apiUse ≫= fst in
  let chainState := cl_state <$> chainClass in
  let apiReason := (snd <$> apiUse) ?? "undefined" in
  let chainReason := (cl_reason <$> chainClass) ?? "" in
  let common state stateSource reason :=
    Ok (mkResolved (rep_underlying representation) (rep_issuer representation) (rep_symbol representation) (rep_mint representation)
          state stateSource chainState apiState (chain ≫= ev_slot) (chain ≫= ev_blockTime)
          (match chain ≫= ev_observedAt with Some t => Some t | None => api_observedAt <$> api end)
          reason chain api (match chain with Some _ => Some policy | None => None end)) in
  match chainState, apiState with
  | None, None => common (Some UNKNOWN) None
      (match apiUse with Some use => "no chain evidence; " +:+ snd use | None => "no chain or API evidence" end)
  | Some c, None => common (Some c) (Some CHAIN) (chainReason +:+ match apiUse with Some use => "; " +:+ snd use | None => "" end)
  | None, Some a => common (Some a) (Some API) ("API " +:+ apiReason)
  | Some c, Some a =>
      if bool_decide (c = a) then common (Some c) (Some BOTH_AGREE) ("chain and API agree: " +:+ chainReason)
      else common None (Some CONFLICT) ("chain says " +:+ show_state c +:+ " (" +:+ chainReason +:+ "); API says "
             +:+ show_state a +:+ " (" +:+ apiReason +:+ ")")
  end.

(* ------------------------------------------------------------------ *)
(** ** What a resolved state rests on *)

(** API evidence that is live and still fresh at [evaluatedAt], with status [s]. *)
Definition fresh_api (api : ApiObservation) (evaluatedAt : option string) (s : ApiStatus) : Prop :=
  api_sourceClass api = LIVE_API_STATE ∧ api_status api = s ∧
  ∃ until at_, api_validUntil api ≫= Date_parse = Some until ∧ evaluatedAt ≫= Date_parse = Some at_ ∧ at_ ≤ until.

Lemma apiEvidenceUse_state api evaluatedAt s : (apiEvidenceUse api evaluatedAt).1 = Some s → s ≠ UNKNOWN →
  ∃ st, fresh_api api evaluatedAt st ∧ API_STATUS_TO_STATE st = s.
Proof.
  unfold apiEvidenceUse, fresh_api. destruct (String.eqb _ HISTORICAL_API_STATE); [discriminate|].
  destruct (String.eqb_spec (api_sourceClass api) LIVE_API_STATE) as [Hl|]; cbn [negb]; [|by intros [= <-]].
  destruct (api_validUntil api ≫= Date_parse) as [until|]; [|by intros [= <-]].
  destruct (evaluatedAt ≫= Date_parse) as [at_|]; [|by intros [= <-]].
  destruct (Z.ltb_spec until at_); cbn; [by intros [= <-]|]. intros [= <-] _. exists (api_status api). eauto 10.
Qed.

Lemma apiEvidenceUse_None api evaluatedAt : (apiEvidenceUse api evaluatedAt).1 = None ↔ api_sourceClass api = HISTORICAL_API_STATE.
Proof.
  unfold apiEvidenceUse. destruct (String.eqb_spec (api_sourceClass api) HISTORICAL_API_STATE) as [He|He]; [by split|].
  split; [|done]. repeat case_match; discriminate.
Qed.

(** The state chain evidence contributes. *)
Definition chain_state_of (chain : option ChainEvidence) (policy : TransitionPolicy) : option RepresentationState :=
  match chain with
  | Some e => match classifyChainEvidence e policy with Ok c => Some (cl_state c) | Err _ => None end
  | None => None
  end.

Lemma chainClass_Ok chain policy cls :
  match chain with Some e => Some <$> classifyChainEvidence e policy | None => Ok None end = Ok cls →
  cl_state <$> cls = chain_state_of chain policy ∧ (cls = None ↔ chain = None).
Proof.
  unfold chain_state_of. destruct chain as [e|]; [|by intros [= <-]].
  destruct (classifyChainEvidence e policy) as [c|]; [|discriminate]. by intros [= <-].
Qed.

(** A resolved Ondo state rests on evidence for that very representation:
    disagreeing chain and API states give no state and the source CONFLICT; any
    state other than UNKNOWN is what the chain evidence classifies to, with no
    live API evidence against it, or - without chain evidence - the status of API
    evidence that is live and still fresh at the evaluation time; and the
    transition policy is recorded exactly when chain evidence was classified. *)
Theorem resolveOndoState_evidence representation chain api evaluatedAt policy s
    (Hs : resolveOndoState representation chain api evaluatedAt policy = Ok s) :
  rep_issuer representation = Ondo ∧ rs_mint s = rep_mint representation ∧
  (∀ e, chain = Some e → ev_mint e = rep_mint representation) ∧
  (∀ a, api = Some a → api_symbol a = rep_symbol representation ∧ api_issuer a = Ondo) ∧
  rs_chainState s = chain_state_of chain policy ∧
  (rs_state s = None ↔ rs_stateSource s = Some CONFLICT) ∧
  (rs_stateSource s = Some CONFLICT ↔ ∃ c a, rs_chainState s = Some c ∧ rs_apiState s = Some a ∧ c ≠ a) ∧
  (∀ st, rs_state s = Some st → st ≠ UNKNOWN →
     (rs_chainState s = Some st ∧ (rs_apiState s = None ∨ rs_apiState s = Some st)) ∨
     (chain = None ∧ ∃ a st', api = Some a ∧ fresh_api a evaluatedAt st' ∧ API_STATUS_TO_STATE st' = st)) ∧
  rs_transitionPolicy s = (match chain with Some _ => Some policy | None => None end).
Proof.
  unfold resolveOndoState in Hs. cbv zeta in Hs. rewrite !throw_if_then_Ok, negb_false_iff, bool_decide_eq_true in Hs.
  destruct Hs as (Hi & Hm & Ha & Hrun). apply bind_Ok in Hrun as (cls & [Hcls Hnone]%chainClass_Ok & Hrun).
  split; [exact Hi|].
  assert (∀ e, chain = Some e → ev_mint e = rep_mint representation) as Hm'.
  { intros e ->. by apply negb_false_iff, String.eqb_eq in Hm. }
  assert (∀ a, api = Some a → api_symbol a = rep_symbol representation ∧ api_issuer a = Ondo) as Ha'.
  { intros a ->. by rewrite orb_false_iff, !negb_false_iff, String.eqb_eq, bool_decide_eq_true in Ha. }
  destruct (cl_state <$> cls) as [c|] eqn:Hc, (((λ api, apiEvidenceUse api evaluatedAt) <$> api) ≫= fst) as [a|] eqn:Hapi;
    [destruct (bool_decide_reflect (c = a)) as [<-|Hne]|..]; injection Hrun as <-;
    cbn [rs_mint rs_chainState rs_state rs_stateSource rs_apiState rs_transitionPolicy];
    (split; [done|]); (split; [exact Hm'|]); (split; [exact Ha'|]); (split; [exact Hcls|]); clear Hm Ha Hm' Ha'.
  - (split; [by split|]). (split; [split; [done|by intros (? & ? & [= <-] & [= <-] & ?)]|]). split; [by left; auto|done].
  - (split; [done|]). (split; [by split; [exists c, a|]|done]).
  - (split; [by split|]). (split; [split; [done|by intros (? & ? & _ & [=] & _)]|]). split; [by left; auto|done].
  - (split; [by split|]). (split; [split; [done|by intros (? & ? & [=] & _)]|]). split; [|done].
    intros st [= ->] Hst. right. destruct cls; [discriminate|]. split; [by apply Hnone|].
    destruct api as [ap|]; [|discriminate]. cbn in Hapi. apply apiEvidenceUse_state in Hapi as (st' & Hf & He); [|done]. eauto.
  - (split; [by split|]). (split; [split; [done|by intros (? & ? & [=] & _)]|]). split; [|done]. by intros st [= <-].
Qed.
End Ondo.

(** KOon with live API evidence fresh at the evaluation time and no chain evidence. *)
Definition sample_api (validUntil : string) : ApiObservation :=
  mkApi Ondo "KOon" "2026-09-15T13:30:00Z" active None UNCALIBRATED LIVE_API_STATE (Some validUntil).

Definition sample_Ondo : Representation := mkRepresentation "KO" Ondo "KOon" "e6G4pfFcrdKxJuZ4YXixRFfMbpMvgXG2Mjcus71ondo".

Definition sample_Ondo_state (validUntil : string) : result state_exn ResolvedRepresentationState :=
  resolveOndoState (λ _, None) sample_Ondo None (Some (sample_api validUntil)) (Some "2026-09-15T14:00:00.000Z")
    (mkPolicy 900 60 UNCALIBRATED "test").

Lemma stale_api_is_unknown : rs_state <$> sample_Ondo_state "2026-09-15T13:59:59Z" = Ok (Some UNKNOWN).
Proof. vm_compute. reflexivity. Qed.

Lemma resolveOndoState_evidence_witness :
  rs_state <$> sample_Ondo_state "2026-09-15T14:00:00Z" = Ok (Some SAFE) ∧
  ∃ a st, Some (sample_api "2026-09-15T14:00:00Z") = Some a ∧ fresh_api (λ _, None) a (Some "2026-09-15T14:00:00.000Z") st ∧
    API_STATUS_TO_STATE st = SAFE.
Proof.
  split; [vm_compute; reflexivity|].
  pose proof (resolveOndoState_evidence (λ _, None) sample_Ondo None (Some (sample_api "2026-09-15T14:00:00Z"))
    (Some "2026-09-15T14:00:00.000Z") (mkPolicy 900 60 UNCALIBRATED "test") _ eq_refl) as (_ & _ & _ & _ & _ & _ & _ & Hst & _).
  destruct (Hst SAFE eq_refl) as [[[=] _]|[_ Hev]]; [discriminate|exact Hev].
Defined.
