(* ===== verification/Capture.v ===== *)
(** * capture.ts: raw capture lines as chain observations

    One JSONL line of either recorder format gives zero or more records, never
    an exception; [JSON.parse] and base-64 decoding are parameters, a rejected
    text is [None]. Line numbers are integers. *)

From S2P Require Import Prelude Js Errors Kit Base58 Abi MintState StateErrors CanonicalKey StateTypes ChainObservation.

Record CaptureObservation := mkCapture {
  cap_lineNumber : Z;
  cap_wallclock : option string;
  cap_slot : option Z;
  cap_blockTime : option Z;
  cap_symbol : option string;
  cap_issuer : option string;
  cap_mint : string;
  cap_evidence : ChainEvidence;
}.

Inductive LineErrorCode : Set := MalformedJson | UnrecognizedRecord | MissingMint.

Definition show_line_error (c : LineErrorCode) : string :=
  match c with MalformedJson => "MalformedJson" | UnrecognizedRecord => "UnrecognizedRecord" | MissingMint => "MissingMint" end.

#[export] Instance show_line_error_inj : Inj (=) (=) show_line_error.
Proof. by intros [] []. Qed.

Record CaptureLineError := mkLineError { le_lineNumber : Z; le_code : LineErrorCode; le_message : string }.

(** [CaptureRecord]: the [kind] of the source is the constructor. *)
Inductive CaptureRecord : Type :=
| Observed (observation : CaptureObservation)
| LineError (error : CaptureLineError).

Definition record_line (r : CaptureRecord) : Z :=
  match r with Observed o => cap_lineNumber o | LineError e => le_lineNumber e end.

(** Fields of a record of unknown type stay JavaScript values. *)
Record AccountEntry := mkEntry {
  en_symbol : option string;
  en_issuer : option string;
  en_mint : jsval;
  en_exists : jsval;
  en_owner : jsval;
  en_data : jsval;
  en_encoding : jsval;
}.

(* ------------------------------------------------------------------ *)
(** ** [line.trim() === ""] and the readers *)

(** White space and line terminators of ECMAScript, by their UTF-8 bytes. *)
Definition blank_one (c : Ascii.ascii) : bool :=
  let n := Ascii.nat_of_ascii c in (Nat.leb 9 n && Nat.leb n 13) || Nat.eqb n 32.
Definition blank_two (c d : Ascii.ascii) : bool :=
  Nat.eqb (Ascii.nat_of_ascii c) 194 && Nat.eqb (Ascii.nat_of_ascii d) 160.
Definition blank_three (c d e : Ascii.ascii) : bool :=
  let d := Ascii.nat_of_ascii d in
  let e := Ascii.nat_of_ascii e in
  match Ascii.nat_of_ascii c with
  | 225%nat => Nat.eqb d 154 && Nat.eqb e 128
  | 226%nat => (Nat.eqb d 128 && (Nat.leb 128 e && Nat.leb e 138 || Nat.eqb e 168 || Nat.eqb e 169 || Nat.eqb e 175))
               || (Nat.eqb d 129 && Nat.eqb e 159)
  | 227%nat => Nat.eqb d 128 && Nat.eqb e 128
  | 239%nat => Nat.eqb d 187 && Nat.eqb e 191
  | _ => false
  end.

Fixpoint is_blank (s : string) : bool :=
  match s with
  | "" => true
  | String c s =>
      if blank_one c then is_blank s
      else match s with
           | "" => false
           | String d s =>
               if blank_two c d then is_blank s
               else match s with "" => false | String e s => blank_three c d e && is_blank s end
           end
  end.

Definition stringOrNull (value : jsval) : option string := match value with JString s => Some s | _ => None end.

(** The digits of a text as a number: [None] when one of them is none. *)
Fixpoint digits_value (acc : Z) (s : string) : option Z :=
  match s with
  | "" => Some acc
  | String c s =>
      let n := Z.of_N (Ascii.N_of_ascii c) in
      if (48 <=? n) && (n <=? 57) then digits_value (10 * acc + (n - 48)) s else None
  end.

(** [BigInt(s)] of a text that matches [/^-?\d+$/], [None] for any other. *)
Definition integer_text (s : string) : option Z :=
  match s with
  | "" => None
  | String c r =>
      if Ascii.eqb c (Ascii.ascii_of_nat 45)
      then match r with "" => None | String _ _ => option_map Z.opp (digits_value 0 r) end
      else digits_value 0 s
  end.

Definition toBigInt (value : jsval) : option Z :=
  match value with
  | JNum n => if isSafeInteger n then Some (num_value n) else None
  | JString s => integer_text s
  | _ => None
  end.

Definition lineError (lineNumber : Z) (code : LineErrorCode) (message : string) : CaptureRecord :=
  LineError (mkLineError lineNumber code message).

(** [value === b] for a boolean and [value === s] for a string. *)
Definition is_bool (value : jsval) (b : bool) : bool := match value with JBool c => Bool.eqb b c | _ => false end.
Definition string_is (value : jsval) (s : string) : bool := match value with JString t => String.eqb s t | _ => false end.

(** The properties of an object; no array has one of the names read here. *)
Definition object_entries (value : jsval) : list (string * jsval) :=
  match value with JObject entries | JExotic entries => entries | _ => [] end.

Section Decode.
  Variable JSON_parse : string → option jsval.
  Variable base64Data : string → bytes.

Definition decodeAccount (lineNumber : Z) (wallclock : option string) (slot blockTime : option Z) (entry : AccountEntry)
    : result client_exn CaptureRecord :=
  match en_mint entry with
  | JString mint =>
      if String.eqb mint "" then Ok (lineError lineNumber MissingMint "account entry has no mint address")
      else
        let observation evidence :=
          Observed (mkCapture lineNumber wallclock slot blockTime (en_symbol entry) (en_issuer entry) mint evidence) in
        let failure code message :=
          Ok (observation (DecodeError (mkDecodeFailure mint slot blockTime wallclock code message))) in
        if is_bool (en_exists entry) false then failure "AccountNotFound" "account did not exist at this slot"
        else
          match en_owner entry with
          | JString owner =>
              match en_data entry with
              | JString data =>
                  if string_is (en_encoding entry) "base64" then
                    evidence ← observeMintAccount (mkRaw mint owner (base64Data data) slot blockTime wallclock blockTime);
                    Ok (observation evidence)
                  else failure "MissingData" "account data missing or not base64"
              | _ => failure "MissingData" "account data missing or not base64"
              end
          | _ => failure "MissingOwner" "account owner missing"
          end
  | _ => Ok (lineError lineNumber MissingMint "account entry has no mint address")
  end.

(** One entry of the poll format. *)
Definition poll_entry (raw : jsval) : AccountEntry :=
  let a := object_entries raw in
  mkEntry (stringOrNull (get_field "symbol" a)) (stringOrNull (get_field "issuer" a)) (get_field "address" a)
    (get_field "exists" a) (get_field "owner" a) (get_field "data" a) (get_field "encoding" a).

(** The entry of a record of schema version 1. *)
Definition schema_entry (record : list (string * jsval)) : AccountEntry :=
  mkEntry (stringOrNull (get_field "symbol" record)) (stringOrNull (get_field "issuer" record)) (get_field "mint" record)
    (get_field "exists" record) (get_field "owner" record) (get_field "dataBase64" record) (JString "base64").

Definition decode_record (record : list (string * jsval)) (lineNumber : Z) : result client_exn (list CaptureRecord) :=
  let slot := toBigInt (get_field "slot" record) in
  let blockTime := toBigInt (get_field "blockTime" record) in
  match get_field "accounts" record with
  | JArray accounts =>
      let wallclock := stringOrNull (get_field "wallclock" record) in
      mapM_result (λ raw, decodeAccount lineNumber wallclock slot blockTime (poll_entry raw)) accounts
  | _ =>
      match get_field "schemaVersion" record with
      | JNum n =>
          if num_is n 1 then
            r ← decodeAccount lineNumber (stringOrNull (get_field "capturedAt" record)) slot blockTime (schema_entry record);
            Ok [r]
          else Ok [lineError lineNumber UnrecognizedRecord "neither poll format nor schema v1"]
      | _ => Ok [lineError lineNumber UnrecognizedRecord "neither poll format nor schema v1"]
      end
  end.

Definition decodeCaptureLine (line : string) (lineNumber : Z) : result client_exn (list CaptureRecord) :=
  if is_blank line then Ok []
  else
    match JSON_parse line with
    | None => Ok [lineError lineNumber MalformedJson "line is not valid JSON"]
    | Some (JObject record) | Some (JExotic record) => decode_record record lineNumber
    | Some _ => Ok [lineError lineNumber UnrecognizedRecord "line is not a JSON object"]
    end.
End Decode.

(* ------------------------------------------------------------------ *)
(** ** [captureRecordToJson] *)

(** [Number.isFinite]. *)
Definition finite_num (n : jsnum) : bool :=
  match n with NumOther text => negb (existsb (String.eqb text) ["NaN"; "Infinity"; "-Infinity"]) | _ => true end.

(** [JSON.parse(JSON.stringify(v, replacer))] with the replacer that writes a
    bigint as its decimal text; no function or [undefined] occurs in [v]. *)
Fixpoint json_projection (v : jsval) : jsval :=
  match v with
  | JBigint z => JString (show_Z z)
  | JNum NumNegZero => JNum (NumInt 0)
  | JNum (NumOther text) => if finite_num (NumOther text) then v else JNull
  | JArray l => JArray (map json_projection l)
  | JObject entries => JObject (map (λ entry, (fst entry, json_projection (snd entry))) entries)
  | _ => v
  end.

Definition nullable_js {A} (f : A → jsval) (o : option A) : jsval := match o with Some a => f a | None => JNull end.

Definition capture_evidence_value (e : ChainEvidence) : jsval :=
  match e with
  | DecodeError f =>
      JObject [("kind", JString "decode-error"); ("mint", JString (df_mint f)); ("slot", nullable_js JBigint (df_slot f));
        ("blockTime", nullable_js JBigint (df_blockTime f)); ("observedAt", nullable_js JString (df_observedAt f));
        ("code", JString (df_code f)); ("message", JString (df_message f))]
  | Decoded o =>
      JObject [("kind", JString "decoded"); ("mint", JString (ob_mint o)); ("slot", nullable_js JBigint (ob_slot o));
        ("blockTime", nullable_js JBigint (ob_blockTime o)); ("observedAt", nullable_js JString (ob_observedAt o));
        ("chainUnixTimestamp", nullable_js JBigint (ob_chainUnixTimestamp o)); ("decimals", JNum (ob_decimals o));
        ("paused", nullable_js JBool (ob_paused o));
        ("protectedState",
          JObject [("multiplierHex", JString (toHex (multiplier (ob_protectedState o))));
                   ("newMultiplierHex", JString (toHex (newMultiplier (ob_protectedState o))));
                   ("newMultiplierEffectiveTimestamp", JBigint (newMultiplierEffectiveTimestamp (ob_protectedState o)))]);
        ("hasScheduledChange", JBool (ob_hasScheduledChange o));
        ("phase", nullable_js (λ phase, JString (if phase =? 0 then "pending" else "activated")) (ob_phase o))]
  end.

Definition captureRecordToJson (r : CaptureRecord) : jsval :=
  match r with
  | LineError e =>
      JObject [("kind", JString "line-error"); ("lineNumber", JNum (NumInt (le_lineNumber e)));
        ("code", JString (show_line_error (le_code e))); ("message", JString (le_message e))]
  | Observed o =>
      json_projection
        (JObject [("kind", JString "observation"); ("lineNumber", JNum (NumInt (cap_lineNumber o)));
          ("wallclock", nullable_js JString (cap_wallclock o)); ("slot", nullable_js JBigint (cap_slot o));
          ("blockTime", nullable_js JBigint (cap_blockTime o)); ("symbol", nullable_js JString (cap_symbol o));
          ("issuer", nullable_js JString (cap_issuer o)); ("mint", JString (cap_mint o));
          ("evidence", capture_evidence_value (cap_evidence o))])
  end.

(* ------------------------------------------------------------------ *)
(** ** What a decoded line says *)

(** Decoded evidence holds what the decoders read from some account bytes of a
    Token-2022 mint, with the phase at the block time of the slot. *)
Definition observed_state (blockTime : option Z) (o : ChainObservation) : Prop :=
  ∃ owner data m, decodeProtectedState owner data = Ok (ob_protectedState o) ∧ decodeMintMetadata owner data = Ok m ∧
    ob_decimals o = NumInt (decimals m) ∧ ob_paused o = paused m ∧
    ob_hasScheduledChange o = hasScheduledChange (ob_protectedState o) ∧
    ob_chainUnixTimestamp o = blockTime ∧ ob_phase o = phaseAt (ob_protectedState o) <$> blockTime.

(** A record belongs to the line, and its evidence to the record. *)
Definition attributed (lineNumber : Z) (r : CaptureRecord) : Prop :=
  record_line r = lineNumber ∧
  match r with
  | LineError _ => True
  | Observed o =>
      cap_mint o ≠ "" ∧ ev_mint (cap_evidence o) = cap_mint o ∧ ev_slot (cap_evidence o) = cap_slot o ∧
      ev_blockTime (cap_evidence o) = cap_blockTime o ∧ ev_observedAt (cap_evidence o) = cap_wallclock o ∧
      match cap_evidence o with Decoded ob => observed_state (cap_blockTime o) ob | DecodeError _ => True end
  end.

(** The evidence of an observed account is about that account. *)
Lemma observeMintAccount_attributed mint owner data slot blockTime wallclock :
  ∃ e, observeMintAccount (mkRaw mint owner data slot blockTime wallclock blockTime) = Ok e ∧
    ev_mint e = mint ∧ ev_slot e = slot ∧ ev_blockTime e = blockTime ∧ ev_observedAt e = wallclock ∧
    match e with Decoded ob => observed_state blockTime ob | DecodeError _ => True end.
Proof.
  destruct (observeMintAccount_total (mkRaw mint owner data slot blockTime wallclock blockTime)) as [e He].
  exists e. split; [exact He|]. destruct e as [ob|f].
  - apply observeMintAccount_Decoded in He as (s & m & Hs & Hm & ->). split_and!; [done..|].
    exists owner, data, m. split_and!; done.
  - unfold observeMintAccount in He. cbv zeta in He.
    destruct (decodeProtectedState _ _) as [s|[]], (decodeMintMetadata _ _) as [m|[]]; cbn [mbind result_bind] in He; simplify_eq; done.
Qed.

Section DecodeFacts.
  Variable JSON_parse : string → option jsval.
  Variable base64Data : string → bytes.

Lemma decodeAccount_attributed lineNumber wallclock slot blockTime entry :
  ∃ r, decodeAccount base64Data lineNumber wallclock slot blockTime entry = Ok r ∧ attributed lineNumber r.
Proof.
  unfold decodeAccount. destruct (en_mint entry) as [| | | | |mint| | | |]; try (eexists; split; [reflexivity|by split]).
  destruct (String.eqb_spec mint "") as [_|Hmint]; [eexists; split; [reflexivity|by split]|]. cbv zeta.
  destruct (is_bool _ _); [eexists; split; [reflexivity|split_and!; done]|].
  destruct (en_owner entry) as [| | | | |owner| | | |]; try (eexists; split; [reflexivity|split_and!; done]).
  destruct (en_data entry) as [| | | | |data| | | |]; try (eexists; split; [reflexivity|split_and!; done]).
  destruct (string_is _ _); [|eexists; split; [reflexivity|split_and!; done]].
  destruct (observeMintAccount_attributed mint owner (base64Data data) slot blockTime wallclock) as (e & -> & Hm & Hs & Hb & Ho & He).
  eexists; split; [reflexivity|]. split_and!; done.
Qed.

Lemma mapM_attributed {A} (f : A → result client_exn CaptureRecord) lineNumber l :
  (∀ x, ∃ r, f x = Ok r ∧ attributed lineNumber r) →
  ∃ rs, mapM_result f l = Ok rs ∧ length rs = length l ∧ Forall (attributed lineNumber) rs.
Proof.
  intros Hf. induction l as [|x l (rs & Hrs & Hlen & Hall)]; [by exists []|].
  destruct (Hf x) as (r & Hr & Ha). exists (r :: rs). cbn [mapM_result]. rewrite Hr. cbn [mbind result_bind]. rewrite Hrs.
  split_and!; [done|cbn; lia|by constructor].
Qed.

(** The mint a record is about, and the mint an account entry names. *)
Definition observed_mint (r : CaptureRecord) : option string := match r with Observed o => Some (cap_mint o) | LineError _ => None end.
Definition named_mint (value : jsval) : option string :=
  match value with JString mint => if String.eqb mint "" then None else Some mint | _ => None end.

Lemma decodeAccount_mint lineNumber wallclock slot blockTime entry r :
  decodeAccount base64Data lineNumber wallclock slot blockTime entry = Ok r → observed_mint r = named_mint (en_mint entry).
Proof.
  unfold decodeAccount, named_mint. destruct (en_mint entry) as [| | | | |mint| | | |]; try by intros [= <-].
  destruct (String.eqb mint ""); [by intros [= <-]|]. cbv zeta.
  repeat (case_match; try by intros [= <-]). by intros (e & _ & [= <-])%bind_Ok.
Qed.

Lemma decode_record_attributed record lineNumber :
  ∃ records, decode_record base64Data record lineNumber = Ok records ∧ Forall (attributed lineNumber) records ∧
    ∀ accounts, get_field "accounts" record = JArray accounts →
      Forall2 (λ raw r, observed_mint r = named_mint (get_field "address" (object_entries raw))) accounts records.
Proof.
  unfold decode_record. cbv zeta. destruct (get_field "accounts" record) as [| | | | | |accounts| | |].
  7: { set (f := λ raw, decodeAccount base64Data lineNumber (stringOrNull (get_field "wallclock" record))
          (toBigInt (get_field "slot" record)) (toBigInt (get_field "blockTime" record)) (poll_entry raw)).
       destruct (mapM_attributed f lineNumber accounts) as (rs & Hrs & _ & Hall); [intros; apply decodeAccount_attributed|].
       exists rs. split_and!; [done|done|]. intros ? [= <-]. apply mapM_result_Ok in Hrs.
       eapply Forall2_impl; [exact Hrs|]. intros raw r Hr. exact (decodeAccount_mint _ _ _ _ _ _ Hr). }
  all: destruct (get_field "schemaVersion" record) as [| | |k| | | | | |].
  all: try (eexists; split_and!; [reflexivity|by repeat constructor|done]).
  all: destruct (num_is k 1); [|eexists; split_and!; [reflexivity|by repeat constructor|done]].
  all: edestruct decodeAccount_attributed as (r & Hr & Ha); rewrite Hr; eexists; split_and!; [reflexivity|by apply Forall_singleton|done].
Qed.

(** A capture line never throws: whatever the text, it gives records that
    carry its line number; an observation has a mint, its evidence is about that
    mint, slot, block time and wallclock, and decoded evidence is what the
    Token-2022 decoders read with the phase at the block time of the slot. A
    poll line gives one record per account, in order, an observation exactly
    for the accounts that name a mint; a text that is not JSON gives an error. *)
Theorem decodeCaptureLine_attributed line lineNumber :
  ∃ records, decodeCaptureLine JSON_parse base64Data line lineNumber = Ok records ∧ Forall (attributed lineNumber) records ∧
    (records = [] → is_blank line = true ∨ ∃ record, JSON_parse line = Some record ∧ get_prop "accounts" record = JArray []) ∧
    (is_blank line = false → JSON_parse line = None → ∃ message, records = [lineError lineNumber MalformedJson message]) ∧
    (∀ record accounts, is_blank line = false → JSON_parse line = Some (JObject record) → get_field "accounts" record = JArray accounts →
      Forall2 (λ raw r, observed_mint r = named_mint (get_field "address" (object_entries raw))) accounts records).
Proof.
  unfold decodeCaptureLine. destruct (is_blank line); [exists []; split_and!; auto; done|].
  assert (∀ record, ∃ records, decode_record base64Data record lineNumber = Ok records ∧ (records = [] → get_field "accounts" record = JArray [])) as Hnil.
  { intros record. destruct (decode_record_attributed record lineNumber) as (rs & Hrs & _ & Hacc). exists rs. split; [done|]. intros ->.
    revert Hrs Hacc. unfold decode_record. cbv zeta. destruct (get_field "accounts" record) as [| | | | | |accounts| | |].
    7: { intros _ Hacc. by rewrite (Forall2_nil_inv_r _ _ (Hacc accounts eq_refl)). }
    all: destruct (get_field "schemaVersion" record) as [| | |k| | | | | |]; try done.
    all: destruct (num_is k 1); [|done]; intros (r & _ & [=])%bind_Ok. }
  destruct (JSON_parse line) as [[| | | | | | |record|record|]|] eqn:Hparse.
  8-9: destruct (decode_record_attributed record lineNumber) as (rs & Hrs & Hall & Hacc);
       destruct (Hnil record) as (rs' & Hrs' & Hempty); rewrite Hrs in Hrs'; injection Hrs' as <-;
       exists rs; split_and!; try done; first [intros ? accounts _ [= <-]; apply Hacc|intros Hr; right; eauto].
  all: eexists; split_and!; [reflexivity|by repeat constructor|try done..]; eauto.
Qed.
End DecodeFacts.

(* ------------------------------------------------------------------ *)
(** ** The JSON projection loses nothing *)

Lemma nullable_bigint_inj a b : json_projection (nullable_js JBigint a) = json_projection (nullable_js JBigint b) → a = b.
Proof. destruct a, b; cbn; intros [=]; [f_equal; by apply (inj show_Z)|done]. Qed.

Lemma nullable_string_inj a b : json_projection (nullable_js JString a) = json_projection (nullable_js JString b) → a = b.
Proof. destruct a, b; cbn; by intros [=]; subst. Qed.

Lemma nullable_bool_inj a b : json_projection (nullable_js JBool a) = json_projection (nullable_js JBool b) → a = b.
Proof. destruct a, b; cbn; by intros [=]; subst. Qed.

Lemma nullable_phase_inj s s' t t' : let show := λ phase, JString (if phase =? 0 then "pending" else "activated") in
  json_projection (nullable_js show (phaseAt s <$> t)) = json_projection (nullable_js show (phaseAt s' <$> t')) →
  phaseAt s <$> t = phaseAt s' <$> t'.
Proof.
  unfold phaseAt, Pending, Activated.
  destruct t as [t|], t' as [t'|]; cbn; repeat destruct (_ <=? _); cbn; intros [=]; done.
Qed.


Lemma capture_evidence_inj e e' blockTime blockTime' :
  match e with Decoded o => observed_state blockTime o | DecodeError _ => True end →
  match e' with Decoded o => observed_state blockTime' o | DecodeError _ => True end →
  json_projection (capture_evidence_value e) = json_projection (capture_evidence_value e') → e = e'.
Proof.
  destruct e as [o|f], e' as [o'|f']; cbn [capture_evidence_value]; try done.
  - intros (? & ? & m & _ & _ & Hd & _ & _ & _ & Hp) (? & ? & m' & _ & _ & Hd' & _ & _ & _ & Hp').
    rewrite Hd, Hd', Hp, Hp'. intros H. cbn [json_projection map fst snd] in H. injection H as Hmint Hslot Hblock Hat Htime Hdec Hpaused Hx Hy Ht Hsched Hphase.
    apply nullable_bigint_inj in Hslot, Hblock, Htime. apply nullable_string_inj in Hat. apply nullable_bool_inj in Hpaused.
    apply nullable_phase_inj in Hphase. apply (inj toHex) in Hx, Hy. apply (inj show_Z) in Ht.
    destruct o as [? ? ? ? ? ? ? [] ? ?], o' as [? ? ? ? ? ? ? [] ? ?]; cbn in *. congruence.
  - intros _ _ H. cbn [json_projection map fst snd] in H. injection H as Hmint Hslot Hblock Hat Hcode Hmsg.
    apply nullable_bigint_inj in Hslot, Hblock. apply nullable_string_inj in Hat.
    destruct f, f'; cbn in *. congruence.
Qed.

(** Records decoded from capture lines have different JSON projections when
    they differ: hex bytes, decimal integers and the phase name lose nothing. *)
Theorem captureRecordToJson_injective n n' r r' (Hr : attributed n r) (Hr' : attributed n' r')
    (Heq : captureRecordToJson r = captureRecordToJson r') : r = r'.
Proof.
  destruct r as [o|e], r' as [o'|e']; cbn [captureRecordToJson] in Heq; try discriminate.
  - destruct Hr as [_ (_ & _ & _ & _ & _ & He)], Hr' as [_ (_ & _ & _ & _ & _ & He')].
    cbn [json_projection map fst snd] in Heq. injection Heq as Hline Hwall Hslot Hblock Hsymbol Hissuer Hmint Hev.
    apply nullable_bigint_inj in Hslot, Hblock. apply nullable_string_inj in Hwall, Hsymbol, Hissuer.
    apply (capture_evidence_inj _ _ _ _ He He') in Hev. destruct o, o'; cbn in *. congruence.
  - injection Heq as Hline Hcode Hmsg. apply (inj show_line_error) in Hcode. destruct e, e'; cbn in *. congruence.
Qed.

(* ------------------------------------------------------------------ *)
(** ** [JSON.stringify] of any value *)

(** The text of a value, with the replacer that spells a bigint as a string (a
    value without bigints has the same text without it); [None] is [undefined]. *)
Fixpoint json_text (v : jsval) : option string :=
  match v with
  | JUndefined | JOther _ => None
  | JNull => Some "null"
  | JBool b => Some (show_bool b)
  | JNum n => Some (if finite_num n then show_num n else "null")
  | JBigint z => Some (quote (show_Z z))
  | JString s => Some (quote s)
  | JArray l => Some ("[" +:+ join "," (map (λ v, json_text v ?? "null") l) +:+ "]")
  | JObject entries | JExotic entries =>
      Some ("{" +:+ join "," (omap id (map (λ entry, option_map (λ t, quote (fst entry) +:+ ":" +:+ t) (json_text (snd entry))) entries)) +:+ "}")
  end.

(** [`${JSON.stringify(v)}`]. *)
Definition show_json (v : jsval) : string := json_text v ?? "undefined".
