(* ===== verification/Events.v ===== *)
(** * events.ts: change detection over decoded observations

    The two streaming detectors as functions of their maps and the pushed
    value; a run of a detector is its fold over a list. The theorems state what
    is emitted in terms of the history that was pushed, not of the maps. *)

From S2P Require Import Prelude Js Errors Kit Abi StateErrors CanonicalKey StateTypes ChainObservation Capture.

Inductive ObservationEventType : Set :=
  SCALED_UI_STATE_CHANGED | ACTIVATION_PHASE_CHANGED | PAUSE_STATE_CHANGED | STATE_SOURCE_CONFLICT | DECODE_ERROR.

#[export] Instance ObservationEventType_eq_dec : EqDecision ObservationEventType.
Proof. solve_decision. Defined.

(** What an event refers to: a record of the capture or a resolved state. *)
Inductive EventSubject : Type :=
| SubjectRecord (record : CaptureRecord)
| SubjectResolved (resolved : ResolvedRepresentationState).

Record ObservationEvent := mkEvent {
  evt_type : ObservationEventType;
  evt_issuer : option string;
  evt_symbol : option string;
  evt_mint : option string;
  evt_slot : option Z;
  evt_blockTime : option Z;
  evt_wallclock : option string;
  evt_previous : option EventSubject;
  evt_current : EventSubject;
  evt_detail : list string;
}.

(* ------------------------------------------------------------------ *)
(** ** [ObservationEventDetector] *)

Record ObservationEventDetector := mkDetector {
  lastDecoded : gmap string CaptureObservation;
  lastErrorCode : gmap string string;
}.

Definition new_detector : ObservationEventDetector := mkDetector ∅ ∅.

(** [{ ...context, type, previous, detail }] of a record. *)
Definition observation_event (record : CaptureObservation) (previous : option CaptureObservation)
    (type : ObservationEventType) (detail : list string) : ObservationEvent :=
  mkEvent type (cap_issuer record) (cap_symbol record) (Some (cap_mint record)) (cap_slot record) (cap_blockTime record)
    (cap_wallclock record) ((λ o, SubjectRecord (Observed o)) <$> previous) (SubjectRecord (Observed record)) detail.

(** The fields of the protected state that differ. *)
Definition changed_fields (before current : ProtectedState) : list string :=
  (if bytesEqual (multiplier before) (multiplier current) then [] else ["multiplier"]) ++
  (if bytesEqual (newMultiplier before) (newMultiplier current) then [] else ["newMultiplier"]) ++
  (if newMultiplierEffectiveTimestamp before =? newMultiplierEffectiveTimestamp current then []
   else ["newMultiplierEffectiveTimestamp"]).

(** The events between two decoded observations, in the order they are pushed. *)
Definition change_events (record previous : CaptureObservation) (before evidence : ChainObservation) : list ObservationEvent :=
  let changed := changed_fields (ob_protectedState before) (ob_protectedState evidence) in
  let event := observation_event record (Some previous) in
  (if bool_decide (changed = []) then [] else [event SCALED_UI_STATE_CHANGED changed]) ++
  match ob_phase before, ob_phase evidence with
  | Some p, Some q => if p =? q then [] else [event ACTIVATION_PHASE_CHANGED ["phase " +:+ show_Z p +:+ " -> " +:+ show_Z q]]
  | _, _ => []
  end ++
  (if bool_decide (ob_paused before = ob_paused evidence) then []
   else [event PAUSE_STATE_CHANGED
           ["paused " +:+ show_option show_bool (ob_paused before) +:+ " -> " +:+ show_option show_bool (ob_paused evidence)]]).

Definition line_error_event (error : CaptureLineError) : ObservationEvent :=
  mkEvent DECODE_ERROR None None None None None None None (SubjectRecord (LineError error))
    ["line " +:+ show_Z (le_lineNumber error) +:+ ": " +:+ show_line_error (le_code error)].

Definition push (detector : ObservationEventDetector) (record : CaptureRecord) : list ObservationEvent * ObservationEventDetector :=
  match record with
  | LineError error => ([line_error_event error], detector)
  | Observed record =>
      let mint := cap_mint record in
      let previous := lastDecoded detector !! mint in
      match cap_evidence record with
      | DecodeError failure =>
          if bool_decide (lastErrorCode detector !! mint = Some (df_code failure)) then ([], detector)
          else ([observation_event record previous DECODE_ERROR [df_code failure +:+ ": " +:+ df_message failure]],
                mkDetector (lastDecoded detector) (<[mint := df_code failure]> (lastErrorCode detector)))
      | Decoded evidence =>
          let detector := mkDetector (<[mint := record]> (lastDecoded detector)) (delete mint (lastErrorCode detector)) in
          match previous with
          | Some previous =>
              match cap_evidence previous with
              | Decoded before => (change_events record previous before evidence, detector)
              | DecodeError _ => ([], detector)
              end
          | None => ([], detector)
          end
      end
  end.

(* ------------------------------------------------------------------ *)
(** ** [ConflictEventDetector] *)

Abbreviation ConflictEventDetector := (gmap string ResolvedRepresentationState).

Definition is_conflict (resolved : ResolvedRepresentationState) : bool := bool_decide (rs_stateSource resolved = Some CONFLICT).

Definition conflict_event (previous : option ResolvedRepresentationState) (resolved : ResolvedRepresentationState) : ObservationEvent :=
  mkEvent STATE_SOURCE_CONFLICT (Some (show_issuer (rs_issuer resolved))) (Some (rs_symbol resolved)) (Some (rs_mint resolved))
    (rs_slot resolved) (rs_blockTime resolved) (rs_observedAt resolved) (SubjectResolved <$> previous) (SubjectResolved resolved)
    ["chain " +:+ show_option show_state (rs_chainState resolved) +:+ " vs api " +:+ show_option show_state (rs_apiState resolved)].

Definition push_resolved (last : ConflictEventDetector) (resolved : ResolvedRepresentationState)
    : list ObservationEvent * ConflictEventDetector :=
  let previous := last !! rs_mint resolved in
  let last := <[rs_mint resolved := resolved]> last in
  let entered := is_conflict resolved && negb (match previous with Some previous => is_conflict previous | None => false end) in
  if entered then ([conflict_event previous resolved], last) else ([], last).

(* ------------------------------------------------------------------ *)
(** ** Histories *)

Definition detector_after (history : list CaptureRecord) : ObservationEventDetector :=
  fold_left (λ d r, snd (push d r)) history new_detector.

Definition conflicts_after (history : list ResolvedRepresentationState) : ConflictEventDetector :=
  fold_left (λ d r, snd (push_resolved d r)) history ∅.

(** The observations of a mint in a history. *)
Definition observation_of (mint : string) (r : CaptureRecord) : option CaptureObservation :=
  match r with Observed o => if String.eqb (cap_mint o) mint then Some o else None | LineError _ => None end.

Definition observations (mint : string) (history : list CaptureRecord) : list CaptureObservation := omap (observation_of mint) history.

Definition decoded_part (o : CaptureObservation) : option ChainObservation :=
  match cap_evidence o with Decoded e => Some e | DecodeError _ => None end.

Definition observation_error_code (o : CaptureObservation) : option string :=
  match cap_evidence o with DecodeError f => Some (df_code f) | Decoded _ => None end.

(** The decoded observations with their evidence. *)
Definition decoded_pair (o : CaptureObservation) : option (CaptureObservation * ChainObservation) := pair o <$> decoded_part o.

(** The last decoded observation of a mint, and the code it is failing with. *)
Definition previous_decoded (mint : string) (history : list CaptureRecord) : option (CaptureObservation * ChainObservation) :=
  last (omap decoded_pair (observations mint history)).

Definition current_error (mint : string) (history : list CaptureRecord) : option string :=
  last (observations mint history) ≫= observation_error_code.

Lemma observations_snoc mint history r :
  observations mint (history ++ [r]) = observations mint history ++ match observation_of mint r with Some o => [o] | None => [] end.
Proof. unfold observations. rewrite omap_app. cbn. by destruct (observation_of mint r). Qed.

Lemma previous_decoded_snoc mint history r :
  previous_decoded mint (history ++ [r]) =
  match observation_of mint r ≫= decoded_pair with Some p => Some p | None => previous_decoded mint history end.
Proof.
  unfold previous_decoded. rewrite observations_snoc, omap_app. destruct (observation_of mint r) as [o|]; cbn; [|by rewrite app_nil_r].
  destruct (decoded_pair o); cbn; [by rewrite last_snoc|by rewrite app_nil_r].
Qed.

Lemma current_error_snoc mint history r :
  current_error mint (history ++ [r]) =
  match observation_of mint r with Some o => observation_error_code o | None => current_error mint history end.
Proof.
  unfold current_error. rewrite observations_snoc. destruct (observation_of mint r) as [o|]; [by rewrite last_snoc|by rewrite app_nil_r].
Qed.

Lemma observation_of_self o mint : observation_of mint (Observed o) = if decide (cap_mint o = mint) then Some o else None.
Proof. cbn. destruct (String.eqb_spec (cap_mint o) mint); case_decide; congruence. Qed.

(** The maps of the detector are the last decoded observation and the current
    error of every mint. *)
Lemma detector_after_spec history mint :
  lastDecoded (detector_after history) !! mint = fst <$> previous_decoded mint history ∧
  lastErrorCode (detector_after history) !! mint = current_error mint history.
Proof.
  revert mint. induction history as [|r history IH] using rev_ind; intros mint; [by split; apply lookup_empty|].
  unfold detector_after in *. rewrite fold_left_app. cbn [fold_left].
  set (d := fold_left _ history _) in *. rewrite previous_decoded_snoc, current_error_snoc.
  destruct r as [o|e]; [|exact (IH mint)]. rewrite observation_of_self. cbn [push].
  unfold decoded_pair, decoded_part, observation_error_code.
  destruct (IH mint) as [IHd IHe]. destruct (cap_evidence o) as [e|f] eqn:Hev.
  - assert (∀ o' : option CaptureObservation, snd match o' with
        | Some previous => match cap_evidence previous with
            | Decoded before => (change_events o previous before e, mkDetector (<[cap_mint o := o]> (lastDecoded d)) (delete (cap_mint o) (lastErrorCode d)))
            | DecodeError _ => ([], mkDetector (<[cap_mint o := o]> (lastDecoded d)) (delete (cap_mint o) (lastErrorCode d))) end
        | None => ([], mkDetector (<[cap_mint o := o]> (lastDecoded d)) (delete (cap_mint o) (lastErrorCode d))) end
        = mkDetector (<[cap_mint o := o]> (lastDecoded d)) (delete (cap_mint o) (lastErrorCode d))) as ->
      by (intros [p|]; [destruct (cap_evidence p)|]; done).
    cbn [lastDecoded lastErrorCode]. case_decide as Hm.
    + subst mint. cbn. rewrite Hev. cbn. by rewrite lookup_insert_eq, lookup_delete_eq.
    + cbn. by rewrite lookup_insert_ne, lookup_delete_ne.
  - case_bool_decide as Hcode; cbn [snd lastDecoded lastErrorCode]; case_decide as Hm; cbn; rewrite ?Hev; cbn.
    + subst mint. destruct (IH (cap_mint o)). split; congruence.
    + exact (IH mint).
    + subst mint. by rewrite lookup_insert_eq.
    + by rewrite lookup_insert_ne.
Qed.

Lemma changed_fields_nil before current : changed_fields before current = [] ↔ before = current.
Proof.
  unfold changed_fields. rewrite !app_nil. destruct before as [m n t], current as [m' n' t']. cbn.
  destruct (bytesEqual m m') eqn:E1, (bytesEqual n n') eqn:E2, (Z.eqb_spec t t').
  all: rewrite ?bytesEqual_spec, ?bytesEqual_false in *.
  all: split; [intros (?&?&?)|intros [=]]; subst; try congruence; done.
Qed.

(** Whether an event of a type separates two decoded observations. *)
Definition field_differs (type : ObservationEventType) (before current : ChainObservation) : Prop :=
  match type with
  | SCALED_UI_STATE_CHANGED => ob_protectedState before ≠ ob_protectedState current
  | ACTIVATION_PHASE_CHANGED => ∃ p q, ob_phase before = Some p ∧ ob_phase current = Some q ∧ p ≠ q
  | PAUSE_STATE_CHANGED => ob_paused before ≠ ob_paused current
  | _ => False
  end.

(** The types of the events between two observations, in order. *)
Definition change_types (before current : ChainObservation) : list ObservationEventType :=
  (if bool_decide (changed_fields (ob_protectedState before) (ob_protectedState current) = []) then [] else [SCALED_UI_STATE_CHANGED]) ++
  match ob_phase before, ob_phase current with Some p, Some q => if p =? q then [] else [ACTIVATION_PHASE_CHANGED] | _, _ => [] end ++
  (if bool_decide (ob_paused before = ob_paused current) then [] else [PAUSE_STATE_CHANGED]).

Lemma change_events_types o p before current : evt_type <$> change_events o p before current = change_types before current.
Proof.
  unfold change_events, change_types. rewrite !fmap_app. f_equal; [by case_bool_decide|].
  f_equal; [|by case_bool_decide]. destruct (ob_phase before) as [x|], (ob_phase current) as [y|]; try done. by destruct (x =? y).
Qed.

Lemma change_types_spec before current type : type ∈ change_types before current ↔ field_differs type before current.
Proof.
  unfold change_types. rewrite !elem_of_app.
  assert (∀ t (c : bool), type ∈ (if c then [] else [t]) ↔ type = t ∧ c = false) as Hone.
  { intros t []; [rewrite elem_of_nil|rewrite list_elem_of_singleton]; intuition congruence. }
  assert (type ∈ match ob_phase before, ob_phase current with Some p, Some q => if p =? q then [] else [ACTIVATION_PHASE_CHANGED] | _, _ => [] end
    ↔ type = ACTIVATION_PHASE_CHANGED ∧ field_differs ACTIVATION_PHASE_CHANGED before current) as ->.
  { unfold field_differs. destruct (ob_phase before) as [p|], (ob_phase current) as [q|]; rewrite ?Hone, ?elem_of_nil, ?Z.eqb_neq; naive_solver. }
  rewrite !Hone, !bool_decide_eq_false, changed_fields_nil. destruct type; cbn [field_differs]; naive_solver.
Qed.

Lemma change_types_NoDup before current : NoDup (change_types before current).
Proof.
  unfold change_types. destruct (bool_decide (changed_fields _ _ = [])), (bool_decide (ob_paused _ = _)).
  all: destruct (ob_phase before) as [p|], (ob_phase current) as [q|]; try destruct (p =? q).
  all: cbn; repeat (constructor; [rewrite ?elem_of_cons, ?elem_of_nil; naive_solver|]); constructor.
Qed.

Lemma change_events_context o p before current :
  Forall (λ e, evt_mint e = Some (cap_mint o) ∧ evt_current e = SubjectRecord (Observed o) ∧
    evt_previous e = Some (SubjectRecord (Observed p))) (change_events o p before current).
Proof.
  unfold change_events. repeat apply Forall_app_2; repeat case_match; by repeat constructor.
Qed.

(** The last decoded observation is decoded. *)
Lemma previous_decoded_evidence mint history p before : previous_decoded mint history = Some (p, before) → cap_evidence p = Decoded before.
Proof.
  unfold previous_decoded. intros (l & Hl)%last_Some.
  assert ((p, before) ∈ omap decoded_pair (observations mint history)) as (o & _ & Ho)%list_elem_of_omap.
  { rewrite Hl. apply elem_of_app. right. by apply list_elem_of_singleton. }
  unfold decoded_pair, decoded_part in Ho. destruct (cap_evidence o) eqn:E; cbn in Ho; by simplify_eq.
Qed.

(** After any history, pushing an observation emits exactly the changes
    against the last decoded observation of the same mint: one event of a type
    exactly when the stored state, the known phase or the pause flag differ; and
    a decode error exactly when the mint was not already failing with that code.
    Every event names the mint, the observation and the one it is compared with. *)
Theorem detector_events_exact history o :
  let events := fst (push (detector_after history) (Observed o)) in
  let previous := previous_decoded (cap_mint o) history in
  Forall (λ e, evt_mint e = Some (cap_mint o) ∧ evt_current e = SubjectRecord (Observed o) ∧
               evt_previous e = (λ p, SubjectRecord (Observed (fst p))) <$> previous) events ∧
  NoDup (evt_type <$> events) ∧
  ∀ type, type ∈ evt_type <$> events ↔
    match cap_evidence o with
    | Decoded current => ∃ p before, previous = Some (p, before) ∧ field_differs type before current
    | DecodeError f => type = DECODE_ERROR ∧ current_error (cap_mint o) history ≠ Some (df_code f)
    end.
Proof.
  destruct (detector_after_spec history (cap_mint o)) as [Hd He]. cbv zeta. cbn [push]. rewrite Hd, He.
  destruct (cap_evidence o) as [current|f].
  - destruct (previous_decoded (cap_mint o) history) as [[p before]|] eqn:Hp; cbn [fmap option_fmap option_map fst].
    + rewrite (previous_decoded_evidence _ _ _ _ Hp). cbn [fst]. split_and!; [apply change_events_context| |].
      * rewrite change_events_types. apply change_types_NoDup.
      * intros type. rewrite change_events_types, change_types_spec. naive_solver.
    + split_and!; [constructor|constructor|]. intros type. rewrite elem_of_nil. naive_solver.
  - case_bool_decide as Hcode; cbn [fst].
    + split_and!; [constructor|constructor|]. intros type. rewrite elem_of_nil. naive_solver.
    + split_and!.
      * repeat constructor. by destruct (previous_decoded _ _).
      * apply NoDup_singleton.
      * intros type. cbn. rewrite list_elem_of_singleton. naive_solver.
Qed.

(** The last resolved state of a mint. *)
Definition last_resolved (mint : string) (history : list ResolvedRepresentationState) : option ResolvedRepresentationState :=
  last (List.filter (λ r, String.eqb (rs_mint r) mint) history).

Lemma conflicts_after_spec history mint : conflicts_after history !! mint = last_resolved mint history.
Proof.
  unfold conflicts_after, last_resolved. revert mint. induction history as [|r history IH] using rev_ind; intros mint; [apply lookup_empty|].
  rewrite fold_left_app, List.filter_app. cbn [fold_left List.filter app]. set (d := fold_left _ history _) in *.
  assert (snd (push_resolved d r) = <[rs_mint r := r]> d) as -> by (unfold push_resolved; by case_match).
  destruct (String.eqb_spec (rs_mint r) mint) as [<-|Hne].
  - by rewrite lookup_insert_eq, last_snoc.
  - by rewrite lookup_insert_ne, app_nil_r by done.
Qed.

(** A conflict is reported exactly when a mint enters it: its state is in
    conflict and the last state pushed for the same mint, if any, was not; the
    event carries both. *)
Theorem conflict_events_exact history resolved :
  let previous := last_resolved (rs_mint resolved) history in
  let entered := rs_stateSource resolved = Some CONFLICT ∧
    ∀ p, previous = Some p → rs_stateSource p ≠ Some CONFLICT in
  (entered → fst (push_resolved (conflicts_after history) resolved) = [conflict_event previous resolved]) ∧
  (~ entered → fst (push_resolved (conflicts_after history) resolved) = []).
Proof.
  cbv zeta. unfold push_resolved, is_conflict. rewrite conflicts_after_spec.
  destruct (last_resolved _ _) as [p|]; repeat case_bool_decide; cbn [andb negb fst]; naive_solver.
Qed.

(* ------------------------------------------------------------------ *)
(** ** What a poll without a block time hides *)

(** An observation of one mint at a known or unknown phase. *)
Definition phase_sample (line : Z) (blockTime : option Z) : CaptureObservation :=
  let s := mkProtectedState (fromHex "000000000000f03f") (fromHex "000000000000f83f") 100 in
  mkCapture line None None blockTime None None "mint"
    (Decoded (mkObservation "mint" None blockTime None blockTime (NumInt 6) (Some false) s true (phaseAt s <$> blockTime))).

(** An activation seen across a poll without a block time is never reported:
    pending, then unknown, then activated, and no event at all. *)
Lemma activation_hidden_by_missing_block_time :
  let history := map Observed [phase_sample 1 (Some 90); phase_sample 2 None] in
  fst (push (detector_after history) (Observed (phase_sample 3 (Some 110)))) = [] ∧
  fst (push (detector_after (take 1 history)) (Observed (phase_sample 3 (Some 110))))
    = [observation_event (phase_sample 3 (Some 110)) (Some (phase_sample 1 (Some 90))) ACTIVATION_PHASE_CHANGED ["phase 0 -> 1"]].
Proof. split; vm_compute; reflexivity. Qed.
