(* ===== verification/Timeline.v ===== *)
(** * timeline.ts: the observation timeline and its quality metrics

    [buildTimeline] as a fold over the records with the state its loop keeps:
    the entries pushed so far, the change detector, one track per mint in the
    order of their first record, the polls and the error count. Numbers of
    milliseconds and counts are integers: the divisions are of integers below
    2^53, where [Math.floor] of the rounded quotient is the integer quotient. *)

From S2P Require Import Prelude Js Float64 Errors Kit Abi StateErrors CanonicalKey StateTypes Normalize ChainObservation Adapters Capture Events.

Definition CAPTURE_CADENCE_SECS : Z := 30.
Definition CAPTURE_GAP_THRESHOLD_SECS : Z := 60.

Inductive QualityStatus : Set := GOOD | DEGRADED | INSUFFICIENT.

#[export] Instance QualityStatus_eq_dec : EqDecision QualityStatus.
Proof. solve_decision. Defined.

Record QualityThresholds := mkThresholds { th_minCoverageBps : Z; th_maxWallclockGapMs : Z; th_maxDecodeErrors : option Z }.

(** [QUALITY_THRESHOLDS.good] and [QUALITY_THRESHOLDS.degraded]. *)
Definition good_thresholds : QualityThresholds := mkThresholds 9800 90000 (Some 0).
Definition degraded_thresholds : QualityThresholds := mkThresholds 9000 300000 None.

Inductive PhaseName : Set := pending | activated.

#[export] Instance PhaseName_eq_dec : EqDecision PhaseName.
Proof. solve_decision. Defined.

Record StateFields := mkFields {
  sf_decimals : jsnum;
  sf_multiplierHex : string;
  sf_multiplierValue : string;
  sf_newMultiplierHex : string;
  sf_newMultiplierValue : string;
  sf_effectiveTimestamp : Z;
  sf_phase : option PhaseName;
  sf_paused : option bool;
}.

Record Identity := mkIdentity { id_issuer : option string; id_symbol : option string; id_mint : option string }.

Record StableInterval := mkInterval {
  iv_firstWallclock : option string; iv_lastWallclock : option string;
  iv_firstSlot : option Z; iv_lastSlot : option Z;
  iv_firstBlockTime : option Z; iv_lastBlockTime : option Z;
  iv_firstLine : Z; iv_lastLine : Z;
  iv_observations : Z;
  iv_state : StateFields;
}.

Record StateChange := mkChange {
  ch_wallclock : option string; ch_slot : option Z; ch_blockTime : option Z; ch_line : Z;
  ch_events : list ObservationEventType;
  ch_changedFields : list string;
  ch_previous : StateFields;
  ch_current : StateFields;
}.

Record DecodeErrors := mkDecodeErrors {
  er_code : string; er_message : string;
  er_firstWallclock : option string; er_lastWallclock : option string;
  er_firstSlot : option Z; er_lastSlot : option Z;
  er_firstLine : Z; er_lastLine : Z;
  er_occurrences : Z;
}.

Record CaptureGap := mkGap {
  gap_fromWallclock : string; gap_toWallclock : string;
  gap_wallclockGapMs : Z;
  gap_fromSlot : option Z; gap_toSlot : option Z;
  gap_blockTimeGapSecs : option Z;
  gap_fromLine : Z; gap_toLine : Z;
}.

Record SingleObservation := mkSingle {
  so_wallclock : option string; so_slot : option Z; so_blockTime : option Z; so_line : Z;
  so_state : option StateFields;  (** [decodeStatus] is decoded exactly when it is there *)
  so_error : option string;
}.

(** [TimelineEntry]: the [entry] of the source is the constructor. *)
Inductive EntryBody : Type :=
| STABLE_INTERVAL (interval : StableInterval)
| STATE_CHANGE (change : StateChange)
| DECODE_ERRORS (errors : DecodeErrors)
| CAPTURE_GAP (gap : CaptureGap)
| OBSERVATION (single : SingleObservation).

Record TimelineEntry := mkTimelineEntry { te_identity : Identity; te_body : EntryBody }.

Record QualityMetrics := mkMetrics {
  qm_firstWallclock : option string; qm_lastWallclock : option string;
  qm_firstSlot : option Z; qm_lastSlot : option Z;
  qm_totalPolls : Z;
  qm_expectedPolls : Z;
  qm_observedPolls : Z;
  qm_largestWallclockGapMs : Z;
  qm_largestBlockTimeGapSecs : option Z;
  qm_coverageBps : Z;
  qm_coveragePercent : string;
  qm_decodeErrors : Z;
  qm_gaps : Z;
  qm_status : QualityStatus;
}.

Record TimelineResult := mkTimelineResult {
  tr_entries : list TimelineEntry;
  tr_overall : QualityMetrics;
  tr_bySymbol : gmap string QualityMetrics;
}.

Record TimelineOptions := mkTimelineOptions { opt_symbols : option (gset string); opt_verbose : bool }.

Definition KIND_RANK (body : EntryBody) : Z :=
  match body with
  | CAPTURE_GAP _ => 0 | DECODE_ERRORS _ => 1 | STATE_CHANGE _ => 2 | STABLE_INTERVAL _ => 3 | OBSERVATION _ => 4
  end.

(** The stored multipliers have eight bytes. *)
Definition stateFields (evidence : ChainObservation) : StateFields :=
  let state := ob_protectedState evidence in
  mkFields (ob_decimals evidence) (toHex (multiplier state)) (getFloat64_text (multiplier state))
    (toHex (newMultiplier state)) (getFloat64_text (newMultiplier state)) (newMultiplierEffectiveTimestamp state)
    ((λ phase, if phase =? 0 then pending else activated) <$> ob_phase evidence) (ob_paused evidence).

Record PollPoint := mkPoint { pt_line : Z; pt_wallclock : string; pt_ms : Z; pt_slot : option Z; pt_blockTime : option Z }.

Record OpenInterval := mkOpen { oi_first : CaptureObservation; oi_last : CaptureObservation; oi_observations : Z; oi_state : StateFields }.

Record OpenErrorRun := mkRun {
  run_first : CaptureObservation; run_last : CaptureObservation; run_code : string; run_message : string; run_occurrences : Z;
}.

Record SymbolTrack := mkTrack {
  tk_identity : Identity;
  tk_interval : option OpenInterval;
  tk_errors : option OpenErrorRun;
  tk_lastPoint : option PollPoint;
  tk_lastDecoded : option StateFields;
  tk_polls : list PollPoint;
  tk_decodeErrors : Z;
  tk_gaps : Z;
}.

(* ------------------------------------------------------------------ *)
(** ** Quality metrics *)

(** Pairs of neighbours. *)
Definition neighbours {A} (l : list A) : list (A * A) := zip l (tail l).

Definition gap_ms (pair : PollPoint * PollPoint) : Z := pt_ms (snd pair) - pt_ms (fst pair).

Definition is_gap (ms : Z) : bool := CAPTURE_GAP_THRESHOLD_SECS * 1000 <=? ms.

Definition countGaps (polls : list PollPoint) : Z :=
  Z.of_nat (length (List.filter (λ pair, is_gap (gap_ms pair)) (neighbours polls))).

Definition block_gap (pair : PollPoint * PollPoint) : option Z :=
  match pt_blockTime (fst pair), pt_blockTime (snd pair) with Some p, Some c => Some (c - p) | _, _ => None end.

Definition largest_block_gap (polls : list PollPoint) : option Z :=
  fold_left (λ largest pair,
    match block_gap pair, largest with
    | Some gap, Some l => if l <? gap then Some gap else Some l
    | Some gap, None => Some gap
    | None, _ => largest
    end) (neighbours polls) None.

Definition largest_wallclock_gap (polls : list PollPoint) : Z :=
  fold_left (λ largest pair, Z.max largest (gap_ms pair)) (neighbours polls) 0.

Definition expected_polls (polls : list PollPoint) : Z :=
  match head polls, last polls with
  | Some first, Some last => (pt_ms last - pt_ms first) / (CAPTURE_CADENCE_SECS * 1000) + 1
  | _, _ => 0
  end.

Definition coverage_bps (observed expected : Z) : Z := if expected =? 0 then 0 else Z.min 10000 (observed * 10000 / expected).

Definition meets (th : QualityThresholds) (observed coverage gap errors : Z) : bool :=
  (2 <=? observed) && (th_minCoverageBps th <=? coverage) && (gap <=? th_maxWallclockGapMs th) &&
  match th_maxDecodeErrors th with Some limit => errors <=? limit | None => true end.

Definition quality_status (observed coverage gap errors : Z) : QualityStatus :=
  if meets good_thresholds observed coverage gap errors then GOOD
  else if meets degraded_thresholds observed coverage gap errors then DEGRADED
  else INSUFFICIENT.

Definition qualityMetrics (polls : list PollPoint) (totalPolls decodeErrors gaps : Z) : QualityMetrics :=
  let largestWallclockGapMs := largest_wallclock_gap polls in
  let expectedPolls := expected_polls polls in
  let observedPolls := Z.of_nat (length polls) in
  let coverageBps := coverage_bps observedPolls expectedPolls in
  mkMetrics (pt_wallclock <$> head polls) (pt_wallclock <$> last polls) (head polls ≫= pt_slot) (last polls ≫= pt_slot)
    totalPolls expectedPolls observedPolls largestWallclockGapMs (largest_block_gap polls) coverageBps
    (show_Z (coverageBps / 100) +:+ "." +:+ padStart0 2 (show_Z (Z.rem coverageBps 100)))
    decodeErrors gaps (quality_status observedPolls coverageBps largestWallclockGapMs decodeErrors).

(* ------------------------------------------------------------------ *)
(** ** The loop *)

(** [entries]: an entry with its sort key. *)
Record KeyedEntry := mkKeyed { ke_line : Z; ke_rank : Z; ke_symbol : string; ke_entry : TimelineEntry }.

(** The [push] of [buildTimeline]. *)
Definition keyed (line : Z) (entry : TimelineEntry) : KeyedEntry :=
  mkKeyed line (KIND_RANK (te_body entry)) (id_symbol (te_identity entry) ?? "") entry.

Definition new_track (identity : Identity) : SymbolTrack := mkTrack identity None None None None [] 0 0.

Definition interval_of (i : OpenInterval) : StableInterval :=
  mkInterval (cap_wallclock (oi_first i)) (cap_wallclock (oi_last i)) (cap_slot (oi_first i)) (cap_slot (oi_last i))
    (cap_blockTime (oi_first i)) (cap_blockTime (oi_last i)) (cap_lineNumber (oi_first i)) (cap_lineNumber (oi_last i))
    (oi_observations i) (oi_state i).

Definition errors_of (run : OpenErrorRun) : DecodeErrors :=
  mkDecodeErrors (run_code run) (run_message run) (cap_wallclock (run_first run)) (cap_wallclock (run_last run))
    (cap_slot (run_first run)) (cap_slot (run_last run)) (cap_lineNumber (run_first run)) (cap_lineNumber (run_last run))
    (run_occurrences run).

Definition with_interval (i : option OpenInterval) (t : SymbolTrack) : SymbolTrack :=
  mkTrack (tk_identity t) i (tk_errors t) (tk_lastPoint t) (tk_lastDecoded t) (tk_polls t) (tk_decodeErrors t) (tk_gaps t).
Definition with_errors (e : option OpenErrorRun) (t : SymbolTrack) : SymbolTrack :=
  mkTrack (tk_identity t) (tk_interval t) e (tk_lastPoint t) (tk_lastDecoded t) (tk_polls t) (tk_decodeErrors t) (tk_gaps t).

Definition closeInterval (t : SymbolTrack) : list KeyedEntry * SymbolTrack :=
  match tk_interval t with
  | None => ([], t)
  | Some i => ([keyed (cap_lineNumber (oi_first i)) (mkTimelineEntry (tk_identity t) (STABLE_INTERVAL (interval_of i)))], with_interval None t)
  end.

Definition closeErrors (t : SymbolTrack) : list KeyedEntry * SymbolTrack :=
  match tk_errors t with
  | None => ([], t)
  | Some run => ([keyed (cap_lineNumber (run_first run)) (mkTimelineEntry (tk_identity t) (DECODE_ERRORS (errors_of run)))], with_errors None t)
  end.

(** Two closings in a row. *)
Definition close_both (t : SymbolTrack) : list KeyedEntry * SymbolTrack :=
  let '(a, t) := closeInterval t in let '(b, t) := closeErrors t in (a ++ b, t).

Definition gap_between (previous point : PollPoint) : CaptureGap :=
  mkGap (pt_wallclock previous) (pt_wallclock point) (pt_ms point - pt_ms previous) (pt_slot previous) (pt_slot point)
    (block_gap (previous, point)) (pt_line previous) (pt_line point).

Definition no_identity : Identity := mkIdentity None None None.

Definition line_error_entry (error : CaptureLineError) : KeyedEntry :=
  let line := le_lineNumber error in
  keyed line (mkTimelineEntry no_identity (DECODE_ERRORS
    (mkDecodeErrors (show_line_error (le_code error)) (le_message error) None None None None line line 1))).

(** [flatMap((e) => e.detail)]. *)
Definition changed_of (events : list ObservationEvent) : list string := concat (map evt_detail events).

Section Loop.
  Variable other_date : string → option Z.

(** The poll point of a record with a wallclock that parses. *)
Definition point_of (record : CaptureObservation) : option PollPoint :=
  match cap_wallclock record with
  | None => None
  | Some wallclock =>
      match Date_parse other_date wallclock with
      | None => None
      | Some ms => Some (mkPoint (cap_lineNumber record) wallclock ms (cap_slot record) (cap_blockTime record))
      end
  end.

(** The part of the loop body that handles the record's poll. *)
Definition poll_track (record : CaptureObservation) (t : SymbolTrack) : list KeyedEntry * SymbolTrack :=
  match point_of record with
  | None => ([], t)
  | Some point =>
      let '(es, t) :=
        match tk_lastPoint t with
        | Some previous =>
            if is_gap (pt_ms point - pt_ms previous) then
              let '(closed, t) := close_both t in
              (closed ++ [keyed (cap_lineNumber record) (mkTimelineEntry (tk_identity t) (CAPTURE_GAP (gap_between previous point)))],
               mkTrack (tk_identity t) (tk_interval t) (tk_errors t) (tk_lastPoint t) (tk_lastDecoded t) (tk_polls t)
                 (tk_decodeErrors t) (tk_gaps t + 1))
            else ([], t)
        | None => ([], t)
        end in
      (es, mkTrack (tk_identity t) (tk_interval t) (tk_errors t) (Some point) (tk_lastDecoded t) (tk_polls t ++ [point])
             (tk_decodeErrors t) (tk_gaps t))
  end.

Definition observation_entry (identity : Identity) (record : CaptureObservation) : TimelineEntry :=
  mkTimelineEntry identity (OBSERVATION (mkSingle (cap_wallclock record) (cap_slot record) (cap_blockTime record) (cap_lineNumber record)
    (match cap_evidence record with Decoded e => Some (stateFields e) | DecodeError _ => None end)
    (match cap_evidence record with Decoded _ => None | DecodeError f => Some (df_code f +:+ ": " +:+ df_message f) end))).

Definition verbose_entry (verbose : bool) (identity : Identity) (record : CaptureObservation) : list KeyedEntry :=
  if verbose then [keyed (cap_lineNumber record) (observation_entry identity record)] else [].

(** The rest of the body for a record that did not decode. *)
Definition error_track (verbose : bool) (record : CaptureObservation) (f : ChainDecodeFailure) (t : SymbolTrack)
    : list KeyedEntry * SymbolTrack :=
  let t := mkTrack (tk_identity t) (tk_interval t) (tk_errors t) (tk_lastPoint t) (tk_lastDecoded t) (tk_polls t)
             (tk_decodeErrors t + 1) (tk_gaps t) in
  let '(a, t) := closeInterval t in
  let '(b, t) :=
    let fresh :=
      let '(b, t) := closeErrors t in (b, with_errors (Some (mkRun record record (df_code f) (df_message f) 1)) t) in
    match tk_errors t with
    | Some run =>
        if String.eqb (run_code run) (df_code f)
        then ([], with_errors (Some (mkRun (run_first run) record (run_code run) (run_message run) (run_occurrences run + 1))) t)
        else fresh
    | None => fresh
    end in
  (a ++ b ++ verbose_entry verbose (tk_identity t) record, t).

(** The rest of the body for a decoded record. *)
Definition decoded_track (verbose : bool) (events : list ObservationEvent) (record : CaptureObservation) (evidence : ChainObservation)
    (t : SymbolTrack) : list KeyedEntry * SymbolTrack :=
  let '(a, t) := closeErrors t in
  let current := stateFields evidence in
  let '(b, t) :=
    match events, tk_lastDecoded t with
    | _ :: _, Some previous =>
        let '(b, t) := closeInterval t in
        (b ++ [keyed (cap_lineNumber record) (mkTimelineEntry (tk_identity t) (STATE_CHANGE
           (mkChange (cap_wallclock record) (cap_slot record) (cap_blockTime record) (cap_lineNumber record)
             (map evt_type events) (changed_of events) previous current)))], t)
    | _, _ => ([], t)
    end in
  let interval :=
    match tk_interval t with
    | Some i => mkOpen (oi_first i) record (oi_observations i + 1) (oi_state i)
    | None => mkOpen record record 1 current
    end in
  let t := mkTrack (tk_identity t) (Some interval) (tk_errors t) (tk_lastPoint t) (Some current) (tk_polls t) (tk_decodeErrors t) (tk_gaps t) in
  (a ++ b ++ verbose_entry verbose (tk_identity t) record, t).

(** The whole body on the record's track; [events] are those that are no decode error. *)
Definition step_track (verbose : bool) (events : list ObservationEvent) (record : CaptureObservation) (t : SymbolTrack)
    : list KeyedEntry * SymbolTrack :=
  let '(a, t) := poll_track record t in
  let '(b, t) :=
    match cap_evidence record with
    | DecodeError f => error_track verbose record f t
    | Decoded evidence => decoded_track verbose events record evidence t
    end in
  (a ++ b, t).

(** What the loop keeps. [tracks]: a Map in insertion order; [overallPolls]: the
    first poll of each line; [allPollLines]: a Set of lines. *)
Record Loop := mkLoop {
  lp_entries : list KeyedEntry;
  lp_detector : ObservationEventDetector;
  lp_tracks : list (string * SymbolTrack);
  lp_overallPolls : list (Z * PollPoint);
  lp_allPollLines : gset Z;
  lp_lineErrors : Z;
}.

Definition empty_loop : Loop := mkLoop [] new_detector [] [] ∅ 0.

Definition assoc {A} (key : string) (l : list (string * A)) : option A :=
  snd <$> List.find (λ entry, String.eqb (fst entry) key) l.

(** [map.set(key, value)]: a new key goes last. *)
Fixpoint assoc_set {A} (key : string) (a : A) (l : list (string * A)) : list (string * A) :=
  match l with
  | [] => [(key, a)]
  | entry :: l => if String.eqb (fst entry) key then (key, a) :: l else entry :: assoc_set key a l
  end.

Definition symbol_of (record : CaptureObservation) : string := cap_symbol record ?? cap_mint record.

Definition selected (options : TimelineOptions) (record : CaptureObservation) : bool :=
  match opt_symbols options with Some symbols => bool_decide (symbol_of record ∈ symbols) | None => true end.

Definition identity_of (record : CaptureObservation) : Identity :=
  mkIdentity (cap_issuer record) (Some (symbol_of record)) (Some (cap_mint record)).

Definition is_change (e : ObservationEvent) : bool := negb (bool_decide (evt_type e = DECODE_ERROR)).

Definition add_poll (point : option PollPoint) (polls : list (Z * PollPoint)) : list (Z * PollPoint) :=
  match point with
  | Some point => if existsb (λ entry, fst entry =? pt_line point) polls then polls else polls ++ [(pt_line point, point)]
  | None => polls
  end.

Definition loop_step (options : TimelineOptions) (l : Loop) (record : CaptureRecord) : Loop :=
  match record with
  | LineError error =>
      mkLoop (lp_entries l ++ [line_error_entry error]) (lp_detector l) (lp_tracks l) (lp_overallPolls l) (lp_allPollLines l)
        (lp_lineErrors l + 1)
  | Observed o =>
      let lines := match point_of o with Some _ => {[cap_lineNumber o]} ∪ lp_allPollLines l | None => lp_allPollLines l end in
      if negb (selected options o) then
        mkLoop (lp_entries l) (lp_detector l) (lp_tracks l) (lp_overallPolls l) lines (lp_lineErrors l)
      else
        let track := assoc (cap_mint o) (lp_tracks l) ?? new_track (identity_of o) in
        let '(events, detector) := push (lp_detector l) record in
        let '(es, track) := step_track (opt_verbose options) (List.filter is_change events) o track in
        mkLoop (lp_entries l ++ es) detector (assoc_set (cap_mint o) track (lp_tracks l)) (add_poll (point_of o) (lp_overallPolls l))
          lines (lp_lineErrors l)
  end.

(* ------------------------------------------------------------------ *)
(** ** The result *)

(** [a.key[0] - b.key[0] || a.key[1] - b.key[1] || byCodeUnit(a.key[2], b.key[2])] is not positive. *)
Definition entry_leb (a b : KeyedEntry) : bool :=
  (ke_line a <? ke_line b) ||
  ((ke_line a =? ke_line b) &&
   ((ke_rank a <? ke_rank b) || ((ke_rank a =? ke_rank b) && key_leb (ke_symbol a) (ke_symbol b)))).

(** [Array.prototype.sort]: stable. *)
Fixpoint insert_by {A} (leb : A → A → bool) (x : A) (l : list A) : list A :=
  match l with [] => [x] | y :: l => if leb x y then x :: y :: l else y :: insert_by leb x l end.
Definition sort_by {A} (leb : A → A → bool) (l : list A) : list A := foldr (insert_by leb) [] l.

Definition point_leb (a b : PollPoint) : bool := pt_line a <=? pt_line b.

(** The closing of every track after the loop. *)
Definition close_tracks (tracks : list (string * SymbolTrack)) : list KeyedEntry :=
  concat (map (λ entry, fst (close_both (snd entry))) tracks).

Definition track_metrics (totalPolls : Z) (t : SymbolTrack) : QualityMetrics :=
  qualityMetrics (tk_polls t) totalPolls (tk_decodeErrors t) (tk_gaps t).

Definition track_symbol (t : SymbolTrack) : string := match id_symbol (tk_identity t) with Some s => s | None => id_mint (tk_identity t) ?? "" end.

Definition finish (l : Loop) : TimelineResult :=
  let totalPolls := Z.of_nat (size (lp_allPollLines l)) in
  let symbolDecodeErrors := foldr Z.add 0 (map (λ entry, tk_decodeErrors (snd entry)) (lp_tracks l)) in
  let polls := sort_by point_leb (map snd (lp_overallPolls l)) in
  mkTimelineResult
    (map ke_entry (sort_by entry_leb (lp_entries l ++ close_tracks (lp_tracks l))))
    (qualityMetrics polls totalPolls (symbolDecodeErrors + lp_lineErrors l) (countGaps polls))
    (fold_left (λ m entry, <[track_symbol (snd entry) := track_metrics totalPolls (snd entry)]> m) (lp_tracks l) ∅).

Definition buildTimeline (records : list CaptureRecord) (options : TimelineOptions) : TimelineResult :=
  finish (fold_left (loop_step options) records empty_loop).
End Loop.

(** The timeline as text: a bigint is written as a string. *)
Definition timelineJson (value : jsval) : option string := json_text value.

(* ------------------------------------------------------------------ *)
(** ** What the metrics say *)

Lemma fold_max_spec {A} (f : A → Z) l n : n ≤ fold_left (λ m x, Z.max m (f x)) l n ∧
  Forall (λ x, f x ≤ fold_left (λ m x, Z.max m (f x)) l n) l ∧
  (fold_left (λ m x, Z.max m (f x)) l n = n ∨ Exists (λ x, f x = fold_left (λ m x, Z.max m (f x)) l n) l).
Proof.
  revert n. induction l as [|x l IH]; intros n; [cbn; split_and!; [lia|constructor|by left]|]. cbn [fold_left].
  destruct (IH (Z.max n (f x))) as (Hle & Hall & Hex). split_and!; [lia|by constructor; [lia|]|].
  destruct Hex as [Hn|Hx]; [|right; by right]. destruct (Z.max_spec n (f x)) as [[? Hm]|[? Hm]]; rewrite Hm in *; [right; left; lia|left; lia].
Qed.

(** Polls in the order of their wallclock. *)
Definition in_order (polls : list PollPoint) : Prop := Forall (λ pair, 0 ≤ gap_ms pair) (neighbours polls).

Lemma in_order_ends polls first final : in_order polls → head polls = Some first → last polls = Some final → pt_ms first ≤ pt_ms final.
Proof.
  revert first. induction polls as [|p polls IH]; intros first Hord; [done|].
  destruct polls as [|q polls]; [intros [= <-] [= <-]; lia|]. intros [= <-] Hlast. apply Forall_cons in Hord as [Hpq Hord]. unfold gap_ms in Hpq. cbn in Hpq.
  specialize (IH q Hord eq_refl Hlast). lia.
Qed.

Lemma expected_polls_positive polls : in_order polls → polls ≠ [] → 1 ≤ expected_polls polls.
Proof.
  intros Hord Hne. unfold expected_polls. destruct (head polls) as [first|] eqn:Hf; [|by destruct polls].
  destruct (last polls) as [final|] eqn:Hl; [|by apply last_None in Hl].
  pose proof (in_order_ends _ _ _ Hord Hf Hl). pose proof (Z.div_pos (pt_ms final - pt_ms first) (CAPTURE_CADENCE_SECS * 1000)).
  unfold CAPTURE_CADENCE_SECS in *. lia.
Qed.

(** A threshold on the coverage is one on the exact quotient. *)
Lemma coverage_threshold observed expected limit : 1 ≤ expected → 0 ≤ limit ≤ 10000 →
  (limit ≤ coverage_bps observed expected ↔ limit * expected ≤ observed * 10000).
Proof.
  intros He Hlim. unfold coverage_bps. destruct (Z.eqb_spec expected 0); [lia|].
  pose proof (Z.div_le_lower_bound (observed * 10000) expected limit) as H1.
  pose proof (Z.mul_div_le (observed * 10000) expected ltac:(lia)) as H2. split; [|intros; apply Z.min_glb; [lia|apply H1; lia]].
  intros Hl%Z.min_glb_iff. destruct Hl as [_ Hl]. nia.
Qed.

Lemma meets_spec th observed coverage gap errors : meets th observed coverage gap errors = true ↔
  2 ≤ observed ∧ th_minCoverageBps th ≤ coverage ∧ gap ≤ th_maxWallclockGapMs th ∧
  match th_maxDecodeErrors th with Some limit => errors ≤ limit | None => True end.
Proof. unfold meets. rewrite !andb_true_iff, !Z.leb_le. destruct (th_maxDecodeErrors th); rewrite ?Z.leb_le; tauto. Qed.

Lemma quality_status_GOOD observed coverage gap errors :
  quality_status observed coverage gap errors = GOOD ↔ meets good_thresholds observed coverage gap errors = true.
Proof. unfold quality_status. by repeat destruct (meets _ _ _ _ _). Qed.

Lemma quality_status_INSUFFICIENT observed coverage gap errors :
  quality_status observed coverage gap errors ≠ INSUFFICIENT ↔ meets degraded_thresholds observed coverage gap errors = true.
Proof.
  unfold quality_status. destruct (meets good_thresholds _ _ _ _) eqn:Hg; [|by destruct (meets degraded_thresholds _ _ _ _)].
  split; [intros _|done]. apply meets_spec in Hg as (? & ? & ? & _). apply meets_spec. cbn in *. split_and!; [done|lia|lia|done].
Qed.

Lemma largest_gap_limit polls limit : 0 ≤ limit → (largest_wallclock_gap polls ≤ limit ↔ Forall (λ pair, gap_ms pair ≤ limit) (neighbours polls)).
Proof.
  intros Hl. unfold largest_wallclock_gap. destruct (fold_max_spec gap_ms (neighbours polls) 0) as (H0 & Hall & Hex). split.
  - intros Hm. eapply Forall_impl; [exact Hall|]. cbn. lia.
  - intros Hf. destruct Hex as [->|Hx]; [done|]. apply Exists_exists in Hx as (pair & Hin & Hp). rewrite <- Hp.
    by apply (proj1 (Forall_forall _ _) Hf).
Qed.

(** The metrics of polls in wallclock order: the coverage is between 0 and
    100 percent, full exactly when no expected poll is missing; the largest gap
    bounds every gap and is one of them; and the status is exactly the
    documented rule on the exact ratio of observed and expected polls. *)
Theorem qualityMetrics_spec polls totalPolls decodeErrors gaps (Hord : in_order polls) (Hne : polls ≠ []) :
  let m := qualityMetrics polls totalPolls decodeErrors gaps in
  let observed := Z.of_nat (length polls) in
  let within limit := Forall (λ pair, gap_ms pair ≤ limit) (neighbours polls) in
  1 ≤ qm_expectedPolls m ∧ 0 ≤ qm_coverageBps m ≤ 10000 ∧
  (qm_coverageBps m = 10000 ↔ qm_expectedPolls m ≤ observed) ∧
  within (qm_largestWallclockGapMs m) ∧
  (qm_largestWallclockGapMs m = 0 ∨ Exists (λ pair, gap_ms pair = qm_largestWallclockGapMs m) (neighbours polls)) ∧
  (qm_status m = GOOD ↔ 2 ≤ observed ∧ 9800 * qm_expectedPolls m ≤ observed * 10000 ∧ within 90000 ∧ decodeErrors ≤ 0) ∧
  (qm_status m ≠ INSUFFICIENT ↔ 2 ≤ observed ∧ 9000 * qm_expectedPolls m ≤ observed * 10000 ∧ within 300000).
Proof.
  cbv zeta. cbn [qualityMetrics qm_expectedPolls qm_coverageBps qm_largestWallclockGapMs qm_status].
  pose proof (expected_polls_positive polls Hord Hne) as He. set (observed := Z.of_nat (length polls)). set (expected := expected_polls polls) in *.
  destruct (fold_max_spec gap_ms (neighbours polls) 0) as (_ & Hall & Hex).
  assert (Hcov : coverage_bps observed expected ≤ 10000) by (unfold coverage_bps; case_match; lia).
  split_and!; [done| |done| |exact Hall|exact Hex| |].
  - apply coverage_threshold; unfold observed; lia.
  - pose proof (coverage_threshold observed expected 10000 He ltac:(lia)). lia.
  - rewrite quality_status_GOOD, meets_spec. cbn. rewrite coverage_threshold, largest_gap_limit by lia. tauto.
  - rewrite quality_status_INSUFFICIENT, meets_spec. cbn. rewrite coverage_threshold, largest_gap_limit by lia. tauto.
Qed.

Lemma qualityMetrics_spec_witness :
  let point line ms := mkPoint line "t" ms None None in
  let polls := [point 1 0; point 2 30000; point 3 60000] in
  qm_status (qualityMetrics polls 3 0 0) = GOOD ∧ 1 ≤ qm_expectedPolls (qualityMetrics polls 3 0 0).
Proof.
  split; [vm_compute; reflexivity|].
  refine (proj1 (qualityMetrics_spec [mkPoint 1 "t" 0 None None; mkPoint 2 "t" 30000 None None; mkPoint 3 "t" 60000 None None] 3 0 0 _ _));
    [|discriminate].
  unfold in_order. cbn. apply Forall_cons; split; [|apply Forall_singleton]; unfold gap_ms; cbn; lia.
Defined.

(** Out of wallclock order the expected polls, and so the coverage, may be negative. *)
Lemma coverage_negative_out_of_order :
  let polls := [mkPoint 1 "t" 90000 None None; mkPoint 2 "t" 0 None None] in
  let m := qualityMetrics polls 2 0 0 in
  qm_expectedPolls m = -2 ∧ qm_coverageBps m = -10000 ∧ qm_coveragePercent m = "-100.00" ∧ qm_status m = INSUFFICIENT.
Proof. vm_compute. auto. Qed.
