(* ===== verification/TimelineSpec.v ===== *)
(** * What [buildTimeline] reports

    A reference definition of the timeline of one mint: its observations split
    into runs, and what each observation adds by itself (a gap, a change, an
    entry of the verbose mode). The loop with its open interval, open error run
    and mutable tracks is proved to produce exactly these entries, sorted. *)

From S2P Require Import Prelude Js Float64 Errors Kit Abi StateErrors CanonicalKey StateTypes Normalize ChainObservation Adapters Capture Events Timeline.
From Stdlib Require Import Sorting.Sorted.

(* ------------------------------------------------------------------ *)
(** ** Sorting *)

Section Sorting.
  Context {A : Type} (leb : A → A → bool).

Lemma insert_by_Permutation x l : insert_by leb x l ≡ₚ x :: l.
Proof. induction l as [|y l IH]; [done|]. cbn. destruct (leb x y); [done|]. rewrite IH. constructor. Qed.

Lemma sort_by_Permutation l : sort_by leb l ≡ₚ l.
Proof. induction l as [|x l IH]; [done|]. cbn. by rewrite insert_by_Permutation, IH. Qed.

Lemma sort_by_sorted l : (∀ x y, leb x y = false → leb y x = true) → (∀ x y z, leb x y = true → leb y z = true → leb x z = true) →
  StronglySorted (λ x y, leb x y = true) (sort_by leb l).
Proof.
  intros Htotal Htrans. induction l as [|x l' IH]; [constructor|]. change (sort_by leb (x :: l')) with (insert_by leb x (sort_by leb l')). revert IH. generalize (sort_by leb l'). intros l.
  induction 1 as [|y l Hl IH Hy]; [cbn; constructor; constructor|]. cbn. destruct (leb x y) eqn:Hxy.
  - constructor; [by constructor|]. constructor; [done|]. eapply Forall_impl; [exact Hy|]. eauto.
  - constructor; [done|]. rewrite insert_by_Permutation. constructor; auto.
Qed.
End Sorting.

Lemma entry_leb_total a b : entry_leb a b = false → entry_leb b a = true.
Proof.
  unfold entry_leb. destruct (Z.ltb_spec (ke_line a) (ke_line b)), (Z.eqb_spec (ke_line a) (ke_line b)); cbn; try done.
  - rewrite (proj2 (Z.ltb_ge (ke_line b) _)) by lia. rewrite (proj2 (Z.eqb_eq (ke_line b) (ke_line a))) by lia. cbn.
    destruct (Z.ltb_spec (ke_rank a) (ke_rank b)), (Z.eqb_spec (ke_rank a) (ke_rank b)); cbn; try done.
    + intros Hk%key_leb_total. rewrite Hk, (proj2 (Z.eqb_eq (ke_rank b) (ke_rank a))) by lia. by rewrite orb_true_r.
    + by rewrite (proj2 (Z.ltb_lt (ke_rank b) (ke_rank a))) by lia.
  - by rewrite (proj2 (Z.ltb_lt (ke_line b) (ke_line a))) by lia.
Qed.

Lemma entry_leb_spec a b : entry_leb a b = true ↔
  ke_line a < ke_line b ∨ ke_line a = ke_line b ∧ (ke_rank a < ke_rank b ∨ ke_rank a = ke_rank b ∧ key_leb (ke_symbol a) (ke_symbol b) = true).
Proof. unfold entry_leb. by rewrite !orb_true_iff, !andb_true_iff, !orb_true_iff, !andb_true_iff, !Z.ltb_lt, !Z.eqb_eq. Qed.

Lemma entry_leb_trans a b c : entry_leb a b = true → entry_leb b c = true → entry_leb a c = true.
Proof. rewrite !entry_leb_spec. intros. pose proof (key_leb_trans (ke_symbol a) (ke_symbol b) (ke_symbol c)). intuition lia. Qed.

#[export] Instance filter_Permutation {A} (f : A → bool) : Proper ((≡ₚ) ==> (≡ₚ)) (List.filter f).
Proof. induction 1; cbn; repeat destruct (f _); eauto using Permutation. Qed.

(** The line an entry is sorted by. *)
Definition body_line (body : EntryBody) : Z :=
  match body with
  | STABLE_INTERVAL i => iv_firstLine i | STATE_CHANGE c => ch_line c | DECODE_ERRORS e => er_firstLine e
  | CAPTURE_GAP g => gap_toLine g | OBSERVATION o => so_line o
  end.

Definition entry_key (e : TimelineEntry) : KeyedEntry := keyed (body_line (te_body e)) e.

Section Reference.
  Variable other_date : string → option Z.
  Local Abbreviation observation := CaptureObservation.

Definition timed (l : list observation) : list PollPoint := omap (point_of other_date) l.

Definition last_state (l : list observation) : option StateFields := (λ p, stateFields (snd p)) <$> last (omap decoded_pair l).

(** What the detector reports for an observation after those of its mint. *)
Definition changes (l : list observation) (o : observation) : list ObservationEvent :=
  match cap_evidence o with
  | Decoded current => match last (omap decoded_pair l) with Some (p, before) => change_events o p before current | None => [] end
  | DecodeError _ => []
  end.

Definition gap_before (l : list observation) (o : observation) : option (PollPoint * PollPoint) :=
  match point_of other_date o, last (timed l) with
  | Some q, Some p => if is_gap (pt_ms q - pt_ms p) then Some (p, q) else None
  | _, _ => None
  end.

(** Neighbours with nothing to tell them apart. *)
Definition same_run (p o : observation) : bool :=
  match cap_evidence p, cap_evidence o with
  | Decoded a, Decoded b => bool_decide (change_types a b = [])
  | DecodeError f, DecodeError g => String.eqb (df_code f) (df_code g)
  | _, _ => false
  end.

Definition continues (l : list observation) (o : observation) : bool :=
  match last l with Some p => same_run p o && bool_decide (gap_before l o = None) | None => false end.

(** The runs of the observations, given newest first: the finished ones and the last. *)
Fixpoint split_rev (r : list observation) : list (list observation) * list observation :=
  match r with
  | [] => ([], [])
  | o :: r =>
      let '(finished, current) := split_rev r in
      if continues (rev r) o then (finished, current ++ [o])
      else (match current with [] => finished | _ => finished ++ [current] end, [o])
  end.

Definition split_runs (l : list observation) : list (list observation) * list observation := split_rev (rev l).
Definition finished_runs (l : list observation) : list (list observation) := fst (split_runs l).
Definition current_run (l : list observation) : list observation := snd (split_runs l).

Definition runs_of (l : list observation) : list (list observation) :=
  match current_run l with [] => finished_runs l | current => finished_runs l ++ [current] end.

Definition open_interval (run : list observation) : option OpenInterval :=
  first ← head run; last ← last run;
  match cap_evidence first with Decoded e => Some (mkOpen first last (Z.of_nat (length run)) (stateFields e)) | DecodeError _ => None end.

Definition open_errors (run : list observation) : option OpenErrorRun :=
  first ← head run; last ← last run;
  match cap_evidence first with
  | Decoded _ => None
  | DecodeError f => Some (mkRun first last (df_code f) (df_message f) (Z.of_nat (length run)))
  end.

(** One interval or one error entry per run. *)
Definition run_entries (id : Identity) (run : list observation) : list KeyedEntry :=
  match open_interval run, open_errors run with
  | Some i, _ => [keyed (cap_lineNumber (oi_first i)) (mkTimelineEntry id (STABLE_INTERVAL (interval_of i)))]
  | None, Some e => [keyed (cap_lineNumber (run_first e)) (mkTimelineEntry id (DECODE_ERRORS (errors_of e)))]
  | None, None => []
  end.

Definition gap_entries (id : Identity) (l : list observation) (o : observation) : list KeyedEntry :=
  match gap_before l o with
  | Some (p, q) => [keyed (cap_lineNumber o) (mkTimelineEntry id (CAPTURE_GAP (gap_between p q)))]
  | None => []
  end.

Definition change_entries (id : Identity) (l : list observation) (o : observation) : list KeyedEntry :=
  match cap_evidence o, changes l o, last_state l with
  | Decoded current, _ :: _, Some previous =>
      [keyed (cap_lineNumber o) (mkTimelineEntry id (STATE_CHANGE
         (mkChange (cap_wallclock o) (cap_slot o) (cap_blockTime o) (cap_lineNumber o)
            (map evt_type (changes l o)) (changed_of (changes l o)) previous (stateFields current))))]
  | _, _, _ => []
  end.

Definition point_entries (verbose : bool) (id : Identity) (l : list observation) (o : observation) : list KeyedEntry :=
  gap_entries id l o ++ change_entries id l o ++ verbose_entry verbose id o.

Fixpoint points_rev (verbose : bool) (id : Identity) (r : list observation) : list KeyedEntry :=
  match r with [] => [] | o :: r => points_rev verbose id r ++ point_entries verbose id (rev r) o end.

(** The timeline of one mint with this identity. *)
Definition mint_entries (verbose : bool) (id : Identity) (l : list observation) : list KeyedEntry :=
  concat (map (run_entries id) (runs_of l)) ++ points_rev verbose id (rev l).

Definition decode_errors (l : list observation) : Z := Z.of_nat (length (omap observation_error_code l)).

(** The track of a mint after its observations. *)
Definition track_of (id : Identity) (l : list observation) : SymbolTrack :=
  mkTrack id (open_interval (current_run l)) (open_errors (current_run l)) (last (timed l)) (last_state l) (timed l)
    (decode_errors l) (countGaps (timed l)).

(* ------------------------------------------------------------------ *)
(** ** One more observation *)

Lemma split_runs_snoc l o : split_runs (l ++ [o]) =
  if continues l o then (finished_runs l, current_run l ++ [o]) else (runs_of l, [o]).
Proof.
  unfold split_runs, runs_of, finished_runs, current_run. rewrite rev_app_distr. cbn [rev app split_rev]. rewrite rev_involutive.
  unfold split_runs. destruct (split_rev (rev l)) as [finished current]. cbn [fst snd]. by destruct (continues l o), current.
Qed.

Lemma timed_snoc l o : timed (l ++ [o]) = timed l ++ match point_of other_date o with Some p => [p] | None => [] end.
Proof. unfold timed. rewrite omap_app. cbn. by destruct (point_of other_date o). Qed.

Lemma last_state_snoc l o : last_state (l ++ [o]) =
  match cap_evidence o with Decoded e => Some (stateFields e) | DecodeError _ => last_state l end.
Proof.
  unfold last_state. rewrite omap_app. cbn. unfold decoded_pair, decoded_part.
  destruct (cap_evidence o); cbn; [by rewrite last_snoc|by rewrite app_nil_r].
Qed.

Lemma decode_errors_snoc l o : decode_errors (l ++ [o]) =
  decode_errors l + match cap_evidence o with Decoded _ => 0 | DecodeError _ => 1 end.
Proof.
  unfold decode_errors. rewrite omap_app, length_app. cbn. unfold observation_error_code. destruct (cap_evidence o); cbn; lia.
Qed.

Lemma neighbours_snoc {A} (l : list A) x : neighbours (l ++ [x]) = neighbours l ++ match last l with Some p => [(p, x)] | None => [] end.
Proof.
  unfold neighbours. induction l as [|y [|z l] IH]; [done|done|].
  change (zip ((y :: z :: l) ++ [x]) (tail ((y :: z :: l) ++ [x]))) with ((y, z) :: zip ((z :: l) ++ [x]) (tail ((z :: l) ++ [x]))).
  rewrite IH. done.
Qed.

Lemma countGaps_snoc l q : countGaps (l ++ [q]) =
  countGaps l + match last l with Some p => if is_gap (pt_ms q - pt_ms p) then 1 else 0 | None => 0 end.
Proof.
  unfold countGaps. rewrite neighbours_snoc, List.filter_app, length_app. destruct (last l) as [p|]; cbn; [|lia].
  unfold gap_ms. cbn. destruct (is_gap _); cbn; lia.
Qed.

Lemma same_run_kind p o : same_run p o = true → observation_error_code o = observation_error_code p.
Proof.
  unfold same_run, observation_error_code. destruct (cap_evidence p) as [a|f], (cap_evidence o) as [b|g]; try done.
  by intros ->%String.eqb_eq.
Qed.

(** The last run ends with the last observation and is of one kind. *)
Lemma current_run_kind l p : last l = Some p →
  last (current_run l) = Some p ∧ Forall (λ x, observation_error_code x = observation_error_code p) (current_run l).
Proof.
  revert p. induction l as [|o l IH] using rev_ind; [done|]. intros p. rewrite last_snoc. intros [= <-].
  unfold current_run. rewrite split_runs_snoc. destruct (continues l o) eqn:Hc; cbn [snd].
  - unfold continues in Hc. destruct (last l) as [p|]; [|done]. apply andb_true_iff in Hc as [Hs%same_run_kind _].
    destruct (IH p eq_refl) as [_ Hall]. rewrite last_snoc. split; [done|]. apply Forall_app_2; [|by apply Forall_singleton].
    eapply Forall_impl; [exact Hall|]. intros x ->. done.
  - split; [done|]. by apply Forall_singleton.
Qed.

Lemma current_run_nil l : current_run l = [] ↔ l = [].
Proof.
  split; [|by intros ->]. intros Hr. destruct (last l) as [p|] eqn:Hl; [|by apply last_None in Hl].
  destruct (current_run_kind l p Hl) as [Hlast _]. by rewrite Hr in Hlast.
Qed.

(** The two open parts of a run, by the kind of its last observation. *)
Lemma open_parts l p : last l = Some p →
  match cap_evidence p with
  | Decoded _ => ∃ first e, head (current_run l) = Some first ∧ cap_evidence first = Decoded e ∧
      open_interval (current_run l) = Some (mkOpen first p (Z.of_nat (length (current_run l))) (stateFields e)) ∧
      open_errors (current_run l) = None
  | DecodeError f => ∃ first g, head (current_run l) = Some first ∧ cap_evidence first = DecodeError g ∧ df_code g = df_code f ∧
      open_interval (current_run l) = None ∧
      open_errors (current_run l) = Some (mkRun first p (df_code g) (df_message g) (Z.of_nat (length (current_run l))))
  end.
Proof.
  intros Hl. destruct (current_run_kind l p Hl) as [Hlast Hall]. destruct (current_run l) as [|first run] eqn:Hrun; [done|].
  apply Forall_inv in Hall. unfold open_interval, open_errors. rewrite Hlast. cbn [head mbind option_bind].
  unfold observation_error_code in Hall. destruct (cap_evidence p) as [e|f], (cap_evidence first) as [e'|g] eqn:Hf; try done; simplify_eq; eauto 10.
Qed.

(** A run is of one kind. *)
Lemma open_exclusive run i : open_interval run = Some i → open_errors run = None.
Proof.
  unfold open_interval, open_errors. destruct (head run) as [first|]; [|done]. destruct (last run); [|done].
  cbn [mbind option_bind]. by destruct (cap_evidence first).
Qed.

(** Extending a run. *)
Lemma open_interval_extend run o i : open_interval run = Some i →
  open_interval (run ++ [o]) = Some (mkOpen (oi_first i) o (oi_observations i + 1) (oi_state i)) ∧ open_errors (run ++ [o]) = None.
Proof.
  destruct run as [|first run]; [done|]. unfold open_interval, open_errors. cbn [head app]. rewrite app_comm_cons, last_snoc, length_app.
  cbn [mbind option_bind]. destruct (last (first :: run)) as [p|]; [|done]. cbn [mbind option_bind].
  destruct (cap_evidence first); [|done]. intros [= <-]. split; [|done]. do 2 f_equal. cbn. lia.
Qed.

Lemma open_errors_extend run o r : open_errors run = Some r →
  open_errors (run ++ [o]) = Some (mkRun (run_first r) o (run_code r) (run_message r) (run_occurrences r + 1)) ∧ open_interval (run ++ [o]) = None.
Proof.
  destruct run as [|first run]; [done|]. unfold open_interval, open_errors. cbn [head app]. rewrite app_comm_cons, last_snoc, length_app.
  cbn [mbind option_bind]. destruct (last (first :: run)) as [p|]; [|done]. cbn [mbind option_bind].
  destruct (cap_evidence first); [done|]. intros [= <-]. split; [|done]. do 2 f_equal. cbn. lia.
Qed.

Lemma run_entries_cases id run :
  run_entries id run =
    (match open_interval run with
     | Some i => [keyed (cap_lineNumber (oi_first i)) (mkTimelineEntry id (STABLE_INTERVAL (interval_of i)))] | None => [] end) ++
    (match open_errors run with
     | Some e => [keyed (cap_lineNumber (run_first e)) (mkTimelineEntry id (DECODE_ERRORS (errors_of e)))] | None => [] end).
Proof.
  unfold run_entries, open_interval, open_errors. destruct (head run) as [first|]; [|done]. destruct (last run) as [p|]; [|done].
  cbn [mbind option_bind]. by destruct (cap_evidence first).
Qed.

(** The poll: a gap closes the run. *)
Lemma poll_track_spec id l o :
  let run := match gap_before l o with Some _ => [] | None => current_run l end in
  poll_track other_date o (track_of id l) =
    (match gap_before l o with Some _ => run_entries id (current_run l) | None => [] end ++ gap_entries id l o,
     mkTrack id (open_interval run) (open_errors run) (last (timed (l ++ [o]))) (last_state l) (timed (l ++ [o]))
       (decode_errors l) (countGaps (timed (l ++ [o])))).
Proof.
  cbv zeta. unfold poll_track, gap_entries, gap_before. rewrite timed_snoc.
  destruct (point_of other_date o) as [q|]; [|by rewrite !app_nil_r]. unfold track_of. cbn [tk_lastPoint].
  rewrite last_snoc, countGaps_snoc. destruct (last (timed l)) as [p|]; cbn [tk_identity tk_interval tk_errors tk_lastDecoded tk_polls tk_decodeErrors tk_gaps].
  - destruct (is_gap _).
    + unfold close_both, closeInterval, closeErrors. rewrite run_entries_cases.
      destruct (open_interval (current_run l)) as [i|], (open_errors (current_run l)) as [e|]; reflexivity.
    + by rewrite Z.add_0_r.
  - by rewrite Z.add_0_r.
Qed.

Lemma last_decoded_of l p e : last l = Some p → cap_evidence p = Decoded e → last (omap decoded_pair l) = Some (p, e).
Proof.
  intros (l' & ->)%last_Some He. rewrite omap_app. cbn. unfold decoded_pair, decoded_part. rewrite He. cbn. by rewrite last_snoc.
Qed.

(** A change is reported only against a decoded observation. *)
Lemma changes_previous l o : changes l o = [] ∨ is_Some (last_state l).
Proof.
  unfold changes, last_state. destruct (cap_evidence o) as [e|]; [|by left].
  destruct (last (omap decoded_pair l)) as [[p before]|]; [right; eauto|by left].
Qed.

Lemma change_events_nil o p before e : change_events o p before e = [] ↔ change_types before e = [].
Proof. rewrite <- (change_events_types o p). by destruct (change_events o p before e). Qed.

(** The second half of the body on a decoded record: [run] is the run still open. *)
Lemma decoded_track_open verbose id l o e run lastPoint polls errors gaps :
  cap_evidence o = Decoded e →
  let closes := match open_interval run with Some _ => bool_decide (changes l o ≠ []) | None => true end in
  decoded_track verbose (changes l o) o e (mkTrack id (open_interval run) (open_errors run) lastPoint (last_state l) polls errors gaps) =
    ((if closes then run_entries id run else []) ++ change_entries id l o ++ verbose_entry verbose id o,
     mkTrack id (open_interval (if closes then [o] else run ++ [o])) None lastPoint (Some (stateFields e)) polls errors gaps).
Proof.
  intros He. cbv zeta. unfold decoded_track, closeErrors, closeInterval, change_entries. rewrite run_entries_cases, He.
  assert (open_interval [o] = Some (mkOpen o o 1 (stateFields e))) as Hone by (unfold open_interval; cbn; by rewrite He).
  destruct (changes_previous l o) as [Hc|[previous Hp]].
  - rewrite Hc. rewrite bool_decide_eq_false_2 by congruence.
    destruct (open_interval run) as [i|] eqn:Hi; cbn [tk_identity tk_interval tk_errors tk_lastPoint tk_lastDecoded tk_polls tk_decodeErrors tk_gaps].
    + destruct (open_interval_extend run o i Hi) as [-> _]. by rewrite (open_exclusive run i Hi).
    + rewrite Hone. destruct (open_errors run); reflexivity.
  - rewrite Hp. destruct (changes l o) as [|ev evs] eqn:Hc.
    + rewrite bool_decide_eq_false_2 by congruence.
      destruct (open_interval run) as [i|] eqn:Hi; cbn [tk_identity tk_interval tk_errors tk_lastPoint tk_lastDecoded tk_polls tk_decodeErrors tk_gaps].
      * destruct (open_interval_extend run o i Hi) as [-> _]. by rewrite (open_exclusive run i Hi).
      * rewrite Hone. destruct (open_errors run); reflexivity.
    + rewrite bool_decide_eq_true_2 by congruence.
      destruct (open_interval run) as [i|] eqn:Hi, (open_errors run) as [r|] eqn:Hr; rewrite Hone; try reflexivity.
      by rewrite (open_exclusive run i Hi) in Hr.
Qed.

(** And on a record that did not decode. *)
Lemma error_track_open verbose id l o f run lastPoint polls errors gaps :
  cap_evidence o = DecodeError f →
  let extends := match open_errors run with Some r => String.eqb (run_code r) (df_code f) | None => false end in
  error_track verbose o f (mkTrack id (open_interval run) (open_errors run) lastPoint (last_state l) polls errors gaps) =
    ((if extends then [] else run_entries id run) ++ change_entries id l o ++ verbose_entry verbose id o,
     mkTrack id None (open_errors (if extends then run ++ [o] else [o])) lastPoint (last_state l) polls (errors + 1) gaps).
Proof.
  intros He. cbv zeta. unfold error_track, closeErrors, closeInterval, change_entries. rewrite run_entries_cases, He.
  assert (open_errors [o] = Some (mkRun o o (df_code f) (df_message f) 1)) as Hone by (unfold open_errors; cbn; by rewrite He).
  cbn [tk_identity tk_interval tk_errors tk_lastPoint tk_lastDecoded tk_polls tk_decodeErrors tk_gaps app].
  destruct (open_interval run) as [i|] eqn:Hi.
  - rewrite (open_exclusive run i Hi), Hone. reflexivity.
  - cbn [tk_identity tk_interval tk_errors tk_lastPoint tk_lastDecoded tk_polls tk_decodeErrors tk_gaps app].
    destruct (open_errors run) as [r|] eqn:Hr; [|rewrite Hone; reflexivity].
    destruct (String.eqb _ _); [|rewrite Hone; reflexivity].
    destruct (open_errors_extend run o r Hr) as [-> _]. reflexivity.
Qed.

(** The loop body moves the track of the observations so far on by one: it
    pushes the run the observation ends, and what the observation adds itself. *)
Lemma step_track_spec verbose id l o :
  step_track other_date verbose (changes l o) o (track_of id l) =
    ((if continues l o then [] else run_entries id (current_run l)) ++ point_entries verbose id l o, track_of id (l ++ [o])).
Proof.
  unfold step_track. rewrite poll_track_spec.
  set (run := match gap_before l o with Some _ => [] | None => current_run l end).
  assert (Hrun : current_run (l ++ [o]) = if continues l o then run ++ [o] else [o]).
  { unfold current_run at 1. rewrite split_runs_snoc. destruct (continues l o) eqn:Hc; [|done]. cbn [snd]. subst run.
    unfold continues in Hc. destruct (last l); [|done]. apply andb_true_iff in Hc as [_ Hg%bool_decide_eq_true]. by rewrite Hg. }
  unfold track_of, point_entries. rewrite decode_errors_snoc, last_state_snoc, Hrun. clear Hrun.
  destruct (cap_evidence o) as [e|f] eqn:He.
  - rewrite (decoded_track_open verbose id l o e run) by done. rewrite Z.add_0_r.
    assert (Hc : continues l o = negb match open_interval run with Some _ => bool_decide (changes l o ≠ []) | None => true end).
    { unfold continues, changes, same_run. rewrite He. subst run. destruct (gap_before l o) as [pq|].
      - destruct (last l) as [p|]; cbn; [by rewrite andb_false_r|done].
      - destruct (last l) as [p|] eqn:Hl; [|by apply last_None in Hl as ->]. rewrite bool_decide_eq_true_2 by done. rewrite andb_true_r.
        pose proof (open_parts l p Hl) as Hopen. destruct (cap_evidence p) as [b|g] eqn:Hp.
        + destruct Hopen as (first & e' & _ & _ & -> & _). rewrite (last_decoded_of l p b Hl Hp).
          repeat case_bool_decide; rewrite ?change_events_nil in *; naive_solver.
        + by destruct Hopen as (first & e' & _ & _ & _ & -> & _). }
    rewrite Hc. clear Hc. set (closes := match open_interval run with Some _ => _ | None => _ end).
    subst run. destruct (gap_before l o) as [pq|] eqn:Hg; f_equal.
    + subst closes. cbn [open_interval head mbind option_bind negb]. unfold run_entries at 2. cbn. by rewrite <- !app_assoc.
    + subst closes. cbn [open_interval head mbind option_bind negb]. unfold open_errors. cbn. by rewrite He.
    + rewrite <- !app_assoc. unfold gap_entries. rewrite Hg. by destruct closes.
    + unfold gap_entries. destruct closes eqn:Hcl; cbn [negb]; [unfold open_errors; cbn; by rewrite He|].
      subst closes. destruct (open_interval (current_run l)) as [i|] eqn:Hi; [|done]. by destruct (open_interval_extend _ o i Hi) as [_ ->].
  - rewrite (error_track_open verbose id l o f run) by done.
    assert (Hc : continues l o = match open_errors run with Some r => String.eqb (run_code r) (df_code f) | None => false end).
    { unfold continues, same_run. rewrite He. subst run. destruct (gap_before l o) as [pq|].
      - destruct (last l) as [p|]; cbn; [by rewrite andb_false_r|done].
      - destruct (last l) as [p|] eqn:Hl; [|by apply last_None in Hl as ->]. rewrite bool_decide_eq_true_2 by done. rewrite andb_true_r.
        pose proof (open_parts l p Hl) as Hopen. destruct (cap_evidence p) as [b|g] eqn:Hp.
        + by destruct Hopen as (first & e' & _ & _ & _ & ->).
        + by destruct Hopen as (first & g' & _ & _ & <- & _ & ->). }
    rewrite Hc. clear Hc. set (extends := match open_errors run with Some _ => _ | None => _ end).
    subst run. destruct (gap_before l o) as [pq|] eqn:Hg; f_equal.
    + subst extends. unfold run_entries at 2. cbn. by rewrite <- !app_assoc.
    + subst extends. cbn. unfold open_interval. cbn. by rewrite He.
    + rewrite <- !app_assoc. unfold gap_entries. rewrite Hg. by destruct extends.
    + unfold gap_entries. destruct extends eqn:Hex; [|unfold open_interval; cbn; by rewrite He].
      subst extends. destruct (open_errors (current_run l)) as [r|] eqn:Hr; [|done]. by destruct (open_errors_extend _ o r Hr) as [_ ->].
Qed.

(* ------------------------------------------------------------------ *)
(** ** The whole loop *)

Definition selected_records (options : TimelineOptions) (records : list CaptureRecord) : list CaptureRecord :=
  List.filter (λ r, match r with Observed o => selected options o | LineError _ => false end) records.

(** The selected observations of a mint. *)
Definition mint_observations (options : TimelineOptions) (records : list CaptureRecord) (mint : string) : list observation :=
  observations mint (selected_records options records).

(** The first observation of a mint names its track. *)
Definition mint_identity (l : list observation) : Identity := match l with o :: _ => identity_of o | [] => no_identity end.

Definition mint_track (l : list observation) : option SymbolTrack :=
  match l with [] => None | _ => Some (track_of (mint_identity l) l) end.

(** What was pushed for a mint before the end of the loop, newest observation first. *)
Fixpoint pushed_rev (verbose : bool) (id : Identity) (r : list observation) : list KeyedEntry :=
  match r with
  | [] => []
  | o :: r =>
      pushed_rev verbose id r ++ (if continues (rev r) o then [] else run_entries id (current_run (rev r))) ++
      point_entries verbose id (rev r) o
  end.

Definition line_errors (records : list CaptureRecord) : list CaptureLineError :=
  omap (λ r, match r with LineError e => Some e | Observed _ => None end) records.

(** The entries of a mint, or those of no mint. *)
Definition of_mint (mint : option string) (e : TimelineEntry) : bool := bool_decide (id_mint (te_identity e) = mint).
Definition keyed_of (mint : option string) (es : list KeyedEntry) : list KeyedEntry := List.filter (λ e, of_mint mint (ke_entry e)) es.

Lemma changes_no_error o p before e : List.filter is_change (change_events o p before e) = change_events o p before e.
Proof.
  unfold change_events. rewrite !List.filter_app. f_equal; [by case_bool_decide|]. f_equal; [|by case_bool_decide].
  destruct (ob_phase before) as [x|], (ob_phase e) as [y|]; try done. by destruct (x =? y).
Qed.

(** The events of the detector are the changes of the reference. *)
Lemma detector_changes history o :
  List.filter is_change (fst (push (detector_after history) (Observed o))) = changes (observations (cap_mint o) history) o.
Proof.
  destruct (detector_after_spec history (cap_mint o)) as [Hd _]. cbn [push]. rewrite Hd. unfold changes, previous_decoded.
  destruct (cap_evidence o) as [e|f].
  - destruct (last _) as [[p before]|] eqn:Hp; cbn [fmap option_fmap option_map fst]; [|done].
    rewrite (previous_decoded_evidence _ _ _ _ Hp). apply changes_no_error.
  - by case_bool_decide.
Qed.

Lemma run_entries_identity id run : Forall (λ e, te_identity (ke_entry e) = id) (run_entries id run).
Proof. unfold run_entries. destruct (open_interval run), (open_errors run); by repeat constructor. Qed.

Lemma point_entries_identity verbose id l o : Forall (λ e, te_identity (ke_entry e) = id) (point_entries verbose id l o).
Proof.
  unfold point_entries, gap_entries, change_entries, verbose_entry. repeat apply Forall_app_2.
  - destruct (gap_before l o) as [[]|]; by repeat constructor.
  - repeat case_match; by repeat constructor.
  - destruct verbose; by repeat constructor.
Qed.

(** Entries of one identity all belong to its mint. *)
Lemma keyed_of_all mint id es : Forall (λ e, te_identity (ke_entry e) = id) es →
  keyed_of mint es = if decide (id_mint id = mint) then es else [].
Proof.
  unfold keyed_of, of_mint. induction 1 as [|e es <- _ IH]; [by case_decide|]. cbn [List.filter]. rewrite IH.
  case_bool_decide; case_decide; congruence.
Qed.

Lemma keyed_of_app mint es es' : keyed_of mint (es ++ es') = keyed_of mint es ++ keyed_of mint es'.
Proof. apply List.filter_app. Qed.

Lemma selected_snoc options records r : selected_records options (records ++ [r]) =
  selected_records options records ++ match r with Observed o => if selected options o then [r] else [] | LineError _ => [] end.
Proof. unfold selected_records. rewrite List.filter_app. destruct r as [o|]; [|done]. cbn. by destruct (selected options o). Qed.

Lemma mint_observations_snoc options records r mint : mint_observations options (records ++ [r]) mint =
  mint_observations options records mint ++
  match r with Observed o => if selected options o && bool_decide (cap_mint o = mint) then [o] else [] | LineError _ => [] end.
Proof.
  unfold mint_observations. rewrite selected_snoc. destruct r as [o|e]; [|by rewrite !app_nil_r].
  destruct (selected options o); [|by rewrite !app_nil_r]. rewrite observations_snoc, observation_of_self.
  case_decide; case_bool_decide; done.
Qed.

Lemma mint_identity_snoc l o : l ≠ [] → mint_identity (l ++ [o]) = mint_identity l.
Proof. by destruct l. Qed.

Lemma observation_mint mint history o : o ∈ observations mint history → cap_mint o = mint.
Proof.
  intros (r & _ & Hr)%list_elem_of_omap. destruct r as [o'|]; [|done]. rewrite observation_of_self in Hr. case_decide; by simplify_eq.
Qed.

Lemma assoc_set_lookup {A} key (a : A) l key' : assoc key' (assoc_set key a l) = if decide (key = key') then Some a else assoc key' l.
Proof.
  unfold assoc. induction l as [|[k b] l IH]; cbn [assoc_set List.find fst].
  - destruct (String.eqb_spec key key'); case_decide; done.
  - destruct (String.eqb_spec k key) as [->|Hk]; cbn [List.find fst].
    + destruct (String.eqb_spec key key'); case_decide; done.
    + destruct (String.eqb_spec k key') as [->|Hk']; [by rewrite decide_False by congruence|]. apply IH.
Qed.

Lemma assoc_set_keys {A} key (a : A) l : map fst (assoc_set key a l) = if decide (key ∈ map fst l) then map fst l else map fst l ++ [key].
Proof.
  induction l as [|[k b] l IH]; [done|]. cbn [assoc_set map fst]. destruct (String.eqb_spec k key) as [->|Hk].
  - rewrite decide_True by constructor. done.
  - cbn [map fst]. rewrite IH. destruct (decide (key ∈ map fst l)); destruct (decide (key ∈ k :: map fst l)) as [Hin|Hin]; try done.
    + exfalso. apply Hin. by constructor.
    + exfalso. apply elem_of_cons in Hin as [->|?]; done.
Qed.

(** The state of the loop after some records, in terms of the reference. *)
Record loop_invariant (options : TimelineOptions) (records : list CaptureRecord) (l : Loop) : Prop := {
  inv_detector : lp_detector l = detector_after (selected_records options records);
  inv_tracks mint : assoc mint (lp_tracks l) = mint_track (mint_observations options records mint);
  inv_keys : NoDup (map fst (lp_tracks l));
  inv_entries mint : keyed_of (Some mint) (lp_entries l) =
    pushed_rev (opt_verbose options) (mint_identity (mint_observations options records mint)) (rev (mint_observations options records mint));
  inv_line_errors : keyed_of None (lp_entries l) = map line_error_entry (line_errors records);
  inv_count : lp_lineErrors l = Z.of_nat (length (line_errors records));
}.

Lemma mint_track_default mint l : assoc mint l = mint_track [] → ∀ o, assoc mint l ?? new_track (identity_of o) = track_of (identity_of o) [].
Proof. by intros ->. Qed.

Lemma line_errors_snoc records r : line_errors (records ++ [r]) =
  line_errors records ++ match r with LineError e => [e] | Observed _ => [] end.
Proof. unfold line_errors. rewrite omap_app. by destruct r. Qed.

Lemma loop_step_selected options l o : selected options o = true →
  ∃ lines, loop_step other_date options l (Observed o) =
    let '(es, track) := step_track other_date (opt_verbose options)
      (List.filter is_change (fst (push (lp_detector l) (Observed o)))) o (assoc (cap_mint o) (lp_tracks l) ?? new_track (identity_of o)) in
    mkLoop (lp_entries l ++ es) (snd (push (lp_detector l) (Observed o))) (assoc_set (cap_mint o) track (lp_tracks l))
      (add_poll (point_of other_date o) (lp_overallPolls l)) lines (lp_lineErrors l).
Proof.
  intros Hs. unfold loop_step. rewrite Hs. cbn [negb]. destruct (push (lp_detector l) (Observed o)) as [events detector]. cbn [fst snd].
  destruct (step_track _ _ _ _ _) as [es track]. by eexists.
Qed.

Lemma loop_invariant_step options records l r : loop_invariant options records l →
  loop_invariant options (records ++ [r]) (loop_step other_date options l r).
Proof.
  intros [Hd Ht Hk He Hl Hc]. destruct r as [o|e].
  2: { split; cbn [loop_step lp_detector lp_tracks lp_entries lp_lineErrors]; try intros mint;
       rewrite ?selected_snoc, ?mint_observations_snoc, ?app_nil_r, ?line_errors_snoc, ?keyed_of_app; auto.
       - rewrite He. cbn. by rewrite app_nil_r.
       - rewrite Hl, map_app. done.
       - rewrite length_app, Hc. cbn. lia. }
  destruct (selected options o) eqn:Hs.
  2: { unfold loop_step. rewrite Hs. split; cbn [negb lp_detector lp_tracks lp_entries lp_lineErrors]; try intros mint;
       rewrite ?selected_snoc, ?mint_observations_snoc, ?line_errors_snoc, ?Hs, ?app_nil_r; auto. }
  destruct (loop_step_selected options l o Hs) as [lines ->].
  set (L := mint_observations options records (cap_mint o)).
  assert (Htrack : ∃ id, assoc (cap_mint o) (lp_tracks l) ?? new_track (identity_of o) = track_of id L ∧
      mint_identity (L ++ [o]) = id ∧ id_mint id = Some (cap_mint o)).
  { rewrite Ht. fold L. destruct L as [|first L'] eqn:HL; [by exists (identity_of o)|]. exists (identity_of first). split_and!; [done|done|].
    cbn. f_equal. apply (observation_mint _ (selected_records options records)). unfold L, mint_observations in HL. rewrite HL. by constructor. }
  destruct Htrack as (id & -> & Hid & Hmint). rewrite Hd, detector_changes. change (observations _ _) with L. rewrite step_track_spec.
  assert (Hself : mint_observations options (records ++ [Observed o]) (cap_mint o) = L ++ [o]).
  { rewrite mint_observations_snoc, Hs, bool_decide_eq_true_2 by done. done. }
  assert (Hother : ∀ mint, cap_mint o ≠ mint → mint_observations options (records ++ [Observed o]) mint = mint_observations options records mint).
  { intros mint Hne. rewrite mint_observations_snoc, Hs, bool_decide_eq_false_2 by done. apply app_nil_r. }
  assert (Hes : ∀ m, keyed_of m ((if continues L o then [] else run_entries id (current_run L)) ++ point_entries (opt_verbose options) id L o) =
      if decide (Some (cap_mint o) = m) then (if continues L o then [] else run_entries id (current_run L)) ++ point_entries (opt_verbose options) id L o else []).
  { intros m. rewrite (keyed_of_all m id); [by rewrite Hmint|]. apply Forall_app_2; [|apply point_entries_identity].
    destruct (continues L o); [constructor|apply run_entries_identity]. }
  split; cbn [lp_detector lp_tracks lp_entries lp_lineErrors].
  - unfold detector_after. by rewrite selected_snoc, Hs, fold_left_app.
  - intros mint. rewrite assoc_set_lookup. case_decide as Hm.
    + subst mint. rewrite Hself. unfold mint_track. rewrite <- Hid. by destruct L.
    + rewrite Hother by done. apply Ht.
  - rewrite assoc_set_keys. case_decide; [done|]. apply NoDup_app. split_and!; [done| |apply NoDup_singleton].
    intros x Hx ->%list_elem_of_singleton. done.
  - intros mint. rewrite keyed_of_app, He, Hes. case_decide as Hm.
    + injection Hm as <-. rewrite Hself, rev_app_distr. cbn [rev app pushed_rev]. rewrite rev_involutive. fold L. rewrite Hid.
      destruct L as [|first L'] eqn:HL; [done|]. f_equal. by rewrite <- Hid.
    + rewrite Hother by congruence. apply app_nil_r.
  - rewrite keyed_of_app, Hes, decide_False by done. rewrite app_nil_r, line_errors_snoc, app_nil_r. done.
  - by rewrite line_errors_snoc, app_nil_r.
Qed.

Lemma loop_invariant_all options records : loop_invariant options records (fold_left (loop_step other_date options) records empty_loop).
Proof.
  induction records as [|r records IH] using rev_ind.
  - split; try done. constructor.
  - rewrite fold_left_app. by apply loop_invariant_step.
Qed.

(* ------------------------------------------------------------------ *)
(** ** The end of the loop *)

Lemma concat_runs_of id l : concat (map (run_entries id) (runs_of l)) = concat (map (run_entries id) (finished_runs l)) ++ run_entries id (current_run l).
Proof.
  unfold runs_of. destruct (current_run l) as [|o run]; [by rewrite app_nil_r|]. rewrite map_app, concat_app. cbn [map concat]. by rewrite app_nil_r.
Qed.

Lemma pushed_rev_finished verbose id l :
  pushed_rev verbose id (rev l) ≡ₚ concat (map (run_entries id) (finished_runs l)) ++ points_rev verbose id (rev l).
Proof.
  induction l as [|o l IH] using rev_ind; [done|]. rewrite rev_app_distr. cbn [rev app pushed_rev points_rev]. rewrite rev_involutive.
  unfold finished_runs. rewrite split_runs_snoc. rewrite IH. destruct (continues l o); cbn [fst].
  - cbn [app]. by rewrite <- app_assoc.
  - rewrite concat_runs_of. rewrite <- !app_assoc. apply Permutation_app_head. rewrite !app_assoc. apply Permutation_app_tail, Permutation_app_comm.
Qed.

Lemma mint_entries_pushed verbose id l :
  pushed_rev verbose id (rev l) ++ run_entries id (current_run l) ≡ₚ mint_entries verbose id l.
Proof.
  unfold mint_entries. rewrite concat_runs_of, pushed_rev_finished. rewrite <- !app_assoc. apply Permutation_app_head, Permutation_app_comm.
Qed.

Lemma close_track_of id l : fst (close_both (track_of id l)) = run_entries id (current_run l).
Proof.
  unfold close_both, closeInterval, closeErrors, track_of. rewrite run_entries_cases. cbn [tk_interval tk_errors tk_identity with_interval].
  destruct (open_interval _), (open_errors _); reflexivity.
Qed.

Lemma assoc_In {A} key (a : A) l : assoc key l = Some a → (key, a) ∈ l.
Proof.
  unfold assoc. intros (e & [Hin Heq]%List.find_some & ->)%fmap_Some_1. apply String.eqb_eq in Heq as <-. destruct e. by apply list_elem_of_In.
Qed.

Lemma assoc_NoDup {A} key (a : A) l : NoDup (map fst l) → (key, a) ∈ l → assoc key l = Some a.
Proof.
  unfold assoc. induction l as [|[k b] l IH]; [intros _ Hin; by apply not_elem_of_nil in Hin|]. cbn [map fst List.find].
  intros [Hk Hl]%NoDup_cons [[= -> ->]|Hin]%elem_of_cons; [by rewrite String.eqb_refl|].
  destruct (String.eqb_spec k key) as [->|_]; [|by apply IH]. exfalso. apply Hk.
  apply list_elem_of_In, List.in_map_iff. exists (key, a). by rewrite <- list_elem_of_In.
Qed.

(** Closing the tracks pushes the open run of every mint. *)
Lemma keyed_of_close options records tracks m : NoDup (map fst tracks) →
  (∀ mint t, (mint, t) ∈ tracks → mint_track (mint_observations options records mint) = Some t) →
  keyed_of m (close_tracks tracks) =
    match m with
    | Some mint => match assoc mint tracks with Some t => fst (close_both t) | None => [] end
    | None => []
    end.
Proof.
  intros Hk Ht. induction tracks as [|[key t] tracks IH]; [by destruct m|].
  cbn [map fst] in Hk. apply NoDup_cons in Hk as [Hkey Hk]. unfold close_tracks. cbn [map concat snd]. rewrite keyed_of_app.
  fold (close_tracks tracks). rewrite IH; [|done|intros; apply Ht; by constructor].
  assert (Hid : ∃ id l, t = track_of id l ∧ id_mint id = Some key).
  { specialize (Ht key t ltac:(constructor)). unfold mint_track in Ht. destruct (mint_observations options records key) as [|o L] eqn:HL; [done|].
    injection Ht as <-. eexists _, _. split; [done|]. cbn. f_equal. eapply observation_mint. unfold mint_observations in HL. rewrite HL. by constructor. }
  destruct Hid as (id & L & -> & Hmint). rewrite close_track_of, (keyed_of_all m id _ (run_entries_identity id _)), Hmint.
  unfold assoc. cbn [List.find fst]. destruct m as [mint|]; [|by rewrite decide_False].
  destruct (String.eqb_spec key mint) as [<-|Hne].
  - rewrite decide_True by done. cbn. rewrite close_track_of. destruct (snd <$> _) as [t'|] eqn:Hf; [|apply app_nil_r].
    exfalso. apply Hkey. apply assoc_In in Hf. apply list_elem_of_In, List.in_map_iff. exists (key, t'). by rewrite <- list_elem_of_In.
  - by rewrite decide_False by congruence.
Qed.

(** All entries before sorting. *)
Definition all_entries (options : TimelineOptions) (records : list CaptureRecord) : list KeyedEntry :=
  let l := fold_left (loop_step other_date options) records empty_loop in lp_entries l ++ close_tracks (lp_tracks l).

Lemma all_entries_of options records m : keyed_of m (all_entries options records) ≡ₚ
  match m with
  | Some mint => mint_entries (opt_verbose options) (mint_identity (mint_observations options records mint)) (mint_observations options records mint)
  | None => map line_error_entry (line_errors records)
  end.
Proof.
  unfold all_entries. cbv zeta. destruct (loop_invariant_all options records) as [_ Ht Hk He Hl _].
  set (l := fold_left _ _ _) in *. rewrite keyed_of_app, (keyed_of_close options records); [|done|].
  - destruct m as [mint|]; [|by rewrite Hl, app_nil_r]. rewrite He, Ht. unfold mint_track.
    destruct (mint_observations options records mint) as [|o L] eqn:HL; [done|]. rewrite <- HL. rewrite close_track_of. apply mint_entries_pushed.
  - intros mint t Hin%assoc_NoDup; [|done]. by rewrite <- Ht.
Qed.

Definition well_keyed (e : KeyedEntry) : Prop := e = entry_key (ke_entry e).

Lemma run_entries_keyed id run : Forall well_keyed (run_entries id run).
Proof. unfold run_entries. destruct (open_interval run), (open_errors run); by repeat constructor. Qed.

Lemma point_of_line o p : point_of other_date o = Some p → pt_line p = cap_lineNumber o.
Proof. unfold point_of. destruct (cap_wallclock o) as [w|]; [|done]. destruct (Date_parse _ w); [|done]. by intros [= <-]. Qed.

Lemma point_entries_keyed verbose id l o : Forall well_keyed (point_entries verbose id l o).
Proof.
  unfold point_entries, gap_entries, change_entries, verbose_entry. repeat apply Forall_app_2.
  - destruct (gap_before l o) as [[p q]|] eqn:Hg; [|constructor]. apply Forall_singleton. unfold well_keyed, entry_key.
    unfold gap_before in Hg. destruct (point_of other_date o) as [q'|] eqn:Hq; [|done]. destruct (last (timed l)); [|done].
    destruct (is_gap _); [|done]. injection Hg as -> ->. cbn. by rewrite (point_of_line o q Hq).
  - repeat case_match; by repeat constructor.
  - destruct verbose; by repeat constructor.
Qed.

Lemma points_rev_keyed verbose id r : Forall well_keyed (points_rev verbose id r).
Proof. induction r; [constructor|]. apply Forall_app_2; [done|apply point_entries_keyed]. Qed.

Lemma mint_entries_keyed verbose id l : Forall well_keyed (mint_entries verbose id l).
Proof.
  apply Forall_app_2; [|apply points_rev_keyed]. apply Forall_forall. intros e He.
  apply list_elem_of_In, List.in_concat in He as (es & (run & <- & _)%List.in_map_iff & Hin).
  by apply (proj1 (Forall_forall _ _) (run_entries_keyed id run)), list_elem_of_In.
Qed.

Lemma all_entries_keyed options records : Forall well_keyed (all_entries options records).
Proof.
  apply Forall_forall. intros e He. set (m := id_mint (te_identity (ke_entry e))).
  assert (Hin : e ∈ keyed_of m (all_entries options records)).
  { apply list_elem_of_In, List.filter_In. split; [by apply list_elem_of_In|]. by apply bool_decide_eq_true. }
  rewrite all_entries_of in Hin. destruct m as [mint|].
  - exact (proj1 (Forall_forall _ _) (mint_entries_keyed _ _ _) e Hin).
  - by apply list_elem_of_In, List.in_map_iff in Hin as (error & <- & _).
Qed.

(** The entries of a mint in the result, and those of no mint. *)
Lemma entries_of_mint records options m :
  List.filter (of_mint m) (tr_entries (buildTimeline other_date records options)) ≡ₚ
  map ke_entry match m with
    | Some mint => mint_entries (opt_verbose options) (mint_identity (mint_observations options records mint)) (mint_observations options records mint)
    | None => map line_error_entry (line_errors records)
    end.
Proof.
  unfold buildTimeline, finish. cbn [tr_entries]. fold (all_entries options records).
  assert (Hfilter : ∀ es, List.filter (of_mint m) (map ke_entry es) = map ke_entry (keyed_of m es)).
  { intros es. unfold keyed_of. induction es as [|e es IH]; [done|]. cbn. rewrite IH. by destruct (of_mint m (ke_entry e)). }
  rewrite Hfilter. apply Permutation_map. unfold keyed_of at 1. rewrite sort_by_Permutation. apply all_entries_of.
Qed.

(** C40: the timeline is exactly the reference: the entries of every mint are, up
    to their order, one interval or error entry per run of its selected
    observations, with a gap, a change and (verbose) an observation entry where
    the reference has them; the entries of no mint are the unreadable lines; and
    all are sorted by line, kind and symbol. *)
Theorem buildTimeline_entries records options :
  let entries := tr_entries (buildTimeline other_date records options) in
  (∀ mint, let l := mint_observations options records mint in
    List.filter (of_mint (Some mint)) entries ≡ₚ map ke_entry (mint_entries (opt_verbose options) (mint_identity l) l)) ∧
  List.filter (of_mint None) entries ≡ₚ map (λ e, ke_entry (line_error_entry e)) (line_errors records) ∧
  StronglySorted (λ a b, entry_leb (entry_key a) (entry_key b) = true) entries.
Proof.
  cbv zeta. split_and!.
  - intros mint. apply (entries_of_mint records options (Some mint)).
  - rewrite (entries_of_mint records options None), map_map. done.
  - unfold buildTimeline, finish. cbn [tr_entries]. fold (all_entries options records).
    assert (Hkeyed : Forall well_keyed (sort_by entry_leb (all_entries options records))).
    { rewrite sort_by_Permutation. apply all_entries_keyed. }
    pose proof (sort_by_sorted entry_leb (all_entries options records) entry_leb_total entry_leb_trans) as Hs.
    revert Hkeyed Hs. generalize (sort_by entry_leb (all_entries options records)). intros es. induction 1 as [|e es He Hes IH]; [constructor|].
    intros [Hs Ha]%StronglySorted_inv. cbn [map]. constructor; [by apply IH|]. apply Forall_forall. intros x Hx.
    apply list_elem_of_In, List.in_map_iff in Hx as (y & <- & Hy%list_elem_of_In).
    rewrite <- He, <- (proj1 (Forall_forall _ _) Hes y Hy). by apply (proj1 (Forall_forall _ _) Ha).
Qed.

(* ------------------------------------------------------------------ *)
(** ** What the runs are *)

Lemma concat_snoc {A} (ls : list (list A)) l : concat (ls ++ [l]) = concat ls ++ l.
Proof. rewrite concat_app. cbn. by rewrite app_nil_r. Qed.

Lemma runs_concat l : concat (runs_of l) = l ∧ concat (finished_runs l) ++ current_run l = l.
Proof.
  assert (Hboth : ∀ l, concat (runs_of l) = concat (finished_runs l) ++ current_run l).
  { intros k. unfold runs_of. destruct (current_run k); [by rewrite app_nil_r|apply concat_snoc]. }
  rewrite Hboth. split; [|].
  all: induction l as [|o l IH] using rev_ind; [done|]; unfold finished_runs, current_run; rewrite split_runs_snoc.
  all: destruct (continues l o); cbn [fst snd]; [by rewrite app_assoc, IH|by rewrite Hboth, IH].
Qed.

(** Neighbours with nothing between them. *)
Record run_ok (run : list observation) : Prop := {
  run_nonempty : run ≠ [];
  run_same : Forall (λ pair, same_run (fst pair) (snd pair) = true) (neighbours run);
  run_gapless : Forall (λ pair, is_gap (gap_ms pair) = false) (neighbours (timed run));
}.

Lemma run_ok_single o : run_ok [o].
Proof. split; [done|constructor|]. unfold timed. cbn. destruct (point_of other_date o); constructor. Qed.

Lemma current_run_ok l : l ≠ [] → run_ok (current_run l).
Proof.
  induction l as [|o l IH] using rev_ind; [done|]. intros _. unfold current_run. rewrite split_runs_snoc.
  destruct (continues l o) eqn:Hc; [|apply run_ok_single]. cbn [snd]. unfold continues in Hc.
  destruct (last l) as [p|] eqn:Hl; [|done]. apply andb_true_iff in Hc as [Hs Hg%bool_decide_eq_true].
  destruct IH as [Hn Hsame Hgap]; [by intros ->|]. destruct (current_run_kind l p Hl) as [Hlast _]. split.
  - by destruct (current_run l).
  - rewrite neighbours_snoc, Hlast. apply Forall_app_2; [done|]. by apply Forall_singleton.
  - rewrite timed_snoc. destruct (point_of other_date o) as [q|] eqn:Hq; [|by rewrite app_nil_r].
    rewrite neighbours_snoc. apply Forall_app_2; [done|]. destruct (last (timed (current_run l))) as [r|] eqn:Hr; [|done].
    apply Forall_singleton. unfold gap_before in Hg. rewrite Hq in Hg.
    assert (last (timed l) = Some r) as Hlr.
    { rewrite <- (proj2 (runs_concat l)). unfold timed in *. rewrite omap_app, last_app, Hr. done. }
    rewrite Hlr in Hg. unfold gap_ms. cbn [fst snd]. by destruct (is_gap _).
Qed.

Lemma runs_ok l : Forall run_ok (runs_of l).
Proof.
  assert (Hboth : ∀ l, Forall run_ok (finished_runs l) → Forall run_ok (runs_of l)).
  { intros k Hk. unfold runs_of. pose proof (current_run_ok k) as Hc. destruct (current_run k) as [|o run] eqn:Hr; [done|].
    apply Forall_app_2; [done|]. apply Forall_singleton, Hc. intros ->. discriminate. }
  apply Hboth. induction l as [|o l IH] using rev_ind; [constructor|]. unfold finished_runs. rewrite split_runs_snoc.
  destruct (continues l o); [exact IH|]. by apply Hboth.
Qed.

(** Neighbours of one run hold the same stored state. *)
Lemma same_run_decoded p o a : cap_evidence p = Decoded a → same_run p o = true →
  ∃ b, cap_evidence o = Decoded b ∧ ob_protectedState b = ob_protectedState a ∧ ob_paused b = ob_paused a.
Proof.
  intros Hp. unfold same_run. rewrite Hp. destruct (cap_evidence o) as [b|]; [|done]. intros Hs%bool_decide_eq_true. exists b. split; [done|].
  assert (Hd : ∀ type, ~ field_differs type a b) by (intros type Ht%change_types_spec; rewrite Hs in Ht; by apply not_elem_of_nil in Ht).
  pose proof (Hd SCALED_UI_STATE_CHANGED) as H1. pose proof (Hd PAUSE_STATE_CHANGED) as H2. cbn in H1, H2.
  split; apply dec_stable; intros Hne; [apply H1|apply H2]; congruence.
Qed.

Lemma run_decoded first run a : cap_evidence first = Decoded a → Forall (λ pair, same_run (fst pair) (snd pair) = true) (neighbours (first :: run)) →
  Forall (λ o, ∃ b, cap_evidence o = Decoded b ∧ ob_protectedState b = ob_protectedState a ∧ ob_paused b = ob_paused a) (first :: run).
Proof.
  revert first a. induction run as [|o run IH]; intros first a Ha Hsame; [apply Forall_singleton; eauto|].
  constructor; [eauto|]. change (neighbours (first :: o :: run)) with ((first, o) :: neighbours (o :: run)) in Hsame.
  apply Forall_cons in Hsame as [Hs Hrest]. destruct (same_run_decoded _ _ _ Ha Hs) as (b & Hb & Hst & Hpa).
  eapply Forall_impl; [exact (IH o b Hb Hrest)|]. cbn. intros x (c & ? & ? & ?). exists c. split_and!; congruence.
Qed.

(** A STABLE_INTERVAL or DECODE_ERROR entry of a mint comes from one of its runs. *)
Lemma point_entries_body verbose id l o e : e ∈ point_entries verbose id l o →
  match te_body (ke_entry e) with STABLE_INTERVAL _ | DECODE_ERRORS _ => False | _ => True end.
Proof.
  unfold point_entries, gap_entries, change_entries, verbose_entry. rewrite !elem_of_app. intros [Hin|[Hin|Hin]]; revert Hin.
  - destruct (gap_before l o) as [[p q]|]; [by intros ->%list_elem_of_singleton|by intros ?%not_elem_of_nil].
  - destruct (cap_evidence o), (changes l o), (last_state l); first [by intros ->%list_elem_of_singleton|by intros ?%not_elem_of_nil].
  - destruct verbose; [by intros ->%list_elem_of_singleton|by intros ?%not_elem_of_nil].
Qed.

Lemma points_rev_body verbose id r e : e ∈ points_rev verbose id r →
  match te_body (ke_entry e) with STABLE_INTERVAL _ | DECODE_ERRORS _ => False | _ => True end.
Proof.
  induction r as [|o r IH]; [intros Hin; by apply not_elem_of_nil in Hin|]. cbn. intros [Hin|Hin]%elem_of_app; [exact (IH Hin)|exact (point_entries_body _ _ _ _ _ Hin)].
Qed.

Lemma entry_of_run verbose id l e : e ∈ mint_entries verbose id l →
  match te_body (ke_entry e) with STABLE_INTERVAL _ | DECODE_ERRORS _ => True | _ => False end →
  ∃ pre run post, l = pre ++ run ++ post ∧ run_ok run ∧ e ∈ run_entries id run.
Proof.
  intros [Hin|Hin%points_rev_body]%elem_of_app Hbody; [|by destruct (te_body (ke_entry e))].
  apply list_elem_of_In, List.in_concat in Hin as (es & (run & <- & Hrun)%List.in_map_iff & Hin).
  apply list_elem_of_In in Hin. pose proof (runs_ok l) as Hok. apply list_elem_of_In, list_elem_of_split in Hrun as (before & after & Hruns).
  exists (concat before), run, (concat after). split_and!; [|by rewrite Hruns in Hok; apply Forall_app in Hok as [_ [? _]%Forall_cons]|done].
  rewrite <- (proj1 (runs_concat l)) at 1. rewrite Hruns, concat_app. done.
Qed.

Lemma run_interval id run e i : e ∈ run_entries id run → te_body (ke_entry e) = STABLE_INTERVAL i →
  ∃ first final a, head run = Some first ∧ last run = Some final ∧ cap_evidence first = Decoded a ∧
    i = interval_of (mkOpen first final (Z.of_nat (length run)) (stateFields a)).
Proof.
  unfold run_entries, open_interval, open_errors. destruct (head run) as [first|]; [|intros Hin; by apply not_elem_of_nil in Hin].
  destruct (last run) as [p|]; [|intros Hin; by apply not_elem_of_nil in Hin]. cbn [mbind option_bind].
  destruct (cap_evidence first) as [a|f] eqn:Ha; intros ->%list_elem_of_singleton; [|done]. intros [= <-]. eauto 10.
Qed.

(** A reported interval is what was observed: its observations are
    neighbours among the selected records of the mint, all decoded with the same
    stored state and pause flag, the interval has their first and last times and
    lines and their number, and no two neighbouring polls in it are a capture
    gap apart. *)
Theorem timeline_intervals_sound records options mint entry i
    (Hin : entry ∈ tr_entries (buildTimeline other_date records options))
    (Hmint : id_mint (te_identity entry) = Some mint) (Hbody : te_body entry = STABLE_INTERVAL i) :
  ∃ pre run post first final a,
    mint_observations options records mint = pre ++ run ++ post ∧
    head run = Some first ∧ last run = Some final ∧ cap_evidence first = Decoded a ∧
    i = interval_of (mkOpen first final (Z.of_nat (length run)) (stateFields a)) ∧
    Forall (λ o, ∃ b, cap_evidence o = Decoded b ∧ ob_protectedState b = ob_protectedState a ∧ ob_paused b = ob_paused a) run ∧
    Forall (λ pair, gap_ms pair < CAPTURE_GAP_THRESHOLD_SECS * 1000) (neighbours (timed run)).
Proof.
  assert (Hof : entry ∈ List.filter (of_mint (Some mint)) (tr_entries (buildTimeline other_date records options))).
  { apply list_elem_of_In, List.filter_In. split; [by apply list_elem_of_In|]. by apply bool_decide_eq_true. }
  rewrite (entries_of_mint records options (Some mint)) in Hof. apply list_elem_of_In, List.in_map_iff in Hof as (e & <- & He%list_elem_of_In).
  destruct (entry_of_run _ _ _ _ He) as (pre & run & post & Hl & Hok & Hrun); [by rewrite Hbody|].
  destruct (run_interval _ _ _ _ Hrun Hbody) as (first & p & a & Hfirst & Hlast & Ha & ->).
  exists pre, run, post, first, p, a. destruct Hok as [_ Hsame Hgap]. destruct run as [|first' run]; [done|]. injection Hfirst as ->.
  split_and!; try done; [by apply run_decoded|]. eapply Forall_impl; [exact Hgap|]. cbn. intros pair Hp.
  unfold is_gap in Hp. by apply Z.leb_gt in Hp.
Qed.
End Reference.

(* ------------------------------------------------------------------ *)
(** ** Counts *)

(** How many records an entry stands for. *)
Definition entry_count (e : TimelineEntry) : Z :=
  match te_body e with STABLE_INTERVAL i => iv_observations i | DECODE_ERRORS r => er_occurrences r | _ => 0 end.
Definition is_gap_entry (e : TimelineEntry) : bool := match te_body e with CAPTURE_GAP _ => true | _ => false end.

Definition total (f : TimelineEntry → Z) (es : list TimelineEntry) : Z := foldr Z.add 0 (map f es).

#[export] Instance total_Permutation f : Proper ((≡ₚ) ==> (=)) (total f).
Proof. unfold total. induction 1; cbn; lia. Qed.

Lemma total_app f es es' : total f (es ++ es') = total f es + total f es'.
Proof. unfold total. induction es as [|e es IH]; [done|]. cbn in *. lia. Qed.

Section Counts.
  Variable other_date : string → option Z.

Lemma run_entries_count id run : run ≠ [] → total entry_count (map ke_entry (run_entries id run)) = Z.of_nat (length run).
Proof.
  destruct run as [|first run]; [done|]. intros _. unfold run_entries, open_interval, open_errors.
  destruct (last (first :: run)) as [p|] eqn:Hl; [|by apply last_None in Hl]. cbn [head mbind option_bind].
  destruct (cap_evidence first); cbn; lia.
Qed.

Lemma runs_count id runs : Forall (run_ok other_date) runs →
  total entry_count (map ke_entry (concat (map (run_entries id) runs))) = Z.of_nat (length (concat runs)).
Proof.
  induction 1 as [|run runs Hrun _ IH]; [done|]. cbn [map concat]. rewrite map_app, total_app, IH, run_entries_count, length_app by apply Hrun. lia.
Qed.

Lemma run_entries_gaps id run : List.filter is_gap_entry (map ke_entry (run_entries id run)) = [].
Proof. unfold run_entries. by destruct (open_interval run), (open_errors run). Qed.

Lemma point_entries_count verbose id l o : total entry_count (map ke_entry (point_entries other_date verbose id l o)) = 0.
Proof.
  unfold point_entries, gap_entries, change_entries, verbose_entry. rewrite !map_app, !total_app.
  destruct (gap_before other_date l o) as [[]|], (cap_evidence o), (changes l o), (last_state l), verbose; reflexivity.
Qed.

Lemma point_entries_gaps verbose id l o : List.filter is_gap_entry (map ke_entry (point_entries other_date verbose id l o)) =
  match gap_before other_date l o with Some (p, q) => [mkTimelineEntry id (CAPTURE_GAP (gap_between p q))] | None => [] end.
Proof.
  unfold point_entries, gap_entries, change_entries, verbose_entry. rewrite !map_app, !List.filter_app.
  destruct (gap_before other_date l o) as [[]|], (cap_evidence o), (changes l o), (last_state l), verbose; reflexivity.
Qed.

Lemma points_count verbose id r : total entry_count (map ke_entry (points_rev other_date verbose id r)) = 0.
Proof. induction r as [|o r IH]; [done|]. cbn [points_rev]. by rewrite map_app, total_app, IH, point_entries_count. Qed.

(** The gap entries are the gaps between neighbouring polls, in order. *)
Definition poll_gaps (polls : list PollPoint) : list CaptureGap :=
  map (λ pair, gap_between (fst pair) (snd pair)) (List.filter (λ pair, is_gap (gap_ms pair)) (neighbours polls)).

Lemma points_gaps verbose id r : List.filter is_gap_entry (map ke_entry (points_rev other_date verbose id r)) =
  map (λ g, mkTimelineEntry id (CAPTURE_GAP g)) (poll_gaps (timed other_date (rev r))).
Proof.
  induction r as [|o r IH]; [done|]. cbn [points_rev rev]. rewrite map_app, List.filter_app, IH, point_entries_gaps. unfold poll_gaps.
  rewrite timed_snoc. unfold gap_before. destruct (point_of other_date o) as [q|]; [|by rewrite !app_nil_r].
  rewrite neighbours_snoc, List.filter_app, !map_app. f_equal. destruct (last _) as [p|]; [|done]. cbn.
  unfold gap_ms. cbn. by destruct (is_gap _).
Qed.

(** Nothing is lost or reported twice: the intervals and error entries of a
    mint stand for all its selected records, and its gap entries are exactly the
    neighbouring polls at least 60 seconds apart, with their times and lines. *)
Theorem timeline_accounts_for_everything records options mint :
  let l := mint_observations options records mint in
  let entries := List.filter (of_mint (Some mint)) (tr_entries (buildTimeline other_date records options)) in
  total entry_count entries = Z.of_nat (length l) ∧
  List.filter is_gap_entry entries ≡ₚ map (λ g, mkTimelineEntry (mint_identity l) (CAPTURE_GAP g)) (poll_gaps (timed other_date l)) ∧
  Z.of_nat (length (List.filter is_gap_entry entries)) = countGaps (timed other_date l).
Proof.
  cbv zeta. set (l := mint_observations options records mint). set (id := mint_identity l).
  assert (Hgaps : List.filter is_gap_entry (List.filter (of_mint (Some mint)) (tr_entries (buildTimeline other_date records options)))
    ≡ₚ map (λ g, mkTimelineEntry id (CAPTURE_GAP g)) (poll_gaps (timed other_date l))).
  { rewrite (entries_of_mint other_date records options (Some mint)). fold l id. unfold mint_entries. rewrite map_app, List.filter_app, points_gaps, rev_involutive.
    generalize (runs_of other_date l). intros runs. assert (List.filter is_gap_entry (map ke_entry (concat (map (run_entries id) runs))) = []) as ->; [|done].
    induction runs as [|run runs IH]; [done|]. cbn. by rewrite map_app, List.filter_app, run_entries_gaps, IH. }
  split_and!; [|exact Hgaps|].
  - rewrite (entries_of_mint other_date records options (Some mint)). fold l id. unfold mint_entries.
    rewrite map_app, total_app, points_count, runs_count by apply runs_ok. rewrite (proj1 (runs_concat other_date l)). lia.
  - rewrite Hgaps, length_map. unfold poll_gaps, countGaps. by rewrite length_map.
Qed.
End Counts.

(* ------------------------------------------------------------------ *)
(** ** Metrics per symbol *)

Section Metrics.
  Variable other_date : string → option Z.

(** The lines of the polls, whatever they contain. *)
Definition poll_lines (records : list CaptureRecord) : gset Z :=
  list_to_set (omap (λ r, match r with Observed o => pt_line <$> point_of other_date o | LineError _ => None end) records).

Lemma all_poll_lines options records :
  lp_allPollLines (fold_left (loop_step other_date options) records empty_loop) = poll_lines records.
Proof.
  induction records as [|r records IH] using rev_ind; [done|]. rewrite fold_left_app. cbn [fold_left]. set (l := fold_left _ _ _) in *.
  unfold poll_lines in *. rewrite omap_app, list_to_set_app_L, <- IH. destruct r as [o|e]; [|symmetry; apply union_empty_r_L].
  assert (Hlines : lp_allPollLines (loop_step other_date options l (Observed o)) =
      match point_of other_date o with Some _ => {[cap_lineNumber o]} ∪ lp_allPollLines l | None => lp_allPollLines l end).
  { unfold loop_step. destruct (negb _); [done|]. destruct (push _ _) as [ev d]. by destruct (step_track _ _ _ _ _). }
  rewrite Hlines. cbn. destruct (point_of other_date o) as [p|] eqn:Hp; cbn; [|by rewrite union_empty_r_L].
  rewrite (point_of_line other_date o p Hp), union_empty_r_L. apply union_comm_L.
Qed.

(** The last track of a symbol gives its metrics. *)
Lemma metrics_fold (f : SymbolTrack → QualityMetrics) (tracks : list (string * SymbolTrack)) (m : gmap string QualityMetrics) key t : assoc key tracks = Some t → NoDup (map fst tracks) →
  (∀ key' t', (key', t') ∈ tracks → track_symbol t' = track_symbol t → key' = key) →
  fold_left (λ m entry, <[track_symbol (snd entry) := f (snd entry)]> m) tracks m !! track_symbol t = Some (f t).
Proof.
  revert m. induction tracks as [|[k u] tracks IH]; [done|]. intros m Hk Hnodup Huniq.
  cbn [map fst] in Hnodup. apply NoDup_cons in Hnodup as [Hnew Hnodup]. cbn [fold_left snd].
  unfold assoc in Hk. cbn [List.find fst] in Hk. destruct (String.eqb_spec k key) as [->|Hne].
  - injection Hk as ->. clear IH. revert m Hnew Hnodup Huniq. induction tracks as [|[k u] tracks IH] using rev_ind; intros m Hnew Hnodup Huniq.
    + apply lookup_insert_eq.
    + rewrite fold_left_app. cbn [fold_left snd]. rewrite map_app in Hnew, Hnodup. rewrite lookup_insert_ne.
      * apply IH; [|by apply NoDup_app in Hnodup as (? & _)|].
        -- intros Hin. apply Hnew. apply elem_of_app. by left.
        -- intros key' t' Hin. apply Huniq. rewrite app_comm_cons. apply elem_of_app. by left.
      * intros Heq. assert (k = key) as ->.
        { apply (Huniq k u); [|done]. rewrite app_comm_cons. apply elem_of_app. right. by apply list_elem_of_singleton. }
        apply Hnew. apply elem_of_app. right. by apply list_elem_of_singleton.
  - apply IH; [exact Hk|done|]. intros key' t' Hin. apply Huniq. by constructor.
Qed.

(** The metrics of a symbol are those of the mint that carries it: its polls
    with a readable wallclock in order, its decode errors and the gaps between
    its polls, out of all polled lines. *)
Theorem timeline_symbol_metrics records options mint
    (Hobserved : mint_observations options records mint ≠ [])
    (Hsymbol : ∀ mint', mint_observations options records mint' ≠ [] →
      id_symbol (mint_identity (mint_observations options records mint')) = id_symbol (mint_identity (mint_observations options records mint)) →
      mint' = mint) :
  let l := mint_observations options records mint in
  ∃ symbol, id_symbol (mint_identity l) = Some symbol ∧
    tr_bySymbol (buildTimeline other_date records options) !! symbol =
      Some (qualityMetrics (timed other_date l) (Z.of_nat (size (poll_lines records))) (decode_errors l) (countGaps (timed other_date l))).
Proof.
  cbv zeta. destruct (loop_invariant_all other_date options records) as [_ Ht Hk _ _ _]. unfold buildTimeline, finish. cbn [tr_bySymbol].
  rewrite all_poll_lines. set (tracks := lp_tracks _) in *. set (l := mint_observations options records mint) in *.
  assert (Hmint : assoc mint tracks = Some (track_of other_date (mint_identity l) l)) by (rewrite Ht; fold l; unfold mint_track; by destruct l).
  assert (Htracksym : ∀ k t, (k, t) ∈ tracks → mint_observations options records k ≠ [] ∧
      Some (track_symbol t) = id_symbol (mint_identity (mint_observations options records k))).
  { intros k t Hin%assoc_NoDup; [|done]. rewrite Ht in Hin. unfold mint_track in Hin.
    destruct (mint_observations options records k); [done|]. by simplify_eq. }
  destruct (Htracksym mint _ (assoc_In _ _ _ Hmint)) as [_ Hsym]. fold l in Hsym.
  eexists. split; [by symmetry|]. erewrite metrics_fold; [reflexivity|exact Hmint|done|].
  intros k t Hin Heq. destruct (Htracksym k t Hin) as [Hne Hks]. apply Hsymbol; [done|]. fold l. congruence.
Qed.
End Metrics.

(* ------------------------------------------------------------------ *)
(** ** A capture *)

Definition capture_state (multiplierHex : string) : ProtectedState :=
  mkProtectedState (fromHex multiplierHex) (fromHex "000000000000f83f") 1000.

Definition capture_sample (line : Z) (wallclock : string) (multiplierHex : string) : CaptureRecord :=
  Observed (mkCapture line (Some wallclock) (Some (2 * line)) (Some line) (Some "KOx") (Some "xStocks") "mint"
    (Decoded (mkObservation "mint" (Some (2 * line)) (Some line) (Some wallclock) (Some line) (NumInt 6) (Some false)
      (capture_state multiplierHex) true (Some (phaseAt (capture_state multiplierHex) line))))).

(** Two polls, a change, a gap. *)
Definition capture_demo : list CaptureRecord :=
  [capture_sample 1 "2026-09-15T13:30:00.000Z" "000000000000f03f"; capture_sample 2 "2026-09-15T13:30:30.000Z" "000000000000f03f";
   capture_sample 3 "2026-09-15T13:31:00.000Z" "000000000000f83f"; capture_sample 4 "2026-09-15T13:32:00.000Z" "000000000000f83f"].

Definition demo_interval : StableInterval :=
  mkInterval (Some "2026-09-15T13:30:00.000Z") (Some "2026-09-15T13:30:30.000Z") (Some 2) (Some 4) (Some 1) (Some 2) 1 2 2
    (mkFields (NumInt 6) "000000000000f03f" "1" "000000000000f83f" "1.5" 1000 (Some pending) (Some false)).

Definition demo_entry : TimelineEntry := mkTimelineEntry (mkIdentity (Some "xStocks") (Some "KOx") (Some "mint")) (STABLE_INTERVAL demo_interval).

Definition demo_timeline : TimelineResult := buildTimeline (λ _, None) capture_demo (mkTimelineOptions None false).

Definition body_kind (e : TimelineEntry) : string :=
  match te_body e with
  | STABLE_INTERVAL _ => "STABLE_INTERVAL" | STATE_CHANGE _ => "STATE_CHANGE" | DECODE_ERRORS _ => "DECODE_ERROR"
  | CAPTURE_GAP _ => "CAPTURE_GAP" | OBSERVATION _ => "OBSERVATION"
  end.

Example demo_timeline_entries : map body_kind (tr_entries demo_timeline) =
  ["STABLE_INTERVAL"; "STATE_CHANGE"; "STABLE_INTERVAL"; "CAPTURE_GAP"; "STABLE_INTERVAL"].
Proof. vm_compute. reflexivity. Qed.

Lemma timeline_intervals_sound_witness : demo_entry ∈ tr_entries demo_timeline ∧
  ∃ pre run post first final a,
    mint_observations (mkTimelineOptions None false) capture_demo "mint" = pre ++ run ++ post ∧
    head run = Some first ∧ last run = Some final ∧ cap_evidence first = Decoded a ∧
    demo_interval = interval_of (mkOpen first final (Z.of_nat (length run)) (stateFields a)) ∧
    Forall (λ o, ∃ b, cap_evidence o = Decoded b ∧ ob_protectedState b = ob_protectedState a ∧ ob_paused b = ob_paused a) run ∧
    Forall (λ pair, gap_ms pair < CAPTURE_GAP_THRESHOLD_SECS * 1000) (neighbours (timed (λ _, None) run)).
Proof.
  assert (Hin : demo_entry ∈ tr_entries demo_timeline).
  { assert (head (tr_entries demo_timeline) = Some demo_entry) as Hhead by (vm_compute; reflexivity).
    destruct (tr_entries demo_timeline) as [|e es]; [discriminate|]. injection Hhead as ->. left. }
  split; [exact Hin|].
  exact (timeline_intervals_sound (λ _, None) capture_demo (mkTimelineOptions None false) "mint" demo_entry demo_interval Hin eq_refl eq_refl).
Defined.

Lemma timeline_symbol_metrics_witness : ∃ symbol,
  id_symbol (mint_identity (mint_observations (mkTimelineOptions None false) capture_demo "mint")) = Some symbol ∧
  qm_gaps <$> tr_bySymbol demo_timeline !! symbol = Some 1.
Proof.
  assert (Hkeys : ∀ mint, mint_observations (mkTimelineOptions None false) capture_demo mint ≠ [] → mint = "mint").
  { intros mint Hne. destruct (mint_observations _ capture_demo mint) as [|o l] eqn:Hl; [done|].
    assert (o ∈ mint_observations (mkTimelineOptions None false) capture_demo mint) as Ho by (rewrite Hl; left).
    apply list_elem_of_omap in Ho as (r & Hr & Hor). assert (Forall (λ r, match r with Observed o => cap_mint o = "mint" | _ => False end)
      (selected_records (mkTimelineOptions None false) capture_demo)) as Hall by (repeat constructor).
    apply (proj1 (Forall_forall _ _) Hall) in Hr. destruct r as [o'|]; [|done]. rewrite observation_of_self in Hor. case_decide; congruence. }
  destruct (timeline_symbol_metrics (λ _, None) capture_demo (mkTimelineOptions None false) "mint") as (symbol & Hs & Hm).
  - discriminate.
  - intros mint' Hne _. by apply Hkeys.
  - exists symbol. split; [exact Hs|]. unfold demo_timeline. rewrite Hm. vm_compute. reflexivity.
Defined.
