(* ===== verification/XStocksApi.v ===== *)
(** * xstocks-api.ts: observations of the xStocks public API

    The decoder of one watcher line, the interpretation of an activation time,
    historical records and the streaming change detector. [JSON.parse] is a
    parameter; a multiplier is a JavaScript number, its f64 bytes are
    [setFloat64]. *)

From S2P Require Import Prelude Js Float64 Errors Kit StateErrors CanonicalKey StateTypes Adapters Capture.

Inductive EvidenceSource : Set := SRC_DOCUMENTED_SCHEDULE | SRC_HISTORICAL_API_STATE | SRC_LIVE_API_STATE | SRC_LIVE_CHAIN_STATE.

#[export] Instance EvidenceSource_eq_dec : EqDecision EvidenceSource.
Proof. solve_decision. Defined.

Record EvidenceAuthority := mkAuthority { ea_authoritativeForOnchainGuard : bool; ea_relevantToExecutionPolicy : bool }.

Definition EVIDENCE_AUTHORITY (source : EvidenceSource) : EvidenceAuthority :=
  match source with
  | SRC_LIVE_CHAIN_STATE => mkAuthority true true
  | SRC_LIVE_API_STATE => mkAuthority false true
  | SRC_HISTORICAL_API_STATE => mkAuthority false false
  | SRC_DOCUMENTED_SCHEDULE => mkAuthority false false
  end.

Definition authoritativeForOnchainGuard (source : EvidenceSource) : bool := ea_authoritativeForOnchainGuard (EVIDENCE_AUTHORITY source).
Definition relevantToExecutionPolicy (source : EvidenceSource) : bool := ea_relevantToExecutionPolicy (EVIDENCE_AUTHORITY source).

Inductive ActivationTimeInterpretation : Set := no_activation | iso_8601 | unix_seconds | unix_milliseconds.

Definition show_interpretation (i : ActivationTimeInterpretation) : string :=
  match i with no_activation => "none" | iso_8601 => "iso-8601" | unix_seconds => "unix-seconds" | unix_milliseconds => "unix-milliseconds" end.

Record ActivationTime := mkActivation { act_interpretation : ActivationTimeInterpretation; act_unixMs : option Z }.

Inductive ApiDecodeStatus : Set := api_ok | api_request_error | api_malformed.

#[export] Instance ApiDecodeStatus_eq_dec : EqDecision ApiDecodeStatus.
Proof. solve_decision. Defined.

Definition show_decode_status (s : ApiDecodeStatus) : string :=
  match s with api_ok => "ok" | api_request_error => "request-error" | api_malformed => "malformed" end.

Record XStocksApiObservation := mkApiObservation {
  xo_lineNumber : Z;
  xo_wallclock : option string;
  xo_wallclockMs : option Z;
  xo_decodeStatus : ApiDecodeStatus;
  xo_currentMultiplier : option jsnum;
  xo_newMultiplier : option jsnum;
  xo_activationDateTimeRaw : jsval;
  xo_activationTime : option ActivationTime;
  xo_reason : option string;
  xo_hasPendingUpdate : option bool;
  xo_error : option string;
  xo_rawLine : string;
}.

Record XStocksHistoricalRecord := mkHistorical {
  hr_previousMultiplier : jsnum;
  hr_multiplier : jsnum;
  hr_activationTime : ActivationTime;
  hr_reason : option string;
}.

(** [XStocksApiParseError], with its message. *)
Inductive XStocksApiParseError : Set := ParseError (message : string).

Definition MILLISECONDS_THRESHOLD : Z := 100000000000.

(* ------------------------------------------------------------------ *)
(** ** Activation times *)

Definition skip_digits (n : nat) (s : string) : option string := snd <$> take_digits n 0 s.

(** [Z] or [+hh:mm] or [-hh:mm] at the end. *)
Definition iso_zone (s : string) : bool :=
  String.eqb s "Z" ||
  match s with
  | String c s =>
      (Ascii.eqb c (Ascii.ascii_of_nat 43) || Ascii.eqb c (Ascii.ascii_of_nat 45)) &&
      bool_decide ((s ← skip_digits 2 s; s ← take_char (Ascii.ascii_of_nat 58) s; skip_digits 2 s) = Some "")
  | "" => false
  end.

(** [(\.\d+)?(Z|[+-]\d{2}:\d{2})$]. *)
Definition iso_tail (s : string) : bool :=
  match take_char (Ascii.ascii_of_nat 46) s with
  | Some s => let '(_, count, s) := read_digits 0 0 s in (0 <? count) && iso_zone s
  | None => iso_zone s
  end.

(** The whole pattern of an ISO 8601 time. *)
Definition isIsoTime (s : string) : bool :=
  let dash := Ascii.ascii_of_nat 45 in
  let colon := Ascii.ascii_of_nat 58 in
  match (s ← skip_digits 4 s; s ← take_char dash s; s ← skip_digits 2 s; s ← take_char dash s; s ← skip_digits 2 s;
         s ← take_char (Ascii.ascii_of_nat 84) s; s ← skip_digits 2 s; s ← take_char colon s; s ← skip_digits 2 s;
         s ← take_char colon s; skip_digits 2 s) with
  | Some s => iso_tail s
  | None => false
  end.

(** A finite number greater than zero: the text of a negative fraction starts with its sign. *)
Definition num_positive (n : jsnum) : bool :=
  match n with
  | NumInt z => 0 <? z
  | NumNegZero => false
  | NumOther text => finite_num n && negb (startsWith "-" text)
  end.

Definition positiveFinite (value : jsval) : option jsnum :=
  match value with JNum n => if num_positive n then Some n else None | _ => None end.

Section Decoding.
  Variable other_date : string → option Z.
  Variable JSON_parse : string → option jsval.

Definition unrecognized (raw : jsval) : result XStocksApiParseError ActivationTime :=
  Err (ParseError ("unrecognized activationDateTime " +:+ show_json raw)).

Definition interpretActivationTime (raw : jsval) : result XStocksApiParseError ActivationTime :=
  match raw with
  | JNull => Ok (mkActivation no_activation None)
  | JNum n =>
      if num_is n 0 then Ok (mkActivation no_activation None)
      else if isInteger n && (0 <? num_value n) then
        if MILLISECONDS_THRESHOLD <=? num_value n then Ok (mkActivation unix_milliseconds (Some (num_value n)))
        else Ok (mkActivation unix_seconds (Some (num_value n * 1000)))
      else unrecognized raw
  | JString s =>
      if isIsoTime s then
        match Date_parse other_date s with
        | Some ms => Ok (mkActivation iso_8601 (Some ms))
        | None => unrecognized raw
        end
      else unrecognized raw
  | _ => unrecognized raw
  end.

(** An observation with nothing decoded: [{ ...base, wallclock, wallclockMs, decodeStatus, error }]. *)
Definition undecoded (line : string) (lineNumber : Z) (wallclock : option string) (ms : option Z) (status : ApiDecodeStatus)
    (raw : jsval) (error : string) : XStocksApiObservation :=
  mkApiObservation lineNumber wallclock ms status None None raw None None None (Some error) line.

(** The fields of a response: the new multiplier is 0 or positive, the reason a string or null. *)
Definition newMultiplier_of (value : jsval) : option jsnum :=
  match value with JNum n => if num_is n 0 || num_positive n then Some n else None | _ => None end.
Definition reason_of (value : jsval) : option (option string) :=
  match value with JNull => Some None | JString s => Some (Some s) | _ => None end.

Definition decode_response (line : string) (lineNumber : Z) (wallclock : option string) (ms : Z) (r : list (string * jsval))
    : XStocksApiObservation :=
  let malformed raw error := undecoded line lineNumber wallclock (Some ms) api_malformed raw error in
  match positiveFinite (get_field "currentMultiplier" r) with
  | None => malformed JNull "currentMultiplier must be a positive finite number"
  | Some current =>
      match newMultiplier_of (get_field "newMultiplier" r) with
      | None => malformed JNull "newMultiplier must be 0 or a positive finite number"
      | Some new =>
          match reason_of (get_field "reason" r) with
          | None => malformed JNull "reason must be a string or null"
          | Some reason =>
              let raw := get_field "activationDateTime" r in
              match interpretActivationTime raw with
              | Err (ParseError message) => malformed raw message
              | Ok activation =>
                  mkApiObservation lineNumber wallclock (Some ms) api_ok (Some current) (Some new) raw (Some activation) reason
                    (Some (num_positive new || bool_decide (act_unixMs activation ≠ None))) None line
              end
          end
      end
  end.

Definition decodeXStocksApiLine (line : string) (lineNumber : Z) : option XStocksApiObservation :=
  if is_blank line then None
  else Some
    match JSON_parse line with
    | None => undecoded line lineNumber None None api_malformed JNull "line is not valid JSON"
    | Some (JObject record) | Some (JExotic record) =>
        let wallclock := stringOrNull (get_field "wallclock" record) in
        match wallclock ≫= Date_parse other_date with
        | None => undecoded line lineNumber wallclock None api_malformed JNull "missing or invalid wallclock"
        | Some ms =>
            match get_field "error" record with
            | JString error => undecoded line lineNumber wallclock (Some ms) api_request_error JNull error
            | _ =>
                match get_field "response" record with
                | JObject r | JExotic r => decode_response line lineNumber wallclock ms r
                | _ => undecoded line lineNumber wallclock (Some ms) api_malformed JNull "response is not a JSON object"
                end
            end
        end
    | Some _ => undecoded line lineNumber None None api_malformed JNull "line is not a JSON object"
    end.

Definition parseXStocksHistoricalRecord (value : jsval) : result XStocksApiParseError XStocksHistoricalRecord :=
  match value with
  | JObject _ | JExotic _ | JArray _ =>
      let r := object_entries value in
      match positiveFinite (get_field "previousMultiplier" r), positiveFinite (get_field "multiplier" r) with
      | Some previous, Some multiplier =>
          reason ← match get_field "reason" r with
                   | JNull | JUndefined => Ok None
                   | JString s => Ok (Some s)
                   | _ => Err (ParseError "reason must be a string or null")
                   end;
          activation ← interpretActivationTime (get_field "activationDateTime" r);
          match act_unixMs activation with
          | None => Err (ParseError "historical record needs an activation time")
          | Some _ => Ok (mkHistorical previous multiplier activation reason)
          end
      | _, _ => Err (ParseError "historical multipliers must be positive finite numbers")
      end
  | _ => Err (ParseError "historical record must be an object")
  end.
End Decoding.

(** Little-endian f64 bytes. *)
Definition f64Hex (value : jsnum) : string := toHex (setFloat64 value).

(* ------------------------------------------------------------------ *)
(** ** [XStocksApiEventDetector] *)

Inductive ApiEventType : Set :=
  API_PENDING_UPDATE_PUBLISHED | API_PENDING_UPDATE_CHANGED | API_PENDING_UPDATE_CLEARED | API_CURRENT_MULTIPLIER_CHANGED
| API_ACTIVATION_TIME_CHANGED | API_REASON_CHANGED | API_REQUEST_ERROR | API_MALFORMED_RECORD.

#[export] Instance ApiEventType_eq_dec : EqDecision ApiEventType.
Proof. solve_decision. Defined.

Definition show_api_event (t : ApiEventType) : string :=
  match t with
  | API_PENDING_UPDATE_PUBLISHED => "API_PENDING_UPDATE_PUBLISHED" | API_PENDING_UPDATE_CHANGED => "API_PENDING_UPDATE_CHANGED"
  | API_PENDING_UPDATE_CLEARED => "API_PENDING_UPDATE_CLEARED" | API_CURRENT_MULTIPLIER_CHANGED => "API_CURRENT_MULTIPLIER_CHANGED"
  | API_ACTIVATION_TIME_CHANGED => "API_ACTIVATION_TIME_CHANGED" | API_REASON_CHANGED => "API_REASON_CHANGED"
  | API_REQUEST_ERROR => "API_REQUEST_ERROR" | API_MALFORMED_RECORD => "API_MALFORMED_RECORD"
  end.

Record ApiEvent := mkApiEvent {
  ae_type : ApiEventType;
  ae_wallclock : option string;
  ae_lineNumber : Z;
  ae_previous : option XStocksApiObservation;
  ae_current : XStocksApiObservation;
  ae_detail : list string;
}.

Record XStocksApiEventDetector := mkApiDetector { lastOk : option XStocksApiObservation; lastErrorKey : option string }.

Definition new_api_detector : XStocksApiEventDetector := mkApiDetector None None.

(** [a === b] of nullable numbers and strings. *)
Definition nullable_num_eq (a b : option jsnum) : bool :=
  match a, b with Some a, Some b => num_strict_eq a b | None, None => true | _, _ => false end.

Definition error_key (o : XStocksApiObservation) : string := show_decode_status (xo_decodeStatus o) +:+ ":" +:+ show_option id (xo_error o).

Definition is_pending (o : XStocksApiObservation) : bool := bool_decide (xo_hasPendingUpdate o = Some true).

Definition num_text (n : option jsnum) : string := show_option show_num n.

Definition raw_text (o : XStocksApiObservation) : string := show_json (xo_activationDateTimeRaw o).

(** [JSON.stringify(a) === JSON.stringify(b)] of the raw activation times. *)
Definition same_raw (a b : XStocksApiObservation) : bool :=
  bool_decide (json_text (xo_activationDateTimeRaw a) = json_text (xo_activationDateTimeRaw b)).

Definition api_event (previous : option XStocksApiObservation) (o : XStocksApiObservation) (type : ApiEventType) (detail : list string) : ApiEvent :=
  mkApiEvent type (xo_wallclock o) (xo_lineNumber o) previous o detail.

(** The events between two decoded observations, in the order they are pushed. *)
Definition api_changes (previous o : XStocksApiObservation) : list ApiEvent :=
  let event := api_event (Some previous) o in
  let arrow a b := a +:+ " -> " +:+ b in
  (if nullable_num_eq (xo_currentMultiplier previous) (xo_currentMultiplier o) then []
   else [event API_CURRENT_MULTIPLIER_CHANGED [arrow (num_text (xo_currentMultiplier previous)) (num_text (xo_currentMultiplier o))]]) ++
  match is_pending previous, is_pending o with
  | false, true =>
      [event API_PENDING_UPDATE_PUBLISHED ["newMultiplier " +:+ num_text (xo_newMultiplier o); "activationDateTime " +:+ raw_text o]]
  | true, false =>
      [event API_PENDING_UPDATE_CLEARED ["newMultiplier " +:+ arrow (num_text (xo_newMultiplier previous)) (num_text (xo_newMultiplier o))]]
  | true, true =>
      (if nullable_num_eq (xo_newMultiplier previous) (xo_newMultiplier o) then []
       else [event API_PENDING_UPDATE_CHANGED ["newMultiplier " +:+ arrow (num_text (xo_newMultiplier previous)) (num_text (xo_newMultiplier o))]]) ++
      (if same_raw previous o then [] else [event API_ACTIVATION_TIME_CHANGED [arrow (raw_text previous) (raw_text o)]])
  | false, false => []
  end ++
  (if negb (bool_decide (xo_reason previous = xo_reason o)) && Bool.eqb (is_pending previous) (is_pending o)
   then [event API_REASON_CHANGED [arrow (show_json (nullable_js JString (xo_reason previous))) (show_json (nullable_js JString (xo_reason o)))]]
   else []).

Definition push_api (detector : XStocksApiEventDetector) (o : XStocksApiObservation) : list ApiEvent * XStocksApiEventDetector :=
  if negb (bool_decide (xo_decodeStatus o = api_ok)) then
    let key := error_key o in
    if bool_decide (lastErrorKey detector = Some key) then ([], detector)
    else
      ([api_event (lastOk detector) o (if bool_decide (xo_decodeStatus o = api_request_error) then API_REQUEST_ERROR else API_MALFORMED_RECORD)
          [xo_error o ?? ""]],
       mkApiDetector (lastOk detector) (Some key))
  else
    (match lastOk detector with Some previous => api_changes previous o | None => [] end, mkApiDetector (Some o) None).

(* ------------------------------------------------------------------ *)
(** ** Decoded lines *)

Lemma num_positive_finite n : num_positive n = true → finite_num n = true.
Proof. destruct n; cbn [num_positive finite_num]; [done|done|]. by intros [? _]%andb_true_iff. Qed.

Section Decoded.
  Variable other_date : string → option Z.
  Variable JSON_parse : string → option jsval.

(** What a response must hold to be decoded. *)
Record response_fields (r : list (string * jsval)) (current new : jsnum) (reason : option string) (activation : ActivationTime) : Prop := {
  rf_current : get_field "currentMultiplier" r = JNum current ∧ num_positive current = true;
  rf_new : get_field "newMultiplier" r = JNum new ∧ (num_is new 0 = true ∨ num_positive new = true);
  rf_reason : get_field "reason" r = nullable_js JString reason;
  rf_activation : interpretActivationTime other_date (get_field "activationDateTime" r) = Ok activation;
}.

Lemma positiveFinite_Some v n : positiveFinite v = Some n ↔ v = JNum n ∧ num_positive n = true.
Proof. unfold positiveFinite. destruct v as [| | |m| | | | | |]; try by (split; [|intros [[=] _]]). destruct (num_positive m) eqn:E; (split; [intros [= <-]; auto|intros [[= <-] ?]; congruence]). Qed.

Lemma newMultiplier_of_Some v n : newMultiplier_of v = Some n ↔ v = JNum n ∧ (num_is n 0 = true ∨ num_positive n = true).
Proof.
  unfold newMultiplier_of. destruct v as [| | |m| | | | | |]; try by (split; [|intros [[=] _]]).
  destruct (num_is m 0 || num_positive m) eqn:E; [apply orb_true_iff in E|apply orb_false_iff in E as [E1 E2]].
  - split; [intros [= <-]; auto|by intros [[= <-] _]].
  - split; [done|]. intros [[= <-] []]; congruence.
Qed.

Lemma reason_of_Some v reason : reason_of v = Some reason ↔ v = nullable_js JString reason.
Proof. destruct v, reason; cbn; split; congruence. Qed.

(** The observation of a response with these fields. *)
Definition decoded_response (line : string) (n : Z) (wallclock : option string) (ms : Z) (r : list (string * jsval))
    (current new : jsnum) (reason : option string) (activation : ActivationTime) : XStocksApiObservation :=
  mkApiObservation n wallclock (Some ms) api_ok (Some current) (Some new) (get_field "activationDateTime" r) (Some activation) reason
    (Some (num_positive new || bool_decide (act_unixMs activation ≠ None))) None line.

(** A response decodes exactly when it has the fields; otherwise nothing is decoded from it. *)
Lemma decode_response_cases line n wallclock ms r :
  (∃ current new reason activation, response_fields r current new reason activation ∧
     decode_response other_date line n wallclock ms r = decoded_response line n wallclock ms r current new reason activation) ∨
  ((∀ current new reason activation, ~ response_fields r current new reason activation) ∧
   ∃ raw error, decode_response other_date line n wallclock ms r = undecoded line n wallclock (Some ms) api_malformed raw error).
Proof.
  unfold decode_response.
  destruct (positiveFinite _) as [current|] eqn:Hc; [|right; split; [intros * [H _ _ _]; apply positiveFinite_Some in H; congruence|eauto]].
  destruct (newMultiplier_of _) as [new|] eqn:Hn; [|right; split; [intros * [_ H _ _]; apply newMultiplier_of_Some in H; congruence|eauto]].
  destruct (reason_of _) as [reason|] eqn:Hr; [|right; split; [intros * [_ _ H _]; apply reason_of_Some in H; congruence|eauto]].
  destruct (interpretActivationTime _ _) as [activation|[message]] eqn:Ha; [|right; split; [intros * [_ _ _ H]; congruence|eauto]].
  left. exists current, new, reason, activation. split; [|done].
  split; [by apply positiveFinite_Some|by apply newMultiplier_of_Some|by apply reason_of_Some|done].
Qed.

(** The parts of a line that decodes. *)
Definition line_parts (line wallclock : string) (ms : Z) (r : list (string * jsval)) : Prop :=
  ∃ record response, is_blank line = false ∧ (JSON_parse line = Some (JObject record) ∨ JSON_parse line = Some (JExotic record)) ∧
    get_field "wallclock" record = JString wallclock ∧ Date_parse other_date wallclock = Some ms ∧
    (∀ error, get_field "error" record ≠ JString error) ∧
    get_field "response" record = response ∧ (response = JObject r ∨ response = JExotic r).

(** An observation that holds no value. *)
Definition fails_closed (line : string) (n : Z) (o : XStocksApiObservation) : Prop :=
  xo_decodeStatus o ≠ api_ok ∧ xo_lineNumber o = n ∧ xo_rawLine o = line ∧ is_Some (xo_error o) ∧ xo_currentMultiplier o = None ∧
  xo_newMultiplier o = None ∧ xo_activationTime o = None ∧ xo_reason o = None ∧ xo_hasPendingUpdate o = None.

Lemma undecoded_fails_closed line n wallclock ms status raw error : status ≠ api_ok → fails_closed line n (undecoded line n wallclock ms status raw error).
Proof. intros. split_and!; eauto. Qed.

Lemma decode_line_parts line n wallclock ms r : line_parts line wallclock ms r →
  decodeXStocksApiLine other_date JSON_parse line n = Some (decode_response other_date line n (Some wallclock) ms r).
Proof.
  intros (record & response & Hblank & Hparse & Hw & Hms & Herror & Hresponse & Hr). unfold decodeXStocksApiLine. rewrite Hblank.
  destruct Hparse as [-> | ->]; rewrite Hw; cbn [stringOrNull mbind option_bind]; rewrite Hms, Hresponse.
  all: destruct (get_field "error" record) as [| | | | |error| | | |]; try by destruct Hr as [-> | ->].
  all: by destruct (Herror error).
Qed.

Lemma decode_line_cases line n : is_blank line = false →
  (∃ wallclock ms r, line_parts line wallclock ms r) ∨
  ∃ o, decodeXStocksApiLine other_date JSON_parse line n = Some o ∧ fails_closed line n o.
Proof.
  intros Hblank. unfold decodeXStocksApiLine. rewrite Hblank.
  assert (Hobject : ∀ record, JSON_parse line = Some (JObject record) ∨ JSON_parse line = Some (JExotic record) →
    (∃ wallclock ms r, line_parts line wallclock ms r) ∨ fails_closed line n
    match stringOrNull (get_field "wallclock" record) ≫= Date_parse other_date with
    | None => undecoded line n (stringOrNull (get_field "wallclock" record)) None api_malformed JNull "missing or invalid wallclock"
    | Some ms =>
        match get_field "error" record with
        | JString error => undecoded line n (stringOrNull (get_field "wallclock" record)) (Some ms) api_request_error JNull error
        | _ => match get_field "response" record with
               | JObject r | JExotic r => decode_response other_date line n (stringOrNull (get_field "wallclock" record)) ms r
               | _ => undecoded line n (stringOrNull (get_field "wallclock" record)) (Some ms) api_malformed JNull "response is not a JSON object"
               end
        end
    end).
  { intros record Hparse. destruct (get_field "wallclock" record) as [| | | | |wallclock| | | |] eqn:Hw; try by right; apply undecoded_fails_closed.
    cbn [stringOrNull mbind option_bind]. destruct (Date_parse other_date wallclock) as [ms|] eqn:Hms; [|by right; apply undecoded_fails_closed].
    destruct (get_field "error" record) as [| | | | |error| | | |] eqn:He; try by right; apply undecoded_fails_closed.
    all: destruct (get_field "response" record) as [| | | | | | |r|r|] eqn:Hr; try by right; apply undecoded_fails_closed.
    all: left; exists wallclock, ms, r, record, (get_field "response" record); rewrite He, Hr; split_and!; auto; done. }
  assert (Hbad : ∀ w ms error, ∃ o, Some (undecoded line n w ms api_malformed JNull error) = Some o ∧ fails_closed line n o).
  { intros. eexists. split; [reflexivity|]. by apply undecoded_fails_closed. }
  destruct (JSON_parse line) as [[| | | | | | |record|record|]|] eqn:Hparse; try (right; apply Hbad).
  - destruct (Hobject record (or_introl eq_refl)) as [Hparts|Hclosed]; [by left|right; eexists; by split].
  - destruct (Hobject record (or_intror eq_refl)) as [Hparts|Hclosed]; [by left|right; eexists; by split].
Qed.

(** A watcher line decodes exactly when it is an object with a readable
    wallclock, no error and a response with a positive current multiplier, a
    new multiplier that is 0 or positive, a reason and a recognized activation
    time; its observation holds those values, pending exactly when a new
    multiplier or an activation time is advertised. Any other line but a blank
    one gives an observation that holds no value and names its error. *)
Theorem decodeXStocksApiLine_spec line n :
  let result := decodeXStocksApiLine other_date JSON_parse line n in
  (is_blank line = true → result = None) ∧
  (∀ wallclock ms r current new reason activation,
    line_parts line wallclock ms r → response_fields r current new reason activation →
    result = Some (decoded_response line n (Some wallclock) ms r current new reason activation)) ∧
  (is_blank line = false →
    (∀ wallclock ms r current new reason activation,
      ~ (line_parts line wallclock ms r ∧ response_fields r current new reason activation)) →
    ∃ o, result = Some o ∧ fails_closed line n o).
Proof.
  cbv zeta. split_and!.
  - intros Hblank. unfold decodeXStocksApiLine. by rewrite Hblank.
  - intros wallclock ms r current new reason activation Hparts Hfields. rewrite (decode_line_parts _ _ _ _ _ Hparts). f_equal.
    destruct (decode_response_cases line n (Some wallclock) ms r) as [(c & w & x & a & Hf & ->)|[Hno _]]; [|by destruct (Hno current new reason activation)].
    destruct Hfields as [[Hc _] [Hn _] Hx Ha], Hf as [[Hc' _] [Hn' _] Hx' Ha']. rewrite Hc in Hc'. rewrite Hn in Hn'. rewrite Hx in Hx'. rewrite Ha in Ha'.
    simplify_eq. destruct reason, x; cbn in Hx'; by simplify_eq.
  - intros Hblank Hno. destruct (decode_line_cases line n Hblank) as [(w & ms & r & Hparts)|Hclosed]; [|done].
    rewrite (decode_line_parts _ _ _ _ _ Hparts). eexists. split; [reflexivity|].
    destruct (decode_response_cases line n (Some w) ms r) as [(c & x & y & a & Hf & _)|[_ (raw & error & ->)]]; [|by apply undecoded_fails_closed].
    exfalso. eapply Hno. eauto.
Qed.
End Decoded.

(* ------------------------------------------------------------------ *)
(** ** The detector over a history *)

Definition api_detector_after (history : list XStocksApiObservation) : XStocksApiEventDetector :=
  fold_left (λ d o, snd (push_api d o)) history new_api_detector.

Definition is_ok_observation (o : XStocksApiObservation) : bool := bool_decide (xo_decodeStatus o = api_ok).

Definition last_ok (history : list XStocksApiObservation) : option XStocksApiObservation := last (List.filter is_ok_observation history).

(** The error the API is failing with. *)
Definition failing_key (history : list XStocksApiObservation) : option string :=
  o ← last history; if is_ok_observation o then None else Some (error_key o).

Lemma api_detector_after_spec history :
  lastOk (api_detector_after history) = last_ok history ∧ lastErrorKey (api_detector_after history) = failing_key history.
Proof.
  unfold last_ok, failing_key, is_ok_observation. induction history as [|o history [IHo IHe]] using rev_ind; [done|].
  unfold api_detector_after in *. rewrite fold_left_app, List.filter_app, last_snoc. cbn [fold_left List.filter mbind option_bind].
  set (d := fold_left _ history _) in *. unfold push_api. case_bool_decide as Hok; cbn [negb snd lastOk lastErrorKey].
  - by rewrite last_snoc.
  - rewrite app_nil_r. case_bool_decide as Hkey; cbn [snd lastOk lastErrorKey]; [by rewrite IHo, Hkey|done].
Qed.

(** Whether an event of a type separates two decoded observations. *)
Definition api_differs (type : ApiEventType) (p o : XStocksApiObservation) : Prop :=
  match type with
  | API_CURRENT_MULTIPLIER_CHANGED => nullable_num_eq (xo_currentMultiplier p) (xo_currentMultiplier o) = false
  | API_PENDING_UPDATE_PUBLISHED => is_pending p = false ∧ is_pending o = true
  | API_PENDING_UPDATE_CLEARED => is_pending p = true ∧ is_pending o = false
  | API_PENDING_UPDATE_CHANGED =>
      is_pending p = true ∧ is_pending o = true ∧ nullable_num_eq (xo_newMultiplier p) (xo_newMultiplier o) = false
  | API_ACTIVATION_TIME_CHANGED => is_pending p = true ∧ is_pending o = true ∧ json_text (xo_activationDateTimeRaw p) ≠ json_text (xo_activationDateTimeRaw o)
  | API_REASON_CHANGED => xo_reason p ≠ xo_reason o ∧ is_pending p = is_pending o
  | API_REQUEST_ERROR | API_MALFORMED_RECORD => False
  end.

Lemma elem_of_if {A} (x y : A) (b : bool) : x ∈ (if b then [] else [y]) ↔ x = y ∧ b = false.
Proof. destruct b; [rewrite elem_of_nil|rewrite list_elem_of_singleton]; intuition congruence. Qed.

Lemma elem_of_if' {A} (x y : A) (b : bool) : x ∈ (if b then [y] else []) ↔ x = y ∧ b = true.
Proof. destruct b; [rewrite list_elem_of_singleton|rewrite elem_of_nil]; intuition congruence. Qed.

(** The types of the events between two observations, in order. *)
Definition api_change_types (p o : XStocksApiObservation) : list ApiEventType :=
  (if nullable_num_eq (xo_currentMultiplier p) (xo_currentMultiplier o) then [] else [API_CURRENT_MULTIPLIER_CHANGED]) ++
  match is_pending p, is_pending o with
  | false, true => [API_PENDING_UPDATE_PUBLISHED]
  | true, false => [API_PENDING_UPDATE_CLEARED]
  | true, true =>
      (if nullable_num_eq (xo_newMultiplier p) (xo_newMultiplier o) then [] else [API_PENDING_UPDATE_CHANGED]) ++
      (if same_raw p o then [] else [API_ACTIVATION_TIME_CHANGED])
  | false, false => []
  end ++
  (if negb (bool_decide (xo_reason p = xo_reason o)) && Bool.eqb (is_pending p) (is_pending o) then [API_REASON_CHANGED] else []).

Lemma api_changes_types p o : ae_type <$> api_changes p o = api_change_types p o.
Proof.
  unfold api_changes, api_change_types. rewrite !fmap_app.
  f_equal; [by destruct (nullable_num_eq (xo_currentMultiplier p) _)|]. f_equal; [|by destruct (_ && _)].
  destruct (is_pending p), (is_pending o); try done. rewrite fmap_app. f_equal; [by destruct (nullable_num_eq _ _)|by destruct (same_raw p o)].
Qed.

Lemma api_change_types_spec p o type : type ∈ api_change_types p o ↔ api_differs type p o.
Proof.
  unfold api_change_types, same_raw.
  rewrite !elem_of_app, elem_of_if, elem_of_if', andb_true_iff, negb_true_iff, bool_decide_eq_false, Bool.eqb_true_iff.
  destruct (is_pending p) eqn:P, (is_pending o) eqn:O; rewrite ?elem_of_app, ?elem_of_if, ?elem_of_nil, ?bool_decide_eq_false, ?list_elem_of_singleton.
  all: destruct type; cbn [api_differs]; rewrite ?P, ?O; intuition congruence.
Qed.

Lemma api_change_types_NoDup p o : NoDup (api_change_types p o).
Proof.
  unfold api_change_types. destruct (nullable_num_eq (xo_currentMultiplier p) (xo_currentMultiplier o)), (is_pending p), (is_pending o),
    (nullable_num_eq (xo_newMultiplier p) (xo_newMultiplier o)), (same_raw p o), (bool_decide (xo_reason p = xo_reason o)).
  all: cbn; repeat (constructor; [rewrite ?elem_of_cons, ?elem_of_nil; intuition congruence|]); constructor.
Qed.

Lemma api_changes_context p o : Forall (λ e, ae_current e = o ∧ ae_previous e = Some p ∧ ae_lineNumber e = xo_lineNumber o) (api_changes p o).
Proof. unfold api_changes. repeat apply Forall_app_2; repeat case_match; try apply Forall_app_2; repeat case_match; by repeat constructor. Qed.

(** After any history of the API, pushing an observation emits exactly the
    differences from the last decoded one: an update is published, changed or
    cleared exactly when it starts being, is or stops being advertised; an
    error is reported exactly when the API was not already failing that way. *)
Theorem api_events_exact history o :
  let events := fst (push_api (api_detector_after history) o) in
  Forall (λ e, ae_current e = o ∧ ae_previous e = last_ok history ∧ ae_lineNumber e = xo_lineNumber o) events ∧
  NoDup (ae_type <$> events) ∧
  ∀ type, type ∈ ae_type <$> events ↔
    if is_ok_observation o then ∃ p, last_ok history = Some p ∧ api_differs type p o
    else type = (if bool_decide (xo_decodeStatus o = api_request_error) then API_REQUEST_ERROR else API_MALFORMED_RECORD) ∧
         failing_key history ≠ Some (error_key o).
Proof.
  destruct (api_detector_after_spec history) as [Ho He]. cbv zeta. unfold push_api. rewrite Ho, He. unfold is_ok_observation in *. destruct (bool_decide (xo_decodeStatus o = api_ok)) eqn:Hok; cbn [negb].
  - cbn [fst]. destruct (last_ok history) as [p|] eqn:Hp.
    + split_and!; [apply api_changes_context|rewrite api_changes_types; apply api_change_types_NoDup|].
      intros type. rewrite api_changes_types, api_change_types_spec. naive_solver.
    + split_and!; [constructor|constructor|]. intros type. cbn. rewrite elem_of_nil. naive_solver.
  - destruct (decide (failing_key history = Some (error_key o))) as [Hkey|Hkey];
      [rewrite bool_decide_eq_true_2 by done|rewrite bool_decide_eq_false_2 by done]; cbn [fst fmap list_fmap].
    + split_and!; [constructor|constructor|]. intros type. rewrite elem_of_nil. naive_solver.
    + split_and!; [by repeat constructor|apply NoDup_singleton|]. intros type. rewrite list_elem_of_singleton. naive_solver.
Qed.
