(* ===== verification/Correlation.v ===== *)
(** * kox-correlation.ts: API observations against chain observations

    The brackets in which a change was observed, the bounds they give on the
    time between two changes, the intervals of the API observations, and the
    correlation of both captures of one mint. Times are integer milliseconds. *)

From S2P Require Import Prelude Js Float64 Errors Kit Abi StateErrors CanonicalKey StateTypes ChainObservation Adapters Capture Events Timeline TimelineSpec XStocksApi.

Inductive CorrelationOutcome : Set :=
  NO_PENDING_UPDATE_OBSERVED | API_PENDING_CHAIN_NOT_YET_PENDING | API_AND_CHAIN_PENDING_AGREE | API_AND_CHAIN_PENDING_CONFLICT
| CHAIN_PENDING_OBSERVED_BEFORE_API_PENDING | INSUFFICIENT_API_COVERAGE | API_ACTIVATION_MATCHES_CHAIN_WITHIN_RESOLUTION
| API_ACTIVATION_DIFFERS_FROM_CHAIN.

#[export] Instance CorrelationOutcome_eq_dec : EqDecision CorrelationOutcome.
Proof. solve_decision. Defined.

Record ObservedBoundary := mkBoundary {
  bd_source : EvidenceSource;
  bd_firstObservedAt : string;
  bd_firstObservedMs : Z;
  bd_firstObservedLine : Z;
  bd_lastObservedBefore : option string;
  bd_lastObservedBeforeMs : option Z;
  bd_resolutionMs : option Z;
  bd_slot : option Z;
  bd_blockTime : option Z;
  bd_previousBlockTime : option Z;
}.

Inductive DeltaOrder : Set := API_BEFORE_CHAIN | CHAIN_BEFORE_API | UNRESOLVED_WITHIN_POLLING.

Record DeltaBounds := mkBounds { db_minExclusiveMs : option Z; db_maxInclusiveMs : Z; db_order : DeltaOrder }.

Inductive ApiIntervalKind : Set := API_STABLE | API_ERROR | API_CAPTURE_GAP.

#[export] Instance ApiIntervalKind_eq_dec : EqDecision ApiIntervalKind.
Proof. solve_decision. Defined.

Record ApiInterval := mkApiInterval {
  ai_kind : ApiIntervalKind;
  ai_firstWallclock : option string;
  ai_lastWallclock : option string;
  ai_firstLine : Z;
  ai_lastLine : Z;
  ai_observations : Z;
  ai_currentMultiplier : option jsnum;
  ai_newMultiplier : option jsnum;
  ai_activationDateTimeRaw : jsval;
  ai_reason : option string;
  ai_error : option string;
}.

Record CorrelationEvent := mkCorrelationEvent {
  ce_source : EvidenceSource;
  ce_wallclock : option string;
  ce_wallclockMs : option Z;
  ce_type : string;
  ce_detail : list string;
}.

(** The derived values of the result. *)
Record ApiAdvertised := mkAdvertised {
  av_newMultiplier : jsnum;
  av_newMultiplierHex : string;
  av_activationUnixMs : option Z;
  av_activationInterpretation : string;
  av_reason : option string;
}.

Record ChainPendingState := mkPendingState { cp_newMultiplierHex : string; cp_effectiveTimestamp : Z }.

Record Derived := mkDerived {
  dv_apiPendingFirstObservedAt : option ObservedBoundary;
  dv_apiAdvertised : option ApiAdvertised;
  dv_apiDistinctActivationValues : list string;
  dv_chainPendingFirstObservedAt : option ObservedBoundary;
  dv_chainPendingState : option ChainPendingState;
  dv_chainActivationFirstObservedAt : option ObservedBoundary;
  dv_chainMultiplierChangeFirstObservedAt : option ObservedBoundary;
}.

Record ActivationBracket := mkBracket { br_lastPending : option Z; br_firstActivated : option Z }.

Record TimingDeltas := mkDeltas {
  td_apiPublicationLead : option DeltaBounds;
  td_advertisedMinusChainEffectiveSecs : option Z;
  td_chainActivationBracketBlockTimes : option ActivationBracket;
}.

Record KOxCorrelation := mkCorrelation {
  kc_outcomes : list CorrelationOutcome;
  kc_derived : Derived;
  kc_timingDeltas : TimingDeltas;
  kc_apiIntervals : list ApiInterval;
  kc_chainTimeline : list TimelineEntry;
  kc_crossSourceEvents : list CorrelationEvent;
  kc_qualityApi : QualityMetrics;
  kc_qualityChain : QualityMetrics;
}.

Record CorrelationInput := mkCorrelationInput {
  ci_api : list XStocksApiObservation;
  ci_chain : list CaptureRecord;
  ci_mint : string;
  ci_symbol : string;
}.

Definition API_COVERAGE_MAX_LAG_MS : Z := CAPTURE_GAP_THRESHOLD_SECS * 1000.

(* ------------------------------------------------------------------ *)
(** ** [new Date(ms).toISOString()] *)

(** The last [n] decimal digits of a number. *)
Fixpoint fixed_digits (n : nat) (z : Z) : string :=
  match n with O => "" | S n => String (Ascii.ascii_of_nat (48 + Z.to_nat (z / 10 ^ Z.of_nat n mod 10))) (fixed_digits n z) end.

(** Year, month and day of a day number since 1970-01-01. *)
Definition civil_from_days (days : Z) : Z * Z * Z :=
  let z := days + 719468 in
  let era := z / 146097 in
  let doe := z - era * 146097 in
  let yoe := (doe - doe / 1460 + doe / 36524 - doe / 146096) / 365 in
  let doy := doe - (365 * yoe + yoe / 4 - yoe / 100) in
  let mp := (5 * doy + 2) / 153 in
  let d := doy - (153 * mp + 2) / 5 + 1 in
  let m := if mp <? 10 then mp + 3 else mp - 9 in
  (yoe + era * 400 + (if m <=? 2 then 1 else 0), m, d).

Definition toISOString (ms : Z) : string :=
  let '(y, m, d) := civil_from_days (ms / 86400000) in
  let t := ms mod 86400000 in
  let year := if (0 <=? y) && (y <=? 9999) then fixed_digits 4 y
              else (if y <? 0 then "-" else "+") +:+ fixed_digits 6 (Z.abs y) in
  year +:+ "-" +:+ fixed_digits 2 m +:+ "-" +:+ fixed_digits 2 d +:+ "T" +:+ fixed_digits 2 (t / 3600000) +:+ ":" +:+
  fixed_digits 2 (t / 60000 mod 60) +:+ ":" +:+ fixed_digits 2 (t / 1000 mod 60) +:+ "." +:+ fixed_digits 3 (t mod 1000) +:+ "Z".

Lemma toISOString_examples :
  map toISOString [0; 1789479000000; 951782399999; -1; 253402300799999; 253402300800000; -62167219200001] =
  ["1970-01-01T00:00:00.000Z"; "2026-09-15T13:30:00.000Z"; "2000-02-28T23:59:59.999Z"; "1969-12-31T23:59:59.999Z";
   "9999-12-31T23:59:59.999Z"; "+010000-01-01T00:00:00.000Z"; "-000001-12-31T23:59:59.999Z"].
Proof. vm_compute. reflexivity. Qed.

(* ------------------------------------------------------------------ *)
(** ** Brackets and bounds *)

(** The index of the first element at which a callback holds. *)
Fixpoint findIndex_from {A} (i : nat) (f : nat → A → bool) (l : list A) : option nat :=
  match l with [] => None | x :: l => if f i x then Some i else findIndex_from (S i) f l end.
Definition findIndex {A} (f : nat → A → bool) (l : list A) : option nat := findIndex_from 0 f l.

(** [l[index - 1]] past the first index. *)
Definition previous_at {A} (l : list A) (index : nat) : option A := match index with O => None | S i => l !! i end.

(** A decoded chain observation with its evidence. *)
Definition decodedChain (records : list CaptureRecord) (mint : string) : list (CaptureObservation * ChainObservation) :=
  omap (λ r, o ← observation_of mint r; decoded_pair o) records.

Definition ms_between (previous : option Z) (current : Z) : option Z := (λ p, current - p) <$> previous.

(** Bounds on (chain - api) from their brackets. *)
Definition deltaBounds (api chain : ObservedBoundary) : DeltaBounds :=
  let a1 := bd_firstObservedMs api in
  let c1 := bd_firstObservedMs chain in
  let a0 := bd_lastObservedBeforeMs api in
  let c0 := bd_lastObservedBeforeMs chain in
  let not_before (o : option Z) (t : Z) := match o with Some x => t <=? x | None => false end in
  mkBounds ((λ c0, c0 - a1) <$> c0) (match a0 with Some a0 => c1 - a0 | None => c1 end)
    (if not_before c0 a1 then API_BEFORE_CHAIN else if not_before a0 c1 then CHAIN_BEFORE_API else UNRESOLVED_WITHIN_POLLING).

Definition apiBoundary (ok : list XStocksApiObservation) (index : nat) : option ObservedBoundary :=
  current ← ok !! index;
  wallclock ← xo_wallclock current;
  ms ← xo_wallclockMs current;
  let previous := previous_at ok index in
  let previousMs := previous ≫= xo_wallclockMs in
  Some (mkBoundary SRC_LIVE_API_STATE wallclock ms (xo_lineNumber current) (previous ≫= xo_wallclock) previousMs
    (ms_between previousMs ms) None None None).

(* ------------------------------------------------------------------ *)
(** ** Intervals of the API observations *)

(** [open]: the interval being extended. *)
Record OpenApiInterval := mkOpenApi { oa_first : XStocksApiObservation; oa_last : XStocksApiObservation; oa_count : Z; oa_key : string }.

(** [flush]: the open interval is reported. *)
Definition closed_interval (o : OpenApiInterval) : ApiInterval :=
  let first := oa_first o in
  let last := oa_last o in
  mkApiInterval (if is_ok_observation first then API_STABLE else API_ERROR) (xo_wallclock first) (xo_wallclock last)
    (xo_lineNumber first) (xo_lineNumber last) (oa_count o) (xo_currentMultiplier first) (xo_newMultiplier first)
    (xo_activationDateTimeRaw first) (xo_reason first) (xo_error first).

Definition flush (open : option OpenApiInterval) : list ApiInterval := match open with Some o => [closed_interval o] | None => [] end.

Definition api_gap_interval (lastMs ms : Z) (o : XStocksApiObservation) : ApiInterval :=
  mkApiInterval API_CAPTURE_GAP (Some (toISOString lastMs)) (xo_wallclock o) (xo_lineNumber o) (xo_lineNumber o) 0 None None JNull None
    (Some (show_Z (ms - lastMs) +:+ " ms without an API observation")).

Definition num_js (n : option jsnum) : jsval := match n with Some n => JNum n | None => JNull end.

(** The key two observations of one interval share. *)
Definition interval_key (o : XStocksApiObservation) : string :=
  if is_ok_observation o
  then show_json (JArray [num_js (xo_currentMultiplier o); num_js (xo_newMultiplier o); xo_activationDateTimeRaw o;
         nullable_js JString (xo_reason o)])
  else error_key o.

(** What the loop keeps: the intervals so far, the open one and the last time. *)
Record ApiLoop := mkApiLoop { al_intervals : list ApiInterval; al_open : option OpenApiInterval; al_lastMs : option Z }.

Definition api_gap (lastMs : option Z) (o : XStocksApiObservation) : option (Z * Z) :=
  match xo_wallclockMs o, lastMs with
  | Some ms, Some last => if is_gap (ms - last) then Some (last, ms) else None
  | _, _ => None
  end.

Definition api_step (l : ApiLoop) (o : XStocksApiObservation) : ApiLoop :=
  let '(intervals, open) :=
    match api_gap (al_lastMs l) o with
    | Some (last, ms) => (al_intervals l ++ flush (al_open l) ++ [api_gap_interval last ms o], None)
    | None => (al_intervals l, al_open l)
    end in
  let lastMs := match xo_wallclockMs o with Some ms => Some ms | None => al_lastMs l end in
  let key := interval_key o in
  let fresh := mkApiLoop (intervals ++ flush open) (Some (mkOpenApi o o 1 key)) lastMs in
  match open with
  | Some i => if String.eqb (oa_key i) key then mkApiLoop intervals (Some (mkOpenApi (oa_first i) o (oa_count i + 1) (oa_key i))) lastMs else fresh
  | None => fresh
  end.

Definition apiIntervals (observations : list XStocksApiObservation) : list ApiInterval :=
  let l := fold_left api_step observations (mkApiLoop [] None None) in al_intervals l ++ flush (al_open l).

(* ------------------------------------------------------------------ *)
(** ** The correlation *)

Section Correlate.
  Variable other_date : string → option Z.

(** [ms(wallclock)]. *)
Definition ms_of (wallclock : option string) : option Z := wallclock ≫= Date_parse other_date.

Definition chainBoundary (observations : list (CaptureObservation * ChainObservation)) (index : nat) : option ObservedBoundary :=
  current ← fst <$> observations !! index;
  wallclock ← cap_wallclock current;
  ms ← ms_of (cap_wallclock current);
  let previous := fst <$> previous_at observations index in
  let previousMs := ms_of (previous ≫= cap_wallclock) in
  Some (mkBoundary SRC_LIVE_CHAIN_STATE wallclock ms (cap_lineNumber current) (previous ≫= cap_wallclock) previousMs
    (ms_between previousMs ms) (cap_slot current) (cap_blockTime current) (previous ≫= cap_blockTime)).

(** [o.evidence.hasScheduledChange && o.evidence.phase === 0]. *)
Definition chain_pending (e : ChainObservation) : bool := ob_hasScheduledChange e && bool_decide (ob_phase e = Some Pending).

Definition api_first_pending (ok : list XStocksApiObservation) : option nat := findIndex (λ _ o, is_pending o) ok.

Definition advertised (o : XStocksApiObservation) : option ApiAdvertised :=
  new ← xo_newMultiplier o;
  Some (mkAdvertised new (f64Hex new) (xo_activationTime o ≫= act_unixMs)
    (match xo_activationTime o with Some t => show_interpretation (act_interpretation t) | None => "none" end) (xo_reason o)).

(** [[...new Set(l)]]: the first occurrences, in order. *)
Fixpoint distinct (seen l : list string) : list string :=
  match l with
  | [] => []
  | s :: l => if bool_decide (s ∈ seen) then distinct seen l else s :: distinct (s :: seen) l
  end.

Definition pending_state (e : ChainObservation) : ChainPendingState :=
  mkPendingState (toHex (newMultiplier (ob_protectedState e))) (newMultiplierEffectiveTimestamp (ob_protectedState e)).

Section Indices.
  Variable chain : list (CaptureObservation * ChainObservation).

(** [chain[i - 1]?.evidence]. *)
Definition evidence_before (i : nat) : option ChainObservation := snd <$> previous_at chain i.

Definition first_pending : option nat := findIndex (λ _ o, chain_pending (snd o)) chain.

Definition first_activation : option nat :=
  findIndex (λ i o, Nat.ltb 0 i && bool_decide ((evidence_before i ≫= ob_phase) = Some Pending) &&
                    bool_decide (ob_phase (snd o) = Some Activated)) chain.

Definition first_multiplier_change : option nat :=
  findIndex (λ i o, Nat.ltb 0 i && negb (bool_decide (match evidence_before i with Some e => multiplier (ob_protectedState e) | None => [] end
                                                     = multiplier (ob_protectedState (snd o))))) chain.
End Indices.

Definition derive (ok : list XStocksApiObservation) (chain : list (CaptureObservation * ChainObservation)) : Derived :=
  let apiPending := api_first_pending ok ≫= λ i, ok !! i in
  mkDerived
    (api_first_pending ok ≫= apiBoundary ok)
    (apiPending ≫= advertised)
    (distinct [] (map raw_text (List.filter is_pending ok)))
    (first_pending chain ≫= chainBoundary chain)
    ((λ o, pending_state (snd o)) <$> (first_pending chain ≫= λ i, chain !! i))
    (first_activation chain ≫= chainBoundary chain)
    (first_multiplier_change chain ≫= chainBoundary chain).

Definition boundary_leb (a b : ObservedBoundary) : bool := bd_firstObservedMs a <=? bd_firstObservedMs b.

(** The earliest change of the chain. *)
Definition chain_change (d : Derived) : option ObservedBoundary :=
  head (sort_by boundary_leb (omap id [dv_chainPendingFirstObservedAt d; dv_chainMultiplierChangeFirstObservedAt d; dv_chainActivationFirstObservedAt d])).

Definition outcome_if (b : bool) (o : CorrelationOutcome) : list CorrelationOutcome := if b then [o] else [].

(** The last chain observation at or before a time; one without a time is never. *)
Definition chain_at (chain : list (CaptureObservation * ChainObservation)) (time : Z) : option ChainObservation :=
  snd <$> last (List.filter (λ o, match ms_of (cap_wallclock (fst o)) with Some ms => ms <=? time | None => false end) chain).

Definition not_yet_pending (chain : list (CaptureObservation * ChainObservation)) (d : Derived) : list CorrelationOutcome :=
  match dv_apiPendingFirstObservedAt d with
  | Some b =>
      match chain_at chain (bd_firstObservedMs b) with
      | Some e => outcome_if (negb (chain_pending e)) API_PENDING_CHAIN_NOT_YET_PENDING
      | None => []
      end
  | None => []
  end.

Definition pending_agreement (d : Derived) : list CorrelationOutcome :=
  match dv_apiAdvertised d, dv_chainPendingState d with
  | Some a, Some c =>
      let multiplierAgrees := String.eqb (av_newMultiplierHex a) (cp_newMultiplierHex c) in
      let activationAgrees := bool_decide (av_activationUnixMs a = Some (cp_effectiveTimestamp c * 1000)) in
      [if multiplierAgrees && activationAgrees then API_AND_CHAIN_PENDING_AGREE else API_AND_CHAIN_PENDING_CONFLICT]
  | _, _ => []
  end.

Definition time_within (f : Z → bool) (o : XStocksApiObservation) : bool := match xo_wallclockMs o with Some ms => f ms | None => false end.

Definition publication_order (api ok : list XStocksApiObservation) (d : Derived) : list CorrelationOutcome :=
  match dv_chainPendingFirstObservedAt d with
  | None => []
  | Some b =>
      let t := bd_firstObservedMs b in
      if existsb (λ o, is_pending o && time_within (λ ms, ms <=? t) o) ok then []
      else
        let coveredBefore := existsb (time_within (λ ms, (ms <=? t) && (t - ms <=? API_COVERAGE_MAX_LAG_MS))) api in
        [if coveredBefore then CHAIN_PENDING_OBSERVED_BEFORE_API_PENDING else INSUFFICIENT_API_COVERAGE]
  end.

(** The advertised activation against the effective timestamp: the outcome, the difference and the bracket. *)
Definition activation_timing (d : Derived) : list CorrelationOutcome * option Z * option ActivationBracket :=
  match dv_apiAdvertised d ≫= av_activationUnixMs, dv_chainPendingState d with
  | Some unixMs, Some c =>
      let difference := unixMs / 1000 - cp_effectiveTimestamp c in
      let bracket := (λ b, mkBracket (bd_previousBlockTime b) (bd_blockTime b)) <$> dv_chainActivationFirstObservedAt d in
      let resolutionSecs :=
        match bracket with
        | Some (mkBracket (Some lastPending) (Some firstActivated)) => firstActivated - lastPending
        | _ => CAPTURE_CADENCE_SECS
        end in
      ([if Z.abs difference <=? resolutionSecs then API_ACTIVATION_MATCHES_CHAIN_WITHIN_RESOLUTION else API_ACTIVATION_DIFFERS_FROM_CHAIN],
       Some difference, bracket)
  | _, _ => ([], None, None)
  end.

Definition outcomes_of (api ok : list XStocksApiObservation) (chain : list (CaptureObservation * ChainObservation)) (d : Derived)
    : list CorrelationOutcome :=
  outcome_if (bool_decide (dv_apiPendingFirstObservedAt d = None) && bool_decide (chain_change d = None)) NO_PENDING_UPDATE_OBSERVED ++
  not_yet_pending chain d ++ pending_agreement d ++ publication_order api ok d ++ (activation_timing d).1.1.

(** The events of both sources. *)
Definition api_correlation_event (e : ApiEvent) : CorrelationEvent :=
  mkCorrelationEvent SRC_LIVE_API_STATE (ae_wallclock e) (xo_wallclockMs (ae_current e)) (show_api_event (ae_type e)) (ae_detail e).

Definition show_event_type (t : ObservationEventType) : string :=
  match t with
  | SCALED_UI_STATE_CHANGED => "SCALED_UI_STATE_CHANGED" | ACTIVATION_PHASE_CHANGED => "ACTIVATION_PHASE_CHANGED"
  | PAUSE_STATE_CHANGED => "PAUSE_STATE_CHANGED" | STATE_SOURCE_CONFLICT => "STATE_SOURCE_CONFLICT" | DECODE_ERROR => "DECODE_ERROR"
  end.

Definition chain_event (wallclock : option string) (type : string) (detail : list string) : CorrelationEvent :=
  mkCorrelationEvent SRC_LIVE_CHAIN_STATE wallclock (ms_of wallclock) ("CHAIN_" +:+ type) detail.

(** The changes, errors and gaps of the chain timeline. *)
Definition chain_correlation_event (e : TimelineEntry) : option CorrelationEvent :=
  match te_body e with
  | STATE_CHANGE c => Some (chain_event (ch_wallclock c) "STATE_CHANGE" (map show_event_type (ch_events c) ++ ch_changedFields c))
  | DECODE_ERRORS r => Some (chain_event (er_firstWallclock r) "DECODE_ERROR" [er_code r])
  | CAPTURE_GAP g => Some (chain_event (Some (gap_toWallclock g)) "CAPTURE_GAP" [show_Z (gap_wallclockGapMs g) +:+ " ms gap"])
  | STABLE_INTERVAL _ | OBSERVATION _ => None
  end.

Definition source_rank (s : EvidenceSource) : Z := if bool_decide (s = SRC_LIVE_API_STATE) then 0 else 1.

(** Chronological, API before chain; an event without a time counts as 0. *)
Definition event_leb (a b : CorrelationEvent) : bool :=
  let ta := ce_wallclockMs a ?? 0 in
  let tb := ce_wallclockMs b ?? 0 in
  (ta <? tb) || ((ta =? tb) && (source_rank (ce_source a) <=? source_rank (ce_source b))).

Fixpoint api_events_from (d : XStocksApiEventDetector) (api : list XStocksApiObservation) : list ApiEvent :=
  match api with [] => [] | o :: api => let '(es, d) := push_api d o in es ++ api_events_from d api end.

Definition line_leb (a b : XStocksApiObservation) : bool := xo_lineNumber a <=? xo_lineNumber b.

(** [r.kind === "line-error" || r.mint === input.mint]. *)
Definition of_input (mint : string) (r : CaptureRecord) : bool :=
  match r with LineError _ => true | Observed o => String.eqb (cap_mint o) mint end.

Definition api_poll (o : XStocksApiObservation) : option PollPoint :=
  wallclock ← xo_wallclock o; ms ← xo_wallclockMs o;
  if is_ok_observation o then Some (mkPoint (xo_lineNumber o) wallclock ms None None) else None.

Definition correlateKOx (input : CorrelationInput) : KOxCorrelation :=
  let api := sort_by line_leb (ci_api input) in
  let ok := List.filter is_ok_observation api in
  let chainRecords := List.filter (of_input (ci_mint input)) (ci_chain input) in
  let chain := decodedChain (ci_chain input) (ci_mint input) in
  let d := derive ok chain in
  let '(_, difference, bracket) := activation_timing d in
  let timeline := buildTimeline other_date chainRecords (mkTimelineOptions (Some {[ci_symbol input]}) false) in
  let crossSourceEvents :=
    sort_by event_leb (map api_correlation_event (api_events_from new_api_detector api) ++ omap chain_correlation_event (tr_entries timeline)) in
  let apiPolls := omap api_poll api in
  let apiErrors := Z.of_nat (length (List.filter (λ o, negb (is_ok_observation o)) api)) in
  let polled := Z.of_nat (length (List.filter (λ o, bool_decide (xo_wallclockMs o ≠ None)) api)) in
  mkCorrelation (outcomes_of api ok chain d) d
    (mkDeltas
      (match dv_apiPendingFirstObservedAt d, dv_chainPendingFirstObservedAt d with Some a, Some c => Some (deltaBounds a c) | _, _ => None end)
      difference bracket)
    (apiIntervals api) (tr_entries timeline) crossSourceEvents
    (qualityMetrics apiPolls polled apiErrors (countGaps apiPolls))
    (tr_bySymbol timeline !! ci_symbol input ?? tr_overall timeline).
End Correlate.

(* ------------------------------------------------------------------ *)
(** ** Brackets *)

(** Case analysis on the integer comparisons of a goal. *)
Ltac leb_cases := repeat match goal with |- context [?x <=? ?y] => destruct (Z.leb_spec x y) end.

(** [t] is a time of the change a bracket is about: after the last observation
    without it, and not after the first one with it. *)
Definition in_bracket (b : ObservedBoundary) (t : Z) : Prop :=
  match bd_lastObservedBeforeMs b with Some before => before < t | None => 0 ≤ t end ∧ t ≤ bd_firstObservedMs b.

(** The bounds on the time from the API change to the chain change hold for
    every pair of times the brackets allow, and an order is only claimed when
    every such pair has it. *)
Lemma deltaBounds_bounds api chain ta tc (Hapi : in_bracket api ta) (Hchain : in_bracket chain tc) :
  let b := deltaBounds api chain in
  match db_minExclusiveMs b with Some min => min < tc - ta | None => True end ∧ tc - ta ≤ db_maxInclusiveMs b ∧
  match db_order b with API_BEFORE_CHAIN => ta < tc | CHAIN_BEFORE_API => tc < ta | UNRESOLVED_WITHIN_POLLING => True end.
Proof.
  destruct Hapi as [Ha Ha1], Hchain as [Hc Hc1]. cbv zeta. unfold deltaBounds. cbn [db_minExclusiveMs db_maxInclusiveMs db_order].
  destruct (bd_lastObservedBeforeMs api) as [a0|], (bd_lastObservedBeforeMs chain) as [c0|]; cbn [fmap option_fmap option_map].
  all: leb_cases; split_and!; lia.
Qed.

(** And the other way: where the brackets overlap no order is claimed. *)
Lemma deltaBounds_order_complete api chain :
  db_order (deltaBounds api chain) = UNRESOLVED_WITHIN_POLLING →
  bd_lastObservedBeforeMs api ≠ None → bd_lastObservedBeforeMs chain ≠ None →
  (∃ t, in_bracket api t) → (∃ t, in_bracket chain t) →
  ∃ ta tc, in_bracket api ta ∧ in_bracket chain tc ∧ ta = tc.
Proof.
  unfold deltaBounds, in_bracket. cbn [db_order].
  destruct (bd_lastObservedBeforeMs api) as [a0|], (bd_lastObservedBeforeMs chain) as [c0|]; try done.
  leb_cases; try done. intros _ _ _ (ta & ? & ?) (tc & ? & ?).
  exists (Z.min (bd_firstObservedMs api) (bd_firstObservedMs chain)), (Z.min (bd_firstObservedMs api) (bd_firstObservedMs chain)). lia.
Qed.

(* ------------------------------------------------------------------ *)
(** ** Intervals of the API *)

Definition is_api_gap (i : ApiInterval) : bool := bool_decide (ai_kind i = API_CAPTURE_GAP).

Definition api_times (l : list XStocksApiObservation) : list Z := omap xo_wallclockMs l.

(** The open interval of a run. *)
Definition open_run (run : list XStocksApiObservation) : option OpenApiInterval :=
  first ← head run; final ← last run; Some (mkOpenApi first final (Z.of_nat (length run)) (interval_key first)).

(** Observations that show the same, with no gap between them. *)
Record api_run_ok (run : list XStocksApiObservation) : Prop := {
  api_run_nonempty : run ≠ [];
  api_run_same : ∀ o o', o ∈ run → o' ∈ run → interval_key o = interval_key o';
  api_run_gapless : Forall (λ pair, is_gap (snd pair - fst pair) = false) (neighbours (api_times run));
}.

Lemma api_run_single o : api_run_ok [o].
Proof.
  split; [done| |].
  - by intros o1 o2 ->%list_elem_of_singleton ->%list_elem_of_singleton.
  - unfold api_times. cbn. destruct (xo_wallclockMs o); constructor.
Qed.

Lemma api_times_snoc l o : api_times (l ++ [o]) = api_times l ++ match xo_wallclockMs o with Some ms => [ms] | None => [] end.
Proof. unfold api_times. rewrite omap_app. cbn. by destruct (xo_wallclockMs o). Qed.

(** The gaps between neighbouring times. *)
Definition time_gaps (times : list Z) : Z := Z.of_nat (length (List.filter (λ pair, is_gap (snd pair - fst pair)) (neighbours times))).

Lemma time_gaps_snoc times t : time_gaps (times ++ [t]) =
  time_gaps times + match last times with Some s => if is_gap (t - s) then 1 else 0 | None => 0 end.
Proof.
  unfold time_gaps. rewrite neighbours_snoc, List.filter_app, length_app. destruct (last times) as [s|]; cbn; [|lia].
  destruct (is_gap _); cbn; lia.
Qed.

Record api_invariant (l : list XStocksApiObservation) (st : ApiLoop) (finished : list (list XStocksApiObservation))
    (current : list XStocksApiObservation) : Prop := {
  ai_split : concat finished ++ current = l;
  ai_finished : List.filter (λ i, negb (is_api_gap i)) (al_intervals st) = concat (map (λ run, flush (open_run run)) finished);
  ai_gaps : Z.of_nat (length (List.filter is_api_gap (al_intervals st))) = time_gaps (api_times l);
  ai_finished_ok : Forall api_run_ok finished;
  ai_open : al_open st = open_run current;
  ai_current_ok : l ≠ [] → api_run_ok current;
  ai_lastMs : al_lastMs st = last (api_times l);
}.

Lemma flush_not_gap o : List.filter (λ i, negb (is_api_gap i)) (flush o) = flush o ∧ List.filter is_api_gap (flush o) = [].
Proof. destruct o as [i|]; [|done]. unfold flush, closed_interval, is_api_gap. cbn. by destruct (is_ok_observation _). Qed.

Lemma open_run_key run i : api_run_ok run → open_run run = Some i → ∀ o, o ∈ run → interval_key o = oa_key i.
Proof.
  intros [_ Hsame _] Hi o Ho. unfold open_run in Hi. destruct run as [|first run]; [done|]. cbn [head mbind option_bind] in Hi.
  destruct (last (first :: run)); [|done]. cbn in Hi. injection Hi as <-. cbn. apply Hsame; [done|by constructor].
Qed.

Lemma open_run_extend run o i : open_run run = Some i → open_run (run ++ [o]) = Some (mkOpenApi (oa_first i) o (oa_count i + 1) (oa_key i)).
Proof.
  destruct run as [|first run]; [done|]. unfold open_run. cbn [head app]. rewrite app_comm_cons, last_snoc, length_app.
  cbn [mbind option_bind]. destruct (last (first :: run)); [|done]. cbn. intros [= <-]. cbn. do 2 f_equal. lia.
Qed.

Lemma api_run_extend run o i lastMs : api_run_ok run → open_run run = Some i → oa_key i = interval_key o →
  api_gap lastMs o = None → (∀ s, last (api_times run) = Some s → lastMs = Some s) → api_run_ok (run ++ [o]).
Proof.
  intros Hok Hi Hkey Hgap Hlast. pose proof (open_run_key _ _ Hok Hi) as Hk. destruct Hok as [Hne Hsame Hgapless]. split.
  - by destruct run.
  - assert (∀ x, x ∈ run ++ [o] → interval_key x = oa_key i) as Hall by (intros x [Hx| ->%list_elem_of_singleton]%elem_of_app; auto).
    intros x y Hx Hy. by rewrite (Hall x Hx), (Hall y Hy).
  - rewrite api_times_snoc. unfold api_gap in Hgap. destruct (xo_wallclockMs o) as [ms|]; [|by rewrite app_nil_r].
    rewrite neighbours_snoc. apply Forall_app_2; [done|]. destruct (last (api_times run)) as [s|]; [|done].
    apply Forall_singleton. rewrite (Hlast s eq_refl) in Hgap. cbn. by destruct (is_gap _).
Qed.

Lemma api_step_invariant l st finished current o : api_invariant l st finished current →
  ∃ finished' current', api_invariant (l ++ [o]) (api_step st o) finished' current'.
Proof.
  intros [Hsplit Hfin Hgaps Hfok Hopen Hcok Hms].
  assert (Hlast : match xo_wallclockMs o with Some ms => Some ms | None => al_lastMs st end = last (api_times (l ++ [o]))).
  { rewrite api_times_snoc. destruct (xo_wallclockMs o); [by rewrite last_snoc|by rewrite app_nil_r]. }
  assert (Hnewgaps : time_gaps (api_times (l ++ [o])) = time_gaps (api_times l) + match api_gap (al_lastMs st) o with Some _ => 1 | None => 0 end).
  { rewrite api_times_snoc. unfold api_gap. destruct (xo_wallclockMs o) as [ms|]; [|rewrite app_nil_r; lia].
    rewrite time_gaps_snoc, Hms. destruct (last (api_times l)) as [s|]; [|done]. by destruct (is_gap _). }
  (* the run is closed *)
  assert (Hclose : ∀ es, List.filter (λ i, negb (is_api_gap i)) es = [] →
    Z.of_nat (length (List.filter is_api_gap es)) = match api_gap (al_lastMs st) o with Some _ => 1 | None => 0 end →
    ∀ intervals, intervals ≡ₚ al_intervals st ++ flush (al_open st) ++ es →
      List.filter (λ i, negb (is_api_gap i)) intervals = List.filter (λ i, negb (is_api_gap i)) (al_intervals st ++ flush (al_open st) ++ es) →
    ∃ finished' current', api_invariant (l ++ [o])
      (mkApiLoop intervals (Some (mkOpenApi o o 1 (interval_key o))) (match xo_wallclockMs o with Some ms => Some ms | None => al_lastMs st end)) finished' current').
  { intros es Hes Hcount intervals Hperm Heq. exists (match current with [] => finished | _ => finished ++ [current] end), [o].
    assert (Hfl : concat (map (λ run, flush (open_run run)) match current with [] => finished | _ => finished ++ [current] end)
      = concat (map (λ run, flush (open_run run)) finished) ++ flush (open_run current)).
    { destruct current; [by rewrite app_nil_r|]. rewrite map_app, concat_app. cbn [map concat]. by rewrite app_nil_r. }
    destruct (flush_not_gap (al_open st)) as [Hf1 Hf2].
    split; cbn [al_intervals al_open al_lastMs]; auto using api_run_single.
    - rewrite <- Hsplit. destruct current; [by rewrite !app_nil_r|]. by rewrite concat_snoc.
    - rewrite Heq, !List.filter_app, Hf1, Hes, Hfin, Hfl, app_nil_r, Hopen. done.
    - rewrite Hperm, !List.filter_app, Hf2, length_app, Hnewgaps, <- Hgaps, <- Hcount. cbn [app]. lia.
    - destruct current as [|x rest]; [done|]. apply Forall_app_2; [done|]. apply Forall_singleton, Hcok. rewrite <- Hsplit. by destruct (concat finished). }
  unfold api_step. destruct (api_gap (al_lastMs st) o) as [[s ms]|] eqn:Hg.
  - apply (Hclose [api_gap_interval s ms o]); [done|done| |]; rewrite app_nil_r; done.
  - destruct (al_open st) as [i|] eqn:Hi; [destruct (String.eqb_spec (oa_key i) (interval_key o)) as [Hkey|Hkey]|].
    + exists finished, (current ++ [o]). assert (Hne : l ≠ []) by (intros ->; apply app_nil in Hsplit as [_ ->]; done).
      split; cbn [al_intervals al_open al_lastMs]; auto.
      * by rewrite app_assoc, Hsplit.
      * rewrite Hgaps, Hnewgaps. lia.
      * by rewrite (open_run_extend _ _ i).
      * intros _. apply (api_run_extend current o i (al_lastMs st)); auto. intros t Ht. rewrite Hms, <- Hsplit. unfold api_times in *.
        by rewrite omap_app, last_app, Ht.
    + apply (Hclose []); [done|done| |]; by rewrite ?app_nil_r.
    + apply (Hclose []); [done|done| |]; by rewrite ?app_nil_r.
Qed.

(** The API intervals lose nothing and span no gap: without the gap entries
    they are, in order, one per run of a split of the observations, with its
    ends and length; the observations of a run all show the same values or the
    same error, and there are exactly as many gap entries as neighbouring times
    at least 60 seconds apart. *)
Theorem apiIntervals_sound observations :
  let intervals := apiIntervals observations in
  ∃ runs, concat runs = observations ∧ Forall api_run_ok runs ∧
    List.filter (λ i, negb (is_api_gap i)) intervals = concat (map (λ run, flush (open_run run)) runs) ∧
    Z.of_nat (length (List.filter is_api_gap intervals)) = time_gaps (api_times observations).
Proof.
  cbv zeta. unfold apiIntervals. set (st := fold_left _ _ _).
  assert (∃ finished current, api_invariant observations st finished current) as (finished & current & [Hsplit Hfin Hgaps Hfok Hopen Hcok _]).
  { subst st. induction observations as [|o l (finished & current & IH)] using rev_ind.
    - exists [], []. by split.
    - rewrite fold_left_app. by eapply api_step_invariant. }
  destruct (flush_not_gap (al_open st)) as [Hf1 Hf2].
  exists (match current with [] => finished | _ => finished ++ [current] end). rewrite !List.filter_app, Hf1, Hf2, Hfin, Hopen, app_nil_r. split_and!; [| | |done].
  - rewrite <- Hsplit. destruct current; [by rewrite app_nil_r|apply concat_snoc].
  - destruct current as [|x rest]; [done|]. apply Forall_app_2; [done|]. apply Forall_singleton, Hcok. rewrite <- Hsplit. by destruct (concat finished).
  - destruct current; [by rewrite app_nil_r|]. rewrite map_app, concat_app. cbn [map concat]. by rewrite app_nil_r.
Qed.

(* ------------------------------------------------------------------ *)
(** ** The published lead *)

Lemma findIndex_from_spec {A} (f : nat → A → bool) l k i : findIndex_from k f l = Some i →
  ∃ n x, i = (k + n)%nat ∧ l !! n = Some x ∧ f i x = true ∧ (∀ j y, (j < n)%nat → l !! j = Some y → f (k + j)%nat y = false).
Proof.
  revert k. induction l as [|x l IH]; intros k; cbn; [done|]. destruct (f k x) eqn:Hf.
  - intros [= <-]. exists 0%nat, x. split_and!; [lia|done|done|lia].
  - intros (n & y & -> & Hn & Hy & Hall)%IH. exists (S n), y. split_and!; [lia|done|done|].
    intros [|j] z Hj Hz; [cbn in Hz; simplify_eq; by rewrite Nat.add_0_r|].
    rewrite <- Nat.add_succ_comm. apply Hall; [lia|exact Hz].
Qed.

Lemma findIndex_spec {A} (f : nat → A → bool) l i : findIndex f l = Some i →
  ∃ x, l !! i = Some x ∧ f i x = true ∧ ∀ j y, (j < i)%nat → l !! j = Some y → f j y = false.
Proof. intros (n & x & -> & H)%findIndex_from_spec. by exists x. Qed.

Lemma previous_at_S {A} (l : list A) i y : previous_at l i = Some y → ∃ j, i = S j ∧ l !! j = Some y.
Proof. destruct i as [|j]; [done|]. intros H. by exists j. Qed.

Section Lead.
  Variable other_date : string → option Z.
  Variables (ok : list XStocksApiObservation) (chain : list (CaptureObservation * ChainObservation)).
  Variables ta tc : Z.
  (** No change before 1970. *)
  Hypothesis Hta : 0 ≤ ta.
  Hypothesis Htc : 0 ≤ tc.
  (** The API announces the change from [ta] on. *)
  Hypothesis Hapi : ∀ o ms, o ∈ ok → xo_wallclockMs o = Some ms → is_pending o = (ta <=? ms).
  (** The mint is pending only from [tc] on, and an observation just before a
      pending one was made before [tc]. *)
  Hypothesis Hpending : ∀ o e ms, (o, e) ∈ chain → ms_of other_date (cap_wallclock o) = Some ms → chain_pending e = true → tc ≤ ms.
  Hypothesis Hbefore : ∀ i o e o' e' ms, chain !! i = Some (o, e) → chain !! S i = Some (o', e') →
    chain_pending e = false → chain_pending e' = true → ms_of other_date (cap_wallclock o) = Some ms → ms < tc.

Lemma api_pending_bracket b : (api_first_pending ok ≫= apiBoundary ok) = Some b → in_bracket b ta.
Proof.
  intros (i & Hi & Hb)%bind_Some. apply findIndex_spec in Hi as (o & Ho & Hp & Hfirst). unfold apiBoundary in Hb. rewrite Ho in Hb. cbn in Hb.
  destruct (xo_wallclock o) as [w|]; [|done]. destruct (xo_wallclockMs o) as [ms|] eqn:Hms; [|done]. cbn in Hb. injection Hb as <-.
  unfold in_bracket. cbn. split.
  - destruct (previous_at ok i ≫= xo_wallclockMs) as [s|] eqn:Hs; [|done].
    apply bind_Some in Hs as (p & (j & -> & Hj)%previous_at_S & Hps). assert (is_pending p = false) as Hpp by (apply (Hfirst j); [lia|done]).
    rewrite (Hapi p s) in Hpp; [lia|by eapply list_elem_of_lookup_2|done].
  - rewrite (Hapi o ms) in Hp; [lia|by eapply list_elem_of_lookup_2|done].
Qed.

Lemma chain_pending_bracket b : (first_pending chain ≫= chainBoundary other_date chain) = Some b → in_bracket b tc.
Proof.
  intros (i & Hi & Hb)%bind_Some. apply findIndex_spec in Hi as ([o e] & Ho & Hp & Hfirst). unfold chainBoundary in Hb. rewrite Ho in Hb. cbn in Hb, Hp.
  destruct (cap_wallclock o) as [w|] eqn:Hw; [|done]. cbn in Hb. destruct (Date_parse other_date w) as [ms|] eqn:Hms; [|done].
  injection Hb as <-. unfold in_bracket. cbn. split.
  - destruct (ms_of other_date _) as [s|] eqn:Hs; [|done].
    destruct (previous_at chain i) as [[p e']|] eqn:Hprev; [|done]. cbn in Hs. apply previous_at_S in Hprev as (j & -> & Hj).
    apply (Hbefore j p e' o e); auto. apply (Hfirst j _ (Nat.lt_succ_diag_r j) Hj).
  - apply (Hpending o e ms); [by eapply list_elem_of_lookup_2| |done]. rewrite Hw. exact Hms.
Qed.
End Lead.

(** The published lead of the API over the chain is right about the world:
    if the API announced the change at [ta] and the mint became pending at
    [tc], then whatever order and bounds the correlation reports hold of
    [tc - ta]. *)
Theorem publication_lead_sound other_date input ta tc b
  (ok := List.filter is_ok_observation (sort_by line_leb (ci_api input))) (chain := decodedChain (ci_chain input) (ci_mint input))
  (Hta : 0 ≤ ta) (Htc : 0 ≤ tc)
  (Hapi : ∀ o ms, o ∈ ok → xo_wallclockMs o = Some ms → is_pending o = (ta <=? ms))
  (Hpending : ∀ o e ms, (o, e) ∈ chain → ms_of other_date (cap_wallclock o) = Some ms → chain_pending e = true → tc ≤ ms)
  (Hbefore : ∀ i o e o' e' ms, chain !! i = Some (o, e) → chain !! S i = Some (o', e') → chain_pending e = false → chain_pending e' = true →
    ms_of other_date (cap_wallclock o) = Some ms → ms < tc)
  (Hlead : td_apiPublicationLead (kc_timingDeltas (correlateKOx other_date input)) = Some b) :
  match db_minExclusiveMs b with Some min => min < tc - ta | None => True end ∧ tc - ta ≤ db_maxInclusiveMs b ∧
  match db_order b with API_BEFORE_CHAIN => ta < tc | CHAIN_BEFORE_API => tc < ta | UNRESOLVED_WITHIN_POLLING => True end.
Proof.
  unfold correlateKOx in Hlead. fold ok chain in Hlead.
  destruct (activation_timing _) as [[? ?] ?]. cbn [kc_timingDeltas td_apiPublicationLead derive dv_apiPendingFirstObservedAt dv_chainPendingFirstObservedAt] in Hlead.
  destruct (api_first_pending ok ≫= apiBoundary ok) as [a|] eqn:Ha; [|done].
  destruct (first_pending chain ≫= chainBoundary other_date chain) as [c|] eqn:Hc; [|done].
  injection Hlead as <-. apply deltaBounds_bounds; [by eapply api_pending_bracket|by eapply chain_pending_bracket].
Qed.

(* ------------------------------------------------------------------ *)
(** ** A correlated capture *)

Definition api_sample (line ms : Z) (pending : bool) : XStocksApiObservation :=
  mkApiObservation line (Some "w") (Some ms) api_ok (Some (NumInt 1)) None JNull None None (Some pending) None "".

(** An observation at a block time, with or without a scheduled change. *)
Definition scheduled_sample (line : Z) (wallclock : string) (scheduled : bool) : CaptureObservation * ChainObservation :=
  let s := mkProtectedState (fromHex "000000000000f03f") (fromHex (if scheduled then "000000000000f83f" else "000000000000f03f")) 100 in
  let e := mkObservation "mint" None (Some line) (Some wallclock) (Some line) (NumInt 6) (Some false) s scheduled (Some (phaseAt s line)) in
  (mkCapture line (Some wallclock) None (Some line) (Some "KOx") None "mint" (Decoded e), e).

(** The API announces the change at 1789479010000, the chain has it a minute later. *)
Definition demo_correlation : CorrelationInput :=
  mkCorrelationInput [api_sample 2 1789479020000 true; api_sample 1 1789479000000 false]
    (map (λ p, Observed p.1) [scheduled_sample 1 "2026-09-15T13:31:00.000Z" false; scheduled_sample 2 "2026-09-15T13:31:30.000Z" true])
    "mint" "KOx".

Lemma publication_lead_sound_witness :
  (db_order <$> td_apiPublicationLead (kc_timingDeltas (correlateKOx (λ _, None) demo_correlation))) = Some API_BEFORE_CHAIN ∧
  1789479070000 - 1789479010000 ≤ 1789479090000 - 1789479000000.
Proof.
  split; [vm_compute; reflexivity|].
  destruct (publication_lead_sound (λ _, None) demo_correlation 1789479010000 1789479070000
    (mkBounds (Some 40000) 90000 API_BEFORE_CHAIN)) as (_ & Hmax & _).
  - done.
  - done.
  - assert (forallb (λ o, match xo_wallclockMs o with Some ms => Bool.eqb (is_pending o) (1789479010000 <=? ms) | None => true end)
      (List.filter is_ok_observation (sort_by line_leb (ci_api demo_correlation))) = true) as Hall by (vm_compute; reflexivity).
    intros o ms Ho Hms. rewrite List.forallb_forall in Hall. apply list_elem_of_In, Hall in Ho. rewrite Hms in Ho. by apply Bool.eqb_prop.
  - assert (forallb (λ p, match ms_of (λ _, None) (cap_wallclock p.1) with Some ms => implb (chain_pending p.2) (1789479070000 <=? ms) | None => true end)
      (decodedChain (ci_chain demo_correlation) (ci_mint demo_correlation)) = true) as Hall by (vm_compute; reflexivity).
    intros o e ms Ho Hms Hp. rewrite List.forallb_forall in Hall. apply list_elem_of_In, Hall in Ho. cbn [fst snd] in Ho.
    rewrite Hms, Hp in Ho. by apply Z.leb_le.
  - assert (ms_of (λ _, None) (Some "2026-09-15T13:31:00.000Z") = Some 1789479060000) as Hfirst by (vm_compute; reflexivity).
    intros [|[|i]] o e o' e' ms Ho Ho'; [|discriminate Ho'|discriminate Ho'].
    intros _ _. injection Ho as <- _. change (cap_wallclock _) with (Some "2026-09-15T13:31:00.000Z"). rewrite Hfirst. by intros [= <-].
  - vm_compute. reflexivity.
  - exact Hmax.
Defined.
