(* ===== verification/Decision.v ===== *)
(** * decision.ts: the representation decision

    Decides between the preferred representation, an offer that needs the
    user's consent, and no trade; the disclosure of an offer and its digest. A
    switch of issuer is never decided here. *)

From S2P Require Import Prelude Js Errors Kit Abi Sha256 StateErrors CanonicalKey StateTypes Normalize QuoteIdentity Compare.

Inductive Decision : Set :=
| USE_PREFERRED | REQUIRES_CONSENT | USE_ALTERNATIVE | NO_SAFE_ROUTE | NO_ACCEPTABLE_ROUTE | UNKNOWN_STATE.

Inductive DecisionReasonCode : Set :=
| PREFERRED_SAFE | PREFERRED_STATE_UNKNOWN | PREFERRED_STATE_CONFLICT | NO_ALTERNATIVE | ALTERNATIVE_STATE_UNKNOWN
| ALTERNATIVE_STATE_CONFLICT | ALTERNATIVE_NOT_SAFE | ALTERNATIVE_NOT_SAME_UNDERLYING | ALTERNATIVE_QUOTE_UNAVAILABLE
| QUOTE_COMPARISON_MISMATCH | QUOTE_COMPARISON_STALE_STATE | RC_ALTERNATIVE_OUTSIDE_TOLERANCE | RC_CONSENT_REQUIRED
| CONSENT_GIVEN.

#[export] Instance Decision_eq_dec : EqDecision Decision.
Proof. solve_decision. Defined.
#[export] Instance DecisionReasonCode_eq_dec : EqDecision DecisionReasonCode.
Proof. solve_decision. Defined.

Definition show_decision (d : Decision) : string :=
  match d with
  | USE_PREFERRED => "USE_PREFERRED"
  | REQUIRES_CONSENT => "REQUIRES_CONSENT"
  | USE_ALTERNATIVE => "USE_ALTERNATIVE"
  | NO_SAFE_ROUTE => "NO_SAFE_ROUTE"
  | NO_ACCEPTABLE_ROUTE => "NO_ACCEPTABLE_ROUTE"
  | UNKNOWN_STATE => "UNKNOWN_STATE"
  end.

Record ReroutePolicy := mkReroute { rp_maxAdditionalCostBps : Z }.

Definition DISCLOSURE_SHARE_DECIMALS : nat := 12.

Record RepresentationSummary := mkSummary {
  sum_issuer : Issuer;
  sum_symbol : string;
  sum_mint : string;
  sum_state : option RepresentationState;
  sum_stateSource : option StateSource;
}.

(** [Omit<RerouteDisclosure, "disclosureDigest">]. *)
Record DisclosureContent := mkContent {
  dc_underlying : string;
  dc_original : RepresentationSummary;
  dc_alternative : RepresentationSummary;
  dc_reason : string;
  dc_additionalCostBps : Z;
  dc_preferredSharesEquivalent : string;
  dc_alternativeSharesEquivalent : string;
  dc_economicEffect : EconomicEffect;
  dc_notice : string;
  dc_comparisonKey : string;
  dc_inputRaw : Z;
  dc_policyMaxAdditionalCostBps : Z;
}.

Record RerouteDisclosure := mkDisclosure { d_content : DisclosureContent; d_disclosureDigest : string }.

Record DecisionResult := mkDecision {
  dr_decision : Decision;
  dr_reasonCode : DecisionReasonCode;
  dr_reason : string;
  dr_preferred : ResolvedRepresentationState;
  dr_alternative : option ResolvedRepresentationState;
  dr_disclosure : option RerouteDisclosure;
}.

Record DecisionInput := mkInput {
  in_preferred : ResolvedRepresentationState;
  in_alternative : option ResolvedRepresentationState;
  in_reroutePolicy : ReroutePolicy;
  in_inputRaw : Z;
  in_comparison : option QuoteComparison;
}.

(** [mismatches.length > 0 ? mismatches.join("; ") : null]. *)
Definition join_or_null (mismatches : list string) : option string :=
  match mismatches with [] => None | _ => Some (join "; " mismatches) end.

Definition comparisonBindingMismatch (comparison : QuoteComparison) (preferred alternative : ResolvedRepresentationState)
    (inputRaw : Z) : option string :=
  join_or_null (
    problem_if (negb (String.eqb (cmp_underlying comparison) (rs_underlying preferred)))
      ("underlying " +:+ cmp_underlying comparison +:+ " != " +:+ rs_underlying preferred) ++
    problem_if (negb (String.eqb (cmp_preferredMint comparison) (rs_mint preferred)))
      ("preferredMint " +:+ cmp_preferredMint comparison +:+ " != " +:+ rs_mint preferred) ++
    problem_if (negb (String.eqb (cmp_alternativeMint comparison) (rs_mint alternative)))
      ("alternativeMint " +:+ cmp_alternativeMint comparison +:+ " != " +:+ rs_mint alternative) ++
    problem_if (negb (cmp_inputRaw comparison =? inputRaw))
      ("inputRaw " +:+ show_Z (cmp_inputRaw comparison) +:+ " != " +:+ show_Z inputRaw)).

(** [check(role, bound, state)]. *)
Definition state_mismatches (role : string) (bound : EconomicState) (state : ResolvedRepresentationState) : list string :=
  match economicStateOf (rs_chainObservation state) with
  | None => [role +:+ " " +:+ rs_symbol state +:+ ": no decoded chain state to bind"]
  | Some current => map (λ m, role +:+ " " +:+ rs_symbol state +:+ ": " +:+ m) (economicStateMismatches bound current)
  end.

Definition comparisonStateMismatch (comparison : QuoteComparison) (preferred alternative : ResolvedRepresentationState)
    : option string :=
  join_or_null (state_mismatches "preferred" (q_state (cmp_preferredQuote comparison)) preferred ++
                state_mismatches "alternative" (q_state (cmp_alternativeQuote comparison)) alternative).

Definition NOT_IDENTICAL_NOTICE : string :=
  "Representations from different issuers are associated with the same underlying equity but are not legally or economically identical.".

Definition summary (state : ResolvedRepresentationState) : RepresentationSummary :=
  mkSummary (rs_issuer state) (rs_symbol state) (rs_mint state) (rs_state state) (rs_stateSource state).

Inductive Unusable : Set := conflict | unknown.

Definition unusable (state : ResolvedRepresentationState) : option Unusable :=
  if bool_decide (rs_stateSource state = Some CONFLICT) then Some conflict
  else match rs_state state with None | Some UNKNOWN => Some unknown | _ => None end.

Definition exceedsCostLimit (comparison : QuoteComparison) (policy : ReroutePolicy) : option string :=
  if q_outputRaw (cmp_alternativeQuote comparison) <=? 0 then Some "the alternative quote delivers nothing"
  else if rp_maxAdditionalCostBps policy <? cmp_additionalCostBps comparison
  then Some ("switching costs " +:+ show_Z (cmp_additionalCostBps comparison) +:+ " bps more, above the "
             +:+ show_Z (rp_maxAdditionalCostBps policy) +:+ " bps maximum additional cost")
  else None.

(** ** The disclosure and its digest *)

Definition effect_value (e : EconomicEffect) : jsval :=
  match e with
  | ADDITIONAL_COST bps => JObject [("kind", JString "ADDITIONAL_COST"); ("bps", to_js bps)]
  | ECONOMICALLY_EQUAL => JObject [("kind", JString "ECONOMICALLY_EQUAL"); ("bps", to_js 0)]
  | BETTER_VALUE bps => JObject [("kind", JString "BETTER_VALUE"); ("bps", to_js bps)]
  end.

#[export] Instance effect_to_js : ToJs EconomicEffect.
Proof. refine {| to_js := effect_value |}. by intros [x| |x] [y| |y] [=]; subst. Defined.

Definition summary_value (s : RepresentationSummary) : jsval :=
  JObject [("issuer", to_js (sum_issuer s)); ("symbol", to_js (sum_symbol s)); ("mint", to_js (sum_mint s));
           ("state", to_js (sum_state s)); ("stateSource", to_js (sum_stateSource s))].

#[export] Instance summary_to_js : ToJs RepresentationSummary.
Proof. refine {| to_js := summary_value |}. intros [i s m st so] [i' s' m' st' so'] Heq. record_inj Heq. Defined.

Definition content_value (c : DisclosureContent) : jsval :=
  JObject [("underlying", to_js (dc_underlying c)); ("original", to_js (dc_original c)); ("alternative", to_js (dc_alternative c));
           ("reason", to_js (dc_reason c)); ("additionalCostBps", to_js (dc_additionalCostBps c));
           ("preferredSharesEquivalent", to_js (dc_preferredSharesEquivalent c));
           ("alternativeSharesEquivalent", to_js (dc_alternativeSharesEquivalent c));
           ("economicEffect", to_js (dc_economicEffect c)); ("notice", to_js (dc_notice c));
           ("comparisonKey", to_js (dc_comparisonKey c)); ("inputRaw", to_js (dc_inputRaw c));
           ("policyMaxAdditionalCostBps", to_js (dc_policyMaxAdditionalCostBps c))].

#[export] Instance content_to_js : ToJs DisclosureContent.
Proof.
  refine {| to_js := content_value |}. intros [u o a r c p q e n k i m] [u' o' a' r' c' p' q' e' n' k' i' m'] Heq. record_inj Heq.
Defined.

Definition disclosureDigestOf (disclosure : DisclosureContent) : result state_exn string :=
  key ← canonicalKey (to_js disclosure); Ok (sha256Hex key).

Definition disclosureFor (preferred alternative : ResolvedRepresentationState) (reason : string) (comparison : QuoteComparison)
    (inputRaw : Z) (policy : ReroutePolicy) : result state_exn RerouteDisclosure :=
  preferredShares ← formatRationalFloor (cmp_preferredSharesEquivalent comparison) DISCLOSURE_SHARE_DECIMALS;
  alternativeShares ← formatRationalFloor (cmp_alternativeSharesEquivalent comparison) DISCLOSURE_SHARE_DECIMALS;
  let content := mkContent (rs_underlying preferred) (summary preferred) (summary alternative) reason
    (cmp_additionalCostBps comparison) preferredShares alternativeShares
    (cmp_economicEffect comparison) NOT_IDENTICAL_NOTICE (cmp_comparisonKey comparison) inputRaw
    (rp_maxAdditionalCostBps policy) in
  digest ← disclosureDigestOf content; Ok (mkDisclosure content digest).

(** ** The decision *)

Definition decide_representation (input : DecisionInput) : result state_exn DecisionResult :=
  let preferred := in_preferred input in
  let reroutePolicy := in_reroutePolicy input in
  throw_if (rp_maxAdditionalCostBps reroutePolicy <? 0)
    (RangeThrown "reroute policy maxAdditionalCostBps must be a non-negative bigint");;
  let outcome decision reasonCode reason disclosure :=
    Ok (mkDecision decision reasonCode reason preferred (in_alternative input) disclosure) in
  match unusable preferred with
  | Some conflict => outcome UNKNOWN_STATE PREFERRED_STATE_CONFLICT (rs_symbol preferred +:+ ": " +:+ rs_reason preferred) None
  | Some unknown => outcome UNKNOWN_STATE PREFERRED_STATE_UNKNOWN (rs_symbol preferred +:+ ": " +:+ rs_reason preferred) None
  | None =>
  if bool_decide (rs_state preferred = Some SAFE)
  then outcome USE_PREFERRED PREFERRED_SAFE (rs_symbol preferred +:+ " is SAFE") None
  else
  let unsafeReason := rs_symbol preferred +:+ " is " +:+ show_option show_state (rs_state preferred) +:+ ": " +:+ rs_reason preferred in
  match in_alternative input with
  | None => outcome NO_SAFE_ROUTE NO_ALTERNATIVE (unsafeReason +:+ "; no alternative representation") None
  | Some alternative =>
  if negb (String.eqb (rs_underlying alternative) (rs_underlying preferred)) || String.eqb (rs_mint alternative) (rs_mint preferred)
  then outcome NO_SAFE_ROUTE ALTERNATIVE_NOT_SAME_UNDERLYING
    (rs_symbol alternative +:+ " is not an alternative representation of " +:+ rs_underlying preferred) None
  else
  let alternativeReason := unsafeReason +:+ "; " +:+ rs_symbol alternative +:+ ": " +:+ rs_reason alternative in
  match unusable alternative with
  | Some conflict => outcome UNKNOWN_STATE ALTERNATIVE_STATE_CONFLICT alternativeReason None
  | Some unknown => outcome UNKNOWN_STATE ALTERNATIVE_STATE_UNKNOWN alternativeReason None
  | None =>
  if negb (bool_decide (rs_state alternative = Some SAFE))
  then outcome NO_SAFE_ROUTE ALTERNATIVE_NOT_SAFE
    (unsafeReason +:+ "; " +:+ rs_symbol alternative +:+ " is " +:+ show_option show_state (rs_state alternative)) None
  else
  match in_comparison input with
  | None => outcome UNKNOWN_STATE ALTERNATIVE_QUOTE_UNAVAILABLE
      (unsafeReason +:+ "; " +:+ rs_symbol alternative +:+ " is SAFE but no normalized quote comparison is available") None
  | Some comparison =>
  match comparisonBindingMismatch comparison preferred alternative (in_inputRaw input) with
  | Some mismatch => outcome UNKNOWN_STATE QUOTE_COMPARISON_MISMATCH
      (unsafeReason +:+ "; quote comparison does not match this decision: " +:+ mismatch) None
  | None =>
  match comparisonStateMismatch comparison preferred alternative with
  | Some stale => outcome UNKNOWN_STATE QUOTE_COMPARISON_STALE_STATE
      (unsafeReason +:+ "; quote comparison was built against a different economic state and must be recomputed: " +:+ stale) None
  | None =>
  match exceedsCostLimit comparison reroutePolicy with
  | Some outside => outcome NO_ACCEPTABLE_ROUTE RC_ALTERNATIVE_OUTSIDE_TOLERANCE
      (unsafeReason +:+ "; " +:+ rs_symbol alternative +:+ " is SAFE but " +:+ outside) None
  | None =>
      disclosure ← disclosureFor preferred alternative unsafeReason comparison (in_inputRaw input) reroutePolicy;
      outcome REQUIRES_CONSENT RC_CONSENT_REQUIRED
        (unsafeReason +:+ "; " +:+ rs_symbol alternative +:+ " (" +:+ show_issuer (rs_issuer alternative) +:+ ") is SAFE")
        (Some disclosure)
  end end end end end end end.

(* ------------------------------------------------------------------ *)
(** ** The pieces of a decision *)

Lemma join_or_null_None l : join_or_null l = None ↔ l = [].
Proof. by destruct l. Qed.

(** A comparison made for this very trade. *)
Definition bound_comparison (c : QuoteComparison) (preferred alternative : ResolvedRepresentationState) (inputRaw : Z) : Prop :=
  cmp_underlying c = rs_underlying preferred ∧ cmp_preferredMint c = rs_mint preferred ∧
  cmp_alternativeMint c = rs_mint alternative ∧ cmp_inputRaw c = inputRaw.

Lemma comparisonBindingMismatch_None c p a i : comparisonBindingMismatch c p a i = None ↔ bound_comparison c p a i.
Proof.
  unfold comparisonBindingMismatch, bound_comparison.
  by rewrite join_or_null_None, !app_nil, !problem_if_nil, !negb_false_iff, !String.eqb_eq, Z.eqb_eq.
Qed.

(** The state a quote was normalized against is the one the chain shows now. *)
Definition current_state (bound : EconomicState) (r : ResolvedRepresentationState) : Prop :=
  ∃ s, economicStateOf (rs_chainObservation r) = Some s ∧ es_mint bound = es_mint s ∧
    num_strict_eq (es_decimals bound) (es_decimals s) = true ∧ es_multiplierHex bound = es_multiplierHex s ∧
    es_newMultiplierHex bound = es_newMultiplierHex s ∧ es_effectiveTimestamp bound = es_effectiveTimestamp s ∧
    es_phase bound = es_phase s ∧ es_paused bound = es_paused s.

Lemma state_mismatches_nil role bound r : state_mismatches role bound r = [] ↔ current_state bound r.
Proof.
  unfold state_mismatches, current_state. destruct (economicStateOf _) as [s|]; [|by split; [|intros (? & ? & _)]].
  assert (map (λ m, role +:+ " " +:+ rs_symbol r +:+ ": " +:+ m) (economicStateMismatches bound s) = [] ↔
    economicStateMismatches bound s = []) as -> by (destruct (economicStateMismatches bound s); by split).
  unfold economicStateMismatches.
  rewrite !app_nil, !field_mismatch_nil, !String.eqb_eq, !Z.eqb_eq, bool_decide_eq_true.
  split; [intros ?; exists s; tauto|intros (? & [= <-] & ?); tauto].
Qed.

Lemma comparisonStateMismatch_None c p a : comparisonStateMismatch c p a = None ↔
  current_state (q_state (cmp_preferredQuote c)) p ∧ current_state (q_state (cmp_alternativeQuote c)) a.
Proof. unfold comparisonStateMismatch. by rewrite join_or_null_None, app_nil, !state_mismatches_nil. Qed.

Definition within_limit (c : QuoteComparison) (policy : ReroutePolicy) : Prop :=
  0 < q_outputRaw (cmp_alternativeQuote c) ∧ cmp_additionalCostBps c ≤ rp_maxAdditionalCostBps policy.

Lemma exceedsCostLimit_None c policy : exceedsCostLimit c policy = None ↔ within_limit c policy.
Proof.
  unfold exceedsCostLimit, within_limit. destruct (Z.leb_spec (q_outputRaw (cmp_alternativeQuote c)) 0); [split; [done|lia]|].
  destruct (Z.ltb_spec (rp_maxAdditionalCostBps policy) (cmp_additionalCostBps c)); split; done || lia.
Qed.

(** A state the decision may rest on. *)
Definition usable (r : ResolvedRepresentationState) : Prop :=
  rs_stateSource r ≠ Some CONFLICT ∧ ∃ s, rs_state r = Some s ∧ s ≠ UNKNOWN.

Lemma unusable_None r : unusable r = None ↔ usable r.
Proof.
  unfold unusable, usable. case_bool_decide as Hc; [by split; [|intros []]|].
  destruct (rs_state r) as [[]|]; split; try done; [intros _; split; eauto..| |]; by intros (_ & ? & [= <-] & ?) || intros (_ & ? & ? & _).
Qed.

#[export] Instance effect_keyed : Keyed EconomicEffect.
Proof. by intros []. Qed.
#[export] Instance state_keyed : Keyed RepresentationState.
Proof. by intros []. Qed.
#[export] Instance source_keyed : Keyed StateSource.
Proof. by intros []. Qed.
#[export] Instance summary_keyed : Keyed RepresentationSummary.
Proof. by intros [? ? ? [] []]. Qed.
#[export] Instance content_keyed : Keyed DisclosureContent.
Proof. by intros [? [? ? ? [] []] [? ? ? [] []] ? ? ? ? [] ? ? ? ?]. Qed.

Lemma disclosureDigestOf_total c : ∃ d, disclosureDigestOf c = Ok d.
Proof.
  unfold disclosureDigestOf. pose proof (canonicalKey_ok (to_js c)) as Hk. rewrite (keyed c) in Hk.
  destruct (canonicalKey (to_js c)) as [k|]; [|discriminate]. by eexists.
Qed.

(** When a switch may be offered at all. *)
Record offerable (input : DecisionInput) (a : ResolvedRepresentationState) (c : QuoteComparison) : Prop := {
  of_preferred : usable (in_preferred input) ∧ rs_state (in_preferred input) ≠ Some SAFE;
  of_alternative : in_alternative input = Some a ∧ usable a ∧ rs_state a = Some SAFE;
  of_same_equity : rs_underlying a = rs_underlying (in_preferred input) ∧ rs_mint a ≠ rs_mint (in_preferred input);
  of_comparison : in_comparison input = Some c ∧ bound_comparison c (in_preferred input) a (in_inputRaw input);
  of_current : current_state (q_state (cmp_preferredQuote c)) (in_preferred input) ∧
               current_state (q_state (cmp_alternativeQuote c)) a;
  of_limit : within_limit c (in_reroutePolicy input);
}.

Lemma offerable_checks input a c : offerable input a c ↔
  unusable (in_preferred input) = None ∧ rs_state (in_preferred input) ≠ Some SAFE ∧ in_alternative input = Some a ∧
  negb (String.eqb (rs_underlying a) (rs_underlying (in_preferred input))) || String.eqb (rs_mint a) (rs_mint (in_preferred input)) = false ∧
  unusable a = None ∧ rs_state a = Some SAFE ∧ in_comparison input = Some c ∧
  comparisonBindingMismatch c (in_preferred input) a (in_inputRaw input) = None ∧
  comparisonStateMismatch c (in_preferred input) a = None ∧ exceedsCostLimit c (in_reroutePolicy input) = None.
Proof.
  rewrite !unusable_None, comparisonBindingMismatch_None, comparisonStateMismatch_None, exceedsCostLimit_None, orb_false_iff,
    negb_false_iff, String.eqb_eq, String.eqb_neq.
  split; [intros [[? ?] (? & ? & ?) [? ?] [? ?] ? ?]; tauto|].
  intros (? & ? & ? & [? ?] & ? & ? & ? & ? & ? & ?). by split.
Qed.

(** What an offer's disclosure says. *)
Definition discloses (d : RerouteDisclosure) (input : DecisionInput) (a : ResolvedRepresentationState) (c : QuoteComparison) : Prop :=
  dc_comparisonKey (d_content d) = cmp_comparisonKey c ∧ dc_additionalCostBps (d_content d) = cmp_additionalCostBps c ∧
  dc_economicEffect (d_content d) = cmp_economicEffect c ∧ dc_inputRaw (d_content d) = in_inputRaw input ∧
  dc_original (d_content d) = summary (in_preferred input) ∧ dc_alternative (d_content d) = summary a ∧
  dc_policyMaxAdditionalCostBps (d_content d) = rp_maxAdditionalCostBps (in_reroutePolicy input) ∧
  formatRationalFloor (cmp_preferredSharesEquivalent c) 12 = Ok (dc_preferredSharesEquivalent (d_content d)) ∧
  formatRationalFloor (cmp_alternativeSharesEquivalent c) 12 = Ok (dc_alternativeSharesEquivalent (d_content d)) ∧
  disclosureDigestOf (d_content d) = Ok (d_disclosureDigest d).

(** A comparison with a zero denominator, outside what [Rational] documents and
    what [compareQuotes] returns; the disclosure divides by it. *)
Definition zero_denominator (c : QuoteComparison) : Prop :=
  den (cmp_preferredSharesEquivalent c) = 0 ∨ den (cmp_alternativeSharesEquivalent c) = 0.

Lemma disclosureFor_Err p a reason c i policy e :
  disclosureFor p a reason c i policy = Err e → e = RangeThrown "Division by zero" ∧ zero_denominator c.
Proof.
  unfold disclosureFor, zero_denominator. cbv zeta.
  destruct (formatRationalFloor (cmp_preferredSharesEquivalent c) _) as [sp|e'] eqn:Hp; cbn [mbind result_bind].
  - destruct (formatRationalFloor (cmp_alternativeSharesEquivalent c) _) as [sa|e'] eqn:Ha; cbn [mbind result_bind].
    + match goal with |- context [disclosureDigestOf ?x] => destruct (disclosureDigestOf_total x) as [d ->] end. done.
    + intros [= <-]. apply formatRationalFloor_Err in Ha as [-> ?]. auto.
  - intros [= <-]. apply formatRationalFloor_Err in Hp as [-> ?]. auto.
Qed.

Lemma disclosureFor_Ok input a reason c d :
  disclosureFor (in_preferred input) a reason c (in_inputRaw input) (in_reroutePolicy input) = Ok d → discloses d input a c.
Proof.
  unfold disclosureFor. cbv zeta. intros Hd. apply bind_Ok in Hd as (sp & Hp & Hd). apply bind_Ok in Hd as (sa & Ha & Hd).
  apply bind_Ok in Hd as (g & Hg & [= <-]). by split_and!.
Qed.

(** A branch that decides without an offer. *)
Ltac refusal :=
  cbn [dr_decision dr_disclosure]; split; [discriminate|];
  split; [split; [discriminate|intros [?%unusable_None ?]; congruence]|];
  split; [split; [discriminate|intros (? & ? & (? & ? & ? & ? & ? & ? & ? & ? & ? & ?)%offerable_checks); simplify_eq/=; congruence]|];
  split; [by split; [intros []|]|discriminate].

(** Every branch of the decision. *)
Lemma decide_cases input (Hpolicy : 0 ≤ rp_maxAdditionalCostBps (in_reroutePolicy input)) :
  match decide_representation input with
  | Ok r =>
      dr_decision r ≠ USE_ALTERNATIVE ∧
      (dr_decision r = USE_PREFERRED ↔ usable (in_preferred input) ∧ rs_state (in_preferred input) = Some SAFE) ∧
      (dr_decision r = REQUIRES_CONSENT ↔ ∃ a c, offerable input a c) ∧
      (is_Some (dr_disclosure r) ↔ dr_decision r = REQUIRES_CONSENT) ∧
      (∀ d, dr_disclosure r = Some d → ∃ a c, offerable input a c ∧ discloses d input a c)
  | Err e => e = RangeThrown "Division by zero" ∧ ∃ a c, offerable input a c ∧ zero_denominator c
  end.
Proof.
  unfold decide_representation. cbv zeta. rewrite (proj2 (Z.ltb_ge _ 0) Hpolicy). cbn [throw_if mbind result_bind].
  destruct (unusable (in_preferred input)) as [[]|] eqn:Hup; [refusal..|].
  case_bool_decide as Hsafe.
  { cbn [dr_decision dr_disclosure].
    split; [discriminate|]. split; [by rewrite <- unusable_None|].
    split; [split; [discriminate|by intros (? & ? & (? & ? & _)%offerable_checks)]|]. by split; [split; [intros []|]|]. }
  destruct (in_alternative input) as [a|] eqn:Ha; [|refusal].
  destruct (_ || _) eqn:Hsame; [refusal|].
  destruct (unusable a) as [[]|] eqn:Hua; [refusal..|].
  case_bool_decide as Has; cbn [negb]; [|refusal].
  destruct (in_comparison input) as [c|] eqn:Hc; [|refusal].
  destruct (comparisonBindingMismatch _ _ _ _) eqn:Hb; [refusal|].
  destruct (comparisonStateMismatch _ _ _) eqn:Hs; [refusal|].
  destruct (exceedsCostLimit _ _) eqn:Hl; [refusal|].
  assert (offerable input a c) as Hoff by (apply offerable_checks; by split_and!).
  destruct (disclosureFor _ _ _ _ _ _) as [d|e] eqn:Hd; cbn [mbind result_bind].
  2: { apply disclosureFor_Err in Hd as [-> Hz]. split; [done|by exists a, c]. }
  cbn [dr_decision dr_disclosure]. split; [discriminate|]. split; [by split; [|intros []]|].
  split; [split; [intros _; by exists a, c|done]|]. split; [by split|]. intros ? [= <-]. exists a, c.
  split; [exact Hoff|by eapply disclosureFor_Ok].
Qed.

(** A usable and SAFE preferred representation is used, without a throw. *)
Lemma decide_preferred input (Hpolicy : 0 ≤ rp_maxAdditionalCostBps (in_reroutePolicy input)) :
  usable (in_preferred input) → rs_state (in_preferred input) = Some SAFE →
  ∃ r, decide_representation input = Ok r ∧ dr_decision r = USE_PREFERRED.
Proof.
  intros Hu Hs. pose proof (decide_cases input Hpolicy) as H. destruct (decide_representation input) as [r|e].
  - exists r. split; [done|]. by apply H.
  - exfalso. destruct H as (_ & a & c & [[_ Hne] _ _ _ _ _] & _). done.
Qed.


(** KOx inside its window, KOon safe, and a comparison of 100 USDC quotes for both. *)
Definition sample_chain_state (mint : string) : ProtectedState :=
  mkProtectedState (fromHex "000000000000f03f") (fromHex "9a9999999999f13f") 1700000000.

Definition sample_evidence (mint : string) : ChainEvidence :=
  Decoded (mkObservation mint (Some 1) None None (Some 1699999500) (NumInt 8) (Some false) (sample_chain_state mint) true (Some 0)).

Definition sample_resolved (issuer : Issuer) (symbol mint : string) (state : RepresentationState) : ResolvedRepresentationState :=
  mkResolved "KO" issuer symbol mint (Some state) (Some CHAIN) (Some state) None (Some 1) None None "sample"
    (Some (sample_evidence mint)) None (Some (mkPolicy 900 60 UNCALIBRATED "test")).

Definition KOx_mint : string := "XsaBXg8dU5cPM6ehmVctMkVqoiRG2ZjMo1cyBJ3AykQ".
Definition KOon_mint : string := "e6G4pfFcrdKxJuZ4YXixRFfMbpMvgXG2Mjcus71ondo".

Definition sample_side (mint : string) (outputRaw : Z) : QuoteIdentity :=
  mkQuote "KO" "EPjFWdd5AufqSSqeM2qN1xzybapC8G4wEGGkZwyTDt1v" mint 100000000 outputRaw (Some 140000000)
    (mkRouteIdentity "JUPITER_MAINNET_SNAPSHOT" "route-1" [mkLeg "Whirlpool" None None None (NumInt 100)])
    None (Some 446827429) (mkEconomic mint (NumInt 8) "000000000000f03f" "9a9999999999f13f" 1700000000 0 (Some false)).

Definition sample_switch : QuoteComparison := Eval vm_compute in
  ok_or sample_comparison
    (compareQuotes (mkNormalized (sample_side KOx_mint 143000000) xStocks) (mkNormalized (sample_side KOon_mint 142900000) Ondo)).

Definition sample_input : DecisionInput :=
  mkInput (sample_resolved xStocks "KOx" KOx_mint TRANSITION) (Some (sample_resolved Ondo "KOon" KOon_mint SAFE))
    (mkReroute 50) 100000000 (Some sample_switch).



(** The disclosure of that offer; its digest is never needed as a number. *)
Definition sample_content : DisclosureContent :=
  mkContent "KO" (summary (in_preferred sample_input)) (summary (sample_resolved Ondo "KOon" KOon_mint SAFE)) "KOx is TRANSITION: sample"
    (cmp_additionalCostBps sample_switch) "1.57300000000" "1.571900000000" (cmp_economicEffect sample_switch) NOT_IDENTICAL_NOTICE
    (cmp_comparisonKey sample_switch) 100000000 50.

Definition sample_digest : string := ok_or "" (disclosureDigestOf sample_content).

Lemma sample_digest_ok : disclosureDigestOf sample_content = Ok sample_digest.
Proof. unfold sample_digest. by destruct (disclosureDigestOf_total sample_content) as [d ->]. Qed.

Definition sample_decision : DecisionResult :=
  mkDecision REQUIRES_CONSENT RC_CONSENT_REQUIRED "KOon (Ondo) is SAFE" (in_preferred sample_input) (in_alternative sample_input)
    (Some (mkDisclosure sample_content sample_digest)).
