(* ===== verification/Consent.v ===== *)
(** * consent.ts: consent as a single-use capability

    A consent record is an object: its identity is a location of a heap, and
    [issued] and [consumed] are the module's two WeakSets of locations. A record
    is frozen when it is issued, so its fields never change; any other code may
    allocate records of the same shape, which are not consent. The operations
    take the store and return it with their result, also when they throw. *)

From stdpp Require Import gmap relations.
From S2P Require Import Prelude Js Errors Kit Abi Sha256 StateErrors CanonicalKey StateTypes Normalize QuoteIdentity Compare Decision.

Record ConsentRecord := mkConsent {
  co_consentId : string;
  co_comparisonKey : string;
  co_disclosureDigest : string;
  co_underlying : string;
  co_preferredMint : string;
  co_alternativeMint : string;
  co_inputRaw : Z;
  co_preferredQuoteKey : string;
  co_alternativeQuoteKey : string;
  co_additionalCostBps : Z;
  co_maxAdditionalCostBps : Z;
  co_issuedAtSlot : Z;
  co_expiresAtSlot : Z;
}.

Record ConsentStore := mkStore { heap : gmap positive ConsentRecord; issued : gset positive; consumed : gset positive }.

Definition empty_store : ConsentStore := mkStore ∅ ∅ ∅.

Record ConsentContext := mkContext {
  cx_decision : DecisionResult;
  cx_comparison : QuoteComparison;
  cx_reroutePolicy : ReroutePolicy;
  cx_currentSlot : Z;
}.

(** [if (b) add(code, detail)]. *)
Definition issue_if (b : bool) (code : ConsentErrorCode) (detail : string) : list ConsentIssue :=
  if b then [mkIssue code detail] else [].

(** The disclosure of a decision that asks for consent. *)
Definition asked_disclosure (decision : DecisionResult) : option RerouteDisclosure :=
  if bool_decide (dr_decision decision = REQUIRES_CONSENT) then dr_disclosure decision else None.

(** The second key is only computed when the first one agrees. *)
Definition quotes_changed (consent : ConsentRecord) (comparison : QuoteComparison) : result state_exn bool :=
  preferredKey ← quoteKey (cmp_preferredQuote comparison);
  if negb (String.eqb (co_preferredQuoteKey consent) preferredKey) then Ok true
  else alternativeKey ← quoteKey (cmp_alternativeQuote comparison); Ok (negb (String.eqb (co_alternativeQuoteKey consent) alternativeKey)).

(** The issues with a record that was issued, for a decision that asks for consent. *)
Definition record_issues (consent : ConsentRecord) (disclosure : RerouteDisclosure) (context : ConsentContext)
    : result state_exn (list ConsentIssue) :=
  let comparison := cx_comparison context in
  digest ← disclosureDigestOf (d_content disclosure);
  changed ← quotes_changed consent comparison;
  Ok (
    issue_if (negb (String.eqb (co_comparisonKey consent) (cmp_comparisonKey comparison))
              || negb (String.eqb (dc_comparisonKey (d_content disclosure)) (cmp_comparisonKey comparison)))
      COMPARISON_MISMATCH "consent was given to a different comparison" ++
    issue_if (negb (String.eqb (co_disclosureDigest consent) (d_disclosureDigest disclosure))
              || negb (String.eqb digest (d_disclosureDigest disclosure)))
      DISCLOSURE_MISMATCH "consent was given to a different disclosure" ++
    issue_if (negb (String.eqb (co_underlying consent) (cmp_underlying comparison))
              || negb (String.eqb (co_preferredMint consent) (cmp_preferredMint comparison))
              || negb (String.eqb (co_alternativeMint consent) (cmp_alternativeMint comparison))
              || negb (co_inputRaw consent =? cmp_inputRaw comparison))
      TRADE_MISMATCH "underlying, representations or input amount differ" ++
    issue_if changed QUOTE_MISMATCH "quotes, routes or economic states differ from the consented ones" ++
    issue_if (negb (co_additionalCostBps consent =? cmp_additionalCostBps comparison)) COST_MISMATCH
      (show_Z (co_additionalCostBps consent) +:+ " != " +:+ show_Z (cmp_additionalCostBps comparison) +:+ " bps") ++
    issue_if (co_maxAdditionalCostBps consent <? cmp_additionalCostBps comparison) COST_ABOVE_ACCEPTED_MAX
      (show_Z (cmp_additionalCostBps comparison) +:+ " bps > accepted " +:+ show_Z (co_maxAdditionalCostBps consent) +:+ " bps") ++
    match exceedsCostLimit comparison (cx_reroutePolicy context) with
    | Some policy => [mkIssue OUTSIDE_POLICY_COST_LIMIT policy]
    | None => []
    end).

Definition consentIssues (store : ConsentStore) (consent : positive) (context : ConsentContext) : result state_exn (list ConsentIssue) :=
  match (if bool_decide (consent ∈ issued store) then heap store !! consent else None) with
  | None => Ok [mkIssue NOT_ISSUED "consent records can only come from grantConsent"]
  | Some record =>
      let used := issue_if (bool_decide (consent ∈ consumed store)) CONSUMED
          ("consent " +:+ co_consentId record +:+ " was already used") ++
        issue_if (co_expiresAtSlot record <? cx_currentSlot context) EXPIRED
          ("slot " +:+ show_Z (cx_currentSlot context) +:+ " > expiresAtSlot " +:+ show_Z (co_expiresAtSlot record)) in
      match asked_disclosure (cx_decision context) with
      | None => Ok (used ++ [mkIssue NOT_A_CONSENT_DECISION ("decision is " +:+ show_decision (dr_decision (cx_decision context)))])
      | Some disclosure => issues ← record_issues record disclosure context; Ok (used ++ issues)
      end
  end.

Definition consent_record (nonce : string) (disclosure : RerouteDisclosure) (context : ConsentContext)
    (maxAdditionalCostBps validForSlots : Z) : result state_exn ConsentRecord :=
  let comparison := cx_comparison context in
  preferredKey ← quoteKey (cmp_preferredQuote comparison);
  alternativeKey ← quoteKey (cmp_alternativeQuote comparison);
  Ok (mkConsent nonce (dc_comparisonKey (d_content disclosure)) (d_disclosureDigest disclosure) (cmp_underlying comparison)
        (cmp_preferredMint comparison) (cmp_alternativeMint comparison) (cmp_inputRaw comparison) preferredKey alternativeKey
        (cmp_additionalCostBps comparison) maxAdditionalCostBps (cx_currentSlot context)
        (cx_currentSlot context + validForSlots)).

(** [issued.add(record)] on a newly allocated, frozen record. *)
Definition issue_record (store : ConsentStore) (record : ConsentRecord) : positive * ConsentStore :=
  let l := fresh (dom (heap store)) in
  (l, mkStore (<[l := record]> (heap store)) ({[l]} ∪ issued store) (consumed store)).

Definition mark_consumed (store : ConsentStore) (consent : positive) : ConsentStore :=
  mkStore (heap store) (issued store) ({[consent]} ∪ consumed store).

Definition grantConsent (nonce : string) (store : ConsentStore) (context : ConsentContext) (maxAdditionalCostBps validForSlots : Z)
    : result state_exn positive * ConsentStore :=
  let issue code detail := Err (ConsentThrown [mkIssue code detail]) in
  if (maxAdditionalCostBps <? 0) || (validForSlots <=? 0)
  then (issue INVALID_GRANT "maxAdditionalCostBps must be >= 0 and validForSlots > 0", store)
  else
  match asked_disclosure (cx_decision context) with
  | None => (issue NOT_A_CONSENT_DECISION ("decision is " +:+ show_decision (dr_decision (cx_decision context))), store)
  | Some disclosure =>
      match consent_record nonce disclosure context maxAdditionalCostBps validForSlots with
      | Err e => (Err e, store)
      | Ok record =>
          let '(l, store) := issue_record store record in
          match consentIssues store l context with
          | Err e => (Err e, store)
          | Ok [] => (Ok l, store)
          | Ok issues => (Err (ConsentThrown issues), mark_consumed store l)
          end
      end
  end.

Definition consumeConsent (store : ConsentStore) (consent : positive) (context : ConsentContext) : result state_exn unit * ConsentStore :=
  match consentIssues store consent context with
  | Err e => (Err e, store)
  | Ok [] => (Ok tt, mark_consumed store consent)
  | Ok issues => (Err (ConsentThrown issues), store)
  end.

(* ------------------------------------------------------------------ *)
(** ** What a consent authorizes *)

(** The record was given to this decision, comparison and trade. *)
Record matches (r : ConsentRecord) (d : RerouteDisclosure) (context : ConsentContext) : Prop := {
  ma_comparison : co_comparisonKey r = cmp_comparisonKey (cx_comparison context) ∧
                  dc_comparisonKey (d_content d) = cmp_comparisonKey (cx_comparison context);
  ma_disclosure : co_disclosureDigest r = d_disclosureDigest d ∧ disclosureDigestOf (d_content d) = Ok (d_disclosureDigest d);
  ma_trade : co_underlying r = cmp_underlying (cx_comparison context) ∧
             co_preferredMint r = cmp_preferredMint (cx_comparison context) ∧
             co_alternativeMint r = cmp_alternativeMint (cx_comparison context) ∧
             co_inputRaw r = cmp_inputRaw (cx_comparison context);
  ma_quotes : quoteKey (cmp_preferredQuote (cx_comparison context)) = Ok (co_preferredQuoteKey r) ∧
              quoteKey (cmp_alternativeQuote (cx_comparison context)) = Ok (co_alternativeQuoteKey r);
  ma_cost : co_additionalCostBps r = cmp_additionalCostBps (cx_comparison context) ∧
            cmp_additionalCostBps (cx_comparison context) ≤ co_maxAdditionalCostBps r;
  ma_limit : within_limit (cx_comparison context) (cx_reroutePolicy context);
}.

Record authorizes (store : ConsentStore) (l : positive) (context : ConsentContext) (r : ConsentRecord) (d : RerouteDisclosure) : Prop := {
  au_issued : l ∈ issued store ∧ heap store !! l = Some r;
  au_unused : l ∉ consumed store;
  au_live : cx_currentSlot context ≤ co_expiresAtSlot r;
  au_asked : asked_disclosure (cx_decision context) = Some d;
  au_matches : matches r d context;
}.

Lemma issue_if_nil b c m : issue_if b c m = [] ↔ b = false.
Proof. by destruct b. Qed.

Lemma quotes_changed_false r c : quotes_changed r c = Ok false ↔
  quoteKey (cmp_preferredQuote c) = Ok (co_preferredQuoteKey r) ∧ quoteKey (cmp_alternativeQuote c) = Ok (co_alternativeQuoteKey r).
Proof.
  unfold quotes_changed. destruct (quoteKey (cmp_preferredQuote c)) as [pk|e]; cbn [mbind result_bind]; [|by split; [|intros []]].
  destruct (String.eqb_spec (co_preferredQuoteKey r) pk) as [<-|Hne]; cbn [negb].
  - destruct (quoteKey (cmp_alternativeQuote c)) as [ak|e]; cbn [mbind result_bind]; [|by split; [|intros []]].
    split; [intros [= ->%negb_false_iff%String.eqb_eq]; done|intros [_ [= ->]]; by rewrite String.eqb_refl].
  - split; [done|]. intros [[= ->] _]. done.
Qed.

Lemma record_issues_nil r d context : record_issues r d context = Ok [] ↔ matches r d context.
Proof.
  unfold record_issues. cbv zeta. destruct (disclosureDigestOf_total (d_content d)) as [g Hg]. rewrite Hg. cbn [mbind result_bind].
  assert (∀ l, Ok (E := state_exn) l = Ok [] ↔ l = (@nil ConsentIssue)) as Hok by (by split; [intros [= ->]|intros ->]).
  assert (match exceedsCostLimit (cx_comparison context) (cx_reroutePolicy context) with
    | Some policy => [mkIssue OUTSIDE_POLICY_COST_LIMIT policy] | None => [] end = [] ↔
    within_limit (cx_comparison context) (cx_reroutePolicy context)) as Hlim.
  { rewrite <- exceedsCostLimit_None. destruct (exceedsCostLimit _ _); split; congruence. }
  split.
  - destruct (quotes_changed r (cx_comparison context)) as [ch|] eqn:Hch; [|done]. cbn [mbind result_bind].
    rewrite Hok, !app_nil, !issue_if_nil, !orb_false_iff, !negb_false_iff, !String.eqb_eq, !Z.eqb_eq, Z.ltb_ge, Hlim.
    intros (? & [? ->] & (((? & ?) & ?) & ?) & -> & ? & ? & ?). apply quotes_changed_false in Hch. split; auto.
  - intros [[? ?] [? Hd] (? & ? & ? & ?) Hq%quotes_changed_false [? ?] ?]. rewrite Hq. cbn [mbind result_bind]. rewrite Hg in Hd. injection Hd as ->.
    rewrite Hok, !app_nil, !issue_if_nil, !orb_false_iff, !negb_false_iff, !String.eqb_eq, !Z.eqb_eq, Z.ltb_ge, Hlim. tauto.
Qed.

Lemma consentIssues_nil store l context :
  consentIssues store l context = Ok [] ↔ ∃ r d, authorizes store l context r d.
Proof.
  unfold consentIssues. case_bool_decide as Hi.
  2: { split; [done|]. by intros (? & ? & [[? ?] _ _ _ _]). }
  destruct (heap store !! l) as [r|] eqn:Hr; [|by split; [|intros (? & ? & [[? ?] _ _ _ _]); simplify_eq]].
  destruct (asked_disclosure _) as [d|] eqn:Hd.
  2: { split; [intros [= (_ & ?)%app_nil]; done|]. intros (? & ? & [_ _ _ ? _]). congruence. }
  split.
  - destruct (record_issues r d context) as [iss|] eqn:Hri; [|done]. cbn [mbind result_bind].
    intros [= Hn]. rewrite !app_nil, !issue_if_nil, bool_decide_eq_false, Z.ltb_ge in Hn. destruct Hn as ((? & ?) & ->).
    apply record_issues_nil in Hri. by exists r, d.
  - intros (r' & d' & [[_ Hr'] Hu Hl Ha Hm]). simplify_eq. apply record_issues_nil in Hm as ->. cbn [mbind result_bind].
    by rewrite (bool_decide_eq_false_2 _ Hu), (proj2 (Z.ltb_ge _ _) Hl).
Qed.

(** ** The operations *)

Lemma consumeConsent_cases store l context res store' : consumeConsent store l context = (res, store') →
  (res = Ok tt ∧ (∃ r d, authorizes store l context r d) ∧ store' = mark_consumed store l) ∨
  (res ≠ Ok tt ∧ ¬ (∃ r d, authorizes store l context r d) ∧ store' = store).
Proof.
  unfold consumeConsent. rewrite <- consentIssues_nil.
  destruct (consentIssues store l context) as [[|i issues]|e]; intros [= <- <-]; [left|right; split_and!; discriminate || done..].
  by split_and!.
Qed.

Lemma record_issues_ok r d context pk ak :
  quoteKey (cmp_preferredQuote (cx_comparison context)) = Ok pk → quoteKey (cmp_alternativeQuote (cx_comparison context)) = Ok ak →
  ∃ issues, record_issues r d context = Ok issues.
Proof.
  intros Hp Ha. unfold record_issues, quotes_changed. cbv zeta. destruct (disclosureDigestOf_total (d_content d)) as [g ->].
  rewrite Hp, Ha. cbn [mbind result_bind]. destruct (negb (String.eqb (co_preferredQuoteKey r) pk)); by eexists.
Qed.

(** The store after a grant that got as far as issuing its record. *)
Definition issued_at (store : ConsentStore) (l : positive) (r : ConsentRecord) : ConsentStore :=
  mkStore (<[l := r]> (heap store)) ({[l]} ∪ issued store) (consumed store).

Lemma grantConsent_cases nonce store context most slots res store' : grantConsent nonce store context most slots = (res, store') →
  ((∃ e, res = Err e) ∧ store' = store) ∨
  ∃ l r d, heap store !! l = None ∧ 0 ≤ most ∧ 0 < slots ∧ asked_disclosure (cx_decision context) = Some d ∧
    consent_record nonce d context most slots = Ok r ∧
    ((res = Ok l ∧ store' = issued_at store l r ∧ ∃ r' d', authorizes store' l context r' d') ∨
     ((∃ e, res = Err e) ∧ store' = mark_consumed (issued_at store l r) l)).
Proof.
  unfold grantConsent. cbv zeta.
  destruct (_ || _) eqn:Hneg; [intros [= <- <-]; left; eauto|]. apply orb_false_iff in Hneg as [Hmost%Z.ltb_ge Hslots%Z.leb_gt].
  destruct (asked_disclosure (cx_decision context)) as [d|] eqn:Hd; [|intros [= <- <-]; left; eauto].
  destruct (consent_record nonce d context most slots) as [r|e] eqn:Hrec; [|intros [= <- <-]; left; eauto].
  unfold issue_record. cbv zeta. set (l := fresh (dom (heap store))). fold (issued_at store l r).
  assert (heap store !! l = None) as Hl by (apply not_elem_of_dom, is_fresh).
  intros Hrun. right. exists l, r, d. split_and!; [done..|].
  destruct (consentIssues (issued_at store l r) l context) as [[|i issues]|e] eqn:Hci.
  - injection Hrun as <- <-. left. split_and!; [done..|]. by apply consentIssues_nil.
  - injection Hrun as <- <-. right. eauto.
  - exfalso. unfold consentIssues, issued_at in Hci. cbn [issued heap consumed] in Hci.
    assert (l ∈ {[l]} ∪ issued store) as Hin by (by apply elem_of_union_l, elem_of_singleton).
    rewrite (bool_decide_eq_true_2 _ Hin), lookup_insert_eq, Hd in Hci.
    unfold consent_record in Hrec. apply bind_Ok in Hrec as (pk & Hpk & Hrec). apply bind_Ok in Hrec as (ak & Hak & _).
    destruct (record_issues_ok r d context pk ak Hpk Hak) as [is' Hri]. by rewrite Hri in Hci.
Qed.

(** A grant that would authorize its own decision is made. *)
Lemma grantConsent_accepts nonce store context most slots r d : 0 ≤ most → 0 < slots →
  asked_disclosure (cx_decision context) = Some d → consent_record nonce d context most slots = Ok r → matches r d context →
  let l := fresh (dom (heap store)) in
  l ∉ consumed store → cx_currentSlot context ≤ co_expiresAtSlot r →
  grantConsent nonce store context most slots = (Ok l, issued_at store l r).
Proof.
  intros Hm Hs Hd Hr Hma l Hu Hlive. unfold grantConsent. cbv zeta. rewrite (proj2 (Z.ltb_ge _ _) Hm), (proj2 (Z.leb_gt _ _) Hs). cbn [orb].
  rewrite Hd, Hr. unfold issue_record. cbv zeta. fold l. fold (issued_at store l r).
  rewrite (proj2 (consentIssues_nil (issued_at store l r) l context)); [done|]. exists r, d.
  split; [|done..]. cbn. split; [by apply elem_of_union_l, elem_of_singleton|apply lookup_insert_eq].
Qed.

Lemma consent_record_Ok nonce d context most slots r : consent_record nonce d context most slots = Ok r →
  co_maxAdditionalCostBps r = most ∧ co_issuedAtSlot r = cx_currentSlot context ∧
  co_expiresAtSlot r = cx_currentSlot context + slots ∧ co_additionalCostBps r = cmp_additionalCostBps (cx_comparison context) ∧
  co_consentId r = nonce.
Proof.
  unfold consent_record. cbv zeta. intros Hr. apply bind_Ok in Hr as (pk & _ & Hr). by apply bind_Ok in Hr as (ak & _ & [= <-]).
Qed.

(* ------------------------------------------------------------------ *)
(** ** The module as a transition system *)

(** What can happen to the store: some other code makes a record of its own,
    the user grants, an executor consumes. *)
Inductive consent_step : ConsentStore → ConsentStore → Prop :=
| step_allocate store l record : heap store !! l = None →
    consent_step store (mkStore (<[l := record]> (heap store)) (issued store) (consumed store))
| step_grant nonce store context most slots res store' :
    grantConsent nonce store context most slots = (res, store') → consent_step store store'
| step_consume store l context res store' : consumeConsent store l context = (res, store') → consent_step store store'.

Definition consent_reachable (store : ConsentStore) : Prop := rtc consent_step empty_store store.

(** The record [l] of [store] was made by a grant of its history: there the user
    was shown the disclosure [d] of the decision of [context], accepted [most] and
    [slots], and the new record passed the grant's own checks against that
    decision, comparison and policy. *)
Record granted (store : ConsentStore) (l : positive) (r : ConsentRecord) (d : RerouteDisclosure) (context : ConsentContext)
    (most slots : Z) : Prop := {
  gt_history : ∃ nonce before after, consent_reachable before ∧ grantConsent nonce before context most slots = (Ok l, after) ∧
    rtc consent_step after store ∧ heap before !! l = None ∧ heap after !! l = Some r ∧ consent_record nonce d context most slots = Ok r;
  gt_terms : 0 ≤ most ∧ 0 < slots;
  gt_asked : asked_disclosure (cx_decision context) = Some d;
  gt_matches : matches r d context;
}.

(** Only issued objects are consumed, and issued records exist. *)
Record store_inv (store : ConsentStore) : Prop := {
  inv_consumed : consumed store ⊆ issued store;
  inv_issued : issued store ⊆ dom (heap store);
}.

(** What a step keeps. *)
Record store_le (store store' : ConsentStore) : Prop := {
  le_heap : heap store ⊆ heap store';
  le_issued : issued store ⊆ issued store';
  le_consumed : consumed store ⊆ consumed store';
}.

#[export] Instance store_le_preorder : PreOrder store_le.
Proof. split; [by split|]. intros a b c [? ? ?] [? ? ?]. split; by etransitivity. Qed.

Lemma issued_at_le store l r : heap store !! l = None → store_le store (issued_at store l r).
Proof. intros Hl. split; cbn; [by apply insert_subseteq|set_solver|done]. Qed.

Lemma mark_consumed_le store l : store_le store (mark_consumed store l).
Proof. split; cbn; [done|done|set_solver]. Qed.

Lemma consent_step_le store store' : consent_step store store' → store_le store store'.
Proof.
  destruct 1 as [store l r Hl|nonce store context most slots res store' Hg|store l context res store' Hc].
  - split; cbn; [by apply insert_subseteq|done|done].
  - apply grantConsent_cases in Hg as [[_ ->]|(l & r & d & Hl & _ & _ & _ & _ & [(_ & -> & _)|[_ ->]])]; [done|by apply issued_at_le|].
    etransitivity; [by apply issued_at_le|apply mark_consumed_le].
  - apply consumeConsent_cases in Hc as [(_ & _ & ->)|(_ & _ & ->)]; [apply mark_consumed_le|done].
Qed.

Lemma consent_steps_le store store' : rtc consent_step store store' → store_le store store'.
Proof. induction 1; [done|]. etransitivity; [by apply consent_step_le|done]. Qed.

Lemma issued_at_inv store l r : store_inv store → store_inv (issued_at store l r).
Proof. intros [Hc Hi]. split; cbn; [set_solver|]. rewrite dom_insert. set_solver. Qed.

Lemma mark_consumed_inv store l : l ∈ issued store → store_inv store → store_inv (mark_consumed store l).
Proof. intros Hl [Hc Hi]. split; cbn; [set_solver|done]. Qed.

Lemma consent_step_inv store store' : consent_step store store' → store_inv store → store_inv store'.
Proof.
  destruct 1 as [store l r Hl|nonce store context most slots res store' Hg|store l context res store' Hc]; intros Hinv.
  - destruct Hinv as [Hc Hi]. split; cbn; [done|]. rewrite dom_insert. set_solver.
  - apply grantConsent_cases in Hg as [[_ ->]|(l & r & d & _ & _ & _ & _ & _ & [(_ & -> & _)|[_ ->]])]; [done|by apply issued_at_inv|].
    apply mark_consumed_inv; [cbn; set_solver|by apply issued_at_inv].
  - apply consumeConsent_cases in Hc as [(_ & (r & d & [[Hin _] _ _ _ _]) & ->)|(_ & _ & ->)]; [by apply mark_consumed_inv|done].
Qed.

Lemma store_inv_reachable store : consent_reachable store → store_inv store.
Proof.
  unfold consent_reachable. intros Hr. assert (store_inv empty_store) as H0 by (split; cbn; [done|set_solver]).
  induction Hr; [done|]. by eauto using consent_step_inv.
Qed.

Lemma granted_step store store' l r d context most slots :
  granted store l r d context most slots → consent_step store store' → granted store' l r d context most slots.
Proof.
  intros [(nonce & before & after & Hb & Hg & Hs & R) ? ? ?] H. split; try done. exists nonce, before, after.
  split_and!; try apply R; try done. by eapply rtc_r.
Qed.

(** A grant that returns its record has made it. *)
Lemma grant_granted nonce store context most slots l store' : consent_reachable store →
  grantConsent nonce store context most slots = (Ok l, store') →
  ∃ r d, store' = issued_at store l r ∧ granted store' l r d context most slots.
Proof.
  intros Hr Hg. pose proof Hg as [[[e [=]] _]|(l' & r & d & Hl & Hm & Hs & Hd & Hrec & [([= <-] & -> & r' & d' & [[_ Hr'] _ _ Hd' Hma])|[[e [=]] _]])]%grantConsent_cases.
  cbn in Hr'. rewrite lookup_insert_eq in Hr'. injection Hr' as <-. rewrite Hd in Hd'. injection Hd' as <-. exists r, d.
  split; [done|]. split; [|done..]. exists nonce, store, (issued_at store l r). split_and!; [done|exact Hg|done|done|apply lookup_insert_eq|done].
Qed.

(** Every issued record still unused was made by a grant of the history. *)
Lemma issued_granted store : consent_reachable store → ∀ l r, l ∈ issued store → l ∉ consumed store → heap store !! l = Some r →
  ∃ d context most slots, granted store l r d context most slots.
Proof.
  revert store. refine (rtc_ind_r (λ store, ∀ l r, l ∈ issued store → l ∉ consumed store → heap store !! l = Some r →
    ∃ d context most slots, granted store l r d context most slots) _ _ _); [by intros l r Hi%not_elem_of_empty|]. intros store store' Hsteps Hstep IH l r Hi Hu Hr.
  assert (l ∈ issued store → l ∉ consumed store → heap store !! l = Some r → ∃ d context most slots, granted store' l r d context most slots) as Hold.
  { intros Hi' Hu' Hr'. destruct (IH l r Hi' Hu' Hr') as (d & context & most & slots & H). exists d, context, most, slots. by eapply granted_step. }
  pose proof (store_inv_reachable _ Hsteps) as [_ Hdom].
  destruct Hstep as [store k record Hk|nonce store context most slots res store' Hg|store k context res store' Hc].
  - apply Hold; [done|done|]. cbn in Hi, Hr. rewrite lookup_insert_ne in Hr; [done|]. intros ->.
    apply Hdom, elem_of_dom in Hi as [? ?]. congruence.
  - pose proof Hg as [[_ ->]|(k & rk & d & Hk & _ & _ & _ & _ & Hres)]%grantConsent_cases; [by apply Hold|].
    destruct (decide (l = k)) as [->|Hne].
    + destruct Hres as [(-> & -> & _)|[_ ->]]; [|cbn in Hu; set_solver].
      destruct (grant_granted _ _ _ _ _ _ _ Hsteps Hg) as (r' & d' & [= E] & Hgr). cbn in Hr. rewrite lookup_insert_eq in Hr. injection Hr as <-.
      assert (rk = r') as <- by (by apply (f_equal (lookup k)) in E; rewrite !lookup_insert_eq in E; injection E).
      by exists d', context, most, slots.
    + destruct Hres as [(_ & -> & _)|[_ ->]]; cbn in Hi, Hu, Hr; rewrite lookup_insert_ne in Hr by done; apply Hold; set_solver.
  - apply consumeConsent_cases in Hc as [(_ & _ & ->)|(_ & _ & ->)]; [|by apply Hold]. cbn in Hi, Hu. apply Hold; set_solver.
Qed.

(* ------------------------------------------------------------------ *)
(** ** The contract of the module *)

Lemma quoteKey_Ok q k : quoteKey q = Ok k ↔ wf_quote q ∧ canonicalKey (to_js q) = Ok k.
Proof.
  unfold quoteKey, quoteIdentityOf. split.
  - intros Hq. apply bind_Ok in Hq as (q' & [Ht [= <-]]%then_Ok & Hk). by apply types_of_quote in Ht.
  - intros [Hw Hk]. apply (types_of_quote q tt) in Hw as ->. exact Hk.
Qed.

Lemma quoteKey_inj q q' k : quoteKey q = Ok k → quoteKey q' = Ok k → q = q'.
Proof. intros [_ H1]%quoteKey_Ok [_ H2]%quoteKey_Ok. apply to_js_inj. by eapply canonicalKey_inj. Qed.

(** Two disclosures with one digest. *)
Definition disclosure_collision (c c' : DisclosureContent) : Prop :=
  ∃ k k', canonicalKey (to_js c) = Ok k ∧ canonicalKey (to_js c') = Ok k' ∧ k ≠ k' ∧ sha256Hex k = sha256Hex k'.

Lemma disclosureDigest_binds c c' g : disclosureDigestOf c = Ok g → disclosureDigestOf c' = Ok g → c = c' ∨ disclosure_collision c c'.
Proof.
  unfold disclosureDigestOf. intros H1 H2. apply bind_Ok in H1 as (k & Hk & [= <-]). apply bind_Ok in H2 as (k' & Hk' & [= Heq]).
  destruct (decide (k = k')) as [<-|Hne]; [left; apply to_js_inj; by eapply canonicalKey_inj|right].
  exists k, k'. exact (conj Hk (conj Hk' (conj Hne (eq_sym Heq)))).
Qed.

(** In every reachable state only issued objects are marked used, issued
    records exist, and each unused one was made by a grant of the history: it
    carries the disclosure, comparison, maximum and slots of that grant. *)
Theorem consent_store_invariant store (Hr : consent_reachable store) :
  store_inv store ∧
  ∀ l r, l ∈ issued store → l ∉ consumed store → heap store !! l = Some r → ∃ d context most slots, granted store l r d context most slots.
Proof. split; [exact (store_inv_reachable store Hr)|exact (issued_granted store Hr)]. Qed.

(** A consent authorizes one reroute: once it was consumed no later
    consumption of it succeeds, whatever grants, consumptions and allocations
    happen in between and whatever decision it is presented for. *)
Theorem consent_single_use store l context store1 store2 context' res store3
    (Hfirst : consumeConsent store l context = (Ok tt, store1)) (Hsteps : rtc consent_step store1 store2)
    (Hagain : consumeConsent store2 l context' = (res, store3)) :
  (∃ e, res = Err e) ∧ store3 = store2.
Proof.
  apply consumeConsent_cases in Hfirst as [(_ & _ & ->)|(? & _)]; [|done].
  apply consent_steps_le in Hsteps as [_ _ Hc].
  apply consumeConsent_cases in Hagain as [(_ & (r & d & [_ Hu _ _ _]) & _)|(Hne & _ & ->)].
  - destruct Hu. apply Hc. cbn. set_solver.
  - split; [|done]. destruct res as [[]|e]; [done|by exists e].
Qed.

(** C38: a consumption succeeds exactly when the record was issued, is unused and
    unexpired, and matches the very decision, disclosure, comparison, trade,
    quotes and cost presented; any other attempt throws and changes nothing, and
    an object that was not issued is refused as NOT_ISSUED whatever its fields. *)
Theorem consumeConsent_exact store l context :
  ((∃ r d, authorizes store l context r d) → consumeConsent store l context = (Ok tt, mark_consumed store l)) ∧
  (¬ (∃ r d, authorizes store l context r d) → ∃ e, consumeConsent store l context = (Err e, store)) ∧
  (l ∉ issued store → consumeConsent store l context =
    (Err (ConsentThrown [mkIssue NOT_ISSUED "consent records can only come from grantConsent"]), store)).
Proof.
  destruct (consumeConsent store l context) as [res store'] eqn:Hc. pose proof Hc as Hcases.
  apply consumeConsent_cases in Hcases as [(-> & Ha & ->)|(Hne & Hna & ->)]; (split; [|split]).
  - done.
  - done.
  - intros Hl. by destruct Ha as (r & d & [[? _] _ _ _ _]).
  - done.
  - intros _. destruct res as [[]|e]; [done|by exists e].
  - intros Hl. rewrite <- Hc. unfold consumeConsent, consentIssues. by rewrite (bool_decide_eq_false_2 _ Hl).
Qed.

(** What a granted consent promises its user: until it expires or is used it
    can be consumed for the decision and comparison it was granted for, at every
    slot up to and including its last, whatever else the module did meanwhile. *)
Theorem granted_consent_live nonce store context most slots l store1 store2 slot
    (Hgrant : grantConsent nonce store context most slots = (Ok l, store1)) (Hsteps : rtc consent_step store1 store2)
    (Hunused : l ∉ consumed store2) (Hslot : slot ≤ cx_currentSlot context + slots) :
  consumeConsent store2 l (mkContext (cx_decision context) (cx_comparison context) (cx_reroutePolicy context) slot)
    = (Ok tt, mark_consumed store2 l).
Proof.
  apply grantConsent_cases in Hgrant as [[[e [=]] _]|(l' & r & d & Hl & _ & _ & Hd & Hr & [([= <-] & -> & r' & d' & Ha)|[[e [=]] _]])].
  apply consent_steps_le in Hsteps as [Hh Hi _]. destruct Ha as [[_ Hr'] _ _ Hd' Hm]. cbn in Hr', Hh, Hi.
  rewrite lookup_insert_eq in Hr'. injection Hr' as <-. apply consent_record_Ok in Hr as (_ & _ & Hexp & _).
  assert (authorizes store2 l (mkContext (cx_decision context) (cx_comparison context) (cx_reroutePolicy context) slot) r d').
  { split; [split; [set_solver|eapply lookup_weaken; [apply lookup_insert_eq|exact Hh]]|done|cbn; lia|done|].
    destruct Hm as [? ? ? ? ? ?]. by split. }
  destruct (consumeConsent _ _ _) as [res store3] eqn:Hc.
  apply consumeConsent_cases in Hc as [(-> & _ & ->)|(_ & Hna & _)]; [done|]. destruct Hna. eauto.
Qed.

(** C24: no reroute without the user: whatever made the state, a record that is
    consumed was returned by a grant earlier in its history, at a state it was
    not yet part of; in that grant the user was shown a disclosure that carries
    its own digest, the digest of the one consumed under (so it is that one, or
    the two are a collision), and the grant's own checks passed; the comparison
    consumed under has the same two quotes with their routes and states and the
    same cost, at most the accepted maximum, before the accepted slots are over. *)
Theorem consent_provenance store l context store' (Hr : consent_reachable store)
    (Hc : consumeConsent store l context = (Ok tt, store')) :
  ∃ r d d0 context0 most slots, granted store l r d0 context0 most slots ∧
    asked_disclosure (cx_decision context) = Some d ∧
    (d_content d = d_content d0 ∨ disclosure_collision (d_content d) (d_content d0)) ∧
    cmp_preferredQuote (cx_comparison context) = cmp_preferredQuote (cx_comparison context0) ∧
    cmp_alternativeQuote (cx_comparison context) = cmp_alternativeQuote (cx_comparison context0) ∧
    cmp_additionalCostBps (cx_comparison context) = cmp_additionalCostBps (cx_comparison context0) ∧
    cmp_additionalCostBps (cx_comparison context) ≤ most ∧
    cx_currentSlot context ≤ cx_currentSlot context0 + slots.
Proof.
  apply consumeConsent_cases in Hc as [(_ & (r & d & [[Hl Hlr] Hu Hlive Hd Hm]) & _)|(? & _)]; [|done].
  destruct (issued_granted store Hr l r Hl Hu Hlr) as (d0 & context0 & most & slots & Hg).
  exists r, d, d0, context0, most, slots. split; [done|]. split; [done|].
  destruct Hg as [(nonce & _ & _ & _ & _ & _ & _ & _ & Hrec) _ _ Hm0].
  pose proof (consent_record_Ok _ _ _ _ _ _ Hrec) as (Hmost & _ & Hexp & _).
  destruct Hm as [_ [Hdg Hdig] _ [Hp Ha] [Hco Hle] _], Hm0 as [_ [Hdg0 Hdig0] _ [Hp0 Ha0] [Hco0 _] _].
  split_and!; [| | |congruence|congruence|lia].
  - apply (disclosureDigest_binds _ _ (co_disclosureDigest r)); congruence.
  - by apply (quoteKey_inj _ _ (co_preferredQuoteKey r)).
  - by apply (quoteKey_inj _ _ (co_alternativeQuoteKey r)).
Qed.

(** One accepted offer: granted at slot 1000 for 100 slots, consumed, presented again. *)
Definition sample_context (slot : Z) : ConsentContext := mkContext sample_decision sample_switch (mkReroute 50) slot.

Definition sample_record : ConsentRecord := Eval vm_compute in
  mkConsent "nonce" (cmp_comparisonKey sample_switch) "" "KO" KOx_mint KOon_mint 100000000
    (ok_or "" (quoteKey (cmp_preferredQuote sample_switch))) (ok_or "" (quoteKey (cmp_alternativeQuote sample_switch)))
    (cmp_additionalCostBps sample_switch) 50 1000 1100.

(** The same with the digest of the disclosure. *)
Definition sample_consent : ConsentRecord :=
  let '(mkConsent i k _ u p a n pk ak c m f t) := sample_record in mkConsent i k sample_digest u p a n pk ak c m f t.

Lemma sample_keys : quoteKey (cmp_preferredQuote sample_switch) = Ok (co_preferredQuoteKey sample_record) ∧
  quoteKey (cmp_alternativeQuote sample_switch) = Ok (co_alternativeQuoteKey sample_record).
Proof. split; vm_compute; reflexivity. Qed.

Lemma sample_matches slot : matches sample_consent (mkDisclosure sample_content sample_digest) (sample_context slot).
Proof.
  split; cbn [cx_comparison cx_reroutePolicy sample_context d_content d_disclosureDigest].
  - by split.
  - split; [reflexivity|exact sample_digest_ok].
  - by split_and!.
  - exact sample_keys.
  - split; [reflexivity|lazy; discriminate].
  - split; vm_compute; [reflexivity|discriminate].
Qed.

Definition sample_granted : ConsentStore := issued_at empty_store 1 sample_consent.
Definition sample_consumed : ConsentStore := mark_consumed sample_granted 1.

Lemma sample_authorizes slot : slot ≤ 1100 →
  authorizes sample_granted 1 (sample_context slot) sample_consent (mkDisclosure sample_content sample_digest).
Proof.
  intros Hs. split; [by split; [apply elem_of_union_l, elem_of_singleton|]|apply not_elem_of_empty|exact Hs|reflexivity|apply sample_matches].
Qed.

Lemma sample_grant : grantConsent "nonce" empty_store (sample_context 1000) 50 100 = (Ok 1%positive, sample_granted).
Proof.
  apply (grantConsent_accepts "nonce" empty_store (sample_context 1000) 50 100 sample_consent (mkDisclosure sample_content sample_digest));
    [done|done|reflexivity| |apply sample_matches|apply not_elem_of_empty|lazy; discriminate].
  unfold consent_record. cbn [cx_comparison sample_context]. rewrite (proj1 sample_keys), (proj2 sample_keys). reflexivity.
Qed.

Lemma sample_consume slot : slot ≤ 1100 → consumeConsent sample_granted 1 (sample_context slot) = (Ok tt, sample_consumed).
Proof.
  intros Hs. unfold consumeConsent. rewrite (proj2 (consentIssues_nil _ _ _)); [done|].
  eexists _, _. by apply sample_authorizes.
Qed.

Lemma sample_reachable : consent_reachable sample_granted.
Proof. apply rtc_once. eapply step_grant, sample_grant. Qed.

Lemma consent_store_invariant_witness : consumed sample_consumed ⊆ issued sample_consumed ∧ 1%positive ∈ consumed sample_consumed.
Proof.
  split; [|by apply elem_of_union_l, elem_of_singleton]. refine (inv_consumed _ (proj1 (consent_store_invariant _ _))).
  eapply rtc_r; [exact sample_reachable|]. by apply (step_consume _ 1 (sample_context 1100) (Ok tt)), sample_consume.
Defined.

Lemma consent_single_use_witness :
  ∃ res store, consumeConsent sample_consumed 1 (sample_context 1100) = (res, store) ∧ (∃ e, res = Err e) ∧ store = sample_consumed.
Proof.
  destruct (consumeConsent sample_consumed 1 (sample_context 1100)) as [res store] eqn:Hc. exists res, store. split; [reflexivity|].
  apply (consent_single_use sample_granted 1 (sample_context 1000) sample_consumed sample_consumed (sample_context 1100));
    [by apply sample_consume|apply rtc_refl|exact Hc].
Defined.

Lemma granted_consent_live_witness :
  consumeConsent sample_granted 1 (sample_context 1100) = (Ok tt, mark_consumed sample_granted 1).
Proof.
  apply (granted_consent_live "nonce" empty_store (sample_context 1000) 50 100 1 sample_granted sample_granted 1100);
    [exact sample_grant|apply rtc_refl|apply not_elem_of_empty|lazy; discriminate].
Defined.

Lemma consent_provenance_witness :
  ∃ r d d0 context0 most slots, granted sample_granted 1 r d0 context0 most slots ∧ asked_disclosure sample_decision = Some d ∧
    cmp_alternativeQuote sample_switch = cmp_alternativeQuote (cx_comparison context0) ∧ 1000 ≤ cx_currentSlot context0 + slots.
Proof.
  destruct (consent_provenance sample_granted 1 (sample_context 1000) sample_consumed)
    as (r & d & d0 & context0 & most & slots & Hg & Hd & _ & _ & Hq & _ & _ & Hslot); [exact sample_reachable|by apply sample_consume|].
  exists r, d, d0, context0, most, slots. split; [exact Hg|]. split; [exact Hd|]. split; [exact Hq|exact Hslot].
Defined.
