(* ===== verification/Execution.v ===== *)
(** * execution.ts: whether a transaction can be built now

    Combines the representation decision with route and quote availability, the
    state binding of quotes, and consent; nothing is executable without a quote
    bound to the current chain state. *)

From stdpp Require Import gmap.
From S2P Require Import Prelude Js Errors Kit Abi StateErrors CanonicalKey StateTypes Normalize QuoteIdentity Compare Decision Consent.

Inductive RouteStatus : Set := AVAILABLE | UNAVAILABLE.

#[export] Instance RouteStatus_eq_dec : EqDecision RouteStatus.
Proof. solve_decision. Defined.

Record RouteObservation := mkRoute {
  ro_mint : string;
  ro_status : RouteStatus;
  ro_quote : option NormalizedQuote;
  ro_source : string;
  ro_detail : option string;
}.

Record ExecutionInput := mkExecution {
  ei_decision : DecisionInput;
  ei_preferredRoute : option RouteObservation;
  ei_alternativeRoute : option RouteObservation;
  ei_consent : option positive;
  ei_currentSlot : Z;
}.

Record ExecutionDecision := mkExecutionDecision {
  ed_stateDecision : DecisionResult;
  ed_comparison : option QuoteComparison;
  ed_executionEligibility : ExecutionEligibility;
  ed_executionReason : string;
  ed_selectedRepresentation : option RepresentationSummary;
  ed_selectedRouteAvailable : option bool;
  ed_quoteAvailable : bool;
  ed_consentRequired : bool;
  ed_executableQuote : option QuoteIdentity;
  ed_quoteMismatches : list QuoteMismatch;
  ed_consent : option positive;
  ed_consentIssues : list ConsentIssue;
  ed_reroutePolicy : ReroutePolicy;
  ed_currentSlot : Z;
  ed_transitionPolicy : option TransitionPolicy;
}.

Definition routeFor (route : option RouteObservation) (representation : option ResolvedRepresentationState) : option RouteObservation :=
  match route, representation with
  | Some route, Some representation => if String.eqb (ro_mint route) (rs_mint representation) then Some route else None
  | _, _ => None
  end.

Record Applied := mkApplied { ap_stateDecision : DecisionResult; ap_consent : option positive; ap_issues : list ConsentIssue }.

(** The decision a consent turns an offer into. *)
Definition consented (base : DecisionResult) (consent : ConsentRecord) : DecisionResult :=
  mkDecision USE_ALTERNATIVE CONSENT_GIVEN
    (dr_reason base +:+ "; consent " +:+ String.substring 0 12 (co_consentId consent) +:+ "… accepts this exact disclosure ("
     +:+ show_Z (co_additionalCostBps consent) +:+ " bps, max " +:+ show_Z (co_maxAdditionalCostBps consent) +:+ " bps, until slot "
     +:+ show_Z (co_expiresAtSlot consent) +:+ ")")
    (dr_preferred base) (dr_alternative base) (dr_disclosure base).

Definition applyConsent (store : ConsentStore) (base : DecisionResult) (input : ExecutionInput) : result state_exn Applied :=
  match bool_decide (dr_decision base = REQUIRES_CONSENT), ei_consent input, in_comparison (ei_decision input) with
  | true, Some consent, Some comparison =>
      issues ← consentIssues store consent
        (mkContext base comparison (in_reroutePolicy (ei_decision input)) (ei_currentSlot input));
      match issues, heap store !! consent with
      | [], Some record => Ok (mkApplied (consented base record) (Some consent) [])
      | _, _ => Ok (mkApplied base None issues)
      end
  | _, _, _ => Ok (mkApplied base None [])
  end.

(** The optional fields of a result. *)
Record Fields := mkFields {
  f_selectedRepresentation : option RepresentationSummary;
  f_selectedRouteAvailable : option bool;
  f_quoteAvailable : bool;
  f_executableQuote : option QuoteIdentity;
  f_quoteMismatches : list QuoteMismatch;
  f_transitionPolicy : option TransitionPolicy;
}.

Definition no_fields : Fields := mkFields None None false None [] None.
Definition quoted : Fields := mkFields None None true None [] None.
Definition selecting (r : ResolvedRepresentationState) (available : option bool) (quoteAvailable : bool) : Fields :=
  mkFields (Some (summary r)) available quoteAvailable None [] None.

Definition execution_result (input : ExecutionInput) (applied : Applied) (eligibility : ExecutionEligibility) (reason : string)
    (fields : Fields) : ExecutionDecision :=
  mkExecutionDecision (ap_stateDecision applied) (in_comparison (ei_decision input)) eligibility reason
    (f_selectedRepresentation fields) (f_selectedRouteAvailable fields) (f_quoteAvailable fields)
    (bool_decide (dr_decision (ap_stateDecision applied) = REQUIRES_CONSENT))
    (f_executableQuote fields) (f_quoteMismatches fields) (ap_consent applied) (ap_issues applied)
    (in_reroutePolicy (ei_decision input)) (ei_currentSlot input) (f_transitionPolicy fields).

Definition is_available (route : RouteObservation) : bool := bool_decide (ro_status route = AVAILABLE).

(** [case Decision.USE_PREFERRED]. *)
Definition execute_preferred (input : ExecutionInput) (applied : Applied) (preferred : ResolvedRepresentationState)
    (route : option RouteObservation) : result state_exn ExecutionDecision :=
  let outcome eligibility reason fields := Ok (execution_result input applied eligibility (rs_symbol preferred +:+ reason) fields) in
  match economicStateOf (rs_chainObservation preferred) with
  | None => outcome STATE_UNKNOWN (" has no authoritative live chain state (state source "
        +:+ show_option show_source (rs_stateSource preferred) +:+ ")") (selecting preferred None false)
  | Some current =>
  match (route ← route; if is_available route then Some route else None) with
  | None => outcome ROUTE_UNAVAILABLE (" is SAFE but has no available route" +:+
        match route ≫= ro_detail with Some detail => if String.eqb detail "" then "" else ": " +:+ detail | None => "" end)
      (selecting preferred (Some false) false)
  | Some available =>
  match nq_quote <$> ro_quote available with
  | None => outcome QUOTE_UNAVAILABLE " is SAFE and routable but no usable quote exists" (selecting preferred (Some true) false)
  | Some quote =>
  let fields := selecting preferred (Some true) true in
  if negb (String.eqb (q_mint quote) (rs_mint preferred)) || negb (String.eqb (q_underlying quote) (rs_underlying preferred))
     || negb (q_inputRaw quote =? in_inputRaw (ei_decision input))
  then outcome EL_QUOTE_MISMATCH " quote does not belong to this trade" fields
  else
  match economicStateMismatches (q_state quote) current with
  | _ :: _ as stale => outcome STALE_COMPARISON (" quote was built against a different economic state: " +:+ join "; " stale) fields
  | [] =>
  match rs_transitionPolicy preferred with
  | None => outcome POLICY_MISMATCH " has no transition policy bound to its classification" fields
  | Some policy =>
      identity ← quoteIdentityOf quote;
      outcome EXECUTABLE " is SAFE, routable, and quoted against its current state"
        (mkFields (Some (summary preferred)) (Some true) true (Some identity) [] (Some policy))
  end end end end end.

(** Both policies are present and have one key. *)
Definition same_policy (chosen preferred : ResolvedRepresentationState) : result state_exn (option TransitionPolicy) :=
  match rs_transitionPolicy chosen, rs_transitionPolicy preferred with
  | Some policy, Some other =>
      key ← canonicalKey (to_js policy); otherKey ← canonicalKey (to_js other);
      Ok (if String.eqb key otherKey then Some policy else None)
  | _, _ => Ok None
  end.

(** [case Decision.USE_ALTERNATIVE]; [maxAdditionalCostBps] is the consent's. *)
Definition execute_alternative (input : ExecutionInput) (applied : Applied) (preferred chosen : ResolvedRepresentationState)
    (comparison : QuoteComparison) (maxAdditionalCostBps : Z) (route : option RouteObservation) : result state_exn ExecutionDecision :=
  let outcome eligibility reason fields := Ok (execution_result input applied eligibility reason fields) in
  match economicStateOf (rs_chainObservation chosen), economicStateOf (rs_chainObservation preferred) with
  | Some _, Some _ =>
  match (route ← route; if is_available route then Some route else None) with
  | None => outcome ROUTE_UNAVAILABLE (rs_symbol chosen +:+ " has no available route") (selecting chosen (Some false) true)
  | Some available =>
  match nq_quote <$> ro_quote available with
  | None => outcome QUOTE_UNAVAILABLE (rs_symbol chosen +:+ " is routable but the route carries no quote to execute")
      (selecting chosen (Some true) false)
  | Some quote =>
  match exceedsCostLimit comparison (in_reroutePolicy (ei_decision input)),
        maxAdditionalCostBps <? cmp_additionalCostBps comparison with
  | Some outside, _ => outcome ALTERNATIVE_OUTSIDE_TOLERANCE (rs_symbol chosen +:+ ": " +:+ outside) (selecting chosen None true)
  | None, true => outcome ALTERNATIVE_OUTSIDE_TOLERANCE (rs_symbol chosen +:+ ": cost above the accepted maximum") (selecting chosen None true)
  | None, false =>
  substituted ← quoteMismatches (cmp_alternativeQuote comparison) quote;
  match substituted with
  | _ :: _ => outcome EL_QUOTE_MISMATCH (rs_symbol chosen +:+ " route quote is not the compared quote: "
        +:+ join ", " (map (λ m, show_mismatch_code (qm_code m)) substituted))
      (mkFields (Some (summary chosen)) (Some true) true None substituted None)
  | [] =>
  policy ← same_policy chosen preferred;
  match policy with
  | None => outcome POLICY_MISMATCH (rs_symbol preferred +:+ " and " +:+ rs_symbol chosen
        +:+ " were not classified under the same transition policy") (selecting chosen (Some true) true)
  | Some policy => outcome EXECUTABLE ("consented reroute to " +:+ rs_symbol chosen +:+ ": SAFE, routable, and the route quote is the compared quote")
      (mkFields (Some (summary chosen)) (Some true) true (Some (cmp_alternativeQuote comparison)) [] (Some policy))
  end end end end end
  | _, _ => outcome STATE_UNKNOWN "a reroute needs authoritative live chain state for both representations" (selecting chosen None false)
  end.

Definition show_symbol (r : option ResolvedRepresentationState) : string :=
  match r with Some r => rs_symbol r | None => "undefined" end.

Definition decideExecution (store : ConsentStore) (input : ExecutionInput) : result state_exn ExecutionDecision :=
  base ← decide_representation (ei_decision input);
  applied ← applyConsent store base input;
  let stateDecision := ap_stateDecision applied in
  let preferred := dr_preferred stateDecision in
  let alternative := dr_alternative stateDecision in
  let preferredRoute := routeFor (ei_preferredRoute input) (Some preferred) in
  let alternativeRoute := routeFor (ei_alternativeRoute input) alternative in
  let outcome eligibility reason fields := Ok (execution_result input applied eligibility reason fields) in
  match dr_decision stateDecision with
  | USE_PREFERRED => execute_preferred input applied preferred preferredRoute
  | USE_ALTERNATIVE =>
      match alternative, in_comparison (ei_decision input), (consent ← ap_consent applied; heap store !! consent) with
      | Some chosen, Some comparison, Some consent =>
          execute_alternative input applied preferred chosen comparison (co_maxAdditionalCostBps consent) alternativeRoute
      | _, _, _ => Err TypeThrown
      end
  | REQUIRES_CONSENT =>
      match ap_issues applied with
      | _ :: _ => outcome CONSENT_INVALID ("presented consent does not authorize this reroute: "
            +:+ join ", " (map (λ i, show_consent_code (ci_code i)) (ap_issues applied))) quoted
      | [] => outcome CONSENT_REQUIRED
            "a disclosed cross-issuer reroute needs consent to this exact disclosure before anything can be built" quoted
      end
  | NO_ACCEPTABLE_ROUTE => outcome ALTERNATIVE_OUTSIDE_TOLERANCE (dr_reason stateDecision) quoted
  | NO_SAFE_ROUTE => outcome STATE_UNSAFE (dr_reason stateDecision) no_fields
  | UNKNOWN_STATE =>
      match dr_reasonCode stateDecision with
      | ALTERNATIVE_QUOTE_UNAVAILABLE =>
          match (route ← alternativeRoute; if is_available route then Some route else None) with
          | None => outcome ROUTE_UNAVAILABLE (show_symbol alternative +:+ " has no available route; no normalized comparison exists") no_fields
          | Some _ => outcome QUOTE_UNAVAILABLE (show_symbol alternative +:+ " is routable but no normalized comparison exists") no_fields
          end
      | QUOTE_COMPARISON_MISMATCH => outcome EL_QUOTE_MISMATCH (dr_reason stateDecision) quoted
      | QUOTE_COMPARISON_STALE_STATE => outcome STALE_COMPARISON (dr_reason stateDecision) quoted
      | _ => outcome STATE_UNKNOWN (dr_reason stateDecision) no_fields
      end
  end.

Definition assertExecutable (decision : ExecutionDecision) : result state_exn (RepresentationSummary * QuoteIdentity) :=
  let refuse message := Err (EligibilityThrown (Some (ed_executionEligibility decision)) message) in
  match bool_decide (ed_executionEligibility decision = EXECUTABLE), ed_selectedRepresentation decision, ed_executableQuote decision with
  | true, Some selected, Some quote =>
      if negb (String.eqb (q_mint quote) (sum_mint selected)) || negb (String.eqb (es_mint (q_state quote)) (sum_mint selected))
      then refuse "refusing to execute: executable quote is for a different mint"
      else Ok (selected, quote)
  | _, _, _ => refuse ("refusing to execute: " +:+ show_eligibility (ed_executionEligibility decision)
        +:+ " (" +:+ ed_executionReason decision +:+ ")")
  end.

(* ------------------------------------------------------------------ *)
(** ** When a decision is executable *)

(** An available route for a representation that carries this quote. *)
Definition routed (route : option RouteObservation) (r : ResolvedRepresentationState) (quote : QuoteIdentity) : Prop :=
  ∃ ro n, route = Some ro ∧ ro_mint ro = rs_mint r ∧ ro_status ro = AVAILABLE ∧ ro_quote ro = Some n ∧ nq_quote n = quote.

(** The preferred representation, quoted against its current state for this trade. *)
Record ready_preferred (input : ExecutionInput) (quote : QuoteIdentity) (policy : TransitionPolicy) : Prop := {
  rp_safe : usable (in_preferred (ei_decision input)) ∧ rs_state (in_preferred (ei_decision input)) = Some SAFE;
  rp_route : routed (ei_preferredRoute input) (in_preferred (ei_decision input)) quote;
  rp_trade : q_mint quote = rs_mint (in_preferred (ei_decision input)) ∧
             q_underlying quote = rs_underlying (in_preferred (ei_decision input)) ∧
             q_inputRaw quote = in_inputRaw (ei_decision input);
  rp_current : current_state (q_state quote) (in_preferred (ei_decision input));
  rp_policy : rs_transitionPolicy (in_preferred (ei_decision input)) = Some policy;
  rp_wf : wf_quote quote;
}.

(** A reroute the user consented to, with the compared quote on its route. *)
Record ready_alternative (store : ConsentStore) (input : ExecutionInput) (a : ResolvedRepresentationState) (quote : QuoteIdentity)
    (policy : TransitionPolicy) : Prop := {
  ra_offer : ∃ c, offerable (ei_decision input) a c ∧ quote = cmp_alternativeQuote c ∧
    (∃ base l r d, decide_representation (ei_decision input) = Ok base ∧ ei_consent input = Some l ∧
      authorizes store l (mkContext base c (in_reroutePolicy (ei_decision input)) (ei_currentSlot input)) r d);
  ra_route : ∃ routeQuote, routed (ei_alternativeRoute input) a routeQuote ∧ quoteMismatches quote routeQuote = Ok [];
  ra_policy : rs_transitionPolicy a = Some policy ∧ rs_transitionPolicy (in_preferred (ei_decision input)) = Some policy;
}.

(** The result fields of a branch that refuses. *)
Definition refuses (r : ExecutionDecision) : Prop := ed_executionEligibility r ≠ EXECUTABLE ∧ ed_executableQuote r = None.

Definition executes (r : ExecutionDecision) (selected : ResolvedRepresentationState) (quote : QuoteIdentity) (policy : TransitionPolicy) : Prop :=
  ed_executionEligibility r = EXECUTABLE ∧ ed_executableQuote r = Some quote ∧
  ed_selectedRepresentation r = Some (summary selected) ∧ ed_transitionPolicy r = Some policy.

Lemma route_available route r ro quote :
  (route ← routeFor route (Some r); if is_available route then Some route else None) = Some ro →
  nq_quote <$> ro_quote ro = Some quote → routed route r quote.
Proof.
  unfold routeFor, is_available. destruct route as [ro'|]; [|discriminate]. cbn. destruct (String.eqb_spec (ro_mint ro') (rs_mint r)); [|discriminate].
  cbn. case_bool_decide; [|discriminate]. intros [= <-] (n & Hn & ->)%fmap_Some. by exists ro', n.
Qed.

Lemma economicStateMismatches_current s bound r : economicStateOf (rs_chainObservation r) = Some s →
  economicStateMismatches bound s = [] → current_state bound r.
Proof. intros Hs Hm. apply (state_mismatches_nil ""). unfold state_mismatches. by rewrite Hs, Hm. Qed.

Lemma execute_preferred_spec input applied r : let p := in_preferred (ei_decision input) in
  execute_preferred input applied p (routeFor (ei_preferredRoute input) (Some p)) = Ok r →
  usable p → rs_state p = Some SAFE →
  refuses r ∨ ∃ quote policy, executes r p quote policy ∧ ready_preferred input quote policy.
Proof.
  intros p. unfold execute_preferred. cbv zeta.
  destruct (economicStateOf (rs_chainObservation p)) as [current|] eqn:Hcur; [|by intros [= <-]; left].
  destruct (_ ≫= _) as [ro|] eqn:Hro; [|by intros [= <-]; left].
  destruct (nq_quote <$> ro_quote ro) as [quote|] eqn:Hq; [|by intros [= <-]; left].
  destruct (_ || _) eqn:Htrade; [by intros [= <-]; left|].
  destruct (economicStateMismatches (q_state quote) current) eqn:Hst; [|by intros [= <-]; left].
  destruct (rs_transitionPolicy p) as [policy|] eqn:Hpol; [|by intros [= <-]; left].
  intros Hr Hu Hs. right. apply bind_Ok in Hr as (q' & Hid & [= <-]). unfold quoteIdentityOf in Hid.
  apply then_Ok in Hid as [Hwf%types_of_quote [= <-]]. exists quote, policy. split; [by split_and!|].
  rewrite !orb_false_iff, !negb_false_iff, !String.eqb_eq, Z.eqb_eq in Htrade. destruct Htrade as [[? ?] ?].
  split; [done|by eapply route_available|done|by eapply economicStateMismatches_current|done|done].
Qed.

#[export] Instance policy_keyed : Keyed TransitionPolicy.
Proof. by intros [? ? [] ?]. Qed.

Lemma same_policy_Some a p policy : same_policy a p = Ok (Some policy) →
  rs_transitionPolicy a = Some policy ∧ rs_transitionPolicy p = Some policy.
Proof.
  unfold same_policy. destruct (rs_transitionPolicy a) as [x|]; [|done]. destruct (rs_transitionPolicy p) as [y|]; [|done].
  destruct (canonicalKey_to_js x y (keyed x) (keyed y)) as (kx & ky & -> & -> & Hk). cbn.
  destruct (String.eqb_spec kx ky) as [->|]; [|done]. intros [= <-]. split; [done|]. f_equal. symmetry. by apply Hk.
Qed.

Lemma execute_alternative_spec input applied a c most r : let p := in_preferred (ei_decision input) in
  execute_alternative input applied p a c most (routeFor (ei_alternativeRoute input) (Some a)) = Ok r →
  refuses r ∨ ∃ policy routeQuote, executes r a (cmp_alternativeQuote c) policy ∧
    routed (ei_alternativeRoute input) a routeQuote ∧ quoteMismatches (cmp_alternativeQuote c) routeQuote = Ok [] ∧
    rs_transitionPolicy a = Some policy ∧ rs_transitionPolicy p = Some policy.
Proof.
  intros p. unfold execute_alternative. cbv zeta.
  destruct (economicStateOf (rs_chainObservation a)) as [current|]; [|by intros [= <-]; left].
  destruct (economicStateOf (rs_chainObservation p)) as [other|]; [|by intros [= <-]; left].
  destruct (_ ≫= _) as [ro|] eqn:Hro; [|by intros [= <-]; left].
  destruct (nq_quote <$> ro_quote ro) as [quote|] eqn:Hq; [|by intros [= <-]; left].
  destruct (exceedsCostLimit _ _); [by intros [= <-]; left|].
  destruct (most <? _); [by intros [= <-]; left|].
  intros Hr. apply bind_Ok in Hr as ([|m ms] & Hm & Hr); [|left; by injection Hr as <-].
  apply bind_Ok in Hr as ([policy|] & Hpol & Hr); [|left; by injection Hr as <-].
  apply same_policy_Some in Hpol as [? ?]. injection Hr as <-. right. exists policy, quote.
  split; [by split_and!|]. split; [by eapply route_available|done].
Qed.

(** A decision carries its input's representations. *)
Lemma decide_representation_parts input r : decide_representation input = Ok r →
  dr_preferred r = in_preferred input ∧ dr_alternative r = in_alternative input.
Proof.
  unfold decide_representation. cbv zeta. rewrite throw_if_then_Ok. intros [_ Hr].
  repeat first [by injection Hr as <- | apply bind_Ok in Hr as (? & _ & Hr) | case_match].
Qed.

(** A consent is applied only where it authorizes the offer. *)
Lemma applyConsent_cases store base input applied : applyConsent store base input = Ok applied →
  ap_stateDecision applied = base ∧ ap_consent applied = None ∨
  ∃ l c r d, ei_consent input = Some l ∧ in_comparison (ei_decision input) = Some c ∧ dr_decision base = REQUIRES_CONSENT ∧
    authorizes store l (mkContext base c (in_reroutePolicy (ei_decision input)) (ei_currentSlot input)) r d ∧
    applied = mkApplied (consented base r) (Some l) [].
Proof.
  unfold applyConsent. case_bool_decide as Hd; [|intros [= <-]; by left].
  destruct (ei_consent input) as [l|]; [|intros [= <-]; by left].
  destruct (in_comparison (ei_decision input)) as [c|]; [|intros [= <-]; by left].
  intros Hr. apply bind_Ok in Hr as ([|i is'] & Hi & Hr); [|injection Hr as <-; by left].
  apply consentIssues_nil in Hi as (r & d & Hauth). pose proof Hauth as [[_ Hl] _ _ _ _]. rewrite Hl in Hr. injection Hr as <-.
  right. by exists l, c, r, d.
Qed.

(** Nothing is executable without evidence: a result is EXECUTABLE exactly
    when it carries a quote, a representation and a transition policy, and then
    either the preferred representation is SAFE with an available route whose
    quote is for this trade and this chain state, or the user's own unused and
    unexpired consent authorizes this very offer and the route carries the
    compared quote, both states being classified under one policy. *)
Theorem decideExecution_executable store input r (Hr : decideExecution store input = Ok r) :
  refuses r ∨
  ∃ selected quote policy, executes r selected quote policy ∧
    ((selected = in_preferred (ei_decision input) ∧ ready_preferred input quote policy) ∨
     ready_alternative store input selected quote policy).
Proof.
  unfold decideExecution in Hr. apply bind_Ok in Hr as (base & Hbase & Hr). apply bind_Ok in Hr as (applied & Happ & Hr).
  cbv zeta in Hr.
  assert (0 ≤ rp_maxAdditionalCostBps (in_reroutePolicy (ei_decision input))) as Hpol.
  { unfold decide_representation in Hbase. apply throw_if_then_Ok in Hbase as [?%Z.ltb_ge _]. done. }
  pose proof (decide_cases _ Hpol) as Hcases. rewrite Hbase in Hcases. destruct Hcases as (Hne & Huse & Hask & _).
  destruct (decide_representation_parts _ _ Hbase) as [Hbp Hba]. apply applyConsent_cases in Happ.
  destruct Happ as [[Hstate Hnone]|(l & c & rec & d & Hl & Hc & Hd & Hauth & Happ)].
  - rewrite Hstate, Hbp in Hr. destruct (dr_decision base) eqn:Hdec.
    + apply execute_preferred_spec in Hr as [?|(q & pol & ? & ?)]; [by left| |by apply Huse..].
      right. exists (in_preferred (ei_decision input)), q, pol. auto.
    + left. destruct (ap_issues applied); by injection Hr as <-.
    + done.
    + left. by injection Hr as <-.
    + left. by injection Hr as <-.
    + left. destruct (dr_reasonCode base); try (by injection Hr as <-).
      destruct (_ ≫= _); by injection Hr as <-.
  - apply Hask in Hd as (a & c' & Hoff). pose proof Hoff as [_ [Ha _] _ [Hc' _] _ _]. rewrite Hc' in Hc. injection Hc as <-.
    subst applied. cbn [ap_stateDecision consented dr_decision dr_preferred dr_alternative ap_consent mbind option_bind] in Hr.
    rewrite Hbp, Hba, Ha, Hc', (proj2 (au_issued _ _ _ _ _ Hauth)) in Hr.
    apply execute_alternative_spec in Hr as [?|(pol & q & Hex & Hroute & Hm & Hpa & Hpp)]; [by left|right].
    exists a, (cmp_alternativeQuote c'), pol. split; [exact Hex|]. right. split; [|by exists q|done].
    exists c'. split; [exact Hoff|]. split; [done|]. exists base, l, rec, d. auto.
Qed.

Lemma current_economicStateMismatches bound r : current_state bound r →
  ∃ s, economicStateOf (rs_chainObservation r) = Some s ∧ economicStateMismatches bound s = [].
Proof.
  intros Hc. pose proof Hc as (s & Hs & _). exists s. split; [done|]. apply (state_mismatches_nil "") in Hc.
  unfold state_mismatches in Hc. rewrite Hs in Hc. by destruct (economicStateMismatches bound s).
Qed.

Lemma routed_available route r quote : routed route r quote →
  ∃ ro, (route ← routeFor route (Some r); if is_available route then Some route else None) = Some ro ∧ nq_quote <$> ro_quote ro = Some quote.
Proof.
  intros (ro & n & -> & Hm & Ha & Hq & <-). exists ro. unfold routeFor. rewrite Hm, String.eqb_refl. cbn. unfold is_available.
  by rewrite (bool_decide_eq_true_2 _ Ha), Hq.
Qed.

(** The layer does not refuse what is ready: a SAFE preferred representation
    with an available route and a well-formed quote for this trade and its current state
    is EXECUTABLE with exactly that quote, whatever consents exist, and passes
    the runtime gate when the quote's state is the representation's own. *)
Theorem safe_preferred_executes store input quote policy (Hready : ready_preferred input quote policy)
    (Hpolicy : 0 ≤ rp_maxAdditionalCostBps (in_reroutePolicy (ei_decision input))) :
  ∃ r, decideExecution store input = Ok r ∧ executes r (in_preferred (ei_decision input)) quote policy ∧
    (es_mint (q_state quote) = rs_mint (in_preferred (ei_decision input)) →
     assertExecutable r = Ok (summary (in_preferred (ei_decision input)), quote)).
Proof.
  destruct Hready as [[Hu Hs] Hroute (Hm & Hv & Hi) Hcur Hpol Hwf].
  destruct (decide_preferred _ Hpolicy Hu Hs) as (base & Hbase & Hd).
  destruct (decide_representation_parts _ _ Hbase) as [Hbp Hba].
  apply routed_available in Hroute as (ro & Hro & Hq). apply current_economicStateMismatches in Hcur as (s & Hes & Hmis).
  apply (types_of_quote quote tt) in Hwf. eexists. split.
  - unfold decideExecution, applyConsent. rewrite Hbase. cbn [mbind result_bind].
    rewrite Hd, (bool_decide_eq_false_2 (USE_PREFERRED = REQUIRES_CONSENT)) by done.
    cbn [mbind result_bind ap_stateDecision ap_consent]. cbv zeta. cbn [ap_stateDecision]. rewrite Hd, Hbp.
    unfold execute_preferred. cbv zeta. rewrite Hes, Hro, Hq, Hm, Hv, Hi, !String.eqb_refl, Z.eqb_refl. cbn [negb orb].
    rewrite Hmis, Hpol. unfold quoteIdentityOf. rewrite Hwf. reflexivity.
  - split; [by split_and!|]. intros Hmint. unfold assertExecutable. cbn. by rewrite Hm, Hmint, !String.eqb_refl.
Qed.

(** KOx safe, with its quote on an available route. *)
Definition sample_execution : ExecutionInput :=
  mkExecution (mkInput (sample_resolved xStocks "KOx" KOx_mint SAFE) None (mkReroute 50) 100000000 None)
    (Some (mkRoute KOx_mint AVAILABLE (Some (mkNormalized (sample_side KOx_mint 143000000) xStocks)) "sample" None)) None None 1000.

Lemma sample_ready : ready_preferred sample_execution (sample_side KOx_mint 143000000) (mkPolicy 900 60 UNCALIBRATED "test").
Proof.
  split; cbn [sample_execution ei_decision in_preferred ei_preferredRoute in_inputRaw].
  - by split; [split; [|eexists]|].
  - by eexists _, _.
  - by split_and!.
  - by apply (state_mismatches_nil "preferred"); vm_compute.
  - done.
  - apply (types_of_quote _ tt). vm_compute. reflexivity.
Qed.

Lemma safe_preferred_executes_witness :
  ∃ r, decideExecution empty_store sample_execution = Ok r ∧ ed_executionEligibility r = EXECUTABLE ∧ is_ok (assertExecutable r) = true.
Proof.
  destruct (safe_preferred_executes empty_store sample_execution _ _ sample_ready) as (r & Hr & [Hex _] & Hassert); [vm_compute; discriminate|].
  exists r. split; [exact Hr|]. split; [exact Hex|]. rewrite Hassert by reflexivity. reflexivity.
Defined.

Definition sample_execution_decision : ExecutionDecision := Eval vm_compute in
  ok_or (execution_result sample_execution (mkApplied (mkDecision UNKNOWN_STATE NO_ALTERNATIVE "" (sample_resolved xStocks "KOx" KOx_mint SAFE) None None) None []) STATE_UNKNOWN "" no_fields)
    (decideExecution empty_store sample_execution).

Lemma decideExecution_executable_witness :
  ed_executionEligibility sample_execution_decision = EXECUTABLE ∧
  (refuses sample_execution_decision ∨ ∃ selected quote policy, executes sample_execution_decision selected quote policy ∧
    ((selected = in_preferred (ei_decision sample_execution) ∧ ready_preferred sample_execution quote policy) ∨
     ready_alternative empty_store sample_execution selected quote policy)).
Proof.
  split; [reflexivity|]. apply (decideExecution_executable empty_store sample_execution). vm_compute. reflexivity.
Defined.
