(* ===== verification/DemoResult.v ===== *)
(** * demo-result.ts: the structured result of a demonstration

    A result carries its execution environment; the runtime gate keeps what was
    observed on mainnet apart from what ran on devnet, and a state decision
    apart from execution eligibility. The environment is the raw string the
    gate is given. *)

From S2P Require Import Prelude Js Errors Kit Abi StateErrors CanonicalKey StateTypes Normalize QuoteIdentity Compare ChainObservation Adapters Decision Consent Execution.

(** [QuoteSource]. *)
Inductive QuoteSource : Set := JUPITER_MAINNET_SNAPSHOT | QS_DEVNET_DEMO_QUOTE_FIXTURE.

#[export] Instance QuoteSource_eq_dec : EqDecision QuoteSource.
Proof. solve_decision. Defined.

Inductive QuoteStatus : Set := Q_AVAILABLE | Q_UNAVAILABLE | Q_NOT_APPLICABLE.

Record QuoteAvailability := mkAvailability {
  qa_source : QuoteSource;
  qa_observedAt : option string;
  qa_preferred : QuoteStatus;
  qa_alternative : QuoteStatus;
  qa_note : string;
}.

(** The kinds of [EvidenceReference]. *)
Inductive EvidenceKind : Set :=
  EV_LIVE_CHAIN_STATE | EV_LIVE_API_STATE | EV_JUPITER_ROUTE_DISCOVERY | EV_DEVNET_CHAIN_STATE | EV_DEVNET_DEMO_QUOTE_FIXTURE.

#[export] Instance EvidenceKind_eq_dec : EqDecision EvidenceKind.
Proof. solve_decision. Defined.

Record EvidenceReference := mkReference {
  evr_kind : EvidenceKind;
  evr_description : string;
  evr_sha256 : option string;
  evr_observedAt : option string;
}.

Record RepresentationRef := mkRef { ref_underlying : string; ref_issuer : Issuer; ref_symbol : string; ref_mint : string }.

Record DevnetTransactionEvidence := mkTransactionEvidence {
  tx_signature : string;
  tx_slot : Z;
  tx_succeeded : bool;
  tx_customErrorName : option string;
  tx_downstreamBalanceBefore : Z;
  tx_downstreamBalanceAfter : Z;
  tx_explorerUrl : option string;
}.

(** [DevnetExecutionResult["execution"]]. *)
Record DevnetExecution := mkDevnetExecution {
  dx_executed : option DevnetTransactionEvidence;
  dx_rejectedPreferredAttempt : option DevnetTransactionEvidence;
}.

(** The optional economic part of a result. *)
Record DemoShares := mkShares {
  sh_preferredSharesEquivalent : string;
  sh_alternativeSharesEquivalent : string;
  sh_additionalCostBps : Z;
  sh_economicEffect : EconomicEffect;
}.

Record DemoResultBase := mkBase {
  dm_underlying : string;
  dm_preferredRepresentation : RepresentationRef;
  dm_preferredState : option RepresentationState;
  dm_preferredStateSource : option StateSource;
  dm_alternativeRepresentation : option RepresentationRef;
  dm_alternativeState : option RepresentationState;
  dm_evidenceSources : list EvidenceReference;
  dm_quoteAvailability : QuoteAvailability;
  dm_shares : option DemoShares;
  dm_decision : Decision;
  dm_reasonCode : DecisionReasonCode;
  dm_reason : string;
  dm_consentRequired : bool;
  dm_executionEligibility : ExecutionEligibility;
  dm_executionReason : string;
  dm_selectedRepresentation : option RepresentationSummary;
  dm_selectedRouteAvailable : option bool;
  dm_quoteAvailable : bool;
}.

(** [MainnetObservationResult | DevnetExecutionResult], as the runtime gate may
    receive it: any environment, any of the optional fields. *)
Record DemoResult := mkDemoResult {
  dm_base : DemoResultBase;
  dm_executionEnvironment : string;
  dm_transactionSignature : option string;
  dm_execution : option DevnetExecution;
  dm_executionPlanDigest : option string;
}.

(** [DemoError] is a [DemoResultError]; [DemoThrown] an error of the decision
    layer that passes through. *)
Inductive DemoResultError : Type := DemoError (message : string) | DemoThrown (error : state_exn).

Definition SHARE_DECIMALS : nat := 12.

Definition ref (state : ResolvedRepresentationState) : RepresentationRef :=
  mkRef (rs_underlying state) (rs_issuer state) (rs_symbol state) (rs_mint state).

(** The economic part, when the comparison is of the representations decided on. *)
Definition demo_shares (execution : ExecutionDecision) : result DemoResultError (option DemoShares) :=
  let decision := ed_stateDecision execution in
  match ed_comparison execution, dr_alternative decision with
  | Some comparison, Some alternative =>
  if String.eqb (cmp_preferredMint comparison) (rs_mint (dr_preferred decision)) && String.eqb (cmp_alternativeMint comparison) (rs_mint alternative)
  then
    preferredShares ← map_err DemoThrown (formatRationalFloor (cmp_preferredSharesEquivalent comparison) SHARE_DECIMALS);
    alternativeShares ← map_err DemoThrown (formatRationalFloor (cmp_alternativeSharesEquivalent comparison) SHARE_DECIMALS);
    Ok (Some (mkShares preferredShares alternativeShares (cmp_additionalCostBps comparison) (cmp_economicEffect comparison)))
  else Ok None
  | _, _ => Ok None
  end.

Definition base (execution : ExecutionDecision) (evidenceSources : list EvidenceReference) (quoteAvailability : QuoteAvailability)
    : result DemoResultError DemoResultBase :=
  let decision := ed_stateDecision execution in
  shares ← demo_shares execution;
  Ok (mkBase (rs_underlying (dr_preferred decision)) (ref (dr_preferred decision)) (rs_state (dr_preferred decision))
    (rs_stateSource (dr_preferred decision)) (ref <$> dr_alternative decision) (dr_alternative decision ≫= rs_state)
    evidenceSources quoteAvailability shares
    (dr_decision decision) (dr_reasonCode decision) (dr_reason decision)
    (bool_decide (dr_decision decision = REQUIRES_CONSENT))
    (ed_executionEligibility execution) (ed_executionReason execution) (ed_selectedRepresentation execution)
    (ed_selectedRouteAvailable execution) (ed_quoteAvailable execution)).

(* ------------------------------------------------------------------ *)
(** ** The runtime gate *)

Definition refuse_if (b : bool) (message : string) : result DemoResultError unit := if b then Err (DemoError message) else Ok tt.

(** [e.kind === "DEVNET_CHAIN_STATE" || …]. *)
Definition devnet_evidence (e : EvidenceReference) : bool :=
  match evr_kind e with EV_DEVNET_CHAIN_STATE | EV_DEVNET_DEMO_QUOTE_FIXTURE => true | _ => false end.

Definition mainnet_evidence (e : EvidenceReference) : bool :=
  match evr_kind e with EV_LIVE_CHAIN_STATE | EV_LIVE_API_STATE | EV_JUPITER_ROUTE_DISCOVERY => true | _ => false end.

(** [!s]. *)
Definition falsy_text (s : option string) : bool := match s with Some s => String.eqb s "" | None => true end.

Definition present {A} (o : option A) : bool := match o with Some _ => true | None => false end.

Definition assert_mainnet (r : DemoResult) : result DemoResultError unit :=
  let b := dm_base r in
  refuse_if (present (dm_transactionSignature r) || present (dm_execution r) || present (dm_executionPlanDigest r))
    "a MAINNET_OBSERVATION result cannot carry transactions";;
  refuse_if (negb (bool_decide (qa_source (dm_quoteAvailability b) = JUPITER_MAINNET_SNAPSHOT)))
    "a MAINNET_OBSERVATION result cannot use fixture quotes";;
  refuse_if (existsb devnet_evidence (dm_evidenceSources b)) "a MAINNET_OBSERVATION result cannot cite devnet evidence".

Definition assert_devnet (r : DemoResult) : result DemoResultError unit :=
  let b := dm_base r in
  refuse_if (negb (bool_decide (qa_source (dm_quoteAvailability b) = QS_DEVNET_DEMO_QUOTE_FIXTURE)))
    "a DEVNET_EXECUTION result must use the devnet demo quote fixture";;
  refuse_if (existsb mainnet_evidence (dm_evidenceSources b)) "a DEVNET_EXECUTION result cannot cite mainnet evidence";;
  let executed := dm_execution r ≫= dx_executed in
  refuse_if (present executed && negb (bool_decide (dm_executionEligibility b = EXECUTABLE)))
    ("nothing may execute when eligibility is " +:+ show_eligibility (dm_executionEligibility b));;
  refuse_if (present executed && falsy_text (dm_executionPlanDigest r))
    "an executed transaction must record the execution plan it consumed".

Definition assert_consistent (b : DemoResultBase) : result DemoResultError unit :=
  refuse_if (negb (Bool.eqb (dm_consentRequired b) (bool_decide (dm_decision b = REQUIRES_CONSENT))))
    "consentRequired must match the decision";;
  refuse_if (dm_consentRequired b && negb (bool_decide (dm_executionEligibility b = CONSENT_REQUIRED))
             && negb (bool_decide (dm_executionEligibility b = CONSENT_INVALID)))
    "a decision requiring consent cannot have any other eligibility";;
  refuse_if (bool_decide (dm_executionEligibility b = EXECUTABLE)
             && (negb (bool_decide (dm_decision b = USE_PREFERRED)) && negb (bool_decide (dm_decision b = USE_ALTERNATIVE))))
    ("decision " +:+ show_decision (dm_decision b) +:+ " can never be EXECUTABLE").

Definition assertDemoResult (r : DemoResult) : result DemoResultError unit :=
  let environment := dm_executionEnvironment r in
  refuse_if (negb (String.eqb environment "MAINNET_OBSERVATION") && negb (String.eqb environment "DEVNET_EXECUTION"))
    ("unknown execution environment " +:+ environment);;
  (if String.eqb environment "MAINNET_OBSERVATION" then assert_mainnet r else assert_devnet r);;
  assert_consistent (dm_base r).

Definition mainnetObservationResult (decision : ExecutionDecision) (evidenceSources : list EvidenceReference)
    (quoteAvailability : QuoteAvailability) : result DemoResultError DemoResult :=
  base ← base decision evidenceSources quoteAvailability;
  let r := mkDemoResult base "MAINNET_OBSERVATION" None None None in
  assertDemoResult r;; Ok r.

Definition devnetExecutionResult (decision : ExecutionDecision) (evidenceSources : list EvidenceReference)
    (quoteAvailability : QuoteAvailability) (execution : option DevnetExecution) (executionPlanDigest : option string)
    : result DemoResultError DemoResult :=
  let executed := execution ≫= dx_executed in
  base ← base decision evidenceSources quoteAvailability;
  let r := mkDemoResult base "DEVNET_EXECUTION"
    (match executed with Some t => if tx_succeeded t then Some (tx_signature t) else None | None => None end)
    execution (if falsy_text executionPlanDigest then None else executionPlanDigest) in
  assertDemoResult r;; Ok r.

(* ------------------------------------------------------------------ *)
(** ** What the gate accepts *)

(** What a result says of itself agrees. *)
Record demo_consistent (b : DemoResultBase) : Prop := {
  dk_consent : dm_consentRequired b = true ↔ dm_decision b = REQUIRES_CONSENT;
  dk_pending : dm_decision b = REQUIRES_CONSENT →
    dm_executionEligibility b = CONSENT_REQUIRED ∨ dm_executionEligibility b = CONSENT_INVALID;
  dk_executable : dm_executionEligibility b = EXECUTABLE → dm_decision b = USE_PREFERRED ∨ dm_decision b = USE_ALTERNATIVE;
}.

(** An observation of mainnet: no transaction, mainnet quotes and evidence. *)
Definition mainnet_only (r : DemoResult) : Prop :=
  dm_transactionSignature r = None ∧ dm_execution r = None ∧ dm_executionPlanDigest r = None ∧
  qa_source (dm_quoteAvailability (dm_base r)) = JUPITER_MAINNET_SNAPSHOT ∧
  ∀ e, e ∈ dm_evidenceSources (dm_base r) → devnet_evidence e = false.

(** An execution on devnet: fixture quotes, devnet evidence, and a transaction
    only for an executable decision with a recorded plan. *)
Definition devnet_only (r : DemoResult) : Prop :=
  qa_source (dm_quoteAvailability (dm_base r)) = QS_DEVNET_DEMO_QUOTE_FIXTURE ∧
  (∀ e, e ∈ dm_evidenceSources (dm_base r) → mainnet_evidence e = false) ∧
  ∀ t, (dm_execution r ≫= dx_executed) = Some t →
    dm_executionEligibility (dm_base r) = EXECUTABLE ∧ ∃ digest, dm_executionPlanDigest r = Some digest ∧ digest ≠ "".

Lemma refuse_if_Ok b message : refuse_if b message = Ok tt ↔ b = false.
Proof. destruct b; split; try done; intros H; discriminate H. Qed.

Lemma present_false {A} (o : option A) : present o = false ↔ o = None.
Proof. by destruct o. Qed.

Lemma falsy_text_false s : falsy_text s = false ↔ ∃ t, s = Some t ∧ t ≠ "".
Proof. destruct s as [t|]; cbn; [rewrite String.eqb_neq|]; naive_solver. Qed.

Lemma assert_mainnet_Ok r : assert_mainnet r = Ok tt ↔ mainnet_only r.
Proof.
  unfold assert_mainnet, mainnet_only. cbv zeta. rewrite !then_Ok, !refuse_if_Ok, !orb_false_iff, !present_false, negb_false_iff,
    bool_decide_eq_true, existsb_false. tauto.
Qed.

Lemma assert_devnet_Ok r : assert_devnet r = Ok tt ↔ devnet_only r.
Proof.
  unfold assert_devnet, devnet_only. cbv zeta. rewrite !then_Ok, !refuse_if_Ok, negb_false_iff, bool_decide_eq_true, existsb_false.
  destruct (dm_execution r ≫= dx_executed) as [t|]; cbn [present andb]; [|naive_solver].
  rewrite negb_false_iff, bool_decide_eq_true, falsy_text_false. naive_solver.
Qed.

Lemma assert_consistent_Ok b : assert_consistent b = Ok tt ↔ demo_consistent b.
Proof.
  unfold assert_consistent. rewrite !then_Ok, !refuse_if_Ok. split.
  - intros (Hc & Hp & He). apply negb_false_iff, Bool.eqb_prop in Hc. split.
    + rewrite Hc. apply bool_decide_eq_true.
    + intros Hd. rewrite Hc, (bool_decide_eq_true_2 _ Hd) in Hp. cbn in Hp. repeat case_bool_decide; auto; discriminate Hp.
    + intros Hx. rewrite (bool_decide_eq_true_2 _ Hx) in He. cbn in He. repeat case_bool_decide; auto; discriminate He.
  - intros [Hc Hp He]. assert (dm_consentRequired b = bool_decide (dm_decision b = REQUIRES_CONSENT)) as Heq
      by (case_bool_decide; destruct (dm_consentRequired b); naive_solver).
    rewrite Heq, Bool.eqb_reflx. split_and!; [done| |].
    + destruct (bool_decide_reflect (dm_decision b = REQUIRES_CONSENT)) as [Hd|]; [|done]. destruct (Hp Hd) as [H|H]; rewrite H; reflexivity.
    + destruct (bool_decide_reflect (dm_executionEligibility b = EXECUTABLE)) as [Hx|]; [|done]. destruct (He Hx) as [H|H]; rewrite H; reflexivity.
Qed.

(** The gate accepts exactly the consistent results of one environment:
    a mainnet observation with no transaction and no devnet quote or evidence,
    or a devnet execution with no mainnet quote or evidence whose transaction,
    if any, consumed a recorded plan of an executable decision. *)
Theorem assertDemoResult_exact r : assertDemoResult r = Ok tt ↔
  demo_consistent (dm_base r) ∧
  ((dm_executionEnvironment r = "MAINNET_OBSERVATION" ∧ mainnet_only r) ∨ (dm_executionEnvironment r = "DEVNET_EXECUTION" ∧ devnet_only r)).
Proof.
  unfold assertDemoResult. cbv zeta. rewrite !then_Ok, refuse_if_Ok, assert_consistent_Ok, <- assert_mainnet_Ok, <- assert_devnet_Ok.
  destruct (String.eqb_spec (dm_executionEnvironment r) "MAINNET_OBSERVATION") as [->|Hm].
  - cbn [negb andb]. naive_solver.
  - destruct (String.eqb_spec (dm_executionEnvironment r) "DEVNET_EXECUTION") as [->|Hd]; cbn [negb andb]; naive_solver.
Qed.

(* ------------------------------------------------------------------ *)
(** ** Results of the decision layer *)

(** Every result of [execute_preferred] or [execute_alternative] keeps the state decision. *)
Lemma execute_preferred_decision input applied p route r : execute_preferred input applied p route = Ok r →
  ed_stateDecision r = ap_stateDecision applied.
Proof. unfold execute_preferred. cbv zeta. intros Hr. repeat first [by injection Hr as <- | apply bind_Ok in Hr as (? & _ & Hr) | case_match]. Qed.

Lemma execute_alternative_decision input applied p a c most route r : execute_alternative input applied p a c most route = Ok r →
  ed_stateDecision r = ap_stateDecision applied.
Proof. unfold execute_alternative. cbv zeta. intros Hr. repeat first [by injection Hr as <- | apply bind_Ok in Hr as (? & _ & Hr) | case_match]. Qed.

Definition needs_consent (e : ExecutionEligibility) : Prop := e = CONSENT_REQUIRED ∨ e = CONSENT_INVALID.

(** A decision that requires consent is waiting for it, and only a decision to
    use a representation is executable. *)
Lemma decideExecution_consistent store input r : decideExecution store input = Ok r →
  (dr_decision (ed_stateDecision r) = REQUIRES_CONSENT → needs_consent (ed_executionEligibility r)) ∧
  (ed_executionEligibility r = EXECUTABLE → dr_decision (ed_stateDecision r) = USE_PREFERRED ∨ dr_decision (ed_stateDecision r) = USE_ALTERNATIVE).
Proof.
  unfold decideExecution. intros Hr. apply bind_Ok in Hr as (b & _ & Hr). apply bind_Ok in Hr as (applied & _ & Hr). cbv zeta in Hr.
  destruct (dr_decision (ap_stateDecision applied)) eqn:Hd.
  - apply execute_preferred_decision in Hr as ->. rewrite Hd. split; [done|auto].
  - unfold needs_consent. destruct (ap_issues applied); injection Hr as <-; cbn; rewrite Hd; (split; [auto|done]).
  - destruct (dr_alternative _) as [a|]; [|discriminate Hr]. destruct (in_comparison _) as [c|]; [|discriminate Hr].
    destruct (ap_consent applied ≫= _) as [consent|]; [|discriminate Hr].
    apply execute_alternative_decision in Hr as ->. rewrite Hd. split; [done|auto].
  - injection Hr as <-; cbn; rewrite Hd; done.
  - injection Hr as <-; cbn; rewrite Hd; done.
  - destruct (dr_reasonCode _); try (injection Hr as <-; cbn; rewrite Hd; done).
    match type of Hr with context [match ?o with Some _ => _ | None => _ end] => destruct o end; injection Hr as <-; cbn; rewrite Hd; done.
Qed.

Lemma base_Ok r evidence quotes b : base r evidence quotes = Ok b →
  dm_decision b = dr_decision (ed_stateDecision r) ∧ dm_executionEligibility b = ed_executionEligibility r ∧
  dm_quoteAvailability b = quotes ∧ dm_evidenceSources b = evidence ∧
  dm_consentRequired b = bool_decide (dr_decision (ed_stateDecision r) = REQUIRES_CONSENT).
Proof. unfold base. cbv zeta. intros H. by apply bind_Ok in H as (s & _ & [= <-]). Qed.

Lemma base_consistent store input r evidence quotes b :
  decideExecution store input = Ok r → base r evidence quotes = Ok b → demo_consistent b.
Proof.
  intros [Hp He]%decideExecution_consistent (Hd & Hel & _ & _ & Hc)%base_Ok.
  split; rewrite ?Hd, ?Hel, ?Hc; [apply bool_decide_eq_true|exact Hp|exact He].
Qed.

(** A result of the decision layer is never refused for what the decision
    says: a mainnet observation of it is built exactly from mainnet quotes and
    evidence, a devnet result exactly from the fixture and devnet evidence with
    no executed transaction unless it is EXECUTABLE under a recorded plan, and
    both report the decision and the eligibility as they are. *)
Theorem demo_results_of_decisions store input d evidence quotes execution digest b
    (Hd : decideExecution store input = Ok d) (Hb : base d evidence quotes = Ok b) :
  let mainnet := mkDemoResult b "MAINNET_OBSERVATION" None None None in
  (mainnetObservationResult d evidence quotes = Ok mainnet ↔
   qa_source quotes = JUPITER_MAINNET_SNAPSHOT ∧ ∀ e, e ∈ evidence → devnet_evidence e = false) ∧
  (is_ok (devnetExecutionResult d evidence quotes execution digest) = true ↔
   qa_source quotes = QS_DEVNET_DEMO_QUOTE_FIXTURE ∧ (∀ e, e ∈ evidence → mainnet_evidence e = false) ∧
   ∀ t, (execution ≫= dx_executed) = Some t → ed_executionEligibility d = EXECUTABLE ∧ ∃ s, digest = Some s ∧ s ≠ "") ∧
  (∀ r, mainnetObservationResult d evidence quotes = Ok r ∨ devnetExecutionResult d evidence quotes execution digest = Ok r →
   dm_decision (dm_base r) = dr_decision (ed_stateDecision d) ∧ dm_executionEligibility (dm_base r) = ed_executionEligibility d).
Proof.
  cbv zeta. unfold mainnetObservationResult, devnetExecutionResult. cbv zeta. rewrite Hb. cbn [mbind result_bind].
  pose proof (base_consistent _ _ _ evidence quotes b Hd Hb) as Hc. apply base_Ok in Hb as (Hdec & Hel & Hq & He & _). split_and!.
  - rewrite then_Ok. unfold assertDemoResult. cbn [dm_executionEnvironment]. cbv zeta.
    change (String.eqb "MAINNET_OBSERVATION" "MAINNET_OBSERVATION") with true. cbn [negb andb dm_base].
    rewrite !then_Ok, refuse_if_Ok, assert_mainnet_Ok, assert_consistent_Ok. unfold mainnet_only. cbn. rewrite Hq, He. tauto.
  - set (r := mkDemoResult _ _ _ _ _). transitivity (assertDemoResult r = Ok tt).
    { destruct (assertDemoResult r) as [[]|e]; cbn; split; try done; intros H; discriminate H. }
    unfold assertDemoResult. subst r. cbn [dm_executionEnvironment]. cbv zeta.
    change (String.eqb "DEVNET_EXECUTION" "MAINNET_OBSERVATION") with false.
    change (String.eqb "DEVNET_EXECUTION" "DEVNET_EXECUTION") with true. cbn [negb andb dm_base].
    rewrite !then_Ok, refuse_if_Ok, assert_devnet_Ok, assert_consistent_Ok. unfold devnet_only.
    cbn [dm_base dm_execution dm_executionPlanDigest]. rewrite Hq, He, Hel.
    assert ((∃ s, (if falsy_text digest then None else digest) = Some s ∧ s ≠ "") ↔ ∃ s, digest = Some s ∧ s ≠ "") as Hdig
      by (rewrite <- (falsy_text_false digest); destruct (falsy_text digest) eqn:Hf;
          [naive_solver|apply falsy_text_false in Hf; naive_solver]).
    setoid_rewrite Hdig. tauto.
  - intros r [Hr|Hr]; apply then_Ok in Hr as [_ [= <-]]; done.
Qed.


(** An executable decision shown as a devnet execution of one transaction. *)
Definition demo_evidence : list EvidenceReference := [mkReference EV_DEVNET_CHAIN_STATE "devnet mint" None None].
Definition sample_availability : QuoteAvailability := mkAvailability QS_DEVNET_DEMO_QUOTE_FIXTURE None Q_AVAILABLE Q_UNAVAILABLE "fixture".
Definition sample_transaction : DevnetTransactionEvidence := mkTransactionEvidence "signature" 5 true None 1 0 None.

Lemma demo_results_of_decisions_witness :
  is_ok (devnetExecutionResult sample_execution_decision demo_evidence sample_availability
    (Some (mkDevnetExecution (Some sample_transaction) None)) (Some "digest")) = true ∧
  mainnetObservationResult sample_execution_decision demo_evidence sample_availability
    = Err (DemoError "a MAINNET_OBSERVATION result cannot use fixture quotes").
Proof.
  split; [|vm_compute; reflexivity].
  assert (Hd : decideExecution empty_store sample_execution = Ok sample_execution_decision) by (vm_compute; reflexivity).
  refine (proj2 (proj1 (proj2 (demo_results_of_decisions empty_store sample_execution sample_execution_decision demo_evidence
    sample_availability (Some (mkDevnetExecution (Some sample_transaction) None)) (Some "digest") _ Hd eq_refl))) _).
  split_and!; [done| |].
  - by intros e ->%list_elem_of_singleton.
  - intros t _. split; [reflexivity|by exists "digest"].
Defined.
