(* ===== verification/ExecutionPlan.v ===== *)
(** * execution-plan.ts: the artifact an executor consumes

    The downstream binding and its checks, the plan with its digest, and the
    operations on issued plans. A plan is a deep-frozen object: its identity is a
    location, [issuedPlans] and [consumedPlans] are the module's WeakSets. *)

From stdpp Require Import gmap relations.
From S2P Require Import Prelude Js Errors Kit Base58 Abi Jupiter Sha256 StateErrors CanonicalKey StateTypes Normalize QuoteIdentity Compare Decision Consent Execution.

Inductive ExecutionEnvironment : Set := MAINNET_OBSERVATION | DEVNET_EXECUTION.

#[export] Instance ExecutionEnvironment_eq_dec : EqDecision ExecutionEnvironment.
Proof. solve_decision. Defined.

Definition show_environment (e : ExecutionEnvironment) : string :=
  match e with MAINNET_OBSERVATION => "MAINNET_OBSERVATION" | DEVNET_EXECUTION => "DEVNET_EXECUTION" end.

Definition show_reason (c : DecisionReasonCode) : string :=
  match c with
  | PREFERRED_SAFE => "PREFERRED_SAFE"
  | PREFERRED_STATE_UNKNOWN => "PREFERRED_STATE_UNKNOWN"
  | PREFERRED_STATE_CONFLICT => "PREFERRED_STATE_CONFLICT"
  | NO_ALTERNATIVE => "NO_ALTERNATIVE"
  | ALTERNATIVE_STATE_UNKNOWN => "ALTERNATIVE_STATE_UNKNOWN"
  | ALTERNATIVE_STATE_CONFLICT => "ALTERNATIVE_STATE_CONFLICT"
  | ALTERNATIVE_NOT_SAFE => "ALTERNATIVE_NOT_SAFE"
  | ALTERNATIVE_NOT_SAME_UNDERLYING => "ALTERNATIVE_NOT_SAME_UNDERLYING"
  | ALTERNATIVE_QUOTE_UNAVAILABLE => "ALTERNATIVE_QUOTE_UNAVAILABLE"
  | QUOTE_COMPARISON_MISMATCH => "QUOTE_COMPARISON_MISMATCH"
  | QUOTE_COMPARISON_STALE_STATE => "QUOTE_COMPARISON_STALE_STATE"
  | RC_ALTERNATIVE_OUTSIDE_TOLERANCE => "ALTERNATIVE_OUTSIDE_TOLERANCE"
  | RC_CONSENT_REQUIRED => "CONSENT_REQUIRED"
  | CONSENT_GIVEN => "CONSENT_GIVEN"
  end.

#[export] Instance show_environment_inj : Inj (=) (=) show_environment.
Proof. by intros [] []. Qed.
#[export] Instance show_reason_inj : Inj (=) (=) show_reason.
Proof. by intros [] []. Qed.
#[export] Instance show_decision_inj : Inj (=) (=) show_decision.
Proof. by intros [] []. Qed.

#[export] Instance environment_to_js : ToJs ExecutionEnvironment := text_to_js show_environment.
#[export] Instance reason_to_js : ToJs DecisionReasonCode := text_to_js show_reason.
#[export] Instance decision_to_js : ToJs Decision := text_to_js show_decision.

(* ------------------------------------------------------------------ *)
(** ** The downstream binding *)

Record JupiterDownstream := mkJupiterDownstream {
  jd_adapterKind : string;
  jd_jupiterProgramId : string;
  jd_routeDiscriminatorHex : string;
  jd_protectedMintRole : string;
  jd_protectedMint : string;
  jd_counterMint : string;
  jd_authority : string;
  jd_sourceMint : string;
  jd_destinationMint : string;
  jd_sourceTokenAccount : string;
  jd_destinationTokenAccount : string;
  jd_inAmountRaw : Z;
  jd_quotedOutRaw : Z;
  jd_slippageBps : jsnum;
  jd_minOutRaw : Z;
  jd_suffixCommitmentHex : string;
  jd_suffixInstructionCount : jsnum;
}.

Inductive DownstreamBinding : Type :=
| TransferCheckedBinding (commitmentHex : string)
| JupiterBinding (binding : JupiterDownstream).

Definition jupiter_value (b : JupiterDownstream) : jsval :=
  JObject [("adapterKind", to_js (jd_adapterKind b)); ("jupiterProgramId", to_js (jd_jupiterProgramId b));
    ("routeDiscriminatorHex", to_js (jd_routeDiscriminatorHex b)); ("protectedMintRole", to_js (jd_protectedMintRole b));
    ("protectedMint", to_js (jd_protectedMint b)); ("counterMint", to_js (jd_counterMint b)); ("authority", to_js (jd_authority b));
    ("sourceMint", to_js (jd_sourceMint b)); ("destinationMint", to_js (jd_destinationMint b));
    ("sourceTokenAccount", to_js (jd_sourceTokenAccount b)); ("destinationTokenAccount", to_js (jd_destinationTokenAccount b));
    ("inAmountRaw", to_js (jd_inAmountRaw b)); ("quotedOutRaw", to_js (jd_quotedOutRaw b)); ("slippageBps", to_js (jd_slippageBps b));
    ("minOutRaw", to_js (jd_minOutRaw b)); ("suffixCommitmentHex", to_js (jd_suffixCommitmentHex b));
    ("suffixInstructionCount", to_js (jd_suffixInstructionCount b))].

#[export] Instance jupiter_to_js : ToJs JupiterDownstream.
Proof.
  refine {| to_js := jupiter_value |}.
  intros [a b c d e f g h i j k l m n o p q] [a' b' c' d' e' f' g' h' i' j' k' l' m' n' o' p' q'] Heq. record_inj Heq.
Defined.

Definition downstream_value (b : DownstreamBinding) : jsval :=
  match b with
  | TransferCheckedBinding commitmentHex =>
      JObject [("adapterKind", JString "TOKEN_2022_TRANSFER_CHECKED"); ("commitmentHex", to_js commitmentHex)]
  | JupiterBinding b => to_js b
  end.

Lemma norm_object_length es es' : norm (JObject es) = norm (JObject es') → length es = length es'.
Proof.
  intros [= Heq]. apply (f_equal length) in Heq. rewrite !(Permutation_length (sort_perm _)) in Heq. by rewrite !length_map in Heq.
Qed.

#[export] Instance downstream_to_js : ToJs DownstreamBinding.
Proof.
  refine {| to_js := downstream_value |}.
  intros [h|b] [h'|b'] Heq.
  - apply norm_fields_inj in Heq; [|reflexivity|apply (bool_decide_unpack (NoDup _)); vm_compute; exact I].
    by injection Heq as ->.
  - by apply norm_object_length in Heq.
  - by apply norm_object_length in Heq.
  - f_equal. by apply to_js_inj.
Defined.

(** [a === b] of primitive values; two objects are taken to be different ones. *)
Definition strict_eq (a b : jsval) : bool :=
  match a, b with
  | JUndefined, JUndefined | JNull, JNull => true
  | JBool a, JBool b => Bool.eqb a b
  | JNum a, JNum b => num_strict_eq a b
  | JBigint a, JBigint b => a =? b
  | JString a, JString b => String.eqb a b
  | _, _ => false
  end.

Definition isCommitmentHex (v : jsval) : bool := match v with JString s => isLowerHex 64 s | _ => false end.
Definition isAddressString `{!AddressCodec} (v : jsval) : bool := match v with JString s => isAddress s | _ => false end.
Definition isPositive (v : jsval) : bool := match v with JBigint z => (0 <? z) && (z <? 2 ^ 64) | _ => false end.

(** The names every object inherits. *)
Definition inherited : list string :=
  ["constructor"; "toString"; "toLocaleString"; "valueOf"; "hasOwnProperty"; "isPrototypeOf"; "propertyIsEnumerable";
   "__defineGetter__"; "__defineSetter__"; "__lookupGetter__"; "__lookupSetter__"; "__proto__"].

(** [JUPITER_KINDS[kind]]: an inherited name gives a function. *)
Definition JUPITER_KINDS (kind : string) : option jsval :=
  if String.eqb kind "JUPITER_ROUTE_V2_BUY_USDC" then Some (JString "DESTINATION")
  else if String.eqb kind "JUPITER_ROUTE_V2_SELL_USDC" then Some (JString "SOURCE")
  else if bool_decide (kind ∈ inherited) then Some (JOther "function") else None.

Definition address_fields : list string :=
  ["protectedMint"; "counterMint"; "authority"; "sourceMint"; "destinationMint"; "sourceTokenAccount"; "destinationTokenAccount"].

(** The slippage and the minimum output it implies. *)
Definition slippage_problems (slippage quotedOut minOut : jsval) : list string :=
  match slippage with
  | JNum n =>
      if num_in_range 0 10000 n then
        match isPositive quotedOut, quotedOut with
        | true, JBigint q =>
            problem_if (match minimumOutFromQuote q n with Ok m => negb (strict_eq minOut (JBigint m)) | Err _ => true end)
              "minOutRaw is not the minimum Jupiter derives from quotedOutRaw and slippageBps"
        | _, _ => []
        end
      else ["slippageBps must be an integer in [0, 10000]"]
  | _ => ["slippageBps must be an integer in [0, 10000]"]
  end.

Definition downstreamProblems `{!AddressCodec} (value : jsval) : list string :=
  let b k := get_prop k value in
  if negb (is_object value) then ["a downstream binding is required"]
  else if strict_eq (b "adapterKind") (JString "TOKEN_2022_TRANSFER_CHECKED")
  then problem_if (negb (isCommitmentHex (b "commitmentHex"))) "commitmentHex must be 64 lowercase hex digits"
  else
  match JUPITER_KINDS (js_string (b "adapterKind")) with
  | None => ["unknown adapter kind " +:+ js_string (b "adapterKind")]
  | Some role =>
      problem_if (negb (strict_eq (b "jupiterProgramId") (JString JUPITER_V6_PROGRAM_ADDRESS))) "jupiterProgramId is not the pinned Jupiter program" ++
      problem_if (negb (strict_eq (b "routeDiscriminatorHex") (JString ROUTE_V2_DISCRIMINATOR_HEX))) "routeDiscriminatorHex is not route_v2" ++
      problem_if (negb (strict_eq (b "protectedMintRole") role)) (js_string (b "adapterKind") +:+ " protects the " +:+ js_string role +:+ " mint") ++
      concat (map (λ k, problem_if (negb (isAddressString (b k))) (k +:+ " must be an address")) address_fields) ++
      problem_if (negb (strict_eq (b "counterMint") (JString USDC_MINT_ADDRESS))) "the counter mint must be canonical USDC" ++
      (let '(protectedSide, counterSide) := if strict_eq role (JString "DESTINATION")
         then (b "destinationMint", b "sourceMint") else (b "sourceMint", b "destinationMint") in
       problem_if (negb (strict_eq protectedSide (b "protectedMint")) || negb (strict_eq counterSide (b "counterMint")))
         "source and destination mints do not match the role") ++
      problem_if (negb (isPositive (b "inAmountRaw")) || negb (isPositive (b "quotedOutRaw")))
        "inAmountRaw and quotedOutRaw must be positive u64 bigints" ++
      slippage_problems (b "slippageBps") (b "quotedOutRaw") (b "minOutRaw") ++
      problem_if (negb (isCommitmentHex (b "suffixCommitmentHex"))) "suffixCommitmentHex must be 64 lowercase hex digits" ++
      problem_if (negb (number_is 3 (b "suffixInstructionCount")) && negb (number_is 4 (b "suffixInstructionCount")))
        "suffixInstructionCount must be 3 or 4"
  end.

Definition isDownstreamBinding `{!AddressCodec} (value : jsval) : bool :=
  match downstreamProblems value with [] => true | _ => false end.

(** A detached copy, field by field. *)
Definition canonicalDownstream (value : DownstreamBinding) : DownstreamBinding :=
  match value with
  | TransferCheckedBinding commitmentHex => TransferCheckedBinding commitmentHex
  | JupiterBinding v => JupiterBinding {|
      jd_adapterKind := jd_adapterKind v;
      jd_jupiterProgramId := jd_jupiterProgramId v;
      jd_routeDiscriminatorHex := jd_routeDiscriminatorHex v;
      jd_protectedMintRole := jd_protectedMintRole v;
      jd_protectedMint := jd_protectedMint v;
      jd_counterMint := jd_counterMint v;
      jd_authority := jd_authority v;
      jd_sourceMint := jd_sourceMint v;
      jd_destinationMint := jd_destinationMint v;
      jd_sourceTokenAccount := jd_sourceTokenAccount v;
      jd_destinationTokenAccount := jd_destinationTokenAccount v;
      jd_inAmountRaw := jd_inAmountRaw v;
      jd_quotedOutRaw := jd_quotedOutRaw v;
      jd_slippageBps := jd_slippageBps v;
      jd_minOutRaw := jd_minOutRaw v;
      jd_suffixCommitmentHex := jd_suffixCommitmentHex v;
      jd_suffixInstructionCount := jd_suffixInstructionCount v |}
  end.

Definition jupiterQuoteMismatches (binding : DownstreamBinding) (quote : QuoteIdentity) (representationMint : string) : list string :=
  match binding with
  | TransferCheckedBinding _ => []
  | JupiterBinding b =>
      problem_if (negb (String.eqb (jd_adapterKind b) "JUPITER_ROUTE_V2_BUY_USDC"))
        "plans acquire the selected representation; only a BUY can execute one" ++
      problem_if (negb (String.eqb (jd_protectedMint b) representationMint) || negb (String.eqb (jd_destinationMint b) (q_mint quote)))
        "the trade does not acquire the planned representation" ++
      problem_if (negb (String.eqb (jd_sourceMint b) (q_inputMint quote))) "the trade does not spend the planned input mint" ++
      problem_if (negb (jd_inAmountRaw b =? q_inputRaw quote)) "inAmountRaw differs from the planned input" ++
      problem_if (negb (jd_quotedOutRaw b =? q_outputRaw quote)) "quotedOutRaw differs from the planned output" ++
      problem_if (negb (bool_decide (Some (jd_minOutRaw b) = q_minOutputRaw quote))) "minOutRaw differs from the planned minimum output"
  end.

(* ------------------------------------------------------------------ *)
(** ** The plan *)

Record PlanContent := mkPlanContent {
  pl_environment : ExecutionEnvironment;
  pl_selectedRepresentation : RepresentationSummary;
  pl_quote : QuoteIdentity;
  pl_quoteKey : string;
  pl_economicState : EconomicState;
  pl_policy : TransitionPolicy;
  pl_inputRaw : Z;
  pl_expectedOutputRaw : Z;
  pl_minOutputRaw : option Z;
  pl_route : RouteIdentity;
  pl_decision : Decision;
  pl_reasonCode : DecisionReasonCode;
  pl_executionEligibility : string;
  pl_comparisonKey : option string;
  pl_disclosure : option RerouteDisclosure;
  pl_consentId : option string;
  pl_createdAtSlot : Z;
  pl_expiresAtSlot : Z;
  pl_downstream : DownstreamBinding;
}.

Record ExecutionPlan := mkPlan { plan_content : PlanContent; planDigest : string }.

(** A disclosure is its content and its digest in one object. *)
Definition content_entries (c : DisclosureContent) : list (string * jsval) :=
  match content_value c with JObject es => es | _ => [] end.

Definition disclosure_value (d : RerouteDisclosure) : jsval :=
  JObject (("disclosureDigest", to_js (d_disclosureDigest d)) :: content_entries (d_content d)).

#[export] Instance disclosure_to_js : ToJs RerouteDisclosure.
Proof.
  refine {| to_js := disclosure_value |}. intros [c g] [c' g'] Heq.
  destruct c as [u o a r x p q e n k i m], c' as [u' o' a' r' x' p' q' e' n' k' i' m'].
  cbv delta [disclosure_value content_entries content_value] in Heq. cbn beta iota in Heq.
  record_inj Heq.
Defined.

#[export] Instance disclosure_not_null : NotNull RerouteDisclosure.
Proof. by intros d. Qed.

Definition plan_value (p : PlanContent) : jsval :=
  JObject [("environment", to_js (pl_environment p)); ("selectedRepresentation", to_js (pl_selectedRepresentation p));
    ("quote", to_js (pl_quote p)); ("quoteKey", to_js (pl_quoteKey p)); ("economicState", to_js (pl_economicState p));
    ("policy", to_js (pl_policy p)); ("inputRaw", to_js (pl_inputRaw p)); ("expectedOutputRaw", to_js (pl_expectedOutputRaw p));
    ("minOutputRaw", to_js (pl_minOutputRaw p)); ("route", to_js (pl_route p)); ("decision", to_js (pl_decision p));
    ("reasonCode", to_js (pl_reasonCode p)); ("executionEligibility", to_js (pl_executionEligibility p));
    ("comparisonKey", to_js (pl_comparisonKey p)); ("disclosure", to_js (pl_disclosure p)); ("consentId", to_js (pl_consentId p));
    ("createdAtSlot", to_js (pl_createdAtSlot p)); ("expiresAtSlot", to_js (pl_expiresAtSlot p));
    ("downstream", to_js (pl_downstream p))].

#[export] Instance plan_to_js : ToJs PlanContent.
Proof.
  refine {| to_js := plan_value |}.
  intros [a b c d e f g h i j k l m n o p q r s] [a' b' c' d' e' f' g' h' i' j' k' l' m' n' o' p' q' r' s'] Heq. record_inj Heq.
Defined.

Definition planDigestOf (content : PlanContent) : result state_exn string :=
  key ← canonicalKey (to_js content); Ok (sha256Hex key).

(** The module's objects together with the consents. *)
Record System := mkSystem {
  consents : ConsentStore;
  plan_heap : gmap positive ExecutionPlan;
  issuedPlans : gset positive;
  consumedPlans : gset positive;
}.

Definition empty_system : System := mkSystem empty_store ∅ ∅ ∅.

Definition plan_error {A} (code : ExecutionPlanErrorCode) (message : string) : result state_exn A := Err (PlanThrown code message []).

Definition plan_throw_if (b : bool) (code : ExecutionPlanErrorCode) (message : string) : result state_exn unit :=
  throw_if b (PlanThrown code message []).

Record PlanOptions := mkOptions { op_currentSlot : Z; op_validForSlots : Z; op_downstream : DownstreamBinding }.

(** [catch (error)]: an eligibility error becomes NOT_EXECUTABLE. *)
Definition plan_not_executable (e : state_exn) : state_exn :=
  match e with EligibilityThrown _ message => PlanThrown NOT_EXECUTABLE_DECISION message [] | e => e end.

(** The message of a [ConsentError]. *)
Definition consent_message (issues : list ConsentIssue) : string :=
  "consent rejected: " +:+ join "; " (map (λ i, show_consent_code (ci_code i) +:+ " (" +:+ ci_detail i +:+ ")") issues).

Definition plan_consent_rejected (e : state_exn) : state_exn :=
  match e with ConsentThrown issues => PlanThrown CONSENT_REJECTED (consent_message issues) [] | e => e end.

Definition is_rerouted (decision : DecisionResult) : bool := bool_decide (dr_decision decision = USE_ALTERNATIVE).

(** The checks before anything is consumed: the selected representation, the
    quote and the policy the plan is made of. *)
Definition plan_checks `{!AddressCodec} (decision : ExecutionDecision) (environment : ExecutionEnvironment) (options : PlanOptions)
    : result state_exn (RepresentationSummary * QuoteIdentity * TransitionPolicy) :=
  plan_throw_if (negb (bool_decide (environment = DEVNET_EXECUTION))) OBSERVATION_ONLY_ENVIRONMENT
    (show_environment environment +:+ " results cannot produce a submit-capable execution plan");;
  plan_throw_if (op_validForSlots options <=? 0) INVALID_FRESHNESS
    "an explicit positive bigint validForSlots and currentSlot are required";;
  let downstreamIssues := downstreamProblems (to_js (op_downstream options)) in
  plan_throw_if (match downstreamIssues with [] => false | _ => true end) INVALID_DOWNSTREAM
    ("a well-formed downstream binding is required: " +:+ join "; " downstreamIssues);;
  '(selected, executableQuote) ← map_err plan_not_executable (assertExecutable decision);
  plan_throw_if (is_rerouted (ed_stateDecision decision) &&
      match ed_comparison decision, dr_disclosure (ed_stateDecision decision) with
      | Some comparison, Some disclosure => negb (String.eqb (dc_comparisonKey (d_content disclosure)) (cmp_comparisonKey comparison))
      | _, _ => true
      end) DISCLOSURE_NOT_FOR_COMPARISON "a consented reroute needs the disclosure of the exact comparison";;
  quote ← quoteIdentityOf executableQuote;
  let notForQuote := jupiterQuoteMismatches (op_downstream options) quote (sum_mint selected) in
  plan_throw_if (match notForQuote with [] => false | _ => true end) DOWNSTREAM_NOT_FOR_QUOTE
    ("the Jupiter trade is not the planned quote: " +:+ join "; " notForQuote);;
  match ed_transitionPolicy decision with
  | None => plan_error PLAN_POLICY_MISMATCH
      "an executable decision must carry the transition policy its state was classified under"
  | Some policy => Ok (selected, quote, policy)
  end.

(** The REQUIRES_CONSENT form of a consented decision. *)
Definition asking (decision : DecisionResult) : DecisionResult :=
  mkDecision REQUIRES_CONSENT RC_CONSENT_REQUIRED (dr_reason decision) (dr_preferred decision) (dr_alternative decision)
    (dr_disclosure decision).

(** [if (rerouted)]: one consent, one plan. *)
Definition plan_consent (decision : ExecutionDecision) (options : PlanOptions) (store : ConsentStore)
    : result state_exn unit * ConsentStore :=
  if is_rerouted (ed_stateDecision decision) then
    match ed_consent decision, ed_comparison decision with
    | Some consent, Some comparison =>
        let '(res, store) := consumeConsent store consent
          (mkContext (asking (ed_stateDecision decision)) comparison (ed_reroutePolicy decision) (op_currentSlot options)) in
        (map_err plan_consent_rejected res, store)
    | None, _ => (plan_error CONSENT_REJECTED "a reroute plan requires a consent record", store)
    | _, None => (Err TypeThrown, store)
    end
  else (Ok tt, store).

Definition plan_content_of (decision : ExecutionDecision) (environment : ExecutionEnvironment) (options : PlanOptions)
    (selected : RepresentationSummary) (quote : QuoteIdentity) (policy : TransitionPolicy) (consentId : option string)
    : result state_exn PlanContent :=
  let rerouted := is_rerouted (ed_stateDecision decision) in
  key ← quoteKey quote;
  Ok {| pl_environment := environment;
        pl_selectedRepresentation := selected;
        pl_quote := quote;
        pl_quoteKey := key;
        pl_economicState := q_state quote;
        pl_policy := policy;
        pl_inputRaw := q_inputRaw quote;
        pl_expectedOutputRaw := q_outputRaw quote;
        pl_minOutputRaw := q_minOutputRaw quote;
        pl_route := q_route quote;
        pl_decision := dr_decision (ed_stateDecision decision);
        pl_reasonCode := dr_reasonCode (ed_stateDecision decision);
        pl_executionEligibility := "EXECUTABLE";
        pl_comparisonKey := if rerouted then cmp_comparisonKey <$> ed_comparison decision else None;
        pl_disclosure := if rerouted then dr_disclosure (ed_stateDecision decision) else None;
        pl_consentId := if rerouted then consentId else None;
        pl_createdAtSlot := op_currentSlot options;
        pl_expiresAtSlot := op_currentSlot options + op_validForSlots options;
        pl_downstream := canonicalDownstream (op_downstream options) |}.

(** [issuedPlans.add(plan)] on a new, frozen plan. *)
Definition issue_plan (system : System) (store : ConsentStore) (plan : ExecutionPlan) : positive * System :=
  let l := fresh (dom (plan_heap system)) in
  (l, mkSystem store (<[l := plan]> (plan_heap system)) ({[l]} ∪ issuedPlans system) (consumedPlans system)).

Definition createExecutionPlan `{!AddressCodec} (system : System) (decision : ExecutionDecision) (environment : ExecutionEnvironment)
    (options : PlanOptions) : result state_exn positive * System :=
  match plan_checks decision environment options with
  | Err e => (Err e, system)
  | Ok (selected, quote, policy) =>
      let '(res, store) := plan_consent decision options (consents system) in
      let system' := mkSystem store (plan_heap system) (issuedPlans system) (consumedPlans system) in
      match res with
      | Err e => (Err e, system')
      | Ok _ =>
          let consentId := co_consentId <$> (consent ← ed_consent decision; heap store !! consent) in
          match (content ← plan_content_of decision environment options selected quote policy consentId;
                 digest ← planDigestOf content; Ok (mkPlan content digest)) with
          | Err e => (Err e, system')
          | Ok plan => let '(l, system'') := issue_plan system store plan in (Ok l, system'')
          end
      end
  end.

(** What is presented at execution time. *)
Record Presented := mkPresented { pr_quote : QuoteIdentity; pr_comparison : option QuoteComparison }.

(** [a || b] where evaluating [b] may throw. *)
Definition or_else (a : bool) (b : result state_exn bool) : result state_exn bool := if a then Ok true else b.

(** [canonicalKey(a) !== canonicalKey(b)]. *)
Definition keys_differ {A} `{!ToJs A} (a b : A) : result state_exn bool :=
  ka ← canonicalKey (to_js a); kb ← canonicalKey (to_js b); Ok (negb (String.eqb ka kb)).

(** The consistency condition of [verifyExecutionPlan]. *)
Definition plan_inconsistent `{!AddressCodec} (p : PlanContent) : result state_exn bool :=
  or_else (negb (bool_decide (pl_environment p = DEVNET_EXECUTION)) || negb (String.eqb (pl_executionEligibility p) "EXECUTABLE"))
    (key ← quoteKey (pl_quote p);
     or_else (negb (String.eqb (pl_quoteKey p) key))
       (stateDiffers ← keys_differ (pl_economicState p) (q_state (pl_quote p));
        or_else (stateDiffers || negb (pl_inputRaw p =? q_inputRaw (pl_quote p)) || negb (pl_expectedOutputRaw p =? q_outputRaw (pl_quote p))
                 || negb (bool_decide (pl_minOutputRaw p = q_minOutputRaw (pl_quote p))))
          (routeDiffers ← keys_differ (pl_route p) (q_route (pl_quote p));
           Ok (routeDiffers || negb (String.eqb (sum_mint (pl_selectedRepresentation p)) (q_mint (pl_quote p)))
               || negb (isDownstreamBinding (to_js (pl_downstream p)))
               || match jupiterQuoteMismatches (pl_downstream p) (pl_quote p) (sum_mint (pl_selectedRepresentation p)) with
                  | [] => false | _ => true end)))).

(** The checks on a rerouted plan. *)
Definition check_comparison (p : PlanContent) (presented : Presented) : result state_exn unit :=
  match pl_comparisonKey p with
  | None => Ok tt
  | Some key =>
      match pr_comparison presented with
      | None => plan_error COMPARISON_NOT_FOR_PLAN "presented comparison is not the one consent was given to"
      | Some comparison =>
          plan_throw_if (negb (String.eqb (cmp_comparisonKey comparison) key)) COMPARISON_NOT_FOR_PLAN
            "presented comparison is not the one consent was given to";;
          plan_throw_if (match pl_disclosure p with
              | Some d => negb (String.eqb (dc_comparisonKey (d_content d)) key) | None => true end) DISCLOSURE_NOT_FOR_COMPARISON
            "plan disclosure does not describe the planned comparison";;
          alternative ← quoteMismatches (cmp_alternativeQuote comparison) (pl_quote p);
          match alternative with
          | [] => Ok tt
          | _ => Err (PlanThrown COMPARISON_NOT_FOR_PLAN "comparison's alternative quote is not the planned quote" alternative)
          end
      end
  end.

Definition verifyExecutionPlan `{!AddressCodec} (system : System) (plan : positive) (presented : Presented) : result state_exn unit :=
  match (if bool_decide (plan ∈ issuedPlans system) then plan_heap system !! plan else None) with
  | None => plan_error PLAN_NOT_ISSUED "execution plans can only come from createExecutionPlan"
  | Some (mkPlan p digest) =>
      plan_throw_if (bool_decide (plan ∈ consumedPlans system)) PLAN_CONSUMED
        ("plan " +:+ String.substring 0 16 digest +:+ "… was already executed");;
      actualDigest ← planDigestOf p;
      plan_throw_if (negb (String.eqb actualDigest digest)) PLAN_TAMPERED "plan content does not match its digest";;
      inconsistent ← plan_inconsistent p;
      plan_throw_if inconsistent PLAN_TAMPERED "plan fields are inconsistent with the planned quote";;
      substituted ← quoteMismatches (pl_quote p) (pr_quote presented);
      match substituted with
      | [] => check_comparison p presented
      | _ => Err (PlanThrown QUOTE_SUBSTITUTED ("presented quote is not the planned quote: "
               +:+ join ", " (map (λ m, show_mismatch_code (qm_code m)) substituted)) substituted)
      end
  end.

Definition consumeExecutionPlan `{!AddressCodec} (system : System) (plan : positive) (presented : Presented)
    : result state_exn unit * System :=
  match verifyExecutionPlan system plan presented with
  | Err e => (Err e, system)
  | Ok _ => (Ok tt, mkSystem (consents system) (plan_heap system) (issuedPlans system) ({[plan]} ∪ consumedPlans system))
  end.

Definition assertPlanDownstream `{!AddressCodec} (plan : ExecutionPlan) (actual : DownstreamBinding) : result state_exn unit :=
  differs ← or_else (negb (isDownstreamBinding (to_js actual)))
    (keys_differ (canonicalDownstream actual) (pl_downstream (plan_content plan)));
  plan_throw_if differs DOWNSTREAM_COMMITMENT_MISMATCH "the action being submitted is not the planned action".

Definition assertPlanPolicy (plan : ExecutionPlan) (executorPolicy : TransitionPolicy) : result state_exn unit :=
  differs ← keys_differ (pl_policy (plan_content plan)) executorPolicy;
  let window p := " (" +:+ show_Z (pol_beforeSecs p) +:+ "/" +:+ show_Z (pol_afterSecs p) +:+ "s)" in
  let quoted_basis p := String double_quote (pol_basis p +:+ String double_quote "") in
  plan_throw_if differs PLAN_POLICY_MISMATCH
    ("plan was decided under " +:+ quoted_basis (pl_policy (plan_content plan)) +:+ window (pl_policy (plan_content plan))
     +:+ "; executor is configured for " +:+ quoted_basis executorPolicy +:+ window executorPolicy).

Definition assertPlanFresh (plan : ExecutionPlan) (currentSlot : Z) : result state_exn unit :=
  plan_throw_if (pl_expiresAtSlot (plan_content plan) <? currentSlot) PLAN_EXPIRED
    ("slot " +:+ show_Z currentSlot +:+ " > expiresAtSlot " +:+ show_Z (pl_expiresAtSlot (plan_content plan))).

(* ------------------------------------------------------------------ *)
(** ** Keys *)

(** The entry of an object literal. *)
Ltac field_in := repeat first [apply list_elem_of_here | apply list_elem_of_further].

Lemma canonicalKey_encodable v : (∃ k, canonicalKey v = Ok k) ↔ encodable v = true.
Proof.
  rewrite <- canonicalKey_ok. destruct (canonicalKey v); cbn; split; try done; [by eexists|by intros []].
Qed.

Lemma keys_differ_false {A} `{!ToJs A} (a b : A) : keys_differ a b = Ok false ↔ a = b ∧ encodable (to_js a) = true.
Proof.
  unfold keys_differ. rewrite <- canonicalKey_encodable. split.
  - intros Hk. apply bind_Ok in Hk as (ka & Ha & Hk). apply bind_Ok in Hk as (kb & Hb & [= Heq%negb_false_iff%String.eqb_eq]).
    subst kb. split; [|by exists ka]. apply to_js_inj. by eapply canonicalKey_inj.
  - intros [<- [k Hk]]. rewrite Hk. cbn. by rewrite String.eqb_refl.
Qed.

Lemma encodable_fields es : encodable (JObject es) = true → ∀ k v, (k, v) ∈ es → encodable v = true.
Proof.
  cbn. rewrite forallb_forall. intros Hall k v Hin. apply list_elem_of_In in Hin. by apply (Hall (k, v)).
Qed.

Lemma encodable_quote q : encodable (to_js q) = true →
  encodable (to_js (q_state q)) = true ∧ encodable (to_js (q_route q)) = true.
Proof.
  intros He. split.
  - apply (encodable_fields (quote_entries q) He "state"). unfold quote_entries. field_in.
  - apply (encodable_fields (quote_entries q) He "route"). unfold quote_entries. field_in.
Qed.

(** The digest commits to the content. *)
Definition plan_collision (p p' : PlanContent) : Prop :=
  ∃ k k', canonicalKey (to_js p) = Ok k ∧ canonicalKey (to_js p') = Ok k' ∧ k ≠ k' ∧ sha256Hex k = sha256Hex k'.

Lemma canonicalDownstream_id b : canonicalDownstream b = b.
Proof. by destruct b as [|[]]. Qed.

(* ------------------------------------------------------------------ *)
(** ** What an issued plan is *)

Section Plans.
  Context `{!AddressCodec}.

(** The invariant of an issued plan. *)
Record plan_ok (plan : ExecutionPlan) : Prop := {
  ok_gate : pl_environment (plan_content plan) = DEVNET_EXECUTION ∧ pl_executionEligibility (plan_content plan) = "EXECUTABLE";
  ok_key : quoteKey (pl_quote (plan_content plan)) = Ok (pl_quoteKey (plan_content plan));
  ok_state : pl_economicState (plan_content plan) = q_state (pl_quote (plan_content plan)) ∧
             pl_route (plan_content plan) = q_route (pl_quote (plan_content plan));
  ok_amounts : pl_inputRaw (plan_content plan) = q_inputRaw (pl_quote (plan_content plan)) ∧
               pl_expectedOutputRaw (plan_content plan) = q_outputRaw (pl_quote (plan_content plan)) ∧
               pl_minOutputRaw (plan_content plan) = q_minOutputRaw (pl_quote (plan_content plan));
  ok_mint : sum_mint (pl_selectedRepresentation (plan_content plan)) = q_mint (pl_quote (plan_content plan)) ∧
            es_mint (q_state (pl_quote (plan_content plan))) = q_mint (pl_quote (plan_content plan));
  ok_downstream : downstreamProblems (to_js (pl_downstream (plan_content plan))) = [] ∧
    jupiterQuoteMismatches (pl_downstream (plan_content plan)) (pl_quote (plan_content plan))
      (sum_mint (pl_selectedRepresentation (plan_content plan))) = [];
  ok_disclosure k : pl_comparisonKey (plan_content plan) = Some k →
    ∃ d, pl_disclosure (plan_content plan) = Some d ∧ dc_comparisonKey (d_content d) = k;
  ok_slots : pl_createdAtSlot (plan_content plan) < pl_expiresAtSlot (plan_content plan);
  ok_digest : planDigestOf (plan_content plan) = Ok (planDigest plan);
}.

Lemma plan_ok_quote plan : plan_ok plan → wf_quote (pl_quote (plan_content plan)) ∧ encodable (to_js (pl_quote (plan_content plan))) = true.
Proof. intros [_ [Hw Hk]%quoteKey_Ok _ _ _ _ _ _ _]. split; [done|]. apply canonicalKey_encodable. eauto. Qed.

(** An issued plan is never found inconsistent with its quote. *)
Lemma plan_ok_consistent plan : plan_ok plan → plan_inconsistent (plan_content plan) = Ok false.
Proof.
  intros Hok. destruct (plan_ok_quote plan Hok) as [_ [Hes Her]%encodable_quote].
  destruct Hok as [[He Hg] Hk [Hs Hr] (Hi & Ho & Hm) [Hmint _] [Hd Hj] _ _ _].
  unfold plan_inconsistent, or_else, isDownstreamBinding. rewrite He, Hg, Hk, Hs, Hr, Hi, Ho, Hm, Hd, Hj, Hmint.
  rewrite (bool_decide_eq_true_2 (DEVNET_EXECUTION = DEVNET_EXECUTION)) by done.
  rewrite (bool_decide_eq_true_2 (q_minOutputRaw _ = _)) by done. rewrite !String.eqb_refl, !Z.eqb_refl. cbn [negb orb mbind result_bind].
  rewrite (proj2 (keys_differ_false _ _) (conj eq_refl Hes)). cbn [negb orb mbind result_bind].
  by rewrite String.eqb_refl, (proj2 (keys_differ_false _ _) (conj eq_refl Her)).
Qed.

(* ------------------------------------------------------------------ *)
(** ** Creation *)

Lemma plan_throw_if_then_Ok {A} b code msg (k : result state_exn A) a :
  (plan_throw_if b code msg;; k) = Ok a ↔ b = false ∧ k = Ok a.
Proof. apply throw_if_then_Ok. Qed.

Lemma assertExecutable_Ok decision selected quote : assertExecutable decision = Ok (selected, quote) ↔
  ed_executionEligibility decision = EXECUTABLE ∧ ed_selectedRepresentation decision = Some selected ∧
  ed_executableQuote decision = Some quote ∧ q_mint quote = sum_mint selected ∧ es_mint (q_state quote) = sum_mint selected.
Proof.
  unfold assertExecutable. cbv zeta. case_bool_decide as He; [|by split; [|intros [? _]]].
  destruct (ed_selectedRepresentation decision) as [s|]; [|by split; [|intros (_ & ? & _)]].
  destruct (ed_executableQuote decision) as [q|]; [|by split; [|intros (_ & _ & ? & _)]].
  destruct (_ || _) eqn:Hm.
  - split; [done|]. intros (_ & [= ->] & [= ->] & H1 & H2). by rewrite H1, H2, !String.eqb_refl in Hm.
  - rewrite orb_false_iff, !negb_false_iff, !String.eqb_eq in Hm. split; [intros [= <- <-]; tauto|by intros (_ & [= ->] & [= ->] & _)].
Qed.

(** What the checks before consumption establish. *)
Record checked (decision : ExecutionDecision) (environment : ExecutionEnvironment) (options : PlanOptions)
    (selected : RepresentationSummary) (quote : QuoteIdentity) (policy : TransitionPolicy) : Prop := {
  ch_environment : environment = DEVNET_EXECUTION;
  ch_slots : 0 < op_validForSlots options;
  ch_downstream : downstreamProblems (to_js (op_downstream options)) = [] ∧
                  jupiterQuoteMismatches (op_downstream options) quote (sum_mint selected) = [];
  ch_executable : assertExecutable decision = Ok (selected, quote);
  ch_disclosure : is_rerouted (ed_stateDecision decision) = true →
    ∃ c d, ed_comparison decision = Some c ∧ dr_disclosure (ed_stateDecision decision) = Some d ∧
      dc_comparisonKey (d_content d) = cmp_comparisonKey c;
  ch_wf : wf_quote quote;
  ch_policy : ed_transitionPolicy decision = Some policy;
}.

Lemma plan_checks_Ok decision environment options selected quote policy :
  plan_checks decision environment options = Ok (selected, quote, policy) → checked decision environment options selected quote policy.
Proof.
  unfold plan_checks. cbv zeta. rewrite !plan_throw_if_then_Ok, negb_false_iff, bool_decide_eq_true, Z.leb_gt.
  intros (He & Hs & Hd & Hrun). apply bind_Ok in Hrun as ([sel q] & Hex%map_err_Ok & Hrun).
  rewrite plan_throw_if_then_Ok in Hrun. destruct Hrun as [Hdisc Hrun]. unfold quoteIdentityOf in Hrun.
  apply bind_Ok in Hrun as (q' & [Hwf%types_of_quote [= <-]]%then_Ok & Hrun). rewrite plan_throw_if_then_Ok in Hrun.
  destruct Hrun as [Hj Hrun]. destruct (ed_transitionPolicy decision) as [p|] eqn:Hp; [|done]. injection Hrun as -> -> ->.
  split; [done|done| |done| |done|done].
  - split; [by destruct (downstreamProblems _)|by destruct (jupiterQuoteMismatches _ _ _)].
  - intros Hre. rewrite Hre in Hdisc. cbn [andb] in Hdisc. destruct (ed_comparison decision) as [c|]; [|done].
    destruct (dr_disclosure (ed_stateDecision decision)) as [d|]; [|done]. exists c, d. by apply negb_false_iff, String.eqb_eq in Hdisc.
Qed.

(** Consuming the consent of a reroute. *)
Lemma plan_consent_cases decision options store res store' : plan_consent decision options store = (res, store') →
  (∃ e, res = Err e) ∧ store' = store ∨
  res = Ok tt ∧ is_rerouted (ed_stateDecision decision) = false ∧ store' = store ∨
  res = Ok tt ∧ is_rerouted (ed_stateDecision decision) = true ∧ ∃ l c r d, ed_consent decision = Some l ∧ ed_comparison decision = Some c ∧
    authorizes store l (mkContext (asking (ed_stateDecision decision)) c (ed_reroutePolicy decision) (op_currentSlot options)) r d ∧
    store' = mark_consumed store l.
Proof.
  unfold plan_consent. destruct (is_rerouted (ed_stateDecision decision)); [|intros [= <- <-]; auto].
  destruct (ed_consent decision) as [l|]; [|intros [= <- <-]; left; eauto].
  destruct (ed_comparison decision) as [c|]; [|intros [= <- <-]; left; eauto].
  destruct (consumeConsent store l _) as [res' store''] eqn:Hc. intros [= <- <-].
  apply consumeConsent_cases in Hc as [(-> & (r & d & Ha) & ->)|(Hne & _ & ->)].
  - right. right. split; [done|]. split; [done|]. by exists l, c, r, d.
  - left. destruct res' as [[]|e]; [done|]. split; [by eexists|done].
Qed.

Lemma plan_consent_Ok decision options store l c r d : is_rerouted (ed_stateDecision decision) = true →
  ed_consent decision = Some l → ed_comparison decision = Some c →
  authorizes store l (mkContext (asking (ed_stateDecision decision)) c (ed_reroutePolicy decision) (op_currentSlot options)) r d →
  plan_consent decision options store = (Ok tt, mark_consumed store l).
Proof.
  intros Hre Hl Hc Ha. unfold plan_consent. rewrite Hre, Hl, Hc. unfold consumeConsent.
  rewrite (proj2 (consentIssues_nil store l _)); [reflexivity|]. by exists r, d.
Qed.

(** What the created plan says about the decision it was made from. *)
Record plan_of (plan : ExecutionPlan) (decision : ExecutionDecision) (options : PlanOptions) : Prop := {
  po_environment : pl_environment (plan_content plan) = DEVNET_EXECUTION;
  po_decision : ed_executionEligibility decision = EXECUTABLE ∧
    pl_decision (plan_content plan) = dr_decision (ed_stateDecision decision);
  po_selected : ed_selectedRepresentation decision = Some (pl_selectedRepresentation (plan_content plan));
  po_quote : ed_executableQuote decision = Some (pl_quote (plan_content plan));
  po_policy : ed_transitionPolicy decision = Some (pl_policy (plan_content plan));
  po_downstream : pl_downstream (plan_content plan) = op_downstream options;
  po_slots : pl_createdAtSlot (plan_content plan) = op_currentSlot options ∧
    pl_expiresAtSlot (plan_content plan) = op_currentSlot options + op_validForSlots options;
  po_comparison : pl_comparisonKey (plan_content plan) =
    (if is_rerouted (ed_stateDecision decision) then cmp_comparisonKey <$> ed_comparison decision else None);
}.

Lemma plan_content_Ok decision environment options selected quote policy consentId content digest :
  checked decision environment options selected quote policy →
  plan_content_of decision environment options selected quote policy consentId = Ok content →
  planDigestOf content = Ok digest →
  plan_ok (mkPlan content digest) ∧ plan_of (mkPlan content digest) decision options.
Proof.
  intros [He Hs [Hd Hj] Hex Hdisc Hwf Hp] Hc Hg. unfold plan_content_of in Hc. cbv zeta in Hc.
  apply bind_Ok in Hc as (key & Hkey & [= <-]). apply assertExecutable_Ok in Hex as (Hel & Hsel & Hq & Hm & Hes).
  split; split; cbn [plan_content planDigest pl_environment pl_executionEligibility pl_quote pl_quoteKey pl_economicState pl_route
    pl_inputRaw pl_expectedOutputRaw pl_minOutputRaw pl_selectedRepresentation pl_downstream pl_comparisonKey pl_disclosure
    pl_createdAtSlot pl_expiresAtSlot pl_decision pl_policy]; rewrite ?canonicalDownstream_id; try (exact Hg || assumption || by split).
  - split; congruence.
  - intros k Hk. destruct (is_rerouted _); [|done]. destruct Hdisc as (c & d & Hc & Hdd & Heq); [done|].
    rewrite Hc in Hk. injection Hk as <-. by exists d.
  - lia.
  - by rewrite canonicalDownstream_id in Hg.
Qed.

(** A creation that throws makes no plan; it may have consumed the consent. *)
Definition consents_after (store store' : ConsentStore) : Prop :=
  store' = store ∨ ∃ l context, consumeConsent store l context = (Ok tt, store').

Definition creation_fails (system : System) (res : result state_exn positive) (system' : System) : Prop :=
  (∃ e, res = Err e) ∧
  ∃ store', system' = mkSystem store' (plan_heap system) (issuedPlans system) (consumedPlans system) ∧
    consents_after (consents system) store'.

(** The consent behind a created plan: none, or one consumed by this creation. *)
Definition created_with (decision : ExecutionDecision) (options : PlanOptions) (store store' : ConsentStore) : Prop :=
  is_rerouted (ed_stateDecision decision) = false ∧ store' = store ∨
  is_rerouted (ed_stateDecision decision) = true ∧ ∃ l c r d, ed_consent decision = Some l ∧ ed_comparison decision = Some c ∧
    authorizes store l (mkContext (asking (ed_stateDecision decision)) c (ed_reroutePolicy decision) (op_currentSlot options)) r d ∧
    store' = mark_consumed store l.

Lemma created_with_after decision options store store' : created_with decision options store store' → consents_after store store'.
Proof.
  intros [[_ ->]|[_ (l & c & r & d & _ & _ & Ha & ->)]]; [by left|right]. eexists l, _.
  unfold consumeConsent. rewrite (proj2 (consentIssues_nil _ _ _)); [reflexivity|]. eauto.
Qed.

Lemma createExecutionPlan_cases system decision environment options res system' :
  createExecutionPlan system decision environment options = (res, system') →
  creation_fails system res system' ∨
  ∃ l plan store', res = Ok l ∧ plan_heap system !! l = None ∧
    system' = mkSystem store' (<[l := plan]> (plan_heap system)) ({[l]} ∪ issuedPlans system) (consumedPlans system) ∧
    plan_ok plan ∧ plan_of plan decision options ∧ created_with decision options (consents system) store'.
Proof.
  unfold createExecutionPlan.
  destruct (plan_checks decision environment options) as [[[selected quote] policy]|e] eqn:Hch.
  2: { intros [= <- <-]. left. split; [by eexists|]. exists (consents system). split; [by destruct system|by left]. }
  apply plan_checks_Ok in Hch. destruct (plan_consent decision options (consents system)) as [cres store'] eqn:Hco.
  apply plan_consent_cases in Hco as [[[e ->] ->]|Hco].
  { intros [= <- <-]. left. split; [by eexists|]. exists (consents system). split; [done|by left]. }
  assert (cres = Ok tt ∧ created_with decision options (consents system) store') as [-> Hwith].
  { destruct Hco as [(-> & ? & ->)|(-> & ? & ?)]; (split; [done|]); [by left|by right]. }
  pose proof (created_with_after _ _ _ _ Hwith) as Hafter.
  assert (∀ e, creation_fails system (Err e) (mkSystem store' (plan_heap system) (issuedPlans system) (consumedPlans system))) as Hfail.
  { intros e. split; [by eexists|]. by exists store'. }
  destruct (plan_content_of _ _ _ _ _ _ _) as [content|e] eqn:Hcontent; cbn [mbind result_bind]; [|intros [= <- <-]; left; apply Hfail].
  destruct (planDigestOf content) as [digest|e] eqn:Hdigest; cbn [mbind result_bind]; [|intros [= <- <-]; left; apply Hfail].
  destruct (plan_content_Ok _ _ _ _ _ _ _ _ _ Hch Hcontent Hdigest) as [Hok Hof].
  unfold issue_plan. cbn [plan_heap issuedPlans consumedPlans]. intros [= <- <-]. right.
  exists (fresh (dom (plan_heap system))), (mkPlan content digest), store'.
  split; [done|]. split; [apply not_elem_of_dom, is_fresh|]. split; [done|]. split; [exact Hok|]. split; [exact Hof|exact Hwith].
Qed.

(* ------------------------------------------------------------------ *)
(** ** The module as a transition system *)

(** Consents change, some other code makes an object shaped like a plan, a plan
    is created or consumed. *)
Inductive plan_step : System → System → Prop :=
| plan_step_consent system store' : consent_step (consents system) store' →
    plan_step system (mkSystem store' (plan_heap system) (issuedPlans system) (consumedPlans system))
| plan_step_allocate system l plan : plan_heap system !! l = None →
    plan_step system (mkSystem (consents system) (<[l := plan]> (plan_heap system)) (issuedPlans system) (consumedPlans system))
| plan_step_create system decision environment options res system' :
    createExecutionPlan system decision environment options = (res, system') → plan_step system system'
| plan_step_consume system l presented res system' : consumeExecutionPlan system l presented = (res, system') → plan_step system system'.

Definition plan_reachable (system : System) : Prop := rtc plan_step empty_system system.

Record system_inv (system : System) : Prop := {
  si_consents : store_inv (consents system);
  si_consumed : consumedPlans system ⊆ issuedPlans system;
  si_issued : issuedPlans system ⊆ dom (plan_heap system);
  si_plans l plan : l ∈ issuedPlans system → plan_heap system !! l = Some plan → plan_ok plan;
}.

Record system_le (system system' : System) : Prop := {
  sl_consents : store_le (consents system) (consents system');
  sl_heap : plan_heap system ⊆ plan_heap system';
  sl_issued : issuedPlans system ⊆ issuedPlans system';
  sl_consumed : consumedPlans system ⊆ consumedPlans system';
}.

#[export] Instance system_le_preorder : PreOrder system_le.
Proof. split; [by split|]. intros a b c [? ? ? ?] [? ? ? ?]. split; by etransitivity. Qed.

Lemma consents_after_step store store' : consents_after store store' → rtc consent_step store store'.
Proof. intros [->|(l & context & Hc)]; [done|]. apply rtc_once. by eapply step_consume. Qed.

Lemma consents_after_inv store store' : consents_after store store' → store_inv store → store_inv store'.
Proof. intros Hs%consents_after_step. induction Hs; eauto using consent_step_inv. Qed.

Lemma consumeExecutionPlan_cases system l presented res system' : consumeExecutionPlan system l presented = (res, system') →
  (∃ e, res = Err e) ∧ system' = system ∨
  res = Ok tt ∧ verifyExecutionPlan system l presented = Ok tt ∧
    system' = mkSystem (consents system) (plan_heap system) (issuedPlans system) ({[l]} ∪ consumedPlans system).
Proof.
  unfold consumeExecutionPlan. destruct (verifyExecutionPlan system l presented) as [[]|e]; intros [= <- <-]; [by right|left; eauto].
Qed.

(** A plan that verifies was issued and is unused. *)
Lemma verifyExecutionPlan_issued system l presented : verifyExecutionPlan system l presented = Ok tt →
  l ∈ issuedPlans system ∧ l ∉ consumedPlans system.
Proof.
  unfold verifyExecutionPlan. case_bool_decide as Hi; [|done]. destruct (plan_heap system !! l) as [[p g]|]; [|done].
  rewrite plan_throw_if_then_Ok, bool_decide_eq_false. by intros [? _].
Qed.

Lemma plan_step_le system system' : plan_step system system' → system_le system system'.
Proof.
  destruct 1 as [system store' Hs|system l plan Hl|system decision env options res system' Hc|system l presented res system' Hc].
  - split; cbn; [by apply consent_step_le|done..].
  - split; cbn; [done|by apply insert_subseteq|done..].
  - apply createExecutionPlan_cases in Hc as [(_ & store' & -> & Hs)|(l & plan & store' & _ & Hl & -> & _ & _ & Hs%created_with_after)];
      apply consents_after_step, consent_steps_le in Hs; split; cbn; try done; [by apply insert_subseteq|apply union_subseteq_r].
  - apply consumeExecutionPlan_cases in Hc as [(_ & ->)|(_ & _ & ->)]; [done|]. split; cbn; [done..|apply union_subseteq_r].
Qed.

Lemma plan_steps_le system system' : rtc plan_step system system' → system_le system system'.
Proof. induction 1; [done|]. etransitivity; [by apply plan_step_le|done]. Qed.

Lemma plan_step_inv system system' : plan_step system system' → system_inv system → system_inv system'.
Proof.
  destruct 1 as [system store' Hs|system l plan Hl|system decision env options res system' Hc|system l presented res system' Hc];
    intros [Hst Hcon Hiss Hpl].
  - split; cbn; [by eapply consent_step_inv|done..].
  - split; cbn; [done|done|rewrite dom_insert; set_solver|].
    intros l' plan' Hin. rewrite lookup_insert_ne; [by apply Hpl|]. intros ->. apply Hiss, elem_of_dom in Hin as [? ?]. congruence.
  - apply createExecutionPlan_cases in Hc as [(_ & store' & -> & Hs)|(l & plan & store' & _ & Hl & -> & Hok & _ & Hs%created_with_after)];
      (split; cbn; [by eapply consents_after_inv|..]); [done..|set_solver|rewrite dom_insert; set_solver|].
    intros l' plan' Hin. destruct (decide (l' = l)) as [->|Hne]; [rewrite lookup_insert_eq; by intros [= <-]|].
    rewrite lookup_insert_ne by done. apply Hpl. by apply elem_of_union in Hin as [?%elem_of_singleton|?].
  - apply consumeExecutionPlan_cases in Hc as [(_ & ->)|(_ & [Hi _]%verifyExecutionPlan_issued & ->)]; [done|].
    split; cbn; [done|set_solver|done|done].
Qed.

Lemma system_inv_reachable system : plan_reachable system → system_inv system.
Proof.
  unfold plan_reachable. intros Hr. assert (system_inv empty_system) as H0.
  { split; cbn; [by split; cbn; [set_solver|set_solver]|done|set_solver|set_solver]. }
  induction Hr; [done|]. by eauto using plan_step_inv.
Qed.

(** The consents of a reachable system are those of a reachable store. *)
Lemma plan_step_consents system system' : plan_step system system' → rtc consent_step (consents system) (consents system').
Proof.
  destruct 1 as [system store' Hs|system l plan Hl|system decision env options res system' Hc|system l presented res system' Hc].
  - by apply rtc_once.
  - done.
  - apply createExecutionPlan_cases in Hc as [(_ & store' & -> & Hs)|(l & plan & store' & _ & _ & -> & _ & _ & Hs%created_with_after)];
      by apply consents_after_step in Hs.
  - apply consumeExecutionPlan_cases in Hc as [(_ & ->)|(_ & _ & ->)]; done.
Qed.

Lemma plan_reachable_consents system : plan_reachable system → consent_reachable (consents system).
Proof.
  unfold plan_reachable, consent_reachable. revert system.
  refine (rtc_ind_r (λ system, rtc consent_step empty_store (consents system)) _ _ _); [done|].
  intros system system' _ Hs IH. etransitivity; [exact IH|by apply plan_step_consents].
Qed.

(* ------------------------------------------------------------------ *)
(** ** Verification of an issued plan *)

Lemma encodable_num n : encodable (JNum n) = true → plain_int n.
Proof. by destruct n. Qed.

Lemma encodable_regular q : wf_quote q → encodable (to_js q) = true → regular_quote q.
Proof.
  intros Hwf [Hs Hr]%encodable_quote. split; [done| |].
  - apply encodable_num. apply (encodable_fields _ Hs "decimals"). field_in.
  - assert (encodable (JArray (map to_js (route_legs (q_route q)))) = true) as Hl.
    { apply (encodable_fields _ Hr "legs"). field_in. }
    cbn in Hl.
    apply Forall_forall. intros l Hin. apply encodable_num.
    assert (encodable (to_js l) = true) as He.
    { rewrite forallb_forall in Hl. apply Hl, list_elem_of_In, list_elem_of_fmap. by exists l. }
    apply (encodable_fields _ He "percent"). field_in.
Qed.

Lemma quoteMismatches_none e a : regular_quote e → regular_quote a → (quoteMismatches e a = Ok [] ↔ e = a).
Proof.
  intros He Ha. destruct (quoteMismatches_spec e a He Ha) as (ms & -> & _ & Hn). rewrite <- Hn. split; [by intros [= ->]|by intros ->].
Qed.

(** The quotes presented passed the run-time type check, without negative zeros. *)
Definition regular_presented (presented : Presented) : Prop :=
  regular_quote (pr_quote presented) ∧ ∀ c, pr_comparison presented = Some c → regular_quote (cmp_alternativeQuote c).

(** The presented quote is the planned one and a reroute's comparison the consented one. *)
Definition presents (plan : ExecutionPlan) (presented : Presented) : Prop :=
  pr_quote presented = pl_quote (plan_content plan) ∧
  ∀ k, pl_comparisonKey (plan_content plan) = Some k →
    ∃ c, pr_comparison presented = Some c ∧ cmp_comparisonKey c = k ∧ cmp_alternativeQuote c = pl_quote (plan_content plan).

Definition not_tampered (res : result state_exn unit) : Prop := ∀ message mismatches, res ≠ Err (PlanThrown PLAN_TAMPERED message mismatches).

Lemma check_comparison_spec plan presented : plan_ok plan → regular_presented presented →
  not_tampered (check_comparison (plan_content plan) presented) ∧
  (check_comparison (plan_content plan) presented = Ok tt ↔ ∀ k, pl_comparisonKey (plan_content plan) = Some k →
    ∃ c, pr_comparison presented = Some c ∧ cmp_comparisonKey c = k ∧ cmp_alternativeQuote c = pl_quote (plan_content plan)).
Proof.
  intros Hok [_ Hreg]. destruct (plan_ok_quote plan Hok) as [Hwf Henc]. pose proof (encodable_regular _ Hwf Henc) as Hq.
  unfold check_comparison. destruct (pl_comparisonKey (plan_content plan)) as [k|] eqn:Hk; [|by split].
  destruct (ok_disclosure plan Hok k Hk) as (d & -> & Hd). rewrite Hd, String.eqb_refl. cbn [negb].
  destruct (pr_comparison presented) as [c|] eqn:Hc.
  2: { split; [done|]. split; [done|]. intros Hall. by destruct (Hall k eq_refl) as (? & ? & _). }
  pose proof (quoteMismatches_none _ _ (Hreg c eq_refl) Hq) as Hnone.
  destruct (quoteMismatches_spec _ _ (Hreg c eq_refl) Hq) as (ms & Hms & _). rewrite Hms in Hnone |- *. unfold plan_throw_if, not_tampered.
  destruct (String.eqb_spec (cmp_comparisonKey c) k) as [He|He]; cbn [negb throw_if mbind result_bind].
  - destruct ms as [|m ms].
    + split; [done|]. split; [|done]. intros _ k' [= <-]. exists c. split; [done|]. split; [done|]. by apply Hnone.
    + split; [done|]. split; [done|]. intros Hall. destruct (Hall k eq_refl) as (c' & [= <-] & _ & Heq). by apply Hnone in Heq.
  - split; [done|]. split; [done|]. intros Hall. by destruct (Hall k eq_refl) as (c' & [= <-] & ? & _).
Qed.

Lemma verifyExecutionPlan_spec system l plan presented : plan_heap system !! l = Some plan → l ∈ issuedPlans system →
  plan_ok plan → l ∉ consumedPlans system → regular_presented presented →
  not_tampered (verifyExecutionPlan system l presented) ∧
  (verifyExecutionPlan system l presented = Ok tt ↔ presents plan presented).
Proof.
  intros Hl Hi Hok Hu Hp. destruct (plan_ok_quote plan Hok) as [Hwf Henc]. pose proof (encodable_regular _ Hwf Henc) as Hq.
  destruct (check_comparison_spec plan presented Hok Hp) as [Ht Hcheck]. unfold verifyExecutionPlan, presents.
  rewrite (bool_decide_eq_true_2 _ Hi), Hl. rewrite (bool_decide_eq_false_2 _ Hu).
  pose proof (ok_digest plan Hok) as Hdig. pose proof (plan_ok_consistent plan Hok) as Hcons.
  destruct plan as [p g]. cbn [plan_content planDigest] in *. unfold plan_throw_if at 1. cbn [throw_if mbind result_bind].
  rewrite Hdig. cbn [mbind result_bind]. rewrite String.eqb_refl. cbn [negb plan_throw_if throw_if mbind result_bind].
  rewrite Hcons. cbn [plan_throw_if throw_if mbind result_bind]. destruct Hp as [Hpq Hpc].
  pose proof (quoteMismatches_none _ _ Hq Hpq) as Hnone. destruct (quoteMismatches_spec _ _ Hq Hpq) as (ms & Hms & _). rewrite Hms in Hnone |- *.
  cbn [mbind result_bind]. destruct ms as [|m ms].
  - split; [exact Ht|]. rewrite Hcheck. split; [intros Hall; split; [symmetry; by apply Hnone|exact Hall]|by intros [_ Hall]].
  - split; [done|]. split; [done|]. intros [Heq _]. symmetry in Heq. by apply Hnone in Heq.
Qed.

(* ------------------------------------------------------------------ *)
(** ** The contract of the module *)

(** C25: in every reachable state consumed plans were issued, issued plans exist,
    and each of them is coherent: for devnet execution only, its key, state,
    route and amounts those of its quote, its downstream action well-formed and
    a trade of that very quote, its disclosure that of its comparison, and its
    digest that of its content; the consents behind them keep their invariant,
    and each unused one was made by a grant of its history. *)
Theorem issued_plans_invariant system (Hr : plan_reachable system) :
  system_inv system ∧
  ∀ l r, l ∈ issued (consents system) → l ∉ consumed (consents system) → heap (consents system) !! l = Some r →
    ∃ d context most slots, granted (consents system) l r d context most slots.
Proof. split; [exact (system_inv_reachable system Hr)|exact (issued_granted _ (plan_reachable_consents system Hr))]. Qed.

(** A plan is created only from an EXECUTABLE decision, in a devnet
    environment, with a positive freshness window and a well-formed downstream
    action: it holds exactly the decision's representation, quote, policy and
    comparison, and a reroute's consent authorized it and is consumed by it;
    every failed creation throws without adding a plan. *)
Theorem createExecutionPlan_sound system decision environment options res system'
    (Hc : createExecutionPlan system decision environment options = (res, system')) :
  ((∃ e, res = Err e) ∧ plan_heap system' = plan_heap system ∧ issuedPlans system' = issuedPlans system) ∨
  ∃ l plan, res = Ok l ∧ ¬ (l ∈ dom (plan_heap system)) ∧ plan_heap system' !! l = Some plan ∧
    issuedPlans system' = {[l]} ∪ issuedPlans system ∧
    plan_ok plan ∧ plan_of plan decision options ∧ created_with decision options (consents system) (consents system').
Proof.
  apply createExecutionPlan_cases in Hc as [([e ->] & store' & -> & _)|(l & plan & store' & -> & Hl & -> & Hok & Hof & Hw)].
  - left. split; [by eexists|]. by split.
  - right. exists l, plan. split; [done|]. split; [by apply not_elem_of_dom|]. cbn. rewrite lookup_insert_eq.
    split; [done|]. split; [done|]. split; [exact Hok|]. split; [exact Hof|exact Hw].
Qed.

(** C9: a plan executes at most once: after a consumption that succeeded, every
    later one of the same plan throws and changes nothing, whatever else is
    created or consumed in between - an ambiguous submission is never repeated. *)
Theorem plan_single_use system l presented system1 system2 presented' res system3
    (Hfirst : consumeExecutionPlan system l presented = (Ok tt, system1)) (Hsteps : rtc plan_step system1 system2)
    (Hagain : consumeExecutionPlan system2 l presented' = (res, system3)) :
  (∃ e, res = Err e) ∧ system3 = system2.
Proof.
  apply consumeExecutionPlan_cases in Hfirst as [[[e [=]] _]|(_ & _ & ->)].
  apply plan_steps_le in Hsteps as [_ _ _ Hc]. cbn in Hc.
  apply consumeExecutionPlan_cases in Hagain as [[He ->]|(_ & [_ Hu]%verifyExecutionPlan_issued & _)]; [by split|].
  destruct Hu. apply Hc, elem_of_union_l. by apply elem_of_singleton.
Qed.

(** C8: one consent, one plan: after a plan was created from a consented
    reroute, no decision carrying the same consent gives another one. *)
Theorem one_consent_one_plan system decision environment options l system1 system2 decision' environment' options' res system3 consent
    (Hreroute : is_rerouted (ed_stateDecision decision) = true) (Hconsent : ed_consent decision = Some consent)
    (Hfirst : createExecutionPlan system decision environment options = (Ok l, system1)) (Hsteps : rtc plan_step system1 system2)
    (Hreroute' : is_rerouted (ed_stateDecision decision') = true) (Hconsent' : ed_consent decision' = Some consent)
    (Hagain : createExecutionPlan system2 decision' environment' options' = (res, system3)) :
  ∃ e, res = Err e.
Proof.
  apply createExecutionPlan_cases in Hfirst as [[[e [=]] _]|(l1 & plan & store' & _ & _ & -> & _ & _ & Hw)].
  destruct Hw as [[Hno _]|(_ & cl & c & r & d & Hcl & _ & _ & ->)]; [congruence|]. rewrite Hconsent in Hcl. injection Hcl as <-.
  apply plan_steps_le in Hsteps as [[_ _ Hc] _ _ _]. cbn in Hc.
  apply createExecutionPlan_cases in Hagain as [[He _]|(l2 & plan' & store'' & _ & _ & _ & _ & _ & Hw)]; [exact He|].
  destruct Hw as [[Hno _]|(_ & cl & c' & r' & d' & Hcl & _ & [_ Hu _ _ _] & _)]; [congruence|].
  rewrite Hconsent' in Hcl. injection Hcl as <-. destruct Hu. apply Hc, elem_of_union_l. by apply elem_of_singleton.
Qed.

(** An issued, unused plan verifies exactly for the planned quote and, for a
    reroute, a comparison with the consented key whose alternative is that
    quote; it is never reported as tampered with, since nothing can change it. *)
Theorem issued_plan_verifies system l plan presented (Hr : plan_reachable system) (Hissued : l ∈ issuedPlans system)
    (Hl : plan_heap system !! l = Some plan) (Hunused : l ∉ consumedPlans system) (Hp : regular_presented presented) :
  (verifyExecutionPlan system l presented = Ok tt ↔ presents plan presented) ∧
  not_tampered (verifyExecutionPlan system l presented).
Proof.
  destruct (system_inv_reachable system Hr) as [_ _ _ Hplans].
  destruct (verifyExecutionPlan_spec system l plan presented Hl Hissued (Hplans l plan Hissued Hl) Hunused Hp). by split.
Qed.

(** C39: a created plan can be executed: until it is consumed, presenting its
    quote - and, for a reroute, its comparison - consumes it, whatever happened
    to other plans and consents since. *)
Theorem created_plan_executes system decision environment options l system1 system2 plan presented (Hr : plan_reachable system)
    (Hcreate : createExecutionPlan system decision environment options = (Ok l, system1)) (Hsteps : rtc plan_step system1 system2)
    (Hplan : plan_heap system1 !! l = Some plan) (Hunused : l ∉ consumedPlans system2)
    (Hp : regular_presented presented) (Hpresents : presents plan presented) :
  ∃ system3, consumeExecutionPlan system2 l presented = (Ok tt, system3) ∧ l ∈ consumedPlans system3.
Proof.
  apply createExecutionPlan_cases in Hcreate as [[[e [=]] _]|(l1 & plan1 & store' & [= <-] & _ & -> & Hok & _ & _)].
  cbn in Hplan. rewrite lookup_insert_eq in Hplan. injection Hplan as <-.
  apply plan_steps_le in Hsteps as [_ Hh Hi _]. cbn in Hh, Hi.
  assert (plan_heap system2 !! l = Some plan1) as Hl2 by (eapply lookup_weaken; [apply lookup_insert_eq|exact Hh]).
  assert (l ∈ issuedPlans system2) as Hi2 by (apply Hi, elem_of_union_l; by apply elem_of_singleton).
  destruct (verifyExecutionPlan_spec system2 l plan1 presented Hl2 Hi2 Hok Hunused Hp) as [_ Hv].
  unfold consumeExecutionPlan. rewrite (proj2 Hv Hpresents). eexists. split; [reflexivity|]. cbn. apply elem_of_union_l.
  by apply elem_of_singleton.
Qed.

(** The executor's last gates are exact: the downstream action passes only
    if it is the planned one field for field, the configured policy only if it
    is the plan's, and the slot only up to and including the plan's last. *)
Theorem executor_gates_exact plan actual policy slot (Hok : plan_ok plan) :
  (assertPlanDownstream plan actual = Ok tt ↔ actual = pl_downstream (plan_content plan)) ∧
  (assertPlanPolicy plan policy = Ok tt ↔ policy = pl_policy (plan_content plan)) ∧
  (assertPlanFresh plan slot = Ok tt ↔ slot ≤ pl_expiresAtSlot (plan_content plan)).
Proof.
  split_and!.
  - unfold assertPlanDownstream, or_else, isDownstreamBinding, plan_throw_if. rewrite canonicalDownstream_id. split.
    + intros Hrun. apply bind_Ok in Hrun as (differs & Hd & ->%throw_if_Ok).
      destruct (downstreamProblems (to_js actual)); [|done]. by apply keys_differ_false in Hd as [? _].
    + intros ->. rewrite (proj1 (ok_downstream plan Hok)). cbn [negb].
      assert (encodable (to_js (pl_downstream (plan_content plan))) = true) as He.
      { pose proof (ok_digest plan Hok) as Hd. unfold planDigestOf in Hd. apply bind_Ok in Hd as (k & Hk & _).
        assert (encodable (to_js (plan_content plan)) = true) as He by (apply canonicalKey_encodable; eauto).
        apply (encodable_fields _ He "downstream"). field_in. }
      by rewrite (proj2 (keys_differ_false _ _) (conj eq_refl He)).
  - unfold assertPlanPolicy, plan_throw_if. split.
    + intros Hrun. apply bind_Ok in Hrun as (differs & Hd & ->%throw_if_Ok). by apply keys_differ_false in Hd as [-> _].
    + intros ->. by rewrite (proj2 (keys_differ_false _ _) (conj eq_refl (keyed _))).
  - unfold assertPlanFresh, plan_throw_if. rewrite throw_if_Ok, Z.ltb_ge. done.
Qed.
End Plans.

(* ------------------------------------------------------------------ *)
(** ** A consented reroute, planned and executed *)

(** The decision, with the digest of its disclosure as a parameter. *)
Definition sample_reroute (digest : string) : ExecutionDecision :=
  mkExecutionDecision
    (mkDecision USE_ALTERNATIVE CONSENT_GIVEN "consented" (in_preferred sample_input) (in_alternative sample_input)
       (Some (mkDisclosure sample_content digest)))
    (Some sample_switch) EXECUTABLE "" (Some (summary (sample_resolved Ondo "KOon" KOon_mint SAFE))) (Some true) true false
    (Some (cmp_alternativeQuote sample_switch)) [] (Some 1%positive) [] (mkReroute 50) 1000 (Some (mkPolicy 900 60 UNCALIBRATED "test")).

Definition sample_options : PlanOptions :=
  mkOptions 1000 50 (TransferCheckedBinding "aaaaaaaaaaaaaaaaaaaaaaaaaaaaaaaaaaaaaaaaaaaaaaaaaaaaaaaaaaaaaaaa").

Definition sample_system : System := mkSystem sample_granted ∅ ∅ ∅.

Lemma sample_checks digest : plan_checks (sample_reroute digest) DEVNET_EXECUTION sample_options =
  Ok (summary (sample_resolved Ondo "KOon" KOon_mint SAFE), cmp_alternativeQuote sample_switch, mkPolicy 900 60 UNCALIBRATED "test").
Proof. vm_compute. reflexivity. Qed.

Lemma sample_plan_consent : plan_consent (sample_reroute sample_digest) sample_options sample_granted = (Ok tt, sample_consumed).
Proof.
  apply (plan_consent_Ok _ _ _ 1 sample_switch sample_consent (mkDisclosure sample_content sample_digest)); [reflexivity..|].
  destruct (sample_authorizes 1000 ltac:(done)) as [Hi Hu Hl _ [? ? ? ? ? ?]]. split; [exact Hi|exact Hu|exact Hl|reflexivity|by split].
Qed.

Lemma sample_plan_content digest consentId : ∃ content,
  plan_content_of (sample_reroute digest) DEVNET_EXECUTION sample_options (summary (sample_resolved Ondo "KOon" KOon_mint SAFE))
    (cmp_alternativeQuote sample_switch) (mkPolicy 900 60 UNCALIBRATED "test") consentId = Ok content ∧
  encodable (to_js content) = true.
Proof.
  unfold plan_content_of. rewrite (proj2 sample_keys). cbn [mbind result_bind]. eexists. split; [reflexivity|].
  destruct consentId; vm_compute; reflexivity.
Qed.

Lemma sample_create : ∃ plan, createExecutionPlan sample_system (sample_reroute sample_digest) DEVNET_EXECUTION sample_options =
  (Ok 1%positive, mkSystem sample_consumed {[1%positive := plan]} ({[1%positive]} ∪ ∅) ∅).
Proof.
  unfold createExecutionPlan. rewrite sample_checks. cbn [consents sample_system]. rewrite sample_plan_consent.
  match goal with |- context [plan_content_of _ _ _ _ _ _ ?cid] => destruct (sample_plan_content sample_digest cid) as (content & -> & Henc) end.
  cbn [mbind result_bind]. unfold planDigestOf. apply canonicalKey_encodable in Henc as [k ->]. cbn [mbind result_bind].
  eexists. unfold issue_plan. reflexivity.
Qed.

Lemma sample_system_reachable : plan_reachable sample_system.
Proof.
  apply rtc_once, (plan_step_consent empty_system sample_granted). eapply step_grant, sample_grant.
Qed.

Lemma createExecutionPlan_sound_witness : ∃ res system',
  createExecutionPlan sample_system (sample_reroute sample_digest) DEVNET_EXECUTION sample_options = (res, system') ∧
  ∃ l plan, res = Ok l ∧ plan_ok plan ∧ created_with (sample_reroute sample_digest) sample_options sample_granted (consents system').
Proof.
  destruct sample_create as [plan Hc]. eexists _, _. split; [exact Hc|].
  destruct (createExecutionPlan_sound _ _ _ _ _ _ Hc) as [[[e [=]] _]|(l & plan' & Hl & _ & _ & _ & Hok & _ & Hw)].
  exists l, plan'. split; [exact Hl|]. split; [exact Hok|exact Hw].
Defined.

Definition sample_presented : Presented := mkPresented (cmp_alternativeQuote sample_switch) (Some sample_switch).

Lemma sample_regular : regular_presented sample_presented.
Proof.
  assert (regular_quote (cmp_alternativeQuote sample_switch)) as Hq.
  { apply encodable_regular; [apply (types_of_quote _ tt)|]; vm_compute; reflexivity. }
  split; [exact Hq|]. by intros c [= <-].
Qed.

(** The plan of the sample holds the compared quote and key. *)
Lemma sample_planned plan system' :
  createExecutionPlan sample_system (sample_reroute sample_digest) DEVNET_EXECUTION sample_options = (Ok 1%positive, system') →
  plan_heap system' !! 1%positive = Some plan → presents plan sample_presented.
Proof.
  intros Hc Hplan. apply createExecutionPlan_cases in Hc as [[[e [=]] _]|(l & plan' & store' & [= <-] & _ & -> & _ & Hof & _)].
  cbn in Hplan. rewrite lookup_insert_eq in Hplan. injection Hplan as <-. destruct Hof as [_ _ _ Hq _ _ _ Hk].
  cbn [sample_reroute ed_executableQuote] in Hq. injection Hq as Hq. split; [exact Hq|].
  intros k Hk'. rewrite Hk in Hk'. cbn [sample_reroute is_rerouted ed_stateDecision dr_decision ed_comparison] in Hk'.
  injection Hk' as <-. exists sample_switch. split; [done|]. split; [done|exact Hq].
Qed.

Lemma created_plan_executes_witness : ∃ system1 system3,
  createExecutionPlan sample_system (sample_reroute sample_digest) DEVNET_EXECUTION sample_options = (Ok 1%positive, system1) ∧
  consumeExecutionPlan system1 1 sample_presented = (Ok tt, system3) ∧ 1%positive ∈ consumedPlans system3.
Proof.
  destruct sample_create as [plan Hc]. eexists.
  destruct (created_plan_executes _ _ _ _ 1 _ _ plan sample_presented sample_system_reachable Hc (rtc_refl _ _)) as (system3 & H3 & Hin);
    [reflexivity|apply not_elem_of_empty|exact sample_regular|by eapply sample_planned|].
  exists system3. split; [exact Hc|]. split; [exact H3|exact Hin].
Defined.

Lemma sample_created_reachable : ∃ plan, plan_heap (mkSystem sample_consumed {[1%positive := plan]} ({[1%positive]} ∪ ∅) ∅) !! 1%positive = Some plan ∧
  presents plan sample_presented ∧ plan_reachable (mkSystem sample_consumed {[1%positive := plan]} ({[1%positive]} ∪ ∅) ∅).
Proof.
  destruct sample_create as [plan Hc]. exists plan. split; [reflexivity|]. split; [by eapply sample_planned|].
  eapply rtc_r; [exact sample_system_reachable|]. by eapply plan_step_create.
Qed.

Lemma issued_plans_invariant_witness : ∃ system plan, plan_reachable system ∧ 1%positive ∈ issuedPlans system ∧
  plan_heap system !! 1%positive = Some plan ∧ plan_ok plan.
Proof.
  destruct sample_created_reachable as (plan & Hl & _ & Hr). eexists _, plan. split; [exact Hr|].
  assert (1%positive ∈ ({[1%positive]} ∪ ∅ : gset positive)) as Hin by (by apply elem_of_union_l, elem_of_singleton).
  split; [exact Hin|]. split; [exact Hl|]. exact (si_plans _ (proj1 (issued_plans_invariant _ Hr)) _ _ Hin Hl).
Defined.

Lemma issued_plan_verifies_witness : ∃ system, plan_reachable system ∧ verifyExecutionPlan system 1 sample_presented = Ok tt.
Proof.
  destruct sample_created_reachable as (plan & Hl & Hp & Hr). eexists. split; [exact Hr|].
  apply (issued_plan_verifies _ 1 plan sample_presented Hr); [by apply elem_of_union_l, elem_of_singleton|exact Hl|apply not_elem_of_empty|
    exact sample_regular|exact Hp].
Defined.

(** Consumed once, the plan is not consumed again. *)
Lemma plan_single_use_witness : ∃ system1 system2 res system3,
  consumeExecutionPlan system1 1 sample_presented = (Ok tt, system2) ∧ consumeExecutionPlan system2 1 sample_presented = (res, system3) ∧
  (∃ e, res = Err e) ∧ system3 = system2.
Proof.
  destruct sample_created_reachable as (plan & Hl & Hp & Hr).
  destruct (system_inv_reachable _ Hr) as [_ _ _ Hok].
  assert (1%positive ∈ ({[1%positive]} ∪ ∅ : gset positive)) as Hin by (by apply elem_of_union_l, elem_of_singleton).
  destruct (verifyExecutionPlan_spec _ 1 plan sample_presented Hl Hin (Hok _ _ Hin Hl) (not_elem_of_empty _) sample_regular) as [_ Hv].
  eexists _, _. destruct (consumeExecutionPlan (mkSystem sample_consumed {[1%positive := plan]} ({[1%positive]} ∪ ∅) ({[1%positive]} ∪ ∅))
    1 sample_presented) as [res system3] eqn:Hagain. exists res, system3.
  assert (consumeExecutionPlan (mkSystem sample_consumed {[1%positive := plan]} ({[1%positive]} ∪ ∅) ∅) 1 sample_presented =
    (Ok tt, mkSystem sample_consumed {[1%positive := plan]} ({[1%positive]} ∪ ∅) ({[1%positive]} ∪ ∅))) as Hfirst.
  { unfold consumeExecutionPlan. by rewrite (proj2 Hv Hp). }
  split; [exact Hfirst|]. split; [exact Hagain|]. exact (plan_single_use _ 1 sample_presented _ _ _ _ _ Hfirst (rtc_refl _ _) Hagain).
Defined.

Lemma one_consent_one_plan_witness : ∃ system1 res system2,
  createExecutionPlan sample_system (sample_reroute sample_digest) DEVNET_EXECUTION sample_options = (Ok 1%positive, system1) ∧
  createExecutionPlan system1 (sample_reroute sample_digest) DEVNET_EXECUTION sample_options = (res, system2) ∧ ∃ e, res = Err e.
Proof.
  destruct sample_create as [plan Hc].
  destruct (createExecutionPlan (mkSystem sample_consumed {[1%positive := plan]} ({[1%positive]} ∪ ∅) ∅) (sample_reroute sample_digest)
    DEVNET_EXECUTION sample_options) as [res system2] eqn:Hagain.
  eexists _, res, system2. split; [exact Hc|]. split; [exact Hagain|].
  refine (one_consent_one_plan sample_system (sample_reroute sample_digest) _ _ _ _ _ (sample_reroute sample_digest) _ _ _ _ 1
    eq_refl eq_refl Hc (rtc_refl _ _) eq_refl eq_refl Hagain).
Defined.

Lemma executor_gates_exact_witness : ∃ plan, plan_ok plan ∧ (assertPlanFresh plan 1050 = Ok tt ↔ 1050 ≤ pl_expiresAtSlot (plan_content plan)).
Proof.
  destruct sample_created_reachable as (plan & Hl & _ & Hr). exists plan.
  assert (plan_ok plan) as Hok.
  { apply (si_plans _ (system_inv_reachable _ Hr) 1%positive); [by apply elem_of_union_l, elem_of_singleton|exact Hl]. }
  split; [exact Hok|]. apply (executor_gates_exact plan (pl_downstream (plan_content plan)) (pl_policy (plan_content plan)) 1050 Hok).
Defined.
