(* ===== verification/BuildClient.v ===== *)
(** * build-client.ts of packages/jupiter: the Jupiter [/build] client

    The request URL, the call and the validation of the response. A raw
    response is the JavaScript value [JSON.parse] returned; [fetch],
    [JSON.parse] and the URL resolution of the runtime are parameters. *)

From S2P Require Import Prelude Js Errors StateErrors Kit Base58 CanonicalKey.

Inductive CompositionErrorCode : Set :=
| TRANSACTION_TOO_LARGE
| COMMITMENT_MISMATCH
| INVALID_COMPUTE_UNIT_LIMIT
| MISSING_COMPUTE_UNIT_PRICE
| UNRESOLVABLE_TRANSACTION.

#[export] Instance CompositionErrorCode_eq_dec : EqDecision CompositionErrorCode.
Proof. solve_decision. Defined.

(** What a function of the package can throw: its four error classes, an error
    of the guard client or of [@solana/kit], and what the runtime throws: a rejected
    request, a [TypeError], a [SyntaxError]. *)
Inductive jupiter_exn : Type :=
| ConfigThrown (message : string)
| ApiThrown (message : string) (status : option Z)
| CompositionThrown (code : CompositionErrorCode) (message : string)
| UnsupportedBuildThrown (reasons : list string)
| ClientThrown (e : client_exn)
| RuntimeThrown (message : string).

Definition MAX_ACCOUNTS_MIN : Z := 1.
Definition MAX_ACCOUNTS_MAX : Z := 64.
Definition JUPITER_API_BASE_URL : string := "https://api.jup.ag".
Definition BUILD_PATH : string := "/swap/v2/build".
Definition BLOCKHASH_LEN : nat := 32.
Definition ERROR_BODY_PREVIEW_CHARS : nat := 300.

Record BuildRequest := mkBuildRequest {
  bq_inputMint : string;
  bq_outputMint : string;
  bq_amount : Z;
  bq_taker : string;
  bq_slippageBps : jsnum;
  bq_maxAccounts : option jsnum;
}.

Record ApiAccountMeta := mkApiMeta { am_pubkey : string; am_isSigner : bool; am_isWritable : bool }.

Record ApiInstruction := mkApiInstruction {
  ai_programId : string;
  ai_accounts : list ApiAccountMeta;
  ai_data : string;
}.

Record RouteSwapInfo := mkSwapInfo {
  si_ammKey : string;
  si_label : string;
  si_inputMint : string;
  si_outputMint : string;
  si_inAmount : string;
  si_outAmount : string;
}.

Record RoutePlanStep := mkStep {
  rp_percent : jsnum;
  rp_bps : option jsnum;
  rp_swapInfo : RouteSwapInfo;
}.

(** [addressesByLookupTableAddress] is its entries in order. *)
Record BuildResponse := mkBuild {
  br_inputMint : string;
  br_outputMint : string;
  br_inAmount : string;
  br_outAmount : string;
  br_otherAmountThreshold : string;
  br_swapMode : string;
  br_slippageBps : jsnum;
  br_routePlan : list RoutePlanStep;
  br_computeBudgetInstructions : list ApiInstruction;
  br_setupInstructions : list ApiInstruction;
  br_swapInstruction : ApiInstruction;
  br_cleanupInstruction : option ApiInstruction;
  br_otherInstructions : list ApiInstruction;
  br_tipInstruction : option ApiInstruction;
  br_addressesByLookupTableAddress : list (string * list string);
  br_blockhash : list jsnum;
  br_lastValidBlockHeight : jsnum;
}.

(* ------------------------------------------------------------------ *)
(** ** The request *)

Section Request.
  Context `{!AddressCodec}.

Definition readJupiterApiKey (JUPITER_API_KEY : option string) : result jupiter_exn string :=
  match JUPITER_API_KEY with
  | Some key => if String.eqb key "" then Err (ConfigThrown "JUPITER_API_KEY is not set") else Ok key
  | None => Err (ConfigThrown "JUPITER_API_KEY is not set")
  end.

(** A [URL]: what [new URL(path, base)] resolved to, and its search parameters. *)
Record BuildUrl := mkUrl { url_href : string; url_searchParams : list (string * string) }.

Definition check_request_addresses (request : BuildRequest) : result jupiter_exn unit :=
  throw_if (negb (isAddress (bq_inputMint request))) (ConfigThrown "inputMint is not a valid address");;
  throw_if (negb (isAddress (bq_outputMint request))) (ConfigThrown "outputMint is not a valid address");;
  throw_if (negb (isAddress (bq_taker request))) (ConfigThrown "taker is not a valid address").

(** [new URL(path, base)]: the resolved address, [None] when the base is no URL. *)
Variable resolveUrl : string → string → option string.

Definition buildRequestUrl (request : BuildRequest) (baseUrl : option string) : result jupiter_exn BuildUrl :=
  check_request_addresses request;;
  throw_if (bq_amount request <=? 0) (ConfigThrown "amount must be positive");;
  throw_if (negb (isInteger (bq_slippageBps request)) || (num_value (bq_slippageBps request) <? 0))
    (ConfigThrown "slippageBps must be a non-negative integer");;
  href ← of_option (RuntimeThrown "Invalid URL") (resolveUrl BUILD_PATH (baseUrl ?? JUPITER_API_BASE_URL));
  let params := [ ("inputMint", bq_inputMint request); ("outputMint", bq_outputMint request);
                  ("amount", show_Z (bq_amount request)); ("taker", bq_taker request);
                  ("slippageBps", show_num (bq_slippageBps request)) ] in
  match bq_maxAccounts request with
  | None => Ok (mkUrl href params)
  | Some maxAccounts =>
      throw_if (negb (isInteger maxAccounts) || (num_value maxAccounts <? MAX_ACCOUNTS_MIN)
                || (MAX_ACCOUNTS_MAX <? num_value maxAccounts))
        (ConfigThrown ("maxAccounts must be an integer in [" +:+ show_Z MAX_ACCOUNTS_MIN +:+ ", " +:+ show_Z MAX_ACCOUNTS_MAX +:+ "]"));;
      Ok (mkUrl href (params ++ [("maxAccounts", show_num maxAccounts)]))
  end.
End Request.

(* ------------------------------------------------------------------ *)
(** ** Validating a response *)

Definition contractError (message : string) : jupiter_exn :=
  ApiThrown ("unexpected /build response: " +:+ message) None.

Definition asRecord (value : jsval) (name : string) : result jupiter_exn (list (string * jsval)) :=
  match value with
  | JObject entries | JExotic entries => Ok entries
  | _ => Err (contractError (name +:+ " must be an object"))
  end.

Definition asArray (value : jsval) (name : string) : result jupiter_exn (list jsval) :=
  match value with JArray l => Ok l | _ => Err (contractError (name +:+ " must be an array")) end.

Definition asString (value : jsval) (name : string) : result jupiter_exn string :=
  match value with JString s => Ok s | _ => Err (contractError (name +:+ " must be a string")) end.

(** [Number.isFinite]: the other numbers are fractions, NaN and the infinities. *)
Definition isFinite (n : jsnum) : bool :=
  match n with
  | NumOther text => negb (existsb (String.eqb text) ["NaN"; "Infinity"; "-Infinity"])
  | _ => true
  end.

Definition asNumber (value : jsval) (name : string) : result jupiter_exn jsnum :=
  match value with
  | JNum n => if isFinite n then Ok n else Err (contractError (name +:+ " must be a number"))
  | _ => Err (contractError (name +:+ " must be a number"))
  end.

Definition is_digit (c : Ascii.ascii) : bool :=
  let n := Ascii.nat_of_ascii c in Nat.leb 48 n && Nat.leb n 57.

(** [/^\d+$/.test(s)]. *)
Definition isIntegerString (s : string) : bool := negb (String.eqb s "") && string_forallb is_digit s.

Definition asIntegerString (value : jsval) (name : string) : result jupiter_exn string :=
  s ← asString value name;
  throw_if (negb (isIntegerString s)) (contractError (name +:+ " must be an unsigned integer string"));;
  Ok s.

(** [v == null]. *)
Definition nullish (v : jsval) : bool := match v with JUndefined | JNull => true | _ => false end.

(** [v ?? d]. *)
Definition coalesce (v d : jsval) : jsval := if nullish v then d else v.

Section Parse.
  Context `{!AddressCodec}.

Definition asAddress (value : jsval) (name : string) : result jupiter_exn string :=
  s ← asString value name;
  throw_if (negb (isAddress s)) (contractError (name +:+ " is not a valid address"));;
  Ok s.

Definition parseAccountMeta (meta : jsval) : result jupiter_exn ApiAccountMeta :=
  m ← asRecord meta "account meta";
  match get_field "isSigner" m, get_field "isWritable" m with
  | JBool isSigner, JBool isWritable =>
      pubkey ← asAddress (get_field "pubkey" m) "account pubkey";
      Ok (mkApiMeta pubkey isSigner isWritable)
  | _, _ => Err (contractError "account meta flags must be booleans")
  end.

Definition parseInstruction (value : jsval) : result jupiter_exn ApiInstruction :=
  i ← asRecord value "instruction";
  programId ← asAddress (get_field "programId" i) "programId";
  metas ← asArray (get_field "accounts" i) "accounts";
  accounts ← mapM_result parseAccountMeta metas;
  data ← asString (get_field "data" i) "instruction data";
  Ok (mkApiInstruction programId accounts data).

Definition parseSwapInfo (info : list (string * jsval)) : result jupiter_exn RouteSwapInfo :=
  ammKey ← asAddress (get_field "ammKey" info) "ammKey";
  label ← asString (get_field "label" info) "label";
  inputMint ← asAddress (get_field "inputMint" info) "swapInfo.inputMint";
  outputMint ← asAddress (get_field "outputMint" info) "swapInfo.outputMint";
  inAmount ← asIntegerString (get_field "inAmount" info) "swapInfo.inAmount";
  outAmount ← asIntegerString (get_field "outAmount" info) "swapInfo.outAmount";
  Ok (mkSwapInfo ammKey label inputMint outputMint inAmount outAmount).

(** [v == null ? null : parse(v)]. *)
Definition nullable {A} (parse : jsval → result jupiter_exn A) (v : jsval) : result jupiter_exn (option A) :=
  if nullish v then Ok None else Some <$> parse v.

Definition parseRouteStep (value : jsval) : result jupiter_exn RoutePlanStep :=
  step ← asRecord value "routePlan step";
  info ← asRecord (get_field "swapInfo" step) "swapInfo";
  percent ← asNumber (get_field "percent" step) "percent";
  bps ← nullable (λ v, asNumber v "bps") (get_field "bps" step);
  swapInfo ← parseSwapInfo info;
  Ok (mkStep percent bps swapInfo).

(** One entry of the lookup tables: the key is validated before its addresses. *)
Definition parseLookupTable (entry : string * jsval) : result jupiter_exn (string * list string) :=
  table ← asAddress (JString (fst entry)) "lookup table";
  addresses ← asArray (snd entry) ("ALT " +:+ fst entry);
  keys ← mapM_result (λ a, asAddress a ("ALT " +:+ fst entry +:+ " entry")) addresses;
  Ok (table, keys).

Definition blockhash_byte (v : jsval) : bool :=
  match v with JNum n => num_in_range 0 255 n | _ => false end.

(** The numbers of an array already known to hold bytes. *)
Definition number_of (v : jsval) : jsnum := match v with JNum n => n | _ => NumOther "NaN" end.

Definition instructions_of (v : jsval) (name : string) : result jupiter_exn (list ApiInstruction) :=
  l ← asArray v name; mapM_result parseInstruction l.

Definition parseBuildResponse (value : jsval) : result jupiter_exn BuildResponse :=
  r ← asRecord value "response";
  blockhash ← asRecord (get_field "blockhashWithMetadata" r) "blockhashWithMetadata";
  blockhashBytes ← asArray (get_field "blockhash" blockhash) "blockhashWithMetadata.blockhash";
  throw_if (negb (Nat.eqb (length blockhashBytes) BLOCKHASH_LEN) || negb (forallb blockhash_byte blockhashBytes))
    (contractError "blockhashWithMetadata.blockhash must be 32 bytes");;
  altRecord ← asRecord (coalesce (get_field "addressesByLookupTableAddress" r) (JObject [])) "addressesByLookupTableAddress";
  addressesByLookupTableAddress ← mapM_result parseLookupTable altRecord;
  inputMint ← asAddress (get_field "inputMint" r) "inputMint";
  outputMint ← asAddress (get_field "outputMint" r) "outputMint";
  inAmount ← asIntegerString (get_field "inAmount" r) "inAmount";
  outAmount ← asIntegerString (get_field "outAmount" r) "outAmount";
  otherAmountThreshold ← asIntegerString (get_field "otherAmountThreshold" r) "otherAmountThreshold";
  swapMode ← asString (get_field "swapMode" r) "swapMode";
  slippageBps ← asNumber (get_field "slippageBps" r) "slippageBps";
  steps ← asArray (get_field "routePlan" r) "routePlan";
  routePlan ← mapM_result parseRouteStep steps;
  computeBudgetInstructions ← instructions_of (get_field "computeBudgetInstructions" r) "computeBudgetInstructions";
  setupInstructions ← instructions_of (get_field "setupInstructions" r) "setupInstructions";
  swapInstruction ← parseInstruction (get_field "swapInstruction" r);
  cleanupInstruction ← nullable parseInstruction (get_field "cleanupInstruction" r);
  otherInstructions ← instructions_of (coalesce (get_field "otherInstructions" r) (JArray [])) "otherInstructions";
  tipInstruction ← nullable parseInstruction (get_field "tipInstruction" r);
  lastValidBlockHeight ← asNumber (get_field "lastValidBlockHeight" blockhash) "lastValidBlockHeight";
  Ok {| br_inputMint := inputMint; br_outputMint := outputMint; br_inAmount := inAmount; br_outAmount := outAmount;
        br_otherAmountThreshold := otherAmountThreshold; br_swapMode := swapMode; br_slippageBps := slippageBps;
        br_routePlan := routePlan; br_computeBudgetInstructions := computeBudgetInstructions;
        br_setupInstructions := setupInstructions; br_swapInstruction := swapInstruction;
        br_cleanupInstruction := cleanupInstruction; br_otherInstructions := otherInstructions;
        br_tipInstruction := tipInstruction; br_addressesByLookupTableAddress := addressesByLookupTableAddress;
        br_blockhash := map number_of blockhashBytes; br_lastValidBlockHeight := lastValidBlockHeight |}.

(* ------------------------------------------------------------------ *)
(** ** The call *)

(** A [Response]: [ok], [status] and what reading its body gives. *)
Record FetchResponse := mkResponse { resp_ok : bool; resp_status : Z; resp_text : result string string }.

(** [s.slice(0, n)] of the code units of an ASCII text. *)
Definition slice_text (n : nat) (s : string) : string := String.substring 0 n s.

Variable resolveUrl : string → string → option string.
(** [fetchImpl(url, { headers })]: the headers are the API key and [accept]. *)
Variable fetchImpl : BuildUrl → list (string * string) → result string FetchResponse.
(** [JSON.parse(text)]: [None] for the [SyntaxError]. *)
Variable JSON_parse : string → option jsval.

Definition fetchBuild (request : BuildRequest) (apiKey : string) (baseUrl : option string) : result jupiter_exn BuildResponse :=
  url ← buildRequestUrl resolveUrl request baseUrl;
  response ← map_err (λ message, ApiThrown ("request failed: " +:+ message) None)
               (fetchImpl url [("x-api-key", apiKey); ("accept", "application/json")]);
  text ← map_err RuntimeThrown (resp_text response);
  throw_if (negb (resp_ok response))
    (ApiThrown ("HTTP " +:+ show_Z (resp_status response) +:+ ": " +:+ slice_text ERROR_BODY_PREVIEW_CHARS text)
       (Some (resp_status response)));;
  json ← of_option (ApiThrown "response is not JSON" (Some (resp_status response))) (JSON_parse text);
  parseBuildResponse json.
End Parse.

(* ------------------------------------------------------------------ *)
(** ** What a response must hold *)

(** The entries of an object that is no array. *)
Definition record_entries (v : jsval) : option (list (string * jsval)) :=
  match v with JObject entries | JExotic entries => Some entries | _ => None end.

Definition reads_nullable {A} (reads : jsval → A → Prop) (v : jsval) (o : option A) : Prop :=
  match o with None => nullish v = true | Some a => nullish v = false ∧ reads v a end.

Definition reads_string (v : jsval) (s : string) : Prop := v = JString s.
Definition reads_number (v : jsval) (n : jsnum) : Prop := v = JNum n ∧ isFinite n = true.
Definition reads_integer (v : jsval) (s : string) : Prop := v = JString s ∧ isIntegerString s = true.

(** An array whose elements are read one by one. *)
Definition reads_list {A} (reads : jsval → A → Prop) (v : jsval) (l : list A) : Prop :=
  ∃ vs, v = JArray vs ∧ Forall2 reads vs l.

Section Reads.
  Context `{!AddressCodec}.

Definition reads_address (v : jsval) (s : string) : Prop := v = JString s ∧ isAddress s = true.

Definition reads_meta (v : jsval) (m : ApiAccountMeta) : Prop :=
  ∃ e, record_entries v = Some e ∧ get_field "isSigner" e = JBool (am_isSigner m) ∧
    get_field "isWritable" e = JBool (am_isWritable m) ∧ reads_address (get_field "pubkey" e) (am_pubkey m).

Definition reads_instruction (v : jsval) (i : ApiInstruction) : Prop :=
  ∃ e, record_entries v = Some e ∧ reads_address (get_field "programId" e) (ai_programId i) ∧
    reads_list reads_meta (get_field "accounts" e) (ai_accounts i) ∧ reads_string (get_field "data" e) (ai_data i).

Definition reads_info (v : jsval) (i : RouteSwapInfo) : Prop :=
  ∃ e, record_entries v = Some e ∧
    reads_address (get_field "ammKey" e) (si_ammKey i) ∧ reads_string (get_field "label" e) (si_label i) ∧
    reads_address (get_field "inputMint" e) (si_inputMint i) ∧ reads_address (get_field "outputMint" e) (si_outputMint i) ∧
    reads_integer (get_field "inAmount" e) (si_inAmount i) ∧ reads_integer (get_field "outAmount" e) (si_outAmount i).

Definition reads_step (v : jsval) (s : RoutePlanStep) : Prop :=
  ∃ e, record_entries v = Some e ∧ reads_info (get_field "swapInfo" e) (rp_swapInfo s) ∧
    reads_number (get_field "percent" e) (rp_percent s) ∧ reads_nullable reads_number (get_field "bps" e) (rp_bps s).

Definition reads_table (entry : string * jsval) (t : string * list string) : Prop :=
  fst entry = fst t ∧ isAddress (fst t) = true ∧ reads_list reads_address (snd entry) (snd t).

Definition reads_blockhash (v : jsval) (l : list jsnum) : Prop :=
  v = JArray (map JNum l) ∧ length l = 32%nat ∧ forallb (num_in_range 0 255) l = true.

(** The contract of [/build]: the fields of a raw response and of the validated one. *)
Definition reads_build (v : jsval) (b : BuildResponse) : Prop :=
  ∃ r h t,
    record_entries v = Some r ∧
    record_entries (get_field "blockhashWithMetadata" r) = Some h ∧
    reads_blockhash (get_field "blockhash" h) (br_blockhash b) ∧
    record_entries (coalesce (get_field "addressesByLookupTableAddress" r) (JObject [])) = Some t ∧
    Forall2 reads_table t (br_addressesByLookupTableAddress b) ∧
    reads_address (get_field "inputMint" r) (br_inputMint b) ∧
    reads_address (get_field "outputMint" r) (br_outputMint b) ∧
    reads_integer (get_field "inAmount" r) (br_inAmount b) ∧
    reads_integer (get_field "outAmount" r) (br_outAmount b) ∧
    reads_integer (get_field "otherAmountThreshold" r) (br_otherAmountThreshold b) ∧
    reads_string (get_field "swapMode" r) (br_swapMode b) ∧
    reads_number (get_field "slippageBps" r) (br_slippageBps b) ∧
    reads_list reads_step (get_field "routePlan" r) (br_routePlan b) ∧
    reads_list reads_instruction (get_field "computeBudgetInstructions" r) (br_computeBudgetInstructions b) ∧
    reads_list reads_instruction (get_field "setupInstructions" r) (br_setupInstructions b) ∧
    reads_instruction (get_field "swapInstruction" r) (br_swapInstruction b) ∧
    reads_nullable reads_instruction (get_field "cleanupInstruction" r) (br_cleanupInstruction b) ∧
    reads_list reads_instruction (coalesce (get_field "otherInstructions" r) (JArray [])) (br_otherInstructions b) ∧
    reads_nullable reads_instruction (get_field "tipInstruction" r) (br_tipInstruction b) ∧
    reads_number (get_field "lastValidBlockHeight" h) (br_lastValidBlockHeight b).

(** Each reader returns a value exactly when the raw value holds it. *)
Lemma asRecord_Ok v name e : asRecord v name = Ok e ↔ record_entries v = Some e.
Proof. destruct v; cbn; split; congruence. Qed.

Lemma asString_Ok v name s : asString v name = Ok s ↔ reads_string v s.
Proof. unfold reads_string. destruct v; cbn; split; congruence. Qed.

Lemma asNumber_Ok v name n : asNumber v name = Ok n ↔ reads_number v n.
Proof.
  unfold reads_number. destruct v as [| | |m| | | | | |]; cbn; try (by split; [|intros [? _]]).
  destruct (isFinite m) eqn:Hm; split.
  - intros [= <-]. done.
  - by intros [[= <-] _].
  - done.
  - intros [[= <-] ?]. congruence.
Qed.

Lemma asInteger_Ok v name s : asIntegerString v name = Ok s ↔ reads_integer v s.
Proof.
  unfold asIntegerString, reads_integer. rewrite bind_Ok. setoid_rewrite asString_Ok.
  setoid_rewrite throw_if_then_Ok. setoid_rewrite negb_false_iff. unfold reads_string. naive_solver.
Qed.

Lemma asAddress_Ok v name s : asAddress v name = Ok s ↔ reads_address v s.
Proof.
  unfold asAddress, reads_address. rewrite bind_Ok. setoid_rewrite asString_Ok.
  setoid_rewrite throw_if_then_Ok. setoid_rewrite negb_false_iff. unfold reads_string. naive_solver.
Qed.

Lemma asArray_Ok v name l : asArray v name = Ok l ↔ v = JArray l.
Proof. destruct v; cbn; split; congruence. Qed.

Lemma nullable_Ok {A} (parse : jsval → result jupiter_exn A) reads v o :
  (∀ a, parse v = Ok a ↔ reads v a) →
  nullable parse v = Ok o ↔ reads_nullable reads v o.
Proof.
  intros Hp. unfold nullable, reads_nullable. destruct (nullish v), o as [a|].
  - by split; [|intros [? _]].
  - done.
  - rewrite <- Hp. destruct (parse v); cbn; (split; [|intros [_ ?]]); by intros; simplify_eq.
  - destruct (parse v); by cbn.
Qed.

Lemma nullable_number v name o : nullable (λ v, asNumber v name) v = Ok o ↔ reads_nullable reads_number v o.
Proof. apply nullable_Ok. intros n. apply asNumber_Ok. Qed.

(** Parsing an array: its elements, from a reader of each. *)
Lemma elements_Ok {A} (parse : jsval → result jupiter_exn A) reads v name l :
  (∀ x a, parse x = Ok a ↔ reads x a) →
  (vs ← asArray v name; mapM_result parse vs) = Ok l ↔ reads_list reads v l.
Proof.
  intros Hp. rewrite bind_Ok. unfold reads_list. setoid_rewrite asArray_Ok. setoid_rewrite mapM_result_Ok.
  split; intros (vs & Hv & Hl); exists vs; (split; [done|]); (eapply Forall2_impl; [exact Hl|]); intros x a; apply Hp.
Qed.

(** Walks a chain of readers, in either direction. *)
Ltac read_all :=
  repeat match goal with Hrun : (_ ≫= _) = Ok _ |- _ => apply bind_Ok in Hrun as (? & ? & Hrun) end.

Lemma parseAccountMeta_Ok v m : parseAccountMeta v = Ok m ↔ reads_meta v m.
Proof.
  unfold parseAccountMeta, reads_meta. rewrite bind_Ok. setoid_rewrite asRecord_Ok. split; intros (e & He & Hrun); exists e.
  - destruct (get_field "isSigner" e); try done. destruct (get_field "isWritable" e); try done. read_all.
    injection Hrun as <-. cbn [am_isSigner am_isWritable am_pubkey]. split_and!; try done. by eapply asAddress_Ok.
  - split; [done|]. destruct Hrun as (-> & -> & Hk). apply (asAddress_Ok _ "account pubkey") in Hk. rewrite Hk. by destruct m.
Qed.

Lemma parseInstruction_Ok v i : parseInstruction v = Ok i ↔ reads_instruction v i.
Proof.
  unfold parseInstruction, reads_instruction. rewrite bind_Ok. setoid_rewrite asRecord_Ok. split; intros (e & He & Hrun); exists e.
  - apply bind_Ok in Hrun as (p & Hp%asAddress_Ok & Hrun). apply bind_Ok in Hrun as (ms & Hms & Hrun).
    apply bind_Ok in Hrun as (l & Hl & Hrun). apply bind_Ok in Hrun as (d & Hd%asString_Ok & [= <-]).
    split_and!; try done. apply (elements_Ok parseAccountMeta _ _ "accounts" _ parseAccountMeta_Ok).
    by rewrite Hms.
  - destruct Hrun as (Hp & Hl & Hd). split; [done|]. apply (asAddress_Ok _ "programId") in Hp. rewrite Hp. cbn [mbind result_bind].
    apply (elements_Ok parseAccountMeta _ _ "accounts" _ parseAccountMeta_Ok) in Hl.
    apply bind_Ok in Hl as (ms & -> & Hl). cbn [mbind result_bind]. rewrite Hl. cbn [mbind result_bind].
    apply (asString_Ok _ "instruction data") in Hd. rewrite Hd. by destruct i.
Qed.

Lemma instructions_of_Ok v name l : instructions_of v name = Ok l ↔ reads_list reads_instruction v l.
Proof. apply elements_Ok, parseInstruction_Ok. Qed.

(** A chain [x ← m; k] succeeds with the value of a field it reads. *)
Lemma bind_reads {A B} (m : result jupiter_exn A) (P : A → Prop) (k : A → result jupiter_exn B) b :
  (∀ a, m = Ok a ↔ P a) → (m ≫= k) = Ok b ↔ ∃ a, P a ∧ k a = Ok b.
Proof. intros Hm. rewrite bind_Ok. by setoid_rewrite Hm. Qed.

Lemma parseSwapInfo_Ok e i : parseSwapInfo e = Ok i ↔
  reads_address (get_field "ammKey" e) (si_ammKey i) ∧ reads_string (get_field "label" e) (si_label i) ∧
  reads_address (get_field "inputMint" e) (si_inputMint i) ∧ reads_address (get_field "outputMint" e) (si_outputMint i) ∧
  reads_integer (get_field "inAmount" e) (si_inAmount i) ∧ reads_integer (get_field "outAmount" e) (si_outAmount i).
Proof.
  unfold parseSwapInfo. split.
  - intros Hrun. apply bind_Ok in Hrun as (a & Ha%asAddress_Ok & Hrun). apply bind_Ok in Hrun as (l & Hl%asString_Ok & Hrun).
    apply bind_Ok in Hrun as (im & Hi%asAddress_Ok & Hrun). apply bind_Ok in Hrun as (om & Ho%asAddress_Ok & Hrun).
    apply bind_Ok in Hrun as (ia & Hia%asInteger_Ok & Hrun). apply bind_Ok in Hrun as (oa & Hoa%asInteger_Ok & [= <-]). done.
  - intros (Ha & Hl & Hi & Ho & Hia & Hoa).
    rewrite (proj2 (asAddress_Ok _ _ _) Ha), (proj2 (asString_Ok _ _ _) Hl), (proj2 (asAddress_Ok _ _ _) Hi),
      (proj2 (asAddress_Ok _ _ _) Ho), (proj2 (asInteger_Ok _ _ _) Hia), (proj2 (asInteger_Ok _ _ _) Hoa). by destruct i.
Qed.

Lemma parseRouteStep_Ok v s : parseRouteStep v = Ok s ↔ reads_step v s.
Proof.
  unfold parseRouteStep, reads_step. rewrite (bind_reads _ (λ e, record_entries v = Some e)) by (intros; apply asRecord_Ok).
  split; intros (e & He & Hrun); exists e.
  - apply bind_Ok in Hrun as (i & Hi%asRecord_Ok & Hrun). apply bind_Ok in Hrun as (p & Hp%asNumber_Ok & Hrun).
    apply bind_Ok in Hrun as (b & Hb & Hrun). apply bind_Ok in Hrun as (info & Hinfo%parseSwapInfo_Ok & [= <-]).
    split_and!; try done; [by exists i|]. by eapply nullable_number.
  - destruct Hrun as ((i & Hi & Hinfo%parseSwapInfo_Ok) & Hp & Hb). split; [done|].
    rewrite (proj2 (asRecord_Ok _ _ _) Hi). cbn [mbind result_bind]. rewrite (proj2 (asNumber_Ok _ _ _) Hp). cbn [mbind result_bind].
    rewrite (proj2 (nullable_number _ _ _) Hb). cbn [mbind result_bind].
    rewrite Hinfo. by destruct s.
Qed.

Lemma parseLookupTable_Ok entry t : parseLookupTable entry = Ok t ↔ reads_table entry t.
Proof.
  unfold parseLookupTable, reads_table. split.
  - intros Hrun. apply bind_Ok in Hrun as (k & [Hk Hok]%asAddress_Ok & Hrun). injection Hk as Hk.
    apply bind_Ok in Hrun as (vs & Hvs & Hrun). apply bind_Ok in Hrun as (l & Hl & [= <-]). cbn [fst snd]. split_and!; try done.
    eapply elements_Ok; [intros; apply asAddress_Ok|]. by erewrite Hvs.
  - destruct t as [k l]. cbn [fst snd]. intros (Hk & Hok & Hl).
    rewrite (proj2 (asAddress_Ok (JString (fst entry)) _ k)) by (split; [by rewrite Hk|done]). cbn [mbind result_bind].
    eapply (elements_Ok _ _ _ ("ALT " +:+ fst entry)) in Hl;
      [|intros x a; apply (asAddress_Ok x ("ALT " +:+ fst entry +:+ " entry") a)].
    apply bind_Ok in Hl as (vs & -> & Hl). cbn [mbind result_bind]. by rewrite Hl.
Qed.

Lemma blockhash_Ok v name l :
  (bytes ← asArray v name;
   throw_if (negb (Nat.eqb (length bytes) BLOCKHASH_LEN) || negb (forallb blockhash_byte bytes))
     (contractError "blockhashWithMetadata.blockhash must be 32 bytes");;
   Ok (map number_of bytes)) = Ok l ↔ reads_blockhash v l.
Proof.
  unfold reads_blockhash. rewrite bind_Ok. setoid_rewrite asArray_Ok. setoid_rewrite throw_if_then_Ok. split.
  - intros (bs & -> & [Hlen%negb_false_iff%Nat.eqb_eq Hall%negb_false_iff]%orb_false_iff & [= <-]).
    rewrite length_map. split; [|split; [done|]].
    + f_equal. clear Hlen. induction bs as [|b bs IH]; [done|]. cbn [forallb map] in *. apply andb_true_iff in Hall as [Hb Hall].
      f_equal; [by destruct b|by apply IH].
    + clear Hlen. induction bs as [|b bs IH]; [done|]. cbn [forallb map] in *. apply andb_true_iff in Hall as [Hb Hall].
      rewrite IH, andb_true_r by done. by destruct b.
  - intros (-> & Hlen & Hall). exists (map JNum l). split; [done|]. rewrite length_map, Hlen. cbn [Nat.eqb BLOCKHASH_LEN negb orb]. split.
    + rewrite negb_false_iff, <- Hall. clear. induction l as [|n l IH]; [done|]. cbn [map forallb]. by rewrite IH.
    + f_equal. clear. induction l as [|n l IH]; [done|]. cbn [map]. by rewrite IH.
Qed.
End Reads.

(* ------------------------------------------------------------------ *)
(** ** The validation as a whole *)

Section ParseSpec.
  Context {codec : AddressCodec}.

Lemma parseBuildResponse_reads v b : parseBuildResponse v = Ok b ↔ reads_build v b.
Proof.
  unfold parseBuildResponse, reads_build. split.
  - intros H. apply bind_Ok in H as (r & Hr%asRecord_Ok & H). apply bind_Ok in H as (h & Hh%asRecord_Ok & H).
    apply bind_Ok in H as (bs & Hbs & H). rewrite throw_if_then_Ok in H. destruct H as [Hlen H].
    assert (reads_blockhash (get_field "blockhash" h) (map number_of bs)) as Hb.
    { apply (blockhash_Ok _ "blockhashWithMetadata.blockhash"). rewrite Hbs. cbn [mbind result_bind]. by rewrite Hlen. }
    apply bind_Ok in H as (t & Ht%asRecord_Ok & H). apply bind_Ok in H as (tables & Htables & H).
    apply bind_Ok in H as (? & ?%asAddress_Ok & H). apply bind_Ok in H as (? & ?%asAddress_Ok & H).
    apply bind_Ok in H as (? & ?%asInteger_Ok & H). apply bind_Ok in H as (? & ?%asInteger_Ok & H).
    apply bind_Ok in H as (? & ?%asInteger_Ok & H). apply bind_Ok in H as (? & ?%asString_Ok & H).
    apply bind_Ok in H as (? & ?%asNumber_Ok & H). apply bind_Ok in H as (steps & Hsteps & H).
    apply bind_Ok in H as (plan & Hplan & H). apply bind_Ok in H as (? & ?%instructions_of_Ok & H).
    apply bind_Ok in H as (? & ?%instructions_of_Ok & H). apply bind_Ok in H as (? & ?%parseInstruction_Ok & H).
    apply bind_Ok in H as (? & ?%(nullable_Ok _ _ _ _ (parseInstruction_Ok _)) & H).
    apply bind_Ok in H as (? & ?%instructions_of_Ok & H).
    apply bind_Ok in H as (? & ?%(nullable_Ok _ _ _ _ (parseInstruction_Ok _)) & H).
    apply bind_Ok in H as (? & ?%asNumber_Ok & [= <-]). exists r, h, t. split_and!; try done.
    + apply mapM_result_Ok in Htables. eapply Forall2_impl; [exact Htables|]. intros entry table; apply parseLookupTable_Ok.
    + eapply elements_Ok; [intros; apply parseRouteStep_Ok|]. by erewrite Hsteps.
  - intros (r & h & t & Hr & Hh & Hb & Ht & Htables & Hin & Hout & Hia & Hoa & Hth & Hmode & Hslip & Hplan & Hbudget & Hsetup &
      Hswap & Hclean & Hother & Htip & Hlast).
    rewrite (proj2 (asRecord_Ok _ _ _) Hr). cbn [mbind result_bind].
    rewrite (proj2 (asRecord_Ok _ _ _) Hh). cbn [mbind result_bind].
    apply (blockhash_Ok _ "blockhashWithMetadata.blockhash") in Hb. apply bind_Ok in Hb as (bs & Hbs & Hlen).
    rewrite throw_if_then_Ok in Hlen. destruct Hlen as [Hlen [= Hmap]]. rewrite Hbs. cbn [mbind result_bind]. rewrite Hlen.
    cbn [throw_if mbind result_bind].
    rewrite (proj2 (asRecord_Ok _ _ _) Ht). cbn [mbind result_bind].
    assert (mapM_result parseLookupTable t = Ok (br_addressesByLookupTableAddress b)) as ->.
    { apply mapM_result_Ok. eapply Forall2_impl; [exact Htables|]. intros entry table; apply parseLookupTable_Ok. }
    cbn [mbind result_bind].
    rewrite (proj2 (asAddress_Ok _ _ _) Hin). cbn [mbind result_bind]. rewrite (proj2 (asAddress_Ok _ _ _) Hout). cbn [mbind result_bind].
    rewrite (proj2 (asInteger_Ok _ _ _) Hia). cbn [mbind result_bind]. rewrite (proj2 (asInteger_Ok _ _ _) Hoa). cbn [mbind result_bind].
    rewrite (proj2 (asInteger_Ok _ _ _) Hth). cbn [mbind result_bind]. rewrite (proj2 (asString_Ok _ _ _) Hmode). cbn [mbind result_bind].
    rewrite (proj2 (asNumber_Ok _ _ _) Hslip). cbn [mbind result_bind].
    apply (elements_Ok parseRouteStep _ _ "routePlan" _ parseRouteStep_Ok) in Hplan. apply bind_Ok in Hplan as (steps & -> & Hplan).
    cbn [mbind result_bind]. rewrite Hplan. cbn [mbind result_bind].
    rewrite (proj2 (instructions_of_Ok _ _ _) Hbudget). cbn [mbind result_bind].
    rewrite (proj2 (instructions_of_Ok _ _ _) Hsetup). cbn [mbind result_bind].
    rewrite (proj2 (parseInstruction_Ok _ _) Hswap). cbn [mbind result_bind].
    rewrite (proj2 (nullable_Ok _ _ _ _ (parseInstruction_Ok _)) Hclean). cbn [mbind result_bind].
    rewrite (proj2 (instructions_of_Ok _ _ _) Hother). cbn [mbind result_bind].
    rewrite (proj2 (nullable_Ok _ _ _ _ (parseInstruction_Ok _)) Htip). cbn [mbind result_bind].
    rewrite (proj2 (asNumber_Ok _ _ _) Hlast). cbn [mbind result_bind]. rewrite Hmap. by destruct b.
Qed.

(** C31: [parseBuildResponse] accepts exactly the documented contract: it returns
    [b] iff the raw value is an object whose fields hold the fields of [b] -
    every mint, program, account and lookup-table entry an address, every
    amount a string of digits, every number finite, the blockhash 32 bytes;
    [cleanupInstruction] and [tipInstruction] may be null or absent. *)
Theorem parseBuildResponse_spec v b : parseBuildResponse v = Ok b ↔ reads_build v b.
Proof. apply parseBuildResponse_reads. Qed.

(** A validated response as the object the caller passes on. *)
Definition strings_js (l : list string) : jsval := JArray (map JString l).

Definition meta_js (m : ApiAccountMeta) : jsval :=
  JObject [("pubkey", JString (am_pubkey m)); ("isSigner", JBool (am_isSigner m)); ("isWritable", JBool (am_isWritable m))].

Definition instruction_js (i : ApiInstruction) : jsval :=
  JObject [("programId", JString (ai_programId i)); ("accounts", JArray (map meta_js (ai_accounts i))); ("data", JString (ai_data i))].

Definition option_js {A} (f : A → jsval) (o : option A) : jsval := match o with Some a => f a | None => JNull end.

Definition info_js (i : RouteSwapInfo) : jsval :=
  JObject [("ammKey", JString (si_ammKey i)); ("label", JString (si_label i)); ("inputMint", JString (si_inputMint i));
           ("outputMint", JString (si_outputMint i)); ("inAmount", JString (si_inAmount i)); ("outAmount", JString (si_outAmount i))].

Definition step_js (s : RoutePlanStep) : jsval :=
  JObject [("percent", JNum (rp_percent s)); ("bps", option_js JNum (rp_bps s)); ("swapInfo", info_js (rp_swapInfo s))].

Definition build_js (b : BuildResponse) : jsval :=
  JObject
    [ ("inputMint", JString (br_inputMint b)); ("outputMint", JString (br_outputMint b));
      ("inAmount", JString (br_inAmount b)); ("outAmount", JString (br_outAmount b));
      ("otherAmountThreshold", JString (br_otherAmountThreshold b)); ("swapMode", JString (br_swapMode b));
      ("slippageBps", JNum (br_slippageBps b)); ("routePlan", JArray (map step_js (br_routePlan b)));
      ("computeBudgetInstructions", JArray (map instruction_js (br_computeBudgetInstructions b)));
      ("setupInstructions", JArray (map instruction_js (br_setupInstructions b)));
      ("swapInstruction", instruction_js (br_swapInstruction b));
      ("cleanupInstruction", option_js instruction_js (br_cleanupInstruction b));
      ("otherInstructions", JArray (map instruction_js (br_otherInstructions b)));
      ("tipInstruction", option_js instruction_js (br_tipInstruction b));
      ("addressesByLookupTableAddress",
        JObject (map (λ t, (fst t, strings_js (snd t))) (br_addressesByLookupTableAddress b)));
      ("blockhashWithMetadata",
        JObject [("blockhash", JArray (map JNum (br_blockhash b))); ("lastValidBlockHeight", JNum (br_lastValidBlockHeight b))]) ].

(** Reading the view of a value that was read from anything gives it back. *)
Lemma view_list {A} (reads : jsval → A → Prop) (view : A → jsval) v l :
  (∀ x a, reads x a → reads (view a) a) → reads_list reads v l → reads_list reads (JArray (map view l)) l.
Proof.
  intros Hview (vs & _ & Hl). eexists. split; [reflexivity|]. induction Hl as [|x a vs l Hx _ IH]; [constructor|].
  cbn [map]. constructor; [by eapply Hview|exact IH].
Qed.

Lemma view_nullable {A} (reads : jsval → A → Prop) (view : A → jsval) v o :
  (∀ x a, reads x a → reads (view a) a ∧ nullish (view a) = false) → reads_nullable reads v o →
  reads_nullable reads (option_js view o) o.
Proof. intros Hview. destruct o as [a|]; [|done]. intros [_ [? ?]%Hview]. by split. Qed.

Lemma view_meta v m : reads_meta v m → reads_meta (meta_js m) m.
Proof. intros (e & _ & _ & _ & _ & Hk). eexists. split; [reflexivity|]. by repeat split. Qed.

Lemma view_instruction v i : reads_instruction v i → reads_instruction (instruction_js i) i.
Proof.
  intros (e & _ & [_ Hp] & Hl & _). eexists. split; [reflexivity|]. split; [by split|]. split; [|done].
  eapply (view_list reads_meta meta_js); [apply view_meta|exact Hl].
Qed.

Lemma view_step v s : reads_step v s → reads_step (step_js s) s.
Proof.
  intros (e & _ & (i & _ & [_ Ha] & _ & [_ Hi] & [_ Ho] & [_ Hia] & [_ Hoa]) & [_ Hp] & Hb). eexists. split; [reflexivity|]. split_and!.
  - eexists. split; [reflexivity|]. by repeat split.
  - by split.
  - eapply (view_nullable reads_number JNum); [|exact Hb]. by intros x a [_ Ha'].
Qed.

Lemma view_tables l ts : Forall2 reads_table l ts → Forall2 reads_table (map (λ t, (fst t, strings_js (snd t))) ts) ts.
Proof.
  induction 1 as [|e t l ts (Hk & Hok & Hl) _ IH]; [constructor|]. cbn [map]. constructor; [|done].
  split; [done|]. split; [done|]. eapply (view_list reads_address JString); [|exact Hl]. by intros x a [_ Ha].
Qed.

(** C29: validation is stable: what it returned, presented again as an object -
    as an application does that parses the response and then asks for
    protection - is accepted and read back unchanged. *)
Theorem parseBuildResponse_roundtrip v b : parseBuildResponse v = Ok b → parseBuildResponse (build_js b) = Ok b.
Proof.
  rewrite !parseBuildResponse_reads.
  intros (r & h & t & _ & _ & (_ & Hlen & Hall) & _ & Htables & [_ Hin] & [_ Hout] & [_ Hia] & [_ Hoa] & [_ Hth] & _ & [_ Hslip] & Hplan &
    Hbudget & Hsetup & Hswap & Hclean & Hother & Htip & [_ Hlast]).
  do 3 eexists. split; [reflexivity|]. split; [reflexivity|]. split; [by split|]. split; [reflexivity|].
  split; [by eapply view_tables|]. do 7 (split; [by split|]).
  split; [by eapply (view_list reads_step step_js); [apply view_step|]|].
  split; [by eapply (view_list reads_instruction instruction_js); [apply view_instruction|]|].
  split; [by eapply (view_list reads_instruction instruction_js); [apply view_instruction|]|].
  split; [by eapply view_instruction|].
  assert (∀ x i, reads_instruction x i → reads_instruction (instruction_js i) i ∧ nullish (instruction_js i) = false) as Hview
    by (split; [by eapply view_instruction|done]).
  split; [by eapply (view_nullable reads_instruction instruction_js)|].
  split; [by eapply (view_list reads_instruction instruction_js); [apply view_instruction|]|].
  split; [by eapply (view_nullable reads_instruction instruction_js)|]. by split.
Qed.
End ParseSpec.

(* ------------------------------------------------------------------ *)
(** ** What the client throws *)

(** A failure of the contract: a [JupiterApiError] without a status. *)
Definition contract_failure (e : jupiter_exn) : Prop := ∃ message, e = contractError message.

(** A computation whose only failures satisfy [P]. *)
Definition fails_only {A} (P : jupiter_exn → Prop) (m : result jupiter_exn A) : Prop := ∀ e, m = Err e → P e.

Create HintDb fails_only.

Section FailsOnly.
  Context {P : jupiter_exn → Prop}.

Lemma fails_Ok {A} (a : A) : fails_only P (Ok a).
Proof. by intros e. Qed.

Lemma fails_Err {A} e : P e → fails_only P (@Err jupiter_exn A e).
Proof. by intros He ? [= <-]. Qed.

Lemma fails_throw_if b e : P e → fails_only P (throw_if b e).
Proof. intros He. destruct b; [by apply fails_Err|apply fails_Ok]. Qed.

Lemma fails_bind {A B} (m : result jupiter_exn A) (f : A → result jupiter_exn B) :
  fails_only P m → (∀ a, fails_only P (f a)) → fails_only P (m ≫= f).
Proof. intros Hm Hf e. destruct m as [a|e']; cbn; [by apply Hf|]. intros [= <-]. by apply Hm. Qed.

Lemma fails_fmap {A B} (f : A → B) (m : result jupiter_exn A) : fails_only P m → fails_only P (f <$> m).
Proof. intros Hm e. destruct m as [a|e']; cbn; [done|]. intros [= <-]. by apply Hm. Qed.

Lemma fails_mapM {A B} (f : A → result jupiter_exn B) l : (∀ a, fails_only P (f a)) → fails_only P (mapM_result f l).
Proof.
  intros Hf. induction l as [|x l IH]; [apply fails_Ok|]. cbn [mapM_result].
  apply fails_bind; [apply Hf|intros y]. apply fails_bind; [exact IH|intros ys; apply fails_Ok].
Qed.

Lemma fails_map_err {E A} (f : E → jupiter_exn) (m : result E A) : (∀ e, P (f e)) → fails_only P (map_err f m).
Proof. intros Hf e. destruct m; cbn; [done|]. by intros [= <-]. Qed.

Lemma fails_of_option {A} e (o : option A) : P e → fails_only P (of_option e o).
Proof. intros He. destruct o; [apply fails_Ok|by apply fails_Err]. Qed.
End FailsOnly.

#[export] Hint Resolve fails_Ok fails_Err fails_throw_if fails_fmap fails_map_err fails_of_option : fails_only.

(** Walks a computation whose failures are bounded. *)
Ltac fails_only :=
  repeat first
    [ progress eauto with fails_only
    | match goal with
      | |- fails_only _ (_ ≫= _) => apply fails_bind; [|intros ?]
      | |- fails_only _ (mapM_result _ _) => apply fails_mapM; intros ?
      end
    | case_match ].

Section ClientErrors.
  Context {codec : AddressCodec}.

Lemma contract_failure_intro message : contract_failure (contractError message).
Proof. by exists message. Qed.
#[local] Hint Resolve contract_failure_intro : fails_only.

Lemma asRecord_fails v name : fails_only contract_failure (asRecord v name).
Proof. destruct v; cbn; auto with fails_only. Qed.
Lemma asArray_fails v name : fails_only contract_failure (asArray v name).
Proof. destruct v; cbn; auto with fails_only. Qed.
Lemma asString_fails v name : fails_only contract_failure (asString v name).
Proof. destruct v; cbn; auto with fails_only. Qed.
Lemma asNumber_fails v name : fails_only contract_failure (asNumber v name).
Proof. unfold asNumber. fails_only. Qed.
#[local] Hint Resolve asRecord_fails asArray_fails asString_fails asNumber_fails : fails_only.
Lemma asInteger_fails v name : fails_only contract_failure (asIntegerString v name).
Proof. unfold asIntegerString. fails_only. Qed.
Lemma asAddress_fails v name : fails_only contract_failure (asAddress v name).
Proof. unfold asAddress. fails_only. Qed.
#[local] Hint Resolve asInteger_fails asAddress_fails : fails_only.
Lemma parseAccountMeta_fails v : fails_only contract_failure (parseAccountMeta v).
Proof. unfold parseAccountMeta. fails_only. Qed.
#[local] Hint Resolve parseAccountMeta_fails : fails_only.
Lemma parseInstruction_fails v : fails_only contract_failure (parseInstruction v).
Proof. unfold parseInstruction. fails_only. Qed.
#[local] Hint Resolve parseInstruction_fails : fails_only.
Lemma instructions_of_fails v name : fails_only contract_failure (instructions_of v name).
Proof. unfold instructions_of. fails_only. Qed.
Lemma nullable_fails {A} (parse : jsval → result jupiter_exn A) v :
  (∀ x, fails_only contract_failure (parse x)) → fails_only contract_failure (nullable parse v).
Proof. intros Hp. unfold nullable. fails_only. Qed.
#[local] Hint Resolve instructions_of_fails nullable_fails : fails_only.
Lemma parseRouteStep_fails v : fails_only contract_failure (parseRouteStep v).
Proof. unfold parseRouteStep, parseSwapInfo. fails_only. Qed.
Lemma parseLookupTable_fails entry : fails_only contract_failure (parseLookupTable entry).
Proof. unfold parseLookupTable. fails_only. Qed.
#[local] Hint Resolve parseRouteStep_fails parseLookupTable_fails : fails_only.

Lemma parseBuildResponse_fails v : fails_only contract_failure (parseBuildResponse v).
Proof. unfold parseBuildResponse. fails_only. Qed.

Variable resolveUrl : string → string → option string.
Variable fetchImpl : BuildUrl → list (string * string) → result string FetchResponse.
Variable JSON_parse : string → option jsval.

(** What [fetchBuild] can fail with: a configuration error before any
    request is sent; otherwise a [JupiterApiError] - without a status when the
    request failed or the body breaks the contract, with the response's status
    when it was not OK or not JSON - or the runtime's own failure to build the
    URL or read the body. Whatever it returns was validated. *)
Theorem fetchBuild_outcome request apiKey baseUrl :
  match fetchBuild resolveUrl fetchImpl JSON_parse request apiKey baseUrl with
  | Ok b => ∃ url response text json,
      buildRequestUrl resolveUrl request baseUrl = Ok url ∧
      fetchImpl url [("x-api-key", apiKey); ("accept", "application/json")] = Ok response ∧
      resp_ok response = true ∧ resp_text response = Ok text ∧ JSON_parse text = Some json ∧ reads_build json b
  | Err (ConfigThrown message) => buildRequestUrl resolveUrl request baseUrl = Err (ConfigThrown message)
  | Err (ApiThrown message status) => ∃ url, buildRequestUrl resolveUrl request baseUrl = Ok url ∧
      match fetchImpl url [("x-api-key", apiKey); ("accept", "application/json")], status with
      | Err failure, None => message = "request failed: " +:+ failure
      | Ok response, None => resp_ok response = true ∧ ∃ problem, message = "unexpected /build response: " +:+ problem
      | Ok response, Some s => s = resp_status response ∧ ∃ text, resp_text response = Ok text ∧
          (resp_ok response = false ∨ resp_ok response = true ∧ JSON_parse text = None)
      | Err _, Some _ => False
      end
  | Err (RuntimeThrown _) => True
  | Err _ => False
  end.
Proof.
  unfold fetchBuild. destruct (buildRequestUrl resolveUrl request baseUrl) as [url|e] eqn:Hurl; cbn [mbind result_bind].
  - destruct (fetchImpl url _) as [response|failure] eqn:Hf; cbn [map_err mbind result_bind]; [|by exists url; rewrite Hf].
    destruct (resp_text response) as [text|] eqn:Htext; cbn [map_err mbind result_bind]; [|done].
    destruct (resp_ok response) eqn:Hok; cbn [negb throw_if mbind result_bind];
      [|exists url; rewrite Hf; split; [done|]; split; [done|]; exists text; auto].
    destruct (JSON_parse text) as [json|] eqn:Hjson; cbn [of_option mbind result_bind];
      [|exists url; rewrite Hf; split; [done|]; split; [done|]; exists text; auto].
    destruct (parseBuildResponse json) as [b|e] eqn:Hparse.
    + exists url, response, text, json. split_and!; try done. by apply parseBuildResponse_reads.
    + destruct (parseBuildResponse_fails json e Hparse) as [message ->]. cbn. exists url. rewrite Hf. split; [done|]. eauto.
  - assert (fails_only (λ e, match e with ConfigThrown _ | RuntimeThrown _ => True | _ => False end)
      (buildRequestUrl resolveUrl request baseUrl)) as Hfails.
    { unfold buildRequestUrl, check_request_addresses. destruct (resolveUrl BUILD_PATH _); cbn [of_option]; fails_only. }
    specialize (Hfails e Hurl). by destruct e.
Qed.

(** A request URL is built exactly for a well-formed request: three
    addresses, a positive amount, a non-negative integer slippage and, when
    given, a [maxAccounts] in Jupiter's documented [1, 64]; it carries those
    parameters and nothing else - the API key is no part of it. *)
Theorem buildRequestUrl_spec request baseUrl url :
  buildRequestUrl resolveUrl request baseUrl = Ok url ↔
  isAddress (bq_inputMint request) = true ∧ isAddress (bq_outputMint request) = true ∧ isAddress (bq_taker request) = true ∧
  0 < bq_amount request ∧ (isInteger (bq_slippageBps request) = true ∧ 0 ≤ num_value (bq_slippageBps request)) ∧
  (∀ n, bq_maxAccounts request = Some n → num_in_range 1 64 n = true) ∧
  resolveUrl BUILD_PATH (baseUrl ?? JUPITER_API_BASE_URL) = Some (url_href url) ∧
  url_searchParams url =
    [ ("inputMint", bq_inputMint request); ("outputMint", bq_outputMint request); ("amount", show_Z (bq_amount request));
      ("taker", bq_taker request); ("slippageBps", show_num (bq_slippageBps request)) ] ++
    match bq_maxAccounts request with Some n => [("maxAccounts", show_num n)] | None => [] end.
Proof.
  unfold buildRequestUrl, check_request_addresses. rewrite then_Ok, !throw_if_then_Ok, throw_if_Ok, !negb_false_iff, Z.leb_gt,
    orb_false_iff, negb_false_iff, Z.ltb_ge, bind_Ok. setoid_rewrite of_option_Ok.
  destruct (bq_maxAccounts request) as [n|]; destruct url as [href params]; cbn [url_href url_searchParams].
  - setoid_rewrite throw_if_then_Ok. setoid_rewrite orb_false_iff. setoid_rewrite orb_false_iff.
    setoid_rewrite negb_false_iff. setoid_rewrite Z.ltb_ge. setoid_rewrite num_in_range_spec.
    unfold MAX_ACCOUNTS_MIN, MAX_ACCOUNTS_MAX. split.
    + intros ((Hi & Ho & Ht) & Ha & Hs & h & Hh & Hn & [= -> <-]). split_and!; try tauto. intros ? [= <-]. tauto.
    + intros (Hi & Ho & Ht & Ha & Hs & Hn & Hh & ->). specialize (Hn n eq_refl). split_and!; try tauto.
      exists href. split; [done|]. split; [tauto|done].
  - split.
    + intros ((Hi & Ho & Ht) & Ha & Hs & h & Hh & [= -> <-]). split_and!; try tauto; done.
    + intros (Hi & Ho & Ht & Ha & Hs & Hn & Hh & ->). split_and!; try tauto. exists href. rewrite app_nil_r. done.
Qed.
End ClientErrors.

(** A response as [JSON.parse] gives it: no [otherInstructions], no [tipInstruction]. *)
Definition sample_usdc : string := "EPjFWdd5AufqSSqeM2qN1xzybapC8G4wEGGkZwyTDt1v".
Definition sample_kox : string := "XsaBXg8dU5cPM6ehmVctMkVqoiRG2ZjMo1cyBJ3AykQ".
Definition sample_raw_instruction : jsval :=
  JObject [("programId", JString sample_kox); ("accounts", JArray [JObject [("pubkey", JString sample_usdc);
    ("isSigner", JBool true); ("isWritable", JBool false)]]); ("data", JString "AQ==")].
Definition sample_raw_build : jsval :=
  JObject
    [ ("inputMint", JString sample_usdc); ("outputMint", JString sample_kox); ("inAmount", JString "1000000");
      ("outAmount", JString "5000"); ("otherAmountThreshold", JString "4975"); ("swapMode", JString "ExactIn");
      ("slippageBps", JNum (NumInt 50));
      ("routePlan", JArray [JObject [("percent", JNum (NumInt 100)); ("bps", JNull);
        ("swapInfo", JObject [("ammKey", JString sample_kox); ("label", JString "amm"); ("inputMint", JString sample_usdc);
           ("outputMint", JString sample_kox); ("inAmount", JString "1000000"); ("outAmount", JString "5000")])]]);
      ("computeBudgetInstructions", JArray [sample_raw_instruction]); ("setupInstructions", JArray []);
      ("swapInstruction", sample_raw_instruction); ("cleanupInstruction", JNull);
      ("addressesByLookupTableAddress", JObject [(sample_usdc, JArray [JString sample_kox])]);
      ("blockhashWithMetadata", JObject [("blockhash", JArray (replicate 32 (JNum (NumInt 7)))); ("lastValidBlockHeight", JNum (NumInt 9))]) ].

Lemma parseBuildResponse_roundtrip_witness :
  ∃ b, parseBuildResponse sample_raw_build = Ok b ∧ parseBuildResponse (build_js b) = Ok b.
Proof.
  eexists. assert (parseBuildResponse sample_raw_build = Ok ltac:(let b := eval vm_compute in (parseBuildResponse sample_raw_build) in
    match b with Ok ?x => exact x end)) as H by (vm_compute; reflexivity).
  split; [exact H|]. exact (parseBuildResponse_roundtrip _ _ H).
Defined.
