(* ===== verification/Compose.v ===== *)
(** * compose.ts of packages/jupiter: one guarded v0 transaction

    The supported grammar of a [/build] response, the normalized suffix, the
    compiled transaction and its resolution from wire bytes, and the composer
    that ties them. The message compiler and codecs of [@solana/kit] are the
    class [TransactionCodec]; no law about them is assumed. *)

From S2P Require Import Prelude Js Errors StateErrors Kit Base58 Sha256 Abi OnChain OfflineCheck MintState Downstream Jupiter JupiterOnChain CanonicalKey BuildClient.

Definition MAX_TRANSACTION_BYTES : nat := Z.to_nat 1232.
Definition UNSIMULATED_COMPUTE_UNIT_LIMIT : Z := 1400000.

(** A compiled message as its decoder gives it; a legacy one has no version. *)
Record MessageHeader := mkCounts {
  numSignerAccounts : Z;
  numReadonlySignerAccounts : Z;
  numReadonlyNonSignerAccounts : Z;
}.

Record AddressTableLookup := mkLookup {
  lookupTableAddress : Address;
  writableIndexes : list nat;
  readonlyIndexes : list nat;
}.

Record CompiledInstruction := mkCompiled {
  programAddressIndex : nat;
  accountIndices : option (list nat);
  cx_data : option bytes;
}.

Record CompiledMessage := mkMessage {
  cm_version : option Z;
  cm_header : MessageHeader;
  cm_staticAccounts : list Address;
  cm_addressTableLookups : option (list AddressTableLookup);
  cm_instructions : list CompiledInstruction;
}.

Abbreviation LookupTables := (list (Address * list Address)).

(** What the message is compiled from: fee payer, blockhash and last valid
    height, instructions and lookup tables. *)
Record TransactionMessage := mkTransactionMessage {
  tm_feePayer : Address;
  tm_blockhash : string;
  tm_lastValidBlockHeight : Z;
  tm_instructions : list Instruction;
  tm_lookupTables : LookupTables;
}.

(** [@solana/kit]'s base-64 and blockhash codecs, compiler and wire codecs; [None] is a throw. *)
Class TransactionCodec := {
  base64Encode : string → option bytes;
  base64Text : bytes → string;
  blockhashText : bytes → string;
  compileTransactionMessage : TransactionMessage → option CompiledMessage;
  encodeMessage : CompiledMessage → option bytes;
  encodeTransaction : TransactionMessage → option bytes;
  decodeTransaction : bytes → option CompiledMessage;
}.

Definition kit {A} (o : option A) : result jupiter_exn A := of_option (ClientThrown CodecErr) o.

Record JupiterTradeRequest := mkTradeRequest {
  tr_adapterKind : Z;
  tr_protectedMint : Address;
  tr_taker : Address;
  tr_computeUnitLimit : jsnum;
}.

Record TransactionMetrics := mkMetrics {
  instructionCount : nat;
  staticAccountCount : nat;
  addressLookupTableCount : nat;
  lookedUpAddressCount : nat;
  compiledMessageBytes : nat;
  serializedTransactionBytes : nat;
  requiredSignatures : Z;
  fitsSizeLimit : bool;
}.

(** The value of a string of digits ([BigInt(s)]); the texts it is applied to
    passed the client's validation, so no other form is read. *)
Fixpoint decimal_value (s : string) (acc : Z) : Z :=
  match s with "" => acc | String c s => decimal_value s (10 * acc + (Z.of_nat (Ascii.nat_of_ascii c) - 48)) end.

Definition BigInt_text (s : string) : result jupiter_exn Z :=
  if string_forallb is_digit s then Ok (decimal_value s 0)
  else Err (RuntimeThrown ("Cannot convert " +:+ s +:+ " to a BigInt")).

(** [if (b) reasons.push(message)]. *)
Definition reason_if (b : bool) (message : string) : list string := if b then [message] else [].

Section ComposeOps.
  Context `{!AddressCodec, !TransactionCodec}.

(** [address(s)]: the string, checked. *)
Definition to_address (s : string) : result jupiter_exn Address :=
  if isAddress s then Ok s else Err (ClientThrown CodecErr).

Definition roleOf (meta : ApiAccountMeta) : AccountRole :=
  match am_isSigner meta, am_isWritable meta with
  | true, true => WRITABLE_SIGNER
  | true, false => READONLY_SIGNER
  | false, true => WRITABLE
  | false, false => READONLY
  end.

Definition toKitInstruction (api : ApiInstruction) : result jupiter_exn Instruction :=
  programAddress ← to_address (ai_programId api);
  accounts ← mapM_result (λ meta, key ← to_address (am_pubkey meta); Ok (mkMeta key (roleOf meta))) (ai_accounts api);
  data ← kit (base64Encode (ai_data api));
  Ok (mkInstruction programAddress (Some accounts) (Some data)).

Definition getSetComputeUnitLimitInstruction (units : jsnum) : result jupiter_exn Instruction :=
  throw_if (negb (num_in_range 0 (2 ^ 32 - 1) units))
    (CompositionThrown INVALID_COMPUTE_UNIT_LIMIT ("compute unit limit " +:+ show_num units +:+ " is not a u32"));;
  Ok (mkInstruction COMPUTE_BUDGET_PROGRAM_ADDRESS (Some [])
        (Some (z2b (shape_tag SET_COMPUTE_UNIT_LIMIT) :: le_bytes 4 (num_value units)))).

Definition isShape (shape : BudgetShape) (i : Instruction) : bool :=
  String.eqb (ix_programAddress i) COMPUTE_BUDGET_PROGRAM_ADDRESS && Nat.eqb (length (accounts_of i)) 0
  && match ix_data i with
     | Some data => Nat.eqb (length data) (shape_length shape) && bool_decide (byte_at data 0 = Some (shape_tag shape))
     | None => false
     end.

(* ------------------------------------------------------------------ *)
(** ** The supported builds *)

(** The reasons the compute-budget instructions give, [budget] being converted. *)
Definition limit_reason (request : JupiterTradeRequest) (limit : Instruction) : result jupiter_exn (list string) :=
  units ← of_option (ClientThrown RangeErr) (get_uint 4 (data_of limit) 1);
  Ok (reason_if (negb (num_is (tr_computeUnitLimit request) units))
        ("Jupiter's compute unit limit " +:+ show_Z units +:+ " differs from the requested " +:+ show_num (tr_computeUnitLimit request))).

Definition budget_reasons (budget : list Instruction) (request : JupiterTradeRequest) : result jupiter_exn (list string) :=
  let prices := length (List.filter (isShape SET_COMPUTE_UNIT_PRICE) budget) in
  let limits := List.filter (isShape SET_COMPUTE_UNIT_LIMIT) budget in
  differing ← mapM_result (limit_reason request) limits;
  Ok (reason_if (negb (Nat.eqb prices 1)) ("expected exactly one SetComputeUnitPrice, got " +:+ show_Z (Z.of_nat prices)) ++
      reason_if (negb (Nat.eqb (length budget) (prices + length limits))) "unsupported ComputeBudget instruction" ++
      reason_if (Nat.ltb 1 (length limits)) "more than one SetComputeUnitLimit" ++
      concat differing).

Definition setup_reason (setup : ApiInstruction) : result jupiter_exn (list string) :=
  data ← kit (base64Encode (ai_data setup));
  Ok (reason_if (negb (String.eqb (ai_programId setup) ASSOCIATED_TOKEN_PROGRAM_ADDRESS)
                 || negb (Nat.eqb (length data) 1) || negb (bool_decide (byte_at data 0 = Some 1)))
        ("unknown setup instruction on " +:+ ai_programId setup)).

Definition setup_reasons (setups : list ApiInstruction) : result jupiter_exn (list string) :=
  unknown ← mapM_result setup_reason setups;
  Ok (reason_if (Nat.ltb 1 (length setups))
        (show_Z (Z.of_nat (length setups)) +:+ " setup instructions; at most one is supported") ++ concat unknown).

Definition is_buy (request : JupiterTradeRequest) : bool := tr_adapterKind request =? JUPITER_ROUTE_V2_BUY_USDC.

(** The mints a build must report: input and output. *)
Definition expected_mints (request : JupiterTradeRequest) : Address * Address :=
  if is_buy request then (USDC_MINT_ADDRESS, tr_protectedMint request) else (tr_protectedMint request, USDC_MINT_ADDRESS).

Definition swap_reasons (build : BuildResponse) (request : JupiterTradeRequest) (swapData : bytes) : list string :=
  let swap := br_swapInstruction build in
  let '(expectedInput, expectedOutput) := expected_mints request in
  reason_if (negb (String.eqb (ai_programId swap) JUPITER_V6_PROGRAM_ADDRESS))
    ("swap program " +:+ ai_programId swap +:+ " is not Jupiter v6") ++
  reason_if (bool_decide (decodeRouteV2Prefix swapData = None))
    ("swap entrypoint " +:+ toHex (take 8 swapData) +:+ " is not route_v2 (" +:+ ROUTE_V2_DISCRIMINATOR_HEX +:+ ")") ++
  reason_if (negb (String.eqb (br_swapMode build) "ExactIn")) ("swapMode " +:+ br_swapMode build +:+ " is unsupported") ++
  reason_if (negb (String.eqb (br_inputMint build) expectedInput) || negb (String.eqb (br_outputMint build) expectedOutput))
    ((if is_buy request then "BUY" else "SELL") +:+ " must be " +:+ expectedInput +:+ " -> " +:+ expectedOutput +:+ ", got "
     +:+ br_inputMint build +:+ " -> " +:+ br_outputMint build) ++
  reason_if (negb (bool_decide (am_pubkey <$> ai_accounts swap !! 0%nat = Some (tr_taker request))))
    "the swap authority is not the taker".

Definition quote_reasons (build : BuildResponse) (prefix : RouteV2Prefix) : result jupiter_exn (list string) :=
  reportedIn ← BigInt_text (br_inAmount build);
  reportedOut ← BigInt_text (br_outAmount build);
  slippage ← (if negb (num_is (br_slippageBps build) (slippageBps prefix))
              then Ok ["slippageBps differs from the encoded trade"]
              else
                minimum ← map_err ClientThrown (minimumOutFromQuote (quotedOutAmount prefix) (NumInt (slippageBps prefix)));
                threshold ← BigInt_text (br_otherAmountThreshold build);
                Ok (reason_if (negb (minimum =? threshold)) "otherAmountThreshold is not the minimum the encoded trade enforces"));
  Ok (reason_if (negb (inAmount prefix =? reportedIn)) "inAmount differs from the encoded trade" ++
      reason_if (negb (quotedOutAmount prefix =? reportedOut)) "outAmount differs from the encoded trade" ++ slippage).

Definition assertSupportedJupiterBuild (build : BuildResponse) (request : JupiterTradeRequest) : result jupiter_exn unit :=
  let extra :=
    reason_if (bool_decide (is_Some (br_cleanupInstruction build))) "cleanupInstruction is unsupported" ++
    reason_if (Nat.ltb 0 (length (br_otherInstructions build)))
      (show_Z (Z.of_nat (length (br_otherInstructions build))) +:+ " otherInstructions are unsupported") ++
    reason_if (bool_decide (is_Some (br_tipInstruction build))) "tipInstruction is unsupported" in
  budget ← mapM_result toKitInstruction (br_computeBudgetInstructions build);
  budgetReasons ← budget_reasons budget request;
  setupReasons ← setup_reasons (br_setupInstructions build);
  swapData ← kit (base64Encode (ai_data (br_swapInstruction build)));
  quoteReasons ← match decodeRouteV2Prefix swapData with
                 | Some prefix => quote_reasons build prefix
                 | None => Ok []
                 end;
  match extra ++ budgetReasons ++ setupReasons ++ swap_reasons build request swapData ++ quoteReasons with
  | [] => Ok tt
  | reasons => Err (UnsupportedBuildThrown reasons)
  end.

(** [[price, limit, (setup), route_v2]]. *)
Definition normalizedJupiterSuffix (build : BuildResponse) (computeUnitLimit : jsnum) : result jupiter_exn (list Instruction) :=
  budget ← mapM_result toKitInstruction (br_computeBudgetInstructions build);
  price ← of_option (CompositionThrown MISSING_COMPUTE_UNIT_PRICE "no SetComputeUnitPrice")
            (List.find (isShape SET_COMPUTE_UNIT_PRICE) budget);
  limit ← getSetComputeUnitLimitInstruction computeUnitLimit;
  setups ← mapM_result toKitInstruction (br_setupInstructions build);
  swap ← toKitInstruction (br_swapInstruction build);
  Ok ([price; limit] ++ setups ++ [swap]).

(* ------------------------------------------------------------------ *)
(** ** Compiling and resolving *)

Definition lookupTablesOf (build : BuildResponse) : result jupiter_exn LookupTables :=
  mapM_result (λ entry, table ← to_address (fst entry); addresses ← mapM_result to_address (snd entry); Ok (table, addresses))
    (br_addressesByLookupTableAddress build).

(** The message before it is compiled; the blockhash bytes are stored in a [Uint8Array]. *)
Definition transaction_message (build : BuildResponse) (feePayer : Address) (instructions : list Instruction)
    : result jupiter_exn TransactionMessage :=
  let blockhash := blockhashText (map (λ n, z2b (num_value n)) (br_blockhash build)) in
  lastValidBlockHeight ← map_err ClientThrown (BigInt (br_lastValidBlockHeight build));
  tables ← lookupTablesOf build;
  Ok (mkTransactionMessage feePayer blockhash lastValidBlockHeight instructions tables).

Definition metrics_of (compiled : CompiledMessage) (messageBytes wireBytes : bytes) : TransactionMetrics :=
  let lookups := cm_addressTableLookups compiled ?? [] in
  {| instructionCount := length (cm_instructions compiled);
     staticAccountCount := length (cm_staticAccounts compiled);
     addressLookupTableCount := length lookups;
     lookedUpAddressCount :=
       foldl (λ n l, n + length (readonlyIndexes l) + length (writableIndexes l))%nat 0%nat lookups;
     compiledMessageBytes := length messageBytes;
     serializedTransactionBytes := length wireBytes;
     requiredSignatures := numSignerAccounts (cm_header compiled);
     fitsSizeLimit := Nat.leb (length wireBytes) MAX_TRANSACTION_BYTES |}.

Definition compileAndMeasure (build : BuildResponse) (feePayer : Address) (instructions : list Instruction)
    : result jupiter_exn (bytes * TransactionMetrics) :=
  message ← transaction_message build feePayer instructions;
  compiled ← kit (compileTransactionMessage message);
  messageBytes ← kit (encodeMessage compiled);
  wireBytes ← kit (encodeTransaction message);
  Ok (wireBytes, metrics_of compiled messageBytes wireBytes).

Definition unresolvable (message : string) : jupiter_exn := CompositionThrown UNRESOLVABLE_TRANSACTION message.

(** The static accounts with the flags of the header. *)
Definition static_key (header : MessageHeader) (total : nat) (i : nat) (key : Address) : CommittedAccount :=
  let i := Z.of_nat i in
  let signer := i <? numSignerAccounts header in
  mkCommitted key signer
    (if signer then i <? numSignerAccounts header - numReadonlySignerAccounts header
     else i <? Z.of_nat total - numReadonlyNonSignerAccounts header).

(** [lookupTables[table]] of a record kept as its entries. *)
Definition table_of (tables : LookupTables) (table : Address) : option (list Address) :=
  snd <$> List.find (λ entry, String.eqb (fst entry) table) tables.

Definition fromTable (tables : LookupTables) (table : Address) (index : nat) : result jupiter_exn Address :=
  match table_of tables table ≫= λ addresses, addresses !! index with
  | None => Err (unresolvable ("lookup " +:+ table +:+ "#" +:+ show_Z (Z.of_nat index) +:+ " does not resolve"))
  | Some key =>
      if String.eqb key ""
      then Err (unresolvable ("lookup " +:+ table +:+ "#" +:+ show_Z (Z.of_nat index) +:+ " does not resolve"))
      else to_address key
  end.

(** The keys one lookup adds, all writable or all read-only. *)
Definition lookup_keys (tables : LookupTables) (writable : bool) (lookup : AddressTableLookup)
    : result jupiter_exn (list CommittedAccount) :=
  mapM_result (λ index, key ← fromTable tables (lookupTableAddress lookup) index; Ok (mkCommitted key false writable))
    (if writable then writableIndexes lookup else readonlyIndexes lookup).

Definition message_keys (message : CompiledMessage) (tables : LookupTables) : result jupiter_exn (list CommittedAccount) :=
  let statics := cm_staticAccounts message in
  let lookups := cm_addressTableLookups message ?? [] in
  writable ← mapM_result (lookup_keys tables true) lookups;
  readonly ← mapM_result (lookup_keys tables false) lookups;
  Ok (imap (static_key (cm_header message) (length statics)) statics ++ concat writable ++ concat readonly).

Definition key_at (keys : list CommittedAccount) (index : nat) : result jupiter_exn CommittedAccount :=
  of_option (unresolvable ("account index " +:+ show_Z (Z.of_nat index) +:+ " is out of range")) (keys !! index).

Definition resolve_instruction (keys : list CommittedAccount) (instruction : CompiledInstruction)
    : result jupiter_exn CommittedInstruction :=
  program ← key_at keys (programAddressIndex instruction);
  accounts ← mapM_result (key_at keys) (accountIndices instruction ?? []);
  Ok (mkCommittedInstruction (ca_address program) accounts (cx_data instruction ?? [])).

Definition show_version (version : option Z) : string := match version with Some v => show_Z v | None => "legacy" end.

Definition resolveWireTransaction (wireBytes : bytes) (lookupTables : LookupTables)
    : result jupiter_exn (list CommittedInstruction) :=
  message ← kit (decodeTransaction wireBytes);
  throw_if (negb (bool_decide (cm_version message = Some 0)))
    (unresolvable ("expected a v0 message, got " +:+ show_version (cm_version message)));;
  keys ← message_keys message lookupTables;
  mapM_result (resolve_instruction keys) (cm_instructions message).

(** [a] against [b[i]], which may be [undefined]. *)
Definition same_account (m : CommittedAccount) (n : option CommittedAccount) : bool :=
  match n with
  | Some n => String.eqb (ca_address m) (ca_address n) && Bool.eqb (ca_isSigner m) (ca_isSigner n)
              && Bool.eqb (ca_isWritable m) (ca_isWritable n)
  | None => false
  end.

Definition every_with {A} (f : A → option A → bool) (a b : list A) : bool :=
  forallb (λ x, x) (imap (λ i x, f x (b !! i)) a).

Definition same_instruction (x : CommittedInstruction) (y : option CommittedInstruction) : bool :=
  match y with
  | Some y =>
      String.eqb (ci_programAddress x) (ci_programAddress y) && bytesEqual (ci_data x) (ci_data y)
      && Nat.eqb (length (ci_accounts x)) (length (ci_accounts y))
      && every_with same_account (ci_accounts x) (ci_accounts y)
  | None => false
  end.

Definition sameInstructions (a b : list CommittedInstruction) : bool :=
  Nat.eqb (length a) (length b) && every_with same_instruction a b.

Record GuardedJupiterComposition := mkComposition {
  comp_trade : GuardedJupiterTrade;
  comp_binding : JupiterTradeBinding;
  comp_wireBytes : bytes;
  comp_metrics : TransactionMetrics;
}.

Definition composeGuardedJupiterTrade `{!ProgramDerivation, !Digest} (request : JupiterTradeRequest) (build : BuildResponse)
    (programAddress feePayer : Address) (expectation : AssertSafeExecutionRequest) : result jupiter_exn GuardedJupiterComposition :=
  assertSupportedJupiterBuild build request;;
  suffix ← normalizedJupiterSuffix build (tr_computeUnitLimit request);
  trade ← map_err ClientThrown (buildGuardedJupiterTrade programAddress feePayer (tr_protectedMint request)
            (tr_adapterKind request) expectation suffix);
  '(wireBytes, metrics) ← compileAndMeasure build feePayer (t_instructions trade);
  throw_if (negb (fitsSizeLimit metrics))
    (CompositionThrown TRANSACTION_TOO_LARGE ("guarded transaction is " +:+ show_Z (Z.of_nat (serializedTransactionBytes metrics))
       +:+ " bytes, over " +:+ show_Z (Z.of_nat MAX_TRANSACTION_BYTES)));;
  resolved ← resolveWireTransaction wireBytes (br_addressesByLookupTableAddress build);
  view ← map_err ClientThrown (sysvarView (t_instructions trade) feePayer);
  throw_if (negb (sameInstructions resolved view) || negb (sameInstructions (drop 1 resolved) (t_committedSuffix trade)))
    (CompositionThrown COMMITMENT_MISMATCH "the compiled transaction does not resolve to the committed instructions");;
  binding ← map_err ClientThrown (jupiterTradeBindingOf trade);
  Ok (mkComposition trade binding wireBytes metrics).
End ComposeOps.

(* ------------------------------------------------------------------ *)
(** ** Equality of resolved instructions *)

Lemma every_with_eq {A} (f : A → option A → bool) (a b : list A) :
  (∀ x y, f x (Some y) = true ↔ x = y) → length a = length b → every_with f a b = true ↔ a = b.
Proof.
  intros Hf. revert b. induction a as [|x a IH]; intros [|y b] Hlen; try done. injection Hlen as Hlen.
  unfold every_with. cbn [imap forallb lookup list_lookup]. rewrite andb_true_iff, Hf.
  unfold every_with in IH. specialize (IH b Hlen).
  replace (imap ((λ i x, f x ((y :: b) !! i)) ∘ S) a) with (imap (λ i x, f x (b !! i)) a) by (by apply imap_ext).
  rewrite IH. split; [by intros [-> ->]|by intros [= -> ->]].
Qed.

Lemma same_account_eq m n : same_account m (Some n) = true ↔ m = n.
Proof.
  cbn. rewrite !andb_true_iff, String.eqb_eq, !Bool.eqb_true_iff. destruct m, n; cbn.
  split; [by intros [[-> ->] ->]|by intros [= -> -> ->]].
Qed.

Lemma same_instruction_eq x y : same_instruction x (Some y) = true ↔ x = y.
Proof.
  unfold same_instruction. rewrite !andb_true_iff, String.eqb_eq, bytesEqual_spec, Nat.eqb_eq. destruct x, y; cbn. split.
  - intros [[[-> ->] Hlen] He]. apply every_with_eq in He as ->; [done|exact same_account_eq|exact Hlen].
  - intros [= -> -> ->]. split_and!; try done. apply every_with_eq; [exact same_account_eq|done..].
Qed.

Lemma sameInstructions_eq a b : sameInstructions a b = true ↔ a = b.
Proof.
  unfold sameInstructions. rewrite andb_true_iff, Nat.eqb_eq. split.
  - intros [Hlen He]. apply every_with_eq in He; [done|exact same_instruction_eq|done].
  - intros ->. split; [done|]. apply every_with_eq; [exact same_instruction_eq|done..].
Qed.

(* ------------------------------------------------------------------ *)
(** ** A composed transaction *)

Section Composed.
  Context {codec : AddressCodec} {transactions : TransactionCodec} {derivation : ProgramDerivation} {sha : Digest}.

Lemma compileAndMeasure_fits build feePayer instructions wire metrics :
  compileAndMeasure build feePayer instructions = Ok (wire, metrics) →
  serializedTransactionBytes metrics = length wire ∧ fitsSizeLimit metrics = Nat.leb (length wire) MAX_TRANSACTION_BYTES.
Proof.
  unfold compileAndMeasure. intros H. apply bind_Ok in H as (m & _ & H). apply bind_Ok in H as (compiled & _ & H).
  apply bind_Ok in H as (mb & _ & H). apply bind_Ok in H as (w & _ & [= <- <-]). done.
Qed.

Lemma compose_Ok request build program feePayer expectation c :
  composeGuardedJupiterTrade request build program feePayer expectation = Ok c →
  assertSupportedJupiterBuild build request = Ok tt ∧
  ∃ suffix views,
    normalizedJupiterSuffix build (tr_computeUnitLimit request) = Ok suffix ∧
    buildGuardedJupiterTrade program feePayer (tr_protectedMint request) (tr_adapterKind request) expectation suffix =
      Ok (comp_trade c) ∧
    sysvarView (t_instructions (comp_trade c)) feePayer = Ok views ∧
    resolveWireTransaction (comp_wireBytes c) (br_addressesByLookupTableAddress build) = Ok views ∧
    drop 1 views = t_committedSuffix (comp_trade c) ∧
    Z.of_nat (length (comp_wireBytes c)) ≤ 1232 ∧
    jupiterTradeBindingOf (comp_trade c) = Ok (comp_binding c).
Proof.
  unfold composeGuardedJupiterTrade. rewrite then_Ok. intros [Hs H]. split; [done|].
  apply bind_Ok in H as (suffix & Hsuffix & H). apply bind_Ok in H as (trade & Htrade%map_err_Ok & H).
  apply bind_Ok in H as ([wire metrics] & Hwire & H). cbv beta iota in H. rewrite throw_if_then_Ok in H.
  destruct H as [Hfits H]. apply bind_Ok in H as (resolved & Hres & H). apply bind_Ok in H as (view & Hview%map_err_Ok & H).
  rewrite throw_if_then_Ok, orb_false_iff, !negb_false_iff, !sameInstructions_eq in H. destruct H as [[-> Hdrop] H].
  apply bind_Ok in H as (binding & Hb%map_err_Ok & [= <-]). cbn [comp_trade comp_wireBytes comp_binding].
  exists suffix, view. split_and!; try done.
  apply compileAndMeasure_fits in Hwire as [_ Hleb]. rewrite Hleb in Hfits. apply negb_false_iff, Nat.leb_le in Hfits.
  unfold MAX_TRANSACTION_BYTES in Hfits. lia.
Qed.

(** The composer step by step: each part succeeds, and so does the whole. *)
Lemma compose_steps request build program feePayer expectation suffix trade wire metrics views binding :
  assertSupportedJupiterBuild build request = Ok tt →
  normalizedJupiterSuffix build (tr_computeUnitLimit request) = Ok suffix →
  buildGuardedJupiterTrade program feePayer (tr_protectedMint request) (tr_adapterKind request) expectation suffix = Ok trade →
  compileAndMeasure build feePayer (t_instructions trade) = Ok (wire, metrics) → fitsSizeLimit metrics = true →
  resolveWireTransaction wire (br_addressesByLookupTableAddress build) = Ok views →
  sysvarView (t_instructions trade) feePayer = Ok views → drop 1 views = t_committedSuffix trade →
  jupiterTradeBindingOf trade = Ok binding →
  composeGuardedJupiterTrade request build program feePayer expectation = Ok (mkComposition trade binding wire metrics).
Proof.
  intros Hs Hn Ht Hw Hf Hr Hv Hd Hb. unfold composeGuardedJupiterTrade. rewrite Hs. cbn [mbind result_bind]. rewrite Hn. cbn [mbind result_bind].
  rewrite Ht. cbn [map_err mbind result_bind]. rewrite Hw. cbn [mbind result_bind]. rewrite Hf. cbn [negb throw_if mbind result_bind].
  rewrite Hr. cbn [mbind result_bind]. rewrite Hv. cbn [map_err mbind result_bind].
  rewrite !(proj2 (sameInstructions_eq _ _)) by done. cbn [negb orb throw_if mbind result_bind]. by rewrite Hb.
Qed.

(** The check of the client on a composed transaction, and its guard on chain. *)
Lemma composed_verified request build program feePayer expectation c :
  composeGuardedJupiterTrade request build program feePayer expectation = Ok c →
  ∃ views guard rest key adapter,
    resolveWireTransaction (comp_wireBytes c) (br_addressesByLookupTableAddress build) = Ok views ∧
    checkGuardedJupiterTransaction views 0 (tr_adapterKind request) (tr_protectedMint request) (t_commitment (comp_trade c)) = Ok None ∧
    views = guard :: rest ∧ rest = t_committedSuffix (comp_trade c) ∧
    ci_programAddress guard = program ∧
    encodeAddress (tr_protectedMint request) = Some key ∧ DownstreamAdapter_from_u8 (tr_adapterKind request) = Some adapter ∧
    unpack (ci_data guard) = Ok (mkAssertV2 key (guard_request expectation) adapter (t_commitment (comp_trade c))).
Proof.
  intros (_ & suffix & views & _ & Htrade & Hview & Hres & Hdrop & _)%compose_Ok.
  pose proof Htrade as Hbuilt. apply buildTrade_Ok in Hbuilt as (_ & _ & Hix & Hguard & _ & _ & Hcommit).
  apply buildTrade_verified in Htrade as (_ & (views' & Hview' & Hcheck) & key & p & adapter & Hkey & Hp & Had & Hun).
  assert (views' = views) as -> by congruence.
  assert (t_commitment (comp_trade c) = digest p) as Hdigest.
  { apply jupiterSuffixCommitment_Ok in Hcommit as (q & Hq & ->). congruence. }
  rewrite <- Hdigest in Hun.
  pose proof Hview as Hvs. apply sysvarView_Ok in Hvs as [_ Hvs]. rewrite Hix in Hvs. cbn [map] in Hvs.
  eexists views, _, _, key, adapter. split; [done|]. split; [done|]. split; [exact Hvs|].
  split; [by rewrite Hvs in Hdrop|]. split_and!; try done.
  apply getAssert_Ok in Hguard as (data & _ & ->). done.
Qed.

(** The composer throws neither a configuration nor an API error. *)
Definition composition_error (e : jupiter_exn) : Prop :=
  match e with ConfigThrown _ | ApiThrown _ _ => False | _ => True end.

#[local] Hint Extern 1 (composition_error _) => exact I : fails_only.

Lemma toKitInstruction_fails api : fails_only composition_error (toKitInstruction api).
Proof. unfold toKitInstruction, to_address, kit. fails_only. Qed.
#[local] Hint Resolve toKitInstruction_fails : fails_only.

Lemma assertSupported_fails build request : fails_only composition_error (assertSupportedJupiterBuild build request).
Proof.
  unfold assertSupportedJupiterBuild, budget_reasons, setup_reasons, quote_reasons, limit_reason, setup_reason, BigInt_text, kit.
  cbv zeta. fails_only.
Qed.

Lemma normalized_fails build limit : fails_only composition_error (normalizedJupiterSuffix build limit).
Proof. unfold normalizedJupiterSuffix, getSetComputeUnitLimitInstruction. fails_only. Qed.

Lemma compile_fails build feePayer instructions : fails_only composition_error (compileAndMeasure build feePayer instructions).
Proof. unfold compileAndMeasure, transaction_message, lookupTablesOf, to_address, kit. fails_only. Qed.

Lemma resolve_fails wire tables : fails_only composition_error (resolveWireTransaction wire tables).
Proof.
  unfold resolveWireTransaction, message_keys, lookup_keys, fromTable, resolve_instruction, key_at, to_address, kit, unresolvable.
  fails_only.
Qed.
#[local] Hint Resolve assertSupported_fails normalized_fails compile_fails resolve_fails : fails_only.

Lemma compose_fails request build program feePayer expectation :
  fails_only composition_error (composeGuardedJupiterTrade request build program feePayer expectation).
Proof.
  unfold composeGuardedJupiterTrade. fails_only.
Qed.

Section OnChain.
  Variable pk : Address → bytes.
  Variable find_ata : list bytes → bytes.
  Hypothesis pk_constants : ∀ a,
    a ∈ [JUPITER_V6_PROGRAM_ADDRESS; JUPITER_EVENT_AUTHORITY; USDC_MINT_ADDRESS; LEGACY_TOKEN_PROGRAM_ADDRESS;
         ASSOCIATED_TOKEN_PROGRAM_ADDRESS; COMPUTE_BUDGET_PROGRAM_ADDRESS; SYSTEM_PROGRAM_ADDRESS;
         TOKEN_2022_PROGRAM_ADDRESS] → encodeAddress a = Some (pk a).
  Hypothesis same_ata : ∀ owner token_program mint,
    length owner = 32%nat → length token_program = 32%nat → length mint = 32%nat →
    ∃ a, programDerivedAddress ASSOCIATED_TOKEN_PROGRAM_ADDRESS [owner; token_program; mint] = Some a ∧
         encodeAddress a = Some (find_ata [owner; token_program; mint]).

(** C7: the bytes the composer returns are accepted by the program: they fit a
    packet, and when they are resolved the way the runtime loads a v0 message,
    the first instruction is the guard of the requested program, its data
    decodes to this mint, expectation and kind, and the program's
    [verify_jupiter_suffix] accepts the sysvar that exposes the resolved
    instructions - whatever the compiler and the codecs of the library did. *)
Theorem composed_transaction_accepted request build program feePayer expectation c :
  composeGuardedJupiterTrade request build program feePayer expectation = Ok c →
  Z.of_nat (length (comp_wireBytes c)) ≤ 1232 ∧
  ∃ guard rest decoded,
    resolveWireTransaction (comp_wireBytes c) (br_addressesByLookupTableAddress build) = Ok (guard :: rest) ∧
    ci_programAddress guard = program ∧ unpack (ci_data guard) = Ok decoded ∧
    encodeAddress (tr_protectedMint request) = Some (a2_expected_mint decoded) ∧
    a2_execution decoded = guard_request expectation ∧
    Some (a2_adapter decoded) = DownstreamAdapter_from_u8 (tr_adapterKind request) ∧
    ∀ sysvar, Forall2 sysvar_ix (guard :: rest) sysvar → forallb fits_ix sysvar = true →
      verify_jupiter_suffix pk find_ata 0 (protectedRoleOf (tr_adapterKind request)) decoded (a2_expected_mint decoded) sysvar = Ok tt.
Proof.
  intros H. pose proof H as (_ & _ & _ & _ & _ & _ & _ & _ & Hfits & _)%compose_Ok. split; [exact Hfits|].
  apply composed_verified in H as (views & guard & rest & key & adapter & Hres & Hcheck & -> & _ & Hprog & Hkey & Had & Hun).
  eexists guard, rest, _. split; [done|]. split; [done|]. split; [exact Hun|].
  split; [exact Hkey|]. split; [done|]. split; [by rewrite Had|]. intros sysvar Hall Hfit.
  pose proof (checkGuarded_agrees pk find_ata pk_constants same_ata _ _ 0 (tr_adapterKind request) _ _
    (mkAssertV2 key (guard_request expectation) adapter (t_commitment (comp_trade c))) Hall Hkey Hfit) as Hagree.
  cbn [a2_downstream_commitment] in Hagree. rewrite Hcheck in Hagree.
  destruct (verify_jupiter_suffix _ _ _ _ _ _ _) as [[]|]; [done|discriminate].
Qed.
End OnChain.
End Composed.

(* ------------------------------------------------------------------ *)
(** ** The supported grammar *)

Section Supported.
  Context {codec : AddressCodec} {transactions : TransactionCodec}.

(** A [SetComputeUnitLimit] that carries the requested limit. *)
Definition sets_limit (request : JupiterTradeRequest) (limit : Instruction) : Prop :=
  isShape SET_COMPUTE_UNIT_LIMIT limit = true ∧
  ∃ units, get_uint 4 (data_of limit) 1 = Some units ∧ num_is (tr_computeUnitLimit request) units = true.

(** The supported compute budget: Jupiter's price, with the requested limit or none. *)
Definition supported_budget (request : JupiterTradeRequest) (budget : list Instruction) : Prop :=
  ∃ price, isShape SET_COMPUTE_UNIT_PRICE price = true ∧
    (budget = [price] ∨ ∃ limit, sets_limit request limit ∧ (budget = [price; limit] ∨ budget = [limit; price])).

Definition supported_setup (setup : ApiInstruction) : Prop :=
  ai_programId setup = ASSOCIATED_TOKEN_PROGRAM_ADDRESS ∧ base64Encode (ai_data setup) = Some [x01].

(** The swap instruction and the quote reported for it. *)
Definition supported_swap (request : JupiterTradeRequest) (build : BuildResponse) : Prop :=
  ∃ data prefix, base64Encode (ai_data (br_swapInstruction build)) = Some data ∧ decodeRouteV2Prefix data = Some prefix ∧
    ai_programId (br_swapInstruction build) = JUPITER_V6_PROGRAM_ADDRESS ∧ br_swapMode build = "ExactIn" ∧
    (br_inputMint build, br_outputMint build) = expected_mints request ∧
    am_pubkey <$> ai_accounts (br_swapInstruction build) !! 0%nat = Some (tr_taker request) ∧
    BigInt_text (br_inAmount build) = Ok (inAmount prefix) ∧ BigInt_text (br_outAmount build) = Ok (quotedOutAmount prefix) ∧
    num_is (br_slippageBps build) (slippageBps prefix) = true ∧
    ∃ minimum, minimumOutFromQuote (quotedOutAmount prefix) (NumInt (slippageBps prefix)) = Ok minimum ∧
      BigInt_text (br_otherAmountThreshold build) = Ok minimum.

Definition supported_build (request : JupiterTradeRequest) (build : BuildResponse) : Prop :=
  br_cleanupInstruction build = None ∧ br_otherInstructions build = [] ∧ br_tipInstruction build = None ∧
  (∃ budget, mapM_result toKitInstruction (br_computeBudgetInstructions build) = Ok budget ∧ supported_budget request budget) ∧
  (br_setupInstructions build = [] ∨ ∃ setup, br_setupInstructions build = [setup] ∧ supported_setup setup) ∧
  supported_swap request build.

Lemma reason_if_nil b message : reason_if b message = [] ↔ b = false.
Proof. by destruct b. Qed.

(** One reason for each element, none of them given. *)
Lemma no_reasons {A} (f : A → result jupiter_exn (list string)) l :
  (∃ ls, mapM_result f l = Ok ls ∧ concat ls = []) ↔ Forall (λ x, f x = Ok []) l.
Proof.
  induction l as [|x l IH]; cbn [mapM_result].
  - split; [constructor|]. by exists [].
  - rewrite Forall_cons, <- IH. split.
    + intros (ls & H & Hc). apply bind_Ok in H as (y & Hy & H). apply bind_Ok in H as (ys & Hys & [= <-]).
      cbn [concat] in Hc. apply app_nil in Hc as [-> Hc]. eauto.
    + intros [Hx (ls & Hls & Hc)]. exists ([] :: ls). by rewrite Hx, Hls.
Qed.

Lemma limit_reason_nil request limit : limit_reason request limit = Ok [] ↔
  ∃ units, get_uint 4 (data_of limit) 1 = Some units ∧ num_is (tr_computeUnitLimit request) units = true.
Proof.
  unfold limit_reason. destruct (get_uint 4 (data_of limit) 1) as [units|]; cbn; [|by split; [|intros (? & ? & _)]].
  destruct (num_is _ units) eqn:Hn; cbn; split; try done; [by eexists|by intros (? & [= <-] & ?); congruence].
Qed.

Lemma setup_reason_nil setup : setup_reason setup = Ok [] ↔ supported_setup setup.
Proof.
  unfold setup_reason, supported_setup, kit. destruct (base64Encode (ai_data setup)) as [data|]; cbn; [|by split; [|intros [_ ?]]].
  destruct (String.eqb_spec (ai_programId setup) ASSOCIATED_TOKEN_PROGRAM_ADDRESS) as [Hp|Hp]; cbn [negb orb reason_if];
    [|by split; [|intros [? _]]].
  pose proof (setup_data data) as Hd. rewrite Hd. destruct (decide (data = [x01])) as [->|Hne].
  - rewrite bool_decide_eq_false_2 by (intros []; done). done.
  - rewrite bool_decide_eq_true_2 by done. split; [done|]. by intros [_ [= ->]].
Qed.

Lemma shapes_disjoint i : isShape SET_COMPUTE_UNIT_PRICE i = true → isShape SET_COMPUTE_UNIT_LIMIT i = false.
Proof.
  unfold isShape. rewrite andb_true_iff. intros [-> Hd]. cbn [andb]. destruct (ix_data i) as [data|]; [|done].
  apply andb_true_iff in Hd as [Hlen%Nat.eqb_eq _]. rewrite Hlen. done.
Qed.

Lemma budget_reasons_nil budget request : budget_reasons budget request = Ok [] ↔ supported_budget request budget.
Proof.
  unfold budget_reasons. rewrite bind_Ok. cbv zeta.
  set (limits := List.filter (isShape SET_COMPUTE_UNIT_LIMIT) budget).
  set (prices := length (List.filter (isShape SET_COMPUTE_UNIT_PRICE) budget)).
  transitivity (prices = 1%nat ∧ length budget = (prices + length limits)%nat ∧ (length limits ≤ 1)%nat ∧
    Forall (λ l, limit_reason request l = Ok []) limits).
  { rewrite <- no_reasons. split.
    - intros (ls & Hls & [= H]). apply app_nil in H as [H1 H]. apply app_nil in H as [H2 H]. apply app_nil in H as [H3 H4].
      apply reason_if_nil in H1, H2, H3. apply negb_false_iff, Nat.eqb_eq in H1, H2. apply Nat.ltb_ge in H3. eauto 10.
    - intros (H1 & H2 & H3 & ls & Hls & Hc). exists ls. split; [done|]. rewrite Hc, H2, H1. cbn [Nat.eqb negb reason_if app].
      rewrite Nat.eqb_refl. destruct (Nat.ltb_spec 1 (length limits)); [lia|done]. }
  unfold supported_budget, sets_limit. subst limits prices. split.
  - intros (H1 & H2 & H3 & H4).
    destruct budget as [|a [|b [|d l]]]; [done| | |cbn [length] in H2; lia].
    + exists a. cbn [List.filter] in H1. destruct (isShape SET_COMPUTE_UNIT_PRICE a); [auto|done].
    + cbn [List.filter] in *. destruct (isShape SET_COMPUTE_UNIT_PRICE a) eqn:Ha.
      * exists a. split; [done|]. rewrite (shapes_disjoint _ Ha) in *.
        destruct (isShape SET_COMPUTE_UNIT_LIMIT b) eqn:Hb; [|cbn [length] in *; lia].
        right. exists b. inversion H4 as [|? ? Hr]; subst. apply limit_reason_nil in Hr. auto.
      * destruct (isShape SET_COMPUTE_UNIT_PRICE b) eqn:Hb; [|cbn [length] in H1; lia]. rewrite (shapes_disjoint _ Hb) in *.
        exists b. split; [done|]. destruct (isShape SET_COMPUTE_UNIT_LIMIT a) eqn:Ha'; [|cbn [length] in *; lia].
        right. exists a. inversion H4 as [|? ? Hr]; subst. apply limit_reason_nil in Hr. auto.
  - assert (∀ l, isShape SET_COMPUTE_UNIT_LIMIT l = true → isShape SET_COMPUTE_UNIT_PRICE l = false) as Hdis.
    { intros l Hl. destruct (isShape SET_COMPUTE_UNIT_PRICE l) eqn:Hp; [|done]. apply shapes_disjoint in Hp. congruence. }
    intros (price & Hp & [->|(limit & [Hl Hr%limit_reason_nil] & [->| ->])]); cbn [List.filter]; rewrite ?Hp, ?(shapes_disjoint _ Hp),
      ?Hl, ?(Hdis _ Hl); cbn [length]; split_and!; auto.
Qed.

Lemma setup_reasons_nil setups : setup_reasons setups = Ok [] ↔
  setups = [] ∨ ∃ setup, setups = [setup] ∧ supported_setup setup.
Proof.
  unfold setup_reasons. rewrite bind_Ok. transitivity ((length setups ≤ 1)%nat ∧ Forall (λ s, setup_reason s = Ok []) setups).
  - rewrite <- no_reasons. split.
    + intros (ls & Hls & [= H]). apply app_nil in H as [H1%reason_if_nil H]. apply Nat.ltb_ge in H1. eauto.
    + intros (H1 & ls & Hls & Hc). exists ls. split; [done|]. rewrite Hc. destruct (Nat.ltb_spec 1 (length setups)); [lia|done].
  - destruct setups as [|s [|s' l]]; cbn [length].
    + split; [by left|]. intros _. split; [lia|constructor].
    + rewrite Forall_singleton, setup_reason_nil. split; [intros [_ ?]; eauto|].
      intros [|(? & [= <-] & ?)]; [done|]. split; [lia|done].
    + split; [lia|]. by intros [|(? & ? & _)].
Qed.

Lemma quote_reasons_nil build prefix : quote_reasons build prefix = Ok [] ↔
  BigInt_text (br_inAmount build) = Ok (inAmount prefix) ∧ BigInt_text (br_outAmount build) = Ok (quotedOutAmount prefix) ∧
  num_is (br_slippageBps build) (slippageBps prefix) = true ∧
  ∃ minimum, minimumOutFromQuote (quotedOutAmount prefix) (NumInt (slippageBps prefix)) = Ok minimum ∧
    BigInt_text (br_otherAmountThreshold build) = Ok minimum.
Proof.
  unfold quote_reasons. destruct (BigInt_text (br_inAmount build)) as [i|]; cbn [mbind result_bind]; [|by split; [|intros [? _]]].
  destruct (BigInt_text (br_outAmount build)) as [o|]; cbn [mbind result_bind]; [|by split; [|intros (_ & ? & _)]].
  destruct (num_is (br_slippageBps build) (slippageBps prefix)); cbn [negb mbind result_bind].
  - destruct (minimumOutFromQuote _ _) as [m|]; cbn [map_err mbind result_bind]; [|by split; [|intros (_ & _ & _ & ? & ? & _)]].
    destruct (BigInt_text (br_otherAmountThreshold build)) as [t|]; cbn [mbind result_bind];
      [|by split; [|intros (_ & _ & _ & ? & _ & ?)]].
    split.
    + intros [= H]. apply app_nil in H as [H1%reason_if_nil H]. apply app_nil in H as [H2%reason_if_nil H3%reason_if_nil].
      rewrite negb_false_iff, Z.eqb_eq in *. subst. split_and!; eauto.
    + intros ([= ->] & [= ->] & _ & ? & [= <-] & [= ->]). by rewrite !Z.eqb_refl.
  - split; [|by intros (_ & _ & ? & _)]. intros [= H]. apply app_nil in H as [_ H]. by apply app_nil in H as [_ ?].
Qed.

Lemma swap_reasons_nil build request data : swap_reasons build request data = [] ↔
  ai_programId (br_swapInstruction build) = JUPITER_V6_PROGRAM_ADDRESS ∧ is_Some (decodeRouteV2Prefix data) ∧
  br_swapMode build = "ExactIn" ∧ (br_inputMint build, br_outputMint build) = expected_mints request ∧
  am_pubkey <$> ai_accounts (br_swapInstruction build) !! 0%nat = Some (tr_taker request).
Proof.
  unfold swap_reasons. destruct (expected_mints request) as [ei eo]. rewrite !app_nil, !reason_if_nil, !negb_false_iff, orb_false_iff,
    !negb_false_iff, !String.eqb_eq, bool_decide_eq_false, bool_decide_eq_true, not_eq_None_Some.
  split; [intros (? & ? & ? & [-> ->] & ?); split_and!; done|intros (? & ? & ? & [= -> ->] & ?); split_and!; done].
Qed.

Lemma assertSupported_reads build request : assertSupportedJupiterBuild build request = Ok tt ↔ supported_build request build.
Proof.
  unfold assertSupportedJupiterBuild, supported_build. cbv zeta.
  set (extra := reason_if _ _ ++ _).
  assert (extra = [] ↔ br_cleanupInstruction build = None ∧ br_otherInstructions build = [] ∧ br_tipInstruction build = None) as Hextra.
  { unfold extra. rewrite !app_nil, !reason_if_nil, !bool_decide_eq_false, <- !eq_None_not_Some, Nat.ltb_ge.
    destruct (br_otherInstructions build); cbn; intuition (try lia; try done). }
  clearbody extra. transitivity (extra = [] ∧
    (∃ budget, mapM_result toKitInstruction (br_computeBudgetInstructions build) = Ok budget ∧ budget_reasons budget request = Ok []) ∧
    setup_reasons (br_setupInstructions build) = Ok [] ∧
    ∃ data, base64Encode (ai_data (br_swapInstruction build)) = Some data ∧ swap_reasons build request data = [] ∧
      match decodeRouteV2Prefix data with Some prefix => quote_reasons build prefix | None => Ok [] end = Ok []).
  - split.
    + intros H. apply bind_Ok in H as (budget & Hb & H). apply bind_Ok in H as (b & Hbr & H). apply bind_Ok in H as (s & Hs & H).
      apply bind_Ok in H as (data & Hd%of_option_Ok & H). apply bind_Ok in H as (q & Hq & H).
      destruct (extra ++ b ++ s ++ swap_reasons build request data ++ q) eqn:Hall; [|done].
      apply app_nil in Hall as [-> Hall]. apply app_nil in Hall as [-> Hall]. apply app_nil in Hall as [-> Hall].
      apply app_nil in Hall as [Hsw ->]. eauto 10.
    + intros (-> & (budget & -> & Hb) & Hs & data & Hd & Hsw & Hq). cbn [mbind result_bind]. rewrite Hb. cbn [mbind result_bind].
      rewrite Hs. cbn [mbind result_bind]. unfold kit. rewrite Hd. cbn [of_option mbind result_bind]. rewrite Hq. cbn [mbind result_bind].
      by rewrite Hsw.
  - rewrite Hextra, setup_reasons_nil. setoid_rewrite budget_reasons_nil. setoid_rewrite swap_reasons_nil. unfold supported_swap. split.
    + intros ((Hc & Ho & Ht) & Hb & Hs & data & Hd & (Hp & [prefix Hpre] & Hm & Hmints & Hk) & Hq). rewrite Hpre in Hq.
      apply quote_reasons_nil in Hq as (? & ? & ? & ?). split_and!; try done. exists data, prefix. split_and!; done.
    + intros (Hc & Ho & Ht & Hb & Hs & data & prefix & Hd & Hpre & Hp & Hm & Hmints & Hk & Hq). split_and!; try done.
      exists data. split; [done|]. rewrite Hpre. split; [split_and!; done|]. by apply quote_reasons_nil.
Qed.

(** [assertSupportedJupiterBuild] lets a build pass exactly when it has the
    supported grammar: no cleanup, tip or other instruction; exactly one
    compute-unit price, at most one limit, the requested one; at most one
    setup, the ATA program's CreateIdempotent; a Jupiter v6 [route_v2] swap in
    ExactIn mode, of the taker, between USDC and the protected mint in the
    direction of the adapter kind, whose encoded amounts, slippage and minimum
    are those the quote reports. *)
Theorem assertSupportedJupiterBuild_spec build request :
  assertSupportedJupiterBuild build request = Ok tt ↔ supported_build request build.
Proof. apply assertSupported_reads. Qed.

(** Of a supported build the composer takes exactly [price, limit, (setup),
    route_v2]: the suffix starts with Jupiter's own price and the requested
    limit and ends with the swap; the missing-price error cannot occur. *)
Theorem normalizedJupiterSuffix_supported build request
    (Hsupported : assertSupportedJupiterBuild build request = Ok tt) :
  match normalizedJupiterSuffix build (tr_computeUnitLimit request) with
  | Ok suffix => ∃ price limit setups swap, suffix = [price; limit] ++ setups ++ [swap] ∧
      isShape SET_COMPUTE_UNIT_PRICE price = true ∧ sets_limit request limit ∧
      (length setups ≤ 1)%nat ∧ Forall (λ s, ix_programAddress s = ASSOCIATED_TOKEN_PROGRAM_ADDRESS ∧ ix_data s = Some [x01]) setups ∧
      ix_programAddress swap = JUPITER_V6_PROGRAM_ADDRESS ∧ is_Some (decodeRouteV2Prefix (data_of swap))
  | Err e => (∃ message, e = CompositionThrown INVALID_COMPUTE_UNIT_LIMIT message) ∨ e = ClientThrown CodecErr
  end.
Proof.
  apply assertSupported_reads in Hsupported as (_ & _ & _ & (budget & Hb & price & Hp & Hbudget) & Hsetup & data & prefix & Hd & Hpre & Hprog & _).
  unfold normalizedJupiterSuffix. rewrite Hb. cbn [mbind result_bind].
  assert (List.find (isShape SET_COMPUTE_UNIT_PRICE) budget = Some price) as ->.
  { destruct Hbudget as [->|(limit & [Hl _] & [->| ->])]; cbn [List.find]; rewrite ?Hp; try done.
    destruct (isShape SET_COMPUTE_UNIT_PRICE limit) eqn:Hlp; [|done]. apply shapes_disjoint in Hlp. congruence. }
  cbn [of_option mbind result_bind]. unfold getSetComputeUnitLimitInstruction.
  destruct (num_in_range 0 (2 ^ 32 - 1) (tr_computeUnitLimit request)) eqn:Hr; cbn [negb throw_if mbind result_bind]; [|left; by eexists].
  set (limit := mkInstruction _ _ _).
  assert (sets_limit request limit) as Hlimit.
  { apply num_in_range_spec in Hr as [Hi Hr]. split; [reflexivity|]. exists (num_value (tr_computeUnitLimit request)). split.
    - unfold limit. rewrite data_of_Some.
      change (z2b (shape_tag SET_COMPUTE_UNIT_LIMIT) :: le_bytes 4 (num_value (tr_computeUnitLimit request)))
        with ([x02] ++ le_bytes 4 (num_value (tr_computeUnitLimit request))).
      rewrite get_uint_app_skip by (cbn; lia). rewrite <- (app_nil_r (le_bytes 4 _)), get_uint_le_bytes.
      f_equal. apply Z.mod_small. change (2 ^ (8 * Z.of_nat 4)) with (2 ^ 32). lia.
    - unfold num_is. by rewrite Hi, Z.eqb_refl. }
  clearbody limit.
  assert (∀ s i, toKitInstruction s = Ok i → ix_programAddress i = ai_programId s ∧ ix_data i = base64Encode (ai_data s)) as Hkit.
  { intros s i. unfold toKitInstruction, to_address. destruct (isAddress (ai_programId s)); [|done]. cbn [mbind result_bind]. intros H.
    apply bind_Ok in H as (l & _ & H). apply bind_Ok in H as (d & Hd'%of_option_Ok & [= <-]). cbn. by rewrite Hd'. }
  assert (∀ s, fails_only (λ e, e = ClientThrown CodecErr) (toKitInstruction s)) as Hfail.
  { intros s. unfold toKitInstruction, to_address, kit, of_option. fails_only. }
  destruct (mapM_result toKitInstruction (br_setupInstructions build)) as [setups|e] eqn:Hs; cbn [mbind result_bind];
    [|right; revert e Hs; by apply fails_mapM].
  destruct (toKitInstruction (br_swapInstruction build)) as [swap|e] eqn:Hw; cbn [mbind result_bind]; [|right; by apply Hfail in Hw].
  apply Hkit in Hw as [Hwp Hwd]. exists price, limit, setups, swap. split_and!; try done.
  - apply mapM_result_Ok, Forall2_length in Hs as <-. destruct Hsetup as [->|(s & -> & _)]; cbn; lia.
  - apply mapM_result_Ok in Hs. destruct Hsetup as [Hn|(s & Hn & Ha & Hsd)]; rewrite Hn in Hs.
    + by inversion Hs.
    + inversion Hs as [|? i ? ? Hi Hrest]; subst. inversion Hrest; subst. apply Hkit in Hi as [Hi1 Hi2].
      constructor; [|constructor]. by rewrite Hi1, Hi2.
  - by rewrite Hwp.
  - unfold data_of. rewrite Hwd, Hd. cbn. by rewrite Hpre.
Qed.
End Supported.

(* ------------------------------------------------------------------ *)
(** ** A concrete composition *)

#[local] Existing Instance sample_derivation.

(** The sample trade as [/build] would report it; hex stands for base-64. *)
Definition sample_api_instruction (i : CommittedInstruction) : ApiInstruction :=
  mkApiInstruction (ci_programAddress i)
    (map (λ a, mkApiMeta (ca_address a) (String.eqb (ca_address a) sample_user) false) (ci_accounts i)) (toHex (ci_data i)).
Definition sample_build_response : BuildResponse :=
  {| br_inputMint := USDC_MINT_ADDRESS; br_outputMint := sample_stock_mint; br_inAmount := "1000000"; br_outAmount := "5000";
     br_otherAmountThreshold := "4975"; br_swapMode := "ExactIn"; br_slippageBps := NumInt 50; br_routePlan := [];
     br_computeBudgetInstructions := [sample_api_instruction sample_price; sample_api_instruction sample_limit]; br_setupInstructions := [];
     br_swapInstruction := sample_api_instruction sample_route; br_cleanupInstruction := None; br_otherInstructions := [];
     br_tipInstruction := None; br_addressesByLookupTableAddress := [(sample_stock_mint, [USDC_MINT_ADDRESS])];
     br_blockhash := replicate 32 (NumInt 7); br_lastValidBlockHeight := NumInt 9 |}.
Definition sample_trade_request : JupiterTradeRequest :=
  mkTradeRequest JUPITER_ROUTE_V2_BUY_USDC sample_stock_mint sample_user (NumInt 0).

(** A compiler without lookup tables for messages whose only writable account
    is the fee payer: payer, read-only signers, the rest. One account is looked
    up in a table, to exercise the resolution. *)
Definition sample_statics : list Address :=
  [ sample_fee_payer; sample_user; sample_mint; sample_stock_mint; SYSVAR_INSTRUCTIONS_ADDRESS; COMPUTE_BUDGET_PROGRAM_ADDRESS;
    JUPITER_V6_PROGRAM_ADDRESS; sample_usdc_account; sample_stock_account; LEGACY_TOKEN_PROGRAM_ADDRESS;
    TOKEN_2022_PROGRAM_ADDRESS; JUPITER_EVENT_AUTHORITY ].
Fixpoint position (keys : list Address) (key : Address) : nat :=
  match keys with [] => 0 | k :: keys => if String.eqb k key then 0 else S (position keys key) end.
Definition sample_index (key : Address) : nat := position (sample_statics ++ [USDC_MINT_ADDRESS]) key.
Definition sample_compile (instructions : list Instruction) : CompiledMessage :=
  mkMessage (Some 0) (mkCounts 2 1 10) sample_statics (Some [mkLookup sample_stock_mint [] [0%nat]])
    (map (λ i, mkCompiled (sample_index (ix_programAddress i)) (Some (map (λ m, sample_index (meta_address m)) (accounts_of i))) (ix_data i))
       instructions).
Definition sample_message : CompiledMessage := Eval vm_compute in sample_compile (t_instructions sample_trade).

#[local] Instance sample_transactions : TransactionCodec :=
  {| base64Encode s := Some (fromHex s); base64Text := toHex; blockhashText := b58_decode;
     compileTransactionMessage m := Some (sample_compile (tm_instructions m)); encodeMessage _ := Some (zeros 100);
     encodeTransaction _ := Some (zeros 229); decodeTransaction _ := Some sample_message |}.

Lemma sample_normalized : normalizedJupiterSuffix sample_build_response (tr_computeUnitLimit sample_trade_request) = Ok (map uncommitted sample_suffix).
Proof. vm_compute. reflexivity. Qed.

Lemma sample_supported : assertSupportedJupiterBuild sample_build_response sample_trade_request = Ok tt.
Proof. vm_compute. reflexivity. Qed.

Definition sample_binding : JupiterTradeBinding :=
  Eval vm_compute in ok_or (mkBinding "" "" "" SOURCE "" "" "" "" "" "" "" 0 0 0 0 "" 0) (jupiterTradeBindingOf sample_trade).
Definition sample_composition : GuardedJupiterComposition :=
  mkComposition sample_trade sample_binding (zeros 229)
    (metrics_of (sample_compile (t_instructions sample_trade)) (zeros 100) (zeros 229)).

Definition sample_views : list CommittedInstruction :=
  Eval vm_compute in match sysvarView (t_instructions sample_trade) sample_fee_payer with Ok v => v | Err _ => [] end.

Lemma sample_composed :
  composeGuardedJupiterTrade sample_trade_request sample_build_response sample_mint sample_fee_payer sample_expectation = Ok sample_composition.
Proof.
  apply (compose_steps sample_trade_request sample_build_response sample_mint sample_fee_payer sample_expectation
    (map uncommitted sample_suffix) sample_trade _ _ sample_views sample_binding sample_supported sample_normalized sample_build_ok);
    vm_compute; reflexivity.
Qed.

Lemma composed_transaction_accepted_witness :
  Z.of_nat (length (comp_wireBytes sample_composition)) ≤ 1232 ∧
  ∃ guard rest decoded,
    resolveWireTransaction (comp_wireBytes sample_composition) (br_addressesByLookupTableAddress sample_build_response) = Ok (guard :: rest) ∧
    ci_programAddress guard = sample_mint ∧ unpack (ci_data guard) = Ok decoded ∧
    encodeAddress sample_stock_mint = Some (a2_expected_mint decoded) ∧
    a2_execution decoded = guard_request sample_expectation ∧
    Some (a2_adapter decoded) = DownstreamAdapter_from_u8 JUPITER_ROUTE_V2_BUY_USDC ∧
    ∀ sysvar, Forall2 sysvar_ix (guard :: rest) sysvar → forallb fits_ix sysvar = true →
      verify_jupiter_suffix key_of sample_find_ata 0 (protectedRoleOf JUPITER_ROUTE_V2_BUY_USDC) decoded (a2_expected_mint decoded) sysvar = Ok tt.
Proof.
  exact (composed_transaction_accepted key_of sample_find_ata sample_pk sample_same_ata sample_trade_request sample_build_response
    sample_mint sample_fee_payer sample_expectation sample_composition sample_composed).
Defined.

Lemma normalizedJupiterSuffix_supported_witness :
  match normalizedJupiterSuffix sample_build_response (tr_computeUnitLimit sample_trade_request) with
  | Ok suffix => ∃ price limit setups swap, suffix = [price; limit] ++ setups ++ [swap] ∧
      isShape SET_COMPUTE_UNIT_PRICE price = true ∧ sets_limit sample_trade_request limit ∧
      (length setups ≤ 1)%nat ∧ Forall (λ s, ix_programAddress s = ASSOCIATED_TOKEN_PROGRAM_ADDRESS ∧ ix_data s = Some [x01]) setups ∧
      ix_programAddress swap = JUPITER_V6_PROGRAM_ADDRESS ∧ is_Some (decodeRouteV2Prefix (data_of swap))
  | Err e => (∃ message, e = CompositionThrown INVALID_COMPUTE_UNIT_LIMIT message) ∨ e = ClientThrown CodecErr
  end.
Proof. exact (normalizedJupiterSuffix_supported sample_build_response sample_trade_request sample_supported). Defined.
