(* ===== verification/Protect.v ===== *)
(** * protect.ts of packages/jupiter: the drop-in integration surface

    [protectJupiterSwap] and what it is made of: the classification of the two
    mints, the deployment a transaction may be bound to, the guard request,
    the composition, and the verification of what was built. The RPC endpoint
    is a parameter, asked at numbered moments: a later call may see another
    chain state. [Buffer.from(x, 'base64')] is a parameter too. *)

From S2P Require Import Prelude Js Errors StateErrors Kit Base58 Sha256 Abi OnChain OfflineCheck MintState Snapshot Downstream Jupiter JupiterOnChain Deployment Protection CanonicalKey BuildClient Compose.

Inductive EquityGuardFailureCode : Set :=
| UNSUPPORTED_ROUTE_SHAPE
| UNSUPPORTED_COUNTER_ASSET
| F_TRANSACTION_TOO_LARGE
| INVALID_JUPITER_BUILD
| MALFORMED_TOKEN_STATE
| UNSUPPORTED_TOKEN_STATE
| MINT_STATE_UNAVAILABLE
| ECONOMIC_STATE_CHANGED
| INSIDE_TRANSITION_WINDOW
| INVALID_GUARD_REQUEST
| COMMITMENT_FAILURE
| GUARD_DEPLOYMENT_UNAVAILABLE
| GUARD_PROGRAM_NOT_EXECUTABLE
| GUARD_BINARY_UNVERIFIED
| UNSUPPORTED_CLUSTER
| GUARD_DEPLOYMENT_CHANGED
| F_NO_SUPPORTED_STATE_ADAPTER
| F_UNSUPPORTED_STATE_MODEL.

#[export] Instance EquityGuardFailureCode_eq_dec : EqDecision EquityGuardFailureCode.
Proof. solve_decision. Defined.

Inductive NotApplicableReason : Set := NO_TOKEN_2022_MINT | NA_NO_PROTECTED_STATE_MODEL.
Inductive SwapDirection : Set := BUY | SELL.

#[export] Instance NotApplicableReason_eq_dec : EqDecision NotApplicableReason.
Proof. solve_decision. Defined.

Record ProtectedSwap := mkProtectedSwap {
  ps_protectedMint : Address;
  ps_direction : SwapDirection;
  ps_adapterKind : Z;
  ps_programAddress : Address;
  ps_deploymentIdentity : DeploymentIdentity;
  ps_deployment : GuardDeploymentAttestation;
  ps_cluster : SolanaCluster;
  ps_knownAsset : option KnownProtectedAsset;
  ps_transaction : bytes;
  ps_transactionBase64 : string;
  ps_instructions : list Instruction;
  ps_lookupTables : LookupTables;
  ps_binding : JupiterTradeBinding;
  ps_metrics : TransactionMetrics;
  ps_snapshot : GuardSnapshot;
}.

(** [ProtectJupiterSwapResult], one constructor per status. *)
Inductive ProtectResult : Type :=
| PROTECTED (swap : ProtectedSwap)
| NOT_APPLICABLE (reason : NotApplicableReason) (message : string)
| UNSUPPORTED_PROTECTED_ASSET (code : EquityGuardFailureCode) (message : string) (protectedMint : Address)
    (knownAsset : KnownProtectedAsset)
| UNSUPPORTED_PROTECTED_ROUTE (code : EquityGuardFailureCode) (message : string) (protectedMint : Address)
    (guardError : option EquityGuardErrorName) (details : list string)
| ERROR (code : EquityGuardFailureCode) (message : string) (protectedMint : option Address)
    (guardError : option EquityGuardErrorName) (details : list string).

(** What the caller hands in; an absent field is [None]. *)
Record ProtectJupiterSwapInput := mkProtectInput {
  pi_build : jsval;
  pi_userPublicKey : Address;
  pi_protectionWindow : option ProtectionWindow;
  pi_programAddress : option Address;
  pi_computeUnitLimit : option jsnum;
  pi_expectedState : option ProtectedState;
  pi_expectedPhase : option Z;
}.

(* ------------------------------------------------------------------ *)
(** ** SwapClassification *)

Inductive SwapClassification : Type :=
| C_PROTECTED (protectedMint : Address) (direction : SwapDirection) (adapterKind : Z) (knownAsset : option KnownProtectedAsset)
| C_NOT_APPLICABLE (reason : NotApplicableReason) (message : string)
| C_UNSUPPORTED_ASSET (code : EquityGuardFailureCode) (message : string) (protectedMint : Address) (knownAsset : KnownProtectedAsset)
| C_UNSUPPORTED (code : EquityGuardFailureCode) (message : string) (protectedMint : Address)
| C_ERROR (code : EquityGuardFailureCode) (message : string) (protectedMint : option Address).

Inductive MintVerdict : Type :=
| V_PROTECTED (knownAsset : option KnownProtectedAsset)
| V_ORDINARY (reason : NotApplicableReason)
| V_REFUSAL (refusal : SwapClassification).

Definition verdictFor (mint : Address) (owner : string) (data : bytes) : result jupiter_exn MintVerdict :=
  resolution ← map_err ClientThrown (resolveProtectionAdapter mint owner data None);
  Ok match resolution with
     | SUPPORTED _ _ knownAsset => V_PROTECTED knownAsset
     | NOT_PROTECTED reason =>
         V_ORDINARY match reason with NOT_TOKEN_2022 => NO_TOKEN_2022_MINT | NO_PROTECTED_STATE_MODEL => NA_NO_PROTECTED_STATE_MODEL end
     | KNOWN_PROTECTED_UNSUPPORTED reason message knownAsset =>
         V_REFUSAL (C_UNSUPPORTED_ASSET
           match reason with UNSUPPORTED_STATE_MODEL => F_UNSUPPORTED_STATE_MODEL | NO_SUPPORTED_STATE_ADAPTER => F_NO_SUPPORTED_STATE_ADAPTER end
           (message +:+ "; EquityGuard refuses rather than trading a known tokenized equity unprotected") mint knownAsset)
     | INVALID_STATE errorCode message _ =>
         V_REFUSAL (C_ERROR (if bool_decide (errorCode = C_InvalidExtensionCombination) then UNSUPPORTED_TOKEN_STATE else MALFORMED_TOKEN_STATE)
           (mint +:+ " is a Token-2022 mint whose state cannot be read (" +:+ message
            +:+ "); EquityGuard refuses rather than trading it unprotected") (Some mint))
     end.

(** An account of a [getMultipleAccounts] reply, its data still encoded. *)
Record RpcAccountInfo := mkAccountInfo { info_executable : bool; info_owner : string; info_data : string }.
Record AccountsReply := mkAccountsReply { ar_slot : Z; ar_value : list (option RpcAccountInfo) }.

(** [value[i]]: [undefined] and [null] are both absent. *)
Definition value_at (reply : AccountsReply) (i : nat) : option RpcAccountInfo := ar_value reply !! i ≫= λ account, account.

Section ProtectOps.
  Context `{!AddressCodec, !ProgramDerivation, !Digest, !TransactionCodec}.
  (** [Uint8Array.from(Buffer.from(encoded, 'base64'))], which skips what is no base-64. *)
  Variable base64 : string → bytes.
  (** The endpoint at its [n]-th call, and its genesis hash; [Err] is a rejection. *)
  Variable getMultipleAccounts : nat → list Address → result string AccountsReply.
  Variable getGenesisHash : result string string.

Definition rpc {A} (m : result string A) : result jupiter_exn A := map_err RuntimeThrown m.

Definition show_key (key : option string) : string := key ?? "undefined".

Definition reportedMintMismatch (build : BuildResponse) : option string :=
  let swap := br_swapInstruction build in
  if negb (String.eqb (ai_programId swap) JUPITER_V6_PROGRAM_ADDRESS)
     || bool_decide (decodeRouteV2Prefix (base64 (ai_data swap)) = None) then None
  else
    let source := am_pubkey <$> ai_accounts swap !! A_sourceMint in
    let destination := am_pubkey <$> ai_accounts swap !! A_destinationMint in
    if bool_decide (source = Some (br_inputMint build)) && bool_decide (destination = Some (br_outputMint build)) then None
    else Some ("the build reports " +:+ br_inputMint build +:+ " -> " +:+ br_outputMint build
               +:+ ", but its route_v2 instruction trades " +:+ show_key source +:+ " -> " +:+ show_key destination).

Definition missing_account (mint : Address) : SwapClassification :=
  let known := findKnownProtectedAsset mint KNOWN_PROTECTED_ASSETS in
  C_ERROR MINT_STATE_UNAVAILABLE
    match known with
    | Some known => as_symbol known +:+ " (" +:+ mint
        +:+ ") is a known tokenized equity, but the RPC returned no account for it; EquityGuard cannot establish its economic state"
    | None => "mint " +:+ mint +:+ " was not returned by the RPC; EquityGuard cannot tell whether it is protected"
    end
    (if bool_decide (is_Some known) then Some mint else None).

(** The loop over the candidates, from the [index]-th account of the reply: the
    protected mints found and the strongest reason to set the others aside, or
    the refusal that ends it. *)
Fixpoint scan (reply : AccountsReply) (index : nat) (candidates : list Address)
    (protectedMints : list (Address * option KnownProtectedAsset)) (notApplicable : NotApplicableReason)
    : result jupiter_exn (SwapClassification + list (Address * option KnownProtectedAsset) * NotApplicableReason) :=
  match candidates with
  | [] => Ok (inr (protectedMints, notApplicable))
  | mint :: candidates =>
      match value_at reply index with
      | None => Ok (inl (missing_account mint))
      | Some account =>
          verdict ← verdictFor mint (info_owner account) (base64 (info_data account));
          match verdict with
          | V_REFUSAL refusal => Ok (inl refusal)
          | V_PROTECTED knownAsset =>
              scan reply (S index) candidates (protectedMints ++ [(mint, knownAsset)]) notApplicable
          | V_ORDINARY reason =>
              scan reply (S index) candidates protectedMints
                (match reason with NA_NO_PROTECTED_STATE_MODEL => NA_NO_PROTECTED_STATE_MODEL | NO_TOKEN_2022_MINT => notApplicable end)
          end
      end
  end.

Definition not_applicable_message (reason : NotApplicableReason) : string :=
  match reason with
  | NA_NO_PROTECTED_STATE_MODEL =>
      "the Token-2022 mint in this swap is not a known tokenized equity and carries no economic-state model EquityGuard protects"
  | NO_TOKEN_2022_MINT => "neither side of the swap is a protected Token-2022 mint"
  end.

(** What follows the loop. *)
Definition classify_protected (inputMint outputMint : Address) (protectedMints : list (Address * option KnownProtectedAsset))
    (notApplicable : NotApplicableReason) : SwapClassification :=
  match protectedMints with
  | [] => C_NOT_APPLICABLE notApplicable (not_applicable_message notApplicable)
  | (protectedMint, _) :: (second, _) :: _ =>
      C_UNSUPPORTED UNSUPPORTED_COUNTER_ASSET ("both " +:+ protectedMint +:+ " and " +:+ second
        +:+ " are protected; adapter kinds 2 and 3 trade one protected mint against canonical USDC") protectedMint
  | [(protectedMint, knownAsset)] =>
      let counterMint := if String.eqb protectedMint outputMint then inputMint else outputMint in
      if negb (String.eqb counterMint USDC_MINT_ADDRESS)
      then C_UNSUPPORTED UNSUPPORTED_COUNTER_ASSET (protectedMint +:+ " is protected but is traded against " +:+ counterMint
             +:+ "; only canonical USDC is supported") protectedMint
      else if String.eqb protectedMint outputMint then C_PROTECTED protectedMint BUY JUPITER_ROUTE_V2_BUY_USDC knownAsset
      else C_PROTECTED protectedMint SELL JUPITER_ROUTE_V2_SELL_USDC knownAsset
  end.

Definition candidates_of (inputMint outputMint : Address) : list Address :=
  List.filter (λ mint, negb (String.eqb mint USDC_MINT_ADDRESS)) [inputMint; outputMint].

Definition classify (call : nat) (build : BuildResponse) : result jupiter_exn SwapClassification :=
  match reportedMintMismatch build with
  | Some mismatch => Ok (C_ERROR INVALID_JUPITER_BUILD mismatch None)
  | None =>
      inputMint ← to_address (br_inputMint build);
      outputMint ← to_address (br_outputMint build);
      if String.eqb inputMint outputMint
      then Ok (C_UNSUPPORTED UNSUPPORTED_ROUTE_SHAPE "the build trades a mint for itself" inputMint)
      else
        let candidates := candidates_of inputMint outputMint in
        reply ← rpc (getMultipleAccounts call candidates);
        scanned ← scan reply 0 candidates [] NO_TOKEN_2022_MINT;
        Ok match scanned with
           | inl refusal => refusal
           | inr (protectedMints, notApplicable) => classify_protected inputMint outputMint protectedMints notApplicable
           end
  end.

(* ------------------------------------------------------------------ *)
(** ** Deployment binding *)

Record BoundDeployment := mkBound {
  bd_programAddress : Address;
  bd_cluster : SolanaCluster;
  bd_identity : DeploymentIdentity;
  bd_attestation : GuardDeploymentAttestation;
}.

Inductive DeploymentResolution : Type :=
| DeploymentOk (bound : BoundDeployment)
| DeploymentFail (code : EquityGuardFailureCode) (message : string).

Definition deploymentFailureCode (reason : IdentityFailure) : EquityGuardFailureCode :=
  match reason with
  | MISSING => GUARD_DEPLOYMENT_UNAVAILABLE
  | NOT_EXECUTABLE => GUARD_PROGRAM_NOT_EXECUTABLE
  | _ => GUARD_BINARY_UNVERIFIED
  end.

Definition show_cluster (cluster : SolanaCluster) : string :=
  match cluster with MainnetBeta => "mainnet-beta" | Devnet => "devnet" | Testnet => "testnet" | UnknownCluster => "unknown" end.

Definition no_deployment (cluster : SolanaCluster) : DeploymentResolution :=
  match cluster with
  | UnknownCluster => DeploymentFail UNSUPPORTED_CLUSTER
      "this RPC serves a cluster EquityGuard has no deployment knowledge for; pass programAddress explicitly to build against a deployment you trust"
  | _ => DeploymentFail GUARD_DEPLOYMENT_UNAVAILABLE
      ("EquityGuard is not deployed on " +:+ show_cluster cluster +:+ "; the devnet deployment is never applied to another cluster")
  end.

Definition loader_view (reply : AccountsReply) (i : nat) : option LoaderAccountView :=
  (λ account, mkAccount (info_executable account) (info_owner account) (base64 (info_data account))) <$> value_at reply i.

(** The attestation of the accounts read, or the failed check. *)
Definition attest (programAddress : Address) (reply : AccountsReply) : GuardCheck GuardDeploymentAttestation :=
  match findReviewedGuardDeployment programAddress with
  | Some reviewed => verifyReviewedGuardDeployment reviewed (loader_view reply 0) (loader_view reply 1)
  | None =>
      match checkGuardProgramAccount programAddress (loader_view reply 0) with
      | CheckOk _ => CheckOk (callerTrustedAttestation programAddress)
      | CheckFail reason message => CheckFail reason message
      end
  end.

Definition resolveDeployment (call : nat) (requested : option Address) : result jupiter_exn DeploymentResolution :=
  genesis ← rpc getGenesisHash;
  let cluster := clusterFromGenesisHash genesis in
  match (match requested with Some program => Some program | None => deploymentForCluster cluster end) with
  | None => Ok (no_deployment cluster)
  | Some programAddress =>
      if String.eqb programAddress "" then Ok (no_deployment cluster)
      else
        let addresses :=
          match findReviewedGuardDeployment programAddress with
          | Some reviewed => [programAddress; dep_programDataAddress reviewed]
          | None => [programAddress]
          end in
        reply ← rpc (getMultipleAccounts call addresses);
        Ok match attest programAddress reply with
           | CheckFail reason message => DeploymentFail (deploymentFailureCode reason) (message +:+ " (" +:+ show_cluster cluster +:+ ")")
           | CheckOk attestation => DeploymentOk (mkBound programAddress cluster (at_identity attestation) attestation)
           end
  end.

Inductive DeploymentReverification : Type :=
| ReverifyOk (attestation : GuardDeploymentAttestation)
| ReverifyFail (code : EquityGuardFailureCode) (message : string) (expected : GuardDeploymentAttestation)
    (actual : option GuardDeploymentAttestation).

Definition reverifyGuardDeployment (call : nat) (swap : ProtectedSwap) : result jupiter_exn DeploymentReverification :=
  current ← resolveDeployment call (Some (ps_programAddress swap));
  Ok match current with
     | DeploymentFail code message => ReverifyFail code message (ps_deployment swap) None
     | DeploymentOk bound =>
         if negb (sameGuardDeployment (ps_deployment swap) (bd_attestation bound))
         then ReverifyFail GUARD_DEPLOYMENT_CHANGED ("the EquityGuard deployment at " +:+ ps_programAddress swap
                +:+ " is no longer the one this transaction was built against") (ps_deployment swap) (Some (bd_attestation bound))
         else ReverifyOk (bd_attestation bound)
     end.

(* ------------------------------------------------------------------ *)
(** ** The guard request and the failures *)

Definition window_of (w : option ProtectionWindow) : ProtectionWindow :=
  w ?? mkWindow (NumOther "undefined") (NumOther "undefined").

Definition guardRequestIssue (input : ProtectJupiterSwapInput) : option string :=
  let window := window_of (pi_protectionWindow input) in
  if negb (isValidWindowSecs (beforeSecs window)) || negb (isValidWindowSecs (afterSecs window))
  then Some "protectionWindow bounds must be whole seconds in [0, 4294967295]"
  else
    match pi_expectedPhase input, pi_expectedState input with
    | Some _, None => Some "expectedPhase was given without the expectedState it was observed with"
    | Some phase, Some _ =>
        if negb (phase =? Pending) && negb (phase =? Activated)
        then Some ("expectedPhase " +:+ show_Z phase +:+ " is not an activation phase")
        else None
    | None, Some state =>
        if hasScheduledChange state
        then Some "expectedState carries a scheduled multiplier activation, so its economic meaning depends on the phase it was quoted under; pass expectedPhase (the quoting snapshot's phase)"
        else None
    | None, None => None
    end.

Definition is_limit (data : bytes) : bool :=
  Nat.eqb (length data) (shape_length SET_COMPUTE_UNIT_LIMIT)
  && bool_decide (byte_at data 0 = Some (shape_tag SET_COMPUTE_UNIT_LIMIT)).

(** The read is in bounds past the length test. *)
Definition defaultComputeUnitLimit (build : BuildResponse) : Z :=
  match List.find is_limit (map (λ i, base64 (ai_data i)) (br_computeBudgetInstructions build)) with
  | Some data => get_uint 4 data 1 ?? 0
  | None => UNSIMULATED_COMPUTE_UNIT_LIMIT
  end.

Definition guardVerdict (expectation : AssertSafeExecutionRequest) (snapshot : GuardSnapshot)
    : result jupiter_exn (option EquityGuardErrorName) :=
  map_err ClientThrown (checkGuardOffline expectation (snap_state snapshot) (clock_unixTimestamp (snap_clock snapshot))).

Definition economicFailure (verdict : EquityGuardErrorName) (protectedMint : Address) : ProtectResult :=
  let inside := bool_decide (verdict = E_InsideTransitionWindow) in
  ERROR (if inside then INSIDE_TRANSITION_WINDOW else ECONOMIC_STATE_CHANGED)
    (if inside
     then protectedMint +:+ " is inside its protection window around the scheduled activation; the guard would reject this transaction"
     else "the protected state of " +:+ protectedMint +:+ " is no longer the state this swap was quoted against ("
          +:+ show_error_name verdict +:+ ")")
    (Some protectedMint) (Some verdict) [].

Definition stateFailureCode (error : GuardClientError) : EquityGuardFailureCode :=
  match err_code error with
  | C_InvalidExtensionCombination => UNSUPPORTED_TOKEN_STATE
  | C_AccountNotFound | C_InvalidClockData => MINT_STATE_UNAVAILABLE
  | C_InvalidExpectedState | C_InvalidProtectionWindow => INVALID_GUARD_REQUEST
  | _ => MALFORMED_TOKEN_STATE
  end.

Definition compositionFailure (error : jupiter_exn) (protectedMint : Address) : result jupiter_exn ProtectResult :=
  match error with
  | UnsupportedBuildThrown reasons =>
      Ok (UNSUPPORTED_PROTECTED_ROUTE UNSUPPORTED_ROUTE_SHAPE ("unsupported Jupiter build: " +:+ join "; " reasons) protectedMint None reasons)
  | ClientThrown (GuardErr error) =>
      if bool_decide (err_code error = C_UnsupportedJupiterTrade) || bool_decide (err_code error = C_InvalidDownstream)
      then Ok (UNSUPPORTED_PROTECTED_ROUTE UNSUPPORTED_ROUTE_SHAPE (err_message error) protectedMint (err_guardError error) [err_message error])
      else Ok (ERROR (stateFailureCode error) (err_message error) (Some protectedMint) (err_guardError error) [err_message error])
  | CompositionThrown code message =>
      match code with
      | TRANSACTION_TOO_LARGE => Ok (UNSUPPORTED_PROTECTED_ROUTE F_TRANSACTION_TOO_LARGE message protectedMint None [message])
      | MISSING_COMPUTE_UNIT_PRICE => Ok (UNSUPPORTED_PROTECTED_ROUTE UNSUPPORTED_ROUTE_SHAPE message protectedMint None [message])
      | INVALID_COMPUTE_UNIT_LIMIT => Ok (ERROR INVALID_GUARD_REQUEST message (Some protectedMint) None [message])
      | _ => Ok (ERROR COMMITMENT_FAILURE message (Some protectedMint) None [message])
      end
  | _ => Err error
  end.

(* ------------------------------------------------------------------ *)
(** ** The entry points *)

(** [try { parseBuildResponse } catch]: [inl] is the message of a [JupiterApiError]. *)
Definition try_parse (raw : jsval) : result jupiter_exn (string + BuildResponse) :=
  match parseBuildResponse raw with
  | Ok build => Ok (inr build)
  | Err (ApiThrown message _) => Ok (inl message)
  | Err error => Err error
  end.

(** [JupiterSwapSupport]. *)
Inductive SupportStatus : Set := S_NOT_APPLICABLE | S_UNSUPPORTED_PROTECTED_ASSET | S_UNSUPPORTED_PROTECTED_ROUTE | S_ERROR.

Inductive JupiterSwapSupport : Type :=
| STRUCTURALLY_SUPPORTED (protectedMint : Address) (direction : SwapDirection) (adapterKind : Z)
    (knownAsset : option KnownProtectedAsset)
| NOT_SUPPORTED (protectedMint : option Address) (status : SupportStatus)
    (code : EquityGuardFailureCode + NotApplicableReason) (message : string).

Definition supportsJupiterSwap (raw : jsval) : result jupiter_exn JupiterSwapSupport :=
  parsed ← try_parse raw;
  match parsed with
  | inl message => Ok (NOT_SUPPORTED None S_ERROR (inl INVALID_JUPITER_BUILD) message)
  | inr build =>
      classified ← classify 0 build;
      Ok match classified with
         | C_PROTECTED mint direction kind knownAsset => STRUCTURALLY_SUPPORTED mint direction kind knownAsset
         | C_NOT_APPLICABLE reason message => NOT_SUPPORTED None S_NOT_APPLICABLE (inr reason) message
         | C_UNSUPPORTED_ASSET code message mint _ => NOT_SUPPORTED (Some mint) S_UNSUPPORTED_PROTECTED_ASSET (inl code) message
         | C_UNSUPPORTED code message mint => NOT_SUPPORTED (Some mint) S_UNSUPPORTED_PROTECTED_ROUTE (inl code) message
         | C_ERROR code message mint => NOT_SUPPORTED mint S_ERROR (inl code) message
         end
  end.

(** The snapshot read at the third call; a rejected call is rethrown. *)
Definition snapshot_reply (reply : AccountsReply) : RpcReply :=
  let account i := (λ a, mkRpcAccount (info_owner a) (info_data a)) <$> value_at reply i in
  mkReply (ar_slot reply) (account 0%nat) (account 1%nat).

Definition read_snapshot (call : nat) (mint : Address) : result jupiter_exn GuardSnapshot :=
  reply ← rpc (getMultipleAccounts call [mint; SYSVAR_CLOCK_ADDRESS]);
  map_err ClientThrown (fetchGuardSnapshot base64 (λ _, Ok (snapshot_reply reply)) mint).

(** The verdict against the state the caller quoted, when it gave one. *)
Definition quoted_verdict (input : ProtectJupiterSwapInput) (snapshot : GuardSnapshot)
    : result jupiter_exn (option EquityGuardErrorName) :=
  match pi_expectedState input with
  | None => Ok None
  | Some state => guardVerdict (mkRequest state (pi_expectedPhase input ?? snap_phase snapshot) (window_of (pi_protectionWindow input))) snapshot
  end.

(** The [try] around the composer. *)
Definition compose_protected (input : ProtectJupiterSwapInput) (build : BuildResponse) (protectedMint : Address)
    (direction : SwapDirection) (adapterKind : Z) (knownAsset : option KnownProtectedAsset) (bound : BoundDeployment)
    (snapshot : GuardSnapshot) (expectation : AssertSafeExecutionRequest) : result jupiter_exn ProtectResult :=
  let request := mkTradeRequest adapterKind protectedMint (pi_userPublicKey input)
    (pi_computeUnitLimit input ?? NumInt (defaultComputeUnitLimit build)) in
  match composeGuardedJupiterTrade request build (bd_programAddress bound) (pi_userPublicKey input) expectation with
  | Ok composed => Ok (PROTECTED
      {| ps_protectedMint := protectedMint; ps_direction := direction; ps_adapterKind := adapterKind;
         ps_programAddress := bd_programAddress bound; ps_deploymentIdentity := bd_identity bound;
         ps_deployment := bd_attestation bound; ps_cluster := bd_cluster bound; ps_knownAsset := knownAsset;
         ps_transaction := comp_wireBytes composed; ps_transactionBase64 := base64Text (comp_wireBytes composed);
         ps_instructions := t_instructions (comp_trade composed); ps_lookupTables := br_addressesByLookupTableAddress build;
         ps_binding := comp_binding composed; ps_metrics := comp_metrics composed; ps_snapshot := snapshot |})
  | Err error => compositionFailure error protectedMint
  end.

(** From the deployment on, for a classified mint and a well-formed request. *)
Definition protect_mint (input : ProtectJupiterSwapInput) (build : BuildResponse) (protectedMint : Address)
    (direction : SwapDirection) (adapterKind : Z) (knownAsset : option KnownProtectedAsset) : result jupiter_exn ProtectResult :=
  deployment ← resolveDeployment 1 (pi_programAddress input);
  match deployment with
  | DeploymentFail code message => Ok (ERROR code message (Some protectedMint) None [])
  | DeploymentOk bound =>
      match read_snapshot 2 protectedMint with
      | Err (ClientThrown (GuardErr error)) =>
          Ok (ERROR (stateFailureCode error) ("the protected state of " +:+ protectedMint +:+ " could not be read: " +:+ err_message error)
                (Some protectedMint) None [err_message error])
      | Err error => Err error
      | Ok snapshot =>
          let expectation := expectationFromSnapshot snapshot (window_of (pi_protectionWindow input)) in
          moved ← quoted_verdict input snapshot;
          match moved with
          | Some moved => Ok (economicFailure moved protectedMint)
          | None =>
              wouldFail ← guardVerdict expectation snapshot;
              match wouldFail with
              | Some wouldFail => Ok (economicFailure wouldFail protectedMint)
              | None => compose_protected input build protectedMint direction adapterKind knownAsset bound snapshot expectation
              end
          end
      end
  end.

Definition protectJupiterSwap (input : ProtectJupiterSwapInput) : result jupiter_exn ProtectResult :=
  parsed ← try_parse (pi_build input);
  match parsed with
  | inl message => Ok (ERROR INVALID_JUPITER_BUILD message None None [])
  | inr build =>
      classified ← classify 0 build;
      match classified with
      | C_NOT_APPLICABLE reason message => Ok (NOT_APPLICABLE reason message)
      | C_UNSUPPORTED_ASSET code message mint knownAsset => Ok (UNSUPPORTED_PROTECTED_ASSET code message mint knownAsset)
      | C_UNSUPPORTED code message mint => Ok (UNSUPPORTED_PROTECTED_ROUTE code message mint None [])
      | C_ERROR code message mint => Ok (ERROR code message mint None [])
      | C_PROTECTED mint direction kind knownAsset =>
          match guardRequestIssue input with
          | Some issue => Ok (ERROR INVALID_GUARD_REQUEST issue (Some mint) None [])
          | None => protect_mint input build mint direction kind knownAsset
          end
      end
  end.

(* ------------------------------------------------------------------ *)
(** ** Verification of what was built *)

Inductive VerificationVerdict : Set :=
| GuardRejects (error : EquityGuardErrorName)
| VV_UNRESOLVABLE_TRANSACTION
| GUARD_INSTRUCTION_CHANGED.

(** [null] is [None]; the bytes default to the transaction of the result. *)
Definition verifyProtectedSwap (swap : ProtectedSwap) (wireBytes : option bytes) : result jupiter_exn (option VerificationVerdict) :=
  let resolved : result jupiter_exn (list CommittedInstruction * list CommittedInstruction) :=
    instructions ← resolveWireTransaction (wireBytes ?? ps_transaction swap) (ps_lookupTables swap);
    built ← resolveWireTransaction (ps_transaction swap) (ps_lookupTables swap);
    Ok (instructions, built) in
  match resolved with
  | Err (CompositionThrown _ _) => Ok (Some VV_UNRESOLVABLE_TRANSACTION)
  | Err error => Err error
  | Ok (instructions, built) =>
      if negb (sameInstructions (take 1 instructions) (take 1 built)) then Ok (Some GUARD_INSTRUCTION_CHANGED)
      else
        verdict ← map_err ClientThrown
          (checkGuardedJupiterTransaction instructions 0 (ps_adapterKind swap) (ps_protectedMint swap)
             (fromHex (jb_suffixCommitmentHex (ps_binding swap))));
        Ok (option_map GuardRejects verdict)
  end.
End ProtectOps.

(* ------------------------------------------------------------------ *)
(** ** The explanations *)

Definition EXPLANATIONS (code : EquityGuardFailureCode) : string :=
  match code with
  | UNSUPPORTED_ROUTE_SHAPE => "This Jupiter route is a shape EquityGuard cannot protect yet. Rebuilding the quote — often with a lower maxAccounts, or after liquidity moves — usually returns a supported route."
  | UNSUPPORTED_COUNTER_ASSET => "EquityGuard protects tokenized-equity trades against canonical USDC only, and this swap uses another counter asset."
  | F_TRANSACTION_TOO_LARGE => "The guarded transaction would exceed Solana's 1232-byte limit. Rebuild the quote with a lower maxAccounts and try again."
  | INVALID_JUPITER_BUILD => "The Jupiter /build response could not be read as a Swap V2 build."
  | MALFORMED_TOKEN_STATE => "The token's on-chain state could not be decoded, so its economic state cannot be asserted. The on-chain guard would refuse it too."
  | UNSUPPORTED_TOKEN_STATE => "The token carries a Token-2022 extension combination EquityGuard does not support."
  | MINT_STATE_UNAVAILABLE => "The token's mint account or the Clock could not be read from the RPC, so no current economic state could be bound."
  | ECONOMIC_STATE_CHANGED => "The token's economic state changed after the quote was taken — this is exactly the event EquityGuard exists to catch. Refresh the quote and rebuild."
  | INSIDE_TRANSITION_WINDOW => "A corporate action is activating right now, inside the configured protection window. Wait for the window to pass and rebuild."
  | INVALID_GUARD_REQUEST => "The protection window or state expectation supplied to EquityGuard could not be encoded, or a quoted state was given without the activation phase it was quoted under."
  | COMMITMENT_FAILURE => "The composed transaction did not match the commitment the guard was built over, so it was discarded."
  | GUARD_DEPLOYMENT_UNAVAILABLE => "No EquityGuard deployment is available on the cluster this RPC serves, so protection cannot be constructed here. EquityGuard is deployed on devnet only."
  | GUARD_PROGRAM_NOT_EXECUTABLE => "The EquityGuard program address given for this cluster is not an executable program, so a guard instruction built against it would never run."
  | GUARD_BINARY_UNVERIFIED => "The program at the EquityGuard deployment address is not the reviewed EquityGuard binary, so a guard built against it proves nothing."
  | UNSUPPORTED_CLUSTER => "This RPC serves a cluster EquityGuard has no deployment knowledge for. Pass an explicit programAddress to build against a deployment you trust."
  | GUARD_DEPLOYMENT_CHANGED => "The EquityGuard deployment changed after this transaction was built, so the program that would execute is not the one it was built against. Do not sign or submit it; rebuild."
  | F_NO_SUPPORTED_STATE_ADAPTER => "This is a known tokenized equity, but its mint no longer presents an economic-state model EquityGuard can assert, so its protection semantics cannot be established."
  | F_UNSUPPORTED_STATE_MODEL => "This is a known tokenized equity whose economic-state model this EquityGuard client does not implement."
  end.

Definition detailSuffix (details : list string) (guardError : option EquityGuardErrorName) : string :=
  let parts := details ++ match guardError with Some e => ["on-chain error: " +:+ show_error_name e] | None => [] end in
  if Nat.eqb (length parts) 0 then "" else " (" +:+ join "; " parts +:+ ")".

Definition show_direction (direction : SwapDirection) : string := match direction with BUY => "buy" | SELL => "sell" end.

Definition explain_refusal (code : EquityGuardFailureCode) : string :=
  EXPLANATIONS code +:+ " EquityGuard did not produce a protected transaction, and the unguarded Jupiter transaction must not be sent in its place.".

Definition explainEquityGuardError (r : ProtectResult) : string :=
  match r with
  | PROTECTED swap => "EquityGuard is protecting this " +:+ show_direction (ps_direction swap) +:+ " of " +:+ ps_protectedMint swap
      +:+ ": the transaction fails atomically if the token's economic state changes before it lands."
  | NOT_APPLICABLE _ message => "EquityGuard does not apply to this swap: " +:+ message +:+ ". Continue with your existing Jupiter flow."
  | UNSUPPORTED_PROTECTED_ASSET code _ _ knownAsset => explain_refusal code +:+ " (" +:+ as_symbol knownAsset +:+ " is a known "
      +:+ show_issuer (as_issuer knownAsset) +:+ " representation of " +:+ as_underlying knownAsset +:+ ")"
  | UNSUPPORTED_PROTECTED_ROUTE code _ _ guardError details => explain_refusal code +:+ detailSuffix details guardError
  | ERROR code _ _ guardError details => explain_refusal code +:+ detailSuffix details guardError
  end.
