(* ===== verification/ProtectSpec.v ===== *)
(** * What [protectJupiterSwap] promises

    An asset is set aside only when it was read and placed outside the
    protected universe; a PROTECTED result is a transaction the program
    accepts, bound to the state that was read and to a deployment that was
    read; verification passes for no other transaction; and every typed
    failure becomes a refusal. *)

From S2P Require Import Prelude Js Errors StateErrors Kit Base58 Sha256 Abi OnChain OfflineCheck MintState Snapshot Downstream Jupiter JupiterOnChain Deployment Protection CanonicalKey BuildClient Compose Protect.

(** Read and placed outside: unknown to the registry, and not a Token-2022
    account or a readable Token-2022 mint without the extension. *)
Definition ordinary_mint (base64 : string → bytes) (mint : Address) (account : RpcAccountInfo) : Prop :=
  findKnownProtectedAsset mint KNOWN_PROTECTED_ASSETS = None ∧
  (info_owner account ≠ TOKEN_2022_PROGRAM_ADDRESS ∨
   info_owner account = TOKEN_2022_PROGRAM_ADDRESS ∧ carries_no_state (base64 (info_data account))).

Definition protected_mint (base64 : string → bytes) (account : RpcAccountInfo) : Prop :=
  info_owner account = TOKEN_2022_PROGRAM_ADDRESS ∧ ∃ s, holds_state (base64 (info_data account)) s.

(** The mints a build reports are those its trade moves: when the trade is an
    instruction of the aggregator whose data begins with [route_v2] arguments,
    its fourth and fifth accounts are the reported input and output mints. *)
Definition moves_reported_mints (base64 : string → bytes) (build : BuildResponse) : Prop :=
  ∀ prefix plan, ai_programId (br_swapInstruction build) = JUPITER_V6_PROGRAM_ADDRESS → wf_prefix prefix →
    base64 (ai_data (br_swapInstruction build)) = print_prefix prefix ++ plan →
    am_pubkey <$> ai_accounts (br_swapInstruction build) !! 3%nat = Some (br_inputMint build) ∧
    am_pubkey <$> ai_accounts (br_swapInstruction build) !! 4%nat = Some (br_outputMint build).

Lemma reportedMintMismatch_None base64 build : reportedMintMismatch base64 build = None → moves_reported_mints base64 build.
Proof.
  unfold reportedMintMismatch, A_sourceMint, A_destinationMint. intros H prefix plan Hprogram Hwf Hdata.
  rewrite Hdata, decodePrefix_print in H by done. rewrite (proj2 (String.eqb_eq _ _) Hprogram), (bool_decide_eq_false_2 (Some prefix = None)) in H by done.
  cbn [negb orb] in H. destruct (_ && _) eqn:Hmints; [|done].
  apply andb_prop in Hmints as [Hs%bool_decide_eq_true Hd%bool_decide_eq_true]. done.
Qed.

(** A refusal is neither a protection nor a classification as ordinary. *)
Definition is_refusal (c : SwapClassification) : Prop :=
  match c with C_PROTECTED _ _ _ _ | C_NOT_APPLICABLE _ _ => False | _ => True end.

Section Classify.
  Context {codec : AddressCodec}.
  Variable base64 : string → bytes.

Lemma verdictFor_means mint account :
  ∃ v, verdictFor mint (info_owner account) (base64 (info_data account)) = Ok v ∧
    match v with
    | V_PROTECTED known => known = findKnownProtectedAsset mint KNOWN_PROTECTED_ASSETS ∧ protected_mint base64 account
    | V_ORDINARY _ => ordinary_mint base64 mint account
    | V_REFUSAL refusal => is_refusal refusal
    end.
Proof.
  destruct (resolve_means mint (info_owner account) (base64 (info_data account)) None) as (r & Hr & Hmeans).
  unfold verdictFor. rewrite Hr. cbn [map_err mbind result_bind]. eexists. split; [reflexivity|].
  change (None ?? KNOWN_PROTECTED_ASSETS) with KNOWN_PROTECTED_ASSETS in Hmeans. unfold resolution_means in Hmeans.
  destruct r as [reason|model s known|reason message asset|code message known].
  - unfold ordinary_mint. destruct reason; [destruct Hmeans as [? ?]; auto|destruct Hmeans as (? & ? & ?); auto].
  - destruct Hmeans as (_ & ? & ? & Hs & _). split; [done|]. split; [done|]. by exists s.
  - done.
  - done.
Qed.

(** What a completed scan knows of every candidate. *)
Lemma scan_complete reply i candidates pm na pm' na' :
  scan base64 reply i candidates pm na = Ok (inr (pm', na')) →
  ∃ found, pm' = pm ++ found ∧
    (∀ j mint, candidates !! j = Some mint → ∃ account, value_at reply (i + j) = Some account ∧
       (ordinary_mint base64 mint account ∨
        protected_mint base64 account ∧ (mint, findKnownProtectedAsset mint KNOWN_PROTECTED_ASSETS) ∈ found)) ∧
    (∀ mint known, (mint, known) ∈ found → mint ∈ candidates ∧ known = findKnownProtectedAsset mint KNOWN_PROTECTED_ASSETS).
Proof.
  revert i pm na. induction candidates as [|mint candidates IH]; intros i pm na; cbn [scan].
  - intros [= <- <-]. exists []. rewrite app_nil_r. split; [done|]. split; [done|]. intros ? ? H. by apply not_elem_of_nil in H.
  - destruct (value_at reply i) as [account|] eqn:Ha; [|done].
    destruct (verdictFor_means mint account) as (v & -> & Hv). cbn [mbind result_bind].
    assert (∀ pm0 na0 found0, scan base64 reply (S i) candidates pm0 na0 = Ok (inr (pm', na')) → pm0 = pm ++ found0 →
      (ordinary_mint base64 mint account ∧ found0 = [] ∨
       protected_mint base64 account ∧ found0 = [(mint, findKnownProtectedAsset mint KNOWN_PROTECTED_ASSETS)]) →
      ∃ found, pm' = pm ++ found ∧
        (∀ j m, (mint :: candidates) !! j = Some m → ∃ account, value_at reply (i + j) = Some account ∧
           (ordinary_mint base64 m account ∨
            protected_mint base64 account ∧ (m, findKnownProtectedAsset m KNOWN_PROTECTED_ASSETS) ∈ found)) ∧
        (∀ m known, (m, known) ∈ found → m ∈ mint :: candidates ∧ known = findKnownProtectedAsset m KNOWN_PROTECTED_ASSETS)) as Hstep.
    { intros pm0 na0 found0 Hrec -> Hfirst. apply IH in Hrec as (found & -> & Hall & Hin). exists (found0 ++ found).
      split; [by rewrite app_assoc|]. split.
      - intros [|j] m Hm.
        + injection Hm as <-. rewrite Nat.add_0_r. exists account. split; [done|].
          destruct Hfirst as [[Ho _]|[Hp ->]]; [by left|right]. split; [done|]. apply elem_of_app. left. by apply list_elem_of_singleton.
        + destruct (Hall j m Hm) as (a & Hva & Hor). exists a. rewrite Nat.add_succ_r. split; [done|].
          destruct Hor as [|[? ?]]; [by left|right]. split; [done|]. apply elem_of_app. by right.
      - intros m known [Hf|Hf]%elem_of_app; [|apply Hin in Hf as [? ->]; split; [by right|done]].
        destruct Hfirst as [[_ ->]|[_ ->]]; [by apply not_elem_of_nil in Hf|].
        apply list_elem_of_singleton in Hf as [= -> ->]. split; [by left|done]. }
    destruct v as [known|reason|refusal]; [| |done].
    + destruct Hv as [-> Hp]. intros H. eapply Hstep; [exact H|reflexivity|by right].
    + intros H. eapply Hstep; [exact H|by rewrite app_nil_r|by left].
Qed.

(** A scan that ends early ends in a refusal; it throws nothing. *)
Lemma scan_total reply i candidates pm na :
  ∃ r, scan base64 reply i candidates pm na = Ok r ∧ match r with inl c => is_refusal c | inr _ => True end.
Proof.
  revert i pm na. induction candidates as [|mint candidates IH]; intros i pm na; cbn [scan]; [by eexists|].
  destruct (value_at reply i) as [account|]; [|by eexists].
  destruct (verdictFor_means mint account) as (v & -> & Hv). cbn [mbind result_bind]. destruct v; [apply IH|apply IH|by eexists].
Qed.

Variable getMultipleAccounts : nat → list Address → result string AccountsReply.

(** How a build is classified as anything but a refusal. *)
Lemma classify_Ok call build c :
  classify base64 getMultipleAccounts call build = Ok c → ¬ is_refusal c →
  reportedMintMismatch base64 build = None ∧ isAddress (br_inputMint build) = true ∧ isAddress (br_outputMint build) = true ∧
  br_inputMint build ≠ br_outputMint build ∧
  ∃ reply pm na, getMultipleAccounts call (candidates_of (br_inputMint build) (br_outputMint build)) = Ok reply ∧
    scan base64 reply 0 (candidates_of (br_inputMint build) (br_outputMint build)) [] NO_TOKEN_2022_MINT = Ok (inr (pm, na)) ∧
    c = classify_protected (br_inputMint build) (br_outputMint build) pm na.
Proof.
  unfold classify. destruct (reportedMintMismatch base64 build); [by intros [= <-]|]. unfold to_address.
  destruct (isAddress (br_inputMint build)); [|done]. cbn [mbind result_bind].
  destruct (isAddress (br_outputMint build)); [|done]. cbn [mbind result_bind].
  destruct (String.eqb_spec (br_inputMint build) (br_outputMint build)) as [|Hne]; [by intros [= <-]|].
  intros H Hc. apply bind_Ok in H as (reply & Hr%map_err_Ok & H). apply bind_Ok in H as (scanned & Hs & [= <-]).
  destruct (scan_total reply 0 (candidates_of (br_inputMint build) (br_outputMint build)) [] NO_TOKEN_2022_MINT) as (r & Hr' & Href).
  assert (scanned = r) as -> by congruence. destruct r as [refusal|[pm na]]; [done|]. split_and!; try done. by exists reply, pm, na.
Qed.

Lemma classify_not_applicable call build reason message :
  classify base64 getMultipleAccounts call build = Ok (C_NOT_APPLICABLE reason message) →
  moves_reported_mints base64 build ∧
  ∃ reply, getMultipleAccounts call (candidates_of (br_inputMint build) (br_outputMint build)) = Ok reply ∧
    ∀ i mint, candidates_of (br_inputMint build) (br_outputMint build) !! i = Some mint →
      ∃ account, value_at reply i = Some account ∧ ordinary_mint base64 mint account.
Proof.
  intros (Hm & _ & _ & _ & reply & pm & na & Hr & Hs & Hc)%classify_Ok; [|by intros []].
  split; [by apply reportedMintMismatch_None|]. exists reply. split; [done|]. apply scan_complete in Hs as (found & -> & Hall & _). cbn [app] in Hc.
  assert (found = []) as ->.
  { unfold classify_protected in Hc. destruct found as [|[m k] [|[m' k'] l]]; [done| |done]. by repeat case_match. }
  intros i mint Hi. destruct (Hall i mint Hi) as (a & Ha & [Ho|[_ Hin]]); [by exists a|]. by apply not_elem_of_nil in Hin.
Qed.

Lemma classify_protected_Ok call build mint direction kind known :
  classify base64 getMultipleAccounts call build = Ok (C_PROTECTED mint direction kind known) →
  isAddress mint = true ∧ known = findKnownProtectedAsset mint KNOWN_PROTECTED_ASSETS ∧
  (direction = BUY ∧ kind = JUPITER_ROUTE_V2_BUY_USDC ∧ mint = br_outputMint build ∧ br_inputMint build = USDC_MINT_ADDRESS ∨
   direction = SELL ∧ kind = JUPITER_ROUTE_V2_SELL_USDC ∧ mint = br_inputMint build ∧ br_outputMint build = USDC_MINT_ADDRESS).
Proof.
  intros (_ & Hai & Hao & Hne & reply & pm & na & _ & Hs & Hc)%classify_Ok; [|by intros []].
  apply scan_complete in Hs as (found & -> & _ & Hin). cbn [app] in Hc.
  unfold classify_protected in Hc. destruct found as [|[m k] [|[m' k'] l]]; [done| |done].
  assert (m ∈ candidates_of (br_inputMint build) (br_outputMint build) ∧ k = findKnownProtectedAsset m KNOWN_PROTECTED_ASSETS)
    as [Hm Hk] by (eapply Hin; by left).
  assert (m = br_inputMint build ∨ m = br_outputMint build) as Hm'.
  { unfold candidates_of in Hm. apply list_elem_of_In, List.filter_In in Hm as [[|[|[]]] _]; auto. }
  destruct (String.eqb_spec m (br_outputMint build)) as [Hmo|Hmo].
  - destruct (String.eqb_spec (br_inputMint build) USDC_MINT_ADDRESS) as [Hu|]; [|done]. injection Hc as -> -> -> ->.
    rewrite Hmo at 1. split; [done|]. split; [done|]. by left.
  - destruct Hm' as [Hmi|]; [|done]. destruct (String.eqb_spec (br_outputMint build) USDC_MINT_ADDRESS) as [Hu|]; [|done].
    injection Hc as -> -> -> ->. rewrite Hmi at 1. split; [done|]. split; [done|]. by right.
Qed.
End Classify.

(* ------------------------------------------------------------------ *)
(** ** The results *)

Section Protected.
  Context {codec : AddressCodec} {derivation : ProgramDerivation} {sha : Digest} {transactions : TransactionCodec}.
  Variable base64 : string → bytes.
  Variable getMultipleAccounts : nat → list Address → result string AccountsReply.
  Variable getGenesisHash : result string string.

  Abbreviation protect := (protectJupiterSwap base64 getMultipleAccounts getGenesisHash).
  Abbreviation resolve := (resolveDeployment base64 getMultipleAccounts getGenesisHash).
  Abbreviation snapshot_at := (read_snapshot base64 getMultipleAccounts).

Lemma try_parse_inr raw build : try_parse raw = Ok (inr build) ↔ parseBuildResponse raw = Ok build.
Proof.
  unfold try_parse. destruct (parseBuildResponse raw) as [b|e]; [split; intros [= ->]; done|].
  split; [|done]. destruct e; done.
Qed.

(** C6: protection is never silently dropped: NOT_APPLICABLE is answered only for
    a well-formed build whose reported mints are the fourth and fifth accounts
    of its trade, when that is a [route_v2] of the aggregator, after the account of every mint but USDC was read and
    found outside the protected universe: not in the registry and either not
    owned by Token-2022 or a readable mint without the extension. *)
Theorem not_applicable_sound input reason message :
  protect input = Ok (NOT_APPLICABLE reason message) →
  ∃ build reply, parseBuildResponse (pi_build input) = Ok build ∧ moves_reported_mints base64 build ∧
    getMultipleAccounts 0 (candidates_of (br_inputMint build) (br_outputMint build)) = Ok reply ∧
    ∀ i mint, candidates_of (br_inputMint build) (br_outputMint build) !! i = Some mint →
      ∃ account, value_at reply i = Some account ∧ ordinary_mint base64 mint account.
Proof.
  unfold protectJupiterSwap. intros H. apply bind_Ok in H as ([msg|build] & Hp & H); [done|]. apply try_parse_inr in Hp.
  apply bind_Ok in H as (c & Hc & H). destruct c as [mint direction kind known|r m| | |]; try done.
  - destruct (guardRequestIssue input); [done|]. unfold protect_mint in H. apply bind_Ok in H as (d & _ & H).
    destruct d as [bound|]; [|done]. destruct (read_snapshot _ _ _ _) as [snap|e]; [|by repeat case_match].
    apply bind_Ok in H as (moved & _ & H). destruct moved; [done|]. apply bind_Ok in H as (would & _ & H). destruct would; [done|].
    unfold compose_protected in H. destruct (composeGuardedJupiterTrade _ _ _ _ _) as [c|e]; [done|].
    unfold compositionFailure in H. by repeat case_match.
  - apply classify_not_applicable in Hc as (Hm & reply & Hr & Hall). by exists build, reply.
Qed.

(** The steps behind a PROTECTED result. *)
Lemma protected_steps input s :
  protect input = Ok (PROTECTED s) →
  ∃ build composed,
    parseBuildResponse (pi_build input) = Ok build ∧
    classify base64 getMultipleAccounts 0 build =
      Ok (C_PROTECTED (ps_protectedMint s) (ps_direction s) (ps_adapterKind s) (ps_knownAsset s)) ∧
    guardRequestIssue input = None ∧
    resolve 1%nat (pi_programAddress input) =
      Ok (DeploymentOk (mkBound (ps_programAddress s) (ps_cluster s) (ps_deploymentIdentity s) (ps_deployment s))) ∧
    snapshot_at 2%nat (ps_protectedMint s) = Ok (ps_snapshot s) ∧
    quoted_verdict input (ps_snapshot s) = Ok None ∧
    guardVerdict (expectationFromSnapshot (ps_snapshot s) (window_of (pi_protectionWindow input))) (ps_snapshot s) = Ok None ∧
    composeGuardedJupiterTrade
      (mkTradeRequest (ps_adapterKind s) (ps_protectedMint s) (pi_userPublicKey input)
         (pi_computeUnitLimit input ?? NumInt (defaultComputeUnitLimit base64 build)))
      build (ps_programAddress s) (pi_userPublicKey input)
      (expectationFromSnapshot (ps_snapshot s) (window_of (pi_protectionWindow input))) = Ok composed ∧
    ps_transaction s = comp_wireBytes composed ∧ ps_lookupTables s = br_addressesByLookupTableAddress build ∧
    ps_binding s = comp_binding composed ∧ ps_instructions s = t_instructions (comp_trade composed) ∧
    ps_metrics s = comp_metrics composed ∧ ps_transactionBase64 s = base64Text (comp_wireBytes composed).
Proof.
  unfold protectJupiterSwap. intros H. apply bind_Ok in H as ([msg|build] & Hp & H); [done|]. apply try_parse_inr in Hp.
  apply bind_Ok in H as (c & Hc & H). destruct c as [mint direction kind known| | | |]; try done.
  destruct (guardRequestIssue input) eqn:Hissue; [done|]. unfold protect_mint in H. apply bind_Ok in H as (d & Hd & H).
  destruct d as [[program cluster identity attestation]|]; [|done].
  destruct (read_snapshot _ _ _ _) as [snap|e] eqn:Hsnap; [|by repeat case_match].
  apply bind_Ok in H as (moved & Hmoved & H). destruct moved; [done|].
  apply bind_Ok in H as (would & Hwould & H). destruct would; [done|].
  unfold compose_protected in H. destruct (composeGuardedJupiterTrade _ _ _ _ _) as [composed|e] eqn:Hcomp.
  - injection H as <-. exists build, composed. done.
  - unfold compositionFailure in H. by repeat case_match.
Qed.

Lemma snapshot_Ok call mint snap : snapshot_at call mint = Ok snap →
  snap_mint snap = mint ∧ snap_phase snap = phaseAt (snap_state snap) (clock_unixTimestamp (snap_clock snap)) ∧
  i64_range (newMultiplierEffectiveTimestamp (snap_state snap)).
Proof.
  unfold read_snapshot. intros H. apply bind_Ok in H as (reply & _ & H%map_err_Ok).
  apply fetchGuardSnapshot_Ok in H as (r & m & c & _ & _ & _ & _ & Hstate & Hm & _ & Hphase & _).
  apply decodeProtectedState_sound in Hstate as (_ & _ & _ & _ & _ & _ & _ & _ & _ & Ht & _). done.
Qed.

Lemma guardRequestIssue_None input : guardRequestIssue input = None →
  isValidWindowSecs (beforeSecs (window_of (pi_protectionWindow input))) = true ∧
  isValidWindowSecs (afterSecs (window_of (pi_protectionWindow input))) = true ∧
  (∀ phase, pi_expectedPhase input = Some phase → (phase = Pending ∨ phase = Activated) ∧ is_Some (pi_expectedState input)) ∧
  (∀ state, pi_expectedState input = Some state → pi_expectedPhase input = None → hasScheduledChange state = false).
Proof.
  unfold guardRequestIssue. destruct (isValidWindowSecs (beforeSecs _)); [|done]. destruct (isValidWindowSecs (afterSecs _)); [|done].
  cbn [negb orb]. destruct (pi_expectedPhase input) as [phase|], (pi_expectedState input) as [state|]; try done.
  - destruct (Z.eqb_spec phase Pending) as [->|]; [|destruct (Z.eqb_spec phase Activated) as [->|]; [|done]]; intros _; split_and!; try done;
      intros ? [= <-]; split; auto; by eexists.
  - destruct (hasScheduledChange state) eqn:Hs; [done|]. intros _. split_and!; try done. by intros ? [= <-].
Qed.

Lemma guardVerdict_passes expectation snap :
  guardVerdict expectation snap = Ok None → valid_window expectation → valid_phase expectation →
  i64_range (newMultiplierEffectiveTimestamp (snap_state snap)) →
  check (guard_request expectation) (guard_state (snap_state snap)) (clock_unixTimestamp (snap_clock snap)) = Ok tt.
Proof.
  unfold guardVerdict. intros Hv%map_err_Ok Hw Hp Ht. rewrite checkOffline_agrees in Hv by done.
  destruct (check _ _ _) as [[]|]; [done|discriminate].
Qed.

(** What the guard of a PROTECTED transaction asserts holds of the state read. *)
Lemma protected_passes input s : protect input = Ok (PROTECTED s) →
  check (guard_request (expectationFromSnapshot (ps_snapshot s) (window_of (pi_protectionWindow input))))
    (guard_state (snap_state (ps_snapshot s))) (clock_unixTimestamp (snap_clock (ps_snapshot s))) = Ok tt ∧
  ∀ state, pi_expectedState input = Some state →
    check (guard_request (mkRequest state (pi_expectedPhase input ?? snap_phase (ps_snapshot s)) (window_of (pi_protectionWindow input))))
      (guard_state (snap_state (ps_snapshot s))) (clock_unixTimestamp (snap_clock (ps_snapshot s))) = Ok tt.
Proof.
  intros (build & composed & _ & _ & Hissue & _ & Hsnap & Hq & Hv & _)%protected_steps.
  apply guardRequestIssue_None in Hissue as (Hb & Ha & Hphase & _). apply snapshot_Ok in Hsnap as (_ & Hp & Ht).
  assert (snap_phase (ps_snapshot s) = Pending ∨ snap_phase (ps_snapshot s) = Activated) as Hcases
    by (rewrite Hp; apply phaseAt_cases).
  split; [by apply guardVerdict_passes|]. intros state Hs. unfold quoted_verdict in Hq. rewrite Hs in Hq.
  apply guardVerdict_passes; [done|by split| |done]. unfold valid_phase. cbn [expectedPhase].
  destruct (pi_expectedPhase input) as [phase|]; [by apply Hphase|done].
Qed.

Lemma binding_commitment t b : jupiterTradeBindingOf t = Ok b → jb_suffixCommitmentHex b = toHex (t_commitment t).
Proof. unfold jupiterTradeBindingOf. intros H. apply bind_Ok in H as (m & _ & [= <-]). done. Qed.

(** A PROTECTED transaction as resolved from its own bytes. *)
Lemma protected_resolved input s : protect input = Ok (PROTECTED s) →
  ∃ guard rest key adapter commitment,
    resolveWireTransaction (ps_transaction s) (ps_lookupTables s) = Ok (guard :: rest) ∧
    Z.of_nat (length (ps_transaction s)) ≤ 1232 ∧
    ci_programAddress guard = ps_programAddress s ∧ encodeAddress (ps_protectedMint s) = Some key ∧
    DownstreamAdapter_from_u8 (ps_adapterKind s) = Some adapter ∧
    unpack (ci_data guard) = Ok (mkAssertV2 key
      (guard_request (expectationFromSnapshot (ps_snapshot s) (window_of (pi_protectionWindow input)))) adapter commitment) ∧
    fromHex (jb_suffixCommitmentHex (ps_binding s)) = commitment ∧ jupiterSuffixCommitment rest = Ok commitment ∧
    checkGuardedJupiterTransaction (guard :: rest) 0 (ps_adapterKind s) (ps_protectedMint s) commitment = Ok None.
Proof.
  intros (build & composed & _ & _ & _ & _ & _ & _ & _ & Hcomp & -> & -> & -> & _)%protected_steps.
  pose proof Hcomp as (_ & suffix & views & _ & Htrade & _ & _ & _ & Hlen & Hbind)%compose_Ok.
  cbn [tr_adapterKind tr_protectedMint] in Htrade. apply buildTrade_Ok in Htrade as (_ & _ & _ & _ & _ & _ & Hcommit).
  apply composed_verified in Hcomp as (views' & guard & rest & key & adapter & Hres & Hcheck & -> & -> & Hprog & Hkey & Had & Hun).
  exists guard, (t_committedSuffix (comp_trade composed)), key, adapter, (t_commitment (comp_trade composed)).
  split_and!; try done. by rewrite (binding_commitment _ _ Hbind), fromHex_toHex.
Qed.

Lemma verify_own input s : protect input = Ok (PROTECTED s) → verifyProtectedSwap s None = Ok None.
Proof.
  intros (guard & rest & key & adapter & commitment & Hres & _ & _ & _ & _ & _ & Hhex & _ & Hcheck)%protected_resolved.
  unfold verifyProtectedSwap. cbv zeta. change (None ?? ps_transaction s) with (ps_transaction s). rewrite Hres. cbn [mbind result_bind].
  rewrite (proj2 (sameInstructions_eq _ _)) by done. cbn [negb]. by rewrite Hhex, Hcheck.
Qed.

(** C4: what PROTECTED means: the bytes fit a packet and resolve to the guard
    followed by the trade; the guard runs on the resolved program, decodes on
    chain to an assertion on the protected mint that the program's own check
    accepts for the state and clock that were read, under a state the caller
    quoted as well when it gave one; the client's mirror of the program's
    transaction check accepts the whole transaction under the guard's
    commitment; the result verifies against itself; and the program is one the
    deployment resolution returned. *)
Theorem protected_swap_sound input s :
  protect input = Ok (PROTECTED s) →
  ∃ guard rest decoded,
    resolveWireTransaction (ps_transaction s) (ps_lookupTables s) = Ok (guard :: rest) ∧
    Z.of_nat (length (ps_transaction s)) ≤ 1232 ∧ ci_programAddress guard = ps_programAddress s ∧
    unpack (ci_data guard) = Ok decoded ∧ encodeAddress (ps_protectedMint s) = Some (a2_expected_mint decoded) ∧
    check (a2_execution decoded) (guard_state (snap_state (ps_snapshot s))) (clock_unixTimestamp (snap_clock (ps_snapshot s))) = Ok tt ∧
    checkGuardedJupiterTransaction (guard :: rest) 0 (ps_adapterKind s) (ps_protectedMint s) (a2_downstream_commitment decoded) = Ok None ∧
    snapshot_at 2%nat (ps_protectedMint s) = Ok (ps_snapshot s) ∧
    (∀ state, pi_expectedState input = Some state → guard_state state = guard_state (snap_state (ps_snapshot s))) ∧
    resolve 1%nat (pi_programAddress input) =
      Ok (DeploymentOk (mkBound (ps_programAddress s) (ps_cluster s) (ps_deploymentIdentity s) (ps_deployment s))) ∧
    verifyProtectedSwap s None = Ok None.
Proof.
  intros H. pose proof (verify_own _ _ H) as Hverify. pose proof (protected_passes _ _ H) as [Hpass Hquoted].
  pose proof H as (build & composed & _ & _ & _ & Hd & Hsnap & _)%protected_steps.
  apply protected_resolved in H as (guard & rest & key & adapter & commitment & Hres & Hlen & Hprog & Hkey & _ & Hun & _ & _ & Hcheck).
  eexists guard, rest, _. split; [done|]. split; [done|]. split; [done|]. split; [exact Hun|]. split_and!; try done.
  intros state Hs. symmetry. by apply Hquoted, check_Ok in Hs as [? _].
Qed.

(** C5: verification is exact: if [verifyProtectedSwap] finds nothing wrong with
    other bytes, they resolve to the very instructions the result was built
    with - guard, accounts, flags and data included - unless the encodings of
    what follows the guard, in those bytes and in the result's own, are a
    collision of the digest. *)
Theorem verifyProtectedSwap_exact input s wireBytes :
  protect input = Ok (PROTECTED s) → verifyProtectedSwap s (Some wireBytes) = Ok None →
  ∃ instructions built,
    resolveWireTransaction wireBytes (ps_lookupTables s) = Ok instructions ∧
    resolveWireTransaction (ps_transaction s) (ps_lookupTables s) = Ok built ∧ take 1 instructions = take 1 built ∧
    (instructions = built ∨
     ∃ p q, jupiterSuffixCommitmentPreimage (drop 1 instructions) = Ok p ∧
       jupiterSuffixCommitmentPreimage (drop 1 built) = Ok q ∧ collision p q).
Proof.
  intros (guard & rest & key & adapter & commitment & Hres & _ & _ & _ & _ & _ & Hhex & Hcommit & _)%protected_resolved.
  unfold verifyProtectedSwap. cbv zeta. change (Some wireBytes ?? ps_transaction s) with wireBytes. rewrite Hres.
  destruct (resolveWireTransaction wireBytes (ps_lookupTables s)) as [instructions|e]; cbn [mbind result_bind]; [|by destruct e].
  destruct (sameInstructions _ _) eqn:Hs; cbn [negb]; [|done]. apply sameInstructions_eq in Hs.
  rewrite Hhex. intros H. apply bind_Ok in H as (v & Hv%map_err_Ok & H). destruct v; [done|].
  exists instructions, (guard :: rest). split; [done|]. split; [done|]. split; [done|].
  destruct (checkGuarded_detected rest instructions _ _ _ Hcommit Hv) as [Hdrop|(p & q & Hp & Hq & Hcol)];
    [left|right; by exists p, q]. rewrite <- (take_drop 1 instructions), Hs, Hdrop. done.
Qed.

(** What the runtime or the library throws, as opposed to the package's errors. *)
Definition untyped (e : jupiter_exn) : Prop :=
  match e with
  | RuntimeThrown _ => True
  | ClientThrown (GuardErr _) => False
  | ClientThrown _ => True
  | _ => False
  end.

Lemma rpc_untyped {A} (m : result string A) : fails_only untyped (rpc m).
Proof. unfold rpc. destruct m; cbn; auto with fails_only. by apply fails_Err. Qed.

Lemma to_address_untyped a : fails_only untyped (to_address a).
Proof. unfold to_address. destruct (isAddress a); [apply fails_Ok|by apply fails_Err]. Qed.

Lemma try_parse_total raw : ∃ r, try_parse raw = Ok r.
Proof.
  unfold try_parse. destruct (parseBuildResponse raw) as [b|e] eqn:H; [by eexists|].
  apply parseBuildResponse_fails in H as [m ->]. by eexists.
Qed.

Lemma classify_untyped call build : fails_only untyped (classify base64 getMultipleAccounts call build).
Proof.
  unfold classify. destruct (reportedMintMismatch base64 build); [apply fails_Ok|].
  apply fails_bind; [apply to_address_untyped|intros i]. apply fails_bind; [apply to_address_untyped|intros o].
  destruct (String.eqb i o); [apply fails_Ok|]. apply fails_bind; [apply rpc_untyped|intros reply].
  apply fails_bind; [|intros; apply fails_Ok].
  destruct (scan_total base64 reply 0 (candidates_of i o) [] NO_TOKEN_2022_MINT) as (r & -> & _). apply fails_Ok.
Qed.

Lemma resolveDeployment_untyped call requested : fails_only untyped (resolve call requested).
Proof.
  unfold resolveDeployment. apply fails_bind; [apply rpc_untyped|intros genesis]. cbv zeta.
  destruct (match requested with Some _ => _ | None => _ end); [|apply fails_Ok]. destruct (String.eqb _ _); [apply fails_Ok|].
  apply fails_bind; [apply rpc_untyped|intros; apply fails_Ok].
Qed.

Lemma guardVerdict_untyped expectation snap : fails_only untyped (guardVerdict expectation snap).
Proof.
  unfold guardVerdict, checkGuardOffline, BigInt. intros e. cbv zeta.
  repeat (case_match; cbn [map_err mbind result_bind]; try done); by intros [= <-].
Qed.

Lemma compositionFailure_untyped e mint : composition_error e → fails_only untyped (compositionFailure e mint).
Proof. unfold compositionFailure. intros He. repeat case_match; by first [apply fails_Ok|apply fails_Err]. Qed.

(** C28: every typed failure becomes a refusal: [protectJupiterSwap] throws only
    what a rejected RPC call, the runtime or the library threw; configuration,
    contract, composition, unsupported-build and guard-client errors are all
    returned, never thrown. *)
Theorem protect_throws_untyped input e : protect input = Err e → untyped e.
Proof.
  revert e. change (fails_only untyped (protect input)). unfold protectJupiterSwap.
  destruct (try_parse_total (pi_build input)) as [[message|build] ->]; cbn [mbind result_bind]; [apply fails_Ok|].
  apply fails_bind; [apply classify_untyped|intros c]. destruct c as [mint direction kind known| | | |]; try apply fails_Ok.
  destruct (guardRequestIssue input); [apply fails_Ok|]. unfold protect_mint.
  apply fails_bind; [apply resolveDeployment_untyped|intros d]. destruct d as [bound|]; [|apply fails_Ok].
  destruct (read_snapshot base64 getMultipleAccounts 2 mint) as [snap|e] eqn:Hs.
  - apply fails_bind; [|intros [v|]; [apply fails_Ok|]].
    { unfold quoted_verdict. destruct (pi_expectedState input); [apply guardVerdict_untyped|apply fails_Ok]. }
    apply fails_bind; [apply guardVerdict_untyped|intros [v|]; [apply fails_Ok|]].
    unfold compose_protected. destruct (composeGuardedJupiterTrade _ _ _ _ _) eqn:Hc; [apply fails_Ok|].
    eapply compositionFailure_untyped, compose_fails, Hc.
  - unfold read_snapshot in Hs. destruct (rpc _) as [reply|e'] eqn:Hr.
    + cbn [mbind result_bind] in Hs. destruct (fetchGuardSnapshot _ _ _); [done|]. injection Hs as <-.
      destruct e0; by first [apply fails_Ok|apply fails_Err].
    + injection Hs as <-. apply rpc_untyped in Hr. destruct e' as [| | | |[]|]; by first [apply fails_Ok|apply fails_Err].
Qed.

(** The wallet-facing answer and the builder's, side by side. *)
Definition same_answer (support : JupiterSwapSupport) (r : ProtectResult) : Prop :=
  match support with
  | STRUCTURALLY_SUPPORTED mint direction kind known =>
      match r with
      | PROTECTED s => ps_protectedMint s = mint ∧ ps_direction s = direction ∧ ps_adapterKind s = kind ∧ ps_knownAsset s = known
      | NOT_APPLICABLE _ _ | UNSUPPORTED_PROTECTED_ASSET _ _ _ _ => False
      | UNSUPPORTED_PROTECTED_ROUTE _ _ m _ _ => m = mint
      | ERROR _ _ m _ _ => m = Some mint
      end
  | NOT_SUPPORTED mint status code message =>
      match status with
      | S_NOT_APPLICABLE => ∃ reason, code = inr reason ∧ mint = None ∧ r = NOT_APPLICABLE reason message
      | S_UNSUPPORTED_PROTECTED_ASSET => ∃ c m known, code = inl c ∧ mint = Some m ∧ r = UNSUPPORTED_PROTECTED_ASSET c message m known
      | S_UNSUPPORTED_PROTECTED_ROUTE => ∃ c m, code = inl c ∧ mint = Some m ∧ r = UNSUPPORTED_PROTECTED_ROUTE c message m None []
      | S_ERROR => ∃ c, code = inl c ∧ r = ERROR c message mint None []
      end
  end.

Lemma compositionFailure_mint e mint r : compositionFailure e mint = Ok r →
  match r with UNSUPPORTED_PROTECTED_ROUTE _ _ m _ _ => m = mint | ERROR _ _ m _ _ => m = Some mint | _ => False end.
Proof. unfold compositionFailure. repeat case_match; intros [= <-]; done. Qed.

(** [supportsJupiterSwap] never disagrees with [protectJupiterSwap] on the
    same chain state: a swap it declines is declined by the builder with the
    same status, code and message; one it supports is never set aside as
    ordinary, and a PROTECTED result has the mint, direction, kind and registry
    entry it announced. *)
Theorem supportsJupiterSwap_consistent input support r :
  supportsJupiterSwap base64 getMultipleAccounts (pi_build input) = Ok support → protect input = Ok r → same_answer support r.
Proof.
  unfold supportsJupiterSwap, protectJupiterSwap.
  destruct (try_parse_total (pi_build input)) as [[message|build] ->]; cbn [mbind result_bind].
  { intros [= <-] [= <-]. by eexists. }
  destruct (classify base64 getMultipleAccounts 0 build) as [c|]; cbn [mbind result_bind]; [|done].
  destruct c as [mint direction kind known|reason message|code message mint known|code message mint|code message mint];
    [|by intros [= <-] [= <-]; cbn; repeat eexists..].
  intros [= <-]. destruct (guardRequestIssue input); [by intros [= <-]|]. unfold protect_mint. intros H.
  apply bind_Ok in H as (d & _ & H). destruct d as [bound|]; [|by injection H as <-].
  destruct (read_snapshot _ _ _ _) as [snap|[| | | |[]|]]; try done; [|by injection H as <-].
  apply bind_Ok in H as (moved & _ & H). destruct moved; [by injection H as <-|].
  apply bind_Ok in H as (would & _ & H). destruct would; [by injection H as <-|].
  unfold compose_protected in H. destruct (composeGuardedJupiterTrade _ _ _ _ _) as [composed|e]; [by injection H as <-|].
  apply compositionFailure_mint in H. by destruct r.
Qed.

(** C27: the deployment a transaction is bound to was read and can run: without a
    requested program it is the devnet deployment on a devnet node, never
    another cluster's; a reviewed address is attested from the loader's own
    accounts - reviewed ELF, recorded ProgramData, its upgrade authority - even
    when the caller named it explicitly; any other address exists, is
    executable and is reported as trusted by the caller alone. *)
Theorem resolveDeployment_sound call requested bound :
  resolve call requested = Ok (DeploymentOk bound) →
  ∃ genesis reply program,
    getGenesisHash = Ok genesis ∧ bd_cluster bound = clusterFromGenesisHash genesis ∧
    value_at reply 0 = Some program ∧ info_executable program = true ∧
    (requested = None → bd_cluster bound = Devnet ∧ bd_programAddress bound = EQUITY_GUARD_DEVNET_PROGRAM_ID) ∧
    (∀ p, requested = Some p → bd_programAddress bound = p) ∧
    match findReviewedGuardDeployment (bd_programAddress bound) with
    | Some reviewed => bd_identity bound = REVIEWED_BINARY ∧
        getMultipleAccounts call [bd_programAddress bound; dep_programDataAddress reviewed] = Ok reply ∧
        ∃ data, value_at reply 1 = Some data ∧ info_owner data = BPF_LOADER_UPGRADEABLE_ADDRESS ∧
          reviewed_program_data reviewed (base64 (info_data data)) (bd_attestation bound)
    | None => bd_identity bound = CALLER_TRUSTED ∧ getMultipleAccounts call [bd_programAddress bound] = Ok reply ∧
        bd_attestation bound = callerTrustedAttestation (bd_programAddress bound)
    end.
Proof.
  unfold resolveDeployment. intros H. apply bind_Ok in H as (genesis & Hg%map_err_Ok & H). cbv zeta in H.
  destruct (match requested with Some _ => _ | None => _ end) as [program|] eqn:Hreq; [|by destruct (clusterFromGenesisHash genesis)].
  destruct (String.eqb program ""); [by destruct (clusterFromGenesisHash genesis)|].
  apply bind_Ok in H as (reply & Hr%map_err_Ok & H). exists genesis, reply.
  assert ((requested = None → clusterFromGenesisHash genesis = Devnet ∧ program = EQUITY_GUARD_DEVNET_PROGRAM_ID) ∧
    (∀ p, requested = Some p → program = p)) as [Hnone Hsome].
  { destruct requested as [p|]; [injection Hreq as ->; split; [done|by intros ? [= <-]]|].
    split; [intros _|done]. by destruct (clusterFromGenesisHash genesis); try done; injection Hreq as <-. }
  clear Hreq. unfold attest in H. destruct (findReviewedGuardDeployment program) as [reviewed|] eqn:Hrev.
  - destruct (verifyReviewedGuardDeployment _ _ _) as [attestation|] eqn:Hver; [|done]. injection H as <-. cbn [bd_cluster bd_programAddress bd_identity bd_attestation].
    apply verifyReviewed_spec in Hver as (p & pd & key & Hp & Hpd & Hx & _ & _ & _ & _ & Howner & Hdata).
    unfold loader_view in Hp, Hpd. destruct (value_at reply 0) as [a|] eqn:Ha; [|done]. injection Hp as <-.
    destruct (value_at reply 1) as [b|] eqn:Hb; [|done]. injection Hpd as <-. exists a. rewrite Hrev. split_and!; try done.
    + by destruct Hdata as (? & ? & ? & ? & ? & ? & _ & _ & _ & _ & _ & ->).
    + by exists b.
  - unfold checkGuardProgramAccount, loader_view in H. destruct (value_at reply 0) as [a|] eqn:Ha; [|done]. cbn in H.
    destruct (info_executable a) eqn:Hx; [|done]. cbn in H. injection H as <-.
    cbn [bd_cluster bd_programAddress bd_identity bd_attestation]. exists a. rewrite Hrev. split_and!; done.
Qed.
End Protected.

(* ------------------------------------------------------------------ *)
(** ** A concrete swap *)

(** Stand-ins for the digest and the derivation, cheap to evaluate. *)
#[local] Instance demo_digest : Digest.
Proof. refine {| digest x := take 32 (x ++ zeros 32) |}. intros x. unfold zeros. rewrite length_take, length_app, length_replicate. lia. Defined.
#[local] Instance demo_derivation : ProgramDerivation :=
  {| programDerivedAddress _ seeds := Some (b58_decode (take 32 (rev (concat seeds)))) |}.

Definition demo_user : Address := sample_fee_payer.
Definition demo_program : Address := sample_program.
Definition demo_ata (mint token_program : Address) : Address :=
  b58_decode (take 32 (rev (concat [key_of demo_user; key_of token_program; key_of mint]))).
Definition demo_from : Address := Eval vm_compute in demo_ata USDC_MINT_ADDRESS LEGACY_TOKEN_PROGRAM_ADDRESS.
Definition demo_to : Address := Eval vm_compute in demo_ata sample_kox TOKEN_2022_PROGRAM_ADDRESS.

Definition demo_meta (key : Address) : ApiAccountMeta := mkApiMeta key (String.eqb key demo_user) false.
Definition demo_swap : ApiInstruction :=
  mkApiInstruction JUPITER_V6_PROGRAM_ADDRESS
    (map demo_meta [demo_user; demo_from; demo_to; USDC_MINT_ADDRESS; sample_kox; LEGACY_TOKEN_PROGRAM_ADDRESS;
                    TOKEN_2022_PROGRAM_ADDRESS; JUPITER_V6_PROGRAM_ADDRESS; JUPITER_EVENT_AUTHORITY; JUPITER_V6_PROGRAM_ADDRESS])
    (toHex (print_prefix (mkPrefix 1000000 5000 50 0 0 1))).
Definition demo_build : BuildResponse :=
  {| br_inputMint := USDC_MINT_ADDRESS; br_outputMint := sample_kox; br_inAmount := "1000000"; br_outAmount := "5000";
     br_otherAmountThreshold := "4975"; br_swapMode := "ExactIn"; br_slippageBps := NumInt 50; br_routePlan := [];
     br_computeBudgetInstructions := [mkApiInstruction COMPUTE_BUDGET_PROGRAM_ADDRESS [] (toHex ([x03] ++ zeros 8))];
     br_setupInstructions := []; br_swapInstruction := demo_swap; br_cleanupInstruction := None; br_otherInstructions := [];
     br_tipInstruction := None; br_addressesByLookupTableAddress := [(sample_kox, [USDC_MINT_ADDRESS])];
     br_blockhash := replicate 32 (NumInt 7); br_lastValidBlockHeight := NumInt 9 |}.

Definition demo_base64 (s : string) : bytes :=
  if String.eqb s "mint" then sample_mint_account else if String.eqb s "clock" then sample_clock_data else fromHex s.

(** A node: the mint, then the guard program, then the mint and the Clock. *)
Definition demo_rpc (call : nat) (_ : list Address) : result string AccountsReply :=
  let mint := Some (mkAccountInfo false TOKEN_2022_PROGRAM_ADDRESS "mint") in
  Ok (mkAccountsReply 7 match call with
      | 0%nat => [mint]
      | 1%nat => [Some (mkAccountInfo true BPF_LOADER_UPGRADEABLE_ADDRESS "")]
      | _ => [mint; Some (mkAccountInfo false "Sysvar" "clock")]
      end).
Definition demo_genesis : result string string := Ok "a local validator".

Definition demo_input : ProtectJupiterSwapInput :=
  mkProtectInput (build_js demo_build) demo_user (Some (mkWindow (NumInt 900) (NumInt 60))) (Some demo_program) None
    (Some sample_state) (Some Pending).

Definition demo_statics : list Address :=
  [ demo_user; demo_program; sample_kox; SYSVAR_INSTRUCTIONS_ADDRESS; COMPUTE_BUDGET_PROGRAM_ADDRESS; JUPITER_V6_PROGRAM_ADDRESS;
    demo_from; demo_to; LEGACY_TOKEN_PROGRAM_ADDRESS; TOKEN_2022_PROGRAM_ADDRESS; JUPITER_EVENT_AUTHORITY ].
Definition demo_index (key : Address) : nat := position (demo_statics ++ [USDC_MINT_ADDRESS]) key.
Definition demo_compile (instructions : list Instruction) : CompiledMessage :=
  mkMessage (Some 0) (mkCounts 1 0 10) demo_statics (Some [mkLookup sample_kox [] [0%nat]])
    (map (λ i, mkCompiled (demo_index (ix_programAddress i)) (Some (map (λ m, demo_index (meta_address m)) (accounts_of i))) (ix_data i))
       instructions).

(** The library around a wire format given by its decoder. *)
Definition demo_codec (decode : bytes → option CompiledMessage) : TransactionCodec :=
  {| base64Encode s := Some (fromHex s); base64Text := toHex; blockhashText := b58_decode;
     compileTransactionMessage m := Some (demo_compile (tm_instructions m)); encodeMessage _ := Some (zeros 100);
     encodeTransaction _ := Some (zeros 229); decodeTransaction := decode |}.

Definition demo_suffix : list Instruction :=
  Eval vm_compute in ok_or [] (@normalizedJupiterSuffix _ (demo_codec (λ _, None)) demo_build (NumInt UNSIMULATED_COMPUTE_UNIT_LIMIT)).
Definition demo_instructions : list Instruction :=
  Eval vm_compute in match buildGuardedJupiterTrade demo_program demo_user sample_kox JUPITER_ROUTE_V2_BUY_USDC
    (mkRequest sample_state Pending (mkWindow (NumInt 900) (NumInt 60))) demo_suffix with Ok t => t_instructions t | Err _ => [] end.
Definition demo_message : CompiledMessage := Eval vm_compute in demo_compile demo_instructions.
#[local] Instance demo_transactions : TransactionCodec :=
  demo_codec (λ wire, if bytesEqual wire (zeros 229) then Some demo_message else None).

Definition demo_result : result jupiter_exn ProtectResult :=
  Eval vm_compute in protectJupiterSwap demo_base64 demo_rpc demo_genesis demo_input.
Example demo_protected : match demo_result with Ok (PROTECTED _) => True | _ => False end.
Proof. exact I. Qed.

(** The PROTECTED result of the demonstration. *)
Definition demo_protected_swap : ProtectedSwap :=
  Eval vm_compute in match demo_result with
    | Ok (PROTECTED s) => s
    | _ => mkProtectedSwap "" BUY 0 "" CALLER_TRUSTED (callerTrustedAttestation "") UnknownCluster None [] "" [] [] sample_binding
             (metrics_of demo_message [] []) sample_snapshot
    end.

Lemma demo_protected_ok :
  protectJupiterSwap demo_base64 demo_rpc demo_genesis demo_input = Ok (PROTECTED demo_protected_swap).
Proof. vm_compute. reflexivity. Qed.

Lemma protected_swap_sound_witness :
  protectJupiterSwap demo_base64 demo_rpc demo_genesis demo_input = Ok (PROTECTED demo_protected_swap) ∧
  ∃ guard rest decoded,
    resolveWireTransaction (ps_transaction demo_protected_swap) (ps_lookupTables demo_protected_swap) = Ok (guard :: rest) ∧
    unpack (ci_data guard) = Ok decoded ∧
    check (a2_execution decoded) (guard_state sample_state) 1699990000 = Ok tt ∧
    verifyProtectedSwap demo_protected_swap None = Ok None.
Proof.
  split; [exact demo_protected_ok|].
  destruct (protected_swap_sound demo_base64 demo_rpc demo_genesis demo_input demo_protected_swap demo_protected_ok)
    as (guard & rest & decoded & Hres & _ & _ & Hun & _ & Hcheck & _ & _ & _ & _ & Hver).
  exists guard, rest, decoded. split; [exact Hres|]. split; [exact Hun|]. split; [exact Hcheck|exact Hver].
Defined.

Lemma verifyProtectedSwap_exact_witness :
  ∃ instructions built,
    resolveWireTransaction (zeros 229) (ps_lookupTables demo_protected_swap) = Ok instructions ∧
    resolveWireTransaction (ps_transaction demo_protected_swap) (ps_lookupTables demo_protected_swap) = Ok built ∧
    take 1 instructions = take 1 built ∧
    (instructions = built ∨
     ∃ p q, jupiterSuffixCommitmentPreimage (drop 1 instructions) = Ok p ∧
       jupiterSuffixCommitmentPreimage (drop 1 built) = Ok q ∧ collision p q).
Proof.
  apply (verifyProtectedSwap_exact demo_base64 demo_rpc demo_genesis demo_input demo_protected_swap (zeros 229) demo_protected_ok).
  vm_compute. reflexivity.
Defined.

(** Tampering the demonstration detects: another message is not its own. *)
Example demo_tampered : verifyProtectedSwap demo_protected_swap (Some (zeros 228)) = Err (ClientThrown CodecErr).
Proof. vm_compute. reflexivity. Qed.

Lemma protect_throws_untyped_witness :
  protectJupiterSwap demo_base64 (λ _ _, Err "503") demo_genesis demo_input = Err (RuntimeThrown "503") ∧ untyped (RuntimeThrown "503").
Proof.
  assert (protectJupiterSwap demo_base64 (λ _ _, Err "503") demo_genesis demo_input = Err (RuntimeThrown "503")) as H
    by (vm_compute; reflexivity).
  split; [exact H|]. exact (protect_throws_untyped _ _ _ _ _ H).
Defined.

Lemma supportsJupiterSwap_consistent_witness :
  same_answer (STRUCTURALLY_SUPPORTED sample_kox BUY JUPITER_ROUTE_V2_BUY_USDC (findKnownProtectedAsset sample_kox KNOWN_PROTECTED_ASSETS))
    (PROTECTED demo_protected_swap).
Proof.
  apply (supportsJupiterSwap_consistent demo_base64 demo_rpc demo_genesis demo_input); [vm_compute; reflexivity|exact demo_protected_ok].
Defined.

Lemma resolveDeployment_sound_witness :
  ∃ genesis reply program,
    demo_genesis = Ok genesis ∧ UnknownCluster = clusterFromGenesisHash genesis ∧
    value_at reply 0 = Some program ∧ info_executable program = true ∧
    (Some demo_program = None → UnknownCluster = Devnet ∧ demo_program = EQUITY_GUARD_DEVNET_PROGRAM_ID) ∧
    (∀ p, Some demo_program = Some p → demo_program = p) ∧
    CALLER_TRUSTED = CALLER_TRUSTED ∧ demo_rpc 1 [demo_program] = Ok reply ∧
    callerTrustedAttestation demo_program = callerTrustedAttestation demo_program.
Proof.
  exact (resolveDeployment_sound demo_base64 demo_rpc demo_genesis 1 (Some demo_program)
    (mkBound demo_program UnknownCluster CALLER_TRUSTED (callerTrustedAttestation demo_program)) eq_refl).
Defined.

(** The sample build of an ordinary mint: a legacy token against USDC. *)
Definition demo_ordinary_rpc (_ : nat) (_ : list Address) : result string AccountsReply :=
  Ok (mkAccountsReply 7 [Some (mkAccountInfo false LEGACY_TOKEN_PROGRAM_ADDRESS "mint")]).
Definition demo_ordinary_input : ProtectJupiterSwapInput :=
  mkProtectInput (build_js sample_build_response) demo_user None None None None None.

Lemma not_applicable_sound_witness :
  ∃ build reply, parseBuildResponse (build_js sample_build_response) = Ok build ∧ moves_reported_mints demo_base64 build ∧
    demo_ordinary_rpc 0 (candidates_of (br_inputMint build) (br_outputMint build)) = Ok reply ∧
    ∀ i mint, candidates_of (br_inputMint build) (br_outputMint build) !! i = Some mint →
      ∃ account, value_at reply i = Some account ∧ ordinary_mint demo_base64 mint account.
Proof.
  apply (not_applicable_sound demo_base64 demo_ordinary_rpc demo_genesis demo_ordinary_input NO_TOKEN_2022_MINT
    (not_applicable_message NO_TOKEN_2022_MINT)). vm_compute. reflexivity.
Defined.

(* ------------------------------------------------------------------ *)
(** ** Two places where the code says less than its comments *)

(** A build with a tip and a slippage of 200%: the grammar has several reasons
    to refuse it, but the computation of its minimum throws before any is reported. *)
Definition demo_excessive_slippage : BuildResponse :=
  {| br_inputMint := USDC_MINT_ADDRESS; br_outputMint := sample_kox; br_inAmount := "1000000"; br_outAmount := "5000";
     br_otherAmountThreshold := "4975"; br_swapMode := "ExactOut"; br_slippageBps := NumInt 20000; br_routePlan := [];
     br_computeBudgetInstructions := []; br_setupInstructions := [];
     br_swapInstruction := mkApiInstruction JUPITER_V6_PROGRAM_ADDRESS (ai_accounts demo_swap)
       (toHex (print_prefix (mkPrefix 1000000 5000 20000 0 0 1)));
     br_cleanupInstruction := None; br_otherInstructions := []; br_tipInstruction := Some demo_swap;
     br_addressesByLookupTableAddress := []; br_blockhash := replicate 32 (NumInt 7); br_lastValidBlockHeight := NumInt 9 |}.

Lemma excessive_slippage_hides_reasons :
  assertSupportedJupiterBuild demo_excessive_slippage (mkTradeRequest JUPITER_ROUTE_V2_BUY_USDC sample_kox demo_user (NumInt 0)) =
  Err (ClientThrown (GuardErr (guard_client_error C_UnsupportedJupiterTrade "slippageBps 20000 is outside [0, 10000]"))).
Proof. vm_compute. reflexivity. Qed.

(** Instruction data that is no base-64 passes the validation of the response
    and reaches the library's encoder, whose error no handler maps. *)
Lemma malformed_data_escapes :
  let strict := {| base64Encode s := if String.eqb s "?" then None else Some (fromHex s); base64Text := toHex;
     blockhashText := b58_decode; compileTransactionMessage m := Some (demo_compile (tm_instructions m));
     encodeMessage _ := Some (zeros 100); encodeTransaction _ := Some (zeros 229); decodeTransaction _ := None |} in
  let build := {| br_inputMint := USDC_MINT_ADDRESS; br_outputMint := sample_kox; br_inAmount := "1000000"; br_outAmount := "5000";
     br_otherAmountThreshold := "4975"; br_swapMode := "ExactIn"; br_slippageBps := NumInt 50; br_routePlan := [];
     br_computeBudgetInstructions := br_computeBudgetInstructions demo_build; br_setupInstructions := [];
     br_swapInstruction := mkApiInstruction JUPITER_V6_PROGRAM_ADDRESS (ai_accounts demo_swap) "?";
     br_cleanupInstruction := None; br_otherInstructions := []; br_tipInstruction := None;
     br_addressesByLookupTableAddress := []; br_blockhash := replicate 32 (NumInt 7); br_lastValidBlockHeight := NumInt 9 |} in
  parseBuildResponse (build_js build) = Ok build ∧
  @protectJupiterSwap _ _ _ strict demo_base64 demo_rpc demo_genesis
    (mkProtectInput (build_js build) demo_user (Some (mkWindow (NumInt 900) (NumInt 60))) (Some demo_program) None None None) =
  Err (ClientThrown CodecErr).
Proof. split; vm_compute; reflexivity. Qed.
