(* ===== verification/DemoChain.v ===== *)
(** * The chain, the wallet and the errors the demonstrations run against

    The demonstrations ask an RPC endpoint and a browser wallet, one request
    after another, and either may answer anything or reject at any moment.
    [Endpoint] is what one moment answers; an [action] runs over the numbered
    moments, counts the requests it made and records its effects: what the
    wallet was asked to sign, what was submitted and the phases it reported. *)

From S2P Require Import Prelude Js Errors Kit Base58 Abi OnChain OfflineCheck MintState Snapshot CanonicalKey.

(** A rejected promise: the numeric [code] of the error, if any, and its message. *)
Record rejection := mkRejection { rej_code : option Z; rej_message : string }.

(** [LivePhase] of live-execution.ts. *)
Inductive LivePhase : Set :=
| L_READY | L_SIGNING | L_HOLDING | L_WAITING_FOR_CLOCK | L_SUBMITTED | L_CONFIRMING | L_CONFIRMED | L_VERIFYING_MINT
| L_SETUP_COMPLETE | L_CANCELLED | L_FAILED.

#[export] Instance LivePhase_eq_dec : EqDecision LivePhase.
Proof. solve_decision. Defined.

(** [DevnetSubmissionError.kind] of devnet-public.ts. *)
Inductive SubmissionKind : Set := PREFLIGHT_REJECTED | SUBMISSION_FAILED | CONFIRMATION_FAILED.

(** What the demonstrations throw. [GuardThrown]: an error of guard-client;
    [Rejected]: a rejected request or a codec of the library that threw;
    [TypeThrown]: a property read of [undefined]. [LoopUnfinished] is no error
    of the code: a modelled poll that ran out of fuel. *)
Inductive demo_exn : Type :=
| PlainError (message : string)
| LiveExecutionError (stage : LivePhase) (message : string) (signature : option string) (logs : list string)
| StaleAuthorizationExpired
| AuthorizationWindowMissed
| AuthorizationWindowElapsed (clock activation : Z)
| DevnetSubmissionError (kind : SubmissionKind) (message : string) (signature : option string)
| GuardThrown (e : client_exn)
| Rejected (r : rejection)
| TypeThrown
| LoopUnfinished.

Definition fail_if (b : bool) (message : string) : result demo_exn unit := throw_if b (PlainError message).

(** An account of a reply; [None] data is not the encoded pair the code expects. *)
Record ChainAccount := mkChainAccount { ch_executable : bool; ch_owner : string; ch_data : option string }.

Record Blockhash := mkBlockhash { bh_blockhash : string; bh_lastValidBlockHeight : Z }.

(** [getTransaction]: the slot, [meta?.err ?? null] and [meta?.logMessages ?? []]. *)
Record TransactionInfo := mkTransactionInfo { ti_slot : Z; ti_err : jsval; ti_logs : list string }.

(** What the wallet returned: bytes in the three forms the code reads, an
    object with or without the properties it looks for, or anything else.
    [serialize] is the outcome of the method, [None] when it is not a function. *)
#[warnings="-register-all"]
Inductive wallet_value : Type :=
| WBytes (b : bytes)
| WObject (signedTransaction : option wallet_value) (serialize : option (result rejection wallet_value)) (signature : option jsval)
| WOther.

Inductive WalletMethod : Set := M_signTransaction | M_signAndSendTransaction.

(** One moment of the endpoint and the wallet. *)
Record Endpoint := mkEndpoint {
  ep_getGenesisHash : result rejection string;
  ep_getMultipleAccounts : list Address → result rejection (Z * list (option ChainAccount));
  ep_getAccountInfo : Address → result rejection (option ChainAccount);
  ep_getLatestBlockhash : result rejection Blockhash;
  ep_getBlockHeight : result rejection Z;
  ep_sendTransaction : bytes → result rejection string;
  ep_getSignatureStatus : string → result rejection (option string);
  ep_getTransaction : string → result rejection (option TransactionInfo);
  ep_getTokenAccountBalance : Address → result rejection Z;
  ep_getMinimumBalanceForRentExemption : Z → result rejection Z;
  ep_request : WalletMethod → string → result rejection wallet_value;
}.

(** What a run did, in order. *)
Inductive effect : Type :=
| AskedWallet (method : WalletMethod) (message : string)
| SubmittedWire (wire : bytes)
| ReportedPhase (phase : LivePhase) (signature : option string).

Record World := mkWorld { w_moment : nat; w_effects : list effect }.

Definition action (A : Type) : Type := World → result demo_exn A * World.

#[export] Instance action_ret : MRet action := λ A a w, (Ok a, w).
#[export] Instance action_bind : MBind action := λ A B f m w,
  match m w with (Ok a, w') => f a w' | (Err e, w') => (Err e, w') end.

(** A pure step. *)
Definition lift {A} (r : result demo_exn A) : action A := λ w, (r, w).

Definition emit (e : effect) : action unit := λ w, (Ok tt, mkWorld (w_moment w) (w_effects w ++ [e])).

(** [try { m } catch (error) { h }]. *)
Definition catch {A} (m : action A) (h : demo_exn → action A) : action A := λ w,
  match m w with (Ok a, w') => (Ok a, w') | (Err e, w') => h e w' end.

(** One request at the current moment; the next one is at the next. *)
Definition ask (chain : nat → Endpoint) {A} (f : Endpoint → result rejection A) : action A := λ w,
  (map_err Rejected (f (chain (w_moment w))), mkWorld (S (w_moment w)) (w_effects w)).

Definition run {A} (m : action A) : result demo_exn A * World := m (mkWorld 0 []).

(** A request that is first recorded. *)
Definition ask_wallet (chain : nat → Endpoint) (method : WalletMethod) (message : string) : action wallet_value :=
  emit (AskedWallet method message);; ask chain (λ e, ep_request e method message).

Definition submit_wire (chain : nat → Endpoint) (wire : bytes) : action string :=
  emit (SubmittedWire wire);; ask chain (λ e, ep_sendTransaction e wire).

(* ------------------------------------------------------------------ *)
(** ** The codecs of the library for legacy transactions *)

(** A compiled transaction message as the library's decoder shows it. *)
Record LegacyMessage := mkLegacy {
  lm_legacy : bool;
  lm_signers : list Address;
  lm_lifetime : string;
  lm_instructions : list Instruction;
}.

(** [compileTransaction] of a legacy message, [getTransactionEncoder] behind
    the base-58 text handed to the wallet, the decoders of a wire transaction
    (message and signatures) and of a message, a wire transaction decoded and
    encoded again, and the base-58 text of a signature. A throw is a
    [rejection]. *)
Class LegacyCodec := {
  compiled : Type;
  compileLegacy : Address → Blockhash → list Instruction → result rejection compiled;
  phantomText : compiled → result rejection string;
  decodeWire : bytes → result rejection (compiled * list (option bytes));
  decodeLegacy : compiled → result rejection LegacyMessage;
  encodeAgain : bytes → result rejection bytes;
  signatureText : bytes → string;
}.

(* ------------------------------------------------------------------ *)
(** ** Running actions *)

Lemma fail_if_then_Ok {A} b message (m : result demo_exn A) a : (fail_if b message;; m) = Ok a ↔ b = false ∧ m = Ok a.
Proof. apply throw_if_then_Ok. Qed.

Lemma fail_if_Ok b message u : fail_if b message = Ok u ↔ b = false.
Proof. apply throw_if_Ok. Qed.

Section ActionLemmas.
  Context {A B : Type}.

Lemma action_bind_Ok (m : action A) (f : A → action B) w b w' :
  (m ≫= f) w = (Ok b, w') ↔ ∃ a w1, m w = (Ok a, w1) ∧ f a w1 = (Ok b, w').
Proof.
  unfold mbind, action_bind. destruct (m w) as [[a|e] w1]; split.
  - intros H. by exists a, w1.
  - by intros (? & ? & [= <- <-] & ?).
  - intros H. discriminate H.
  - intros (? & ? & H & _). discriminate H.
Qed.

Lemma action_fail (m : action A) (f : A → action B) w e w' : m w = (Err e, w') → (m ≫= f) w = (Err e, w').
Proof. unfold mbind, action_bind. by intros ->. Qed.

Lemma action_step (m : action A) (f : A → action B) w a w' : m w = (Ok a, w') → (m ≫= f) w = f a w'.
Proof. unfold mbind, action_bind. by intros ->. Qed.

(** One step of a flow. *)
Lemma step_ask chain (f : Endpoint → result rejection A) (g : A → action B) w :
  (ask chain f ≫= g) w = match f (chain (w_moment w)) with
                         | Ok a => g a (mkWorld (S (w_moment w)) (w_effects w))
                         | Err e => (Err (Rejected e), mkWorld (S (w_moment w)) (w_effects w))
                         end.
Proof. unfold mbind, action_bind, ask. by destruct (f _). Qed.

Lemma step_lift (r : result demo_exn A) (g : A → action B) w :
  (lift r ≫= g) w = match r with Ok a => g a w | Err e => (Err e, w) end.
Proof. unfold mbind, action_bind, lift. by destruct r. Qed.

Lemma step_emit e (g : unit → action B) w : (emit e ≫= g) w = g tt (mkWorld (w_moment w) (w_effects w ++ [e])).
Proof. done. Qed.

Lemma catch_cases (m : action A) h w r w' : catch m h w = (r, w') →
  (∃ a, m w = (Ok a, w') ∧ r = Ok a) ∨ ∃ e w1, m w = (Err e, w1) ∧ h e w1 = (r, w').
Proof. unfold catch. destruct (m w) as [[a|e] w1]; [intros [= <- <-]; left; by exists a|intros H; right; by exists e, w1]. Qed.

Lemma lift_Ok (r : result demo_exn A) w a w' : lift r w = (Ok a, w') ↔ r = Ok a ∧ w' = w.
Proof. unfold lift. split; [by intros [= -> ->]|by intros [-> ->]]. Qed.

Lemma ask_Ok chain (f : Endpoint → result rejection A) w a w' :
  ask chain f w = (Ok a, w') ↔ f (chain (w_moment w)) = Ok a ∧ w' = mkWorld (S (w_moment w)) (w_effects w).
Proof.
  unfold ask. destruct (f _) as [a'|e]; cbn; split.
  - by intros [= -> ->].
  - by intros [[= ->] ->].
  - intros H. discriminate H.
  - intros [H _]. discriminate H.
Qed.

Lemma emit_Ok e w u w' : emit e w = (Ok u, w') ↔ u = tt ∧ w' = mkWorld (w_moment w) (w_effects w ++ [e]).
Proof. unfold emit. destruct u. split; [by intros [= <-]|by intros [_ ->]]. Qed.
End ActionLemmas.

(** [w'] follows [w]: its moment is no earlier, and the effects of [w] are
    the first ones of [w']. *)
Record later (w w' : World) : Prop := {
  la_moment : (w_moment w ≤ w_moment w')%nat;
  la_effects : w_effects w `prefix_of` w_effects w';
}.

#[export] Instance later_preorder : PreOrder later.
Proof. split; [by intros w|]. intros u v w [] []. split; [lia|by etrans]. Qed.

(** A run goes forward, and only adds effects, each of which satisfies [P]. *)
Definition adds {A} (P : effect → Prop) (m : action A) : Prop :=
  ∀ w, ∃ new, w_effects (snd (m w)) = w_effects w ++ new ∧ Forall P new ∧ (w_moment w ≤ w_moment (snd (m w)))%nat.

Lemma adds_later {A} P (m : action A) w : adds P m → later w (snd (m w)).
Proof. intros Hm. destruct (Hm w) as (new & He & _ & Hle). split; [done|]. rewrite He. by exists new. Qed.

Create HintDb adds.

Section Adds.
  Context (P : effect → Prop).

(** An action without an effect. *)
Lemma adds_nothing {A} (m : action A) :
  (∀ w, w_effects (snd (m w)) = w_effects w ∧ (w_moment w ≤ w_moment (snd (m w)))%nat) → adds P m.
Proof. intros H w. destruct (H w) as [-> ?]. exists []. by rewrite app_nil_r. Qed.

Lemma adds_ret {A} (a : A) : adds P (mret a).
Proof. by apply adds_nothing. Qed.

Lemma adds_lift {A} (r : result demo_exn A) : adds P (lift r).
Proof. by apply adds_nothing. Qed.

Lemma adds_ask {A} chain (f : Endpoint → result rejection A) : adds P (ask chain f).
Proof. apply adds_nothing. intros w. cbn. split; [done|lia]. Qed.

Lemma adds_emit e : P e → adds P (emit e).
Proof. intros He w. exists [e]. split_and!; [done|by apply Forall_singleton|done]. Qed.

Lemma adds_bind {A B} (m : action A) (f : A → action B) : adds P m → (∀ a, adds P (f a)) → adds P (m ≫= f).
Proof.
  intros Hm Hf w. unfold mbind, action_bind. destruct (Hm w) as (l & Hl & HP & Hle). destruct (m w) as [[a|e] w']; cbn in Hl, Hle.
  - destruct (Hf a w') as (k & Hk & HP' & Hle'). exists (l ++ k). rewrite Hk, Hl, app_assoc. split_and!; [done|by apply Forall_app_2|lia].
  - by exists l.
Qed.

Lemma adds_catch {A} (m : action A) h : adds P m → (∀ e, adds P (h e)) → adds P (catch m h).
Proof.
  intros Hm Hh w. unfold catch. destruct (Hm w) as (l & Hl & HP & Hle). destruct (m w) as [[a|e] w']; cbn in Hl, Hle.
  - by exists l.
  - destruct (Hh e w') as (k & Hk & HP' & Hle'). exists (l ++ k). rewrite Hk, Hl, app_assoc. split_and!; [done|by apply Forall_app_2|lia].
Qed.

Lemma adds_ask_wallet chain method message : P (AskedWallet method message) → adds P (ask_wallet chain method message).
Proof. intros H. apply adds_bind; [by apply adds_emit|intros; apply adds_ask]. Qed.

Lemma adds_submit_wire chain wire : P (SubmittedWire wire) → adds P (submit_wire chain wire).
Proof. intros H. apply adds_bind; [by apply adds_emit|intros; apply adds_ask]. Qed.
End Adds.

#[export] Hint Resolve adds_ret adds_lift adds_ask adds_emit adds_bind adds_catch adds_ask_wallet adds_submit_wire : adds.

(** Walks an action down its binds and tests. *)
Ltac adds :=
  repeat first
    [ solve [eauto with adds]
    | apply adds_bind; [|intros ?]
    | apply adds_catch; [|intros ?]
    | match goal with
      | |- adds _ (if ?b then _ else _) => destruct b
      | |- adds _ (match ?x with _ => _ end) => destruct x
      | |- adds _ (let _ := _ in _) => cbv zeta
      end ].

(** An action that does not run out of fuel. *)
Definition finishes {A} (m : action A) : Prop := ∀ w, fst (m w) ≠ Err LoopUnfinished.

(** A pure step that is not the mark of an unfinished loop. *)
Definition plain_result {A} (r : result demo_exn A) : Prop := r ≠ Err LoopUnfinished.

Create HintDb finishes.

Section Finishes.
  Context {A B : Type}.

Lemma plain_Ok (a : A) : plain_result (Ok a).
Proof. by intros [=]. Qed.

Lemma plain_throw_if b e : e ≠ LoopUnfinished → plain_result (throw_if b e).
Proof. intros He. destruct b; by intros [=]. Qed.

Lemma plain_bind (m : result demo_exn A) (f : A → result demo_exn B) :
  plain_result m → (∀ a, plain_result (f a)) → plain_result (m ≫= f).
Proof. intros Hm Hf. destruct m as [a|e]; cbn; [apply Hf|]. intros [= ->]. by apply Hm. Qed.

Lemma plain_map_err {E} (f : E → demo_exn) (m : result E A) : (∀ e, f e ≠ LoopUnfinished) → plain_result (map_err f m).
Proof. intros Hf. destruct m; cbn; [by intros [=]|]. intros [=]. by eapply Hf. Qed.

Lemma plain_of_option e (o : option A) : e ≠ LoopUnfinished → plain_result (of_option e o).
Proof. intros He. destruct o; by intros [=]. Qed.

Lemma finishes_ret (a : A) : finishes (mret a).
Proof. by intros w [=]. Qed.

Lemma finishes_lift (r : result demo_exn A) : plain_result r → finishes (lift r).
Proof. by intros H w. Qed.

Lemma finishes_ask chain (f : Endpoint → result rejection A) : finishes (ask chain f).
Proof. intros w. unfold ask. destruct (f _); by intros [=]. Qed.

Lemma finishes_bind (m : action A) (f : A → action B) : finishes m → (∀ a, finishes (f a)) → finishes (m ≫= f).
Proof.
  intros Hm Hf w. unfold mbind, action_bind. specialize (Hm w). destruct (m w) as [[a|e] w1]; [apply Hf|].
  cbn in *. intros [= ->]. by apply Hm.
Qed.

Lemma finishes_catch (m : action A) h : finishes m → (∀ e, e ≠ LoopUnfinished → finishes (h e)) → finishes (catch m h).
Proof.
  intros Hm Hh w. unfold catch. specialize (Hm w). destruct (m w) as [[a|e] w1]; [by intros [=]|].
  apply Hh. intros ->. by apply Hm.
Qed.
End Finishes.

Lemma finishes_emit e : finishes (emit e).
Proof. by intros w [=]. Qed.

Lemma finishes_ask_wallet chain method message : finishes (ask_wallet chain method message).
Proof. apply finishes_bind; [apply finishes_emit|intros; apply finishes_ask]. Qed.

Lemma finishes_submit_wire chain wire : finishes (submit_wire chain wire).
Proof. apply finishes_bind; [apply finishes_emit|intros; apply finishes_ask]. Qed.

#[export] Hint Resolve plain_Ok plain_throw_if plain_map_err plain_of_option finishes_ret finishes_lift finishes_ask finishes_emit
  finishes_ask_wallet finishes_submit_wire : finishes.

(** Walks a computation down its binds and tests. *)
Ltac finishes :=
  repeat first
    [ solve [eauto with finishes]
    | apply plain_throw_if; discriminate
    | apply plain_map_err; discriminate
    | apply plain_of_option; discriminate
    | apply plain_Ok
    | apply finishes_lift
    | apply finishes_bind; [|intros ?]
    | apply plain_bind; [|intros ?]
    | apply finishes_catch; [|intros ? ?]
    | match goal with
      | |- finishes (if ?b then _ else _) => destruct b
      | |- finishes (match ?x with _ => _ end) => destruct x
      | |- plain_result (if ?b then _ else _) => destruct b
      | |- plain_result (match ?x with _ => _ end) => destruct x
      | |- plain_result (Err _) => intros [=]
      | |- _ => progress cbv zeta
      end ].
