(* ===== verification/WalletDemo.v ===== *)
(** * apps/devnet-wallet-demo: the scenarios, the clock decisions and the proofs of outcome

    scenarios.ts, cluster-gate.ts, transactions.ts, the checks of demo-asset.ts
    and the outcome checks of live-execution.ts. Base-64 decoders and the
    endpoint are parameters. *)

From S2P Require Import Prelude Js Float64 Errors Kit Base58 Sha256 Abi OnChain OfflineCheck MintState Snapshot Downstream Deployment CanonicalKey DemoChain.

(* ------------------------------------------------------------------ *)
(** ** scenarios.ts *)

(** [id] and [symbol] are strings at run time. *)
Record EquityScenario := mkScenario {
  sc_id : string;
  sc_symbol : string;
  sc_displayName : string;
  sc_eventLabel : string;
  sc_initialMultiplier : jsnum;
  sc_newMultiplier : jsnum;
}.

Definition SCENARIO_CATALOG : list EquityScenario :=
  [ mkScenario "KO-DEMO" "KO-DEMO" "Coca-Cola Demo Equity" "2-for-1 stock split" (NumInt 1) (NumInt 2);
    mkScenario "UNH-DEMO" "UNH-DEMO" "UnitedHealth Demo Equity" "3-for-2 stock split" (NumInt 1) (NumOther "1.5");
    mkScenario "CRM-DEMO" "CRM-DEMO" "Salesforce Demo Equity" "1-for-2 reverse split" (NumInt 1) (NumOther "0.5") ].

Definition APPROVED_MULTIPLIERS : list jsnum := [NumInt 1; NumOther "1.5"; NumInt 2; NumOther "0.5"].

(** [Object.is] on numbers is equality of their representation. *)
Definition isApprovedMultiplier (value : jsnum) : bool := existsb (λ approved, bool_decide (approved = value)) APPROVED_MULTIPLIERS.

Definition storedMultiplier (value : jsnum) : result demo_exn bytes :=
  fail_if (negb (isApprovedMultiplier value)) "Multiplier is not in the approved scenario catalog";;
  Ok (setFloat64 value).

(** [value.toFixed(2)] of a positive finite number: the nearest hundredth, halves up. *)
Definition toFixed2 (value : jsnum) : string :=
  let '(p, q) := f64_value (f64_bits value) in
  let k := (200 * p + q) / (2 * q) in
  show_Z (k / 100) +:+ "." +:+ (if k mod 100 <? 10 then "0" else "") +:+ show_Z (k mod 100).

Definition formatMultiplier (value : jsnum) : result demo_exn string :=
  fail_if (negb (isApprovedMultiplier value)) "Multiplier is not in the approved scenario catalog";;
  Ok (toFixed2 value +:+ "×").

(** The body of the loop of [validateScenarioCatalog]. *)
Definition validateScenario (scenario : EquityScenario) : result demo_exn unit :=
  fail_if (negb (String.eqb (sc_symbol scenario) (sc_id scenario))) "Scenario symbol must match its id";;
  fail_if (negb (num_is (sc_initialMultiplier scenario) 1)) "Every demo scenario starts at 1.00×";;
  fail_if (negb (isApprovedMultiplier (sc_newMultiplier scenario)) || bool_decide (sc_newMultiplier scenario = sc_initialMultiplier scenario))
    "Scheduled multiplier must be an approved change";;
  initial ← storedMultiplier (sc_initialMultiplier scenario);
  new ← (if Nat.eqb (length initial) 8 then storedMultiplier (sc_newMultiplier scenario) else Ok []);
  fail_if (negb (Nat.eqb (length initial) 8) || negb (Nat.eqb (length new) 8)) "Stored multipliers must be 8 bytes".

Definition validateScenarioCatalog (catalog : list EquityScenario) : result demo_exn unit :=
  fail_if (negb (Nat.eqb (length catalog) 3)) "Scenario catalog must contain exactly three templates";;
  fail_if (negb (Nat.eqb (length (remove_dups (map sc_id catalog))) (length catalog))) "Scenario ids must be unique";;
  mapM_result validateScenario catalog;;
  Ok tt.

Definition scenarioById (id : string) : result demo_exn EquityScenario :=
  of_option (PlainError "Unknown scenario") (List.find (λ item, String.eqb (sc_id item) id) SCENARIO_CATALOG).

(** The rational a finite number is. *)
Definition f64_signed_value (bits : Z) : Z * Z :=
  if F64_SIGN <=? bits then let '(p, q) := f64_value (bits - F64_SIGN) in (- p, q) else f64_value bits.

Definition f64_finite (bits : Z) : bool := bits mod F64_SIGN <? F64_INFINITY.

(** The bits of the number the generator returned. *)
Definition randomScenario (sample : Z) : result demo_exn EquityScenario :=
  let refused := PlainError "Random selection left the approved scenario catalog" in
  let '(p, q) := f64_signed_value sample in
  throw_if (negb (f64_finite sample) || (p <? 0) || (q <=? p)) refused;;
  let '(n, d) := f64_value (f64_of_rational (p * Z.of_nat (length SCENARIO_CATALOG)) q) in
  of_option refused (SCENARIO_CATALOG !! Z.to_nat (n / d)).

(** The middle of the unit interval, the largest number below 1, and 1. *)
Example randomScenario_examples :
  map (λ sample, match randomScenario sample with Ok scenario => sc_id scenario | Err _ => "refused" end)
    [0; F64_SIGN; f64_of_rational 1 3; f64_of_rational 1 2; f64_of_rational 1 1 - 1; f64_of_rational 1 1; F64_NAN]
  = ["KO-DEMO"; "KO-DEMO"; "UNH-DEMO"; "UNH-DEMO"; "CRM-DEMO"; "refused"; "refused"].
Proof. vm_compute. reflexivity. Qed.

(** [status] is always "ACTIVE". *)
Record ActiveAttempt := mkAttempt { aa_scenario : EquityScenario; aa_status : string }.

Definition startAttempt (scenario : EquityScenario) : result demo_exn ActiveAttempt :=
  scenario ← scenarioById (sc_id scenario);
  Ok (mkAttempt scenario "ACTIVE").

Definition scenarioForAttempt (attempt : ActiveAttempt) (requestedId : string) : result demo_exn EquityScenario :=
  fail_if (negb (String.eqb (aa_status attempt) "ACTIVE") || negb (String.eqb requestedId (sc_id (aa_scenario attempt))))
    "Scenario cannot change during an active attempt";;
  Ok (aa_scenario attempt).

(* ------------------------------------------------------------------ *)
(** ** cluster-gate.ts *)

Record ClusterVerification := mkClusterVerification {
  cv_verified : bool;
  cv_genesisHash : string;
  cv_cluster : SolanaCluster;
  cv_reason : option string;
}.

Definition DEVNET_GENESIS_HASH : string := "EtWTRABZaYq6iMfeYKouRu166VU2xqa1wcaWoxPkrZBG".

(** What [verifyDevnetCluster] makes of the hash the endpoint reports. *)
Definition classifyDevnetCluster (genesisHash : string) : ClusterVerification :=
  let cluster := clusterFromGenesisHash genesisHash in
  if String.eqb genesisHash DEVNET_GENESIS_HASH then mkClusterVerification true genesisHash cluster None
  else
    mkClusterVerification false genesisHash cluster (Some
      match cluster with
      | MainnetBeta => "Connected to mainnet-beta — refusing all state-changing actions"
      | Testnet => "Connected to testnet — only devnet is supported"
      | _ => "Unknown cluster (genesis: " +:+ genesisHash +:+ ") — only devnet is supported"
      end).

Record DeploymentVerification := mkDeploymentVerification {
  dv_verified : bool;
  dv_programAddress : Address;
  dv_reason : option string;
}.

(** [Boolean(x)] of an object: true, whatever its properties. *)
Definition object_truthy {A} (a : A) : bool := true.

Section ClusterGate.
  Context `{!AddressCodec, !Digest}.
  Variable chain : nat → Endpoint.
  (** [Uint8Array.from(atob(encoded), …)]. *)
  Variable atob : string → result rejection bytes.

Definition verifyDevnetCluster : action ClusterVerification :=
  genesisHash ← ask chain ep_getGenesisHash; mret (classifyDevnetCluster genesisHash).

(** The account a loader view is made of. *)
Definition loaderView (account : ChainAccount) : result demo_exn LoaderAccountView :=
  data ← of_option TypeThrown (ch_data account);
  data ← map_err Rejected (atob data);
  Ok (mkAccount (ch_executable account) (ch_owner account) data).

Definition value_of (reply : Z * list (option ChainAccount)) (i : nat) : option ChainAccount := reply.2 !! i ≫= λ account, account.

Definition verifyEquityGuardDeployment : action DeploymentVerification :=
  let refused reason := mret (mkDeploymentVerification false EQUITY_GUARD_DEVNET_PROGRAM_ID (Some reason)) in
  match findReviewedGuardDeployment EQUITY_GUARD_DEVNET_PROGRAM_ID with
  | None => refused "No reviewed deployment found for devnet program ID"
  | Some deployment =>
      reply ← ask chain (λ e, ep_getMultipleAccounts e [EQUITY_GUARD_DEVNET_PROGRAM_ID; dep_programDataAddress deployment]);
      match value_of reply 0, value_of reply 1 with
      | None, _ => refused "Program account not found on chain"
      | _, None => refused "Program data account not found on chain"
      | Some program, Some programData =>
          program ← lift (loaderView program);
          programData ← lift (loaderView programData);
          let isVerified := verifyReviewedGuardDeployment deployment (Some program) (Some programData) in
          if object_truthy isVerified then mret (mkDeploymentVerification true EQUITY_GUARD_DEVNET_PROGRAM_ID None)
          else refused "Deployment verification failed: hash mismatch or invalid state"
      end
  end.

(** live-execution.ts. [acceptanceFromIdentity]: the verified deployment, or why not. *)
Inductive Acceptance : Type :=
| Accepted (upgradeAuthority : option Address) (mutability : DeploymentMutability)
| NotAccepted (reason : string).

Definition acceptanceFromIdentity (check : GuardCheck GuardDeploymentAttestation) (reviewedElfSha256 : string) : Acceptance :=
  match check with
  | CheckFail _ message => NotAccepted message
  | CheckOk attestation =>
      if negb (bool_decide (at_identity attestation = REVIEWED_BINARY))
         || negb (bool_decide (at_reviewedElfSha256 attestation = Some reviewedElfSha256))
      then NotAccepted "Deployment verification failed: hash mismatch or invalid state"
      else Accepted (at_upgradeAuthority attestation) (at_mutability attestation)
  end.

(** [accountBytes]. *)
Definition chainAccountBytes (data : option string) : result demo_exn bytes :=
  match data with None => Err (PlainError "Account data missing") | Some encoded => map_err Rejected (atob encoded) end.

Definition reviewedView (entry : option ChainAccount) : result demo_exn (option LoaderAccountView) :=
  match entry with
  | None => Ok None
  | Some entry => data ← chainAccountBytes (ch_data entry); Ok (Some (mkAccount (ch_executable entry) (ch_owner entry) data))
  end.

Definition readReviewedDeployment : action Acceptance :=
  match findReviewedGuardDeployment EQUITY_GUARD_DEVNET_PROGRAM_ID with
  | None => mret (NotAccepted "No reviewed deployment found for devnet program ID")
  | Some deployment =>
      reply ← ask chain (λ e, ep_getMultipleAccounts e [dep_programAddress deployment; dep_programDataAddress deployment]);
      program ← lift (reviewedView (value_of reply 0));
      programData ← lift (reviewedView (value_of reply 1));
      mret (acceptanceFromIdentity (verifyReviewedGuardDeployment deployment program programData) (dep_elfSha256 deployment))
  end.

Definition assertMutationGate (cluster : ClusterVerification) (deployment : option Acceptance) : result demo_exn unit :=
  fail_if (negb (cv_verified cluster)) (cv_reason cluster ?? "Devnet verification failed");;
  match deployment with
  | Some (Accepted _ _) => Ok tt
  | Some (NotAccepted reason) => Err (PlainError reason)
  | None => Err (PlainError "Program verification failed")
  end.

Definition verifyMutationEnvironment : action unit :=
  cluster ← verifyDevnetCluster;
  deployment ← (if cv_verified cluster then (acceptance ← readReviewedDeployment; mret (Some acceptance)) else mret None);
  lift (assertMutationGate cluster deployment).
End ClusterGate.

(* ------------------------------------------------------------------ *)
(** ** transactions.ts: which decisions the chain clock allows *)

Definition BLOCKHASH_BUDGET_SECONDS : jsnum := NumInt 60.
Definition MAX_SIGN_LEAD_SECONDS : Z := 35.
Definition ACTIVATION_DELAY_SECONDS : jsnum := NumInt 75.
Definition CLOCK_CROSSING_WINDOW : ProtectionWindow := mkWindow (NumInt 0) (NumInt 0).

Definition validateActivationTiming (delay lead budget : jsnum) : result demo_exn unit :=
  fail_if (negb (isInteger delay) || negb (isInteger lead) || negb (isInteger budget)) "Activation timing must be whole seconds";;
  let '(delay, lead, budget) := (num_value delay, num_value lead, num_value budget) in
  fail_if (lead <? 20) "Sign lead is shorter than a Phantom approval";;
  fail_if (budget - lead <? 15) "Sign lead leaves no blockhash margin";;
  fail_if (delay <? lead + 25) "Activation delay does not cover setup approval plus the sign lead";;
  fail_if (120 <? delay) "Activation delay is too long for a judge".

Definition activationTimestamp (chainUnixTimestamp : Z) (delaySeconds : jsnum) : result demo_exn Z :=
  fail_if (chainUnixTimestamp <? 0) "Chain clock is not usable";;
  fail_if (negb (isInteger delaySeconds) || (num_value delaySeconds <=? 0)) "Activation delay must be a positive whole number of seconds";;
  Ok (chainUnixTimestamp + num_value delaySeconds).

(** [a && b] with a second operand that may throw. *)
Definition and_then {E} (a : bool) (b : result E bool) : result E bool := if a then b else Ok false.

Definition scheduledBytesMatch (snapshot : GuardSnapshot) (scenario : EquityScenario) (activation : Z) : result demo_exn bool :=
  let state := snap_state snapshot in
  initial ← storedMultiplier (sc_initialMultiplier scenario);
  and_then (bytesEqual (multiplier state) initial) (
    new ← storedMultiplier (sc_newMultiplier scenario);
    Ok (bytesEqual (newMultiplier state) new && (newMultiplierEffectiveTimestamp state =? activation)
        && snap_hasScheduledChange snapshot
        && (snap_phase snapshot =? phaseAt state (clock_unixTimestamp (snap_clock snapshot))))).

Inductive PendingSignDecision : Set := D_wait | D_sign | D_missed | D_mismatch.

#[export] Instance PendingSignDecision_eq_dec : EqDecision PendingSignDecision.
Proof. solve_decision. Defined.

Definition pendingSignDecision (snapshot : GuardSnapshot) (scenario : EquityScenario) (activation : Z) : result demo_exn PendingSignDecision :=
  matches ← scheduledBytesMatch snapshot scenario activation;
  let now := clock_unixTimestamp (snap_clock snapshot) in
  Ok (if negb matches then D_mismatch
      else if (activation <=? now) || negb (snap_phase snapshot =? Pending) then D_missed
      else if MAX_SIGN_LEAD_SECONDS <? activation - now then D_wait
      else D_sign).

Inductive ActivatedReviewDecision : Set := A_wait | A_ready | A_mismatch.

#[export] Instance ActivatedReviewDecision_eq_dec : EqDecision ActivatedReviewDecision.
Proof. solve_decision. Defined.

Definition activatedReviewDecision (snapshot : GuardSnapshot) (scenario : EquityScenario) (activation : Z)
    : result demo_exn ActivatedReviewDecision :=
  matches ← scheduledBytesMatch snapshot scenario activation;
  let now := clock_unixTimestamp (snap_clock snapshot) in
  if negb matches then Ok A_mismatch
  else if negb (snap_phase snapshot =? Activated) || (now <=? activation) then Ok A_wait
  else
    let expectation := expectationFromSnapshot snapshot CLOCK_CROSSING_WINDOW in
    if negb (expectedPhase expectation =? Activated) then Ok A_mismatch
    else
      verdict ← map_err GuardThrown (checkGuardOffline expectation (snap_state snapshot) now);
      Ok (match verdict with None => A_ready | Some _ => A_wait end).

Definition chainReadyForStaleSubmit (snapshot : GuardSnapshot) (expectation : AssertSafeExecutionRequest) : result demo_exn bool :=
  if negb (expectedPhase expectation =? Pending) then Ok false
  else if negb (num_is (beforeSecs (window expectation)) 0) || negb (num_is (afterSecs (window expectation)) 0) then Ok false
  else
    verdict ← map_err GuardThrown (checkGuardOffline expectation (snap_state snapshot) (clock_unixTimestamp (snap_clock snapshot)));
    Ok (bool_decide (verdict = Some E_ActivationPhaseChanged)).

Inductive HeldWaitDecision : Set := H_wait | H_submit | H_expired.

Definition heldWaitDecision (blockHeight lastValidBlockHeight : Z) (ready : bool) : HeldWaitDecision :=
  if lastValidBlockHeight <? blockHeight then H_expired else if ready then H_submit else H_wait.

Definition DEFAULT_PROTECTION_WINDOW : ProtectionWindow := mkWindow (NumInt 900) (NumInt 300).

Definition getBaselineExpectation (snapshot : GuardSnapshot) (windowSecs : jsnum) : AssertSafeExecutionRequest :=
  expectationFromSnapshot snapshot (mkWindow windowSecs windowSecs).

(** The bits of the number; a [RangeError] on fewer than eight bytes. *)
Definition readStoredMultiplier (multiplierBytes : bytes) : result demo_exn Z :=
  of_option (GuardThrown RangeErr) (get_uint 8 multiplierBytes 0).

(** [a + b] of two finite numbers, rounded to nearest, ties to even. *)
Definition f64_sum (a b : Z) : Z :=
  let '(p, q) := f64_signed_value a in
  let '(p', q') := f64_signed_value b in
  let n := p * q' + p' * q in
  if n <? 0 then F64_SIGN + f64_of_rational (- n) (q * q') else f64_of_rational n (q * q').

Definition with_multiplier (request : AssertSafeExecutionRequest) (m : bytes) : AssertSafeExecutionRequest :=
  let e := expected request in
  mkRequest (mkProtectedState m (newMultiplier e) (newMultiplierEffectiveTimestamp e)) (expectedPhase request) (window request).

Definition getStaleExpectation (snapshot : GuardSnapshot) (multiplierOffset : jsnum) : result demo_exn AssertSafeExecutionRequest :=
  let baseline := getBaselineExpectation snapshot (NumInt 60) in
  currentMult ← readStoredMultiplier (multiplier (snap_state snapshot));
  Ok (with_multiplier baseline (le_bytes 8 (f64_sum currentMult (f64_bits multiplierOffset)))).

Section Building.
  Context `{!AddressCodec, !Digest}.
  Variable chain : nat → Endpoint.
  Variable atob : string → result rejection bytes.
  (** [Uint8Array.from(Buffer.from(encoded, 'base64'))]. *)
  Variable base64 : string → bytes.

Definition guardClient {A} (r : result client_exn A) : result demo_exn A := map_err GuardThrown r.

Record ClockCrossing := mkClockCrossing { cc_guarded : GuardedTransferChecked; cc_expectation : AssertSafeExecutionRequest }.

Definition buildClockCrossingTransfer (snapshot : GuardSnapshot) (scenario : EquityScenario) (activation : Z) (requiredPhase : Z)
    (feePayer mint : Address) (transferChecked : Instruction) (programAddress : option Address) : result demo_exn ClockCrossing :=
  (if requiredPhase =? Pending
   then decision ← pendingSignDecision snapshot scenario activation;
        fail_if (negb (bool_decide (decision = D_sign))) "Pending authorization is not signable at this chain clock"
   else decision ← activatedReviewDecision snapshot scenario activation;
        fail_if (negb (bool_decide (decision = A_ready))) "Updated authorization is not ready at this chain clock");;
  let expectation := expectationFromSnapshot snapshot CLOCK_CROSSING_WINDOW in
  fail_if (negb (expectedPhase expectation =? requiredPhase)) "Expectation phase does not match the chain clock";;
  guarded ← guardClient (buildGuardedTransferChecked (programAddress ?? EQUITY_GUARD_DEVNET_PROGRAM_ID) feePayer mint expectation transferChecked None);
  Ok (mkClockCrossing guarded expectation).

Definition buildSafeGuardedTransfer (programAddress : option Address) (feePayer mint : Address) (snapshot : GuardSnapshot)
    (transferChecked : Instruction) (before : option (list Instruction)) : result demo_exn GuardedTransferChecked :=
  guardClient (buildGuardedTransferChecked (programAddress ?? EQUITY_GUARD_DEVNET_PROGRAM_ID) feePayer mint
    (getBaselineExpectation snapshot (NumInt 60)) transferChecked before).

Definition buildStaleGuardedTransfer (programAddress : option Address) (feePayer mint : Address) (snapshot : GuardSnapshot)
    (transferChecked : Instruction) (before : option (list Instruction)) (multiplierOffset : option jsnum)
    : result demo_exn GuardedTransferChecked :=
  expectation ← getStaleExpectation snapshot (multiplierOffset ?? NumOther "0.05");
  guardClient (buildGuardedTransferChecked (programAddress ?? EQUITY_GUARD_DEVNET_PROGRAM_ID) feePayer mint expectation transferChecked before).

(** The account view the guard client reads; its data is the encoded pair. *)
Definition rpcAccount (account : option ChainAccount) : result demo_exn (option RpcAccount) :=
  match account with
  | None => Ok None
  | Some account => data ← of_option TypeThrown (ch_data account); Ok (Some (mkRpcAccount (ch_owner account) data))
  end.

(** [fetchGuardSnapshot(rpc, mintAddress, "confirmed")]. *)
Definition getMintGuardSnapshot (mint : Address) : action GuardSnapshot :=
  reply ← ask chain (λ e, ep_getMultipleAccounts e [mint; SYSVAR_CLOCK_ADDRESS]);
  mintAccount ← lift (rpcAccount (value_of reply 0));
  clockAccount ← lift (rpcAccount (value_of reply 1));
  lift (guardClient (fetchGuardSnapshot base64 (λ _, Ok (mkReply reply.1 mintAccount clockAccount)) mint)).

Definition refreshAndBuildGuardedTransfer (programAddress : option Address) (feePayer mint : Address)
    (transferChecked : Instruction) (before : option (list Instruction)) : action (GuardSnapshot * GuardedTransferChecked) :=
  snapshot ← getMintGuardSnapshot mint;
  guarded ← lift (buildSafeGuardedTransfer programAddress feePayer mint snapshot transferChecked before);
  mret (snapshot, guarded).

Definition readChainClock : action ChainClock :=
  account ← ask chain (λ e, ep_getAccountInfo e SYSVAR_CLOCK_ADDRESS);
  lift (match account ≫= ch_data with
        | None => Err (PlainError "Clock sysvar not returned")
        | Some encoded => data ← map_err Rejected (atob encoded); guardClient (decodeClock data)
        end).
End Building.

(* ------------------------------------------------------------------ *)
(** ** demo-asset.ts: what the session mint must hold *)

Definition DEMO_MINT_DECIMALS : Z := 6.
Definition DEMO_INITIAL_MULTIPLIER : jsnum := NumInt 1.
Definition DEMO_MINT_AMOUNT : Z := 1000000.
Definition DEMO_TRANSFER_AMOUNT : Z := 100000.
Definition EXPECTED_MULTIPLIER : bytes := setFloat64 DEMO_INITIAL_MULTIPLIER.

Definition check_decimals (metadata : MintMetadata) : result demo_exn unit :=
  fail_if (negb (decimals metadata =? DEMO_MINT_DECIMALS))
    ("Demo mint decimals were " +:+ show_Z (decimals metadata) +:+ ", expected " +:+ show_Z DEMO_MINT_DECIMALS).

Definition verifyDemoMintAccount (owner : string) (data : bytes) : result demo_exn unit :=
  protectedState ← guardClient (decodeProtectedState owner data);
  metadata ← guardClient (decodeMintMetadata owner data);
  check_decimals metadata;;
  fail_if (negb (bytesEqual (multiplier protectedState) EXPECTED_MULTIPLIER) || negb (bytesEqual (newMultiplier protectedState) EXPECTED_MULTIPLIER))
    "Demo mint ScaledUiAmount multiplier did not match the expected state";;
  fail_if (negb (newMultiplierEffectiveTimestamp protectedState =? 0)) "Demo mint ScaledUiAmount activation timestamp was not zero".

Definition verifyScheduledDemoMint (owner : string) (data : bytes) (scenario : EquityScenario) (effectiveTimestamp : Z) : result demo_exn unit :=
  protectedState ← guardClient (decodeProtectedState owner data);
  metadata ← guardClient (decodeMintMetadata owner data);
  check_decimals metadata;;
  initial ← storedMultiplier (sc_initialMultiplier scenario);
  fail_if (negb (bytesEqual (multiplier protectedState) initial)) "Demo mint current multiplier does not match the selected scenario";;
  new ← storedMultiplier (sc_newMultiplier scenario);
  fail_if (negb (bytesEqual (newMultiplier protectedState) new)) "Demo mint scheduled multiplier does not match the selected scenario";;
  fail_if (negb (newMultiplierEffectiveTimestamp protectedState =? effectiveTimestamp)) "Demo mint activation timestamp does not match this attempt".

Definition verifyDemoTokenAccountOwners (sourceOwner destinationOwner : string) : result demo_exn unit :=
  fail_if (negb (String.eqb sourceOwner TOKEN_2022_PROGRAM_ADDRESS)) "Source ATA owner is not Token-2022";;
  fail_if (negb (String.eqb destinationOwner TOKEN_2022_PROGRAM_ADDRESS)) "Destination ATA owner is not Token-2022".

(** [data[i] === n] of the instruction's data. *)
Definition data_is (i : Instruction) (n : nat) (z : Z) : bool := bool_decide ((ix_data i ≫= λ d, byte_at d n) = Some z).

Definition classifyPrepareInstruction (instruction : Instruction) : string :=
  if String.eqb (ix_programAddress instruction) "11111111111111111111111111111111" then "create-mint"
  else if String.eqb (ix_programAddress instruction) TOKEN_2022_PROGRAM_ADDRESS then
    if data_is instruction 0 20 then "initialize-mint"
    else if data_is instruction 0 7 then "mint-to"
    else if data_is instruction 0 43 && data_is instruction 1 0 then "initialize-scaled-ui"
    else if data_is instruction 0 43 && data_is instruction 1 1 then "schedule-multiplier"
    else "create-ata"
  else "create-ata".

(** The instruction builders of the token and system libraries. *)
Section Setup.
  (** Payer, new account, seed, lamports, space and owner program. *)
  Variable createAccountWithSeed : Address → Address → string → Z → Z → Address → Instruction.
  (** [getMintSize] of a mint with the ScaledUiAmount extension of this authority. *)
  Variable demoMintSpace : Address → Z.
  Variable initializeScaledUiAmountMint : Address → Address → jsnum → Instruction.
  Variable initializeMint2 : Address → Z → Address → Instruction.
  Variable updateMultiplierScaledUiMint : Address → Address → jsnum → Z → Instruction.
  Variable createAssociatedTokenIdempotent : Address → Address → Address → Instruction.
  Variable mintTo : Address → Address → Address → Z → Instruction.
  Variable associatedToken : Address → Address → Address.

Definition getCreateDemoMintInstructions (payer mintAddress : Address) (seed : string) (rentLamports : Z) : list Instruction :=
  [createAccountWithSeed payer mintAddress seed rentLamports (demoMintSpace payer) TOKEN_2022_PROGRAM_ADDRESS;
   initializeScaledUiAmountMint mintAddress payer DEMO_INITIAL_MULTIPLIER;
   initializeMint2 mintAddress DEMO_MINT_DECIMALS payer].

Definition getMintToWalletInstructions (payer mint owner : Address) (amount : Z) : list Instruction :=
  [createAssociatedTokenIdempotent payer owner mint; mintTo mint (associatedToken owner mint) payer amount].

(** [Number.isFinite(n) && n > 0], on the multipliers a scenario can hold. *)
Definition positive_finite (n : jsnum) : bool := (0 <? f64_bits n) && (f64_bits n <? F64_INFINITY).

Definition getArmCorporateActionInstruction (mint authority : Address) (new : jsnum) (effectiveTimestamp chainUnixTimestamp : Z)
    : result demo_exn Instruction :=
  fail_if (effectiveTimestamp <=? chainUnixTimestamp) "Activation timestamp must be after the chain clock";;
  fail_if (negb (positive_finite new)) "Scheduled multiplier must be a positive finite number";;
  Ok (updateMultiplierScaledUiMint mint authority new effectiveTimestamp).

Definition getPrepareSessionInstructions (payer mintAddress : Address) (seed : string) (rentLamports : Z) (recipient : Address)
    (scenario : EquityScenario) (effectiveTimestamp chainUnixTimestamp : Z) : result demo_exn (list Instruction) :=
  fail_if (negb (num_is (sc_initialMultiplier scenario) 1)) "Session mint must start at the demo multiplier";;
  arm ← getArmCorporateActionInstruction mintAddress payer (sc_newMultiplier scenario) effectiveTimestamp chainUnixTimestamp;
  Ok (getCreateDemoMintInstructions payer mintAddress seed rentLamports ++ [arm] ++
      getMintToWalletInstructions payer mintAddress payer DEMO_MINT_AMOUNT ++
      [createAssociatedTokenIdempotent payer recipient mintAddress]).
End Setup.

(* ------------------------------------------------------------------ *)
(** ** live-execution.ts: what a confirmed transaction proves *)

Inductive LiveKind : Set := K_SETUP | K_SAFE | K_BLOCK | K_REFRESH | K_STALE | K_UPDATED.

#[export] Instance LiveKind_eq_dec : EqDecision LiveKind.
Proof. solve_decision. Defined.

Record TokenBalances := mkBalances { tb_source : Z; tb_destination : Z }.

Inductive LiveResult : Type :=
| R_LOCAL_PREVIEW (kind : LiveKind) (allow : bool)
| R_PENDING (kind : LiveKind) (phase : LivePhase) (signature : option string)
| R_CONFIRMED_SUCCESS (kind : LiveKind) (signature : string) (slot : Z) (before after : TokenBalances)
| R_CONFIRMED_GUARD_REJECTION (signature : string) (slot instructionIndex customCode : Z) (before after : TokenBalances)
| R_CONFIRMED_ACTIVATION_REJECTION (signature symbol eventLabel authorizedMultiplier currentMultiplier : string)
| R_STALE_AUTHORIZATION_EXPIRED
| R_AUTHORIZATION_WINDOW_ELAPSED (clock activation : string)
| R_CONFIRMED_UPDATED_EXECUTION (signature symbol eventLabel tokenMovementRaw : string)
| R_CANCELLED (kind : LiveKind) (detail : string)
| R_FAILED (kind : LiveKind) (detail : string) (signature : option string).

Record CustomError := mkCustomError { ce_instructionIndex : Z; ce_code : Z }.

#[export] Instance CustomError_eq_dec : EqDecision CustomError.
Proof. solve_decision. Defined.

(** [error] is JSON: [null] when the transaction succeeded. *)
Record ConfirmedOutcome := mkOutcome {
  co_signature : string;
  co_slot : Z;
  co_error : jsval;
  co_customError : option CustomError;
  co_logs : list string;
  co_guardInstructionIndex : option Z;
}.

Definition is_null (v : jsval) : bool := match v with JNull => true | _ => false end.

Definition safeNonnegativeNumber (value : jsval) : option Z :=
  match value with
  | JBigint z => if (0 <=? z) && (z <=? MAX_SAFE_INTEGER) then Some z else None
  | JNum n => if isSafeInteger n && (0 <=? num_value n) then Some (num_value n) else None
  | _ => None
  end.

(** [key in v] of an object that is not an array. *)
Definition has_property (key : string) (v : jsval) : bool :=
  match v with JObject entries | JExotic entries => existsb (λ entry, String.eqb (fst entry) key) entries | _ => false end.

Definition parseCustomError (error : jsval) : option CustomError :=
  if negb (has_property "InstructionError" error) then None
  else
    match get_prop "InstructionError" error with
    | JArray [index; inner] =>
        if negb (has_property "Custom" inner) then None
        else
          instructionIndex ← safeNonnegativeNumber index;
          code ← safeNonnegativeNumber (get_prop "Custom" inner);
          Some (mkCustomError instructionIndex code)
    | _ => None
    end.

Definition assertSetupTransactionSucceeded (outcome : ConfirmedOutcome) : result demo_exn unit :=
  throw_if (negb (is_null (co_error outcome)))
    (LiveExecutionError L_CONFIRMED "Demo asset transaction failed on devnet" (Some (co_signature outcome)) (co_logs outcome)).

Definition balancesUnchanged (before after : TokenBalances) : bool :=
  (tb_source before =? tb_source after) && (tb_destination before =? tb_destination after).

Definition expectedTransferDelta (before after : TokenBalances) (amount : Z) : bool :=
  (tb_source before - tb_source after =? amount) && (tb_destination after - tb_destination before =? amount).

Definition isConfirmedTransfer (result : LiveResult) : bool :=
  match result with R_CONFIRMED_SUCCESS _ _ _ _ _ => true | _ => false end.

Definition isConfirmedGuardRejection (result : LiveResult) : bool :=
  match result with
  | R_CONFIRMED_GUARD_REJECTION _ _ index code before after => (0 <=? index) && (code =? 9) && balancesUnchanged before after
  | _ => false
  end.

(** [kind] is "SAFE" or "REFRESH". *)
Definition confirmedTransferResult (kind : LiveKind) (outcome : ConfirmedOutcome) (before after : TokenBalances) (amount : Z)
    : result demo_exn LiveResult :=
  fail_if (negb (is_null (co_error outcome)) || negb (expectedTransferDelta before after amount))
    "Confirmed transaction did not produce the expected token balance delta";;
  Ok (R_CONFIRMED_SUCCESS kind (co_signature outcome) (co_slot outcome) before after).

Definition confirmedSetupResult (outcome : ConfirmedOutcome) (after : TokenBalances) (expectedSource : Z) : result demo_exn LiveResult :=
  fail_if (negb (is_null (co_error outcome)) || negb (tb_source after =? expectedSource) || negb (tb_destination after =? 0))
    "Confirmed setup did not produce the expected demo-asset balances";;
  Ok (R_CONFIRMED_SUCCESS K_SETUP (co_signature outcome) (co_slot outcome) (mkBalances 0 0) after).

(** The guard's own instruction failed with this custom code. *)
Definition guard_failed_with (outcome : ConfirmedOutcome) (code : Z) : bool :=
  negb (is_null (co_error outcome)) &&
  match co_guardInstructionIndex outcome, co_customError outcome with
  | Some index, Some e => (ce_instructionIndex e =? index) && (ce_code e =? code)
  | _, _ => false
  end.

Definition confirmedGuardRejectionResult (outcome : ConfirmedOutcome) (before after : TokenBalances) : result demo_exn LiveResult :=
  throw_if (negb (guard_failed_with outcome 9 && balancesUnchanged before after))
    (LiveExecutionError L_CONFIRMED "Confirmed failure was not the expected MultiplierChanged guard rejection with zero token delta"
       (Some (co_signature outcome)) (co_logs outcome));;
  Ok (R_CONFIRMED_GUARD_REJECTION (co_signature outcome) (co_slot outcome) (co_guardInstructionIndex outcome ?? 0) 9 before after).

Definition programLogSucceeded (logs : list string) (program : string) : bool :=
  existsb (λ line, String.eqb line ("Program " +:+ program +:+ " success")) logs.

Definition programLogInvoked (logs : list string) (program : string) : bool :=
  existsb (λ line, startsWith ("Program " +:+ program +:+ " invoke") line) logs.

Definition confirmedActivationRejection (outcome : ConfirmedOutcome) (before after : TokenBalances)
    (symbol eventLabel authorizedMultiplier currentMultiplier : string) : result demo_exn LiveResult :=
  let logs := co_logs outcome in
  let accepted := guard_failed_with outcome 12 && balancesUnchanged before after
    && programLogInvoked logs EQUITY_GUARD_DEVNET_PROGRAM_ID && negb (programLogSucceeded logs TOKEN_2022_PROGRAM_ADDRESS) in
  throw_if (negb accepted)
    (LiveExecutionError L_CONFIRMED "Confirmed failure was not ActivationPhaseChanged with zero protected token movement"
       (Some (co_signature outcome)) logs);;
  Ok (R_CONFIRMED_ACTIVATION_REJECTION (co_signature outcome) symbol eventLabel authorizedMultiplier currentMultiplier).

Definition confirmedUpdatedExecution (outcome : ConfirmedOutcome) (before after : TokenBalances) (amount : Z) (symbol eventLabel : string)
    : result demo_exn LiveResult :=
  let logs := co_logs outcome in
  throw_if (negb (is_null (co_error outcome)) || negb (expectedTransferDelta before after amount)
      || negb (programLogSucceeded logs EQUITY_GUARD_DEVNET_PROGRAM_ID) || negb (programLogSucceeded logs TOKEN_2022_PROGRAM_ADDRESS)
      || Nat.eqb (String.length (co_signature outcome)) 0)
    (LiveExecutionError L_CONFIRMED "Confirmed transaction did not execute the protected transfer" (Some (co_signature outcome)) logs);;
  Ok (R_CONFIRMED_UPDATED_EXECUTION (co_signature outcome) symbol eventLabel (show_Z amount)).

(* ------------------------------------------------------------------ *)
(** ** Messages *)

Definition lower (c : Ascii.ascii) : Ascii.ascii :=
  let n := Ascii.nat_of_ascii c in if Nat.leb 65 n && Nat.leb n 90 then Ascii.ascii_of_nat (n + 32) else c.

(** [s] starts with [p], letters compared without case; [p] is lower case. *)
Fixpoint starts_ci (p s : string) : option string :=
  match p, s with
  | "", _ => Some s
  | String c p, String d s => if Ascii.eqb c (lower d) then starts_ci p s else None
  | _, "" => None
  end.

(** [/a|b|…/i.test(s)] for plain lower-case alternatives. *)
Fixpoint contains_ci (alternatives : list string) (s : string) : bool :=
  existsb (λ p, match starts_ci p s with Some _ => true | None => false end) alternatives ||
  match s with "" => false | String _ s => contains_ci alternatives s end.

(** [\w]. *)
Definition is_word (c : Ascii.ascii) : bool :=
  let n := Ascii.nat_of_ascii c in
  (Nat.leb 48 n && Nat.leb n 57) || (Nat.leb 65 n && Nat.leb n 90) || Nat.eqb n 95 || (Nat.leb 97 n && Nat.leb n 122).

Definition word_starts (s : string) : bool := match s with String c _ => is_word c | "" => false end.

(** An alternative between two word boundaries; [inside]: the character before is a word character. *)
Fixpoint contains_words_ci (alternatives : list string) (inside : bool) (s : string) : bool :=
  (negb inside && existsb (λ p, match starts_ci p s with Some rest => negb (word_starts rest) | None => false end) alternatives) ||
  match s with "" => false | String c s => contains_words_ci alternatives (is_word c) s end.

Definition CANCELLATION_PHRASES : list string :=
  flat_map (λ who, map (λ what, who +:+ " " +:+ what) ["rejected"; "cancelled"; "canceled"]) ["user"; "request"; "signature request"].

(** [error.message]. The texts of the [RangeError], of the address codec and of
    reads of [undefined] are the engine's; no test below looks for them. *)
Definition error_text (e : demo_exn) : string :=
  match e with
  | PlainError message => message
  | LiveExecutionError _ message _ _ | DevnetSubmissionError _ message _ => message
  | StaleAuthorizationExpired => "STALE_AUTHORIZATION_EXPIRED"
  | AuthorizationWindowMissed => "AUTHORIZATION WINDOW MISSED"
  | AuthorizationWindowElapsed _ _ =>
      "The corporate action activated before wallet approval completed. No transaction was submitted. Start a new attempt."
  | GuardThrown (GuardErr g) => err_message g
  | GuardThrown _ | TypeThrown | LoopUnfinished => ""
  | Rejected r => rej_message r
  end.

Definition isWalletCancellation (error : demo_exn) : bool :=
  match error with Rejected r => bool_decide (rej_code r = Some 4001) | _ => false end
  || contains_words_ci CANCELLATION_PHRASES false (error_text error).

Definition friendlyLiveError (kind : LiveKind) (error : demo_exn) : string :=
  let message := error_text error in
  let has alternatives := contains_ci alternatives message in
  let is_setup := bool_decide (kind = K_SETUP) in
  match error with
  | AuthorizationWindowElapsed _ _ => message
  | StaleAuthorizationExpired => "STALE_AUTHORIZATION_EXPIRED"
  | _ =>
  if String.eqb message "STALE_AUTHORIZATION_EXPIRED" then "STALE_AUTHORIZATION_EXPIRED"
  else if has ["no signature was requested"; "start a new attempt"] then message
  else if isWalletCancellation error then "No transaction was submitted."
  else
    match error with
    | LiveExecutionError L_SIGNING _ _ _ => "Transaction was not submitted."
    | LiveExecutionError L_SUBMITTED _ _ _ | LiveExecutionError L_CONFIRMING _ _ _ => "Transaction could not be confirmed."
    | LiveExecutionError L_CONFIRMED _ _ _ =>
        if is_setup then "Demo asset transaction failed on devnet." else "Transaction failed on devnet."
    | LiveExecutionError L_VERIFYING_MINT _ _ _ => "Transaction confirmed, but the demo asset could not be verified."
    | _ =>
    if has ["phantom wallet not found"] then "Phantom was not detected. Open this page in a browser profile where Phantom is installed."
    else if has ["demo asset not found"; "accountnotfound"; "could not find account"]
    then "Demo asset not found. Create a new demo asset to continue."
    else if has ["deployment"; "program verification"; "hash mismatch"; "cluster"; "mainnet"; "testnet"; "genesis"]
    then "Devnet or reviewed program verification failed. No signature was requested."
    else if has ["expired"; "confirmation"; "confirmed transaction metadata"]
    then "The transaction could not be confirmed on devnet. Check the technical activity before retrying."
    else if has ["instruction 0"; "multiplierchanged"; "guard rejection"]
    then "The expected EquityGuard rejection was not proven by the confirmed transaction."
    else if has ["balance delta"; "demo-asset balances"; "setup transaction failed"]
    then (if is_setup then "The demo asset was not confirmed with the expected balance."
          else "The confirmed token balances did not match the expected transfer.")
    else if is_setup then "The demo asset could not be created." else "The transaction did not produce the expected proof."
    end
  end.

Example cancellation_examples :
  map (λ m, isWalletCancellation (PlainError m))
    ["User rejected the request."; "Signature request CANCELED"; "superuser rejected"; "user rejectedly"; "the request cancelled"]
  = [true; true; false; false; true].
Proof. vm_compute. reflexivity. Qed.
