(* ===== verification/WalletSigning.v ===== *)
(** * live-execution.ts: signing, holding and submitting one authorization

    What the wallet may change in a transaction it signs, the sealed bytes, and
    the flows of the wallet demonstration over the endpoint of [DemoChain.v].
    Polls run on fuel; [submitHeldAuthorization_ends] bounds it by the lifetime of the
    blockhash. Diagnostics and rendering are left out. *)

From S2P Require Import Prelude Js Errors Kit Base58 Sha256 Abi OnChain OfflineCheck MintState Snapshot Downstream Deployment CanonicalKey DemoChain WalletDemo.

(* ------------------------------------------------------------------ *)
(** ** What the wallet returned *)

Definition phantomSignature (response : wallet_value) : result demo_exn string :=
  match response with
  | WObject _ _ (Some (JString signature)) =>
      if Nat.eqb (String.length signature) 0
      then Err (LiveExecutionError L_SIGNING "Phantom returned no transaction signature" None [])
      else Ok signature
  | _ => Err (LiveExecutionError L_SIGNING "Phantom returned no transaction signature" None [])
  end.

(** [serializedBytes]. *)
Definition serializedBytes (value : wallet_value) : option bytes := match value with WBytes b => Some b | _ => None end.

Definition phantomSignedTransaction (response : wallet_value) : result demo_exn bytes :=
  let candidate := match response with WObject (Some signedTransaction) _ _ => signedTransaction | _ => response end in
  match serializedBytes candidate, candidate with
  | Some direct, _ => Ok direct
  | None, WObject _ (Some serialize) _ =>
      serialized ← map_err Rejected serialize;
      of_option (LiveExecutionError L_SIGNING "Phantom returned no signed transaction bytes" None []) (serializedBytes serialized)
  | None, _ => Err (LiveExecutionError L_SIGNING "Phantom returned no signed transaction bytes" None [])
  end.

(* ------------------------------------------------------------------ *)
(** ** verifyWalletSignedTransaction *)

Definition COMPUTE_BUDGET_PROGRAM : Address := "ComputeBudget111111111111111111111111111111".

#[export] Instance AccountMeta_eq_dec : EqDecision AccountMeta.
Proof. solve_decision. Defined.

(** Two absent data fields are the same; accounts default to none. *)
Definition sameInstruction (left right : Instruction) : bool :=
  String.eqb (ix_programAddress left) (ix_programAddress right) && bool_decide (ix_data left = ix_data right) &&
  bool_decide (accounts_of left = accounts_of right).

Definition isAllowedComputeBudgetPrefix (instruction : Instruction) : bool :=
  String.eqb (ix_programAddress instruction) COMPUTE_BUDGET_PROGRAM && Nat.eqb (length (accounts_of instruction)) 0 &&
  match ix_data instruction with
  | None => false
  | Some data => (Nat.eqb (length data) 5 && bool_decide (byte_at data 0 = Some 2)) || (Nat.eqb (length data) 9 && bool_decide (byte_at data 0 = Some 3))
  end.

(** [unsignedInstructions.every((instruction, index) => same(instruction, suffix[index]))]. *)
Fixpoint every_same (unsigned suffix : list Instruction) : bool :=
  match unsigned, suffix with
  | [], _ => true
  | i :: unsigned, j :: suffix => sameInstruction i j && every_same unsigned suffix
  | _ :: _, [] => false
  end.

Record VerifiedSignature := mkVerified { vs_signature : string; vs_guardInstructionIndex : nat }.

Definition signing_error {A} (message : string) : result demo_exn A := Err (LiveExecutionError L_SIGNING message None []).
Definition signing_if (b : bool) (message : string) : result demo_exn unit := throw_if b (LiveExecutionError L_SIGNING message None []).

(** [instruction.data?.[0]]. *)
Definition discriminator (i : Instruction) : option byte := ix_data i ≫= head.

Section Verify.
  Context {codec : LegacyCodec}.

Definition decoded {A} (r : result rejection A) : result demo_exn A := map_err Rejected r.

Definition verifyWalletSignedTransaction (unsignedTransaction : compiled) (signedWire : bytes) : result demo_exn VerifiedSignature :=
  signed ← decoded (decodeWire signedWire);
  unsignedMessage ← decoded (decodeLegacy unsignedTransaction);
  signedMessage ← decoded (decodeLegacy signed.1);
  signing_if (negb (lm_legacy unsignedMessage) || negb (lm_legacy signedMessage)) "Phantom returned an unexpected transaction version";;
  signing_if (negb (Nat.eqb (length (lm_signers unsignedMessage)) 1) || negb (Nat.eqb (length (lm_signers signedMessage)) 1)
              || negb (bool_decide (lm_signers unsignedMessage !! 0%nat = lm_signers signedMessage !! 0%nat))
              || negb (String.eqb (lm_lifetime unsignedMessage) (lm_lifetime signedMessage)))
    "Phantom changed the transaction signer or lifetime";;
  let unsignedInstructions := lm_instructions unsignedMessage in
  let signedInstructions := lm_instructions signedMessage in
  let prefixLength := Z.of_nat (length signedInstructions) - Z.of_nat (length unsignedInstructions) in
  signing_if ((prefixLength <? 0) || (2 <? prefixLength)) "Phantom returned an unexpected signed transaction shape";;
  let prefix := take (Z.to_nat prefixLength) signedInstructions in
  let discriminators := map discriminator prefix in
  signing_if (negb (forallb isAllowedComputeBudgetPrefix prefix) || negb (Nat.eqb (length (remove_dups discriminators)) (length discriminators)))
    "Phantom added an unsupported transaction instruction";;
  signing_if (negb (every_same unsignedInstructions (drop (Z.to_nat prefixLength) signedInstructions)))
    "Phantom changed a protected transaction instruction while signing";;
  match signed.2 with
  | Some signatureBytes :: _ =>
      signing_if (forallb (λ byte, b2z byte =? 0) signatureBytes) "Phantom returned an unsigned transaction";;
      Ok (mkVerified (signatureText signatureBytes) (Z.to_nat prefixLength))
  | _ => signing_error "Phantom returned an unsigned transaction"
  end.
End Verify.

Definition assertBlockhashActive (currentBlockHeight lastValidBlockHeight : Z) (signature : option string) : result demo_exn unit :=
  throw_if (lastValidBlockHeight <? currentBlockHeight)
    (LiveExecutionError (match signature with Some s => if String.eqb s "" then L_SIGNING else L_CONFIRMING | None => L_SIGNING end)
       ("Transaction expired before confirmation (current block height " +:+ show_Z currentBlockHeight +:+ ", last valid "
        +:+ show_Z lastValidBlockHeight +:+ ")") signature []).

(* ------------------------------------------------------------------ *)
(** ** The sealed authorization *)

Record HeldSignedTransaction := mkHeld {
  hs_signedBytes : bytes;
  hs_sha256 : string;
  hs_lastValidBlockHeight : Z;
  hs_signature : string;
  hs_guardInstructionIndex : nat;
  hs_expectation : AssertSafeExecutionRequest;
}.

(** [pendingAuthorizationAfterSignature] is "hold". *)
Definition pendingAuthorizationAfterSignature (snapshot : GuardSnapshot) (scenario : EquityScenario) (activation : Z) : result demo_exn bool :=
  decision ← pendingSignDecision snapshot scenario activation;
  Ok (bool_decide (decision = D_sign) || bool_decide (decision = D_wait)).

Definition assertPendingAuthorizationStillOpen (snapshot : GuardSnapshot) (scenario : EquityScenario) (activation : Z) : result demo_exn unit :=
  hold ← pendingAuthorizationAfterSignature snapshot scenario activation;
  throw_if (negb hold) (AuthorizationWindowElapsed (clock_unixTimestamp (snap_clock snapshot)) activation).

Section Held.
  Context `{!Digest}.

Definition wireSha256Hex (b : bytes) : string := toHex (digest b).

Definition sealSignedTransaction (signedBytes : bytes) (lastValidBlockHeight : Z) (signature : string) (guardInstructionIndex : nat)
    (expectation : AssertSafeExecutionRequest) : HeldSignedTransaction :=
  mkHeld signedBytes (wireSha256Hex signedBytes) lastValidBlockHeight signature guardInstructionIndex expectation.

(** The loop over the indices of [actual], whose length is the held one. *)
Definition assertSameSignedBytes (held : HeldSignedTransaction) (actual : bytes) : result demo_exn unit :=
  fail_if (negb (Nat.eqb (length actual) (length (hs_signedBytes held))) || negb (String.eqb (wireSha256Hex actual) (hs_sha256 held)))
    "Signed transaction bytes changed";;
  fail_if (negb (bytesEqual actual (hs_signedBytes held))) "Signed transaction bytes changed".

Definition sealPendingAuthorizationIfOpen (snapshot : GuardSnapshot) (scenario : EquityScenario) (activation : Z) (signedBytes : bytes)
    (lastValidBlockHeight : Z) (signature : string) (guardInstructionIndex : nat) (expectation : AssertSafeExecutionRequest)
    : result demo_exn HeldSignedTransaction :=
  assertPendingAuthorizationStillOpen snapshot scenario activation;;
  Ok (sealSignedTransaction signedBytes lastValidBlockHeight signature guardInstructionIndex expectation).

Definition prepareHeldSubmission (held : HeldSignedTransaction) (currentBlockHeight : Z) : result demo_exn bytes :=
  throw_if (hs_lastValidBlockHeight held <? currentBlockHeight) StaleAuthorizationExpired;;
  assertSameSignedBytes held (hs_signedBytes held);;
  Ok (hs_signedBytes held).
End Held.

(* ------------------------------------------------------------------ *)
(** ** The flows *)

Section Flows.
  Context {address : AddressCodec} {hash : Digest} {codec : LegacyCodec}.
  Variable chain : nat → Endpoint.
  Variable atob : string → result rejection bytes.
  Variable base64 : string → bytes.

(** The catch clause around the wallet request. *)
Definition signing_failed {A} (error : demo_exn) : action A :=
  let cancelled := isWalletCancellation error in
  emit (ReportedPhase (if cancelled then L_CANCELLED else L_FAILED) None);;
  lift (Err match error with
        | LiveExecutionError _ _ _ _ => error
        | _ => LiveExecutionError (if cancelled then L_CANCELLED else L_SIGNING) (error_text error) None []
        end).

Definition NOT_SIGNABLE : string := "Chain clock is no longer inside the pending authorization window. No signature was requested.".

(** Reads the mint and requires the sign decision. *)
Definition readSignable (mint : Address) (scenario : EquityScenario) (activation : Z) : action GuardSnapshot :=
  snapshot ← getMintGuardSnapshot chain base64 mint;
  decision ← lift (pendingSignDecision snapshot scenario activation);
  lift (fail_if (negb (bool_decide (decision = D_sign))) NOT_SIGNABLE);;
  mret snapshot.

(** Everything before the wallet is asked: the compiled transaction, its
    expectation and the height its blockhash lives to. *)
Definition preparePending (feePayer mint : Address) (scenario : EquityScenario) (activation : Z) (transferChecked : Instruction)
    : action (compiled * AssertSafeExecutionRequest * Z) :=
  verifyMutationEnvironment chain atob;;
  blockhash ← ask chain ep_getLatestBlockhash;
  snapshot ← readSignable mint scenario activation;
  built ← lift (buildClockCrossingTransfer snapshot scenario activation Pending feePayer mint transferChecked None);
  transaction ← lift (decoded (compileLegacy feePayer blockhash (gt_instructions (cc_guarded built))));
  signingHeight ← ask chain ep_getBlockHeight;
  lift (assertBlockhashActive signingHeight (bh_lastValidBlockHeight blockhash) None);;
  again ← readSignable mint scenario activation;
  lift (fail_if (negb (bytesEqual (multiplier (snap_state again)) (multiplier (snap_state snapshot)))
                 || negb (bytesEqual (newMultiplier (snap_state again)) (newMultiplier (snap_state snapshot)))
                 || negb (newMultiplierEffectiveTimestamp (snap_state again) =? newMultiplierEffectiveTimestamp (snap_state snapshot)))
          "Session mint changed before signing. No signature was requested.");;
  mret (transaction, cc_expectation built, bh_lastValidBlockHeight blockhash).

(** The wallet signs; a failure reports its phase. *)
Definition askSignature (transaction : compiled) : action bytes :=
  emit (ReportedPhase L_SIGNING None);;
  catch (text ← lift (decoded (phantomText transaction));
         response ← ask_wallet chain M_signTransaction text;
         lift (phantomSignedTransaction response))
    signing_failed.

(** What the signed bytes must still satisfy, and the sealing. *)
Definition holdSigned (mint : Address) (scenario : EquityScenario) (activation : Z) (transaction : compiled)
    (expectation : AssertSafeExecutionRequest) (lastValidBlockHeight : Z) (signedWire : bytes) : action HeldSignedTransaction :=
  afterSign ← getMintGuardSnapshot chain base64 mint;
  catch (lift (assertPendingAuthorizationStillOpen afterSign scenario activation))
    (λ error, match error with
              | AuthorizationWindowElapsed _ _ => emit (ReportedPhase L_FAILED None);; lift (Err error)
              | _ => lift (Err error)
              end);;
  verified ← lift (verifyWalletSignedTransaction transaction signedWire);
  held ← lift (sealPendingAuthorizationIfOpen afterSign scenario activation signedWire lastValidBlockHeight
                 (vs_signature verified) (vs_guardInstructionIndex verified) expectation);
  emit (ReportedPhase L_HOLDING (Some (hs_signature held)));;
  mret held.

Definition signPendingProtectedTransfer (feePayer mint : Address) (scenario : EquityScenario) (activation : Z) (transferChecked : Instruction)
    : action HeldSignedTransaction :=
  prepared ← preparePending feePayer mint scenario activation transferChecked;
  let '(transaction, expectation, lastValidBlockHeight) := prepared in
  signedWire ← askSignature transaction;
  holdSigned mint scenario activation transaction expectation lastValidBlockHeight signedWire.

Definition is_confirmed (status : option string) : bool :=
  match status with Some s => String.eqb s "confirmed" || String.eqb s "finalized" | None => false end.

(** The confirmation poll; [expired]: what a height past the lifetime throws. *)
Fixpoint pollConfirmation (fuel : nat) (signature : string) (expired : Z → result demo_exn unit) : action unit :=
  match fuel with
  | O => lift (Err LoopUnfinished)
  | S fuel =>
      status ← ask chain (λ e, ep_getSignatureStatus e signature);
      if is_confirmed status then mret tt
      else
        current ← ask chain ep_getBlockHeight;
        lift (expired current);;
        pollConfirmation fuel signature expired
  end.

(** The confirmed transaction. *)
Definition readConfirmed (signature : string) (guardInstructionIndex : option Z) : action ConfirmedOutcome :=
  tx ← ask chain (λ e, ep_getTransaction e signature);
  match tx with
  | None => lift (Err (LiveExecutionError L_CONFIRMING "Confirmed transaction metadata is unavailable" (Some signature) []))
  | Some tx =>
      emit (ReportedPhase L_CONFIRMED (Some signature));;
      mret (mkOutcome signature (ti_slot tx) (ti_err tx) (parseCustomError (ti_err tx)) (ti_logs tx) guardInstructionIndex)
  end.

Definition confirming_failed (signature : string) (error : demo_exn) : action unit :=
  match error with
  | StaleAuthorizationExpired | LoopUnfinished => lift (Err error)
  | _ => emit (ReportedPhase L_FAILED (Some signature));;
         lift (Err (LiveExecutionError L_CONFIRMING (error_text error) (Some signature) []))
  end.

(** [/blockhash not found|block height exceeded/i]. *)
Definition submission_failed (signature : string) (error : demo_exn) : action string :=
  lift (Err (if contains_ci ["blockhash not found"; "block height exceeded"] (error_text error) then StaleAuthorizationExpired
             else LiveExecutionError L_SUBMITTED (error_text error) (Some signature) [])).

Definition submitHeldAuthorization (fuel : nat) (held : HeldSignedTransaction) : action ConfirmedOutcome :=
  verifyMutationEnvironment chain atob;;
  height ← ask chain ep_getBlockHeight;
  bytes ← lift (prepareHeldSubmission held height);
  emit (ReportedPhase L_SUBMITTED (Some (hs_signature held)));;
  submitted ← catch (submit_wire chain bytes) (submission_failed (hs_signature held));
  lift (throw_if (negb (String.eqb submitted (hs_signature held)))
          (LiveExecutionError L_SUBMITTED "Devnet RPC returned a different transaction signature" (Some (hs_signature held)) []));;
  emit (ReportedPhase L_CONFIRMING (Some (hs_signature held)));;
  catch (pollConfirmation fuel (hs_signature held)
           (λ current, throw_if (hs_lastValidBlockHeight held <? current) StaleAuthorizationExpired))
    (confirming_failed (hs_signature held));;
  readConfirmed (hs_signature held) (Some (Z.of_nat (hs_guardInstructionIndex held))).

(** The two ways [submitAndConfirm] signs: its own submission of the signed
    bytes, or the wallet's. *)
Definition signAndSubmit (transaction : compiled) (text : string) (skipPreflight : bool) : action (string * option Z) :=
  if skipPreflight then
    response ← ask_wallet chain M_signTransaction text;
    signedWire ← lift (phantomSignedTransaction response);
    verified ← lift (verifyWalletSignedTransaction transaction signedWire);
    wire ← lift (decoded (encodeAgain signedWire));
    submittedSignature ← submit_wire chain wire;
    lift (throw_if (negb (String.eqb submittedSignature (vs_signature verified)))
            (LiveExecutionError L_SUBMITTED "Devnet RPC returned a different transaction signature" (Some (vs_signature verified)) []));;
    mret (vs_signature verified, Some (Z.of_nat (vs_guardInstructionIndex verified)))
  else
    response ← ask_wallet chain M_signAndSendTransaction text;
    signature ← lift (phantomSignature response);
    mret (signature, None).

(** The catch clause of the poll of [submitAndConfirm], which also wraps an expiry. *)
Definition polling_failed (signature : string) (error : demo_exn) : action unit :=
  match error with
  | LoopUnfinished => lift (Err error)
  | _ => emit (ReportedPhase L_FAILED (Some signature));;
         lift (Err (LiveExecutionError L_CONFIRMING (error_text error) (Some signature) []))
  end.

Definition submitAndConfirm (fuel : nat) (feePayer : Address) (instructions : list Instruction) (skipPreflight : bool)
    (beforeSign : action unit) : action ConfirmedOutcome :=
  verifyMutationEnvironment chain atob;;
  blockhash ← ask chain ep_getLatestBlockhash;
  transaction ← lift (decoded (compileLegacy feePayer blockhash instructions));
  text ← lift (decoded (phantomText transaction));
  signingHeight ← ask chain ep_getBlockHeight;
  lift (assertBlockhashActive signingHeight (bh_lastValidBlockHeight blockhash) None);;
  beforeSign;;
  emit (ReportedPhase L_SIGNING None);;
  signed ← catch (signAndSubmit transaction text skipPreflight) signing_failed;
  let '(signature, guardInstructionIndex) := signed in
  emit (ReportedPhase L_SUBMITTED (Some signature));;
  emit (ReportedPhase L_CONFIRMING (Some signature));;
  catch (pollConfirmation fuel signature (λ current, assertBlockhashActive current (bh_lastValidBlockHeight blockhash) (Some signature)))
    (polling_failed signature);;
  readConfirmed signature guardInstructionIndex.
End Flows.

(* ------------------------------------------------------------------ *)
(** ** What the clock decisions say *)

(** The mint holds the scenario's schedule, read with its phase. *)
Record scheduled (snapshot : GuardSnapshot) (scenario : EquityScenario) (activation : Z) : Prop := {
  sd_initial : storedMultiplier (sc_initialMultiplier scenario) = Ok (multiplier (snap_state snapshot));
  sd_new : storedMultiplier (sc_newMultiplier scenario) = Ok (newMultiplier (snap_state snapshot));
  sd_time : newMultiplierEffectiveTimestamp (snap_state snapshot) = activation;
  sd_change : snap_hasScheduledChange snapshot = true;
  sd_phase : snap_phase snapshot = phaseAt (snap_state snapshot) (clock_unixTimestamp (snap_clock snapshot));
}.

Lemma scheduledBytesMatch_true snapshot scenario activation :
  scheduledBytesMatch snapshot scenario activation = Ok true ↔ scheduled snapshot scenario activation.
Proof.
  unfold scheduledBytesMatch. cbv zeta. rewrite bind_Ok. split.
  - intros (initial & Hi & H). destruct (bytesEqual _ initial) eqn:Hm; [|discriminate H]. cbn [and_then] in H.
    apply bytesEqual_spec in Hm as <-. apply bind_Ok in H as (new & Hn & [= H]). rewrite !andb_true_iff, !Z.eqb_eq in H.
    destruct H as [[[Hb Ht] Hc] Hp]. apply bytesEqual_spec in Hb as <-. by split.
  - intros [Hi Hn Ht Hc Hp]. exists (multiplier (snap_state snapshot)). split; [done|]. rewrite bytesEqual_refl. cbn [and_then].
    rewrite Hn. cbn [mbind result_bind]. by rewrite bytesEqual_refl, Ht, Hc, Hp, !Z.eqb_refl.
Qed.

Lemma pendingSign_Ok snapshot scenario activation : pendingSignDecision snapshot scenario activation = Ok D_sign ↔
  scheduled snapshot scenario activation ∧ snap_phase snapshot = Pending ∧
  0 < activation - clock_unixTimestamp (snap_clock snapshot) ≤ MAX_SIGN_LEAD_SECONDS.
Proof.
  unfold pendingSignDecision. rewrite bind_Ok. split.
  - intros (matches & Hm & H). destruct matches; [|discriminate H]. apply scheduledBytesMatch_true in Hm.
    destruct (Z.leb_spec activation (clock_unixTimestamp (snap_clock snapshot))); [discriminate H|].
    destruct (Z.eqb_spec (snap_phase snapshot) Pending); [|discriminate H].
    destruct (Z.ltb_spec MAX_SIGN_LEAD_SECONDS (activation - clock_unixTimestamp (snap_clock snapshot))); [discriminate H|]. split_and!; [done|done|lia|lia].
  - intros (Hm%scheduledBytesMatch_true & Hp & Hlead). exists true. split; [done|]. rewrite Hp. cbn [negb Z.eqb Pending].
    destruct (Z.leb_spec activation (clock_unixTimestamp (snap_clock snapshot))); [lia|].
    destruct (Z.ltb_spec MAX_SIGN_LEAD_SECONDS (activation - clock_unixTimestamp (snap_clock snapshot))); [lia|]. done.
Qed.

Lemma hold_Ok snapshot scenario activation u : assertPendingAuthorizationStillOpen snapshot scenario activation = Ok u →
  scheduled snapshot scenario activation ∧ snap_phase snapshot = Pending ∧ clock_unixTimestamp (snap_clock snapshot) < activation.
Proof.
  unfold assertPendingAuthorizationStillOpen, pendingAuthorizationAfterSignature, pendingSignDecision. intros H.
  apply bind_Ok in H as (hold & H & Hhold%throw_if_Ok%negb_false_iff). apply bind_Ok in H as (d & H & [= Hd]).
  apply bind_Ok in H as (matches & Hm & [= H]). subst hold. destruct matches; [|by subst d]. apply scheduledBytesMatch_true in Hm.
  cbn [negb] in H. destruct (Z.leb_spec activation (clock_unixTimestamp (snap_clock snapshot))); [by subst d|].
  destruct (Z.eqb_spec (snap_phase snapshot) Pending); [done|by subst d].
Qed.

(** The expectation a pending authorization carries. *)
Record pending_expectation (e : AssertSafeExecutionRequest) (activation : Z) : Prop := {
  pe_phase : expectedPhase e = Pending;
  pe_window : window e = CLOCK_CROSSING_WINDOW;
  pe_time : newMultiplierEffectiveTimestamp (expected e) = activation;
  pe_change : multiplier (expected e) ≠ newMultiplier (expected e);
}.

(** The program lets a pending authorization pass only before the activation. *)
Lemma pending_executes_before e activation actual now u : pending_expectation e activation →
  check (guard_request e) actual now = Ok u → now < activation.
Proof.
  intros [Hp Hw Ht Hc] [-> [Heq|[_ Hphase]]]%check_Ok.
  - by destruct Hc.
  - change (phase_at (guard_state (expected e)) now = guard_phase (expectedPhase e)) in Hphase.
    rewrite guard_phase_at, Hp in Hphase. unfold phaseAt in Hphase. rewrite Ht in Hphase.
    destruct (Z.leb_spec activation now); [discriminate Hphase|done].
Qed.

(* ------------------------------------------------------------------ *)
(** ** What the wallet may change *)

(** The same program, data and accounts. *)
Definition unchanged_instruction (i j : Instruction) : Prop :=
  ix_programAddress i = ix_programAddress j ∧ ix_data i = ix_data j ∧ accounts_of i = accounts_of j.

Lemma sameInstruction_spec i j : sameInstruction i j = true ↔ unchanged_instruction i j.
Proof. unfold sameInstruction, unchanged_instruction. rewrite !andb_true_iff, String.eqb_eq, !bool_decide_eq_true. tauto. Qed.

Lemma every_same_spec l k : length k = length l → every_same l k = true ↔ Forall2 unchanged_instruction l k.
Proof.
  revert k. induction l as [|i l IH]; intros [|j k] Hlen; try discriminate Hlen; cbn [every_same].
  - by split; [constructor|].
  - rewrite andb_true_iff, sameInstruction_spec, IH by (by injection Hlen). symmetry. apply Forall2_cons.
Qed.

(** A set-compute-unit-limit or set-compute-unit-price instruction. *)
Definition compute_budget (i : Instruction) : Prop :=
  ix_programAddress i = COMPUTE_BUDGET_PROGRAM ∧ accounts_of i = [] ∧
  ∃ data, ix_data i = Some data ∧ (length data = 5%nat ∧ byte_at data 0 = Some 2 ∨ length data = 9%nat ∧ byte_at data 0 = Some 3).

Lemma isAllowedComputeBudgetPrefix_spec i : isAllowedComputeBudgetPrefix i = true ↔ compute_budget i.
Proof.
  unfold isAllowedComputeBudgetPrefix, compute_budget. rewrite !andb_true_iff, String.eqb_eq, Nat.eqb_eq, length_zero_iff_nil.
  destruct (ix_data i) as [data|]; [|split; [by intros [_ H]|by intros (_ & _ & ? & H & _)]].
  rewrite orb_true_iff, !andb_true_iff, !Nat.eqb_eq, !bool_decide_eq_true. split.
  - intros [[H1 H2] H]. split_and!; [done|done|]. by exists data.
  - intros (H1 & H2 & ? & [= <-] & H). done.
Qed.

Lemma remove_dups_same {A} `{!EqDecision A} (l : list A) : length (remove_dups l) = length l ↔ NoDup l.
Proof.
  assert (Hle : ∀ k : list A, (length (remove_dups k) ≤ length k)%nat) by (induction k as [|x k IH]; cbn; [|case_decide; cbn]; lia).
  induction l as [|x l IH]; cbn; [by split; [constructor|]|]. rewrite NoDup_cons. specialize (Hle l). case_decide; cbn.
  - split; [lia|tauto].
  - rewrite <- IH. split; [intros [= ?]; tauto|intros [_ ->]; done].
Qed.

(** What a wallet may return for a transaction it was asked to sign. *)
Record kept_by_wallet (unsigned signed : LegacyMessage) (added : list Instruction) : Prop := {
  kw_version : lm_legacy unsigned = true ∧ lm_legacy signed = true;
  kw_signer : ∃ signer, lm_signers unsigned = [signer] ∧ lm_signers signed = [signer];
  kw_lifetime : lm_lifetime unsigned = lm_lifetime signed;
  kw_added : (length added ≤ 2)%nat ∧ Forall compute_budget added ∧ NoDup (map discriminator added);
  kw_instructions : ∃ kept, lm_instructions signed = added ++ kept ∧ Forall2 unchanged_instruction (lm_instructions unsigned) kept;
}.

Lemma signing_if_then_Ok {A} b message (m : result demo_exn A) a : (signing_if b message;; m) = Ok a ↔ b = false ∧ m = Ok a.
Proof. apply throw_if_then_Ok. Qed.

Lemma single {A} (l : list A) : length l = 1%nat → ∃ x, l = [x].
Proof. destruct l as [|x [|]]; try done. by exists x. Qed.

Lemma forallb_Forall_iff {A} (f : A → bool) (P : A → Prop) l : (∀ x, f x = true ↔ P x) → forallb f l = true ↔ Forall P l.
Proof. intros H. induction l as [|x l IH]; cbn; [by split; [constructor|]|]. rewrite andb_true_iff, H, IH. symmetry. apply Forall_cons. Qed.

Section VerifySpec.
  Context {codec : LegacyCodec}.

Lemma decoded_Ok {A} (r : result rejection A) a : decoded r = Ok a ↔ r = Ok a.
Proof. apply map_err_Ok. Qed.

(** C15: the demonstration accepts a signed transaction exactly when the wallet
    kept the version, the one signer and the lifetime, put at most two
    different compute-budget instructions in front, kept every instruction
    after them and really signed; the guard's index is the number it added. *)
Theorem verifyWalletSignedTransaction_exact transaction wire v :
  verifyWalletSignedTransaction transaction wire = Ok v ↔
  ∃ signed signature others unsignedMessage signedMessage added,
    decodeWire wire = Ok (signed, Some signature :: others) ∧
    decodeLegacy transaction = Ok unsignedMessage ∧ decodeLegacy signed = Ok signedMessage ∧
    kept_by_wallet unsignedMessage signedMessage added ∧
    (∃ byte, byte ∈ signature ∧ b2z byte ≠ 0) ∧
    v = mkVerified (signatureText signature) (length added).
Proof.
  assert (Hzero : ∀ signature, forallb (λ byte, b2z byte =? 0) signature = false ↔ ∃ byte, byte ∈ signature ∧ b2z byte ≠ 0).
  { intros signature. rewrite <- not_true_iff_false, (forallb_Forall_iff _ (λ byte, b2z byte = 0)) by (intros; apply Z.eqb_eq).
    split; [|intros (b & Hb & Hz) Hall; apply (proj1 (Forall_forall _ _) Hall) in Hb; lia].
    intros H. apply not_Forall_Exists in H; [|intros ?; apply _]. apply Exists_exists in H as (b & Hb & Hz). by exists b. }
  unfold verifyWalletSignedTransaction. split.
  - intros H. apply bind_Ok in H as ([signed sigs] & Hwire%decoded_Ok & H). apply bind_Ok in H as (um & Hum%decoded_Ok & H).
    apply bind_Ok in H as (sm & Hsm%decoded_Ok & H). cbn [fst snd] in *. cbv zeta in H. rewrite !signing_if_then_Ok in H.
    destruct H as (Hv & Hs & Hlen & Hp & He & H). apply orb_false_iff in Hv as [Hv1%negb_false_iff Hv2%negb_false_iff].
    rewrite !orb_false_iff, !negb_false_iff, !Nat.eqb_eq, bool_decide_eq_true, String.eqb_eq in Hs. destruct Hs as [[[Hs1 Hs2] Hs3] Hl].
    apply single in Hs1 as [s1 Hs1], Hs2 as [s2 Hs2]. rewrite Hs1, Hs2 in Hs3. injection Hs3 as ->.
    apply orb_false_iff in Hlen as [Hlo%Z.ltb_ge Hhi%Z.ltb_ge].
    set (n := Z.to_nat _) in *. assert (Hn : (n + length (lm_instructions um) = length (lm_instructions sm))%nat) by lia.
    assert (Htl : length (take n (lm_instructions sm)) = n) by (rewrite length_take; lia).
    rewrite orb_false_iff, !negb_false_iff, Nat.eqb_eq in Hp. destruct Hp as [Hcb Hnd].
    rewrite (forallb_Forall_iff _ _ _ isAllowedComputeBudgetPrefix_spec) in Hcb. apply remove_dups_same in Hnd.
    apply negb_false_iff, every_same_spec in He; [|rewrite length_drop; lia].
    destruct sigs as [|[signature|] others]; [discriminate H| |discriminate H]. apply signing_if_then_Ok in H as [Hz%Hzero [= <-]].
    exists signed, signature, others, um, sm, (take n (lm_instructions sm)). rewrite Htl. split_and!; try done.
    split; [done|by exists s2|done|split_and!; [lia|done|done]|].
    exists (drop n (lm_instructions sm)). by rewrite take_drop.
  - intros (signed & signature & others & um & sm & added & Hwire & Hum & Hsm & [[Hv1 Hv2] (s & Hs1 & Hs2) Hl (Hlen & Hcb & Hnd) (kept & Hk & Hsame)] & Hz & ->).
    rewrite Hwire, Hum. cbn [decoded map_err mbind result_bind fst snd]. rewrite Hsm. cbn [decoded map_err mbind result_bind]. cbv zeta.
    pose proof (Forall2_length _ _ _ Hsame) as Hkl.
    replace (Z.of_nat (length (lm_instructions sm)) - Z.of_nat (length (lm_instructions um))) with (Z.of_nat (length added))
      by (rewrite Hk, length_app; lia).
    rewrite Nat2Z.id, Hk, take_app_length, drop_app_length, !signing_if_then_Ok, Hv1, Hv2, Hs1, Hs2, Hl, String.eqb_refl.
    split_and!; [done| | | | |by apply Hzero|done].
    + cbn. by rewrite bool_decide_eq_true_2.
    + apply orb_false_iff. split; apply Z.ltb_ge; lia.
    + apply (forallb_Forall_iff _ _ _ isAllowedComputeBudgetPrefix_spec) in Hcb. apply remove_dups_same in Hnd.
      by rewrite Hcb, Hnd, Nat.eqb_refl.
    + apply negb_false_iff, every_same_spec; [lia|done].
Qed.
End VerifySpec.

(* ------------------------------------------------------------------ *)
(** ** What the flows guarantee, whatever the endpoint and the wallet answer *)

(** Only phases are reported. *)
Definition only_phases (e : effect) : Prop := match e with ReportedPhase _ _ => True | _ => False end.

Section FlowSpec.
  Context {address : AddressCodec} {hash : Digest} {codec : LegacyCodec}.
  Variable chain : nat → Endpoint.
  Variable atob : string → result rejection bytes.
  Variable base64 : string → bytes.

(** Nothing is recorded. *)
Definition silent {A} (m : action A) : Prop := adds (λ _, False) m.

Lemma silent_effects {A} (m : action A) w : silent m → w_effects (snd (m w)) = w_effects w.
Proof. intros H. destruct (H w) as (new & -> & Hnew & _). destruct new; [by rewrite app_nil_r|by inversion Hnew]. Qed.

Lemma silent_run {A} (m : action A) w r w' : silent m → m w = (r, w') → w_effects w' = w_effects w.
Proof. intros H Hm. rewrite <- (silent_effects m w H). by rewrite Hm. Qed.

(** What the endpoint answered to the first two requests of a run: devnet's
    genesis hash; and, asked for the two addresses of the reviewed deployment,
    an executable loader account that names the recorded ProgramData and a
    loader account with the reviewed binary, its hash included. *)
Definition reviewed_environment (w : World) : Prop :=
  ∃ deployment slot accounts program programData programText dataText key data attestation,
    ep_getGenesisHash (chain (w_moment w)) = Ok DEVNET_GENESIS_HASH ∧
    findReviewedGuardDeployment EQUITY_GUARD_DEVNET_PROGRAM_ID = Some deployment ∧
    ep_getMultipleAccounts (chain (S (w_moment w))) [dep_programAddress deployment; dep_programDataAddress deployment] = Ok (slot, accounts) ∧
    accounts !! 0%nat = Some (Some program) ∧ accounts !! 1%nat = Some (Some programData) ∧
    ch_executable program = true ∧ ch_owner program = BPF_LOADER_UPGRADEABLE_ADDRESS ∧
    ch_data program = Some programText ∧ atob programText = Ok (program_image key) ∧ length key = 32%nat ∧
    decodeAddress key = dep_programDataAddress deployment ∧
    ch_owner programData = BPF_LOADER_UPGRADEABLE_ADDRESS ∧ ch_data programData = Some dataText ∧ atob dataText = Ok data ∧
    reviewed_program_data deployment data attestation.

Lemma silent_environment : silent (verifyMutationEnvironment chain atob).
Proof.
  unfold silent, verifyMutationEnvironment, verifyDevnetCluster, readReviewedDeployment. adds.
Qed.

(** A view is of an account the reply holds, its data decoded. *)
Lemma reviewedView_Ok reply i view : reviewedView atob (value_of reply i) = Ok (Some view) →
  ∃ account text, reply.2 !! i = Some (Some account) ∧ ch_data account = Some text ∧ atob text = Ok (acc_data view) ∧
    acc_executable view = ch_executable account ∧ acc_owner view = ch_owner account.
Proof.
  unfold value_of. destruct (reply.2 !! i) as [[account|]|]; cbn; [|done|done].
  intros (data & Hd & [= <-])%bind_Ok. unfold chainAccountBytes in Hd. destruct (ch_data account) as [text|] eqn:Ht; [|done].
  apply map_err_Ok in Hd. by exists account, text.
Qed.

Lemma acceptance_Accepted check sha authority mutability :
  acceptanceFromIdentity check sha = Accepted authority mutability → ∃ attestation, check = CheckOk attestation.
Proof. unfold acceptanceFromIdentity. destruct check; [|done]. by eexists. Qed.

Lemma verifyMutationEnvironment_Ok w u w' : verifyMutationEnvironment chain atob w = (Ok u, w') → reviewed_environment w.
Proof.
  unfold verifyMutationEnvironment. intros (cluster & w1 & Hc & H)%action_bind_Ok. apply action_bind_Ok in H as (acc & w2 & Ha & H).
  apply lift_Ok in H as [H ->]. unfold verifyDevnetCluster in Hc. apply action_bind_Ok in Hc as (genesis & w3 & [Hg ->]%ask_Ok & [= <- <-]).
  unfold assertMutationGate in H. apply throw_if_then_Ok in H as [Hv%negb_false_iff H].
  rewrite Hv in Ha. destruct acc as [[authority mutability|]|]; [|discriminate H|discriminate H].
  apply action_bind_Ok in Ha as (acceptance & w4 & Hr & [= -> ->]). unfold readReviewedDeployment in Hr.
  destruct (findReviewedGuardDeployment EQUITY_GUARD_DEVNET_PROGRAM_ID) as [deployment|] eqn:Hf; [|discriminate Hr].
  apply action_bind_Ok in Hr as ([slot accounts] & w5 & [Hreply _]%ask_Ok & Hr). apply action_bind_Ok in Hr as (program & w6 & [Hp _]%lift_Ok & Hr).
  apply action_bind_Ok in Hr as (programData & w7 & [Hd _]%lift_Ok & [= Hacc _]).
  apply acceptance_Accepted in Hacc as [attestation (p & d & key & -> & -> & Hx & Ho & Hkey & Hlen & Hname & Hdo & Hdata)%verifyReviewed_spec].
  apply reviewedView_Ok in Hp as (program & text & Hp & Ht & Htext & Hpx & Hpo). apply reviewedView_Ok in Hd as (data & text' & Hd & Ht' & Htext' & _ & Hdo').
  assert (genesis = DEVNET_GENESIS_HASH) as -> by (unfold classifyDevnetCluster in Hv; by destruct (String.eqb_spec genesis DEVNET_GENESIS_HASH)).
  exists deployment, slot, accounts, program, data, text, text', key, (acc_data d), attestation. split_and!; try done; congruence.
Qed.

Lemma silent_snapshot mint : silent (getMintGuardSnapshot chain base64 mint).
Proof. unfold silent, getMintGuardSnapshot. adds. Qed.

(** A snapshot's phase and flag are those of its state and clock. *)
Lemma getMintGuardSnapshot_Ok mint w snap w' : getMintGuardSnapshot chain base64 mint w = (Ok snap, w') →
  snap_phase snap = phaseAt (snap_state snap) (clock_unixTimestamp (snap_clock snap)) ∧
  snap_hasScheduledChange snap = hasScheduledChange (snap_state snap).
Proof.
  unfold getMintGuardSnapshot. intros (reply & w1 & _ & H)%action_bind_Ok. apply action_bind_Ok in H as (m & w2 & _ & H).
  apply action_bind_Ok in H as (c & w3 & _ & H). apply lift_Ok in H as [H _]. apply map_err_Ok in H.
  apply fetchGuardSnapshot_Ok in H as (? & ? & ? & _ & _ & _ & _ & _ & _ & _ & Hp & Hs). done.
Qed.

Lemma silent_readSignable mint scenario activation : silent (readSignable chain base64 mint scenario activation).
Proof. unfold silent, readSignable. apply adds_bind; [apply silent_snapshot|intros snapshot; adds]. Qed.

Lemma readSignable_Ok mint scenario activation w snap w' : readSignable chain base64 mint scenario activation w = (Ok snap, w') →
  scheduled snap scenario activation ∧ snap_phase snap = Pending ∧
  0 < activation - clock_unixTimestamp (snap_clock snap) ≤ MAX_SIGN_LEAD_SECONDS ∧ snap_hasScheduledChange snap = hasScheduledChange (snap_state snap).
Proof.
  unfold readSignable. intros (snapshot & w1 & Hs & H)%action_bind_Ok. apply action_bind_Ok in H as (d & w2 & [Hd ->]%lift_Ok & H).
  apply action_bind_Ok in H as (u & w3 & [Hu ->]%lift_Ok & [= <- <-]). apply throw_if_Ok, negb_false_iff, bool_decide_eq_true in Hu as ->.
  apply pendingSign_Ok in Hd as (Hsch & Hp & Hlead). apply getMintGuardSnapshot_Ok in Hs as [_ Hc]. done.
Qed.

Lemma buildClockCrossing_Ok snapshot scenario activation phase feePayer mint tc program c :
  buildClockCrossingTransfer snapshot scenario activation phase feePayer mint tc program = Ok c →
  cc_expectation c = expectationFromSnapshot snapshot CLOCK_CROSSING_WINDOW ∧ snap_phase snapshot = phase ∧
  buildGuardedTransferChecked (program ?? EQUITY_GUARD_DEVNET_PROGRAM_ID) feePayer mint (cc_expectation c) tc None = Ok (cc_guarded c).
Proof.
  unfold buildClockCrossingTransfer. rewrite then_Ok. intros [_ H]. apply throw_if_then_Ok in H as [Hp%negb_false_iff%Z.eqb_eq H].
  apply bind_Ok in H as (g & Hg%map_err_Ok & [= <-]). done.
Qed.

Lemma silent_preparePending feePayer mint scenario activation tc : silent (preparePending chain atob base64 feePayer mint scenario activation tc).
Proof.
  unfold silent, preparePending. apply adds_bind; [apply silent_environment|intros _].
  apply adds_bind; [apply adds_ask|intros bh]. apply adds_bind; [apply silent_readSignable|intros s].
  apply adds_bind; [apply adds_lift|intros b]. apply adds_bind; [apply adds_lift|intros t]. apply adds_bind; [apply adds_ask|intros h].
  apply adds_bind; [apply adds_lift|intros _]. apply adds_bind; [apply silent_readSignable|intros a]. adds.
Qed.

(** What was ready before the wallet was asked. *)
Record prepared_pending (feePayer mint : Address) (activation : Z) (tc : Instruction) (transaction : compiled)
    (expectation : AssertSafeExecutionRequest) (lastValid : Z) : Prop := {
  pp_expectation : pending_expectation expectation activation;
  pp_transaction : ∃ blockhash guarded, bh_lastValidBlockHeight blockhash = lastValid ∧
    buildGuardedTransferChecked EQUITY_GUARD_DEVNET_PROGRAM_ID feePayer mint expectation tc None = Ok guarded ∧
    compileLegacy feePayer blockhash (gt_instructions guarded) = Ok transaction;
}.

Lemma preparePending_Ok feePayer mint scenario activation tc w p w' :
  preparePending chain atob base64 feePayer mint scenario activation tc w = (Ok p, w') →
  reviewed_environment w ∧ prepared_pending feePayer mint activation tc p.1.1 p.1.2 p.2.
Proof.
  unfold preparePending. intros (u & w1 & Henv & H)%action_bind_Ok. apply verifyMutationEnvironment_Ok in Henv. split; [done|].
  apply action_bind_Ok in H as (bh & w2 & _ & H). apply action_bind_Ok in H as (snap & w3 & Hs%readSignable_Ok & H).
  apply action_bind_Ok in H as (built & w4 & [Hb ->]%lift_Ok & H). apply action_bind_Ok in H as (tx & w5 & [Htx ->]%lift_Ok & H).
  apply action_bind_Ok in H as (height & w6 & _ & H). apply action_bind_Ok in H as (v & w7 & _ & H).
  apply action_bind_Ok in H as (again & w8 & _ & H). apply action_bind_Ok in H as (v' & w9 & _ & [= <- <-]). cbn [fst snd].
  apply buildClockCrossing_Ok in Hb as (He & Hp & Hg). apply decoded_Ok in Htx. destruct Hs as ([Hi Hn Ht Hc _] & _ & _ & Hflag).
  split; [|by exists bh, (cc_guarded built)]. rewrite He. split; cbn; [done|done|done|].
  rewrite Hflag in Hc. by apply hasScheduledChange_spec in Hc.
Qed.

Lemma askSignature_Ok transaction w wire w' : askSignature chain transaction w = (Ok wire, w') →
  ∃ text, phantomText transaction = Ok text ∧
    w_effects w' = w_effects w ++ [ReportedPhase L_SIGNING None; AskedWallet M_signTransaction text].
Proof.
  unfold askSignature. intros (u & w1 & [_ ->]%emit_Ok & H)%action_bind_Ok.
  apply catch_cases in H as [(b & Hm & [= <-])|(e & w2 & _ & H)].
  - apply action_bind_Ok in Hm as (text & w3 & [Ht%decoded_Ok ->]%lift_Ok & Hm).
    unfold ask_wallet in Hm. apply action_bind_Ok in Hm as (resp & w4 & Hm & [_ ->]%lift_Ok).
    apply action_bind_Ok in Hm as (u' & w5 & [_ ->]%emit_Ok & [_ ->]%ask_Ok). exists text. cbn. split; [done|]. by rewrite <- app_assoc.
  - unfold signing_failed in H. cbv zeta in H. apply action_bind_Ok in H as (? & ? & _ & [H _]%lift_Ok). discriminate H.
Qed.

Lemma holdSigned_Ok mint scenario activation transaction expectation lastValid wire w held w' :
  holdSigned chain base64 mint scenario activation transaction expectation lastValid wire w = (Ok held, w') →
  ∃ v, verifyWalletSignedTransaction transaction wire = Ok v ∧
    held = mkHeld wire (wireSha256Hex wire) lastValid (vs_signature v) (vs_guardInstructionIndex v) expectation ∧
    w_effects w' = w_effects w ++ [ReportedPhase L_HOLDING (Some (vs_signature v))].
Proof.
  unfold holdSigned. intros (after & w1 & Hs & H)%action_bind_Ok. apply (silent_run _ _ _ _ (silent_snapshot mint)) in Hs.
  apply action_bind_Ok in H as (u & w2 & Hc & H). unfold catch, lift in Hc.
  destruct (assertPendingAuthorizationStillOpen after scenario activation) as [[]|e] eqn:Ho.
  2: { destruct e; discriminate Hc. }
  injection Hc as <- <-. apply action_bind_Ok in H as (v & w3 & [Hv ->]%lift_Ok & H). apply action_bind_Ok in H as (h & w4 & [Hh ->]%lift_Ok & H).
  apply action_bind_Ok in H as (u' & w5 & [_ ->]%emit_Ok & [= <- <-]). unfold sealPendingAuthorizationIfOpen in Hh.
  rewrite Ho in Hh. injection Hh as <-. exists v. split; [done|]. split; [done|]. cbn. by rewrite Hs.
Qed.

(** C12: whatever the endpoint and the wallet answer, an authorization the flow
    returns was asked for once, after the endpoint answered this run with
    devnet's genesis hash and, for the two addresses of the reviewed
    deployment, with accounts that hold the reviewed binary; it was asked for
    the guarded transfer of this attempt; nothing was submitted; what the
    wallet returned still carries the guard and the transfer unchanged; and
    the program can only let it pass before the activation. *)
Theorem signPendingProtectedTransfer_sound feePayer mint scenario activation tc w held w'
  (Hrun : signPendingProtectedTransfer chain atob base64 feePayer mint scenario activation tc w = (Ok held, w')) :
  reviewed_environment w ∧
  (∃ transaction v, prepared_pending feePayer mint activation tc transaction (hs_expectation held) (hs_lastValidBlockHeight held) ∧
    verifyWalletSignedTransaction transaction (hs_signedBytes held) = Ok v ∧
    hs_sha256 held = wireSha256Hex (hs_signedBytes held) ∧ hs_signature held = vs_signature v ∧
    ∃ text, w_effects w' = w_effects w ++
      [ReportedPhase L_SIGNING None; AskedWallet M_signTransaction text; ReportedPhase L_HOLDING (Some (hs_signature held))]) ∧
  ∀ actual now, check (guard_request (hs_expectation held)) actual now = Ok tt → now < activation.
Proof.
  unfold signPendingProtectedTransfer in Hrun. apply action_bind_Ok in Hrun as ([[tx e] lastValid] & w1 & Hp & Hrun).
  pose proof (silent_run _ _ _ _ (silent_preparePending _ _ _ _ _) Hp) as Hw1. apply preparePending_Ok in Hp as [Henv Hp]. cbn in Hp.
  apply action_bind_Ok in Hrun as (wire & w2 & (text & _ & Hw2)%askSignature_Ok & (v & Hv & -> & Hw')%holdSigned_Ok).
  split; [done|]. cbn. split.
  - exists tx, v. split_and!; try done. exists text. by rewrite Hw', Hw2, Hw1, <- app_assoc.
  - intros actual now Hcheck. exact (pending_executes_before _ _ _ _ _ (pp_expectation _ _ _ _ _ _ _ Hp) Hcheck).
Qed.

(* ------------------------------------------------------------------ *)
(** ** Submitting the held bytes *)

Lemma only_phases_poll fuel signature expired : adds only_phases (pollConfirmation chain fuel signature expired).
Proof. induction fuel as [|fuel IH]; cbn [pollConfirmation]; adds. Qed.

Lemma only_phases_confirming signature e : adds only_phases (confirming_failed signature e).
Proof. unfold confirming_failed. destruct e; adds; by apply adds_emit. Qed.

Lemma only_phases_confirmed signature index : adds only_phases (readConfirmed chain signature index).
Proof. unfold readConfirmed. adds; by apply adds_emit. Qed.

(** What follows the submission. *)
Definition after_submission (fuel : nat) (held : HeldSignedTransaction) (submitted : string) : action ConfirmedOutcome :=
  lift (throw_if (negb (String.eqb submitted (hs_signature held)))
          (LiveExecutionError L_SUBMITTED "Devnet RPC returned a different transaction signature" (Some (hs_signature held)) []));;
  emit (ReportedPhase L_CONFIRMING (Some (hs_signature held)));;
  catch (pollConfirmation chain fuel (hs_signature held)
           (λ current, throw_if (hs_lastValidBlockHeight held <? current) StaleAuthorizationExpired))
    (confirming_failed (hs_signature held));;
  readConfirmed chain (hs_signature held) (Some (Z.of_nat (hs_guardInstructionIndex held))).

Lemma only_phases_after fuel held submitted : adds only_phases (after_submission fuel held submitted).
Proof.
  unfold after_submission. apply adds_bind; [apply adds_lift|intros _]. apply adds_bind; [by apply adds_emit|intros _].
  apply adds_bind; [apply adds_catch; [apply only_phases_poll|apply only_phases_confirming]|intros _]. apply only_phases_confirmed.
Qed.

(** Submitting sends nothing, or the held bytes once: it sends only past
    the check of the reviewed devnet deployment, at a height the blockhash is
    still valid at and with bytes that hash to the sealed digest, and after
    that nothing more is sent and the wallet is never asked. *)
Theorem submitHeldAuthorization_once fuel held w :
  let after := w_effects (snd (submitHeldAuthorization chain atob fuel held w)) in
  after = w_effects w ∨
  reviewed_environment w ∧ wireSha256Hex (hs_signedBytes held) = hs_sha256 held ∧
  (∃ moment height, ep_getBlockHeight (chain moment) = Ok height ∧ height ≤ hs_lastValidBlockHeight held) ∧
  ∃ rest, after = w_effects w ++ [ReportedPhase L_SUBMITTED (Some (hs_signature held)); SubmittedWire (hs_signedBytes held)] ++ rest ∧
    Forall only_phases rest.
Proof.
  cbv zeta. unfold submitHeldAuthorization.
  destruct (verifyMutationEnvironment chain atob w) as [[u|e] w1] eqn:Henv.
  2: { rewrite (action_fail _ _ _ _ _ Henv). left. exact (silent_run _ _ _ _ silent_environment Henv). }
  rewrite (action_step _ _ _ _ _ Henv). pose proof (silent_run _ _ _ _ silent_environment Henv) as Hw1. apply verifyMutationEnvironment_Ok in Henv.
  destruct (ep_getBlockHeight (chain (w_moment w1))) as [height|e] eqn:Hh.
  2: { left. unfold mbind, action_bind, ask at 1. cbn. by rewrite Hh. }
  rewrite (action_step (ask chain ep_getBlockHeight) _ w1 height (mkWorld (S (w_moment w1)) (w_effects w1))) by (unfold ask; by rewrite Hh).
  destruct (prepareHeldSubmission held height) as [bytes|e] eqn:Hp.
  2: { left. unfold mbind, action_bind, lift at 1. cbn. exact Hw1. }
  right. unfold prepareHeldSubmission in Hp. apply throw_if_then_Ok in Hp as [Hle%Z.ltb_ge Hp]. apply then_Ok in Hp as [Hs [= <-]].
  unfold assertSameSignedBytes in Hs. apply throw_if_then_Ok in Hs as [Hs _]. rewrite orb_false_iff, !negb_false_iff, String.eqb_eq in Hs.
  split; [done|]. split; [tauto|]. split; [by exists (w_moment w1), height|].
  rewrite (action_step (lift _) _ _ (hs_signedBytes held) (mkWorld (S (w_moment w1)) (w_effects w1))) by done.
  rewrite (action_step (emit _) _ _ tt (mkWorld (S (w_moment w1)) (w_effects w1 ++ [ReportedPhase L_SUBMITTED (Some (hs_signature held))]))) by done.
  set (w2 := mkWorld _ (_ ++ _)). unfold mbind at 1, action_bind at 1, catch at 1, submit_wire.
  rewrite (action_step (emit _) _ w2 tt (mkWorld (w_moment w2) (w_effects w2 ++ [SubmittedWire (hs_signedBytes held)]))) by done.
  unfold ask at 1. destruct (ep_sendTransaction _ _) as [submitted|e]; cbn [map_err].
  - destruct (only_phases_after fuel held submitted (mkWorld (S (w_moment w2)) (w_effects w2 ++ [SubmittedWire (hs_signedBytes held)]))) as (rest & Hr & Hall & _).
    exists rest. split; [|done]. etransitivity; [exact Hr|]. subst w2. cbn. by rewrite Hw1, <- !app_assoc.
  - exists []. split; [|done]. subst w2. cbn. by rewrite Hw1, <- !app_assoc.
Qed.
End FlowSpec.

(* ------------------------------------------------------------------ *)
(** ** The confirmation poll ends *)

Section Termination.
  Context {address : AddressCodec} {hash : Digest} {codec : LegacyCodec}.
  Variable chain : nat → Endpoint.
  Variable atob : string → result rejection bytes.
  (** From some request on, the chain is past the lifetime of the blockhash. *)
  Variables (lastValid : Z) (past : nat).
  Hypothesis Hpast : ∀ n height, (past ≤ n)%nat → ep_getBlockHeight (chain n) = Ok height → lastValid < height.

Lemma finishes_environment : finishes (verifyMutationEnvironment chain atob).
Proof.
  unfold verifyMutationEnvironment, verifyDevnetCluster, readReviewedDeployment, reviewedView, chainAccountBytes, assertMutationGate, fail_if.
  finishes.
Qed.

Lemma finishes_poll fuel signature expired : (∀ height, lastValid < height → ∃ e, expired height = Err e) →
  (∀ height, plain_result (expired height)) → (past < 2 * fuel)%nat → finishes (pollConfirmation chain fuel signature expired).
Proof.
  intros Hexp Hne Hfuel w. assert (past < w_moment w + 2 * fuel ∧ 0 < fuel)%nat as [Hw Hpos] by lia. clear Hfuel.
  revert w Hw. induction fuel as [|fuel IH]; intros w Hw; [lia|]. cbn [pollConfirmation].
  unfold mbind, action_bind, ask at 1. destruct (ep_getSignatureStatus _ _) as [status|e]; cbn [map_err]; [|by intros [=]].
  destruct (is_confirmed status); [by intros [=]|]. unfold ask at 1. cbn [w_moment w_effects].
  destruct (ep_getBlockHeight (chain (S (w_moment w)))) as [height|e] eqn:Hh; cbn [map_err]; [|by intros [=]].
  unfold lift at 1. destruct (expired height) as [[]|e] eqn:He.
  - destruct fuel as [|fuel].
    + apply Hpast in Hh; [|lia]. apply Hexp in Hh as (e & He'). congruence.
    + apply IH; cbn; lia.
  - cbn. intros [= ->]. by destruct (Hne height).
Qed.

(** C13: submitting ends: once the chain is past the lifetime of the blockhash
    the poll stops, so with fuel for the requests until then the flow returns
    an outcome or an error of the code. *)
Theorem submitHeldAuthorization_ends fuel held w (Hlast : hs_lastValidBlockHeight held = lastValid) (Hfuel : (past < 2 * fuel)%nat) :
  fst (submitHeldAuthorization chain atob fuel held w) ≠ Err LoopUnfinished.
Proof.
  revert w. change (finishes (submitHeldAuthorization chain atob fuel held)). unfold submitHeldAuthorization.
  apply finishes_bind; [apply finishes_environment|intros _]. apply finishes_bind; [apply finishes_ask|intros height].
  apply finishes_bind; [unfold prepareHeldSubmission, assertSameSignedBytes, fail_if; finishes|intros bytes].
  apply finishes_bind; [finishes|intros _]. apply finishes_bind; [|intros submitted].
  { apply finishes_catch; [finishes|intros e _]. unfold submission_failed. apply finishes_lift. destruct (contains_ci _ _); by intros [=]. }
  apply finishes_bind; [finishes|intros _]. apply finishes_bind; [finishes|intros _]. apply finishes_bind.
  - apply finishes_catch.
    + apply finishes_poll; [|intros; finishes|done]. intros h Hh. rewrite Hlast. exists StaleAuthorizationExpired.
      by rewrite (proj2 (Z.ltb_lt _ _) Hh).
    + intros e He. unfold confirming_failed. destruct e; finishes; done.
  - intros _. unfold readConfirmed. finishes.
Qed.
End Termination.

(* ------------------------------------------------------------------ *)
(** ** The clock decisions and the program's verdicts *)

Lemma contains_zero t now : i64_range t → contains (mkGuardWindow 0 0) t now = Ok (now =? t).
Proof.
  intros Ht. rewrite contains_u32 by (done || by split). cbn. rewrite Z.sub_0_r, Z.add_0_r.
  destruct Ht as [Hlo Hhi]. destruct (Z.ltb_spec t I64_MIN); [unfold I64_MIN in *; lia|]. destruct (Z.ltb_spec I64_MAX t); [unfold I64_MAX in *; lia|].
  cbn. f_equal. destruct (Z.eqb_spec now t) as [->|]; [by rewrite Z.leb_refl|].
  destruct (Z.leb_spec t now), (Z.leb_spec now t); cbn; lia || done.
Qed.

Lemma check_crossing state phase now : i64_range (newMultiplierEffectiveTimestamp state) →
  now ≠ newMultiplierEffectiveTimestamp state → phase = phaseAt state now →
  check (guard_request (mkRequest state phase CLOCK_CROSSING_WINDOW)) (guard_state state) now = Ok tt.
Proof.
  intros Ht Hne ->. apply check_Ok. split; [done|]. right. cbn [guard_request as_window expected window guard_state gs_effective_timestamp].
  rewrite contains_zero by done. split; [by destruct (Z.eqb_spec now (newMultiplierEffectiveTimestamp state))|].
  change (phase_at (guard_state state) now = guard_phase (phaseAt state now)). apply guard_phase_at.
Qed.

(** The demonstration's clock decisions are the program's verdicts: what
    it signs before the activation passes at that clock, what it reviews after
    the activation passes from then on while the mint is unchanged, and it
    calls a held authorization ready to submit exactly when the program would
    refuse it with ActivationPhaseChanged. *)
Theorem clock_decisions_agree snapshot scenario activation e
  (Hi64 : i64_range (newMultiplierEffectiveTimestamp (snap_state snapshot))) :
  let actual := guard_state (snap_state snapshot) in
  let now := clock_unixTimestamp (snap_clock snapshot) in
  let authorization := guard_request (expectationFromSnapshot snapshot CLOCK_CROSSING_WINDOW) in
  (pendingSignDecision snapshot scenario activation = Ok D_sign → check authorization actual now = Ok tt) ∧
  (activatedReviewDecision snapshot scenario activation = Ok A_ready → ∀ later, now ≤ later → check authorization actual later = Ok tt) ∧
  (pending_expectation e activation →
   (chainReadyForStaleSubmit snapshot e = Ok true ↔ check (guard_request e) actual now = Err E_ActivationPhaseChanged)).
Proof.
  cbv zeta. split_and!.
  - intros ([_ _ Ht _ Hp] & _ & Hlead)%pendingSign_Ok. apply check_crossing; [done|lia|done].
  - intros H later Hlater. unfold activatedReviewDecision in H. apply bind_Ok in H as (matches & Hm & H).
    destruct matches; [|discriminate H]. apply scheduledBytesMatch_true in Hm as [_ _ Ht _ Hp]. cbn [negb] in H.
    destruct (Z.eqb_spec (snap_phase snapshot) Activated) as [Ha|]; [|discriminate H].
    destruct (Z.leb_spec (clock_unixTimestamp (snap_clock snapshot)) activation); [discriminate H|].
    apply check_crossing; [done|lia|]. rewrite Ha. symmetry. unfold phaseAt. by rewrite (proj2 (Z.leb_le _ _)) by lia.
  - intros [Hp Hw Ht Hc]. unfold chainReadyForStaleSubmit. rewrite Hp, Hw. cbn [negb Z.eqb Pending].
    change (num_is (beforeSecs CLOCK_CROSSING_WINDOW) 0) with true. change (num_is (afterSecs CLOCK_CROSSING_WINDOW) 0) with true. cbn [negb orb].
    rewrite checkOffline_agrees; [|unfold valid_window; by rewrite Hw|by left|done].
    destruct (check (guard_request e) _ _) as [[]|err]; cbn; split; try (intros [=]; fail).
    + intros [= H%bool_decide_eq_true]. injection H as ->. done.
    + intros [= ->]. by rewrite bool_decide_eq_true_2.
Qed.

(* ------------------------------------------------------------------ *)
(** ** The deployment gate that accepts everything *)

Section Gate.
  Context {address : AddressCodec} {hash : Digest}.
  Variable chain : nat → Endpoint.
  Variable atob : string → result rejection bytes.

(** [verifyEquityGuardDeployment] of cluster-gate.ts tests the object the
    verification returns instead of its [ok]: it reports any two accounts that
    exist as verified, whatever they hold. *)
Theorem verifyEquityGuardDeployment_accepts_anything w reply program programData encoded encodedData data data'
  (Hreply : ∀ addresses, ep_getMultipleAccounts (chain (w_moment w)) addresses = Ok reply)
  (Hprogram : value_of reply 0 = Some program) (HprogramData : value_of reply 1 = Some programData)
  (Hdata : ch_data program = Some encoded ∧ atob encoded = Ok data)
  (Hdata' : ch_data programData = Some encodedData ∧ atob encodedData = Ok data') :
  fst (verifyEquityGuardDeployment chain atob w) = Ok (mkDeploymentVerification true EQUITY_GUARD_DEVNET_PROGRAM_ID None).
Proof.
  destruct Hdata as [He Hb], Hdata' as [He' Hb']. unfold verifyEquityGuardDeployment.
  change (findReviewedGuardDeployment EQUITY_GUARD_DEVNET_PROGRAM_ID) with (head REVIEWED_GUARD_DEPLOYMENTS). cbn [head REVIEWED_GUARD_DEPLOYMENTS].
  unfold mbind at 1, action_bind at 1, ask at 1. rewrite Hreply. cbn [map_err]. rewrite Hprogram, HprogramData.
  unfold loaderView, lift, mbind, action_bind, of_option. rewrite He, He'. cbn. by rewrite Hb, Hb'.
Qed.
End Gate.

(* ------------------------------------------------------------------ *)
(** ** A concrete endpoint and wallet *)

(** A digest under which any program of the reviewed length is the reviewed one. *)
Definition reviewed_sha256 : bytes := Eval vm_compute in fromHex "d7d59ccd9e96bb3eb3e16893aca638d8e5fdbfaf5032b4b39737ef16a41e4e46".

#[local, refine] Instance reviewed_digest : Digest := {| digest := λ _, reviewed_sha256 |}.
Proof. reflexivity. Defined.

(** The transaction of the attempt, and the bytes a wallet made of it with a
    compute-unit limit in front. *)
Definition sample_activation : Z := 1700000000.
Definition sample_scenario : EquityScenario := mkScenario "KO-DEMO" "KO-DEMO" "Coca-Cola Demo Equity" "2-for-1 stock split" (NumInt 1) (NumInt 2).
Definition sample_blockhash : Blockhash := mkBlockhash "4uhcVJyU9pJkvQyS88uRDiswHXSCkY3zQawwpjk2NsNY" 1150.
Definition sample_now : Z := 1699999980.
Definition sample_now_snapshot : GuardSnapshot := mkSnapshot sample_mint 7 (mkClock 7 sample_now) sample_state Pending true.
Definition sample_instructions : list Instruction := Eval vm_compute in
  match buildGuardedTransferChecked EQUITY_GUARD_DEVNET_PROGRAM_ID sample_payer sample_mint
          (expectationFromSnapshot sample_now_snapshot CLOCK_CROSSING_WINDOW) sample_transfer None with
  | Ok g => gt_instructions g
  | Err _ => []
  end.
Definition legacy_message (instructions : list Instruction) : LegacyMessage :=
  mkLegacy true [sample_payer] (bh_blockhash sample_blockhash) instructions.
Definition wallet_limit : Instruction := mkInstruction COMPUTE_BUDGET_PROGRAM None (Some [x02; x00; x00; x00; x00]).

Definition sample_codec : LegacyCodec := {|
  compiled := LegacyMessage;
  compileLegacy payer blockhash instructions := Ok (mkLegacy true [payer] (bh_blockhash blockhash) instructions);
  phantomText _ := Ok "message";
  decodeWire _ := Ok (legacy_message (wallet_limit :: sample_instructions), [Some [x01]]);
  decodeLegacy message := Ok message;
  encodeAgain wire := Ok wire;
  signatureText _ := "signature";
|}.

(** Devnet with the reviewed program, the mint before its activation and a
    chain that moves past the lifetime of the blockhash. *)
Definition sample_clock : bytes := le_bytes 8 7 ++ zeros 24 ++ le_bytes 8 sample_now.
Definition sample_program_data (encoded : string) : bytes :=
  if String.eqb encoded "program" then le_bytes 4 2 ++ b58_encode "4Zc4TAEYNSXCGUkpD7y7CcEWDS8a9aQBDfYHFu55dPE3" ?? []
  else le_bytes 4 3 ++ zeros 41 ++ zeros (Z.to_nat 63840).
Definition sample_atob (encoded : string) : result rejection bytes := Ok (sample_program_data encoded).
Definition sample_buffer (encoded : string) : bytes := if String.eqb encoded "mint" then sample_mint_account else sample_clock.
Definition sample_accounts (addresses : list Address) : Z * list (option ChainAccount) :=
  if bool_decide (head addresses = Some sample_mint)
  then (7, [Some (mkChainAccount false TOKEN_2022_PROGRAM_ADDRESS (Some "mint"));
            Some (mkChainAccount false "Sysvar1111111111111111111111111111111111111" (Some "clock"))])
  else (7, [Some (mkChainAccount true BPF_LOADER_UPGRADEABLE_ADDRESS (Some "program"));
            Some (mkChainAccount false BPF_LOADER_UPGRADEABLE_ADDRESS (Some "data"))]).
Definition sample_endpoint (height : Z) : Endpoint := {|
  ep_getGenesisHash := Ok DEVNET_GENESIS_HASH;
  ep_getMultipleAccounts addresses := Ok (sample_accounts addresses);
  ep_getAccountInfo _ := Ok None;
  ep_getLatestBlockhash := Ok sample_blockhash;
  ep_getBlockHeight := Ok height;
  ep_sendTransaction _ := Ok "signature";
  ep_getSignatureStatus _ := Ok None;
  ep_getTransaction _ := Ok None;
  ep_getTokenAccountBalance _ := Ok 0;
  ep_getMinimumBalanceForRentExemption _ := Ok 0;
  ep_request _ _ := Ok (WObject (Some (WBytes [x2a])) None None);
|}.
Definition sample_chain (n : nat) : Endpoint := sample_endpoint (1000 + 10 * Z.of_nat n).

Definition sample_signing : result demo_exn HeldSignedTransaction * World :=
  signPendingProtectedTransfer (codec := sample_codec) sample_chain sample_atob sample_buffer sample_payer sample_mint sample_scenario
    sample_activation sample_transfer (mkWorld 0 []).

Definition sample_held : HeldSignedTransaction := Eval vm_compute in
  match fst sample_signing with Ok held => held | Err _ => mkHeld [] "" 0 "" 0 (expectationFromSnapshot sample_now_snapshot CLOCK_CROSSING_WINDOW) end.
Definition sample_after : World := Eval vm_compute in snd sample_signing.

Lemma signPendingProtectedTransfer_sound_witness :
  length (w_effects sample_after) = 3%nat ∧ hs_guardInstructionIndex sample_held = 1%nat ∧
  reviewed_environment sample_chain sample_atob (mkWorld 0 []).
Proof.
  split; [reflexivity|]. split; [reflexivity|].
  refine (proj1 (signPendingProtectedTransfer_sound (codec := sample_codec) sample_chain sample_atob sample_buffer sample_payer sample_mint
    sample_scenario sample_activation sample_transfer (mkWorld 0 []) sample_held sample_after _)).
  vm_compute. reflexivity.
Defined.

Lemma submitHeldAuthorization_ends_witness :
  fst (submitHeldAuthorization sample_chain sample_atob 9 sample_held (mkWorld 0 [])) = Err StaleAuthorizationExpired ∧
  fst (submitHeldAuthorization sample_chain sample_atob 9 sample_held (mkWorld 0 [])) ≠ Err LoopUnfinished.
Proof.
  split; [vm_compute; reflexivity|].
  apply (submitHeldAuthorization_ends sample_chain sample_atob 1150 16); [|reflexivity|lia].
  intros n height Hn [= <-]. lia.
Defined.

Lemma clock_decisions_agree_witness :
  pendingSignDecision sample_now_snapshot sample_scenario sample_activation = Ok D_sign ∧
  check (guard_request (expectationFromSnapshot sample_now_snapshot CLOCK_CROSSING_WINDOW)) (guard_state sample_state) sample_now = Ok tt.
Proof.
  split; [vm_compute; reflexivity|].
  refine (proj1 (clock_decisions_agree sample_now_snapshot sample_scenario sample_activation
    (expectationFromSnapshot sample_now_snapshot CLOCK_CROSSING_WINDOW) _) _).
  - cbn. unfold i64_range, I64_MIN, I64_MAX. lia.
  - vm_compute. reflexivity.
Defined.

(** Two accounts of the wrong owner and of no program at all. *)
Definition attacker_endpoint : Endpoint :=
  let account := mkChainAccount false "4uhcVJyU9pJkvQyS88uRDiswHXSCkY3zQawwpjk2NsNY" (Some "program") in
  mkEndpoint (Ok DEVNET_GENESIS_HASH) (λ _, Ok (7, [Some account; Some account])) (λ _, Ok None) (Ok sample_blockhash) (Ok 0)
    (λ _, Ok "") (λ _, Ok None) (λ _, Ok None) (λ _, Ok 0) (λ _, Ok 0) (λ _ _, Ok WOther).

Lemma verifyEquityGuardDeployment_accepts_anything_witness :
  fst (readReviewedDeployment (λ _, attacker_endpoint) sample_atob (mkWorld 0 [])) =
    Ok (NotAccepted (EQUITY_GUARD_DEVNET_PROGRAM_ID +:+ " exists but is not executable (owner 4uhcVJyU9pJkvQyS88uRDiswHXSCkY3zQawwpjk2NsNY)")) ∧
  fst (verifyEquityGuardDeployment (λ _, attacker_endpoint) sample_atob (mkWorld 0 [])) =
    Ok (mkDeploymentVerification true EQUITY_GUARD_DEVNET_PROGRAM_ID None).
Proof.
  split; [vm_compute; reflexivity|].
  eapply (verifyEquityGuardDeployment_accepts_anything (λ _, attacker_endpoint) sample_atob (mkWorld 0 []));
    try reflexivity; split; reflexivity.
Defined.
