(* ===== verification/WalletApp.v ===== *)
(** * apps/devnet-wallet-demo/src/app.ts: the page of the wallet demonstration

    The page keeps one [AppState]; its handlers prepare a session, authorize
    the pending transfer, wait for the activation, submit the held bytes and
    authorize the updated transfer. A handler runs over the moments of
    [DemoChain.v]; whenever it waits, a wallet or faucet handler that was
    already running may resume and change the state under it. Session objects
    are held by reference: [ap_session] points into [ap_sessions]. *)

From S2P Require Import Prelude Js Float64 Errors Kit Base58 Sha256 Abi OnChain OfflineCheck MintState Snapshot Downstream Deployment CanonicalKey DemoChain WalletDemo WalletSigning.

(** [DemoAssetSetup] of demo-asset.ts. *)
Record DemoAssetSetup := mkAsset {
  da_mintAddress : Address;
  da_sourceAta : Address;
  da_destinationAta : Address;
  da_recipientAddress : Address;
}.

Record Session := mkDemoSession {
  se_attempt : ActiveAttempt;
  se_asset : DemoAssetSetup;
  se_activation : Z;
  se_held : option HeldSignedTransaction;
  se_staleAccepted : bool;
  se_updated : bool;
  se_proofClosed : bool;
}.

(** [provider]: whether one is kept (the provider itself is [ep_request]).
    [ap_sessions]: every session object made so far; [ap_shown]: the calls of
    [renderResult]; [ap_world]: the moment and the effects. *)
Record AppState := mkApp {
  ap_provider : bool;
  ap_wallet : option Address;
  ap_session : option nat;
  ap_sol : option Z;
  ap_token : option Z;
  ap_busy : bool;
  ap_sessions : list Session;
  ap_shown : list (string * LiveResult);
  ap_world : World;
}.

Definition initial_app : AppState := mkApp false None None None None false [] [] (mkWorld 0 []).

(* ------------------------------------------------------------------ *)
(** ** Assignments *)

Definition set_wallet (provider : bool) (wallet : option Address) (a : AppState) : AppState :=
  mkApp provider wallet (ap_session a) (ap_sol a) (ap_token a) (ap_busy a) (ap_sessions a) (ap_shown a) (ap_world a).
Definition set_session (session : option nat) (a : AppState) : AppState :=
  mkApp (ap_provider a) (ap_wallet a) session (ap_sol a) (ap_token a) (ap_busy a) (ap_sessions a) (ap_shown a) (ap_world a).
Definition set_sol (sol : option Z) (a : AppState) : AppState :=
  mkApp (ap_provider a) (ap_wallet a) (ap_session a) sol (ap_token a) (ap_busy a) (ap_sessions a) (ap_shown a) (ap_world a).
Definition set_token (token : option Z) (a : AppState) : AppState :=
  mkApp (ap_provider a) (ap_wallet a) (ap_session a) (ap_sol a) token (ap_busy a) (ap_sessions a) (ap_shown a) (ap_world a).
Definition set_busy (busy : bool) (a : AppState) : AppState :=
  mkApp (ap_provider a) (ap_wallet a) (ap_session a) (ap_sol a) (ap_token a) busy (ap_sessions a) (ap_shown a) (ap_world a).
Definition set_sessions (sessions : list Session) (a : AppState) : AppState :=
  mkApp (ap_provider a) (ap_wallet a) (ap_session a) (ap_sol a) (ap_token a) (ap_busy a) sessions (ap_shown a) (ap_world a).
Definition set_shown (shown : list (string * LiveResult)) (a : AppState) : AppState :=
  mkApp (ap_provider a) (ap_wallet a) (ap_session a) (ap_sol a) (ap_token a) (ap_busy a) (ap_sessions a) shown (ap_world a).
Definition set_world (w : World) (a : AppState) : AppState :=
  mkApp (ap_provider a) (ap_wallet a) (ap_session a) (ap_sol a) (ap_token a) (ap_busy a) (ap_sessions a) (ap_shown a) w.

Definition hold (held : HeldSignedTransaction) (s : Session) : Session :=
  mkDemoSession (se_attempt s) (se_asset s) (se_activation s) (Some held) (se_staleAccepted s) (se_updated s) (se_proofClosed s).
Definition accept_stale (s : Session) : Session :=
  mkDemoSession (se_attempt s) (se_asset s) (se_activation s) (se_held s) true (se_updated s) (se_proofClosed s).
Definition mark_updated (s : Session) : Session :=
  mkDemoSession (se_attempt s) (se_asset s) (se_activation s) (se_held s) (se_staleAccepted s) true (se_proofClosed s).
Definition close_proof (s : Session) : Session :=
  mkDemoSession (se_attempt s) (se_asset s) (se_activation s) (se_held s) (se_staleAccepted s) (se_updated s) true.

(** A write through the reference [i]. *)
Definition write_session (i : nat) (f : Session → Session) (a : AppState) : AppState := set_sessions (alter f i (ap_sessions a)) a.

(** What a handler that was already waiting does when it resumes: the
    disconnection, the connection ([None]: its key is no address), and the two
    balances of [refreshBalances]. *)
Inductive Resumption : Type :=
| RES_disconnected
| RES_connected (wallet : option Address)
| RES_sol (sol : Z)
| RES_token (amount : Z).

Definition resume (r : Resumption) (a : AppState) : AppState :=
  match r with
  | RES_disconnected => set_token None (set_sol None (set_session None (set_wallet false None a)))
  | RES_connected wallet => set_wallet true (match wallet with Some _ => wallet | None => ap_wallet a end) a
  | RES_sol sol => set_sol (Some sol) a
  | RES_token amount => set_token (Some amount) a
  end.

Definition resume_all (rs : list Resumption) (a : AppState) : AppState := foldl (λ a r, resume r a) a rs.

(* ------------------------------------------------------------------ *)
(** ** Handlers *)

Definition app (A : Type) : Type := AppState → result demo_exn A * AppState.

#[export] Instance app_ret : MRet app := λ A x a, (Ok x, a).
#[export] Instance app_bind : MBind app := λ A B f m a,
  match m a with (Ok x, a') => f x a' | (Err e, a') => (Err e, a') end.

Definition read {A} (f : AppState → A) : app A := λ a, (Ok (f a), a).
Definition modify (f : AppState → AppState) : app unit := λ a, (Ok tt, f a).
Definition pure {A} (r : result demo_exn A) : app A := λ a, (r, a).

(** [session] through its reference; a dangling one is a read of [undefined]. *)
Definition read_session (i : nat) : app Session := λ a, (of_option TypeThrown (ap_sessions a !! i), a).

Definition catch_app {A} (m : app A) (h : demo_exn → app A) : app A := λ a,
  match m a with (Ok x, a') => (Ok x, a') | (Err e, a') => h e a' end.

Definition renderResult (resultId : string) (result : LiveResult) : app unit :=
  modify (λ a, set_shown (ap_shown a ++ [(resultId, result)]) a).

(** The page around the chain, by moment: the value of the scenario control,
    the connection ([None]: no Phantom), the requests the demonstration does
    not share, fresh bytes and keys, and the handlers that resume. *)
Record Page := mkPage {
  pg_selected : nat → string;
  pg_connect : nat → option (result rejection string);
  pg_disconnect : nat → result rejection unit;
  pg_getBalance : nat → Address → result rejection Z;
  pg_requestAirdrop : nat → Address → Z → result rejection unit;
  pg_randomBytes : nat → bytes;
  pg_recipient : nat → Address;
  pg_resumed : nat → list Resumption;
}.

(** A request of the page itself. *)
Definition request {A} (f : nat → result rejection A) : action A := λ w,
  (map_err Rejected (f (w_moment w)), mkWorld (S (w_moment w)) (w_effects w)).

(** What the browser gives at once. *)
Definition see {A} (f : nat → A) : action A := λ w, (Ok (f (w_moment w)), w).

(** [Number(lamports) / 1_000_000_000], as its bits. *)
Definition sol_of (lamports : Z) : Z :=
  let '(p, q) := f64_value (f64_of_rational lamports 1) in f64_of_rational p (q * 1000000000).

(** [hasWalletContext] of live-execution.ts. *)
Definition hasWalletContext (provider : bool) (wallet : option Address) : bool := provider && bool_decide (is_Some wallet).

(** [preview(scenario, …)]: only its formatting can throw. *)
Definition preview (scenario : EquityScenario) : result demo_exn unit :=
  formatMultiplier (sc_initialMultiplier scenario);;
  formatMultiplier (sc_newMultiplier scenario);;
  Ok tt.

Definition NOT_MISSED : string :=
  "The corporate action was already active when the demo was prepared. Start a new attempt. No protected-action signature was requested.".

Section Handlers.
  Context {address : AddressCodec} {hash : Digest} {codec : LegacyCodec}.
  Variable chain : nat → Endpoint.
  Variable atob : string → result rejection bytes.
  Variable base64 : string → bytes.
  Variable page : Page.
  (** The bound of the confirmation polls, which the code does not have. *)
  Variable fuel : nat.
  (** Instruction builders, derivations and sizes of the token library. *)
  Variable transferCheckedInstruction : Address → Address → Address → Address → Z → Z → Instruction.
  Variable createAddressWithSeed : Address → string → Address → result rejection Address.
  Variable createAccountWithSeed : Address → Address → string → Z → Z → Address → Instruction.
  Variable demoMintSpace : Address → Z.
  Variable initializeScaledUiAmountMint : Address → Address → jsnum → Instruction.
  Variable initializeMint2 : Address → Z → Address → Instruction.
  Variable updateMultiplierScaledUiMint : Address → Address → jsnum → Z → Instruction.
  Variable createAssociatedTokenIdempotent : Address → Address → Address → Instruction.
  Variable mintTo : Address → Address → Address → Z → Instruction.
  Variable associatedToken : Address → Address → Address.

(** Waiting for the chain or the wallet: afterwards other handlers resume. *)
Definition during {A} (m : action A) : app A := λ a,
  let '(r, w) := m (ap_world a) in (r, resume_all (pg_resumed page (w_moment w)) (set_world w a)).

Definition selectedId : app string := read (λ a, pg_selected page (w_moment (ap_world a))).

Definition readTokenBalances (asset : DemoAssetSetup) : action TokenBalances :=
  source ← ask chain (λ e, ep_getTokenAccountBalance e (da_sourceAta asset));
  destination ← ask chain (λ e, ep_getTokenAccountBalance e (da_destinationAta asset));
  mret (mkBalances source destination).

Definition transferInstruction (session : Session) (wallet : Address) : Instruction :=
  let asset := se_asset session in
  transferCheckedInstruction (da_sourceAta asset) (da_mintAddress asset) (da_destinationAta asset) wallet DEMO_TRANSFER_AMOUNT DEMO_MINT_DECIMALS.

Definition execute (wallet : Address) (instructions : list Instruction) (skipPreflight : bool) (beforeSign : action unit) : app ConfirmedOutcome :=
  during (submitAndConfirm chain atob fuel wallet instructions skipPreflight beforeSign).

Definition requireWallet (kind : LiveKind) (resultId : string) : app (option Address) :=
  context ← read (λ a, (ap_provider a, ap_wallet a));
  if negb (hasWalletContext context.1 context.2)
  then renderResult resultId (R_FAILED kind "Connect Phantom before submitting a transaction." None);; mret None
  else mret context.2.

(** [signature ? { signature } : {}]. *)
Definition shown_signature (error : demo_exn) : option string :=
  match error with
  | LiveExecutionError _ _ (Some signature) _ => if String.eqb signature "" then None else Some signature
  | _ => None
  end.

(** The catch clause of [withBusy]. *)
Definition busy_failed (kind : LiveKind) (resultId : string) (error : demo_exn) : app unit :=
  let detail := friendlyLiveError kind error in
  match error with
  | LoopUnfinished => pure (Err LoopUnfinished)
  | AuthorizationWindowElapsed clock activation =>
      session ← read ap_session;
      match session with Some i => modify (write_session i close_proof) | None => mret tt end;;
      renderResult resultId (R_AUTHORIZATION_WINDOW_ELAPSED (show_Z clock) (show_Z activation))
  | _ =>
      renderResult resultId
        (if isWalletCancellation error then R_CANCELLED kind detail else R_FAILED kind detail (shown_signature error))
  end.

Definition withBusy (body : app unit) (kind : LiveKind) (resultId : string) : app unit :=
  busy ← read ap_busy;
  if busy : bool then mret tt
  else
    modify (set_busy true);;
    catch_app body (busy_failed kind resultId);;
    modify (set_busy false).

(* ------------------------------------------------------------------ *)
(** ** The wallet, the balances and the faucet *)

Definition refreshBalances : app unit :=
  wallet ← read ap_wallet;
  match wallet with
  | None => mret tt
  | Some wallet =>
      lamports ← during (request (λ n, pg_getBalance page n wallet));
      modify (set_sol (Some (sol_of lamports)));;
      session ← read ap_session;
      match session with
      | None => mret tt
      | Some i =>
          session ← read_session i;
          balances ← during (readTokenBalances (se_asset session));
          modify (set_token (Some (tb_source balances)))
      end
  end.

(** wallet.ts. *)
Definition connectPhantomWallet : action string := λ w,
  match pg_connect page (w_moment w) with
  | None => (Err (PlainError "Phantom wallet not found"), w)
  | Some _ => request (λ n, match pg_connect page n with Some reply => reply | None => Err (mkRejection None "") end) w
  end.

Definition toggleWallet : app unit :=
  busy ← read ap_busy;
  if busy : bool then mret tt
  else
    context ← read (λ a, (ap_provider a, ap_wallet a));
    if hasWalletContext context.1 context.2 then
      during (request (pg_disconnect page));;
      modify (resume RES_disconnected)
    else
      catch_app
        (publicKey ← during connectPhantomWallet;
         modify (λ a, set_wallet true (ap_wallet a) a);;
         pure (throw_if (negb (isAddress publicKey)) (GuardThrown CodecErr));;
         modify (λ a, set_wallet (ap_provider a) (Some publicKey) a);;
         refreshBalances)
        (λ _, mret tt).

Definition requestFaucet : app unit :=
  wallet ← read ap_wallet;
  busy ← read ap_busy;
  match wallet with
  | Some wallet =>
      if busy : bool then mret tt
      else
        catch_app
          (during (verifyMutationEnvironment chain atob);;
           during (request (λ n, pg_requestAirdrop page n wallet 1000000000));;
           refreshBalances)
          (λ _, mret tt)
  | None => mret tt
  end.

(* ------------------------------------------------------------------ *)
(** ** Preparing a session *)

(** The setup transaction: its asset, activation and instructions. *)
Definition planSetup (wallet : Address) (attempt : ActiveAttempt) : action (DemoAssetSetup * Z * list Instruction) :=
  clock ← readChainClock chain atob;
  activation ← lift (activationTimestamp (clock_unixTimestamp clock) ACTIVATION_DELAY_SECONDS);
  randomBytes ← see (pg_randomBytes page);
  let seed := "eg-" +:+ toHex randomBytes in
  mint ← lift (map_err Rejected (createAddressWithSeed wallet seed TOKEN_2022_PROGRAM_ADDRESS));
  recipient ← see (pg_recipient page);
  rent ← ask chain (λ e, ep_getMinimumBalanceForRentExemption e (demoMintSpace wallet));
  let asset := mkAsset mint (associatedToken wallet mint) (associatedToken recipient mint) recipient in
  instructions ← lift (getPrepareSessionInstructions createAccountWithSeed demoMintSpace initializeScaledUiAmountMint initializeMint2
    updateMultiplierScaledUiMint createAssociatedTokenIdempotent mintTo associatedToken wallet mint seed rent recipient
    (aa_scenario attempt) activation (clock_unixTimestamp clock));
  mret (asset, activation, instructions).

(** The try block that reads the confirmed accounts back, and its catch clause. *)
Definition verifySetup (attempt : ActiveAttempt) (asset : DemoAssetSetup) (activation : Z) : action TokenBalances :=
  catch
    (mintAccount ← ask chain (λ e, ep_getAccountInfo e (da_mintAddress asset));
     sourceAccount ← ask chain (λ e, ep_getAccountInfo e (da_sourceAta asset));
     destinationAccount ← ask chain (λ e, ep_getAccountInfo e (da_destinationAta asset));
     let missing := PlainError "Confirmed demo mint account is missing" in
     mintAccount ← lift (of_option missing mintAccount);
     sourceAccount ← lift (of_option missing sourceAccount);
     destinationAccount ← lift (of_option missing destinationAccount);
     encoded ← lift (of_option TypeThrown (ch_data mintAccount));
     mintData ← lift (map_err Rejected (atob encoded));
     lift (verifyScheduledDemoMint (ch_owner mintAccount) mintData (aa_scenario attempt) activation);;
     lift (verifyDemoTokenAccountOwners (ch_owner sourceAccount) (ch_owner destinationAccount));;
     readTokenBalances asset)
    (λ error, lift (Err (PlainError (error_text error +:+ " Start a new attempt.")))).

(** [state.session = { attempt, asset, activation, … }]: a new object. *)
Definition store_session (s : Session) (a : AppState) : AppState :=
  set_session (Some (length (ap_sessions a))) (set_sessions (ap_sessions a ++ [s]) a).

Definition prepareBody (wallet : Address) (attempt : ActiveAttempt) : app unit :=
  renderResult "prepare-result" (R_PENDING K_SETUP L_READY None);;
  plan ← during (planSetup wallet attempt);
  let '(asset, activation, instructions) := plan in
  outcome ← execute wallet instructions false (mret tt);
  pure (assertSetupTransactionSucceeded outcome);;
  renderResult "prepare-result" (R_PENDING K_SETUP L_VERIFYING_MINT (Some (co_signature outcome)));;
  balances ← during (verifySetup attempt asset activation);
  snapshot ← during (getMintGuardSnapshot chain base64 (da_mintAddress asset));
  decision ← pure (pendingSignDecision snapshot (aa_scenario attempt) activation);
  pure (fail_if (bool_decide (decision = D_mismatch) || bool_decide (decision = D_missed)) NOT_MISSED);;
  modify (store_session (mkDemoSession attempt asset activation None false false false));;
  modify (set_token (Some (tb_source balances)));;
  pure (preview (aa_scenario attempt));;
  result ← pure (confirmedSetupResult outcome balances DEMO_MINT_AMOUNT);
  renderResult "prepare-result" result.

Definition prepareDemo : app unit :=
  context ← requireWallet K_SETUP "prepare-result";
  session ← read ap_session;
  match context, session with
  | Some wallet, None =>
      id ← selectedId;
      scenario ← pure (scenarioById id);
      attempt ← pure (startAttempt scenario);
      withBusy (prepareBody wallet attempt) K_SETUP "prepare-result"
  | _, _ => mret tt
  end.

(* ------------------------------------------------------------------ *)
(** ** Waiting for the chain *)

Definition NO_SIGNATURE_TIMEOUT : demo_exn := PlainError "Timed out waiting for the Devnet clock. No signature was requested.".

(** [attempts]: the iterations left. *)
Fixpoint waitForPendingSign (attempts : nat) (session : Session) (scenario : EquityScenario) : app GuardSnapshot :=
  match attempts with
  | O => pure (Err NO_SIGNATURE_TIMEOUT)
  | S attempts =>
      snapshot ← during (getMintGuardSnapshot chain base64 (da_mintAddress (se_asset session)));
      pure (preview scenario);;
      decision ← pure (pendingSignDecision snapshot scenario (se_activation session));
      match decision with
      | D_sign => mret snapshot
      | D_wait =>
          renderResult "authorize-result" (R_PENDING K_STALE L_WAITING_FOR_CLOCK None);;
          waitForPendingSign attempts session scenario
      | D_missed => pure (Err (PlainError "The corporate action activated before authorization. No signature was requested."))
      | D_mismatch => pure (Err (PlainError "The session mint does not match the selected scenario. No signature was requested."))
      end
  end.

Fixpoint waitForActivation (attempts : nat) (session : Session) (held : HeldSignedTransaction) : app unit :=
  match attempts with
  | O => pure (Err (PlainError "Timed out waiting for the Devnet clock."))
  | S attempts =>
      snapshot ← during (getMintGuardSnapshot chain base64 (da_mintAddress (se_asset session)));
      height ← during (ask chain ep_getBlockHeight);
      ready ← pure (chainReadyForStaleSubmit snapshot (hs_expectation held));
      match heldWaitDecision height (hs_lastValidBlockHeight held) ready with
      | H_expired => pure (Err StaleAuthorizationExpired)
      | H_submit => mret tt
      | H_wait =>
          renderResult "authorize-result" (R_PENDING K_STALE L_WAITING_FOR_CLOCK (Some (hs_signature held)));;
          waitForActivation attempts session held
      end
  end.

Fixpoint waitForActivatedReview (attempts : nat) (session : Session) (scenario : EquityScenario) : app GuardSnapshot :=
  match attempts with
  | O => pure (Err NO_SIGNATURE_TIMEOUT)
  | S attempts =>
      snapshot ← during (getMintGuardSnapshot chain base64 (da_mintAddress (se_asset session)));
      decision ← pure (activatedReviewDecision snapshot scenario (se_activation session));
      match decision with
      | A_ready => mret snapshot
      | A_mismatch => pure (Err (PlainError "Updated state could not be verified. No signature was requested."))
      | A_wait =>
          renderResult "updated-result" (R_PENDING K_UPDATED L_WAITING_FOR_CLOCK None);;
          waitForActivatedReview attempts session scenario
      end
  end.

(* ------------------------------------------------------------------ *)
(** ** The pending authorization *)

(** The try block after the signature is held. *)
Definition submitStale (i : nat) (session : Session) (scenario : EquityScenario) (before : TokenBalances) (held : HeldSignedTransaction) : app unit :=
  waitForActivation 90 session held;;
  outcome ← during (submitHeldAuthorization chain atob fuel held);
  after ← during (readTokenBalances (se_asset session));
  modify (set_token (Some (tb_source after)));;
  authorized ← pure (formatMultiplier (sc_initialMultiplier scenario));
  current ← pure (formatMultiplier (sc_newMultiplier scenario));
  result ← pure (confirmedActivationRejection outcome before after (sc_symbol scenario) (sc_eventLabel scenario) authorized current);
  modify (write_session i accept_stale);;
  renderResult "authorize-result" result.

Definition stale_failed (error : demo_exn) : app unit :=
  match error with
  | StaleAuthorizationExpired => renderResult "authorize-result" R_STALE_AUTHORIZATION_EXPIRED
  | _ => pure (Err error)
  end.

Definition authorizeBody (wallet : Address) (i : nat) : app unit :=
  session ← read_session i;
  requestedId ← selectedId;
  scenario ← pure (scenarioForAttempt (se_attempt session) requestedId);
  waitForPendingSign 90 session scenario;;
  pure (preview scenario);;
  before ← during (readTokenBalances (se_asset session));
  held ← during (signPendingProtectedTransfer chain atob base64 wallet (da_mintAddress (se_asset session)) scenario (se_activation session)
                   (transferInstruction session wallet));
  modify (write_session i (hold held));;
  renderResult "authorize-result" (R_PENDING K_STALE L_HOLDING (Some (hs_signature held)));;
  catch_app (submitStale i session scenario before held) stale_failed.

Definition authorizeProtectedAction : app unit :=
  context ← requireWallet K_STALE "authorize-result";
  session ← read ap_session;
  match context, session with
  | None, _ => mret tt
  | Some _, None => renderResult "authorize-result" (R_FAILED K_STALE "Demo asset not found. Create a new demo asset to continue." None)
  | Some wallet, Some i => withBusy (authorizeBody wallet i) K_STALE "authorize-result"
  end.

(* ------------------------------------------------------------------ *)
(** ** The updated authorization *)

(** The check repeated before the wallet is asked. *)
Definition review_again (session : Session) (scenario : EquityScenario) : action unit :=
  latest ← getMintGuardSnapshot chain base64 (da_mintAddress (se_asset session));
  decision ← lift (activatedReviewDecision latest scenario (se_activation session));
  lift (fail_if (negb (bool_decide (decision = A_ready))) "Chain state changed before the updated authorization. No signature was requested.").

Definition confirmBody (wallet : Address) (i : nat) : app unit :=
  session ← read_session i;
  scenario ← pure (scenarioForAttempt (se_attempt session) (sc_id (aa_scenario (se_attempt session))));
  snapshot ← waitForActivatedReview 90 session scenario;
  before ← during (readTokenBalances (se_asset session));
  built ← pure (buildClockCrossingTransfer snapshot scenario (se_activation session) Activated wallet (da_mintAddress (se_asset session))
                  (transferInstruction session wallet) None);
  outcome ← execute wallet (gt_instructions (cc_guarded built)) false (review_again session scenario);
  after ← during (readTokenBalances (se_asset session));
  modify (set_token (Some (tb_source after)));;
  result ← pure (confirmedUpdatedExecution outcome before after DEMO_TRANSFER_AMOUNT (sc_symbol scenario) (sc_eventLabel scenario));
  modify (write_session i mark_updated);;
  renderResult "updated-result" result.

Definition confirmUpdatedAction : app unit :=
  context ← requireWallet K_UPDATED "updated-result";
  current ← read (λ a, i ← ap_session a; s ← ap_sessions a !! i; Some (i, s));
  match context, current with
  | Some wallet, Some (i, session) =>
      if negb (se_staleAccepted session) || se_updated session then mret tt
      else withBusy (confirmBody wallet i) K_UPDATED "updated-result"
  | _, _ => mret tt
  end.

Definition resetAttempt : app unit :=
  busy ← read ap_busy;
  if busy : bool then mret tt
  else modify (λ a, set_token None (set_session None a)).

(* ------------------------------------------------------------------ *)
(** ** The controls *)

(** The scenario controls only set the value [pg_selected] reads. *)
Inductive Control : Set := C_connect | C_faucet | C_prepare | C_authorize | C_confirm_updated | C_reset.

Definition current_session (a : AppState) : option Session := i ← ap_session a; ap_sessions a !! i.

(** [updateControls]: whether the control is enabled. *)
Definition enabled (c : Control) (a : AppState) : bool :=
  let connected := bool_decide (is_Some (ap_wallet a)) in
  let locked := bool_decide (is_Some (ap_session a)) in
  match c with
  | C_connect | C_reset => negb (ap_busy a)
  | C_faucet => connected && negb (ap_busy a)
  | C_prepare => connected && negb (ap_busy a) && negb locked
  | C_authorize =>
      connected && negb (ap_busy a) &&
      match current_session a with
      | Some s => negb (bool_decide (is_Some (se_held s))) && negb (se_proofClosed s)
      | None => false
      end
  | C_confirm_updated =>
      connected && negb (ap_busy a) &&
      match current_session a with Some s => se_staleAccepted s && negb (se_updated s) | None => false end
  end.

Definition handler (c : Control) : app unit :=
  match c with
  | C_connect => toggleWallet
  | C_faucet => requestFaucet
  | C_prepare => prepareDemo
  | C_authorize => authorizeProtectedAction
  | C_confirm_updated => confirmUpdatedAction
  | C_reset => resetAttempt
  end.

(** A click: the browser delivers it to an enabled control only. *)
Definition click (c : Control) (a : AppState) : result demo_exn unit * AppState :=
  if enabled c a then handler c a else (Ok tt, a).

(** One event of the page: a click whose handler ran to its end, or the
    resumption of a handler that was waiting. *)
Inductive app_step : AppState → AppState → Prop :=
| step_click c a r a' : click c a = (r, a') → r ≠ Err LoopUnfinished → app_step a a'
| step_resume r a : app_step a (resume r a).

(** The badges of [verifyHeader]: the cluster's and the program's. *)
Definition verifyHeader : action (bool * bool) :=
  catch
    (cluster ← verifyDevnetCluster chain;
     deployment ← (if cv_verified cluster then (acceptance ← readReviewedDeployment chain atob; mret (Some acceptance)) else mret None);
     mret (cv_verified cluster, match deployment with Some (Accepted _ _) => true | _ => false end))
    (λ _, mret (false, false)).
End Handlers.

(* ------------------------------------------------------------------ *)
(** ** How the state moves *)

Section AppLemmas.
  Context {A B : Type}.

Lemma app_bind_cases (m : app A) (f : A → app B) a r a' : (m ≫= f) a = (r, a') →
  (∃ x a1, m a = (Ok x, a1) ∧ f x a1 = (r, a')) ∨ ∃ e, m a = (Err e, a') ∧ r = Err e.
Proof.
  unfold mbind, app_bind. destruct (m a) as [[x|e] a1]; [intros H; left; by exists x, a1|intros [= <- <-]; right; by exists e].
Qed.

Lemma catch_app_cases (m : app A) h a r a' : catch_app m h a = (r, a') →
  (∃ x, m a = (Ok x, a') ∧ r = Ok x) ∨ ∃ e a1, m a = (Err e, a1) ∧ h e a1 = (r, a').
Proof. unfold catch_app. destruct (m a) as [[x|e] a1]; [intros [= <- <-]; left; by exists x|intros H; right; by exists e, a1]. Qed.
End AppLemmas.

Lemma adds_weaken {A} (P Q : effect → Prop) (m : action A) : (∀ e, P e → Q e) → adds P m → adds Q m.
Proof. intros HPQ Hm w. destruct (Hm w) as (new & Hw & HP & Hle). exists new. split_and!; [done|by eapply Forall_impl|done]. Qed.

(** Any effect at all. *)
Definition any (e : effect) : Prop := True.

(** What waiting may change: not the session objects, and the current session
    only by dropping it. *)
Record quietly (a a' : AppState) : Prop := {
  qu_sessions : ap_sessions a' = ap_sessions a;
  qu_session : ap_session a' = ap_session a ∨ ap_session a' = None;
  qu_busy : ap_busy a' = ap_busy a;
  qu_world : later (ap_world a) (ap_world a');
}.

#[export] Instance quietly_preorder : PreOrder quietly.
Proof.
  split.
  - intros a. split; [done|by left|done|done].
  - intros a b c [H1 H2 H3 H4] [K1 K2 K3 K4]. split; [congruence| |congruence|by etrans].
    destruct K2 as [->|?]; [done|by right].
Qed.

(** What a session keeps for ever. *)
Record evolves (s s' : Session) : Prop := {
  ev_attempt : se_attempt s' = se_attempt s;
  ev_asset : se_asset s' = se_asset s;
  ev_activation : se_activation s' = se_activation s;
  ev_held held : se_held s = Some held → se_held s' = Some held;
  ev_staleAccepted : se_staleAccepted s = true → se_staleAccepted s' = true;
  ev_updated : se_updated s = true → se_updated s' = true;
  ev_proofClosed : se_proofClosed s = true → se_proofClosed s' = true;
}.

#[export] Instance evolves_preorder : PreOrder evolves.
Proof.
  split.
  - intros s. by split.
  - intros s t u [] []. split; try congruence; eauto.
Qed.

(** Session objects evolve and the world goes forward. *)
Record grows (a a' : AppState) : Prop := {
  gr_sessions i s : ap_sessions a !! i = Some s → ∃ s', ap_sessions a' !! i = Some s' ∧ evolves s s';
  gr_world : later (ap_world a) (ap_world a');
}.

#[export] Instance grows_preorder : PreOrder grows.
Proof.
  split.
  - intros a. split; [|done]. intros i s Hs. by exists s.
  - intros a b c [H1 H2] [K1 K2]. split; [|by etrans].
    intros i s (t & Ht & Hst)%H1. apply K1 in Ht as (u & Hu & Htu). exists u. split; [done|by etrans].
Qed.

(* ------------------------------------------------------------------ *)
(** ** What every session stands for *)

Section AppSpec.
  Context {address : AddressCodec} {hash : Digest} {codec : LegacyCodec}.
  Variable chain : nat → Endpoint.
  Variable atob : string → result rejection bytes.
  Variable base64 : string → bytes.
  Variable page : Page.
  Variable fuel : nat.
  Variable transferCheckedInstruction : Address → Address → Address → Address → Z → Z → Instruction.
  Variable createAddressWithSeed : Address → string → Address → result rejection Address.
  Variable createAccountWithSeed : Address → Address → string → Z → Z → Address → Instruction.
  Variable demoMintSpace : Address → Z.
  Variable initializeScaledUiAmountMint : Address → Address → jsnum → Instruction.
  Variable initializeMint2 : Address → Z → Address → Instruction.
  Variable updateMultiplierScaledUiMint : Address → Address → jsnum → Z → Instruction.
  Variable createAssociatedTokenIdempotent : Address → Address → Address → Instruction.
  Variable mintTo : Address → Address → Address → Z → Instruction.
  Variable associatedToken : Address → Address → Address.

  Abbreviation step := (app_step chain atob base64 page fuel transferCheckedInstruction createAddressWithSeed createAccountWithSeed
    demoMintSpace initializeScaledUiAmountMint initializeMint2 updateMultiplierScaledUiMint createAssociatedTokenIdempotent mintTo associatedToken).
  Abbreviation click_on := (click chain atob base64 page fuel transferCheckedInstruction createAddressWithSeed createAccountWithSeed
    demoMintSpace initializeScaledUiAmountMint initializeMint2 updateMultiplierScaledUiMint createAssociatedTokenIdempotent mintTo associatedToken).
  Abbreviation prepare_body := (prepareBody chain atob base64 page fuel createAddressWithSeed createAccountWithSeed
    demoMintSpace initializeScaledUiAmountMint initializeMint2 updateMultiplierScaledUiMint createAssociatedTokenIdempotent mintTo associatedToken).

(** The scenario is of the catalogue, and before [now] its mint was read back
    as scheduled and the chain had not activated it. *)
Record armed (now : World) (s : Session) : Prop := {
  ar_scenario : aa_scenario (se_attempt s) ∈ SCENARIO_CATALOG;
  ar_status : aa_status (se_attempt s) = "ACTIVE";
  ar_mint : ∃ n account encoded data, (n < w_moment now)%nat ∧
    ep_getAccountInfo (chain n) (da_mintAddress (se_asset s)) = Ok (Some account) ∧ ch_data account = Some encoded ∧
    atob encoded = Ok data ∧
    verifyScheduledDemoMint (ch_owner account) data (aa_scenario (se_attempt s)) (se_activation s) = Ok tt;
  ar_pending : ∃ snapshot decision w w', getMintGuardSnapshot chain base64 (da_mintAddress (se_asset s)) w = (Ok snapshot, w') ∧
    later w' now ∧ pendingSignDecision snapshot (aa_scenario (se_attempt s)) (se_activation s) = Ok decision ∧ (decision = D_wait ∨ decision = D_sign);
}.

(** Before [now] the two balances were read, and after that the authorization
    came from the signing flow for this session. *)
Definition signed_for (now : World) (s : Session) (held : HeldSignedTransaction) (before : TokenBalances) : Prop :=
  ∃ wallet wb wb' wh wh', readTokenBalances chain (se_asset s) wb = (Ok before, wb') ∧ later wb' wh ∧
    signPendingProtectedTransfer chain atob base64 wallet (da_mintAddress (se_asset s)) (aa_scenario (se_attempt s))
      (se_activation s) (transferInstruction transferCheckedInstruction s wallet) wh = (Ok held, wh') ∧
    later wh' now.

(** Before [now], and in this order: the balances were read and the bytes were
    signed; the bytes were submitted and confirmed as refused by the guard's
    own instruction with [ActivationPhaseChanged]; the balances were read
    again, and are those read first. *)
Definition stale_proof (now : World) (s : Session) : Prop :=
  ∃ held before outcome after ws ws' new wa wa',
    se_held s = Some held ∧ signed_for ws s held before ∧
    submitHeldAuthorization chain atob fuel held ws = (Ok outcome, ws') ∧
    w_effects ws' = w_effects ws ++ new ∧ SubmittedWire (hs_signedBytes held) ∈ new ∧ guard_failed_with outcome 12 = true ∧
    later ws' wa ∧ readTokenBalances chain (se_asset s) wa = (Ok after, wa') ∧ later wa' now ∧ after = before.

(** Before [now], and in this order: the session was proved refused; the
    balances were read; the transfer rebuilt for the activated mint was signed,
    submitted and confirmed without an error; the balances were read again, and
    exactly the amount moved. *)
Record updated_proof (now : World) (s : Session) : Prop := {
  up_proof : ∃ wallet snapshot built before outcome after ww wb wb' wt wt' wa wa',
    stale_proof ww s ∧ later ww wb ∧ readTokenBalances chain (se_asset s) wb = (Ok before, wb') ∧ later wb' wt ∧
    buildClockCrossingTransfer snapshot (aa_scenario (se_attempt s)) (se_activation s) Activated wallet (da_mintAddress (se_asset s))
      (transferInstruction transferCheckedInstruction s wallet) None = Ok built ∧
    submitAndConfirm chain atob fuel wallet (gt_instructions (cc_guarded built)) false
      (review_again chain base64 s (aa_scenario (se_attempt s))) wt = (Ok outcome, wt') ∧ co_error outcome = JNull ∧
    later wt' wa ∧ readTokenBalances chain (se_asset s) wa = (Ok after, wa') ∧ later wa' now ∧
    tb_source after = tb_source before - DEMO_TRANSFER_AMOUNT ∧ tb_destination after = tb_destination before + DEMO_TRANSFER_AMOUNT;
}.

Record session_ok (now : World) (s : Session) : Prop := {
  so_armed : armed now s;
  so_held held : se_held s = Some held → ∃ before, signed_for now s held before;
  so_stale : se_staleAccepted s = true → stale_proof now s;
  so_updated : se_updated s = true → se_staleAccepted s = true ∧ updated_proof now s;
}.

Record coherent (a : AppState) : Prop := {
  ch_reference i : ap_session a = Some i → (i < length (ap_sessions a))%nat;
  ch_sessions : Forall (session_ok (ap_world a)) (ap_sessions a);
}.

(** What a handler does to the page. *)
Definition advances (a a' : AppState) : Prop := coherent a → coherent a' ∧ grows a a' ∧ ap_busy a' = ap_busy a.

#[local] Instance advances_preorder : PreOrder advances.
Proof.
  split.
  - intros a H. by split_and!.
  - intros a b c H K Ha. destruct (H Ha) as (Hb & Hg & E). destruct (K Hb) as (Hc & Kg & F). split_and!; [done|by etrans|congruence].
Qed.

Section Later.
  Context (now now' : World) (s : Session) (Hlater : later now now').

Lemma armed_later : armed now s → armed now' s.
Proof.
  intros [Hsc Hst (n & account & encoded & data & Hn & R) (snapshot & decision & w & w' & Hm & Hl & R')]. split; [done|done| |].
  - exists n, account, encoded, data. split; [destruct Hlater; lia|done].
  - exists snapshot, decision, w, w'. split_and!; [done|by etrans|apply R'|apply R'].
Qed.

Lemma signed_for_later held before : signed_for now s held before → signed_for now' s held before.
Proof. intros (wallet & wb & wb' & wh & wh' & Hb & L & Hh & L'). exists wallet, wb, wb', wh, wh'. split_and!; [done..|by etrans]. Qed.

Lemma stale_proof_later : stale_proof now s → stale_proof now' s.
Proof.
  intros (held & before & o & after & ws & ws' & new & wa & wa' & E & Hsig & Hsub & He & Hin & Hg & L & Ha & L' & Hab).
  exists held, before, o, after, ws, ws', new, wa, wa'. split_and!; try done. by etrans.
Qed.

Lemma updated_proof_later : updated_proof now s → updated_proof now' s.
Proof.
  intros [(wallet & snapshot & built & before & o & after & ww & wb & wb' & wt & wt' & wa & wa' & Hst & L1 & Hb & L2 & Hbu & Ht & Ho & L3 & Ha & L4 & R)].
  split. exists wallet, snapshot, built, before, o, after, ww, wb, wb', wt, wt', wa, wa'. destruct R. split_and!; try done. by etrans.
Qed.

Lemma session_ok_later : session_ok now s → session_ok now' s.
Proof.
  intros [Ha Hh Hs Hu]. split; [by apply armed_later| |by intros ?%Hs; apply stale_proof_later|].
  - intros held [before H]%Hh. exists before. by apply signed_for_later.
  - intros [? H]%Hu. split; [done|by apply updated_proof_later].
Qed.
End Later.

Lemma quietly_advances a a' : quietly a a' → advances a a'.
Proof.
  intros [Es Ei Eb Ee] [Hr Hs]. split_and!; [split| |done].
  - intros i Hi. rewrite Es. destruct Ei as [E|E]; rewrite E in Hi; [by apply Hr|done].
  - rewrite Es. eapply Forall_impl; [done|]. intros s. by apply session_ok_later.
  - split; [|done]. intros i s Hi. rewrite Es. by exists s.
Qed.

(** A write to a session object that lets it evolve into a correct one. *)
Lemma write_advances i f a : (∀ s, ap_sessions a !! i = Some s → session_ok (ap_world a) s →
    session_ok (ap_world a) (f s) ∧ evolves s (f s)) → advances a (write_session i f a).
Proof.
  intros Hf [Hr Hs]. split_and!; [split| |done]; cbn.
  - intros j Hj. rewrite length_alter. by apply Hr.
  - apply Forall_lookup. intros j s Hj. rewrite Forall_lookup in Hs. destruct (decide (i = j)) as [<-|Hij].
    + rewrite list_lookup_alter_eq in Hj. apply fmap_Some in Hj as (t & Ht & ->). apply Hf; [done|by eapply Hs].
    + rewrite list_lookup_alter_ne in Hj by done. by eapply Hs.
  - split; [|done]. intros j s Hj. cbn. rewrite Forall_lookup in Hs. destruct (decide (i = j)) as [<-|Hij].
    + rewrite list_lookup_alter_eq, Hj. exists (f s). split; [done|]. apply Hf; [done|by eapply Hs].
    + rewrite list_lookup_alter_ne by done. by exists s.
Qed.

(** A new session object. *)
Lemma store_advances s a : session_ok (ap_world a) s → advances a (store_session s a).
Proof.
  intros Hok [Hr Hs]. split_and!; [split| |done]; cbn.
  - intros i [= <-]. rewrite length_app. cbn. lia.
  - apply Forall_app. by split; [|apply Forall_singleton].
  - split; [|done]. intros i t Hi. cbn. exists t. split; [by apply lookup_app_l_Some|done].
Qed.

(** A computation that only waits and reports. *)
Definition quiet {A} (m : app A) : Prop := ∀ a, quietly a (snd (m a)).

Lemma quiet_ret {A} (x : A) : quiet (mret x).
Proof. by intros a. Qed.

Lemma quiet_pure {A} (r : result demo_exn A) : quiet (pure r).
Proof. by intros a. Qed.

Lemma quiet_read {A} (f : AppState → A) : quiet (read f).
Proof. by intros a. Qed.

Lemma quiet_read_session i : quiet (read_session i).
Proof. by intros a. Qed.

Lemma quiet_render resultId result : quiet (renderResult resultId result).
Proof. intros a. by split; [|left| |]. Qed.

Lemma quiet_token token : quiet (modify (set_token token)).
Proof. intros a. by split; [|left| |]. Qed.

Lemma quiet_sol sol : quiet (modify (set_sol sol)).
Proof. intros a. by split; [|left| |]. Qed.

Lemma quiet_wallet f g : quiet (modify (λ a, set_wallet (f a) (g a) a)).
Proof. intros a. by split; [|left| |]. Qed.

Lemma quietly_resume r a : quietly a (resume r a).
Proof. destruct r; (split; [done|first [by left|by right]|done|done]). Qed.

Lemma quietly_resume_all rs a : quietly a (resume_all rs a).
Proof. revert a. induction rs as [|r rs IH]; intros a; cbn; [done|]. etrans; [apply quietly_resume|apply IH]. Qed.

Lemma quiet_during {A} (m : action A) : adds any m → quiet (during page m).
Proof.
  intros Hm a. apply (adds_later _ _ (ap_world a)) in Hm. unfold during. destruct (m (ap_world a)) as [r w]. cbn in *.
  etrans; [|apply quietly_resume_all]. by split; [|left| |].
Qed.

Lemma quiet_bind {A B} (m : app A) (f : A → app B) : quiet m → (∀ x, quiet (f x)) → quiet (m ≫= f).
Proof.
  intros Hm Hf a. unfold mbind, app_bind. specialize (Hm a). destruct (m a) as [[x|e] a1]; [|done].
  etrans; [done|apply Hf].
Qed.

Lemma quiet_catch {A} (m : app A) h : quiet m → (∀ e, quiet (h e)) → quiet (catch_app m h).
Proof.
  intros Hm Hh a. unfold catch_app. specialize (Hm a). destruct (m a) as [[x|e] a1]; [done|]. etrans; [done|apply Hh].
Qed.

(** The first steps of a handler: either they ended it, or it goes on. *)
Lemma quiet_then {A B} (m : app A) (f : A → app B) a r a' : quiet m → (m ≫= f) a = (r, a') →
  quietly a a' ∨ ∃ x a1, quietly a a1 ∧ m a = (Ok x, a1) ∧ f x a1 = (r, a').
Proof.
  intros Hm [(x & a1 & Hx & H)|(e & H & _)]%app_bind_cases; specialize (Hm a).
  - rewrite Hx in Hm. right. by exists x, a1.
  - rewrite H in Hm. by left.
Qed.

Lemma resume_all_world rs a : ap_world (resume_all rs a) = ap_world a.
Proof.
  revert a. induction rs as [|r rs IH]; intros a; [done|]. change (ap_world (resume_all rs (resume r a)) = ap_world a).
  rewrite IH. by destruct r.
Qed.

(** What a handler waited for ran between its two worlds. *)
Lemma during_Ok {A} (m : action A) a x a' : during page m a = (Ok x, a') → m (ap_world a) = (Ok x, ap_world a').
Proof.
  unfold during. destruct (m (ap_world a)) as [[y|e] w] eqn:E; [|done]. intros [= -> <-]. by rewrite resume_all_world.
Qed.

(** *** The waits of the page *)

Lemma adds_any_request {A} (f : nat → result rejection A) : adds any (request f).
Proof. apply adds_nothing. intros w. cbn. split; [done|lia]. Qed.

Lemma adds_any_environment : adds any (verifyMutationEnvironment chain atob).
Proof. eapply adds_weaken, silent_environment. done. Qed.

Lemma adds_any_snapshot mint : adds any (getMintGuardSnapshot chain base64 mint).
Proof. eapply adds_weaken, silent_snapshot. done. Qed.

Lemma adds_any_clock : adds any (readChainClock chain atob).
Proof. unfold readChainClock. adds. Qed.

Lemma adds_any_balances asset : adds any (readTokenBalances chain asset).
Proof. unfold readTokenBalances. adds. Qed.

Lemma adds_any_poll signature expired : adds any (pollConfirmation chain fuel signature expired).
Proof. eapply adds_weaken, only_phases_poll. done. Qed.

#[local] Hint Resolve adds_any_request adds_any_environment adds_any_snapshot adds_any_clock adds_any_balances adds_any_poll : adds.
#[local] Hint Extern 1 (any _) => exact I : adds.

Lemma adds_any_connect : adds any (connectPhantomWallet page).
Proof.
  intros w. unfold connectPhantomWallet. destruct (pg_connect page (w_moment w)); [apply adds_any_request|].
  exists []. split_and!; [by rewrite app_nil_r|done|done].
Qed.

Lemma adds_any_submit held : adds any (submitHeldAuthorization chain atob fuel held).
Proof. unfold submitHeldAuthorization, submission_failed, confirming_failed, readConfirmed. adds. Qed.

Lemma adds_any_sign wallet mint scenario activation tc : adds any (signPendingProtectedTransfer chain atob base64 wallet mint scenario activation tc).
Proof.
  unfold signPendingProtectedTransfer. apply adds_bind; [eapply adds_weaken, silent_preparePending; done|intros [[tx e] l]].
  unfold askSignature, holdSigned, signing_failed. adds.
Qed.

Lemma adds_any_confirm wallet instructions skip m : adds any m → adds any (submitAndConfirm chain atob fuel wallet instructions skip m).
Proof.
  intros Hm. unfold submitAndConfirm, signAndSubmit, signing_failed, polling_failed, readConfirmed. adds.
Qed.

Lemma adds_any_see {A} (f : nat → A) : adds any (see f).
Proof. by apply adds_nothing. Qed.

#[local] Hint Resolve adds_any_see : adds.

Lemma adds_any_plan wallet attempt : adds any (planSetup chain atob page createAddressWithSeed createAccountWithSeed
    demoMintSpace initializeScaledUiAmountMint initializeMint2 updateMultiplierScaledUiMint createAssociatedTokenIdempotent mintTo associatedToken
    wallet attempt).
Proof. unfold planSetup. adds. Qed.

Lemma adds_any_verify attempt asset activation : adds any (verifySetup chain atob attempt asset activation).
Proof. unfold verifySetup. adds. Qed.

Lemma adds_any_review session scenario : adds any (review_again chain base64 session scenario).
Proof. unfold review_again. adds. Qed.

Create HintDb quiet.
#[local] Hint Resolve adds_any_connect adds_any_submit adds_any_sign adds_any_confirm adds_any_plan adds_any_verify adds_any_review adds_ret adds_ask : quiet.
#[local] Hint Resolve adds_any_request adds_any_environment adds_any_snapshot adds_any_clock adds_any_balances adds_any_poll adds_any_see : quiet.
#[local] Hint Resolve quiet_ret quiet_pure quiet_read quiet_read_session quiet_render quiet_token quiet_sol quiet_wallet quiet_during : quiet.

Ltac quiet :=
  repeat first
    [ solve [eauto with quiet]
    | apply quiet_bind; [|intros ?]
    | apply quiet_catch; [|intros ?]
    | match goal with
      | |- quiet (if ?b then _ else _) => destruct b
      | |- quiet (match ?x with _ => _ end) => destruct x
      | |- quiet (let _ := _ in _) => cbv zeta
      end ].

Lemma quiet_requireWallet kind resultId : quiet (requireWallet kind resultId).
Proof. unfold requireWallet. quiet. Qed.

Lemma quiet_pending attempts session scenario : quiet (waitForPendingSign chain base64 page attempts session scenario).
Proof. induction attempts; cbn; quiet. Qed.

Lemma quiet_activation attempts session held : quiet (waitForActivation chain base64 page attempts session held).
Proof. induction attempts; cbn; quiet. Qed.

Lemma quiet_review attempts session scenario : quiet (waitForActivatedReview chain base64 page attempts session scenario).
Proof. induction attempts; cbn; quiet. Qed.

Lemma quiet_refresh : quiet (refreshBalances chain page).
Proof. unfold refreshBalances. quiet. Qed.

Lemma quiet_execute wallet instructions skip m : adds any m → quiet (execute chain atob page fuel wallet instructions skip m).
Proof. intros Hm. apply quiet_during. by apply adds_any_confirm. Qed.

#[local] Hint Resolve quiet_requireWallet quiet_pending quiet_activation quiet_review quiet_refresh quiet_execute : quiet.

Lemma quiet_faucet : quiet (requestFaucet chain atob page).
Proof. unfold requestFaucet. quiet. Qed.

Lemma quiet_disconnected : quiet (modify (resume RES_disconnected)).
Proof. intros a. apply quietly_resume. Qed.

Lemma quiet_toggle : quiet (toggleWallet chain page).
Proof. pose proof quiet_disconnected. unfold toggleWallet. quiet. Qed.

Lemma quiet_reset : quiet resetAttempt.
Proof.
  unfold resetAttempt. apply quiet_bind; [quiet|intros [|]]; [quiet|]. intros a. by split; [|right| |].
Qed.

Lemma quiet_step {A} (m : app A) a r a' : quiet m → m a = (r, a') → quietly a a'.
Proof. intros Hm H. specialize (Hm a). by rewrite H in Hm. Qed.

(** A world reached over several waits. *)
Ltac later :=
  solve [ reflexivity | eassumption
        | match goal with H : later ?a ?b |- later ?a ?c => transitivity b; [exact H|]; clear H; later end ].

(** One wait of a handler: it ended there, or the rest runs from [a]; [Adv]
    follows what the handler did so far, and the worlds stay in order. *)
Ltac wait H Adv x Hx :=
  apply quiet_then in H; [|solve [quiet]];
  let b := fresh "a" in let Hq := fresh "Hq" in
  destruct H as [H|(x & b & Hq & Hx & H)];
  [by etrans; [exact Adv|apply quietly_advances]|];
  let L := fresh "L" in pose proof (qu_world _ _ Hq) as L;
  apply quietly_advances in Hq;
  let Adv' := fresh "Adv" in
  pose proof (transitivity Adv Hq) as Adv'; clear Adv Hq; rename Adv' into Adv.

Lemma pure_Ok {A} (r : result demo_exn A) a x a' : pure r a = (Ok x, a') → r = Ok x ∧ a' = a.
Proof. by intros [= -> ->]. Qed.

Lemma verifySetup_Ok attempt asset activation balances w w' : verifySetup chain atob attempt asset activation w = (Ok balances, w') →
  ∃ account encoded data, (w_moment w < w_moment w')%nat ∧
    ep_getAccountInfo (chain (w_moment w)) (da_mintAddress asset) = Ok (Some account) ∧ ch_data account = Some encoded ∧
    atob encoded = Ok data ∧ verifyScheduledDemoMint (ch_owner account) data (aa_scenario attempt) activation = Ok tt.
Proof.
  intros [(b & H & _)|(e & w1 & _ & H)]%catch_cases; [|discriminate H].
  apply action_bind_Ok in H as (m & w1 & [Hm ->]%ask_Ok & H).
  match type of H with ?m ?w1 = _ => assert (adds any m) as Hadds by adds; apply (adds_later _ _ w1) in Hadds; rewrite H in Hadds end.
  apply la_moment in Hadds. cbn in Hadds. apply action_bind_Ok in H as (? & ? & _ & H).
  apply action_bind_Ok in H as (? & ? & _ & H). apply action_bind_Ok in H as (account & ? & [->%of_option_Ok _]%lift_Ok & H).
  apply action_bind_Ok in H as (? & ? & _ & H). apply action_bind_Ok in H as (? & ? & _ & H).
  apply action_bind_Ok in H as (encoded & ? & [Henc%of_option_Ok _]%lift_Ok & H).
  apply action_bind_Ok in H as (data & ? & [Hd%map_err_Ok _]%lift_Ok & H).
  apply action_bind_Ok in H as ([] & ? & [Hv _]%lift_Ok & _). by exists account, encoded, data.
Qed.

Lemma prepareBody_advances wallet attempt a r a' : aa_scenario attempt ∈ SCENARIO_CATALOG → aa_status attempt = "ACTIVE" →
  prepare_body wallet attempt a = (r, a') → advances a a'.
Proof.
  intros Hcat Hact H. unfold prepareBody in H. assert (advances a a) as Adv by done.
  wait H Adv u Hu. wait H Adv plan Hplan. destruct plan as [[asset activation] instructions].
  wait H Adv outcome Ho. wait H Adv u1 Hu1. wait H Adv u2 Hu2. wait H Adv balances Hb. wait H Adv snapshot Hs.
  wait H Adv decision Hd. wait H Adv u3 Hu3.
  apply during_Ok, verifySetup_Ok in Hb as (account & encoded & data & Hlt & Hmint). apply during_Ok in Hs. apply pure_Ok in Hd as [Hd ->], Hu3 as [Hu3%fail_if_Ok ->].
  apply app_bind_cases in H as [(u4 & a9 & [= _ <-] & H)|(e & [=] & _)].
  match type of H with _ (store_session ?s ?b) = _ =>
    assert (advances a (store_session s b)) as Adv'
      by (etrans; [exact Adv|]; apply store_advances; split; try done; split; try done;
          [eexists _, account, encoded, data; split; [|exact Hmint];
             enough (later (ap_world a5) (ap_world b)) as [Hle _] by (eapply Nat.lt_le_trans, Hle; exact Hlt); later
          |exists snapshot, decision; eexists _, _; split_and!; [exact Hs|later|done|]; destruct decision; [by left|by right|done|done]])
  end.
  clear Adv. rename Adv' into Adv. wait H Adv u5 Hu5. wait H Adv u6 Hu6. wait H Adv res Hr.
  etrans; [exact Adv|]. apply quietly_advances. eapply quiet_step; [|exact H]. apply quiet_render.
Qed.

(** The same while only waits ran. *)
Ltac waitq H Q x Hx :=
  apply quiet_then in H; [|solve [quiet]];
  let b := fresh "a" in let Hq := fresh "Hq" in
  destruct H as [H|(x & b & Hq & Hx & H)];
  [by apply quietly_advances; etrans; [exact Q|]|];
  let L := fresh "L" in pose proof (qu_world _ _ Hq) as L;
  let Q' := fresh "Q" in
  pose proof (transitivity Q Hq) as Q'; clear Q Hq; rename Q' into Q.

Lemma submit_effect held w outcome w' : submitHeldAuthorization chain atob fuel held w = (Ok outcome, w') →
  ∃ new, w_effects w' = w_effects w ++ new ∧ SubmittedWire (hs_signedBytes held) ∈ new.
Proof.
  unfold submitHeldAuthorization. intros (? & w1 & Henv & H)%action_bind_Ok. apply silent_run in Henv; [|apply silent_environment].
  apply action_bind_Ok in H as (height & w2 & [_ ->]%ask_Ok & H).
  apply action_bind_Ok in H as (wire & w3 & [Hw ->]%lift_Ok & H).
  apply throw_if_then_Ok, proj2, bind_Ok in Hw as (? & _ & [= <-]).
  apply action_bind_Ok in H as (? & w4 & [_ ->]%emit_Ok & H). apply action_bind_Ok in H as (submitted & w5 & Hs & H).
  apply catch_cases in Hs as [(answer & Hs & _)|(e & w6 & _ & Hs)]; [|discriminate Hs].
  apply action_bind_Ok in Hs as (? & w6 & [_ ->]%emit_Ok & [_ ->]%ask_Ok).
  match type of H with ?m ?w5 = _ => assert (adds any m) as Hm by (unfold confirming_failed, readConfirmed; adds);
    destruct (Hm w5) as (new & Hn & _) end.
  rewrite H in Hn. cbn in Hn. rewrite Hn, Henv, <- !app_assoc. eexists. split; [done|]. cbn. set_solver.
Qed.

Lemma confirmedActivationRejection_Ok outcome before after symbol label m m' res :
  confirmedActivationRejection outcome before after symbol label m m' = Ok res →
  guard_failed_with outcome 12 = true ∧ after = before.
Proof.
  unfold confirmedActivationRejection. intros [H _]%throw_if_then_Ok. apply negb_false_iff in H.
  apply andb_true_iff in H as [H _]. apply andb_true_iff in H as [H _]. apply andb_true_iff in H as [Hg Hb]. split; [done|].
  unfold balancesUnchanged in Hb. apply andb_true_iff in Hb as [H1%Z.eqb_eq H2%Z.eqb_eq]. destruct before, after. cbn in *. congruence.
Qed.

Lemma submitStale_advances i s session scenario before held a r a' :
  ap_sessions a !! i = Some s → se_held s = Some held → se_asset session = se_asset s →
  signed_for (ap_world a) s held before →
  submitStale chain atob base64 page fuel i session scenario before held a = (r, a') → advances a a'.
Proof.
  intros Hi Hheld Hasset Hsigned H. unfold submitStale in H. rewrite Hasset in H. assert (quietly a a) as Q by done.
  waitq H Q u Hu. waitq H Q outcome Ho. apply during_Ok in Ho. pose proof (submit_effect _ _ _ _ Ho) as (new & He & Hin).
  etrans; [by apply quietly_advances|]. rewrite <- (qu_sessions _ _ Q) in Hi. clear Q. assert (quietly a1 a1) as Q by done.
  waitq H Q after Hafter. apply during_Ok in Hafter. waitq H Q u1 Hu1. waitq H Q m Hm. waitq H Q m' Hm'. waitq H Q res Hr.
  apply pure_Ok in Hr as [Hr%confirmedActivationRejection_Ok _]. apply app_bind_cases in H as [(u2 & a7 & [= _ <-] & H)|(e & [=] & _)].
  apply quiet_step in H; [|solve [quiet]]. etrans; [by apply quietly_advances|]. etrans; [|by apply quietly_advances].
  apply write_advances. intros t Ht [Hta Hth Hts Htu].
  assert (t = s) as -> by (rewrite (qu_sessions _ _ Q) in Ht; congruence).
  split; [|by split]. split; [by destruct Hta|by apply Hth| |intros [_ [Hup]]%Htu; by split]. intros _.
  eapply (signed_for_later _ (ap_world a0)) in Hsigned; [|later]. destruct Hr as [Hg Hsame].
  exists held, before, outcome, after, (ap_world a0), (ap_world a1), new. eexists _, _.
  split_and!; [done|exact Hsigned|exact Ho|done|done|done| |exact Hafter| |done]; later.
Qed.

Lemma scenarioForAttempt_Ok attempt id scenario : scenarioForAttempt attempt id = Ok scenario → scenario = aa_scenario attempt.
Proof. unfold scenarioForAttempt. by intros [_ [= <-]]%fail_if_then_Ok. Qed.

Lemma stale_failed_quiet e : quiet (stale_failed e).
Proof. unfold stale_failed. quiet. Qed.

Lemma authorizeBody_advances wallet i s a r a' : ap_sessions a !! i = Some s → se_held s = None →
  authorizeBody chain atob base64 page fuel transferCheckedInstruction wallet i a = (r, a') → advances a a'.
Proof.
  intros Hi Hnone H. unfold authorizeBody in H. assert (quietly a a) as Q by done.
  waitq H Q session Hs. unfold read_session in Hs. rewrite Hi in Hs. injection Hs as <- _.
  waitq H Q key Hkey. waitq H Q scenario Hsc. apply pure_Ok in Hsc as [->%scenarioForAttempt_Ok _].
  waitq H Q snapshot Hsn. waitq H Q u Hu. waitq H Q before Hb. waitq H Q held Hh. apply during_Ok in Hb, Hh.
  apply app_bind_cases in H as [(u2 & b & [= _ <-] & H)|(e & [=] & _)].
  etrans; [by apply quietly_advances|]. rewrite <- (qu_sessions _ _ Q) in Hi. clear Q.
  match goal with |- advances ?c _ => assert (signed_for (ap_world c) s held before) as Hsigned
    by (exists wallet; eexists _, _, _, _; split_and!; [exact Hb| |exact Hh|]; later) end.
  match goal with |- advances ?c _ => assert (advances c (write_session i (hold held) c)) as Adv; [|
    assert (ap_sessions (write_session i (hold held) c) !! i = Some (hold held s)) as Hi'
      by (cbn; by rewrite list_lookup_alter_eq, Hi)] end.
  { apply write_advances. intros t Ht [Hta Hth Hts Htu]. rewrite Hi in Ht. injection Ht as <-.
    assert (se_staleAccepted s ≠ true) as Hns.
    { intros Hst. destruct (Hts Hst) as (held' & ? & ? & ? & ? & ? & ? & ? & ? & E & _). congruence. }
    split; [split|split; cbn; congruence].
    - by destruct Hta.
    - cbn. intros held' [= <-]. by exists before.
    - intros Hst. by destruct Hns.
    - cbn. intros [Hst _]%Htu. by destruct Hns. }
  wait H Adv u3 Hu3. etrans; [exact Adv|].
  assert (ap_sessions a7 !! i = Some (hold held s)) as Hi7 by (by injection Hu3 as _ <-).
  apply (signed_for_later _ (ap_world a7)) in Hsigned; [|exact L6].
  apply catch_app_cases in H as [(v & H & _)|(e & c & H & He)].
  - eapply submitStale_advances in H; [done|exact Hi7|done..].
  - etrans; [eapply submitStale_advances in H; [done|exact Hi7|done..]|]. apply quietly_advances. eapply quiet_step, He. apply stale_failed_quiet.
Qed.

Lemma confirmedUpdatedExecution_Ok outcome before after amount symbol label res :
  confirmedUpdatedExecution outcome before after amount symbol label = Ok res →
  co_error outcome = JNull ∧ tb_source after = tb_source before - amount ∧ tb_destination after = tb_destination before + amount.
Proof.
  unfold confirmedUpdatedExecution. intros [H _]%throw_if_then_Ok. rewrite !orb_false_iff, !negb_false_iff in H.
  destruct H as [[[[Hn Hd] _] _] _]. split; [by destruct (co_error outcome)|].
  unfold expectedTransferDelta in Hd. apply andb_true_iff in Hd as [H1%Z.eqb_eq H2%Z.eqb_eq]. lia.
Qed.

Lemma confirmBody_advances wallet i s a r a' : ap_sessions a !! i = Some s → se_staleAccepted s = true →
  confirmBody chain atob base64 page fuel transferCheckedInstruction wallet i a = (r, a') → advances a a'.
Proof.
  intros Hi Hst H. cut (stale_proof (ap_world a) s → advances a a').
  { intros Hadv Hc. apply Hadv; [|done]. destruct Hc as [_ Hall]. rewrite Forall_forall in Hall.
    by apply (so_stale _ _ (Hall _ (list_elem_of_lookup_2 _ _ _ Hi))). }
  intros Hproof. unfold confirmBody in H. assert (quietly a a) as Q by done.
  waitq H Q session Hs. unfold read_session in Hs. rewrite Hi in Hs. injection Hs as <- _.
  waitq H Q scenario Hsc. apply pure_Ok in Hsc as [->%scenarioForAttempt_Ok _].
  waitq H Q snapshot Hsn. waitq H Q before Hb. waitq H Q built Hbu. waitq H Q outcome Ho. waitq H Q after Ha.
  waitq H Q u Hu. waitq H Q res Hr. apply pure_Ok in Hbu as [Hbu _], Hr as [Hr%confirmedUpdatedExecution_Ok _].
  apply during_Ok in Hb, Ho, Ha. apply app_bind_cases in H as [(u2 & b & [= _ <-] & H)|(e & [=] & _)].
  apply quiet_step in H; [|solve [quiet]]. etrans; [by apply quietly_advances|]. etrans; [|by apply quietly_advances].
  apply write_advances. intros t Ht [Hta Hth Hts Htu].
  assert (t = s) as -> by (rewrite (qu_sessions _ _ Q) in Ht; congruence).
  split; [|by split]. split; [by destruct Hta|by apply Hth| |].
  - exact Hts.
  - intros _. split; [done|]. split. destruct Hr as (He & Hsrc & Hdst).
    exists wallet, snapshot, built, before, outcome, after, (ap_world a). eexists _, _, _, _, _, _.
    split_and!; [exact Hproof| |exact Hb| |exact Hbu|exact Ho|done| |exact Ha| |done|done]; later.
Qed.

(** What one event does. *)
Definition moves (a a' : AppState) : Prop :=
  coherent a → ap_busy a = false → coherent a' ∧ grows a a' ∧ ap_busy a' = false.

#[local] Instance moves_preorder : PreOrder moves.
Proof.
  split.
  - intros a H Hb. by split_and!.
  - intros a b c H K Ha Hf. destruct (H Ha Hf) as (Hb & Hg & E). destruct (K Hb E) as (Hc & Kg & F). split_and!; [done|by etrans|done].
Qed.

Lemma quietly_moves a a' : quietly a a' → moves a a'.
Proof. intros Q%quietly_advances Hc Hb. destruct (Q Hc) as (? & ? & ?). split_and!; [done|done|congruence]. Qed.

Lemma busy_failed_advances kind resultId e a r a' : busy_failed kind resultId e a = (r, a') → advances a a'.
Proof.
  assert (∀ m : app unit, quiet m → m a = (r, a') → advances a a') as Hquiet
    by (intros m Hm H; by eapply quietly_advances, quiet_step).
  unfold busy_failed. destruct e; try (apply Hquiet; solve [quiet]).
  intros H. assert (advances a a) as Adv by done. wait H Adv session Hs. destruct session as [i|].
  - apply app_bind_cases in H as [(u & b & [= _ <-] & H)|(e & [=] & _)].
    etrans; [exact Adv|]. etrans; [|eapply quietly_advances, quiet_step, H; quiet].
    apply write_advances. intros s Hi [[] Hh Hs' Hu]. split; [|by split]. split; [by split|by apply Hh| |].
    + exact Hs'.
    + intros [? [Hp]]%Hu. by split.
  - etrans; [exact Adv|]. eapply quietly_advances, quiet_step, H. quiet.
Qed.

Lemma busy_failed_result kind resultId e a r a' : busy_failed kind resultId e a = (r, a') → r = Ok tt ∨ r = Err LoopUnfinished.
Proof.
  unfold busy_failed. destruct e; try (by intros [= <- _]; auto).
  unfold mbind, app_bind, read. destruct (ap_session a); intros [= <- _]; by left.
Qed.

Lemma withBusy_moves body kind resultId a r a' :
  (∀ r b, body (set_busy true a) = (r, b) → advances (set_busy true a) b) → r ≠ Err LoopUnfinished →
  withBusy body kind resultId a = (r, a') → moves a a'.
Proof.
  intros Hbody Hr H Hc Hb. unfold withBusy in H. unfold mbind at 1, app_bind at 1, read in H. rewrite Hb in H.
  unfold mbind at 1, app_bind at 1, modify at 1 in H.
  assert (coherent (set_busy true a)) as Hc' by (by destruct Hc).
  apply app_bind_cases in H as [(u & b & H & [= _ <-])|(e & H & ->)].
  - assert (advances (set_busy true a) b) as Hadv.
    { apply catch_app_cases in H as [(v & H & _)|(e & c & H & He)]; [by eapply Hbody|].
      etrans; [by eapply Hbody|]. by eapply busy_failed_advances. }
    destruct (Hadv Hc') as (Hcb & [Hs He] & _). split_and!; [by destruct Hcb|by split|done].
  - exfalso. apply catch_app_cases in H as [(v & _ & [=])|(e' & c & _ & He)]. apply busy_failed_result in He. naive_solver.
Qed.

(** One wait at the start of a handler. *)
Ltac first_waits H Q x Hx :=
  apply quiet_then in H; [|solve [quiet]];
  let b := fresh "a" in let Hq := fresh "Hq" in
  destruct H as [H|(x & b & Hq & Hx & H)];
  [by apply quietly_moves; etrans; [exact Q|]|];
  let Q' := fresh "Q" in
  pose proof (transitivity Q Hq) as Q'; clear Q Hq; rename Q' into Q.

Lemma startAttempt_Ok scenario attempt : startAttempt scenario = Ok attempt →
  aa_scenario attempt ∈ SCENARIO_CATALOG ∧ aa_status attempt = "ACTIVE".
Proof.
  unfold startAttempt, scenarioById. intros (s & Hs%of_option_Ok & [= <-])%bind_Ok. split; [|done].
  apply find_some in Hs as [Hs _]. by apply list_elem_of_In.
Qed.

Lemma prepareDemo_moves a r a' : prepareDemo chain atob base64 page fuel createAddressWithSeed createAccountWithSeed
    demoMintSpace initializeScaledUiAmountMint initializeMint2 updateMultiplierScaledUiMint createAssociatedTokenIdempotent mintTo associatedToken a
    = (r, a') → r ≠ Err LoopUnfinished → moves a a'.
Proof.
  intros H Hr. unfold prepareDemo in H. assert (quietly a a) as Q by done.
  first_waits H Q who Hc. first_waits H Q session Hs.
  destruct who as [wallet|], session as [j|];
    try (eapply quietly_moves; etrans; [exact Q|]; eapply quiet_step, H; solve [quiet]).
  first_waits H Q key Hk. first_waits H Q scenario Hsc. first_waits H Q attempt Hat.
  apply pure_Ok in Hat as [[Hcat Hact]%startAttempt_Ok _]. etrans; [by apply quietly_moves|].
  eapply withBusy_moves, H; [|done]. intros. by eapply prepareBody_advances.
Qed.

Lemma current_session_quiet a b i s : quietly a b → ap_session b = Some i → current_session a = Some s → ap_sessions b !! i = Some s.
Proof.
  intros [Es [E|E] _ _] Hi H; rewrite E in Hi; [|done]. unfold current_session in H. rewrite Hi in H. by rewrite Es.
Qed.

Lemma authorize_moves a r a' s : current_session a = Some s → se_held s = None →
  authorizeProtectedAction chain atob base64 page fuel transferCheckedInstruction a = (r, a') → r ≠ Err LoopUnfinished → moves a a'.
Proof.
  intros Hcur Hnone H Hr. unfold authorizeProtectedAction in H. assert (quietly a a) as Q by done.
  first_waits H Q who Hc. first_waits H Q session Hs. injection Hs as Hs <-.
  destruct who as [wallet|], session as [i|]; try (eapply quietly_moves; etrans; [exact Q|]; eapply quiet_step, H; solve [quiet]).
  pose proof (current_session_quiet _ _ _ _ Q Hs Hcur) as Hi.
  etrans; [by apply quietly_moves|]. eapply withBusy_moves, H; [|done]. intros. eapply authorizeBody_advances; [|done..]. done.
Qed.

Lemma confirm_moves a r a' : confirmUpdatedAction chain atob base64 page fuel transferCheckedInstruction a = (r, a') →
  r ≠ Err LoopUnfinished → moves a a'.
Proof.
  intros H Hr. unfold confirmUpdatedAction in H. assert (quietly a a) as Q by done.
  first_waits H Q who Hc. first_waits H Q current Hs. injection Hs as Hs <-.
  destruct who as [wallet|], current as [[i s]|]; try (eapply quietly_moves; etrans; [exact Q|]; eapply quiet_step, H; solve [quiet]).
  pose proof (qu_sessions _ _ Q) as Es. destruct (ap_session a0) as [j|] eqn:Hj; [|done]. cbn in Hs.
  destruct (ap_sessions a0 !! j) as [t|] eqn:Hi; [|done]. injection Hs as -> ->.
  destruct (se_staleAccepted s) eqn:Hst; [|eapply quietly_moves; etrans; [exact Q|]; eapply quiet_step, H; apply quiet_ret].
  destruct (se_updated s) eqn:Hu; [eapply quietly_moves; etrans; [exact Q|]; eapply quiet_step, H; apply quiet_ret|].
  etrans; [by apply quietly_moves|]. eapply withBusy_moves, H; [|done]. intros. by eapply confirmBody_advances.
Qed.

Lemma click_moves c a r a' : click_on c a = (r, a') → r ≠ Err LoopUnfinished → moves a a'.
Proof.
  unfold click. destruct (enabled c a) eqn:He; [|by intros [= _ <-]]. intros H Hr. destruct c; cbn in H.
  - eapply quietly_moves, quiet_step, H. apply quiet_toggle.
  - eapply quietly_moves, quiet_step, H. apply quiet_faucet.
  - by eapply prepareDemo_moves.
  - unfold enabled in He. destruct (current_session a) as [s|] eqn:Hs; [|by rewrite andb_false_r in He].
    apply andb_true_iff in He as [_ [Hn _]%andb_true_iff]. apply negb_true_iff, bool_decide_eq_false in Hn.
    eapply authorize_moves; [done| |done..]. destruct (se_held s); [|done]. destruct Hn. by eexists.
  - by eapply confirm_moves.
  - eapply quietly_moves, quiet_step, H. apply quiet_reset.
Qed.

Lemma step_moves a a' : step a a' → moves a a'.
Proof. intros [c b r b' H Hr|r b]; [by eapply click_moves|by apply quietly_moves, quietly_resume]. Qed.

Lemma steps_move a a' : rtc step a a' → moves a a'.
Proof. induction 1 as [a|a b c H _ IH]; [done|]. etrans; [by apply step_moves|done]. Qed.

Lemma initial_coherent : coherent initial_app.
Proof. split; [done|apply Forall_nil_2]. Qed.

(** C14: whatever the chain, the wallet and the handlers that resume meanwhile
    do, every session the page ever holds was armed on a mint read back as
    scheduled; its authorization came from the signing flow; it counts as
    refused only when the balances were read, then the bytes signed, then those
    bytes submitted and confirmed as refused by the guard, then the balances
    read again and found the same; and as updated only when after that the
    balances were read, the rebuilt transfer confirmed and the balances read
    again, exactly the amount apart: each in this order within the run. No
    handler leaves the page busy. *)
Theorem page_sessions_sound a : rtc step initial_app a → coherent a ∧ ap_busy a = false.
Proof. intros H%steps_move. destruct (H initial_coherent) as (? & _ & ?); [done|by split]. Qed.

(** Once a session holds an authorization it holds that one for ever, what
    it achieved is never taken back, and the page does not authorize it again. *)
Theorem page_holds_once a a' i s held : rtc step initial_app a → ap_sessions a !! i = Some s → se_held s = Some held → rtc step a a' →
  ∃ s', ap_sessions a' !! i = Some s' ∧ evolves s s' ∧ se_held s' = Some held ∧
    (ap_session a' = Some i → click_on C_authorize a' = (Ok tt, a')).
Proof.
  intros H Hi Hh H'. destruct (steps_move _ _ H initial_coherent) as (Hc & _ & Hb); [done|].
  destruct (steps_move _ _ H' Hc Hb) as (_ & Hg & _). destruct (gr_sessions _ _ Hg _ _ Hi) as (s' & Hi' & Hev).
  exists s'. split_and!; [done|done|by eapply ev_held|]. intros Hcur.
  unfold click, enabled, current_session. rewrite Hcur. cbn [option_bind mbind]. unfold mbind, option_bind. rewrite Hi', (ev_held _ _ Hev _ Hh).
  by rewrite andb_false_r.
Qed.
End AppSpec.

(* ------------------------------------------------------------------ *)
(** ** A whole demonstration *)

(** The clock of each stage of the run: when the mint is prepared, 20 seconds
    before its activation, and 5 after it. *)
Definition stage_time (stage : string) : Z :=
  if String.eqb stage "preparing" then 1699999925 else if String.eqb stage "pending" then sample_now else 1700000005.

Definition stage_data (encoded : string) : bytes :=
  if String.eqb encoded "mint" then sample_mint_account
  else if String.eqb encoded "program" || String.eqb encoded "data" then sample_program_data encoded
  else le_bytes 8 7 ++ zeros 24 ++ le_bytes 8 (stage_time encoded).

(** The accounts of [WalletSigning.v] with the clock of the stage. *)
Definition stage_accounts (stage : string) (addresses : list Address) : Z * list (option ChainAccount) :=
  if bool_decide (head addresses = Some sample_mint)
  then (7, [Some (mkChainAccount false TOKEN_2022_PROGRAM_ADDRESS (Some "mint"));
            Some (mkChainAccount false "Sysvar1111111111111111111111111111111111111" (Some stage))])
  else sample_accounts addresses.

(** A confirmed transaction of the stage: the guard refuses the held one at
    its activation, and lets the updated transfer through. *)
Definition stage_transaction (stage : string) : TransactionInfo :=
  let invoked := "Program " +:+ EQUITY_GUARD_DEVNET_PROGRAM_ID +:+ " invoke [1]" in
  if String.eqb stage "activated"
  then mkTransactionInfo 8 (JObject [("InstructionError", JArray [JNum (NumInt 1); JObject [("Custom", JNum (NumInt 12))]])]) [invoked]
  else mkTransactionInfo 8 JNull
    [invoked; "Program " +:+ EQUITY_GUARD_DEVNET_PROGRAM_ID +:+ " success"; "Program " +:+ TOKEN_2022_PROGRAM_ADDRESS +:+ " success"].

Definition stage_endpoint (stage : string) (moved : Z) : Endpoint := {|
  ep_getGenesisHash := Ok DEVNET_GENESIS_HASH;
  ep_getMultipleAccounts addresses := Ok (stage_accounts stage addresses);
  ep_getAccountInfo a :=
    Ok (Some (mkChainAccount false TOKEN_2022_PROGRAM_ADDRESS (Some (if String.eqb a SYSVAR_CLOCK_ADDRESS then stage else "mint"))));
  ep_getLatestBlockhash := Ok sample_blockhash;
  ep_getBlockHeight := Ok 1000;
  ep_sendTransaction _ := Ok "signature";
  ep_getSignatureStatus _ := Ok (Some "confirmed");
  ep_getTransaction _ := Ok (Some (stage_transaction stage));
  ep_getTokenAccountBalance a := Ok (if String.eqb a "source" then 1000000 - moved else moved);
  ep_getMinimumBalanceForRentExemption _ := Ok 0;
  ep_request method _ :=
    Ok (match method with
        | M_signTransaction => WObject (Some (WBytes [x2a])) None None
        | M_signAndSendTransaction => WObject None None (Some (JString "signature"))
        end);
|}.

Definition stage_chain (n : nat) : Endpoint :=
  if Nat.ltb n 17 then stage_endpoint "preparing" 0
  else if Nat.ltb n 28 then stage_endpoint "pending" 0
  else if Nat.ltb n 47 then stage_endpoint "activated" 0
  else stage_endpoint "updated" 100000.

Definition stage_page : Page := {|
  pg_selected _ := "KO-DEMO";
  pg_connect _ := Some (Ok sample_payer);
  pg_disconnect _ := Ok tt;
  pg_getBalance _ _ := Ok 2000000000;
  pg_requestAirdrop _ _ _ := Ok tt;
  pg_randomBytes _ := zeros 8;
  pg_recipient _ := "SysvarRent111111111111111111111111111111111";
  pg_resumed _ := [];
|}.

Definition no_instruction : Instruction := mkInstruction "" None None.

Definition stage_click : Control → AppState → result demo_exn unit * AppState :=
  click (hash := reviewed_digest) (codec := sample_codec) stage_chain (λ encoded, Ok (stage_data encoded)) stage_data stage_page 3
    (λ _ _ _ _ _ _, sample_transfer) (λ _ _ _, Ok sample_mint) (λ _ _ _ _ _ _, no_instruction) (λ _, 0) (λ _ _ _, no_instruction)
    (λ _ _ _, no_instruction) (λ _ _ _ _, no_instruction) (λ _ _ _, no_instruction) (λ _ _ _ _, no_instruction)
    (λ owner _, if String.eqb owner sample_payer then "source" else "destination").

Definition stage_step : AppState → AppState → Prop :=
  app_step (hash := reviewed_digest) (codec := sample_codec) stage_chain (λ encoded, Ok (stage_data encoded)) stage_data stage_page 3
    (λ _ _ _ _ _ _, sample_transfer) (λ _ _ _, Ok sample_mint) (λ _ _ _ _ _ _, no_instruction) (λ _, 0) (λ _ _ _, no_instruction)
    (λ _ _ _, no_instruction) (λ _ _ _ _, no_instruction) (λ _ _ _, no_instruction) (λ _ _ _ _, no_instruction)
    (λ owner _, if String.eqb owner sample_payer then "source" else "destination").

(** The wallet connected, the session armed, the stale authorization refused
    and the updated one confirmed. *)
Definition stage_connected : AppState := Eval vm_compute in snd (stage_click C_connect initial_app).
Definition stage_armed : AppState := Eval vm_compute in snd (stage_click C_prepare stage_connected).
Definition stage_refused : AppState := Eval vm_compute in snd (stage_click C_authorize stage_armed).
Definition stage_updated : AppState := Eval vm_compute in snd (stage_click C_confirm_updated stage_refused).

Example stage_results : map snd (ap_shown stage_updated) =
  [R_PENDING K_SETUP L_READY None; R_PENDING K_SETUP L_VERIFYING_MINT (Some "signature");
   R_CONFIRMED_SUCCESS K_SETUP "signature" 8 (mkBalances 0 0) (mkBalances 1000000 0);
   R_PENDING K_STALE L_HOLDING (Some "signature");
   R_CONFIRMED_ACTIVATION_REJECTION "signature" "KO-DEMO" "2-for-1 stock split" "1.00×" "2.00×";
   R_CONFIRMED_UPDATED_EXECUTION "signature" "KO-DEMO" "2-for-1 stock split" "100000"].
Proof. reflexivity. Qed.

Lemma stage_clicked c a a' : stage_click c a = (Ok tt, a') → stage_step a a'.
Proof. intros H. by eapply step_click. Qed.

Lemma stage_run_refused : rtc stage_step initial_app stage_refused.
Proof.
  eapply rtc_l; [apply (stage_clicked C_connect _ stage_connected); vm_compute; reflexivity|].
  eapply rtc_l; [apply (stage_clicked C_prepare _ stage_armed); vm_compute; reflexivity|].
  eapply rtc_once, (stage_clicked C_authorize). vm_compute. reflexivity.
Qed.

Lemma stage_run_updated : rtc stage_step stage_refused stage_updated.
Proof. eapply rtc_once, (stage_clicked C_confirm_updated). vm_compute. reflexivity. Qed.

Lemma page_sessions_sound_witness :
  map (λ s, (se_staleAccepted s, se_updated s)) (ap_sessions stage_updated) = [(true, true)] ∧ ap_busy stage_updated = false.
Proof.
  split; [vm_compute; reflexivity|]. refine (proj2 (page_sessions_sound (hash := reviewed_digest) (codec := sample_codec) _ _ _ _ _ _ _ _ _ _ _ _ _ _ _ stage_updated _)).
  etrans; [exact stage_run_refused|exact stage_run_updated].
Defined.

Lemma page_holds_once_witness :
  ∃ s held s', ap_sessions stage_refused !! 0%nat = Some s ∧ se_held s = Some held ∧ ap_sessions stage_updated !! 0%nat = Some s' ∧
    se_held s' = Some held ∧ stage_click C_authorize stage_updated = (Ok tt, stage_updated).
Proof.
  eexists _, _.
  destruct (page_holds_once (hash := reviewed_digest) (codec := sample_codec) _ _ _ _ _ _ _ _ _ _ _ _ _ _ _ stage_refused stage_updated 0 _ _ stage_run_refused
    ltac:(reflexivity) ltac:(reflexivity) stage_run_updated) as (s' & Hs' & _ & Hh & Hc).
  exists s'. split; [reflexivity|]. split; [reflexivity|]. split; [exact Hs'|]. split; [exact Hh|]. apply Hc. reflexivity.
Defined.
