(* ===== verification/DevnetPublic.v ===== *)
(** * apps/web/lib/devnet-public.ts: the policy and the codecs of the public page

    The page carries its own copy of what it needs of guard-client. Code that
    is the same line for line is the same definition here ([bytesEqual],
    [checkGuardOffline], the scenarios, the wallet checks); what the page
    writes differently is defined below with a [web_] name where the name is
    taken, and compared with guard-client's. Requests and the wallet are in
    [DevnetSession.v]. *)

From S2P Require Import Prelude Js Float64 Errors Kit Base58 Sha256 Abi OnChain OfflineCheck MintState Snapshot Downstream Deployment CanonicalKey DemoChain WalletDemo WalletSigning.

(* ------------------------------------------------------------------ *)
(** ** Timing *)

Definition WEB_ACTIVATION_DELAY_SECONDS : jsnum := NumInt 35.
Definition MIN_AUTHORIZATION_REMAINING_SECONDS : Z := 8.
Definition DEMO_AUTHORIZATION_MAX_REMAINING_SECONDS : Z := 15.

(** [Number(wait)] of a [bigint], as the integer it rounds. *)
Definition demoAuthorizationOpensInSeconds (chainUnixTimestamp activation : Z) : Z :=
  let wait := activation - chainUnixTimestamp - DEMO_AUTHORIZATION_MAX_REMAINING_SECONDS in
  if 0 <? wait then wait else 0.

Definition validatePublicTiming (delay minimumRemaining : jsnum) : result demo_exn unit :=
  fail_if (negb (isInteger delay) || negb (isInteger minimumRemaining)) "Activation timing must be whole seconds";;
  let '(delay, minimumRemaining) := (num_value delay, num_value minimumRemaining) in
  fail_if ((delay <? 35) || (45 <? delay)) "Activation delay must leave room for Devnet setup confirmation";;
  fail_if (negb (minimumRemaining =? 8)) "Minimum authorization window must be 8 seconds";;
  fail_if (delay <=? minimumRemaining) "Minimum remaining time consumes the whole activation delay".

(** [BigInt(delaySeconds)] throws on a fraction. *)
Definition web_activationTimestamp (chainUnixTimestamp : Z) (delaySeconds : jsnum) : result demo_exn Z :=
  fail_if (chainUnixTimestamp <? 0) "Chain clock is not usable";;
  delay ← guardClient (BigInt delaySeconds);
  Ok (chainUnixTimestamp + delay).

Definition presentationCountdownSeconds (chainUnixTimestamp activation : Z) : Z :=
  let remaining := activation - chainUnixTimestamp in
  if remaining <=? 0 then 0 else if MAX_SAFE_INTEGER <? remaining then MAX_SAFE_INTEGER else remaining.

Definition submissionPermitted (displayedSeconds : Z) (chainReady : bool) : bool := chainReady.

Definition assertDevnetCluster (genesisHash : string) : result demo_exn unit :=
  fail_if (String.eqb genesisHash "5eykt4UsFv8P8NJdTREpY1vzqKqZKvdpKuc147dw2N9d") "Connected to mainnet-beta — refusing all state-changing actions";;
  fail_if (String.eqb genesisHash "4uhcVJyU9pJkvQyS88uRDiswHXSCkY3zQawwpjk2NsNY") "Connected to testnet — only devnet is supported";;
  fail_if (negb (String.eqb genesisHash "EtWTRABZaYq6iMfeYKouRu166VU2xqa1wcaWoxPkrZBG")) "Cluster is not Solana Devnet".

(* ------------------------------------------------------------------ *)
(** ** The clock decisions *)

Definition web_scheduledBytesMatch (snapshot : GuardSnapshot) (scenario : EquityScenario) (activation : Z) : result demo_exn bool :=
  let state := snap_state snapshot in
  initial ← storedMultiplier (sc_initialMultiplier scenario);
  and_then (bytesEqual (multiplier state) initial) (
    new ← storedMultiplier (sc_newMultiplier scenario);
    Ok (bytesEqual (newMultiplier state) new && (newMultiplierEffectiveTimestamp state =? activation)
        && snap_hasScheduledChange snapshot && hasScheduledChange state
        && (snap_phase snapshot =? phaseAt state (clock_unixTimestamp (snap_clock snapshot))))).

Inductive AuthorizeDecision : Set := Z_sign | Z_missed | Z_mismatch.

#[export] Instance AuthorizeDecision_eq_dec : EqDecision AuthorizeDecision.
Proof. solve_decision. Defined.

Definition authorizeDecision (snapshot : GuardSnapshot) (scenario : EquityScenario) (activation : Z) : result demo_exn AuthorizeDecision :=
  matches ← web_scheduledBytesMatch snapshot scenario activation;
  let now := clock_unixTimestamp (snap_clock snapshot) in
  let remaining := activation - now in
  Ok (if negb matches then Z_mismatch
      else if (activation <=? now) || negb (snap_phase snapshot =? Pending) || (remaining <? MIN_AUTHORIZATION_REMAINING_SECONDS) then Z_missed
      else Z_sign).

(** "hold". *)
Definition pendingReturnDecision (snapshot : GuardSnapshot) (scenario : EquityScenario) (activation : Z) : result demo_exn bool :=
  matches ← web_scheduledBytesMatch snapshot scenario activation;
  Ok (if negb matches then false
      else if (activation <=? clock_unixTimestamp (snap_clock snapshot)) || negb (snap_phase snapshot =? Pending) then false
      else true).

Definition web_activatedReviewDecision (snapshot : GuardSnapshot) (scenario : EquityScenario) (activation : Z)
    : result demo_exn ActivatedReviewDecision :=
  matches ← web_scheduledBytesMatch snapshot scenario activation;
  let now := clock_unixTimestamp (snap_clock snapshot) in
  if negb matches then Ok A_mismatch
  else if negb (snap_phase snapshot =? Activated) || (now <=? activation) then Ok A_wait
  else
    let expectation := expectationFromSnapshot snapshot CLOCK_CROSSING_WINDOW in
    if negb (expectedPhase expectation =? Activated) then Ok A_mismatch
    else
      verdict ← map_err GuardThrown (checkGuardOffline expectation (snap_state snapshot) now);
      Ok (match verdict with None => A_ready | Some _ => A_wait end).

Definition expectationForSnapshot (snapshot : GuardSnapshot) : AssertSafeExecutionRequest := expectationFromSnapshot snapshot CLOCK_CROSSING_WINDOW.

(* ------------------------------------------------------------------ *)
(** ** What a confirmed transaction proves *)

Definition acceptActivationRejection (outcome : ConfirmedOutcome) (before after : TokenBalances) (programId tokenProgram : string) : bool :=
  negb (is_null (co_error outcome))
  && Nat.ltb 0 (String.length (co_signature outcome))
  && bool_decide (ce_instructionIndex <$> co_customError outcome = co_guardInstructionIndex outcome)
  && bool_decide (ce_code <$> co_customError outcome = Some 12)
  && (tb_source before =? tb_source after) && (tb_destination before =? tb_destination after)
  && existsb (λ line, startsWith ("Program " +:+ programId +:+ " invoke") line) (co_logs outcome)
  && negb (existsb (λ line, String.eqb line ("Program " +:+ tokenProgram +:+ " success")) (co_logs outcome)).

Definition acceptUpdatedExecution (outcome : ConfirmedOutcome) (before after : TokenBalances) (amount : Z) (programId tokenProgram : string) : bool :=
  let sourceDelta := tb_source before - tb_source after in
  let destinationDelta := tb_destination after - tb_destination before in
  is_null (co_error outcome)
  && Nat.ltb 0 (String.length (co_signature outcome))
  && (sourceDelta =? amount) && (destinationDelta =? amount)
  && existsb (λ line, String.eqb line ("Program " +:+ programId +:+ " success")) (co_logs outcome)
  && existsb (λ line, String.eqb line ("Program " +:+ tokenProgram +:+ " success")) (co_logs outcome).

(** The length is in UTF-16 units; addresses and signatures are ASCII. *)
Definition shortAddress (value : string) : string :=
  if Nat.ltb (String.length value) 16 then value
  else String.substring 0 7 value +:+ "…" +:+ String.substring (String.length value - 8) 8 value.

(* ------------------------------------------------------------------ *)
(** ** The bound program *)

(** [boundProgram] is the module's variable; [None] is [null]. *)
Definition bindReviewedProgram (programId : Address) (boundProgram : option Address) : result demo_exn (option Address) :=
  match boundProgram with
  | Some bound => if negb (String.eqb bound programId) then Err (PlainError "Reviewed program id changed") else Ok (Some programId)
  | None => Ok (Some programId)
  end.

Definition reviewedProgramId (boundProgram : option Address) : result demo_exn Address :=
  of_option (PlainError "Reviewed StateGuard program was not bound") boundProgram.

(** Loads of the page, one after another. *)
Definition bind_all (programs : list Address) (boundProgram : option Address) : option Address :=
  fold_left (λ bound programId, match bindReviewedProgram programId bound with Ok bound' => bound' | Err _ => bound end) programs boundProgram.

(* ------------------------------------------------------------------ *)
(** ** The encoder *)

Definition read_throws : demo_exn := GuardThrown RangeErr.

Section WebEncode.
  Context `{!AddressCodec}.

(** [getAddressEncoder().encode]. *)
Definition web_addressBytes (a : Address) : result demo_exn bytes := of_option (GuardThrown CodecErr) (encodeAddress a).

Definition web_encodeAssertSafeExecutionV2 (request : AssertSafeExecutionRequest) (expectedMint : Address) (adapterKind : Z)
    (downstreamCommitment : bytes) : result demo_exn bytes :=
  let '(mkRequest expected expectedPhase window) := request in
  fail_if (negb (isValidStoredMultiplier (multiplier expected)) || negb (isValidStoredMultiplier (newMultiplier expected)))
    "multipliers must be 8 bytes encoding a positive normal f64";;
  let timestamp := newMultiplierEffectiveTimestamp expected in
  fail_if ((timestamp <? I64_MIN) || (I64_MAX <? timestamp)) "effective timestamp outside i64 range";;
  fail_if (negb (expectedPhase =? Pending) && negb (expectedPhase =? Activated)) "unknown activation phase";;
  mapM_result (λ secs, fail_if (negb (isInteger secs) || (num_value secs <? 0) || (4294967295 <? num_value secs)) "protection window must be a u32")
    [beforeSecs window; afterSecs window];;
  fail_if (negb (adapterKind =? 1) || negb (Nat.eqb (length downstreamCommitment) 32))
    "downstream commitment must be a Token-2022 transfer commitment";;
  mintBytes ← web_addressBytes expectedMint;
  let out := zeros 99 in
  let out := set_bytes out 0 [z2b 2] in
  let out := set_bytes out 1 mintBytes in
  let out := set_bytes out 33 (multiplier expected) in
  let out := set_bytes out 41 (newMultiplier expected) in
  let out := set_bytes out 49 (le_bytes 8 timestamp) in
  let out := set_bytes out 57 [z2b expectedPhase] in
  let out := set_bytes out 58 (le_bytes 4 (num_value (beforeSecs window))) in
  let out := set_bytes out 62 (le_bytes 4 (num_value (afterSecs window))) in
  let out := set_bytes out 66 [z2b 1] in
  Ok (set_bytes out 67 downstreamCommitment).
End WebEncode.

(* ------------------------------------------------------------------ *)
(** ** The session mint *)

Definition SESSION_SCALED_UI : Z := 25.
Definition SESSION_INTEREST_BEARING : Z := 10.

(** The [while] loop: the types seen, and the place and length of the scaled configuration. *)
Fixpoint readSessionTlv (fuel : nat) (data : bytes) (offset : nat) (seen : gset Z) (scaled : option (nat * nat))
    : result demo_exn (gset Z * option (nat * nat)) :=
  match fuel with
  | O => Err LoopUnfinished
  | S fuel =>
      if negb (Nat.leb 2 (length data - offset)) then Ok (seen, scaled)
      else
        type ← of_option read_throws (get_uint 2 data offset);
        if type =? 0 then Ok (seen, scaled)
        else
          fail_if ((28 <? type) || Nat.ltb (length data - offset) 4) "Session mint extension header is truncated";;
          size ← of_option read_throws (get_uint 2 data (offset + 2));
          let len := Z.to_nat size in
          let value := (offset + 4)%nat in
          fail_if (Nat.ltb (length data) (value + len) || bool_decide (type ∈ seen)) "Session mint extension layout is invalid";;
          readSessionTlv fuel data (value + len) ({[type]} ∪ seen) (if type =? SESSION_SCALED_UI then Some (value, len) else scaled)
  end.

(** One round of the tag loop. *)
Definition checkSessionTag (data : bytes) (offset : nat) : result demo_exn unit :=
  tag ← of_option read_throws (get_uint 4 data offset);
  fail_if (negb (tag =? 0) && negb (tag =? 1)) "Session mint authority tag is invalid".

Definition readSessionMint (owner : string) (data : bytes) : result demo_exn (ProtectedState * Z) :=
  fail_if (negb (String.eqb owner TOKEN_2022_PROGRAM_ADDRESS)) "Session mint is not owned by Token-2022";;
  fail_if (Nat.ltb (length data) 166 || Nat.eqb (length data) 355) "Session mint data is not a Token-2022 extension mint";;
  checkSessionTag data 0;;
  checkSessionTag data 46;;
  fail_if (negb (bool_decide (byte_at data 45 = Some 1))) "Session mint is not initialized";;
  decimals ← of_option (PlainError "Session mint decimals are missing") (byte_at data 44);
  fail_if (existsb (λ b, negb (b2z b =? 0)) (subarray data 82 165) || negb (bool_decide (byte_at data 165 = Some 1)))
    "Session mint extension header is invalid";;
  read ← readSessionTlv (S (length data)) data 166 ∅ None;
  match read.2 with
  | None => Err (PlainError "Session mint has no ScaledUiAmount extension")
  | Some (value, len) =>
      fail_if (bool_decide (SESSION_INTEREST_BEARING ∈ read.1)) "Session mint combines ScaledUiAmount with InterestBearingConfig";;
      fail_if (negb (Nat.eqb len 56)) "ScaledUiAmount config has the wrong length";;
      let multiplier := subarray data (value + 32) (value + 40) in
      let newMultiplier := subarray data (value + 48) (value + 56) in
      fail_if (negb (isValidStoredMultiplier multiplier) || negb (isValidStoredMultiplier newMultiplier))
        "Stored multiplier is not a positive normal f64";;
      timestamp ← of_option read_throws (get_int 8 data (value + 40));
      Ok (mkProtectedState multiplier newMultiplier timestamp, decimals)
  end.

Definition web_decodeClock (data : bytes) : result demo_exn ChainClock :=
  fail_if (negb (Nat.eqb (length data) 40)) "Clock sysvar is not usable";;
  slot ← of_option read_throws (get_uint 8 data 0);
  unixTimestamp ← of_option read_throws (get_int 8 data 32);
  Ok (mkClock slot unixTimestamp).

(* ------------------------------------------------------------------ *)
(** ** The reviewed deployment *)

Definition PROGRAM_DATA_ADDRESS : Address := "4Zc4TAEYNSXCGUkpD7y7CcEWDS8a9aQBDfYHFu55dPE3".
Definition REVIEWED_ELF_SHA256 : string := "d7d59ccd9e96bb3eb3e16893aca638d8e5fdbfaf5032b4b39737ef16a41e4e46".
Definition REVIEWED_ELF_LENGTH : nat := Z.to_nat 63840.

Section Environment.
  Context {address : AddressCodec} {hash : Digest}.
  Variable atob : string → result rejection bytes.

(** [verifyPublicEnvironment] on the two accounts of the reply. *)
Definition verifyPublicAccounts (program programData : option ChainAccount) : result demo_exn (option Address) :=
  let program_refused := PlainError "Reviewed StateGuard program is missing or not executable" in
  program ← of_option program_refused program;
  throw_if (negb (ch_executable program) || negb (String.eqb (ch_owner program) BPF_LOADER_UPGRADEABLE_ADDRESS)) program_refused;;
  programBytes ← chainAccountBytes atob (ch_data program);
  fail_if (negb (Nat.eqb (length programBytes) 36) || negb (bool_decide (get_uint 4 programBytes 0 = Some 2)))
    "Reviewed StateGuard program is not an upgradeable loader program";;
  fail_if (negb (String.eqb (decodeAddress (subarray programBytes 4 36)) PROGRAM_DATA_ADDRESS)) "ProgramData does not match the reviewed deployment";;
  let data_refused := PlainError "Reviewed ProgramData is missing" in
  programData ← of_option data_refused programData;
  throw_if (negb (String.eqb (ch_owner programData) BPF_LOADER_UPGRADEABLE_ADDRESS)) data_refused;;
  data ← chainAccountBytes atob (ch_data programData);
  let stop := (45 + REVIEWED_ELF_LENGTH)%nat in
  fail_if (Nat.ltb (length data) stop || negb (bool_decide (get_uint 4 data 0 = Some 3))) "Reviewed ProgramData is malformed";;
  fail_if (negb (String.eqb (toHex (digest (subarray data 45 stop))) REVIEWED_ELF_SHA256)) "Deployed ELF does not match the reviewed hash";;
  fail_if (existsb (λ b, negb (b2z b =? 0)) (drop stop data)) "ProgramData carries bytes beyond the reviewed ELF";;
  Ok (if bool_decide (byte_at data 12 = Some 1) then Some (decodeAddress (subarray data 13 45)) else None).

(* ------------------------------------------------------------------ *)
(** ** The guarded transfer *)

Definition web_u32le (value : nat) : bytes := le_bytes 4 (Z.of_nat value).

Definition commitmentOf (instruction : Instruction) (instructions : list Instruction) (feePayer : Address) : result demo_exn bytes :=
  program ← web_addressBytes (ix_programAddress instruction);
  parts ← mapM_result (λ meta,
    let '(signer, writable) := flags instructions feePayer (meta_address meta) in
    key ← web_addressBytes (meta_address meta);
    Ok (key ++ [flag_byte signer; flag_byte writable])) (accounts_of instruction);
  Ok (digest (encode_utf8 "EQUITYGUARD_DOWNSTREAM_V2" ++ program ++ web_u32le (length (accounts_of instruction)) ++ concat parts
              ++ web_u32le (length (data_of instruction)) ++ data_of instruction)).

Record PublicGuardedTransfer := mkPublicTransfer { pt_instructions : list Instruction; pt_guard : Instruction }.

Definition web_guard (programAddress mint : Address) (expectation : AssertSafeExecutionRequest) (commitment : bytes) : result demo_exn Instruction :=
  data ← web_encodeAssertSafeExecutionV2 expectation mint 1 commitment;
  Ok (mkInstruction programAddress (Some [mkMeta mint READONLY; mkMeta SYSVAR_INSTRUCTIONS_ADDRESS READONLY]) (Some data)).

Definition buildPublicGuardedTransfer (boundProgram : option Address) (feePayer mint : Address) (expectation : AssertSafeExecutionRequest)
    (transferChecked : Instruction) : result demo_exn PublicGuardedTransfer :=
  fail_if (negb (String.eqb (ix_programAddress transferChecked) TOKEN_2022_PROGRAM_ADDRESS)) "Protected action is not a Token-2022 transfer";;
  program ← reviewedProgramId boundProgram;
  placeholder ← web_guard program mint expectation (zeros 32);
  commitment ← commitmentOf transferChecked [placeholder; transferChecked] feePayer;
  guard ← web_guard program mint expectation commitment;
  Ok (mkPublicTransfer [guard; transferChecked] guard).
End Environment.

(* ------------------------------------------------------------------ *)
(** ** The setup instructions *)

Section WebSetup.
  Variable createAccountWithSeed : Address → Address → string → Z → Z → Address → Instruction.
  Variable demoMintSpace : Address → Z.
  Variable initializeScaledUiAmountMint : Address → Address → jsnum → Instruction.
  Variable initializeMint2 : Address → Z → Address → Instruction.
  Variable updateMultiplierScaledUiMint : Address → Address → jsnum → Z → Instruction.
  Variable createAssociatedTokenIdempotent : Address → Address → Address → Instruction.
  Variable mintTo : Address → Address → Address → Z → Instruction.
  Variable associatedToken : Address → Address → Address.

Definition prepareSessionInstructions (payer mintAddress : Address) (seed : string) (rentLamports : Z) (recipient : Address)
    (scenario : EquityScenario) (effectiveTimestamp chainUnixTimestamp : Z) : result demo_exn (list Instruction) :=
  fail_if (effectiveTimestamp <=? chainUnixTimestamp) "Activation timestamp must be after the chain clock";;
  fail_if (negb (num_is (sc_initialMultiplier scenario) 1)) "Session mint must start at 1.00×";;
  let source := associatedToken payer mintAddress in
  Ok [createAccountWithSeed payer mintAddress seed rentLamports (demoMintSpace payer) TOKEN_2022_PROGRAM_ADDRESS;
      initializeScaledUiAmountMint mintAddress payer (NumInt 1);
      initializeMint2 mintAddress 6 payer;
      updateMultiplierScaledUiMint mintAddress payer (sc_newMultiplier scenario) effectiveTimestamp;
      createAssociatedTokenIdempotent payer payer mintAddress;
      mintTo mintAddress source payer 1000000;
      createAssociatedTokenIdempotent payer recipient mintAddress].

(** Where both refuse nothing, the page prepares the wallet demonstration's instructions. *)
Lemma prepareSessionInstructions_agrees payer mint seed rent recipient scenario activation now l :
  positive_finite (sc_newMultiplier scenario) = true →
  prepareSessionInstructions payer mint seed rent recipient scenario activation now = Ok l ↔
  getPrepareSessionInstructions createAccountWithSeed demoMintSpace initializeScaledUiAmountMint initializeMint2 updateMultiplierScaledUiMint
    createAssociatedTokenIdempotent mintTo associatedToken payer mint seed rent recipient scenario activation now = Ok l.
Proof.
  intros Hp. unfold prepareSessionInstructions, getPrepareSessionInstructions, getArmCorporateActionInstruction, fail_if. rewrite Hp.
  rewrite !throw_if_then_Ok, bind_Ok. cbn [negb]. split.
  - intros (Ht & Hi & [= <-]). split; [done|]. eexists. rewrite Ht. split; [reflexivity|]. reflexivity.
  - intros (Hi & arm & Harm & [= <-]). apply throw_if_then_Ok in Harm as [Ht [= <-]]. rewrite Ht. done.
Qed.
End WebSetup.

(* ------------------------------------------------------------------ *)
(** ** The page against guard-client *)

Section EncoderSpec.
  Context {address : AddressCodec}.

Lemma web_window secs : fail_if (negb (isInteger secs) || (num_value secs <? 0) || (4294967295 <? num_value secs)) "protection window must be a u32" = Ok tt
  ↔ isValidWindowSecs secs = true.
Proof.
  rewrite fail_if_Ok, isValidWindowSecs_spec, !orb_false_iff, negb_false_iff, !Z.ltb_ge. unfold u32_range.
  change (2 ^ 32) with 4294967296. intuition lia.
Qed.

Lemma web_encoder_agree request mint kind commitment out :
  web_encodeAssertSafeExecutionV2 request mint kind commitment = Ok out ↔
  kind = TOKEN_2022_TRANSFER_CHECKED ∧ encodeAssertSafeExecutionV2 (mkRequestV2 request mint kind commitment) = Ok out.
Proof.
  unfold web_encodeAssertSafeExecutionV2, encodeAssertSafeExecutionV2, web_addressBytes. destruct request as [e phase w].
  cbn [execution expectedMint adapterKind requestCommitment]. rewrite !fail_if_then_Ok, !guard_then_Ok.
  split.
  - intros (Hm & Ht & Hp & H). apply bind_Ok in H as (u & Hw & H).
    apply fail_if_then_Ok in H as [[Hk%negb_false_iff%Z.eqb_eq Hl]%orb_false_iff H]. subst kind.
    cbn [mapM_result] in Hw. apply bind_Ok in Hw as ([] & Hb%web_window & Hw).
    apply bind_Ok in Hw as (? & Hw & _). apply bind_Ok in Hw as ([] & Ha%web_window & _).
    rewrite Hb, Ha. split; [done|]. split_and!; try done.
    apply bind_Ok in H as (key & Hkey%of_option_Ok & H). rewrite Hkey. by injection H as <-.
  - intros (-> & Hm & Ht & Hp & Hb%negb_false_iff & Ha%negb_false_iff & _ & Hl & H). apply web_window in Hb, Ha.
    split_and!; try done. cbn [mapM_result]. rewrite Hb. cbn [mbind result_bind]. rewrite Ha. cbn [mbind result_bind].
    rewrite Hl. apply bind_Ok in H as (key & Hkey%of_option_Ok & H). rewrite Hkey. by injection H as <-.
Qed.

(** The page's encoder and guard-client's agree: it writes exactly the
    bytes guard-client writes for a kind 1 commitment, and refuses every
    request guard-client refuses. *)
Theorem web_encoder_agrees request mint kind commitment out :
  web_encodeAssertSafeExecutionV2 request mint kind commitment = Ok out ↔
  kind = TOKEN_2022_TRANSFER_CHECKED ∧ encodeAssertSafeExecutionV2 (mkRequestV2 request mint kind commitment) = Ok out.
Proof. apply web_encoder_agree. Qed.
End EncoderSpec.

(** Where an entry lies. *)
Definition place (entry : TlvEntry) : nat * nat := (valueOffset entry, tlv_length entry).

Lemma find_type_snoc type entries entry : find_type type (entries ++ [entry]) =
  match find_type type entries with Some e => Some e | None => if tlv_type entry =? type then Some entry else None end.
Proof. unfold find_type. induction entries as [|e l IH]; cbn; [done|]. destruct (tlv_type e =? type); [done|apply IH]. Qed.

Lemma find_type_seen type entries : type ∉ (list_to_set (map tlv_type entries) : gset Z) → find_type type entries = None.
Proof.
  unfold find_type. intros H. induction entries as [|e l IH]; cbn; [done|]. cbn in H. rewrite not_elem_of_union, not_elem_of_singleton in H.
  destruct H as [Hne Hl]. destruct (Z.eqb_spec (tlv_type e) type); [congruence|auto].
Qed.

Section TlvSim.
  Variable data : bytes.

(** The page's loop reads what guard-client's reads. *)
Lemma readSessionTlv_agrees fuel offset seen acc scaled :
  seen = list_to_set (map tlv_type acc) → scaled = place <$> find_type ScaledUiAmount acc →
  (∀ es, readTlv fuel data offset seen acc = Ok es →
     readSessionTlv fuel data offset seen scaled = Ok (list_to_set (map tlv_type es), place <$> find_type ScaledUiAmount es)) ∧
  ((∀ es, readTlv fuel data offset seen acc ≠ Ok es) → ∀ r, readSessionTlv fuel data offset seen scaled ≠ Ok r).
Proof.
  revert offset seen acc scaled. induction fuel as [|fuel IH]; intros offset seen acc scaled Hseen Hscaled; [done|].
  cbn [readTlv readSessionTlv]. destruct (Nat.leb 2 (length data - offset)); cbn [negb].
  2: { split; [by intros es [= <-]; rewrite Hseen, Hscaled|]. intros H. by destruct (H acc). }
  destruct (get_uint 2 data offset) as [type|]; cbn [of_option mbind result_bind]; [|done].
  unfold Uninitialized. destruct (type =? 0).
  { split; [by intros es [= <-]; rewrite Hseen, Hscaled|]. intros H. by destruct (H acc). }
  unfold MaxKnown, TLV_HEADER_LEN, fail_if, guard_throw_if. destruct (28 <? type); cbn [orb throw_if mbind result_bind]; [done|]. destruct (Nat.ltb (length data - offset) 4); cbn [orb throw_if mbind result_bind]; [done|].
  destruct (get_uint 2 data (offset + 2)) as [size|]; cbn [of_option mbind result_bind]; [|done].
  destruct (Nat.ltb (length data) (offset + 4 + Z.to_nat size)); cbn [orb throw_if mbind result_bind]; [done|].
  destruct (bool_decide_reflect (type ∈ seen)) as [|Hnew]; cbn [orb throw_if mbind result_bind]; [done|].
  apply IH.
  - rewrite map_app, list_to_set_app_L, Hseen. cbn. set_solver.
  - rewrite find_type_snoc. subst seen. unfold SESSION_SCALED_UI, ScaledUiAmount in *. cbn [tlv_type]. destruct (Z.eqb_spec type 25) as [->|].
    + by rewrite find_type_seen.
    + rewrite Hscaled. by destruct (find_type 25 acc).
Qed.
End TlvSim.

Lemma checkSessionTag_agrees data offset : checkSessionTag data offset = Ok tt ↔ checkTag data offset = Ok tt.
Proof.
  unfold checkSessionTag, checkTag. destruct (get_uint 4 data offset); cbn [of_option mbind result_bind]; [|done].
  unfold guard_throw_if. by rewrite fail_if_Ok, throw_if_Ok.
Qed.

Lemma scaled_forbidden has : has ScaledUiAmount = true → has InterestBearingConfig = true → invalid_combination has = true.
Proof. intros Hs Hi. unfold invalid_combination. rewrite Hs, Hi. destruct (has ConfidentialTransferFeeConfig), (has TransferFeeConfig), (has ConfidentialTransferMint), (has ConfidentialMintBurn); done. Qed.

Lemma find_type_in type entries entry : find_type type entries = Some entry → type ∈ (list_to_set (map tlv_type entries) : gset Z).
Proof.
  unfold find_type. intros [Hin%list_elem_of_In Ht%Z.eqb_eq]%List.find_some. apply elem_of_list_to_set, list_elem_of_fmap. by exists entry.
Qed.

(** The page's reader of the session mint and guard-client's decoder: the
    page reads every mint guard-client decodes, with the same state; a mint it
    reads beyond those is one whose extensions Token-2022 forbids together. *)
Theorem readSessionMint_extends owner data s :
  (decodeProtectedState owner data = Ok s → ∃ d, byte_at data 44 = Some d ∧ readSessionMint owner data = Ok (s, d)) ∧
  (∀ d, readSessionMint owner data = Ok (s, d) → byte_at data 44 = Some d ∧
     (decodeProtectedState owner data = Ok s ∨ thrown_code (decodeProtectedState owner data) = Some C_InvalidExtensionCombination)).
Proof.
  unfold decodeProtectedState, parseMintAccount, validateBaseMint, readSessionMint, readTlvEntries, assertValidMintExtensionCombination.
  destruct (readSessionTlv_agrees data (S (length data)) 166 ∅ [] None eq_refl eq_refl) as [Hyes Hno]. split.
  - intros H. apply bind_Ok in H as (es & H & Hrest). apply guard_then_Ok in H as [Ho H]. rewrite then_Ok, guard_then_Ok, !then_Ok in H.
    destruct H as [(Hlen & Ht0 & Ht46 & Hinit) H]. apply guard_then_Ok in Hrest as [Hne Hrest]. rewrite Hne in H.
    rewrite !guard_then_Ok in H. destruct H as (H166 & Hpad & Htype & H). apply Hyes in H.
    destruct (find_type ScaledUiAmount es) as [entry|] eqn:Hf; [|discriminate Hrest]. cbv zeta in Hrest. rewrite !guard_then_Ok in Hrest.
    destruct Hrest as (Hcomb & H56 & Hval & Hrest). apply checkSessionTag_agrees in Ht0, Ht46. apply guard_Ok in Hinit.
    assert (∃ d, byte_at data 44 = Some d) as [d Hd].
    { unfold byte_at. apply fmap_is_Some, lookup_lt_is_Some_2. apply Nat.ltb_ge in H166. change TLV_START with 166%nat in H166. lia. }
    exists d. split; [done|]. rewrite !fail_if_then_Ok. split; [exact Ho|]. split.
    { apply orb_false_iff in Hlen as [_ Hlen]. apply orb_false_iff. by split. }
    rewrite then_Ok. split; [done|]. rewrite then_Ok. split; [done|]. rewrite !fail_if_then_Ok. split; [done|]. rewrite Hd. cbn [of_option mbind result_bind].
    rewrite fail_if_then_Ok. split; [by apply orb_false_iff|]. rewrite H. cbn [mbind result_bind fst snd fmap option_fmap option_map place].
    rewrite !fail_if_then_Ok. split.
    { apply bool_decide_eq_false. intros Hi. pose proof (find_type_in _ _ _ Hf) as Hs. rewrite scaled_forbidden in Hcomb; [done|by apply bool_decide_eq_true..]. }
    split; [done|]. split; [done|]. apply bind_Ok in Hrest as (t & Ht%of_option_Ok & [= <-]). by rewrite Ht.
  - intros d H. rewrite !fail_if_then_Ok in H. destruct H as (Ho & Hlen & H). apply then_Ok in H as [Ht0 H]. apply then_Ok in H as [Ht46 H].
    apply fail_if_then_Ok in H as [Hinit H]. apply bind_Ok in H as (d' & Hd%of_option_Ok & H). apply fail_if_then_Ok in H as [[Hpad Htype]%orb_false_iff H].
    apply bind_Ok in H as (read & Hread & H).
    destruct (readTlv (S (length data)) data 166 ∅ []) as [es|e] eqn:Htlv; [|by destruct (Hno ltac:(done) read)].
    rewrite (Hyes es eq_refl) in Hread. injection Hread as <-. cbn [snd fst] in H.
    destruct (find_type ScaledUiAmount es) as [entry|] eqn:Hf; [|discriminate H]. cbn [fmap option_fmap option_map place] in H.
    rewrite !fail_if_then_Ok in H. destruct H as (Hi & H56 & Hval & H). apply bind_Ok in H as (t & Ht%of_option_Ok & H). injection H as <- <-.
    split; [done|]. apply orb_false_iff in Hlen as [H166%Nat.ltb_ge H355]. apply checkSessionTag_agrees in Ht0, Ht46.
    rewrite Ho. cbn [guard_throw_if throw_if mbind result_bind]. unfold BASE_MINT_LEN.
    rewrite (proj2 (Nat.ltb_ge (length data) 82)), (proj2 (Nat.eqb_neq (length data) 82)) by lia. unfold MULTISIG_LEN. rewrite H355.
    cbn [orb guard_throw_if throw_if mbind result_bind]. unfold MINT_AUTHORITY_TAG_OFFSET, FREEZE_AUTHORITY_TAG_OFFSET, MINT_IS_INITIALIZED_OFFSET. rewrite Ht0, Ht46, Hinit.
    cbn [guard_throw_if throw_if mbind result_bind]. change TLV_START with 166%nat. rewrite (proj2 (Nat.ltb_ge (length data) 166)) by lia.
    change ACCOUNT_TYPE_OFFSET with 165%nat. unfold ACCOUNT_TYPE_MINT. rewrite Hpad, Htype, Htlv. cbn [guard_throw_if throw_if mbind result_bind].
    rewrite Hf. cbv zeta. destruct (invalid_combination _); cbn [guard_throw_if throw_if mbind result_bind]; [by right|].
    unfold SCALED_UI_AMOUNT_CONFIG_LEN. rewrite H56, Hval. cbn [guard_throw_if throw_if mbind result_bind]. left. by rewrite Ht.
Qed.

(** The state the page reads is one the program can hold. *)
Lemma readSessionMint_state owner data s d : readSessionMint owner data = Ok (s, d) →
  i64_range (newMultiplierEffectiveTimestamp s) ∧ isValidStoredMultiplier (multiplier s) = true ∧ isValidStoredMultiplier (newMultiplier s) = true.
Proof.
  unfold readSessionMint. intros H. rewrite !fail_if_then_Ok in H. destruct H as (_ & _ & H). apply then_Ok in H as [_ H]. apply then_Ok in H as [_ H].
  apply fail_if_then_Ok in H as [_ H]. apply bind_Ok in H as (d' & _ & H). apply fail_if_then_Ok in H as [_ H]. apply bind_Ok in H as (read & _ & H).
  destruct read.2 as [[value len]|]; [|discriminate H]. rewrite !fail_if_then_Ok in H.
  destruct H as (_ & _ & [Hm%negb_false_iff Hn%negb_false_iff]%orb_false_iff & H). apply bind_Ok in H as (t & Ht%of_option_Ok & [= <- <-]).
  split; [|done]. cbn. unfold get_int in Ht. apply fmap_Some in Ht as (u & Hu & ->). apply get_uint_range in Hu.
  exact (to_signed_range 8 u ltac:(lia) Hu).
Qed.

(** A mint with the scaled amount and a confidential transfer fee without its transfer fee. *)
Definition forbidden_mint_account : bytes :=
  zeros 44 ++ [x06; x01] ++ zeros 36 ++ zeros 83 ++ [x01] ++
  print_items [(ConfidentialTransferFeeConfig, [x00]); (ScaledUiAmount, scaled_config (zeros 32) sample_state)].

Example page_reads_forbidden_mint :
  readSessionMint TOKEN_2022_PROGRAM_ADDRESS forbidden_mint_account = Ok (sample_state, 6) ∧
  thrown_code (decodeProtectedState TOKEN_2022_PROGRAM_ADDRESS forbidden_mint_account) = Some C_InvalidExtensionCombination.
Proof. split; vm_compute; reflexivity. Qed.

Section EnvironmentSpec.
  Context {address : AddressCodec} {hash : Digest}.
  Variable atob : string → result rejection bytes.

(** An account of the reply as guard-client's verification sees it. *)
Definition loaded (account : ChainAccount) (view : LoaderAccountView) : Prop :=
  ∃ encoded, ch_data account = Some encoded ∧ atob encoded = Ok (acc_data view) ∧
    acc_executable view = ch_executable account ∧ acc_owner view = ch_owner account.

(** The deployment the page checks: the reviewed one, at the bound address. *)
Definition page_deployment (program : Address) : ReviewedGuardDeployment :=
  mkReviewed Devnet program PROGRAM_DATA_ADDRESS REVIEWED_ELF_LENGTH REVIEWED_ELF_SHA256.

Lemma chainAccountBytes_Ok data b : chainAccountBytes atob data = Ok b ↔ ∃ encoded, data = Some encoded ∧ atob encoded = Ok b.
Proof.
  destruct data as [encoded|]; cbn; [|split; [done|by intros (? & [=] & _)]].
  rewrite map_err_Ok. split; [by exists encoded|by intros (? & [= <-] & ?)].
Qed.

Lemma loaded_bytes account view : loaded account view → chainAccountBytes atob (ch_data account) = Ok (acc_data view).
Proof. intros (encoded & He & Hb & _). apply chainAccountBytes_Ok. by exists encoded. Qed.

Lemma header_of_program_data data : (45 ≤ length data)%nat → get_uint 4 data 0 = Some 3 →
  match decodeProgramDataHeader data with
  | Some header => hd_upgradeAuthority header = if bool_decide (byte_at data 12 = Some 1) then Some (decodeAddress (subarray data 13 45)) else None
  | None => bool_decide (byte_at data 12 = Some 1) = false
  end.
Proof.
  intros Hlen Htag. unfold decodeProgramDataHeader, u32At, PROGRAMDATA_HEADER_LEN, LOADER_STATE_PROGRAM_DATA. rewrite Htag.
  rewrite (proj2 (Nat.ltb_ge (length data) 45)), bool_decide_eq_true_2 by done. cbn [orb negb]. unfold PROGRAMDATA_SLOT_OFFSET.
  destruct (get_uint_is_Some 8 data 4) as [slot ->]; [lia|]. cbn [mbind option_bind]. unfold PROGRAMDATA_AUTHORITY_OPTION_OFFSET, OPTION_NONE, OPTION_SOME.
  destruct (bool_decide_reflect (byte_at data 12 = Some 0)) as [Hz|]; [by rewrite Hz|].
  destruct (bool_decide_reflect (byte_at data 12 = Some 1)); cbn [negb]; [|done]. cbv zeta. by destruct (String.eqb _ _).
Qed.

(** A refusal on both sides. *)
Ltac refused := split; [by intros [=]|by intros [(? & [=] & _)|(? & [=] & _)]].

(** The page accepts a deployment exactly when guard-client's verification
    of the reviewed binary attests it, and reports the same upgrade authority;
    the one thing it does not refuse is an authority header of neither form,
    which it reports as no authority. *)
Theorem verifyPublicAccounts_agrees program account data_account view data_view authority
  (Hprogram : loaded account view) (Hdata : loaded data_account data_view) :
  let check := verifyReviewedGuardDeployment (page_deployment program) (Some view) (Some data_view) in
  verifyPublicAccounts atob (Some account) (Some data_account) = Ok authority ↔
  (∃ attestation, check = CheckOk attestation ∧ at_upgradeAuthority attestation = authority) ∨
  (∃ message, check = CheckFail MALFORMED_PROGRAM_DATA message ∧ authority = None).
Proof.
  cbv zeta. pose proof (loaded_bytes _ _ Hprogram) as Hb. pose proof (loaded_bytes _ _ Hdata) as Hb'.
  destruct Hprogram as (? & _ & _ & He & Ho), Hdata as (? & _ & _ & _ & Ho').
  unfold verifyPublicAccounts, verifyReviewedGuardDeployment, verifyProgramData. cbv zeta. cbn [of_option mbind result_bind].
  rewrite He, Ho, Ho', Hb, Hb'. cbn [page_deployment dep_programAddress dep_programDataAddress dep_elfLength dep_elfSha256].
  unfold u32At, PROGRAM_ACCOUNT_LEN, LOADER_STATE_PROGRAM, LOADER_STATE_PROGRAM_DATA, PROGRAMDATA_HEADER_LEN, fail_if, checkGuardProgramAccount.
  rewrite He. destruct (ch_executable account); cbn [negb orb throw_if mbind result_bind].
  2: { refused. }
  destruct (String.eqb (ch_owner account) _); cbn [negb orb throw_if mbind result_bind].
  2: { refused. }
  destruct (negb (Nat.eqb _ 36) || _); cbn [throw_if mbind result_bind].
  { refused. }
  destruct (negb (String.eqb (decodeAddress _) _)); cbn [throw_if mbind result_bind].
  { refused. }
  destruct (String.eqb (ch_owner data_account) _); cbn [negb orb throw_if mbind result_bind].
  2: { refused. }
  rewrite (orb_comm (Nat.ltb _ _)). destruct (bool_decide_reflect (get_uint 4 (acc_data data_view) 0 = Some 3)) as [Htag|]; cbn [negb orb throw_if mbind result_bind].
  2: { refused. }
  destruct (Nat.ltb_spec (length (acc_data data_view)) (45 + REVIEWED_ELF_LENGTH)) as [|Hlen]; cbn [throw_if mbind result_bind].
  { refused. }
  destruct (negb (String.eqb (toHex _) _)); cbn [throw_if mbind result_bind].
  { refused. }
  destruct (existsb _ _); cbn [throw_if mbind result_bind].
  { refused. }
  pose proof (header_of_program_data (acc_data data_view) ltac:(unfold REVIEWED_ELF_LENGTH in *; lia) Htag) as Hh.
  destruct (decodeProgramDataHeader _) as [header|].
  - rewrite <- Hh. split.
    + intros [= <-]. left. by eexists.
    + intros [(? & [= <-] & <-)|(? & [=] & _)]. done.
  - rewrite Hh. split.
    + intros [= <-]. right. by eexists.
    + intros [(? & [=] & _)|(? & _ & ->)]. done.
Qed.
End EnvironmentSpec.

Section TransferSpec.
  Context {address : AddressCodec} {hash : Digest}.

Lemma web_addressBytes_Ok a key : web_addressBytes a = Ok key ↔ encodeAddress a = Some key.
Proof. apply of_option_Ok. Qed.

(** The page hashes what guard-client hashes for the instruction with the transaction's flags. *)
Lemma commitmentOf_agrees instruction instructions feePayer c :
  Z.of_nat (length (accounts_of instruction)) ≤ U32_MAX → Z.of_nat (length (data_of instruction)) ≤ U32_MAX →
  commitmentOf instruction instructions feePayer = Ok c ↔
  downstreamCommitment (asCommittedInstruction instruction instructions feePayer) = Ok c.
Proof.
  intros Hac Hda. set (i := asCommittedInstruction instruction instructions feePayer).
  assert (Hparts : ∀ metas parts,
    mapM_result (λ meta, let '(signer, writable) := flags instructions feePayer (meta_address meta) in
      key ← web_addressBytes (meta_address meta); Ok (key ++ [flag_byte signer; flag_byte writable])) metas = Ok parts ↔
    mapM_result accountBytes (map (λ meta, let '(signer, writable) := flags instructions feePayer (meta_address meta) in
      mkCommitted (meta_address meta) signer writable) metas) = Ok parts).
  { intros metas parts. rewrite !mapM_result_Ok. revert parts. induction metas as [|m metas IH]; intros parts; cbn [map].
    - split; intros Hnil; inversion Hnil; constructor.
    - assert (Hm : ∀ part, (let '(signer, writable) := flags instructions feePayer (meta_address m) in
        key ← web_addressBytes (meta_address m); Ok (key ++ [flag_byte signer; flag_byte writable])) = Ok part ↔
        accountBytes (let '(signer, writable) := flags instructions feePayer (meta_address m) in mkCommitted (meta_address m) signer writable) = Ok part).
      { intros part. destruct (flags _ _ _) as [s w]. rewrite accountBytes_Ok, bind_Ok. cbn. split.
        - intros (key & Hk%web_addressBytes_Ok & [= <-]). by exists key.
        - intros (key & Hk & ->). exists key. by rewrite web_addressBytes_Ok. }
      split; intros Hcons; inversion Hcons; subst; (constructor; [by apply Hm|by apply IH]). }
  unfold commitmentOf. rewrite bind_Ok. unfold downstreamCommitment, downstreamCommitmentPreimage. rewrite bind_Ok. split.
  - intros (program & Hp%web_addressBytes_Ok & Hrun). apply bind_Ok in Hrun as (parts & Hm%Hparts & [= <-]).
    eexists. rewrite bind_Ok. split; [|reflexivity]. eexists. rewrite instructionBytes_Ok. split; [|reflexivity].
    exists program, parts. subst i. cbn [asCommittedInstruction ci_programAddress ci_accounts ci_data]. rewrite length_map. done.
  - intros (preimage & Hpre & [= <-]). apply bind_Ok in Hpre as (body & Hbody%instructionBytes_Ok & [= <-]).
    destruct Hbody as (program & parts & Hp & Hm & _ & _ & ->). subst i. cbn [asCommittedInstruction ci_programAddress ci_accounts ci_data] in *.
    exists program. rewrite web_addressBytes_Ok. split; [done|]. apply Hparts in Hm. rewrite Hm. cbn [mbind result_bind]. by rewrite length_map.
Qed.

Lemma web_guard_agrees program mint expectation commitment guard :
  web_guard program mint expectation commitment = Ok guard ↔
  getAssertSafeExecutionV2Instruction program mint expectation commitment None = Ok guard.
Proof.
  unfold web_guard, getAssertSafeExecutionV2Instruction. rewrite !bind_Ok. cbn [from_option]. split.
  - intros (data & Hd%web_encoder_agree & [= <-]). exists data. split; [apply Hd|done].
  - intros (data & Hd & [= <-]). exists data. split; [by apply web_encoder_agree|done].
Qed.

(** C30: for a supported TransferChecked the page builds the very transaction
    guard-client builds, instruction for instruction, and refuses when it
    refuses. *)
Theorem buildPublicGuardedTransfer_agrees program feePayer mint expectation tc
  (Hsupported : assertSupportedTransferChecked tc mint = Ok tt) (Haccounts : Z.of_nat (length (accounts_of tc)) ≤ U32_MAX) :
  ∀ built, buildPublicGuardedTransfer (Some program) feePayer mint expectation tc = Ok built ↔
    ∃ g, buildGuardedTransferChecked program feePayer mint expectation tc None = Ok g ∧
      built = mkPublicTransfer (gt_instructions g) (gt_guard g).
Proof.
  intros built. unfold buildPublicGuardedTransfer, buildGuardedTransferChecked. rewrite Hsupported. cbn [mbind result_bind reviewedProgramId of_option from_option app].
  assert (ix_programAddress tc = TOKEN_2022_PROGRAM_ADDRESS ∧ length (data_of tc) = 10%nat) as [Hp Hlen].
  { unfold assertSupportedTransferChecked in Hsupported. apply guard_then_Ok in Hsupported as [Hp%negb_false_iff%String.eqb_eq Hs].
    apply guard_then_Ok in Hs as [Hs _]. rewrite !orb_false_iff, negb_false_iff, Nat.eqb_eq in Hs. split; [done|apply Hs]. }
  rewrite fail_if_then_Ok, Hp, String.eqb_refl. cbv zeta. rewrite bind_Ok. split.
  - intros (_ & placeholder & Hph%web_guard_agrees & Hrun). apply bind_Ok in Hrun as (c & Hc & Hrun).
    apply commitmentOf_agrees in Hc; [|done|rewrite Hlen; unfold U32_MAX; lia]. apply bind_Ok in Hrun as (guard & Hg%web_guard_agrees & [= <-]).
    rewrite Hph. cbn [mbind result_bind]. rewrite Hc. cbn [mbind result_bind]. rewrite Hg. cbn [mbind result_bind]. by eexists.
  - intros (g & Hrun & ->). apply bind_Ok in Hrun as (placeholder & Hph & Hrun). apply bind_Ok in Hrun as (c & Hc & Hrun).
    apply bind_Ok in Hrun as (guard & Hg & [= <-]). split; [done|]. exists placeholder. rewrite web_guard_agrees. split; [done|].
    apply commitmentOf_agrees in Hc; [|done|rewrite Hlen; unfold U32_MAX; lia]. rewrite Hc. cbn [mbind result_bind].
    apply web_guard_agrees in Hg. by rewrite Hg.
Qed.
End TransferSpec.

(* ------------------------------------------------------------------ *)
(** ** The decisions *)

(** The mint holds the scenario's schedule, and a change is scheduled. *)
Definition web_scheduled (snapshot : GuardSnapshot) (scenario : EquityScenario) (activation : Z) : Prop :=
  scheduled snapshot scenario activation ∧ hasScheduledChange (snap_state snapshot) = true.

Lemma web_scheduledBytesMatch_true snapshot scenario activation :
  web_scheduledBytesMatch snapshot scenario activation = Ok true ↔ web_scheduled snapshot scenario activation.
Proof.
  unfold web_scheduled. rewrite <- scheduledBytesMatch_true. unfold web_scheduledBytesMatch, scheduledBytesMatch. cbv zeta.
  destruct (storedMultiplier (sc_initialMultiplier scenario)); cbn [mbind result_bind]; [|split; [done|by intros [? _]]].
  destruct (bytesEqual _ _); cbn [and_then]; [|split; [done|by intros [? _]]].
  destruct (storedMultiplier (sc_newMultiplier scenario)); cbn [mbind result_bind]; [|split; [done|by intros [? _]]].
  split.
  - intros [= H]. rewrite !andb_true_iff in H. destruct H as [[[[-> ->] ->] ->] ->]. done.
  - intros [[= H] ->]. rewrite !andb_true_iff in H. by destruct H as [[[-> ->] ->] ->].
Qed.

Lemma authorize_sign snapshot scenario activation : authorizeDecision snapshot scenario activation = Ok Z_sign ↔
  web_scheduled snapshot scenario activation ∧ snap_phase snapshot = Pending ∧
  MIN_AUTHORIZATION_REMAINING_SECONDS ≤ activation - clock_unixTimestamp (snap_clock snapshot).
Proof.
  unfold authorizeDecision. rewrite bind_Ok. unfold MIN_AUTHORIZATION_REMAINING_SECONDS. split.
  - intros (m & Hm & H). destruct m; [|discriminate H]. apply web_scheduledBytesMatch_true in Hm. cbv zeta in H. cbn [negb] in H.
    destruct (Z.leb_spec activation (clock_unixTimestamp (snap_clock snapshot))); [discriminate H|].
    destruct (Z.eqb_spec (snap_phase snapshot) Pending); [|discriminate H].
    destruct (Z.ltb_spec (activation - clock_unixTimestamp (snap_clock snapshot)) 8); [discriminate H|]. done.
  - intros (Hm%web_scheduledBytesMatch_true & Hp & Hlead). exists true. split; [done|]. rewrite Hp. cbn [negb Z.eqb Pending].
    destruct (Z.leb_spec activation (clock_unixTimestamp (snap_clock snapshot))); [lia|].
    destruct (Z.ltb_spec (activation - clock_unixTimestamp (snap_clock snapshot)) 8); [lia|]. done.
Qed.

Lemma pendingReturn_hold snapshot scenario activation : pendingReturnDecision snapshot scenario activation = Ok true ↔
  web_scheduled snapshot scenario activation ∧ snap_phase snapshot = Pending ∧ clock_unixTimestamp (snap_clock snapshot) < activation.
Proof.
  unfold pendingReturnDecision. rewrite bind_Ok. split.
  - intros (m & Hm & H). destruct m; [|discriminate H]. apply web_scheduledBytesMatch_true in Hm. cbn [negb] in H.
    destruct (Z.leb_spec activation (clock_unixTimestamp (snap_clock snapshot))); [discriminate H|].
    by destruct (Z.eqb_spec (snap_phase snapshot) Pending).
  - intros (Hm%web_scheduledBytesMatch_true & Hp & Hlead). exists true. split; [done|]. rewrite Hp. cbn [negb Z.eqb Pending].
    by destruct (Z.leb_spec activation (clock_unixTimestamp (snap_clock snapshot))); [lia|].
Qed.

(** A review is ready exactly past the activation of the scenario's schedule. *)
Lemma activatedReview_ready snapshot scenario activation : i64_range activation →
  web_activatedReviewDecision snapshot scenario activation = Ok A_ready ↔
  web_scheduled snapshot scenario activation ∧ activation < clock_unixTimestamp (snap_clock snapshot).
Proof.
  intros Ht. unfold web_activatedReviewDecision. rewrite bind_Ok. split.
  - intros (m & Hm & H). destruct m; [|discriminate H]. apply web_scheduledBytesMatch_true in Hm. cbn [negb] in H. cbv zeta in H.
    destruct (negb (snap_phase snapshot =? Activated)); [discriminate H|].
    by destruct (Z.leb_spec (clock_unixTimestamp (snap_clock snapshot)) activation).
  - intros (Hm & Hpast). exists true. split; [by apply web_scheduledBytesMatch_true|]. destruct Hm as [[_ _ Htime _ Hphase] _].
    assert (Ha : snap_phase snapshot = Activated) by (rewrite Hphase; unfold phaseAt; by rewrite Htime, (proj2 (Z.leb_le _ _)) by lia).
    cbv zeta. rewrite Ha. cbn [negb Z.eqb Activated orb]. rewrite (proj2 (Z.leb_gt _ _)) by lia.
    cbn [expectationFromSnapshot expectedPhase]. rewrite Ha. cbn [negb Z.eqb Activated].
    rewrite checkOffline_agrees; [|by split|right; exact Ha|by rewrite Htime].
    unfold expectationFromSnapshot. rewrite check_crossing; [done|by rewrite Htime|lia|rewrite Ha; unfold phaseAt; by rewrite Htime, (proj2 (Z.leb_le _ _)) by lia].
Qed.

(** The page's decisions are the program's verdicts on the authorization
    it would build: one it signs still passes at that clock, what it holds
    after the wallet returned passes exactly until the activation, and what it
    calls ready passes from then on. *)
Theorem page_decisions_agree snapshot scenario activation
  (Hsession : web_scheduled snapshot scenario activation) (Hi64 : i64_range activation) :
  let actual := guard_state (snap_state snapshot) in
  let now := clock_unixTimestamp (snap_clock snapshot) in
  let authorization := guard_request (mkRequest (snap_state snapshot) Pending CLOCK_CROSSING_WINDOW) in
  (authorizeDecision snapshot scenario activation = Ok Z_sign →
   ∀ later, later < now + MIN_AUTHORIZATION_REMAINING_SECONDS → check authorization actual later = Ok tt) ∧
  (pendingReturnDecision snapshot scenario activation = Ok true ↔ check authorization actual now = Ok tt) ∧
  (web_activatedReviewDecision snapshot scenario activation = Ok A_ready →
   ∀ later, now ≤ later → check (guard_request (expectationForSnapshot snapshot)) actual later = Ok tt).
Proof.
  cbv zeta. pose proof Hsession as Hsession'. destruct Hsession' as [[_ _ Ht Hc Hp] Hchange].
  assert (Hbefore : ∀ later, later < activation →
    check (guard_request (mkRequest (snap_state snapshot) Pending CLOCK_CROSSING_WINDOW)) (guard_state (snap_state snapshot)) later = Ok tt).
  { intros later Hl. apply check_crossing; [by rewrite Ht|lia|]. unfold phaseAt. by rewrite Ht, (proj2 (Z.leb_gt _ _)) by lia. }
  split_and!.
  - intros (_ & _ & Hlead)%authorize_sign later Hlater. apply Hbefore. lia.
  - rewrite pendingReturn_hold. split; [intros (_ & _ & Hn); by apply Hbefore|]. intros Hcheck. split; [done|].
    assert (Hn : clock_unixTimestamp (snap_clock snapshot) < activation).
    { apply (pending_executes_before (mkRequest (snap_state snapshot) Pending CLOCK_CROSSING_WINDOW) activation) in Hcheck; [done|].
      split; [done|done|done|]. by apply hasScheduledChange_spec. }
    split; [|done]. rewrite Hp. unfold phaseAt. by rewrite Ht, (proj2 (Z.leb_gt _ _)) by lia.
  - intros (_ & Hpast)%activatedReview_ready later Hlater; [|done]. apply check_crossing; [by rewrite Ht|lia|].
    rewrite Hp. unfold phaseAt. by rewrite Ht, !(proj2 (Z.leb_le _ _)) by lia.
Qed.

(* ------------------------------------------------------------------ *)
(** ** The outcomes *)

Lemma length_pos s : Nat.ltb 0 (String.length s) = negb (String.eqb s "").
Proof. by destruct s. Qed.

(** The page accepts as proof of a protected rejection, and of an updated
    execution, exactly the outcomes with a signature the wallet demonstration
    accepts. *)
Theorem page_outcomes_agree outcome before after amount :
  let program := EQUITY_GUARD_DEVNET_PROGRAM_ID in
  let token := TOKEN_2022_PROGRAM_ADDRESS in
  (acceptActivationRejection outcome before after program token = true ↔
   co_signature outcome ≠ "" ∧ ∀ symbol label old new, ∃ result, confirmedActivationRejection outcome before after symbol label old new = Ok result) ∧
  (acceptUpdatedExecution outcome before after amount program token = true ↔
   ∀ symbol label, ∃ result, confirmedUpdatedExecution outcome before after amount symbol label = Ok result).
Proof.
  cbv zeta. assert (Hfailed : negb (is_null (co_error outcome)) && bool_decide (ce_instructionIndex <$> co_customError outcome = co_guardInstructionIndex outcome)
      && bool_decide (ce_code <$> co_customError outcome = Some 12) = guard_failed_with outcome 12).
  { unfold guard_failed_with. rewrite <- andb_assoc. f_equal. destruct (co_customError outcome) as [[index code]|], (co_guardInstructionIndex outcome) as [i|]; cbn.
    - f_equal; [|]; apply eq_true_iff_eq; rewrite bool_decide_eq_true, Z.eqb_eq; split; congruence.
    - by rewrite bool_decide_eq_false_2.
    - by rewrite bool_decide_eq_false_2.
    - by rewrite andb_false_r. }
  split.
  - unfold acceptActivationRejection, confirmedActivationRejection. rewrite length_pos. unfold programLogInvoked, programLogSucceeded, balancesUnchanged.
    cbv zeta. rewrite <- Hfailed. set (n := negb (is_null _)). set (x := bool_decide _). set (c := bool_decide _).
    destruct (String.eqb_spec (co_signature outcome) "") as [->|]; cbn [negb]; rewrite ?andb_false_r; [by split; [|intros [? _]]|].
    rewrite andb_true_r, <- !andb_assoc. set (all := n && _). destruct all; cbn [negb throw_if mbind result_bind].
    + split; [|done]. split; [done|]. by eexists.
    + split; [done|]. intros [_ H]. by destruct (H "" "" "" "").
  - unfold acceptUpdatedExecution, confirmedUpdatedExecution, programLogSucceeded, expectedTransferDelta. cbv zeta. rewrite length_pos.
    destruct (is_null (co_error outcome)), (String.eqb_spec (co_signature outcome) "") as [->|Hne],
      (tb_source before - tb_source after =? amount), (tb_destination after - tb_destination before =? amount);
      cbn [negb andb orb throw_if mbind result_bind]; try (split; [done|intros H; by destruct (H "" "")]).
    + rewrite orb_true_r. cbn. split; [done|intros H; by destruct (H "" "")].
    + assert (Nat.eqb (String.length (co_signature outcome)) 0 = false) as -> by (by destruct (co_signature outcome)).
      rewrite orb_false_r. destruct (existsb _ _), (existsb _ _); cbn; (split; [try done; intros _ ? ?; by eexists|intros H; try done; by destruct (H "" "")]).
Qed.

(* ------------------------------------------------------------------ *)
(** ** The bound program *)

(** Once bound, the program never changes. *)
Lemma bind_all_fixed programs program : bind_all programs (Some program) = Some program.
Proof.
  unfold bind_all. induction programs as [|p l IH]; cbn; [done|]. destruct (String.eqb_spec program p) as [->|]; cbn; exact IH.
Qed.

Lemma bound_program_fixed programs program : bind_all (program :: programs) None = Some program.
Proof. apply (bind_all_fixed programs program). Qed.

(* ------------------------------------------------------------------ *)
(** ** Concrete inputs *)

Definition page_program_account : ChainAccount := mkChainAccount true BPF_LOADER_UPGRADEABLE_ADDRESS (Some "program").
Definition page_data_account : ChainAccount := mkChainAccount false BPF_LOADER_UPGRADEABLE_ADDRESS (Some "data").

Definition page_view (executable : bool) (encoded : string) : LoaderAccountView :=
  mkAccount executable BPF_LOADER_UPGRADEABLE_ADDRESS (sample_program_data encoded).
Definition page_check : GuardCheck GuardDeploymentAttestation :=
  @verifyReviewedGuardDeployment _ reviewed_digest (page_deployment EQUITY_GUARD_DEVNET_PROGRAM_ID)
    (Some (page_view true "program")) (Some (page_view false "data")).

Lemma verifyPublicAccounts_agrees_witness :
  verifyPublicAccounts (hash := reviewed_digest) sample_atob (Some page_program_account) (Some page_data_account) = Ok None ↔
  (∃ attestation, page_check = CheckOk attestation ∧ at_upgradeAuthority attestation = None) ∨
  (∃ message, page_check = CheckFail MALFORMED_PROGRAM_DATA message ∧ @None Address = None).
Proof.
  apply (verifyPublicAccounts_agrees (hash := reviewed_digest) sample_atob EQUITY_GUARD_DEVNET_PROGRAM_ID page_program_account page_data_account
    (page_view true "program") (page_view false "data") None);
    eexists; split_and!; reflexivity.
Defined.

Lemma buildPublicGuardedTransfer_agrees_witness :
  ∃ g, buildGuardedTransferChecked sample_program sample_payer sample_mint sample_expectation sample_transfer None = Ok g ∧
    mkPublicTransfer (gt_instructions sample_guarded) (gt_guard sample_guarded) = mkPublicTransfer (gt_instructions g) (gt_guard g).
Proof.
  refine (proj1 (buildPublicGuardedTransfer_agrees sample_program sample_payer sample_mint sample_expectation sample_transfer _ _ _) _).
  - vm_compute. reflexivity.
  - vm_compute. discriminate.
  - vm_compute. reflexivity.
Defined.

Lemma page_decisions_agree_witness :
  authorizeDecision sample_now_snapshot sample_scenario sample_activation = Ok Z_sign ∧
  check (guard_request (mkRequest sample_state Pending CLOCK_CROSSING_WINDOW)) (guard_state sample_state) (sample_now + 7) = Ok tt.
Proof.
  split; [vm_compute; reflexivity|].
  refine (proj1 (page_decisions_agree sample_now_snapshot sample_scenario sample_activation _ _) _ _ _).
  - split; [|vm_compute; reflexivity]. split; vm_compute; reflexivity.
  - unfold i64_range, I64_MIN, I64_MAX, sample_activation. lia.
  - vm_compute. reflexivity.
  - unfold MIN_AUTHORIZATION_REMAINING_SECONDS. cbn. lia.
Defined.
