(* ===== verification/DevnetSession.v ===== *)
(** * apps/web/lib/devnet-public.ts: the live Devnet session of the public page

    Preparing a session, authorizing the pending transfer, submitting the held
    bytes and authorizing the updated transfer, over the endpoint of
    [DemoChain.v]. Every loop is bounded in the source: the confirmation poll
    gives up after forty requests. *)

From S2P Require Import Prelude Js Float64 Errors Kit Base58 Sha256 Abi OnChain OfflineCheck MintState Snapshot Downstream Deployment CanonicalKey DemoChain WalletDemo WalletSigning DevnetPublic.

Record PreparedSession := mkSession {
  ps_scenario : EquityScenario;
  ps_activation : Z;
  ps_mint : Address;
  ps_sourceAta : Address;
  ps_destinationAta : Address;
  ps_setupSignature : string;
  ps_balances : TokenBalances;
}.

(* ------------------------------------------------------------------ *)
(** ** The wallet *)






(** The digest is compared before the length. *)
Definition web_assertSameSignedBytes {hash : Digest} (held : HeldSignedTransaction) (actual : bytes) : result demo_exn unit :=
  fail_if (negb (String.eqb (wireSha256Hex actual) (hs_sha256 held)) || negb (Nat.eqb (length actual) (length (hs_signedBytes held))))
    "Signed transaction bytes changed";;
  fail_if (negb (bytesEqual actual (hs_signedBytes held))) "Signed transaction bytes changed".

Definition staleSendFailure (error : demo_exn) : demo_exn :=
  let message := error_text error in
  if contains_ci ["preflight"; "simulation failed"] message
  then DevnetSubmissionError PREFLIGHT_REJECTED
         ("PREFLIGHT_REJECTED. The transaction was not broadcast. No signature was returned. " +:+ message) None
  else DevnetSubmissionError SUBMISSION_FAILED ("SUBMISSION_FAILED. The send failed before a signature was returned. " +:+ message) None.

(* ------------------------------------------------------------------ *)
(** ** The requests *)

Section Session.
  Context {address : AddressCodec} {hash : Digest} {codec : LegacyCodec}.
  Variable chain : nat → Endpoint.
  Variable atob : string → result rejection bytes.
  (** The program the page bound. *)
  Variable boundProgram : option Address.
  (** [getTransferCheckedInstruction]: source, mint, destination, authority, amount and decimals. *)
  Variable transferCheckedInstruction : Address → Address → Address → Address → Z → Z → Instruction.

Definition readChainSnapshot (mint : Address) : action GuardSnapshot :=
  reply ← ask chain (λ e, ep_getMultipleAccounts e [mint; SYSVAR_CLOCK_ADDRESS]);
  let missing := PlainError "Session mint or Clock was not returned" in
  mintAccount ← lift (of_option missing (value_of reply 0));
  clockAccount ← lift (of_option missing (value_of reply 1));
  lift (clockData ← chainAccountBytes atob (ch_data clockAccount);
        clock ← web_decodeClock clockData;
        mintData ← chainAccountBytes atob (ch_data mintAccount);
        read ← readSessionMint (ch_owner mintAccount) mintData;
        Ok (mkSnapshot mint reply.1 clock read.1 (phaseAt read.1 (clock_unixTimestamp clock)) (hasScheduledChange read.1))).

Definition web_readChainClock : action Z :=
  account ← ask chain (λ e, ep_getAccountInfo e SYSVAR_CLOCK_ADDRESS);
  account ← lift (of_option (PlainError "Clock sysvar not returned") account);
  lift (data ← chainAccountBytes atob (ch_data account);
        clock ← web_decodeClock data;
        Ok (clock_unixTimestamp clock)).

Definition verifyPublicEnvironment : action (option Address) :=
  genesisHash ← ask chain ep_getGenesisHash;
  lift (assertDevnetCluster genesisHash);;
  program ← lift (reviewedProgramId boundProgram);
  reply ← ask chain (λ e, ep_getMultipleAccounts e [program; PROGRAM_DATA_ADDRESS]);
  lift (verifyPublicAccounts atob (value_of reply 0) (value_of reply 1)).

(** The loop of [confirmSignature], with the requests left. *)
Fixpoint awaitStatus (attempts : nat) (signature : string) : action unit :=
  match attempts with
  | O => mret tt
  | S attempts =>
      status ← ask chain (λ e, ep_getSignatureStatus e signature);
      if is_confirmed status then mret tt else awaitStatus attempts signature
  end.

Definition confirmSignature (signature : string) (guardInstructionIndex : Z) : action ConfirmedOutcome :=
  awaitStatus 40 signature;;
  tx ← ask chain (λ e, ep_getTransaction e signature);
  lift (match tx with
        | None => Err (DevnetSubmissionError CONFIRMATION_FAILED
            ("CONFIRMATION_FAILED. Signature " +:+ signature +:+ " was returned, but confirmation could not be established.") (Some signature))
        | Some tx => Ok (mkOutcome signature (ti_slot tx) (ti_err tx) (parseCustomError (ti_err tx)) (ti_logs tx) (Some guardInstructionIndex))
        end).

(** The two requests are sent together; they are read in order. *)
Definition readBalances (source destination : Address) : action TokenBalances :=
  sourceBalance ← ask chain (λ e, ep_getTokenAccountBalance e source);
  destinationBalance ← ask chain (λ e, ep_getTokenAccountBalance e destination);
  mret (mkBalances sourceBalance destinationBalance).

(** [String(response.signature)], or nothing. *)
Definition sentSignature (response : wallet_value) : string :=
  match response with
  | WObject _ _ (Some value) => js_string value
  | _ => ""
  end.

Definition signAndSend (wallet : Address) (instructions : list Instruction) (beforeSign : action unit) : action ConfirmedOutcome :=
  verifyPublicEnvironment;;
  blockhash ← ask chain ep_getLatestBlockhash;
  transaction ← lift (decoded (compileLegacy wallet blockhash instructions));
  height ← ask chain ep_getBlockHeight;
  lift (throw_if (bh_lastValidBlockHeight blockhash <? height) StaleAuthorizationExpired);;
  beforeSign;;
  text ← lift (decoded (phantomText transaction));
  response ← ask_wallet chain M_signAndSendTransaction text;
  let signature := sentSignature response in
  lift (fail_if (Nat.eqb (String.length signature) 0) "Phantom returned no transaction signature");;
  confirmSignature signature 0.

(** The transfer of both authorizations. *)
Definition sessionTransfer (wallet : Address) (session : PreparedSession) : Instruction :=
  transferCheckedInstruction (ps_sourceAta session) (ps_mint session) (ps_destinationAta session) wallet 100000 6.



(** The catch clause around the send. *)
Definition send_failed (error : demo_exn) : action string :=
  lift (Err (if contains_ci ["blockhash not found"; "block height exceeded"] (error_text error) then StaleAuthorizationExpired
             else match error with DevnetSubmissionError _ _ _ => error | _ => staleSendFailure error end)).

Definition submitHeld (held : HeldSignedTransaction) : action ConfirmedOutcome :=
  verifyPublicEnvironment;;
  height ← ask chain ep_getBlockHeight;
  lift (throw_if (hs_lastValidBlockHeight held <? height) StaleAuthorizationExpired);;
  lift (web_assertSameSignedBytes held (hs_signedBytes held));;
  submitted ← catch (submit_wire chain (hs_signedBytes held)) send_failed;
  lift (fail_if (negb (String.eqb submitted (hs_signature held))) "Devnet RPC returned a different transaction signature");;
  confirmSignature (hs_signature held) (Z.of_nat (hs_guardInstructionIndex held)).

(** The check repeated just before the wallet is asked. *)
Definition stillReady (session : PreparedSession) : action unit :=
  latest ← readChainSnapshot (ps_mint session);
  decision ← lift (web_activatedReviewDecision latest (ps_scenario session) (ps_activation session));
  lift (fail_if (negb (bool_decide (decision = A_ready))) "Chain state changed before the updated authorization. No signature was requested.").

Definition authorizeUpdated (wallet : Address) (session : PreparedSession) : action ConfirmedOutcome :=
  snapshot ← readChainSnapshot (ps_mint session);
  decision ← lift (web_activatedReviewDecision snapshot (ps_scenario session) (ps_activation session));
  lift (fail_if (negb (bool_decide (decision = A_ready))) "Updated authorization is not ready at this chain clock. No signature was requested.");;
  built ← lift (buildPublicGuardedTransfer boundProgram wallet (ps_mint session) (expectationForSnapshot snapshot) (sessionTransfer wallet session));
  signAndSend wallet (pt_instructions built) (stillReady session).

(* ------------------------------------------------------------------ *)
(** ** Preparing a session *)

  (** [crypto.getRandomValues(new Uint8Array(8))], [generateKeyPairSigner] and
      [createAddressWithSeed] for the Token-2022 program; the rest as in
      [WalletDemo.v]. *)
  Variable seedBytes : bytes.
  Variable recipient : Address.
  Variable createAddressWithSeed : Address → string → result rejection Address.
  Variable createAccountWithSeed : Address → Address → string → Z → Z → Address → Instruction.
  Variable demoMintSpace : Address → Z.
  Variable initializeScaledUiAmountMint : Address → Address → jsnum → Instruction.
  Variable initializeMint2 : Address → Z → Address → Instruction.
  Variable updateMultiplierScaledUiMint : Address → Address → jsnum → Z → Instruction.
  Variable createAssociatedTokenIdempotent : Address → Address → Address → Instruction.
  Variable mintTo : Address → Address → Address → Z → Instruction.
  Variable associatedToken : Address → Address → Address.

(** The confirmed mint, read back. *)
Definition checkSessionMint (mint : Address) (activation : Z) : action unit :=
  mintAccount ← ask chain (λ e, ep_getAccountInfo e mint);
  mintAccount ← lift (of_option (PlainError "Confirmed demo mint account is missing") mintAccount);
  lift (mintData ← chainAccountBytes atob (ch_data mintAccount);
        decoded ← readSessionMint (ch_owner mintAccount) mintData;
        fail_if (negb (decoded.2 =? 6)) "Demo mint decimals did not match";;
        fail_if (negb (newMultiplierEffectiveTimestamp decoded.1 =? activation)) "Demo mint activation timestamp does not match this attempt").

Definition prepareLiveSession (wallet : Address) (scenario : EquityScenario) : action PreparedSession :=
  verifyPublicEnvironment;;
  clock ← web_readChainClock;
  activation ← lift (web_activationTimestamp clock WEB_ACTIVATION_DELAY_SECONDS);
  let seed := "eg-" +:+ toHex seedBytes in
  mint ← lift (map_err Rejected (createAddressWithSeed wallet seed));
  rent ← ask chain (λ e, ep_getMinimumBalanceForRentExemption e (demoMintSpace wallet));
  let sourceAta := associatedToken wallet mint in
  let destinationAta := associatedToken recipient mint in
  instructions ← lift (prepareSessionInstructions createAccountWithSeed demoMintSpace initializeScaledUiAmountMint initializeMint2
    updateMultiplierScaledUiMint createAssociatedTokenIdempotent mintTo associatedToken wallet mint seed rent recipient scenario activation clock);
  outcome ← signAndSend wallet instructions (mret tt);
  lift (fail_if (negb (is_null (co_error outcome))) "The session mint transaction failed on Devnet");;
  checkSessionMint mint activation;;
  snapshot ← readChainSnapshot mint;
  decision ← lift (authorizeDecision snapshot scenario activation);
  lift (fail_if (bool_decide (decision = Z_mismatch)) "The session mint does not match the selected scenario");;
  balances ← readBalances sourceAta destinationAta;
  mret (mkSession scenario activation mint sourceAta destinationAta (co_signature outcome) balances).
End Session.

(* ------------------------------------------------------------------ *)
(** ** What the session guarantees *)

Section SessionSpec.
  Context {address : AddressCodec} {hash : Digest} {codec : LegacyCodec}.
  Variable chain : nat → Endpoint.
  Variable atob : string → result rejection bytes.
  Variable boundProgram : option Address.
  Variable transferCheckedInstruction : Address → Address → Address → Address → Z → Z → Instruction.

(** From this moment the endpoint is devnet's and the bound program passes the page's checks. *)
Definition reviewed_page (w : World) : Prop :=
  ep_getGenesisHash (chain (w_moment w)) = Ok DEVNET_GENESIS_HASH ∧
  ∃ program reply authority, boundProgram = Some program ∧
    ep_getMultipleAccounts (chain (S (w_moment w))) [program; PROGRAM_DATA_ADDRESS] = Ok reply ∧
    verifyPublicAccounts atob (value_of reply 0) (value_of reply 1) = Ok authority.

(** The endpoint gave this snapshot of the mint at some moment. *)
Definition was_read (mint : Address) (snapshot : GuardSnapshot) : Prop :=
  ∃ w w', readChainSnapshot chain atob mint w = (Ok snapshot, w').

Lemma assertDevnetCluster_Ok genesisHash u : assertDevnetCluster genesisHash = Ok u → genesisHash = DEVNET_GENESIS_HASH.
Proof. unfold assertDevnetCluster. intros (_ & _ & H%fail_if_Ok)%fail_if_then_Ok%(λ H, conj (proj1 H) (proj1 (fail_if_then_Ok _ _ _ _) (proj2 H))). by apply negb_false_iff, String.eqb_eq in H. Qed.

Lemma verifyPublicEnvironment_Ok w a w' : verifyPublicEnvironment chain atob boundProgram w = (Ok a, w') → reviewed_page w.
Proof.
  unfold verifyPublicEnvironment. intros (genesis & w1 & [Hg ->]%ask_Ok & H)%action_bind_Ok.
  apply action_bind_Ok in H as (u & w2 & [Hc%assertDevnetCluster_Ok ->]%lift_Ok & H). subst genesis.
  apply action_bind_Ok in H as (program & w3 & [Hp%of_option_Ok ->]%lift_Ok & H).
  apply action_bind_Ok in H as (reply & w4 & [Hr ->]%ask_Ok & H). apply lift_Ok in H as [Hv _]. split; [done|]. by exists program, reply, a.
Qed.

Lemma silent_public_environment : silent (verifyPublicEnvironment chain atob boundProgram).
Proof. unfold silent, verifyPublicEnvironment. adds. Qed.

Lemma silent_chain_snapshot mint : silent (readChainSnapshot chain atob mint).
Proof. unfold silent, readChainSnapshot. adds. Qed.

Lemma readChainSnapshot_Ok mint snapshot : was_read mint snapshot →
  snap_phase snapshot = phaseAt (snap_state snapshot) (clock_unixTimestamp (snap_clock snapshot)) ∧
  snap_hasScheduledChange snapshot = hasScheduledChange (snap_state snapshot).
Proof.
  intros (w & w' & H). unfold readChainSnapshot in H. apply action_bind_Ok in H as (reply & w1 & _ & H).
  apply action_bind_Ok in H as (m & w2 & _ & H). apply action_bind_Ok in H as (c & w3 & _ & H). apply lift_Ok in H as [H _].
  apply bind_Ok in H as (cd & _ & H). apply bind_Ok in H as (clock & _ & H). apply bind_Ok in H as (md & _ & H).
  apply bind_Ok in H as (read & _ & H). by injection H as <-.
Qed.





Lemma silent_confirmSignature signature index : silent (confirmSignature chain signature index).
Proof.
  unfold silent, confirmSignature. apply adds_bind; [|intros _; adds]. generalize 40%nat as n. induction n as [|n IH]; cbn [awaitStatus]; adds.
Qed.

(** The page sends nothing, or the held bytes once: only past the check of
    the reviewed deployment, at a height the blockhash is still valid at and
    with bytes that hash to the sealed digest, and nothing more is asked for. *)
Theorem submitHeld_once held w :
  let after := w_effects (snd (submitHeld chain atob boundProgram held w)) in
  after = w_effects w ∨
  after = w_effects w ++ [SubmittedWire (hs_signedBytes held)] ∧
  reviewed_page w ∧ wireSha256Hex (hs_signedBytes held) = hs_sha256 held ∧
  ∃ moment height, ep_getBlockHeight (chain moment) = Ok height ∧ height ≤ hs_lastValidBlockHeight held.
Proof.
  cbv zeta. unfold submitHeld. destruct (verifyPublicEnvironment chain atob boundProgram w) as [[a|e] w1] eqn:Henv.
  2: { rewrite (action_fail _ _ _ _ _ Henv). left. exact (silent_run _ _ _ _ silent_public_environment Henv). }
  rewrite (action_step _ _ _ _ _ Henv). pose proof (silent_run _ _ _ _ silent_public_environment Henv) as Hw1. apply verifyPublicEnvironment_Ok in Henv.
  rewrite step_ask. destruct (ep_getBlockHeight (chain (w_moment w1))) as [height|e] eqn:Hh; [|by left].
  rewrite step_lift. destruct (Z.ltb_spec (hs_lastValidBlockHeight held) height) as [|Hle]; [by left|]. cbn [throw_if].
  rewrite step_lift. destruct (web_assertSameSignedBytes held (hs_signedBytes held)) as [[]|e] eqn:Hs; [|by left].
  right. unfold web_assertSameSignedBytes in Hs. apply fail_if_then_Ok in Hs as [[Hs%negb_false_iff%String.eqb_eq _]%orb_false_iff _].
  split; [|split; [done|split; [done|by exists (w_moment w1), height]]].
  unfold mbind at 1, action_bind at 1, catch at 1, submit_wire. rewrite step_emit. unfold ask at 1. cbn [w_moment w_effects].
  destruct (ep_sendTransaction _ _) as [submitted|e]; cbn [map_err].
  - rewrite step_lift. destruct (fail_if _ _) as [[]|e]; [|cbn; by rewrite Hw1].
    rewrite (silent_effects _ _ (silent_confirmSignature _ _)). cbn. by rewrite Hw1.
  - cbn. by rewrite Hw1.
Qed.

(** The snapshot's mint was decoded from bytes: its activation is an i64. *)
Lemma was_read_i64 mint snapshot : was_read mint snapshot → i64_range (newMultiplierEffectiveTimestamp (snap_state snapshot)).
Proof.
  intros (w & w' & H). unfold readChainSnapshot in H. apply action_bind_Ok in H as (reply & w1 & _ & H).
  apply action_bind_Ok in H as (m & w2 & _ & H). apply action_bind_Ok in H as (c & w3 & _ & H). apply lift_Ok in H as [H _].
  apply bind_Ok in H as (cd & _ & H). apply bind_Ok in H as (clock & _ & H). apply bind_Ok in H as (md & _ & H).
  apply bind_Ok in H as ([s d] & Hr & [= <-]). cbn [snap_state fst]. exact (proj1 (readSessionMint_state _ _ _ _ Hr)).
Qed.

(** Two reads of the same schedule hold the same state. *)
Lemma same_schedule snapshot latest scenario activation :
  web_scheduled snapshot scenario activation → web_scheduled latest scenario activation → snap_state snapshot = snap_state latest.
Proof.
  intros [[Hi Hn Ht _ _] _] [[Hi' Hn' Ht' _ _] _]. destruct (snap_state snapshot), (snap_state latest). cbn in *. congruence.
Qed.

(** What the page has when it asks for the updated transaction. *)
Record updated_request (wallet : Address) (session : PreparedSession) (text : string) : Prop := {
  ur_read : ∃ snapshot latest, was_read (ps_mint session) snapshot ∧ was_read (ps_mint session) latest ∧
    snap_state snapshot = snap_state latest ∧
    (∃ blockhash built transaction,
      buildPublicGuardedTransfer boundProgram wallet (ps_mint session) (expectationForSnapshot snapshot)
        (sessionTransfer transferCheckedInstruction wallet session) = Ok built ∧
      compileLegacy wallet blockhash (pt_instructions built) = Ok transaction ∧ phantomText transaction = Ok text) ∧
    ∀ later, clock_unixTimestamp (snap_clock latest) ≤ later →
      check (guard_request (expectationForSnapshot snapshot)) (guard_state (snap_state latest)) later = Ok tt;
  ur_reviewed : ∃ w, reviewed_page w;
}.

Lemma stillReady_Ok session w u w' : stillReady chain atob session w = (Ok u, w') →
  ∃ latest, was_read (ps_mint session) latest ∧ web_activatedReviewDecision latest (ps_scenario session) (ps_activation session) = Ok A_ready.
Proof.
  unfold stillReady. intros (latest & w1 & Hr & H)%action_bind_Ok. apply action_bind_Ok in H as (d & w2 & [Hd ->]%lift_Ok & H).
  apply lift_Ok in H as [H%fail_if_Ok%negb_false_iff%bool_decide_eq_true _]. subst d. exists latest. split; [by eexists _, _|done].
Qed.

Lemma silent_stillReady session : silent (stillReady chain atob session).
Proof. unfold silent, stillReady. apply adds_bind; [apply silent_chain_snapshot|intros ?]. adds. Qed.

(** A sending asks the wallet at most once, after its check, and for the transaction of these instructions. *)
Lemma signAndSend_asks wallet instructions beforeSign w : silent beforeSign →
  let after := w_effects (snd (signAndSend chain atob boundProgram wallet instructions beforeSign w)) in
  after = w_effects w ∨
  ∃ text, after = w_effects w ++ [AskedWallet M_signAndSendTransaction text] ∧ reviewed_page w ∧
    (∃ w1 w2, beforeSign w1 = (Ok tt, w2)) ∧
    ∃ blockhash transaction, compileLegacy wallet blockhash instructions = Ok transaction ∧ phantomText transaction = Ok text.
Proof.
  intros Hsilent. cbv zeta. unfold signAndSend. destruct (verifyPublicEnvironment chain atob boundProgram w) as [[a|e] w1] eqn:Henv.
  2: { rewrite (action_fail _ _ _ _ _ Henv). left. exact (silent_run _ _ _ _ silent_public_environment Henv). }
  rewrite (action_step _ _ _ _ _ Henv). pose proof (silent_run _ _ _ _ silent_public_environment Henv) as Hw1. apply verifyPublicEnvironment_Ok in Henv.
  rewrite step_ask. destruct (ep_getLatestBlockhash _) as [bh|e]; [|by left].
  rewrite step_lift. destruct (decoded (compileLegacy wallet bh instructions)) as [tx|e] eqn:Htx; [|by left].
  rewrite step_ask. destruct (ep_getBlockHeight _) as [height|e]; [|by left].
  rewrite step_lift. destruct (throw_if _ _) as [[]|e]; [|by left]. cbn [w_moment w_effects].
  set (w2 := mkWorld _ _). assert (Hw2 : w_effects w2 = w_effects w) by exact Hw1.
  destruct (beforeSign w2) as [[[]|e] w3] eqn:Hbefore.
  2: { rewrite (action_fail _ _ _ _ _ Hbefore). left. cbn. by rewrite (silent_run _ _ _ _ Hsilent Hbefore). }
  rewrite (action_step _ _ _ _ _ Hbefore). pose proof (silent_run _ _ _ _ Hsilent Hbefore) as Hw3. rewrite Hw2 in Hw3.
  rewrite step_lift. destruct (decoded (phantomText tx)) as [text|e] eqn:Htext; [|left; exact Hw3].
  right. exists text. apply decoded_Ok in Htx, Htext. split; [|split; [done|split; [by exists w2, w3|by exists bh, tx]]].
  unfold ask_wallet, mbind at 1, action_bind at 1. rewrite step_emit. unfold ask at 1. cbn [w_moment w_effects].
  destruct (ep_request _ _ _) as [response|e]; cbn [map_err]; [|cbn; by rewrite Hw3]. cbv zeta.
  rewrite step_lift. destruct (fail_if _ _) as [[]|e]; [|cbn; by rewrite Hw3].
  rewrite (silent_effects _ _ (silent_confirmSignature _ _)). cbn. by rewrite Hw3.
Qed.

(** The page asks for the updated transaction at most once and submits
    nothing itself; when it asks, the chain was past the activation at two
    reads of the same state, and the program accepts the new authorization on
    that state from the last read on. *)
Theorem authorizeUpdated_sound wallet session w :
  let after := w_effects (snd (authorizeUpdated chain atob boundProgram transferCheckedInstruction wallet session w)) in
  after = w_effects w ∨
  ∃ text, after = w_effects w ++ [AskedWallet M_signAndSendTransaction text] ∧ updated_request wallet session text.
Proof.
  cbv zeta. unfold authorizeUpdated. destruct (readChainSnapshot chain atob (ps_mint session) w) as [[snapshot|e] w1] eqn:Hread.
  2: { rewrite (action_fail _ _ _ _ _ Hread). left. exact (silent_run _ _ _ _ (silent_chain_snapshot _) Hread). }
  rewrite (action_step _ _ _ _ _ Hread). pose proof (silent_run _ _ _ _ (silent_chain_snapshot _) Hread) as Hw1.
  assert (Hsnap : was_read (ps_mint session) snapshot) by (by eexists _, _).
  rewrite step_lift. destruct (web_activatedReviewDecision snapshot _ _) as [d|e] eqn:Hd; [|by left].
  rewrite step_lift. destruct (bool_decide_reflect (d = A_ready)) as [->|]; [|by left]. unfold fail_if at 1. cbn [negb throw_if].
  rewrite step_lift. destruct (buildPublicGuardedTransfer _ _ _ _ _) as [built|e] eqn:Hb; [|by left].
  destruct (signAndSend_asks wallet (pt_instructions built) (stillReady chain atob session) w1 (silent_stillReady session)) as [H|(text & H & Henv & (w2 & w3 & Hlast) & bh & tx & Htx & Htext)].
  { left. etransitivity; [exact H|exact Hw1]. }
  right. exists text. split; [etransitivity; [exact H|by rewrite Hw1]|]. apply stillReady_Ok in Hlast as (latest & Hl & Hdl).
  split; [|by exists w1]. exists snapshot, latest. split; [done|]. split; [done|].
  pose proof (was_read_i64 _ _ Hsnap) as Hi. pose proof (was_read_i64 _ _ Hl) as Hi'. pose proof (readChainSnapshot_Ok _ _ Hsnap) as [Hphase _].
  assert (Hr : ∀ s, i64_range (newMultiplierEffectiveTimestamp (snap_state s)) → web_activatedReviewDecision s (ps_scenario session) (ps_activation session) = Ok A_ready →
    web_scheduled s (ps_scenario session) (ps_activation session) ∧ ps_activation session < clock_unixTimestamp (snap_clock s)).
  { intros s Hs Hready. apply activatedReview_ready; [|done]. unfold web_activatedReviewDecision in Hready. apply bind_Ok in Hready as (m & Hm & Hready).
    destruct m; [|discriminate Hready]. apply web_scheduledBytesMatch_true in Hm as [[_ _ <- _ _] _]. done. }
  destruct (Hr _ Hi Hd) as [Hs Hpast], (Hr _ Hi' Hdl) as [Hs' Hpast'].
  assert (Heq : snap_state snapshot = snap_state latest) by exact (same_schedule _ _ _ _ Hs Hs'). split; [done|]. split; [by exists bh, built, tx|].
  intros later Hlater. rewrite <- Heq. destruct Hs as [[_ _ Ht _ _] _]. apply check_crossing; [done|rewrite Ht; lia|].
  rewrite Hphase. unfold phaseAt. by rewrite Ht, !(proj2 (Z.leb_le _ _)) by lia.
Qed.

(* ------------------------------------------------------------------ *)
(** ** A prepared session *)

Lemma signAndSend_Ok wallet instructions beforeSign w outcome w' : silent beforeSign →
  signAndSend chain atob boundProgram wallet instructions beforeSign w = (Ok outcome, w') →
  ∃ text, w_effects w' = w_effects w ++ [AskedWallet M_signAndSendTransaction text].
Proof.
  intros Hsilent. unfold signAndSend. intros (a & w1 & Henv & H)%action_bind_Ok.
  apply (silent_run _ _ _ _ silent_public_environment) in Henv. apply action_bind_Ok in H as (bh & w2 & [_ ->]%ask_Ok & H).
  apply action_bind_Ok in H as (tx & w3 & [_ ->]%lift_Ok & H). apply action_bind_Ok in H as (height & w4 & [_ ->]%ask_Ok & H).
  apply action_bind_Ok in H as (u & w5 & [_ ->]%lift_Ok & H). apply action_bind_Ok in H as (u' & w6 & Hb & H).
  apply (silent_run _ _ _ _ Hsilent) in Hb. apply action_bind_Ok in H as (text & w7 & [_ ->]%lift_Ok & H).
  apply action_bind_Ok in H as (response & w8 & Hask & H). unfold ask_wallet in Hask.
  apply action_bind_Ok in Hask as (u2 & w9 & [_ ->]%emit_Ok & [_ ->]%ask_Ok). cbv zeta in H.
  apply action_bind_Ok in H as (u3 & w10 & [_ ->]%lift_Ok & H). apply (silent_run _ _ _ _ (silent_confirmSignature _ _)) in H.
  exists text. rewrite H. cbn. rewrite Hb. cbn. by rewrite Henv.
Qed.

Section Prepared.
  Variable seedBytes : bytes.
  Variable recipient : Address.
  Variable createAddressWithSeed : Address → string → result rejection Address.
  Variable createAccountWithSeed : Address → Address → string → Z → Z → Address → Instruction.
  Variable demoMintSpace : Address → Z.
  Variable initializeScaledUiAmountMint : Address → Address → jsnum → Instruction.
  Variable initializeMint2 : Address → Z → Address → Instruction.
  Variable updateMultiplierScaledUiMint : Address → Address → jsnum → Z → Instruction.
  Variable createAssociatedTokenIdempotent : Address → Address → Address → Instruction.
  Variable mintTo : Address → Address → Address → Z → Instruction.
  Variable associatedToken : Address → Address → Address.

(** A prepared session was set up by one request to the wallet against the
    reviewed deployment; its activation is 35 seconds after the chain's clock,
    and the mint was read back with exactly the scenario's schedule at that
    activation. *)
Theorem prepareLiveSession_sound wallet scenario w session w'
  (Hrun : prepareLiveSession chain atob boundProgram seedBytes recipient createAddressWithSeed createAccountWithSeed demoMintSpace
    initializeScaledUiAmountMint initializeMint2 updateMultiplierScaledUiMint createAssociatedTokenIdempotent mintTo associatedToken
    wallet scenario w = (Ok session, w')) :
  reviewed_page w ∧ ps_scenario session = scenario ∧
  createAddressWithSeed wallet ("eg-" +:+ toHex seedBytes) = Ok (ps_mint session) ∧
  ps_sourceAta session = associatedToken wallet (ps_mint session) ∧ ps_destinationAta session = associatedToken recipient (ps_mint session) ∧
  (∃ clock w1 w2, web_readChainClock chain atob w1 = (Ok clock, w2) ∧ 0 ≤ clock ∧ ps_activation session = clock + 35) ∧
  (∃ snapshot, was_read (ps_mint session) snapshot ∧ web_scheduled snapshot scenario (ps_activation session)) ∧
  ∃ text, w_effects w' = w_effects w ++ [AskedWallet M_signAndSendTransaction text].
Proof.
  unfold prepareLiveSession in Hrun. apply action_bind_Ok in Hrun as (a & w1 & Henv & H).
  pose proof (silent_run _ _ _ _ silent_public_environment Henv) as Hw1. apply verifyPublicEnvironment_Ok in Henv. split; [done|].
  apply action_bind_Ok in H as (clock & w2 & Hclock & H).
  assert (Hw2 : w_effects w2 = w_effects w1) by (refine (silent_run _ _ _ _ _ Hclock); unfold silent, web_readChainClock; adds).
  apply action_bind_Ok in H as (activation & w3 & [Hact ->]%lift_Ok & H). cbv zeta in H.
  apply action_bind_Ok in H as (mint & w4 & [Hmint%map_err_Ok ->]%lift_Ok & H). apply action_bind_Ok in H as (rent & w5 & [_ ->]%ask_Ok & H).
  apply action_bind_Ok in H as (instructions & w6 & [_ ->]%lift_Ok & H). apply action_bind_Ok in H as (outcome & w7 & Hsend & H).
  apply signAndSend_Ok in Hsend as [text Hsend]; [|intros ?; exists []; by rewrite app_nil_r].
  apply action_bind_Ok in H as (u & w8 & [_ ->]%lift_Ok & H). apply action_bind_Ok in H as (u' & w9 & Hcheck & H).
  assert (Hw9 : w_effects w9 = w_effects w7) by (refine (silent_run _ _ _ _ _ Hcheck); unfold silent, checkSessionMint; adds).
  apply action_bind_Ok in H as (snapshot & w10 & Hread & H). pose proof (silent_run _ _ _ _ (silent_chain_snapshot _) Hread) as Hw10.
  apply action_bind_Ok in H as (d & w11 & [Hd ->]%lift_Ok & H). apply action_bind_Ok in H as (u2 & w12 & [Hne%fail_if_Ok%bool_decide_eq_false ->]%lift_Ok & H).
  apply action_bind_Ok in H as (balances & w13 & Hbal & H). injection H as <- <-.
  assert (Hw13 : w_effects w13 = w_effects w10) by (refine (silent_run _ _ _ _ _ Hbal); unfold silent, readBalances; adds).
  unfold web_activationTimestamp in Hact. apply fail_if_then_Ok in Hact as [Hpos%Z.ltb_ge [= <-]]. cbn [ps_scenario ps_mint ps_sourceAta ps_destinationAta ps_activation].
  split_and!; try done; [by exists clock, w1, w2| |].
  - exists snapshot. split; [by eexists _, _|]. unfold authorizeDecision in Hd. apply bind_Ok in Hd as (m & Hm & [= Hd]).
    destruct m; [by apply web_scheduledBytesMatch_true|]. by subst d.
  - exists text. rewrite Hw13, Hw10, Hw9, Hsend. cbn. by rewrite Hw2, Hw1.
Qed.
End Prepared.
End SessionSpec.

(* ------------------------------------------------------------------ *)
(** ** A concrete session *)


