(* ===== verification/Attestation.v ===== *)
(** * apps/phantom-local-feasibility/server: what the local coordinator attests

    attestation.ts: a transaction wire is decoded and its grammar checked, the
    unsigned message is simulated and the signed one received, each under the
    coordinator's own reading of the validator clock, and the two records are
    kept in the maps of [CoordinatorAttestations]. deployment-attestation.ts:
    the guard program is attested and attested again. The transaction decoders,
    the Ed25519 check, base-64 and base-58 are parameters. *)

From S2P Require Import Prelude Js Errors Kit Base58 Sha256 Abi Downstream Jupiter MintState Snapshot Deployment StateTypes CanonicalKey WalletSigning DemoChain OnChain.

Inductive EncodedPhase : Set := PENDING_PHASE | ACTIVATED_PHASE.

#[export] Instance EncodedPhase_eq_dec : EqDecision EncodedPhase.
Proof. solve_decision. Defined.

Inductive ClockRelation : Set := BEFORE_ACTIVATION | AT_OR_AFTER_ACTIVATION.

#[export] Instance ClockRelation_eq_dec : EqDecision ClockRelation.
Proof. solve_decision. Defined.

Definition show_encodedPhase (phase : EncodedPhase) : string := match phase with PENDING_PHASE => "PENDING" | ACTIVATED_PHASE => "ACTIVATED" end.

Definition show_relation (r : ClockRelation) : string :=
  match r with BEFORE_ACTIVATION => "BEFORE_ACTIVATION" | AT_OR_AFTER_ACTIVATION => "AT_OR_AFTER_ACTIVATION" end.

Record AttestationContext := mkContext {
  atc_endpoint : option string;
  atc_proofId : option string;
  atc_phase : option EncodedPhase;
  atc_clock : option string;
  atc_localT : option string;
}.

Definition no_context : AttestationContext := mkContext None None None None None.

(** [AttestationError], and what the injected dependencies throw. *)
Inductive att_exn : Type :=
| AttestationError (code message : string) (context : AttestationContext)
| DependencyThrown (r : rejection).

Definition refuse {A} (code message : string) : result att_exn A := Err (AttestationError code message no_context).
Definition att_refuse_if (b : bool) (code message : string) : result att_exn unit := throw_if b (AttestationError code message no_context).

(** [simulation.err] and [simulation.logs]. *)
Record SimulationResult := mkSimulation {
  sr_err : jsval;
  sr_logs : list string;
  sr_unitsConsumed : option jsnum;
  sr_contextSlot : option Z;
}.

(** [clockMatchesExpectedPhase] is always true. *)
Record PhaseTiming := mkTiming {
  pt_encodedPhase : EncodedPhase;
  pt_clockRelationToLocalT : ClockRelation;
  pt_requiredRelationToLocalT : ClockRelation;
}.

Definition requiredRelation (phase : EncodedPhase) : ClockRelation :=
  match phase with PENDING_PHASE => BEFORE_ACTIVATION | ACTIVATED_PHASE => AT_OR_AFTER_ACTIVATION end.

Definition observedRelation (clock : ChainClock) (localT : Z) : ClockRelation :=
  if clock_unixTimestamp clock <? localT then BEFORE_ACTIVATION else AT_OR_AFTER_ACTIVATION.

Definition phaseTiming (clock : ChainClock) (localT : Z) (encodedPhase : EncodedPhase) : result att_exn PhaseTiming :=
  let relation := observedRelation clock localT in
  let required := requiredRelation encodedPhase in
  att_refuse_if (negb (bool_decide (relation = required))) "PHASE_TIMING_MISMATCH"
    ("Clock is " +:+ show_relation relation +:+ ", but " +:+ show_encodedPhase encodedPhase +:+ " requires " +:+ show_relation required);;
  Ok (mkTiming encodedPhase relation required).

Definition assertClockMatchesPhase (clock : ChainClock) (localT : Z) (phase : EncodedPhase) (context : AttestationContext) : result att_exn unit :=
  let now := clock_unixTimestamp clock in
  let detail := mkContext (atc_endpoint context) (atc_proofId context) (Some phase) (Some (show_Z now)) (Some (show_Z localT)) in
  throw_if (bool_decide (phase = PENDING_PHASE) && (localT <=? now))
    (AttestationError "CLOCK_AT_OR_PAST_ACTIVATION"
       ("a PENDING authorization needs a validator Clock before the armed activation; Clock " +:+ show_Z now +:+ " is not before " +:+ show_Z localT) detail);;
  throw_if (bool_decide (phase = ACTIVATED_PHASE) && (now <? localT))
    (AttestationError "CLOCK_BEFORE_ACTIVATION"
       ("an ACTIVATED authorization needs a validator Clock at or after the armed activation; Clock " +:+ show_Z now +:+ " is before " +:+ show_Z localT) detail).

(* ------------------------------------------------------------------ *)
(** ** The transaction wire *)

Definition GUARD_DATA_LEN : nat := 99.
Definition GUARD_VERSION_V2 : Z := 2.
Definition GUARD_MINT_OFFSET : nat := 1.
Definition GUARD_EFFECTIVE_TIMESTAMP_OFFSET : nat := 49.
Definition GUARD_PHASE_OFFSET : nat := 57.
Definition GUARD_ADAPTER_OFFSET : nat := 66.
Definition JUPITER_BUY_USDC : Z := 2.
Definition JUPITER_SELL_USDC : Z := 3.
Definition SUFFIX_LENGTHS : list nat := [3%nat; 4%nat].
Definition EQUITY_GUARD_PROGRAM : Address := EQUITY_GUARD_DEVNET_PROGRAM_ID.
Definition JUPITER_PROGRAM : Address := JUPITER_V6_PROGRAM_ADDRESS.
Definition WHIRLPOOL_PROGRAM : Address := "whirLbMiicVdio4qvUfM5KAg6Ct8VwpYzGff3uctyCc".
Definition ATTESTED_COMPUTE_BUDGET : Address := "ComputeBudget111111111111111111111111111111".
Definition REQUIRED_SUCCESS : list Address := [EQUITY_GUARD_PROGRAM; JUPITER_PROGRAM; WHIRLPOOL_PROGRAM].

Record ProtectedTradeShape := mkShape {
  ts_feePayer : Address;
  ts_protectedMint : Address;
  ts_adapterKind : Z;
  ts_encodedPhase : EncodedPhase;
  ts_effectiveTimestamp : Z;
  ts_instructionPrograms : list string;
}.

Record DecodedWire := mkDecoded {
  dw_messageBytes : bytes;
  dw_messageSha256 : string;
  dw_wireSha256 : string;
  dw_wireLength : nat;
  dw_feePayer : Address;
  dw_signature : option bytes;
  dw_signatureBase58 : option string;
  dw_shape : ProtectedTradeShape;
}.

(** A compiled message: its version ([None]: legacy), the number of its
    signers, its accounts and the program index and data of its instructions. *)
Record CompiledTrade := mkCompiledTrade {
  ct_version : option Z;
  ct_numSignerAccounts : Z;
  ct_staticAccounts : list Address;
  ct_instructions : list (nat * option bytes);
}.

(** The two decoders of the library, [None] when they throw. The signatures
    are the properties of an object, in its order. *)
Class TradeCodec := {
  decodeTransactionBytes : bytes → option (bytes * list (Address * option bytes));
  decodeCompiledMessage : bytes → option CompiledTrade;
}.

Definition programOf (message : CompiledTrade) (index : nat) : result att_exn string :=
  match ct_staticAccounts message !! index with
  | Some key => if String.eqb key "" then
      refuse "UNRESOLVED_PROGRAM" ("instruction program index " +:+ show_Z (Z.of_nat index) +:+ " is not a static account") else Ok key
  | None => refuse "UNRESOLVED_PROGRAM" ("instruction program index " +:+ show_Z (Z.of_nat index) +:+ " is not a static account")
  end.

(** [String(programs[i])]. *)
Definition show_program (p : option string) : string := p ?? "undefined".

Definition require_compute_budget (programs : list string) (index : nat) : result att_exn unit :=
  att_refuse_if (negb (bool_decide (programs !! index = Some ATTESTED_COMPUTE_BUDGET))) "UNSUPPORTED_GRAMMAR"
    ("instruction " +:+ show_Z (Z.of_nat index) +:+ " is " +:+ show_program (programs !! index) +:+ ", not ComputeBudget").

(** The grammar of the instructions; the programs they name. *)
Definition tradePrograms (message : CompiledTrade) : result att_exn (list string) :=
  programs ← mapM_result (λ i, programOf message i.1) (ct_instructions message);
  att_refuse_if (negb (bool_decide ((length (ct_instructions message) - 1)%nat ∈ SUFFIX_LENGTHS))) "UNSUPPORTED_GRAMMAR"
    ("expected 4 or 5 instructions, got " +:+ show_Z (Z.of_nat (length (ct_instructions message))));;
  att_refuse_if (negb (bool_decide (head programs = Some EQUITY_GUARD_PROGRAM))) "GUARD_NOT_FIRST"
    ("instruction 0 is " +:+ show_program (head programs) +:+ ", not EquityGuard");;
  att_refuse_if (negb (bool_decide (last programs = Some JUPITER_PROGRAM))) "JUPITER_NOT_LAST"
    ("the last instruction is " +:+ show_program (last programs) +:+ ", not Jupiter");;
  require_compute_budget programs 1;;
  require_compute_budget programs 2;;
  Ok programs.

(** The fields of the guard payload: adapter kind, mint, activation and phase. *)
Definition readGuardPayload {address : AddressCodec} (guardData : option bytes) (expectedMint : string) (localT : Z)
    : result att_exn (Z * Address * Z * EncodedPhase) :=
  let size := match guardData with Some d => length d | None => 0%nat end in
  att_refuse_if (negb (bool_decide (is_Some guardData)) || negb (Nat.eqb size GUARD_DATA_LEN)) "UNSUPPORTED_GUARD_PAYLOAD"
    ("guard payload is " +:+ show_Z (Z.of_nat size) +:+ " bytes, expected 99");;
  let data := guardData ?? [] in
  let byte i := byte_at data i ?? 0 in
  att_refuse_if (negb (byte 0%nat =? GUARD_VERSION_V2)) "UNSUPPORTED_GUARD_PAYLOAD" ("guard ABI version " +:+ show_Z (byte 0%nat));;
  let adapterKind := byte GUARD_ADAPTER_OFFSET in
  att_refuse_if (negb (adapterKind =? JUPITER_BUY_USDC) && negb (adapterKind =? JUPITER_SELL_USDC)) "UNSUPPORTED_GUARD_PAYLOAD"
    ("adapter kind " +:+ show_Z adapterKind +:+ " is not a Jupiter adapter");;
  let protectedMint := decodeAddress (subarray data GUARD_MINT_OFFSET (GUARD_MINT_OFFSET + 32)) in
  att_refuse_if (negb (String.eqb protectedMint expectedMint)) "UNEXPECTED_MINT" ("guard protects " +:+ protectedMint +:+ ", not " +:+ expectedMint);;
  let effectiveTimestamp := get_int 8 data GUARD_EFFECTIVE_TIMESTAMP_OFFSET ?? 0 in
  att_refuse_if (negb (effectiveTimestamp =? localT)) "UNEXPECTED_ACTIVATION"
    ("guard names activation " +:+ show_Z effectiveTimestamp +:+ ", not the armed " +:+ show_Z localT);;
  let phaseByte := byte GUARD_PHASE_OFFSET in
  att_refuse_if (negb (phaseByte =? 0) && negb (phaseByte =? 1)) "UNSUPPORTED_GUARD_PAYLOAD" ("activation phase byte " +:+ show_Z phaseByte);;
  Ok (adapterKind, protectedMint, effectiveTimestamp, if phaseByte =? 0 then PENDING_PHASE else ACTIVATED_PHASE).

Section Coordinator.
  Context {address : AddressCodec} {hash : Digest} {trade : TradeCodec}.
  (** [Buffer.from(s, "base64")] and [getBase58Decoder().decode]. *)
  Variable base64 : string → bytes.
  Variable base58 : bytes → string.
  (** [verify(null, message, createPublicKey(der), signature)]; [None]: it throws. *)
  Variable ed25519_verify : bytes → bytes → bytes → option bool.
  (** [JSON.stringify] of what the validator reported. *)
  Variable jsonText : jsval → string.
  (** [deps.protectedMint], and the identifier of the n-th record. *)
  Variable protectedMint : string.
  Variable newProofId : Z → string.

Definition att_sha256 (b : bytes) : string := toHex (digest b).

Definition decodeProtectedTradeWire (wireBase64 : string) (localT : Z) : result att_exn DecodedWire :=
  let wire := base64 wireBase64 in
  att_refuse_if (Nat.eqb (length wire) 0) "UNDECODABLE_WIRE" "transaction is empty";;
  transaction ← of_option (AttestationError "UNDECODABLE_WIRE" "transaction does not decode" no_context) (decodeTransactionBytes wire);
  let '(messageBytes, signatures) := transaction in
  message ← of_option (AttestationError "UNDECODABLE_WIRE" "transaction message does not decode" no_context) (decodeCompiledMessage messageBytes);
  att_refuse_if (negb (bool_decide (ct_version message = Some 0))) "UNSUPPORTED_VERSION"
    ("expected a v0 transaction, got " +:+ match ct_version message with None => "legacy" | Some v => show_Z v end);;
  feePayer ← match signatures with
             | [(feePayer, _)] => if String.eqb feePayer "" then refuse "UNEXPECTED_SIGNERS" "expected exactly one signer, got 1" else Ok feePayer
             | _ => refuse "UNEXPECTED_SIGNERS" ("expected exactly one signer, got " +:+ show_Z (Z.of_nat (length signatures)))
             end;
  att_refuse_if (negb (ct_numSignerAccounts message =? 1) || negb (bool_decide (head (ct_staticAccounts message) = Some feePayer)))
    "UNEXPECTED_SIGNERS" "the message's single signer is not its fee payer";;
  programs ← tradePrograms message;
  payload ← readGuardPayload (head (ct_instructions message) ≫= snd) protectedMint localT;
  let '(adapterKind, mint, effectiveTimestamp, phase) := payload in
  let signature := head signatures ≫= snd in
  Ok (mkDecoded messageBytes (att_sha256 messageBytes) (att_sha256 wire) (length wire) feePayer signature (base58 <$> signature)
        (mkShape feePayer mint adapterKind phase effectiveTimestamp programs)).

(** [Buffer.from("302a300506032b6570032100", "hex")]. *)
Definition ED25519_SPKI_PREFIX : bytes := fromHex "302a300506032b6570032100".

Definition verifySignature (signer : Address) (message signature : bytes) : bool :=
  if negb (Nat.eqb (length signature) 64) then false
  else match encodeAddress signer with
       | None => false
       | Some raw => ed25519_verify (ED25519_SPKI_PREFIX ++ raw) message signature ?? false
       end.

(* ------------------------------------------------------------------ *)
(** ** The store *)

Record PreSignSimulationRecord := mkSimulationRecord {
  ps_proofId : string;
  ps_source : string;
  ps_capturedAtUtc : string;
  ps_localT : string;
  ps_clock : string * string;
  ps_contextSlot : option string;
  ps_timing : PhaseTiming;
  ps_messageSha256 : string;
  ps_unsignedWireSha256 : string;
  ps_wireLength : nat;
  ps_shape : ProtectedTradeShape;
  ps_err : jsval;
  ps_logs : list string;
  ps_computeUnits : option jsnum;
  ps_programsSucceeded : list string;
}.

Record SignedAuthorizationRecord := mkAuthorizationRecord {
  sa_proofId : string;
  sa_source : string;
  sa_capturedAtUtc : string;
  sa_localT : string;
  sa_clock : string * string;
  sa_timing : PhaseTiming;
  sa_signer : Address;
  sa_signature : string;
  sa_signedWireSha256 : string;
  sa_wireLength : nat;
  sa_messageSha256 : string;
  sa_simulationProofId : string;
}.

(** The maps, in insertion order, and the counter of the proof ids. *)
Record CoordinatorAttestations := mkCoordinator {
  ca_simulations : list (string * PreSignSimulationRecord);
  ca_authorizations : list (string * SignedAuthorizationRecord);
  ca_counter : Z;
}.

Definition empty_coordinator : CoordinatorAttestations := mkCoordinator [] [] 0.

(** [map.get(key)] and [map.set(key, value)], which keeps the place of a key. *)
Definition map_get {A} (key : string) (m : list (string * A)) : option A :=
  snd <$> List.find (λ entry, String.eqb entry.1 key) m.

Fixpoint map_set {A} (key : string) (value : A) (m : list (string * A)) : list (string * A) :=
  match m with
  | [] => [(key, value)]
  | entry :: m => if String.eqb entry.1 key then (key, value) :: m else entry :: map_set key value m
  end.

Definition shown_clock (clock : ChainClock) : string * string := (show_Z (clock_unixTimestamp clock), show_Z (clock_slot clock)).

Definition shown_success (logs : list string) (program : Address) : bool := existsb (String.eqb ("Program " +:+ program +:+ " success")) logs.

(** [clock] and [simulation] are what the validator answers when asked, [now]
    the time of the record. *)
Definition recordPreSignSimulation (store : CoordinatorAttestations) (unsignedWireBase64 : string) (localT : Z)
    (clock : result rejection ChainClock) (simulation : result rejection SimulationResult) (now : string)
    : result att_exn PreSignSimulationRecord * CoordinatorAttestations :=
  let checked :=
    decoded ← decodeProtectedTradeWire unsignedWireBase64 localT;
    clock ← map_err DependencyThrown clock;
    let phase := ts_encodedPhase (dw_shape decoded) in
    assertClockMatchesPhase clock localT phase (mkContext (Some "pre-sign-simulation") None None None None);;
    let detail := mkContext (Some "pre-sign-simulation") None (Some phase) (Some (show_Z (clock_unixTimestamp clock))) (Some (show_Z localT)) in
    simulation ← map_err DependencyThrown simulation;
    throw_if (match sr_err simulation with JNull | JUndefined => false | _ => true end)
      (AttestationError "SIMULATION_FAILED" ("pre-sign simulation failed: " +:+ jsonText (sr_err simulation)) detail);;
    let succeeded := List.filter (shown_success (sr_logs simulation)) REQUIRED_SUCCESS in
    let missing := List.filter (λ program, negb (existsb (String.eqb program) succeeded)) REQUIRED_SUCCESS in
    throw_if (negb (Nat.eqb (length succeeded) (length REQUIRED_SUCCESS)))
      (AttestationError "SIMULATION_INCOMPLETE" ("pre-sign simulation did not show success for " +:+ String.concat ", " missing) detail);;
    timing ← phaseTiming clock localT phase;
    Ok (decoded, clock, simulation, succeeded, timing) in
  match checked with
  | Err e => (Err e, store)
  | Ok (decoded, clock, simulation, succeeded, timing) =>
      let counter := ca_counter store + 1 in
      let record := mkSimulationRecord (newProofId counter) "LOCAL_COORDINATOR" now (show_Z localT) (shown_clock clock) (show_Z <$> sr_contextSlot simulation) timing
        (dw_messageSha256 decoded) (dw_wireSha256 decoded) (dw_wireLength decoded) (dw_shape decoded) JNull (sr_logs simulation)
        (sr_unitsConsumed simulation) succeeded in
      (Ok record, mkCoordinator (map_set (ps_proofId record) record (ca_simulations store)) (ca_authorizations store) counter)
  end.

(** Everything of [recordSignedAuthorization] before the clock is awaited. *)
Definition beginSignedAuthorization (store : CoordinatorAttestations) (proofId signedWireBase64 : string) (localT : Z)
    : result att_exn (DecodedWire * PreSignSimulationRecord * string) :=
  let where_ := mkContext (Some "signed-authorization") (Some proofId) None None (Some (show_Z localT)) in
  simulation ← of_option (AttestationError "UNKNOWN_PROOF" ("no pre-sign simulation " +:+ proofId) where_) (map_get proofId (ca_simulations store));
  throw_if (negb (String.eqb (ps_localT simulation) (show_Z localT)))
    (AttestationError "ACTIVATION_MISMATCH" "signed authorization names a different activation than its simulation" where_);;
  throw_if (bool_decide (is_Some (map_get proofId (ca_authorizations store))))
    (AttestationError "ALREADY_ATTESTED" ("pre-sign simulation " +:+ proofId +:+ " already has a signed authorization") where_);;
  decoded ← decodeProtectedTradeWire signedWireBase64 localT;
  let detail := mkContext (Some "signed-authorization") (Some proofId) (Some (ts_encodedPhase (dw_shape decoded))) None (Some (show_Z localT)) in
  throw_if (negb (String.eqb (dw_messageSha256 decoded) (ps_messageSha256 simulation)))
    (AttestationError "MESSAGE_MISMATCH"
       ("signed message " +:+ dw_messageSha256 decoded +:+ " is not the simulated " +:+ ps_messageSha256 simulation) detail);;
  let missing := AttestationError "MISSING_SIGNATURE" "the submitted transaction carries no signature" detail in
  signature ← of_option missing (dw_signature decoded);
  signatureBase58 ← of_option missing (dw_signatureBase58 decoded);
  throw_if (String.eqb signatureBase58 "") missing;;
  throw_if (negb (verifySignature (dw_feePayer decoded) (dw_messageBytes decoded) signature))
    (AttestationError "INVALID_SIGNATURE" ("the signature does not verify under " +:+ dw_feePayer decoded) detail);;
  Ok (decoded, simulation, signatureBase58).

(** What follows the clock; [store] is the store at that moment. *)
Definition finishSignedAuthorization (store : CoordinatorAttestations) (proofId : string) (localT : Z)
    (begun : DecodedWire * PreSignSimulationRecord * string) (clock : result rejection ChainClock) (now : string)
    : result att_exn SignedAuthorizationRecord * CoordinatorAttestations :=
  let '(decoded, simulation, signatureBase58) := begun in
  let checked :=
    clock ← map_err DependencyThrown clock;
    let phase := ts_encodedPhase (dw_shape decoded) in
    assertClockMatchesPhase clock localT phase (mkContext (Some "signed-authorization") (Some proofId) None None None);;
    timing ← phaseTiming clock localT phase;
    Ok (clock, timing) in
  match checked with
  | Err e => (Err e, store)
  | Ok (clock, timing) =>
      let record := mkAuthorizationRecord proofId "LOCAL_COORDINATOR" now (show_Z localT) (shown_clock clock) timing (dw_feePayer decoded) signatureBase58
        (dw_wireSha256 decoded) (dw_wireLength decoded) (dw_messageSha256 decoded) (ps_proofId simulation) in
      (Ok record, mkCoordinator (ca_simulations store) (map_set proofId record (ca_authorizations store)) (ca_counter store))
  end.

(** [others]: what other requests did to the store while the clock was awaited. *)
Definition recordSignedAuthorization (store : CoordinatorAttestations) (proofId signedWireBase64 : string) (localT : Z)
    (others : CoordinatorAttestations → CoordinatorAttestations) (clock : result rejection ChainClock) (now : string)
    : result att_exn SignedAuthorizationRecord * CoordinatorAttestations :=
  match beginSignedAuthorization store proofId signedWireBase64 localT with
  | Err e => (Err e, store)
  | Ok begun => finishSignedAuthorization (others store) proofId localT begun clock now
  end.

Definition attestation_snapshot (store : CoordinatorAttestations) : list PreSignSimulationRecord * list SignedAuthorizationRecord :=
  (map snd (ca_simulations store), map snd (ca_authorizations store)).

Definition authorizationForWire (store : CoordinatorAttestations) (signedWireSha256 : string) : option SignedAuthorizationRecord :=
  List.find (λ record, String.eqb (sa_signedWireSha256 record) signedWireSha256) (map snd (ca_authorizations store)).

(* ------------------------------------------------------------------ *)
(** ** Interleaved requests *)

(** A signed authorization that waits for the clock. *)
Record waiting := mkWaiting {
  wt_proofId : string;
  wt_localT : Z;
  wt_begun : DecodedWire * PreSignSimulationRecord * string;
}.

Definition server : Type := CoordinatorAttestations * list waiting.

(** A request runs to its wait or to its end; requests that wait end in any order. *)
Inductive request_step : server → server → Prop :=
| request_simulation store queue wire localT clock simulation now :
    request_step (store, queue) (snd (recordPreSignSimulation store wire localT clock simulation now), queue)
| request_begin store queue proofId wire localT begun :
    beginSignedAuthorization store proofId wire localT = Ok begun →
    request_step (store, queue) (store, queue ++ [mkWaiting proofId localT begun])
| request_finish store before w after clock now :
    request_step (store, before ++ w :: after)
      (snd (finishSignedAuthorization store (wt_proofId w) (wt_localT w) (wt_begun w) clock now), before ++ after).
End Coordinator.

(** The identifiers of a coordinator without an injected [newProofId]. *)
Definition default_proofId (counter : Z) : string := "presign-" +:+ show_Z counter.

(* ------------------------------------------------------------------ *)
(** ** deployment-attestation.ts *)

Record AttestedDeployment := mkAttested {
  ad_digest : string;
  ad_attestation : GuardDeploymentAttestation;
  ad_readAtSlot : option string;
}.

(** [DeploymentAttestationError]: the failure of guard-client, or a change. *)
Inductive deployment_exn : Type :=
| DeploymentRefused (reason : IdentityFailure) (message : string)
| DEPLOYMENT_CHANGED (message : string)
| ReaderThrown (r : rejection).

Definition passed {A} (check : GuardCheck A) : result deployment_exn A :=
  match check with CheckOk a => Ok a | CheckFail reason message => Err (DeploymentRefused reason message) end.

Section Deployments.
  Context {address : AddressCodec} {hash : Digest}.

Definition nth_account (accounts : list (option LoaderAccountView)) (i : nat) : option LoaderAccountView := accounts !! i ≫= λ a, a.

(** One [getMultipleAccounts]: the slot of its context and its accounts. *)
Definition attestGuardDeployment (read : list Address → result rejection (option Z * list (option LoaderAccountView))) (programId : Address)
    : result deployment_exn AttestedDeployment :=
  let reviewed := findReviewedGuardDeployment programId in
  reply ← map_err ReaderThrown (read (match reviewed with Some r => [programId; dep_programDataAddress r] | None => [programId] end));
  let readAtSlot := show_Z <$> reply.1 in
  match reviewed with
  | Some reviewed =>
      attestation ← passed (verifyReviewedGuardDeployment reviewed (nth_account reply.2 0) (nth_account reply.2 1));
      Ok (mkAttested (deploymentAttestationDigest attestation) attestation readAtSlot)
  | None =>
      passed (checkGuardProgramAccount programId (nth_account reply.2 0));;
      let attestation := callerTrustedAttestation programId in
      Ok (mkAttested (deploymentAttestationDigest attestation) attestation readAtSlot)
  end.

Definition reattestGuardDeployment (read : list Address → result rejection (option Z * list (option LoaderAccountView))) (expected : string)
    (programId : Address) : result deployment_exn AttestedDeployment :=
  current ← attestGuardDeployment read programId;
  throw_if (negb (String.eqb (ad_digest current) expected))
    (DEPLOYMENT_CHANGED ("the EquityGuard deployment changed: expected " +:+ expected +:+ ", found " +:+ ad_digest current));;
  Ok current.
End Deployments.

(* ------------------------------------------------------------------ *)
(** ** The maps *)

Section Maps.
  Context {A : Type}.

Lemma map_get_set key (value : A) m : map_get key (map_set key value m) = Some value.
Proof.
  induction m as [|[k v] m IH]; unfold map_get; cbn; [by rewrite String.eqb_refl|].
  destruct (String.eqb k key) eqn:E; cbn; [by rewrite String.eqb_refl|]. by rewrite E.
Qed.

Lemma map_get_set_ne key key' (value : A) m : key ≠ key' → map_get key' (map_set key value m) = map_get key' m.
Proof.
  intros Hne. induction m as [|[k v] m IH]; unfold map_get in *; cbn.
  - by apply String.eqb_neq in Hne as ->.
  - destruct (String.eqb k key) eqn:E; cbn.
    + apply String.eqb_eq in E as ->. by apply String.eqb_neq in Hne as ->.
    + by destruct (String.eqb k key').
Qed.

Lemma map_get_set_inv key key' (value : A) m v : map_get key' (map_set key value m) = Some v →
  (key = key' ∧ v = value) ∨ (key ≠ key' ∧ map_get key' m = Some v).
Proof.
  destruct (decide (key = key')) as [<-|Hne].
  - rewrite map_get_set. intros [= <-]. by left.
  - rewrite map_get_set_ne by done. by right.
Qed.
End Maps.

Lemma att_refuse_Ok b code message u : att_refuse_if b code message = Ok u ↔ b = false.
Proof. apply throw_if_Ok. Qed.

Lemma att_refuse_then_Ok {A} b code message (m : result att_exn A) a : (att_refuse_if b code message;; m) = Ok a ↔ b = false ∧ m = Ok a.
Proof. apply throw_if_then_Ok. Qed.

(** The clock is where the phase requires it: strictly before the activation,
    or at or after it. *)
Definition in_phase (clock : ChainClock) (localT : Z) (phase : EncodedPhase) : Prop :=
  match phase with
  | PENDING_PHASE => clock_unixTimestamp clock < localT
  | ACTIVATED_PHASE => localT ≤ clock_unixTimestamp clock
  end.

Lemma assertClockMatchesPhase_Ok clock localT phase context u : assertClockMatchesPhase clock localT phase context = Ok u ↔ in_phase clock localT phase.
Proof.
  unfold assertClockMatchesPhase, in_phase. rewrite throw_if_then_Ok, throw_if_Ok.
  destruct phase; repeat case_bool_decide; try done; cbn [andb]; rewrite ?Z.leb_gt, ?Z.ltb_ge; intuition.
Qed.

Lemma phaseTiming_in_phase clock localT phase : in_phase clock localT phase →
  phaseTiming clock localT phase = Ok (mkTiming phase (requiredRelation phase) (requiredRelation phase)).
Proof.
  unfold in_phase, phaseTiming, observedRelation. destruct phase; intros H.
  - by rewrite (proj2 (Z.ltb_lt _ _) H).
  - by rewrite (proj2 (Z.ltb_ge _ _) H).
Qed.

Section CoordinatorSpec.
  Context {address : AddressCodec} {hash : Digest} {trade : TradeCodec}.
  Variable base64 : string → bytes.
  Variable base58 : bytes → string.
  Variable ed25519_verify : bytes → bytes → bytes → option bool.
  Variable jsonText : jsval → string.
  Variable protectedMint : string.
  Variable newProofId : Z → string.

  Abbreviation decode := (decodeProtectedTradeWire base64 base58 protectedMint).
  Abbreviation simulation_of := (recordPreSignSimulation base64 base58 jsonText protectedMint newProofId).
  Abbreviation begin_signed := (beginSignedAuthorization base64 base58 ed25519_verify protectedMint).
  Abbreviation requests := (request_step base64 base58 ed25519_verify jsonText protectedMint newProofId).

(** What a simulation record stands for. *)
Record simulated (s : PreSignSimulationRecord) (localT : Z) (decoded : DecodedWire) (clock : ChainClock) : Prop := {
  sd_wire : ∃ wire, decode wire localT = Ok decoded;
  sd_localT : ps_localT s = show_Z localT;
  sd_message : ps_messageSha256 s = dw_messageSha256 decoded;
  sd_shape : ps_shape s = dw_shape decoded;
  sd_clock : ps_clock s = shown_clock clock;
  sd_phase : in_phase clock localT (ts_encodedPhase (dw_shape decoded));
  sd_err : ps_err s = JNull;
  sd_success program : program ∈ REQUIRED_SUCCESS → ("Program " +:+ program +:+ " success") ∈ ps_logs s;
}.

Record authorized (a : SignedAuthorizationRecord) (localT : Z) (decoded : DecodedWire) (clock : ChainClock) : Prop := {
  au_wire : ∃ wire, decode wire localT = Ok decoded;
  au_localT : sa_localT a = show_Z localT;
  au_message : sa_messageSha256 a = dw_messageSha256 decoded;
  au_signed_wire : sa_signedWireSha256 a = dw_wireSha256 decoded;
  au_clock : sa_clock a = shown_clock clock;
  au_phase : in_phase clock localT (ts_encodedPhase (dw_shape decoded));
  au_signature : ∃ signature, dw_signature decoded = Some signature ∧
    verifySignature ed25519_verify (dw_feePayer decoded) (dw_messageBytes decoded) signature = true;
}.

(** A request that waits was begun against a simulation still in the store. *)
Record begun_ok (store : CoordinatorAttestations) (w : waiting) : Prop := {
  bo_simulation : map_get (wt_proofId w) (ca_simulations store) = Some (wt_begun w).1.2;
  bo_localT : ps_localT (wt_begun w).1.2 = show_Z (wt_localT w);
  bo_wire : ∃ wire, decode wire (wt_localT w) = Ok (wt_begun w).1.1;
  bo_message : dw_messageSha256 (wt_begun w).1.1 = ps_messageSha256 (wt_begun w).1.2;
  bo_signature : ∃ signature, dw_signature (wt_begun w).1.1 = Some signature ∧
    verifySignature ed25519_verify (dw_feePayer (wt_begun w).1.1) (dw_messageBytes (wt_begun w).1.1) signature = true;
}.

Record server_ok (sv : server) : Prop := {
  so_simulations id s : map_get id (ca_simulations sv.1) = Some s →
    (∃ n, id = newProofId n ∧ n ≤ ca_counter sv.1) ∧ ∃ localT decoded clock, simulated s localT decoded clock;
  so_authorizations id a : map_get id (ca_authorizations sv.1) = Some a →
    ∃ s localT decoded clock, map_get id (ca_simulations sv.1) = Some s ∧ authorized a localT decoded clock ∧
      ps_localT s = show_Z localT ∧ sa_messageSha256 a = ps_messageSha256 s;
  so_waiting w : w ∈ sv.2 → begun_ok sv.1 w;
}.

Lemma empty_ok : server_ok (empty_coordinator, []).
Proof. split; [done|done|]. intros w H. by apply elem_of_nil in H. Qed.

Lemma begin_ok store proofId wire localT begun : begin_signed store proofId wire localT = Ok begun →
  begun_ok store (mkWaiting proofId localT begun).
Proof.
  unfold beginSignedAuthorization. intros (simulation & Hs%of_option_Ok & H)%bind_Ok.
  apply throw_if_then_Ok in H as [Ht%negb_false_iff%String.eqb_eq H]. apply throw_if_then_Ok in H as [_ H].
  apply bind_Ok in H as (decoded & Hd & H). apply throw_if_then_Ok in H as [Hm%negb_false_iff%String.eqb_eq H].
  apply bind_Ok in H as (signature & Hsig%of_option_Ok & H). apply bind_Ok in H as (text & _ & H).
  apply throw_if_then_Ok in H as [_ H]. apply throw_if_then_Ok in H as [Hv%negb_false_iff [= <-]].
  split; cbn; try done; [by exists wire|by exists signature].
Qed.

Lemma filter_all {A} (f : A → bool) l : length (List.filter f l) = length l → Forall (λ x, f x = true) l.
Proof.
  induction l as [|x l IH]; cbn; [by constructor|]. pose proof (List.filter_length_le f l).
  destruct (f x) eqn:E; cbn; intros H'; [constructor; [done|apply IH; lia]|lia].
Qed.

Lemma simulation_Ok store wire localT clock simulation now s store' :
  simulation_of store wire localT clock simulation now = (Ok s, store') →
  ps_proofId s = newProofId (ca_counter store + 1) ∧
  store' = mkCoordinator (map_set (ps_proofId s) s (ca_simulations store)) (ca_authorizations store) (ca_counter store + 1) ∧
  ∃ decoded c, simulated s localT decoded c.
Proof.
  unfold recordPreSignSimulation. intros H. match type of H with match ?m with _ => _ end = _ => destruct m as [[[[[decoded c] sim] ok] timing]|e] eqn:E end;
    [|done]. injection H as <- <-. split; [done|]. split; [done|]. exists decoded, c.
  apply bind_Ok in E as (decoded' & Hd & E). apply bind_Ok in E as (c' & _ & E).
  apply bind_Ok in E as (u & Hp%assertClockMatchesPhase_Ok & E). apply bind_Ok in E as (sim' & _ & E).
  apply throw_if_then_Ok in E as [_ E]. apply throw_if_then_Ok in E as [Hl%negb_false_iff%Nat.eqb_eq E].
  apply bind_Ok in E as (timing' & _ & [= -> -> -> <- ->]). split; cbn; try done; [by exists wire|].
  intros program Hin. apply filter_all in Hl. rewrite Forall_forall in Hl. apply Hl in Hin.
  apply existsb_exists in Hin as (line & Hline & ->%String.eqb_eq). by apply list_elem_of_In.
Qed.

(** A simulation is recorded only as the validator answered it: without an
    error, its logs unchanged; the record says [err: null] of no other. *)
Theorem recorded_simulation_succeeded store wire localT clock simulation now s store' :
  simulation_of store wire localT clock simulation now = (Ok s, store') →
  ∃ answered, simulation = Ok answered ∧ (sr_err answered = JNull ∨ sr_err answered = JUndefined) ∧
    ps_err s = JNull ∧ ps_logs s = sr_logs answered.
Proof.
  unfold recordPreSignSimulation. intros H. match type of H with match ?m with _ => _ end = _ => destruct m as [[[[[decoded c] sim] ok] timing]|e] eqn:E end;
    [|done]. injection H as <- _. apply bind_Ok in E as (decoded' & _ & E). apply bind_Ok in E as (c' & _ & E).
  apply bind_Ok in E as (u & _ & E). apply bind_Ok in E as (sim' & Hsim%map_err_Ok & E).
  apply throw_if_then_Ok in E as [Herr E]. apply throw_if_then_Ok in E as [_ E].
  apply bind_Ok in E as (timing' & _ & [= _ _ -> _ _]). exists sim. split; [done|]. split; [|done].
  destruct (sr_err sim); auto; discriminate.
Qed.

Lemma simulation_Err store wire localT clock simulation now e store' :
  simulation_of store wire localT clock simulation now = (Err e, store') → store' = store.
Proof.
  unfold recordPreSignSimulation. intros H.
  match type of H with match ?m with _ => _ end = _ => destruct m as [[[[[decoded c] sim] ok] timing]|e'] end; congruence.
Qed.

Lemma finish_cases store w clock now r store' :
  finishSignedAuthorization store (wt_proofId w) (wt_localT w) (wt_begun w) clock now = (r, store') →
  store' = store ∨ ∃ a c, r = Ok a ∧ clock = Ok c ∧ in_phase c (wt_localT w) (ts_encodedPhase (dw_shape (wt_begun w).1.1)) ∧
    store' = mkCoordinator (ca_simulations store) (map_set (wt_proofId w) a (ca_authorizations store)) (ca_counter store) ∧
    sa_localT a = show_Z (wt_localT w) ∧ sa_messageSha256 a = dw_messageSha256 (wt_begun w).1.1 ∧
    sa_signedWireSha256 a = dw_wireSha256 (wt_begun w).1.1 ∧ sa_clock a = shown_clock c.
Proof.
  unfold finishSignedAuthorization. destruct (wt_begun w) as [[decoded simulation] text].
  destruct clock as [c|e]; cbn; [|intros [= <- <-]; by left].
  destruct (assertClockMatchesPhase _ _ _ _) as [u|e] eqn:Hp; cbn; [|intros [= <- <-]; by left].
  apply assertClockMatchesPhase_Ok in Hp. rewrite (phaseTiming_in_phase _ _ _ Hp). cbn. intros [= <- <-]. right.
  by eexists _, c.
Qed.

Section Fresh.
  Context (Hfresh : ∀ n m, newProofId n = newProofId m → n = m).

(** A new simulation leaves the records of the others in place. *)
Lemma stored_keeps sv id s s' : server_ok sv → map_get id (ca_simulations sv.1) = Some s →
  map_get id (map_set (newProofId (ca_counter sv.1 + 1)) s' (ca_simulations sv.1)) = Some s.
Proof.
  intros Hok H. destruct (so_simulations _ Hok _ _ H) as [(n & -> & Hn) _].
  rewrite map_get_set_ne; [done|]. intros E%Hfresh. lia.
Qed.

Lemma request_ok sv sv' : server_ok sv → requests sv sv' → server_ok sv'.
Proof.
  intros Hok H. revert Hok.
  destruct H as [store queue wire localT clock simulation now|store queue proofId wire localT begun Hb|store before w after clock now]; intros Hok.
  - destruct (simulation_of store wire localT clock simulation now) as [[s|e] store'] eqn:E; cbn [snd]; [|by apply simulation_Err in E as ->].
    destruct (simulation_Ok _ _ _ _ _ _ _ _ E) as (Hid & -> & decoded & c & Hs). rewrite Hid. split; cbn.
    + intros id t [[<- ->]|[_ Ht]]%map_get_set_inv; [split; [by eexists|by eexists _, _, _]|].
      destruct (so_simulations _ Hok _ _ Ht) as [(n & -> & Hn) Hsim]. cbn in Hn. split; [exists n; split; [done|lia]|done].
    + intros id a Ha. destruct (so_authorizations _ Hok _ _ Ha) as (t & localT' & decoded' & c' & Ht & R).
      exists t, localT', decoded', c'. split; [by apply (stored_keeps (store, queue))|done].
    + intros w Hw. destruct (so_waiting _ Hok _ Hw). split; try done. by apply (stored_keeps (store, queue)).
  - split; [by apply Hok|by apply Hok|]. intros w [Hw|Hw]%elem_of_app; [by apply (so_waiting _ Hok)|]. apply list_elem_of_singleton in Hw as ->. by eapply begin_ok.
  - assert (begun_ok store w) as Hw by (apply (so_waiting _ Hok w); cbn; set_solver).
    assert (∀ v, v ∈ before ++ after → begun_ok store v) as Hrest.
    { intros v Hv. apply (so_waiting _ Hok v). cbn. set_solver. }
    destruct (finishSignedAuthorization _ _ _ _ _ _) as [r store'] eqn:E. cbn [snd].
    destruct (finish_cases _ _ _ _ _ _ E) as [->|(a & c & _ & _ & Hp & -> & Ht & Hm & Hwire & Hc)].
    { split; [apply Hok|apply Hok|done]. }
    split; cbn; [apply Hok| |].
    + intros id b [[<- ->]|[_ Hb]]%map_get_set_inv; [|by apply (so_authorizations _ Hok)].
      exists (wt_begun w).1.2, (wt_localT w), (wt_begun w).1.1, c. destruct Hw. split_and!; [done| |done|congruence]. by split.
    + intros v Hv. destruct (Hrest _ Hv). by split.
Qed.

Lemma requests_ok sv sv' : rtc requests sv sv' → server_ok sv → server_ok sv'.
Proof. induction 1 as [|a b c H _ IH]; [done|]. intros Hok. apply IH. by eapply request_ok. Qed.
End Fresh.

Lemma decode_hash wire localT d : decode wire localT = Ok d → dw_messageSha256 d = toHex (digest (dw_messageBytes d)).
Proof.
  unfold decodeProtectedTradeWire. intros [_ H]%att_refuse_then_Ok.
  apply bind_Ok in H as ([messageBytes signatures] & _ & H). apply bind_Ok in H as (message & _ & H).
  apply att_refuse_then_Ok in H as [_ H]. apply bind_Ok in H as (feePayer & _ & H). apply att_refuse_then_Ok in H as [_ H].
  apply bind_Ok in H as (programs & _ & H). by apply bind_Ok in H as ([[[kind mint] t] phase] & _ & [= <-]).
Qed.

(** The phase of a wire is read from its message. *)
Lemma decode_phase wire wire' localT d d' : decode wire localT = Ok d → decode wire' localT = Ok d' →
  dw_messageBytes d = dw_messageBytes d' → ts_encodedPhase (dw_shape d) = ts_encodedPhase (dw_shape d').
Proof.
  assert (∀ w x, decode w localT = Ok x → ∃ message payload, decodeCompiledMessage (dw_messageBytes x) = Some message ∧
    readGuardPayload (head (ct_instructions message) ≫= snd) protectedMint localT = Ok payload ∧ ts_encodedPhase (dw_shape x) = payload.2) as Hread.
  { intros w x. unfold decodeProtectedTradeWire. intros [_ H]%att_refuse_then_Ok.
    apply bind_Ok in H as ([messageBytes signatures] & _ & H). apply bind_Ok in H as (message & Hm%of_option_Ok & H).
    apply att_refuse_then_Ok in H as [_ H]. apply bind_Ok in H as (feePayer & _ & H). apply att_refuse_then_Ok in H as [_ H].
    apply bind_Ok in H as (programs & _ & H). apply bind_Ok in H as ([[[kind mint] t] phase] & Hp & [= <-]).
    exists message. by eexists. }
  intros (m & p & Hm & Hp & ->)%Hread (m' & p' & Hm' & Hp' & ->)%Hread E. rewrite E, Hm' in Hm. injection Hm as ->. congruence.
Qed.

(** C16: in every state the coordinator reaches, whatever the requests and
    however they interleave, an authorization record stands for a wire that
    Phantom validly signed, over the message of a stored simulation that
    succeeded through the guard, Jupiter and the pool (or two messages with
    one digest were found); the coordinator read its own clock on the side of
    the activation the encoded phase requires, both times. *)
Theorem attested_authorizations store queue id a (Hfresh : ∀ n m, newProofId n = newProofId m → n = m) :
  rtc requests (empty_coordinator, []) (store, queue) → map_get id (ca_authorizations store) = Some a →
  ∃ s localT ds da cs ca signature, map_get id (ca_simulations store) = Some s ∧
    simulated s localT ds cs ∧ authorized a localT da ca ∧
    dw_signature da = Some signature ∧ verifySignature ed25519_verify (dw_feePayer da) (dw_messageBytes da) signature = true ∧
    (collision (dw_messageBytes ds) (dw_messageBytes da) ∨
     dw_messageBytes ds = dw_messageBytes da ∧
     ∃ phase, ts_encodedPhase (dw_shape ds) = phase ∧ ts_encodedPhase (dw_shape da) = phase ∧ in_phase cs localT phase ∧ in_phase ca localT phase).
Proof.
  intros Hreach Ha. pose proof (requests_ok Hfresh _ _ Hreach empty_ok) as Hok.
  destruct (so_authorizations _ Hok _ _ Ha) as (s & localT & da & ca & Hs & Hau & Ht & Hm).
  destruct (so_simulations _ Hok _ _ Hs) as [_ (localT' & ds & cs & Hsim)].
  assert (localT' = localT) as -> by (apply (inj show_Z); by rewrite <- (sd_localT _ _ _ _ Hsim)).
  destruct (au_signature _ _ _ _ Hau) as (signature & Hsig & Hv).
  exists s, localT, ds, da, cs, ca, signature. split_and!; try done.
  assert (digest (dw_messageBytes ds) = digest (dw_messageBytes da)) as Hd.
  { destruct (sd_wire _ _ _ _ Hsim) as [w Hw], (au_wire _ _ _ _ Hau) as [w' Hw'].
    rewrite (sd_message _ _ _ _ Hsim), (au_message _ _ _ _ Hau) in Hm.
    apply (inj toHex). by rewrite <- (decode_hash _ _ _ Hw), <- (decode_hash _ _ _ Hw'). }
  destruct (digest_eq_or_collision _ _ Hd) as [E|Hcol]; [right|by left]. split; [done|].
  destruct (sd_wire _ _ _ _ Hsim) as [w Hw], (au_wire _ _ _ _ Hau) as [w' Hw'].
  pose proof (decode_phase _ _ _ _ _ Hw Hw' E) as Hp. exists (ts_encodedPhase (dw_shape da)).
  split_and!; [done|done| |by apply Hau]. rewrite <- Hp. by apply Hsim.
Qed.

(** The store refuses a second authorization of one simulation only before
    the clock is awaited: two requests that both passed that point are both
    attested, and the second record replaces the first. *)
Theorem attested_twice store proofId wire wire' localT begun begun' clock clock' now now' s :
  map_get proofId (ca_simulations store) = Some s →
  begin_signed store proofId wire localT = Ok begun → begin_signed store proofId wire' localT = Ok begun' →
  in_phase clock localT (ts_encodedPhase (dw_shape begun.1.1)) → in_phase clock' localT (ts_encodedPhase (dw_shape begun'.1.1)) →
  ∃ a a' store1 store2,
    finishSignedAuthorization store proofId localT begun (Ok clock) now = (Ok a, store1) ∧
    finishSignedAuthorization store1 proofId localT begun' (Ok clock') now' = (Ok a', store2) ∧
    map_get proofId (ca_authorizations store2) = Some a' ∧
    (∀ wire, ∃ e, begin_signed store1 proofId wire localT = Err e).
Proof.
  intros Hs Hb _ Hp Hp'. destruct begun as [[d sim] text], begun' as [[d' sim'] text']. cbn in Hp, Hp'. unfold finishSignedAuthorization.
  cbn [map_err mbind result_bind].
  rewrite (proj2 (assertClockMatchesPhase_Ok clock _ _ _ tt) Hp), (proj2 (assertClockMatchesPhase_Ok clock' _ _ _ tt) Hp').
  cbn [mbind result_bind]. rewrite (phaseTiming_in_phase _ _ _ Hp), (phaseTiming_in_phase _ _ _ Hp').
  cbn [mbind result_bind]. eexists _, _, _, _. split; [reflexivity|]. split; [reflexivity|]. split; [apply map_get_set|].
  intros again. unfold beginSignedAuthorization. cbn [ca_simulations ca_authorizations]. rewrite Hs. cbn [of_option mbind result_bind].
  destruct (negb _); cbn; [by eexists|]. rewrite map_get_set. by eexists.
Qed.
End CoordinatorSpec.

(* ------------------------------------------------------------------ *)
(** ** The deployment *)

(** A reattested deployment has the digest of the one attested at the start. *)
Lemma reattest_same {address : AddressCodec} {hash : Digest} read read' programId first again :
  attestGuardDeployment read programId = Ok first → reattestGuardDeployment read' (ad_digest first) programId = Ok again →
  ad_digest again = ad_digest first ∧ deploymentAttestationDigest (ad_attestation again) = deploymentAttestationDigest (ad_attestation first).
Proof.
  assert (∀ r d, attestGuardDeployment r programId = Ok d → ad_digest d = deploymentAttestationDigest (ad_attestation d)) as Hd.
  { intros r d. unfold attestGuardDeployment. intros (reply & _ & H)%bind_Ok.
    destruct (findReviewedGuardDeployment programId); apply bind_Ok in H as (x & _ & [= <-]); done. }
  intros H (current & Hc & H')%bind_Ok. apply throw_if_then_Ok in H' as [E%negb_false_iff%String.eqb_eq [= <-]].
  split; [done|]. by rewrite <- (Hd _ _ Hc), <- (Hd _ _ H).
Qed.

(* ------------------------------------------------------------------ *)
(** ** A concrete run *)

(** A guard payload of a PENDING buy of [sample_mint] at the activation 1700000000. *)
Definition attested_payload : bytes :=
  [x02] ++ (encodeAddress sample_mint ?? []) ++ zeros 16 ++ le_bytes 8 1700000000 ++ [x00] ++ zeros 8 ++ [x02] ++ zeros 32.

Definition attested_trade : CompiledTrade :=
  mkCompiledTrade (Some 0) 1 [sample_payer; EQUITY_GUARD_PROGRAM; ATTESTED_COMPUTE_BUDGET; JUPITER_PROGRAM]
    [(1%nat, Some attested_payload); (2%nat, None); (2%nat, None); (3%nat, None)].

(** The wire [[0]] is the unsigned transaction, any other a signed one. *)
Definition sample_trade_codec : TradeCodec := {|
  decodeTransactionBytes wire :=
    Some ([x2a], [(sample_payer, if bool_decide (wire = [x00]) then None else Some (zeros 63 ++ wire))]);
  decodeCompiledMessage _ := Some attested_trade;
|}.

#[local, refine] Instance padding_digest : Digest := {| digest := λ b, take 32 (b ++ zeros 32) |}.
Proof. intros x. rewrite length_take, length_app. unfold zeros. rewrite length_replicate. lia. Defined.

Definition wire_of (text : string) : bytes := if String.eqb text "unsigned" then [x00] else if String.eqb text "signed" then [x01] else [x02].

Definition sample_begin : CoordinatorAttestations → string → string → Z → result att_exn (DecodedWire * PreSignSimulationRecord * string) :=
  beginSignedAuthorization (trade := sample_trade_codec) wire_of (λ _, "signature") (λ _ _ _, Some true) sample_mint.

Definition sample_requests : server → server → Prop :=
  request_step (trade := sample_trade_codec) wire_of (λ _, "signature") (λ _ _ _, Some true) (λ _, "") sample_mint default_proofId.

Definition sample_simulate (store : CoordinatorAttestations) : result att_exn PreSignSimulationRecord * CoordinatorAttestations :=
  recordPreSignSimulation (trade := sample_trade_codec) wire_of (λ _, "signature") (λ _, "") sample_mint default_proofId
    store "unsigned" 1700000000 (Ok (mkClock 7 1699999980))
    (Ok (mkSimulation JNull (map (λ program, "Program " +:+ program +:+ " success") REQUIRED_SUCCESS) None None)) "2026-01-01T00:00:00.000Z".

Definition sample_simulated : CoordinatorAttestations := Eval vm_compute in snd (sample_simulate empty_coordinator).

Lemma sample_simulated_eq : snd (sample_simulate empty_coordinator) = sample_simulated.
Proof. vm_compute. reflexivity. Qed.

Definition sample_begun (text : string) : DecodedWire * PreSignSimulationRecord * string :=
  match sample_begin sample_simulated "presign-1" text 1700000000 with
  | Ok begun => begun
  | Err _ => (mkDecoded [] "" "" 0 "" None None (mkShape "" "" 0 PENDING_PHASE 0 []),
      mkSimulationRecord "" "" "" "" ("", "") None (mkTiming PENDING_PHASE BEFORE_ACTIVATION BEFORE_ACTIVATION) "" "" 0
        (mkShape "" "" 0 PENDING_PHASE 0 []) JNull [] None [], "")
  end.

Definition sample_attested : CoordinatorAttestations := Eval vm_compute in
  snd (finishSignedAuthorization sample_simulated "presign-1" 1700000000 (sample_begun "signed") (Ok (mkClock 8 1699999985)) "2026-01-01T00:00:05.000Z").

Lemma sample_request_run : rtc sample_requests (empty_coordinator, []) (sample_attested, []).
Proof.
  apply (rtc_l _ _ (sample_simulated, [])).
  { rewrite <- sample_simulated_eq. unfold sample_requests, sample_simulate. apply request_simulation. }
  apply (rtc_l _ _ (sample_simulated, [] ++ [mkWaiting "presign-1" 1700000000 (sample_begun "signed")])).
  { unfold sample_requests. apply (request_begin _ _ _ _ _ _ _ _ _ "signed"). vm_compute. reflexivity. }
  apply rtc_once.
  replace sample_attested with (snd (finishSignedAuthorization sample_simulated "presign-1" 1700000000 (sample_begun "signed")
    (Ok (mkClock 8 1699999985)) "2026-01-01T00:00:05.000Z")) by (vm_compute; reflexivity).
  unfold sample_requests. apply (request_finish _ _ _ _ _ _ sample_simulated [] (mkWaiting "presign-1" 1700000000 (sample_begun "signed")) []).
Qed.

Lemma attested_authorizations_witness :
  ∃ a s, map_get "presign-1" (ca_authorizations sample_attested) = Some a ∧ map_get "presign-1" (ca_simulations sample_attested) = Some s.
Proof.
  eexists.
  destruct (attested_authorizations (trade := sample_trade_codec) wire_of (λ _, "signature") (λ _ _ _, Some true) (λ _, "") sample_mint
    default_proofId sample_attested [] "presign-1" _
    ltac:(unfold default_proofId; intros n m H; apply (inj show_Z); apply (string_app_inj "presign-"); exact H)
    sample_request_run ltac:(vm_compute; reflexivity)) as (s & _ & _ & _ & _ & _ & _ & Hs & _).
  exists s. split; [vm_compute; reflexivity|exact Hs].
Defined.

(** Two requests for one simulation, each with its own signed wire. *)
Lemma attested_twice_witness :
  ∃ store, sa_signedWireSha256 <$> map_get "presign-1" (ca_authorizations store) = Some (att_sha256 [x02]).
Proof.
  destruct (attested_twice (trade := sample_trade_codec) wire_of (λ _, "signature") (λ _ _ _, Some true) sample_mint sample_simulated "presign-1"
    "signed" "signed again" 1700000000 (sample_begun "signed") (sample_begun "signed again") (mkClock 8 1699999985) (mkClock 9 1699999990) "" "" _
    ltac:(vm_compute; reflexivity) ltac:(vm_compute; reflexivity) ltac:(vm_compute; reflexivity) ltac:(vm_compute; reflexivity) ltac:(vm_compute; reflexivity))
    as (a & a' & store1 & store2 & H1 & H2 & H3 & _).
  exists store2. rewrite H3. vm_compute in H1. injection H1 as <- <-. vm_compute in H2. injection H2 as <- <-. vm_compute. reflexivity.
Defined.
