(* ===== verification/Flow.v ===== *)
(** * Flows: runs over the numbered answers of other parties

    A flow asks one question after another, each put to a numbered moment that
    may be answered anything, and records what it asked and reported. The same
    few rules give, for every flow built from them, what it asked for in order
    and that it asked no more when it failed. *)

From S2P Require Import Prelude.

(** The moment, and what was recorded so far. *)
Definition flow (X E A : Type) : Type := nat * list E → result X A * (nat * list E).

#[export] Instance flow_ret X E : MRet (flow X E) := λ A a t, (Ok a, t).
#[export] Instance flow_bind X E : MBind (flow X E) := λ A B f m t,
  match m t with (Ok a, t') => f a t' | (Err e, t') => (Err e, t') end.

(** What is recorded and counts as a question, as opposed to a report. *)
Class Questions (E : Type) := is_question : E → bool.

Section Steps.
  Context {X E : Type}.

Definition check_flow {A} (r : result X A) : flow X E A := λ t, (r, t).
Definition note (a : E) : flow X E unit := λ t, (Ok tt, (t.1, t.2 ++ [a])).
Definition await {A} (f : nat → result X A) : flow X E A := λ t, (f t.1, (S t.1, t.2)).

(** [try { m } catch (error) { h }]. *)
Definition rescue {A} (m : flow X E A) (h : X → flow X E A) : flow X E A := λ t,
  match m t with (Ok a, t') => (Ok a, t') | (Err e, t') => h e t' end.

Lemma flow_bind_Ok {A B} (m : flow X E A) (f : A → flow X E B) t b t' :
  (m ≫= f) t = (Ok b, t') ↔ ∃ a t1, m t = (Ok a, t1) ∧ f a t1 = (Ok b, t').
Proof.
  unfold mbind, flow_bind. destruct (m t) as [[a|e] t1]; split.
  - intros H. by exists a, t1.
  - by intros (? & ? & [= <- <-] & ?).
  - intros H. discriminate H.
  - intros (? & ? & H & _). discriminate H.
Qed.

Lemma flow_bind_cases {A B} (m : flow X E A) (f : A → flow X E B) t r t' : (m ≫= f) t = (r, t') →
  (∃ a t1, m t = (Ok a, t1) ∧ f a t1 = (r, t')) ∨ ∃ e, m t = (Err e, t') ∧ r = Err e.
Proof.
  unfold mbind, flow_bind. destruct (m t) as [[a|e] t1]; [intros H; left; by exists a, t1|intros [= <- <-]; right; by exists e].
Qed.

Lemma check_flow_Ok {A} (r : result X A) t a t' : check_flow r t = (Ok a, t') ↔ r = Ok a ∧ t' = t.
Proof. unfold check_flow. split; [by intros [= -> ->]|by intros [-> ->]]. Qed.

Lemma await_Ok {A} (f : nat → result X A) t a t' : await f t = (Ok a, t') ↔ f t.1 = Ok a ∧ t' = (S t.1, t.2).
Proof. unfold await. split; [by intros [= -> ->]|by intros [-> ->]]. Qed.

Lemma note_Ok a t u t' : note a t = (Ok u, t') ↔ t' = (t.1, t.2 ++ [a]).
Proof. unfold note. destruct u. split; [by intros [= <-]|by intros ->]. Qed.
End Steps.

(** The questions of a run, reports left out. *)
Definition questions {E} `{!Questions E} (l : list E) : list E := List.filter is_question l.

Lemma questions_app {E} `{!Questions E} (l k : list E) : questions (l ++ k) = questions l ++ questions k.
Proof. apply List.filter_app. Qed.

(** [m] asks for [l], in order, and for a beginning of it when it fails. *)
Definition asks {X E A} `{!Questions E} (l : list E) (m : flow X E A) : Prop :=
  ∀ t r t', m t = (r, t') → (t.1 ≤ t'.1)%nat ∧ ∃ new, t'.2 = t.2 ++ new ∧ questions new `prefix_of` l ∧ (∀ a, r = Ok a → questions new = l).

Create HintDb asks.

Section Asks.
  Context {X E : Type} `{!Questions E}.

Lemma asks_nothing {A} (m : flow X E A) : (∀ t, (t.1 ≤ (snd (m t)).1)%nat ∧ (snd (m t)).2 = t.2) → asks [] m.
Proof. intros H t r t' H'. specialize (H t). rewrite H' in H. destruct H as [? H]. split; [done|]. exists []. by rewrite app_nil_r. Qed.

Lemma asks_ret {A} (a : A) : asks [] (mret a : flow X E A).
Proof. by apply asks_nothing. Qed.

Lemma asks_check {A} (r : result X A) : asks [] (check_flow r : flow X E A).
Proof. by apply asks_nothing. Qed.

Lemma asks_await {A} (f : nat → result X A) : asks [] (await f : flow X E A).
Proof. apply asks_nothing. intros t. cbn. split; [lia|done]. Qed.

Lemma asks_note a : asks (questions [a]) (note a : flow X E unit).
Proof. intros t r t' [= <- <-]. split; [done|]. by exists [a]. Qed.

Lemma asks_report a : is_question a = false → asks [] (note a : flow X E unit).
Proof. intros Ha. pose proof (asks_note a) as H. unfold questions in H. cbn in H. by rewrite Ha in H. Qed.

Lemma asks_bind {A B} l k (m : flow X E A) (f : A → flow X E B) : asks l m → (∀ a, asks k (f a)) → asks (l ++ k) (m ≫= f).
Proof.
  intros Hm Hf t r t' [(a & t1 & H & H')|(e & H & ->)]%flow_bind_cases; apply Hm in H as (Ht & new & Hnew & Hp & Hl).
  - apply Hf in H' as (Ht' & new' & Hnew' & Hp' & Hl'). split; [lia|]. exists (new ++ new').
    rewrite Hnew', Hnew, app_assoc, questions_app, (Hl a eq_refl). split; [done|]. split; [by apply prefix_app|].
    intros b Hb. by rewrite (Hl' b Hb).
  - split; [done|]. exists new. split; [done|]. split; [|done]. by apply prefix_app_r.
Qed.

Lemma asks_then {A B} l (m : flow X E A) (f : A → flow X E B) : asks [] m → (∀ a, asks l (f a)) → asks l (m ≫= f).
Proof. apply (asks_bind []). Qed.

Lemma asks_rescue {A} (m : flow X E A) h : asks [] m → (∀ e, asks [] (h e)) → asks [] (rescue m h).
Proof.
  intros Hm Hh. unfold rescue. intros t r t'. destruct (m t) as [[a|e] t1] eqn:Hmt.
  - intros [= <- <-]. by eapply Hm.
  - intros H. apply Hm in Hmt as (Ht & new & Hnew & Hp & _). apply Hh in H as (Ht' & new' & Hnew' & Hp' & Hl').
    apply prefix_nil_inv in Hp. split; [lia|]. exists (new ++ new'). rewrite Hnew', Hnew, app_assoc, questions_app, Hp. done.
Qed.

(** A computation that fails before asking anything. *)
Lemma asks_computed {A B} l (r : result X A) (f : A → flow X E B) : (∀ a, r = Ok a → asks l (f a)) → asks l (check_flow r ≫= f).
Proof.
  intros Hf t o t' H. unfold mbind, flow_bind, check_flow in H. destruct r as [a|e]; [by eapply Hf|]. injection H as <- <-.
  split; [done|]. exists []. rewrite app_nil_r. split; [done|]. split; [by exists l|done].
Qed.

(** The questions of the second part depend on what the first returned. *)
Lemma asks_bind_cases {A B} l k (m : flow X E A) (f : A → flow X E B) : asks l m → (∀ a, asks (k a) (f a)) → ∀ t r t', (m ≫= f) t = (r, t') →
  (∃ e new, m t = (Err e, t') ∧ r = Err e ∧ t'.2 = t.2 ++ new ∧ questions new `prefix_of` l) ∨
  (∃ a t1 new new', m t = (Ok a, t1) ∧ f a t1 = (r, t') ∧ t1.2 = t.2 ++ new ∧ questions new = l ∧ t'.2 = t1.2 ++ new' ∧ questions new' `prefix_of` k a).
Proof.
  intros Hm Hf t r t' [(a & t1 & H & H')|(e & H & ->)]%flow_bind_cases; pose proof (Hm _ _ _ H) as (_ & new & Hnew & Hp & Hl).
  - pose proof (Hf _ _ _ _ H') as (_ & new' & Hnew' & Hp' & _). right. exists a, t1, new, new'. split_and!; try done. by apply Hl with a.
  - left. by exists e, new.
Qed.
End Asks.

#[export] Hint Resolve asks_ret asks_check asks_await asks_report : asks.

(** Walks a run down its binds and tests. *)
Ltac asks :=
  repeat first
    [ solve [eauto with asks]
    | apply asks_report; reflexivity
    | apply asks_then; [|intros ?]
    | match goal with
      | |- asks _ (if ?b then _ else _) => destruct b
      | |- asks _ (match ?x with _ => _ end) => destruct x
      | |- asks _ (let _ := _ in _) => cbv zeta
      end ].

(* ------------------------------------------------------------------ *)
(** ** What a run records, whether it fails or not *)

(** A property of records that holds of two together when it holds of each. *)
Class Joined {E} (P : list E → Prop) : Prop := { joined_nil : P []; joined_app : ∀ l k, P l → P k → P (l ++ k) }.

Definition records {X E A} (P : list E → Prop) (m : flow X E A) : Prop := ∀ t r t', m t = (r, t') → ∃ new, t'.2 = t.2 ++ new ∧ P new.

Create HintDb records.

Section Records.
  Context {X E : Type} (P : list E → Prop) `{!Joined P}.

Lemma records_nothing {A} (m : flow X E A) : (∀ t, (snd (m t)).2 = t.2) → records P m.
Proof. intros H t r t' H'. specialize (H t). rewrite H' in H. exists []. rewrite app_nil_r. split; [done|apply joined_nil]. Qed.

Lemma records_ret {A} (a : A) : records P (mret a : flow X E A).
Proof. by apply records_nothing. Qed.

Lemma records_check {A} (r : result X A) : records P (check_flow r : flow X E A).
Proof. by apply records_nothing. Qed.

Lemma records_await {A} (f : nat → result X A) : records P (await f : flow X E A).
Proof. by apply records_nothing. Qed.

Lemma records_note a : P [a] → records P (note a : flow X E unit).
Proof. intros Ha t r t' [= <- <-]. by exists [a]. Qed.

Lemma records_bind {A B} (m : flow X E A) (f : A → flow X E B) : records P m → (∀ a, records P (f a)) → records P (m ≫= f).
Proof.
  intros Hm Hf t r t' [(a & t1 & H & H')|(e & H & ->)]%flow_bind_cases; apply Hm in H as (new & Hnew & HP).
  - apply Hf in H' as (new' & Hnew' & HP'). exists (new ++ new'). rewrite Hnew', Hnew, app_assoc. split; [done|by apply joined_app].
  - by exists new.
Qed.

(** Two records that only hold together. *)
Lemma records_pair {A} a b (m : flow X E A) : P [a; b] → records P m → records P (note a;; note b;; m).
Proof.
  intros Hab Hm t r t' H. apply Hm in H as (new & Hnew & HP). exists ([a; b] ++ new). cbn in Hnew. rewrite Hnew, <- !app_assoc.
  split; [done|by apply joined_app].
Qed.
End Records.

#[export] Hint Resolve records_ret records_check records_await : records.

(** Walks a run down its binds and tests; [quiet] proves one record, or two. *)
Ltac records quiet :=
  repeat first
    [ solve [eauto with records typeclass_instances]
    | apply records_note; solve [quiet]
    | apply records_pair; [exact _|solve [quiet]|]
    | apply records_bind; [exact _| |intros ?]
    | match goal with
      | |- records _ (if ?b then _ else _) => destruct b
      | |- records _ (match ?x with _ => _ end) => destruct x
      | |- records _ (let _ := _ in _) => cbv zeta
      end ].
