(* ===== verification/ActivationProof.v ===== *)
(** * apps/phantom-local-feasibility/src/activation-proof.ts: one authorization across an activation

    One build, one signature and at most one submission of the very bytes the
    wallet returned. The wallet, the validator and the coordinator are the
    injected dependencies; each question is put to a numbered moment and may be
    answered anything. *)

From S2P Require Import Prelude Js Errors Kit Abi Snapshot CanonicalKey DemoChain Attestation Flow.

Definition LOCAL_ACTIVATION_SOURCE : string := "LOCAL_EXECUTION_REPRODUCTION".

(** [BuyStage] of buy-error.ts. *)
Inductive BuyStage : Set :=
| B_ENVIRONMENT_CHECK | B_PHANTOM_CONNECT | B_TRANSACTION_BUILD | B_SIGN_REQUEST | B_SIGNED_BYTES_RETURNED | B_SIMULATION
| B_PRE_SIGN_SIMULATION | B_SIGNED_AUTHORIZATION_RECEIPT | B_DEPLOYMENT_ATTESTATION | B_WAITING_FOR_ACTIVATION
| B_BLOCKHASH_VALIDATION | B_SUBMISSION | B_CONFIRMATION | B_BALANCE_VERIFICATION.

Section Delay.
  (** [Number(value)]. *)
  Variable numberOf : string → jsnum.

Definition activationDelay (value : string) : result demo_exn Z :=
  let seconds := numberOf value in
  fail_if (negb (isInteger seconds) || (num_value seconds <? 5) || (30 <? num_value seconds))
    "Activation delay must be 5–30 validator seconds";;
  Ok (num_value seconds).

Definition localActivation (clock : Z) (delay : jsnum) : result demo_exn Z :=
  seconds ← activationDelay (show_num delay);
  Ok (clock + seconds).
End Delay.

Definition equalBytes (a b : bytes) : bool := bytesEqual a b.

Definition wireHash {hash : Digest} (b : bytes) : string := toHex (digest b).

Record LifetimeCheck := mkLifetime { lc_valid : bool; lc_height : Z; lc_lastValidBlockHeight : Z }.

(** [PhaseTiming] as the browser received it. *)
Record ReceivedTiming := mkReceivedTiming {
  tm_encodedPhase : EncodedPhase;
  tm_clockRelationToLocalT : ClockRelation;
  tm_requiredRelationToLocalT : ClockRelation;
  tm_clockMatchesExpectedPhase : bool;
}.

Record PreSignAttestation := mkPreSign {
  pa_proofId : string;
  pa_messageSha256 : string;
  pa_timing : ReceivedTiming;
  pa_source : string;
}.

Record SignedAuthorizationAttestation := mkSignedAttestation {
  sg_proofId : string;
  sg_signedWireSha256 : string;
  sg_messageSha256 : string;
  sg_messageMatchesSimulated : bool;
  sg_timing : ReceivedTiming;
  sg_signatureVerified : bool;
  sg_source : string;
}.

Inductive DeploymentStage : Set := PRE_SIGN | PRE_SUBMISSION.

Record DeploymentAttestation := mkDeploymentAttestation { da_stage : DeploymentStage; da_digest : string; da_matched : bool }.

(** [pause] leaves no trace; [submit] gets the array itself and answers also with
    the bytes it leaves there. *)
Record ActivationDependencies (X Prepared Outcome : Type) := mkDependencies {
  dep_build : nat → result X Prepared;
  dep_attestPreSignSimulation : nat → Prepared → result X PreSignAttestation;
  dep_sign : nat → Prepared → result X bytes;
  dep_attestSignedAuthorization : nat → string → bytes → result X SignedAuthorizationAttestation;
  dep_attestDeployment : nat → DeploymentStage → result X DeploymentAttestation;
  dep_clock : nat → result X ChainClock;
  dep_lifetime : nat → Prepared → result X LifetimeCheck;
  dep_submit : nat → Prepared → bytes → bool → result X (Outcome * bytes);
}.
Arguments mkDependencies {_ _ _}.
Arguments dep_build {_ _ _}. Arguments dep_attestPreSignSimulation {_ _ _}. Arguments dep_sign {_ _ _}.
Arguments dep_attestSignedAuthorization {_ _ _}. Arguments dep_attestDeployment {_ _ _}. Arguments dep_clock {_ _ _}.
Arguments dep_lifetime {_ _ _}. Arguments dep_submit {_ _ _}.

(** What a run asked for, in order. *)
Inductive asked : Type :=
| AskedBuild
| AskedSignature
| AskedSubmission (wire : bytes)
| ReportedStage (stage : BuyStage).

#[export] Instance asked_questions : Questions asked := λ a, match a with ReportedStage _ => false | _ => true end.

Section Execute.
  Context {hash : Digest} {X Prepared Outcome : Type}.
  (** [new Error(message)]. *)
  Variable plain_error : string → X.
  Variable deps : ActivationDependencies X Prepared Outcome.
  Variable localT : Z.
  Variable stale : bool.

Definition stage (s : BuyStage) : flow X asked unit := note (ReportedStage s).

(** The reading of the clock, and what is refused of it. *)
Definition clock_unless (late : Z → bool) (message : string) : flow X asked ChainClock :=
  clock ← await (dep_clock deps);
  check_flow (throw_if (late (clock_unixTimestamp clock)) (plain_error message));;
  mret clock.

(** The signed bytes and everything read until the coordinator dated them. *)
Record held_run := mkHeldRun {
  hr_prepared : Prepared;
  hr_beforeSimulation : ChainClock;
  hr_preSign : PreSignAttestation;
  hr_atSimulation : ChainClock;
  hr_deployment : DeploymentAttestation;
  hr_reference : bytes;
  hr_held : bytes;
  hr_atSigning : ChainClock;
  hr_signedAuthorization : SignedAuthorizationAttestation;
}.

Definition holdAcrossActivation : flow X asked held_run :=
  stage B_TRANSACTION_BUILD;;
  note AskedBuild;;
  prepared ← await (dep_build deps);
  beforeSimulation ← clock_unless (λ now, if stale then localT <=? now else now <? localT)
    "Authorization phase is not ready; reset the local reproduction";
  stage B_PRE_SIGN_SIMULATION;;
  preSign ← await (λ n, dep_attestPreSignSimulation deps n prepared);
  atSimulation ← clock_unless (λ now, stale && (localT <=? now)) "Activation passed during simulation; no signature requested";
  stage B_DEPLOYMENT_ATTESTATION;;
  deployment ← await (λ n, dep_attestDeployment deps n PRE_SIGN);
  stage B_SIGN_REQUEST;;
  note AskedSignature;;
  returned ← await (λ n, dep_sign deps n prepared);
  let reference := returned in
  let held := returned in
  stage B_SIGNED_BYTES_RETURNED;;
  atSigning ← clock_unless (λ now, stale && (localT <=? now)) "Signature returned after activation; aborting without submission or re-signing";
  stage B_SIGNED_AUTHORIZATION_RECEIPT;;
  signedAuthorization ← await (λ n, dep_attestSignedAuthorization deps n (pa_proofId preSign) reference);
  check_flow (throw_if (negb (String.eqb (sg_messageSha256 signedAuthorization) (pa_messageSha256 preSign)))
    (plain_error "Coordinator attested a different message than it simulated; submission refused"));;
  check_flow (throw_if (negb (String.eqb (sg_signedWireSha256 signedAuthorization) (wireHash reference)))
    (plain_error "Coordinator attested different signed bytes than the ones held; submission refused"));;
  mret (mkHeldRun prepared beforeSimulation preSign atSimulation deployment reference held atSigning signedAuthorization).

(** The while loop; [polls]: the rounds left. *)
Fixpoint waitForCrossing (polls : nat) (atSubmission : ChainClock) : flow X asked ChainClock :=
  if localT <? clock_unixTimestamp atSubmission then mret atSubmission
  else
    match polls with
    | O => check_flow (Err (plain_error "Validator Clock did not cross activation; transaction not submitted"))
    | S polls =>
        atSubmission ← await (dep_clock deps);
        stage B_WAITING_FOR_ACTIVATION;;
        waitForCrossing polls atSubmission
    end.

(** The last checks before the submission: the clock of the crossing, the
    lifetime and the deployment. *)
Definition readyToSubmit (run : held_run) : flow X asked (ChainClock * LifetimeCheck * DeploymentAttestation) :=
  atSubmission ← (if stale then stage B_WAITING_FOR_ACTIVATION;; waitForCrossing 240 (hr_atSigning run) else mret (hr_atSigning run));
  stage B_BLOCKHASH_VALIDATION;;
  lifetime ← await (λ n, dep_lifetime deps n (hr_prepared run));
  check_flow (throw_if (negb (lc_valid lifetime) || (lc_lastValidBlockHeight lifetime <? lc_height lifetime))
    (plain_error "Original blockhash expired; aborted without rebuilding or re-signing"));;
  stage B_DEPLOYMENT_ATTESTATION;;
  deployment ← await (λ n, dep_attestDeployment deps n PRE_SUBMISSION);
  check_flow (throw_if (negb (String.eqb (da_digest deployment) (da_digest (hr_deployment run)))) (plain_error "EquityGuard deployment changed after signing; submission refused"));;
  check_flow (throw_if (negb (equalBytes (hr_reference run) (hr_held run)) || negb (String.eqb (wireHash (hr_reference run)) (wireHash (hr_held run))))
    (plain_error "Signed transaction bytes changed; submission refused"));;
  mret (atSubmission, lifetime, deployment).

Record ActivationProof := mkProof {
  pf_run : held_run;
  pf_atSubmission : ChainClock;
  pf_lifetime : LifetimeCheck;
  pf_deploymentBeforeSubmission : DeploymentAttestation;
  pf_wireLength : nat;
  pf_signedWireHashBeforeActivation : string;
  pf_signedWireHashAtSubmission : string;
  pf_exactEquality : bool;
  pf_outcome : Outcome;
}.

Definition executeAcrossActivation : flow X asked ActivationProof :=
  run ← holdAcrossActivation;
  ready ← readyToSubmit run;
  let '(atSubmission, lifetime, deployment) := ready in
  stage B_SUBMISSION;;
  note (AskedSubmission (hr_held run));;
  submitted ← await (λ n, dep_submit deps n (hr_prepared run) (hr_held run) stale);
  let '(outcome, remains) := submitted in
  mret (mkProof run atSubmission lifetime deployment (length (hr_held run)) (wireHash (hr_reference run)) (wireHash (hr_held run))
          (equalBytes (hr_reference run) remains) outcome).
End Execute.

(* ------------------------------------------------------------------ *)
(** ** What a run establishes *)

(** A request to the wallet and a submission are announced by their stages. *)
Definition announced (l : list asked) : Prop :=
  (AskedSignature ∈ l ↔ ReportedStage B_SIGN_REQUEST ∈ l) ∧ ((∃ wire, AskedSubmission wire ∈ l) ↔ ReportedStage B_SUBMISSION ∈ l).

#[export] Instance announced_joined : Joined announced.
Proof.
  split.
  - split; split; [by intros ?%not_elem_of_nil|by intros ?%not_elem_of_nil|by intros [? ?%not_elem_of_nil]|by intros ?%not_elem_of_nil].
  - intros l k [Hl Hl'] [Hk Hk']. unfold announced. setoid_rewrite elem_of_app. naive_solver.
Qed.

(** Two or fewer records, one by one. *)
Ltac announces := unfold announced; repeat setoid_rewrite elem_of_cons; repeat setoid_rewrite elem_of_nil; naive_solver.

Section ExecuteSpec.
  Context {hash : Digest} {X Prepared Outcome : Type}.
  (** [new Error(message)]. *)
  Variable plain_error : string → X.
  Variable deps : ActivationDependencies X Prepared Outcome.
  Variable localT : Z.
  Variable stale : bool.

Lemma asks_clock late message : asks [] (clock_unless plain_error deps late message).
Proof. unfold clock_unless. asks. Qed.

#[local] Hint Resolve asks_clock : asks.

Lemma asks_crossing polls clock : asks [] (waitForCrossing plain_error deps localT polls clock).
Proof. revert clock. induction polls as [|polls IH]; intros clock; cbn; asks. Qed.

#[local] Hint Resolve asks_crossing : asks.

Lemma asks_ready run : asks [] (readyToSubmit plain_error deps localT stale run).
Proof. unfold readyToSubmit. asks. Qed.

Lemma asks_hold : asks [AskedBuild; AskedSignature] (holdAcrossActivation plain_error deps localT stale).
Proof.
  unfold holdAcrossActivation. apply asks_then; [asks|intros _].
  apply (asks_bind [AskedBuild] [AskedSignature]); [exact (asks_note AskedBuild)|intros _].
  do 8 (apply asks_then; [asks|intros ?]). apply (asks_bind [AskedSignature] []); [exact (asks_note AskedSignature)|intros _]. asks.
Qed.

Lemma clock_unless_Ok late message t clock t' : clock_unless plain_error deps late message t = (Ok clock, t') →
  dep_clock deps t.1 = Ok clock ∧ late (clock_unixTimestamp clock) = false ∧ t' = (S t.1, t.2).
Proof.
  unfold clock_unless. intros (c & t1 & [Hc ->]%await_Ok & H)%flow_bind_Ok.
  apply flow_bind_Ok in H as (u & t2 & [Hl%throw_if_Ok ->]%check_flow_Ok & [= <- <-]). done.
Qed.

(** The records a run makes without waiting. *)
Ltac steps H := repeat apply flow_bind_Ok in H as (? & ? & ->%note_Ok & H).

Lemma crossing_Ok polls clock t clock' t' : waitForCrossing plain_error deps localT polls clock t = (Ok clock', t') →
  (t.1 ≤ t'.1)%nat ∧ localT < clock_unixTimestamp clock' ∧
  (clock' = clock ∨ ∃ n, (t.1 ≤ n < t'.1)%nat ∧ dep_clock deps n = Ok clock').
Proof.
  revert clock t. induction polls as [|polls IH]; intros clock t; cbn; destruct (localT <? _) eqn:E.
  - intros [= <- <-]. apply Z.ltb_lt in E. split; [done|]. split; [done|by left].
  - done.
  - intros [= <- <-]. apply Z.ltb_lt in E. split; [done|]. split; [done|by left].
  - intros (c & t1 & [Hc ->]%await_Ok & H)%flow_bind_Ok. apply flow_bind_Ok in H as (u & t2 & [= _ <-] & H).
    apply IH in H as (Hle & Hlt & Hn). cbn in Hle. split; [lia|]. split; [done|]. right. destruct Hn as [->|(n & Hn & Hd)].
    + exists t.1. split; [lia|done].
    + exists n. cbn in Hn. split; [lia|done].
Qed.

(** What was established when the wallet's bytes are held: the answers to the
    eight questions from the moment [n] on, in this order. *)
Record held_well (n : nat) (run : held_run (Prepared := Prepared)) : Prop := {
  hw_built : dep_build deps n = Ok (hr_prepared run);
  hw_beforeSimulation : dep_clock deps (1 + n) = Ok (hr_beforeSimulation run);
  hw_simulated : dep_attestPreSignSimulation deps (2 + n) (hr_prepared run) = Ok (hr_preSign run);
  hw_atSimulation : dep_clock deps (3 + n) = Ok (hr_atSimulation run);
  hw_deployment : dep_attestDeployment deps (4 + n) PRE_SIGN = Ok (hr_deployment run);
  hw_signed : dep_sign deps (5 + n) (hr_prepared run) = Ok (hr_held run);
  hw_atSigning : dep_clock deps (6 + n) = Ok (hr_atSigning run);
  hw_attested : dep_attestSignedAuthorization deps (7 + n) (pa_proofId (hr_preSign run)) (hr_held run) = Ok (hr_signedAuthorization run);
  hw_stale : stale = true → clock_unixTimestamp (hr_beforeSimulation run) < localT ∧
    clock_unixTimestamp (hr_atSimulation run) < localT ∧ clock_unixTimestamp (hr_atSigning run) < localT;
  hw_fresh : stale = false → localT ≤ clock_unixTimestamp (hr_beforeSimulation run);
  hw_reference : hr_reference run = hr_held run;
  hw_message : sg_messageSha256 (hr_signedAuthorization run) = pa_messageSha256 (hr_preSign run);
  hw_wire : sg_signedWireSha256 (hr_signedAuthorization run) = wireHash (hr_held run);
}.

Lemma holding_Ok t run t' : holdAcrossActivation plain_error deps localT stale t = (Ok run, t') → held_well t.1 run ∧ t'.1 = (8 + t.1)%nat.
Proof.
  unfold holdAcrossActivation, stage. intros H. steps H.
  apply flow_bind_Ok in H as (prepared & ? & [Hbuild ->]%await_Ok & H). apply flow_bind_Ok in H as (c1 & ? & (Hc1 & H1 & ->)%clock_unless_Ok & H).
  steps H. apply flow_bind_Ok in H as (preSign & ? & [Hpre ->]%await_Ok & H).
  apply flow_bind_Ok in H as (c2 & ? & (Hc2 & H2 & ->)%clock_unless_Ok & H). steps H.
  apply flow_bind_Ok in H as (deployment & ? & [Hdep ->]%await_Ok & H). steps H.
  apply flow_bind_Ok in H as (returned & ? & [Hsign ->]%await_Ok & H). steps H.
  apply flow_bind_Ok in H as (c3 & ? & (Hc3 & H3 & ->)%clock_unless_Ok & H). steps H.
  apply flow_bind_Ok in H as (signed & ? & [Hsig ->]%await_Ok & H).
  apply flow_bind_Ok in H as (? & ? & [Hm%throw_if_Ok%negb_false_iff%String.eqb_eq ->]%check_flow_Ok & H).
  apply flow_bind_Ok in H as (? & ? & [Hw%throw_if_Ok%negb_false_iff%String.eqb_eq ->]%check_flow_Ok & [= <- <-]).
  split; [|done]. split; cbn; try done.
  - intros ->. cbn in *. rewrite Z.leb_gt in *. done.
  - intros ->. by rewrite Z.ltb_ge in H1.
Qed.

Lemma ready_Ok run t atSubmission lifetime deployment t' : readyToSubmit plain_error deps localT stale run t = (Ok (atSubmission, lifetime, deployment), t') →
  ∃ l, (t.1 ≤ l)%nat ∧ t'.1 = (2 + l)%nat ∧
  (stale = true → localT < clock_unixTimestamp atSubmission ∧
     (atSubmission = hr_atSigning run ∨ ∃ n, (t.1 ≤ n < l)%nat ∧ dep_clock deps n = Ok atSubmission)) ∧
  (stale = false → atSubmission = hr_atSigning run) ∧
  dep_lifetime deps l (hr_prepared run) = Ok lifetime ∧ lc_valid lifetime = true ∧ lc_height lifetime ≤ lc_lastValidBlockHeight lifetime ∧
  dep_attestDeployment deps (1 + l) PRE_SUBMISSION = Ok deployment ∧ da_digest deployment = da_digest (hr_deployment run).
Proof.
  unfold readyToSubmit, stage. intros (c & t1 & Hc & H)%flow_bind_Ok. steps H.
  apply flow_bind_Ok in H as (lt & ? & [Hl ->]%await_Ok & H). apply flow_bind_Ok in H as (? & ? & [Hv%throw_if_Ok ->]%check_flow_Ok & H).
  steps H. apply flow_bind_Ok in H as (d & ? & [Hd ->]%await_Ok & H).
  apply flow_bind_Ok in H as (? & ? & [He%throw_if_Ok%negb_false_iff%String.eqb_eq ->]%check_flow_Ok & H).
  apply flow_bind_Ok in H as (? & ? & [_ ->]%check_flow_Ok & [= -> -> -> <-]). apply orb_false_iff in Hv as [Hv%negb_false_iff Hh%Z.ltb_ge].
  assert ((t.1 ≤ t1.1)%nat ∧ (stale = true → localT < clock_unixTimestamp atSubmission ∧
     (atSubmission = hr_atSigning run ∨ ∃ n, (t.1 ≤ n < t1.1)%nat ∧ dep_clock deps n = Ok atSubmission)) ∧
     (stale = false → atSubmission = hr_atSigning run)) as (Hle & Hst & Hfr).
  { destruct stale.
    - steps Hc. apply crossing_Ok in Hc as (? & ? & ?). done.
    - by injection Hc as <- <-. }
  exists t1.1. by split_and!.
Qed.

Lemma no_submission l wire : questions l `prefix_of` [AskedBuild; AskedSignature] → AskedSubmission wire ∉ l.
Proof.
  intros [k Hk] Hin. assert (AskedSubmission wire ∈ questions l) as H.
  { apply list_elem_of_In, List.filter_In. split; [by apply list_elem_of_In|done]. }
  assert (AskedSubmission wire ∈ [AskedBuild; AskedSignature]) as H' by (rewrite Hk; apply elem_of_app; by left).
  apply list_elem_of_In in H'. cbn in H'. naive_solver.
Qed.

(** What a completed run proves: the eight questions from [n] on, and at [l]
    and after the lifetime, the deployment and the submission. *)
Record proof_well (n l : nat) (proof : ActivationProof (Prepared := Prepared) (Outcome := Outcome)) : Prop := {
  pw_run : held_well n (pf_run proof) ∧ (8 + n ≤ l)%nat;
  pw_crossed : stale = true → localT < clock_unixTimestamp (pf_atSubmission proof) ∧
    ∃ k, (8 + n ≤ k < l)%nat ∧ dep_clock deps k = Ok (pf_atSubmission proof);
  pw_lifetime : dep_lifetime deps l (hr_prepared (pf_run proof)) = Ok (pf_lifetime proof) ∧ lc_valid (pf_lifetime proof) = true ∧
    lc_height (pf_lifetime proof) ≤ lc_lastValidBlockHeight (pf_lifetime proof);
  pw_deployment : dep_attestDeployment deps (1 + l) PRE_SUBMISSION = Ok (pf_deploymentBeforeSubmission proof) ∧
    da_digest (pf_deploymentBeforeSubmission proof) = da_digest (hr_deployment (pf_run proof));
  pw_hashes : pf_signedWireHashBeforeActivation proof = wireHash (hr_held (pf_run proof)) ∧
    pf_signedWireHashAtSubmission proof = wireHash (hr_held (pf_run proof));
  pw_submitted : ∃ remains, dep_submit deps (2 + l) (hr_prepared (pf_run proof)) (hr_held (pf_run proof)) stale = Ok (pf_outcome proof, remains) ∧
    pf_exactEquality proof = equalBytes (hr_reference (pf_run proof)) remains;
}.

(** A clock past the activation is none of those read before it. *)
Lemma crossed_read n run atSubmission l : held_well n run → stale = true → (stale = true → localT < clock_unixTimestamp atSubmission ∧
    (atSubmission = hr_atSigning run ∨ ∃ k, (8 + n ≤ k < l)%nat ∧ dep_clock deps k = Ok atSubmission)) →
  localT < clock_unixTimestamp atSubmission ∧ ∃ k, (8 + n ≤ k < l)%nat ∧ dep_clock deps k = Ok atSubmission.
Proof.
  intros Hw Hst H. destruct (H Hst) as [Hlt [->|Hk]]; [|done]. destruct (hw_stale _ _ Hw Hst) as (_ & _ & ?). lia.
Qed.

Lemma execute_Ok t proof t' : executeAcrossActivation plain_error deps localT stale t = (Ok proof, t') → ∃ l, proof_well t.1 l proof.
Proof.
  unfold executeAcrossActivation. intros (run & t1 & [Hhold Ht1]%holding_Ok & H)%flow_bind_Ok.
  apply flow_bind_Ok in H as ([[atSubmission lifetime] deployment] & t2 & Hready & H).
  apply ready_Ok in Hready as (l & Hle & Ht2 & Hstale & _ & Hl & Hv & Hh & Hd & He).
  unfold stage in H. steps H. apply flow_bind_Ok in H as ([outcome remains] & ? & [Hs _]%await_Ok & [= <- _]).
  cbn [fst] in Hs. rewrite Ht1 in *. rewrite Ht2 in Hs.
  pose proof (hw_reference _ _ Hhold) as Href. exists l. split; cbn; try done; [|by rewrite Href|by eexists].
  intros Hst. by eapply crossed_read.
Qed.

Lemma records_clock late message : records announced (clock_unless plain_error deps late message).
Proof. unfold clock_unless. records announces. Qed.

Lemma records_crossing polls clock : records announced (waitForCrossing plain_error deps localT polls clock).
Proof. revert clock. induction polls as [|polls IH]; intros clock; cbn; unfold stage; records announces. Qed.

#[local] Hint Resolve records_clock records_crossing : records.

Lemma execute_announced t r t' : executeAcrossActivation plain_error deps localT stale t = (r, t') → ∃ new, t'.2 = t.2 ++ new ∧ announced new.
Proof.
  revert t r t'. change (records announced (executeAcrossActivation plain_error deps localT stale)).
  unfold executeAcrossActivation, holdAcrossActivation, readyToSubmit, stage.
  records announces.
Qed.

(** C18: a run asks for one build, one signature and at most one submission,
    in this order and whatever the parties answer; the bytes it submits are
    those the wallet returned, attested by the coordinator for the message it
    simulated; when they are stale, the clocks answered up to the signature were
    before the activation, and one answered after it, ahead of the submission,
    was past it; and just before the submission the lifetime was open and the
    deployment the one attested before the signature. What a completed run
    reports is the answer to that submission. *)
Theorem executeAcrossActivation_sound r t' : executeAcrossActivation plain_error deps localT stale (0%nat, []) = (r, t') →
  ∃ wire, questions t'.2 `prefix_of` [AskedBuild; AskedSignature; AskedSubmission wire] ∧
    (AskedSubmission wire ∈ t'.2 → ∃ run lifetime deployment l,
       wire = hr_held run ∧ held_well 0 run ∧ (8 ≤ l)%nat ∧
       (stale = true → ∃ n atSubmission, (8 ≤ n < l)%nat ∧ dep_clock deps n = Ok atSubmission ∧ localT < clock_unixTimestamp atSubmission) ∧
       dep_lifetime deps l (hr_prepared run) = Ok lifetime ∧ lc_valid lifetime = true ∧ lc_height lifetime ≤ lc_lastValidBlockHeight lifetime ∧
       dep_attestDeployment deps (1 + l) PRE_SUBMISSION = Ok deployment ∧ da_digest deployment = da_digest (hr_deployment run) ∧
       t'.1 = (3 + l)%nat ∧
       ∀ proof, r = Ok proof → ∃ remains, dep_submit deps (2 + l) (hr_prepared run) wire stale = Ok (pf_outcome proof, remains) ∧
         pf_exactEquality proof = equalBytes wire remains).
Proof.
  unfold executeAcrossActivation.
  intros [(run & t1 & Hhold & H)|(e & H & ->)]%flow_bind_cases.
  - pose proof (asks_hold _ _ _ Hhold) as (_ & new & Hnew & _ & Hall). specialize (Hall _ eq_refl). cbn [snd app] in Hnew. subst new.
    apply holding_Ok in Hhold as [Hhold Ht1]. exists (hr_held run).
    apply flow_bind_cases in H as [([[atSubmission lifetime] deployment] & t2 & Hready & H)|(e & H & ->)].
    + pose proof (asks_ready _ _ _ _ Hready) as (_ & new & Hnew & _ & Hnone). specialize (Hnone _ eq_refl).
      assert (questions t'.2 = [AskedBuild; AskedSignature; AskedSubmission (hr_held run)]) as ->.
      { assert (∃ more, t'.2 = (t2.2 ++ [ReportedStage B_SUBMISSION]) ++ [AskedSubmission (hr_held run)] ++ more ∧ more = []) as (more & -> & ->).
        { exists []. split; [|done]. rewrite app_nil_r. unfold stage in H. unfold mbind, flow_bind, note, await in H. cbn [fst snd] in H.
          destruct (dep_submit _ _ _ _ _) as [[? ?]|]; by injection H as _ <-. }
        by rewrite Hnew, !questions_app, Hall, Hnone. }
      split; [done|]. intros _. apply ready_Ok in Hready as (l & Hle & Ht2 & Hstale & _ & Hl & Hv & Hh & Hd & He). rewrite Ht1 in Hle, Hstale.
      cbn in Hle, Hstale. exists run, lifetime, deployment, l. split_and!; try done.
      * intros Hst. destruct (crossed_read _ _ _ _ Hhold Hst Hstale) as (Hlt & k & Hk & Hc). by exists k, atSubmission.
      * unfold stage, mbind, flow_bind, note, await in H. cbn [fst snd] in H.
        destruct (dep_submit _ _ _ _ _) as [[? ?]|]; injection H as _ <-; cbn; by rewrite Ht2.
      * intros proof ->. unfold stage in H. steps H. apply flow_bind_Ok in H as ([outcome remains] & ? & [Hs _]%await_Ok & [= <- _]).
        cbn in Hs. rewrite Ht2 in Hs. exists remains. split; [done|]. cbn. by rewrite (hw_reference _ _ Hhold).
    + pose proof (asks_ready _ _ _ _ H) as (_ & new & Hnew & [k Hk] & _). symmetry in Hk. apply app_nil in Hk as [Hk _].
      assert (questions t'.2 = [AskedBuild; AskedSignature]) as Hreq by (by rewrite Hnew, questions_app, Hall, Hk).
      rewrite Hreq. split; [by exists [AskedSubmission (hr_held run)]|]. intros Hin. exfalso. eapply no_submission, Hin. by rewrite Hreq.
  - apply asks_hold in H as (_ & new & Hnew & Hp & _). cbn [snd app] in Hnew. subst new. exists []. split.
    + etrans; [exact Hp|]. by exists [AskedSubmission []].
    + intros Hin. exfalso. by eapply no_submission, Hin.
Qed.
End ExecuteSpec.

(* ------------------------------------------------------------------ *)
(** ** A concrete run *)

#[local, refine] Instance zero_digest : Digest := {| digest := λ _, zeros 32 |}.
Proof. intros _. apply length_replicate. Defined.

(** The validator's clock five seconds before the activation 100, and past it
    from the ninth question on. *)
Definition sample_timing : ReceivedTiming := mkReceivedTiming PENDING_PHASE BEFORE_ACTIVATION BEFORE_ACTIVATION true.

Definition sample_dependencies : ActivationDependencies demo_exn unit string := {|
  dep_build _ := Ok tt;
  dep_attestPreSignSimulation _ _ := Ok (mkPreSign "presign-1" "message" sample_timing "LOCAL_COORDINATOR");
  dep_sign _ _ := Ok [x2a];
  dep_attestSignedAuthorization _ proofId wire :=
    Ok (mkSignedAttestation proofId (wireHash (hash := zero_digest) wire) "message" true sample_timing true "LOCAL_COORDINATOR");
  dep_attestDeployment _ stage := Ok (mkDeploymentAttestation stage "deployment" true);
  dep_clock n := Ok (mkClock 7 (if Nat.ltb n 9 then 95 else 101));
  dep_lifetime _ _ := Ok (mkLifetime true 1000 1150);
  dep_submit _ _ wire _ := Ok ("signature", wire);
|}.

Definition sample_flow : result demo_exn (ActivationProof (Prepared := unit) (Outcome := string)) * (nat * list asked) :=
  executeAcrossActivation (hash := zero_digest) PlainError sample_dependencies 100 true (0%nat, []).

Lemma executeAcrossActivation_sound_witness :
  questions (snd (snd sample_flow)) = [AskedBuild; AskedSignature; AskedSubmission [x2a]] ∧
  ∃ wire, questions (snd (snd sample_flow)) `prefix_of` [AskedBuild; AskedSignature; AskedSubmission wire].
Proof.
  split; [vm_compute; reflexivity|].
  destruct (executeAcrossActivation_sound (hash := zero_digest) PlainError sample_dependencies 100 true (fst sample_flow) (snd sample_flow)
    ltac:(vm_compute; reflexivity)) as (wire & H & _).
  exists wire. exact H.
Defined.
