(* ===== verification/ReplayModel.v ===== *)
(** * apps/phantom-local-feasibility/src/replay-model.ts: the recorded route for another trader

    The captured Jupiter build is retargeted to the local trader by replacing
    three account keys and counting the replacements; the recorded
    authorization becomes a guard expectation; the replay is approved one step
    at a time. *)

From S2P Require Import Prelude Js Errors Kit Base58 Abi OnChain Snapshot MintState Downstream Jupiter BuildClient CanonicalKey DemoChain.

Definition KOX_MINT : Address := "XsaBXg8dU5cPM6ehmVctMkVqoiRG2ZjMo1cyBJ3AykQ".
Definition ORIGINAL_TAKER : Address := "6ZuNEkQXE5WZzsmLH21sSmTXfff6iQKr6EtErcxxBxpy".
Definition ORIGINAL_USDC_ATA : Address := "Bze38ZNYkoKZXBWv7hGfqYkH4KBhAAmUkwPMNqNbzCRp".
Definition ORIGINAL_KOX_ATA : Address := "Cv8LSh7Udip71rxXVqyMKx7bY64ED6ToBE1fSeKGXPyv".

(** [counts]: authority, source and destination. *)
Record Replacements := mkCounts { rc_authority : Z; rc_sourceAta : Z; rc_destinationAta : Z }.

Record RetargetedBuild := mkRetargeted {
  rt_build : BuildResponse;
  rt_sourceAta : Address;
  rt_destinationAta : Address;
  rt_replacements : Replacements;
}.

Definition option_list {A} (o : option A) : list A := match o with Some a => [a] | None => [] end.

Definition allInstructions (build : BuildResponse) : list ApiInstruction :=
  br_computeBudgetInstructions build ++ br_setupInstructions build ++ [br_swapInstruction build] ++
  option_list (br_cleanupInstruction build) ++ br_otherInstructions build ++ option_list (br_tipInstruction build).

(** [[...new Set(l)]]: the first occurrences, in order. *)
Fixpoint first_occurrences (seen l : list string) : list string :=
  match l with
  | [] => []
  | x :: l => if bool_decide (x ∈ seen) then first_occurrences seen l else x :: first_occurrences (x :: seen) l
  end.

Definition requiredSignerAddresses (build : BuildResponse) : list string :=
  first_occurrences [] (flat_map (λ instruction, map am_pubkey (List.filter am_isSigner (ai_accounts instruction))) (allInstructions build)).

(** [mapping.get(key)]. *)
Definition Mapping : Type := list (string * string).
Definition mapping_get (mapping : Mapping) (key : string) : option string :=
  snd <$> List.find (λ entry, String.eqb entry.1 key) mapping.

(** The counters are an object the replacements share. *)
Definition replaceMeta (mapping : Mapping) (meta : ApiAccountMeta) (counts : Replacements) : ApiAccountMeta * Replacements :=
  match mapping_get mapping (am_pubkey meta) with
  | None | Some "" => (meta, counts)
  | Some replacement =>
      let key := am_pubkey meta in
      (mkApiMeta replacement (am_isSigner meta) (am_isWritable meta),
       if String.eqb key ORIGINAL_TAKER then mkCounts (rc_authority counts + 1) (rc_sourceAta counts) (rc_destinationAta counts)
       else if String.eqb key ORIGINAL_USDC_ATA then mkCounts (rc_authority counts) (rc_sourceAta counts + 1) (rc_destinationAta counts)
       else if String.eqb key ORIGINAL_KOX_ATA then mkCounts (rc_authority counts) (rc_sourceAta counts) (rc_destinationAta counts + 1)
       else counts)
  end.

(** [list.map(x => f(x, counts))]. *)
Fixpoint map_counting {A} (f : A → Replacements → A * Replacements) (l : list A) (counts : Replacements) : list A * Replacements :=
  match l with
  | [] => ([], counts)
  | x :: l => let '(y, counts) := f x counts in let '(k, counts) := map_counting f l counts in (y :: k, counts)
  end.

Definition replaceInstruction (mapping : Mapping) (instruction : ApiInstruction) (counts : Replacements) : ApiInstruction * Replacements :=
  let '(accounts, counts) := map_counting (replaceMeta mapping) (ai_accounts instruction) counts in
  (mkApiInstruction (ai_programId instruction) accounts (ai_data instruction), counts).

Definition replace_option (mapping : Mapping) (o : option ApiInstruction) (counts : Replacements) : option ApiInstruction * Replacements :=
  match o with
  | Some i => let '(i, counts) := replaceInstruction mapping i counts in (Some i, counts)
  | None => (None, counts)
  end.

(** The object literal of the retargeted build, its fields in order. *)
Definition replaceBuild (mapping : Mapping) (build : BuildResponse) (counts : Replacements) : BuildResponse * Replacements :=
  let '(computeBudget, counts) := map_counting (replaceInstruction mapping) (br_computeBudgetInstructions build) counts in
  let '(setup, counts) := map_counting (replaceInstruction mapping) (br_setupInstructions build) counts in
  let '(swap, counts) := replaceInstruction mapping (br_swapInstruction build) counts in
  let '(cleanup, counts) := replace_option mapping (br_cleanupInstruction build) counts in
  let '(other, counts) := map_counting (replaceInstruction mapping) (br_otherInstructions build) counts in
  let '(tip, counts) := replace_option mapping (br_tipInstruction build) counts in
  (mkBuild (br_inputMint build) (br_outputMint build) (br_inAmount build) (br_outAmount build) (br_otherAmountThreshold build)
     (br_swapMode build) (br_slippageBps build) (br_routePlan build) computeBudget setup swap cleanup other tip
     (br_addressesByLookupTableAddress build) (br_blockhash build) (br_lastValidBlockHeight build), counts).

Section Retarget.
  Context {address : AddressCodec} {derivation : ProgramDerivation}.

Definition ata_of (owner mint program : Address) : result demo_exn Address := map_err GuardThrown (canonicalAta owner mint program).

Definition retargetBuildForTrader (build : BuildResponse) (trader : Address) : result demo_exn RetargetedBuild :=
  fail_if (negb (String.eqb (String.concat "," (requiredSignerAddresses build)) ORIGINAL_TAKER))
    "M9D-C1 fixture signer model changed; refusing trader substitution";;
  originalSource ← ata_of ORIGINAL_TAKER USDC_MINT_ADDRESS LEGACY_TOKEN_PROGRAM_ADDRESS;
  originalDestination ← ata_of ORIGINAL_TAKER KOX_MINT TOKEN_2022_PROGRAM_ADDRESS;
  sourceAta ← ata_of trader USDC_MINT_ADDRESS LEGACY_TOKEN_PROGRAM_ADDRESS;
  destinationAta ← ata_of trader KOX_MINT TOKEN_2022_PROGRAM_ADDRESS;
  fail_if (negb (String.eqb originalSource ORIGINAL_USDC_ATA) || negb (String.eqb originalDestination ORIGINAL_KOX_ATA))
    "M9D-C1 user token accounts are not the expected canonical ATAs";;
  let mapping := [(ORIGINAL_TAKER, trader); (ORIGINAL_USDC_ATA, sourceAta); (ORIGINAL_KOX_ATA, destinationAta)] in
  let '(retargeted, counts) := replaceBuild mapping build (mkCounts 0 0 0) in
  fail_if (negb (rc_authority counts =? 4) || negb (rc_sourceAta counts =? 2) || negb (rc_destinationAta counts =? 3))
    ("M9D-C1 user-account layout changed: authority=" +:+ show_Z (rc_authority counts) +:+ ", source=" +:+ show_Z (rc_sourceAta counts)
     +:+ ", destination=" +:+ show_Z (rc_destinationAta counts));;
  fail_if (negb (String.eqb (String.concat "," (requiredSignerAddresses retargeted)) trader))
    "retargeted route requires a hidden or additional signer";;
  Ok (mkRetargeted retargeted sourceAta destinationAta counts).
End Retarget.

(* ------------------------------------------------------------------ *)
(** ** The recorded authorization *)

Record RecordedAuthorization := mkRecorded {
  ra_multiplierHex : string;
  ra_newMultiplierHex : string;
  ra_newMultiplierEffectiveTimestamp : string;
  ra_expectedPhase : jsnum;
  ra_window : ProtectionWindow;
}.

(** [/^[0-9a-f]{16}$/i]. *)
Definition is_hex16 (s : string) : bool :=
  Nat.eqb (String.length s) 16 && string_forallb (λ c, bool_decide (is_Some (unhex_digit c))) s.

Definition bytes8 (hex field : string) : result demo_exn bytes :=
  fail_if (negb (is_hex16 hex)) (field +:+ " is not eight bytes");;
  Ok (fromHex hex).

Section Recorded.
  (** [BigInt(s)], [None] when it throws. *)
  Variable bigInt : string → option Z.

Definition expectationFromRecordedAuthorization (value : RecordedAuthorization) : result demo_exn AssertSafeExecutionRequest :=
  fail_if (negb (num_is (ra_expectedPhase value) 0) && negb (num_is (ra_expectedPhase value) 1)) "recorded expectedPhase is unsupported";;
  multiplier ← bytes8 (ra_multiplierHex value) "multiplier";
  newMultiplier ← bytes8 (ra_newMultiplierHex value) "newMultiplier";
  timestamp ← of_option TypeThrown (bigInt (ra_newMultiplierEffectiveTimestamp value));
  Ok (mkRequest (mkProtectedState multiplier newMultiplier timestamp) (num_value (ra_expectedPhase value)) (ra_window value)).
End Recorded.

(* ------------------------------------------------------------------ *)
(** ** The steps of the replay *)

Inductive ReplayStep : Set := READY_SAFE | READY_STALE | STALE_REJECTED | REPLAY_COMPLETE.
Inductive ReplayKind : Set := RK_SAFE | RK_STALE | RK_REFRESHED.

Definition show_kind (kind : ReplayKind) : string := match kind with RK_SAFE => "SAFE" | RK_STALE => "STALE" | RK_REFRESHED => "REFRESHED" end.

Definition assertReplayApproval (step : ReplayStep) (kind : ReplayKind) : result demo_exn unit :=
  let allowed := match step, kind with
                 | READY_SAFE, RK_SAFE | READY_STALE, RK_STALE | STALE_REJECTED, RK_REFRESHED => true
                 | _, _ => false
                 end in
  fail_if (negb allowed) (show_kind kind +:+ " requires a separate approval at the correct replay step").

Definition nextReplayStep (step : ReplayStep) (kind : ReplayKind) : result demo_exn ReplayStep :=
  assertReplayApproval step kind;;
  Ok (match kind with RK_SAFE => READY_STALE | RK_STALE => STALE_REJECTED | RK_REFRESHED => REPLAY_COMPLETE end).

(** Approvals one after another. *)
Definition replay (step : ReplayStep) (kinds : list ReplayKind) : result demo_exn ReplayStep :=
  fold_left (λ step kind, step ← step; nextReplayStep step kind) kinds (Ok step).

(* ------------------------------------------------------------------ *)
(** ** What the replacement does *)

(** The key an account gets. *)
Definition renamed (mapping : Mapping) (key : string) : string :=
  match mapping_get mapping key with None | Some "" => key | Some replacement => replacement end.

Definition rename_meta (mapping : Mapping) (m : ApiAccountMeta) : ApiAccountMeta :=
  mkApiMeta (renamed mapping (am_pubkey m)) (am_isSigner m) (am_isWritable m).

Definition rename_instruction (mapping : Mapping) (i : ApiInstruction) : ApiInstruction :=
  mkApiInstruction (ai_programId i) (map (rename_meta mapping) (ai_accounts i)) (ai_data i).

(** The build with its account keys renamed and nothing else changed. *)
Definition rename_build (mapping : Mapping) (b : BuildResponse) : BuildResponse :=
  let f := rename_instruction mapping in
  mkBuild (br_inputMint b) (br_outputMint b) (br_inAmount b) (br_outAmount b) (br_otherAmountThreshold b) (br_swapMode b) (br_slippageBps b)
    (br_routePlan b) (map f (br_computeBudgetInstructions b)) (map f (br_setupInstructions b)) (f (br_swapInstruction b))
    (f <$> br_cleanupInstruction b) (map f (br_otherInstructions b)) (f <$> br_tipInstruction b)
    (br_addressesByLookupTableAddress b) (br_blockhash b) (br_lastValidBlockHeight b).

(** How many accounts of the instructions have this key. *)
Definition occurrences (key : string) (l : list ApiInstruction) : Z :=
  Z.of_nat (length (List.filter (λ m, String.eqb (am_pubkey m) key) (flat_map ai_accounts l))).

Definition plus_counts (a b : Replacements) : Replacements :=
  mkCounts (rc_authority a + rc_authority b) (rc_sourceAta a + rc_sourceAta b) (rc_destinationAta a + rc_destinationAta b).

Definition tally (l : list ApiInstruction) : Replacements :=
  mkCounts (occurrences ORIGINAL_TAKER l) (occurrences ORIGINAL_USDC_ATA l) (occurrences ORIGINAL_KOX_ATA l).

Lemma occurrences_app key l k : occurrences key (l ++ k) = occurrences key l + occurrences key k.
Proof. unfold occurrences. rewrite flat_map_app, List.filter_app, length_app. lia. Qed.

Lemma tally_app l k : tally (l ++ k) = plus_counts (tally l) (tally k).
Proof. unfold tally, plus_counts. cbn. by rewrite !occurrences_app. Qed.

Lemma plus_counts_assoc a b c : plus_counts (plus_counts a b) c = plus_counts a (plus_counts b c).
Proof. unfold plus_counts. cbn. f_equal; lia. Qed.

Lemma mapping_get_cons k v (m : Mapping) key : mapping_get ((k, v) :: m) key = if String.eqb key k then Some v else mapping_get m key.
Proof. unfold mapping_get. cbn [List.find fst]. rewrite String.eqb_sym. by destruct (String.eqb key k). Qed.

(** The three keys and their replacements, none of them empty. *)
Section Mapped.
  Variables (trader source destination : string).
  Context (Htrader : trader ≠ "") (Hsource : source ≠ "") (Hdestination : destination ≠ "").

  Abbreviation mapping := [(ORIGINAL_TAKER, trader); (ORIGINAL_USDC_ATA, source); (ORIGINAL_KOX_ATA, destination)].

Definition key_tally (key : string) : Replacements :=
  mkCounts (if String.eqb key ORIGINAL_TAKER then 1 else 0) (if String.eqb key ORIGINAL_USDC_ATA then 1 else 0)
    (if String.eqb key ORIGINAL_KOX_ATA then 1 else 0).

Lemma replaceMeta_spec m counts :
  replaceMeta mapping m counts = (rename_meta mapping m, plus_counts counts (key_tally (am_pubkey m))).
Proof.
  unfold replaceMeta, rename_meta, renamed, key_tally, plus_counts. rewrite !mapping_get_cons.
  destruct m as [key signer writable], counts as [x y z]. cbn [am_pubkey am_isSigner am_isWritable rc_authority rc_sourceAta rc_destinationAta].
  destruct (String.eqb_spec key ORIGINAL_TAKER) as [->|].
  { destruct trader; [done|]. f_equal. change (mkCounts (x + 1) y z = mkCounts (x + 1) (y + 0) (z + 0)). f_equal; lia. }
  destruct (String.eqb_spec key ORIGINAL_USDC_ATA) as [->|].
  { destruct source; [done|]. f_equal. change (mkCounts x (y + 1) z = mkCounts (x + 0) (y + 1) (z + 0)). f_equal; lia. }
  destruct (String.eqb_spec key ORIGINAL_KOX_ATA) as [->|].
  { destruct destination; [done|]. f_equal. change (mkCounts x y (z + 1) = mkCounts (x + 0) (y + 0) (z + 1)). f_equal; lia. }
  cbn. f_equal. f_equal; lia.
Qed.

Definition metas_tally (l : list ApiAccountMeta) : Replacements := foldr (λ m t, plus_counts (key_tally (am_pubkey m)) t) (mkCounts 0 0 0) l.

Lemma plus_counts_0 a : plus_counts a (mkCounts 0 0 0) = a.
Proof. destruct a. unfold plus_counts. cbn. f_equal; lia. Qed.

(** A counting map adds the tallies of its elements. *)
Lemma map_counting_spec {A} (f : A → Replacements → A * Replacements) (g : A → A) (t : A → Replacements) l counts :
  (∀ x c, f x c = (g x, plus_counts c (t x))) →
  map_counting f l counts = (map g l, plus_counts counts (foldr (λ x s, plus_counts (t x) s) (mkCounts 0 0 0) l)).
Proof.
  intros Hf. revert counts. induction l as [|x l IH]; intros counts; cbn; [by rewrite plus_counts_0|].
  by rewrite Hf, IH, plus_counts_assoc.
Qed.

Lemma metas_tally_spec i : metas_tally (ai_accounts i) = tally [i].
Proof.
  unfold tally, occurrences. cbn. rewrite app_nil_r. induction (ai_accounts i) as [|m l IH]; [done|].
  cbn [metas_tally foldr]. unfold metas_tally in IH. rewrite IH. unfold plus_counts, key_tally. cbn.
  destruct (String.eqb _ ORIGINAL_TAKER), (String.eqb _ ORIGINAL_USDC_ATA), (String.eqb _ ORIGINAL_KOX_ATA); cbn [length]; f_equal; lia.
Qed.

Lemma replaceInstruction_spec i counts :
  replaceInstruction mapping i counts = (rename_instruction mapping i, plus_counts counts (tally [i])).
Proof.
  unfold replaceInstruction. rewrite (map_counting_spec _ (rename_meta mapping) (λ m, key_tally (am_pubkey m))) by apply replaceMeta_spec.
  by rewrite <- metas_tally_spec.
Qed.

Lemma replaceInstructions_spec l counts :
  map_counting (replaceInstruction mapping) l counts = (map (rename_instruction mapping) l, plus_counts counts (tally l)).
Proof.
  rewrite (map_counting_spec _ (rename_instruction mapping) (λ i, tally [i])) by apply replaceInstruction_spec.
  f_equal. f_equal. induction l as [|i l IH]; [done|]. cbn [foldr]. rewrite IH. symmetry. apply (tally_app [i] l).
Qed.

Lemma replace_option_spec o counts :
  replace_option mapping o counts = (rename_instruction mapping <$> o, plus_counts counts (tally (option_list o))).
Proof. destruct o as [i|]; cbn; [by rewrite replaceInstruction_spec|]. by rewrite plus_counts_0. Qed.

Lemma replaceBuild_spec build counts :
  replaceBuild mapping build counts = (rename_build mapping build, plus_counts counts (tally (allInstructions build))).
Proof.
  unfold replaceBuild, allInstructions. rewrite replaceInstructions_spec, replaceInstructions_spec, replaceInstruction_spec, replace_option_spec,
    replaceInstructions_spec, replace_option_spec.
  by rewrite !tally_app, <- !plus_counts_assoc.
Qed.
End Mapped.

Section RetargetSpec.
  Context {address : AddressCodec} {derivation : ProgramDerivation}.

(** A retargeted build is the captured one with the original taker and its
    two canonical token accounts replaced by the trader and the trader's, at
    the four, two and three places they occur, and not one byte of data, one
    program, one flag or one other account changed; the trader alone signs it. *)
Theorem retarget_exact build trader r (Hempty : encodeAddress "" = None) (Hderived : ∀ p s, programDerivedAddress p s ≠ Some "") :
  retargetBuildForTrader build trader = Ok r →
  ata_of ORIGINAL_TAKER USDC_MINT_ADDRESS LEGACY_TOKEN_PROGRAM_ADDRESS = Ok ORIGINAL_USDC_ATA ∧
  ata_of ORIGINAL_TAKER KOX_MINT TOKEN_2022_PROGRAM_ADDRESS = Ok ORIGINAL_KOX_ATA ∧
  ata_of trader USDC_MINT_ADDRESS LEGACY_TOKEN_PROGRAM_ADDRESS = Ok (rt_sourceAta r) ∧
  ata_of trader KOX_MINT TOKEN_2022_PROGRAM_ADDRESS = Ok (rt_destinationAta r) ∧
  rt_build r = rename_build [(ORIGINAL_TAKER, trader); (ORIGINAL_USDC_ATA, rt_sourceAta r); (ORIGINAL_KOX_ATA, rt_destinationAta r)] build ∧
  String.concat "," (requiredSignerAddresses build) = ORIGINAL_TAKER ∧ String.concat "," (requiredSignerAddresses (rt_build r)) = trader ∧
  tally (allInstructions build) = mkCounts 4 2 3 ∧ rt_replacements r = mkCounts 4 2 3.
Proof.
  assert (∀ o m p a, ata_of o m p = Ok a → o ≠ "" ∧ a ≠ "") as Hata.
  { intros o m p a H. unfold ata_of, canonicalAta in H. apply map_err_Ok in H. apply bind_Ok in H as (k & Hk & H).
    apply bind_Ok in H as (k2 & _ & H). apply bind_Ok in H as (k3 & _ & H%of_option_Ok). split.
    - intros ->. unfold addressBytes in Hk. by rewrite Hempty in Hk.
    - intros ->. by apply Hderived in H. }
  unfold retargetBuildForTrader. intros [Hsig H]%fail_if_then_Ok.
  apply bind_Ok in H as (os & Hos & H). apply bind_Ok in H as (od & Hod & H). apply bind_Ok in H as (s & Hs & H).
  apply bind_Ok in H as (d & Hd & H). apply fail_if_then_Ok in H as [Ho H].
  destruct (Hata _ _ _ _ Hs) as [Ht Hsn], (Hata _ _ _ _ Hd) as [_ Hdn]. rewrite replaceBuild_spec in H by assumption. clear Ht Hsn Hdn.
  apply fail_if_then_Ok in H as [Hc H]. apply fail_if_then_Ok in H as [Hsig' [= <-]]. cbn [rt_build rt_sourceAta rt_destinationAta rt_replacements].
  rewrite !orb_false_iff, !negb_false_iff, !Z.eqb_eq in Hc. rewrite orb_false_iff, !negb_false_iff, !String.eqb_eq in Ho.
  destruct Ho as [-> ->]. apply negb_false_iff, String.eqb_eq in Hsig, Hsig'.
  assert (tally (allInstructions build) = mkCounts 4 2 3) as Ht.
  { unfold plus_counts in Hc. destruct (tally _) as [x y z]. cbn in Hc. f_equal; lia. }
  rewrite Ht. by split_and!.
Qed.
End RetargetSpec.

(** The approvals of a replay are SAFE, STALE and REFRESHED, in this order
    and each once. *)
Theorem replay_order kinds : (∃ step, replay READY_SAFE kinds = Ok step) ↔ kinds `prefix_of` [RK_SAFE; RK_STALE; RK_REFRESHED].
Proof.
  assert (∀ e l, fold_left (λ step kind, step ← step; nextReplayStep step kind) l (Err e) = Err e) as Herr.
  { intros e l. induction l as [|k l IH]; [done|]. cbn. apply IH. }
  split.
  - unfold replay. intros [step H].
    destruct kinds as [|[] [|[] [|[] [|[] kinds]]]]; cbn in H; rewrite ?Herr in H; try discriminate H;
      first [by exists [RK_SAFE; RK_STALE; RK_REFRESHED] | by exists [RK_STALE; RK_REFRESHED] | by exists [RK_REFRESHED] | by exists []].
  - intros [k Hk]. destruct kinds as [|a [|b [|c [|d kinds]]]]; simplify_eq/=.
    + by exists READY_SAFE.
    + by exists READY_STALE.
    + by exists STALE_REJECTED.
    + by exists REPLAY_COMPLETE.
Qed.

(* ------------------------------------------------------------------ *)
(** ** A concrete route *)

Definition replay_trader : Address := "SysvarC1ock11111111111111111111111111111111".

(** Derived addresses of the original taker and of anyone else. *)
Definition replay_derived (original usdc : bool) : Address :=
  if usdc then if original then ORIGINAL_USDC_ATA else "source" else if original then ORIGINAL_KOX_ATA else "destination".

Lemma replay_derived_nonempty original usdc : Some (replay_derived original usdc) ≠ Some "".
Proof. by destruct original, usdc. Qed.

#[local] Instance replay_derivation : ProgramDerivation := {|
  programDerivedAddress _ seeds :=
    match seeds with
    | [owner; _; mint] =>
        Some (replay_derived (bool_decide (Some owner = encodeAddress ORIGINAL_TAKER)) (bool_decide (Some mint = encodeAddress USDC_MINT_ADDRESS)))
    | _ => None
    end;
|}.

Definition replay_instruction : ApiInstruction :=
  let meta key signer := mkApiMeta key signer true in
  mkApiInstruction JUPITER_V6_PROGRAM_ADDRESS
    (replicate 4 (meta ORIGINAL_TAKER true) ++ replicate 2 (meta ORIGINAL_USDC_ATA false) ++ replicate 3 (meta ORIGINAL_KOX_ATA false) ++
     [meta KOX_MINT false]) "AQID".

Definition replay_build : BuildResponse :=
  mkBuild USDC_MINT_ADDRESS KOX_MINT "5000000" "5504261" "5449218" "ExactIn" (NumInt 100) [] [] [] replay_instruction None [] None [] [] (NumInt 1000).

Definition replay_retargeted : result demo_exn RetargetedBuild := Eval vm_compute in retargetBuildForTrader replay_build replay_trader.

Lemma retarget_exact_witness : ∃ r, replay_retargeted = Ok r ∧ rt_replacements r = mkCounts 4 2 3.
Proof.
  eexists. split; [reflexivity|].
  refine (proj2 (proj2 (proj2 (proj2 (proj2 (proj2 (proj2 (proj2 (retarget_exact replay_build replay_trader _ _ _ _)))))))));
    [vm_compute; reflexivity| |vm_compute; reflexivity].
  intros p seeds. unfold programDerivedAddress, replay_derivation.
  destruct seeds as [|a [|b [|c [|d l]]]]; [intros [=]..| |intros [=]]. apply replay_derived_nonempty.
Defined.
