(* ===== verification/LocalMint.v ===== *)
(** * apps/phantom-local-feasibility/server/local-mint.ts: the mint of the local validator

    The captured mint with the setup authority and a parked activation written
    into its ScaledUiAmount configuration, and the proof that a decoder sees
    nothing else change. *)

From S2P Require Import Prelude Js Errors Kit Base58 Abi OnChain MintState DemoChain.

(** [bytes.set(src, i)] and the setters of a [DataView], which throw out of range. *)
Definition write_at (out : bytes) (i : nat) (src : bytes) : result demo_exn bytes :=
  throw_if (Nat.ltb (length out) (i + length src)) (GuardThrown RangeErr);;
  Ok (set_bytes out i src).

Section Derive.
  Context {address : AddressCodec}.
  Variable authority : Address.
  Variable parkedT : Z.

(** The [for] loop; [bytes] is written only when it returns. *)
Fixpoint scanLocalMint (fuel : nat) (bytes : bytes) (offset : nat) : result demo_exn Prelude.bytes :=
  let missing := Err (PlainError "Captured mint has no valid ScaledUiAmount configuration") in
  match fuel with
  | O => Err LoopUnfinished
  | S fuel =>
      if Nat.leb (offset + 4) (length bytes) then
        type ← of_option (GuardThrown RangeErr) (get_uint 2 bytes offset);
        size ← of_option (GuardThrown RangeErr) (get_uint 2 bytes (offset + 2));
        if (type =? 25) && (size =? 56) then
          key ← of_option TypeThrown (encodeAddress authority);
          bytes ← write_at bytes (offset + 4) key;
          write_at bytes (offset + 44) (le_bytes 8 parkedT)
        else if (type =? 0) || Nat.ltb (length bytes) (offset + 4 + Z.to_nat size) then missing
        else scanLocalMint fuel bytes (offset + 4 + Z.to_nat size)
      else missing
  end.

(** Every round moves at least four bytes on. *)
Definition deriveLocalMint (source : bytes) : result demo_exn bytes :=
  map_err GuardThrown (decodeProtectedState TOKEN_2022_PROGRAM_ADDRESS source);;
  scanLocalMint (S (length source)) source 166.
End Derive.

(* ------------------------------------------------------------------ *)
(** ** What it changes *)

Lemma set_bytes_inside (l value k s : bytes) i : (i + length s ≤ length value)%nat →
  set_bytes (l ++ value ++ k) (length l + i) s = l ++ set_bytes value i s ++ k.
Proof.
  intros Hi. unfold set_bytes. rewrite take_app_add, take_app_le by lia. rewrite <- !app_assoc. f_equal. f_equal. f_equal.
  rewrite <- Nat.add_assoc, drop_app_add, drop_app_le by lia. done.
Qed.

(** The configuration with another authority and another activation. *)
Lemma set_scaled_config (old key : bytes) s T : length old = 32%nat → length key = 32%nat →
  length (multiplier s) = 8%nat →
  set_bytes (set_bytes (scaled_config old s) 0 key) 40 (le_bytes 8 T) =
  scaled_config key (mkProtectedState (multiplier s) (newMultiplier s) T).
Proof.
  intros Ho Hk Hm. unfold scaled_config. cbn [multiplier newMultiplier newMultiplierEffectiveTimestamp].
  change (old ++ ?k) with ([] ++ old ++ k). rewrite (set_bytes_app [] old) by (cbn; lia). cbn [app].
  rewrite (app_assoc key), set_bytes_app; [by rewrite <- app_assoc|rewrite length_app; lia|by rewrite !length_le_bytes].
Qed.

(** The state a decoder reads back: the timestamp wraps as [setBigInt64] writes it. *)
Definition parked_state (s : ProtectedState) (T : Z) : ProtectedState :=
  mkProtectedState (multiplier s) (newMultiplier s) (to_signed 8 (le_Z (le_bytes 8 T))).

Lemma scaled_config_parked key s T :
  scaled_config key (mkProtectedState (multiplier s) (newMultiplier s) T) = scaled_config key (parked_state s T).
Proof.
  unfold scaled_config, parked_state. cbn [multiplier newMultiplier newMultiplierEffectiveTimestamp].
  rewrite <- (le_bytes_to_signed (le_bytes 8 T)); [done|apply length_le_bytes].
Qed.

(** The items with the configuration replaced. *)
Definition park_item (key : bytes) (s : ProtectedState) (T : Z) (item : tlv_item) : tlv_item :=
  if item.1 =? ScaledUiAmount then (item.1, scaled_config key (parked_state s T)) else item.

Section Scan.
  Context {address : AddressCodec}.
  Variables (authority : Address) (parkedT : Z) (key old : bytes) (s : ProtectedState).
  Hypothesis Hkey : encodeAddress authority = Some key.
  Hypothesis Hold : length old = 32%nat.
  Hypothesis Hmul : length (multiplier s) = 8%nat.
  Hypothesis Hnew : length (newMultiplier s) = 8%nat.

Let parked : bytes := scaled_config key (parked_state s parkedT).

Lemma length_parked : length (scaled_config old s) = 56%nat ∧ length parked = 56%nat.
Proof.
  pose proof (length_encodeAddress _ _ Hkey). subst parked. unfold scaled_config. rewrite !length_app, !length_le_bytes. cbn. lia.
Qed.

Lemma scan_items items fuel front rest offset : length front = offset →
  Forall wf_item items → NoDup (map fst items) → (ScaledUiAmount, scaled_config old s) ∈ items →
  (length (print_items items) < fuel)%nat →
  ∃ items1 items2, items = items1 ++ (ScaledUiAmount, scaled_config old s) :: items2 ∧ (ScaledUiAmount ∉ map fst (items1 ++ items2)) ∧
    scanLocalMint authority parkedT fuel (front ++ print_items items ++ rest) offset =
    Ok (front ++ print_items (items1 ++ (ScaledUiAmount, parked) :: items2) ++ rest).
Proof.
  destruct length_parked as [Hlen Hplen].
  revert fuel front offset. induction items as [|[type value] items IH]; intros fuel front offset <- Hwf Hnd Hin Hfuel.
  { by apply not_elem_of_nil in Hin. }
  destruct fuel as [|fuel]; [lia|]. apply Forall_cons in Hwf as [[Htype Hsize] Hwf]. cbn [fst snd] in Htype, Hsize.
  apply NoDup_cons in Hnd as [Hnotin Hnd].
  unfold print_items in Hfuel. cbn [map concat] in Hfuel. fold (print_items items) in Hfuel.
  rewrite length_app, length_print_item in Hfuel. cbn [snd] in Hfuel.
  set (data := front ++ print_items ((type, value) :: items) ++ rest).
  assert (data = front ++ le_bytes 2 type ++ le_bytes 2 (Z.of_nat (length value)) ++ value ++ print_items items ++ rest) as Hdata.
  { subst data. unfold print_items. cbn [map concat]. unfold print_item at 1. cbn [fst snd]. by rewrite <- !app_assoc. }
  assert (length data = length front + 4 + length value + length (print_items items) + length rest)%nat as Hdlen.
  { rewrite Hdata, !length_app, !length_le_bytes. lia. }
  cbn [scanLocalMint]. rewrite (proj2 (Nat.leb_le _ _)) by lia.
  unfold MaxKnown in Htype.
  rewrite (get_uint_drop 2 data (length front)), (get_uint_drop 2 data (length front + 2)), Hdata by lia.
  rewrite drop_app_length, get_uint_small by lia. cbn [of_option mbind result_bind].
  rewrite drop_app_add, drop_app_length' by by rewrite length_le_bytes.
  rewrite get_uint_small by lia. cbn [of_option mbind result_bind]. rewrite <- Hdata, Nat2Z.id.
  destruct (decide (type = ScaledUiAmount)) as [->|Hne].
  - assert (value = scaled_config old s) as ->.
    { apply elem_of_cons in Hin as [[= <-]|Hin]; [done|]. exfalso. apply Hnotin. change (ScaledUiAmount ∈ map fst items). apply list_elem_of_fmap. by exists (ScaledUiAmount, scaled_config old s). }
    exists [], items. split; [done|]. split; [done|]. change (ScaledUiAmount =? 25) with true. rewrite Hlen. cbn [andb Z.eqb].
    change (Z.of_nat 56 =? 56) with true. cbn [andb]. rewrite Hkey. cbn [of_option mbind result_bind].
    pose proof (length_encodeAddress _ _ Hkey) as Hk32.
    set (header := le_bytes 2 ScaledUiAmount ++ le_bytes 2 (Z.of_nat (length (scaled_config old s)))).
    assert (length (front ++ header) = length front + 4)%nat as Hh by (subst header; rewrite !length_app, !length_le_bytes; lia).
    assert (data = (front ++ header) ++ scaled_config old s ++ print_items items ++ rest) as Hd by (subst header; by rewrite Hdata, <- !app_assoc).
    unfold write_at. rewrite (proj2 (Nat.ltb_ge _ _)) by (rewrite Hk32; lia). cbn [throw_if mbind result_bind].
    rewrite Hd. rewrite <- (Nat.add_0_r (length front + 4)), <- Hh, set_bytes_inside by lia.
    assert (length (set_bytes (scaled_config old s) 0 key) = 56)%nat as Hs by (rewrite length_set_bytes; lia).
    replace (length front + 44)%nat with (length (front ++ header) + 40)%nat by lia.
    rewrite (proj2 (Nat.ltb_ge _ _)) by (rewrite !length_app, Hs, !length_le_bytes; lia). cbn [throw_if mbind result_bind].
    rewrite set_bytes_inside by (rewrite Hs, length_le_bytes; lia).
    rewrite set_scaled_config, scaled_config_parked by done. f_equal.
    subst header. unfold print_items. cbn [app map concat]. unfold print_item at 2. cbn [fst snd]. rewrite Hlen, Hplen.
    by rewrite <- !app_assoc.
  - assert ((type =? 25) && (Z.of_nat (length value) =? 56) = false) as -> by (unfold ScaledUiAmount in Hne; lia).
    assert ((type =? 0) || Nat.ltb (length data) (length front + 4 + length value) = false) as ->.
    { apply orb_false_iff. split; [lia|]. apply Nat.ltb_ge. lia. }
    apply elem_of_cons in Hin as [[= <-]|Hin]; [done|].
    destruct (IH fuel (front ++ print_item (type, value)) (length front + 4 + length value)%nat) as (items1 & items2 & -> & Hno & Hscan); try done.
    { rewrite length_app, length_print_item. cbn. lia. }
    { lia. }
    exists ((type, value) :: items1), items2. split; [done|]. split.
    { cbn [app map fst]. apply not_elem_of_cons. by split. }
    subst data. unfold print_items at 1. cbn [map concat]. fold (print_items (items1 ++ (ScaledUiAmount, scaled_config old s) :: items2)).
    rewrite <- !app_assoc in Hscan. rewrite <- !app_assoc. rewrite Hscan. f_equal. f_equal.
    unfold print_items at 2. cbn [app map concat]. by rewrite <- app_assoc.
Qed.
End Scan.

(* ------------------------------------------------------------------ *)
(** ** What the decoders see *)

(** Two accounts with the same base and one value of the same length replaced. *)
Section Replaced.
  Variables (base rest v w : bytes) (type : Z) (items1 items2 : list tlv_item).
  Hypothesis Hbase : length base = 82%nat.
  Hypothesis Hlength : length v = length w.

Let with_value (v : bytes) : list tlv_item := items1 ++ (type, v) :: items2.
Let account (v : bytes) : bytes := base ++ zeros 83 ++ [x01] ++ print_items (with_value v) ++ rest.

Lemma replaced_types : map fst (with_value v) = map fst (with_value w).
Proof. subst with_value. cbn beta. by rewrite !map_app. Qed.

Lemma replaced_length : length (account v) = length (account w).
Proof.
  subst account with_value. cbn beta. unfold print_items. rewrite !map_app, !concat_app, !length_app. cbn [map concat].
  rewrite !length_app, !length_print_item. cbn [snd]. lia.
Qed.

Lemma replaced_entries offset : entries_from offset (with_value v) = entries_from offset (with_value w).
Proof.
  subst with_value. cbn beta. revert offset. induction items1 as [|[t u] items IH]; intros offset; cbn [app entries_from].
  - by rewrite Hlength.
  - by rewrite IH.
Qed.

Lemma replaced_base : base_mint (account v) → base_mint (account w).
Proof.
  intros [Hlen Hmint Hfreeze Hinit]. unfold byte_at in Hinit. split.
  - by rewrite <- replaced_length.
  - revert Hmint. subst account. cbn beta. unfold get_uint. rewrite !length_app, Hbase, !drop_0, !take_app_le by lia.
    by rewrite !(proj2 (Nat.leb_le _ _)) by lia.
  - revert Hfreeze. subst account. cbn beta. unfold get_uint. rewrite !length_app, Hbase, !drop_app_le, !take_app_le by (rewrite ?length_drop; lia).
    by rewrite !(proj2 (Nat.leb_le _ _)) by lia.
  - subst account. cbn beta in *. unfold byte_at. rewrite lookup_app_l in * by lia. done.
Qed.

Lemma replaced_layout : mint_layout (account v) (with_value v) → Z.of_nat (length w) < 2 ^ 16 → mint_layout (account w) (with_value w).
Proof.
  intros (base' & rest' & Hb' & Heq & Hwf & Hnd & Hend) Hw. exists base, rest. split; [done|]. split; [done|].
  assert (rest' = rest) as ->.
  { subst account. cbn beta in Heq. apply app_inj_1 in Heq as [_ Heq]; [|lia]. by apply app_inv_head, app_inv_head, app_inv_head in Heq. }
  split; [|split; [by rewrite <- replaced_types|done]].
  subst with_value. cbn beta in *. rewrite !Forall_app, !Forall_cons in *. destruct Hwf as (? & [? ?] & ?). done.
Qed.
End Replaced.

Section DeriveSpec.
  Context {address : AddressCodec}.

Lemma parse_layout data items : base_mint data → mint_layout data items →
  parseMintAccount TOKEN_2022_PROGRAM_ADDRESS data = Ok (entries_from 166 items).
Proof.
  intros Hb Hl. apply parseMintAccount_Ok. split; [done|]. split; [done|]. right. split; [by eapply mint_layout_length|eauto].
Qed.

(** Two layouts with the same entries in which every value that is not the
    ScaledUiAmount configuration is the same: one Pausable flag. *)
Lemma metadata_same data data' items items' : base_mint data → base_mint data' → mint_layout data items → mint_layout data' items' →
  entries_from 166 items = entries_from 166 items' → byte_at data 44 = byte_at data' 44 →
  (∀ value value', (Pausable, value) ∈ items → (Pausable, value') ∈ items' → value = value') →
  decodeMintMetadata TOKEN_2022_PROGRAM_ADDRESS data = decodeMintMetadata TOKEN_2022_PROGRAM_ADDRESS data'.
Proof.
  intros Hb Hb' Hl Hl' He Hd Hsame. unfold decodeMintMetadata. unfold MINT_DECIMALS_OFFSET.
  rewrite (parse_layout _ _ Hb Hl), (parse_layout _ _ Hb' Hl'), <- He, <- Hd. cbn [mbind result_bind].
  destruct (byte_at data 44) as [d|]; [|done].
  pose proof (find_type_layout data items Pausable Hl) as Hf. pose proof (find_type_layout data' items' Pausable Hl') as Hf'.
  rewrite <- He in Hf'. destruct (find_type _ _) as [entry|]; [|done].
  destruct Hf as (value & k & Hin & Hlen & Hdrop), Hf' as (value' & k' & Hin' & _ & Hdrop').
  rewrite <- (Hsame _ _ Hin Hin') in Hdrop'.
  unfold PAUSABLE_CONFIG_LEN, PAUSED_OFFSET. destruct (Nat.eqb_spec (tlv_length entry) 33) as [H33|]; [|done]. cbn [negb].
  assert (∀ (l : bytes) k, drop (valueOffset entry) l = value ++ k → byte_at l (valueOffset entry + 32) = byte_at value 32) as Hat.
  { intros l tail Hl0. unfold byte_at. rewrite <- lookup_drop, Hl0, lookup_app_l by lia. done. }
  by rewrite (Hat _ _ Hdrop), (Hat _ _ Hdrop').
Qed.

(** A captured mint that decodes is derived into one in which 40 bytes
    change, the configuration's authority and its activation: a decoder reads
    the same multipliers with the parked activation (written modulo 2^64) and
    the same metadata. *)
Theorem deriveLocalMint_spec source authority parkedT key s :
  decodeProtectedState TOKEN_2022_PROGRAM_ADDRESS source = Ok s → encodeAddress authority = Some key →
  ∃ derived before old after, deriveLocalMint authority parkedT source = Ok derived ∧ length old = 32%nat ∧
    source = before ++ old ++ multiplier s ++ le_bytes 8 (newMultiplierEffectiveTimestamp s) ++ newMultiplier s ++ after ∧
    derived = before ++ key ++ multiplier s ++ le_bytes 8 parkedT ++ newMultiplier s ++ after ∧
    decodeProtectedState TOKEN_2022_PROGRAM_ADDRESS derived = Ok (parked_state s parkedT) ∧
    decodeMintMetadata TOKEN_2022_PROGRAM_ADDRESS derived = decodeMintMetadata TOKEN_2022_PROGRAM_ADDRESS source.
Proof.
  intros Hs Hkey. pose proof (length_encodeAddress _ _ Hkey) as Hk32.
  pose proof Hs as [_ (Hbase & items & old & Hlay & Hin & Hold & Hm & Hn & Ht & Hcomb)]%decodeProtectedState_sound.
  pose proof (isValidStoredMultiplier_length _ Hm) as Hm8. pose proof (isValidStoredMultiplier_length _ Hn) as Hn8.
  pose proof Hlay as (base & rest & Hb & Hsource & Hwf & Hnd & Hend).
  destruct (scan_items authority parkedT key old s Hkey Hold Hm8 Hn8 items (S (length source)) (base ++ zeros 83 ++ [x01]) rest 166)
    as (items1 & items2 & -> & Hno & Hscan); try done.
  { rewrite !length_app, Hb. done. }
  { rewrite Hsource, !length_app. lia. }
  rewrite <- !app_assoc, <- Hsource in Hscan.
  set (config := scaled_config key (parked_state s parkedT)) in *.
  destruct (length_parked authority parkedT key old s Hkey Hold Hm8 Hn8) as [Hl1 Hl2].
  assert (length (scaled_config old s) = length config) as Hlength by (subst config; lia).
  set (derived := base ++ zeros 83 ++ [x01] ++ print_items (items1 ++ (ScaledUiAmount, config) :: items2) ++ rest) in *.
  assert (mint_layout derived (items1 ++ (ScaledUiAmount, config) :: items2)) as Hlay'.
  { rewrite Hsource in Hlay. apply (replaced_layout base rest (scaled_config old s) config); try done. rewrite <- Hlength, Hl1. done. }
  assert (base_mint derived) as Hbase'.
  { rewrite Hsource in Hbase. by apply (replaced_base base rest (scaled_config old s) config) in Hbase. }
  set (front := base ++ zeros 83 ++ [x01] ++ print_items items1 ++ le_bytes 2 ScaledUiAmount ++ le_bytes 2 56).
  assert (∀ v, length v = 56%nat → base ++ zeros 83 ++ [x01] ++ print_items (items1 ++ (ScaledUiAmount, v) :: items2) ++ rest =
            front ++ v ++ print_items items2 ++ rest) as Hshape.
  { intros v Hv. subst front. unfold print_items. rewrite map_app, concat_app. cbn [map concat]. unfold print_item at 2. cbn [fst snd].
    rewrite Hv. by rewrite <- !app_assoc. }
  exists derived, front, old, (print_items items2 ++ rest).
  split; [|split; [done|split; [|split; [|split]]]].
  - unfold deriveLocalMint. by rewrite Hs.
  - rewrite Hsource, Hshape by done. unfold scaled_config. by rewrite <- !app_assoc.
  - subst derived. rewrite Hshape by done. subst config. rewrite <- scaled_config_parked. unfold scaled_config. by rewrite <- !app_assoc.
  - apply decodeProtectedState_complete. split; [done|]. exists (items1 ++ (ScaledUiAmount, config) :: items2), key.
    split; [done|]. split; [apply elem_of_app; right; by apply elem_of_cons; left|].
    repeat (split; [done|]). split.
    { apply to_signed_i64, length_le_bytes. }
    by rewrite <- (replaced_types (scaled_config old s) config).
  - symmetry. apply (metadata_same _ _ _ _ Hbase Hbase' Hlay Hlay').
    + by apply replaced_entries.
    + rewrite Hsource. subst derived. unfold byte_at. by rewrite !lookup_app_l by lia.
    + destruct Hlay' as (? & ? & ? & ? & ? & Hnd' & ?). intros value value' Hv Hv'.
      apply (assoc_unique (items1 ++ (ScaledUiAmount, config) :: items2) Pausable); [done| |done].
      apply elem_of_app in Hv as [Hv|[Hv|Hv]%elem_of_cons]; [apply elem_of_app; by left|done|].
      apply elem_of_app. right. apply elem_of_cons. by right.
Qed.

(** What does not decode is refused with the decoder's error. *)
Lemma deriveLocalMint_refuses source authority parkedT e :
  decodeProtectedState TOKEN_2022_PROGRAM_ADDRESS source = Err e → deriveLocalMint authority parkedT source = Err (GuardThrown e).
Proof. intros H. unfold deriveLocalMint. by rewrite H. Qed.
End DeriveSpec.

Lemma deriveLocalMint_spec_witness :
  ∃ derived, deriveLocalMint TOKEN_2022_PROGRAM_ADDRESS 1789000000 sample_mint_account = Ok derived ∧
    decodeProtectedState TOKEN_2022_PROGRAM_ADDRESS derived = Ok (parked_state sample_state 1789000000).
Proof.
  destruct (deriveLocalMint_spec sample_mint_account TOKEN_2022_PROGRAM_ADDRESS 1789000000
    (default [] (encodeAddress TOKEN_2022_PROGRAM_ADDRESS)) sample_state) as (derived & before & old & after & H & _ & _ & _ & H' & _);
    [vm_compute; reflexivity|vm_compute; reflexivity|].
  exists derived. split; [exact H|exact H'].
Defined.
