(* ===== verification/LocalFunding.v ===== *)
(** * apps/phantom-local-feasibility/src/local-funding.ts: the amounts of the study and their display

    The accounts and amounts the local validator is seeded with, and the texts
    shown for raw amounts, which are exact to the last decimal for KOx and cut
    after two decimals for USDC. *)

From S2P Require Import Prelude Js Errors Kit Abi Normalize BuildClient Compose ReplayModel.

Definition EXPECTED_PHANTOM : Address := "CBquXGAiR8StFU3HvPNuwyNwmrkY3yNGwL9bjZvVLb4X".
Definition EXPECTED_PHANTOM_USDC_ATA : Address := "7xd18PpPsvi8CmmP5Xr6rVQ63jUeQ2CqJ7i4yqZzmok9".
Definition EXPECTED_PHANTOM_KOX_ATA : Address := "AnrbNfooXzzthu4kndCspVEEMo14wn8VQYJC6kFqonVj".
Definition USDC_DECIMALS : nat := 6.
Definition KOX_DECIMALS : nat := 8.
Definition EXPECTED_IN_AMOUNT : Z := 5000000.
Definition EXPECTED_OUT_AMOUNT : Z := 5504261.
Definition EXPECTED_USDC_BASELINE : Z := 5000000.
Definition EXPECTED_KOX_BASELINE : Z := 0.
Definition STALE_AUTHORIZATION_SOURCE : string := "SEALED_SEP_15_PRE_ACTIVATION_OBSERVATION".
Definition REFRESHED_AUTHORIZATION_SOURCE : string := "SEALED_SEP_15_POST_ACTIVATION_OBSERVATION".

#[export] Instance ReplayKind_eq_dec : EqDecision ReplayKind.
Proof. solve_decision. Defined.

Definition skipPreflightAllowed (kind : ReplayKind) : bool := bool_decide (kind = RK_STALE).

Definition formatRawAmount (raw : Z) (decimals : nat) : string :=
  let negative := raw <? 0 in
  let value := if negative then - raw else raw in
  let scale := 10 ^ Z.of_nat decimals in
  (if negative then "-" else "") +:+ show_Z (Z.quot value scale) +:+ "." +:+ padStart0 decimals (show_Z (Z.rem value scale)).

(** [s.split(".")]: the text before the first dot, and the text after it up to
    the next one. *)
Fixpoint before_dot (s : string) : string :=
  match s with "" => "" | String c s => if Nat.eqb (Ascii.nat_of_ascii c) 46 then "" else String c (before_dot s) end.

Fixpoint after_dot (s : string) : option string :=
  match s with "" => None | String c s => if Nat.eqb (Ascii.nat_of_ascii c) 46 then Some (before_dot s) else after_dot s end.

(** [s.padEnd(n, "0").slice(0, n)]. *)
Definition padEnd0_slice (n : nat) (s : string) : string :=
  String.substring 0 n (s +:+ String.concat "" (replicate (n - String.length s) "0")).

Definition formatUsdc (raw : Z) : string :=
  let text := formatRawAmount raw USDC_DECIMALS in
  before_dot text +:+ "." +:+ padEnd0_slice 2 (after_dot text ?? "").

Definition formatKox (raw : Z) : string := formatRawAmount raw KOX_DECIMALS.

(* ------------------------------------------------------------------ *)
(** ** Decimal texts *)

Definition digits (s : string) : bool := string_forallb is_digit s.

Lemma local_digit_value c : is_digit c = true → 0 ≤ Z.of_nat (Ascii.nat_of_ascii c) - 48 ≤ 9.
Proof. unfold is_digit. cbv zeta. rewrite andb_true_iff, !Nat.leb_le. lia. Qed.

Lemma digit_inj c d : Z.of_nat (Ascii.nat_of_ascii c) - 48 = Z.of_nat (Ascii.nat_of_ascii d) - 48 → c = d.
Proof. intros H. rewrite <- (Ascii.ascii_nat_embedding c), <- (Ascii.ascii_nat_embedding d). f_equal. lia. Qed.

Lemma decimal_value_acc s acc : decimal_value s acc = acc * 10 ^ Z.of_nat (String.length s) + decimal_value s 0.
Proof.
  revert acc. induction s as [|c s IH]; intros acc; cbn [decimal_value String.length]; [lia|].
  rewrite (IH (10 * acc + _)), (IH (10 * 0 + _)), Nat2Z.inj_succ, Z.pow_succ_r by lia. lia.
Qed.

Lemma string_length_app (s t : string) : String.length (s +:+ t) = (String.length s + String.length t)%nat.
Proof. induction s as [|c s IH]; [done|]. rewrite string_app_cons. cbn. by rewrite IH. Qed.

Lemma decimal_value_app s t acc : decimal_value (s +:+ t) acc = decimal_value t (decimal_value s acc).
Proof. revert acc. induction s as [|c s IH]; intros acc; [done|]. rewrite string_app_cons. cbn [decimal_value]. apply IH. Qed.

Lemma decimal_value_range s : digits s = true → 0 ≤ decimal_value s 0 < 10 ^ Z.of_nat (String.length s).
Proof.
  unfold digits. induction s as [|c s IH]; cbn [string_forallb]; [cbn; lia|].
  rewrite andb_true_iff. intros [Hc%local_digit_value Hs%IH]. cbn [decimal_value String.length].
  rewrite decimal_value_acc, Nat2Z.inj_succ, Z.pow_succ_r by lia. nia.
Qed.

(** Digit strings of one length are their values. *)
Lemma digits_inj s t : digits s = true → digits t = true → String.length s = String.length t →
  decimal_value s 0 = decimal_value t 0 → s = t.
Proof.
  unfold digits. revert t. induction s as [|c s IH]; intros [|d t]; try done. cbn [string_forallb String.length].
  rewrite !andb_true_iff. intros [Hc Hs] [Hd Ht] [= Hlen]. cbn [decimal_value].
  rewrite (decimal_value_acc s), (decimal_value_acc t), <- Hlen. intros H.
  pose proof (decimal_value_range s Hs) as Hrs. pose proof (decimal_value_range t Ht) as Hrt. rewrite <- Hlen in Hrt.
  assert (Z.of_nat (Ascii.nat_of_ascii c) - 48 = Z.of_nat (Ascii.nat_of_ascii d) - 48) as E by nia.
  rewrite (digit_inj _ _ E) in *. f_equal. apply IH; try done. lia.
Qed.

Lemma pretty_N_go_value x s acc : acc = 0 → decimal_value (pretty_N_go x s) acc = decimal_value s (Z.of_N x).
Proof.
  intros ->. revert s. induction (N.lt_wf_0 x) as [x _ IH]. intros s. destruct (decide (0 < x)%N) as [Hx|Hx].
  - rewrite pretty_N_go_step, IH by (done || by apply N.div_lt). cbn [decimal_value]. f_equal.
    pose proof (N.mod_upper_bound x 10 ltac:(lia)) as Hm.
    assert (Z.of_nat (Ascii.nat_of_ascii (pretty_N_char (x mod 10))) - 48 = Z.of_N (x mod 10)) as ->.
    { generalize dependent (x mod 10)%N. intros m Hm.
      assert (m = 0 ∨ m = 1 ∨ m = 2 ∨ m = 3 ∨ m = 4 ∨ m = 5 ∨ m = 6 ∨ m = 7 ∨ m = 8 ∨ m = 9)%N as H by lia.
      destruct_or!; subst m; reflexivity. }
    rewrite (N.div_mod x 10) at 3 by lia. lia.
  - replace x with 0%N by lia. by rewrite pretty_N_go_0.
Qed.

Lemma pretty_N_go_digits x s : digits s = true → digits (pretty_N_go x s) = true.
Proof.
  unfold digits. revert s. induction (N.lt_wf_0 x) as [x _ IH]. intros s Hs. destruct (decide (0 < x)%N) as [Hx|Hx].
  - rewrite pretty_N_go_step by done. apply IH; [by apply N.div_lt|]. cbn [string_forallb]. rewrite Hs, andb_true_r.
    unfold pretty_N_char. repeat case_match; reflexivity.
  - replace x with 0%N by lia. by rewrite pretty_N_go_0.
Qed.

Lemma pretty_N_go_length d x s : (Z.of_N x < 10 ^ Z.of_nat d) → (String.length (pretty_N_go x s) ≤ d + String.length s)%nat.
Proof.
  revert x s. induction d as [|d IH]; intros x s Hx.
  - replace x with 0%N by (cbn in Hx; lia). rewrite pretty_N_go_0. lia.
  - destruct (decide (0 < x)%N) as [Hp|Hp]; [|replace x with 0%N by lia; rewrite pretty_N_go_0; lia].
    rewrite pretty_N_go_step by done. etrans; [apply IH|cbn; lia].
    rewrite Nat2Z.inj_succ, Z.pow_succ_r in Hx by lia. rewrite N2Z.inj_div. apply Z.div_lt_upper_bound; lia.
Qed.

(** The text of a non-negative integer. *)
Lemma show_Z_decimal z : 0 ≤ z → digits (show_Z z) = true ∧ decimal_value (show_Z z) 0 = z.
Proof.
  intros Hz. destruct z as [|p|p]; [done| |lia]. unfold show_Z. change (pretty (Z.pos p)) with (pretty (N.pos p)).
  unfold pretty, pretty_N. rewrite decide_False by done. split; [by apply pretty_N_go_digits|by rewrite pretty_N_go_value].
Qed.

Lemma show_Z_length z d : 0 ≤ z < 10 ^ Z.of_nat (S d) → (String.length (show_Z z) ≤ S d)%nat.
Proof.
  intros Hz. destruct z as [|p|p]; [cbn; lia| |lia]. unfold show_Z. change (pretty (Z.pos p)) with (pretty (N.pos p)).
  unfold pretty, pretty_N. rewrite decide_False by done. etrans; [apply (pretty_N_go_length (S d)); lia|]. cbn. lia.
Qed.

Lemma local_zeros_text n : let s := String.concat "" (replicate n "0") in
  digits s = true ∧ String.length s = n ∧ ∀ acc, decimal_value s acc = acc * 10 ^ Z.of_nat n.
Proof.
  cbv zeta. induction n as [|n (IHd & IHl & IHv)]; [split; [done|split; [done|intros; cbn; lia]]|].
  assert (String.concat "" (replicate (S n) "0") = "0" +:+ String.concat "" (replicate n "0")) as -> by (destruct n; reflexivity).
  unfold digits in *. rewrite string_forallb_app, IHd, string_length_app, IHl. split; [done|]. split; [done|].
  intros acc. rewrite decimal_value_app, IHv, Nat2Z.inj_succ, Z.pow_succ_r by lia.
  assert (decimal_value "0" acc = 10 * acc) as -> by (change (10 * acc + (48 - 48) = 10 * acc); lia). ring.
Qed.

Lemma padStart0_decimal n z : 0 ≤ z → digits (padStart0 n (show_Z z)) = true ∧ decimal_value (padStart0 n (show_Z z)) 0 = z.
Proof.
  intros Hz. destruct (show_Z_decimal z Hz) as [Hd Hv]. unfold padStart0.
  destruct (local_zeros_text (n - String.length (show_Z z))) as (Hzd & _ & Hzv). unfold digits in *.
  rewrite string_forallb_app, Hzd, Hd, decimal_value_app, Hzv. split; [done|]. by rewrite Z.mul_0_l.
Qed.

Lemma padStart0_length d z : 0 ≤ z < 10 ^ Z.of_nat (S d) → String.length (padStart0 (S d) (show_Z z)) = S d.
Proof.
  intros Hz. pose proof (show_Z_length z d Hz). unfold padStart0. rewrite string_length_app, (proj1 (proj2 (local_zeros_text _))). lia.
Qed.

(** A fixed-point text: its sign, its whole part and its [d] decimals. *)
Definition fixed_text (negative : bool) (whole fraction : Z) (d : nat) : string :=
  (if negative then "-" else "") +:+ show_Z whole +:+ "." +:+ padStart0 d (show_Z fraction).

Lemma formatRawAmount_fixed raw d : formatRawAmount raw d = fixed_text (raw <? 0) (Z.abs raw / 10 ^ Z.of_nat d) (Z.abs raw mod 10 ^ Z.of_nat d) d.
Proof.
  unfold formatRawAmount, fixed_text. assert ((if raw <? 0 then - raw else raw) = Z.abs raw) as -> by (destruct (Z.ltb_spec raw 0); lia).
  pose proof (Z.pow_pos_nonneg 10 (Z.of_nat d) ltac:(lia) ltac:(lia)).
  by rewrite Z.quot_div_nonneg, Z.rem_mod_nonneg by lia.
Qed.

(** A text of digits has no dot. *)
Lemma digits_no_dot s t : digits s = true → before_dot (s +:+ "." +:+ t) = s ∧ after_dot (s +:+ "." +:+ t) = Some (before_dot t).
Proof.
  unfold digits. induction s as [|c s IH]; [done|]. cbn [string_forallb]. rewrite andb_true_iff. intros [Hc Hs]. rewrite string_app_cons.
  cbn [before_dot after_dot]. apply local_digit_value in Hc. destruct (Nat.eqb_spec (Ascii.nat_of_ascii c) 46); [lia|].
  destruct (IH Hs) as [-> ->]. done.
Qed.

Lemma before_dot_digits s : digits s = true → before_dot s = s.
Proof.
  unfold digits. induction s as [|c s IH]; [done|]. cbn [string_forallb before_dot]. rewrite andb_true_iff. intros [Hc%local_digit_value Hs].
  destruct (Nat.eqb_spec (Ascii.nat_of_ascii c) 46); [lia|]. by rewrite IH.
Qed.

Lemma fixed_text_split negative whole fraction d : 0 ≤ whole → 0 ≤ fraction →
  before_dot (fixed_text negative whole fraction d) = (if negative then "-" else "") +:+ show_Z whole ∧
  after_dot (fixed_text negative whole fraction d) = Some (padStart0 d (show_Z fraction)).
Proof.
  intros Hw Hf. destruct (show_Z_decimal _ Hw) as [Hwd _], (padStart0_decimal d _ Hf) as [Hfd _].
  pose proof (digits_no_dot _ (padStart0 d (show_Z fraction)) Hwd) as [Hb Ha]. rewrite (before_dot_digits _ Hfd) in Ha.
  unfold fixed_text. destruct negative; [|done].
  change (before_dot ("-" +:+ ?s)) with ("-" +:+ before_dot s). change (after_dot ("-" +:+ ?s)) with (after_dot s). by rewrite Hb, Ha.
Qed.

Lemma fixed_text_inj negative negative' whole whole' fraction fraction' d : 0 ≤ whole → 0 ≤ fraction → 0 ≤ whole' → 0 ≤ fraction' →
  fixed_text negative whole fraction d = fixed_text negative' whole' fraction' d → negative = negative' ∧ whole = whole' ∧ fraction = fraction'.
Proof.
  intros Hw Hf Hw' Hf' H. destruct (fixed_text_split negative _ _ d Hw Hf) as [Hb Ha], (fixed_text_split negative' _ _ d Hw' Hf') as [Hb' Ha'].
  rewrite H in Hb, Ha. rewrite Hb' in Hb. rewrite Ha' in Ha. injection Ha as Ha.
  destruct (padStart0_decimal d _ Hf) as [_ <-], (padStart0_decimal d _ Hf') as [_ <-]. rewrite Ha.
  destruct (show_Z_decimal _ Hw) as [Hd Hv], (show_Z_decimal _ Hw') as [Hd' Hv'].
  assert (∀ s t, digits s = true → s ≠ "-" +:+ t) as Hsign by (intros [|c s] t; [done|]; intros Hc [= -> _]; discriminate Hc).
  destruct negative, negative'.
  - injection Hb as Hb. change (show_Z whole' = show_Z whole) in Hb. split; [done|]. split; [|done]. by rewrite <- Hv, <- Hv', Hb.
  - exfalso. by apply (Hsign _ _ Hd' Hb).
  - exfalso. by apply (Hsign _ _ Hd (eq_sym Hb)).
  - change (show_Z whole' = show_Z whole) in Hb. split; [done|]. split; [|done]. by rewrite <- Hv, <- Hv', Hb.
Qed.

(** The first decimals of a text of decimals. *)
Lemma take_decimals d k z : 0 ≤ z < 10 ^ Z.of_nat (S d + k) →
  String.substring 0 (S d) (padStart0 (S d + k) (show_Z z)) = padStart0 (S d) (show_Z (z / 10 ^ Z.of_nat k)).
Proof.
  intros Hz. pose proof (Z.pow_pos_nonneg 10 (Z.of_nat k) ltac:(lia) ltac:(lia)) as Hk.
  destruct (padStart0_decimal (S d + k) z) as [Hd Hv]; [lia|].
  pose proof (padStart0_length (d + k) z Hz) as Hl. change (S (d + k)) with (S d + k)%nat in Hl.
  assert (0 ≤ z / 10 ^ Z.of_nat k < 10 ^ Z.of_nat (S d)) as Hq.
  { split; [apply Z.div_pos; lia|]. apply Z.div_lt_upper_bound; [lia|]. rewrite <- Z.pow_add_r by lia.
    replace (Z.of_nat k + Z.of_nat (S d)) with (Z.of_nat (S d + k)) by lia. lia. }
  destruct (padStart0_decimal (S d) (z / 10 ^ Z.of_nat k)) as [Hd' Hv']; [lia|].
  pose proof (padStart0_length d _ Hq) as Hl'.
  generalize dependent (padStart0 (S d + k) (show_Z z)). intros s Hd Hv Hl.
  assert (∃ a b, s = a +:+ b ∧ String.length a = S d ∧ String.substring 0 (S d) s = a) as (a & b & -> & Ha & ->).
  { clear -Hl. revert s Hl. generalize (S d). intros n. induction n as [|n IH]; intros s Hl.
    - exists "", s. by destruct s.
    - destruct s as [|c s]; [cbn in Hl; lia|]. cbn in Hl. destruct (IH s) as (a & b & -> & Ha & Hs); [lia|].
      exists (String c a), b. cbn. by rewrite Ha, Hs. }
  unfold digits in Hd. rewrite string_forallb_app, andb_true_iff in Hd. destruct Hd as [Hda Hdb].
  apply digits_inj; [done|done|lia|]. rewrite Hv', <- Hv, decimal_value_app, (decimal_value_acc b).
  rewrite string_length_app in Hl. replace (String.length b) with k by lia.
  pose proof (decimal_value_range b Hdb) as Hb. replace (String.length b) with k in Hb by lia.
  rewrite Z.div_add_l, Z.div_small by lia. lia.
Qed.

(** The texts the study shows are the amounts: two raw KOx amounts with one
    text are the same amount, and the USDC text is the amount cut towards zero
    after two decimals. *)
Theorem displayed_amounts_exact raw raw' :
  (formatKox raw = formatKox raw' → raw = raw') ∧
  formatUsdc raw = fixed_text (raw <? 0) (Z.abs raw / 10 ^ 6) (Z.abs raw / 10 ^ 4 mod 10 ^ 2) 2 ∧
  (formatUsdc raw = formatUsdc raw' ↔ (raw <? 0) = (raw' <? 0) ∧ Z.abs raw / 10 ^ 4 = Z.abs raw' / 10 ^ 4).
Proof.
  assert (∀ raw, formatUsdc raw = fixed_text (raw <? 0) (Z.abs raw / 10 ^ 6) (Z.abs raw / 10 ^ 4 mod 10 ^ 2) 2) as Husdc.
  { intros z. unfold formatUsdc, USDC_DECIMALS. cbv zeta. rewrite formatRawAmount_fixed. change (10 ^ Z.of_nat 6) with (10 ^ 6).
    pose proof (Z.mod_pos_bound (Z.abs z) (10 ^ 6) ltac:(lia)) as Hm.
    destruct (fixed_text_split (z <? 0) (Z.abs z / 10 ^ 6) (Z.abs z mod 10 ^ 6) 6) as [-> ->]; [apply Z.div_pos; lia|lia|].
    cbn [default]. unfold padEnd0_slice. unfold id. rewrite (padStart0_length 5 _ Hm).
    assert (∀ s, s +:+ String.concat "" (replicate (2 - 6) "0") = s) as -> by (intros s; apply string_app_nil).
    pose proof (take_decimals 1 4 _ Hm) as Ht. cbn [Nat.add] in Ht. rewrite Ht. unfold fixed_text. rewrite <- !string_app_assoc.
    do 5 f_equal. change (10 ^ 6) with (10 ^ 4 * 10 ^ 2). rewrite Z.rem_mul_r by lia. change (10 ^ Z.of_nat 4) with (10 ^ 4).
    rewrite Z.mul_comm, Z.div_add, Z.div_small by (apply Z.mod_pos_bound; lia) || lia. done. }
  split; [|split; [apply Husdc|]].
  - unfold formatKox. rewrite !formatRawAmount_fixed. change (10 ^ Z.of_nat KOX_DECIMALS) with (10 ^ 8).
    pose proof (Z.mod_pos_bound (Z.abs raw) (10 ^ 8) ltac:(lia)). pose proof (Z.mod_pos_bound (Z.abs raw') (10 ^ 8) ltac:(lia)).
    intros (Hs & Hw & Hf)%fixed_text_inj; [|apply Z.div_pos; lia|lia|apply Z.div_pos; lia|lia].
    assert (Z.abs raw = Z.abs raw') as Ha by (rewrite (Z.div_mod (Z.abs raw) (10 ^ 8)), (Z.div_mod (Z.abs raw') (10 ^ 8)) by lia; congruence).
    destruct (Z.ltb_spec raw 0), (Z.ltb_spec raw' 0); try done; lia.
  - rewrite !Husdc.
    assert (∀ z, Z.abs z / 10 ^ 4 = 10 ^ 2 * (Z.abs z / 10 ^ 6) + Z.abs z / 10 ^ 4 mod 10 ^ 2) as Hparts.
    { intros z. change (10 ^ 6) with (10 ^ 4 * 10 ^ 2). rewrite <- Z.div_div by lia. apply Z.div_mod. lia. }
    assert (∀ z, 0 ≤ Z.abs z / 10 ^ 6 ∧ 0 ≤ Z.abs z / 10 ^ 4 mod 10 ^ 2) as Hpos.
    { intros z. split; [apply Z.div_pos; lia|apply Z.mod_pos_bound; lia]. }
    split.
    + intros (Hs & Hw & Hf)%fixed_text_inj; [|apply Hpos..]. split; [done|]. rewrite (Hparts raw), (Hparts raw'). congruence.
    + intros [-> H]. f_equal; [|by rewrite H]. change (10 ^ 6) with (10 ^ 4 * 10 ^ 2). rewrite <- !Z.div_div by lia. by rewrite H.
Qed.
