(* ===== verification/LocalOutcome.v ===== *)
(** * The outcome of a replayed trade: rpc-failure.ts and the checks of replay-execution.ts

    What the local validator answered about one trade, decoded from values of
    unknown shape, and the judgement of a confirmed trade the study is about:
    a stale one stopped at the guard, or a refreshed one executed in full. *)

From S2P Require Import Prelude Js Errors Kit Abi Normalize CanonicalKey BuildClient QuoteIdentity WalletDemo DemoChain Jupiter Deployment Attestation ReplayModel LocalFunding.

(** A line break. *)
Definition NL : string := String (Ascii.ascii_of_nat 10) "".

(* ------------------------------------------------------------------ *)
(** ** rpc-failure.ts *)

Definition ATA_PROGRAM : Address := "ATokenGPvbdGVxr1b2hvZbsiqW5xWH25efTNsLJA8knL".

Definition JUPITER_CUSTOM_ERRORS (code : Z) : option string :=
  if code =? 6001 then Some "SlippageToleranceExceeded"
  else if code =? 6008 then Some "NotEnoughAccountKeys"
  else if code =? 6014 then Some "IncorrectTokenProgramID"
  else if code =? 6017 then Some "ExactOutAmountNotMatched"
  else if code =? 6024 then Some "InsufficientFunds"
  else if code =? 6025 then Some "InvalidTokenAccount"
  else None.

Inductive FailureStage : Set := FS_simulation | FS_sendRawTransaction | FS_confirmation.

Definition show_failure_stage (s : FailureStage) : string :=
  match s with FS_simulation => "simulation" | FS_sendRawTransaction => "sendRawTransaction" | FS_confirmation => "confirmation" end.

Record LocalSimulationFailure := mkFailure {
  lf_stage : FailureStage;
  lf_rpcCode : option jsnum;
  lf_rpcMessage : option string;
  lf_dataErr : jsval;
  lf_failedInstruction : option jsnum;
  lf_customCode : option jsnum;
  lf_customName : option string;
  lf_program : option string;
  lf_logs : list string;
  lf_unitsConsumed : option string;
  lf_replacementBlockhash : jsval;
}.

(** [n.toString(16)] of an integer. *)
Fixpoint hex_digits (fuel : nat) (z : Z) (acc : string) : string :=
  match fuel with
  | O => acc
  | S fuel => let acc := String (hex_digit (z mod 16)) acc in if z <? 16 then acc else hex_digits fuel (z / 16) acc
  end.

Definition show_hex (z : Z) : string :=
  (if z <? 0 then "-" else "") +:+ hex_digits (S (Z.to_nat (Z.log2 (Z.abs z)))) (Z.abs z) "".

Section Failures.
  (** [Number(v)] and [JSON.stringify(v)]. *)
  Variable numberOf : jsval → jsnum.
  Variable jsonText : jsval → string.

(** [`${customName}${customCode === null ? "" : ...}`]. *)
Definition named_error (name : string) (code : option jsnum) : string :=
  name +:+ match code with None => "" | Some c => " (" +:+ show_num c +:+ " / 0x" +:+ show_hex (num_value c) +:+ ")" end.

Definition formatFailureHeadline (failure : LocalSimulationFailure) (kind : string) : string :=
  let instruction := match lf_failedInstruction failure with None => "unknown" | Some n => show_num n end in
  let program := lf_program failure ?? "unknown" in
  let by_code := match lf_customCode failure with None => jsonText (lf_dataErr failure) | Some c => "custom " +:+ show_num c end in
  let error := match lf_customName failure with Some "" | None => by_code | Some name => named_error name (lf_customCode failure) end in
  kind +:+ " failed during local " +:+ show_failure_stage (lf_stage failure) +:+ NL +:+ "Instruction: " +:+ instruction +:+ NL +:+
  "Program: " +:+ program +:+ NL +:+ "Error: " +:+ error.

(** [asRecord]: an object, an array too. *)
Definition isRecord (v : jsval) : bool := is_object v.

(** The failed instruction and what it failed with. *)
Definition instructionError (value : jsval) : option jsnum * jsval :=
  match (if has_property "InstructionError" value then get_prop "InstructionError" value else JUndefined) with
  | JArray (index :: inner :: _) => (Some (numberOf index), inner)
  | _ => (None, value)
  end.

Definition customCode (inner : jsval) : option jsnum :=
  match inner with
  | JNum n => if isInteger n then Some n else None
  | _ =>
      if negb (has_property "Custom" inner) then None
      else
        match get_prop "Custom" inner with
        | JBigint z => Some (numberOf (JBigint z))
        | JNum n => if isInteger n then Some n else None
        | JString s => if negb (String.eqb s "") && string_forallb is_digit s then Some (numberOf (JString s)) else None
        | _ => None
        end
  end.

(** [equityGuardErrorName(code)] of a number. *)
Definition guard_error_of (code : jsnum) : option EquityGuardErrorName :=
  if isInteger code then equityGuardErrorName (num_value code) else None.

Definition customName (program : option string) (code : option jsnum) : option string :=
  match code, program with
  | Some code, Some program =>
      if String.eqb program JUPITER_V6_PROGRAM_ADDRESS then
        Some (match (if isInteger code then JUPITER_CUSTOM_ERRORS (num_value code) else None) with
              | Some name => name
              | None => "Jupiter custom " +:+ show_num code
              end)
      else if String.eqb program EQUITY_GUARD_DEVNET_PROGRAM_ID then
        Some (match guard_error_of code with Some name => show_error_name name | None => "EquityGuard custom " +:+ show_num code end)
      else None
  | _, _ => None
  end.

Definition logsFrom (value : jsval) : list string :=
  match get_prop "logs" value with JArray lines => map js_string lines | _ => [] end.

(** [programs[instruction] ?? null]. *)
Definition program_at (programs : list string) (instruction : jsnum) : option string :=
  if isInteger instruction && (0 <=? num_value instruction) then programs !! Z.to_nat (num_value instruction) else None.

Record DecodedFailure := mkDecodedFailure {
  df_failedInstruction : option jsnum;
  df_customCode : option jsnum;
  df_customName : option string;
  df_program : option string;
}.

Definition decodeInstructionError (dataErr : jsval) (programs : list string) : DecodedFailure :=
  let '(instruction, inner) := instructionError dataErr in
  let code := customCode inner in
  let program := instruction ≫= program_at programs in
  mkDecodedFailure instruction code (customName program code) program.

Record RpcPayload := mkPayload { py_code : option jsnum; py_message : option string; py_data : jsval; py_causeErr : jsval }.

Definition number_or_none (v : jsval) : option jsnum := match v with JNum n => Some n | _ => None end.
Definition string_or_none (v : jsval) : option string := match v with JString s => Some s | _ => None end.

(** [asRecord(v)]: [null] when it is no object. *)
Definition record_or_null (v : jsval) : jsval := if isRecord v then v else JNull.

Definition rpcPayload (error : jsval) : RpcPayload :=
  if negb (isRecord error) then mkPayload None (Some (js_string error)) JNull JNull
  else
    let context := record_or_null (get_prop "context" error) in
    let message := string_or_none (get_prop "message" error) in
    match number_or_none (get_prop "code" error), number_or_none (get_prop "__code" context) with
    | None, None =>
        let data := record_or_null (get_prop "data" error) in
        mkPayload None message data (coalesce (get_prop "err" data) JNull)
    | code, inner =>
        let data := if isRecord context then context else record_or_null (get_prop "data" error) in
        let cause := record_or_null (get_prop "cause" error) in
        mkPayload (match code with Some c => Some c | None => inner end) message data
          (coalesce (get_prop "context" cause) (coalesce (get_prop "cause" error) (coalesce (get_prop "err" data) JNull)))
    end.

Definition decodeLocalRpcFailure (error : jsval) (stage : FailureStage) (programs : list string) : LocalSimulationFailure :=
  let payload := rpcPayload error in
  let data := py_data payload in
  let dataErr := coalesce (get_prop "err" data) (coalesce (py_causeErr payload) JNull) in
  let decoded := decodeInstructionError dataErr programs in
  mkFailure stage (py_code payload) (py_message payload) dataErr (df_failedInstruction decoded) (df_customCode decoded)
    (df_customName decoded) (df_program decoded) (logsFrom data)
    (let units := get_prop "unitsConsumed" data in if nullish units then None else Some (js_string units))
    (coalesce (get_prop "replacementBlockhash" data) JNull).
End Failures.

Definition invoked (logs : list string) (program : string) : bool :=
  existsb (startsWith ("Program " +:+ program +:+ " invoke [")) logs.

Definition programRole (program : option string) : string :=
  match program with
  | None => "unknown"
  | Some p =>
      if String.eqb p EQUITY_GUARD_DEVNET_PROGRAM_ID then "EquityGuard"
      else if String.eqb p ATA_PROGRAM then "ATA"
      else if String.eqb p JUPITER_V6_PROGRAM_ADDRESS then "Jupiter"
      else if String.eqb p WHIRLPOOL_PROGRAM then "Whirlpool"
      else "other"
  end.

Definition isExpectedStaleSimulation (failure : option LocalSimulationFailure) : bool :=
  match failure with
  | None => false
  | Some f =>
      match lf_failedInstruction f with Some n => num_is n 0 | None => false end &&
      match lf_customCode f with Some n => num_is n 12 | None => false end &&
      bool_decide (lf_customName f = Some "ActivationPhaseChanged")
  end.

(* ------------------------------------------------------------------ *)
(** ** The errors of the study *)

Inductive FailureKind : Set :=
| PHANTOM_NOT_DETECTED | USER_REJECTED | SIGN_TRANSACTION_UNAVAILABLE | LOCAL_BLOCKHASH_REJECTED | WALLET_REFUSED_LOCAL_TRANSACTION
| SERIALIZATION_FAILURE | SEND_RAW_TRANSACTION_FAILURE | LOCAL_CONFIRMATION_FAILURE | LOCAL_RPC_REFUSED.

(** What the replay throws: its own errors, those of the packages it calls, a
    rejected request, and what a codec or the runtime throws. *)
Inductive replay_exn : Type :=
| ReplayError (message : string)
| FeasibilityError (kind : FailureKind) (message : string)
| ReplaySimulationError (failure : LocalSimulationFailure)
| JupiterFailed (e : jupiter_exn)
| ClientFailed (e : client_exn)
| RetargetFailed (e : demo_exn)
| RequestRejected (reason : jsval)
| RuntimeFailed.

Definition replay_if (b : bool) (message : string) : result replay_exn unit := throw_if b (ReplayError message).

(* ------------------------------------------------------------------ *)
(** ** The outcome of replay-execution.ts *)

Record ReplayBalances := mkReplayBalances { rb_usdc : Z; rb_kox : Z }.

Record ReplayOutcome := mkReplayOutcome {
  ro_kind : ReplayKind;
  ro_signature : string;
  ro_slot : Z;
  ro_signer : string;
  ro_feePayer : string;
  ro_error : jsval;
  ro_failedInstruction : option jsnum;
  ro_customCode : option jsnum;
  ro_guardErrorName : option EquityGuardErrorName;
  ro_guardInvoked : bool;
  ro_jupiterInvoked : bool;
  ro_whirlpoolInvoked : bool;
  ro_before : ReplayBalances;
  ro_after : ReplayBalances;
  ro_skipPreflight : bool;
  ro_logs : list string;
  ro_computeUnits : option string;
  ro_simulation : option LocalSimulationFailure;
  ro_authorizationSource : string;
}.

(** [customFailure]: the instruction and the custom code of an error. *)
Definition customFailure (numberOf : jsval → jsnum) (error : jsval) : option jsnum * option jsnum :=
  match (if has_property "InstructionError" error then get_prop "InstructionError" error else JUndefined) with
  | JArray [index; inner] =>
      (Some (numberOf index), if has_property "Custom" inner then Some (numberOf (get_prop "Custom" inner)) else None)
  | _ => (None, None)
  end.

(** [x !== z] of a number or null. *)
Definition option_is (o : option jsnum) (z : Z) : bool := match o with Some n => num_is n z | None => false end.

Definition assertOutcome (outcome : ReplayOutcome) : result replay_exn unit :=
  replay_if (negb (ro_guardInvoked outcome)) "confirmed transaction did not invoke EquityGuard";;
  if bool_decide (ro_kind outcome = RK_STALE) then
    replay_if (negb (ro_skipPreflight outcome) || negb (option_is (ro_failedInstruction outcome) 0) || negb (option_is (ro_customCode outcome) 12)
               || negb (bool_decide (ro_guardErrorName outcome = Some E_ActivationPhaseChanged))
               || ro_jupiterInvoked outcome || ro_whirlpoolInvoked outcome
               || negb (rb_usdc (ro_before outcome) =? rb_usdc (ro_after outcome)) || negb (rb_kox (ro_before outcome) =? rb_kox (ro_after outcome)))
      "confirmed stale transaction did not prove fail-closed ActivationPhaseChanged"
  else
    replay_if (ro_skipPreflight outcome) (show_kind (ro_kind outcome) +:+ " must keep preflight enabled");;
    replay_if (negb (is_null (ro_error outcome)) || negb (ro_jupiterInvoked outcome) || negb (ro_whirlpoolInvoked outcome)
               || negb (rb_usdc (ro_after outcome) =? rb_usdc (ro_before outcome) - EXPECTED_IN_AMOUNT)
               || negb (rb_kox (ro_after outcome) =? rb_kox (ro_before outcome) + EXPECTED_OUT_AMOUNT))
      "confirmed transaction did not prove guarded Jupiter/Whirlpool execution and exact token movement".
