(* ===== verification/LocalView.v ===== *)
(** * What the study shows of a run: reproduction-view.ts, stage-status.ts, and the boundaries of live-adapter.ts and trader-flow.ts

    A message is rendered from a proof only when every statement in it was
    established by the run; the live adapter and the trader flow check the same
    outcome again. *)

From S2P Require Import Prelude Js Errors Kit Abi Snapshot CanonicalKey WalletDemo DemoChain Attestation Flow ActivationProof ReplayModel LocalFunding LocalOutcome.

(** [lines.join("\n")]. *)
Definition lines (l : list string) : string := join NL l.

(* ------------------------------------------------------------------ *)
(** ** stage-status.ts *)

Definition STATUS (stage : BuyStage) : option string :=
  match stage with
  | B_ENVIRONMENT_CHECK => Some "Preparing local reproduction…"
  | B_TRANSACTION_BUILD => Some "Building authorization from local state…"
  | B_PRE_SIGN_SIMULATION => Some "Checking the complete trade before signing…"
  | B_SIGN_REQUEST => Some "Pre-sign simulation passed. Approve in Phantom."
  | B_SIGNED_BYTES_RETURNED => Some "Phantom returned signed bytes. Verifying signing time…"
  | B_BLOCKHASH_VALIDATION => Some "Checking the original blockhash and exact signed bytes…"
  | B_SUBMISSION => Some "Submitting to the local validator…"
  | B_CONFIRMATION => Some "Waiting for local confirmation…"
  | B_BALANCE_VERIFICATION => Some "Verifying execution and token balances…"
  | _ => None
  end.

#[export] Instance BuyStage_eq_dec : EqDecision BuyStage.
Proof. solve_decision. Defined.

Definition stageStatus (stage : BuyStage) (clock : option ChainClock) (localT : option Z) : string :=
  match bool_decide (stage = B_WAITING_FOR_ACTIVATION), clock, localT with
  | true, Some clock, Some localT =>
      let remaining := localT - clock_unixTimestamp clock in
      if 0 <? remaining
      then "Authorization signed ✓" +:+ NL +:+ "Transaction held" +:+ NL +:+ "Economic state changes in: " +:+ show_Z remaining +:+ "…"
      else "State changed" +:+ NL +:+ "Submitting the exact signed transaction once the validator Clock is past local T."
  | _, _, _ => STATUS stage ?? "Connecting Phantom…"
  end.

(* ------------------------------------------------------------------ *)
(** ** reproduction-view.ts *)

Section View.
  Context {Prepared Outcome : Type}.
  (** The outcome of the replay in what [submit] returned. *)
  Variable replayed : Outcome → ReplayOutcome.

Abbreviation proof_of_run := (ActivationProof (Prepared := Prepared) (Outcome := Outcome)).

(** [attested]: both records are the coordinator's, pending and dated before the change. *)
Definition attested_pending (proof : proof_of_run) : bool :=
  let preSign := hr_preSign (pf_run proof) in
  let receipt := hr_signedAuthorization (pf_run proof) in
  String.eqb (pa_source preSign) "LOCAL_COORDINATOR" && String.eqb (sg_source receipt) "LOCAL_COORDINATOR" &&
  sg_signatureVerified receipt && sg_messageMatchesSimulated receipt &&
  tm_clockMatchesExpectedPhase (pa_timing preSign) && tm_clockMatchesExpectedPhase (sg_timing receipt) &&
  bool_decide (tm_encodedPhase (pa_timing preSign) = PENDING_PHASE) && bool_decide (tm_encodedPhase (sg_timing receipt) = PENDING_PHASE) &&
  bool_decide (tm_clockRelationToLocalT (pa_timing preSign) = BEFORE_ACTIVATION) &&
  bool_decide (tm_clockRelationToLocalT (sg_timing receipt) = BEFORE_ACTIVATION) &&
  String.eqb (sg_messageSha256 receipt) (pa_messageSha256 preSign) &&
  String.eqb (sg_signedWireSha256 receipt) (pf_signedWireHashBeforeActivation proof).

Definition deploymentStable (proof : proof_of_run) : bool :=
  let before := hr_deployment (pf_run proof) in
  let after := pf_deploymentBeforeSubmission proof in
  da_matched before && da_matched after && String.eqb (da_digest before) (da_digest after).

Definition reproductionMessage (localT : Z) (proof : proof_of_run) : result replay_exn string :=
  let result := replayed (pf_outcome proof) in
  assertOutcome result;;
  replay_if ((ro_slot result <=? 0) || String.eqb (ro_signature result) "") "No confirmed execution proof";;
  let usdc := rb_usdc (ro_after result) - rb_usdc (ro_before result) in
  let kox := rb_kox (ro_after result) - rb_kox (ro_before result) in
  if bool_decide (ro_kind result = RK_STALE) then
    replay_if (negb (attested_pending proof) || negb (deploymentStable proof) || negb (pf_exactEquality proof)
               || negb (String.eqb (pf_signedWireHashBeforeActivation proof) (pf_signedWireHashAtSubmission proof))
               || (localT <=? clock_unixTimestamp (hr_atSigning (pf_run proof))) || (clock_unixTimestamp (pf_atSubmission proof) <=? localT)
               || negb (lc_valid (pf_lifetime proof)))
      "Signed-before-activation proof is incomplete";;
    let rejectedAtGuard := option_is (ro_failedInstruction result) 0 && bool_decide (ro_guardErrorName result = Some E_ActivationPhaseChanged) in
    Ok (lines ["STATE CHANGED"; "Stale authorization rejected"; "";
               "The transaction was valid when it was signed.";
               "The asset’s economic state changed before execution.";
               "EquityGuard stopped the old authorization before the swap executed."; "";
               "EquityGuard       " +:+ (if rejectedAtGuard then "Rejected" else "Not verified");
               "Jupiter           " +:+ (if ro_jupiterInvoked result then "Invoked" else "Not invoked");
               "Whirlpool         " +:+ (if ro_whirlpoolInvoked result then "Invoked" else "Not invoked");
               "Token movement    " +:+ (if (usdc =? 0) && (kox =? 0) then "0" else "USDC " +:+ show_Z usdc +:+ ", KOx " +:+ show_Z kox); "";
               "Exact signed transaction preserved ✓";
               "Verified before signing, and signed before the change, by the local coordinator ✓"])
  else
    Ok (lines ["Updated authorization executed"; "";
               formatUsdc (- usdc) +:+ " USDC → " +:+ formatKox kox +:+ " KOx"; "";
               "EquityGuard    " +:+ (if is_null (ro_error result) && ro_guardInvoked result then "Passed" else "Not verified");
               "Jupiter        " +:+ (if ro_jupiterInvoked result then "Executed" else "Not invoked");
               "Whirlpool      " +:+ (if ro_whirlpoolInvoked result then "Executed" else "Not invoked"); "";
               "Local execution reproduction"]).

(* ------------------------------------------------------------------ *)
(** ** The boundaries of live-adapter.ts *)

(** [EXPECTED_DISPLAY]. *)
Definition DISPLAY_USDC_IN : string := "5.00".
Definition DISPLAY_KOX_OUT : string := "0.05504261".

Record LiveStaleResult := mkLiveStale {
  ls_walletPublicKey : string;
  ls_signature : string;
  ls_slot : string;
  ls_localT : string;
  ls_summary : string;
  ls_guardErrorName : string;
  ls_usdcDelta : string;
  ls_koxDelta : string;
  ls_logs : list string;
}.

Definition verifyStaleResult (localT : Z) (proof : proof_of_run) (wallet : string) : result replay_exn LiveStaleResult :=
  summary ← reproductionMessage localT proof;
  let outcome := replayed (pf_outcome proof) in
  let usdc := rb_usdc (ro_after outcome) - rb_usdc (ro_before outcome) in
  let kox := rb_kox (ro_after outcome) - rb_kox (ro_before outcome) in
  replay_if (negb (bool_decide (ro_kind outcome = RK_STALE)) || negb (String.eqb (ro_authorizationSource outcome) LOCAL_ACTIVATION_SOURCE)
             || negb (ro_guardInvoked outcome) || negb (option_is (ro_failedInstruction outcome) 0)
             || negb (bool_decide (ro_guardErrorName outcome = Some E_ActivationPhaseChanged))
             || ro_jupiterInvoked outcome || ro_whirlpoolInvoked outcome || negb (usdc =? 0) || negb (kox =? 0))
    "Live stale attempt did not prove a fail-closed ix0 rejection with zero token movement";;
  Ok (mkLiveStale wallet (ro_signature outcome) (show_Z (ro_slot outcome)) (show_Z localT) summary
        (show_error_name (ro_guardErrorName outcome ?? E_ActivationPhaseChanged)) (show_Z usdc) (show_Z kox) (ro_logs outcome)).

Record LiveUpdatedResult := mkLiveUpdated {
  lu_walletPublicKey : string;
  lu_signature : string;
  lu_slot : string;
  lu_localT : string;
  lu_summary : string;
  lu_usdcSpentRaw : string;
  lu_koxReceivedRaw : string;
  lu_usdcDisplay : string;
  lu_koxDisplay : string;
  lu_logs : list string;
}.

Definition verifyUpdatedResult (localT : Z) (proof : proof_of_run) (wallet : string) : result replay_exn LiveUpdatedResult :=
  summary ← reproductionMessage localT proof;
  let outcome := replayed (pf_outcome proof) in
  let spent := rb_usdc (ro_before outcome) - rb_usdc (ro_after outcome) in
  let received := rb_kox (ro_after outcome) - rb_kox (ro_before outcome) in
  let usdcDisplay := formatUsdc spent in
  let koxDisplay := formatKox received in
  replay_if (negb (bool_decide (ro_kind outcome = RK_REFRESHED)) || negb (String.eqb (ro_authorizationSource outcome) LOCAL_ACTIVATION_SOURCE)
             || negb (is_null (ro_error outcome)) || ro_skipPreflight outcome || negb (ro_guardInvoked outcome)
             || negb (ro_jupiterInvoked outcome) || negb (ro_whirlpoolInvoked outcome)
             || negb (spent =? EXPECTED_IN_AMOUNT) || negb (received =? EXPECTED_OUT_AMOUNT)
             || negb (String.eqb usdcDisplay DISPLAY_USDC_IN) || negb (String.eqb koxDisplay DISPLAY_KOX_OUT))
    "Live updated attempt did not prove guarded Jupiter/Whirlpool execution and the exact token movement";;
  Ok (mkLiveUpdated wallet (ro_signature outcome) (show_Z (ro_slot outcome)) (show_Z localT) summary
        (show_Z spent) (show_Z received) usdcDisplay koxDisplay (ro_logs outcome)).
End View.

(* ------------------------------------------------------------------ *)
(** ** The safe trade of trader-flow.ts *)

Definition liveSafeAllowed (outcome : ReplayOutcome) : bool :=
  bool_decide (ro_kind outcome = RK_SAFE) && String.eqb (ro_authorizationSource outcome) REFRESHED_AUTHORIZATION_SOURCE &&
  Nat.ltb 0 (String.length (ro_signature outcome)) && (0 <? ro_slot outcome) && (rb_usdc (ro_before outcome) =? EXPECTED_IN_AMOUNT) &&
  (rb_kox (ro_before outcome) =? 0) && String.eqb (ro_signer outcome) (ro_feePayer outcome) && is_null (ro_error outcome) &&
  negb (ro_skipPreflight outcome) && ro_guardInvoked outcome && ro_jupiterInvoked outcome && ro_whirlpoolInvoked outcome &&
  (rb_usdc (ro_after outcome) =? rb_usdc (ro_before outcome) - EXPECTED_IN_AMOUNT) &&
  (rb_kox (ro_after outcome) =? rb_kox (ro_before outcome) + EXPECTED_OUT_AMOUNT) &&
  String.eqb (formatUsdc EXPECTED_IN_AMOUNT) "5.00" &&
  String.eqb (formatKox (rb_kox (ro_after outcome) - rb_kox (ro_before outcome))) "0.05504261".

Definition liveSafeMessage (outcome : ReplayOutcome) : option string :=
  if liveSafeAllowed outcome
  then Some (lines ["Protected trade executed locally"; ""; "5.00 USDC → 0.05504261 KOx"; ""; "Local execution replay"])
  else None.

(* ------------------------------------------------------------------ *)
(** ** What an outcome proves *)

(** A stale trade that failed at the guard, before anything moved. *)
Record stale_rejected (o : ReplayOutcome) : Prop := {
  sj_guard : ro_guardInvoked o = true;
  sj_preflight : ro_skipPreflight o = true;
  sj_failure : option_is (ro_failedInstruction o) 0 = true ∧ option_is (ro_customCode o) 12 = true ∧
    ro_guardErrorName o = Some E_ActivationPhaseChanged;
  sj_nothing : ro_jupiterInvoked o = false ∧ ro_whirlpoolInvoked o = false ∧ ro_before o = ro_after o;
}.

(** A trade that executed through the guard and moved the exact amounts. *)
Record trade_executed (o : ReplayOutcome) : Prop := {
  te_preflight : ro_skipPreflight o = false;
  te_error : ro_error o = JNull;
  te_invoked : ro_guardInvoked o = true ∧ ro_jupiterInvoked o = true ∧ ro_whirlpoolInvoked o = true;
  te_moved : rb_usdc (ro_before o) - rb_usdc (ro_after o) = EXPECTED_IN_AMOUNT ∧ rb_kox (ro_after o) - rb_kox (ro_before o) = EXPECTED_OUT_AMOUNT;
}.

Lemma is_null_true v : is_null v = true ↔ v = JNull.
Proof. by destruct v. Qed.

Lemma replay_if_Ok b message u : replay_if b message = Ok u ↔ b = false.
Proof. apply throw_if_Ok. Qed.

Lemma replay_if_then_Ok {A} b message (m : result replay_exn A) a : (replay_if b message;; m) = Ok a ↔ b = false ∧ m = Ok a.
Proof. apply throw_if_then_Ok. Qed.

Create Rewrite HintDb flags.
#[export] Hint Rewrite orb_false_iff andb_true_iff negb_false_iff Z.eqb_eq Z.leb_gt String.eqb_eq bool_decide_eq_true : flags.

Lemma assertOutcome_Ok o u : assertOutcome o = Ok u ↔ (ro_kind o = RK_STALE ∧ stale_rejected o ∨ ro_kind o ≠ RK_STALE ∧ trade_executed o).
Proof.
  unfold assertOutcome. rewrite replay_if_then_Ok, negb_false_iff. case_bool_decide as Hkind.
  - rewrite replay_if_Ok. autorewrite with flags. split.
    + intros (Hg & (((((((? & ?) & ?) & ?) & ?) & ?) & Hu) & Hk)). left. split; [done|]. split; try done. split; [done|]. split; [done|].
      destruct (ro_before o), (ro_after o). cbn in *. by subst.
    + intros [[_ [? ? (? & ? & ?) (? & ? & Heq)]]|[? _]]; [|done]. rewrite Heq. tauto.
  - rewrite replay_if_then_Ok, replay_if_Ok. autorewrite with flags. rewrite is_null_true. split.
    + intros (? & ? & (((? & ?) & ?) & ?) & ?). right. split; [done|]. split; try done. split; lia.
    + intros [[? _]|[_ [? ? (? & ? & ?) (? & ?)]]]; [done|]. repeat split; try done; lia.
Qed.

Section Shown.
  Context {Prepared Outcome : Type} (replayed : Outcome → ReplayOutcome).
  Implicit Type proof : ActivationProof (Prepared := Prepared) (Outcome := Outcome).

(** The whole text of a rejected stale trade and of an executed one. *)
Definition STALE_TEXT : string := lines
  ["STATE CHANGED"; "Stale authorization rejected"; ""; "The transaction was valid when it was signed.";
   "The asset’s economic state changed before execution."; "EquityGuard stopped the old authorization before the swap executed."; "";
   "EquityGuard       Rejected"; "Jupiter           Not invoked"; "Whirlpool         Not invoked"; "Token movement    0"; "";
   "Exact signed transaction preserved ✓"; "Verified before signing, and signed before the change, by the local coordinator ✓"].

Definition UPDATED_TEXT : string := lines
  ["Updated authorization executed"; ""; "5.00 USDC → 0.05504261 KOx"; ""; "EquityGuard    Passed"; "Jupiter        Executed";
   "Whirlpool      Executed"; ""; "Local execution reproduction"].

(** The statements of the stale text about the signature. *)
Record held_across (localT : Z) (proof : ActivationProof (Prepared := Prepared) (Outcome := Outcome)) : Prop := {
  ha_attested : attested_pending proof = true;
  ha_deployment : deploymentStable proof = true;
  ha_exact : pf_exactEquality proof = true ∧ pf_signedWireHashBeforeActivation proof = pf_signedWireHashAtSubmission proof;
  ha_times : clock_unixTimestamp (hr_atSigning (pf_run proof)) < localT < clock_unixTimestamp (pf_atSubmission proof);
  ha_lifetime : lc_valid (pf_lifetime proof) = true;
}.

Lemma executed_display o : trade_executed o →
  formatUsdc (rb_usdc (ro_before o) - rb_usdc (ro_after o)) = "5.00" ∧ formatKox (rb_kox (ro_after o) - rb_kox (ro_before o)) = "0.05504261".
Proof. intros [_ _ _ [-> ->]]. split; vm_compute; reflexivity. Qed.

(** A message is shown exactly for a confirmed outcome that proves it: the
    stale text for a trade that failed at the guard with nothing moved, by
    bytes signed before the activation, attested by the coordinator and
    submitted unchanged past it against the same deployment; the updated text
    for a trade that executed in full. No other text is ever shown. *)
Lemma reproductionMessage_Ok localT proof text :
  let result := replayed (pf_outcome proof) in
  reproductionMessage replayed localT proof = Ok text ↔
  0 < ro_slot result ∧ ro_signature result ≠ "" ∧
  (ro_kind result = RK_STALE ∧ stale_rejected result ∧ held_across localT proof ∧ text = STALE_TEXT ∨
   ro_kind result ≠ RK_STALE ∧ trade_executed result ∧ text = UPDATED_TEXT).
Proof.
  cbv zeta. set (o := replayed (pf_outcome proof)). unfold reproductionMessage. fold o. rewrite then_Ok, assertOutcome_Ok, replay_if_then_Ok.
  rewrite orb_false_iff, Z.leb_gt, String.eqb_neq. case_bool_decide as Hkind.
  - rewrite replay_if_then_Ok. autorewrite with flags. split.
    + intros (Ho & [? ?] & ((((((Ha & Hd) & Hx) & Hh) & Hs) & Hc) & Hl) & [= <-]). destruct Ho as [[_ Ho]|[? _]]; [|done].
      split; [done|]. split; [done|]. left. split; [done|]. split; [done|]. split; [by split|].
      destruct Ho as [_ _ (-> & _ & ->) (-> & -> & ->)]. rewrite !Z.sub_diag. reflexivity.
    + intros (? & ? & [(_ & Ho & [? ? [? ?] [? ?] ?] & ->)|[? _]]); [|done]. split; [by left|]. split; [done|]. split; [tauto|].
      destruct Ho as [_ _ (-> & _ & ->) (-> & -> & ->)]. rewrite !Z.sub_diag. reflexivity.
  - split.
    + intros ([[? _]|[_ Ho]] & [? ?] & [= <-]); [done|]. split; [done|]. split; [done|]. right. split; [done|]. split; [done|].
      destruct (executed_display _ Ho) as [Hu Hk]. destruct Ho as [_ -> (-> & -> & ->) _].
      replace (- (rb_usdc (ro_after o) - rb_usdc (ro_before o))) with (rb_usdc (ro_before o) - rb_usdc (ro_after o)) by lia.
      rewrite Hu, Hk. reflexivity.
    + intros (? & ? & [[? _]|(_ & Ho & ->)]); [done|]. split; [by right|]. split; [done|].
      destruct (executed_display _ Ho) as [Hu Hk]. destruct Ho as [_ -> (-> & -> & ->) _].
      replace (- (rb_usdc (ro_after o) - rb_usdc (ro_before o))) with (rb_usdc (ro_before o) - rb_usdc (ro_after o)) by lia.
      rewrite Hu, Hk. reflexivity.
Qed.
End Shown.

Section Boundaries.
  Context {Prepared Outcome : Type} (replayed : Outcome → ReplayOutcome).
  Implicit Type proof : ActivationProof (Prepared := Prepared) (Outcome := Outcome).

(** The boundaries of the live adapter refuse no message of their leg that
    names the local reproduction, and what they hand on is the outcome. *)
Theorem live_boundaries_exact localT proof wallet :
  let o := replayed (pf_outcome proof) in
  (∀ r, verifyStaleResult replayed localT proof wallet = Ok r ↔
     reproductionMessage replayed localT proof = Ok STALE_TEXT ∧ ro_kind o = RK_STALE ∧ ro_authorizationSource o = LOCAL_ACTIVATION_SOURCE ∧
     r = mkLiveStale wallet (ro_signature o) (show_Z (ro_slot o)) (show_Z localT) STALE_TEXT "ActivationPhaseChanged" "0" "0" (ro_logs o)) ∧
  (∀ r, verifyUpdatedResult replayed localT proof wallet = Ok r ↔
     reproductionMessage replayed localT proof = Ok UPDATED_TEXT ∧ ro_kind o = RK_REFRESHED ∧ ro_authorizationSource o = LOCAL_ACTIVATION_SOURCE ∧
     r = mkLiveUpdated wallet (ro_signature o) (show_Z (ro_slot o)) (show_Z localT) UPDATED_TEXT "5000000" "5504261" DISPLAY_USDC_IN DISPLAY_KOX_OUT
           (ro_logs o)).
Proof.
  cbv zeta. set (o := replayed (pf_outcome proof)). split; intros r.
  - unfold verifyStaleResult. fold o. split.
    + intros (text & Hm & H)%bind_Ok. rewrite replay_if_then_Ok in H. autorewrite with flags in H.
      destruct H as [((((((((Hk & Hs) & _) & _) & He) & _) & _) & Hu) & Hx) [= <-]].
      pose proof Hm as (_ & _ & [(_ & Ho & _ & ->)|[? _]])%reproductionMessage_Ok; [|done]. rewrite He, Hu, Hx. split_and!; done.
    + intros (Hm & Hk & Hs & ->). rewrite Hm. cbn [mbind result_bind].
      apply reproductionMessage_Ok in Hm as (_ & _ & [(_ & Ho & _ & _)|[? _]]); [|done]. fold o in Ho.
      destruct Ho as [-> _ (-> & _ & ->) (-> & -> & ->)]. rewrite Hk, Hs, !Z.sub_diag. reflexivity.
  - unfold verifyUpdatedResult. fold o. split.
    + intros (text & Hm & H)%bind_Ok. rewrite replay_if_then_Ok in H. autorewrite with flags in H.
      destruct H as [((((((((((Hk & Hs) & _) & _) & _) & _) & _) & Hu) & Hx) & Hud) & Hkd) [= <-]].
      pose proof Hm as (_ & _ & [(Hst & _)|(_ & _ & ->)])%reproductionMessage_Ok; [fold o in Hst; congruence|].
      rewrite Hud, Hkd, Hu, Hx. split_and!; done.
    + intros (Hm & Hk & Hs & ->). rewrite Hm. cbn [mbind result_bind].
      apply reproductionMessage_Ok in Hm as (_ & _ & [(Hst & _)|(_ & Ho & _)]); [fold o in Hst; congruence|]. fold o in Ho.
      destruct (executed_display _ Ho) as [Hud Hkd]. destruct Ho as [-> -> (-> & -> & ->) (Hu & Hx)]. rewrite Hk, Hs, Hud, Hkd, Hu, Hx. reflexivity.
Qed.

(** A completed stale run establishes every statement of the text that is not
    the coordinator's own: the message is then decided by the flags of the two
    records and of the deployments, by what [submit] left of the bytes and by
    the outcome. *)
Lemma completed_run_held {hash : Digest} {X} (plain_error : string → X) deps localT t proof t' :
  executeAcrossActivation plain_error deps localT true t = (Ok proof, t') →
  attested_pending proof = true → deploymentStable proof = true → pf_exactEquality proof = true → held_across localT proof.
Proof.
  intros Hrun Ha Hd Hx. destruct (execute_Ok _ _ _ _ _ _ _ Hrun) as [l [[Hheld _] Hc (_ & Hv & _) _ [Hb Hs] _]].
  split; [done|done|split; [done|congruence]| |done]. split; [apply (hw_stale _ _ _ _ _ Hheld eq_refl)|by apply Hc].
Qed.
End Boundaries.

(** The safe trade is announced exactly when its outcome proves an execution of
    the refreshed authorization from the seeded balances. *)
Lemma liveSafeAllowed_exact o : liveSafeAllowed o = true ↔
  ro_kind o = RK_SAFE ∧ ro_authorizationSource o = REFRESHED_AUTHORIZATION_SOURCE ∧ ro_signature o ≠ "" ∧ 0 < ro_slot o ∧
  ro_before o = mkReplayBalances EXPECTED_IN_AMOUNT 0 ∧ ro_signer o = ro_feePayer o ∧ trade_executed o.
Proof.
  unfold liveSafeAllowed. autorewrite with flags. rewrite is_null_true, Z.ltb_lt, Nat.ltb_lt, negb_true_iff.
  assert ((0 < String.length (ro_signature o))%nat ↔ ro_signature o ≠ "") as ->.
  { destruct (ro_signature o); cbn; split; (done || lia). }
  split.
  - intros H. destruct_and!. split_and!; try done; [destruct (ro_before o); cbn in *; by subst|]. split; try done; lia.
  - intros (? & ? & ? & ? & Hb & ? & Ho). destruct (executed_display _ Ho) as [_ Hk]. destruct Ho as [? ? (? & ? & ?) (? & ?)]. rewrite Hb in *. cbn in *.
    split_and!; try done; lia.
Qed.
