(* ===== verification/DemoView.v ===== *)
(** * demo-view.ts and app.ts of apps/phantom-local-feasibility: what the page shows, and of which attempt

    The view keeps one state per leg and drops whatever belongs to an older
    attempt. The page runs one leg at a time: its handlers are the steps of a
    relation, a step per continuation, so every state the user can see between
    two of them is a state of the relation. The texts of errors are whatever
    they are. *)

From S2P Require Import Prelude Js Errors Kit Abi Snapshot CanonicalKey DemoChain Attestation Flow ActivationProof ReplayModel LocalFunding LocalOutcome LocalView.

(* ------------------------------------------------------------------ *)
(** ** demo-view.ts *)

Inductive Leg : Set := LEG_STALE | LEG_REFRESHED.

#[export] Instance Leg_eq_dec : EqDecision Leg.
Proof. solve_decision. Defined.

Record LegFailure := mkLegFailure {
  fl_stage : BuyStage;
  fl_headline : string;
  fl_technical : string;
  fl_walletRequested : bool;
  fl_submitted : bool;
}.

Inductive LegState : Type :=
| LEG_IDLE
| LEG_RUNNING
| LEG_SUCCESS (body : string)
| LEG_FAILED (failure : LegFailure).

Record DemoView := mkView {
  vw_attempt : Z;
  vw_stale : LegState;
  vw_refreshed : LegState;
  vw_reviewed : bool;
  vw_notice : option string;
}.

Definition initialView : DemoView := mkView 0 LEG_IDLE LEG_IDLE false None.

Definition beginAttempt (view : DemoView) : DemoView := mkView (vw_attempt view + 1) LEG_RUNNING LEG_IDLE false None.

Definition beginRefreshedLeg (view : DemoView) : DemoView := mkView (vw_attempt view) (vw_stale view) LEG_RUNNING (vw_reviewed view) None.

Definition ignoreStale (view : DemoView) (attempt : Z) : bool := negb (attempt =? vw_attempt view).

Definition withResult (view : DemoView) (attempt : Z) (leg : Leg) (body : string) : DemoView :=
  if ignoreStale view attempt then view
  else match leg with
       | LEG_STALE => mkView (vw_attempt view) (LEG_SUCCESS body) (vw_refreshed view) (vw_reviewed view) None
       | LEG_REFRESHED => mkView (vw_attempt view) (vw_stale view) (LEG_SUCCESS body) (vw_reviewed view) None
       end.

Definition withFailure (view : DemoView) (attempt : Z) (leg : Leg) (failure : LegFailure) : DemoView :=
  if ignoreStale view attempt then view
  else match leg with
       | LEG_STALE => mkView (vw_attempt view) (LEG_FAILED failure) (vw_refreshed view) (vw_reviewed view) (vw_notice view)
       | LEG_REFRESHED => mkView (vw_attempt view) (vw_stale view) (LEG_FAILED failure) (vw_reviewed view) (vw_notice view)
       end.

Definition withReview (view : DemoView) : DemoView :=
  match vw_stale view with
  | LEG_SUCCESS _ => mkView (vw_attempt view) (vw_stale view) (vw_refreshed view) true (vw_notice view)
  | _ => view
  end.

Definition withNotice (view : DemoView) (attempt : Z) (notice : option string) : DemoView :=
  if ignoreStale view attempt then view else mkView (vw_attempt view) (vw_stale view) (vw_refreshed view) (vw_reviewed view) notice.

Record RenderedPanels := mkPanels {
  pn_staleResult : option string;
  pn_reviewCta : bool;
  pn_updatedTerms : bool;
  pn_refreshedResult : option string;
  pn_failure : option (Leg * string);
  pn_notice : option string;
  pn_technical : option string;
}.

Definition NO_SIGNATURE : string := "No wallet signature was requested.".
Definition NO_SUBMISSION : string := "No transaction was submitted.".

Definition failureText (leg : Leg) (failure : LegFailure) : string :=
  lines ([match leg with LEG_STALE => "Stale protection" | LEG_REFRESHED => "Updated authorization" end; "✕ " +:+ fl_headline failure]
         ++ (if fl_walletRequested failure then [] else [NO_SIGNATURE]) ++ (if fl_submitted failure then [] else [NO_SUBMISSION])).

Definition success_of (s : LegState) : option string := match s with LEG_SUCCESS body => Some body | _ => None end.
Definition failure_of (s : LegState) : option LegFailure := match s with LEG_FAILED failure => Some failure | _ => None end.
Definition is_idle (s : LegState) : bool := match s with LEG_IDLE => true | _ => false end.

Definition panels (view : DemoView) : RenderedPanels :=
  let staleResult := success_of (vw_stale view) in
  let refreshedResult := success_of (vw_refreshed view) in
  let failedLeg := match failure_of (vw_refreshed view), failure_of (vw_stale view) with
                   | Some failure, _ => Some (LEG_REFRESHED, failure)
                   | None, Some failure => Some (LEG_STALE, failure)
                   | None, None => None
                   end in
  mkPanels staleResult
    (bool_decide (is_Some staleResult) && is_idle (vw_refreshed view))
    (bool_decide (is_Some staleResult) && vw_reviewed view && is_idle (vw_refreshed view))
    refreshedResult
    ((λ l, (l.1, failureText l.1 l.2)) <$> failedLeg)
    (vw_notice view)
    ((λ l, fl_technical l.2) <$> failedLeg).

(* ------------------------------------------------------------------ *)
(** ** app.ts *)

Section Page.
  Context {Prepared Outcome : Type} (replayed : Outcome → ReplayOutcome).

Abbreviation run_proof := (ActivationProof (Prepared := Prepared) (Outcome := Outcome)).

(** The module state of the page. [pg_running]: the leg whose handler waits,
    with the attempt it read; [pg_stages]: what was reported since it began. *)
Record page := mkPage {
  pg_localT : option Z;
  pg_stale : option run_proof;
  pg_refreshed : option run_proof;
  pg_busy : bool;
  pg_started : bool;
  pg_failureStage : BuyStage;
  pg_view : DemoView;
  pg_walletRequested : bool;
  pg_submitted : bool;
  pg_running : option (Leg * Z);
  pg_stages : list BuyStage;
}.

Definition initial_page : page :=
  mkPage None None None false false B_ENVIRONMENT_CHECK initialView false false None [].

(** [stage(value, clock)]. *)
Definition page_stage (value : BuyStage) (clock : option ChainClock) (p : page) : page :=
  mkPage (pg_localT p) (pg_stale p) (pg_refreshed p) (pg_busy p) (pg_started p) value
    (withNotice (pg_view p) (vw_attempt (pg_view p)) (Some (stageStatus value clock (pg_localT p))))
    (pg_walletRequested p || bool_decide (value = B_SIGN_REQUEST)) (pg_submitted p || bool_decide (value = B_SUBMISSION))
    (pg_running p) (pg_stages p ++ [value]).

(** [failure(leg, attempt, error)], then the [finally] clause. *)
Definition page_failure (leg : Leg) (attempt : Z) (headline technical : string) (p : page) : page :=
  let failure := mkLegFailure (pg_failureStage p) headline technical (pg_walletRequested p) (pg_submitted p) in
  mkPage (pg_localT p) (pg_stale p) (pg_refreshed p) false (pg_started p) (pg_failureStage p)
    (withNotice (withFailure (pg_view p) attempt leg failure) attempt None) (pg_walletRequested p) (pg_submitted p) None (pg_stages p).

(** The part of [start] before its first wait. *)
Definition page_start (p : page) : page :=
  let view := beginAttempt (pg_view p) in
  page_stage B_PHANTOM_CONNECT None
    (mkPage (pg_localT p) None None true (pg_started p) (pg_failureStage p) view false false (Some (LEG_STALE, vw_attempt view)) []).

(** The fixture files are loaded; the activation is armed. *)
Definition page_loaded (p : page) : page :=
  mkPage (pg_localT p) (pg_stale p) (pg_refreshed p) (pg_busy p) true (pg_failureStage p) (pg_view p) (pg_walletRequested p) (pg_submitted p)
    (pg_running p) (pg_stages p).
Definition page_armed (localT : Z) (p : page) : page :=
  mkPage (Some localT) (pg_stale p) (pg_refreshed p) (pg_busy p) (pg_started p) (pg_failureStage p) (pg_view p) (pg_walletRequested p)
    (pg_submitted p) (pg_running p) (pg_stages p).

(** A run that returned its proof: the proof is kept, then its message shown,
    unless rendering it throws. *)
Definition page_proved (leg : Leg) (attempt localT : Z) (proof : run_proof) (headline technical : string) (p : page) : page :=
  let p := mkPage (pg_localT p) (match leg with LEG_STALE => Some proof | LEG_REFRESHED => pg_stale p end)
             (match leg with LEG_STALE => pg_refreshed p | LEG_REFRESHED => Some proof end)
             (pg_busy p) (pg_started p) (pg_failureStage p) (pg_view p) (pg_walletRequested p) (pg_submitted p) (pg_running p) (pg_stages p) in
  match reproductionMessage replayed localT proof with
  | Ok body =>
      mkPage (pg_localT p) (pg_stale p) (pg_refreshed p) false (pg_started p) (pg_failureStage p) (withResult (pg_view p) attempt leg body)
        (pg_walletRequested p) (pg_submitted p) None (pg_stages p)
  | Err _ => page_failure leg attempt headline technical p
  end.

(** [review], and the part of [confirm] before its first wait: [data] and
    [provider] are set for good just before [started] is. *)
Definition page_review (p : page) : page :=
  if pg_busy p then p
  else mkPage (pg_localT p) (pg_stale p) (pg_refreshed p) (pg_busy p) (pg_started p) (pg_failureStage p) (withReview (pg_view p))
         (pg_walletRequested p) (pg_submitted p) (pg_running p) (pg_stages p).

Definition page_confirm (p : page) : page :=
  if pg_busy p || negb (bool_decide (is_Some (pg_stale p))) || negb (pg_started p) || negb (bool_decide (is_Some (pg_localT p)))
     || negb (pn_updatedTerms (panels (pg_view p)))
  then p
  else
    let view := beginRefreshedLeg (pg_view p) in
    mkPage (pg_localT p) (pg_stale p) (pg_refreshed p) true (pg_started p) (pg_failureStage p) view false false
      (Some (LEG_REFRESHED, vw_attempt view)) [].

Inductive page_step : page → page → Prop :=
| step_start p : page_step p (if pg_busy p || pg_started p then p else page_start p)
| step_stage p leg value clock : pg_running p = Some leg → page_step p (page_stage value clock p)
| step_loaded p attempt : pg_running p = Some (LEG_STALE, attempt) → pg_started p = false → page_step p (page_loaded p)
| step_armed p attempt localT : pg_running p = Some (LEG_STALE, attempt) → pg_started p = true → pg_localT p = None → page_step p (page_armed localT p)
| step_proved p leg attempt localT proof headline technical :
    pg_running p = Some (leg, attempt) → pg_started p = true → pg_localT p = Some localT →
    page_step p (page_proved leg attempt localT proof headline technical p)
| step_failed p leg attempt headline technical : pg_running p = Some (leg, attempt) → page_step p (page_failure leg attempt headline technical p)
| step_review p : page_step p (page_review p)
| step_confirm p : page_step p (page_confirm p).

(** What [render] shows: the panels, the three buttons and the technical drawer. *)
Record rendered := mkRendered {
  rd_panels : RenderedPanels;
  rd_buyDisabled : bool;
  rd_reviewDisabled : bool;
  rd_confirmDisabled : bool;
  rd_proofs : option run_proof * option run_proof;
}.

Definition render (p : page) : rendered :=
  let shown := panels (pg_view p) in
  mkRendered shown (pg_busy p || pg_started p) (pg_busy p || negb (pn_reviewCta shown)) (pg_busy p || negb (pn_updatedTerms shown))
    (pg_stale p, pg_refreshed p).
End Page.

(* ------------------------------------------------------------------ *)
(** ** What is shown *)

Section PageSpec.
  Context {Prepared Outcome : Type} (replayed : Outcome → ReplayOutcome).
  Implicit Type p : page (Prepared := Prepared) (Outcome := Outcome).

(** Why a leg may show what it shows. *)
Definition leg_proven (localT : option Z) (proof : option (ActivationProof (Prepared := Prepared) (Outcome := Outcome))) (s : LegState) : Prop :=
  match s with
  | LEG_SUCCESS body => ∃ t pf, localT = Some t ∧ proof = Some pf ∧ reproductionMessage replayed t pf = Ok body
  | _ => True
  end.

(** What a failed leg says of the wallet and of the validator. *)
Definition leg_honest (stages : list BuyStage) (s : LegState) : Prop :=
  match s with
  | LEG_FAILED f => fl_walletRequested f = bool_decide (B_SIGN_REQUEST ∈ stages) ∧ fl_submitted f = bool_decide (B_SUBMISSION ∈ stages)
  | _ => True
  end.

(** The states of the page between two steps. *)
Record page_ok p : Prop := {
  po_stale : leg_proven (pg_localT p) (pg_stale p) (vw_stale (pg_view p));
  po_refreshed : leg_proven (pg_localT p) (pg_refreshed p) (vw_refreshed (pg_view p));
  po_flags : pg_walletRequested p = bool_decide (B_SIGN_REQUEST ∈ pg_stages p) ∧ pg_submitted p = bool_decide (B_SUBMISSION ∈ pg_stages p);
  po_busy : pg_busy p = bool_decide (is_Some (pg_running p));
  po_running : ∀ leg attempt, pg_running p = Some (leg, attempt) → attempt = vw_attempt (pg_view p) ∧
    (match leg with LEG_STALE => vw_stale (pg_view p) | LEG_REFRESHED => vw_refreshed (pg_view p) end) = LEG_RUNNING ∧
    (leg = LEG_STALE → vw_refreshed (pg_view p) = LEG_IDLE);
  po_order : vw_refreshed (pg_view p) ≠ LEG_IDLE → is_Some (success_of (vw_stale (pg_view p)));
  po_started : is_Some (success_of (vw_stale (pg_view p))) → pg_started p = true;
  po_failed : leg_honest (pg_stages p) (vw_refreshed (pg_view p)) ∧ leg_honest (pg_stages p) (vw_stale (pg_view p));
}.

Lemma initial_page_ok : page_ok (initial_page (Prepared := Prepared) (Outcome := Outcome)).
Proof. split; cbn; try done; by intros ?%is_Some_None. Qed.

Lemma ok_notice p notice : page_ok p → page_ok (mkPage (pg_localT p) (pg_stale p) (pg_refreshed p) (pg_busy p) (pg_started p) (pg_failureStage p)
  (withNotice (pg_view p) (vw_attempt (pg_view p)) notice) (pg_walletRequested p) (pg_submitted p) (pg_running p) (pg_stages p)).
Proof. intros []. unfold withNotice, ignoreStale. rewrite Z.eqb_refl. by split. Qed.

Lemma reports_or (s k : BuyStage) l : bool_decide (k ∈ l) || bool_decide (s = k) = bool_decide (k ∈ l ++ [s]).
Proof. rewrite <- bool_decide_or. apply bool_decide_ext. rewrite elem_of_app, list_elem_of_singleton. naive_solver. Qed.

(** While a leg runs nothing has failed. *)
Lemma running_not_failed p leg attempt : page_ok p → pg_running p = Some (leg, attempt) → ∀ l, leg_honest l (vw_refreshed (pg_view p)) ∧ leg_honest l (vw_stale (pg_view p)).
Proof.
  intros [_ _ _ _ Hrun Horder _ _] Hp l. destruct (Hrun _ _ Hp) as (_ & Hleg & Hidle). destruct leg.
  - rewrite Hleg, (Hidle eq_refl). done.
  - rewrite Hleg in *. destruct (Horder ltac:(done)) as [? Hs]. by destruct (vw_stale (pg_view p)).
Qed.

Lemma ok_stage p leg value clock : page_ok p → pg_running p = Some leg → page_ok (page_stage value clock p).
Proof.
  destruct leg as [leg attempt]. intros Hok Hp. pose proof (running_not_failed _ _ _ Hok Hp) as Hfail. destruct Hok as [? ? [Hw Hs] ? ? ? ? _].
  unfold page_stage, withNotice, ignoreStale. rewrite Z.eqb_refl. split; cbn; try done. by rewrite Hw, Hs, !reports_or.
Qed.

Lemma ok_failure p leg attempt headline technical : page_ok p → pg_running p = Some (leg, attempt) → page_ok (page_failure leg attempt headline technical p).
Proof.
  intros Hok Hp. pose proof (running_not_failed _ _ _ Hok Hp) as Hfail. destruct Hok as [Hst Hre [Hw Hs] _ Hrun Horder Hstarted _].
  destruct (Hrun _ _ Hp) as (-> & Hleg & Hidle). unfold page_failure, withFailure, withNotice, ignoreStale. rewrite Z.eqb_refl. cbn [negb].
  destruct leg; cbn; rewrite Z.eqb_refl; cbn; split; cbn; try done.
  - by rewrite (Hidle eq_refl).
  - split; [by rewrite (Hidle eq_refl)|done].
  - intros _. apply Horder. by rewrite Hleg.
  - split; [done|apply (proj2 (Hfail _))].
Qed.

Lemma ok_start p : page_ok p → pg_busy p || pg_started p = false → page_ok (page_start p).
Proof.
  intros _ _. unfold page_start, page_stage, withNotice, ignoreStale. cbn. rewrite Z.eqb_refl. split; cbn; try done; try (by intros ?%is_Some_None).
  intros leg attempt [= <- <-]. done.
Qed.

Lemma ok_proved p leg attempt localT proof headline technical :
  page_ok p → pg_running p = Some (leg, attempt) → pg_started p = true → pg_localT p = Some localT →
  page_ok (page_proved replayed leg attempt localT proof headline technical p).
Proof.
  intros Hok Hp Hst HT. destruct (po_running _ Hok _ _ Hp) as (-> & Hleg & Hidle). unfold page_proved.
  destruct (reproductionMessage replayed localT proof) as [body|e] eqn:Hm.
  - pose proof (running_not_failed _ _ _ Hok Hp) as Hfail. destruct Hok as [? ? Hflags _ Hrun Horder Hstarted _].
    unfold withResult, ignoreStale. cbn. rewrite Z.eqb_refl. destruct leg; cbn; split; cbn; try done; try (by exists localT, proof).
    + split; [apply (proj1 (Hfail _))|done].
    + intros _. apply Horder. by rewrite Hleg.
    + split; [done|apply (proj2 (Hfail _))].
  - apply ok_failure; [|done]. destruct Hok. destruct leg; split; cbn; try done; rewrite Hleg; done.
Qed.

Lemma ok_confirm p : page_ok p → page_ok (page_confirm p).
Proof.
  intros Hok. unfold page_confirm. destruct (_ || _) eqn:E; [done|]. autorewrite with flags in E. destruct E as [[[[Hb Hs] Hst] HT] Hu].
  cbn in Hu. rewrite !andb_true_iff, bool_decide_eq_true in Hu. destruct Hu as [[Hsucc Hrev] Hidle]. destruct Hok.
  split; cbn; try done.
  - intros leg attempt [= <- <-]. done.
  - destruct Hsucc as [body Hsucc]. by destruct (vw_stale (pg_view p)).
Qed.

Lemma withReview_legs view : vw_attempt (withReview view) = vw_attempt view ∧ vw_stale (withReview view) = vw_stale view ∧
  vw_refreshed (withReview view) = vw_refreshed view.
Proof. unfold withReview. destruct (vw_stale view) eqn:E; by rewrite ?E. Qed.

Lemma page_step_ok p p' : page_step replayed p p' → page_ok p → page_ok p'.
Proof.
  intros Hstep Hok. destruct Hstep as [p|p leg value clock Hp|p attempt Hp Hst|p attempt localT Hp Hst HT|p leg attempt localT proof h t Hp Hst HT
    |p leg attempt h t Hp|p|p].
  - destruct (_ || _) eqn:E; [done|by apply ok_start].
  - by eapply ok_stage.
  - by destruct Hok; split.
  - destruct (po_running _ Hok _ _ Hp) as (_ & Hleg & Hidle). destruct Hok. split; cbn; try done; [by rewrite Hleg|by rewrite (Hidle eq_refl)].
  - by apply ok_proved.
  - by apply ok_failure.
  - unfold page_review. destruct (pg_busy p) eqn:E; [done|]. destruct (withReview_legs (pg_view p)) as (Ha & Hs & Hr).
    destruct Hok. split; cbn; rewrite ?Ha, ?Hs, ?Hr, ?E in *; done.
  - by apply ok_confirm.
Qed.

Lemma reachable_page_ok p : rtc (page_step replayed) (initial_page (Prepared := Prepared) (Outcome := Outcome)) p → page_ok p.
Proof.
  intros H. remember initial_page as p0 eqn:H0. pose proof initial_page_ok as Hok. rewrite <- H0 in Hok. clear H0.
  induction H as [|? ? ? Hs _ IH]; [done|]. apply IH. by eapply page_step_ok.
Qed.

(** C22: what the page shows is proven: a result is on screen only while the
    proof it comes from is kept, for this activation time, and its text is the
    message of that proof; the executed trade is shown only beside the rejected
    one; a failure stands for its own leg, beside no result of that leg. No
    button can be pressed while a leg runs. The first trade can be started only
    where nothing is shown and no other button can be pressed; the review only
    beside a rejected trade after which nothing was tried; the confirmation
    exactly where the review can be pressed and was, so both can be pressed
    then. *)
Theorem page_shows_only_proven p : rtc (page_step replayed) (initial_page (Prepared := Prepared) (Outcome := Outcome)) p →
  let shown := rd_panels (render p) in
  (∀ text, pn_staleResult shown = Some text → ∃ localT proof,
     pg_localT p = Some localT ∧ fst (rd_proofs (render p)) = Some proof ∧ reproductionMessage replayed localT proof = Ok text) ∧
  (∀ text, pn_refreshedResult shown = Some text → is_Some (pn_staleResult shown) ∧ ∃ localT proof,
     pg_localT p = Some localT ∧ snd (rd_proofs (render p)) = Some proof ∧ reproductionMessage replayed localT proof = Ok text) ∧
  (∀ leg text, pn_failure shown = Some (leg, text) → pn_refreshedResult shown = None ∧ (leg = LEG_STALE → pn_staleResult shown = None)) ∧
  (rd_buyDisabled (render p) = false → pn_staleResult shown = None ∧ rd_reviewDisabled (render p) = true ∧ rd_confirmDisabled (render p) = true) ∧
  (rd_reviewDisabled (render p) = false ↔ pg_running p = None ∧ is_Some (pn_staleResult shown) ∧ vw_refreshed (pg_view p) = LEG_IDLE) ∧
  (rd_confirmDisabled (render p) = false ↔ rd_reviewDisabled (render p) = false ∧ vw_reviewed (pg_view p) = true) ∧
  (is_Some (pg_running p) → rd_buyDisabled (render p) = true ∧ rd_reviewDisabled (render p) = true ∧ rd_confirmDisabled (render p) = true).
Proof.
  intros Hok%reachable_page_ok. destruct Hok as [Hs Hr _ Hb _ Ho Hst _]. destruct p as [localT st re busy started fs [attempt vs vr rev notice] wr sub running stages].
  unfold render, panels, failure_of. cbn in *. split_and!.
  - intros text H. destruct vs; try done. injection H as <-. destruct Hs as (t & pf & ? & ? & ?). by exists t, pf.
  - intros text H. destruct vr; try done. injection H as <-. split; [by apply Ho|]. destruct Hr as (t & pf & ? & ? & ?). by exists t, pf.
  - intros leg text H. destruct vr; [| |by destruct (Ho ltac:(done)); destruct vs|]; [..|by injection H as <- _].
    all: destruct vs; try done; by injection H as <- _.
  - intros [-> ->]%orb_false_iff. destruct vs; try done. by specialize (Hst ltac:(by eexists)).
  - rewrite Hb. destruct running; cbn; [split; [done|by intros (? & _)]|]. destruct vs, vr; cbn; split; try done; naive_solver.
  - destruct busy, vs, vr, rev; cbn; naive_solver.
  - intros Hsome. rewrite Hb. by rewrite bool_decide_true.
Qed.
End PageSpec.

(* ------------------------------------------------------------------ *)
(** ** A failed leg and the run behind it *)

Definition is_signature (a : asked) : bool := match a with AskedSignature => true | _ => false end.
Definition is_submission (a : asked) : bool := match a with AskedSubmission _ => true | _ => false end.

Lemma existsb_elem {A} (f : A → bool) (l : list A) (P : Prop) : ((∃ a, a ∈ l ∧ f a = true) ↔ P) → ∀ `{!Decision P}, existsb f l = bool_decide P.
Proof.
  intros HP ?. apply eq_true_iff_eq. rewrite bool_decide_eq_true, <- HP, existsb_exists. by setoid_rewrite list_elem_of_In.
Qed.

Section Honest.
  Context {hash : Digest} {X Prepared Outcome : Type} (replayed : Outcome → ReplayOutcome).
  (** [new Error(message)]. *)
  Variable plain_error : string → X.
  Variable deps : ActivationDependencies X Prepared Outcome.

(** A leg whose run fails says that no wallet signature was requested, and
    that no transaction was submitted, exactly when the run did not ask the
    wallet, did not submit: for every page the run can find itself on, when
    the page heard its stages. *)
Theorem failed_leg_honest (p : page (Prepared := Prepared) (Outcome := Outcome)) leg attempt localT stale e t' headline technical :
  rtc (page_step replayed) initial_page p → pg_running p = Some (leg, attempt) →
  executeAcrossActivation plain_error deps localT stale (0%nat, []) = (Err e, t') →
  (∀ s, s = B_SIGN_REQUEST ∨ s = B_SUBMISSION → s ∈ pg_stages p ↔ ReportedStage s ∈ t'.2) →
  pn_failure (rd_panels (render (page_failure leg attempt headline technical p))) = Some (leg,
    lines ([match leg with LEG_STALE => "Stale protection" | LEG_REFRESHED => "Updated authorization" end; "✕ " +:+ headline]
           ++ (if existsb is_signature t'.2 then [] else ["No wallet signature was requested."])
           ++ (if existsb is_submission t'.2 then [] else ["No transaction was submitted."]))).
Proof.
  intros Hok%reachable_page_ok Hp Hrun Hheard. apply execute_announced in Hrun as (new & Hnew & Hsig & Hsub). cbn in Hnew. rewrite <- Hnew in *.
  assert (existsb is_signature t'.2 = pg_walletRequested p) as ->.
  { rewrite (proj1 (po_flags _ _ Hok)). apply existsb_elem. rewrite Hheard, <- Hsig by auto. split; [intros ([] & ? & ?); done|intros H; by exists AskedSignature]. }
  assert (existsb is_submission t'.2 = pg_submitted p) as ->.
  { rewrite (proj2 (po_flags _ _ Hok)). apply existsb_elem. rewrite Hheard, <- Hsub by auto. split; [intros ([] & ? & ?); try done; by eexists|].
    intros [w H]. by exists (AskedSubmission w). }
  destruct (po_running _ _ Hok _ _ Hp) as (-> & Hleg & Hidle). unfold page_failure, withFailure, withNotice, ignoreStale. rewrite Z.eqb_refl. cbn [negb].
  destruct leg; cbn; rewrite Z.eqb_refl; cbn; unfold panels; cbn; [by rewrite (Hidle eq_refl)|done].
Qed.
End Honest.

(* ------------------------------------------------------------------ *)
(** ** At concrete pages *)

Definition sample_stale_outcome : ReplayOutcome :=
  mkReplayOutcome RK_STALE "signature" 7 "wallet" "wallet" JNull (Some (NumInt 0)) (Some (NumInt 12)) (Some E_ActivationPhaseChanged) true false false
    (mkReplayBalances 5000000 0) (mkReplayBalances 5000000 0) true [] None None LOCAL_ACTIVATION_SOURCE.

(** [start] until the coordinator armed the activation. *)
Definition sample_armed : page (Prepared := unit) (Outcome := string) := page_armed 100 (page_loaded (page_start initial_page)).

Lemma sample_armed_reachable : rtc (page_step (λ _, sample_stale_outcome)) initial_page sample_armed.
Proof.
  eapply rtc_l; [exact (step_start _ initial_page)|]. eapply rtc_l; [by eapply step_loaded|]. by eapply rtc_once, step_armed.
Qed.

Definition sample_shown : page (Prepared := unit) (Outcome := string) :=
  match fst sample_flow with Ok proof => page_proved (λ _, sample_stale_outcome) LEG_STALE 1 100 proof "" "" sample_armed | Err _ => sample_armed end.

Lemma page_shows_only_proven_witness : pn_staleResult (rd_panels (render sample_shown)) = Some STALE_TEXT ∧
  ∃ localT proof, pg_localT sample_shown = Some localT ∧ fst (rd_proofs (render sample_shown)) = Some proof ∧
    reproductionMessage (λ _, sample_stale_outcome) localT proof = Ok STALE_TEXT.
Proof.
  assert (H : pn_staleResult (rd_panels (render sample_shown)) = Some STALE_TEXT) by (vm_compute; reflexivity).
  split; [exact H|]. refine (proj1 (page_shows_only_proven (λ _, sample_stale_outcome) sample_shown _) STALE_TEXT H).
  unfold sample_shown. destruct (fst sample_flow) eqn:E; [|exact sample_armed_reachable].
  eapply rtc_r; [exact sample_armed_reachable|]. by apply step_proved.
Defined.

(** A blockhash that expires while the run waits: the wallet was asked. *)
Definition sample_expired : ActivationDependencies demo_exn unit string :=
  mkDependencies (dep_build sample_dependencies) (dep_attestPreSignSimulation sample_dependencies) (dep_sign sample_dependencies)
    (dep_attestSignedAuthorization sample_dependencies) (dep_attestDeployment sample_dependencies) (dep_clock sample_dependencies)
    (λ _ _, Ok (mkLifetime false 1000 1150)) (dep_submit sample_dependencies).

Definition stages_of (l : list asked) : list BuyStage := omap (λ a, match a with ReportedStage s => Some s | _ => None end) l.

Lemma elem_stages_of s l : s ∈ stages_of l ↔ ReportedStage s ∈ l.
Proof.
  unfold stages_of. rewrite list_elem_of_omap. split; [|by exists (ReportedStage s)].
  intros (a & Ha & Heq). destruct a; try done. by injection Heq as ->.
Qed.

Definition expired_flow := executeAcrossActivation (hash := zero_digest) PlainError sample_expired 100 true (0%nat, []).

Definition sample_heard : page (Prepared := unit) (Outcome := string) :=
  foldl (λ p s, page_stage s None p) sample_armed (stages_of (snd (snd expired_flow))).

Lemma heard_reachable {Prepared Outcome} (replayed : Outcome → ReplayOutcome) stages (p : page (Prepared := Prepared)) leg :
  rtc (page_step replayed) initial_page p → pg_running p = Some leg →
  rtc (page_step replayed) initial_page (foldl (λ p s, page_stage s None p) p stages) ∧ pg_running (foldl (λ p s, page_stage s None p) p stages) = Some leg.
Proof.
  revert p. induction stages as [|s stages IH]; intros p Hp Hrun; [done|]. apply IH; [|done]. eapply rtc_r; [exact Hp|]. by eapply step_stage.
Qed.

Lemma failed_leg_honest_witness :
  pn_failure (rd_panels (render (page_failure LEG_STALE 1 "Expired" "" sample_heard))) =
    Some (LEG_STALE, lines ["Stale protection"; "✕ Expired"; "No transaction was submitted."]).
Proof.
  destruct (heard_reachable (λ _, sample_stale_outcome) (stages_of (snd (snd expired_flow))) sample_armed (LEG_STALE, 1) sample_armed_reachable eq_refl)
    as [Hreach Hrun].
  refine (failed_leg_honest (hash := zero_digest) (λ _, sample_stale_outcome) PlainError sample_expired sample_heard LEG_STALE 1 100 true
    (PlainError "Original blockhash expired; aborted without rebuilding or re-signing") (snd expired_flow) "Expired" "" Hreach Hrun
    ltac:(vm_compute; reflexivity) _).
  assert (Hheard : pg_stages sample_heard = B_PHANTOM_CONNECT :: stages_of (snd (snd expired_flow))) by (vm_compute; reflexivity).
  intros s Hs. rewrite Hheard, elem_of_cons, elem_stages_of. split; [intros [->|H]; [by destruct Hs|exact H]|intros H; right; exact H].
Defined.
