(* ===== verification/LocalHost.v ===== *)
(** * The loopback gate: assertLocalRpcUrl, local-host.ts and server/local-origin.ts

    Every privileged request of the study goes through a URL one of these
    accepted. The URL parser of the platform is a parameter; it shows the four
    parts of a URL the code reads. *)

From S2P Require Import Prelude Js Errors Kit LocalOutcome.

(** What is read of a [URL]. *)
Record Url := mkUrl { url_protocol : string; url_hostname : string; url_port : string; url_origin : string; url_href : string }.

(** [http:] on one of the two names of the loopback host. *)
Definition is_loopback (url : Url) : bool :=
  String.eqb (url_protocol url) "http:" && (String.eqb (url_hostname url) "127.0.0.1" || String.eqb (url_hostname url) "localhost").

Definition LOCAL_RPC_URL : string := "http://127.0.0.1:8899".
Definition LOCAL_DEMO_PORTS : list string := ["4175"; "3000"; "3001"].

Section Host.
  (** [new URL(s)], [None] when it throws. *)
  Variable parse_url : string → option Url.

Definition assertLocalRpcUrl (value : string) : result replay_exn Url :=
  match parse_url value with
  | None => Err (FeasibilityError LOCAL_RPC_REFUSED ("Refusing invalid RPC URL: " +:+ value))
  | Some url =>
      throw_if (negb (String.eqb (url_protocol url) "http:")
                || (negb (String.eqb (url_hostname url) "127.0.0.1") && negb (String.eqb (url_hostname url) "localhost")))
        (FeasibilityError LOCAL_RPC_REFUSED ("Refusing non-local RPC URL: " +:+ url_origin url));;
      Ok url
  end.

(** The module variable [configured] is the state. *)
Definition configureLocalCoordinator (configured origin : string) : result replay_exn string :=
  url ← assertLocalRpcUrl origin;
  Ok (url_origin url).

Definition coordinatorUrl (configured path : string) : string := configured +:+ path.

Definition fixtureUrl (configured name : string) : string :=
  if String.eqb configured "" then "./" +:+ name else configured +:+ "/" +:+ name.

Definition isLocalDemoOrigin (origin : option string) : bool :=
  match origin ≫= parse_url with
  | None => false
  | Some url => is_loopback url && bool_decide (url_port url ∈ LOCAL_DEMO_PORTS)
  end.

(** Configurations one after another; a refused one leaves the state. *)
Fixpoint configure_all (configured : string) (origins : list string) : string :=
  match origins with
  | [] => configured
  | origin :: origins => configure_all (match configureLocalCoordinator configured origin with Ok c => c | Err _ => configured end) origins
  end.

Lemma assertLocalRpcUrl_Ok value url : assertLocalRpcUrl value = Ok url ↔ parse_url value = Some url ∧ is_loopback url = true.
Proof.
  unfold assertLocalRpcUrl, is_loopback. destruct (parse_url value) as [u|]; [|by split; [|intros [? _]]].
  rewrite throw_if_then_Ok, orb_false_iff, negb_false_iff, andb_true_iff. split.
  - intros ([Hp Hh] & [= <-]). rewrite Hp. split; [done|]. split; [done|]. by destruct (String.eqb _ "127.0.0.1"), (String.eqb _ "localhost").
  - intros ([= ->] & Hp & Hh). rewrite Hp. split; [|done]. split; [done|]. by destruct (String.eqb _ "127.0.0.1"), (String.eqb _ "localhost").
Qed.

(** Whatever origins it is given, the flow only ever reaches its own
    origin or the origin of a loopback URL; and an origin the coordinator
    serves is one the gate of the flow accepts too. *)
Theorem coordinator_is_loopback origins path name :
  let configured := configure_all "" origins in
  (configured = "" ∧ fixtureUrl configured name = "./" +:+ name ∨
   ∃ origin url, origin ∈ origins ∧ parse_url origin = Some url ∧ is_loopback url = true ∧ configured = url_origin url) ∧
  coordinatorUrl configured path = configured +:+ path ∧
  ∀ origin, isLocalDemoOrigin (Some origin) = true → ∃ url, assertLocalRpcUrl origin = Ok url.
Proof.
  cbv zeta. split; [|split; [done|]].
  - cut (configure_all "" origins = "" ∨ ∃ origin url, origin ∈ origins ∧ parse_url origin = Some url ∧ is_loopback url = true ∧
      configure_all "" origins = url_origin url); [intros [->|H]; [by left|by right]|].
    assert (∀ configured, configure_all configured origins = configured ∨ ∃ origin url, origin ∈ origins ∧ parse_url origin = Some url ∧
      is_loopback url = true ∧ configure_all configured origins = url_origin url) as H; [|exact (H "")].
    induction origins as [|o origins IH]; intros configured; [by left|]. cbn [configure_all].
    destruct (configureLocalCoordinator configured o) as [c|e] eqn:Hc.
    + apply bind_Ok in Hc as (url & [Hp Hl]%assertLocalRpcUrl_Ok & [= <-]).
      destruct (IH (url_origin url)) as [->|(o' & u & ? & ? & ? & ?)]; right; [exists o, url|exists o', u]; split_and!; try done; by constructor.
    + destruct (IH configured) as [->|(o' & u & ? & ? & ? & ?)]; [by left|]. right. exists o', u. split_and!; try done. by constructor.
  - intros origin. unfold isLocalDemoOrigin. cbn. destruct (parse_url origin) as [url|] eqn:Hp; [|done].
    intros [Hl _]%andb_true_iff. exists url. by apply assertLocalRpcUrl_Ok.
Qed.
End Host.
