(* ===== verification/ActivationServer.v ===== *)
(** * server/activation-server.ts: the coordinator behind HTTP

    The module's variables are the state. A request runs to its first wait and
    then in parts, and the parts of requests that overlap come in any order:
    each part is a step. The validator, the setup signer's library and the
    runtime's parsers answer anything. Evidence files, log lines and the files
    the page is served from are left out: no step of theirs changes the state. *)

From S2P Require Import Prelude Js Errors Kit Base58 Abi OnChain MintState Snapshot Deployment CanonicalKey BuildClient Compose DemoChain Attestation ActivationProof ReplayModel LocalMint LocalFunding LocalOutcome LocalHost.
From Stdlib Require Import Floats.SpecFloat.

(** What a handler can throw: its own errors, those of the parts it calls, and
    what the validator, the library or [JSON.parse] threw. *)
Inductive server_exn : Type :=
| ServerError (message : string)
| AttestationThrown (e : att_exn)
| DeploymentThrown (e : deployment_exn)
| LocalThrown (e : replay_exn)
| SetupThrown (e : demo_exn)
| SnapshotThrown (e : client_exn)
| RequestThrown (r : rejection)
| NativeThrown.

Definition server_if (b : bool) (message : string) : result server_exn unit := throw_if b (ServerError message).

Definition show_identity_failure (reason : IdentityFailure) : string :=
  match reason with
  | MISSING => "MISSING"
  | NOT_EXECUTABLE => "NOT_EXECUTABLE"
  | UNEXPECTED_LOADER => "UNEXPECTED_LOADER"
  | PROGRAM_DATA_MISMATCH => "PROGRAM_DATA_MISMATCH"
  | BINARY_MISMATCH => "BINARY_MISMATCH"
  | MALFORMED_PROGRAM_DATA => "MALFORMED_PROGRAM_DATA"
  end.

(** [code] of the [catch]: what a client is told beside the message. *)
Definition refusalCode (e : server_exn) : option string :=
  match e with
  | AttestationThrown (AttestationError code _ _) => Some code
  | DeploymentThrown (DeploymentRefused reason _) => Some (show_identity_failure reason)
  | DeploymentThrown (DEPLOYMENT_CHANGED _) => Some "DEPLOYMENT_CHANGED"
  | _ => None
  end.

(* ------------------------------------------------------------------ *)
(** ** Requests *)

Record HttpRequest := mkHttpRequest {
  rq_method : option string;
  rq_url : option string;
  rq_origin : option string;
  rq_chunks : list string;
}.

(** The tests of the handler, in their order. *)
Inductive ServerEndpoint : Set :=
| E_preflight | E_status | E_arm | E_evidence | E_pre_sign_simulation | E_signed_authorization | E_deployment_attestation
| E_method_refused | E_file.

#[export] Instance Endpoint_eq_dec : EqDecision ServerEndpoint.
Proof. solve_decision. Defined.

Definition is_method (rq : HttpRequest) (method : string) : bool := bool_decide (rq_method rq = Some method).
Definition is_url (rq : HttpRequest) (url : string) : bool := bool_decide (rq_url rq = Some url).

Definition endpoint_of (rq : HttpRequest) : ServerEndpoint :=
  if is_method rq "OPTIONS" then E_preflight
  else if is_url rq "/api/status" then E_status
  else if is_url rq "/api/arm" && is_method rq "POST" then E_arm
  else if is_url rq "/api/evidence" && is_method rq "POST" then E_evidence
  else if is_url rq "/api/pre-sign-simulation" && is_method rq "POST" then E_pre_sign_simulation
  else if is_url rq "/api/signed-authorization" && is_method rq "POST" then E_signed_authorization
  else if is_url rq "/api/deployment-attestation" && is_method rq "POST" then E_deployment_attestation
  else if negb (is_method rq "GET") then E_method_refused
  else E_file.

(** [text.length]: UTF-16 units of a UTF-8 text. *)
Fixpoint utf16_length (s : string) : Z :=
  match s with
  | EmptyString => 0
  | String c s =>
      let b := Z.of_N (Ascii.N_of_ascii c) in
      (if Z.land b 192 =? 128 then 0 else if 240 <=? b then 2 else 1) + utf16_length s
  end.

(** [body(req)]: the chunks until they are too long. *)
Fixpoint readBody (text : string) (chunks : list string) : result server_exn string :=
  match chunks with
  | [] => Ok text
  | chunk :: chunks =>
      let text := text +:+ chunk in
      server_if (1000000 <? utf16_length text) "Evidence payload too large";;
      readBody text chunks
  end.

(* ------------------------------------------------------------------ *)
(** ** The state *)

Record ArmedActivation := mkArmed {
  aa_localT : string;
  aa_configuredDelay : Z;
  aa_clock : ChainClock;
  aa_confirmedClock : ChainClock;
  aa_setupSignature : string;
  aa_setupAuthority : Address;
  aa_deployment : GuardDeploymentAttestation;
  aa_deploymentDigest : string;
}.

(** The setup transaction, by what its instruction is built from. *)
Record SetupTransaction := mkSetup {
  su_mint : Address;
  su_authority : Address;
  su_multiplier : spec_float;
  su_effectiveTimestamp : Z;
  su_blockhash : string;
}.

(** An [arm()] that waits: before it submits, or for its confirmation. *)
Inductive ArmRun :=
| Preparing
| Confirming (setup : SetupTransaction) (clock : ChainClock).

(** What the two awaited requests of [confirm] answer for one poll. *)
Record SetupStatus := mkSetupStatus { sst_err : bool; sst_confirmationStatus : option string }.

(** What the validator answered to a part of [arm()]: the accounts and the
    blockhash up to the submission; after it the submission itself, the polls
    of the signature (round 59 is the first) and the accounts read back. *)
Inductive SetupAnswers : Type :=
| PrepareAnswers (accounts : list Address → result client_exn RpcReply) (latest : result rejection string)
| ConfirmAnswers (setup : SetupTransaction) (signature : string) (sent : result rejection unit)
    (statuses : nat → result rejection (option SetupStatus)) (accounts : list Address → result client_exn RpcReply).

(** The variables of the module, and of what happened: the runs of [arm()] that
    wait, the transactions submitted and what the validator answered to it. *)
Record ServerState := mkServerState {
  ss_armed : option ArmedActivation;
  ss_arming : bool;
  ss_runs : list ArmRun;
  ss_submitted : list SetupTransaction;
  ss_answers : list SetupAnswers;
  ss_coordinator : CoordinatorAttestations;
  ss_waiting : list waiting;
  ss_reattestations : list (string * string);
}.

Definition started_server : ServerState := mkServerState None false [] [] [] empty_coordinator [] [].

Definition set_arm (armed : option ArmedActivation) (arming : bool) (runs : list ArmRun) (submitted : list SetupTransaction)
    (answers : list SetupAnswers) (st : ServerState) : ServerState :=
  mkServerState armed arming runs submitted answers (ss_coordinator st) (ss_waiting st) (ss_reattestations st).

Definition set_coordinator (coordinator : CoordinatorAttestations) (queue : list waiting) (st : ServerState) : ServerState :=
  mkServerState (ss_armed st) (ss_arming st) (ss_runs st) (ss_submitted st) (ss_answers st) coordinator queue (ss_reattestations st).

Definition set_reattestations (l : list (string * string)) (st : ServerState) : ServerState :=
  mkServerState (ss_armed st) (ss_arming st) (ss_runs st) (ss_submitted st) (ss_answers st) (ss_coordinator st) (ss_waiting st) l.

Section Server.
  Context {address : AddressCodec} {hash : Digest} {trade : TradeCodec}.
  (** The platform, the coordinator's parts and the configuration. *)
  Variable parse_url : string → option Url.
  Variable numberOf : string → jsnum.
  Variable parse_json : string → result rejection jsval.
  (** [BigInt(s)], [None] when it throws. *)
  Variable bigInt : string → option Z.
  Variable base64 : string → bytes.
  Variable base58 : bytes → string.
  Variable ed25519_verify : bytes → bytes → bytes → option bool.
  Variable jsonText : jsval → string.
  Variable newProofId : Z → string.
  Variable delay : Z.
  Variable setupAuthority : Address.
  Variable original : bytes.
  Variable parkedT : Z.
  Variable deployment : AttestedDeployment.

(** The mint account the validator is started with. *)
Definition derivedMint (measuredClock : ChainClock) : result demo_exn (Z * bytes) :=
  let parkedT := clock_unixTimestamp measuredClock + 86400 in
  derived ← deriveLocalMint setupAuthority parkedT original;
  Ok (parkedT, derived).

Definition requireLocalOrigin (rq : HttpRequest) : result server_exn unit :=
  server_if (negb (isLocalDemoOrigin parse_url (rq_origin rq))) "Local demo origin required".

(** The status of the reply, once the endpoint answered. *)
Definition statusOf (rq : HttpRequest) {A} (r : result server_exn A) : Z :=
  match endpoint_of rq with
  | E_preflight => if isLocalDemoOrigin parse_url (rq_origin rq) then 204 else 403
  | E_method_refused => 405
  | _ => match r with Ok _ => 200 | Err _ => 409 end
  end.

(** The origin a cross-origin page may read the reply from. *)
Definition allowedOrigin (rq : HttpRequest) : option string :=
  if isLocalDemoOrigin parse_url (rq_origin rq) then rq_origin rq else None.

(* ------------------------------------------------------------------ *)
(** ** arm() *)

(** Up to its first wait. *)
Definition armBegin (st : ServerState) : result server_exn ServerState :=
  server_if (bool_decide (is_Some (ss_armed st)) || ss_arming st)
    "Activation already scheduled; reset before a new reproduction";;
  Ok (set_arm (ss_armed st) true (ss_runs st ++ [Preparing]) (ss_submitted st) (ss_answers st) st).

(** Up to the submission: the transaction to submit and the clock it is timed by. *)
Definition armPrepare (accounts : list Address → result client_exn RpcReply) (latest : result rejection string)
    (sign : SetupTransaction → result rejection unit) : result server_exn (SetupTransaction * ChainClock) :=
  snapshot ← map_err SnapshotThrown (fetchGuardSnapshot base64 accounts KOX_MINT);
  localT ← map_err SetupThrown (localActivation numberOf (clock_unixTimestamp (snap_clock snapshot)) (NumInt delay));
  server_if (negb (newMultiplierEffectiveTimestamp (snap_state snapshot) =? parkedT)) "Local mint was already changed";;
  let multiplier := f64_of_bits (le_Z (newMultiplier (snap_state snapshot))) in
  blockhash ← map_err RequestThrown latest;
  let setup := mkSetup KOX_MINT setupAuthority multiplier localT blockhash in
  map_err RequestThrown (sign setup);;
  map_err LocalThrown (assertLocalRpcUrl parse_url LOCAL_RPC_URL);;
  Ok (setup, snap_clock snapshot).

(** The [for] loop, [i] rounds from its end; the wait between polls is left out. *)
Fixpoint awaitSetup (rounds : nat) (statuses : nat → result rejection (option SetupStatus)) : result server_exn unit :=
  match rounds with
  | O => Ok tt
  | S rounds =>
      status ← map_err RequestThrown (statuses rounds);
      server_if (match status with Some s => sst_err s | None => false end) "Local activation setup transaction failed";;
      if bool_decide ((status ≫= sst_confirmationStatus) ∈ [Some "confirmed"; Some "finalized"]) then Ok tt
      else
        server_if (Nat.eqb rounds 0) "Local activation setup did not confirm";;
        awaitSetup rounds statuses
  end.

(** From the submission to the end; [signature] is the signature of the signed
    transaction. *)
Definition armConfirm (setup : SetupTransaction) (clock : ChainClock) (signature : string) (sent : result rejection unit)
    (statuses : nat → result rejection (option SetupStatus)) (accounts : list Address → result client_exn RpcReply)
    : result server_exn ArmedActivation :=
  map_err RequestThrown sent;;
  awaitSetup 60 statuses;;
  after ← map_err SnapshotThrown (fetchGuardSnapshot base64 accounts KOX_MINT);
  originalState ← map_err SnapshotThrown (decodeProtectedState TOKEN_2022_PROGRAM_ADDRESS original);
  server_if (negb (newMultiplierEffectiveTimestamp (snap_state after) =? su_effectiveTimestamp setup)
             || negb (bytesEqual (multiplier (snap_state after)) (multiplier originalState))
             || negb (bytesEqual (newMultiplier (snap_state after)) (newMultiplier originalState)))
    "Setup changed captured multiplier bytes; reproduction refused";;
  Ok (mkArmed (show_Z (su_effectiveTimestamp setup)) delay clock (snap_clock after) signature setupAuthority
        (ad_attestation deployment) (ad_digest deployment)).

(* ------------------------------------------------------------------ *)
(** ** The other endpoints *)

Definition requireArmed (st : ServerState) : result server_exn Z :=
  match ss_armed st with
  | None => Err (ServerError "Activation is not armed")
  | Some armed => of_option NativeThrown (bigInt (aa_localT armed))
  end.

(** [JSON.parse(await body(req))] and a property of it. *)
Definition parseBody (text : string) : result server_exn jsval :=
  input ← map_err RequestThrown (parse_json text);
  throw_if (nullish input) NativeThrown;;
  Ok input.

Definition preSignSimulation (st : ServerState) (rq : HttpRequest) (clock : result rejection ChainClock)
    (simulation : result rejection SimulationResult) (now : string) : result server_exn PreSignSimulationRecord * ServerState :=
  let asked :=
    requireLocalOrigin rq;;
    text ← readBody "" (rq_chunks rq);
    input ← parseBody text;
    wire ← match get_prop "unsignedWireBase64" input with
           | JString wire => Ok wire
           | _ => Err (ServerError "unsignedWireBase64 is required")
           end;
    localT ← requireArmed st;
    Ok (wire, localT) in
  match asked with
  | Err e => (Err e, st)
  | Ok (wire, localT) =>
      let '(record, coordinator) := recordPreSignSimulation base64 base58 jsonText KOX_MINT newProofId (ss_coordinator st) wire localT clock simulation now in
      (map_err AttestationThrown record, set_coordinator coordinator (ss_waiting st) st)
  end.

(** Up to the clock the coordinator reads. *)
Definition signedAuthorizationBegin (st : ServerState) (rq : HttpRequest) : result server_exn ServerState :=
  requireLocalOrigin rq;;
  text ← readBody "" (rq_chunks rq);
  input ← parseBody text;
  pair ← match get_prop "proofId" input, get_prop "signedWireBase64" input with
         | JString proofId, JString wire => Ok (proofId, wire)
         | _, _ => Err (ServerError "proofId and signedWireBase64 are required")
         end;
  localT ← requireArmed st;
  begun ← map_err AttestationThrown (beginSignedAuthorization base64 base58 ed25519_verify KOX_MINT (ss_coordinator st) pair.1 pair.2 localT);
  Ok (set_coordinator (ss_coordinator st) (ss_waiting st ++ [mkWaiting pair.1 localT begun]) st).

Definition deploymentAttestation (st : ServerState) (rq : HttpRequest)
    (read : list Address → result rejection (option Z * list (option LoaderAccountView))) : result server_exn (string * AttestedDeployment) * ServerState :=
  let asked :=
    requireLocalOrigin rq;;
    text ← readBody "" (rq_chunks rq);
    input ← parseBody (if String.eqb text "" then "{}" else text);
    let stage := match get_prop "stage" input with JString stage => stage | _ => "unspecified" end in
    current ← map_err DeploymentThrown (reattestGuardDeployment read (ad_digest deployment) EQUITY_GUARD_PROGRAM);
    Ok (stage, current) in
  match asked with
  | Err e => (Err e, st)
  | Ok (stage, current) =>
      (Ok (stage, current), set_reattestations (ss_reattestations st ++ [(stage, ad_digest current)]) st)
  end.

(* ------------------------------------------------------------------ *)
(** ** The steps of the server *)

(** A part of a request. What changes no state - a refusal, the status, the
    evidence, a file - is no step. *)
Inductive server_step (st : ServerState) : ServerState → Prop :=
| step_arm rq st' :
    endpoint_of rq = E_arm → requireLocalOrigin rq = Ok tt → armBegin st = Ok st' → server_step st st'
| step_arm_submit before after accounts latest sign setup clock :
    ss_runs st = before ++ Preparing :: after → armPrepare accounts latest sign = Ok (setup, clock) →
    server_step st (set_arm (ss_armed st) (ss_arming st) (before ++ Confirming setup clock :: after) (ss_submitted st ++ [setup])
      (ss_answers st ++ [PrepareAnswers accounts latest]) st)
| step_arm_refused before accounts latest sign after e :
    ss_runs st = before ++ Preparing :: after → armPrepare accounts latest sign = Err e →
    server_step st (set_arm (ss_armed st) (ss_arming st) (before ++ after) (ss_submitted st)
      (ss_answers st ++ [PrepareAnswers accounts latest]) st)
| step_arm_unconfirmed before setup clock after signature sent statuses accounts e :
    ss_runs st = before ++ Confirming setup clock :: after →
    armConfirm setup clock signature sent statuses accounts = Err e →
    server_step st (set_arm (ss_armed st) (ss_arming st) (before ++ after) (ss_submitted st)
      (ss_answers st ++ [ConfirmAnswers setup signature sent statuses accounts]) st)
| step_arm_done before setup clock after signature sent statuses accounts armed :
    ss_runs st = before ++ Confirming setup clock :: after →
    armConfirm setup clock signature sent statuses accounts = Ok armed →
    server_step st (set_arm (Some armed) (ss_arming st) (before ++ after) (ss_submitted st)
      (ss_answers st ++ [ConfirmAnswers setup signature sent statuses accounts]) st)
| step_simulation rq clock simulation now :
    endpoint_of rq = E_pre_sign_simulation → server_step st (snd (preSignSimulation st rq clock simulation now))
| step_authorization rq st' :
    endpoint_of rq = E_signed_authorization → signedAuthorizationBegin st rq = Ok st' → server_step st st'
| step_authorized before w after clock now :
    ss_waiting st = before ++ w :: after →
    server_step st (set_coordinator (snd (finishSignedAuthorization (ss_coordinator st) (wt_proofId w) (wt_localT w) (wt_begun w) clock now))
                      (before ++ after) st)
| step_reattest rq read :
    endpoint_of rq = E_deployment_attestation → server_step st (snd (deploymentAttestation st rq read)).
End Server.

(* ------------------------------------------------------------------ *)
(** ** One activation, and everything attested under it *)

Section ServerSpec.
  Context {address : AddressCodec} {hash : Digest} {trade : TradeCodec}.
  Variable parse_url : string → option Url.
  Variable numberOf : string → jsnum.
  Variable parse_json : string → result rejection jsval.
  Variable bigInt : string → option Z.
  Variable base64 : string → bytes.
  Variable base58 : bytes → string.
  Variable ed25519_verify : bytes → bytes → bytes → option bool.
  Variable jsonText : jsval → string.
  Variable newProofId : Z → string.
  Variable delay : Z.
  Variable setupAuthority : Address.
  Variable original : bytes.
  Variable parkedT : Z.
  Variable deployment : AttestedDeployment.
  (** [BigInt] reads back the text of a [bigint]. *)
  Hypothesis bigInt_text : ∀ z, bigInt (show_Z z) = Some z.

  Abbreviation step := (server_step parse_url numberOf parse_json bigInt base64 base58 ed25519_verify jsonText newProofId delay
    setupAuthority original parkedT deployment).

(** A setup scheduled 5 to 30 seconds after the clock the validator answered
    beside a mint whose activation is still the parked one. *)
Record setup_scheduled (answers : list SetupAnswers) (setup : SetupTransaction) (clock : ChainClock) : Prop := {
  sc_mint : su_mint setup = KOX_MINT;
  sc_authority : su_authority setup = setupAuthority;
  sc_read : ∃ accounts before, PrepareAnswers accounts (Ok (su_blockhash setup)) ∈ answers ∧
    fetchGuardSnapshot base64 accounts KOX_MINT = Ok before ∧ snap_clock before = clock ∧
    newMultiplierEffectiveTimestamp (snap_state before) = parkedT;
  sc_time : ∃ seconds, 5 ≤ seconds ≤ 30 ∧ su_effectiveTimestamp setup = clock_unixTimestamp clock + seconds;
}.

(** Of the polls with [rounds] left one answered that the signature is
    confirmed and did not fail, and those before it neither. *)
Definition confirmed_within (rounds : nat) (statuses : nat → result rejection (option SetupStatus)) : Prop :=
  ∃ round status, (round < rounds)%nat ∧ statuses round = Ok (Some status) ∧ sst_err status = false ∧
    (sst_confirmationStatus status = Some "confirmed" ∨ sst_confirmationStatus status = Some "finalized") ∧
    ∀ earlier, (round < earlier < rounds)%nat → ∃ o, statuses earlier = Ok o ∧ (sst_err <$> o) ≠ Some true.

(** The activation the server reports is the one it submitted; the validator
    accepted and confirmed that submission and was then read back: the mint
    changes at that time, beside the captured multipliers. *)
Record armed_by (answers : list SetupAnswers) (a : ArmedActivation) (setup : SetupTransaction) : Prop := {
  ab_localT : aa_localT a = show_Z (su_effectiveTimestamp setup);
  ab_scheduled : setup_scheduled answers setup (aa_clock a);
  ab_deployment : aa_deploymentDigest a = ad_digest deployment;
  ab_confirmed : ∃ statuses accounts after captured,
    ConfirmAnswers setup (aa_setupSignature a) (Ok tt) statuses accounts ∈ answers ∧ confirmed_within 60 statuses ∧
    fetchGuardSnapshot base64 accounts KOX_MINT = Ok after ∧ snap_clock after = aa_confirmedClock a ∧
    decodeProtectedState TOKEN_2022_PROGRAM_ADDRESS original = Ok captured ∧
    snap_state after = mkProtectedState (multiplier captured) (newMultiplier captured) (su_effectiveTimestamp setup);
}.

Inductive arm_state (st : ServerState) : Prop :=
| arm_idle : ss_armed st = None → ss_arming st = false → ss_runs st = [] → ss_submitted st = [] → arm_state st
| arm_preparing : ss_armed st = None → ss_arming st = true → ss_runs st = [Preparing] → ss_submitted st = [] → arm_state st
| arm_confirming setup clock : ss_armed st = None → ss_arming st = true → ss_runs st = [Confirming setup clock] →
    ss_submitted st = [setup] → setup_scheduled (ss_answers st) setup clock → arm_state st
| arm_failed : ss_armed st = None → ss_arming st = true → ss_runs st = [] → (length (ss_submitted st) ≤ 1)%nat → arm_state st
| arm_done a setup : ss_armed st = Some a → ss_arming st = true → ss_runs st = [] → ss_submitted st = [setup] → armed_by (ss_answers st) a setup →
    arm_state st.

(** A text is the time of the armed activation. *)
Definition armed_time (st : ServerState) (text : string) : Prop := ∃ a, ss_armed st = Some a ∧ text = aa_localT a.

Record server_inv (st : ServerState) : Prop := {
  si_arm : arm_state st;
  si_requests : rtc (request_step base64 base58 ed25519_verify jsonText KOX_MINT newProofId)
    (empty_coordinator, []) (ss_coordinator st, ss_waiting st);
  si_simulations id s : map_get id (ca_simulations (ss_coordinator st)) = Some s → armed_time st (ps_localT s);
  si_authorizations id a : map_get id (ca_authorizations (ss_coordinator st)) = Some a → armed_time st (sa_localT a);
  si_waiting w : w ∈ ss_waiting st → armed_time st (show_Z (wt_localT w));
  si_deployment stage digest : (stage, digest) ∈ ss_reattestations st → digest = ad_digest deployment;
}.

Lemma started_inv : server_inv started_server.
Proof. split; try done; [by apply arm_idle|by intros w ?%not_elem_of_nil|by intros stage digest ?%not_elem_of_nil]. Qed.

Lemma armPrepare_Ok accounts latest sign setup clock :
  armPrepare parse_url numberOf base64 delay setupAuthority parkedT accounts latest sign = Ok (setup, clock) →
  ∀ answers, PrepareAnswers accounts latest ∈ answers → setup_scheduled answers setup clock.
Proof.
  unfold armPrepare. intros (snapshot & Hs%map_err_Ok & H)%bind_Ok answers Hin. apply bind_Ok in H as (localT & Ht%map_err_Ok & H).
  apply throw_if_then_Ok in H as [Hparked%negb_false_iff%Z.eqb_eq H]. apply bind_Ok in H as (blockhash & ->%map_err_Ok & H).
  apply bind_Ok in H as (u & _ & H). apply bind_Ok in H as (url & _ & [= <- <-]).
  split; [done|done|by exists accounts, snapshot|]. cbn [su_effectiveTimestamp].
  unfold localActivation, activationDelay in Ht. apply bind_Ok in Ht as (seconds & Hd & [= <-]).
  cbv zeta in Hd. apply throw_if_then_Ok in Hd as [Hb [= <-]]. rewrite !orb_false_iff, !Z.ltb_ge in Hb.
  destruct Hb as [[_ Hlo] Hhi]. by eexists.
Qed.

Lemma awaitSetup_Ok rounds statuses u : (0 < rounds)%nat → awaitSetup rounds statuses = Ok u → confirmed_within rounds statuses.
Proof.
  induction rounds as [|rounds IH]; [lia|]. intros _ H. cbn [awaitSetup] in H. apply bind_Ok in H as (status & Hs%map_err_Ok & H).
  apply throw_if_then_Ok in H as [He H]. case_bool_decide as Hc.
  - destruct status as [status|]; [|by apply elem_of_cons in Hc as [[=]|[[=]|[]%not_elem_of_nil]%elem_of_cons]].
    cbn in Hc. exists rounds, status. split_and!; [lia|done|done| |lia]. set_solver.
  - apply throw_if_then_Ok in H as [Hr%Nat.eqb_neq H].
    destruct (IH ltac:(lia) H) as (round & found & Hlt & Hf & Hfe & Hfc & Hall). exists round, found. split_and!; [lia|done|done|done|].
    intros earlier Hearlier. destruct (decide (earlier = rounds)) as [->|]; [|apply Hall; lia].
    exists status. split; [done|]. destruct status as [status|]; cbn; congruence.
Qed.

Lemma armConfirm_Ok setup clock signature sent statuses accounts a :
  armConfirm base64 delay setupAuthority original deployment setup clock signature sent statuses accounts = Ok a →
  ∀ answers, ConfirmAnswers setup signature sent statuses accounts ∈ answers → setup_scheduled answers setup clock → armed_by answers a setup.
Proof.
  unfold armConfirm. intros ([] & ->%map_err_Ok & H)%bind_Ok answers Hin Hs. apply bind_Ok in H as (u' & Hconf & H).
  apply awaitSetup_Ok in Hconf; [|lia].
  apply bind_Ok in H as (after & Ha%map_err_Ok & H). apply bind_Ok in H as (captured & Hc%map_err_Ok & H).
  apply throw_if_then_Ok in H as [Hb [= <-]]. rewrite !orb_false_iff, !negb_false_iff in Hb.
  destruct Hb as [[Ht%Z.eqb_eq Hm%bytesEqual_spec] Hn%bytesEqual_spec].
  split; [done|done|done|]. exists statuses, accounts, after, captured. do 5 (split; [done|]).
  destruct (snap_state after) as [m n t], captured. cbn in *. congruence.
Qed.

Lemma scheduled_more answers more setup clock : setup_scheduled answers setup clock → setup_scheduled (answers ++ more) setup clock.
Proof. intros [? ? (accounts & before & Hin & R) ?]. split; [done|done| |done]. exists accounts, before. split; [set_solver|done]. Qed.

Lemma armed_time_same st st' text : ss_armed st' = ss_armed st → armed_time st text → armed_time st' text.
Proof. intros E (a & Ha & ->). exists a. by rewrite E. Qed.

Lemma requireArmed_Ok st localT : arm_state st → requireArmed bigInt st = Ok localT → armed_time st (show_Z localT).
Proof.
  unfold requireArmed. intros Hst. destruct (ss_armed st) as [a|] eqn:Ha; [|done]. intros Ht%of_option_Ok.
  exists a. split; [done|]. destruct Hst as [?|?|? ?|?|b setup Hb _ _ _ Hby]; try congruence.
  assert (b = a) as -> by congruence. rewrite (ab_localT _ _ _ Hby) in Ht |- *. rewrite bigInt_text in Ht. congruence.
Qed.

(** A state with another arming: what was attested stays under the same time. *)
Lemma inv_arm st armed arming runs submitted answers : server_inv st →
  (∀ a, ss_armed st = Some a → armed = Some a) → arm_state (set_arm armed arming runs submitted answers st) →
  server_inv (set_arm armed arming runs submitted answers st).
Proof.
  intros [] Hkeep Harm. assert (∀ text, armed_time st text → armed_time (set_arm armed arming runs submitted answers st) text) as Ht.
  { intros text (a & Ha & ->). exists a. split; [by apply Hkeep|done]. }
  split; cbn; eauto.
Qed.

Lemma armBegin_inv st st' : server_inv st → armBegin st = Ok st' → server_inv st'.
Proof.
  intros Hinv. unfold armBegin. intros [[Ha Hg]%orb_false_iff [= <-]]%throw_if_then_Ok. apply bool_decide_eq_false in Ha.
  apply inv_arm; [done|by intros a ->|]. destruct (si_arm _ Hinv) as [E1 E2 E3 E4|E1 E2|? ? E1 E2|E1 E2|? ? E1 E2]; try congruence.
  apply arm_preparing; cbn; [done|done|by rewrite E3|done].
Qed.

(** The only run there is. *)
Lemma run_alone st before run after : arm_state st → ss_runs st = before ++ run :: after →
  before = [] ∧ after = [] ∧ ss_armed st = None ∧ ss_arming st = true ∧
  (run = Preparing ∧ ss_submitted st = [] ∨
   ∃ setup clock, run = Confirming setup clock ∧ ss_submitted st = [setup] ∧ setup_scheduled (ss_answers st) setup clock).
Proof.
  intros Hst Hruns. assert (∀ x, before ++ run :: after = [x] → before = [] ∧ after = [] ∧ run = x) as Hone.
  { intros x. destruct before as [|y [|]]; [by intros [= -> ->]|done|done]. }
  destruct Hst as [E1 E2 E3 E4|E1 E2 E3 E4|setup clock E1 E2 E3 E4|E1 E2 E3 E4|? ? E1 E2 E3 E4]; rewrite Hruns in E3.
  - by destruct before.
  - destruct (Hone _ E3) as (-> & -> & ->). auto 10.
  - destruct (Hone _ E3) as (-> & -> & ->). split_and!; try done. right. eauto.
  - by destruct before.
  - by destruct before.
Qed.

Lemma inv_coordinator st coordinator queue : server_inv st →
  request_step base64 base58 ed25519_verify jsonText KOX_MINT newProofId (ss_coordinator st, ss_waiting st) (coordinator, queue) →
  (∀ id s, map_get id (ca_simulations coordinator) = Some s → armed_time st (ps_localT s)) →
  (∀ id a, map_get id (ca_authorizations coordinator) = Some a → armed_time st (sa_localT a)) →
  (∀ w, w ∈ queue → armed_time st (show_Z (wt_localT w))) →
  server_inv (set_coordinator coordinator queue st).
Proof.
  intros [Harm Hreq _ _ _ Hd] Hstep Hs Ha Hw. split; [|by eapply rtc_r|done|done|done|done].
  destruct Harm; [by eapply arm_idle|by eapply arm_preparing|by eapply arm_confirming|by eapply arm_failed|by eapply arm_done].
Qed.

Lemma preSign_inv st rq clock simulation now : server_inv st →
  server_inv (snd (preSignSimulation parse_url parse_json bigInt base64 base58 jsonText newProofId st rq clock simulation now)).
Proof.
  intros Hinv. unfold preSignSimulation. destruct (requireLocalOrigin _ _;; _) as [[wire localT]|e] eqn:Hasked; [|done].
  apply then_Ok in Hasked as [_ H]. apply bind_Ok in H as (text & _ & H). apply bind_Ok in H as (input & _ & H).
  apply bind_Ok in H as (wire' & _ & H). apply bind_Ok in H as (localT' & Ht & [= -> ->]).
  apply requireArmed_Ok in Ht; [|apply Hinv].
  pose proof (request_simulation base64 base58 ed25519_verify jsonText KOX_MINT newProofId (ss_coordinator st) (ss_waiting st)
    wire localT clock simulation now) as Hstep.
  destruct (recordPreSignSimulation _ _ _ _ _ _ _ _ _ _ _) as [[s|e] coordinator] eqn:E; cbn [snd] in *.
  - destruct (simulation_Ok _ _ _ _ _ _ _ _ _ _ _ _ _ E) as (_ & -> & decoded & c & Hsim).
    apply inv_coordinator; [done|done| |by apply Hinv|by apply Hinv]. cbn [ca_simulations].
    intros id s' [[_ <-]|[_ Hs]]%map_get_set_inv; [|by eapply (si_simulations _ Hinv)].
    by rewrite (sd_localT _ _ _ _ _ _ _ Hsim).
  - apply simulation_Err in E as ->. by apply inv_coordinator; [done|done|apply Hinv..].
Qed.

Lemma authorization_inv st st' rq : server_inv st →
  signedAuthorizationBegin parse_url parse_json bigInt base64 base58 ed25519_verify st rq = Ok st' → server_inv st'.
Proof.
  intros Hinv. unfold signedAuthorizationBegin. rewrite then_Ok. intros [_ H]. apply bind_Ok in H as (text & _ & H).
  apply bind_Ok in H as (input & _ & H). apply bind_Ok in H as ([proofId wire] & _ & H).
  apply bind_Ok in H as (localT & Ht & H). apply bind_Ok in H as (begun & Hb%map_err_Ok & [= <-]). cbn [fst snd] in *.
  apply requireArmed_Ok in Ht; [|apply Hinv].
  apply inv_coordinator; [done|by eapply request_begin|apply Hinv..|].
  intros w [Hw|Hw]%elem_of_app; [by apply Hinv|]. by apply list_elem_of_singleton in Hw as ->.
Qed.

Lemma authorized_inv st before w after clock now : server_inv st → ss_waiting st = before ++ w :: after →
  server_inv (set_coordinator (snd (finishSignedAuthorization (ss_coordinator st) (wt_proofId w) (wt_localT w) (wt_begun w) clock now))
                (before ++ after) st).
Proof.
  intros Hinv Hw. assert (∀ v, v ∈ before ++ after → armed_time st (show_Z (wt_localT v))) as Hrest.
  { intros v Hv. apply (si_waiting _ Hinv). rewrite Hw. set_solver. }
  assert (armed_time st (show_Z (wt_localT w))) as Hmine by (apply (si_waiting _ Hinv); rewrite Hw; set_solver).
  pose proof (request_finish base64 base58 ed25519_verify jsonText KOX_MINT newProofId (ss_coordinator st) before w after clock now) as Hstep.
  rewrite <- Hw in Hstep. destruct (finishSignedAuthorization _ _ _ _ _ _) as [r coordinator] eqn:E. cbn [snd] in *.
  destruct (finish_cases _ _ _ _ _ _ E) as [->|(a & c & _ & _ & _ & -> & Ht & _)].
  { by apply inv_coordinator; [done|done|apply Hinv..|]. }
  apply inv_coordinator; [done|done|apply Hinv| |done]. cbn [ca_authorizations].
  intros id b [[_ <-]|[_ Hb]]%map_get_set_inv; [by rewrite Ht|by eapply (si_authorizations _ Hinv)].
Qed.

Lemma reattest_inv st rq read : server_inv st →
  server_inv (snd (deploymentAttestation parse_url parse_json deployment st rq read)).
Proof.
  intros Hinv. unfold deploymentAttestation. cbv zeta.
  match goal with |- context [match ?m with Ok _ => _ | Err _ => _ end] => destruct m as [[stage current]|e] eqn:Hasked end; [|done].
  apply then_Ok in Hasked as [_ H]. apply bind_Ok in H as (text & _ & H). apply bind_Ok in H as (input & _ & H).
  apply bind_Ok in H as (current' & Hc%map_err_Ok & [= <- <-]).
  unfold reattestGuardDeployment in Hc. apply bind_Ok in Hc as (found & _ & Hc).
  apply throw_if_then_Ok in Hc as [Heq%negb_false_iff%String.eqb_eq [= <-]].
  destruct Hinv as [Harm Hreq Hs Ha Hw Hd]. split; cbn [set_reattestations ss_coordinator ss_waiting ss_reattestations snd]; try done.
  - destruct Harm; [by eapply arm_idle|by eapply arm_preparing|by eapply arm_confirming|by eapply arm_failed|by eapply arm_done].
  - intros stage' digest [Hin|Hin]%elem_of_app; [by eapply Hd|]. by apply list_elem_of_singleton in Hin as [= -> ->].
Qed.

Lemma server_step_inv st st' : server_inv st → step st st' → server_inv st'.
Proof.
  intros Hinv. destruct 1 as [rq st' _ _ Hb|before after accounts latest sign setup clock Hruns Hp|before accounts latest sign after e Hruns _
    |before setup clock after signature sent statuses accounts e Hruns _|before setup clock after signature sent statuses accounts a Hruns Hc
    |rq clock simulation now _|rq st' _ Hb|before w after clock now Hw|rq read _].
  - by eapply armBegin_inv.
  - destruct (run_alone _ _ _ _ (si_arm _ Hinv) Hruns) as (-> & -> & Hn & Hg & [[_ Hsub]|(? & ? & ? & _)]); [|done].
    apply inv_arm; [done|done|]. eapply arm_confirming; cbn; [done|done|done|by rewrite Hsub|eapply armPrepare_Ok; [done|set_solver]].
  - destruct (run_alone _ _ _ _ (si_arm _ Hinv) Hruns) as (-> & -> & Hn & Hg & [[_ Hsub]|(? & ? & ? & _)]); [|done].
    apply inv_arm; [done|done|]. apply arm_failed; cbn; [done|done|done|rewrite Hsub; cbn; lia].
  - destruct (run_alone _ _ _ _ (si_arm _ Hinv) Hruns) as (-> & -> & Hn & Hg & [[? _]|(? & ? & _ & Hsub & _)]); [done|].
    apply inv_arm; [done|done|]. apply arm_failed; cbn; [done|done|done|rewrite Hsub; cbn; lia].
  - destruct (run_alone _ _ _ _ (si_arm _ Hinv) Hruns) as (-> & -> & Hn & Hg & [[? _]|(? & ? & [= <- <-] & Hsub & Hsc)]); [done|].
    apply inv_arm; [done|by intros a'; rewrite Hn|]. eapply arm_done; cbn; [done|done|done|done|].
    eapply armConfirm_Ok; [done|set_solver|by eapply scheduled_more].
  - by apply preSign_inv.
  - by eapply authorization_inv.
  - by apply authorized_inv.
  - by apply reattest_inv.
Qed.

Lemma server_steps_inv st st' : rtc step st st' → server_inv st → server_inv st'.
Proof. induction 1 as [|a b c H _ IH]; [done|]. intros Hinv. apply IH. by eapply server_step_inv. Qed.

(** Only an arming changes what is armed, and only its own run ends it. *)
Lemma step_arm_part st st' : step st st' →
  (ss_armed st' = ss_armed st ∧ ss_arming st' = ss_arming st ∧ ss_runs st' = ss_runs st ∧ ss_submitted st' = ss_submitted st) ∨
  armBegin st = Ok st' ∨ ∃ before run after, ss_runs st = before ++ run :: after.
Proof.
  destruct 1; eauto 10; left.
  - unfold preSignSimulation. destruct (_;; _) as [[]|]; [|done]. by destruct (recordPreSignSimulation _ _ _ _ _ _ _ _ _ _ _).
  - unfold signedAuthorizationBegin in *. match goal with H : _ = Ok _ |- _ => rename H into Hb end.
    apply then_Ok in Hb as [_ Hb]. repeat (apply bind_Ok in Hb as (? & _ & Hb)). by injection Hb as <-.
  - unfold deploymentAttestation. cbv zeta. by match goal with |- context [match ?m with Ok _ => _ | Err _ => _ end] => destruct m as [[]|] end.
Qed.

Lemma armed_kept st st' a : arm_state st → step st st' → ss_armed st = Some a → ss_armed st' = Some a.
Proof.
  intros Hst [(-> & _)|[Hb|(before & run & after & Hruns)]]%step_arm_part Ha; [done| |].
  - unfold armBegin in Hb. apply throw_if_then_Ok in Hb as [[Hn _]%orb_false_iff _]. apply bool_decide_eq_false in Hn.
    destruct Hn. by exists a.
  - destruct (run_alone _ _ _ _ Hst Hruns) as (_ & _ & Hn & _). congruence.
Qed.

Lemma failed_kept st st' : step st st' → ss_arming st = true → ss_armed st = None → ss_runs st = [] →
  ss_arming st' = true ∧ ss_armed st' = None ∧ ss_runs st' = [].
Proof.
  intros [(-> & -> & -> & _)|[Hb|(before & run & after & Hruns)]]%step_arm_part Hg Hn Hr; [done| |].
  - unfold armBegin in Hb. by rewrite Hg, orb_true_r in Hb.
  - rewrite Hr in Hruns. by destruct before.
Qed.

(** C17: however its requests interleave and whatever the validator answers,
    the coordinator submits at most one setup transaction. What it reports as
    armed is that transaction, timed 5 to 30 seconds after a clock the validator
    answered; the validator accepted it, answered a poll within 60 that it is
    confirmed and did not fail, and was read back after that with the captured
    multipliers changing at that time. Every simulation and every signed
    authorization it has attested is for that very time, was
    attested by the steps of the attestation store alone, and every deployment
    it reported again is the one it started with. Once armed it stays so. *)
Theorem one_activation st st' :
  rtc step started_server st → rtc step st st' →
  (length (ss_submitted st) ≤ 1)%nat ∧
  (∀ a, ss_armed st = Some a →
    ss_armed st' = Some a ∧ ∃ setup, ss_submitted st' = [setup] ∧ armed_by (ss_answers st') a setup) ∧
  (∀ id s, map_get id (ca_simulations (ss_coordinator st)) = Some s → ∃ a, ss_armed st = Some a ∧ ps_localT s = aa_localT a) ∧
  (∀ id s, map_get id (ca_authorizations (ss_coordinator st)) = Some s → ∃ a, ss_armed st = Some a ∧ sa_localT s = aa_localT a) ∧
  rtc (request_step base64 base58 ed25519_verify jsonText KOX_MINT newProofId)
    (empty_coordinator, []) (ss_coordinator st, ss_waiting st) ∧
  (∀ stage digest, (stage, digest) ∈ ss_reattestations st → digest = ad_digest deployment).
Proof.
  intros Hst Hst'. pose proof (server_steps_inv _ _ Hst started_inv) as Hinv.
  split; [|split; [|by split_and!; apply Hinv]].
  - by destruct (si_arm _ Hinv) as [? ? ? ->|? ? ? ->|? ? ? ? ? ->|? ? ? ?|? ? ? ? ? ->]; cbn; lia.
  - intros a Ha. pose proof (server_steps_inv _ _ Hst' Hinv) as Hinv'.
    assert (ss_armed st' = Some a) as Ha'.
    { clear Hst Hinv'. induction Hst' as [|x y z H _ IH]; [done|]. pose proof (server_step_inv _ _ Hinv H) as Hy.
      apply IH; [done|]. eapply armed_kept; [|exact H|exact Ha]. apply Hinv. }
    split; [done|]. destruct (si_arm _ Hinv') as [?|?|? ?|?|b setup Hb _ _ Hsub Hby]; try congruence.
    exists setup. split; [done|]. congruence.
Qed.

(** An arming that failed is final: no later one is let in, although nothing
    is armed and perhaps nothing was submitted. *)
Theorem failed_arming_is_final st st' :
  rtc step started_server st → rtc step st st' → ss_arming st = true → ss_armed st = None → ss_runs st = [] →
  ss_armed st' = None ∧ ∃ message, armBegin st' = Err (ServerError message).
Proof.
  intros Hst Hst' Hg Hn Hr. pose proof (server_steps_inv _ _ Hst started_inv) as Hinv. clear Hst.
  assert (ss_arming st' = true ∧ ss_armed st' = None ∧ ss_runs st' = []) as (Hg' & Hn' & _).
  { clear Hinv. induction Hst' as [|x y z H _ IH]; [done|]. apply IH; by eapply failed_kept. }
  split; [done|]. unfold armBegin. rewrite Hg', orb_true_r. by eexists.
Qed.
End ServerSpec.

(* ------------------------------------------------------------------ *)
(** ** A server that armed *)

(** [BigInt] on the texts of a [bigint]. *)
Definition sample_bigInt (s : string) : option Z :=
  match s with
  | String c digits => Some (if Ascii.eqb c (Ascii.ascii_of_nat 45) then - decimal_value digits 0 else decimal_value s 0)
  | "" => Some 0
  end.

Lemma sample_bigInt_text z : sample_bigInt (show_Z z) = Some z.
Proof.
  destruct z as [|p|p]; [reflexivity| |].
  - destruct (show_Z_decimal (Z.pos p)) as [Hd Hv]; [lia|]. destruct (show_Z_head (Z.pos p)) as (c & s & E & _).
    rewrite E in Hd, Hv |- *. unfold sample_bigInt. destruct (Ascii.eqb_spec c (Ascii.ascii_of_nat 45)) as [->|_]; [done|by rewrite Hv].
  - destruct (show_Z_decimal (Z.pos p)) as [_ Hv]; [lia|].
    change (show_Z (Z.neg p)) with (String (Ascii.ascii_of_nat 45) (show_Z (Z.pos p))). cbn [sample_bigInt Ascii.eqb].
    change (Ascii.eqb (Ascii.ascii_of_nat 45) (Ascii.ascii_of_nat 45)) with true. by rewrite Hv.
Qed.

Definition server_clock (time : Z) : bytes := le_bytes 8 7 ++ zeros 24 ++ le_bytes 8 time.
Definition server_base64 (s : string) : bytes := if String.eqb s "mint" then sample_mint_account else server_clock 1699999990.
Definition server_accounts (_ : list Address) : result client_exn RpcReply :=
  Ok (mkReply 7 (Some (mkRpcAccount TOKEN_2022_PROGRAM_ADDRESS "mint")) (Some (mkRpcAccount "Sysvar" "clock"))).
Definition server_url (s : string) : option Url := Some (mkUrl "http:" "localhost" "3000" s s).
Definition server_number (s : string) : jsnum := NumInt (decimal_value s 0).
Definition server_deployment : AttestedDeployment := mkAttested "deployment" (callerTrustedAttestation KOX_MINT) None.
Definition arm_request : HttpRequest := mkHttpRequest (Some "POST") (Some "/api/arm") (Some "http://localhost:3000") [].

(** The steps of this server. *)
Abbreviation sample_step := (server_step (hash := zero_digest) (trade := sample_trade_codec) server_url server_number (λ _, Ok JUndefined) sample_bigInt
  server_base64 (λ _, "") (λ _ _ _, None) (λ _, "") default_proofId 10 "setup" sample_mint_account 1700000000 server_deployment).

Definition setup_prepared : result server_exn (SetupTransaction * ChainClock) := Eval vm_compute in
  armPrepare server_url server_number server_base64 10 "setup" 1700000000 server_accounts (Ok "blockhash") (λ _, Ok tt).
Definition sample_setup : SetupTransaction := Eval vm_compute in
  match setup_prepared with Ok (setup, _) => setup | Err _ => mkSetup "" "" (S754_zero false) 0 "" end.
Definition server_armed : ArmedActivation :=
  mkArmed "1700000000" 10 (mkClock 7 1699999990) (mkClock 7 1699999990) "signature" "setup" (callerTrustedAttestation KOX_MINT) "deployment".
Definition server_statuses (i : nat) : result rejection (option SetupStatus) :=
  Ok (if Nat.ltb 50 i then None else Some (mkSetupStatus false (Some "confirmed"))).
Definition server_answers : list SetupAnswers :=
  [PrepareAnswers server_accounts (Ok "blockhash"); ConfirmAnswers sample_setup "signature" (Ok tt) server_statuses server_accounts].
Definition armed_server : ServerState := mkServerState (Some server_armed) true [] [sample_setup] server_answers empty_coordinator [] [].

Lemma armed_server_reached : rtc sample_step started_server armed_server.
Proof.
  eapply rtc_l; [apply (step_arm _ _ _ _ _ _ _ _ _ _ _ _ _ _ _ arm_request); [reflexivity|vm_compute; reflexivity|reflexivity]|].
  eapply rtc_l.
  { apply (step_arm_submit _ _ _ _ _ _ _ _ _ _ _ _ _ _ _ [] [] server_accounts (Ok "blockhash") (λ _, Ok tt) sample_setup (mkClock 7 1699999990));
      [reflexivity|vm_compute; reflexivity]. }
  eapply rtc_l.
  { apply (step_arm_done _ _ _ _ _ _ _ _ _ _ _ _ _ _ _ [] sample_setup (mkClock 7 1699999990) [] "signature" (Ok tt)
      server_statuses server_accounts server_armed);
      [reflexivity|vm_compute; reflexivity]. }
  apply rtc_refl.
Qed.

Lemma one_activation_witness :
  rtc sample_step started_server armed_server ∧ (length (ss_submitted armed_server) ≤ 1)%nat ∧
  ∃ setup, ss_submitted armed_server = [setup] ∧
    armed_by server_base64 "setup" sample_mint_account 1700000000 server_deployment server_answers server_armed setup.
Proof.
  split; [exact armed_server_reached|].
  destruct (one_activation (hash := zero_digest) (trade := sample_trade_codec) server_url server_number (λ _, Ok JUndefined) sample_bigInt
    server_base64 (λ _, "") (λ _ _ _, None) (λ _, "") default_proofId 10 "setup" sample_mint_account 1700000000 server_deployment
    sample_bigInt_text armed_server armed_server armed_server_reached (rtc_refl _ _)) as (Hlen & Harm & _).
  split; [exact Hlen|]. exact (proj2 (Harm server_armed eq_refl)).
Defined.
