(* ===== verification/ReplayExecution.v ===== *)
(** * replay-execution.ts: one replayed trade against the local validator

    A trade is prepared from the captured route for the local trader, signed by
    the wallet without a byte of its message changing, simulated as signed,
    submitted at most once and confirmed. The validator and the wallet answer
    one question after another and may answer anything; requests made together
    are put one after the other. *)

From S2P Require Import Prelude Js Errors Kit Base58 Abi OnChain MintState Snapshot Downstream Jupiter JupiterOnChain Deployment CanonicalKey BuildClient Compose WalletDemo DemoChain Attestation Flow ActivationProof ReplayModel LocalFunding LocalOutcome LocalView LocalHost.

Definition MAINNET_GENESIS_HASH : string := "5eykt4UsFv8P8NJdTREpY1vzqKqZKvdpKuc147dw2N9d".
Definition TESTNET_GENESIS_HASH : string := "4uhcVJyU9pJkvQyS88uRDiswHXSCkY3zQawwpjk2NsNY".
Definition POLL_LIMIT : nat := 60.
Definition LOCAL_AIRDROP : Z := 1000000000.
Definition MINIMUM_FEE_BALANCE : Z := 10000000.

Record RouteFixture := mkRouteFixture { rf_adapterKind : Z; rf_computeUnitLimit : jsnum; rf_build : jsval }.

Record SealedAuthorizations := mkSealed {
  sa_stale_source : string;
  sa_stale : RecordedAuthorization;
  sa_refreshed_source : string;
  sa_refreshed : RecordedAuthorization;
  sa_decimals : jsnum;
}.

Record ReplayData := mkReplayData {
  rd_fixture : RouteFixture;
  rd_build : BuildResponse;
  rd_stale : AssertSafeExecutionRequest;
  rd_refreshed : AssertSafeExecutionRequest;
  rd_staleSource : string;
  rd_refreshedSource : string;
}.

(** A decoded transaction: its message and its signatures, in their order. *)
Definition Transaction : Type := bytes * list (Address * option bytes).

Record PreparedReplay := mkPrepared {
  pr_kind : ReplayKind;
  pr_unsigned : Transaction;
  pr_wireBytes : bytes;
  pr_sourceAta : Address;
  pr_destinationAta : Address;
  pr_blockhash : string;
  pr_lastValidBlockHeight : Z;
  pr_commitmentHex : string;
  pr_requiredSigner : Address;
  pr_feePayer : Address;
  pr_programs : list string;
  pr_inAmount : Z;
  pr_quotedOutAmount : Z;
  pr_authorizationSource : string;
  pr_skipPreflight : bool;
}.

(** An account, its data as the library's text. *)
Record LocalAccount := mkLocalAccount { la_executable : bool; la_owner : string; la_data : string }.

Record SignatureStatus := mkStatus { ss_err : jsval; ss_confirmationStatus : option string }.

(** [meta]: [err ?? null], [logMessages ?? []] and the text of the units. *)
Record TransactionMeta := mkMeta { mt_err : jsval; mt_logMessages : list string; mt_computeUnits : option string }.

Record ReplayTransaction := mkReplayTransaction {
  rx_slot : Z;
  rx_meta : option TransactionMeta;
  rx_numRequiredSignatures : Z;
  rx_accountKeys : list string;
  rx_signatures : list string;
}.

(** One moment of the validator and of the wallet; a rejection carries any value. *)
Record LocalEndpoint := mkLocalEndpoint {
  le_getGenesisHash : result jsval string;
  le_getAccountInfo : Address → result jsval (option LocalAccount);
  le_getBalance : Address → result jsval Z;
  le_requestAirdrop : Address → Z → result jsval string;
  le_getSignatureStatus : string → result jsval (option SignatureStatus);
  le_getLatestBlockhash : result jsval Blockhash;
  le_getBlockHeight : result jsval Z;
  le_getTransaction : string → result jsval (option ReplayTransaction);
  le_simulateTransaction : bytes → result jsval jsval;
  le_sendTransaction : bytes → bool → result jsval string;
  le_postTransaction : bytes → bool → result jsval jsval;
  le_isBlockhashValid : string → result jsval bool;
  le_request : string → result jsval wallet_value;
}.

Inductive replay_effect : Type :=
| ReplayStage (stage : BuyStage)
| RequestedAirdrop (trader : Address)
| RequestedSignature (message : string)
| SentTransaction (wire : bytes) (skipPreflight : bool).

#[export] Instance replay_questions : Questions replay_effect := λ e,
  match e with RequestedSignature _ | SentTransaction _ _ => true | _ => false end.

(** The library's encoder of a transaction, the signature it is known by
    ([None] when it throws), and base-58 of any bytes. *)
Class ReplayCodec := {
  encodeTransactionBytes : Transaction → option bytes;
  getSignatureFromTransaction : Transaction → option string;
  base58Text : bytes → string;
  base58Bytes : string → option bytes;
}.

(** Route plans are compared by their JSON texts, which are those of the same
    fields in the same order. *)
#[export] Instance RouteSwapInfo_eq_dec : EqDecision RouteSwapInfo.
Proof. solve_decision. Defined.

#[export] Instance RoutePlanStep_eq_dec : EqDecision RoutePlanStep.
Proof. solve_decision. Defined.

(** [if (v)]. *)
Definition truthy (v : jsval) : bool :=
  match v with
  | JUndefined | JNull | JBool false | JString "" => false
  | JNum n => negb (num_is n 0) && match n with NumNegZero => false | NumOther text => negb (String.eqb text "NaN") | _ => true end
  | JBigint z => negb (z =? 0)
  | _ => true
  end.

Definition runtime {A} (o : option A) : result replay_exn A := of_option RuntimeFailed o.

Section Checks.
  Context {address : AddressCodec}.
  (** [atob], [None] when it throws. *)
  Variable atob : string → option bytes.

Definition assertConnectedPhantom (trader : Address) : result replay_exn unit :=
  replay_if (negb (String.eqb trader EXPECTED_PHANTOM)) ("this experiment funds " +:+ EXPECTED_PHANTOM +:+ "; reconnect that Phantom").

Definition assertDeterministicBaseline (sol usdc kox : Z) : result replay_exn unit :=
  replay_if (sol <? MINIMUM_FEE_BALANCE) "Phantom local SOL is below the fee reserve; reseed the local fixture";;
  replay_if (negb (usdc =? EXPECTED_USDC_BASELINE))
    ("Phantom USDC is " +:+ show_Z usdc +:+ ", expected " +:+ show_Z EXPECTED_USDC_BASELINE +:+ ". Reseed the local fixture.");;
  replay_if (negb (kox =? EXPECTED_KOX_BASELINE))
    ("Phantom KOx is " +:+ show_Z kox +:+ ", expected " +:+ show_Z EXPECTED_KOX_BASELINE +:+ ". Reseed the local fixture.").

Definition assertSingleSigner {trade : TradeCodec} (transaction : Transaction) (trader : Address) : result replay_exn unit :=
  message ← runtime (decodeCompiledMessage transaction.1);
  let signers := take (Z.to_nat (ct_numSignerAccounts message)) (ct_staticAccounts message) in
  replay_if (negb (bool_decide (signers = [trader]))) ("guarded replay requires unexpected signers: " +:+ String.concat "," signers).

Definition assertTokenAccount (account : LocalAccount) (expectedProgram : string) (expectedMint expectedOwner : Address) (label : string)
    : result replay_exn unit :=
  replay_if (negb (String.eqb (la_owner account) expectedProgram)) (label +:+ " is owned by the wrong token program");;
  data ← runtime (atob (la_data account));
  replay_if (Nat.ltb (length data) 72) (label +:+ " is malformed");;
  replay_if (negb (String.eqb (decodeAddress (take 32 data)) expectedMint) || negb (String.eqb (decodeAddress (take 32 (drop 32 data))) expectedOwner))
    (label +:+ " does not belong to the connected Phantom public key and expected mint").

(** What the wallet returned, as bytes. *)
Definition view_bytes (value : wallet_value) : option bytes := match value with WBytes b => Some b | _ => None end.

Definition signedTransactionBytes (response : wallet_value) : result replay_exn bytes :=
  let candidate := match response with WObject (Some signedTransaction) _ _ => signedTransaction | _ => response end in
  let none := FeasibilityError SERIALIZATION_FAILURE "Phantom returned no serializable signed transaction bytes." in
  match view_bytes candidate, candidate with
  | Some direct, _ => Ok direct
  | None, WObject _ (Some serialize) _ =>
      serialized ← map_err (λ _, FeasibilityError SERIALIZATION_FAILURE "Phantom signed transaction serialization failed.") serialize;
      of_option none (view_bytes serialized)
  | None, _ => Err none
  end.

Context {trade : TradeCodec} {codec : ReplayCodec}.

Definition encodeForPhantom (transaction : Transaction) : result replay_exn string :=
  wire ← runtime (encodeTransactionBytes transaction);
  Ok (base58Text wire).

Record PhantomSigned := mkPhantomSigned { ps_bytes : bytes; ps_signed : Transaction; ps_signature : string }.

Definition exactPhantomSignature (unsigned : Transaction) (response : wallet_value) : result replay_exn PhantomSigned :=
  returned ← signedTransactionBytes response;
  signed ← runtime (decodeTransactionBytes returned);
  throw_if (negb (bytesEqual unsigned.1 signed.1))
    (FeasibilityError SERIALIZATION_FAILURE "Phantom changed the guarded Jupiter message; refusing because EquityGuard must remain instruction 0.");;
  signature ← runtime (getSignatureFromTransaction signed);
  Ok (mkPhantomSigned returned signed signature).
End Checks.

Section Load.
  Context {address : AddressCodec}.
  (** [BigInt(s)], [None] when it throws. *)
  Variable bigInt : string → option Z.

(** [ok]: of the two responses; the files are trusted to have their types. *)
Definition loadReplayData (fixture_ok sealed_ok : bool) (fixture : RouteFixture) (sealed : SealedAuthorizations) : result replay_exn ReplayData :=
  replay_if (negb fixture_ok || negb sealed_ok) "Local replay fixture files are unavailable";;
  replay_if (negb (num_is (sa_decimals sealed) (Z.of_nat KOX_DECIMALS))) "sealed KOx decimals are not 8";;
  replay_if (negb (String.eqb (sa_stale_source sealed) STALE_AUTHORIZATION_SOURCE)
             || negb (String.eqb (sa_refreshed_source sealed) REFRESHED_AUTHORIZATION_SOURCE))
    "sealed authorization sources are not the Sep 15 KOx observations";;
  build ← map_err JupiterFailed (parseBuildResponse (rf_build fixture));
  stale ← map_err RetargetFailed (expectationFromRecordedAuthorization bigInt (sa_stale sealed));
  refreshed ← map_err RetargetFailed (expectationFromRecordedAuthorization bigInt (sa_refreshed sealed));
  Ok (mkReplayData fixture build stale refreshed (sa_stale_source sealed) (sa_refreshed_source sealed)).
End Load.

(* ------------------------------------------------------------------ *)
(** ** The flows *)

Section Replay.
  Context {address : AddressCodec} {transactions : TransactionCodec} {trade : TradeCodec} {codec : ReplayCodec}
    {derivation : ProgramDerivation} {hash : Digest}.
  (** The platform: [new URL], [atob] and [Number(v)]; and what each moment answers. *)
  Variable parse_url : string → option Url.
  Variable atob : string → option bytes.
  Variable numberOf : jsval → jsnum.
  Variable chain : nat → LocalEndpoint.

Abbreviation replay_flow := (flow replay_exn replay_effect).

(** One request at the current moment. *)
Definition ask_local {A} (f : LocalEndpoint → result jsval A) : replay_flow A :=
  await (λ n, map_err RequestRejected (f (chain n))).

Definition replay_stage (s : BuyStage) : replay_flow unit := note (ReplayStage s).

Definition verifyLocalReplayValidator (rpcUrl : string) : replay_flow string :=
  check_flow (assertLocalRpcUrl parse_url rpcUrl);;
  genesis ← ask_local le_getGenesisHash;
  check_flow (throw_if (bool_decide (genesis ∈ [MAINNET_GENESIS_HASH; DEVNET_GENESIS_HASH; TESTNET_GENESIS_HASH]))
    (FeasibilityError LOCAL_RPC_REFUSED "Refusing a public Solana cluster genesis hash"));;
  guard ← ask_local (λ e, le_getAccountInfo e EQUITY_GUARD_DEVNET_PROGRAM_ID);
  check_flow (replay_if (negb (match guard with Some account => la_executable account | None => false end))
    "Local validator does not have the EquityGuard replay program");;
  mret genesis.

Definition is_settled (status : option SignatureStatus) : bool :=
  match status with
  | Some s => match ss_confirmationStatus s with Some c => String.eqb c "confirmed" || String.eqb c "finalized" | None => false end
  | None => false
  end.

(** The for loop of [ensureLocalFeeFunds]. *)
Fixpoint waitForAirdrop (attempts : nat) (airdrop : string) : replay_flow unit :=
  match attempts with
  | O => check_flow (Err (ReplayError "Local fee-funding airdrop did not confirm"))
  | S attempts =>
      status ← ask_local (λ e, le_getSignatureStatus e airdrop);
      check_flow (replay_if (match status with Some s => truthy (ss_err s) | None => false end) "Local fee-funding airdrop failed");;
      if is_settled status then mret tt else waitForAirdrop attempts airdrop
  end.

Definition ensureLocalFeeFunds (trader : Address) : replay_flow unit :=
  balance ← ask_local (λ e, le_getBalance e trader);
  if MINIMUM_FEE_BALANCE <=? balance then mret tt
  else
    note (RequestedAirdrop trader);;
    airdrop ← ask_local (λ e, le_requestAirdrop e trader LOCAL_AIRDROP);
    waitForAirdrop POLL_LIMIT airdrop.

(** The amount of a token account, 0 when there is none. *)
Definition amountOf (account : Address) (info : option LocalAccount) : result replay_exn Z :=
  match info with
  | None => Ok 0
  | Some found =>
      data ← runtime (atob (la_data found));
      replay_if (Nat.ltb (length data) 72) ("token account " +:+ account +:+ " is malformed");;
      runtime (get_uint 8 data 64)
  end.

Definition tokenBalance (account : Address) : replay_flow Z :=
  info ← ask_local (λ e, le_getAccountInfo e account);
  check_flow (amountOf account info).

Definition balances (prepared : PreparedReplay) : replay_flow ReplayBalances :=
  usdc ← tokenBalance (pr_sourceAta prepared);
  kox ← tokenBalance (pr_destinationAta prepared);
  mret (mkReplayBalances usdc kox).

Definition readPhantomBaseline (trader sourceAta destinationAta : Address) : replay_flow (Z * Z * Z) :=
  sol ← ask_local (λ e, le_getBalance e trader);
  usdc ← tokenBalance sourceAta;
  kox ← tokenBalance destinationAta;
  mret (sol, usdc, kox).

(** The captured build, for this trader and this blockhash. *)
Definition retargetedBuild (retargeted : RetargetedBuild) (blockhash : bytes) (lastValidBlockHeight : jsnum) : BuildResponse :=
  let b := rt_build retargeted in
  mkBuild (br_inputMint b) (br_outputMint b) (br_inAmount b) (br_outAmount b) (br_otherAmountThreshold b) (br_swapMode b) (br_slippageBps b)
    (br_routePlan b) (br_computeBudgetInstructions b) (br_setupInstructions b) (br_swapInstruction b) (br_cleanupInstruction b)
    (br_otherInstructions b) (br_tipInstruction b) (br_addressesByLookupTableAddress b) (map (λ byte, NumInt (b2z byte)) blockhash) lastValidBlockHeight.

(** Everything that is computed once the validator has been read. *)
Definition composeReplay (data : ReplayData) (trader : Address) (kind : ReplayKind) (retargeted : RetargetedBuild) (prefix : RouteV2Prefix)
    (latest : Blockhash) : result replay_exn PreparedReplay :=
  blockhash ← runtime (base58Bytes (bh_blockhash latest));
  let build := retargetedBuild retargeted blockhash (numberOf (JBigint (bh_lastValidBlockHeight latest))) in
  let expectation := if bool_decide (kind = RK_STALE) then rd_stale data else rd_refreshed data in
  let adapterKind := rf_adapterKind (rd_fixture data) in
  composition ← map_err JupiterFailed (composeGuardedJupiterTrade
    (mkTradeRequest adapterKind KOX_MINT trader (rf_computeUnitLimit (rd_fixture data))) build EQUITY_GUARD_DEVNET_PROGRAM_ID trader expectation);
  let wireBytes := comp_wireBytes composition in
  unsigned ← runtime (decodeTransactionBytes wireBytes);
  assertSingleSigner unsigned trader;;
  resolved ← map_err JupiterFailed (resolveWireTransaction wireBytes (br_addressesByLookupTableAddress build));
  let programs := map ci_programAddress resolved in
  replay_if (negb (bool_decide (head programs = Some EQUITY_GUARD_DEVNET_PROGRAM_ID))) "EquityGuard is not instruction 0";;
  replay_if (negb (bool_decide (last programs = Some JUPITER_V6_PROGRAM_ADDRESS))) "Jupiter route is not the final instruction";;
  let commitment := t_commitment (comp_trade composition) in
  verdict ← map_err ClientFailed (checkGuardedJupiterTransaction resolved 0 adapterKind KOX_MINT commitment);
  replay_if (bool_decide (is_Some verdict)) ("production guard-client rejected retargeted replay: " +:+ show_verdict verdict);;
  replay_if (negb (String.eqb (String.concat "," (requiredSignerAddresses build)) trader)) "retargeted Jupiter build has a hidden signer";;
  replay_if (negb (String.eqb (ai_data (br_swapInstruction build)) (ai_data (br_swapInstruction (rd_build data))))) "Jupiter route data changed";;
  replay_if (negb (bool_decide (br_routePlan build = br_routePlan (rd_build data)))) "Jupiter route plan changed";;
  Ok (mkPrepared kind unsigned wireBytes (rt_sourceAta retargeted) (rt_destinationAta retargeted) (bh_blockhash latest)
        (bh_lastValidBlockHeight latest) (toHex commitment) trader trader programs (inAmount prefix) (quotedOutAmount prefix)
        (if bool_decide (kind = RK_STALE) then rd_staleSource data else rd_refreshedSource data) (skipPreflightAllowed kind)).

(** The two token accounts, the second of which may not exist yet. *)
Definition assertReplayAccounts (trader : Address) (retargeted : RetargetedBuild) : replay_flow unit :=
  source ← ask_local (λ e, le_getAccountInfo e (rt_sourceAta retargeted));
  destination ← ask_local (λ e, le_getAccountInfo e (rt_destinationAta retargeted));
  match source with
  | None => check_flow (Err (ReplayError ("Phantom local USDC ATA " +:+ rt_sourceAta retargeted +:+ " is not loaded")))
  | Some account => check_flow (assertTokenAccount atob account LEGACY_TOKEN_PROGRAM_ADDRESS USDC_MINT_ADDRESS trader "Phantom USDC ATA")
  end;;
  match destination with
  | None => mret tt
  | Some account => check_flow (assertTokenAccount atob account TOKEN_2022_PROGRAM_ADDRESS KOX_MINT trader "Phantom KOx ATA")
  end.

Definition prepareReplay (data : ReplayData) (trader : Address) (kind : ReplayKind) (rpcUrl : string) : replay_flow PreparedReplay :=
  verifyLocalReplayValidator rpcUrl;;
  check_flow (assertConnectedPhantom trader);;
  check_flow (assertLocalRpcUrl parse_url rpcUrl);;
  ensureLocalFeeFunds trader;;
  retargeted ← check_flow (map_err RetargetFailed (retargetBuildForTrader (rd_build data) trader));
  check_flow (replay_if (negb (String.eqb (rt_sourceAta retargeted) EXPECTED_PHANTOM_USDC_ATA)
                         || negb (String.eqb (rt_destinationAta retargeted) EXPECTED_PHANTOM_KOX_ATA))
    "canonical Phantom ATAs do not match the reviewed addresses");;
  route ← check_flow (runtime (atob (ai_data (br_swapInstruction (rd_build data)))));
  prefix ← check_flow (of_option (ReplayError "Jupiter route amounts changed; refusing to retarget") (decodeRouteV2Prefix route));
  check_flow (replay_if (negb (inAmount prefix =? EXPECTED_IN_AMOUNT) || negb (quotedOutAmount prefix =? EXPECTED_OUT_AMOUNT))
    "Jupiter route amounts changed; refusing to retarget");;
  check_flow (replay_if (negb (String.eqb (formatKox (quotedOutAmount prefix)) "0.05504261")) "KOx display amount is not 0.05504261");;
  assertReplayAccounts trader retargeted;;
  baseline ← readPhantomBaseline trader (rt_sourceAta retargeted) (rt_destinationAta retargeted);
  let '(sol, usdc, kox) := baseline in
  check_flow (assertDeterministicBaseline sol usdc kox);;
  latest ← ask_local le_getLatestBlockhash;
  check_flow (composeReplay data trader kind retargeted prefix latest).

(** The body of the answer, whatever it is. *)
Definition simulationVerdict (programs : list string) (json : jsval) : result replay_exn (option LocalSimulationFailure) :=
  throw_if (nullish json) RuntimeFailed;;
  if truthy (get_prop "error" json) then Ok (Some (decodeLocalRpcFailure numberOf (get_prop "error" json) FS_simulation programs))
  else
    let value := get_prop "value" (get_prop "result" json) in
    if truthy (get_prop "err" value)
    then Ok (Some (decodeLocalRpcFailure numberOf
           (JObject [("code", JNum (NumInt (-32002))); ("message", JString "Transaction simulation failed"); ("data", value)]) FS_simulation programs))
    else Ok None.

Definition simulateExactSignedTransaction (wire : bytes) (programs : list string) : replay_flow (option LocalSimulationFailure) :=
  json ← ask_local (λ e, le_simulateTransaction e wire);
  check_flow (simulationVerdict programs json).

(** [transaction] once the validator shows it, or its lifetime is over. *)
Fixpoint waitForTransaction (attempts : nat) (signature : string) (lastValidBlockHeight : Z) : replay_flow ReplayTransaction :=
  match attempts with
  | O => check_flow (Err (ReplayError "Local guarded replay did not confirm"))
  | S attempts =>
      transaction ← ask_local (λ e, le_getTransaction e signature);
      match transaction with
      | Some transaction => mret transaction
      | None =>
          height ← ask_local le_getBlockHeight;
          check_flow (replay_if (lastValidBlockHeight <? height) "Local guarded replay expired before confirmation");;
          waitForTransaction attempts signature lastValidBlockHeight
      end
  end.

Definition outcomeOf (prepared : PreparedReplay) (signature : string) (before after : ReplayBalances) (simulation : option LocalSimulationFailure)
    (transaction : ReplayTransaction) (meta : TransactionMeta) : ReplayOutcome :=
  let failure := customFailure numberOf (mt_err meta) in
  let logs := mt_logMessages meta in
  mkReplayOutcome (pr_kind prepared) signature (rx_slot transaction) (pr_requiredSigner prepared) (pr_feePayer prepared) (mt_err meta)
    failure.1 failure.2 (failure.2 ≫= guard_error_of) (invoked logs EQUITY_GUARD_DEVNET_PROGRAM_ID) (invoked logs JUPITER_V6_PROGRAM_ADDRESS)
    (invoked logs WHIRLPOOL_PROGRAM) before after (skipPreflightAllowed (pr_kind prepared)) logs (mt_computeUnits meta) simulation
    (pr_authorizationSource prepared).

Definition confirmReplay (prepared : PreparedReplay) (signature : string) (before : ReplayBalances) (simulation : option LocalSimulationFailure)
    (rpcUrl : string) : replay_flow ReplayOutcome :=
  check_flow (assertLocalRpcUrl parse_url rpcUrl);;
  replay_stage B_CONFIRMATION;;
  transaction ← waitForTransaction POLL_LIMIT signature (pr_lastValidBlockHeight prepared);
  replay_stage B_BALANCE_VERIFICATION;;
  meta ← check_flow (of_option (ReplayError "Confirmed transaction metadata is missing") (rx_meta transaction));
  check_flow (replay_if (negb (rx_numRequiredSignatures transaction =? 1)
                         || negb (bool_decide (head (rx_accountKeys transaction) = Some (pr_requiredSigner prepared)))
                         || negb (bool_decide (head (rx_signatures transaction) = Some signature)))
    "Confirmed signer/fee payer/signature mismatch");;
  after ← balances prepared;
  let outcome := outcomeOf prepared signature before after simulation transaction meta in
  check_flow (assertOutcome outcome);;
  mret outcome.

(** The verdict on the simulation of the signed bytes. *)
Definition requireSimulation (prepared : PreparedReplay) (simulation : option LocalSimulationFailure) : result replay_exn unit :=
  if bool_decide (pr_kind prepared = RK_STALE) then
    throw_if (negb (isExpectedStaleSimulation simulation))
      (ReplaySimulationError (simulation ?? decodeLocalRpcFailure numberOf
         (JObject [("code", JNum (NumInt (-32002))); ("message", JString "Stale simulation did not reject at EquityGuard");
                   ("data", JObject [("err", JNull); ("logs", JArray [])])]) FS_simulation (pr_programs prepared)))
  else match simulation with Some failure => Err (ReplaySimulationError failure) | None => Ok tt end.

(** The signed trade, simulated, and the balances it starts from. *)
Record SignedReplay := mkSignedReplay {
  sr_before : ReplayBalances;
  sr_phantom : PhantomSigned;
  sr_wire : bytes;
  sr_simulation : option LocalSimulationFailure;
}.

Definition signReplay (prepared : PreparedReplay) (rpcUrl : string) : replay_flow SignedReplay :=
  replay_stage B_ENVIRONMENT_CHECK;;
  verifyLocalReplayValidator rpcUrl;;
  check_flow (assertLocalRpcUrl parse_url rpcUrl);;
  ensureLocalFeeFunds (pr_requiredSigner prepared);;
  before ← balances prepared;
  replay_stage B_SIGN_REQUEST;;
  message ← check_flow (encodeForPhantom (pr_unsigned prepared));
  note (RequestedSignature message);;
  response ← ask_local (λ e, le_request e message);
  replay_stage B_SIGNED_BYTES_RETURNED;;
  phantom ← check_flow (exactPhantomSignature (pr_unsigned prepared) response);
  wire ← check_flow (runtime (encodeTransactionBytes (ps_signed phantom)));
  check_flow (assertLocalRpcUrl parse_url rpcUrl);;
  replay_stage B_SIMULATION;;
  simulation ← simulateExactSignedTransaction wire (pr_programs prepared);
  check_flow (replay_if (negb (Bool.eqb (pr_skipPreflight prepared) (skipPreflightAllowed (pr_kind prepared))))
    "prepared skipPreflight does not match policy");;
  check_flow (requireSimulation prepared simulation);;
  check_flow (replay_if (skipPreflightAllowed (pr_kind prepared) && negb (bool_decide (pr_kind prepared = RK_STALE)))
    "skipPreflight is allowed only for the stale rejection");;
  mret (mkSignedReplay before phantom wire simulation).

(** At most one submission of those bytes. *)
Definition submitReplay (prepared : PreparedReplay) (rpcUrl : string) (signed : SignedReplay) : replay_flow ReplayOutcome :=
  let skipPreflight := skipPreflightAllowed (pr_kind prepared) in
  replay_stage B_SUBMISSION;;
  note (SentTransaction (sr_wire signed) skipPreflight);;
  submitted ← rescue (ask_local (λ e, le_sendTransaction e (sr_wire signed) skipPreflight)) (λ error,
    check_flow (Err (match error with
                     | RequestRejected reason => ReplaySimulationError (decodeLocalRpcFailure numberOf reason FS_sendRawTransaction (pr_programs prepared))
                     | _ => error
                     end)));
  check_flow (replay_if (negb (String.eqb submitted (ps_signature (sr_phantom signed)))) "Local RPC returned a different signature");;
  confirmReplay prepared (ps_signature (sr_phantom signed)) (sr_before signed) (sr_simulation signed) rpcUrl.

Definition signSubmitAndConfirmReplay (prepared : PreparedReplay) (rpcUrl : string) : replay_flow ReplayOutcome :=
  signed ← signReplay prepared rpcUrl;
  submitReplay prepared rpcUrl signed.
End Replay.

(* ------------------------------------------------------------------ *)
(** ** What a replayed trade establishes *)

Section ReplaySpec.
  Context {address : AddressCodec} {transactions : TransactionCodec} {trade : TradeCodec} {codec : ReplayCodec}
    {derivation : ProgramDerivation} {hash : Digest}.
  (** The platform: [new URL], [atob] and [Number(v)]; and what each moment answers. *)
  Variable parse_url : string → option Url.
  Variable atob : string → option bytes.
  Variable numberOf : jsval → jsnum.
  Variable chain : nat → LocalEndpoint.

Lemma asks_local {A} (f : LocalEndpoint → result jsval A) : asks [] (ask_local chain f).
Proof. unfold ask_local. asks. Qed.

Lemma asks_stage s : asks [] (replay_stage s).
Proof. by apply asks_report. Qed.

#[local] Hint Resolve asks_local asks_stage : asks.

Lemma asks_airdrop attempts airdrop : asks [] (waitForAirdrop chain attempts airdrop).
Proof. induction attempts as [|attempts IH]; cbn; asks. Qed.

Lemma asks_transaction attempts signature height : asks [] (waitForTransaction chain attempts signature height).
Proof. induction attempts as [|attempts IH]; cbn; asks. Qed.

Lemma asks_token account : asks [] (tokenBalance atob chain account).
Proof. unfold tokenBalance. asks. Qed.

#[local] Hint Resolve asks_airdrop asks_transaction asks_token : asks.

Lemma asks_balances prepared : asks [] (balances atob chain prepared).
Proof. unfold balances. asks. Qed.

Lemma asks_validator rpcUrl : asks [] (verifyLocalReplayValidator parse_url chain rpcUrl).
Proof. unfold verifyLocalReplayValidator. asks. Qed.

Lemma asks_funds trader : asks [] (ensureLocalFeeFunds chain trader).
Proof. unfold ensureLocalFeeFunds. asks. Qed.

Lemma asks_simulation wire programs : asks [] (simulateExactSignedTransaction numberOf chain wire programs).
Proof. unfold simulateExactSignedTransaction. asks. Qed.

#[local] Hint Resolve asks_balances asks_validator asks_funds asks_simulation : asks.

Lemma asks_confirm prepared signature before simulation rpcUrl : asks [] (confirmReplay parse_url atob numberOf chain prepared signature before simulation rpcUrl).
Proof. unfold confirmReplay. asks. Qed.

Lemma asks_prepare data trader kind rpcUrl : asks [] (prepareReplay parse_url atob numberOf chain data trader kind rpcUrl).
Proof. unfold prepareReplay, assertReplayAccounts, readPhantomBaseline. asks. Qed.

(** The text the wallet is asked to sign. *)
Definition wallet_message (prepared : PreparedReplay) : string := match encodeForPhantom (pr_unsigned prepared) with Ok m => m | Err _ => "" end.

Lemma asks_sign prepared rpcUrl : asks [RequestedSignature (wallet_message prepared)] (signReplay parse_url atob numberOf chain prepared rpcUrl).
Proof.
  unfold signReplay. do 6 (apply asks_then; [asks|intros ?]). apply asks_computed. intros message Hm. unfold wallet_message. rewrite Hm.
  apply (asks_bind [RequestedSignature message] []); [exact (asks_note (RequestedSignature message))|intros _]. asks.
Qed.

Lemma ask_local_Ok {A} (f : LocalEndpoint → result jsval A) t a t' : ask_local chain f t = (Ok a, t') → f (chain t.1) = Ok a.
Proof. unfold ask_local. intros [H _]%await_Ok. by destruct (f _) as [x|e]; [injection H as ->|]. Qed.

Lemma runtime_Ok {A} (o : option A) a : runtime o = Ok a ↔ o = Some a.
Proof. unfold runtime, of_option. destruct o; split; congruence. Qed.

Lemma exactPhantomSignature_Ok unsigned response phantom : exactPhantomSignature unsigned response = Ok phantom →
  signedTransactionBytes response = Ok (ps_bytes phantom) ∧ decodeTransactionBytes (ps_bytes phantom) = Some (ps_signed phantom) ∧
  (ps_signed phantom).1 = unsigned.1 ∧ getSignatureFromTransaction (ps_signed phantom) = Some (ps_signature phantom).
Proof.
  unfold exactPhantomSignature. intros (returned & Hr & H)%bind_Ok. apply bind_Ok in H as (signed & Hs%runtime_Ok & H).
  rewrite throw_if_then_Ok, negb_false_iff in H. destruct H as [He%bytesEqual_spec H].
  apply bind_Ok in H as (signature & Hsig%runtime_Ok & [= <-]). done.
Qed.

Lemma skipPreflight_stale kind : skipPreflightAllowed kind = bool_decide (kind = RK_STALE).
Proof. by destruct kind. Qed.

(** The guarded trade of a build, with what it was checked against. *)
Record composed_well (data : ReplayData) (prepared : PreparedReplay) (build : BuildResponse) : Prop := {
  co_signers : String.concat "," (requiredSignerAddresses build) = EXPECTED_PHANTOM;
  co_route : ai_data (br_swapInstruction build) = ai_data (br_swapInstruction (rd_build data)) ∧ br_routePlan build = br_routePlan (rd_build data);
  co_checked : ∃ composition resolved,
    composeGuardedJupiterTrade (mkTradeRequest (rf_adapterKind (rd_fixture data)) KOX_MINT EXPECTED_PHANTOM (rf_computeUnitLimit (rd_fixture data)))
      build EQUITY_GUARD_DEVNET_PROGRAM_ID EXPECTED_PHANTOM (if decide (pr_kind prepared = RK_STALE) then rd_stale data else rd_refreshed data) = Ok composition ∧
    comp_wireBytes composition = pr_wireBytes prepared ∧ toHex (t_commitment (comp_trade composition)) = pr_commitmentHex prepared ∧
    resolveWireTransaction (pr_wireBytes prepared) (br_addressesByLookupTableAddress build) = Ok resolved ∧
    pr_programs prepared = map ci_programAddress resolved ∧
    checkGuardedJupiterTransaction resolved 0 (rf_adapterKind (rd_fixture data)) KOX_MINT (t_commitment (comp_trade composition)) = Ok None;
  co_ends : head (pr_programs prepared) = Some EQUITY_GUARD_DEVNET_PROGRAM_ID ∧ last (pr_programs prepared) = Some JUPITER_V6_PROGRAM_ADDRESS;
}.

(** A trade that may be shown to the wallet. *)
Record prepared_well (data : ReplayData) (kind : ReplayKind) (prepared : PreparedReplay) : Prop := {
  pw_kind : pr_kind prepared = kind ∧ pr_skipPreflight prepared = bool_decide (kind = RK_STALE) ∧
    pr_authorizationSource prepared = (if decide (kind = RK_STALE) then rd_staleSource data else rd_refreshedSource data);
  pw_trader : pr_requiredSigner prepared = EXPECTED_PHANTOM ∧ pr_feePayer prepared = EXPECTED_PHANTOM ∧
    pr_sourceAta prepared = EXPECTED_PHANTOM_USDC_ATA ∧ pr_destinationAta prepared = EXPECTED_PHANTOM_KOX_ATA;
  pw_amounts : pr_inAmount prepared = EXPECTED_IN_AMOUNT ∧ pr_quotedOutAmount prepared = EXPECTED_OUT_AMOUNT;
  pw_decoded : decodeTransactionBytes (pr_wireBytes prepared) = Some (pr_unsigned prepared);
  pw_single : ∃ message, decodeCompiledMessage (pr_unsigned prepared).1 = Some message ∧
    take (Z.to_nat (ct_numSignerAccounts message)) (ct_staticAccounts message) = [EXPECTED_PHANTOM];
  pw_composed : ∃ build, composed_well data prepared build;
  pw_baseline : (∃ n sol, le_getBalance (chain n) EXPECTED_PHANTOM = Ok sol ∧ MINIMUM_FEE_BALANCE ≤ sol) ∧
    (∃ n info, le_getAccountInfo (chain n) EXPECTED_PHANTOM_USDC_ATA = Ok info ∧ amountOf atob EXPECTED_PHANTOM_USDC_ATA info = Ok EXPECTED_USDC_BASELINE) ∧
    (∃ n info, le_getAccountInfo (chain n) EXPECTED_PHANTOM_KOX_ATA = Ok info ∧ amountOf atob EXPECTED_PHANTOM_KOX_ATA info = Ok EXPECTED_KOX_BASELINE);
}.

Lemma composeReplay_Ok data trader kind retargeted prefix latest prepared : trader = EXPECTED_PHANTOM →
  composeReplay numberOf data trader kind retargeted prefix latest = Ok prepared →
  pr_kind prepared = kind ∧ pr_skipPreflight prepared = skipPreflightAllowed kind ∧
  pr_authorizationSource prepared = (if decide (kind = RK_STALE) then rd_staleSource data else rd_refreshedSource data) ∧
  pr_requiredSigner prepared = EXPECTED_PHANTOM ∧ pr_feePayer prepared = EXPECTED_PHANTOM ∧
  pr_sourceAta prepared = rt_sourceAta retargeted ∧ pr_destinationAta prepared = rt_destinationAta retargeted ∧
  pr_inAmount prepared = inAmount prefix ∧ pr_quotedOutAmount prepared = quotedOutAmount prefix ∧
  decodeTransactionBytes (pr_wireBytes prepared) = Some (pr_unsigned prepared) ∧
  (∃ message, decodeCompiledMessage (pr_unsigned prepared).1 = Some message ∧
    take (Z.to_nat (ct_numSignerAccounts message)) (ct_staticAccounts message) = [EXPECTED_PHANTOM]) ∧
  ∃ build, composed_well data prepared build.
Proof.
  intros Htrader. unfold composeReplay. intros (blockhash & _ & H)%bind_Ok. apply bind_Ok in H as (composition & Hc%map_err_Ok & H).
  apply bind_Ok in H as (unsigned & Hu%runtime_Ok & H). apply bind_Ok in H as ([] & Hsingle & H).
  apply bind_Ok in H as (resolved & Hr%map_err_Ok & H). rewrite !replay_if_then_Ok in H. destruct H as (Hhead & Hlast & H).
  apply bind_Ok in H as (verdict & Hv%map_err_Ok & H). rewrite !replay_if_then_Ok in H. destruct H as (Hnone & Hsig & Hdata & Hplan & [= <-]).
  autorewrite with flags in Hhead, Hlast, Hsig, Hdata, Hplan. apply bool_decide_eq_false, eq_None_not_Some in Hnone. subst verdict trader. cbn.
  split_and!; try done.
  - by destruct kind.
  - unfold assertSingleSigner in Hsingle. apply bind_Ok in Hsingle as (message & Hm%runtime_Ok & Hs%replay_if_Ok).
    autorewrite with flags in Hs. by exists message.
  - eexists. split; [exact Hsig|done| |done]. exists composition, resolved. split_and!; try done.
    destruct kind; exact Hc.
Qed.

Lemma amount_read account t amount t' : tokenBalance atob chain account t = (Ok amount, t') →
  ∃ n info, le_getAccountInfo (chain n) account = Ok info ∧ amountOf atob account info = Ok amount.
Proof. unfold tokenBalance. intros (info & t1 & Hi%ask_local_Ok & [Ha _]%check_flow_Ok)%flow_bind_Ok. by exists t.1, info. Qed.

Lemma assertDeterministicBaseline_Ok sol usdc kox u : assertDeterministicBaseline sol usdc kox = Ok u →
  MINIMUM_FEE_BALANCE ≤ sol ∧ usdc = EXPECTED_USDC_BASELINE ∧ kox = EXPECTED_KOX_BASELINE.
Proof.
  unfold assertDeterministicBaseline. rewrite !replay_if_then_Ok, replay_if_Ok. autorewrite with flags. intros (?%Z.ltb_ge & ? & ?). done.
Qed.

Lemma prepareReplay_Ok data trader kind rpcUrl t prepared t' :
  prepareReplay parse_url atob numberOf chain data trader kind rpcUrl t = (Ok prepared, t') → trader = EXPECTED_PHANTOM ∧ prepared_well data kind prepared.
Proof.
  intros Hrun. unfold prepareReplay in Hrun. apply flow_bind_Ok in Hrun as (? & ? & _ & H).
  apply flow_bind_Ok in H as (? & ? & [Ht%replay_if_Ok%negb_false_iff%String.eqb_eq _]%check_flow_Ok & H).
  do 2 (apply flow_bind_Ok in H as (? & ? & _ & H)). apply flow_bind_Ok in H as (retargeted & ? & _ & H).
  apply flow_bind_Ok in H as (? & ? & [Hata%replay_if_Ok _]%check_flow_Ok & H). apply flow_bind_Ok in H as (? & ? & _ & H).
  apply flow_bind_Ok in H as (prefix & ? & _ & H). apply flow_bind_Ok in H as (? & ? & [Hamounts%replay_if_Ok _]%check_flow_Ok & H).
  do 2 (apply flow_bind_Ok in H as (? & ? & _ & H)). apply flow_bind_Ok in H as ([[sol usdc] kox] & ? & Hread & H).
  apply flow_bind_Ok in H as (? & ? & [Hbase%assertDeterministicBaseline_Ok _]%check_flow_Ok & H).
  apply flow_bind_Ok in H as (latest & ? & _ & [Hcomposed _]%check_flow_Ok).
  apply (composeReplay_Ok _ _ _ _ _ _ _ Ht) in Hcomposed as (? & ? & ? & ? & ? & ? & ? & ? & ? & ? & ? & ?).
  autorewrite with flags in Hata, Hamounts. destruct Hata as [Hs Hd], Hamounts, Hbase as (? & -> & ->).
  unfold readPhantomBaseline in Hread. apply flow_bind_Ok in Hread as (sol' & ? & Hsol%ask_local_Ok & Hread).
  apply flow_bind_Ok in Hread as (u & ? & Hu%amount_read & Hread). apply flow_bind_Ok in Hread as (k & ? & Hk%amount_read & [= -> -> -> _]).
  rewrite Hs in *. rewrite Hd in *. rewrite Ht in Hsol. split; [done|]. split; try done; [split; congruence|by eauto 10].
Qed.

(** C21: preparing a trade asks the wallet for nothing and submits nothing, and
    what it prepares is the captured route for the configured trader alone, for
    the exact amounts, with the authorization of its kind, from seeded
    balances: one transaction that production guard-client accepts, behind the
    guard and ending in the swap. *)
Theorem prepareReplay_sound data trader kind rpcUrl r t' :
  prepareReplay parse_url atob numberOf chain data trader kind rpcUrl (0%nat, []) = (r, t') →
  questions t'.2 = [] ∧ ∀ prepared, r = Ok prepared → trader = EXPECTED_PHANTOM ∧ prepared_well data kind prepared.
Proof.
  intros Hrun. split.
  - pose proof (asks_prepare _ _ _ _ _ _ _ Hrun) as (_ & new & Hnew & Hp & _). cbn in Hnew. rewrite Hnew. by apply prefix_nil_inv.
  - intros prepared ->. by eapply prepareReplay_Ok.
Qed.

(** A signature that may be submitted. *)
Record signed_well (prepared : PreparedReplay) (s : SignedReplay) : Prop := {
  sw_asked : encodeForPhantom (pr_unsigned prepared) = Ok (wallet_message prepared);
  sw_response : ∃ n response, le_request (chain n) (wallet_message prepared) = Ok response ∧
    exactPhantomSignature (pr_unsigned prepared) response = Ok (sr_phantom s);
  sw_message : (ps_signed (sr_phantom s)).1 = (pr_unsigned prepared).1;
  sw_wire : encodeTransactionBytes (ps_signed (sr_phantom s)) = Some (sr_wire s);
  sw_simulated : ∃ n json, le_simulateTransaction (chain n) (sr_wire s) = Ok json ∧
    simulationVerdict numberOf (pr_programs prepared) json = Ok (sr_simulation s);
  sw_verdict : if decide (pr_kind prepared = RK_STALE) then isExpectedStaleSimulation (sr_simulation s) = true else sr_simulation s = None;
  sw_policy : pr_skipPreflight prepared = skipPreflightAllowed (pr_kind prepared);
}.

Lemma requireSimulation_Ok prepared simulation u : requireSimulation numberOf prepared simulation = Ok u →
  if decide (pr_kind prepared = RK_STALE) then isExpectedStaleSimulation simulation = true else simulation = None.
Proof.
  unfold requireSimulation. case_bool_decide; destruct (decide _); try done.
  - by intros ?%throw_if_Ok%negb_false_iff.
  - by destruct simulation.
Qed.

Lemma signReplay_Ok prepared rpcUrl t s t' : signReplay parse_url atob numberOf chain prepared rpcUrl t = (Ok s, t') → signed_well prepared s.
Proof.
  unfold signReplay. intros (? & ? & _ & H)%flow_bind_Ok. do 4 (apply flow_bind_Ok in H as (? & ? & _ & H)). apply flow_bind_Ok in H as (? & ? & _ & H).
  apply flow_bind_Ok in H as (message & ? & [Hm _]%check_flow_Ok & H). apply flow_bind_Ok in H as (? & ? & _ & H).
  apply flow_bind_Ok in H as (response & ? & Hr%ask_local_Ok & H). apply flow_bind_Ok in H as (? & ? & _ & H).
  apply flow_bind_Ok in H as (phantom & ? & [Hp _]%check_flow_Ok & H).
  apply flow_bind_Ok in H as (wire & ? & [Hw%runtime_Ok _]%check_flow_Ok & H).
  do 2 (apply flow_bind_Ok in H as (? & ? & _ & H)).
  apply flow_bind_Ok in H as (simulation & ? & Hs & H). apply flow_bind_Ok in Hs as (json & ? & Hj%ask_local_Ok & [Hv _]%check_flow_Ok).
  apply flow_bind_Ok in H as (? & ? & [Hpol%replay_if_Ok%negb_false_iff _]%check_flow_Ok & H).
  apply flow_bind_Ok in H as (? & ? & [Hreq%requireSimulation_Ok _]%check_flow_Ok & H).
  apply flow_bind_Ok in H as (? & ? & _ & [= <- _]).
  assert (wallet_message prepared = message) as Hmsg by (unfold wallet_message; by rewrite Hm).
  split; cbn; rewrite ?Hmsg; try done.
  - by eexists _, response.
  - by apply exactPhantomSignature_Ok in Hp as (_ & _ & ? & _).
  - by eexists _, json.
  - by apply Bool.eqb_prop.
Qed.

(** What a confirmed trade proves: the validator, asked from the moment [from]
    on, showed the transaction; then the balances were read; and the outcome is
    those two, with the balances and the simulation given, and nothing else. *)
Record confirmed_well (from : nat) (prepared : PreparedReplay) (signature : string) (before : ReplayBalances)
    (simulation : option LocalSimulationFailure) (o : ReplayOutcome) : Prop := {
  cw_kind : ro_kind o = pr_kind prepared;
  cw_signature : ro_signature o = signature;
  cw_signer : ro_signer o = pr_requiredSigner prepared ∧ ro_feePayer o = pr_feePayer prepared;
  cw_source : ro_authorizationSource o = pr_authorizationSource prepared;
  cw_judged : assertOutcome o = Ok tt;
  cw_read : ∃ n transaction meta m l after t', (from ≤ n < m)%nat ∧ le_getTransaction (chain n) signature = Ok (Some transaction) ∧
    rx_meta transaction = Some meta ∧ balances atob chain prepared (m, l) = (Ok after, t') ∧
    o = outcomeOf numberOf prepared signature before after simulation transaction meta ∧ ro_slot o = rx_slot transaction ∧
    rx_numRequiredSignatures transaction = 1 ∧ head (rx_accountKeys transaction) = Some (pr_requiredSigner prepared) ∧
    head (rx_signatures transaction) = Some signature;
}.

Lemma waitForTransaction_Ok attempts signature height t transaction t' : waitForTransaction chain attempts signature height t = (Ok transaction, t') →
  ∃ n, (t.1 ≤ n < t'.1)%nat ∧ le_getTransaction (chain n) signature = Ok (Some transaction).
Proof.
  revert t. induction attempts as [|attempts IH]; intros t; cbn; [done|].
  intros (found & t1 & [Hf%map_err_Ok ->]%await_Ok & H)%flow_bind_Ok. destruct found as [found|].
  - injection H as <- <-. exists t.1. cbn. split; [lia|done].
  - apply flow_bind_Ok in H as (? & ? & [_ ->]%await_Ok & H). apply flow_bind_Ok in H as (? & ? & [_ ->]%check_flow_Ok & H).
    apply IH in H as (n & Hn & ?). exists n. cbn in Hn. split; [lia|done].
Qed.

Lemma confirmReplay_Ok prepared signature before simulation rpcUrl t o t' :
  confirmReplay parse_url atob numberOf chain prepared signature before simulation rpcUrl t = (Ok o, t') → confirmed_well t.1 prepared signature before simulation o.
Proof.
  unfold confirmReplay. intros (? & ? & [_ ->]%check_flow_Ok & H)%flow_bind_Ok. apply flow_bind_Ok in H as (? & ? & ->%note_Ok & H).
  apply flow_bind_Ok in H as (transaction & t1 & (n & Hn & Ht)%waitForTransaction_Ok & H). apply flow_bind_Ok in H as (? & ? & ->%note_Ok & H).
  apply flow_bind_Ok in H as (meta & ? & [Hmeta%of_option_Ok ->]%check_flow_Ok & H).
  apply flow_bind_Ok in H as (? & ? & [Hsig%replay_if_Ok ->]%check_flow_Ok & H).
  apply flow_bind_Ok in H as (after & ? & Hafter & H). apply flow_bind_Ok in H as ([] & ? & [Ho _]%check_flow_Ok & [= <- _]).
  autorewrite with flags in Hsig. destruct Hsig as [[? ?] ?]. split; try done. eexists n, transaction, meta, t1.1, _, after, _.
  cbn in Hn. split_and!; [lia|lia|done|done|exact Hafter|done..].
Qed.

Lemma question_in (l : list replay_effect) a : is_question a = true → a ∈ l → a ∈ questions l.
Proof. intros Ha Hin. unfold questions. rewrite list_elem_of_In in *. by apply List.filter_In. Qed.

Lemma elem_of_prefix {A} (a : A) l k : a ∈ l → l `prefix_of` k → a ∈ k.
Proof. intros Ha [m ->]. apply elem_of_app. by left. Qed.

(** The rest of the flow, from a signed and simulated trade. *)
Lemma asks_submit prepared rpcUrl s : asks [SentTransaction (sr_wire s) (skipPreflightAllowed (pr_kind prepared))]
  (submitReplay parse_url atob numberOf chain prepared rpcUrl s).
Proof.
  unfold submitReplay. apply asks_then; [asks|intros _].
  apply (asks_bind [_] []); [exact (asks_note (SentTransaction _ _))|intros _].
  apply asks_then; [apply asks_rescue; [asks|intros e; asks]|intros submitted]. apply asks_then; [asks|intros _]. apply asks_confirm.
Qed.

Lemma submit_Ok prepared rpcUrl s t o t' : submitReplay parse_url atob numberOf chain prepared rpcUrl s t = (Ok o, t') →
  ∃ from, confirmed_well from prepared (ps_signature (sr_phantom s)) (sr_before s) (sr_simulation s) o.
Proof.
  unfold submitReplay. intros H. do 4 (apply flow_bind_Ok in H as (? & ? & _ & H)). eexists. by eapply confirmReplay_Ok.
Qed.

(** C20: whatever the validator and the wallet answer, a replayed trade asks for
    one signature and makes at most one submission, in this order; what it
    submits is the transaction the wallet returned for exactly the prepared
    message, simulated as signed with the verdict its kind requires, and
    preflight is skipped for the stale trade alone; a returned outcome is the
    validator's record of it and proves the rejection or the execution. *)
Theorem signSubmitAndConfirmReplay_sound prepared rpcUrl r t' :
  signSubmitAndConfirmReplay parse_url atob numberOf chain prepared rpcUrl (0%nat, []) = (r, t') →
  (∃ wire, questions t'.2 `prefix_of` [RequestedSignature (wallet_message prepared); SentTransaction wire (skipPreflightAllowed (pr_kind prepared))]) ∧
  (∀ wire flag, SentTransaction wire flag ∈ t'.2 → flag = bool_decide (pr_kind prepared = RK_STALE) ∧
     ∃ s, signed_well prepared s ∧ sr_wire s = wire) ∧
  (∀ outcome, r = Ok outcome → ∃ s from, signed_well prepared s ∧
     confirmed_well from prepared (ps_signature (sr_phantom s)) (sr_before s) (sr_simulation s) outcome ∧
     (stale_rejected outcome ∧ pr_kind prepared = RK_STALE ∨ trade_executed outcome ∧ pr_kind prepared ≠ RK_STALE)).
Proof.
  intros H. apply (asks_bind_cases [RequestedSignature (wallet_message prepared)]
      (λ s, [SentTransaction (sr_wire s) (skipPreflightAllowed (pr_kind prepared))])) in H; [|apply asks_sign|intros s; apply asks_submit].
  destruct H as [(e & new & _ & -> & Hnew & Hp)|(s & t1 & new & new' & Hs & Hrest & Hnew & Hq & Hnew' & Hp)]; cbn [snd app] in Hnew.
  - split; [exists []; rewrite Hnew; by apply (prefix_app_r _ [_])|]. split; [|done].
    intros wire flag Hin. exfalso. apply (question_in _ (SentTransaction wire flag) eq_refl) in Hin. rewrite Hnew in Hin.
    apply (elem_of_prefix _ _ _ Hin), list_elem_of_singleton in Hp. done.
  - pose proof (signReplay_Ok _ _ _ _ _ Hs) as Hwell. split; [exists (sr_wire s)|split].
    + rewrite Hnew', Hnew, questions_app, Hq. by apply (prefix_app [_]).
    + intros wire flag Hin. apply (question_in _ (SentTransaction wire flag) eq_refl) in Hin. rewrite Hnew', Hnew, questions_app, Hq, elem_of_app, list_elem_of_singleton in Hin.
      destruct Hin as [?|Hin]; [done|]. apply (elem_of_prefix _ _ _ Hin), list_elem_of_singleton in Hp. injection Hp as -> ->.
      split; [apply skipPreflight_stale|by exists s].
    + intros outcome ->. apply submit_Ok in Hrest as [from Hrest]. exists s, from. split; [done|]. split; [done|].
      destruct Hrest as [Hk _ _ _ Hj _].
      apply assertOutcome_Ok in Hj. rewrite Hk in Hj. tauto.
Qed.
End ReplaySpec.

(* ------------------------------------------------------------------ *)
(** ** At concrete answers *)

#[local] Instance sample_trade : TradeCodec := {| decodeTransactionBytes b := Some (b, []); decodeCompiledMessage _ := None |}.
#[local] Instance sample_codec : ReplayCodec :=
  {| encodeTransactionBytes t := Some t.1; getSignatureFromTransaction _ := Some "signature"; base58Text _ := "text"; base58Bytes _ := Some [] |}.

Definition sample_url (s : string) : option Url := Some (mkUrl "http:" "127.0.0.1" "8899" s s).
Definition sample_number (v : jsval) : jsnum := match v with JNum n => n | _ => NumOther "NaN" end.
Definition sample_guard_error : jsval := JObject [("InstructionError", JArray [JNum (NumInt 0); JObject [("Custom", JNum (NumInt 12))]])].

(** A validator whose guard refuses the trade, and a wallet that signs. *)
Definition sample_moment : LocalEndpoint := {|
  le_getGenesisHash := Ok "local";
  le_getAccountInfo _ := Ok (Some (mkLocalAccount true "" ""));
  le_getBalance _ := Ok 1000000000;
  le_requestAirdrop _ _ := Err JNull;
  le_getSignatureStatus _ := Ok None;
  le_getLatestBlockhash := Ok (mkBlockhash "blockhash" 1150);
  le_getBlockHeight := Ok 1000;
  le_getTransaction _ := Ok (Some (mkReplayTransaction 7
    (Some (mkMeta sample_guard_error ["Program " +:+ EQUITY_GUARD_DEVNET_PROGRAM_ID +:+ " invoke [1]"] None)) 1 [EXPECTED_PHANTOM] ["signature"]));
  le_simulateTransaction _ := Ok (JObject [("result", JObject [("value", JObject [("err", sample_guard_error); ("logs", JArray [])])])]);
  le_sendTransaction _ _ := Ok "signature";
  le_postTransaction _ _ := Ok (JObject [("result", JString "signature")]);
  le_isBlockhashValid _ := Ok true;
  le_request _ := Ok (WBytes [x2a]);
|}.

Definition sample_prepared : PreparedReplay :=
  mkPrepared RK_STALE ([x2a], []) [x2a] EXPECTED_PHANTOM_USDC_ATA EXPECTED_PHANTOM_KOX_ATA "blockhash" 1150 "" EXPECTED_PHANTOM EXPECTED_PHANTOM
    [EQUITY_GUARD_DEVNET_PROGRAM_ID] EXPECTED_IN_AMOUNT EXPECTED_OUT_AMOUNT "source" true.

Definition sample_replay : result replay_exn ReplayOutcome * (nat * list replay_effect) :=
  signSubmitAndConfirmReplay sample_url (λ _, Some (zeros 72)) sample_number (λ _, sample_moment) sample_prepared LOCAL_RPC_URL (0%nat, []).

Lemma signSubmitAndConfirmReplay_sound_witness :
  questions (snd (snd sample_replay)) = [RequestedSignature "text"; SentTransaction [x2a] true] ∧
  match fst sample_replay with Ok outcome => stale_rejected outcome | Err _ => False end.
Proof.
  split; [vm_compute; reflexivity|].
  destruct (signSubmitAndConfirmReplay_sound sample_url (λ _, Some (zeros 72)) sample_number (λ _, sample_moment) sample_prepared LOCAL_RPC_URL
    (fst sample_replay) (snd sample_replay) (surjective_pairing sample_replay)) as (_ & _ & H).
  destruct (fst sample_replay) as [o|e] eqn:E; [|vm_compute in E; discriminate].
  destruct (H o eq_refl) as (s & _ & _ & _ & [[Ho _]|[_ Hk]]); [exact Ho|]. destruct (Hk eq_refl).
Defined.

#[local] Existing Instance zero_digest.

(** A trade that is prepared: the captured route, as the library would compile it;
    hex stands for base-64, the two known token accounts for their derivation. *)
#[local] Instance replay_derivation : ProgramDerivation := {| programDerivedAddress _ seeds :=
  Some (if decide (seeds !! 0%nat = Some (key_of ORIGINAL_TAKER))
        then if decide (seeds !! 2%nat = Some (key_of USDC_MINT_ADDRESS)) then ORIGINAL_USDC_ATA else ORIGINAL_KOX_ATA
        else if decide (seeds !! 2%nat = Some (key_of USDC_MINT_ADDRESS)) then EXPECTED_PHANTOM_USDC_ATA else EXPECTED_PHANTOM_KOX_ATA) |}.

Definition replay_accounts (taker usdc kox : Address) : list ApiAccountMeta :=
  map (λ '(a, s), mkApiMeta a s false)
    [(taker, true); (usdc, false); (kox, false); (USDC_MINT_ADDRESS, false); (KOX_MINT, false); (LEGACY_TOKEN_PROGRAM_ADDRESS, false);
     (TOKEN_2022_PROGRAM_ADDRESS, false); (JUPITER_V6_PROGRAM_ADDRESS, false); (JUPITER_EVENT_AUTHORITY, false); (JUPITER_V6_PROGRAM_ADDRESS, false);
     (taker, true); (taker, true); (taker, true); (usdc, false); (kox, false); (kox, false)].

Definition replay_sample_build (taker usdc kox : Address) : BuildResponse :=
  {| br_inputMint := USDC_MINT_ADDRESS; br_outputMint := KOX_MINT; br_inAmount := "5000000"; br_outAmount := "5504261";
     br_otherAmountThreshold := "5476740"; br_swapMode := "ExactIn"; br_slippageBps := NumInt 50; br_routePlan := [];
     br_computeBudgetInstructions := [mkApiInstruction COMPUTE_BUDGET_PROGRAM_ADDRESS [] "030000000000000000"];
     br_setupInstructions := [];
     br_swapInstruction := mkApiInstruction JUPITER_V6_PROGRAM_ADDRESS (replay_accounts taker usdc kox)
       (toHex (print_prefix (mkPrefix 5000000 5504261 50 0 0 1)));
     br_cleanupInstruction := None; br_otherInstructions := []; br_tipInstruction := None; br_addressesByLookupTableAddress := [];
     br_blockhash := []; br_lastValidBlockHeight := NumInt 1150 |}.

Definition replay_request : JupiterTradeRequest := mkTradeRequest JUPITER_ROUTE_V2_BUY_USDC KOX_MINT EXPECTED_PHANTOM (NumInt 0).
Definition replay_statics : list Address :=
  [EXPECTED_PHANTOM; EQUITY_GUARD_DEVNET_PROGRAM_ID; KOX_MINT; SYSVAR_INSTRUCTIONS_ADDRESS; COMPUTE_BUDGET_PROGRAM_ADDRESS; JUPITER_V6_PROGRAM_ADDRESS;
   EXPECTED_PHANTOM_USDC_ATA; EXPECTED_PHANTOM_KOX_ATA; USDC_MINT_ADDRESS; LEGACY_TOKEN_PROGRAM_ADDRESS; TOKEN_2022_PROGRAM_ADDRESS; JUPITER_EVENT_AUTHORITY].
Definition replay_compile (instructions : list Instruction) : CompiledMessage :=
  let index := position replay_statics in
  mkMessage (Some 0) (Compose.mkCounts 1 0 11) replay_statics None
    (map (λ i, mkCompiled (index (ix_programAddress i)) (Some (map (λ m, index (meta_address m)) (accounts_of i))) (ix_data i)) instructions).

#[local] Instance replay_first : TransactionCodec :=
  {| base64Encode s := Some (fromHex s); base64Text := toHex; blockhashText _ := "blockhash";
     compileTransactionMessage m := Some (replay_compile (tm_instructions m)); encodeMessage _ := Some (zeros 100);
     encodeTransaction _ := Some (zeros 229); decodeTransaction _ := None |}.

Definition replay_expectation : AssertSafeExecutionRequest := mkRequest sample_state Pending (mkWindow (NumInt 0) (NumInt 0)).
Definition replay_message : CompiledMessage := Eval vm_compute in
  match normalizedJupiterSuffix (replay_sample_build EXPECTED_PHANTOM EXPECTED_PHANTOM_USDC_ATA EXPECTED_PHANTOM_KOX_ATA) (NumInt 0) with
  | Ok suffix =>
      match buildGuardedJupiterTrade EQUITY_GUARD_DEVNET_PROGRAM_ID EXPECTED_PHANTOM KOX_MINT JUPITER_ROUTE_V2_BUY_USDC replay_expectation suffix with
      | Ok trade => replay_compile (t_instructions trade)
      | Err _ => replay_compile []
      end
  | Err _ => replay_compile []
  end.
#[local] Instance replay_transactions : TransactionCodec :=
  {| base64Encode s := Some (fromHex s); base64Text := toHex; blockhashText _ := "blockhash";
     compileTransactionMessage m := Some (replay_compile (tm_instructions m)); encodeMessage _ := Some (zeros 100);
     encodeTransaction _ := Some (zeros 229); decodeTransaction _ := Some replay_message |}.
#[local] Instance replay_trade : TradeCodec :=
  {| decodeTransactionBytes b := Some (zeros 100, []); decodeCompiledMessage _ := Some (mkCompiledTrade (Some 0) 1 replay_statics []) |}.

Definition replay_data : ReplayData :=
  mkReplayData (mkRouteFixture JUPITER_ROUTE_V2_BUY_USDC (NumInt 0) JNull) (replay_sample_build ORIGINAL_TAKER ORIGINAL_USDC_ATA ORIGINAL_KOX_ATA)
    replay_expectation replay_expectation "stale" "refreshed".

Definition replay_token (program mint : Address) (amount : Z) : LocalAccount :=
  mkLocalAccount false program (toHex (key_of mint ++ key_of EXPECTED_PHANTOM ++ le_bytes 8 amount)).
Definition replay_moment : LocalEndpoint := {|
  le_getGenesisHash := Ok "local";
  le_getAccountInfo a := Ok (Some (if String.eqb a EXPECTED_PHANTOM_USDC_ATA then replay_token LEGACY_TOKEN_PROGRAM_ADDRESS USDC_MINT_ADDRESS 5000000
    else if String.eqb a EXPECTED_PHANTOM_KOX_ATA then replay_token TOKEN_2022_PROGRAM_ADDRESS KOX_MINT 0 else mkLocalAccount true "" ""));
  le_getBalance _ := Ok 1000000000; le_requestAirdrop _ _ := Err JNull; le_getSignatureStatus _ := Ok None;
  le_getLatestBlockhash := Ok (mkBlockhash "blockhash" 1150); le_getBlockHeight := Ok 1000; le_getTransaction _ := Ok None;
  le_simulateTransaction _ := Err JNull; le_sendTransaction _ _ := Err JNull; le_postTransaction _ _ := Err JNull;
  le_isBlockhashValid _ := Ok true; le_request _ := Err JNull;
|}.

Definition replay_number (v : jsval) : jsnum := match v with JBigint z => NumInt z | _ => NumInt 0 end.

Lemma replay_is_prepared : ∃ prepared t', pr_skipPreflight prepared = true ∧
  prepareReplay sample_url (λ s, Some (fromHex s)) replay_number (λ _, replay_moment) replay_data EXPECTED_PHANTOM RK_STALE LOCAL_RPC_URL (0%nat, []) =
    (Ok prepared, t').
Proof. eexists _, _. split; [|vm_compute; reflexivity]. reflexivity. Qed.

Lemma prepareReplay_sound_witness : ∃ prepared, pr_skipPreflight prepared = true ∧
  prepared_well (λ s, Some (fromHex s)) (λ _, replay_moment) replay_data RK_STALE prepared.
Proof.
  destruct replay_is_prepared as (prepared & t' & Hskip & Hrun). exists prepared. split; [exact Hskip|].
  exact (proj2 (proj2 (prepareReplay_sound _ _ _ _ _ _ _ _ _ _ Hrun) prepared eq_refl)).
Defined.
