(* ===== verification/LocalActivation.v ===== *)
(** * local-activation.ts: the replayed trade across an activation

    The flow of [ActivationProof.v] run with its real parties: the validator,
    the wallet and the coordinator. A moment of that flow is a whole step here,
    which puts its own questions to the numbered moments within it. The stages
    [sign] and [confirmReplay] report themselves are left out of the record. *)

From S2P Require Import Prelude Js Errors Kit Base58 Abi OnChain MintState Snapshot Downstream Jupiter JupiterOnChain Deployment CanonicalKey BuildClient Compose WalletDemo DemoChain Attestation Flow ActivationProof ReplayModel LocalFunding LocalOutcome LocalView LocalHost ReplayExecution.

(** The body of a coordinator's answer and what is read of it before it is used. *)
Record CoordinatorAnswer (A : Type) := mkAnswer { ca_ok : bool; ca_error : jsval; ca_body : A }.
Arguments mkAnswer {_}. Arguments ca_ok {_}. Arguments ca_error {_}. Arguments ca_body {_}.

(** One moment of the coordinator. *)
Record Coordinator := mkCoordinator {
  cc_arm : result jsval (CoordinatorAnswer (option string));
  cc_preSignSimulation : bytes → result jsval (CoordinatorAnswer PreSignAttestation);
  cc_signedAuthorization : string → bytes → result jsval (CoordinatorAnswer SignedAuthorizationAttestation);
  cc_deploymentAttestation : DeploymentStage → result jsval (CoordinatorAnswer DeploymentAttestation);
}.

(** The outcome and what is recorded beside it. *)
Record LocalActivationOutcome := mkLocalOutcome {
  lo_outcome : ReplayOutcome;
  lo_blockhash : string;
  lo_lastValidBlockHeight : Z;
  lo_clockAtRpcSubmission : ChainClock;
  lo_commitment : string;
}.

Section Local.
  Context {address : AddressCodec} {transactions : TransactionCodec} {trade : TradeCodec} {codec : ReplayCodec}
    {derivation : ProgramDerivation} {hash : Digest}.
  (** The platform, the page's own origin, and what each moment answers. *)
  Variable parse_url : string → option Url.
  Variable atob : string → option bytes.
  Variable numberOf : jsval → jsnum.
  Variable bigInt : string → option Z.
  Variable base64Data : string → bytes.
  Variable origin : string.
  Variable coordinators : nat → Coordinator.
  Variable chain : nat → nat → LocalEndpoint.
  Variable accounts : nat → nat → list Address → result client_exn RpcReply.

Definition armLocalActivation (n : nat) : result replay_exn Z :=
  assertLocalRpcUrl parse_url origin;;
  answer ← map_err RequestRejected (cc_arm (coordinators n));
  match ca_ok answer, ca_body answer with
  | true, Some localT => if String.eqb localT "" then Err (ReplayError (if nullish (ca_error answer) then "Local activation setup failed" else js_string (ca_error answer)))
                         else runtime (bigInt localT)
  | _, _ => Err (ReplayError (if nullish (ca_error answer) then "Local activation setup failed" else js_string (ca_error answer)))
  end.

(** [coordinator(path, payload)]. *)
Definition coordinator {A} (path : string) (reply : result jsval (CoordinatorAnswer A)) : result replay_exn A :=
  assertLocalRpcUrl parse_url origin;;
  answer ← map_err RequestRejected reply;
  replay_if (negb (ca_ok answer) || truthy (ca_error answer))
    (if nullish (ca_error answer) then "Local coordinator refused " +:+ path else js_string (ca_error answer));;
  Ok (ca_body answer).

Section Run.
  Variable data : ReplayData.
  Variable localT : Z.
  Variable stale : bool.

(** [snapshot()], at the [k]-th question of moment [n]. *)
Definition localSnapshot (n k : nat) : result replay_exn GuardSnapshot :=
  assertLocalRpcUrl parse_url LOCAL_RPC_URL;;
  value ← map_err ClientFailed (fetchGuardSnapshot base64Data (accounts n k) KOX_MINT);
  replay_if (negb (newMultiplierEffectiveTimestamp (snap_state value) =? localT)) "Local activation timestamp changed; aborting";;
  replay_if (negb (bytesEqual (multiplier (snap_state value)) (multiplier (expected (rd_stale data))))
             || negb (bytesEqual (newMultiplier (snap_state value)) (newMultiplier (expected (rd_stale data)))))
    "Captured multiplier bytes changed";;
  Ok value.

Definition activation_kind : ReplayKind := if stale then RK_STALE else RK_REFRESHED.

(** The data with both authorizations replaced by the state just read. *)
Definition activationData (current : GuardSnapshot) : ReplayData :=
  let expectation := mkRequest (snap_state current) (snap_phase current) (mkWindow (NumInt 0) (NumInt 0)) in
  mkReplayData (rd_fixture data) (rd_build data) expectation expectation LOCAL_ACTIVATION_SOURCE LOCAL_ACTIVATION_SOURCE.

(** A step, from its own first question. *)
Definition step_of {A} (m : flow replay_exn replay_effect A) : result replay_exn A := fst (m (0%nat, [])).

(** [build]; the balances it leaves in the closure go with the trade. *)
Definition localBuild (n : nat) : result replay_exn (PreparedReplay * ReplayBalances) :=
  step_of (
    current ← await (localSnapshot n);
    check_flow (replay_if (negb (snap_phase current =? (if stale then Pending else Activated))) "Wrong local phase before building");;
    prepared ← prepareReplay parse_url atob numberOf (chain n) (activationData current) EXPECTED_PHANTOM activation_kind LOCAL_RPC_URL;
    before ← balances atob (chain n) prepared;
    mret (prepared, before)).

Definition localSign (n : nat) (prepared : PreparedReplay * ReplayBalances) : result replay_exn PhantomSigned :=
  message ← encodeForPhantom (pr_unsigned prepared.1);
  returned ← map_err RequestRejected (le_request (chain n 0%nat) message);
  exactPhantomSignature (pr_unsigned prepared.1) returned.

Definition localLifetime (n : nat) (prepared : PreparedReplay * ReplayBalances) : result replay_exn LifetimeCheck :=
  valid ← map_err RequestRejected (le_isBlockhashValid (chain n 0%nat) (pr_blockhash prepared.1));
  height ← map_err RequestRejected (le_getBlockHeight (chain n 1%nat));
  Ok (mkLifetime valid height (pr_lastValidBlockHeight prepared.1)).

(** The signature [sign] left in the closure is that of the very bytes
    submitted, so it is read off them. *)
Definition heldSignature (wire : bytes) : result replay_exn string :=
  signed ← runtime (decodeTransactionBytes wire);
  runtime (getSignatureFromTransaction signed).

(** What the answer of the one submission must be. *)
Definition localSubmission (prepared : PreparedReplay) (signature : string) (json : jsval) : result replay_exn unit :=
  throw_if (nullish json) RuntimeFailed;;
  throw_if (truthy (get_prop "error" json))
    (ReplaySimulationError (decodeLocalRpcFailure numberOf (get_prop "error" json) FS_sendRawTransaction (pr_programs prepared)));;
  replay_if (negb (match get_prop "result" json with JString s => String.eqb s signature | _ => false end)) "Local submission signature mismatch".

Definition localSubmit (n : nat) (prepared : PreparedReplay * ReplayBalances) (wire : bytes) (deliberateStale : bool)
    : result replay_exn (LocalActivationOutcome * bytes) :=
  step_of (
    signature ← check_flow (heldSignature wire);
    check_flow (replay_if (String.eqb signature "") "No signed transaction or baseline");;
    current ← await (localSnapshot n);
    check_flow (replay_if (negb (snap_phase current =? Activated)) "Validator Clock has not crossed activation");;
    json ← ask_local (chain n) (λ e, le_postTransaction e wire deliberateStale);
    check_flow (localSubmission prepared.1 signature json);;
    outcome ← confirmReplay parse_url atob numberOf (chain n) prepared.1 signature prepared.2 None LOCAL_RPC_URL;
    check_flow (replay_if (negb (invoked (ro_logs outcome) EQUITY_GUARD_DEVNET_PROGRAM_ID)) "Guard execution absent");;
    mret (mkLocalOutcome outcome (pr_blockhash prepared.1) (pr_lastValidBlockHeight prepared.1) (snap_clock current) (pr_commitmentHex prepared.1), wire)).

Definition localDependencies : ActivationDependencies replay_exn (PreparedReplay * ReplayBalances) LocalActivationOutcome := {|
  dep_build := localBuild;
  dep_attestPreSignSimulation n prepared := coordinator "/api/pre-sign-simulation" (cc_preSignSimulation (coordinators n) (pr_wireBytes prepared.1));
  dep_sign n prepared := signed ← localSign n prepared; Ok (ps_bytes signed);
  dep_attestSignedAuthorization n proofId signed := coordinator "/api/signed-authorization" (cc_signedAuthorization (coordinators n) proofId signed);
  dep_attestDeployment n stage := coordinator "/api/deployment-attestation" (cc_deploymentAttestation (coordinators n) stage);
  dep_clock n := current ← localSnapshot n 0; Ok (snap_clock current);
  dep_lifetime := localLifetime;
  dep_submit := localSubmit;
|}.

Definition runLocalActivation : flow replay_exn asked (ActivationProof (Prepared := PreparedReplay * ReplayBalances) (Outcome := LocalActivationOutcome)) :=
  executeAcrossActivation ReplayError localDependencies localT stale.
End Run.
End Local.

(* ------------------------------------------------------------------ *)
(** ** What a run proves *)

Section LocalSpec.
  Context {address : AddressCodec} {transactions : TransactionCodec} {trade : TradeCodec} {codec : ReplayCodec}
    {derivation : ProgramDerivation} {hash : Digest}.
  Variable parse_url : string → option Url.
  Variable atob : string → option bytes.
  Variable numberOf : jsval → jsnum.
  Variable base64Data : string → bytes.
  Variable origin : string.
  Variable coordinators : nat → Coordinator.
  Variable chain : nat → nat → LocalEndpoint.
  Variable accounts : nat → nat → list Address → result client_exn RpcReply.
  Variable data : ReplayData.
  Variable localT : Z.
  Variable stale : bool.

Abbreviation dependencies := (localDependencies parse_url atob numberOf base64Data origin coordinators chain accounts data localT stale).

Lemma step_of_Ok {A} (m : flow replay_exn replay_effect A) a : step_of m = Ok a ↔ ∃ t', m (0%nat, []) = (Ok a, t').
Proof. unfold step_of. destruct (m _) as [r t']. cbn. split; [intros ->; by exists t'|intros (? & [= -> ->]); done]. Qed.

Lemma activation_kind_stale : activation_kind stale = RK_STALE ↔ stale = true.
Proof. by destruct stale. Qed.

Lemma localBuild_Ok n prepared : dep_build dependencies n = Ok prepared → ∃ current,
  localSnapshot parse_url base64Data accounts data localT n 0 = Ok current ∧ snap_phase current = (if stale then Pending else Activated) ∧
  prepared_well atob (chain n) (activationData data current) (activation_kind stale) prepared.1 ∧
  ∃ t t', balances atob (chain n) prepared.1 t = (Ok prepared.2, t').
Proof.
  unfold dependencies. cbn. unfold localBuild. intros (t' & H)%step_of_Ok. apply flow_bind_Ok in H as (current & ? & [Hc _]%await_Ok & H).
  apply flow_bind_Ok in H as (? & ? & [Hphase%replay_if_Ok%negb_false_iff%Z.eqb_eq _]%check_flow_Ok & H).
  apply flow_bind_Ok in H as (p & ? & Hp & H). apply flow_bind_Ok in H as (before & ? & Hb & [= <- _]).
  exists current. split; [done|]. split; [done|]. split; [by apply prepareReplay_Ok in Hp as [_ ?]|by eexists _, _].
Qed.

Lemma localSign_Ok n prepared wire : dep_sign dependencies n prepared = Ok wire → ∃ signed message returned phantom,
  encodeForPhantom (pr_unsigned prepared.1) = Ok message ∧ le_request (chain n 0%nat) message = Ok returned ∧
  exactPhantomSignature (pr_unsigned prepared.1) returned = Ok phantom ∧ ps_bytes phantom = wire ∧ decodeTransactionBytes wire = Some signed ∧
  signed.1 = (pr_unsigned prepared.1).1 ∧ is_Some (getSignatureFromTransaction signed).
Proof.
  unfold dependencies. cbn. unfold localSign. intros (signed & H & [= <-])%bind_Ok. apply bind_Ok in H as (message & Hmsg & H).
  apply bind_Ok in H as (returned & Hret%map_err_Ok & H). pose proof H as (_ & Hd & Hm & Hs)%exactPhantomSignature_Ok.
  exists (ps_signed signed), message, returned, signed. split_and!; try done.
Qed.

Lemma localSubmission_Ok prepared signature json u : localSubmission numberOf prepared signature json = Ok u →
  get_prop "result" json = JString signature ∧ truthy (get_prop "error" json) = false.
Proof.
  unfold localSubmission. rewrite !throw_if_then_Ok, replay_if_Ok, negb_false_iff. intros (_ & He & Hr). split; [|done].
  destruct (get_prop "result" json); try discriminate Hr. by apply String.eqb_eq in Hr as ->.
Qed.

Lemma localSubmit_Ok n prepared wire flag outcome remains : dep_submit dependencies n prepared wire flag = Ok (outcome, remains) →
  remains = wire ∧ ∃ signed signature, decodeTransactionBytes wire = Some signed ∧ getSignatureFromTransaction signed = Some signature ∧ signature ≠ "" ∧
    (∃ current, localSnapshot parse_url base64Data accounts data localT n 0 = Ok current ∧ snap_phase current = Activated ∧
      lo_clockAtRpcSubmission outcome = snap_clock current) ∧
    (∃ json, le_postTransaction (chain n 1%nat) wire flag = Ok json ∧ get_prop "result" json = JString signature ∧
      truthy (get_prop "error" json) = false) ∧
    confirmed_well atob numberOf (chain n) 2 prepared.1 signature prepared.2 None (lo_outcome outcome) ∧
    lo_blockhash outcome = pr_blockhash prepared.1 ∧ lo_commitment outcome = pr_commitmentHex prepared.1.
Proof.
  unfold dependencies. cbn. unfold localSubmit. intros (t' & H)%step_of_Ok. apply flow_bind_Ok in H as (signature & ? & [Hs ->]%check_flow_Ok & H).
  unfold heldSignature in Hs. apply bind_Ok in Hs as (signed & Hd%runtime_Ok & Hs%runtime_Ok).
  apply flow_bind_Ok in H as (? & ? & [Hne%replay_if_Ok%String.eqb_neq ->]%check_flow_Ok & H).
  apply flow_bind_Ok in H as (current & ? & [Hc ->]%await_Ok & H).
  apply flow_bind_Ok in H as (? & ? & [Hphase%replay_if_Ok%negb_false_iff%Z.eqb_eq ->]%check_flow_Ok & H).
  apply flow_bind_Ok in H as (json & ? & [Hjson%map_err_Ok ->]%await_Ok & H).
  apply flow_bind_Ok in H as (? & ? & [Hanswer%localSubmission_Ok ->]%check_flow_Ok & H).
  apply flow_bind_Ok in H as (o & ? & Ho%confirmReplay_Ok & H).
  apply flow_bind_Ok in H as (? & ? & _ & [= <- <- _]). split; [done|]. exists signed, signature. split_and!; try done; [by exists current|].
  destruct Hanswer. by exists json.
Qed.

(** The clock the validator showed at a moment. *)
Definition clock_at (n : nat) (time : Z) : Prop :=
  ∃ current, localSnapshot parse_url base64Data accounts data localT n 0 = Ok current ∧ clock_unixTimestamp (snap_clock current) = time.

(** A completed run, by its moments from [n] on: one authorization, built in its
    phase from the state just read; signed by the wallet at moment [5 + n], with
    the clock before the activation at the moment after when it is stale, and
    past it at a moment between that and [l]; its bytes posted unchanged at moment
    [2 + l], after the mint was read there as activated, and answered with their
    signature; and judged by what the validator showed of that signature after
    the post. *)
Record activation_well (n l : nat)
    (proof : ActivationProof (Prepared := PreparedReplay * ReplayBalances) (Outcome := LocalActivationOutcome)) : Prop := {
  aw_prepared : ∃ current, localSnapshot parse_url base64Data accounts data localT n 0 = Ok current ∧
    snap_phase current = (if stale then Pending else Activated) ∧
    prepared_well atob (chain n) (activationData data current) (activation_kind stale) (hr_prepared (pf_run proof)).1 ∧
    ∃ t t', balances atob (chain n) (hr_prepared (pf_run proof)).1 t = (Ok (hr_prepared (pf_run proof)).2, t');
  aw_signed : ∃ message returned phantom, encodeForPhantom (pr_unsigned (hr_prepared (pf_run proof)).1) = Ok message ∧
    le_request (chain (5 + n) 0%nat) message = Ok returned ∧
    exactPhantomSignature (pr_unsigned (hr_prepared (pf_run proof)).1) returned = Ok phantom ∧ ps_bytes phantom = hr_held (pf_run proof);
  aw_timed : if stale
    then (∃ time, clock_at (6 + n) time ∧ time < localT) ∧ ∃ k time, (8 + n ≤ k < l)%nat ∧ clock_at k time ∧ localT < time
    else ∃ time, clock_at (1 + n) time ∧ localT ≤ time;
  aw_submitted : ∃ current json, localSnapshot parse_url base64Data accounts data localT (2 + l) 0 = Ok current ∧ snap_phase current = Activated ∧
    le_postTransaction (chain (2 + l) 1%nat) (hr_held (pf_run proof)) stale = Ok json ∧
    get_prop "result" json = JString (ro_signature (lo_outcome (pf_outcome proof))) ∧ truthy (get_prop "error" json) = false;
  aw_recorded : confirmed_well atob numberOf (chain (2 + l)) 2 (hr_prepared (pf_run proof)).1 (ro_signature (lo_outcome (pf_outcome proof)))
    (hr_prepared (pf_run proof)).2 None (lo_outcome (pf_outcome proof));
  aw_wire : ∃ signed, decodeTransactionBytes (hr_held (pf_run proof)) = Some signed ∧
    signed.1 = (pr_unsigned (hr_prepared (pf_run proof)).1).1 ∧
    getSignatureFromTransaction signed = Some (ro_signature (lo_outcome (pf_outcome proof))) ∧ ro_signature (lo_outcome (pf_outcome proof)) ≠ "";
  aw_exact : pf_exactEquality proof = true;
  aw_outcome : ro_kind (lo_outcome (pf_outcome proof)) = activation_kind stale ∧
    ro_authorizationSource (lo_outcome (pf_outcome proof)) = LOCAL_ACTIVATION_SOURCE ∧
    (if stale then stale_rejected (lo_outcome (pf_outcome proof)) else trade_executed (lo_outcome (pf_outcome proof)));
}.

Lemma clock_read n clock : dep_clock dependencies n = Ok clock → clock_at n (clock_unixTimestamp clock).
Proof. unfold dependencies. cbn. intros (current & H & [= <-])%bind_Ok. by exists current. Qed.

Lemma runLocalActivation_Ok t proof t' :
  runLocalActivation parse_url atob numberOf base64Data origin coordinators chain accounts data localT stale t = (Ok proof, t') →
  ∃ l, activation_well t.1 l proof.
Proof.
  unfold runLocalActivation. intros H. destruct (execute_Ok _ _ _ _ _ _ _ H) as [l [[Hheld _] Hcrossed _ _ _ (remains & Hsub & Hexact)]].
  destruct Hheld as [Hbuild Hbefore _ _ _ Hsign Hat _ Hstale Hfresh Href _ _].
  apply localSign_Ok in Hsign as (signed & message & returned & phantom & Hmsg & Hret & Hph & Hbytes & Hd & Hm & _).
  apply localSubmit_Ok in Hsub as (-> & signed' & signature & Hd' & Hs' & Hne & (now & Hnow & Hactivated & _) & (json & Hpost & Hresult & Herror) & Hc & _).
  rewrite Hd in Hd'. injection Hd' as <-.
  pose proof Hc as [Hk Hsig _ Hsource Hj _]. apply localBuild_Ok in Hbuild as (current & Hcur & Hphase & Hwell & Hbalances). subst signature.
  destruct (pw_kind _ _ _ _ _ Hwell) as (Hkind & _ & Hpsource). rewrite Hkind in Hk. apply assertOutcome_Ok in Hj. exists l.
  split; [by exists current|by exists message, returned, phantom| |by exists now, json|done| | |].
  - apply clock_read in Hbefore, Hat.
    assert (stale = true → ∃ k time, (8 + t.1 ≤ k < l)%nat ∧ clock_at k time ∧ localT < time) as Hpast.
    { intros (Hlt & k & Hrange & Hclock%clock_read)%Hcrossed. by exists k, (clock_unixTimestamp (pf_atSubmission proof)). }
    clear -Hbefore Hat Hstale Hfresh Hpast. destruct stale.
    + split; [|by apply Hpast]. eexists. split; [exact Hat|by apply Hstale].
    + eexists. split; [exact Hbefore|by apply Hfresh].
  - by exists signed.
  - rewrite Hexact, Href. by apply bytesEqual_spec.
  - split; [done|]. split; [rewrite Hsource, Hpsource; by destruct (decide _)|]. rewrite Hk in Hj. destruct stale; cbn in Hj; by destruct Hj as [[? ?]|[? ?]].
Qed.

(** C19: a run that returns is an authorization built in the phase it is for from
    the state just read, that the wallet signed without changing its message,
    before the activation when it is stale; those very bytes were posted to the
    validator after its clock had passed the activation and its mint was read as
    activated, and answered with their signature; the validator, asked for that
    signature after the post, showed the transaction the outcome is made of,
    rejected by the guard with nothing moved or executed in full. The page then
    shows its text unless the coordinator's records or the deployment do not
    support it. *)
Theorem runLocalActivation_sound proof t' :
  runLocalActivation parse_url atob numberOf base64Data origin coordinators chain accounts data localT stale (0%nat, []) = (Ok proof, t') →
  (∃ l, activation_well 0 l proof) ∧
  ∀ text, reproductionMessage lo_outcome localT proof = Ok text ↔
    0 < ro_slot (lo_outcome (pf_outcome proof)) ∧
    (if stale then attested_pending proof = true ∧ deploymentStable proof = true ∧ text = STALE_TEXT else text = UPDATED_TEXT).
Proof.
  intros H. pose proof (runLocalActivation_Ok _ _ _ H) as Hwell. split; [done|]. intros text. rewrite reproductionMessage_Ok.
  destruct Hwell as [l [_ _ _ _ _ (signed & _ & _ & _ & Hne) Hexact (Hk & _ & Ho)]]. rewrite Hk. destruct stale; cbn.
  - split.
    + intros (? & _ & [(_ & _ & Hh & ->)|[? _]]); [|done]. split; [done|]. split; [apply Hh|]. split; [apply Hh|done].
    + intros (? & Ha & Hd & ->). split; [done|]. split; [done|]. left. split; [done|]. split; [done|]. split; [|done].
      by apply (completed_run_held _ _ _ _ _ _ H).
  - split; [by intros (? & _ & [[? _]|(_ & _ & ->)])|]. intros [? ->]. split; [done|]. split; [done|]. by right.
Qed.
End LocalSpec.

(* ------------------------------------------------------------------ *)
(** ** At concrete answers *)

#[local] Existing Instance zero_digest.
#[local] Existing Instance ReplayExecution.sample_codec.
#[local] Existing Instance replay_derivation.
#[local] Existing Instance replay_transactions.
#[local] Existing Instance replay_trade.

(** The coordinator and the validator of a stale run; the clock crosses the
    activation between the moments 7 and 8. *)
Definition local_clock (time : Z) : bytes := le_bytes 8 7 ++ zeros 24 ++ le_bytes 8 time.
Definition local_base64 (s : string) : bytes :=
  if String.eqb s "mint" then sample_mint_account else if String.eqb s "early" then local_clock 1699999990 else local_clock 1700000001.
Definition local_accounts (n k : nat) (_ : list Address) : result client_exn RpcReply :=
  Ok (mkReply 7 (Some (mkRpcAccount TOKEN_2022_PROGRAM_ADDRESS "mint")) (Some (mkRpcAccount "Sysvar" (if Nat.ltb n 8 then "early" else "late")))).
Definition local_coordinator : Coordinator := {|
  cc_arm := Ok (mkAnswer true JUndefined (Some "1700000000"));
  cc_preSignSimulation _ := Ok (mkAnswer true JUndefined (mkPreSign "presign-1" "message" sample_timing "LOCAL_COORDINATOR"));
  cc_signedAuthorization proofId wire :=
    Ok (mkAnswer true JUndefined (mkSignedAttestation proofId (wireHash wire) "message" true sample_timing true "LOCAL_COORDINATOR"));
  cc_deploymentAttestation stage := Ok (mkAnswer true JUndefined (mkDeploymentAttestation stage "deployment" true));
|}.
Definition local_moment : LocalEndpoint := {|
  le_getGenesisHash := Ok "local"; le_getAccountInfo := le_getAccountInfo replay_moment; le_getBalance _ := Ok 1000000000;
  le_requestAirdrop _ _ := Err JNull; le_getSignatureStatus _ := Ok None; le_getLatestBlockhash := le_getLatestBlockhash replay_moment;
  le_getBlockHeight := Ok 1000; le_getTransaction := le_getTransaction sample_moment; le_simulateTransaction _ := Err JNull;
  le_sendTransaction _ _ := Err JNull; le_postTransaction := le_postTransaction sample_moment; le_isBlockhashValid _ := Ok true;
  le_request _ := Ok (WBytes [x2a]);
|}.
Definition local_number (v : jsval) : jsnum := match v with JNum n => n | JBigint z => NumInt z | _ => NumInt 0 end.


Definition local_run : flow replay_exn asked (ActivationProof (Prepared := PreparedReplay * ReplayBalances) (Outcome := LocalActivationOutcome)) :=
  runLocalActivation sample_url (λ s, Some (fromHex s)) local_number local_base64 "http://localhost" (λ _, local_coordinator) (λ _ _, local_moment)
    local_accounts replay_data 1700000000 true.

Lemma local_run_completes : ∃ proof t', attested_pending proof = true ∧ deploymentStable proof = true ∧ 0 < ro_slot (lo_outcome (pf_outcome proof)) ∧
  local_run (0%nat, []) = (Ok proof, t').
Proof. eexists _, _. split_and!; [..|vm_compute; reflexivity]; vm_compute; reflexivity. Qed.

Lemma runLocalActivation_sound_witness : ∃ proof : ActivationProof (Prepared := PreparedReplay * ReplayBalances) (Outcome := LocalActivationOutcome),
  stale_rejected (lo_outcome (pf_outcome proof)) ∧
  reproductionMessage lo_outcome 1700000000 proof = Ok STALE_TEXT.
Proof.
  destruct local_run_completes as (proof & t' & Ha & Hd & Hslot & Hrun). exists proof.
  pose proof (runLocalActivation_sound _ _ _ _ _ _ _ _ _ _ _ _ _ Hrun) as [[l Hwell] Htext].
  split; [exact (proj2 (proj2 (aw_outcome _ _ _ _ _ _ _ _ _ _ _ _ Hwell)))|]. apply Htext. split; [exact Hslot|]. split; [exact Ha|]. split; [exact Hd|reflexivity].
Defined.
