(* ===== verification/TraderFlow.v ===== *)
(** * trader-flow.ts: what a trader reads when a leg fails

    The headline is chosen from what is read of the error and from the last
    stage reported. The drawer's technical text is a parameter. *)

From S2P Require Import Prelude Js Errors Kit Abi Snapshot CanonicalKey DemoChain WalletDemo Attestation Flow ActivationProof ReplayModel LocalFunding LocalOutcome LocalView.

(** What is read of an error: the kind of a [FeasibilityError], its [code], and
    its message (its text when it is no [Error]). *)
Record Thrown := mkThrown { th_kind : option FailureKind; th_code : jsval; th_message : string }.

#[export] Instance FailureKind_eq_dec : EqDecision FailureKind.
Proof. solve_decision. Defined.

#[export] Instance BuyStage_decision : EqDecision BuyStage.
Proof. solve_decision. Defined.

Definition isSignatureCancelled (error : Thrown) : bool :=
  bool_decide (th_kind error = Some USER_REJECTED)
  || match th_code error with JNum n => num_is n 4001 | _ => false end
  || contains_words_ci CANCELLATION_PHRASES false (th_message error).

Definition isPhantomMissing (error : Thrown) : bool :=
  bool_decide (th_kind error = Some PHANTOM_NOT_DETECTED) || bool_decide (th_kind error = Some SIGN_TRANSACTION_UNAVAILABLE)
  || contains_ci ["phantom wallet not found"; "phantom wallet not detected"; "phantom not found"; "phantom not detected"] (th_message error).

Definition isEnvironmentUnavailable (error : Thrown) : bool :=
  bool_decide (th_kind error = Some LOCAL_RPC_REFUSED)
  || contains_ci ["local replay "; "local validator"; "local rpc"; "reseed"; "baseline"; "genesis hash"] (th_message error).

Definition STAGE_HEADLINE (stage : BuyStage) : string :=
  match stage with
  | B_ENVIRONMENT_CHECK => "Local replay environment is not ready."
  | B_PHANTOM_CONNECT => "Connect Phantom to continue."
  | B_TRANSACTION_BUILD => "The protected order could not be prepared."
  | B_SIGN_REQUEST => "The signature request could not be completed."
  | B_SIGNED_BYTES_RETURNED => "The signed transaction could not be read."
  | B_PRE_SIGN_SIMULATION => "This authorization could not be verified before signing. Reset the local reproduction."
  | B_SIGNED_AUTHORIZATION_RECEIPT => "The signed authorization could not be attested before the state change. It was not submitted."
  | B_DEPLOYMENT_ATTESTATION => "The EquityGuard program could not be re-verified. Nothing was signed or submitted."
  | B_WAITING_FOR_ACTIVATION => "The local state change could not be verified."
  | B_BLOCKHASH_VALIDATION => "The signed transaction expired. It was not rebuilt or resubmitted."
  | B_SIMULATION => "The protected order could not be validated."
  | B_SUBMISSION => "The order could not be submitted."
  | B_CONFIRMATION => "The transaction could not be confirmed."
  | B_BALANCE_VERIFICATION => "The transaction finished, but the result could not be verified."
  end.

(** [action] is "confirm". *)
Definition traderHeadline (confirm : bool) (error : Thrown) (stage : BuyStage) : string :=
  if isSignatureCancelled error then "Signature request cancelled."
  else if confirm && bool_decide (stage = B_PRE_SIGN_SIMULATION) then "The updated authorization could not be verified before signing."
  else if isPhantomMissing error || bool_decide (stage = B_PHANTOM_CONNECT) then "Connect Phantom to continue."
  else if contains_ci ["reseed"; "baseline"; "phantom usdc is"; "phantom kox is"] (th_message error) then
    "Demo environment needs reset" +:+ NL +:+ "Reset the local replay environment before starting another trade."
  else if isEnvironmentUnavailable error || bool_decide (stage = B_ENVIRONMENT_CHECK) then "Local replay environment is not ready."
  else STAGE_HEADLINE stage.

(** [failureStage]: the last stage a run reported. *)
Definition last_stage (l : list asked) : option BuyStage := last (omap (λ a, match a with ReportedStage s => Some s | _ => None end) l).

(** A run whose deployment changes after the wallet signed. *)
Definition changed_deployment : ActivationDependencies demo_exn unit string :=
  mkDependencies (dep_build sample_dependencies) (dep_attestPreSignSimulation sample_dependencies) (dep_sign sample_dependencies)
    (dep_attestSignedAuthorization sample_dependencies)
    (λ _ stage, Ok (mkDeploymentAttestation stage (match stage with PRE_SIGN => "deployment" | PRE_SUBMISSION => "changed" end) true))
    (dep_clock sample_dependencies) (dep_lifetime sample_dependencies) (dep_submit sample_dependencies).

(** The headline of the deployment stage says that nothing was signed; the stage
    is reported a second time after the signature, and a run refused there
    did ask the wallet and holds its bytes. *)
Lemma signed_but_nothing_signed :
  let '(r, t') := executeAcrossActivation (hash := zero_digest) PlainError changed_deployment 100 true (0%nat, []) in
  r = Err (PlainError "EquityGuard deployment changed after signing; submission refused") ∧
  questions t'.2 = [AskedBuild; AskedSignature] ∧ last_stage t'.2 = Some B_DEPLOYMENT_ATTESTATION ∧
  traderHeadline false (mkThrown None JUndefined "EquityGuard deployment changed after signing; submission refused") B_DEPLOYMENT_ATTESTATION =
    "The EquityGuard program could not be re-verified. Nothing was signed or submitted.".
Proof. vm_compute. done. Qed.

(** Only a cancelled request is said to be cancelled. *)
Lemma traderHeadline_cancelled confirm error stage :
  traderHeadline confirm error stage = "Signature request cancelled." ↔ isSignatureCancelled error = true.
Proof.
  unfold traderHeadline. destruct (isSignatureCancelled error); [done|]. split; [|done]. intros H. exfalso. revert H.
  repeat match goal with |- context [if ?b then _ else _] => destruct b; [discriminate|] end. by destruct stage.
Qed.

(* ------------------------------------------------------------------ *)
(** ** The order of a run *)

(** Everything a run records but the reports of its wait. *)
#[local] Instance ordered : Questions asked := λ a,
  match a with ReportedStage s => negb (bool_decide (s = B_WAITING_FOR_ACTIVATION)) | _ => true end.

Definition signing_order : list asked :=
  [ReportedStage B_TRANSACTION_BUILD; AskedBuild; ReportedStage B_PRE_SIGN_SIMULATION; ReportedStage B_DEPLOYMENT_ATTESTATION;
   ReportedStage B_SIGN_REQUEST; AskedSignature; ReportedStage B_SIGNED_BYTES_RETURNED; ReportedStage B_SIGNED_AUTHORIZATION_RECEIPT].
Definition waiting_order : list asked := [ReportedStage B_BLOCKHASH_VALIDATION; ReportedStage B_DEPLOYMENT_ATTESTATION].
Definition submission_order (wire : bytes) : list asked := [ReportedStage B_SUBMISSION; AskedSubmission wire].

Section Order.
  Context {hash : Digest} {X Prepared Outcome : Type}.
  (** [new Error(message)]. *)
  Variable plain_error : string → X.
  Variable deps : ActivationDependencies X Prepared Outcome.
  Variable localT : Z.
  Variable stale : bool.

(** The next record, or a step that records nothing. *)
Ltac order := unfold signing_order, waiting_order, submission_order, ActivationProof.stage; repeat first
  [ match goal with |- asks (?a :: ?l) (note ?a ≫= _) => apply (asks_bind [a] l); [exact (asks_note a)|intros ?] end
  | match goal with |- asks _ (?m ≫= _) => apply asks_then; [solve [asks]|intros ?] end
  | solve [asks] ].

Lemma order_clock late message : asks [] (clock_unless plain_error deps late message).
Proof. unfold clock_unless. order. Qed.

#[local] Hint Resolve order_clock : asks.

Lemma order_crossing polls clock : asks [] (waitForCrossing plain_error deps localT polls clock).
Proof. revert clock. induction polls as [|polls IH]; intros clock; cbn; unfold ActivationProof.stage; asks. Qed.

#[local] Hint Resolve order_crossing : asks.

Lemma order_wait (run : held_run (Prepared := Prepared)) : asks []
  (if stale then ActivationProof.stage B_WAITING_FOR_ACTIVATION;; waitForCrossing plain_error deps localT 240 (hr_atSigning run)
   else mret (hr_atSigning run : ChainClock)).
Proof. unfold ActivationProof.stage. asks. Qed.

Lemma order_hold : asks signing_order (holdAcrossActivation plain_error deps localT stale).
Proof. unfold holdAcrossActivation. order. Qed.

Lemma order_ready run : asks waiting_order (readyToSubmit plain_error deps localT stale run).
Proof. unfold readyToSubmit. apply asks_then; [apply order_wait|intros ?]. order. Qed.

Lemma order_execute t r t' : executeAcrossActivation plain_error deps localT stale t = (r, t') → ∃ new wire,
  t'.2 = t.2 ++ new ∧ questions new `prefix_of` signing_order ++ waiting_order ++ submission_order wire.
Proof.
  unfold executeAcrossActivation. intros H.
  apply (asks_bind_cases signing_order (λ run, waiting_order ++ submission_order (hr_held run))) in H; [|apply order_hold|].
  - destruct H as [(e & new & _ & _ & Hnew & Hp)|(run & t1 & new & new' & _ & _ & Hnew & Hq & Hnew' & Hp)].
    + exists new, []. split; [done|]. by apply prefix_app_r.
    + exists (new ++ new'), (hr_held run). rewrite Hnew', Hnew, app_assoc, questions_app, Hq. split; [done|]. by apply prefix_app.
  - intros run. apply asks_bind; [apply order_ready|]. intros [[? ?] ?]. order.
Qed.
End Order.

Lemma last_stage_snoc l a : last_stage (l ++ [a]) = match a with ReportedStage s => Some s | _ => last_stage l end.
Proof. unfold last_stage. rewrite omap_app. destruct a; cbn; rewrite ?app_nil_r; try done. apply last_snoc. Qed.

Lemma last_stage_ordered l s : last_stage l = Some s → s ≠ B_WAITING_FOR_ACTIVATION → last_stage (questions l) = Some s.
Proof.
  intros Hl Hs. revert Hl. induction l as [|a l IH] using rev_ind; [done|]. rewrite last_stage_snoc, questions_app.
  assert (∀ q, questions [a] = [q] → last_stage (questions l ++ questions [a]) = match q with ReportedStage s => Some s | _ => last_stage (questions l) end) as Hq.
  { intros q ->. apply last_stage_snoc. }
  destruct a as [| |w|s']; try (rewrite (Hq _ eq_refl); apply IH).
  intros [= ->]. apply (Hq (ReportedStage s)). unfold questions. cbn. by rewrite bool_decide_false.
Qed.

Lemma asked_ordered l a : is_question a = true → a ∈ l ↔ a ∈ questions l.
Proof. intros Ha. unfold questions. rewrite !list_elem_of_In, List.filter_In. tauto. Qed.

Definition is_build (a : asked) : bool := match a with AskedBuild => true | _ => false end.

(** How many transactions the wallet service was asked to build. *)
Definition builds (l : list asked) : nat := length (List.filter is_build l).

Lemma builds_ordered l : builds l = builds (questions l).
Proof.
  unfold builds, questions. induction l as [|a l IH]; [done|]. destruct a as [| | |s]; cbn [List.filter is_build is_question ordered length]; try by rewrite IH.
  destruct (negb _); cbn [List.filter is_build]; exact IH.
Qed.

(** What the last stage of a run tells. *)
Record stage_tells (l : list asked) (s : BuyStage) : Prop := {
  st_before : s = B_TRANSACTION_BUILD ∨ s = B_PRE_SIGN_SIMULATION → AskedSignature ∉ l;
  st_after : s = B_SIGNED_BYTES_RETURNED ∨ s = B_SIGNED_AUTHORIZATION_RECEIPT ∨ s = B_BLOCKHASH_VALIDATION ∨ s = B_SUBMISSION →
    AskedSignature ∈ l;
  st_submitted : s ≠ B_SUBMISSION → ∀ wire, AskedSubmission wire ∉ l;
  st_built : AskedSignature ∈ l → builds l = 1%nat;
}.

Lemma stages_tell l wire s : l `prefix_of` signing_order ++ waiting_order ++ submission_order wire → last_stage l = Some s → stage_tells l s.
Proof.
  intros [k Hk] Hs. cbn in Hk.
  do 12 (destruct l as [|? l]; [cbn in Hs; try discriminate Hs; injection Hs as <-; split; first [by intros _|set_solver]|injection Hk as <- Hk]).
  destruct l; [|discriminate Hk]. cbn in Hs. injection Hs as <-. split; first [by intros _|set_solver].
Qed.

Lemma stage_headline_inj s s' : STAGE_HEADLINE s = STAGE_HEADLINE s' → s = s'.
Proof. by destruct s, s'. Qed.

(** The stage a headline stands for, when it stands for one. *)
Lemma traderHeadline_stage s' confirm error s : s' ≠ B_PHANTOM_CONNECT → s' ≠ B_ENVIRONMENT_CHECK → traderHeadline confirm error s = STAGE_HEADLINE s' → s = s'.
Proof.
  intros ? ?. unfold traderHeadline. repeat match goal with |- context [if ?b then _ else _] => destruct b; [by destruct s'|] end. apply stage_headline_inj.
Qed.

(** The confirmation's own headline. *)
Lemma traderHeadline_confirm confirm error s :
  traderHeadline confirm error s = "The updated authorization could not be verified before signing." → s = B_PRE_SIGN_SIMULATION.
Proof.
  unfold traderHeadline. destruct (isSignatureCancelled error); [done|].
  destruct (confirm && bool_decide (s = B_PRE_SIGN_SIMULATION)) eqn:E; [|].
  { intros _. by apply andb_prop in E as [_ ?%bool_decide_eq_true]. }
  repeat match goal with |- context [if ?b then _ else _] => destruct b; [done|] end. by destruct s.
Qed.

Section Headlines.
  Context {hash : Digest} {X Prepared Outcome : Type}.
  (** [new Error(message)]. *)
  Variable plain_error : string → X.
  Variable deps : ActivationDependencies X Prepared Outcome.

Lemma run_tells localT stale r t' s :
  executeAcrossActivation plain_error deps localT stale (0%nat, []) = (r, t') → last_stage t'.2 = Some s → s ≠ B_WAITING_FOR_ACTIVATION →
  stage_tells t'.2 s.
Proof.
  intros Hrun Hs Hw. apply order_execute in Hrun as (new & wire & Hnew & Hp). cbn in Hnew. rewrite <- Hnew in Hp.
  apply last_stage_ordered in Hs; [|done]. destruct (stages_tell _ _ _ Hp Hs) as [Hb Ha Hsub Hbuilt].
  split; [by rewrite asked_ordered|by rewrite asked_ordered| |rewrite asked_ordered, builds_ordered by done; exact Hbuilt].
  intros Hne w. rewrite asked_ordered by done. by apply Hsub.
Qed.

(** C23: what the headline of a failed leg says of the wallet and of the
    validator is so, for every run and whatever error ends it. The texts that
    speak of a signed transaction follow a signature: the one that could not be
    read or attested and the expired one follow no submission, and the expired
    one is the only one that was built. The texts that speak of what happened
    before signing, the confirmation's own included, follow no signature request
    and no submission. The one about the program follows no submission; that it
    follows no signature either is what it says and is not so. *)
Theorem headlines_truthful confirm error localT stale r t' s :
  executeAcrossActivation plain_error deps localT stale (0%nat, []) = (r, t') → last_stage t'.2 = Some s →
  let text := traderHeadline confirm error s in
  let signed := AskedSignature ∈ t'.2 in
  let unsubmitted := ∀ wire, AskedSubmission wire ∉ t'.2 in
  (text = "The protected order could not be prepared." → ¬ signed ∧ unsubmitted) ∧
  (text = "This authorization could not be verified before signing. Reset the local reproduction." → ¬ signed ∧ unsubmitted) ∧
  (text = "The updated authorization could not be verified before signing." → ¬ signed ∧ unsubmitted) ∧
  (text = "The EquityGuard program could not be re-verified. Nothing was signed or submitted." → unsubmitted) ∧
  (text = "The signed transaction could not be read." → signed ∧ unsubmitted) ∧
  (text = "The signed authorization could not be attested before the state change. It was not submitted." → signed ∧ unsubmitted) ∧
  (text = "The signed transaction expired. It was not rebuilt or resubmitted." → signed ∧ unsubmitted ∧ builds t'.2 = 1%nat) ∧
  (text = "The order could not be submitted." → signed).
Proof.
  intros Hrun Hs. pose proof (λ Hw, run_tells _ _ _ _ _ Hrun Hs Hw) as Ht. cbv zeta. split_and!; intros H;
    [apply (traderHeadline_stage B_TRANSACTION_BUILD) in H|apply (traderHeadline_stage B_PRE_SIGN_SIMULATION) in H|apply traderHeadline_confirm in H
    |apply (traderHeadline_stage B_DEPLOYMENT_ATTESTATION) in H|apply (traderHeadline_stage B_SIGNED_BYTES_RETURNED) in H
    |apply (traderHeadline_stage B_SIGNED_AUTHORIZATION_RECEIPT) in H|apply (traderHeadline_stage B_BLOCKHASH_VALIDATION) in H
    |apply (traderHeadline_stage B_SUBMISSION) in H]; try discriminate; subst s; destruct (Ht ltac:(discriminate)) as [Hbefore Hafter Hsub Hbuilt];
    split_and?; auto 7.
Qed.
End Headlines.

(** A blockhash that expired during the wait. *)
Definition expired_deps : ActivationDependencies demo_exn unit string :=
  mkDependencies (dep_build sample_dependencies) (dep_attestPreSignSimulation sample_dependencies) (dep_sign sample_dependencies)
    (dep_attestSignedAuthorization sample_dependencies) (dep_attestDeployment sample_dependencies) (dep_clock sample_dependencies)
    (λ _ _, Ok (mkLifetime false 1000 1150)) (dep_submit sample_dependencies).
Definition expired_run := executeAcrossActivation (hash := zero_digest) PlainError expired_deps 100 true (0%nat, []).

Lemma headlines_truthful_witness : AskedSignature ∈ (snd expired_run).2 ∧ (∀ wire, AskedSubmission wire ∉ (snd expired_run).2) ∧
  builds (snd expired_run).2 = 1%nat.
Proof.
  destruct (headlines_truthful (hash := zero_digest) PlainError expired_deps false (mkThrown None JUndefined "") 100 true (fst expired_run)
    (snd expired_run) B_BLOCKHASH_VALIDATION (surjective_pairing expired_run)) as (_ & _ & _ & _ & _ & _ & H & _).
  - vm_compute. reflexivity.
  - apply H. vm_compute. reflexivity.
Defined.
