(* ===== verification/LiveAdapter.v ===== *)
(** * live-adapter.ts: the session a second host drives

    The module's variables are the state; a call is its part before its first
    wait and a part per continuation, and the parts of calls that overlap may
    come in any order. A session is an object: what a continuation writes goes
    to whichever session the module then has. *)

From S2P Require Import Prelude Js Errors Kit Abi Snapshot CanonicalKey DemoChain WalletDemo Attestation Flow ActivationProof ReplayModel LocalFunding LocalOutcome LocalView TraderFlow.

Section Live.
  Context {Prepared Outcome : Type} (replayed : Outcome → ReplayOutcome).

Abbreviation live_proof := (ActivationProof (Prepared := Prepared) (Outcome := Outcome)).

(** One reproduction attempt. *)
Record Session := mkSession { se_wallet : string; se_localT : Z; se_stale : option live_proof }.

(** [lv_calls]: the calls of [startStaleAttempt] that wait for their run, each
    with what it holds in its own variables; the calls of
    [confirmUpdatedOrder], with the session each read. *)
Record live := mkLive {
  lv_session : option Session;
  lv_stage : BuyStage;
  lv_walletRequested : bool;
  lv_submitted : bool;
  lv_calls : list (string * Z);
  lv_confirming : list Session;
}.

Definition resetLiveSession (m : live) : live := mkLive None B_PHANTOM_CONNECT false false (lv_calls m) (lv_confirming m).

Definition initial_live : live := mkLive None B_PHANTOM_CONNECT false false [] [].

(** [track]: the callback of a run. *)
Definition track (value : BuyStage) (m : live) : live :=
  mkLive (lv_session m) value (lv_walletRequested m || bool_decide (value = B_SIGN_REQUEST)) (lv_submitted m || bool_decide (value = B_SUBMISSION))
    (lv_calls m) (lv_confirming m).

(** [connectLiveWallet]; [detected]: the provider is there. *)
Definition connectLiveWallet (detected : bool) (connected : result replay_exn string) : result replay_exn string :=
  throw_if (negb detected) (FeasibilityError PHANTOM_NOT_DETECTED "Phantom was not detected");;
  publicKey ← connected;
  replay_if (negb (String.eqb publicKey EXPECTED_PHANTOM)) "Connect the configured Phantom public key";;
  Ok publicKey.

Definition startStaleAttempt (m : live) : live := track B_PHANTOM_CONNECT (resetLiveSession m).

(** The wallet is connected, the data loaded and the activation armed. *)
Definition stale_armed (wallet : string) (localT : Z) (m : live) : live :=
  mkLive (Some (mkSession wallet localT None)) (lv_stage m) (lv_walletRequested m) (lv_submitted m) ((wallet, localT) :: lv_calls m) (lv_confirming m).

(** The run returned: [session.stale = proof], then the boundary. *)
Definition stale_returned (call : string * Z) (proof : live_proof) (m : live) : result replay_exn LiveStaleResult * live :=
  match lv_session m with
  | None => (Err RuntimeFailed, m)
  | Some session =>
      let m := mkLive (Some (mkSession (se_wallet session) (se_localT session) (Some proof))) (lv_stage m) (lv_walletRequested m) (lv_submitted m)
                 (lv_calls m) (lv_confirming m) in
      (verifyStaleResult replayed call.2 proof call.1, m)
  end.

Definition confirmUpdatedOrder (m : live) : result replay_exn live :=
  match lv_session m with
  | Some session =>
      match se_stale session with
      | Some _ => Ok (mkLive (lv_session m) (lv_stage m) false false (lv_calls m) (session :: lv_confirming m))
      | None => Err (ReplayError "No verified stale result to update from")
      end
  | None => Err (ReplayError "No verified stale result to update from")
  end.

Definition updated_returned (current : Session) (proof : live_proof) : result replay_exn LiveUpdatedResult :=
  verifyUpdatedResult replayed (se_localT current) proof (se_wallet current).

Record LiveFailure := mkLiveFailure {
  lx_headline : string;
  lx_stage : BuyStage;
  lx_cancelled : bool;
  lx_walletRequested : bool;
  lx_submitted : bool;
}.

Definition describeLiveFailure (confirm : bool) (error : Thrown) (m : live) : LiveFailure :=
  mkLiveFailure (traderHeadline confirm error (lv_stage m)) (lv_stage m) (isSignatureCancelled error) (lv_walletRequested m) (lv_submitted m).

(** [localT] of a run is that of the call that started it; a run that returned
    established [P] of its proof. *)
Inductive live_step (P : Z → live_proof → Prop) : live → live → Prop :=
| live_reset m : live_step P m (resetLiveSession m)
| live_start m : live_step P m (startStaleAttempt m)
| live_track m value : live_step P m (track value m)
| live_armed m wallet localT : live_step P m (stale_armed wallet localT m)
| live_returned m call proof : call ∈ lv_calls m → P call.2 proof → live_step P m (snd (stale_returned call proof m))
| live_confirm m m' : confirmUpdatedOrder m = Ok m' → live_step P m m'.

(** A session that offers an update holds a proof of some run of the module. *)
Lemma live_session_proven P m : rtc (live_step P) initial_live m → ∀ session proof, lv_session m = Some session → se_stale session = Some proof → ∃ localT, P localT proof.
Proof.
  intros H. remember initial_live as m0 eqn:H0. assert (∀ session proof, lv_session m0 = Some session → se_stale session = Some proof → ∃ localT, P localT proof) as Hok
    by (by rewrite H0). clear H0.
  induction H as [|m1 m2 m3 Hstep _ IH]; [done|]. apply IH. clear IH. destruct Hstep as [m|m|m value|m wallet localT|m call proof Hc HP|m m' Hc]; try done.
  - intros session proof [= <-]. done.
  - unfold stale_returned. destruct (lv_session m) as [s|] eqn:Hs; cbn; [|by rewrite Hs]. intros session proof' [= <-] [= <-]. by exists call.2.
  - unfold confirmUpdatedOrder in Hc. destruct (lv_session m) as [s|] eqn:Hs; [|done]. destruct (se_stale s) eqn:Hst; [|done]. injection Hc as <-. cbn.
    intros session proof' [= <-] Hp. by eapply Hok.
Qed.

(** What an update hands on, it proves of a trade executed for the session it
    read when it was clicked; it is offered only after a stale run returned. *)
Lemma updated_returned_proves current proof r : updated_returned current proof = Ok r →
  trade_executed (replayed (pf_outcome proof)) ∧ lu_walletPublicKey r = se_wallet current.
Proof.
  unfold updated_returned. intros H. apply bind_Ok in H as (text & Hm & H). rewrite replay_if_then_Ok in H. autorewrite with flags in H.
  destruct H as [((((((((((Hk & _) & _) & _) & _) & _) & _) & _) & _) & _) & _) [= <-]].
  apply reproductionMessage_Ok in Hm as (_ & _ & [(Hst & _)|(_ & Ho & _)]); [congruence|done].
Qed.
End Live.

(** The comment of [Session] says that a new attempt replaces it and nothing
    survives across attempts: when a second attempt is armed while the first
    still waits, the first one's proof becomes the stale result of the second
    one's session, whose activation it never crossed. *)
Lemma proof_survives_attempt {Prepared Outcome} (proof : ActivationProof (Prepared := Prepared) (Outcome := Outcome)) (replayed : Outcome → ReplayOutcome) :
  let m := stale_armed "wallet" 200 (startStaleAttempt (stale_armed "wallet" 100 (startStaleAttempt initial_live))) in
  let m' := snd (stale_returned replayed ("wallet", 100) proof m) in
  ("wallet", 100) ∈ lv_calls m ∧ lv_session m' = Some (mkSession "wallet" 200 (Some proof)) ∧
  is_Some (match confirmUpdatedOrder m' with Ok m => Some m | Err _ => None end).
Proof. cbn. split; [set_solver|]. by split. Qed.
